(* ===== verification/_CoqProject ===== *)
-Q . S2P
Prelude.v
GoStrings.v
GoNet.v
Regex.v
GoBase64.v
Secrets.v
Domain.v
Schema.v
Storage.v
StoreDns.v
StoreFleet.v
DnsValidate.v
DnsService.v
DnsServer.v
DnsTheorems.v
Cache.v
DiskCache.v
CacheTheorems.v
DiskTheorems.v
GoHttp.v
StoreCdn.v
CdnGuards.v
CdnProxy.v
CdnValidate.v
NodeSync.v
CdnService.v
CdnValidateProofs.v
CdnServiceTheorems.v
CdnProxyProofs.v
CdnProxyTheorems.v
CdnServeTheorems.v
CdnOriginTheorems.v
CdnEdgeTheorems.v
Overlay.v
StoreProvision.v
Provisioner.v
ProvisionFrame.v
ProvisionTheorems.v
EnrollTheorems.v
StoreAccess.v
StoreInventory.v
KeyRotation.v
Events.v
Fleet.v
RouteService.v
Networking.v
InventoryTheorems.v
RouteTheorems.v
NetTheorems.v
Token.v
Auth.v
Api.v
ApiCore.v
ApiHandlers.v
ApiFleet.v
ApiNet.v
ApiProvision.v
ApiRoutes.v
ApiFrame.v
ApiTheorems.v
ApiIsolation.v
ApiAudit.v
ApiFleetIsolation.v
ApiPages.v
Middleware.v
Notify.v
Leader.v
Forwarder.v
ForwarderTheorems.v
ForwarderPaths.v
Relay.v
Bgp.v
Plugin.v
Agent.v
AgentTheorems.v
Health.v
Controller.v
Status.v
Operator.v
OperatorApi.v
