(* ===== verification/Prelude.v ===== *)
(** * EdgeFabric: a verification development

    EdgeFabric is a controller that manages edge nodes, and the agents that run on
    the nodes.  The controller keeps its data in SQL tables, offers an HTTP API,
    provisions nodes over SSH and hands every node the configuration it should
    run; the agents poll that configuration and run an authoritative DNS server, a
    CDN reverse proxy, a BGP speaker and packet forwarders from it.  A Kubernetes
    operator drives the API from custom resources.  The files below follow that
    path, from the Go standard library the code uses to the composition of
    controller and edge.

    ** Conventions

    Definitions carry the names of the Go functions they translate; where two Go
    packages use one name, a prefix tells them apart ([sqlite_] for store methods,
    [fleet_], [net_], [svc_] for services, [nodeH_] and the like for handlers).
    Fallible code returns [result]; stateful code is in the monad [stM] of
    [Prelude], which threads a state and returns a [result].  Errors keep the
    wrapping structure that [errors.Is] sees and drop formatted arguments.
    Integers are [Z] with the bounds of their type written out where they can be
    exceeded; strings are byte strings.  Clocks, random draws and fresh identifiers
    are arguments, so that every definition can be evaluated.

    The store ([Storage]) is a record of tables, maps from identifiers to rows,
    together with the list of faults that are still to come: each SQL statement
    consumes one, and a statement that meets a fault fails without effect.  A state
    without faults is [calm].  Theorems that speak of all states therefore cover
    every statement that fails; theorems about what a request achieves assume [calm].
    The state also says whether its connection enforces foreign keys, which the code
    switches on for one connection of its pool; theorems about references assume it.

    ** Parts and files

    - Go standard library: [GoStrings] (strings), [GoNet] (addresses, prefixes,
      ParseIP, ParseCIDR), [Regex] (regular expressions by derivatives), [GoBase64],
      [GoHttp] (headers, queries, URL values).
    - internal/crypto, internal/secrets: [Secrets], with round trips under key rotation.
    - internal/domain: [Domain].  internal/storage and internal/storage/sqlite: [Storage],
      [StoreDns], [StoreFleet], [StoreCdn], [StoreProvision], [StoreInventory],
      [StoreAccess]; [Storage] also has the pagination cursors and the lemmas on sequences
      of statements that only read.
    - internal/dns: [DnsValidate], [DnsService]; internal/dnsserver: [DnsServer].
      [DnsTheorems]: the tables stay valid under every sequence of calls and faults, and
      CNAMEs exclusive in zones the check reads in full; the snapshot a node polls is
      exact; the running server answers as a reference resolver does; zone transfers are
      exact and guarded.
    - internal/cdnserver: [Cache] (heap of list cells), [DiskCache],
      [CdnGuards] (rate limiter, WAF, health checker), [CdnProxy].  Theorems in
      [CacheTheorems] (the cache refines a list ordered by recency), [DiskTheorems],
      [CdnProxyProofs], [CdnProxyTheorems], [CdnServeTheorems], [CdnOriginTheorems].
    - internal/cdn: [CdnValidate], [CdnService], [NodeSync] (what the sync functions have
      in common), [CdnValidateProofs], [CdnServiceTheorems]; [CdnEdgeTheorems] composes
      the controller's tables with the proxy of a node.
    - internal/provisioning: [Overlay] (address allocation), [Provisioner] (jobs, pipelines,
      enrollment, the SSH session as a parameter), [KeyRotation]; [ProvisionFrame] says
      what each action may change; theorems in [Overlay], [ProvisionTheorems],
      [EnrollTheorems] (a run records what its steps returned, in the job and, unless a
      statement fails, in the tables; tokens work once).
    - internal/events, internal/fleet, internal/route, internal/networking: [Events],
      [Fleet], [RouteService], [Networking]; theorems in [InventoryTheorems] (valid rows,
      and references that hold while foreign keys are enforced), [RouteTheorems],
      [NetTheorems] (both ends of a tunnel agree on keys; the mesh peers of a node).
    - internal/auth, internal/rbac, internal/user, internal/tenant, internal/audit: [Token],
      [Auth].
    - internal/api: [Api] (apiutil, middleware), [ApiHandlers], [ApiFleet], [ApiNet],
      [ApiProvision] (the handlers), [ApiRoutes] (routing and middleware chains of every
      endpoint, and a sample deployment).  [ApiCore] and [ApiFrame] say what each handler
      may change; [ApiTheorems] (who may change what), [ApiIsolation] and
      [ApiFleetIsolation] (tenants, and what the token of a node may do), [ApiAudit] (the
      changes that are audited: all but the heartbeats), [ApiPages] (pagination);
      [Middleware] has the rate limiter and CORS, and bounds the sign-in attempts of an
      address.
    - internal/ha: [Leader]: a cluster of controllers as a step relation over the advisory
      lock of the database; at most one leads, and one round of ticks elects one.
    - internal/routeserver, internal/gatewayrt: [Forwarder] (one service for the node and
      one for the gateway, from one definition with two sides; sockets are handles that
      live as long as their loops), [ForwarderTheorems], [ForwarderPaths] (no socket
      leaks, two polls suffice, a stored route is relayed from node to gateway to
      destination); [Relay] has the TCP and UDP loops behind a listener.
    - internal/bgp: [Bgp] (service over the GoBGP library, no-op service, monitor).
    - internal/plugin and the no-op services: [Plugin].  internal/app, internal/nodestate,
      internal/gatewaystate, internal/nodeclient, internal/gatewayclient: [Agent], with
      [AgentTheorems]: from an enrollment token to the zones the node serves, across
      restarts, and what happens when the token expires or a reply is lost.
    - internal/events, the handlers: [Notify] (webhooks with retries and signatures, Slack,
      mail as SMTP calls and as the text it sends).
    - internal/routeserver/health.go, internal/networking/health.go,
      internal/observability/health.go: [Health]: checkers report what both thresholds
      make of the results and publish each change once, in any interleaving; readiness of
      a node.
    - migrations of both drivers: [Schema]: the statements of the source, parsed and run on
      a catalog, by processes that interleave and may be killed; PostgreSQL upgrades can
      be resumed and raced, SQLite ones cannot be resumed, and both drivers end with the
      same schema.
    - internal/config, internal/app/controller.go, internal/app/seed.go: [Controller]:
      what configuration is accepted, which settings the environment changes, and that a
      controller comes up on an empty database and comes up again unchanged.
    - internal/api/v1/status.go, tenant_usage.go: [Status]: the overview counts exactly what
      its caller may see.
    - operator/: [Operator] (one reconciler over an API with a contract; objects mirror
      their counterparts whatever fails) and [OperatorApi] (the six kinds and the HTTP
      client against the API of this repository).

    ** Interfaces

    [DnsStore] and [GroupStore] are classes with laws: the DNS service is proved
    against them and the SQLite tables are an instance.  [UUID], [AuthLib], [AEAD] stand for
    the UUID library, bcrypt and TOTP, and AES-GCM, with their documented laws in
    [UUIDLaws], [AuthLibLaws], [AEADLaws]; HMAC-SHA256, the resolver, JSON decoding,
    net/mail, Curve25519 and Ed25519 are function arguments.

    ** Bounds and fuel

    Loops over lists are structural.  Where recursion is not, fuel is computed from
    the data and proved enough: the LRU eviction loop from the number of entries,
    the disk eviction loop from the index, the address scans from the size of the
    subnet, the pages of a listing from the number of nodes.  The limits of listings
    (10000 zones, 200 rows per page) are those of the code and appear as hypotheses
    where a snapshot would be cut off.

    ** Not modelled
    The tables of the PostgreSQL store, whose statements repeat those of SQLite with
    numbered parameters; the command line, metrics and logs; TLS certificates, HTTP
    listeners and shutdown; the SSH client and the WireGuard daemon (interfaces to
    other programs); the bytes that a relay copies and the raw ICMP packets; web
    assets; generated code and the main function of the operator. *)

From Stdlib Require Import ZArith Lia Ascii String.
From stdpp Require Export base tactics decidable numbers list gmap fin_maps
  fin_map_dom sets strings sorting.

Open Scope stdpp_scope.
Set Default Proof Using "Type".

(** ** Errors and results *)

(** Go error values as the services build them: the sentinels of
    internal/storage/errors.go, errors created by [errors.New]/[fmt.Errorf],
    and [fmt.Errorf] with a [%w] verb.  Formatted arguments are dropped from
    the message, the wrapping structure is kept. *)
Inductive goerr :=
| ErrNotFound
| ErrAlreadyExists
| ErrConflict
| Errorf (msg : string)
| Wrapf (msg : string) (inner : goerr).

#[export] Instance goerr_eq_dec : EqDecision goerr.
Proof. solve_decision. Defined.

(** [errors.Is]: the error or something it wraps is the target. *)
Fixpoint errors_Is (e target : goerr) : bool :=
  bool_decide (e = target) ||
  match e with
  | Wrapf _ inner => errors_Is inner target
  | _ => false
  end.

Inductive result (A : Type) :=
| Ok (a : A)
| Err (e : goerr).
Arguments Ok {A} a.
Arguments Err {A} e.

#[export] Instance result_eq_dec {A} `{EqDecision A} : EqDecision (result A).
Proof. solve_decision. Defined.

#[export] Instance result_ret : MRet result := fun A a => Ok a.
#[export] Instance result_bind : MBind result := fun A B f m =>
  match m with Ok a => f a | Err e => Err e end.

Definition is_Ok {A} (r : result A) : bool :=
  match r with Ok _ => true | Err _ => false end.

(** [if cond { return err }] as a guard. *)
Definition guard_err (ok : bool) (e : goerr) : result unit :=
  if ok then Ok tt else Err e.

(** [fmt.Errorf("msg: %w", err)] on the error path. *)
Definition wrap_err {A} (msg : string) (r : result A) : result A :=
  match r with Ok a => Ok a | Err e => Err (Wrapf msg e) end.

(** ** Machine integers *)

(** Go's [int] on 64-bit platforms. *)
Definition int64 (z : Z) : Z := ((z + 2 ^ 63) mod 2 ^ 64 - 2 ^ 63)%Z.

Lemma int64_id z : (- 2 ^ 63 <= z < 2 ^ 63)%Z -> int64 z = z.
Proof. intros Hz. unfold int64. rewrite Z.mod_small; lia. Qed.

(** ** State passing with errors *)

(** A handler that may fail after it has already changed the state: the state
    is returned on both paths, as in the code, where an error return does not
    undo the writes that came before it. *)
Definition stM (S A : Type) : Type := S -> result A * S.

#[export] Instance stM_ret {S} : MRet (stM S) := fun A a s => (Ok a, s).
#[export] Instance stM_bind {S} : MBind (stM S) := fun A B f m s =>
  match m s with
  | (Ok a, s1) => f a s1
  | (Err e, s1) => (Err e, s1)
  end.

Definition throw {S A} (e : goerr) : stM S A := fun s => (Err e, s).
Definition lift {S A} (r : result A) : stM S A := fun s => (r, s).
Definition gets {S A} (f : S -> A) : stM S A := fun s => (Ok (f s), s).
Definition wrap {S A} (msg : string) (m : stM S A) : stM S A := fun s =>
  match m s with
  | (Ok a, s1) => (Ok a, s1)
  | (Err e, s1) => (Err (Wrapf msg e), s1)
  end.
(** [x, err := f()] with the error inspected by the caller. *)
Definition try {S A} (m : stM S A) : stM S (result A) := fun s =>
  match m s with (r, s1) => (Ok r, s1) end.

Section monad_lemmas.
Context {S A B : Type}.
Implicit Types (m : stM S A) (f : A -> stM S B) (s : S).

Lemma bind_Ok m f s b s' :
  (m ≫= f) s = (Ok b, s') <-> exists a s1, m s = (Ok a, s1) /\ f a s1 = (Ok b, s').
Proof.
    unfold mbind, stM_bind. split.
    - destruct (m s) as [[a|e] s1]; [eauto|congruence].
    - by intros (a & s1 & -> & ?).
Qed.

Lemma bind_Err m f s e s' :
  (m ≫= f) s = (Err e, s') <->
  m s = (Err e, s') \/ exists a s1, m s = (Ok a, s1) /\ f a s1 = (Err e, s').
Proof.
    unfold mbind, stM_bind. split.
    - destruct (m s) as [[a|e'] s1]; intros; simplify_eq; eauto.
    - by intros [-> | (a & s1 & -> & ?)].
Qed.

Lemma wrap_Ok msg m s a s' : wrap msg m s = (Ok a, s') <-> m s = (Ok a, s').
Proof. unfold wrap. destruct (m s) as [[?|?] ?]; naive_solver. Qed.

Lemma wrap_Err msg m s e s' :
  wrap msg m s = (Err e, s') <-> exists e0, e = Wrapf msg e0 /\ m s = (Err e0, s').
Proof. unfold wrap. destruct (m s) as [[?|?] ?]; naive_solver. Qed.

Lemma lift_Ok (r : result A) s a s' : lift r s = (Ok a, s') <-> r = Ok a /\ s' = s.
Proof. unfold lift. naive_solver. Qed.

Lemma lift_Err (r : result A) s e s' : lift r s = (Err e, s') <-> r = Err e /\ s' = s.
Proof. unfold lift. naive_solver. Qed.

Lemma gets_Ok (f : S -> A) s a s' : gets f s = (Ok a, s') <-> a = f s /\ s' = s.
Proof. unfold gets. naive_solver. Qed.

Lemma throw_Ok e s (a : A) s' : throw e s = (Ok a, s') <-> False.
Proof. unfold throw. naive_solver. Qed.

Lemma ret_Ok (a b : A) s s' : mret (M:=stM S) a s = (Ok b, s') <-> a = b /\ s' = s.
Proof. unfold mret, stM_ret. naive_solver. Qed.

Lemma ret_Err (a : A) s e s' : mret (M:=stM S) a s = (Err e, s') <-> False.
Proof. unfold mret, stM_ret. naive_solver. Qed.

(** Outcome of a sequence, whichever way it ends. *)
Lemma bind_run m f s r s' :
  (m ≫= f) s = (r, s') ->
  (exists a s1, m s = (Ok a, s1) /\ f a s1 = (r, s')) \/
  (exists e, m s = (Err e, s') /\ r = Err e).
Proof.
  unfold mbind, stM_bind. destruct (m s) as [[a|e] s1]; intros; simplify_eq; eauto.
Qed.

Lemma wrap_run msg m s r s' :
  wrap msg m s = (r, s') ->
  (exists a, m s = (Ok a, s') /\ r = Ok a) \/
  (exists e, m s = (Err e, s') /\ r = Err (Wrapf msg e)).
Proof. unfold wrap. destruct (m s) as [[a|e] s1]; intros; simplify_eq; eauto. Qed.
End monad_lemmas.

Section result_lemmas.
Context {A B : Type}.
Implicit Types (m : result A) (f : A -> result B).

Lemma rbind_Ok m f b : (m ≫= f) = Ok b <-> exists a, m = Ok a /\ f a = Ok b.
Proof. unfold mbind, result_bind. destruct m; naive_solver. Qed.

Lemma rwrap_Ok msg m a : wrap_err msg m = Ok a <-> m = Ok a.
Proof. unfold wrap_err. destruct m; naive_solver. Qed.

Lemma guard_Ok b e u : guard_err b e = Ok u <-> b = true.
Proof. unfold guard_err. destruct b, u; naive_solver. Qed.
End result_lemmas.

Lemma guard_Ok_tt b e : guard_err b e = Ok tt <-> b = true.
Proof. apply guard_Ok. Qed.

(** Case analysis on the scrutinee of the first [match]/[if] in sight. *)
Ltac case_scrut :=
  match goal with
  | |- context [match ?x with _ => _ end] => destruct x eqn:?
  end.
Ltac case_scrut_in H :=
  match type of H with
  | context [match ?x with _ => _ end] => destruct x eqn:?
  end.

(** Decompose a hypothesis [prog s = (Ok v, s')] into the runs of its parts. *)
Ltac inv_ok H :=
  lazymatch type of H with
  | (_ ≫= _) _ = (Ok _, _) =>
      let a := fresh "a" in let s := fresh "s" in
      let H1 := fresh "Hrun" in let H2 := fresh "Hrun" in
      apply bind_Ok in H; destruct H as (a & s & H1 & H2);
      inv_ok H1; inv_ok H2
  | (_ ≫= _) = Ok _ =>
      let a := fresh "a" in
      let H1 := fresh "Hrun" in let H2 := fresh "Hrun" in
      apply rbind_Ok in H; destruct H as (a & H1 & H2);
      inv_ok H1; inv_ok H2
  | wrap _ _ _ = (Ok _, _) => apply wrap_Ok in H; inv_ok H
  | wrap_err _ _ = Ok _ => apply rwrap_Ok in H; inv_ok H
  | lift _ _ = (Ok _, _) =>
      let H1 := fresh "Hrun" in let H2 := fresh "Hst" in
      apply lift_Ok in H; destruct H as [H1 H2]; try subst; inv_ok H1
  | gets _ _ = (Ok _, _) =>
      let H1 := fresh "Hget" in let H2 := fresh "Hst" in
      apply gets_Ok in H; destruct H as [H1 H2]; try subst
  | mret _ _ = (Ok _, _) =>
      let H1 := fresh "Hret" in let H2 := fresh "Hst" in
      apply ret_Ok in H; destruct H as [H1 H2]; try subst
  | guard_err _ _ = Ok ?u => destruct u; apply guard_Ok in H
  | throw _ _ = (Ok _, _) => apply throw_Ok in H; destruct H
  | _ => idtac
  end.

(** Split a run [(m >>= f) s = (r, s')] into the run of the first action and of
    the rest; the first goal is the success of [m], the second its failure. *)
Ltac step_run H :=
  let a := fresh "a" in let s := fresh "s" in let e := fresh "e" in
  let H1 := fresh "Hm" in let He := fresh "He" in
  apply bind_run in H as [(a & s & H1 & H)|(e & H1 & He)];
  try (first
    [ apply wrap_run in H1 as [(? & H1 & ?)|(? & H1 & ?)] ]; simplify_eq);
  try (apply lift_Ok in H1 as [H1 ->]); try (apply lift_Err in H1 as [H1 ->]);
  try (match goal with E : ?r = Err _ |- _ => is_var r; subst r end).

Create HintDb ef.

(** ** Lists *)

Lemma Forall_snoc {A} (P : A -> Prop) l x : Forall P (l ++ [x]) <-> Forall P l /\ P x.
Proof. by rewrite Forall_app, Forall_singleton. Qed.

Lemma existsb_false {A} (f : A -> bool) l x : existsb f l = false -> x ∈ l -> f x = false.
Proof.
  intros Hf Hx. destruct (f x) eqn:Hfx; [|done]. rewrite <-Hf. symmetry.
  apply existsb_exists. exists x. by rewrite <-list_elem_of_In.
Qed.
