(* ===== verification/GoStrings.v ===== *)
(** * Go strings

    The part of Go's [strings] and [strconv] packages that the modelled code
    uses, on Rocq strings read as byte sequences: [ToLower], [HasPrefix],
    [HasSuffix], [TrimSuffix], [TrimPrefix], [Contains], [Split], [SplitN],
    [Join], [strconv.Itoa] and the decimal scanners.  [ToLower] is the ASCII
    part of Go's: bytes of 128 and above, where Go applies Unicode case
    mapping, are left as they are. *)

From Stdlib Require Import ZArith Lia Ascii String.
From S2P Require Import Prelude.

#[global] Arguments String.append : simpl nomatch.

Definition byte_of (c : ascii) : Z := Z.of_nat (nat_of_ascii c).

Definition in_range (lo hi : ascii) (c : ascii) : bool :=
  (byte_of lo <=? byte_of c)%Z && (byte_of c <=? byte_of hi)%Z.

Definition is_digit (c : ascii) : bool := in_range "0" "9" c.

Definition lower_ascii (c : ascii) : ascii :=
  if in_range "A" "Z" c then ascii_of_nat (nat_of_ascii c + 32) else c.

Fixpoint str_map (f : ascii -> ascii) (s : string) : string :=
  match s with
  | EmptyString => EmptyString
  | String c s => String (f c) (str_map f s)
  end.

(** [strings.ToLower] *)
Definition ToLower (s : string) : string := str_map lower_ascii s.

(** [strings.HasPrefix] *)
Fixpoint HasPrefix (s pre : string) {struct pre} : bool :=
  match pre, s with
  | EmptyString, _ => true
  | String c pre, String d s => bool_decide (c = d) && HasPrefix s pre
  | String _ _, EmptyString => false
  end.

(** [strings.HasSuffix] *)
Fixpoint HasSuffix (s suf : string) : bool :=
  bool_decide (s = suf) ||
  match s with
  | EmptyString => false
  | String _ s => HasSuffix s suf
  end.

(** [strings.Contains] *)
Fixpoint Contains (s sub : string) : bool :=
  HasPrefix s sub ||
  match s with
  | EmptyString => false
  | String _ s => Contains s sub
  end.

(** [strings.ContainsRune]/[IndexByte >= 0] for one byte *)
Fixpoint ContainsByte (s : string) (c : ascii) : bool :=
  match s with
  | EmptyString => false
  | String d s => bool_decide (c = d) || ContainsByte s c
  end.

(** [strings.TrimSuffix] *)
Fixpoint TrimSuffix (s suf : string) : string :=
  if bool_decide (s = suf) then EmptyString else
  match s with
  | EmptyString => EmptyString
  | String c s => String c (TrimSuffix s suf)
  end.

(** [s[n:]] for [n <= len(s)] *)
Fixpoint str_drop (n : nat) (s : string) : string :=
  match n, s with
  | S n, String _ s => str_drop n s
  | _, _ => s
  end.

Fixpoint str_take (n : nat) (s : string) : string :=
  match n, s with
  | S n, String c s => String c (str_take n s)
  | _, _ => EmptyString
  end.

(** [strings.TrimPrefix] *)
Definition TrimPrefix (s pre : string) : string :=
  if HasPrefix s pre then str_drop (String.length pre) s else s.

(** [strings.Split] for a separator of one byte: always at least one field. *)
Fixpoint Split (s : string) (sep : ascii) : list string :=
  match s with
  | EmptyString => [EmptyString]
  | String c s =>
      if bool_decide (c = sep) then EmptyString :: Split s sep
      else match Split s sep with
           | f :: fs => String c f :: fs
           | [] => [String c EmptyString]
           end
  end.

(** [strings.Join] *)
Fixpoint Join (l : list string) (sep : string) : string :=
  match l with
  | [] => EmptyString
  | [s] => s
  | s :: l => s +:+ sep +:+ Join l sep
  end.

(** [strings.SplitN] for [n > 0] and a separator of one byte *)
Fixpoint SplitN (s : string) (sep : ascii) (n : nat) : list string :=
  match n with
  | O => []
  | S O => [s]
  | S n' =>
      (fix go (s : string) : list string :=
         match s with
         | EmptyString => [EmptyString]
         | String c s' =>
             if bool_decide (c = sep) then EmptyString :: SplitN s' sep n'
             else match go s' with
                  | f :: fs => String c f :: fs
                  | [] => [String c EmptyString]
                  end
         end) s
  end.

(** ** Decimal numbers *)

Definition digit_val (c : ascii) : Z := byte_of c - 48.
Definition digit_char (d : Z) : ascii := ascii_of_nat (Z.to_nat (d + 48)).

(** Value of a string of digits, [None] on any other byte. *)
Fixpoint digits_val (acc : Z) (s : string) : option Z :=
  match s with
  | EmptyString => Some acc
  | String c s => if is_digit c then digits_val (acc * 10 + digit_val c) s else None
  end.

(** Decimal digits of a non-negative number, most significant first; the fuel
    bounds the number of digits. *)
Fixpoint dec_digits (fuel : nat) (n : Z) (acc : string) : string :=
  match fuel with
  | O => acc
  | S fuel =>
      if (n <? 10)%Z then String (digit_char n) acc
      else dec_digits fuel (n / 10) (String (digit_char (n mod 10)) acc)
  end.

(** [strconv.Itoa]; 20 digits are enough for any 64-bit integer. *)
Definition Itoa (n : Z) : string :=
  if (n <? 0)%Z then String "-" (dec_digits 20 (- n) EmptyString)
  else dec_digits 20 n EmptyString.

(** ** Lemmas *)

Lemma append_nil_r (s : string) : s +:+ "" = s.
Proof. induction s as [|c s IH]; [done|]. cbn. by f_equal. Qed.

Lemma append_assoc (s1 s2 s3 : string) : (s1 +:+ s2) +:+ s3 = s1 +:+ s2 +:+ s3.
Proof. induction s1 as [|c s IH]; [done|]. cbn. by f_equal. Qed.

Lemma append_cons c (s1 s2 : string) : String c s1 +:+ s2 = String c (s1 +:+ s2).
Proof. done. Qed.

Lemma length_append (s1 s2 : string) :
  String.length (s1 +:+ s2) = String.length s1 + String.length s2.
Proof. induction s1 as [|c s IH]; [done|]. cbn. by f_equal. Qed.

Lemma length_str_map f s : String.length (str_map f s) = String.length s.
Proof. induction s; cbn; congruence. Qed.

Lemma str_map_append f s1 s2 : str_map f (s1 +:+ s2) = str_map f s1 +:+ str_map f s2.
Proof. induction s1 as [|c s IH]; [done|]. cbn. by f_equal. Qed.

Lemma append_inj_l (p s1 s2 : string) : p +:+ s1 = p +:+ s2 -> s1 = s2.
Proof. induction p; cbn; naive_solver. Qed.

(** Two decompositions with suffixes of the same length are the same. *)
Lemma append_eq_length (p1 p2 s1 s2 : string) :
  String.length s1 = String.length s2 ->
  p1 +:+ s1 = p2 +:+ s2 -> p1 = p2 /\ s1 = s2.
Proof.
  revert p2. induction p1 as [|c p1 IH]; intros [|d p2] Hl Heq; cbn in *.
  - done.
  - subst s1. cbn in Hl. rewrite length_append in Hl. lia.
  - subst s2. cbn in Hl. rewrite length_append in Hl. lia.
  - simplify_eq. edestruct IH as [-> ->]; eauto.
Qed.

Lemma append_inj_r (p1 p2 s : string) : p1 +:+ s = p2 +:+ s -> p1 = p2.
Proof. intros H. by apply append_eq_length in H as [-> _]. Qed.

Lemma HasSuffix_spec s suf : HasSuffix s suf = true <-> exists p, s = p +:+ suf.
Proof.
  induction s as [|c s IH]; cbn [HasSuffix]; rewrite orb_true_iff, bool_decide_eq_true.
  - split; [intros [<-|?]; [by exists ""|done]|].
    intros [[|d p] H]; cbn in H; [by left|done].
  - rewrite IH. split.
    + intros [<-|[p ->]]; [by exists ""|]. by exists (String c p).
    + intros [[|d p] H]; cbn in H; [by left|]. right. simplify_eq. eauto.
Qed.

Lemma HasSuffix_append p suf : HasSuffix (p +:+ suf) suf = true.
Proof. apply HasSuffix_spec. eauto. Qed.

(** A suffix of a suffix is a suffix, when it is the shorter of the two. *)
Lemma HasSuffix_shorter s suf1 suf2 :
  HasSuffix s suf1 = true -> HasSuffix s suf2 = true ->
  String.length suf1 <= String.length suf2 -> HasSuffix suf2 suf1 = true.
Proof.
  rewrite !HasSuffix_spec. intros [p ->]. revert suf2.
  induction p as [|c p IH]; intros suf2 [q Hq] Hle.
  - cbn in Hq. assert (String.length suf1 = String.length q + String.length suf2)
      by (rewrite Hq; apply length_append).
    destruct q; [|cbn in *; lia]. exists "". cbn in *. done.
  - destruct q as [|d q]; cbn in Hq.
    + exists (String c p). done.
    + simplify_eq. apply IH; eauto.
Qed.

Lemma HasPrefix_spec s pre : HasPrefix s pre = true <-> exists q, s = pre +:+ q.
Proof.
  revert s. induction pre as [|c pre IH]; intros s; cbn [HasPrefix].
  - split; [by exists s|done].
  - destruct s as [|d s].
    + split; [done|]. intros [q Hq]. cbn in Hq. done.
    + rewrite andb_true_iff, bool_decide_eq_true, IH. split.
      * intros [-> [q ->]]. by exists q.
      * intros [q Hq]. cbn in Hq. simplify_eq. eauto.
Qed.

Lemma TrimSuffix_append p suf : TrimSuffix (p +:+ suf) suf = p.
Proof.
  induction p as [|c p IH]; cbn [append].
  - destruct suf; cbn; by rewrite bool_decide_true.
  - cbn [TrimSuffix]. rewrite bool_decide_false; [by rewrite IH|].
    intros H. apply (f_equal String.length) in H. cbn in H.
    rewrite length_append in H. lia.
Qed.

Lemma TrimSuffix_none s suf : HasSuffix s suf = false -> TrimSuffix s suf = s.
Proof.
  induction s as [|c s IH]; cbn [HasSuffix TrimSuffix];
    rewrite orb_false_iff; intros [Hn Hs]; rewrite Hn; [done|].
  by rewrite IH.
Qed.

Lemma TrimSuffix_length s suf :
  String.length (TrimSuffix s suf) <= String.length s.
Proof.
  induction s as [|c s IH]; cbn [TrimSuffix]; case_bool_decide; cbn; lia.
Qed.

Lemma byte_of_range c : (0 <= byte_of c < 256)%Z.
Proof. unfold byte_of. pose proof (nat_ascii_bounded c). lia. Qed.

Lemma byte_of_inj c d : byte_of c = byte_of d -> c = d.
Proof.
  unfold byte_of. intros H. apply Nat2Z.inj in H.
  rewrite <-(ascii_nat_embedding c), <-(ascii_nat_embedding d). by rewrite H.
Qed.

Lemma lower_ascii_idemp c : lower_ascii (lower_ascii c) = lower_ascii c.
Proof. by destruct c as [[] [] [] [] [] [] [] []]. Qed.

Lemma ToLower_idemp s : ToLower (ToLower s) = ToLower s.
Proof.
  unfold ToLower. induction s; cbn; [done|]. by rewrite lower_ascii_idemp, IHs.
Qed.

Lemma ToLower_append s1 s2 : ToLower (s1 +:+ s2) = ToLower s1 +:+ ToLower s2.
Proof. apply str_map_append. Qed.

Lemma length_ToLower s : String.length (ToLower s) = String.length s.
Proof. apply length_str_map. Qed.

Lemma lower_ascii_dot c : lower_ascii c = "."%char <-> c = "."%char.
Proof. destruct c as [[] [] [] [] [] [] [] []]; vm_compute; split; congruence. Qed.

Lemma ToLower_suffix_dot s : HasSuffix (ToLower s) "." = HasSuffix s ".".
Proof.
  unfold ToLower. induction s as [|c s IH]; [done|]. cbn [str_map HasSuffix].
  rewrite IH. f_equal. apply bool_decide_ext. split.
  - intros [= Hc Hs]. destruct s; [|done]. by apply lower_ascii_dot in Hc as ->.
  - intros [= -> ->]. done.
Qed.

Lemma ContainsByte_append s1 s2 c :
  ContainsByte (s1 +:+ s2) c = ContainsByte s1 c || ContainsByte s2 c.
Proof. induction s1; cbn; [done|]. by rewrite IHs1, orb_assoc. Qed.

Lemma Contains_byte s c : Contains s (String c "") = ContainsByte s c.
Proof.
  induction s as [|d s IH]; [done|]. cbn [Contains ContainsByte HasPrefix].
  rewrite IH. by destruct s; rewrite ?andb_true_r.
Qed.

Lemma Join_Split s sep : Join (Split s sep) (String sep "") = s.
Proof.
  induction s as [|c s IH]; [done|]. cbn [Split].
  assert (Hne : Split s sep <> []).
  { destruct s; cbn; repeat case_match; done. }
  case_bool_decide as Hc; subst.
  - destruct (Split s sep) as [|f fs] eqn:E; [done|].
    cbn [Join append]. by f_equal.
  - destruct (Split s sep) as [|f fs] eqn:E; [done|].
    destruct fs; cbn in *; by f_equal.
Qed.

Lemma Split_no_sep s sep : Forall (fun f => ContainsByte f sep = false) (Split s sep).
Proof.
  induction s as [|c s IH]; cbn; [by repeat constructor|].
  case_bool_decide as Hc; subst.
  - by constructor.
  - destruct (Split s sep); inversion IH; subst; repeat constructor; cbn;
      rewrite ?bool_decide_false by congruence; done.
Qed.

(** The first occurrence of a separator determines both sides. *)
Lemma cut_inj c (a b s t : string) :
  ContainsByte a c = false -> ContainsByte b c = false ->
  a +:+ String c s = b +:+ String c t -> a = b /\ s = t.
Proof.
  revert b. induction a as [|x a IH]; intros [|y b]; cbn; rewrite ?orb_false_iff, ?bool_decide_eq_false.
  - by intros _ _ [= ->].
  - intros _ [Hy _] [= Hc _]. congruence.
  - intros [Hx _] _ [= Hc _]. congruence.
  - intros [_ Ha] [_ Hb] [= -> H]. by destruct (IH b Ha Hb H) as [-> ->].
Qed.

Lemma Split_append_sep a sep s :
  ContainsByte a sep = false -> Split (a +:+ String sep s) sep = a :: Split s sep.
Proof.
  induction a as [|c a IH]; cbn; [by rewrite bool_decide_true|].
  rewrite orb_false_iff, bool_decide_eq_false. intros [Hc Ha].
  rewrite bool_decide_false by congruence. by rewrite IH.
Qed.

Lemma Split_sep_free a sep : ContainsByte a sep = false -> Split a sep = [a].
Proof.
  induction a as [|c a IH]; cbn; [done|]. rewrite orb_false_iff, bool_decide_eq_false.
  intros [Hc Ha]. rewrite bool_decide_false by congruence. by rewrite IH.
Qed.

Lemma Split_Join l sep :
  l <> [] -> Forall (fun f => ContainsByte f sep = false) l -> Split (Join l (String sep "")) sep = l.
Proof.
  intros Hne Hall. induction Hall as [|a l Ha Hl IH]; [done|].
  destruct l as [|b l]; [by apply Split_sep_free|].
  change (Join (a :: b :: l) (String sep "")) with (a +:+ String sep (Join (b :: l) (String sep ""))).
  by rewrite Split_append_sep, IH.
Qed.
