(* ===== verification/GoNet.v ===== *)
(** * Go's [net] package: addresses and prefixes

    [net.IP], [net.ParseIP], [net.ParseCIDR], [IP.To4], [IP.String],
    [IPNet.Contains] and [CIDRMask], as the services use them.  An address is
    the byte slice Go stores, 4 or 16 bytes long. *)

From Stdlib Require Import ZArith Lia Ascii String.
From S2P Require Import Prelude GoStrings.

Open Scope Z_scope.

Notation IP := (list Z).

Definition v4InV6Prefix : list Z := [0;0;0;0;0;0;0;0;0;0;255;255].

(** [IP.To4] *)
Definition To4 (ip : IP) : option IP :=
  if bool_decide (length ip = 4%nat) then Some ip
  else if bool_decide (length ip = 16%nat /\ take 12 ip = v4InV6Prefix)
  then Some (drop 12 ip) else None.

(** [IP.To16] *)
Definition To16 (ip : IP) : option IP :=
  if bool_decide (length ip = 4%nat) then Some (v4InV6Prefix ++ ip)
  else if bool_decide (length ip = 16%nat) then Some ip else None.

(** ** Parsing *)

(** The dotted quad scanner of [netip.parseIPv4Fields]. *)
Fixpoint parseIPv4Fields (s : string) (first prevdot : bool) (digLen val : Z)
    (fields : list Z) : option (list Z) :=
  match s with
  | EmptyString =>
      if bool_decide (length fields < 3)%nat then None else Some (fields ++ [val])
  | String c s' =>
      if is_digit c then
        if (digLen =? 1) && (val =? 0) then None
        else let val' := val * 10 + digit_val c in
             if 255 <? val' then None
             else parseIPv4Fields s' false false (digLen + 1) val' fields
      else if bool_decide (c = "."%char) then
        if first || bool_decide (s' = EmptyString) || prevdot then None
        else if bool_decide (length fields = 3%nat) then None
        else parseIPv4Fields s' false true 0 0 (fields ++ [val])
      else None
  end.

Definition parseIPv4 (s : string) : option (list Z) :=
  parseIPv4Fields s true false 0 0 [].

Definition hex_val (c : ascii) : option Z :=
  if in_range "0" "9" c then Some (byte_of c - 48)
  else if in_range "a" "f" c then Some (byte_of c - 87)
  else if in_range "A" "F" c then Some (byte_of c - 55)
  else None.

(** One hexadecimal group: number of digits, value and rest of the input. *)
Fixpoint hex_group (s : string) (off : nat) (acc : Z) : option (nat * Z * string) :=
  match s with
  | String c s' =>
      match hex_val c with
      | Some d => if bool_decide (3 < off)%nat then None
                  else hex_group s' (S off) (acc * 16 + d)
      | None => Some (off, acc, s)
      end
  | EmptyString => Some (off, acc, EmptyString)
  end.

(** The group loop of [netip.parseIPv6]; [i] of the source is [length ip] and
    grows by two per turn, so eight turns reach the loop's exit at 16. *)
Fixpoint v6_loop (fuel : nat) (s : string) (ip : list Z) (ell : option nat)
    : option (list Z * option nat * string) :=
  match fuel with
  | O => Some (ip, ell, s)
  | S fuel =>
      match hex_group s 0 0 with
      | None => None
      | Some (O, _, _) => None
      | Some (_, acc, rest) =>
          let ip' := ip ++ [acc / 256; acc mod 256] in
          match rest with
          | EmptyString => Some (ip', ell, EmptyString)
          | String c s1 =>
              if bool_decide (c = "."%char) then
                if bool_decide (ell = None /\ length ip <> 12%nat) then None
                else if bool_decide (16 < length ip + 4)%nat then None
                else match parseIPv4Fields s true false 0 0 [] with
                     | Some f => Some (ip ++ f, ell, EmptyString)
                     | None => None
                     end
              else if bool_decide (c <> ":"%char) then None
              else match s1 with
                   | EmptyString => None
                   | String d s2 =>
                       if bool_decide (d = ":"%char) then
                         match ell with
                         | Some _ => None
                         | None =>
                             if bool_decide (s2 = EmptyString)
                             then Some (ip', Some (length ip'), EmptyString)
                             else v6_loop fuel s2 ip' (Some (length ip'))
                         end
                       else v6_loop fuel s1 ip' ell
                   end
          end
      end
  end.

Definition v6_finish (r : list Z * option nat * string) : option (list Z) :=
  match r with
  | (ip, ell, rest) =>
      if negb (bool_decide (rest = EmptyString)) then None
      else if bool_decide (length ip < 16)%nat then
        match ell with
        | None => None
        | Some e => Some (take e ip ++ replicate (16 - length ip) 0 ++ drop e ip)
        end
      else match ell with Some _ => None | None => Some ip end
  end.

(** [netip.parseIPv6] without a zone. *)
Definition parseIPv6 (s : string) : option (list Z) :=
  if HasPrefix s "::" then
    let s' := str_drop 2 s in
    if bool_decide (s' = EmptyString) then Some (replicate 16 0)
    else v6_loop 8 s' [] (Some 0%nat) ≫= v6_finish
  else v6_loop 8 s [] None ≫= v6_finish.

Inductive Addr := Addr4 (b : list Z) | Addr6 (b : list Z).

(** [netip.ParseAddr]: the first dot or colon decides the family.  Addresses
    with a zone are rejected by every caller. *)
Fixpoint addr_family (s : string) : option bool :=
  match s with
  | EmptyString => None
  | String c s =>
      if bool_decide (c = "."%char) then Some false
      else if bool_decide (c = ":"%char) then Some true
      else if bool_decide (c = "%"%char) then None
      else addr_family s
  end.

Definition ParseAddr (s : string) : option Addr :=
  if ContainsByte s "%" then None else
  match addr_family s with
  | Some false => Addr4 <$> parseIPv4 s
  | Some true => Addr6 <$> parseIPv6 s
  | None => None
  end.

Definition As16 (a : Addr) : IP :=
  match a with Addr4 b => v4InV6Prefix ++ b | Addr6 b => b end.
Definition BitLen (a : Addr) : Z := match a with Addr4 _ => 32 | Addr6 _ => 128 end.

(** [net.ParseIP]; [None] is Go's nil. *)
Definition ParseIP (s : string) : option IP := As16 <$> ParseAddr s.

(** ** Prefixes *)

Record IPNet := mkIPNet { net_ip : IP; net_mask : list Z }.

(** One mask byte with [n] leading ones: [^byte(0xff >> n)]. *)
Definition mask_byte (n : Z) : Z :=
  if 8 <=? n then 255 else 255 - Z.shiftr 255 (Z.max 0 n).

(** [net.CIDRMask] *)
Fixpoint CIDRMask_bytes (n : Z) (bytes : nat) : list Z :=
  match bytes with
  | O => []
  | S k => mask_byte n :: CIDRMask_bytes (n - 8) k
  end.
Definition CIDRMask (ones bits : Z) : list Z := CIDRMask_bytes ones (Z.to_nat (bits / 8)).

Definition land_bytes (a b : list Z) : list Z := zip_with Z.land a b.

(** [IP.Mask] for the address forms [ParseCIDR] passes it. *)
Definition MaskIP (ip mask : IP) : option IP :=
  let ip' := if bool_decide (length mask = 4%nat /\ length ip = 16%nat /\
                             take 12 ip = v4InV6Prefix) then drop 12 ip else ip in
  if bool_decide (length ip' = length mask) then Some (land_bytes ip' mask) else None.

Fixpoint cut_slash (s : string) : option (string * string) :=
  match s with
  | EmptyString => None
  | String c s =>
      if bool_decide (c = "/"%char) then Some (EmptyString, s)
      else match cut_slash s with
           | Some (a, b) => Some (String c a, b)
           | None => None
           end
  end.

(** [net.ParseCIDR] *)
Definition ParseCIDR (s : string) : option (IP * IPNet) :=
  match cut_slash s with
  | None => None
  | Some (addr, mask) =>
      match ParseAddr addr with
      | None => None
      | Some a =>
          if bool_decide (mask = EmptyString) then None else
          match digits_val 0 mask with
          | None => None
          | Some n =>
              if BitLen a <? n then None else
              let m := CIDRMask n (BitLen a) in
              match MaskIP (As16 a) m with
              | Some ip => Some (As16 a, mkIPNet ip m)
              | None => None
              end
          end
      end
  end.

(** [net.networkNumberAndMask] *)
Definition networkNumberAndMask (n : IPNet) : option (IP * list Z) :=
  let ip := default (net_ip n) (To4 (net_ip n)) in
  let m := net_mask n in
  if bool_decide (length m = 4%nat) then
    if bool_decide (length ip = 4%nat) then Some (ip, m) else None
  else if bool_decide (length m = 16%nat) then
    if bool_decide (length ip = 4%nat) then Some (ip, drop 12 m)
    else if bool_decide (length ip = 16%nat) then Some (ip, m) else None
  else None.

(** [IPNet.Contains] *)
Definition IPNet_Contains (n : IPNet) (ip : IP) : bool :=
  match networkNumberAndMask n with
  | None => false
  | Some (nn, m) =>
      let ip := default ip (To4 ip) in
      bool_decide (length ip = length nn) &&
      bool_decide (land_bytes nn m = land_bytes ip m)
  end.

(** ** Host and port *)

(** Text before and after the last occurrence of a byte. *)
Fixpoint cut_last (s : string) (c : ascii) : option (string * string) :=
  match s with
  | EmptyString => None
  | String d s' =>
      match cut_last s' c with
      | Some (a, b) => Some (String d a, b)
      | None => if bool_decide (d = c) then Some (EmptyString, s') else None
      end
  end.

(** Text before and after the first occurrence of a byte. *)
Fixpoint cut_first (s : string) (c : ascii) : option (string * string) :=
  match s with
  | EmptyString => None
  | String d s' =>
      if bool_decide (d = c) then Some (EmptyString, s')
      else match cut_first s' c with
           | Some (a, b) => Some (String d a, b)
           | None => None
           end
  end.

(** [net.SplitHostPort]; [None] on any of its errors. *)
Definition SplitHostPort (hostport : string) : option (string * string) :=
  match cut_last hostport ":" with
  | None => None
  | Some (before, port) =>
      match hostport with
      | String "[" rest =>
          match cut_first rest "]" with
          | None => None
          | Some (host, after) =>
              (* the first bracket must be closed just before the last colon *)
              if negb (bool_decide (after = String ":" port)) then None
              else if ContainsByte rest "[" then None
              else if ContainsByte after "]" then None
              else Some (host, port)
          end
      | _ =>
          if ContainsByte before ":" then None
          else if ContainsByte hostport "[" then None
          else if ContainsByte hostport "]" then None
          else Some (before, port)
      end
  end.

(** ** Printing *)

Definition v4_string (b : list Z) : string := Join (Itoa <$> b) ".".

Definition hex_digit (d : Z) : ascii :=
  if d <? 10 then digit_char d else ascii_of_nat (Z.to_nat (d + 87)).

(** [appendHex]: a 16-bit group without leading zeros *)
Definition hex_string (x : Z) : string :=
  let d3 := x / 4096 in let d2 := x / 256 mod 16 in
  let d1 := x / 16 mod 16 in let d0 := x mod 16 in
  let tail0 := String (hex_digit d0) EmptyString in
  let tail1 := String (hex_digit d1) tail0 in
  let tail2 := String (hex_digit d2) tail1 in
  if 4096 <=? x then String (hex_digit d3) tail2
  else if 256 <=? x then tail2 else if 16 <=? x then tail1 else tail0.

Fixpoint groups16 (b : list Z) : list Z :=
  match b with
  | h :: l :: b => (h * 256 + l) :: groups16 b
  | _ => []
  end.

Fixpoint zero_run (g : list Z) : nat :=
  match g with x :: g => if x =? 0 then S (zero_run g) else O | [] => O end.

(** Longest run of at least two zero groups, the first one on ties: its start
    and end. *)
Fixpoint longest_zero (g : list Z) (i : nat) (best : option (nat * nat)) : option (nat * nat) :=
  match g with
  | [] => best
  | _ :: g' =>
      let l := zero_run g in
      let blen := match best with Some (a, b) => (b - a)%nat | None => O end in
      longest_zero g' (S i)
        (if bool_decide (2 <= l /\ blen < l)%nat then Some (i, (i + l)%nat) else best)
  end.

Definition v6_string (b : list Z) : string :=
  let g := groups16 b in
  match longest_zero g 0 None with
  | None => Join (hex_string <$> g) ":"
  | Some (a, e) => Join (hex_string <$> take a g) ":" +:+ "::" +:+ Join (hex_string <$> drop e g) ":"
  end.

(** [IP.String] for the lengths an address has. *)
Definition IPString (ip : IP) : string :=
  match To4 ip with
  | Some b => v4_string b
  | None => if bool_decide (length ip = 16%nat) then v6_string ip else "<nil>"
  end.

(** ** Lemmas *)

Definition is_byte (z : Z) : Prop := 0 <= z < 256.

Lemma is_digit_range c : is_digit c = true -> 0 <= digit_val c <= 9.
Proof.
  unfold is_digit, in_range, digit_val. change (byte_of "0") with 48.
  change (byte_of "9") with 57. lia.
Qed.

Lemma parseIPv4Fields_shape s : forall first prevdot digLen val fields r,
  parseIPv4Fields s first prevdot digLen val fields = Some r ->
  Forall is_byte fields -> is_byte val -> (length fields <= 3)%nat ->
  Forall is_byte r /\ length r = 4%nat.
Proof.
  induction s as [|c s IH]; intros first prevdot digLen val fields r H Hf Hv Hl; cbn in H.
  - case_bool_decide; simplify_eq. rewrite Forall_snoc, length_app. cbn. split; [done|lia].
  - destruct (is_digit c) eqn:Hc.
    + apply is_digit_range in Hc. repeat case_scrut_in H; try done.
      eapply IH in H; eauto. unfold is_byte in *. lia.
    + repeat case_scrut_in H; try done. eapply IH in H; eauto.
      * by apply Forall_snoc.
      * done.
      * rewrite length_app. cbn.
        match goal with E : bool_decide (length fields = _) = false |- _ =>
          apply bool_decide_eq_false in E end. lia.
Qed.

Lemma parseIPv4_shape s r : parseIPv4 s = Some r -> Forall is_byte r /\ length r = 4%nat.
Proof. intros H. eapply parseIPv4Fields_shape in H; eauto; done || cbn; lia. Qed.

Lemma parseIPv4Fields_no_slash s : forall first prevdot digLen val fields r,
  parseIPv4Fields s first prevdot digLen val fields = Some r -> ContainsByte s "/" = false.
Proof.
  induction s as [|c s IH]; intros first prevdot digLen val fields r H; [done|].
  cbn [ContainsByte]. rewrite orb_false_iff, bool_decide_eq_false. cbn in H.
  split.
  - intros <-. cbn in H. done.
  - repeat case_scrut_in H; try done; eauto.
Qed.

Lemma hex_group_rest s : forall off acc o a rest,
  hex_group s off acc = Some (o, a, rest) -> ContainsByte s "/" = ContainsByte rest "/".
Proof.
  induction s as [|c s IH]; intros off acc o a rest H; cbn in H; [by simplify_eq|].
  destruct (hex_val c) eqn:Hc; [|by simplify_eq].
  case_bool_decide; [done|]. apply IH in H. cbn [ContainsByte]. rewrite H.
  rewrite bool_decide_false; [done|]. by intros <-.
Qed.

Lemma v6_loop_rest fuel : forall s ip ell ip' ell' rest,
  v6_loop fuel s ip ell = Some (ip', ell', rest) ->
  ContainsByte s "/" = ContainsByte rest "/".
Proof.
  induction fuel as [|fuel IH]; intros s ip ell ip' ell' rest H; [cbn in H; by simplify_eq|].
  cbn [v6_loop] in H.
  destruct (hex_group s 0 0) as [[[o acc] r]|] eqn:Hg; [|done].
  destruct o as [|o]; [done|]. pose proof (hex_group_rest _ _ _ _ _ _ Hg) as Hs.
  destruct r as [|c s1]; [by simplify_eq|].
  case_bool_decide as Hdot.
  { do 2 (case_bool_decide; [done|]).
    destruct (parseIPv4Fields s _ _ _ _ _) eqn:H4; [|done]. simplify_eq.
    by apply parseIPv4Fields_no_slash in H4. }
  case_bool_decide as Hcol; [done|]; subst c.
  destruct s1 as [|d s2]; [done|].
  case_bool_decide as Hd; subst.
  - destruct ell; [done|]. case_bool_decide; simplify_eq; [done|].
    apply IH in H. rewrite Hs. done.
  - apply IH in H. rewrite Hs. done.
Qed.

Lemma parseIPv6_no_slash s r : parseIPv6 s = Some r -> ContainsByte s "/" = false.
Proof.
  assert (Hgo : forall s0 e, v6_loop 8 s0 [] e ≫= v6_finish = Some r ->
                ContainsByte s0 "/" = false).
  { intros s0 e (((ip & ell) & rest) & Hl & Hf)%bind_Some.
    apply v6_loop_rest in Hl. rewrite Hl. cbn [v6_finish] in Hf.
    case_bool_decide as Hr; [by rewrite Hr|done]. }
  unfold parseIPv6. intros H. destruct (HasPrefix s "::") eqn:Hp; [|eauto].
  apply HasPrefix_spec in Hp as [q ->]. change (str_drop 2 _) with q in H.
  change (ContainsByte q "/" = false). case_bool_decide; subst; eauto.
Qed.

(** An accepted address contains no slash; an accepted prefix contains one. *)
Lemma ParseIP_no_slash s ip : ParseIP s = Some ip -> ContainsByte s "/" = false.
Proof.
  unfold ParseIP, ParseAddr. rewrite fmap_Some. intros (a & H & _).
  repeat case_scrut_in H; try done; apply fmap_Some in H as (? & H & _).
  - by eapply parseIPv6_no_slash.
  - by eapply parseIPv4Fields_no_slash.
Qed.

Lemma cut_slash_contains s a b : cut_slash s = Some (a, b) -> ContainsByte s "/" = true.
Proof.
  revert a b. induction s as [|c s IH]; intros a b H; cbn in H; [done|].
  cbn [ContainsByte]. case_bool_decide as Hc; [by rewrite bool_decide_true|].
  destruct (cut_slash s) as [[a' b']|]; [|done]. erewrite IH by done. by rewrite orb_true_r.
Qed.

Lemma ParseCIDR_slash s r : ParseCIDR s = Some r -> ContainsByte s "/" = true.
Proof.
  unfold ParseCIDR. intros H. destruct (cut_slash s) as [[a b]|] eqn:Hc; [|done].
  by eapply cut_slash_contains.
Qed.

(** *** Printing and parsing of IPv4 addresses *)

(** Enumerates the byte values. *)
Ltac byte_cases b :=
  destruct b as [|b|b]; [|do 8 (try destruct b as [b|b|])|];
  try (exfalso; unfold is_byte in *; lia).

Lemma parse_octet b s first fields :
  is_byte b ->
  exists dl, 0 < dl /\ forall pd,
  parseIPv4Fields (Itoa b +:+ s) first pd 0 0 fields =
  parseIPv4Fields s false false dl b fields.
Proof.
  intros Hb. exists (Z.of_nat (String.length (Itoa b))).
  byte_cases b; (split; [vm_compute; reflexivity|]); intros pd; reflexivity.
Qed.

Lemma Itoa_byte_head b :
  is_byte b -> exists c s, Itoa b = String c s /\ is_digit c = true /\
  addr_family (Itoa b) = None /\ ContainsByte (Itoa b) "%" = false.
Proof. intros Hb. byte_cases b; by repeat eexists. Qed.

Lemma parse_octet_dot b s (dl : Z) fields :
  s <> EmptyString -> (length fields < 3)%nat ->
  parseIPv4Fields ("." +:+ s) false false dl b fields =
  parseIPv4Fields s false true 0 0 (fields ++ [b]).
Proof.
  intros Hs Hl. cbn [append parseIPv4Fields].
  replace (is_digit ".") with false by done. rewrite bool_decide_true by done.
  rewrite (bool_decide_false (s = _)) by done. rewrite bool_decide_false by lia. done.
Qed.

Lemma Itoa_app_nonempty b s : is_byte b -> Itoa b +:+ s <> EmptyString.
Proof. intros (c & t & -> & _)%Itoa_byte_head. done. Qed.

Lemma parseIPv4_string a b c d :
  is_byte a -> is_byte b -> is_byte c -> is_byte d ->
  parseIPv4 (v4_string [a; b; c; d]) = Some [a; b; c; d].
Proof.
  intros Ha Hb Hc Hd. unfold parseIPv4, v4_string. cbn [fmap list_fmap Join].
  assert (Hd' : Itoa d <> EmptyString) by (rewrite <-(append_nil_r (Itoa d)); by apply Itoa_app_nonempty).
  destruct (parse_octet a ("." +:+ Itoa b +:+ "." +:+ Itoa c +:+ "." +:+ Itoa d) true [] Ha)
    as (da & _ & ->).
  rewrite parse_octet_dot by (by apply Itoa_app_nonempty || (cbn; lia)). cbn [app].
  destruct (parse_octet b ("." +:+ Itoa c +:+ "." +:+ Itoa d) false [a] Hb) as (db & _ & ->).
  rewrite parse_octet_dot by (by apply Itoa_app_nonempty || (cbn; lia)). cbn [app].
  destruct (parse_octet c ("." +:+ Itoa d) false [a; b] Hc) as (dc & _ & ->).
  rewrite parse_octet_dot by (done || (cbn; lia)). cbn [app].
  rewrite <-(append_nil_r (Itoa d)).
  destruct (parse_octet d "" false [a; b; c] Hd) as (dd & _ & ->). done.
Qed.

Lemma addr_family_append s1 s2 :
  addr_family s1 = None -> ContainsByte s1 "%" = false ->
  addr_family (s1 +:+ s2) = addr_family s2.
Proof.
  induction s1 as [|c s1 IH]; intros H Hp; [done|]. cbn in *.
  apply orb_false_iff in Hp as [Hp1%bool_decide_eq_false Hp2].
  rewrite (bool_decide_false (c = "%"%char)) in * by congruence.
  repeat case_bool_decide; [done..|by apply IH].
Qed.

(** [net.ParseIP] reads back what [IP.String] printed for an IPv4 address. *)
Lemma ParseIP_IPString a b c d :
  is_byte a -> is_byte b -> is_byte c -> is_byte d ->
  ParseIP (IPString [a; b; c; d]) = Some (v4InV6Prefix ++ [a; b; c; d]).
Proof.
  intros Ha Hb Hc Hd. unfold IPString, To4. rewrite bool_decide_true by done.
  unfold ParseIP, ParseAddr.
  destruct (Itoa_byte_head a Ha) as (_ & _ & _ & _ & Hfa & Hpa).
  destruct (Itoa_byte_head b Hb) as (_ & _ & _ & _ & _ & Hpb).
  destruct (Itoa_byte_head c Hc) as (_ & _ & _ & _ & _ & Hpc).
  destruct (Itoa_byte_head d Hd) as (_ & _ & _ & _ & _ & Hpd).
  rewrite parseIPv4_string by done.
  unfold v4_string. cbn [fmap list_fmap Join].
  rewrite addr_family_append by done.
  rewrite !ContainsByte_append, Hpa, Hpb, Hpc, Hpd. cbn. done.
Qed.

Lemma IPString_v4_inj a b c d a' b' c' d' :
  is_byte a -> is_byte b -> is_byte c -> is_byte d ->
  is_byte a' -> is_byte b' -> is_byte c' -> is_byte d' ->
  IPString [a; b; c; d] = IPString [a'; b'; c'; d'] ->
  [a; b; c; d] = [a'; b'; c'; d'].
Proof.
  intros. assert (H8 := ParseIP_IPString a b c d).
  assert (H9 := ParseIP_IPString a' b' c' d').
  rewrite H7 in H8. rewrite H9 in H8 by done.
  assert (Some (v4InV6Prefix ++ [a'; b'; c'; d']) = Some (v4InV6Prefix ++ [a; b; c; d])) by auto.
  by simplify_eq.
Qed.

(** *** Shape of parsed addresses *)

Lemma hex_val_range c d : hex_val c = Some d -> 0 <= d < 16.
Proof.
  unfold hex_val, in_range. change (byte_of "0") with 48. change (byte_of "9") with 57.
  change (byte_of "a") with 97. change (byte_of "f") with 102.
  change (byte_of "A") with 65. change (byte_of "F") with 70.
  repeat case_match; intros; simplify_eq; lia.
Qed.

Lemma hex_group_range s : forall off acc o a rest,
  hex_group s off acc = Some (o, a, rest) -> (off <= 4)%nat -> 0 <= acc < 16 ^ Z.of_nat off ->
  0 <= a < 65536.
Proof.
  assert (Hend : forall off acc, (off <= 4)%nat -> 0 <= acc < 16 ^ Z.of_nat off -> 0 <= acc < 65536).
  { intros off acc Hoff Hacc. pose proof (Z.pow_le_mono_r 16 (Z.of_nat off) 4). lia. }
  induction s as [|c s IH]; intros off acc o a rest H Hoff Hacc; cbn in H.
  - simplify_eq. by eapply Hend.
  - destruct (hex_val c) as [d|] eqn:Hd; [|simplify_eq; by eapply Hend].
    case_bool_decide; [done|]. apply hex_val_range in Hd. eapply IH; [exact H|lia|].
    rewrite Nat2Z.inj_succ, Z.pow_succ_r by lia. lia.
Qed.

Lemma v6_loop_shape fuel : forall s ip ell ip' ell' rest,
  v6_loop fuel s ip ell = Some (ip', ell', rest) ->
  Forall is_byte ip -> (length ip + 2 * fuel = 16)%nat ->
  Forall is_byte ip' /\ (length ip' <= 16)%nat.
Proof.
  induction fuel as [|fuel IH]; intros s ip ell ip' ell' rest H Hip Hlen;
    [cbn in H; simplify_eq; split; [done|lia]|].
  cbn [v6_loop] in H. destruct (hex_group s 0 0) as [[[o acc] r]|] eqn:Hg; [|done].
  destruct o as [|o]; [done|].
  assert (Hacc : 0 <= acc < 65536) by (eapply hex_group_range; [exact Hg|lia|cbn; lia]).
  assert (Hip' : Forall is_byte (ip ++ [acc / 256; acc mod 256])).
  { apply Forall_app. split; [done|]. repeat constructor; Z.div_mod_to_equations; lia. }
  assert (Hlen' : length (ip ++ [acc / 256; acc mod 256]) = (length ip + 2)%nat).
  { by rewrite length_app. }
  destruct r as [|c s1]; [simplify_eq; split; [done|lia]|].
  case_bool_decide.
  - case_bool_decide; [done|]. case_bool_decide; [done|].
    destruct (parseIPv4Fields s true false 0 0 []) as [f|] eqn:Hf; [|done]. simplify_eq.
    apply parseIPv4_shape in Hf as [Hf Hl]. rewrite length_app. split; [by apply Forall_app|lia].
  - case_bool_decide; [done|]. destruct s1 as [|d s2]; [done|]. case_bool_decide.
    + destruct ell; [done|]. case_bool_decide; [simplify_eq; split; [done|lia]|].
      eapply IH; [exact H|done|lia].
    + eapply IH; [exact H|done|lia].
Qed.

Lemma parseIPv6_shape s r : parseIPv6 s = Some r -> Forall is_byte r /\ length r = 16%nat.
Proof.
  assert (Hgo : forall s0 e, v6_loop 8 s0 [] e ≫= v6_finish = Some r ->
                Forall is_byte r /\ length r = 16%nat).
  { intros s0 e (((ip & ell) & rest) & Hl & Hf)%bind_Some.
    apply v6_loop_shape in Hl as [Hb Hl]; [|constructor|done]. cbn [v6_finish] in Hf.
    case_bool_decide; [|done]. cbn in Hf. case_bool_decide.
    - destruct ell as [k|]; [|done]. simplify_eq. split.
      + rewrite !Forall_app. split_and!; [by apply Forall_take|by apply Forall_replicate|by apply Forall_drop].
      + rewrite !length_app, length_replicate, length_take, length_drop. lia.
    - destruct ell; [done|]. simplify_eq. split; [done|lia]. }
  unfold parseIPv6. case_match; [|apply Hgo]. case_bool_decide; [|apply Hgo].
  intros [= <-]. split; [|done]. repeat constructor; lia.
Qed.

Lemma As16_shape s a : ParseAddr s = Some a -> Forall is_byte (As16 a) /\ length (As16 a) = 16%nat.
Proof.
  unfold ParseAddr. intros H. repeat case_scrut_in H; try done;
    apply fmap_Some in H as (bs & Hb & ->); cbn [As16].
  - by apply parseIPv6_shape in Hb.
  - apply parseIPv4_shape in Hb as [Hb Hl]. rewrite length_app, Hl. split; [|done].
    apply Forall_app. split; [|done]. repeat constructor; lia.
Qed.

Lemma ParseIP_shape s ip : ParseIP s = Some ip -> Forall is_byte ip /\ length ip = 16%nat.
Proof. unfold ParseIP. intros (a & Ha & ->)%fmap_Some. by eapply As16_shape. Qed.

Lemma digits_val_nonneg s : forall acc n, 0 <= acc -> digits_val acc s = Some n -> 0 <= n.
Proof.
  induction s as [|c s IH]; intros acc n Ha H; cbn in H; [by simplify_eq|].
  destruct (is_digit c) eqn:Hc; [|done]. apply is_digit_range in Hc. eapply IH; [|exact H]. lia.
Qed.

(** What [ParseCIDR] returns: the address, and the network number under a mask of
    leading ones in the width of the address. *)
Lemma ParseCIDR_shape s ip n :
  ParseCIDR s = Some (ip, n) ->
  exists a ones, ip = As16 a /\ (Forall is_byte (As16 a) /\ length (As16 a) = 16%nat) /\
    0 <= ones <= BitLen a /\ net_mask n = CIDRMask ones (BitLen a) /\
    Some (net_ip n) = MaskIP (As16 a) (net_mask n) /\
    match a with Addr4 b => Forall is_byte b /\ length b = 4%nat | Addr6 _ => True end.
Proof.
  unfold ParseCIDR. intros H. destruct (cut_slash s) as [[addr mask]|]; [|done].
  destruct (ParseAddr addr) as [a|] eqn:Ha; [|done]. case_bool_decide; [done|].
  destruct (digits_val 0 mask) as [ones|] eqn:Ho; [|done].
  apply digits_val_nonneg in Ho; [|done].
  destruct (Z.ltb_spec (BitLen a) ones); [done|].
  destruct (MaskIP (As16 a) (CIDRMask ones (BitLen a))) as [nip|] eqn:Hm; [|done].
  simplify_eq. exists a, ones. split_and!; try done; [by eapply As16_shape..|].
  destruct a as [b|b]; [|done]. unfold ParseAddr in Ha.
  repeat case_scrut_in Ha; try done; apply fmap_Some in Ha as (b' & Hb & Heq); simplify_eq.
  by apply parseIPv4_shape in Hb.
Qed.
