(* ===== verification/Regex.v ===== *)
(** * Regular expressions

    The fragment of Go's [regexp] that the validators use: character classes,
    concatenation, alternation, repetition.  [re_match] decides a whole-string
    match by derivatives and is proved equal to the declarative [matches];
    [re_search] is the unanchored [MatchString]. *)

From Stdlib Require Import Ascii String Lia.
From S2P Require Import Prelude GoStrings.

Inductive regex :=
| REmpty
| REps
| RChr (p : ascii -> bool)
| RSeq (r1 r2 : regex)
| RAlt (r1 r2 : regex)
| RStar (r : regex).

Inductive matches : regex -> string -> Prop :=
| m_eps : matches REps ""
| m_chr p c : p c = true -> matches (RChr p) (String c "")
| m_seq r1 r2 s1 s2 : matches r1 s1 -> matches r2 s2 -> matches (RSeq r1 r2) (s1 +:+ s2)
| m_alt_l r1 r2 s : matches r1 s -> matches (RAlt r1 r2) s
| m_alt_r r1 r2 s : matches r2 s -> matches (RAlt r1 r2) s
| m_star_nil r : matches (RStar r) ""
| m_star_app r s1 s2 : matches r s1 -> matches (RStar r) s2 -> matches (RStar r) (s1 +:+ s2).

(** Derived forms: [r?], [r{0,n}], [r+], a literal, case-insensitive literals. *)
Definition ROpt (r : regex) : regex := RAlt REps r.
Fixpoint RUpTo (n : nat) (r : regex) : regex :=
  match n with O => REps | S n => ROpt (RSeq r (RUpTo n r)) end.
Definition RPlus (r : regex) : regex := RSeq r (RStar r).
Definition RByte (c : ascii) : regex := RChr (fun d => bool_decide (c = d)).
Definition RByteFold (c : ascii) : regex :=
  RChr (fun d => bool_decide (lower_ascii c = lower_ascii d)).
Fixpoint RLit (s : string) : regex :=
  match s with "" => REps | String c s => RSeq (RByte c) (RLit s) end.
Fixpoint RLitFold (s : string) : regex :=
  match s with "" => REps | String c s => RSeq (RByteFold c) (RLitFold s) end.
Definition RAny : regex := RChr (fun _ => true).
Fixpoint RAlts (l : list regex) : regex :=
  match l with [] => REmpty | [r] => r | r :: l => RAlt r (RAlts l) end.
Fixpoint RSeqs (l : list regex) : regex :=
  match l with [] => REps | [r] => r | r :: l => RSeq r (RSeqs l) end.

(** Simplifying constructors keep the derivatives small. *)
Definition mkSeq (r1 r2 : regex) : regex :=
  match r1, r2 with
  | REmpty, _ => REmpty
  | _, REmpty => REmpty
  | REps, r => r
  | _, _ => RSeq r1 r2
  end.
Definition mkAlt (r1 r2 : regex) : regex :=
  match r1, r2 with
  | REmpty, r => r
  | r, REmpty => r
  | _, _ => RAlt r1 r2
  end.

Fixpoint nullable (r : regex) : bool :=
  match r with
  | REmpty | RChr _ => false
  | REps | RStar _ => true
  | RSeq r1 r2 => nullable r1 && nullable r2
  | RAlt r1 r2 => nullable r1 || nullable r2
  end.

Fixpoint deriv (c : ascii) (r : regex) : regex :=
  match r with
  | REmpty | REps => REmpty
  | RChr p => if p c then REps else REmpty
  | RSeq r1 r2 =>
      if nullable r1 then mkAlt (mkSeq (deriv c r1) r2) (deriv c r2)
      else mkSeq (deriv c r1) r2
  | RAlt r1 r2 => mkAlt (deriv c r1) (deriv c r2)
  | RStar r => mkSeq (deriv c r) (RStar r)
  end.

Fixpoint re_match (r : regex) (s : string) : bool :=
  match s with
  | "" => nullable r
  | String c s => re_match (deriv c r) s
  end.

(** [Regexp.MatchString] on an expression without anchors. *)
Definition re_search (r : regex) (s : string) : bool :=
  re_match (RSeq (RStar RAny) (RSeq r (RStar RAny))) s.

(** ** Inversion of the declarative semantics *)

Lemma matches_empty s : matches REmpty s <-> False.
Proof. split; [inversion 1|done]. Qed.

Lemma matches_eps s : matches REps s <-> s = "".
Proof. split; [by inversion 1|intros ->; constructor]. Qed.

Lemma matches_chr p s : matches (RChr p) s <-> exists c, s = String c "" /\ p c = true.
Proof. split; [inversion 1; eauto|intros (c & -> & ?); by constructor]. Qed.

Lemma matches_seq r1 r2 s :
  matches (RSeq r1 r2) s <-> exists s1 s2, s = s1 +:+ s2 /\ matches r1 s1 /\ matches r2 s2.
Proof.
  split; [inversion 1; subst; eauto 6|]. intros (s1 & s2 & -> & ? & ?). by constructor.
Qed.

Lemma matches_alt r1 r2 s : matches (RAlt r1 r2) s <-> matches r1 s \/ matches r2 s.
Proof.
  split; [inversion 1; auto|intros [?|?]; [by apply m_alt_l|by apply m_alt_r]].
Qed.

Lemma matches_opt r s : matches (ROpt r) s <-> s = "" \/ matches r s.
Proof. unfold ROpt. by rewrite matches_alt, matches_eps. Qed.

Lemma matches_seq_eps r s : matches (RSeq REps r) s <-> matches r s.
Proof.
  rewrite matches_seq. split.
  - by intros (? & ? & -> & ->%matches_eps & ?).
  - intros ?. exists "", s. rewrite matches_eps. done.
Qed.

Lemma matches_seq_empty_l r s : matches (RSeq REmpty r) s <-> False.
Proof. rewrite matches_seq. split; [|done]. by intros (? & ? & _ & []%matches_empty & _). Qed.

Lemma matches_seq_empty_r r s : matches (RSeq r REmpty) s <-> False.
Proof. rewrite matches_seq. split; [|done]. by intros (? & ? & _ & _ & []%matches_empty). Qed.

Lemma matches_mkSeq r1 r2 s : matches (mkSeq r1 r2) s <-> matches (RSeq r1 r2) s.
Proof.
  unfold mkSeq. destruct r1, r2;
    by rewrite ?matches_seq_empty_l, ?matches_seq_empty_r, ?matches_seq_eps, ?matches_empty.
Qed.

Lemma matches_mkAlt r1 r2 s : matches (mkAlt r1 r2) s <-> matches (RAlt r1 r2) s.
Proof.
  unfold mkAlt. destruct r1, r2; try done; rewrite !matches_alt, ?matches_empty; tauto.
Qed.

Lemma matches_star_cons r c s :
  matches (RStar r) (String c s) ->
  exists s1 s2, s = s1 +:+ s2 /\ matches r (String c s1) /\ matches (RStar r) s2.
Proof.
  intros H. remember (RStar r) as r' eqn:Hr. remember (String c s) as s' eqn:Hs.
  revert c s Hs. induction H as [| | | | | |r0 s1 s2 Hm _ Hst IH]; intros; simplify_eq.
  destruct s1 as [|d s1]; cbn in Hs.
  - by apply IH.
  - simplify_eq. eauto.
Qed.

(** ** Correctness of the matcher *)

Lemma nullable_matches r : nullable r = true <-> matches r "".
Proof.
  induction r; cbn; rewrite ?andb_true_iff, ?orb_true_iff, ?IHr1, ?IHr2.
  - by rewrite matches_empty.
  - by rewrite matches_eps.
  - rewrite matches_chr. split; [done|by intros (? & ? & _)].
  - rewrite matches_seq. split.
    + intros [H1 H2]. by exists "", "".
    + intros (s1 & s2 & He & H1 & H2). by destruct s1, s2.
  - by rewrite matches_alt.
  - split; [constructor|done].
Qed.

Lemma deriv_matches r c s : matches (deriv c r) s <-> matches r (String c s).
Proof.
  revert s. induction r as [| |p|r1 IH1 r2 IH2|r1 IH1 r2 IH2|r IH]; intros s; cbn [deriv].
  - by rewrite !matches_empty.
  - rewrite matches_empty, matches_eps. done.
  - rewrite matches_chr. destruct (p c) eqn:Hp.
    + rewrite matches_eps. split; [intros ->; eauto|]. intros (d & ? & ?). by simplify_eq.
    + rewrite matches_empty. split; [done|]. intros (d & ? & ?). simplify_eq. congruence.
  - assert (Hstep : matches (RSeq (deriv c r1) r2) s <->
      exists s1 s2, s = s1 +:+ s2 /\ matches r1 (String c s1) /\ matches r2 s2).
    { rewrite matches_seq. by setoid_rewrite IH1. }
    assert (Hinv : matches (RSeq r1 r2) (String c s) <->
      (matches r1 "" /\ matches r2 (String c s)) \/
      exists s1 s2, s = s1 +:+ s2 /\ matches r1 (String c s1) /\ matches r2 s2).
    { rewrite matches_seq. split.
      - intros ([|d s1] & s2 & He & H1 & H2); cbn in He; [subst; by left|].
        simplify_eq. right. eauto.
      - intros [[H1 H2]|(s1 & s2 & -> & H1 & H2)]; [by exists "", (String c s)|].
        by exists (String c s1), s2. }
    rewrite Hinv, <-nullable_matches. destruct (nullable r1) eqn:Hn.
    + rewrite matches_mkAlt, matches_alt, matches_mkSeq, Hstep, IH2. tauto.
    + rewrite matches_mkSeq, Hstep. naive_solver.
  - by rewrite matches_mkAlt, !matches_alt, IH1, IH2.
  - rewrite matches_mkSeq, matches_seq. split.
    + intros (s1 & s2 & -> & H1 & H2). apply IH in H1.
      change (String c (s1 +:+ s2)) with (String c s1 +:+ s2). by constructor.
    + intros (s1 & s2 & -> & H1 & H2)%matches_star_cons.
      exists s1, s2. by rewrite IH.
Qed.

Lemma re_match_spec r s : re_match r s = true <-> matches r s.
Proof.
  revert r. induction s as [|c s IH]; intros r; cbn; [apply nullable_matches|].
  by rewrite IH, deriv_matches.
Qed.

Lemma matches_any_star s : matches (RStar RAny) s.
Proof.
  induction s as [|c s IH]; [constructor|].
  change (String c s) with (String c "" +:+ s). by constructor; [constructor|].
Qed.

(** The unanchored search finds a match of the expression in some substring. *)
Lemma re_search_spec r s :
  re_search r s = true <-> exists a b d, s = a +:+ b +:+ d /\ matches r b.
Proof.
  unfold re_search. rewrite re_match_spec, matches_seq. setoid_rewrite matches_seq. split.
  - intros (a & ? & -> & _ & b & d & -> & ? & _). eauto.
  - intros (a & b & d & -> & ?). exists a, (b +:+ d). split; [done|].
    split; [apply matches_any_star|]. exists b, d. eauto using matches_any_star.
Qed.

Lemma matches_upto n (p : ascii -> bool) s :
  matches (RUpTo n (RChr p)) s <->
  String.length s <= n /\ Forall (fun c => p c = true) (list_ascii_of_string s).
Proof.
  revert s. induction n as [|n IH]; intros s; cbn [RUpTo].
  - rewrite matches_eps. split; [by intros ->|]. destruct s; cbn; [done|lia].
  - rewrite matches_opt, matches_seq. split.
    + intros [->|(s1 & s2 & -> & (c & -> & Hc)%matches_chr & Hl)]; [cbn; split; [lia|done]|].
      apply IH in Hl as [Hl Hf]. cbn. split; [lia|by constructor].
    + destruct s as [|c s]; [by left|]. cbn. intros [Hl Hf]. inversion Hf; subst. right.
      exists (String c ""), s. split; [done|]. rewrite matches_chr, IH. eauto with lia.
Qed.
