(* ===== verification/GoBase64.v ===== *)
(** * encoding/base64

    [StdEncoding] and [RawURLEncoding] on byte strings.  The decoder skips
    carriage returns and line feeds, demands padding, and accepts any trailing
    bits in the last quantum, as the standard library's non-strict decoder. *)

From Stdlib Require Import ZArith Lia Ascii String.
From S2P Require Import Prelude GoStrings.

Open Scope Z_scope.

Definition chr (v : Z) : ascii := ascii_of_nat (Z.to_nat v).

(** The alphabets differ in the last two characters. *)
Definition enc_digit (c62 c63 : ascii) (v : Z) : ascii :=
  if v <? 26 then chr (65 + v) else if v <? 52 then chr (71 + v)
  else if v <? 62 then chr (v - 4) else if v =? 62 then c62 else c63.
Definition std_digit : Z -> ascii := enc_digit "+" "/".
Definition url_digit : Z -> ascii := enc_digit "-" "_".

Definition dec_digit (c : ascii) : option Z :=
  if in_range "A" "Z" c then Some (byte_of c - 65)
  else if in_range "a" "z" c then Some (byte_of c - 71)
  else if in_range "0" "9" c then Some (byte_of c + 4)
  else if bool_decide (c = "+"%char) then Some 62
  else if bool_decide (c = "/"%char) then Some 63
  else None.

Section encode.
Context (digit : Z -> ascii) (pad : string).

Fixpoint encode_with (s : string) : string :=
  match s with
  | EmptyString => EmptyString
  | String a EmptyString =>
      let v := byte_of a * 16 in
      String (digit (v / 64)) (String (digit (v mod 64)) (pad +:+ pad))
  | String a (String b EmptyString) =>
      let v := (byte_of a * 256 + byte_of b) * 4 in
      String (digit (v / 4096)) (String (digit (v / 64 mod 64)) (String (digit (v mod 64)) pad))
  | String a (String b (String c s)) =>
      let v := (byte_of a * 256 + byte_of b) * 256 + byte_of c in
      String (digit (v / 262144)) (String (digit (v / 4096 mod 64))
        (String (digit (v / 64 mod 64)) (String (digit (v mod 64)) (encode_with s))))
  end.
End encode.

Definition Std_EncodeToString : string -> string := encode_with std_digit "=".
Definition RawURL_EncodeToString : string -> string := encode_with url_digit "".

Fixpoint strip_newlines (s : string) : string :=
  match s with
  | EmptyString => EmptyString
  | String c s =>
      if (byte_of c =? 10) || (byte_of c =? 13) then strip_newlines s else String c (strip_newlines s)
  end.

Fixpoint decode_quanta (s : string) : option string :=
  match s with
  | EmptyString => Some EmptyString
  | String c0 (String c1 (String c2 (String c3 rest))) =>
      v0 ← dec_digit c0; v1 ← dec_digit c1;
      let b0 := chr (v0 * 4 + v1 / 16) in
      match dec_digit c2 with
      | Some v2 =>
          let b1 := chr (v1 mod 16 * 16 + v2 / 4) in
          match dec_digit c3 with
          | Some v3 => r ← decode_quanta rest; Some (String b0 (String b1 (String (chr (v2 mod 4 * 64 + v3)) r)))
          | None =>
              if bool_decide (c3 = "="%char) && bool_decide (rest = EmptyString)
              then Some (String b0 (String b1 EmptyString)) else None
          end
      | None =>
          if bool_decide (c2 = "="%char) && bool_decide (c3 = "="%char) && bool_decide (rest = EmptyString)
          then Some (String b0 EmptyString) else None
      end
  | _ => None
  end.

Definition Std_DecodeString (s : string) : option string := decode_quanta (strip_newlines s).

(** ** Decoding inverts encoding *)

Lemma chr_byte a : chr (byte_of a) = a.
Proof. unfold chr, byte_of. by rewrite Nat2Z.id, ascii_nat_embedding. Qed.

Lemma chr_eq v a : v = byte_of a -> chr v = a.
Proof. intros ->. apply chr_byte. Qed.

Definition digit_ok (v : Z) : bool :=
  bool_decide (dec_digit (std_digit v) = Some v) &&
  negb ((byte_of (std_digit v) =? 10) || (byte_of (std_digit v) =? 13)).

Lemma digit_ok_all v : 0 <= v < 64 -> digit_ok v = true.
Proof.
  intros Hv. assert (H : forallb digit_ok (seqZ 0 64) = true) by (vm_compute; reflexivity).
  rewrite forallb_forall in H. apply H, list_elem_of_In, elem_of_seqZ. lia.
Qed.

Lemma dec_std v : 0 <= v < 64 -> dec_digit (std_digit v) = Some v.
Proof. intros Hv%digit_ok_all. apply andb_true_iff in Hv as [H _]. by apply bool_decide_eq_true in H. Qed.

Lemma strip_digit v s : 0 <= v < 64 -> strip_newlines (String (std_digit v) s) = String (std_digit v) (strip_newlines s).
Proof.
  intros Hv%digit_ok_all. apply andb_true_iff in Hv as [_ H]. cbn. by apply negb_true_iff in H as ->.
Qed.

(** Induction in steps of three bytes. *)
Lemma string_ind3 (P : string -> Prop) :
  P EmptyString -> (forall a, P (String a EmptyString)) -> (forall a b, P (String a (String b EmptyString))) ->
  (forall a b c s, P s -> P (String a (String b (String c s)))) -> forall s, P s.
Proof.
  intros H0 H1 H2 H3. fix IH 1. intros [|a [|b [|c s]]]; [done|apply H1|apply H2|]. apply H3, IH.
Qed.

Lemma strip_encode s : strip_newlines (Std_EncodeToString s) = Std_EncodeToString s.
Proof.
  unfold Std_EncodeToString. induction s as [|a|a b|a b c s IH] using string_ind3; cbn [encode_with]; [done|..].
  all: pose proof (byte_of_range a); try pose proof (byte_of_range b); try pose proof (byte_of_range c).
  all: rewrite !strip_digit by (Z.div_mod_to_equations; lia); try done. by rewrite IH.
Qed.

Theorem Std_roundtrip s : Std_DecodeString (Std_EncodeToString s) = Some s.
Proof.
  unfold Std_DecodeString. rewrite strip_encode. unfold Std_EncodeToString.
  induction s as [|a|a b|a b c s IH] using string_ind3; cbn [encode_with]; [done|..].
  all: pose proof (byte_of_range a); try pose proof (byte_of_range b); try pose proof (byte_of_range c).
  - cbn [append decode_quanta]. rewrite !dec_std by (Z.div_mod_to_equations; lia). cbn.
    repeat f_equal. apply chr_eq. Z.div_mod_to_equations. lia.
  - cbn [append decode_quanta]. rewrite !dec_std by (Z.div_mod_to_equations; lia). cbn.
    repeat f_equal; apply chr_eq; Z.div_mod_to_equations; lia.
  - cbn [append decode_quanta]. rewrite !dec_std by (Z.div_mod_to_equations; lia). cbn.
    rewrite IH. cbn. repeat f_equal; apply chr_eq; Z.div_mod_to_equations; lia.
Qed.

(** ** RawURLEncoding *)

(** The URL-safe alphabet without padding: the last quantum may have two or
    three characters. *)
Definition url_value (c : ascii) : option Z :=
  if bool_decide (c = "-"%char) then Some 62
  else if bool_decide (c = "_"%char) then Some 63
  else if bool_decide (c = "+"%char) || bool_decide (c = "/"%char) then None
  else dec_digit c.

Fixpoint decode_raw (s : string) : option string :=
  match s with
  | EmptyString => Some EmptyString
  | String c0 (String c1 EmptyString) =>
      v0 ← url_value c0; v1 ← url_value c1; Some (String (chr (v0 * 4 + v1 / 16)) EmptyString)
  | String c0 (String c1 (String c2 EmptyString)) =>
      v0 ← url_value c0; v1 ← url_value c1; v2 ← url_value c2;
      Some (String (chr (v0 * 4 + v1 / 16)) (String (chr (v1 mod 16 * 16 + v2 / 4)) EmptyString))
  | String c0 (String c1 (String c2 (String c3 rest))) =>
      v0 ← url_value c0; v1 ← url_value c1; v2 ← url_value c2; v3 ← url_value c3;
      r ← decode_raw rest;
      Some (String (chr (v0 * 4 + v1 / 16)) (String (chr (v1 mod 16 * 16 + v2 / 4))
              (String (chr (v2 mod 4 * 64 + v3)) r)))
  | _ => None
  end.

Definition RawURL_DecodeString (s : string) : option string := decode_raw (strip_newlines s).

(** A digit decodes to its value, is not skipped and is not a dot. *)
Definition url_ok (v : Z) : bool :=
  bool_decide (url_value (url_digit v) = Some v) &&
  negb ((byte_of (url_digit v) =? 10) || (byte_of (url_digit v) =? 13)) &&
  negb (bool_decide (url_digit v = "."%char)).

Lemma url_ok_all v : 0 <= v < 64 ->
  url_value (url_digit v) = Some v /\
  ((byte_of (url_digit v) =? 10) || (byte_of (url_digit v) =? 13)) = false /\ url_digit v <> "."%char.
Proof.
  intros Hv. assert (H : forallb url_ok (seqZ 0 64) = true) by (vm_compute; reflexivity).
  rewrite forallb_forall in H. specialize (H v). rewrite <-list_elem_of_In, elem_of_seqZ in H.
  specialize (H ltac:(lia)). unfold url_ok in H. rewrite !andb_true_iff, !negb_true_iff in H.
  destruct H as [[H1%bool_decide_eq_true H2] H3%bool_decide_eq_false]. done.
Qed.

Lemma dec_url v : 0 <= v < 64 -> url_value (url_digit v) = Some v.
Proof. apply url_ok_all. Qed.

Lemma strip_url v s : 0 <= v < 64 -> strip_newlines (String (url_digit v) s) = String (url_digit v) (strip_newlines s).
Proof. intros (_ & H & _)%url_ok_all. cbn. by rewrite H. Qed.

Lemma strip_raw s : strip_newlines (RawURL_EncodeToString s) = RawURL_EncodeToString s.
Proof.
  unfold RawURL_EncodeToString. induction s as [|a|a b|a b c s IH] using string_ind3; cbn [encode_with]; [done|..].
  all: pose proof (byte_of_range a); try pose proof (byte_of_range b); try pose proof (byte_of_range c).
  all: rewrite !strip_url by (Z.div_mod_to_equations; lia); try done. by rewrite IH.
Qed.

Lemma RawURL_roundtrip s : RawURL_DecodeString (RawURL_EncodeToString s) = Some s.
Proof.
  unfold RawURL_DecodeString. rewrite strip_raw. unfold RawURL_EncodeToString.
  induction s as [|a|a b|a b c s IH] using string_ind3; cbn [encode_with]; [done|..].
  all: pose proof (byte_of_range a); try pose proof (byte_of_range b); try pose proof (byte_of_range c).
  - cbn [append decode_raw]. rewrite !dec_url by (Z.div_mod_to_equations; lia). cbn.
    repeat f_equal. apply chr_eq. Z.div_mod_to_equations. lia.
  - cbn [append decode_raw]. rewrite !dec_url by (Z.div_mod_to_equations; lia). cbn.
    repeat f_equal; apply chr_eq; Z.div_mod_to_equations; lia.
  - cbn [decode_raw]. rewrite !dec_url by (Z.div_mod_to_equations; lia). cbn.
    rewrite IH. cbn. repeat f_equal; apply chr_eq; Z.div_mod_to_equations; lia.
Qed.

Lemma RawURL_no_dot s : ContainsByte (RawURL_EncodeToString s) "." = false.
Proof.
  unfold RawURL_EncodeToString. induction s as [|a|a b|a b c s IH] using string_ind3; cbn [encode_with ContainsByte append]; [done|..].
  all: pose proof (byte_of_range a); try pose proof (byte_of_range b); try pose proof (byte_of_range c).
  all: rewrite ?IH; rewrite !bool_decide_false by (apply not_eq_sym, url_ok_all; Z.div_mod_to_equations; lia); done.
Qed.
