(* ===== verification/Secrets.v ===== *)
(** * Secrets at rest (internal/crypto/crypto.go, internal/secrets/store.go)

    AES-GCM itself is an interface, [AEAD], with the law that opening a sealed
    message under the same key and nonce returns the message.  The formats, the
    version byte and the key ring are the code's.  The nonce that [rand.Reader]
    yields is an argument, [None] when it fails; bytes are strings. *)

From Stdlib Require Import ZArith Lia Ascii String.
From S2P Require Import Prelude GoStrings GoBase64.

Open Scope Z_scope.

(** crypto/cipher: Seal and Open of AES-GCM for a key and a nonce, without the
    nonce prefix. *)
Class AEAD := {
  gcm_Seal : string -> string -> string -> string;
  gcm_Open : string -> string -> string -> option string
}.
Class AEADLaws `{AEAD} := {
  open_seal k n p : gcm_Open k n (gcm_Seal k n p) = Some p
}.

Definition NonceSize : nat := 12.

(** [aes.NewCipher] accepts keys of 16, 24 or 32 bytes. *)
Definition NewCipher (key : string) : result unit :=
  guard_err (bool_decide (String.length key ∈ [16; 24; 32]%nat))
    (Wrapf "create cipher" (Errorf "invalid key size")).

(** [io.ReadFull(rand.Reader, nonce)] *)
Definition read_nonce (nonce : option string) : result string :=
  match nonce with Some n => Ok n | None => Err (Wrapf "generate nonce" (Errorf "rand")) end.

Definition decode_b64 (msg s : string) : result string :=
  match Std_DecodeString s with
  | Some b => Ok b
  | None => Err (Wrapf msg (Errorf "illegal base64 data"))
  end.

(** [GenerateRandomString] on the bytes read from [rand.Reader] *)
Definition GenerateRandomString (rand : option string) : result string :=
  match rand with
  | Some b => Ok (RawURL_EncodeToString b)
  | None => Err (Wrapf "generate random bytes" (Errorf "rand"))
  end.

Section aead.
Context `{AEAD}.

Definition EncryptAESGCM (nonce : option string) (key plaintext : string) : result string :=
  _ ← NewCipher key;
  n ← read_nonce nonce;
  Ok (Std_EncodeToString (n +:+ gcm_Seal key n plaintext)).

Definition VersionedEncryptAESGCM (nonce : option string) (keyVersion : Z) (key plaintext : string)
    : result string :=
  _ ← NewCipher key;
  n ← read_nonce nonce;
  Ok (Std_EncodeToString (String (chr keyVersion) (n +:+ gcm_Seal key n plaintext))).

Definition DecryptAESGCM (key encoded : string) : result string :=
  ciphertext ← decode_b64 "decode ciphertext" encoded;
  _ ← NewCipher key;
  _ ← guard_err (negb (String.length ciphertext <? NonceSize)%nat) (Errorf "ciphertext too short");
  match gcm_Open key (str_take NonceSize ciphertext) (str_drop NonceSize ciphertext) with
  | Some p => Ok p
  | None => Err (Wrapf "decrypt" (Errorf "message authentication failed"))
  end.

(** [None] for an unversioned ciphertext *)
Definition ExtractKeyVersion (encoded : string) : option Z :=
  match Std_DecodeString encoded with
  | Some (String c _) => if byte_of c =? 0 then None else Some (byte_of c)
  | _ => None
  end.

Definition DecryptVersionedAESGCM (key encoded : string) : result string :=
  ciphertext ← decode_b64 "decode ciphertext" encoded;
  _ ← guard_err (negb (String.length ciphertext <? 2)%nat) (Errorf "versioned ciphertext too short");
  DecryptAESGCM key (Std_EncodeToString (str_drop 1 ciphertext)).

(** ** The store *)

Record VersionedKey := mkVersionedKey { vk_Version : Z; vk_Key : string }.
Record Store := mkStore { st_key : string; st_version : Z; st_ring : list VersionedKey }.

Definition NewStore (encodedKey : string) : result Store :=
  key ← decode_b64 "decode encryption key" encodedKey;
  _ ← guard_err (bool_decide (String.length key = 32%nat)) (Errorf "encryption key must be 32 bytes");
  Ok (mkStore key 0 []).

Definition check_key (k : VersionedKey) : result unit :=
  _ ← guard_err (bool_decide (String.length (vk_Key k) = 32%nat)) (Errorf "key: must be 32 bytes");
  guard_err (negb (vk_Version k =? 0)) (Errorf "key: version must be >= 1").

Fixpoint check_keys (keys : list VersionedKey) : result unit :=
  match keys with
  | [] => Ok tt
  | k :: keys => _ ← check_key k; check_keys keys
  end.

Definition NewVersionedStore (keys : list VersionedKey) : result Store :=
  match keys with
  | [] => Err (Errorf "at least one key is required")
  | k :: _ => _ ← check_keys keys; Ok (mkStore (vk_Key k) (vk_Version k) keys)
  end.

Definition Encrypt (nonce : option string) (s : Store) (plaintext : string) : result string :=
  if 0 <? st_version s then VersionedEncryptAESGCM nonce (st_version s) (st_key s) plaintext
  else EncryptAESGCM nonce (st_key s) plaintext.

(** The ring is searched for the first key with the version; a failed attempt
    leaves the loop. *)
Definition ring_decrypt (s : Store) (encrypted : string) : option string :=
  match ExtractKeyVersion encrypted with
  | None => None
  | Some ver =>
      match filter (fun k => vk_Version k = ver) (st_ring s) with
      | [] => None
      | k :: _ => match DecryptVersionedAESGCM (vk_Key k) encrypted with Ok b => Some b | Err _ => None end
      end
  end.

Definition Decrypt (s : Store) (encrypted : string) : result string :=
  match ring_decrypt s encrypted with
  | Some b => Ok b
  | None => DecryptAESGCM (st_key s) encrypted
  end.

Definition ReEncrypt (nonce : option string) (s : Store) (encrypted : string) : result (string * bool) :=
  if (0 <? st_version s) && bool_decide (ExtractKeyVersion encrypted = Some (st_version s))
  then Ok (encrypted, false)
  else
    plaintext ← wrap_err "decrypt for re-encryption" (Decrypt s encrypted);
    newCiphertext ← wrap_err "re-encrypt" (Encrypt nonce s plaintext);
    Ok (newCiphertext, true).

Definition PrimaryKeyVersion (s : Store) : Z := st_version s.
End aead.

(** * Secrets at rest: round trips and key rotation *)


Lemma str_take_append (n s : string) : str_take (String.length n) (n +:+ s) = n.
Proof. induction n as [|c n IH]; cbn; [by destruct s|]. by f_equal. Qed.

Lemma str_drop_append (n s : string) : str_drop (String.length n) (n +:+ s) = s.
Proof. induction n as [|c n IH]; cbn; [by destruct s|done]. Qed.

Lemma byte_chr v : 0 <= v < 256 -> byte_of (chr v) = v.
Proof.
  intros Hv. unfold byte_of, chr. rewrite nat_ascii_embedding by lia. lia.
Qed.

(** A store as the constructors build it; versions are bytes. *)
Definition made (s : Store) : Prop :=
  (exists k, NewStore k = Ok s) \/
  (exists keys, NewVersionedStore keys = Ok s /\ Forall (fun k => 0 <= vk_Version k < 256) keys).

Lemma made_spec s :
  made s -> String.length (st_key s) = 32%nat /\
  (st_version s = 0 /\ st_ring s = [] \/
   0 < st_version s < 256 /\
   (exists rest, st_ring s = mkVersionedKey (st_version s) (st_key s) :: rest)).
Proof.
  intros [[k Hk]|[keys [Hk Hb]]].
  - unfold NewStore in Hk. inv_ok Hk. simplify_eq. apply bool_decide_eq_true in Hrun1. auto.
  - destruct keys as [|[v k] keys]; [done|]. cbn [NewVersionedStore check_keys] in Hk. inv_ok Hk.
    unfold check_key in Hrun1. inv_ok Hrun1. simplify_eq. cbn in *.
    apply bool_decide_eq_true in Hrun. apply Forall_cons in Hb as [Hv _]. cbn in Hv.
    split; [done|]. right. split; [|by eexists]. lia.
Qed.

Lemma NewCipher_32 k : String.length k = 32%nat -> NewCipher k = Ok tt.
Proof. intros Hk. unfold NewCipher. rewrite Hk. done. Qed.

Section laws.
Context `{AEADLaws}.

Lemma Decrypt_sealed k n p :
  String.length k = 32%nat -> String.length n = NonceSize ->
  DecryptAESGCM k (Std_EncodeToString (n +:+ gcm_Seal k n p)) = Ok p.
Proof.
  intros Hk Hn. unfold DecryptAESGCM, decode_b64. rewrite Std_roundtrip. cbn [mbind result_bind].
  rewrite NewCipher_32 by done. rewrite length_append, Hn.
  rewrite (proj2 (Nat.ltb_ge _ _)) by lia. cbn [negb guard_err mbind result_bind].
  rewrite <-Hn, str_take_append, str_drop_append. by rewrite open_seal.
Qed.

Lemma Decrypt_versioned v k n p :
  String.length k = 32%nat -> String.length n = NonceSize ->
  DecryptVersionedAESGCM k (Std_EncodeToString (String (chr v) (n +:+ gcm_Seal k n p))) = Ok p.
Proof.
  intros Hk Hn. unfold DecryptVersionedAESGCM, decode_b64. rewrite Std_roundtrip. cbn [mbind result_bind].
  cbn [String.length]. rewrite length_append, Hn. cbn -[DecryptAESGCM Std_EncodeToString].
  by apply Decrypt_sealed.
Qed.

Lemma ExtractKeyVersion_versioned v s :
  0 < v < 256 -> ExtractKeyVersion (Std_EncodeToString (String (chr v) s)) = Some v.
Proof.
  intros Hv. unfold ExtractKeyVersion. rewrite Std_roundtrip, byte_chr by lia.
  by rewrite (proj2 (Z.eqb_neq _ _)) by lia.
Qed.

(** The key a store tries for a version. *)
Definition ring_key (s : Store) (ver : Z) : option string :=
  vk_Key <$> head (filter (fun k => vk_Version k = ver) (st_ring s)).

Lemma decrypt_encrypt (s s' : Store) (nonce p : string) :
  made s -> made s' -> String.length nonce = NonceSize ->
  s' = s \/ (0 < st_version s /\ ring_key s' (st_version s) = Some (st_key s)) ->
  exists c, Encrypt (Some nonce) s p = Ok c /\ Decrypt s' c = Ok p.
Proof.
  intros Hs Hs' Hn Hring. destruct (made_spec s Hs) as [Hk Hver].
  unfold Encrypt. destruct Hver as [[Hv Hr]|[Hv [rest Hr]]].
  - destruct Hring as [->|[? _]]; [|lia]. rewrite Hv. cbn [Z.ltb Z.compare].
    unfold EncryptAESGCM. rewrite NewCipher_32 by done. eexists. split; [reflexivity|].
    unfold Decrypt, ring_decrypt. rewrite Hr. destruct (ExtractKeyVersion _); by apply Decrypt_sealed.
  - rewrite (proj2 (Z.ltb_lt _ _)) by lia. unfold VersionedEncryptAESGCM. rewrite NewCipher_32 by done.
    eexists. split; [reflexivity|]. unfold Decrypt, ring_decrypt.
    rewrite ExtractKeyVersion_versioned by lia.
    assert (Hkey : ring_key s' (st_version s) = Some (st_key s)).
    { destruct Hring as [->|[_ ?]]; [|done]. unfold ring_key. rewrite Hr. by rewrite filter_cons_True. }
    unfold ring_key in Hkey. destruct (filter _ (st_ring s')) as [|k ks]; [done|].
    cbn in Hkey. injection Hkey as ->. by rewrite Decrypt_versioned.
Qed.

(** C34: what a store encrypts it decrypts, and after a rotation every versioned
    ciphertext is still decrypted by any store whose ring maps the version to the
    key it was made with. *)
Theorem Decrypt_Encrypt (s s' : Store) (nonce p : string) :
  made s -> made s' -> String.length nonce = NonceSize ->
  s' = s \/ (0 < st_version s /\ ring_key s' (st_version s) = Some (st_key s)) ->
  exists c, Encrypt (Some nonce) s p = Ok c /\ Decrypt s' c = Ok p.
Proof. apply decrypt_encrypt. Qed.

(** An unversioned ciphertext is only tried with the primary key: when that
    is not the key it was made with, decryption fails although the ring holds the
    right key under some version. *)
Theorem legacy_key_in_ring_not_tried (s : Store) (k0 nonce p : string) v :
  made s -> String.length k0 = 32%nat -> String.length nonce = NonceSize ->
  mkVersionedKey v k0 ∈ st_ring s ->
  Forall (fun k => Some (chr (vk_Version k)) <> String.get 0 nonce) (st_ring s) ->
  gcm_Open (st_key s) nonce (gcm_Seal k0 nonce p) = None ->
  exists c, EncryptAESGCM (Some nonce) k0 p = Ok c /\
    Decrypt s c = Err (Wrapf "decrypt" (Errorf "message authentication failed")).
Proof.
  intros Hs Hk0 Hn _ Hring Hopen. destruct (made_spec s Hs) as [Hk _].
  unfold EncryptAESGCM. rewrite NewCipher_32 by done. eexists. split; [reflexivity|].
  assert (Hno : ring_decrypt s (Std_EncodeToString (nonce +:+ gcm_Seal k0 nonce p)) = None).
  { unfold ring_decrypt, ExtractKeyVersion. rewrite Std_roundtrip.
    destruct nonce as [|c nonce]; [done|]. cbn [append]. destruct (byte_of c =? 0); [done|].
    assert (filter (fun k => vk_Version k = byte_of c) (st_ring s) = []) as ->; [|done].
    destruct (filter _ _) as [|k ks] eqn:E; [done|]. exfalso.
    assert (Hin : k ∈ filter (fun k => vk_Version k = byte_of c) (st_ring s)) by (rewrite E; left).
    apply list_elem_of_filter in Hin as [Hv Hin]. rewrite Forall_forall in Hring.
    apply (Hring k Hin). cbn. by rewrite Hv, chr_byte. }
  unfold Decrypt. rewrite Hno. unfold DecryptAESGCM, decode_b64. rewrite Std_roundtrip.
  cbn [mbind result_bind]. rewrite NewCipher_32 by done. rewrite length_append, Hn.
  rewrite (proj2 (Nat.ltb_ge _ _)) by lia. cbn [negb guard_err mbind result_bind].
  by rewrite <-Hn, str_take_append, str_drop_append, Hopen.
Qed.

(** An unversioned ciphertext whose random first nonce byte equals the
    version of the primary key is taken for current by [ReEncrypt] and returned
    unchanged, without any decryption. *)
Theorem ReEncrypt_skips_legacy (s : Store) (k0 nonce p : string) (n' : option string) :
  made s -> String.length k0 = 32%nat -> 0 < st_version s ->
  String.get 0 nonce = Some (chr (st_version s)) ->
  exists c, EncryptAESGCM (Some nonce) k0 p = Ok c /\ ReEncrypt n' s c = Ok (c, false).
Proof.
  intros Hs Hk0 Hv Hn. destruct (made_spec s Hs) as [_ [[? _]|[Hvs _]]]; [lia|].
  unfold EncryptAESGCM. rewrite NewCipher_32 by done. eexists. split; [reflexivity|].
  destruct nonce as [|c nonce]; [done|]. cbn in Hn. injection Hn as ->.
  unfold ReEncrypt. rewrite (proj2 (Z.ltb_lt _ _)) by lia. rewrite bool_decide_true; [done|].
  cbn [append]. by apply ExtractKeyVersion_versioned.
Qed.
End laws.

(** ** A concrete cipher, for the witnesses *)

(** Not a cipher: it authenticates the key only.  It has the laws. *)
Definition tag_aead : AEAD := {|
  gcm_Seal k n p := k +:+ p;
  gcm_Open k n c := if HasPrefix c k then Some (str_drop (String.length k) c) else None
|}.

Lemma tag_aead_laws : @AEADLaws tag_aead.
Proof.
  constructor. intros k n p. cbn. rewrite (proj2 (HasPrefix_spec _ _)) by eauto.
  by rewrite str_drop_append.
Qed.

Definition key_a : string := "aaaaaaaaaaaaaaaaaaaaaaaaaaaaaaaa".
Definition key_b : string := "bbbbbbbbbbbbbbbbbbbbbbbbbbbbbbbb".
Definition ring_ba : list VersionedKey := [mkVersionedKey 2 key_b; mkVersionedKey 1 key_a].

Ltac bytes_ok := repeat (apply Forall_cons; split; [cbn; lia|]); apply Forall_nil_2.

Lemma Decrypt_Encrypt_witness :
  exists c, @Encrypt tag_aead (Some "nnnnnnnnnnnn") (mkStore key_a 1 [mkVersionedKey 1 key_a]) "secret" = Ok c /\
    @Decrypt tag_aead (mkStore key_b 2 ring_ba) c = Ok "secret".
Proof.
  apply (@Decrypt_Encrypt tag_aead tag_aead_laws (mkStore key_a 1 [mkVersionedKey 1 key_a])
           (mkStore key_b 2 ring_ba)).
  - right. exists [mkVersionedKey 1 key_a]. split; [reflexivity|bytes_ok].
  - right. exists ring_ba. split; [reflexivity|bytes_ok].
  - reflexivity.
  - right. split; [cbn; lia|reflexivity].
Defined.

Lemma legacy_key_in_ring_not_tried_witness :
  exists c, @EncryptAESGCM tag_aead (Some "nnnnnnnnnnnn") key_a "secret" = Ok c /\
    @Decrypt tag_aead (mkStore key_b 2 ring_ba) c =
      Err (Wrapf "decrypt" (Errorf "message authentication failed")).
Proof.
  apply (@legacy_key_in_ring_not_tried tag_aead (mkStore key_b 2 ring_ba) key_a "nnnnnnnnnnnn" "secret" 1).
  - right. exists ring_ba. split; [reflexivity|bytes_ok].
  - reflexivity.
  - reflexivity.
  - right. left.
  - repeat constructor; discriminate.
  - reflexivity.
Defined.

Lemma ReEncrypt_skips_legacy_witness :
  exists c, @EncryptAESGCM tag_aead (Some (String (chr 2) "nnnnnnnnnnn")) key_a "secret" = Ok c /\
    @ReEncrypt tag_aead None (mkStore key_b 2 ring_ba) c = Ok (c, false).
Proof.
  apply (@ReEncrypt_skips_legacy tag_aead (mkStore key_b 2 ring_ba) key_a (String (chr 2) "nnnnnnnnnnn") "secret" None).
  - right. exists ring_ba. split; [reflexivity|bytes_ok].
  - reflexivity.
  - cbn. lia.
  - reflexivity.
Defined.
