(* ===== verification/Domain.v ===== *)
(** * Domain entities (internal/domain)

    The persisted entities, one [Record] per Go struct, and the string
    enumerations with their constants.  A Go [type X string] admits any string
    (values arrive from JSON and from the database), so it stays [string] here
    and the [default:] branches of the code remain reachable.  A nil pointer is
    [None]; a [time.Time] is a number of nanoseconds; an [ID] is the 128-bit
    value of the UUID; a [json.RawMessage] is its text. *)

From Stdlib Require Import ZArith String.
From S2P Require Import Prelude.

Open Scope Z_scope.

Notation Time := Z (only parsing).
Notation ID := N (only parsing).

(** internal/domain/id.go *)
Definition ZeroID : ID := 0%N.

(** ** tenant.go *)

Notation TenantStatus := string (only parsing).
Definition TenantStatusActive : TenantStatus := "active".
Definition TenantStatusSuspended : TenantStatus := "suspended".
Definition TenantStatusDeleted : TenantStatus := "deleted".

Record Tenant := mkTenant {
  tenant_ID : ID;
  tenant_Name : string;
  tenant_Slug : string;
  tenant_Status : TenantStatus;
  tenant_Settings : string;
  tenant_CreatedAt : Time;
  tenant_UpdatedAt : Time
}.
#[export] Instance Tenant_eq_dec : EqDecision Tenant.
Proof. solve_decision. Defined.

(** ** user.go *)

Notation Role := string (only parsing).
Definition RoleSuperUser : Role := "superuser".
Definition RoleAdmin : Role := "admin".
Definition RoleReadOnly : Role := "readonly".

Notation UserStatus := string (only parsing).
Definition UserStatusActive : UserStatus := "active".
Definition UserStatusDisabled : UserStatus := "disabled".

Record User := mkUser {
  user_ID : ID;
  user_TenantID : option ID;
  user_Email : string;
  user_Name : string;
  user_PasswordHash : string;
  user_TOTPSecret : string;
  user_TOTPEnabled : bool;
  user_Role : Role;
  user_Status : UserStatus;
  user_LastLoginAt : option Time;
  user_CreatedAt : Time;
  user_UpdatedAt : Time
}.
#[export] Instance User_eq_dec : EqDecision User.
Proof. solve_decision. Defined.

(** ** apikey.go *)

Record APIKey := mkAPIKey {
  apikey_ID : ID;
  apikey_TenantID : ID;
  apikey_UserID : ID;
  apikey_Name : string;
  apikey_KeyHash : string;
  apikey_KeyPrefix : string;
  apikey_Role : Role;
  apikey_ExpiresAt : option Time;
  apikey_LastUsedAt : option Time;
  apikey_CreatedAt : Time
}.
#[export] Instance APIKey_eq_dec : EqDecision APIKey.
Proof. solve_decision. Defined.

(** ** node.go *)

Notation NodeStatus := string (only parsing).
Definition NodeStatusPending : NodeStatus := "pending".
Definition NodeStatusEnrolling : NodeStatus := "enrolling".
Definition NodeStatusOnline : NodeStatus := "online".
Definition NodeStatusOffline : NodeStatus := "offline".
Definition NodeStatusError : NodeStatus := "error".
Definition NodeStatusDecommissioned : NodeStatus := "decommissioned".

Notation NodeCapability := string (only parsing).
Definition CapabilityBGP : NodeCapability := "bgp".
Definition CapabilityDNS : NodeCapability := "dns".
Definition CapabilityCDN : NodeCapability := "cdn".
Definition CapabilityRoute : NodeCapability := "route".

Record Node := mkNode {
  node_ID : ID;
  node_TenantID : option ID;
  node_Name : string;
  node_Hostname : string;
  node_PublicIP : string;
  node_WireGuardIP : string;
  node_WireGuardIPv6 : string;
  node_Status : NodeStatus;
  node_Region : string;
  node_Provider : string;
  node_SSHPort : Z;
  node_SSHUser : string;
  node_SSHKeyID : option ID;
  node_BinaryVersion : string;
  node_LastHeartbeat : option Time;
  node_LastConfigSync : option Time;
  node_Capabilities : list NodeCapability;
  node_Metadata : string;
  node_CreatedAt : Time;
  node_UpdatedAt : Time
}.
#[export] Instance Node_eq_dec : EqDecision Node.
Proof. solve_decision. Defined.

Record NodeGroup := mkNodeGroup {
  ng_ID : ID;
  ng_TenantID : ID;
  ng_Name : string;
  ng_Description : string;
  ng_CreatedAt : Time;
  ng_UpdatedAt : Time
}.
#[export] Instance NodeGroup_eq_dec : EqDecision NodeGroup.
Proof. solve_decision. Defined.

(** ** gateway.go *)

Notation GatewayStatus := string (only parsing).
Definition GatewayStatusPending : GatewayStatus := "pending".
Definition GatewayStatusEnrolling : GatewayStatus := "enrolling".
Definition GatewayStatusOnline : GatewayStatus := "online".
Definition GatewayStatusOffline : GatewayStatus := "offline".
Definition GatewayStatusError : GatewayStatus := "error".

Record Gateway := mkGateway {
  gw_ID : ID;
  gw_TenantID : ID;
  gw_Name : string;
  gw_PublicIP : string;
  gw_WireGuardIP : string;
  gw_Status : GatewayStatus;
  gw_EnrollmentToken : string;
  gw_LastHeartbeat : option Time;
  gw_LastConfigSync : option Time;
  gw_Metadata : string;
  gw_CreatedAt : Time;
  gw_UpdatedAt : Time
}.
#[export] Instance Gateway_eq_dec : EqDecision Gateway.
Proof. solve_decision. Defined.

(** ** ssh.go *)

Record SSHKey := mkSSHKey {
  sshkey_ID : ID;
  sshkey_Name : string;
  sshkey_PublicKey : string;
  sshkey_PrivateKey : string;
  sshkey_Fingerprint : string;
  sshkey_CreatedAt : Time;
  sshkey_LastRotatedAt : Time
}.
#[export] Instance SSHKey_eq_dec : EqDecision SSHKey.
Proof. solve_decision. Defined.

(** ** wireguard.go *)

Notation PeerOwnerType := string (only parsing).
Definition PeerOwnerNode : PeerOwnerType := "node".
Definition PeerOwnerGateway : PeerOwnerType := "gateway".
Definition PeerOwnerController : PeerOwnerType := "controller".

Definition ControllerPeerID : ID := 1%N.

Record WireGuardPeer := mkWireGuardPeer {
  peer_ID : ID;
  peer_OwnerType : PeerOwnerType;
  peer_OwnerID : ID;
  peer_PublicKey : string;
  peer_PrivateKey : string;
  peer_PresharedKey : string;
  peer_AllowedIPs : list string;
  peer_Endpoint : string;
  peer_LastRotatedAt : Time;
  peer_CreatedAt : Time;
  peer_UpdatedAt : Time
}.
#[export] Instance WireGuardPeer_eq_dec : EqDecision WireGuardPeer.
Proof. solve_decision. Defined.

(** ** bgp.go *)

Notation BGPSessionStatus := string (only parsing).
Definition BGPSessionConfigured : BGPSessionStatus := "configured".
Definition BGPSessionEstablished : BGPSessionStatus := "established".
Definition BGPSessionIdle : BGPSessionStatus := "idle".
Definition BGPSessionError : BGPSessionStatus := "error".

Record BGPSession := mkBGPSession {
  bgp_ID : ID;
  bgp_NodeID : ID;
  bgp_PeerASN : Z;
  bgp_PeerAddress : string;
  bgp_LocalASN : Z;
  bgp_Status : BGPSessionStatus;
  bgp_AnnouncedPrefixes : list string;
  bgp_ImportPolicy : string;
  bgp_ExportPolicy : string;
  bgp_Metadata : string;
  bgp_CreatedAt : Time;
  bgp_UpdatedAt : Time
}.
#[export] Instance BGPSession_eq_dec : EqDecision BGPSession.
Proof. solve_decision. Defined.

(** ** ip.go *)

Notation IPAllocationType := string (only parsing).
Definition IPAllocationAnycast : IPAllocationType := "anycast".
Definition IPAllocationUnicast : IPAllocationType := "unicast".

Notation IPAllocationPurpose := string (only parsing).
Definition IPPurposeDNS : IPAllocationPurpose := "dns".
Definition IPPurposeCDN : IPAllocationPurpose := "cdn".
Definition IPPurposeRoute : IPAllocationPurpose := "route".

Notation IPAllocationStatus := string (only parsing).
Definition IPAllocationActive : IPAllocationStatus := "active".
Definition IPAllocationWithdrawn : IPAllocationStatus := "withdrawn".
Definition IPAllocationPending : IPAllocationStatus := "pending".

Record IPAllocation := mkIPAllocation {
  ipa_ID : ID;
  ipa_TenantID : ID;
  ipa_Prefix : string;
  ipa_Type : IPAllocationType;
  ipa_Purpose : IPAllocationPurpose;
  ipa_Status : IPAllocationStatus;
  ipa_CreatedAt : Time;
  ipa_UpdatedAt : Time
}.
#[export] Instance IPAllocation_eq_dec : EqDecision IPAllocation.
Proof. solve_decision. Defined.

(** ** dns.go *)

Notation DNSRecordType := string (only parsing).
Definition DNSRecordTypeA : DNSRecordType := "A".
Definition DNSRecordTypeAAAA : DNSRecordType := "AAAA".
Definition DNSRecordTypeCNAME : DNSRecordType := "CNAME".
Definition DNSRecordTypeMX : DNSRecordType := "MX".
Definition DNSRecordTypeTXT : DNSRecordType := "TXT".
Definition DNSRecordTypeNS : DNSRecordType := "NS".
Definition DNSRecordTypeSRV : DNSRecordType := "SRV".
Definition DNSRecordTypeCAA : DNSRecordType := "CAA".
Definition DNSRecordTypePTR : DNSRecordType := "PTR".

Notation DNSZoneStatus := string (only parsing).
Definition DNSZoneActive : DNSZoneStatus := "active".
Definition DNSZoneDisabled : DNSZoneStatus := "disabled".

Record DNSZone := mkDNSZone {
  zone_ID : ID;
  zone_TenantID : ID;
  zone_Name : string;
  zone_Status : DNSZoneStatus;
  zone_Serial : Z;
  zone_TTL : Z;
  zone_NodeGroupID : option ID;
  zone_TransferAllowedIPs : list string;
  zone_CreatedAt : Time;
  zone_UpdatedAt : Time
}.
#[export] Instance DNSZone_eq_dec : EqDecision DNSZone.
Proof. solve_decision. Defined.

Record DNSRecord := mkDNSRecord {
  rec_ID : ID;
  rec_ZoneID : ID;
  rec_Name : string;
  rec_Type : DNSRecordType;
  rec_Value : string;
  rec_TTL : option Z;
  rec_Priority : option Z;
  rec_Weight : option Z;
  rec_Port : option Z;
  rec_CreatedAt : Time;
  rec_UpdatedAt : Time
}.
#[export] Instance DNSRecord_eq_dec : EqDecision DNSRecord.
Proof. solve_decision. Defined.

(** ** cdn.go *)

Notation CDNSiteStatus := string (only parsing).
Definition CDNSiteActive : CDNSiteStatus := "active".
Definition CDNSiteDisabled : CDNSiteStatus := "disabled".

Notation TLSMode := string (only parsing).
Definition TLSModeAuto : TLSMode := "auto".
Definition TLSModeManual : TLSMode := "manual".
Definition TLSModeDisabled : TLSMode := "disabled".

Notation CDNOriginStatus := string (only parsing).
Definition CDNOriginHealthy : CDNOriginStatus := "healthy".
Definition CDNOriginUnhealthy : CDNOriginStatus := "unhealthy".
Definition CDNOriginUnknown : CDNOriginStatus := "unknown".

Notation CDNOriginScheme := string (only parsing).
Definition CDNOriginHTTP : CDNOriginScheme := "http".
Definition CDNOriginHTTPS : CDNOriginScheme := "https".

Record CDNSite := mkCDNSite {
  site_ID : ID;
  site_TenantID : ID;
  site_Name : string;
  site_Domains : list string;
  site_TLSMode : TLSMode;
  site_TLSCertID : option ID;
  site_CacheEnabled : bool;
  site_CacheTTL : Z;
  site_CompressionEnabled : bool;
  site_RateLimitRPS : option Z;
  site_NodeGroupID : option ID;
  site_HeaderRules : string;
  site_WAFEnabled : bool;
  site_WAFMode : string;
  site_Status : CDNSiteStatus;
  site_CreatedAt : Time;
  site_UpdatedAt : Time
}.
#[export] Instance CDNSite_eq_dec : EqDecision CDNSite.
Proof. solve_decision. Defined.

Record CDNOrigin := mkCDNOrigin {
  origin_ID : ID;
  origin_SiteID : ID;
  origin_Address : string;
  origin_Scheme : CDNOriginScheme;
  origin_Weight : Z;
  origin_HealthCheckPath : string;
  origin_HealthCheckInterval : option Z;
  origin_Status : CDNOriginStatus;
  origin_CreatedAt : Time;
  origin_UpdatedAt : Time
}.
#[export] Instance CDNOrigin_eq_dec : EqDecision CDNOrigin.
Proof. solve_decision. Defined.

(** ** route.go *)

Notation RouteProtocol := string (only parsing).
Definition RouteProtocolTCP : RouteProtocol := "tcp".
Definition RouteProtocolUDP : RouteProtocol := "udp".
Definition RouteProtocolICMP : RouteProtocol := "icmp".
Definition RouteProtocolAll : RouteProtocol := "all".

Notation RouteStatus := string (only parsing).
Definition RouteStatusActive : RouteStatus := "active".
Definition RouteStatusDisabled : RouteStatus := "disabled".

Record Route := mkRoute {
  route_ID : ID;
  route_TenantID : ID;
  route_Name : string;
  route_Protocol : RouteProtocol;
  route_EntryIP : string;
  route_EntryPort : option Z;
  route_GatewayID : ID;
  route_DestinationIP : string;
  route_DestinationPort : option Z;
  route_NodeGroupID : option ID;
  route_Status : RouteStatus;
  route_CreatedAt : Time;
  route_UpdatedAt : Time
}.
#[export] Instance Route_eq_dec : EqDecision Route.
Proof. solve_decision. Defined.

(** ** tls.go *)

Record TLSCertificate := mkTLSCertificate {
  cert_ID : ID;
  cert_TenantID : ID;
  cert_Domains : list string;
  cert_CertPEM : string;
  cert_KeyPEM : string;
  cert_Issuer : string;
  cert_ExpiresAt : Time;
  cert_AutoRenew : bool;
  cert_CreatedAt : Time;
  cert_UpdatedAt : Time
}.
#[export] Instance TLSCertificate_eq_dec : EqDecision TLSCertificate.
Proof. solve_decision. Defined.

(** ** audit.go *)

Record AuditEvent := mkAuditEvent {
  audit_ID : ID;
  audit_TenantID : option ID;
  audit_UserID : option ID;
  audit_APIKeyID : option ID;
  audit_Action : string;
  audit_Resource : string;
  audit_Details : string;
  audit_SourceIP : string;
  audit_Timestamp : Time
}.
#[export] Instance AuditEvent_eq_dec : EqDecision AuditEvent.
Proof. solve_decision. Defined.

(** ** enrollment.go *)

Notation EnrollmentTargetType := string (only parsing).
Definition EnrollmentTargetNode : EnrollmentTargetType := "node".
Definition EnrollmentTargetGateway : EnrollmentTargetType := "gateway".

Record EnrollmentToken := mkEnrollmentToken {
  etok_ID : ID;
  etok_TenantID : ID;
  etok_TargetType : EnrollmentTargetType;
  etok_TargetID : ID;
  etok_Token : string;
  etok_ExpiresAt : Time;
  etok_UsedAt : option Time;
  etok_CreatedAt : Time
}.
#[export] Instance EnrollmentToken_eq_dec : EqDecision EnrollmentToken.
Proof. solve_decision. Defined.

(** ** provisioning.go *)

Notation ProvisioningAction := string (only parsing).
Definition ProvisionActionEnroll : ProvisioningAction := "enroll".
Definition ProvisionActionReprovision : ProvisioningAction := "reprovision".
Definition ProvisionActionUpgrade : ProvisioningAction := "upgrade".
Definition ProvisionActionStart : ProvisioningAction := "start".
Definition ProvisionActionStop : ProvisioningAction := "stop".
Definition ProvisionActionRestart : ProvisioningAction := "restart".
Definition ProvisionActionDecommission : ProvisioningAction := "decommission".

Notation ProvisioningStatus := string (only parsing).
Definition ProvisionStatusPending : ProvisioningStatus := "pending".
Definition ProvisionStatusRunning : ProvisioningStatus := "running".
Definition ProvisionStatusCompleted : ProvisioningStatus := "completed".
Definition ProvisionStatusFailed : ProvisioningStatus := "failed".

Notation ProvisioningStep := string (only parsing).
Definition StepValidateSSH : ProvisioningStep := "validate_ssh".
Definition StepUploadBinary : ProvisioningStep := "upload_binary".
Definition StepWriteConfig : ProvisioningStep := "write_config".
Definition StepInstallSystemd : ProvisioningStep := "install_systemd".
Definition StepStartService : ProvisioningStep := "start_service".
Definition StepGenerateWGKeys : ProvisioningStep := "generate_wg_keys".
Definition StepConfigureWireGuard : ProvisioningStep := "configure_wireguard".
Definition StepWaitEnrollment : ProvisioningStep := "wait_enrollment".
Definition StepVerifyOnline : ProvisioningStep := "verify_online".
Definition StepStopService : ProvisioningStep := "stop_service".
Definition StepCleanup : ProvisioningStep := "cleanup".
Definition StepSendCommand : ProvisioningStep := "send_command".
Definition StepBackupBinary : ProvisioningStep := "backup_binary".
Definition StepAtomicSwap : ProvisioningStep := "atomic_swap".
Definition StepRollback : ProvisioningStep := "rollback".

(** [Error] is the error whose text the code stores; [Steps], a JSON array, is
    the list it encodes. *)
Record StepResult := mkStepResult {
  sr_Step : ProvisioningStep;
  sr_Status : string;
  sr_Output : string;
  sr_Error : option goerr;
  sr_StartedAt : Time;
  sr_DurationMs : Z
}.
#[export] Instance StepResult_eq_dec : EqDecision StepResult.
Proof. solve_decision. Defined.

Record ProvisioningJob := mkProvisioningJob {
  job_ID : ID;
  job_NodeID : ID;
  job_TenantID : option ID;
  job_Action : ProvisioningAction;
  job_Status : ProvisioningStatus;
  job_CurrentStep : ProvisioningStep;
  job_Steps : option (list StepResult);
  job_Error : option goerr;
  job_InitiatedBy : ID;
  job_StartedAt : option Time;
  job_CompletedAt : option Time;
  job_CreatedAt : Time;
  job_UpdatedAt : Time
}.
#[export] Instance ProvisioningJob_eq_dec : EqDecision ProvisioningJob.
Proof. solve_decision. Defined.

(** [ValidActionStates]: a Go map literal, [None] for a missing key. *)
Definition ValidActionStates (action : ProvisioningAction) : option (list NodeStatus) :=
  if bool_decide (action = ProvisionActionEnroll) then Some [NodeStatusPending]
  else if bool_decide (action = ProvisionActionStart) then
    Some [NodeStatusOffline; NodeStatusError]
  else if bool_decide (action = ProvisionActionStop) then Some [NodeStatusOnline]
  else if bool_decide (action = ProvisionActionRestart) then Some [NodeStatusOnline]
  else if bool_decide (action = ProvisionActionUpgrade) then
    Some [NodeStatusOnline; NodeStatusOffline]
  else if bool_decide (action = ProvisionActionReprovision) then
    Some [NodeStatusOnline; NodeStatusOffline; NodeStatusError]
  else if bool_decide (action = ProvisionActionDecommission) then
    Some [NodeStatusPending; NodeStatusOnline; NodeStatusOffline; NodeStatusError]
  else None.

(** [IsValidTransition] *)
Definition IsValidTransition (action : ProvisioningAction) (currentStatus : NodeStatus) : bool :=
  match ValidActionStates action with
  | None => false
  | Some validStates => existsb (fun s => bool_decide (s = currentStatus)) validStates
  end.
