(* ===== verification/Schema.v ===== *)
(** * Schema migrations (internal/storage/sqlite/sqlite.go, internal/storage/postgres/postgres.go)

    The statements of both drivers are kept as the source has them and read by a
    parser of the subset of SQL they use: [CREATE TABLE], [CREATE INDEX] and
    [ALTER TABLE ... ADD COLUMN].  A database is its catalog and the rows of
    [schema_versions].  [Migrate] is the loop of the source; [mig_step] runs it call by
    call, so that processes can interleave and stop between any two calls. *)

From Stdlib Require Import ZArith Lia Ascii String.
From S2P Require Import Prelude GoStrings.

Open Scope Z_scope.

(** ** SQL *)

Inductive keyword :=
| CREATE | TABLE | INDEX | IF_ | NOT | EXISTS | PRIMARY | KEY | NULL | UNIQUE | DEFAULT
| REFERENCES | ON | DELETE | CASCADE | ALTER | ADD | COLUMN.
Inductive token := Kw (k : keyword) | Id (s : string) | Quoted (s : string) | LP | RP | Comma.

Definition keywords : list (string * keyword) :=
  [("CREATE", CREATE); ("TABLE", TABLE); ("INDEX", INDEX); ("IF", IF_); ("NOT", NOT); ("EXISTS", EXISTS);
   ("PRIMARY", PRIMARY); ("KEY", KEY); ("NULL", NULL); ("UNIQUE", UNIQUE); ("DEFAULT", DEFAULT);
   ("REFERENCES", REFERENCES); ("ON", ON); ("DELETE", DELETE); ("CASCADE", CASCADE); ("ALTER", ALTER);
   ("ADD", ADD); ("COLUMN", COLUMN)].

Definition word_token (w : string) : token :=
  match List.find (fun x => String.eqb x.1 w) keywords with Some (_, k) => Kw k | None => Id w end.
(** The word read so far, in reverse. *)
Definition flush (w : list ascii) : list token :=
  match w with [] => [] | _ => [word_token (string_of_list_ascii (rev w))] end.

Definition word_char (c : ascii) : bool := in_range "a" "z" c || in_range "A" "Z" c || Ascii.eqb c "_" || is_digit c.

(** [quoted]: between two quotes. *)
Fixpoint lex (quoted : bool) (w : list ascii) (s : string) : list token :=
  match s with
  | EmptyString => flush w
  | String c s =>
      if quoted then
        if Ascii.eqb c "'" then Quoted (string_of_list_ascii (rev w)) :: lex false [] s else lex true (c :: w) s
      else if word_char c then lex false (c :: w) s
      else flush w ++
        if Ascii.eqb c "'" then lex true [] s
        else if Ascii.eqb c "(" then LP :: lex false [] s
        else if Ascii.eqb c ")" then RP :: lex false [] s
        else if Ascii.eqb c "," then Comma :: lex false [] s
        else lex false [] s
  end.

Inductive Default := DWord (w : string) | DString (s : string) | DCall (f : string) (arg : option string).
Record Column := mkColumn {
  co_name : string; co_type : string; co_notnull : bool; co_unique : bool; co_primary : bool;
  co_default : option Default; co_references : option (string * string); co_cascade : bool
}.
#[export] Instance Default_eq_dec : EqDecision Default.
Proof. solve_decision. Defined.
#[export] Instance Column_eq_dec : EqDecision Column.
Proof. solve_decision. Defined.

Inductive Item := ColumnDef (c : Column) | PrimaryKey (cols : list string).
Inductive Stmt :=
| CreateTable (ifNotExists : bool) (name : string) (items : list Item)
| CreateIndex (ifNotExists : bool) (name table : string) (cols : list string)
| AddColumn (table : string) (ifNotExists : bool) (c : Column).

Definition with_notnull (c : Column) : Column :=
  mkColumn (co_name c) (co_type c) true (co_unique c) (co_primary c) (co_default c) (co_references c) (co_cascade c).
Definition with_unique (c : Column) : Column :=
  mkColumn (co_name c) (co_type c) (co_notnull c) true (co_primary c) (co_default c) (co_references c) (co_cascade c).
Definition with_primary (c : Column) : Column :=
  mkColumn (co_name c) (co_type c) (co_notnull c) (co_unique c) true (co_default c) (co_references c) (co_cascade c).
Definition with_default (d : Default) (c : Column) : Column :=
  mkColumn (co_name c) (co_type c) (co_notnull c) (co_unique c) (co_primary c) (Some d) (co_references c) (co_cascade c).
Definition with_references (t col : string) (cascade : bool) (c : Column) : Column :=
  mkColumn (co_name c) (co_type c) (co_notnull c) (co_unique c) (co_primary c) (co_default c) (Some (t, col)) cascade.

Fixpoint parse_constraints (c : Column) (ts : list token) : option Column :=
  match ts with
  | [] => Some c
  | Kw NOT :: Kw NULL :: ts => parse_constraints (with_notnull c) ts
  | Kw UNIQUE :: ts => parse_constraints (with_unique c) ts
  | Kw PRIMARY :: Kw KEY :: ts => parse_constraints (with_primary c) ts
  | Kw REFERENCES :: Id t :: LP :: Id col :: RP :: Kw ON :: Kw DELETE :: Kw CASCADE :: ts => parse_constraints (with_references t col true c) ts
  | Kw REFERENCES :: Id t :: LP :: Id col :: RP :: ts => parse_constraints (with_references t col false c) ts
  | Kw DEFAULT :: LP :: Id f :: LP :: Quoted a :: RP :: RP :: ts => parse_constraints (with_default (DCall f (Some a)) c) ts
  | Kw DEFAULT :: Id f :: LP :: RP :: ts => parse_constraints (with_default (DCall f None) c) ts
  | Kw DEFAULT :: Id w :: ts => parse_constraints (with_default (DWord w) c) ts
  | Kw DEFAULT :: Quoted s :: ts => parse_constraints (with_default (DString s) c) ts
  | _ => None
  end.

Definition parse_column (ts : list token) : option Column :=
  match ts with
  | Id name :: Id type :: ts => parse_constraints (mkColumn name type false false false None None false) ts
  | _ => None
  end.

(** [a, b, ...)] up to the end of the statement. *)
Fixpoint parse_names (ts : list token) : option (list string) :=
  match ts with
  | [Id a; RP] => Some [a]
  | Id a :: Comma :: ts => cons a <$> parse_names ts
  | _ => None
  end.

Definition parse_item (ts : list token) : option Item :=
  match ts with
  | Kw PRIMARY :: Kw KEY :: LP :: ts => PrimaryKey <$> parse_names ts
  | _ => ColumnDef <$> parse_column ts
  end.

(** The items between the parentheses of [CREATE TABLE], split at the commas of
    depth 0; the parenthesis that closes the list ends the statement. *)
Fixpoint split_items (depth : nat) (cur : list token) (ts : list token) : option (list (list token)) :=
  match ts with
  | [] => None
  | [RP] => match depth with O => Some [rev cur] | S _ => None end
  | t :: ts =>
      match t, depth with
      | Comma, O => cons (rev cur) <$> split_items O [] ts
      | RP, O => None
      | LP, _ => split_items (S depth) (t :: cur) ts
      | RP, S n => split_items n (t :: cur) ts
      | _, _ => split_items depth (t :: cur) ts
      end
  end.

Definition parse_stmt (ts : list token) : option Stmt :=
  match ts with
  | Kw CREATE :: Kw TABLE :: Kw IF_ :: Kw NOT :: Kw EXISTS :: Id name :: LP :: ts =>
      CreateTable true name <$> (split_items O [] ts ≫= mapM parse_item)
  | Kw CREATE :: Kw TABLE :: Id name :: LP :: ts => CreateTable false name <$> (split_items O [] ts ≫= mapM parse_item)
  | Kw CREATE :: Kw INDEX :: Kw IF_ :: Kw NOT :: Kw EXISTS :: Id name :: Kw ON :: Id table :: LP :: ts =>
      CreateIndex true name table <$> parse_names ts
  | Kw CREATE :: Kw INDEX :: Id name :: Kw ON :: Id table :: LP :: ts => CreateIndex false name table <$> parse_names ts
  | Kw ALTER :: Kw TABLE :: Id table :: Kw ADD :: Kw COLUMN :: Kw IF_ :: Kw NOT :: Kw EXISTS :: ts => AddColumn table true <$> parse_column ts
  | Kw ALTER :: Kw TABLE :: Id table :: Kw ADD :: Kw COLUMN :: ts => AddColumn table false <$> parse_column ts
  | _ => None
  end.
Definition parse_sql (sql : string) : option Stmt := parse_stmt (lex false [] sql).

(** ** Catalogs *)

Record Table := mkTable { tb_columns : list Column; tb_primary : list string }.
(** Tables and indexes by name, the latest first. *)
Record Schema := mkSchema { sc_tables : list (string * Table); sc_indexes : list (string * (string * list string)) }.
Definition no_schema : Schema := mkSchema [] [].
Fixpoint named {A} (name : string) (l : list (string * A)) : option A :=
  match l with [] => None | (n, a) :: l => if String.eqb name n then Some a else named name l end.
Fixpoint replace {A} (name : string) (a : A) (l : list (string * A)) : list (string * A) :=
  match l with [] => [] | (n, b) :: l => (n, if String.eqb name n then a else b) :: replace name a l end.

Definition item_column (i : Item) : list Column := match i with ColumnDef c => [c] | PrimaryKey _ => [] end.
Definition item_primary (i : Item) : list string :=
  match i with ColumnDef c => if co_primary c then [co_name c] else [] | PrimaryKey cols => cols end.
Definition table_of (items : list Item) : Table := mkTable (items ≫= item_column) (items ≫= item_primary).
Definition has_column (t : Table) (col : string) : bool := existsb (fun c => String.eqb (co_name c) col) (tb_columns t).

(** The two systems differ, here, in two ways: PostgreSQL requires the tables that a
    new column references, and only it has [ADD COLUMN IF NOT EXISTS]. *)
Inductive Dialect := SQLite | Postgres.

Definition refs_ok (d : Dialect) (s : Schema) (c : Column) : bool :=
  match d, co_references c with
  | Postgres, Some (t, col) => match named t (sc_tables s) with Some p => has_column p col | None => false end
  | _, _ => true
  end.

Definition exec_stmt (d : Dialect) (st : Stmt) (s : Schema) : result Schema :=
  match st with
  | CreateTable ifNotExists name items =>
      match named name (sc_tables s) with
      | Some _ => if ifNotExists then Ok s else Err (Errorf "table already exists")
      | None =>
          let t := table_of items in
          if forallb (refs_ok d s) (tb_columns t) then Ok (mkSchema ((name, t) :: sc_tables s) (sc_indexes s))
          else Err (Errorf "relation does not exist")
      end
  | CreateIndex ifNotExists name table cols =>
      match named name (sc_indexes s) with
      | Some _ => if ifNotExists then Ok s else Err (Errorf "index already exists")
      | None =>
          match named table (sc_tables s) with
          | None => Err (Errorf "no such table")
          | Some t => if forallb (has_column t) cols then Ok (mkSchema (sc_tables s) ((name, (table, cols)) :: sc_indexes s))
                      else Err (Errorf "no such column")
          end
      end
  | AddColumn table ifNotExists c =>
      match d, ifNotExists with
      | SQLite, true => Err (Errorf "syntax error")
      | _, _ =>
          match named table (sc_tables s) with
          | None => Err (Errorf "no such table")
          | Some t =>
              if has_column t (co_name c) then if ifNotExists then Ok s else Err (Errorf "duplicate column name")
              else if co_notnull c && match co_default c with None => true | Some _ => false end then Err (Errorf "Cannot add a NOT NULL column with default value NULL")
              else if refs_ok d s c then Ok (mkSchema (replace table (mkTable (tb_columns t ++ [c]) (tb_primary t)) (sc_tables s)) (sc_indexes s))
              else Err (Errorf "relation does not exist")
          end
      end
  end.

Definition exec_parsed (d : Dialect) (o : option Stmt) (s : Schema) : result Schema :=
  match o with Some st => exec_stmt d st s | None => Err (Errorf "syntax error") end.
Definition exec_sql (d : Dialect) (sql : string) (s : Schema) : result Schema := exec_parsed d (parse_sql sql) s.

(** ** Migrations *)

Record Migration := mkMigration { mg_Description : string; mg_SQL : string }.

Definition sqlite_migrations_1 : list Migration := [
  mkMigration "create tenants table"
"CREATE TABLE IF NOT EXISTS tenants (
		id TEXT PRIMARY KEY,
		name TEXT NOT NULL UNIQUE,
		slug TEXT NOT NULL UNIQUE,
		status TEXT NOT NULL DEFAULT 'active',
		settings TEXT,
		created_at DATETIME NOT NULL DEFAULT (datetime('now')),
		updated_at DATETIME NOT NULL DEFAULT (datetime('now'))
	)";
  mkMigration "create users table"
"CREATE TABLE IF NOT EXISTS users (
		id TEXT PRIMARY KEY,
		tenant_id TEXT REFERENCES tenants(id),
		email TEXT NOT NULL UNIQUE,
		name TEXT NOT NULL,
		password_hash TEXT NOT NULL,
		totp_secret TEXT,
		totp_enabled INTEGER NOT NULL DEFAULT 0,
		role TEXT NOT NULL,
		status TEXT NOT NULL DEFAULT 'active',
		last_login_at DATETIME,
		created_at DATETIME NOT NULL DEFAULT (datetime('now')),
		updated_at DATETIME NOT NULL DEFAULT (datetime('now'))
	)";
  mkMigration "create api_keys table"
"CREATE TABLE IF NOT EXISTS api_keys (
		id TEXT PRIMARY KEY,
		tenant_id TEXT NOT NULL REFERENCES tenants(id),
		user_id TEXT NOT NULL REFERENCES users(id),
		name TEXT NOT NULL,
		key_hash TEXT NOT NULL,
		key_prefix TEXT NOT NULL,
		role TEXT NOT NULL,
		expires_at DATETIME,
		last_used_at DATETIME,
		created_at DATETIME NOT NULL DEFAULT (datetime('now'))
	)";
  mkMigration "create ssh_keys table"
"CREATE TABLE IF NOT EXISTS ssh_keys (
		id TEXT PRIMARY KEY,
		name TEXT NOT NULL,
		public_key TEXT NOT NULL,
		private_key TEXT NOT NULL,
		fingerprint TEXT NOT NULL,
		created_at DATETIME NOT NULL DEFAULT (datetime('now')),
		last_rotated_at DATETIME NOT NULL DEFAULT (datetime('now'))
	)";
  mkMigration "create nodes table"
"CREATE TABLE IF NOT EXISTS nodes (
		id TEXT PRIMARY KEY,
		tenant_id TEXT REFERENCES tenants(id),
		name TEXT NOT NULL,
		hostname TEXT NOT NULL,
		public_ip TEXT NOT NULL,
		wireguard_ip TEXT,
		status TEXT NOT NULL DEFAULT 'pending',
		region TEXT,
		provider TEXT,
		ssh_port INTEGER NOT NULL DEFAULT 22,
		ssh_user TEXT NOT NULL DEFAULT 'root',
		ssh_key_id TEXT REFERENCES ssh_keys(id),
		binary_version TEXT,
		last_heartbeat DATETIME,
		metadata TEXT,
		created_at DATETIME NOT NULL DEFAULT (datetime('now')),
		updated_at DATETIME NOT NULL DEFAULT (datetime('now'))
	)";
  mkMigration "create node_capabilities table"
"CREATE TABLE IF NOT EXISTS node_capabilities (
		node_id TEXT NOT NULL REFERENCES nodes(id) ON DELETE CASCADE,
		capability TEXT NOT NULL,
		PRIMARY KEY (node_id, capability)
	)";
  mkMigration "create node_groups table"
"CREATE TABLE IF NOT EXISTS node_groups (
		id TEXT PRIMARY KEY,
		tenant_id TEXT NOT NULL REFERENCES tenants(id),
		name TEXT NOT NULL,
		description TEXT,
		created_at DATETIME NOT NULL DEFAULT (datetime('now')),
		updated_at DATETIME NOT NULL DEFAULT (datetime('now'))
	)";
  mkMigration "create node_group_memberships table"
"CREATE TABLE IF NOT EXISTS node_group_memberships (
		node_group_id TEXT NOT NULL REFERENCES node_groups(id) ON DELETE CASCADE,
		node_id TEXT NOT NULL REFERENCES nodes(id) ON DELETE CASCADE,
		PRIMARY KEY (node_group_id, node_id)
	)";
  mkMigration "create gateways table"
"CREATE TABLE IF NOT EXISTS gateways (
		id TEXT PRIMARY KEY,
		tenant_id TEXT NOT NULL REFERENCES tenants(id),
		name TEXT NOT NULL,
		public_ip TEXT,
		wireguard_ip TEXT,
		status TEXT NOT NULL DEFAULT 'pending',
		enrollment_token TEXT,
		last_heartbeat DATETIME,
		metadata TEXT,
		created_at DATETIME NOT NULL DEFAULT (datetime('now')),
		updated_at DATETIME NOT NULL DEFAULT (datetime('now'))
	)";
  mkMigration "create wireguard_peers table"
"CREATE TABLE IF NOT EXISTS wireguard_peers (
		id TEXT PRIMARY KEY,
		owner_type TEXT NOT NULL,
		owner_id TEXT NOT NULL,
		public_key TEXT NOT NULL,
		private_key TEXT NOT NULL,
		preshared_key TEXT,
		endpoint TEXT,
		last_rotated_at DATETIME NOT NULL DEFAULT (datetime('now')),
		created_at DATETIME NOT NULL DEFAULT (datetime('now')),
		updated_at DATETIME NOT NULL DEFAULT (datetime('now'))
	)"
].

Definition sqlite_migrations_2 : list Migration := [
  mkMigration "create wireguard_peer_allowed_ips table"
"CREATE TABLE IF NOT EXISTS wireguard_peer_allowed_ips (
		peer_id TEXT NOT NULL REFERENCES wireguard_peers(id) ON DELETE CASCADE,
		allowed_ip TEXT NOT NULL,
		PRIMARY KEY (peer_id, allowed_ip)
	)";
  mkMigration "create ip_allocations table"
"CREATE TABLE IF NOT EXISTS ip_allocations (
		id TEXT PRIMARY KEY,
		tenant_id TEXT NOT NULL REFERENCES tenants(id),
		prefix TEXT NOT NULL,
		type TEXT NOT NULL,
		purpose TEXT NOT NULL,
		status TEXT NOT NULL DEFAULT 'pending',
		created_at DATETIME NOT NULL DEFAULT (datetime('now')),
		updated_at DATETIME NOT NULL DEFAULT (datetime('now'))
	)";
  mkMigration "create bgp_sessions table"
"CREATE TABLE IF NOT EXISTS bgp_sessions (
		id TEXT PRIMARY KEY,
		node_id TEXT NOT NULL REFERENCES nodes(id),
		peer_asn INTEGER NOT NULL,
		peer_address TEXT NOT NULL,
		local_asn INTEGER NOT NULL,
		status TEXT NOT NULL DEFAULT 'configured',
		import_policy TEXT,
		export_policy TEXT,
		metadata TEXT,
		created_at DATETIME NOT NULL DEFAULT (datetime('now')),
		updated_at DATETIME NOT NULL DEFAULT (datetime('now'))
	)";
  mkMigration "create bgp_announced_prefixes table"
"CREATE TABLE IF NOT EXISTS bgp_announced_prefixes (
		session_id TEXT NOT NULL REFERENCES bgp_sessions(id) ON DELETE CASCADE,
		prefix TEXT NOT NULL,
		PRIMARY KEY (session_id, prefix)
	)";
  mkMigration "create dns_zones table"
"CREATE TABLE IF NOT EXISTS dns_zones (
		id TEXT PRIMARY KEY,
		tenant_id TEXT NOT NULL REFERENCES tenants(id),
		name TEXT NOT NULL,
		status TEXT NOT NULL DEFAULT 'active',
		serial INTEGER NOT NULL DEFAULT 1,
		ttl INTEGER NOT NULL DEFAULT 3600,
		node_group_id TEXT REFERENCES node_groups(id),
		created_at DATETIME NOT NULL DEFAULT (datetime('now')),
		updated_at DATETIME NOT NULL DEFAULT (datetime('now'))
	)";
  mkMigration "create dns_records table"
"CREATE TABLE IF NOT EXISTS dns_records (
		id TEXT PRIMARY KEY,
		zone_id TEXT NOT NULL REFERENCES dns_zones(id) ON DELETE CASCADE,
		name TEXT NOT NULL,
		type TEXT NOT NULL,
		value TEXT NOT NULL,
		ttl INTEGER,
		priority INTEGER,
		weight INTEGER,
		port INTEGER,
		created_at DATETIME NOT NULL DEFAULT (datetime('now')),
		updated_at DATETIME NOT NULL DEFAULT (datetime('now'))
	)";
  mkMigration "create cdn_sites table"
"CREATE TABLE IF NOT EXISTS cdn_sites (
		id TEXT PRIMARY KEY,
		tenant_id TEXT NOT NULL REFERENCES tenants(id),
		name TEXT NOT NULL,
		tls_mode TEXT NOT NULL DEFAULT 'auto',
		tls_cert_id TEXT,
		cache_enabled INTEGER NOT NULL DEFAULT 1,
		cache_ttl INTEGER NOT NULL DEFAULT 3600,
		compression_enabled INTEGER NOT NULL DEFAULT 1,
		rate_limit_rps INTEGER,
		node_group_id TEXT REFERENCES node_groups(id),
		header_rules TEXT,
		status TEXT NOT NULL DEFAULT 'active',
		created_at DATETIME NOT NULL DEFAULT (datetime('now')),
		updated_at DATETIME NOT NULL DEFAULT (datetime('now'))
	)";
  mkMigration "create cdn_site_domains table"
"CREATE TABLE IF NOT EXISTS cdn_site_domains (
		site_id TEXT NOT NULL REFERENCES cdn_sites(id) ON DELETE CASCADE,
		domain TEXT NOT NULL,
		PRIMARY KEY (site_id, domain)
	)";
  mkMigration "create cdn_origins table"
"CREATE TABLE IF NOT EXISTS cdn_origins (
		id TEXT PRIMARY KEY,
		site_id TEXT NOT NULL REFERENCES cdn_sites(id) ON DELETE CASCADE,
		address TEXT NOT NULL,
		scheme TEXT NOT NULL DEFAULT 'https',
		weight INTEGER NOT NULL DEFAULT 1,
		health_check_path TEXT,
		health_check_interval INTEGER,
		status TEXT NOT NULL DEFAULT 'unknown',
		created_at DATETIME NOT NULL DEFAULT (datetime('now')),
		updated_at DATETIME NOT NULL DEFAULT (datetime('now'))
	)";
  mkMigration "create routes table"
"CREATE TABLE IF NOT EXISTS routes (
		id TEXT PRIMARY KEY,
		tenant_id TEXT NOT NULL REFERENCES tenants(id),
		name TEXT NOT NULL,
		protocol TEXT NOT NULL,
		entry_ip TEXT NOT NULL,
		entry_port INTEGER,
		gateway_id TEXT NOT NULL REFERENCES gateways(id),
		destination_ip TEXT NOT NULL,
		destination_port INTEGER,
		node_group_id TEXT REFERENCES node_groups(id),
		status TEXT NOT NULL DEFAULT 'active',
		created_at DATETIME NOT NULL DEFAULT (datetime('now')),
		updated_at DATETIME NOT NULL DEFAULT (datetime('now'))
	)"
].

Definition sqlite_migrations_3 : list Migration := [
  mkMigration "create tls_certificates table"
"CREATE TABLE IF NOT EXISTS tls_certificates (
		id TEXT PRIMARY KEY,
		tenant_id TEXT NOT NULL REFERENCES tenants(id),
		cert_pem TEXT NOT NULL,
		key_pem TEXT NOT NULL,
		issuer TEXT,
		expires_at DATETIME NOT NULL,
		auto_renew INTEGER NOT NULL DEFAULT 0,
		created_at DATETIME NOT NULL DEFAULT (datetime('now')),
		updated_at DATETIME NOT NULL DEFAULT (datetime('now'))
	)";
  mkMigration "create tls_certificate_domains table"
"CREATE TABLE IF NOT EXISTS tls_certificate_domains (
		cert_id TEXT NOT NULL REFERENCES tls_certificates(id) ON DELETE CASCADE,
		domain TEXT NOT NULL,
		PRIMARY KEY (cert_id, domain)
	)";
  mkMigration "create audit_events table"
"CREATE TABLE IF NOT EXISTS audit_events (
		id TEXT PRIMARY KEY,
		tenant_id TEXT,
		user_id TEXT,
		api_key_id TEXT,
		action TEXT NOT NULL,
		resource TEXT NOT NULL,
		details TEXT,
		source_ip TEXT NOT NULL,
		timestamp DATETIME NOT NULL DEFAULT (datetime('now'))
	)";
  mkMigration "create audit_events tenant index"
"CREATE INDEX IF NOT EXISTS idx_audit_events_tenant ON audit_events(tenant_id)";
  mkMigration "create audit_events timestamp index"
"CREATE INDEX IF NOT EXISTS idx_audit_events_timestamp ON audit_events(timestamp)";
  mkMigration "create enrollment_tokens table"
"CREATE TABLE IF NOT EXISTS enrollment_tokens (
		id TEXT PRIMARY KEY,
		tenant_id TEXT NOT NULL REFERENCES tenants(id),
		target_type TEXT NOT NULL,
		target_id TEXT NOT NULL,
		token TEXT NOT NULL UNIQUE,
		expires_at DATETIME NOT NULL,
		used_at DATETIME,
		created_at DATETIME NOT NULL DEFAULT (datetime('now'))
	)";
  mkMigration "create provisioning_jobs table"
"CREATE TABLE IF NOT EXISTS provisioning_jobs (
		id TEXT PRIMARY KEY,
		node_id TEXT NOT NULL REFERENCES nodes(id),
		tenant_id TEXT REFERENCES tenants(id),
		action TEXT NOT NULL,
		status TEXT NOT NULL DEFAULT 'pending',
		current_step TEXT NOT NULL DEFAULT '',
		steps TEXT,
		error TEXT,
		initiated_by TEXT NOT NULL,
		started_at DATETIME,
		completed_at DATETIME,
		created_at DATETIME NOT NULL DEFAULT (datetime('now')),
		updated_at DATETIME NOT NULL DEFAULT (datetime('now'))
	)";
  mkMigration "create provisioning_jobs node index"
"CREATE INDEX IF NOT EXISTS idx_provisioning_jobs_node ON provisioning_jobs(node_id)";
  mkMigration "create provisioning_jobs status index"
"CREATE INDEX IF NOT EXISTS idx_provisioning_jobs_status ON provisioning_jobs(status)";
  mkMigration "create provisioning_jobs node+status index"
"CREATE INDEX IF NOT EXISTS idx_provisioning_jobs_node_status ON provisioning_jobs(node_id, status)";
  mkMigration "add last_config_sync column to nodes"
"ALTER TABLE nodes ADD COLUMN last_config_sync DATETIME";
  mkMigration "add last_config_sync column to gateways"
"ALTER TABLE gateways ADD COLUMN last_config_sync DATETIME";
  mkMigration "add waf_enabled to cdn_sites"
"ALTER TABLE cdn_sites ADD COLUMN waf_enabled INTEGER NOT NULL DEFAULT 0";
  mkMigration "add waf_mode to cdn_sites"
"ALTER TABLE cdn_sites ADD COLUMN waf_mode TEXT NOT NULL DEFAULT 'detect'";
  mkMigration "add transfer_allowed_ips to dns_zones"
"ALTER TABLE dns_zones ADD COLUMN transfer_allowed_ips TEXT NOT NULL DEFAULT '[]'";
  mkMigration "add wireguard_ipv6 column to nodes"
"ALTER TABLE nodes ADD COLUMN wireguard_ipv6 TEXT NOT NULL DEFAULT ''"
].
Definition postgres_migrations_1 : list Migration := [
  mkMigration "create tenants table"
"CREATE TABLE IF NOT EXISTS tenants (
		id TEXT PRIMARY KEY,
		name TEXT NOT NULL UNIQUE,
		slug TEXT NOT NULL UNIQUE,
		status TEXT NOT NULL DEFAULT 'active',
		settings JSONB,
		created_at TIMESTAMPTZ NOT NULL DEFAULT NOW(),
		updated_at TIMESTAMPTZ NOT NULL DEFAULT NOW()
	)";
  mkMigration "create users table"
"CREATE TABLE IF NOT EXISTS users (
		id TEXT PRIMARY KEY,
		tenant_id TEXT REFERENCES tenants(id),
		email TEXT NOT NULL UNIQUE,
		name TEXT NOT NULL,
		password_hash TEXT NOT NULL,
		totp_secret TEXT,
		totp_enabled BOOLEAN NOT NULL DEFAULT FALSE,
		role TEXT NOT NULL,
		status TEXT NOT NULL DEFAULT 'active',
		last_login_at TIMESTAMPTZ,
		created_at TIMESTAMPTZ NOT NULL DEFAULT NOW(),
		updated_at TIMESTAMPTZ NOT NULL DEFAULT NOW()
	)";
  mkMigration "create api_keys table"
"CREATE TABLE IF NOT EXISTS api_keys (
		id TEXT PRIMARY KEY,
		tenant_id TEXT NOT NULL REFERENCES tenants(id),
		user_id TEXT NOT NULL REFERENCES users(id),
		name TEXT NOT NULL,
		key_hash TEXT NOT NULL,
		key_prefix TEXT NOT NULL,
		role TEXT NOT NULL,
		expires_at TIMESTAMPTZ,
		last_used_at TIMESTAMPTZ,
		created_at TIMESTAMPTZ NOT NULL DEFAULT NOW()
	)";
  mkMigration "create ssh_keys table"
"CREATE TABLE IF NOT EXISTS ssh_keys (
		id TEXT PRIMARY KEY,
		name TEXT NOT NULL,
		public_key TEXT NOT NULL,
		private_key TEXT NOT NULL,
		fingerprint TEXT NOT NULL,
		created_at TIMESTAMPTZ NOT NULL DEFAULT NOW(),
		last_rotated_at TIMESTAMPTZ NOT NULL DEFAULT NOW()
	)";
  mkMigration "create nodes table"
"CREATE TABLE IF NOT EXISTS nodes (
		id TEXT PRIMARY KEY,
		tenant_id TEXT REFERENCES tenants(id),
		name TEXT NOT NULL,
		hostname TEXT NOT NULL,
		public_ip TEXT NOT NULL,
		wireguard_ip TEXT,
		status TEXT NOT NULL DEFAULT 'pending',
		region TEXT,
		provider TEXT,
		ssh_port INTEGER NOT NULL DEFAULT 22,
		ssh_user TEXT NOT NULL DEFAULT 'root',
		ssh_key_id TEXT REFERENCES ssh_keys(id),
		binary_version TEXT,
		last_heartbeat TIMESTAMPTZ,
		last_config_sync TIMESTAMPTZ,
		metadata JSONB,
		created_at TIMESTAMPTZ NOT NULL DEFAULT NOW(),
		updated_at TIMESTAMPTZ NOT NULL DEFAULT NOW()
	)";
  mkMigration "create node_capabilities table"
"CREATE TABLE IF NOT EXISTS node_capabilities (
		node_id TEXT NOT NULL REFERENCES nodes(id) ON DELETE CASCADE,
		capability TEXT NOT NULL,
		PRIMARY KEY (node_id, capability)
	)";
  mkMigration "create node_groups table"
"CREATE TABLE IF NOT EXISTS node_groups (
		id TEXT PRIMARY KEY,
		tenant_id TEXT NOT NULL REFERENCES tenants(id),
		name TEXT NOT NULL,
		description TEXT,
		created_at TIMESTAMPTZ NOT NULL DEFAULT NOW(),
		updated_at TIMESTAMPTZ NOT NULL DEFAULT NOW()
	)";
  mkMigration "create node_group_memberships table"
"CREATE TABLE IF NOT EXISTS node_group_memberships (
		node_group_id TEXT NOT NULL REFERENCES node_groups(id) ON DELETE CASCADE,
		node_id TEXT NOT NULL REFERENCES nodes(id) ON DELETE CASCADE,
		PRIMARY KEY (node_group_id, node_id)
	)";
  mkMigration "create gateways table"
"CREATE TABLE IF NOT EXISTS gateways (
		id TEXT PRIMARY KEY,
		tenant_id TEXT NOT NULL REFERENCES tenants(id),
		name TEXT NOT NULL,
		public_ip TEXT,
		wireguard_ip TEXT,
		status TEXT NOT NULL DEFAULT 'pending',
		enrollment_token TEXT,
		last_heartbeat TIMESTAMPTZ,
		last_config_sync TIMESTAMPTZ,
		metadata JSONB,
		created_at TIMESTAMPTZ NOT NULL DEFAULT NOW(),
		updated_at TIMESTAMPTZ NOT NULL DEFAULT NOW()
	)";
  mkMigration "create wireguard_peers table"
"CREATE TABLE IF NOT EXISTS wireguard_peers (
		id TEXT PRIMARY KEY,
		owner_type TEXT NOT NULL,
		owner_id TEXT NOT NULL,
		public_key TEXT NOT NULL,
		private_key TEXT NOT NULL,
		preshared_key TEXT,
		endpoint TEXT,
		last_rotated_at TIMESTAMPTZ NOT NULL DEFAULT NOW(),
		created_at TIMESTAMPTZ NOT NULL DEFAULT NOW(),
		updated_at TIMESTAMPTZ NOT NULL DEFAULT NOW()
	)"
].

Definition postgres_migrations_2 : list Migration := [
  mkMigration "create wireguard_peer_allowed_ips table"
"CREATE TABLE IF NOT EXISTS wireguard_peer_allowed_ips (
		peer_id TEXT NOT NULL REFERENCES wireguard_peers(id) ON DELETE CASCADE,
		allowed_ip TEXT NOT NULL,
		PRIMARY KEY (peer_id, allowed_ip)
	)";
  mkMigration "create ip_allocations table"
"CREATE TABLE IF NOT EXISTS ip_allocations (
		id TEXT PRIMARY KEY,
		tenant_id TEXT NOT NULL REFERENCES tenants(id),
		prefix TEXT NOT NULL,
		type TEXT NOT NULL,
		purpose TEXT NOT NULL,
		status TEXT NOT NULL DEFAULT 'pending',
		created_at TIMESTAMPTZ NOT NULL DEFAULT NOW(),
		updated_at TIMESTAMPTZ NOT NULL DEFAULT NOW()
	)";
  mkMigration "create bgp_sessions table"
"CREATE TABLE IF NOT EXISTS bgp_sessions (
		id TEXT PRIMARY KEY,
		node_id TEXT NOT NULL REFERENCES nodes(id),
		peer_asn INTEGER NOT NULL,
		peer_address TEXT NOT NULL,
		local_asn INTEGER NOT NULL,
		status TEXT NOT NULL DEFAULT 'configured',
		import_policy TEXT,
		export_policy TEXT,
		metadata JSONB,
		created_at TIMESTAMPTZ NOT NULL DEFAULT NOW(),
		updated_at TIMESTAMPTZ NOT NULL DEFAULT NOW()
	)";
  mkMigration "create bgp_announced_prefixes table"
"CREATE TABLE IF NOT EXISTS bgp_announced_prefixes (
		session_id TEXT NOT NULL REFERENCES bgp_sessions(id) ON DELETE CASCADE,
		prefix TEXT NOT NULL,
		PRIMARY KEY (session_id, prefix)
	)";
  mkMigration "create dns_zones table"
"CREATE TABLE IF NOT EXISTS dns_zones (
		id TEXT PRIMARY KEY,
		tenant_id TEXT NOT NULL REFERENCES tenants(id),
		name TEXT NOT NULL,
		status TEXT NOT NULL DEFAULT 'active',
		serial INTEGER NOT NULL DEFAULT 1,
		ttl INTEGER NOT NULL DEFAULT 3600,
		node_group_id TEXT REFERENCES node_groups(id),
		created_at TIMESTAMPTZ NOT NULL DEFAULT NOW(),
		updated_at TIMESTAMPTZ NOT NULL DEFAULT NOW()
	)";
  mkMigration "create dns_records table"
"CREATE TABLE IF NOT EXISTS dns_records (
		id TEXT PRIMARY KEY,
		zone_id TEXT NOT NULL REFERENCES dns_zones(id) ON DELETE CASCADE,
		name TEXT NOT NULL,
		type TEXT NOT NULL,
		value TEXT NOT NULL,
		ttl INTEGER,
		priority INTEGER,
		weight INTEGER,
		port INTEGER,
		created_at TIMESTAMPTZ NOT NULL DEFAULT NOW(),
		updated_at TIMESTAMPTZ NOT NULL DEFAULT NOW()
	)";
  mkMigration "create cdn_sites table"
"CREATE TABLE IF NOT EXISTS cdn_sites (
		id TEXT PRIMARY KEY,
		tenant_id TEXT NOT NULL REFERENCES tenants(id),
		name TEXT NOT NULL,
		tls_mode TEXT NOT NULL DEFAULT 'auto',
		tls_cert_id TEXT,
		cache_enabled BOOLEAN NOT NULL DEFAULT TRUE,
		cache_ttl INTEGER NOT NULL DEFAULT 3600,
		compression_enabled BOOLEAN NOT NULL DEFAULT TRUE,
		rate_limit_rps INTEGER,
		node_group_id TEXT REFERENCES node_groups(id),
		header_rules JSONB,
		status TEXT NOT NULL DEFAULT 'active',
		created_at TIMESTAMPTZ NOT NULL DEFAULT NOW(),
		updated_at TIMESTAMPTZ NOT NULL DEFAULT NOW()
	)";
  mkMigration "create cdn_site_domains table"
"CREATE TABLE IF NOT EXISTS cdn_site_domains (
		site_id TEXT NOT NULL REFERENCES cdn_sites(id) ON DELETE CASCADE,
		domain TEXT NOT NULL,
		PRIMARY KEY (site_id, domain)
	)";
  mkMigration "create cdn_origins table"
"CREATE TABLE IF NOT EXISTS cdn_origins (
		id TEXT PRIMARY KEY,
		site_id TEXT NOT NULL REFERENCES cdn_sites(id) ON DELETE CASCADE,
		address TEXT NOT NULL,
		scheme TEXT NOT NULL DEFAULT 'https',
		weight INTEGER NOT NULL DEFAULT 1,
		health_check_path TEXT,
		health_check_interval INTEGER,
		status TEXT NOT NULL DEFAULT 'unknown',
		created_at TIMESTAMPTZ NOT NULL DEFAULT NOW(),
		updated_at TIMESTAMPTZ NOT NULL DEFAULT NOW()
	)";
  mkMigration "create routes table"
"CREATE TABLE IF NOT EXISTS routes (
		id TEXT PRIMARY KEY,
		tenant_id TEXT NOT NULL REFERENCES tenants(id),
		name TEXT NOT NULL,
		protocol TEXT NOT NULL,
		entry_ip TEXT NOT NULL,
		entry_port INTEGER,
		gateway_id TEXT NOT NULL REFERENCES gateways(id),
		destination_ip TEXT NOT NULL,
		destination_port INTEGER,
		node_group_id TEXT REFERENCES node_groups(id),
		status TEXT NOT NULL DEFAULT 'active',
		created_at TIMESTAMPTZ NOT NULL DEFAULT NOW(),
		updated_at TIMESTAMPTZ NOT NULL DEFAULT NOW()
	)"
].

Definition postgres_migrations_3 : list Migration := [
  mkMigration "create tls_certificates table"
"CREATE TABLE IF NOT EXISTS tls_certificates (
		id TEXT PRIMARY KEY,
		tenant_id TEXT NOT NULL REFERENCES tenants(id),
		cert_pem TEXT NOT NULL,
		key_pem TEXT NOT NULL,
		issuer TEXT,
		expires_at TIMESTAMPTZ NOT NULL,
		auto_renew BOOLEAN NOT NULL DEFAULT FALSE,
		created_at TIMESTAMPTZ NOT NULL DEFAULT NOW(),
		updated_at TIMESTAMPTZ NOT NULL DEFAULT NOW()
	)";
  mkMigration "create tls_certificate_domains table"
"CREATE TABLE IF NOT EXISTS tls_certificate_domains (
		cert_id TEXT NOT NULL REFERENCES tls_certificates(id) ON DELETE CASCADE,
		domain TEXT NOT NULL,
		PRIMARY KEY (cert_id, domain)
	)";
  mkMigration "create audit_events table"
"CREATE TABLE IF NOT EXISTS audit_events (
		id TEXT PRIMARY KEY,
		tenant_id TEXT,
		user_id TEXT,
		api_key_id TEXT,
		action TEXT NOT NULL,
		resource TEXT NOT NULL,
		details JSONB,
		source_ip TEXT NOT NULL,
		timestamp TIMESTAMPTZ NOT NULL DEFAULT NOW()
	)";
  mkMigration "create audit_events tenant index"
"CREATE INDEX IF NOT EXISTS idx_audit_events_tenant ON audit_events(tenant_id)";
  mkMigration "create audit_events timestamp index"
"CREATE INDEX IF NOT EXISTS idx_audit_events_timestamp ON audit_events(timestamp)";
  mkMigration "create enrollment_tokens table"
"CREATE TABLE IF NOT EXISTS enrollment_tokens (
		id TEXT PRIMARY KEY,
		tenant_id TEXT NOT NULL REFERENCES tenants(id),
		target_type TEXT NOT NULL,
		target_id TEXT NOT NULL,
		token TEXT NOT NULL UNIQUE,
		expires_at TIMESTAMPTZ NOT NULL,
		used_at TIMESTAMPTZ,
		created_at TIMESTAMPTZ NOT NULL DEFAULT NOW()
	)";
  mkMigration "create provisioning_jobs table"
"CREATE TABLE IF NOT EXISTS provisioning_jobs (
		id TEXT PRIMARY KEY,
		node_id TEXT NOT NULL REFERENCES nodes(id),
		tenant_id TEXT REFERENCES tenants(id),
		action TEXT NOT NULL,
		status TEXT NOT NULL DEFAULT 'pending',
		current_step TEXT NOT NULL DEFAULT '',
		steps JSONB,
		error TEXT,
		initiated_by TEXT NOT NULL,
		started_at TIMESTAMPTZ,
		completed_at TIMESTAMPTZ,
		created_at TIMESTAMPTZ NOT NULL DEFAULT NOW(),
		updated_at TIMESTAMPTZ NOT NULL DEFAULT NOW()
	)";
  mkMigration "create provisioning_jobs node index"
"CREATE INDEX IF NOT EXISTS idx_provisioning_jobs_node ON provisioning_jobs(node_id)";
  mkMigration "create provisioning_jobs status index"
"CREATE INDEX IF NOT EXISTS idx_provisioning_jobs_status ON provisioning_jobs(status)";
  mkMigration "create provisioning_jobs node+status index"
"CREATE INDEX IF NOT EXISTS idx_provisioning_jobs_node_status ON provisioning_jobs(node_id, status)";
  mkMigration "add waf_enabled to cdn_sites"
"ALTER TABLE cdn_sites ADD COLUMN IF NOT EXISTS waf_enabled BOOLEAN NOT NULL DEFAULT FALSE";
  mkMigration "add waf_mode to cdn_sites"
"ALTER TABLE cdn_sites ADD COLUMN IF NOT EXISTS waf_mode TEXT NOT NULL DEFAULT 'detect'";
  mkMigration "add transfer_allowed_ips to dns_zones"
"ALTER TABLE dns_zones ADD COLUMN IF NOT EXISTS transfer_allowed_ips TEXT NOT NULL DEFAULT '[]'";
  mkMigration "add wireguard_ipv6 column to nodes"
"ALTER TABLE nodes ADD COLUMN IF NOT EXISTS wireguard_ipv6 TEXT NOT NULL DEFAULT ''"
].
Definition sqlite_migrations : list Migration := sqlite_migrations_1 ++ sqlite_migrations_2 ++ sqlite_migrations_3.
Definition postgres_migrations : list Migration := postgres_migrations_1 ++ postgres_migrations_2 ++ postgres_migrations_3.

Definition sqlite_bootstrap : string :=
"CREATE TABLE IF NOT EXISTS schema_versions (
		version INTEGER PRIMARY KEY,
		description TEXT NOT NULL,
		applied_at DATETIME NOT NULL DEFAULT (datetime('now'))
	)".
Definition postgres_bootstrap : string :=
"CREATE TABLE IF NOT EXISTS schema_versions (
		version INTEGER PRIMARY KEY,
		description TEXT NOT NULL,
		applied_at TIMESTAMPTZ NOT NULL DEFAULT NOW()
	)".

(** ** Migrate *)

(** What a driver brings. *)
Record Driver := mkDriver { dr_dialect : Dialect; dr_bootstrap : string; dr_migrations : list Migration }.
Definition sqlite_driver : Driver := mkDriver SQLite sqlite_bootstrap sqlite_migrations.
Definition postgres_driver : Driver := mkDriver Postgres postgres_bootstrap postgres_migrations.

(** A database: its catalog and the rows of [schema_versions]. *)
Record Catalog := mkCatalog { ct_schema : Schema; ct_versions : gmap Z string }.
Definition empty_catalog : Catalog := mkCatalog no_schema ∅.

Section migrate.
Context (dr : Driver).

Definition db_exec (sql : string) : stM Catalog unit := fun c =>
  match exec_sql (dr_dialect dr) sql (ct_schema c) with
  | Ok s => (Ok tt, mkCatalog s (ct_versions c))
  | Err e => (Err e, c)
  end.

(** [SELECT COUNT] of a version. *)
Definition version_count (version : Z) : stM Catalog Z := fun c =>
  match named "schema_versions" (sc_tables (ct_schema c)) with
  | None => (Err (Errorf "no such table"), c)
  | Some _ => (Ok (match ct_versions c !! version with Some _ => 1 | None => 0 end), c)
  end.

Definition record_version (version : Z) (description : string) : stM Catalog unit := fun c =>
  match named "schema_versions" (sc_tables (ct_schema c)), ct_versions c !! version with
  | Some _, None => (Ok tt, mkCatalog (ct_schema c) (<[version := description]> (ct_versions c)))
  | Some _, Some _ => (Err (Errorf "UNIQUE constraint failed"), c)
  | None, _ => (Err (Errorf "no such table"), c)
  end.

Fixpoint migrate_loop (i : Z) (ms : list Migration) : stM Catalog unit :=
  match ms with
  | [] => mret tt
  | m :: ms =>
      let version := i + 1 in
      exists_ ← wrap ("check schema version " +:+ Itoa version) (version_count version);
      if 0 <? exists_ then migrate_loop (i + 1) ms
      else (_ ← wrap ("migration " +:+ Itoa version +:+ " (" +:+ mg_Description m +:+ ")") (db_exec (mg_SQL m));
            _ ← wrap ("record schema version " +:+ Itoa version) (record_version version (mg_Description m));
            migrate_loop (i + 1) ms)
  end.

Definition Migrate : stM Catalog unit :=
  _ ← wrap "create schema_versions table" (db_exec (dr_bootstrap dr)); migrate_loop 0 (dr_migrations dr).

(** [SELECT COALESCE(MAX(version), 0)] *)
Definition SchemaVersion : stM Catalog Z := fun c =>
  match named "schema_versions" (sc_tables (ct_schema c)) with
  | None => (Err (Wrapf "query schema version" (Errorf "no such table")), c)
  | Some _ => (Ok (foldr Z.max 0 (map_to_list (ct_versions c)).*1), c)
  end.
End migrate.

(** ** Runs *)

(** Where a process that runs [Migrate] stands: its next call, [i] counting migrations
    from 0; it has returned nil, or has failed or was killed. *)
Inductive place := AtBootstrap | AtCheck (i : nat) | AtApply (i : nat) | AtRecord (i : nat) | Finished | Stopped.
#[export] Instance place_eq_dec : EqDecision place.
Proof. solve_decision. Defined.

Section runs.
Context (dr : Driver).

Definition mig_step (p : place) (c : Catalog) : place * Catalog :=
  match p with
  | AtBootstrap => match db_exec dr (dr_bootstrap dr) c with (Ok _, c) => (AtCheck 0, c) | (Err _, c) => (Stopped, c) end
  | AtCheck i =>
      match dr_migrations dr !! i with
      | None => (Finished, c)
      | Some _ =>
          match version_count (Z.of_nat i + 1) c with
          | (Ok n, c) => (if 0 <? n then AtCheck (S i) else AtApply i, c)
          | (Err _, c) => (Stopped, c)
          end
      end
  | AtApply i =>
      match dr_migrations dr !! i with
      | None => (Stopped, c)
      | Some m => match db_exec dr (mg_SQL m) c with (Ok _, c) => (AtRecord i, c) | (Err _, c) => (Stopped, c) end
      end
  | AtRecord i =>
      match dr_migrations dr !! i with
      | None => (Stopped, c)
      | Some m => match record_version (Z.of_nat i + 1) (mg_Description m) c with (Ok _, c) => (AtCheck (S i), c) | (Err _, c) => (Stopped, c) end
      end
  | Finished => (Finished, c)
  | Stopped => (Stopped, c)
  end.

(** Processes on one database: one starts, one makes its next call, one is killed. *)
Inductive mig_cluster : Catalog * list place -> Catalog * list place -> Prop :=
| mc_start c ps : mig_cluster (c, ps) (c, ps ++ [AtBootstrap])
| mc_call i p c ps : ps !! i = Some p -> mig_cluster (c, ps) ((mig_step p c).2, <[i := (mig_step p c).1]> ps)
| mc_kill i c ps : mig_cluster (c, ps) (c, <[i := Stopped]> ps).

Definition alone (x y : place * Catalog) : Prop := y = mig_step x.1 x.2.

Lemma migrate_loop_steps i ms c : drop i (dr_migrations dr) = ms ->
  exists p, rtc alone (AtCheck i, c) (p, (migrate_loop dr (Z.of_nat i) ms c).2) /\
    p = match (migrate_loop dr (Z.of_nat i) ms c).1 with Ok _ => Finished | Err _ => Stopped end.
Proof.
  revert i c. induction ms as [|m ms IH]; intros i c Hd.
  - exists Finished. split; [|done]. apply rtc_once. unfold alone. cbn. by rewrite <- (Nat.add_0_r i), <- lookup_drop, Hd.
  - assert (Hm : dr_migrations dr !! i = Some m) by (rewrite <- (Nat.add_0_r i), <- lookup_drop; by rewrite Hd).
    assert (Hd' : drop (S i) (dr_migrations dr) = ms) by (by rewrite <- Nat.add_1_r, <- drop_drop, Hd).
    cbn [migrate_loop]. unfold mbind, stM_bind, wrap.
    assert (H1 : forall x, x = mig_step (AtCheck i) c -> alone (AtCheck i, c) x) by done. cbn [mig_step] in H1. rewrite Hm in H1.
    destruct (version_count (Z.of_nat i + 1) c) as [[n|e] c1]; [|exists Stopped; split; [apply rtc_once; by apply H1|done]].
    destruct (0 <? n).
    + destruct (IH (S i) c1 Hd') as (p & Hr & Hp). replace (Z.of_nat (S i)) with (Z.of_nat i + 1) in Hr, Hp by lia.
      exists p. split; [eapply rtc_l; [by apply H1|done]|done].
    + assert (H2 : forall x, x = mig_step (AtApply i) c1 -> alone (AtApply i, c1) x) by done. cbn [mig_step] in H2. rewrite Hm in H2.
      destruct (db_exec dr (mg_SQL m) c1) as [[u|e] c2]; [|exists Stopped; split; [eapply rtc_l; [by apply H1|apply rtc_once; by apply H2]|done]].
      assert (H3 : forall x, x = mig_step (AtRecord i) c2 -> alone (AtRecord i, c2) x) by done. cbn [mig_step] in H3. rewrite Hm in H3.
      destruct (record_version _ _ c2) as [[v|e] c3];
        [|exists Stopped; split; [eapply rtc_l; [by apply H1|eapply rtc_l; [by apply H2|apply rtc_once; by apply H3]]|done]].
      destruct (IH (S i) c3 Hd') as (p & Hr & Hp). replace (Z.of_nat (S i)) with (Z.of_nat i + 1) in Hr, Hp by lia.
      exists p. split; [|done]. eapply rtc_l; [by apply H1|]. eapply rtc_l; [by apply H2|]. eapply rtc_l; [by apply H3|done].
Qed.

Lemma Migrate_steps c :
  rtc alone (AtBootstrap, c) (match (Migrate dr c).1 with Ok _ => Finished | Err _ => Stopped end, (Migrate dr c).2).
Proof.
  unfold Migrate, mbind, stM_bind, wrap.
  assert (H1 : forall x, x = mig_step AtBootstrap c -> alone (AtBootstrap, c) x) by done. cbn [mig_step] in H1.
  destruct (db_exec dr (dr_bootstrap dr) c) as [[u|e] c1]; [|apply rtc_once; by apply H1].
  destruct (migrate_loop_steps 0 (dr_migrations dr) c1 eq_refl) as (p & Hr & ->). eapply rtc_l; [by apply H1|done].
Qed.

End runs.

(** ** Schemas only grow *)

Lemma named_replace {A} n (a : A) l m : named m (replace n a l) = if String.eqb n m then match named m l with Some _ => Some a | None => None end else named m l.
Proof.
  induction l as [|[x b] l IH]; cbn; [by destruct (String.eqb n m)|].
  rewrite IH. destruct (String.eqb_spec m x) as [->|Hx]; [|done]. by destruct (String.eqb n x).
Qed.

Definition schema_le (s s' : Schema) : Prop :=
  (forall t tb, named t (sc_tables s) = Some tb -> exists tb', named t (sc_tables s') = Some tb' /\
     forall col, has_column tb col = true -> has_column tb' col = true) /\
  (forall i x, named i (sc_indexes s) = Some x -> named i (sc_indexes s') = Some x).

#[export] Instance schema_le_refl : Reflexive schema_le.
Proof. intros s. split; [intros t tb H; by exists tb|done]. Qed.
#[export] Instance schema_le_trans : Transitive schema_le.
Proof.
  intros s1 s2 s3 [T1 I1] [T2 I2]. split; [|auto]. intros t tb H. destruct (T1 _ _ H) as (tb' & H' & C1).
  destruct (T2 _ _ H') as (tb'' & H'' & C2). exists tb''. auto.
Qed.

Lemma has_column_app t c col : has_column (mkTable (tb_columns t ++ [c]) (tb_primary t)) col = has_column t col || String.eqb (co_name c) col.
Proof. unfold has_column. cbn. rewrite existsb_app. cbn. by rewrite orb_false_r. Qed.

(** What the statement is to establish is there. *)
Definition satisfied (st : Stmt) (s : Schema) : Prop :=
  match st with
  | CreateTable _ name _ => exists tb, named name (sc_tables s) = Some tb
  | CreateIndex _ name _ _ => exists x, named name (sc_indexes s) = Some x
  | AddColumn table _ c => exists tb, named table (sc_tables s) = Some tb /\ has_column tb (co_name c) = true
  end.

Lemma satisfied_le st s s' : schema_le s s' -> satisfied st s -> satisfied st s'.
Proof.
  intros [HT HI]. destruct st as [b n items|b n t cols|t b c]; cbn.
  - intros (tb & H). destruct (HT _ _ H) as (tb' & H' & _). by exists tb'.
  - intros (x & H). exists x. auto.
  - intros (tb & H & Hc). destruct (HT _ _ H) as (tb' & H' & HC). exists tb'. auto.
Qed.

Lemma exec_stmt_grows d st s s' : exec_stmt d st s = Ok s' -> schema_le s s' /\ satisfied st s'.
Proof.
  destruct st as [b n items|b n t cols|t b c]; cbn.
  - destruct (named n (sc_tables s)) eqn:E; [destruct b; [|done]; intros [= <-]; split; [done|eauto]|].
    destruct (forallb _ _); [|done]. intros [= <-]. cbn. rewrite String.eqb_refl. split; [|eauto]. split; [|done].
    cbn. intros t tb H. destruct (String.eqb_spec t n) as [->|]; [congruence|]. eauto.
  - destruct (named n (sc_indexes s)) eqn:E; [destruct b; [|done]; intros [= <-]; split; [done|eauto]|].
    destruct (named t (sc_tables s)); [|done]. destruct (forallb _ _); [|done]. intros [= <-]. cbn. rewrite String.eqb_refl.
    split; [|eauto]. split; [intros ? tb ?; by exists tb|]. cbn. intros i x H. destruct (String.eqb_spec i n) as [->|]; [congruence|done].
  - assert (Hx : match named t (sc_tables s) with
      | None => Err (Errorf "no such table")
      | Some tb => if has_column tb (co_name c) then if b then Ok s else Err (Errorf "duplicate column name")
          else if co_notnull c && match co_default c with None => true | Some _ => false end then Err (Errorf "Cannot add a NOT NULL column with default value NULL")
          else if refs_ok d s c then Ok (mkSchema (replace t (mkTable (tb_columns tb ++ [c]) (tb_primary tb)) (sc_tables s)) (sc_indexes s))
          else Err (Errorf "relation does not exist")
      end = Ok s' -> schema_le s s' /\ satisfied (AddColumn t b c) s').
    { cbn. destruct (named t (sc_tables s)) as [tb|] eqn:E; [|done].
      destruct (has_column tb (co_name c)) eqn:Hc; [destruct b; [|done]; intros [= <-]; split; [done|eauto]|].
      destruct (co_notnull c && _); [done|]. destruct (refs_ok d s c); [|done]. intros [= <-]. cbn. split.
      - split; [|done]. cbn. intros t' tb' H. rewrite named_replace. destruct (String.eqb_spec t t') as [<-|]; [|by exists tb'].
        rewrite H. assert (tb' = tb) as -> by congruence. eexists. split; [done|]. intros col Hcol. by rewrite has_column_app, Hcol.
      - rewrite named_replace, String.eqb_refl, E. eexists. split; [done|]. by rewrite has_column_app, String.eqb_refl, orb_true_r. }
    destruct d, b; done || exact Hx.
Qed.

(** A statement guarded by [IF NOT EXISTS]. *)
Definition is_guarded (st : Stmt) : bool :=
  match st with CreateTable b _ _ | CreateIndex b _ _ _ | AddColumn _ b _ => b end.

(** A guarded statement that was accepted once does nothing when it is repeated. *)
Lemma guarded_repeats d st s0 s1 s : is_guarded st = true -> exec_stmt d st s0 = Ok s1 -> schema_le s1 s -> exec_stmt d st s = Ok s.
Proof.
  intros Hg H1 Hle. destruct (exec_stmt_grows _ _ _ _ H1) as [_ Hsat]. apply (satisfied_le _ _ _ Hle) in Hsat.
  destruct st as [b n items|b n t cols|t b c]; cbn in *; subst b.
  - by destruct Hsat as [tb ->].
  - by destruct Hsat as [tb ->].
  - destruct d; [done|]. by destruct Hsat as (tb & -> & ->).
Qed.

Definition guarded (sql : string) : bool := match parse_sql sql with Some st => is_guarded st | None => false end.

Lemma exec_sql_grows d sql s s' : exec_sql d sql s = Ok s' -> schema_le s s'.
Proof. unfold exec_sql, exec_parsed. destruct (parse_sql sql); [|done]. intros H. by eapply exec_stmt_grows. Qed.
Lemma guarded_sql_repeats d sql s0 s1 s : guarded sql = true -> exec_sql d sql s0 = Ok s1 -> schema_le s1 s -> exec_sql d sql s = Ok s.
Proof. unfold guarded, exec_sql, exec_parsed. destruct (parse_sql sql); [|done]. apply guarded_repeats. Qed.

(** ** Interrupted and concurrent runs *)

Section replay.
Context (dr : Driver).
Notation n := (length (dr_migrations dr)).

Definition exec_all (ms : list Migration) (r : result Schema) : result Schema :=
  foldl (fun r m => match r with Ok s => exec_sql (dr_dialect dr) (mg_SQL m) s | Err e => Err e end) r ms.
(** The schema after the first [k] migrations. *)
Definition schema_after (k : nat) : result Schema :=
  exec_all (take k (dr_migrations dr)) (exec_sql (dr_dialect dr) (dr_bootstrap dr) no_schema).

(** The statements succeed in their order on an empty database, and the first creates
    the table of versions if it is not there. *)
Definition in_order : bool :=
  match schema_after n with Ok _ => true | Err _ => false end &&
  match parse_sql (dr_bootstrap dr) with Some (CreateTable true name _) => String.eqb name "schema_versions" | _ => false end.
Definition all_guarded : bool := forallb (fun m => guarded (mg_SQL m)) (dr_migrations dr).

Lemma schema_after_S k m s : dr_migrations dr !! k = Some m -> schema_after k = Ok s ->
  schema_after (S k) = exec_sql (dr_dialect dr) (mg_SQL m) s.
Proof.
  intros Hm Hs. unfold schema_after in *. rewrite (take_S_r _ _ _ Hm). unfold exec_all in *. rewrite foldl_app, Hs. done.
Qed.

Lemma exec_all_err ms e : exec_all ms (Err e) = Err e.
Proof. by induction ms. Qed.

Context (Hord : in_order = true).

Lemma bootstrap_stmt : exists items, parse_sql (dr_bootstrap dr) = Some (CreateTable true "schema_versions" items).
Proof using Hord.
  apply andb_true_iff in Hord as [_ H]. destruct (parse_sql _) as [[b nm items|?|?]|]; try done. destruct b; [|done].
  apply String.eqb_eq in H as ->. eauto.
Qed.

Lemma schema_after_ok k : exists s, schema_after k = Ok s.
Proof using Hord.
  apply andb_true_iff in Hord as [H _]. unfold schema_after in *. rewrite firstn_all in H.
  rewrite <- (take_drop k (dr_migrations dr)) in H. unfold exec_all in *. rewrite foldl_app in H.
  destruct (foldl _ _ (take k _)) as [s|e]; [by exists s|]. fold (exec_all (drop k (dr_migrations dr)) (Err e)) in H. by rewrite exec_all_err in H.
Qed.

Lemma schema_after_le i j s s' : (i <= j)%nat -> schema_after i = Ok s -> schema_after j = Ok s' -> schema_le s s'.
Proof using Hord.
  intros Hij. revert s'. induction Hij as [|j Hij IH]; intros s' Hi Hj; [rewrite Hi in Hj; by injection Hj as ->|].
  destruct (schema_after_ok j) as [sj Hsj]. etrans; [by apply IH|]. destruct (dr_migrations dr !! j) as [m|] eqn:Hm.
  - rewrite (schema_after_S _ _ _ Hm Hsj) in Hj. by eapply exec_sql_grows.
  - apply lookup_ge_None in Hm. unfold schema_after in Hj, Hsj. rewrite take_ge in Hj, Hsj by lia. rewrite Hj in Hsj. by injection Hsj as ->.
Qed.

Lemma bootstrap_after j s : schema_after j = Ok s ->
  exec_sql (dr_dialect dr) (dr_bootstrap dr) s = Ok s /\ is_Some (named "schema_versions" (sc_tables s)).
Proof using Hord.
  intros Hs. destruct bootstrap_stmt as [items Hb]. destruct (schema_after_ok 0) as [s0 Hs0].
  pose proof (schema_after_le _ _ _ _ (Nat.le_0_l j) Hs0 Hs) as Hle. change (schema_after 0) with (exec_sql (dr_dialect dr) (dr_bootstrap dr) no_schema) in Hs0.
  split; [eapply guarded_sql_repeats; [|done|done]; unfold guarded; by rewrite Hb|].
  unfold exec_sql, exec_parsed in Hs0. rewrite Hb in Hs0. destruct (exec_stmt_grows _ _ _ _ Hs0) as [_ Hsat].
  apply (satisfied_le _ _ _ Hle) in Hsat. destruct Hsat as [tb Htb]. by exists tb.
Qed.

Lemma migration_repeats i j m s : all_guarded = true -> dr_migrations dr !! i = Some m -> (i < j)%nat -> schema_after j = Ok s ->
  exec_sql (dr_dialect dr) (mg_SQL m) s = Ok s.
Proof using Hord.
  intros Hg Hm Hij Hs. unfold all_guarded in Hg. rewrite forallb_forall in Hg. destruct (schema_after_ok i) as [si Hsi].
  destruct (schema_after_ok (S i)) as [si' Hsi']. eapply guarded_sql_repeats.
  - apply Hg. apply list_elem_of_In. by eapply list_elem_of_lookup_2.
  - rewrite <- (schema_after_S _ _ _ Hm Hsi). exact Hsi'.
  - by eapply (schema_after_le (S i) j).
Qed.

(** The first [k] versions are recorded. *)
Definition versions_upto (k : nat) (vs : gmap Z string) : Prop :=
  forall v, vs !! v = if decide (1 <= v <= Z.of_nat k) then mg_Description <$> dr_migrations dr !! Z.to_nat (v - 1) else None.

Definition place_ok (k j : nat) (p : place) : Prop :=
  match p with
  | AtBootstrap | Stopped => True
  | AtCheck i => (i <= k)%nat
  | AtApply i => (i <= k)%nat /\ (i < n)%nat
  | AtRecord i => (i <= k)%nat /\ (i < j)%nat
  | Finished => k = n
  end.

(** [k] migrations are recorded, and the statement of the next may have run. *)
Record progress_at (k j : nat) (c : Catalog) : Prop := {
  pa_le : (k <= j <= S k)%nat /\ (j <= n)%nat;
  pa_schema : schema_after j = Ok (ct_schema c);
  pa_versions : versions_upto k (ct_versions c)
}.

Definition mig_inv (x : Catalog * list place) : Prop :=
  (x.1 = empty_catalog /\ Forall (fun p => p = AtBootstrap \/ p = Stopped) x.2) \/
  (exists k j, progress_at k j x.1 /\ Forall (place_ok k j) x.2).

Lemma version_count_at k j c i : progress_at k j c -> (i < n)%nat ->
  version_count (Z.of_nat i + 1) c = (Ok (if decide (i < k)%nat then 1 else 0), c).
Proof using Hord.
  intros [_ Hs Hv] Hi. destruct (bootstrap_after _ _ Hs) as [_ [t Ht]]. unfold version_count. rewrite Ht, Hv.
  destruct (decide (i < k)%nat).
  - rewrite decide_True by lia. replace (Z.to_nat (Z.of_nat i + 1 - 1)) with i by lia.
    destruct (lookup_lt_is_Some_2 (dr_migrations dr) i Hi) as [m ->]. done.
  - by rewrite decide_False by lia.
Qed.

Lemma db_exec_next k c m : progress_at k k c -> dr_migrations dr !! k = Some m ->
  exists c', db_exec dr (mg_SQL m) c = (Ok tt, c') /\ progress_at k (S k) c'.
Proof using Hord.
  intros [Hle Hs Hv] Hm. pose proof (lookup_lt_Some _ _ _ Hm) as Hn. destruct (schema_after_ok (S k)) as [s' Hs'].
  unfold db_exec. pose proof (schema_after_S _ _ _ Hm Hs) as E. rewrite Hs' in E. rewrite <- E.
  exists (mkCatalog s' (ct_versions c)). split; [done|]. split; cbn; [lia|done|done].
Qed.

Lemma record_version_at k j c i m : progress_at k j c -> dr_migrations dr !! i = Some m -> (i <= k)%nat -> (i < j)%nat ->
  (exists e, record_version (Z.of_nat i + 1) (mg_Description m) c = (Err e, c) /\ (i < k)%nat) \/
  (exists c', record_version (Z.of_nat i + 1) (mg_Description m) c = (Ok tt, c') /\ progress_at (S k) j c' /\ i = k).
Proof using Hord.
  intros [[Hkj Hjn] Hs Hv] Hm Hi Hj. destruct (bootstrap_after _ _ Hs) as [_ [t Ht]].
  unfold record_version. rewrite Ht, Hv. replace (Z.to_nat (Z.of_nat i + 1 - 1)) with i by lia.
  destruct (decide (i < k)%nat) as [Hlt|Hge].
  - left. rewrite decide_True by lia. rewrite Hm. by eexists.
  - right. rewrite decide_False by lia. eexists. split; [done|]. assert (i = k) as -> by lia. split; [|done].
    split; cbn; [lia|done|]. intros v. destruct (decide (v = Z.of_nat k + 1)) as [->|Hne].
    + rewrite lookup_insert_eq, decide_True by lia. replace (Z.to_nat (Z.of_nat k + 1 - 1)) with k by lia. by rewrite Hm.
    + rewrite lookup_insert_ne by done. rewrite Hv. destruct (decide (1 <= v <= Z.of_nat k)); [by rewrite decide_True by lia|].
      by rewrite decide_False by lia.
Qed.

Lemma bootstrap_at k j c : progress_at k j c -> db_exec dr (dr_bootstrap dr) c = (Ok tt, c).
Proof using Hord. intros [_ Hs _]. destruct (bootstrap_after _ _ Hs) as [Hb _]. unfold db_exec. rewrite Hb. by destruct c. Qed.

Lemma bootstrap_empty : exists c, db_exec dr (dr_bootstrap dr) empty_catalog = (Ok tt, c) /\ progress_at 0 0 c.
Proof using Hord.
  destruct (schema_after_ok 0) as [s Hs]. exists (mkCatalog s ∅). unfold db_exec.
  assert (E : exec_sql (dr_dialect dr) (dr_bootstrap dr) no_schema = Ok s) by exact Hs. cbn [empty_catalog ct_schema ct_versions]. rewrite E.
  split; [done|]. split; cbn; [lia|done|]. intros v. rewrite lookup_empty. by rewrite decide_False by lia.
Qed.

Lemma progress_full_unique c1 c2 : progress_at n n c1 -> progress_at n n c2 -> c1 = c2.
Proof.
  intros [_ S1 V1] [_ S2 V2]. destruct c1 as [s1 v1], c2 as [s2 v2]. cbn in *. rewrite S1 in S2. injection S2 as ->.
  f_equal. apply map_eq. intros v. by rewrite V1, V2.
Qed.

(** The loop from a point where migrations are recorded that have run. *)
Lemma migrate_loop_at ms : forall i k c, progress_at k k c -> (i <= k)%nat -> drop i (dr_migrations dr) = ms ->
  exists c', migrate_loop dr (Z.of_nat i) ms c = (Ok tt, c') /\ progress_at n n c'.
Proof using Hord.
  induction ms as [|m ms IH]; intros i k c Hp Hi Hd.
  - exists c. split; [done|]. assert (n <= i)%nat by (apply (f_equal length) in Hd; rewrite length_drop in Hd; cbn in Hd; lia).
    destruct (pa_le _ _ _ Hp). by replace k with n in Hp by lia.
  - assert (Hm : dr_migrations dr !! i = Some m) by (rewrite <- (Nat.add_0_r i), <- lookup_drop; by rewrite Hd).
    assert (Hd' : drop (S i) (dr_migrations dr) = ms) by (by rewrite <- Nat.add_1_r, <- drop_drop, Hd).
    pose proof (lookup_lt_Some _ _ _ Hm) as Hn. cbn [migrate_loop]. unfold mbind, stM_bind, wrap.
    rewrite (version_count_at _ _ _ _ Hp Hn). replace (Z.of_nat i + 1) with (Z.of_nat (S i)) by lia.
    destruct (decide (i < k)%nat) as [Hlt|Hge]; cbn [Z.ltb Z.compare]; [by eapply IH|].
    assert (i = k) as -> by lia. destruct (db_exec_next _ _ _ Hp Hm) as (c1 & -> & Hp1).
    replace (Z.of_nat (S k)) with (Z.of_nat k + 1) by lia.
    destruct (record_version_at _ _ _ _ _ Hp1 Hm ltac:(lia) ltac:(lia)) as [(e & _ & ?)|(c2 & -> & Hp2 & _)]; [lia|].
    replace (Z.of_nat k + 1) with (Z.of_nat (S k)) by lia. by eapply IH.
Qed.

(** The database of a fresh start. *)
Definition migrated : Catalog := (Migrate dr empty_catalog).2.

Lemma Migrate_at k c : progress_at k k c -> exists c', Migrate dr c = (Ok tt, c') /\ progress_at n n c'.
Proof using Hord.
  intros Hp. unfold Migrate, mbind, stM_bind, wrap. rewrite (bootstrap_at _ _ _ Hp). by eapply (migrate_loop_at _ 0%nat); [|lia|].
Qed.

Lemma Migrate_empty : Migrate dr empty_catalog = (Ok tt, migrated) /\ progress_at n n migrated.
Proof using Hord.
  unfold migrated. enough (exists c, Migrate dr empty_catalog = (Ok tt, c) /\ progress_at n n c) as (c & -> & Hp) by done.
  destruct bootstrap_empty as (c & E & Hp). unfold Migrate, mbind, stM_bind, wrap. rewrite E. by eapply (migrate_loop_at _ 0%nat).
Qed.

Lemma Migrate_done k c : progress_at k k c -> Migrate dr c = (Ok tt, migrated).
Proof using Hord.
  intros Hp. destruct (Migrate_at _ _ Hp) as (c' & -> & Hp'). by rewrite (progress_full_unique c' migrated); [|done|apply Migrate_empty].
Qed.

(** Recorded migrations are skipped. *)
Lemma migrate_loop_skip k j c : progress_at k j c ->
  migrate_loop dr 0 (dr_migrations dr) c = migrate_loop dr (Z.of_nat k) (drop k (dr_migrations dr)) c.
Proof using Hord.
  intros Hp. destruct (pa_le _ _ _ Hp) as [? ?].
  enough (forall d i, (i + d = k)%nat ->
    migrate_loop dr (Z.of_nat i) (drop i (dr_migrations dr)) c = migrate_loop dr (Z.of_nat k) (drop k (dr_migrations dr)) c) as E
    by exact (E k 0%nat eq_refl).
  induction d as [|d IH]; intros i Hi; [by replace i with k by lia|].
  destruct (lookup_lt_is_Some_2 (dr_migrations dr) i ltac:(lia)) as [m Hm]. rewrite (drop_S _ _ _ Hm) at 1. cbn [migrate_loop].
  unfold mbind at 1, stM_bind at 1, wrap at 1. rewrite (version_count_at _ _ _ i Hp ltac:(lia)). rewrite decide_True by lia.
  cbn [Z.ltb Z.compare]. replace (Z.of_nat i + 1) with (Z.of_nat (S i)) by lia. apply IH. lia.
Qed.

(** The first migration that is not recorded has run already. *)
Lemma Migrate_pending k c m : progress_at k (S k) c -> dr_migrations dr !! k = Some m ->
  Migrate dr c =
    match db_exec dr (mg_SQL m) c with
    | (Ok _, c1) =>
        (_ ← wrap ("record schema version " +:+ Itoa (Z.of_nat k + 1)) (record_version (Z.of_nat k + 1) (mg_Description m));
         migrate_loop dr (Z.of_nat k + 1) (drop (S k) (dr_migrations dr))) c1
    | (Err e, c1) => (Err (Wrapf ("migration " +:+ Itoa (Z.of_nat k + 1) +:+ " (" +:+ mg_Description m +:+ ")") e), c1)
    end.
Proof using Hord.
  intros Hp Hm. pose proof (lookup_lt_Some _ _ _ Hm) as Hn. unfold Migrate. unfold mbind at 1, stM_bind at 1, wrap at 1.
  rewrite (bootstrap_at _ _ _ Hp), (migrate_loop_skip _ _ _ Hp), (drop_S _ _ _ Hm). cbn [migrate_loop].
  unfold mbind at 1, stM_bind at 1, wrap at 1. rewrite (version_count_at _ _ _ _ Hp Hn), decide_False by lia. cbn [Z.ltb Z.compare].
  unfold mbind at 1, stM_bind at 1, wrap at 1. by destruct (db_exec dr (mg_SQL m) c) as [[?|?] ?].
Qed.

Definition plain_add (sql : string) : bool := match parse_sql sql with Some (AddColumn _ false _) => true | _ => false end.

(** [ALTER TABLE ... ADD COLUMN] without a guard fails the second time. *)
Lemma Migrate_stuck k c m : progress_at k (S k) c -> dr_migrations dr !! k = Some m -> plain_add (mg_SQL m) = true ->
  exists e, Migrate dr c = (Err e, c).
Proof using Hord.
  intros Hp Hm Ha. rewrite (Migrate_pending _ _ _ Hp Hm). destruct (schema_after_ok k) as [s Hs]. destruct Hp as [_ Hs' _].
  rewrite (schema_after_S _ _ _ Hm Hs) in Hs'. unfold plain_add in Ha. unfold db_exec. unfold exec_sql, exec_parsed in *.
  destruct (parse_sql (mg_SQL m)) as [[| |t [] col]|]; try done.
  destruct (exec_stmt_grows _ _ _ _ Hs') as [_ (tb & Ht & Hcol)]. cbn [exec_stmt]. rewrite Ht, Hcol. destruct (dr_dialect dr); by eexists.
Qed.

(** A first process on its way: it can stand before any migration, and between its
    statement and its record. *)
Lemma first_process_at i : (i <= n)%nat -> exists c, rtc (alone dr) (AtBootstrap, empty_catalog) (AtCheck i, c) /\ progress_at i i c.
Proof using Hord.
  induction i as [|i IH]; intros Hi.
  - destruct bootstrap_empty as (c & E & Hp). exists c. split; [|done]. apply rtc_once. unfold alone. cbn. by rewrite E.
  - destruct (IH ltac:(lia)) as (c & Hr & Hp). destruct (lookup_lt_is_Some_2 (dr_migrations dr) i ltac:(lia)) as [m Hm].
    destruct (db_exec_next _ _ _ Hp Hm) as (c1 & E1 & Hp1).
    destruct (record_version_at _ _ _ _ _ Hp1 Hm ltac:(lia) ltac:(lia)) as [(e & _ & ?)|(c2 & E2 & Hp2 & _)]; [lia|].
    exists c2. split; [|done]. etrans; [exact Hr|]. eapply rtc_l; [unfold alone; reflexivity|]. cbn [fst snd mig_step].
    rewrite Hm, (version_count_at _ _ _ i Hp ltac:(lia)), decide_False by lia. cbn [Z.ltb Z.compare].
    eapply rtc_l; [unfold alone; reflexivity|]. cbn [fst snd mig_step]. rewrite Hm, E1.
    apply rtc_once. unfold alone. cbn [fst snd mig_step]. by rewrite Hm, E2.
Qed.

Lemma alone_cluster p c p' c' : rtc (alone dr) (p, c) (p', c') -> rtc (mig_cluster dr) (c, [p]) (c', [p']).
Proof.
  intros Hr. change (c, [p]) with ((fun x : place * Catalog => (x.2, [x.1])) (p, c)).
  change (c', [p']) with ((fun x : place * Catalog => (x.2, [x.1])) (p', c')).
  eapply (rtc_congruence (fun x => (x.2, [x.1]))); [|done]. intros [q d] y Hy. unfold alone in Hy. cbn in *. subst y. exact (mc_call dr 0 q d [q] eq_refl).
Qed.

Lemma killed_before_record i : (i < n)%nat ->
  exists c, rtc (mig_cluster dr) (empty_catalog, []) (c, [Stopped]) /\ progress_at i (S i) c.
Proof using Hord.
  intros Hi. destruct (first_process_at i ltac:(lia)) as (c & Hr & Hp). destruct (lookup_lt_is_Some_2 (dr_migrations dr) i Hi) as [m Hm].
  destruct (db_exec_next _ _ _ Hp Hm) as (c1 & E1 & Hp1). exists c1. split; [|done].
  eapply rtc_l; [apply mc_start|]. eapply rtc_r; [|exact (mc_kill dr 0 c1 [AtRecord i])]. apply alone_cluster.
  etrans; [exact Hr|]. eapply rtc_l; [unfold alone; reflexivity|]. cbn [fst snd mig_step].
  rewrite Hm, (version_count_at _ _ _ i Hp Hi), decide_False by lia. cbn [Z.ltb Z.compare].
  apply rtc_once. unfold alone. cbn [fst snd mig_step]. by rewrite Hm, E1.
Qed.

Section guarded_driver.
Context (Hg : all_guarded = true).

Lemma db_exec_again j c i m : schema_after j = Ok (ct_schema c) -> dr_migrations dr !! i = Some m -> (i < j)%nat ->
  db_exec dr (mg_SQL m) c = (Ok tt, c).
Proof using Hord Hg. intros Hs Hm Hij. unfold db_exec. rewrite (migration_repeats _ _ _ _ Hg Hm Hij Hs). by destruct c. Qed.

Lemma Migrate_again k j c : progress_at k j c -> Migrate dr c = (Ok tt, migrated).
Proof using Hord Hg.
  intros Hp. destruct (pa_le _ _ _ Hp) as [? ?]. destruct (decide (j = k)) as [->|Hne]; [by eapply Migrate_done|].
  assert (j = S k) as -> by lia. destruct (lookup_lt_is_Some_2 (dr_migrations dr) k ltac:(lia)) as [m Hm].
  rewrite (Migrate_pending _ _ _ Hp Hm), (db_exec_again (S k) c k m (pa_schema _ _ _ Hp) Hm ltac:(lia)).
  unfold mbind, stM_bind, wrap.
  destruct (record_version_at _ _ _ _ _ Hp Hm ltac:(lia) ltac:(lia)) as [(e & _ & ?)|(c2 & -> & Hp2 & _)]; [lia|].
  replace (Z.of_nat k + 1) with (Z.of_nat (S k)) by lia.
  destruct (migrate_loop_at _ (S k) (S k) c2 Hp2 ltac:(lia) eq_refl) as (c' & -> & Hp').
  by rewrite (progress_full_unique c' migrated); [|done|apply Migrate_empty].
Qed.

Lemma place_ok_mono k j k' j' p : (k <= k')%nat -> (j <= j')%nat -> (k' <= n)%nat -> place_ok k j p -> place_ok k' j' p.
Proof. destruct p; cbn; lia. Qed.

Lemma mig_step_at k j p c : progress_at k j c -> place_ok k j p ->
  exists k' j', (k <= k')%nat /\ (j <= j')%nat /\ progress_at k' j' (mig_step dr p c).2 /\ place_ok k' j' (mig_step dr p c).1.
Proof using Hord Hg.
  intros Hp Hpl. destruct (pa_le _ _ _ Hp) as [Hkj Hjn]. destruct p as [|i|i|i| |]; cbn [mig_step].
  - rewrite (bootstrap_at _ _ _ Hp). exists k, j. cbn. split_and!; [lia|lia|done|lia].
  - destruct (dr_migrations dr !! i) as [m|] eqn:Hm.
    + pose proof (lookup_lt_Some _ _ _ Hm). rewrite (version_count_at _ _ _ _ Hp) by done. exists k, j. cbn in Hpl.
      destruct (decide (i < k)%nat); cbn; split_and!; done || lia.
    + apply lookup_ge_None in Hm. exists k, j. cbn in *. split_and!; [lia|lia|done|lia].
  - destruct Hpl as [Hi Hn]. destruct (lookup_lt_is_Some_2 (dr_migrations dr) i Hn) as [m Hm]. rewrite Hm.
    destruct (decide (i < j)%nat) as [Hij|Hij].
    + rewrite (db_exec_again j c i m (pa_schema _ _ _ Hp) Hm Hij). exists k, j. cbn. split_and!; done || lia.
    + assert (i = k /\ j = k) as [-> ->] by lia. destruct (db_exec_next _ _ _ Hp Hm) as (c' & -> & Hp').
      exists k, (S k). cbn. split_and!; done || lia.
  - destruct Hpl as [Hi Hj]. destruct (lookup_lt_is_Some_2 (dr_migrations dr) i ltac:(lia)) as [m Hm]. rewrite Hm.
    destruct (record_version_at _ _ _ _ _ Hp Hm Hi Hj) as [(e & -> & _)|(c' & -> & Hp' & ->)].
    + exists k, j. cbn. split_and!; done || lia.
    + exists (S k), j. cbn. split_and!; done || lia.
  - exists k, j. split_and!; done || lia.
  - exists k, j. split_and!; done || lia.
Qed.

Lemma mig_cluster_inv x y : mig_cluster dr x y -> mig_inv x -> mig_inv y.
Proof using Hord Hg.
  destruct 1 as [c ps|i p c ps Hi|i c ps]; intros [[Hc Hps]|(k & j & Hp & Hps)]; cbn in *.
  - left. split; [done|]. apply Forall_app. split; [done|by apply Forall_singleton; left].
  - right. exists k, j. split; [done|]. apply Forall_app. split; [done|by apply Forall_singleton].
  - subst c. pose proof (Forall_lookup_1 _ _ _ _ Hps Hi) as [->| ->]; cbn [mig_step].
    + destruct bootstrap_empty as (c & -> & Hp). right. exists 0%nat, 0%nat. split; [done|]. apply Forall_insert; [|cbn; lia].
      eapply Forall_impl; [done|]. intros q [->| ->]; done.
    + left. split; [done|]. apply Forall_insert; [done|by right].
  - pose proof (Forall_lookup_1 _ _ _ _ Hps Hi) as Hpl. destruct (mig_step_at _ _ _ _ Hp Hpl) as (k' & j' & Hk & Hj & Hp' & Hpl').
    right. exists k', j'. split; [done|]. apply Forall_insert; [|done]. eapply Forall_impl; [done|].
    intros q. apply place_ok_mono; [done|done|]. destruct (pa_le _ _ _ Hp'). cbn. lia.
  - left. split; [done|]. apply Forall_insert; [done|by right].
  - right. exists k, j. split; [done|]. by apply Forall_insert.
Qed.

Lemma restart_completes c ps : rtc (mig_cluster dr) (empty_catalog, []) (c, ps) ->
  Migrate dr c = (Ok tt, migrated) /\ (Finished ∈ ps -> c = migrated).
Proof using Hord Hg.
  intros Hr. assert (Hi : mig_inv (c, ps)).
  { refine (rtc_ind_r mig_inv _ _ _ (c, ps) Hr); [|intros y z _ Hs Hy; by eapply mig_cluster_inv]. left. split; [done|by apply Forall_nil]. }
  destruct Migrate_empty as [E Hm]. destruct Hi as [[Hc Hps]|(k & j & Hp & Hps)]; rewrite Forall_forall in Hps; cbn in *.
  - subst c. split; [done|]. intros Hin. by destruct (Hps _ Hin).
  - split; [by eapply Migrate_again|]. intros Hin. pose proof (Hps _ Hin) as Hk. cbn in Hk. destruct (pa_le _ _ _ Hp). subst k.
    replace j with n in Hp by lia. by apply progress_full_unique.
Qed.
End guarded_driver.
End replay.

(** ** The two drivers *)

(** Statements parsed once. *)
Definition parsed (ms : list Migration) : list (option Stmt) := (fun m => parse_sql (mg_SQL m)) <$> ms.
Definition run_parsed (d : Dialect) (os : list (option Stmt)) (r : result Schema) : result Schema :=
  foldl (fun r o => match r with Ok s => exec_parsed d o s | Err e => Err e end) r os.

Lemma exec_all_parsed dr ms r : exec_all dr ms r = run_parsed (dr_dialect dr) (parsed ms) r.
Proof. unfold exec_all, run_parsed, parsed. revert r. induction ms as [|m ms IH]; intros r; [done|]. cbn. apply IH. Qed.

Definition sqlite_stmts : list (option Stmt) := Eval vm_compute in parsed sqlite_migrations.
Definition postgres_stmts : list (option Stmt) := Eval vm_compute in parsed postgres_migrations.
Lemma sqlite_parsed : parsed sqlite_migrations = sqlite_stmts.
Proof. vm_cast_no_check (eq_refl sqlite_stmts). Qed.
Lemma postgres_parsed : parsed postgres_migrations = postgres_stmts.
Proof. vm_cast_no_check (eq_refl postgres_stmts). Qed.

Definition boot_schema (dr : Driver) : result Schema := exec_sql (dr_dialect dr) (dr_bootstrap dr) no_schema.
Lemma schema_after_parsed dr : schema_after dr (length (dr_migrations dr)) = run_parsed (dr_dialect dr) (parsed (dr_migrations dr)) (boot_schema dr).
Proof. unfold schema_after. by rewrite firstn_all, exec_all_parsed. Qed.

Lemma in_order_parsed dr os : parsed (dr_migrations dr) = os ->
  match run_parsed (dr_dialect dr) os (boot_schema dr) with Ok _ => true | Err _ => false end &&
    match parse_sql (dr_bootstrap dr) with Some (CreateTable true name _) => String.eqb name "schema_versions" | _ => false end = true ->
  in_order dr = true.
Proof. intros <- H. unfold in_order. by rewrite schema_after_parsed. Qed.

Lemma sqlite_in_order : in_order sqlite_driver = true.
Proof. refine (in_order_parsed sqlite_driver _ sqlite_parsed _). vm_cast_no_check (eq_refl true). Qed.
Lemma postgres_in_order : in_order postgres_driver = true.
Proof. refine (in_order_parsed postgres_driver _ postgres_parsed _). vm_cast_no_check (eq_refl true). Qed.

Lemma parsed_lookup dr os i m : parsed (dr_migrations dr) = os -> dr_migrations dr !! i = Some m -> os !! i = Some (parse_sql (mg_SQL m)).
Proof. intros <- Hm. unfold parsed. by rewrite list_lookup_fmap, Hm. Qed.

Lemma postgres_guarded : all_guarded postgres_driver = true.
Proof.
  unfold all_guarded. rewrite forallb_forall. intros m [i Hm]%list_elem_of_In%list_elem_of_lookup_1.
  pose proof (parsed_lookup postgres_driver _ _ _ postgres_parsed Hm) as Hi. apply list_elem_of_lookup_2, list_elem_of_In in Hi.
  assert (H : forallb (fun o => match o with Some st => is_guarded st | None => false end) postgres_stmts = true) by (vm_compute; reflexivity).
  rewrite forallb_forall in H. exact (H _ Hi).
Qed.

(** C22: PostgreSQL migrations are safe to interrupt and to race: whatever processes
    ran [Migrate] on a database that was empty at first, interleaved in any way and
    each killed at any point, a further run on the database as it is succeeds and
    leaves the schema and versions of an undisturbed run; and once any of the
    processes has returned nil, the database is in that state. *)
Theorem postgres_migrations_restartable (c : Catalog) (ps : list place)
    (Hrun : rtc (mig_cluster postgres_driver) (empty_catalog, []) (c, ps)) :
  Migrate postgres_driver c = (Ok tt, migrated postgres_driver) /\
  (Finished ∈ ps -> c = migrated postgres_driver).
Proof. exact (restart_completes postgres_driver postgres_in_order postgres_guarded c ps Hrun). Qed.

Lemma postgres_migrations_restartable_witness :
  exists c, rtc (mig_cluster postgres_driver) (empty_catalog, []) (c, [Stopped]) /\
    ct_versions c !! 20 = Some "create routes table" /\ ct_versions c !! 21 = None /\
    Migrate postgres_driver c = (Ok tt, migrated postgres_driver).
Proof.
  destruct (killed_before_record postgres_driver postgres_in_order 20 ltac:(vm_compute; lia)) as (c & Hr & Hp).
  exists c. split; [exact Hr|]. rewrite !(pa_versions _ _ _ _ Hp). split; [vm_compute; reflexivity|]. split; [vm_compute; reflexivity|].
  exact (proj1 (postgres_migrations_restartable c [Stopped] Hr)).
Defined.

Lemma sqlite_adds_columns i m : (30 <= i)%nat -> dr_migrations sqlite_driver !! i = Some m -> plain_add (mg_SQL m) = true.
Proof.
  intros Hi Hm. pose proof (parsed_lookup sqlite_driver _ _ _ sqlite_parsed Hm) as Ho.
  replace i with (30 + (i - 30))%nat in Ho by lia. rewrite <- lookup_drop in Ho. apply list_elem_of_lookup_2, list_elem_of_In in Ho.
  assert (H : forallb (fun o => match o with Some (AddColumn _ false _) => true | _ => false end) (drop 30 sqlite_stmts) = true) by (vm_compute; reflexivity).
  rewrite forallb_forall in H. exact (H _ Ho).
Qed.

(** The SQLite statements that add a column cannot be repeated: an undisturbed
    run succeeds, and so does a run after it, but a process killed between such a
    statement and its record leaves a database on which [Migrate] fails and which it
    leaves as it is, so that every later start fails.  These are all migrations from
    the thirty-first. *)
Theorem sqlite_upgrade_not_restartable :
  Migrate sqlite_driver empty_catalog = (Ok tt, migrated sqlite_driver) /\
  Migrate sqlite_driver (migrated sqlite_driver) = (Ok tt, migrated sqlite_driver) /\
  forall i, (30 <= i < length (dr_migrations sqlite_driver))%nat ->
    exists c, rtc (mig_cluster sqlite_driver) (empty_catalog, []) (c, [Stopped]) /\
      exists e, Migrate sqlite_driver c = (Err e, c).
Proof.
  destruct (Migrate_empty sqlite_driver sqlite_in_order) as [E Hp]. split; [exact E|].
  split; [exact (Migrate_done sqlite_driver sqlite_in_order _ _ Hp)|]. intros i [Hi Hn].
  destruct (killed_before_record sqlite_driver sqlite_in_order i Hn) as (c & Hr & Hpc). exists c. split; [exact Hr|].
  destruct (lookup_lt_is_Some_2 (dr_migrations sqlite_driver) i Hn) as [m Hm].
  exact (Migrate_stuck sqlite_driver sqlite_in_order i c m Hpc Hm (sqlite_adds_columns i m Hi Hm)).
Qed.

(** ** The two schemas *)

(** The columns that hold JSON, which PostgreSQL keeps as JSONB. *)
Definition json_columns : list string := ["settings"; "metadata"; "header_rules"; "details"; "steps"].
Definition types_match (column sqlite postgres : string) : bool :=
  if bool_decide (column ∈ json_columns) then bool_decide ((sqlite, postgres) = ("TEXT", "JSONB"))
  else bool_decide ((sqlite, postgres) ∈ [("TEXT", "TEXT"); ("INTEGER", "INTEGER"); ("INTEGER", "BOOLEAN"); ("DATETIME", "TIMESTAMPTZ")]).
Definition defaults_match (sqlite postgres : option Default) : bool :=
  bool_decide (sqlite = postgres) ||
  bool_decide ((sqlite, postgres) ∈ [(Some (DCall "datetime" (Some "now")), Some (DCall "NOW" None));
    (Some (DWord "0"), Some (DWord "FALSE")); (Some (DWord "1"), Some (DWord "TRUE"))]).

(** The same column but for the dialect. *)
Definition columns_match (a b : Column) : bool :=
  String.eqb (co_name a) (co_name b) && types_match (co_name a) (co_type a) (co_type b) && Bool.eqb (co_notnull a) (co_notnull b) &&
  Bool.eqb (co_unique a) (co_unique b) && Bool.eqb (co_primary a) (co_primary b) && defaults_match (co_default a) (co_default b) &&
  bool_decide (co_references a = co_references b) && Bool.eqb (co_cascade a) (co_cascade b).

Definition tables_match (a b : Table) : bool :=
  bool_decide (tb_primary a = tb_primary b) && bool_decide (NoDup (co_name <$> tb_columns a)) && bool_decide (NoDup (co_name <$> tb_columns b)) &&
  forallb (fun c => existsb (columns_match c) (tb_columns b)) (tb_columns a) &&
  forallb (fun c => existsb (fun c' => columns_match c' c) (tb_columns a)) (tb_columns b).

Definition schemas_match (x y : list (string * Table)) : bool :=
  bool_decide (NoDup x.*1) && forallb (fun '(n, a) => match named n y with Some b => tables_match a b | None => false end) x &&
  forallb (fun '(n, _) => match named n x with Some _ => true | None => false end) y.

Lemma named_In {A} n (l : list (string * A)) a : named n l = Some a -> In (n, a) l.
Proof.
  induction l as [|[m b] l IH]; cbn; [done|]. destruct (String.eqb_spec n m) as [->|]; [intros [= ->]; by left|right; auto].
Qed.

Lemma schemas_match_sound x y n : schemas_match x y = true ->
  match named n x, named n y with Some a, Some b => tables_match a b = true | None, None => True | _, _ => False end.
Proof.
  unfold schemas_match. rewrite !andb_true_iff, !forallb_forall. intros [[_ Hx] Hy].
  destruct (named n x) as [a|] eqn:Ex.
  - pose proof (Hx _ (named_In _ _ _ Ex)) as H. cbn in H. by destruct (named n y).
  - destruct (named n y) as [b|] eqn:Ey; [|done]. pose proof (Hy _ (named_In _ _ _ Ey)) as H. cbn in H. by rewrite Ex in H.
Qed.

(** What the runs of the drivers create. *)
Definition sqlite_schema : Schema := Eval vm_compute in default no_schema (match run_parsed SQLite sqlite_stmts (boot_schema sqlite_driver) with Ok s => Some s | Err _ => None end).
Definition postgres_schema : Schema := Eval vm_compute in default no_schema (match run_parsed Postgres postgres_stmts (boot_schema postgres_driver) with Ok s => Some s | Err _ => None end).

Lemma migrated_schema dr os s : in_order dr = true -> parsed (dr_migrations dr) = os -> run_parsed (dr_dialect dr) os (boot_schema dr) = Ok s ->
  ct_schema (migrated dr) = s.
Proof.
  intros Hord Hos Hs. destruct (Migrate_empty dr Hord) as [_ [_ Hsch _]]. rewrite schema_after_parsed, Hos, Hs in Hsch. by injection Hsch.
Qed.

Lemma sqlite_migrated_schema : ct_schema (migrated sqlite_driver) = sqlite_schema.
Proof. refine (migrated_schema _ _ _ sqlite_in_order sqlite_parsed _). vm_cast_no_check (@eq_refl (result Schema) (Ok sqlite_schema)). Qed.
Lemma postgres_migrated_schema : ct_schema (migrated postgres_driver) = postgres_schema.
Proof. refine (migrated_schema _ _ _ postgres_in_order postgres_parsed _). vm_cast_no_check (@eq_refl (result Schema) (Ok postgres_schema)). Qed.

Lemma both_schemas_match : schemas_match (sc_tables sqlite_schema) (sc_tables postgres_schema) = true.
Proof. vm_cast_no_check (eq_refl true). Qed.

(** C38: the two drivers end with the same schema but for the dialect: the same
    tables with the same columns, in whatever order, equal in nullability,
    uniqueness, keys, references and deletion rules, with corresponding types (JSONB
    for TEXT in exactly the columns that hold JSON) and defaults, and the same
    indexes. *)
Theorem drivers_agree_on_schema :
  let a := ct_schema (migrated sqlite_driver) in
  let b := ct_schema (migrated postgres_driver) in
  (forall name,
     match named name (sc_tables a), named name (sc_tables b) with
     | Some ta, Some tb => tables_match ta tb = true
     | None, None => True
     | _, _ => False
     end) /\
  sc_indexes a = sc_indexes b /\ length (sc_tables a) = 26%nat.
Proof.
  cbv zeta. rewrite sqlite_migrated_schema, postgres_migrated_schema.
  split; [intros name; apply schemas_match_sound, both_schemas_match|]. split; vm_compute; reflexivity.
Qed.
