(* ===== verification/Storage.v ===== *)
(** * Storage (internal/storage, internal/storage/sqlite)

    The database as one record of tables, keyed by primary key, and the frame
    every SQLite store method runs in.  A statement either executes on the
    tables or fails with an I/O error, decided by the next entry of a fault
    schedule, so that every theorem about a service covers a failure of any of
    its statements.  [sq_fk] tells whether the connection in use enforces foreign
    keys: the pragma is a setting of one connection, sqlite.go executes it once on a
    pool that it limits to one connection for in-memory databases only, so another
    connection of the pool does not enforce them.  Invariants that need it say so. *)

From Stdlib Require Import ZArith Lia String.
From S2P Require Import Prelude GoStrings GoBase64 Domain.

Open Scope Z_scope.

Record DB := mkDB {
  tenants : gmap ID Tenant;
  users : gmap ID User;
  api_keys : gmap ID APIKey;
  ssh_keys : gmap ID SSHKey;
  nodes : gmap ID Node;
  node_groups : gmap ID NodeGroup;
  node_group_memberships : gset (ID * ID);
  gateways : gmap ID Gateway;
  wireguard_peers : gmap ID WireGuardPeer;
  ip_allocations : gmap ID IPAllocation;
  bgp_sessions : gmap ID BGPSession;
  dns_zones : gmap ID DNSZone;
  dns_records : gmap ID DNSRecord;
  cdn_sites : gmap ID CDNSite;
  cdn_origins : gmap ID CDNOrigin;
  routes : gmap ID Route;
  enrollment_tokens : gmap ID EnrollmentToken;
  provisioning_jobs : gmap ID ProvisioningJob;
  audit_events : gmap ID AuditEvent
}.

Definition emptyDB : DB :=
  mkDB ∅ ∅ ∅ ∅ ∅ ∅ ∅ ∅ ∅ ∅ ∅ ∅ ∅ ∅ ∅ ∅ ∅ ∅ ∅.

Definition upd_tenants (f : gmap ID Tenant -> gmap ID Tenant) (d : DB) : DB :=
  mkDB (f (tenants d)) (users d) (api_keys d) (ssh_keys d) (nodes d) (node_groups d)
    (node_group_memberships d) (gateways d) (wireguard_peers d) (ip_allocations d)
    (bgp_sessions d) (dns_zones d) (dns_records d) (cdn_sites d) (cdn_origins d)
    (routes d) (enrollment_tokens d) (provisioning_jobs d) (audit_events d).

Definition upd_users (f : gmap ID User -> gmap ID User) (d : DB) : DB :=
  mkDB (tenants d) (f (users d)) (api_keys d) (ssh_keys d) (nodes d) (node_groups d)
    (node_group_memberships d) (gateways d) (wireguard_peers d) (ip_allocations d)
    (bgp_sessions d) (dns_zones d) (dns_records d) (cdn_sites d) (cdn_origins d)
    (routes d) (enrollment_tokens d) (provisioning_jobs d) (audit_events d).

Definition upd_api_keys (f : gmap ID APIKey -> gmap ID APIKey) (d : DB) : DB :=
  mkDB (tenants d) (users d) (f (api_keys d)) (ssh_keys d) (nodes d) (node_groups d)
    (node_group_memberships d) (gateways d) (wireguard_peers d) (ip_allocations d)
    (bgp_sessions d) (dns_zones d) (dns_records d) (cdn_sites d) (cdn_origins d)
    (routes d) (enrollment_tokens d) (provisioning_jobs d) (audit_events d).

Definition upd_ssh_keys (f : gmap ID SSHKey -> gmap ID SSHKey) (d : DB) : DB :=
  mkDB (tenants d) (users d) (api_keys d) (f (ssh_keys d)) (nodes d) (node_groups d)
    (node_group_memberships d) (gateways d) (wireguard_peers d) (ip_allocations d)
    (bgp_sessions d) (dns_zones d) (dns_records d) (cdn_sites d) (cdn_origins d)
    (routes d) (enrollment_tokens d) (provisioning_jobs d) (audit_events d).

Definition upd_nodes (f : gmap ID Node -> gmap ID Node) (d : DB) : DB :=
  mkDB (tenants d) (users d) (api_keys d) (ssh_keys d) (f (nodes d)) (node_groups d)
    (node_group_memberships d) (gateways d) (wireguard_peers d) (ip_allocations d)
    (bgp_sessions d) (dns_zones d) (dns_records d) (cdn_sites d) (cdn_origins d)
    (routes d) (enrollment_tokens d) (provisioning_jobs d) (audit_events d).

Definition upd_node_groups (f : gmap ID NodeGroup -> gmap ID NodeGroup) (d : DB) : DB :=
  mkDB (tenants d) (users d) (api_keys d) (ssh_keys d) (nodes d) (f (node_groups d))
    (node_group_memberships d) (gateways d) (wireguard_peers d) (ip_allocations d)
    (bgp_sessions d) (dns_zones d) (dns_records d) (cdn_sites d) (cdn_origins d)
    (routes d) (enrollment_tokens d) (provisioning_jobs d) (audit_events d).

Definition upd_node_group_memberships (f : gset (ID * ID) -> gset (ID * ID)) (d : DB) : DB :=
  mkDB (tenants d) (users d) (api_keys d) (ssh_keys d) (nodes d) (node_groups d)
    (f (node_group_memberships d)) (gateways d) (wireguard_peers d) (ip_allocations d)
    (bgp_sessions d) (dns_zones d) (dns_records d) (cdn_sites d) (cdn_origins d)
    (routes d) (enrollment_tokens d) (provisioning_jobs d) (audit_events d).

Definition upd_gateways (f : gmap ID Gateway -> gmap ID Gateway) (d : DB) : DB :=
  mkDB (tenants d) (users d) (api_keys d) (ssh_keys d) (nodes d) (node_groups d)
    (node_group_memberships d) (f (gateways d)) (wireguard_peers d) (ip_allocations d)
    (bgp_sessions d) (dns_zones d) (dns_records d) (cdn_sites d) (cdn_origins d)
    (routes d) (enrollment_tokens d) (provisioning_jobs d) (audit_events d).

Definition upd_wireguard_peers (f : gmap ID WireGuardPeer -> gmap ID WireGuardPeer) (d : DB) : DB :=
  mkDB (tenants d) (users d) (api_keys d) (ssh_keys d) (nodes d) (node_groups d)
    (node_group_memberships d) (gateways d) (f (wireguard_peers d)) (ip_allocations d)
    (bgp_sessions d) (dns_zones d) (dns_records d) (cdn_sites d) (cdn_origins d)
    (routes d) (enrollment_tokens d) (provisioning_jobs d) (audit_events d).

Definition upd_ip_allocations (f : gmap ID IPAllocation -> gmap ID IPAllocation) (d : DB) : DB :=
  mkDB (tenants d) (users d) (api_keys d) (ssh_keys d) (nodes d) (node_groups d)
    (node_group_memberships d) (gateways d) (wireguard_peers d) (f (ip_allocations d))
    (bgp_sessions d) (dns_zones d) (dns_records d) (cdn_sites d) (cdn_origins d)
    (routes d) (enrollment_tokens d) (provisioning_jobs d) (audit_events d).

Definition upd_bgp_sessions (f : gmap ID BGPSession -> gmap ID BGPSession) (d : DB) : DB :=
  mkDB (tenants d) (users d) (api_keys d) (ssh_keys d) (nodes d) (node_groups d)
    (node_group_memberships d) (gateways d) (wireguard_peers d) (ip_allocations d)
    (f (bgp_sessions d)) (dns_zones d) (dns_records d) (cdn_sites d) (cdn_origins d)
    (routes d) (enrollment_tokens d) (provisioning_jobs d) (audit_events d).

Definition upd_dns_zones (f : gmap ID DNSZone -> gmap ID DNSZone) (d : DB) : DB :=
  mkDB (tenants d) (users d) (api_keys d) (ssh_keys d) (nodes d) (node_groups d)
    (node_group_memberships d) (gateways d) (wireguard_peers d) (ip_allocations d)
    (bgp_sessions d) (f (dns_zones d)) (dns_records d) (cdn_sites d) (cdn_origins d)
    (routes d) (enrollment_tokens d) (provisioning_jobs d) (audit_events d).

Definition upd_dns_records (f : gmap ID DNSRecord -> gmap ID DNSRecord) (d : DB) : DB :=
  mkDB (tenants d) (users d) (api_keys d) (ssh_keys d) (nodes d) (node_groups d)
    (node_group_memberships d) (gateways d) (wireguard_peers d) (ip_allocations d)
    (bgp_sessions d) (dns_zones d) (f (dns_records d)) (cdn_sites d) (cdn_origins d)
    (routes d) (enrollment_tokens d) (provisioning_jobs d) (audit_events d).

Definition upd_cdn_sites (f : gmap ID CDNSite -> gmap ID CDNSite) (d : DB) : DB :=
  mkDB (tenants d) (users d) (api_keys d) (ssh_keys d) (nodes d) (node_groups d)
    (node_group_memberships d) (gateways d) (wireguard_peers d) (ip_allocations d)
    (bgp_sessions d) (dns_zones d) (dns_records d) (f (cdn_sites d)) (cdn_origins d)
    (routes d) (enrollment_tokens d) (provisioning_jobs d) (audit_events d).

Definition upd_cdn_origins (f : gmap ID CDNOrigin -> gmap ID CDNOrigin) (d : DB) : DB :=
  mkDB (tenants d) (users d) (api_keys d) (ssh_keys d) (nodes d) (node_groups d)
    (node_group_memberships d) (gateways d) (wireguard_peers d) (ip_allocations d)
    (bgp_sessions d) (dns_zones d) (dns_records d) (cdn_sites d) (f (cdn_origins d))
    (routes d) (enrollment_tokens d) (provisioning_jobs d) (audit_events d).

Definition upd_routes (f : gmap ID Route -> gmap ID Route) (d : DB) : DB :=
  mkDB (tenants d) (users d) (api_keys d) (ssh_keys d) (nodes d) (node_groups d)
    (node_group_memberships d) (gateways d) (wireguard_peers d) (ip_allocations d)
    (bgp_sessions d) (dns_zones d) (dns_records d) (cdn_sites d) (cdn_origins d)
    (f (routes d)) (enrollment_tokens d) (provisioning_jobs d) (audit_events d).

Definition upd_enrollment_tokens (f : gmap ID EnrollmentToken -> gmap ID EnrollmentToken) (d : DB) : DB :=
  mkDB (tenants d) (users d) (api_keys d) (ssh_keys d) (nodes d) (node_groups d)
    (node_group_memberships d) (gateways d) (wireguard_peers d) (ip_allocations d)
    (bgp_sessions d) (dns_zones d) (dns_records d) (cdn_sites d) (cdn_origins d)
    (routes d) (f (enrollment_tokens d)) (provisioning_jobs d) (audit_events d).

Definition upd_provisioning_jobs (f : gmap ID ProvisioningJob -> gmap ID ProvisioningJob) (d : DB) : DB :=
  mkDB (tenants d) (users d) (api_keys d) (ssh_keys d) (nodes d) (node_groups d)
    (node_group_memberships d) (gateways d) (wireguard_peers d) (ip_allocations d)
    (bgp_sessions d) (dns_zones d) (dns_records d) (cdn_sites d) (cdn_origins d)
    (routes d) (enrollment_tokens d) (f (provisioning_jobs d)) (audit_events d).

Definition upd_audit_events (f : gmap ID AuditEvent -> gmap ID AuditEvent) (d : DB) : DB :=
  mkDB (tenants d) (users d) (api_keys d) (ssh_keys d) (nodes d) (node_groups d)
    (node_group_memberships d) (gateways d) (wireguard_peers d) (ip_allocations d)
    (bgp_sessions d) (dns_zones d) (dns_records d) (cdn_sites d) (cdn_origins d)
    (routes d) (enrollment_tokens d) (provisioning_jobs d) (f (audit_events d)).

(** internal/storage/store.go *)
Record ListParams := mkListParams { lp_Offset : Z; lp_Limit : Z; lp_Cursor : string }.
Definition DefaultLimit : Z := 50.

(** ** Statements *)

Record SqlState := mkSql { sq_db : DB; sq_fk : bool; sq_faults : list bool }.

Definition sq_fault (s : SqlState) : bool := default false (head (sq_faults s)).
Definition sq_next (s : SqlState) (d : DB) : SqlState :=
  mkSql d (sq_fk s) (tail (sq_faults s)).

(** One statement: on a fault the tables are untouched and the method returns
    its wrapped driver error. *)
Definition sql_exec {A} (msg : string) (f : DB -> result A * DB) : stM SqlState A := fun s =>
  if sq_fault s then (Err (Wrapf msg (Errorf "driver error")), sq_next s (sq_db s))
  else match f (sq_db s) with (r, d) => (r, sq_next s d) end.

(** A statement that only reads. *)
Definition sql_query {A} (msg : string) (f : DB -> result A) : stM SqlState A :=
  sql_exec msg (fun d => (f d, d)).

(** INSERT: duplicate primary key, then the statement's foreign keys. *)
Definition sql_insert {A} (msg dup : string) (exists_ : DB -> bool) (fks : DB -> bool)
    (put : DB -> DB) (v : A) : stM SqlState A := fun s =>
  sql_exec msg (fun d =>
    if exists_ d then (Err (Wrapf dup ErrAlreadyExists), d)
    else if sq_fk s && negb (fks d) then
      (Err (Wrapf msg (Errorf "FOREIGN KEY constraint failed")), d)
    else (Ok v, put d)) s.

(** UPDATE/DELETE ... WHERE id = ?: [ErrNotFound] when no row is affected. *)
Definition sql_update {A} (msg : string) (exists_ : DB -> bool) (fks : DB -> bool)
    (put : DB -> DB) (v : A) : stM SqlState A := fun s =>
  sql_exec msg (fun d =>
    if negb (exists_ d) then (Err ErrNotFound, d)
    else if sq_fk s && negb (fks d) then
      (Err (Wrapf msg (Errorf "FOREIGN KEY constraint failed")), d)
    else (Ok v, put d)) s.

Definition has_key {V} (m : gmap ID V) (k : ID) : bool := bool_decide (is_Some (m !! k)).
(** A nullable foreign key column. *)
Definition fk_opt {V} (m : gmap ID V) (k : option ID) : bool :=
  match k with None => true | Some k => has_key m k end.

(** [ORDER BY ... LIMIT ? OFFSET ?] on the rows selected by [WHERE]; a
    non-positive limit is replaced by the default first. *)
Definition page {V} (p : ListParams) (rows : list V) : list V :=
  let limit := if lp_Limit p <=? 0 then DefaultLimit else lp_Limit p in
  take (Z.to_nat limit) (drop (Z.to_nat (lp_Offset p)) rows).

(** The rows of a table. *)
Definition rows_of {V} (m : gmap ID V) : list V := (map_to_list m).*2.

(** Byte order of SQLite's BINARY collation on one or two columns. *)
Definition by_name {V} (name : V -> string) : relation V :=
  fun a b => String.le (name a) (name b).
Definition by_name_type {V} (name typ : V -> string) : relation V := fun a b =>
  String.le (name a) (name b) /\ (name a = name b -> String.le (typ a) (typ b)).
#[export] Instance by_name_dec {V} (name : V -> string) : RelDecision (by_name name).
Proof. intros a b. apply String.le_dec. Defined.
#[export] Instance by_name_type_dec {V} (name typ : V -> string) :
  RelDecision (by_name_type name typ).
Proof. intros a b. unfold by_name_type. solve_decision. Defined.

(** ** Lemmas *)

Lemma sq_db_next s d : sq_db (sq_next s d) = d.
Proof. done. Qed.

Lemma sql_query_inv {A} msg (f : DB -> result A) s r s' :
  sql_query msg f s = (r, s') ->
  sq_db s' = sq_db s /\ (forall a, r = Ok a -> f (sq_db s) = Ok a).
Proof.
  unfold sql_query, sql_exec. destruct (sq_fault s); intros; simplify_eq; cbn; naive_solver.
Qed.

Lemma sql_query_ok {A} msg (f : DB -> result A) s a s' :
  sql_query msg f s = (Ok a, s') -> sq_db s' = sq_db s /\ f (sq_db s) = Ok a.
Proof. intros H. apply sql_query_inv in H. naive_solver. Qed.

Lemma sql_insert_inv {A} msg dup ex fks put (v : A) s r s' :
  sql_insert msg dup ex fks put v s = (r, s') ->
  match r with
  | Ok a => a = v /\ ex (sq_db s) = false /\ (sq_fk s = true -> fks (sq_db s) = true) /\
            sq_db s' = put (sq_db s)
  | Err _ => sq_db s' = sq_db s
  end.
Proof.
  unfold sql_insert, sql_exec. intros H. destruct (sq_fault s); [by simplify_eq|].
  destruct (ex (sq_db s)) eqn:?; [by simplify_eq|].
  destruct (sq_fk s && negb (fks (sq_db s))) eqn:?; [by simplify_eq|].
  simplify_eq. split_and!; try done. intros Hfk. rewrite Hfk in *. by destruct (fks (sq_db s)).
Qed.

Lemma sql_update_inv {A} msg ex fks put (v : A) s r s' :
  sql_update msg ex fks put v s = (r, s') ->
  match r with
  | Ok a => a = v /\ ex (sq_db s) = true /\ sq_db s' = put (sq_db s)
  | Err _ => sq_db s' = sq_db s
  end.
Proof.
  unfold sql_update, sql_exec. intros H. destruct (sq_fault s); [by simplify_eq|].
  destruct (ex (sq_db s)) eqn:?; cbn in H; [|by simplify_eq].
  by destruct (sq_fk s && negb (fks (sq_db s))) eqn:?; simplify_eq.
Qed.

Lemma elem_of_rows {V} (m : gmap ID V) v : v ∈ rows_of m <-> exists k, m !! k = Some v.
Proof.
  unfold rows_of. rewrite list_elem_of_fmap. split.
  - intros ([k v'] & -> & H%elem_of_map_to_list). eauto.
  - intros [k H]. exists (k, v). by rewrite elem_of_map_to_list.
Qed.

Lemma page_subseteq {V} p (l : list V) x : x ∈ page p l -> x ∈ l.
Proof. unfold page. intros H%elem_of_take. destruct H as (i & H & _).
  rewrite lookup_drop in H. by eapply list_elem_of_lookup_2. Qed.

(** A page that starts at 0 and is at least as long as the table is the table. *)
Lemma page_all {V} p (l : list V) :
  lp_Offset p = 0 -> 0 < lp_Limit p -> Z.of_nat (length l) <= lp_Limit p -> page p l = l.
Proof.
  intros H0 Hpos Hlen. unfold page. rewrite H0, drop_0.
  rewrite (proj2 (Z.leb_gt _ _)) by lia. apply take_ge. lia.
Qed.

#[export] Hint Resolve page_subseteq : ef.

(** ** Runs without failing statements *)

Definition calm (s : SqlState) : Prop := sq_faults s = [].

Lemma calm_query {A} msg (f : DB -> result A) s : calm s -> sql_query msg f s = (f (sq_db s), s).
Proof. intros Hs. destruct s as [d fk fl]. unfold calm in Hs. cbn in Hs. subst. reflexivity. Qed.

Lemma calm_update {A} msg ex fks put (v : A) s :
  calm s -> ex (sq_db s) = true -> (sq_fk s = true -> fks (sq_db s) = true) ->
  sql_update msg ex fks put v s = (Ok v, mkSql (put (sq_db s)) (sq_fk s) []).
Proof.
  intros Hs Hex Hfk. destruct s as [d fk fl]. unfold calm in Hs. cbn in *. subst. unfold sql_update, sql_exec. cbn. rewrite Hex. cbn.
  destruct fk; [by rewrite Hfk|done].
Qed.

(** * Sequences of statements that only read

    [reader m f]: the statement sequence [m] leaves the tables as they are, and
    computes [f] of them unless a statement fails.  The rules follow the structure
    of the program, so that what a service reads becomes a function of the
    database. *)

Record reader {A} (m : stM SqlState A) (f : DB -> result A) : Prop := {
  rd_calm s : calm s -> m s = (f (sq_db s), s);
  rd_same s r s' : m s = (r, s') -> sq_db s' = sq_db s /\ sq_fk s' = sq_fk s;
  rd_ok s a s' : m s = (Ok a, s') -> f (sq_db s) = Ok a
}.

Create HintDb reader.

Lemma reader_query {A} msg (f : DB -> result A) : reader (sql_query msg f) f.
Proof.
  split; [intros s; apply calm_query| |].
  - intros s r s'. unfold sql_query, sql_exec. by destruct (sq_fault s); intros [= _ <-].
  - by intros s a s' [_ H]%sql_query_ok.
Qed.

Lemma reader_ret {A} (a : A) : reader (mret a) (fun _ => Ok a).
Proof. split; [done| |]; by intros s ? s' [= <- <-]. Qed.

Lemma reader_throw {A} e : reader (throw e) (fun _ => @Err A e).
Proof. split; [done| |]; by intros s ? s' [= <- <-]. Qed.

Lemma reader_lift {A} (x : result A) : reader (lift x) (fun _ => x).
Proof. split; [done| |]; by intros s ? s' [= <- <-]. Qed.

Lemma reader_bind {A B} (m : stM SqlState A) f (k : A -> stM SqlState B) g :
  reader m f -> (forall a, reader (k a) (g a)) -> reader (m ≫= k) (fun d => a ← f d; g a d).
Proof.
  intros [Hc Hs Ho] Hk. split.
  - intros s Hs0. unfold mbind, stM_bind, result_bind. rewrite (Hc s Hs0).
    destruct (f (sq_db s)) as [a|e]; [|done]. by apply Hk.
  - intros s r s' [(a & s1 & [H1 H2]%Hs & Hrun)|(e & H%Hs & _)]%bind_run; [|done].
    apply (rd_same _ _ (Hk a)) in Hrun as [-> ->]. done.
  - intros s b s' (a & s1 & Hm & Hrun)%bind_Ok. rewrite (Ho _ _ _ Hm). apply Hs in Hm as [Hd _].
    apply (rd_ok _ _ (Hk a)) in Hrun. cbn. by rewrite <-Hd.
Qed.

Lemma reader_wrap {A} msg (m : stM SqlState A) f : reader m f -> reader (wrap msg m) (fun d => wrap_err msg (f d)).
Proof.
  intros [Hc Hs Ho]. split.
  - intros s Hs0. unfold wrap, wrap_err. rewrite (Hc s Hs0). by destruct (f (sq_db s)).
  - intros s r s' [(a & H%Hs & _)|(e & H%Hs & _)]%wrap_run; done.
  - intros s a s' H%wrap_Ok. by rewrite (Ho _ _ _ H).
Qed.

(** With the error inspected, success is all that is known without faults. *)
Lemma try_same {A} (m : stM SqlState A) f s r s' :
  reader m f -> try m s = (r, s') -> sq_db s' = sq_db s /\ sq_fk s' = sq_fk s.
Proof. intros Hm. unfold try. destruct (m s) as [x s1] eqn:E. intros [= _ <-]. by apply (rd_same _ _ Hm) in E. Qed.

Lemma reader_ext {A} (m : stM SqlState A) f g : reader m f -> (forall d, f d = g d) -> reader m g.
Proof.
  intros [Hc Hs Ho] Hfg. split; [|done|].
  - intros s Hs0. by rewrite (Hc s Hs0), Hfg.
  - intros s a s' H. by rewrite <-Hfg, (Ho _ _ _ H).
Qed.

(** Two statements, the first of which never rejects: COUNT and SELECT. *)
Lemma reader_count {A} msg msg' (n : DB -> Z) (g : Z -> DB -> A) :
  reader (total ← sql_query msg (fun d => Ok (n d)); sql_query msg' (fun d => Ok (g total d))) (fun d => Ok (g (n d) d)).
Proof. eapply reader_ext; [apply reader_bind; [apply reader_query|intros a; apply reader_query]|]. done. Qed.

#[export] Hint Resolve reader_query reader_ret reader_throw reader_lift reader_wrap reader_count : reader.

(** Run a read at the head of a sequence. *)
Lemma reader_run {A B} (m : stM SqlState A) f (k : A -> stM SqlState B) s r s' :
  reader m f -> (m ≫= k) s = (r, s') ->
  (exists a s1, f (sq_db s) = Ok a /\ sq_db s1 = sq_db s /\ sq_fk s1 = sq_fk s /\ k a s1 = (r, s')) \/
  (exists e, r = Err e /\ sq_db s' = sq_db s /\ sq_fk s' = sq_fk s).
Proof.
  intros Hm [(a & s1 & H1 & Hrun)|(e & H1 & ->)]%bind_run.
  - left. exists a, s1. pose proof (rd_same _ _ Hm _ _ _ H1) as [? ?].
    split_and!; [exact (rd_ok _ _ Hm _ _ _ H1)|done..].
  - right. exists e. by apply (rd_same _ _ Hm) in H1 as [? ?].
Qed.

(** ** Statements that write *)

Lemma sql_exec_fk {A} msg (f : DB -> result A * DB) s r s' : sql_exec msg f s = (r, s') -> sq_fk s' = sq_fk s.
Proof. unfold sql_exec. destruct (sq_fault s); [by intros [= _ <-]|]. by destruct (f (sq_db s)); intros [= _ <-]. Qed.

Lemma sql_update_fk_inv {A} msg ex fks put (v : A) s r s' :
  sql_update msg ex fks put v s = (r, s') ->
  match r with
  | Ok a => a = v /\ ex (sq_db s) = true /\ (sq_fk s = true -> fks (sq_db s) = true) /\ sq_db s' = put (sq_db s)
  | Err _ => sq_db s' = sq_db s
  end.
Proof.
  unfold sql_update, sql_exec. intros H. destruct (sq_fault s); [by simplify_eq|].
  destruct (ex (sq_db s)) eqn:?; cbn in H; [|by simplify_eq].
  destruct (sq_fk s && negb (fks (sq_db s))) eqn:?; simplify_eq; [done|].
  split_and!; try done. intros Hfk. rewrite Hfk in *. by destruct (fks (sq_db s)).
Qed.

(** * Pagination cursors (internal/storage/cursor.go)

    The JSON form of a cursor is what [encoding/json] makes of [CursorData]: a
    time and an ID.  [Marshal] fails on times without an RFC 3339 form. *)

Record CursorData := mkCursorData { cd_CreatedAt : Time; cd_ID : string }.

Record CursorJSON := mkCursorJSON { cj_Marshal : CursorData -> option string; cj_Unmarshal : string -> option CursorData }.

Section cursor.
Context (j : CursorJSON).

Definition EncodeCursor (createdAt : Time) (id : string) : string :=
  match cj_Marshal j (mkCursorData createdAt id) with
  | Some b => RawURL_EncodeToString b
  | None => ""
  end.

Definition DecodeCursor (cursor : string) : option CursorData :=
  if bool_decide (cursor = "") then None
  else
    b ← RawURL_DecodeString cursor;
    data ← cj_Unmarshal j b;
    if bool_decide (cd_ID data = "") then None else Some data.

(** What [Marshal] writes is not empty, and [Unmarshal] reads it back. *)
Definition cursor_law : Prop := forall d b, cj_Marshal j d = Some b -> b <> "" /\ cj_Unmarshal j b = Some d.

Lemma RawURL_nonempty b : b <> "" -> RawURL_EncodeToString b <> "".
Proof.
  intros Hb Hn. pose proof (RawURL_roundtrip b) as H. rewrite Hn in H. cbn in H. congruence.
Qed.

Lemma DecodeCursor_Encode t id b :
  cursor_law -> cj_Marshal j (mkCursorData t id) = Some b -> id <> "" ->
  DecodeCursor (EncodeCursor t id) = Some (mkCursorData t id).
Proof.
  intros Hl Hm Hid. destruct (Hl _ _ Hm) as [Hb Hu]. unfold DecodeCursor, EncodeCursor. rewrite Hm.
  rewrite bool_decide_false by by apply RawURL_nonempty.
  rewrite RawURL_roundtrip. cbn. rewrite Hu. cbn. by rewrite bool_decide_false.
Qed.
End cursor.
