(* ===== verification/StoreDns.v ===== *)
(** * DNS tables (internal/storage/sqlite/dns_zone.go, dns_record.go)

    [DnsStore] is the interface the DNS service is written against
    (storage.DNSZoneStore and storage.DNSRecordStore); [DnsStoreLaws] states
    what each method promises in terms of the rows a state holds, on the success
    and on the error path.  The SQLite store is an instance of both. *)

From Stdlib Require Import ZArith Lia String.
From S2P Require Import Prelude GoStrings Domain Storage.

Open Scope Z_scope.

(** ** The interface *)

Class DnsStore (S : Type) := {
  ds_zones : S -> gmap ID DNSZone;
  ds_records : S -> gmap ID DNSRecord;
  CreateDNSZone : Time -> DNSZone -> stM S DNSZone;
  GetDNSZone : ID -> stM S DNSZone;
  ListDNSZones : ID -> ListParams -> stM S (list DNSZone * Z);
  UpdateDNSZone : Time -> DNSZone -> stM S DNSZone;
  DeleteDNSZone : ID -> stM S unit;
  IncrementDNSZoneSerial : Time -> ID -> stM S unit;
  CreateDNSRecord : Time -> DNSRecord -> stM S DNSRecord;
  GetDNSRecord : ID -> stM S DNSRecord;
  ListDNSRecords : ID -> ListParams -> stM S (list DNSRecord * Z);
  UpdateDNSRecord : Time -> DNSRecord -> stM S DNSRecord;
  DeleteDNSRecord : ID -> stM S unit
}.

(** Values the store fills in. *)
Definition new_zone (now : Time) (z : DNSZone) : DNSZone :=
  mkDNSZone (zone_ID z) (zone_TenantID z) (zone_Name z)
    (if bool_decide (zone_Status z = "") then DNSZoneActive else zone_Status z)
    (if zone_Serial z =? 0 then 1 else zone_Serial z)
    (if zone_TTL z =? 0 then 3600 else zone_TTL z)
    (zone_NodeGroupID z) (zone_TransferAllowedIPs z) now now.

Definition set_zone_UpdatedAt (now : Time) (z : DNSZone) : DNSZone :=
  mkDNSZone (zone_ID z) (zone_TenantID z) (zone_Name z) (zone_Status z) (zone_Serial z)
    (zone_TTL z) (zone_NodeGroupID z) (zone_TransferAllowedIPs z) (zone_CreatedAt z) now.

(** The columns [UpdateDNSZone] writes. *)
Definition merge_zone (z old : DNSZone) : DNSZone :=
  mkDNSZone (zone_ID old) (zone_TenantID old) (zone_Name z) (zone_Status z)
    (zone_Serial old) (zone_TTL z) (zone_NodeGroupID z) (zone_TransferAllowedIPs z)
    (zone_CreatedAt old) (zone_UpdatedAt z).

Definition bump_serial (now : Time) (z : DNSZone) : DNSZone :=
  mkDNSZone (zone_ID z) (zone_TenantID z) (zone_Name z) (zone_Status z)
    (zone_Serial z + 1) (zone_TTL z) (zone_NodeGroupID z) (zone_TransferAllowedIPs z)
    (zone_CreatedAt z) now.

Definition new_record (now : Time) (r : DNSRecord) : DNSRecord :=
  mkDNSRecord (rec_ID r) (rec_ZoneID r) (rec_Name r) (rec_Type r) (rec_Value r)
    (rec_TTL r) (rec_Priority r) (rec_Weight r) (rec_Port r) now now.

Definition set_rec_UpdatedAt (now : Time) (r : DNSRecord) : DNSRecord :=
  mkDNSRecord (rec_ID r) (rec_ZoneID r) (rec_Name r) (rec_Type r) (rec_Value r)
    (rec_TTL r) (rec_Priority r) (rec_Weight r) (rec_Port r) (rec_CreatedAt r) now.

(** The columns [UpdateDNSRecord] writes. *)
Definition merge_record (r old : DNSRecord) : DNSRecord :=
  mkDNSRecord (rec_ID old) (rec_ZoneID old) (rec_Name r) (rec_Type r) (rec_Value r)
    (rec_TTL r) (rec_Priority r) (rec_Weight r) (rec_Port r) (rec_CreatedAt old)
    (rec_UpdatedAt r).

Section laws.
Context {S : Type} `{DnsStore S}.

Definition dns_same (s s' : S) : Prop :=
  ds_zones s' = ds_zones s /\ ds_records s' = ds_records s.

Definition zone_rows (s : S) (tid : ID) : list DNSZone :=
  filter (fun z => zone_TenantID z = tid) (rows_of (ds_zones s)).
Definition record_rows (s : S) (zid : ID) : list DNSRecord :=
  filter (fun r => rec_ZoneID r = zid) (rows_of (ds_records s)).
End laws.

Class DnsStoreLaws (S : Type) `{DnsStore S} := {
  CreateDNSZone_spec now z s r s' :
    CreateDNSZone now z s = (r, s') ->
    ds_records s' = ds_records s /\
    match r with
    | Ok z' => z' = new_zone now z /\ ds_zones s !! zone_ID z = None /\
               ds_zones s' = <[zone_ID z := z']> (ds_zones s)
    | Err _ => ds_zones s' = ds_zones s
    end;
  GetDNSZone_spec id s r s' :
    GetDNSZone id s = (r, s') ->
    dns_same s s' /\ forall z, r = Ok z -> ds_zones s !! id = Some z;
  ListDNSZones_spec tid p s r s' :
    ListDNSZones tid p s = (r, s') ->
    dns_same s s' /\ forall l n, r = Ok (l, n) ->
      exists all, all ≡ₚ zone_rows s tid /\ l = page p all;
  UpdateDNSZone_spec now z s r s' :
    UpdateDNSZone now z s = (r, s') ->
    ds_records s' = ds_records s /\
    match r with
    | Ok z' => z' = set_zone_UpdatedAt now z /\
        exists old, ds_zones s !! zone_ID z = Some old /\
          ds_zones s' = <[zone_ID z := merge_zone z' old]> (ds_zones s)
    | Err _ => ds_zones s' = ds_zones s
    end;
  DeleteDNSZone_spec id s r s' :
    DeleteDNSZone id s = (r, s') ->
    match r with
    | Ok _ => ds_zones s' = delete id (ds_zones s) /\ ds_records s' ⊆ ds_records s /\
        forall rid rc, ds_records s !! rid = Some rc -> rec_ZoneID rc <> id ->
          ds_records s' !! rid = Some rc
    | Err _ => dns_same s s'
    end;
  IncrementDNSZoneSerial_spec now id s r s' :
    IncrementDNSZoneSerial now id s = (r, s') ->
    ds_records s' = ds_records s /\
    match r with
    | Ok _ => exists z, ds_zones s !! id = Some z /\
                ds_zones s' = <[id := bump_serial now z]> (ds_zones s)
    | Err _ => ds_zones s' = ds_zones s
    end;
  CreateDNSRecord_spec now rc s r s' :
    CreateDNSRecord now rc s = (r, s') ->
    ds_zones s' = ds_zones s /\
    match r with
    | Ok rc' => rc' = new_record now rc /\ ds_records s !! rec_ID rc = None /\
                ds_records s' = <[rec_ID rc := rc']> (ds_records s)
    | Err _ => ds_records s' = ds_records s
    end;
  GetDNSRecord_spec id s r s' :
    GetDNSRecord id s = (r, s') ->
    dns_same s s' /\ forall rc, r = Ok rc -> ds_records s !! id = Some rc;
  ListDNSRecords_spec zid p s r s' :
    ListDNSRecords zid p s = (r, s') ->
    dns_same s s' /\ forall l n, r = Ok (l, n) ->
      exists all, all ≡ₚ record_rows s zid /\ l = page p all;
  UpdateDNSRecord_spec now rc s r s' :
    UpdateDNSRecord now rc s = (r, s') ->
    ds_zones s' = ds_zones s /\
    match r with
    | Ok rc' => rc' = set_rec_UpdatedAt now rc /\
        exists old, ds_records s !! rec_ID rc = Some old /\
          ds_records s' = <[rec_ID rc := merge_record rc' old]> (ds_records s)
    | Err _ => ds_records s' = ds_records s
    end;
  DeleteDNSRecord_spec id s r s' :
    DeleteDNSRecord id s = (r, s') ->
    ds_zones s' = ds_zones s /\
    match r with
    | Ok _ => ds_records s' = delete id (ds_records s) /\ is_Some (ds_records s !! id)
    | Err _ => ds_records s' = ds_records s
    end
}.

(** ** The SQLite store *)

(** Scanning the INTEGER column [serial] into a uint32. *)
Definition scan_zone (z : DNSZone) : result DNSZone :=
  if zone_Serial z <? 2 ^ 32 then Ok z
  else Err (Wrapf "scan dns zone" (Errorf "value out of range")).

Fixpoint scan_zones (l : list DNSZone) : result (list DNSZone) :=
  match l with
  | [] => Ok []
  | z :: l => z ← scan_zone z; l ← scan_zones l; Ok (z :: l)
  end.

Definition sqlite_CreateDNSZone (now : Time) (z : DNSZone) : stM SqlState DNSZone :=
  let z := new_zone now z in
  sql_insert "insert dns zone" "dns zone already exists"
    (fun d => has_key (dns_zones d) (zone_ID z))
    (fun d => has_key (tenants d) (zone_TenantID z) &&
              fk_opt (node_groups d) (zone_NodeGroupID z))
    (upd_dns_zones (fun m => <[zone_ID z := z]> m)) z.

Definition sqlite_GetDNSZone (id : ID) : stM SqlState DNSZone :=
  sql_query "get dns zone" (fun d =>
    match dns_zones d !! id with
    | None => Err ErrNotFound
    | Some z => scan_zone z
    end).

Definition sqlite_ListDNSZones (tid : ID) (p : ListParams) : stM SqlState (list DNSZone * Z) :=
  sql_query "list dns zones" (fun d =>
    let sel := filter (fun z => zone_TenantID z = tid) (rows_of (dns_zones d)) in
    l ← scan_zones (page p (merge_sort (by_name zone_Name) sel));
    Ok (l, Z.of_nat (length sel))).

Definition sqlite_UpdateDNSZone (now : Time) (z : DNSZone) : stM SqlState DNSZone :=
  let z := set_zone_UpdatedAt now z in
  sql_update "update dns zone" (fun d => has_key (dns_zones d) (zone_ID z))
    (fun d => fk_opt (node_groups d) (zone_NodeGroupID z))
    (upd_dns_zones (fun m => alter (merge_zone z) (zone_ID z) m)) z.

(** The foreign key of dns_records is ON DELETE CASCADE. *)
Definition sqlite_DeleteDNSZone (id : ID) : stM SqlState unit := fun s =>
  sql_update "delete dns zone" (fun d => has_key (dns_zones d) id) (fun _ => true)
    (fun d => upd_dns_zones (delete id)
       (if sq_fk s then upd_dns_records (filter (fun kr => rec_ZoneID kr.2 <> id)) d else d))
    tt s.

Definition sqlite_IncrementDNSZoneSerial (now : Time) (id : ID) : stM SqlState unit :=
  sql_update "increment dns zone serial" (fun d => has_key (dns_zones d) id) (fun _ => true)
    (upd_dns_zones (fun m => alter (bump_serial now) id m)) tt.

Definition sqlite_CreateDNSRecord (now : Time) (r : DNSRecord) : stM SqlState DNSRecord :=
  let r := new_record now r in
  sql_insert "insert dns record" "dns record already exists"
    (fun d => has_key (dns_records d) (rec_ID r))
    (fun d => has_key (dns_zones d) (rec_ZoneID r))
    (upd_dns_records (fun m => <[rec_ID r := r]> m)) r.

Definition sqlite_GetDNSRecord (id : ID) : stM SqlState DNSRecord :=
  sql_query "get dns record" (fun d =>
    match dns_records d !! id with None => Err ErrNotFound | Some r => Ok r end).

Definition sqlite_ListDNSRecords (zid : ID) (p : ListParams) : stM SqlState (list DNSRecord * Z) :=
  sql_query "list dns records" (fun d =>
    let sel := filter (fun r => rec_ZoneID r = zid) (rows_of (dns_records d)) in
    Ok (page p (merge_sort (by_name_type rec_Name rec_Type) sel), Z.of_nat (length sel))).

Definition sqlite_UpdateDNSRecord (now : Time) (r : DNSRecord) : stM SqlState DNSRecord :=
  let r := set_rec_UpdatedAt now r in
  sql_update "update dns record" (fun d => has_key (dns_records d) (rec_ID r)) (fun _ => true)
    (upd_dns_records (fun m => alter (merge_record r) (rec_ID r) m)) r.

Definition sqlite_DeleteDNSRecord (id : ID) : stM SqlState unit :=
  sql_update "delete dns record" (fun d => has_key (dns_records d) id) (fun _ => true)
    (upd_dns_records (delete id)) tt.

#[export] Instance sqlite_dns : DnsStore SqlState := {
  ds_zones s := dns_zones (sq_db s);
  ds_records s := dns_records (sq_db s);
  CreateDNSZone := sqlite_CreateDNSZone;
  GetDNSZone := sqlite_GetDNSZone;
  ListDNSZones := sqlite_ListDNSZones;
  UpdateDNSZone := sqlite_UpdateDNSZone;
  DeleteDNSZone := sqlite_DeleteDNSZone;
  IncrementDNSZoneSerial := sqlite_IncrementDNSZoneSerial;
  CreateDNSRecord := sqlite_CreateDNSRecord;
  GetDNSRecord := sqlite_GetDNSRecord;
  ListDNSRecords := sqlite_ListDNSRecords;
  UpdateDNSRecord := sqlite_UpdateDNSRecord;
  DeleteDNSRecord := sqlite_DeleteDNSRecord
}.

Lemma has_key_false {V} (m : gmap ID V) k : has_key m k = false -> m !! k = None.
Proof. unfold has_key. rewrite bool_decide_eq_false. apply eq_None_not_Some. Qed.

Lemma has_key_true {V} (m : gmap ID V) k : has_key m k = true -> is_Some (m !! k).
Proof. unfold has_key. by rewrite bool_decide_eq_true. Qed.

Lemma alter_insert_eq {V} (f : V -> V) (m : gmap ID V) k v :
  m !! k = Some v -> alter f k m = <[k := f v]> m.
Proof.
  intros Hk. apply map_eq. intros j. destruct (decide (j = k)) as [->|Hne].
  - by rewrite lookup_alter_eq, Hk, lookup_insert_eq.
  - by rewrite lookup_alter_ne, lookup_insert_ne.
Qed.

Lemma scan_zones_id l l' : scan_zones l = Ok l' -> l' = l.
Proof.
  revert l'. induction l as [|z l IH]; intros l' Hs; cbn in Hs; [by simplify_eq|].
  inv_ok Hs. unfold scan_zone in *. case_match; simplify_eq. by rewrite (IH a0).
Qed.

#[export] Instance sqlite_dns_laws : DnsStoreLaws SqlState.
Proof.
  split; cbn -[filter].
  - intros now z s r s' Hs%sql_insert_inv. destruct r; cbn in Hs.
    + destruct Hs as (-> & Hn%has_key_false & _ & ->). done.
    + by rewrite Hs.
  - intros id s r s' [Hd Hok]%sql_query_inv. unfold dns_same; cbn. rewrite Hd.
    split; [done|]. intros z ->. specialize (Hok z eq_refl).
    repeat case_scrut_in Hok; simplify_eq. unfold scan_zone in Hok.
    by case_match; simplify_eq.
  - intros tid p s r s' [Hd Hok]%sql_query_inv. unfold dns_same; cbn. rewrite Hd.
    split; [done|]. intros l n ->. specialize (Hok _ eq_refl). cbv zeta in Hok. inv_ok Hok. simplify_eq.
    exists (merge_sort (by_name zone_Name) (zone_rows s tid)).
    split; [apply merge_sort_Permutation|]. by eapply scan_zones_id.
  - intros now z s r s' Hs%sql_update_inv. destruct r; cbn in Hs; [|by rewrite Hs].
    destruct Hs as (-> & [old Ho]%has_key_true & ->). split; [done|]. split; [done|].
    exists old. split; [done|]. by apply alter_insert_eq.
  - intros id s r s' Hs%sql_update_inv. destruct r; cbn in Hs.
    + destruct Hs as (_ & _ & ->). destruct (sq_fk s); cbn; [|done].
      split; [done|]. split; [apply map_filter_subseteq|].
      intros rid rc Hrc Hz. by apply map_lookup_filter_Some.
    + unfold dns_same; cbn. by rewrite Hs.
  - intros now id s r s' Hs%sql_update_inv. destruct r; cbn in Hs; [|by rewrite Hs].
    destruct Hs as (_ & [z Hz]%has_key_true & ->). split; [done|].
    exists z. split; [done|]. by apply alter_insert_eq.
  - intros now z s r s' Hs%sql_insert_inv. destruct r; cbn in Hs; [|by rewrite Hs].
    destruct Hs as (-> & Hn%has_key_false & _ & ->). done.
  - intros id s r s' [Hd Hok]%sql_query_inv. unfold dns_same; cbn. rewrite Hd.
    split; [done|]. intros z ->. specialize (Hok z eq_refl). by case_match; simplify_eq.
  - intros zid p s r s' [Hd Hok]%sql_query_inv. unfold dns_same; cbn. rewrite Hd.
    split; [done|]. intros l n ->. specialize (Hok _ eq_refl). cbv zeta in Hok. simplify_eq.
    exists (merge_sort (by_name_type rec_Name rec_Type) (record_rows s zid)).
    split; [apply merge_sort_Permutation|done].
  - intros now z s r s' Hs%sql_update_inv. destruct r; cbn in Hs; [|by rewrite Hs].
    destruct Hs as (-> & [old Ho]%has_key_true & ->). split; [done|]. split; [done|].
    exists old. split; [done|]. by apply alter_insert_eq.
  - intros id s r s' Hs%sql_update_inv. destruct r; cbn in Hs; [|by rewrite Hs].
    by destruct Hs as (_ & Hk%has_key_true & ->).
Qed.
