(* ===== verification/StoreFleet.v ===== *)
(** * Node and node group tables (internal/storage/sqlite/node.go, nodegroup.go)

    The store methods of the fleet that the services of this development call,
    and [GroupStore], the part of them the DNS and route services read. *)

From Stdlib Require Import ZArith Lia String.
From S2P Require Import Prelude GoStrings Domain Storage.

Open Scope Z_scope.

(** The part of storage.NodeStore and storage.NodeGroupStore that the
    configuration services read. *)
Class GroupStore (S : Type) := {
  gs_groups : S -> gmap ID NodeGroup;
  gs_members : S -> gset (ID * ID);
  GetNode : ID -> stM S Node;
  ListNodeGroups_ByNode : ID -> stM S (list NodeGroup)
}.

(** ** Nodes *)

Definition new_node (now : Time) (n : Node) : Node :=
  mkNode (node_ID n) (node_TenantID n) (node_Name n) (node_Hostname n) (node_PublicIP n)
    (node_WireGuardIP n) (node_WireGuardIPv6 n)
    (if bool_decide (node_Status n = "") then NodeStatusPending else node_Status n)
    (node_Region n) (node_Provider n)
    (if node_SSHPort n =? 0 then 22 else node_SSHPort n)
    (node_SSHUser n) (node_SSHKeyID n) (node_BinaryVersion n) None None
    (node_Capabilities n) (node_Metadata n) now now.

(** [INSERT INTO nodes] does not write the two sync timestamps; a repeated
    capability violates the primary key of node_capabilities and rolls back. *)
Definition sqlite_CreateNode (now : Time) (n : Node) : stM SqlState Node := fun s =>
  let row := new_node now n in
  sql_exec "insert node" (fun d =>
    if has_key (nodes d) (node_ID n) then (Err (Wrapf "node already exists" ErrAlreadyExists), d)
    else if sq_fk s && negb (fk_opt (tenants d) (node_TenantID n) &&
                             fk_opt (ssh_keys d) (node_SSHKeyID n)) then
      (Err (Wrapf "insert node" (Errorf "FOREIGN KEY constraint failed")), d)
    else if negb (bool_decide (NoDup (node_Capabilities n))) then
      (Err (Wrapf "insert capability" (Errorf "UNIQUE constraint failed")), d)
    else (Ok row, upd_nodes (fun m => <[node_ID n := row]> m) d)) s.

Definition sqlite_GetNode (id : ID) : stM SqlState Node :=
  sql_query "get node" (fun d =>
    match nodes d !! id with None => Err ErrNotFound | Some n => Ok n end).

(** The columns [UpdateNode] writes. *)
Definition merge_node (now : Time) (n old : Node) : Node :=
  mkNode (node_ID old) (node_TenantID n) (node_Name n) (node_Hostname n) (node_PublicIP n)
    (node_WireGuardIP n) (node_WireGuardIPv6 n) (node_Status n)
    (node_Region n) (node_Provider n) (node_SSHPort n) (node_SSHUser n) (node_SSHKeyID n)
    (node_BinaryVersion n) (node_LastHeartbeat old) (node_LastConfigSync old)
    (node_Capabilities n) (node_Metadata n) (node_CreatedAt old) now.

Definition sqlite_UpdateNode (now : Time) (n : Node) : stM SqlState unit := fun s =>
  sql_exec "update node" (fun d =>
    match nodes d !! node_ID n with
    | None => (Err ErrNotFound, d)
    | Some old =>
        if sq_fk s && negb (fk_opt (tenants d) (node_TenantID n) &&
                            fk_opt (ssh_keys d) (node_SSHKeyID n)) then
          (Err (Wrapf "update node" (Errorf "FOREIGN KEY constraint failed")), d)
        else if negb (bool_decide (NoDup (node_Capabilities n))) then
          (Err (Wrapf "insert capability" (Errorf "UNIQUE constraint failed")), d)
        else (Ok tt, upd_nodes (fun m => <[node_ID n := merge_node now n old]> m) d)
    end) s.

Definition set_node_heartbeat (now : Time) (n : Node) : Node :=
  mkNode (node_ID n) (node_TenantID n) (node_Name n) (node_Hostname n) (node_PublicIP n)
    (node_WireGuardIP n) (node_WireGuardIPv6 n) NodeStatusOnline
    (node_Region n) (node_Provider n) (node_SSHPort n) (node_SSHUser n) (node_SSHKeyID n)
    (node_BinaryVersion n) (Some now) (node_LastConfigSync n)
    (node_Capabilities n) (node_Metadata n) (node_CreatedAt n) now.

Definition sqlite_UpdateNodeHeartbeat (now : Time) (id : ID) : stM SqlState unit :=
  sql_update "update heartbeat" (fun d => has_key (nodes d) id) (fun _ => true)
    (upd_nodes (alter (set_node_heartbeat now) id)) tt.

Definition set_node_config_sync (now : Time) (n : Node) : Node :=
  mkNode (node_ID n) (node_TenantID n) (node_Name n) (node_Hostname n) (node_PublicIP n)
    (node_WireGuardIP n) (node_WireGuardIPv6 n) (node_Status n)
    (node_Region n) (node_Provider n) (node_SSHPort n) (node_SSHUser n) (node_SSHKeyID n)
    (node_BinaryVersion n) (node_LastHeartbeat n) (Some now)
    (node_Capabilities n) (node_Metadata n) (node_CreatedAt n) now.

Definition sqlite_UpdateNodeConfigSync (now : Time) (id : ID) : stM SqlState unit :=
  sql_update "update node config sync" (fun d => has_key (nodes d) id) (fun _ => true)
    (upd_nodes (alter (set_node_config_sync now) id)) tt.

(** ** Groups *)

Definition sqlite_AddNodeToGroup (groupID nodeID : ID) : stM SqlState unit :=
  sql_insert "add node to group" "node already in group"
    (fun d => bool_decide ((groupID, nodeID) ∈ node_group_memberships d))
    (fun d => has_key (node_groups d) groupID && has_key (nodes d) nodeID)
    (upd_node_group_memberships (fun m => {[(groupID, nodeID)]} ∪ m)) tt.

Definition sqlite_RemoveNodeFromGroup (groupID nodeID : ID) : stM SqlState unit :=
  sql_update "remove node from group"
    (fun d => bool_decide ((groupID, nodeID) ∈ node_group_memberships d)) (fun _ => true)
    (upd_node_group_memberships (fun m => m ∖ {[(groupID, nodeID)]})) tt.

(** The join with node_group_memberships: rows whose key is a member. *)
Definition groups_of_node (d : DB) (nodeID : ID) : list NodeGroup :=
  (filter (fun kg => (kg.1, nodeID) ∈ node_group_memberships d)
     (map_to_list (node_groups d))).*2.
Definition nodes_of_group (d : DB) (groupID : ID) : list Node :=
  (filter (fun kn => (groupID, kn.1) ∈ node_group_memberships d)
     (map_to_list (nodes d))).*2.

Definition sqlite_ListNodeGroups_ByNode (nodeID : ID) : stM SqlState (list NodeGroup) :=
  sql_query "list node groups by node" (fun d =>
    Ok (merge_sort (by_name ng_Name) (groups_of_node d nodeID))).

(** [ListGroupNodes] does not load the capabilities of the nodes it returns. *)
Definition without_capabilities (n : Node) : Node :=
  mkNode (node_ID n) (node_TenantID n) (node_Name n) (node_Hostname n) (node_PublicIP n)
    (node_WireGuardIP n) (node_WireGuardIPv6 n) (node_Status n)
    (node_Region n) (node_Provider n) (node_SSHPort n) (node_SSHUser n) (node_SSHKeyID n)
    (node_BinaryVersion n) (node_LastHeartbeat n) (node_LastConfigSync n)
    [] (node_Metadata n) (node_CreatedAt n) (node_UpdatedAt n).

Definition sqlite_ListGroupNodes (groupID : ID) : stM SqlState (list Node) :=
  sql_query "list group nodes" (fun d =>
    Ok (without_capabilities <$> merge_sort (by_name node_Name) (nodes_of_group d groupID))).

#[export] Instance sqlite_groups : GroupStore SqlState := {
  gs_groups s := node_groups (sq_db s);
  gs_members s := node_group_memberships (sq_db s);
  GetNode := sqlite_GetNode;
  ListNodeGroups_ByNode := sqlite_ListNodeGroups_ByNode
}.

Lemma elem_of_groups_of_node d n g :
  g ∈ groups_of_node d n <->
  exists gid, node_groups d !! gid = Some g /\ (gid, n) ∈ node_group_memberships d.
Proof.
  unfold groups_of_node. rewrite list_elem_of_fmap. split.
  - intros ([gid g'] & -> & [Hm Hl%elem_of_map_to_list]%list_elem_of_filter). eauto.
  - intros (gid & Hl & Hm). exists (gid, g). split; [done|].
    apply list_elem_of_filter. by rewrite elem_of_map_to_list.
Qed.
