(* ===== verification/DnsValidate.v ===== *)
(** * DNS validation (internal/dns/validation.go)

    The zone, record and transfer-ACL validators, and what the hostname
    expression accepts, label by label. *)

From Stdlib Require Import ZArith Lia Ascii String.
From S2P Require Import Prelude GoStrings GoNet Regex Domain.

Open Scope Z_scope.

Definition is_alnum (c : ascii) : bool :=
  in_range "a" "z" c || in_range "A" "Z" c || in_range "0" "9" c.
Definition is_alnum_us (c : ascii) : bool := is_alnum c || bool_decide (c = "_"%char).
Definition or_hyphen (p : ascii -> bool) (c : ascii) : bool := p c || bool_decide (c = "-"%char).

(** [e([m]{0,61}e)?] *)
Definition label_re (e m : ascii -> bool) : regex :=
  RSeq (RChr e) (ROpt (RSeq (RUpTo 61 (RChr m)) (RChr e))).

Definition hostnameRegex : regex :=
  RSeq (RStar (RSeq (label_re is_alnum_us (or_hyphen is_alnum_us)) (RByte ".")))
    (RSeq (label_re is_alnum (or_hyphen is_alnum)) (ROpt (RByte "."))).

Definition strlen (s : string) : Z := Z.of_nat (String.length s).

Definition validateZoneName (name : string) : result unit :=
  if bool_decide (name = "") then Err (Errorf "zone name is required") else
  let clean := TrimSuffix name "." in
  if 253 <? strlen clean then Err (Errorf "zone name too long (max 253 characters)")
  else if negb (re_match hostnameRegex clean) then Err (Errorf "invalid zone name")
  else Ok tt.

Definition isValidHostname (s : string) : bool :=
  if bool_decide (s = "") then false else
  let clean := TrimSuffix s "." in
  if 253 <? strlen clean then false else re_match hostnameRegex clean.

Definition validateA (r : DNSRecord) : result unit :=
  match ParseIP (rec_Value r) with
  | None => Err (Errorf "A record value must be a valid IP address")
  | Some ip =>
      match To4 ip with
      | None => Err (Errorf "A record value must be an IPv4 address")
      | Some _ => Ok tt
      end
  end.

Definition validateAAAA (r : DNSRecord) : result unit :=
  match ParseIP (rec_Value r) with
  | None => Err (Errorf "AAAA record value must be a valid IP address")
  | Some ip =>
      match To4 ip with
      | Some _ => Err (Errorf "AAAA record value must be an IPv6 address, not IPv4")
      | None => Ok tt
      end
  end.

Definition validateCNAME (r : DNSRecord) : result unit :=
  guard_err (isValidHostname (rec_Value r))
    (Errorf "CNAME record value must be a valid hostname").

Definition in_u16 (v : Z) : bool := negb ((v <? 0) || (65535 <? v)).

Definition validateMX (r : DNSRecord) : result unit :=
  match rec_Priority r with
  | None => Err (Errorf "MX record requires priority")
  | Some p =>
      if negb (in_u16 p) then Err (Errorf "MX record priority must be 0-65535")
      else guard_err (isValidHostname (rec_Value r))
             (Errorf "MX record value must be a valid hostname")
  end.

Definition validateTXT (r : DNSRecord) : result unit := Ok tt.

Definition validateNS (r : DNSRecord) : result unit :=
  guard_err (isValidHostname (rec_Value r))
    (Errorf "NS record value must be a valid hostname").

Definition validateSRV (r : DNSRecord) : result unit :=
  match rec_Priority r, rec_Weight r, rec_Port r with
  | None, _, _ => Err (Errorf "SRV record requires priority")
  | _, None, _ => Err (Errorf "SRV record requires weight")
  | _, _, None => Err (Errorf "SRV record requires port")
  | Some p, Some w, Some q =>
      if negb (in_u16 p) then Err (Errorf "SRV record priority must be 0-65535")
      else if negb (in_u16 w) then Err (Errorf "SRV record weight must be 0-65535")
      else if negb (in_u16 q) then Err (Errorf "SRV record port must be 0-65535")
      else guard_err (isValidHostname (rec_Value r))
             (Errorf "SRV record target must be a valid hostname")
  end.

Definition validateCAA (r : DNSRecord) : result unit :=
  match SplitN (rec_Value r) " " 3 with
  | flag :: tag :: _ :: _ =>
      if negb (bool_decide (flag = "0")) && negb (bool_decide (flag = "128")) then
        Err (Errorf "CAA record flag must be 0 or 128")
      else
        let tag := ToLower tag in
        if negb (bool_decide (tag = "issue")) && negb (bool_decide (tag = "issuewild")) &&
           negb (bool_decide (tag = "iodef")) then
          Err (Errorf "CAA record tag must be issue, issuewild, or iodef")
        else Ok tt
  | _ => Err (Errorf "CAA record value must be in format 'flag tag value'")
  end.

Definition validatePTR (r : DNSRecord) : result unit :=
  guard_err (isValidHostname (rec_Value r))
    (Errorf "PTR record value must be a valid hostname").

Definition validateRecord (r : DNSRecord) : result unit :=
  if bool_decide (rec_Name r = "") then Err (Errorf "record name is required")
  else if bool_decide (rec_Value r = "") then Err (Errorf "record value is required")
  else if bool_decide (rec_Type r = "") then Err (Errorf "record type is required")
  else if bool_decide (rec_Type r = DNSRecordTypeA) then validateA r
  else if bool_decide (rec_Type r = DNSRecordTypeAAAA) then validateAAAA r
  else if bool_decide (rec_Type r = DNSRecordTypeCNAME) then validateCNAME r
  else if bool_decide (rec_Type r = DNSRecordTypeMX) then validateMX r
  else if bool_decide (rec_Type r = DNSRecordTypeTXT) then validateTXT r
  else if bool_decide (rec_Type r = DNSRecordTypeNS) then validateNS r
  else if bool_decide (rec_Type r = DNSRecordTypeSRV) then validateSRV r
  else if bool_decide (rec_Type r = DNSRecordTypeCAA) then validateCAA r
  else if bool_decide (rec_Type r = DNSRecordTypePTR) then validatePTR r
  else Err (Errorf "unsupported record type").

Fixpoint validateTransferAllowedIPs (ips : list string) : result unit :=
  match ips with
  | [] => Ok tt
  | entry :: ips =>
      match ParseIP entry with
      | Some _ => validateTransferAllowedIPs ips
      | None =>
          match ParseCIDR entry with
          | Some _ => validateTransferAllowedIPs ips
          | None => Err (Errorf "invalid IP or CIDR in transfer_allowed_ips")
          end
      end
  end.

Definition checkCNAMEExclusivity (existingRecords : list DNSRecord) (newRecord : DNSRecord)
    : result unit :=
  let same_name r := bool_decide (rec_Name r = rec_Name newRecord) in
  let other r := bool_decide (rec_ID r <> rec_ID newRecord) in
  if bool_decide (rec_Type newRecord = DNSRecordTypeCNAME) &&
     existsb (fun r => same_name r && other r) existingRecords
  then Err (Errorf "CNAME record conflicts with existing record")
  else if existsb (fun r => same_name r &&
            bool_decide (rec_Type r = DNSRecordTypeCNAME) && other r) existingRecords
  then Err (Errorf "cannot add record: CNAME record already exists")
  else Ok tt.

(** ** What the hostname expression accepts *)

(** One label: 1 to 63 characters of class [m], the first and last of class [e]. *)
Definition label_ok (e m : ascii -> bool) (s : string) : bool :=
  match list_ascii_of_string s with
  | [] => false
  | c :: t => e c && e (List.last (c :: t) c) && forallb m (c :: t) &&
              bool_decide (length (c :: t) <= 63)%nat
  end.

(** Labels separated by dots, an optional final dot; only the last label must
    be free of underscores. *)
Definition hostname_labels (s : string) : bool :=
  let ls := Split (TrimSuffix s ".") "." in
  forallb (label_ok is_alnum_us (or_hyphen is_alnum_us)) (removelast ls) &&
  label_ok is_alnum (or_hyphen is_alnum) (List.last ls "").

Lemma list_ascii_append s1 s2 :
  list_ascii_of_string (s1 +:+ s2) = list_ascii_of_string s1 ++ list_ascii_of_string s2.
Proof. induction s1; cbn; [done|]. by f_equal. Qed.

Lemma length_list_ascii s : length (list_ascii_of_string s) = String.length s.
Proof. induction s; cbn; congruence. Qed.

Lemma string_snoc (s : string) : s = "" \/ exists u d, s = u +:+ String d "".
Proof.
  induction s as [|c s [->|(u & d & ->)]]; [by left|right|right].
  - by exists "", c.
  - by exists (String c u), d.
Qed.

Lemma label_re_spec e m s :
  (forall c, e c = true -> m c = true) ->
  matches (label_re e m) s <-> label_ok e m s = true.
Proof.
  intros Hem. unfold label_re, label_ok. rewrite matches_seq. split.
  - intros (s1 & s2 & -> & (c & -> & Hc)%matches_chr & [->|H]%matches_opt).
    + cbn. rewrite Hc, (Hem _ Hc). done.
    + apply matches_seq in H as (u & v & -> & [Hl Hf]%matches_upto & (d & -> & Hd)%matches_chr).
      cbn [append list_ascii_of_string]. rewrite list_ascii_append.
      cbn [list_ascii_of_string]. rewrite Hc. cbn [andb].
      change (c :: list_ascii_of_string u ++ [d]) with ((c :: list_ascii_of_string u) ++ [d]).
      rewrite List.last_last, Hd. cbn [andb]. rewrite andb_true_iff, bool_decide_eq_true.
      rewrite length_app. cbn [length]. rewrite length_list_ascii. split; [|lia].
      rewrite forallb_forall. intros x Hx. apply in_app_or in Hx as [[<-|Hx]|[<-|[]]];
        [by apply Hem| |by apply Hem].
      rewrite Forall_forall in Hf. apply Hf. by apply list_elem_of_In.
  - destruct s as [|c t]; [done|]. cbn [list_ascii_of_string].
    rewrite !andb_true_iff, bool_decide_eq_true. intros [[[Hc Hlast] Hall] Hlen].
    exists (String c ""), t. split; [done|]. split; [by constructor|].
    apply matches_opt. destruct (string_snoc t) as [->|(u & d & ->)]; [by left|right].
    apply matches_seq. exists u, (String d ""). split; [done|].
    rewrite list_ascii_append in *. cbn [list_ascii_of_string] in *.
    change (c :: list_ascii_of_string u ++ [d]) with ((c :: list_ascii_of_string u) ++ [d]) in *.
    rewrite List.last_last in Hlast. split; [|by constructor].
    rewrite length_app in Hlen. cbn [length] in Hlen. rewrite length_list_ascii in Hlen.
    apply matches_upto. split; [lia|]. rewrite forallb_forall in Hall.
    apply Forall_forall. intros x Hx. apply Hall. apply in_or_app. left. right.
    by apply list_elem_of_In.
Qed.

Lemma label_ok_no_dot e m s :
  m "."%char = false -> label_ok e m s = true -> ContainsByte s "." = false.
Proof.
  intros Hm. unfold label_ok. destruct s as [|c t]; [done|]. cbn [list_ascii_of_string].
  rewrite !andb_true_iff. intros [[_ Hall] _].
  change (forallb m (list_ascii_of_string (String c t)) = true) in Hall.
  revert Hall. generalize (String c t). intros s. induction s as [|d s IH]; [done|].
  cbn. rewrite andb_true_iff. intros [Hd Hs]. rewrite IH by done.
  rewrite bool_decide_false; [done|]. intros <-. congruence.
Qed.

Lemma label_ok_nonempty e m s : label_ok e m s = true -> s <> "".
Proof. by intros H ->. Qed.

Fixpoint dotted (ls : list string) : string :=
  match ls with [] => "" | l :: ls => l +:+ "." +:+ dotted ls end.

Lemma star_dotted r s :
  matches (RStar (RSeq r (RByte "."))) s <->
  exists ls, Forall (matches r) ls /\ s = dotted ls.
Proof.
  split.
  - intros H. remember (RStar (RSeq r (RByte "."))) as r' eqn:Hr.
    induction H as [| | | | |r0|r0 s1 s2 H1 _ Hst IH]; simplify_eq; [by exists []|].
    apply matches_seq in H1 as (l & d & -> & Hl & (c & -> & Hc)%matches_chr).
    apply bool_decide_eq_true in Hc as <-. destruct IH as (ls & Hls & ->); [done|].
    exists (l :: ls). split; [by constructor|]. cbn [dotted]. by rewrite append_assoc.
  - intros (ls & Hls & ->). induction Hls as [|l ls Hl Hls IH]; [constructor|].
    cbn [dotted]. rewrite <-append_assoc. constructor; [|done]. constructor; [done|].
    by constructor.
Qed.

Lemma Split_no_dot s : ContainsByte s "." = false -> Split s "." = [s].
Proof.
  induction s as [|c s IH]; [done|]. cbn. rewrite orb_false_iff, bool_decide_eq_false.
  intros [Hc Hs]. rewrite bool_decide_false by congruence. by rewrite IH.
Qed.

Lemma Split_append_dot l s :
  ContainsByte l "." = false -> Split (l +:+ "." +:+ s) "." = l :: Split s ".".
Proof.
  induction l as [|c l IH]; [done|]. rewrite (append_cons c l). cbn [Split ContainsByte].
  rewrite orb_false_iff, bool_decide_eq_false. intros [Hc Hl].
  rewrite bool_decide_false by congruence. rewrite IH by done. done.
Qed.

Lemma Split_dotted ls l :
  Forall (fun x => ContainsByte x "." = false) ls -> ContainsByte l "." = false ->
  Split (dotted ls +:+ l) "." = ls ++ [l].
Proof.
  intros Hls Hl. induction Hls as [|x ls Hx Hls IH]; [by apply Split_no_dot|].
  cbn [dotted]. rewrite (append_assoc x), (append_assoc "."), Split_append_dot by done.
  cbn [app]. by rewrite IH.
Qed.

Lemma Join_dotted ls l : Join (ls ++ [l]) "." = dotted ls +:+ l.
Proof.
  induction ls as [|x ls IH]; [done|]. cbn [dotted].
  rewrite (append_assoc x), (append_assoc "."), <-IH. by destruct ls.
Qed.

Lemma HasSuffix_append_ne p l :
  l <> "" -> HasSuffix (p +:+ l) "." = HasSuffix l ".".
Proof.
  intros Hl. induction p as [|c p IH]; [done|]. cbn [append HasSuffix]. rewrite IH.
  rewrite bool_decide_false; [done|]. intros [= _ Hp]. by destruct p.
Qed.

Lemma HasSuffix_dot_contains s : HasSuffix s "." = true -> ContainsByte s "." = true.
Proof.
  intros [p ->]%HasSuffix_spec. rewrite ContainsByte_append. by rewrite orb_true_r.
Qed.

Lemma hostnameRegex_spec s : re_match hostnameRegex s = hostname_labels s.
Proof.
  apply eq_true_iff_eq. rewrite re_match_spec. unfold hostnameRegex, hostname_labels.
  set (e1 := is_alnum_us). set (e2 := is_alnum).
  assert (H1 : forall x, matches (label_re e1 (or_hyphen e1)) x <-> label_ok e1 (or_hyphen e1) x = true).
  { intros x. apply label_re_spec. unfold or_hyphen. intros c ->. done. }
  assert (H2 : forall x, matches (label_re e2 (or_hyphen e2)) x <-> label_ok e2 (or_hyphen e2) x = true).
  { intros x. apply label_re_spec. unfold or_hyphen. intros c ->. done. }
  assert (Hd1 : forall x, label_ok e1 (or_hyphen e1) x = true -> ContainsByte x "." = false).
  { intros x. by apply label_ok_no_dot. }
  assert (Hd2 : forall x, label_ok e2 (or_hyphen e2) x = true -> ContainsByte x "." = false).
  { intros x. by apply label_ok_no_dot. }
  rewrite matches_seq. split.
  - intros (b & t & -> & (ls & Hls & ->)%star_dotted & Ht).
    apply matches_seq in Ht as (l & d & -> & Hl & Hd).
    apply H2 in Hl. assert (Hlne := label_ok_nonempty _ _ _ Hl).
    assert (Htrim : TrimSuffix (dotted ls +:+ l +:+ d) "." = dotted ls +:+ l).
    { apply matches_opt in Hd as [->|(c & -> & <-%bool_decide_eq_true)%matches_chr].
      - rewrite append_nil_r. apply TrimSuffix_none. rewrite HasSuffix_append_ne by done.
        apply Hd2 in Hl. destruct (HasSuffix l ".") eqn:Hs; [|done].
        by rewrite HasSuffix_dot_contains in Hl.
      - rewrite <-append_assoc. apply TrimSuffix_append. }
    assert (Hls' : Forall (fun x => label_ok e1 (or_hyphen e1) x = true) ls).
    { eapply Forall_impl; [done|]. intros x. apply H1. }
    rewrite Htrim, Split_dotted.
    + rewrite List.removelast_last, List.last_last, Hl, andb_true_r.
      apply forallb_forall. intros x Hx. rewrite Forall_forall in Hls'.
      apply Hls'. by apply list_elem_of_In.
    + eapply Forall_impl; [done|]. apply Hd1.
    + by apply Hd2.
  - rewrite andb_true_iff. intros [Hinit Hlast].
    set (t := TrimSuffix s ".") in *.
    assert (Hs : s = t \/ s = t +:+ ".").
    { destruct (HasSuffix s ".") eqn:Hs.
      - apply HasSuffix_spec in Hs as [p ->]. right. unfold t. by rewrite TrimSuffix_append.
      - left. unfold t. by rewrite TrimSuffix_none. }
    clearbody t. assert (Hsp : Split t "." <> []) by (destruct t; cbn; repeat case_match; done).
    destruct (exists_last Hsp) as (ls & l & Hsplit).
    rewrite Hsplit, List.removelast_last in Hinit. rewrite Hsplit, List.last_last in Hlast.
    pose proof (Join_Split t ".") as Hj. rewrite Hsplit, Join_dotted in Hj.
    exists (dotted ls), (l +:+ if decide (s = t) then "" else "."). split_and!.
    + destruct (decide (s = t)) as [->|]; rewrite <-?append_assoc, Hj, ?append_nil_r; [done|].
      naive_solver.
    + apply star_dotted. exists ls. split; [|done]. rewrite forallb_forall in Hinit.
      apply Forall_forall. intros x Hx. apply H1, Hinit. by apply list_elem_of_In.
    + apply matches_seq. eexists _, _. split; [done|]. split; [by apply H2|].
      apply matches_opt. destruct (decide (s = t)); [by left|right]. by constructor.
Qed.
