(* ===== verification/DnsService.v ===== *)
(** * DNS service (internal/dns/dns.go, internal/dns/service.go)

    Zone and record management on top of the [DnsStore] interface, and the
    configuration snapshot a node polls.  Random IDs and the clock are arguments
    of the operations. *)

From Stdlib Require Import ZArith Lia String.
From S2P Require Import Prelude GoStrings GoNet Domain Storage StoreDns StoreFleet.
From S2P Require Import DnsValidate.

Open Scope Z_scope.

(** ** Requests and configuration (service.go) *)

Record CreateZoneRequest := mkCreateZoneRequest {
  czr_TenantID : ID; czr_Name : string; czr_TTL : Z; czr_NodeGroupID : option ID;
  czr_TransferAllowedIPs : list string
}.

Record UpdateZoneRequest := mkUpdateZoneRequest {
  uzr_Name : option string; uzr_Status : option DNSZoneStatus; uzr_TTL : option Z;
  uzr_NodeGroupID : option ID; uzr_ClearNodeGroup : bool;
  uzr_TransferAllowedIPs : option (list string)
}.

Record CreateRecordRequest := mkCreateRecordRequest {
  crr_ZoneID : ID; crr_Name : string; crr_Type : DNSRecordType; crr_Value : string;
  crr_TTL : option Z; crr_Priority : option Z; crr_Weight : option Z; crr_Port : option Z
}.

Record UpdateRecordRequest := mkUpdateRecordRequest {
  urr_Name : option string; urr_Type : option DNSRecordType; urr_Value : option string;
  urr_TTL : option Z; urr_Priority : option Z; urr_Weight : option Z; urr_Port : option Z
}.

Record ZoneWithRecords := mkZoneWithRecords { zwr_Zone : DNSZone; zwr_Records : list DNSRecord }.
Record NodeDNSConfig := mkNodeDNSConfig { ndc_Zones : list ZoneWithRecords }.

(** The first limit the service passes to every list call. *)
Definition limit10000 : ListParams := mkListParams 0 10000 "".

(** [if p != nil { field = *p }] *)
Definition set_if {A} (p : option A) (old : A) : A := default old p.
(** [if p != nil { field = p }] for a pointer field. *)
Definition set_ptr_if {A} (p old : option A) : option A :=
  match p with Some _ => p | None => old end.

Section service.
Context {S : Type} `{DnsStore S}.

(** ** Zone CRUD *)

Definition CreateZone (newID : ID) (now : Time) (req : CreateZoneRequest) : stM S DNSZone :=
  _ ← wrap "invalid zone" (lift (validateZoneName (czr_Name req)));
  _ ← wrap "invalid zone" (lift (validateTransferAllowedIPs (czr_TransferAllowedIPs req)));
  wrap "create zone" (CreateDNSZone now
    (mkDNSZone newID (czr_TenantID req) (czr_Name req) "" 0 (czr_TTL req)
       (czr_NodeGroupID req) (czr_TransferAllowedIPs req) 0 0)).

Definition UpdateZone (id : ID) (now : Time) (req : UpdateZoneRequest) : stM S DNSZone :=
  zone ← GetDNSZone id;
  _ ← match uzr_Name req with
      | Some n => wrap "invalid zone name" (lift (validateZoneName n))
      | None => mret tt
      end;
  _ ← match uzr_TransferAllowedIPs req with
      | Some ips => wrap "invalid transfer allowed IPs" (lift (validateTransferAllowedIPs ips))
      | None => mret tt
      end;
  wrap "update zone" (UpdateDNSZone now
    (mkDNSZone (zone_ID zone) (zone_TenantID zone)
       (set_if (uzr_Name req) (zone_Name zone))
       (set_if (uzr_Status req) (zone_Status zone))
       (zone_Serial zone)
       (set_if (uzr_TTL req) (zone_TTL zone))
       (if uzr_ClearNodeGroup req then None
        else set_ptr_if (uzr_NodeGroupID req) (zone_NodeGroupID zone))
       (set_if (uzr_TransferAllowedIPs req) (zone_TransferAllowedIPs zone))
       (zone_CreatedAt zone) (zone_UpdatedAt zone))).

Definition DeleteZone (id : ID) : stM S unit := DeleteDNSZone id.

(** ** Record CRUD *)

Definition CreateRecord (newID : ID) (now now' : Time) (req : CreateRecordRequest)
    : stM S DNSRecord :=
  _ ← wrap "zone lookup" (GetDNSZone (crr_ZoneID req));
  let record := mkDNSRecord newID (crr_ZoneID req) (crr_Name req) (crr_Type req)
    (crr_Value req) (crr_TTL req) (crr_Priority req) (crr_Weight req) (crr_Port req) 0 0 in
  _ ← wrap "invalid record" (lift (validateRecord record));
  existing ← wrap "list records for cname check" (ListDNSRecords (crr_ZoneID req) limit10000);
  _ ← wrap "cname exclusivity" (lift (checkCNAMEExclusivity existing.1 record));
  record ← wrap "create record" (CreateDNSRecord now record);
  _ ← wrap "increment serial" (IncrementDNSZoneSerial now' (crr_ZoneID req));
  mret record.

Definition apply_record_update (req : UpdateRecordRequest) (r : DNSRecord) : DNSRecord :=
  mkDNSRecord (rec_ID r) (rec_ZoneID r) (set_if (urr_Name req) (rec_Name r))
    (set_if (urr_Type req) (rec_Type r)) (set_if (urr_Value req) (rec_Value r))
    (set_ptr_if (urr_TTL req) (rec_TTL r)) (set_ptr_if (urr_Priority req) (rec_Priority r))
    (set_ptr_if (urr_Weight req) (rec_Weight r)) (set_ptr_if (urr_Port req) (rec_Port r))
    (rec_CreatedAt r) (rec_UpdatedAt r).

Definition UpdateRecord (id : ID) (now now' : Time) (req : UpdateRecordRequest)
    : stM S DNSRecord :=
  record ← GetDNSRecord id;
  let record := apply_record_update req record in
  _ ← wrap "invalid record" (lift (validateRecord record));
  existing ← wrap "list records for cname check" (ListDNSRecords (rec_ZoneID record) limit10000);
  _ ← wrap "cname exclusivity" (lift (checkCNAMEExclusivity existing.1 record));
  record ← wrap "update record" (UpdateDNSRecord now record);
  _ ← wrap "increment serial" (IncrementDNSZoneSerial now' (rec_ZoneID record));
  mret record.

Definition DeleteRecord (id : ID) (now : Time) : stM S unit :=
  record ← GetDNSRecord id;
  _ ← wrap "delete record" (DeleteDNSRecord id);
  wrap "increment serial" (IncrementDNSZoneSerial now (rec_ZoneID record)).

(** ** Config sync *)

Context `{GroupStore S}.

(** The inner loop of [GetNodeDNSConfig]: the zones of one group's tenant. *)
Fixpoint sync_zones (gid : ID) (zones : list DNSZone) (seenZones : gset ID)
    (acc : list ZoneWithRecords) : stM S (gset ID * list ZoneWithRecords) :=
  match zones with
  | [] => mret (seenZones, acc)
  | zone :: zones =>
      if negb (bool_decide (zone_NodeGroupID zone = Some gid)) then
        sync_zones gid zones seenZones acc
      else if negb (bool_decide (zone_Status zone = DNSZoneActive)) then
        sync_zones gid zones seenZones acc
      else if bool_decide (zone_ID zone ∈ seenZones) then
        sync_zones gid zones seenZones acc
      else
        records ← wrap "list records for zone" (ListDNSRecords (zone_ID zone) limit10000);
        sync_zones gid zones ({[zone_ID zone]} ∪ seenZones)
          (acc ++ [mkZoneWithRecords zone records.1])
  end.

(** The outer loop over the groups of the node. *)
Fixpoint sync_groups (groups : list NodeGroup) (seenZones : gset ID)
    (acc : list ZoneWithRecords) : stM S (list ZoneWithRecords) :=
  match groups with
  | [] => mret acc
  | group :: groups =>
      zones ← wrap "list zones for group" (ListDNSZones (ng_TenantID group) limit10000);
      r ← sync_zones (ng_ID group) zones.1 seenZones acc;
      sync_groups groups r.1 r.2
  end.

Definition GetNodeDNSConfig (nodeID : ID) : stM S NodeDNSConfig :=
  _ ← wrap "get node" (GetNode nodeID);
  groups ← wrap "list node groups" (ListNodeGroups_ByNode nodeID);
  zones ← sync_groups groups ∅ [];
  mret (mkNodeDNSConfig zones).
End service.

(** ** Invariant *)

Section invariant.
Context {S : Type} `{DnsStoreLaws S}.

(** Rows are stored under their own ID. *)
Definition keyed (s : S) : Prop :=
  map_Forall (fun id z => zone_ID z = id) (ds_zones s) /\
  map_Forall (fun id r => rec_ID r = id) (ds_records s).

(** A CNAME is the only record at its name within its zone. *)
Definition cname_exclusive (recs : gmap ID DNSRecord) : Prop :=
  forall id1 id2 r1 r2,
    recs !! id1 = Some r1 -> recs !! id2 = Some r2 ->
    rec_ZoneID r1 = rec_ZoneID r2 -> rec_Name r1 = rec_Name r2 ->
    rec_Type r1 = DNSRecordTypeCNAME -> id1 = id2.

Definition zone_valid (z : DNSZone) : Prop :=
  validateZoneName (zone_Name z) = Ok tt /\
  validateTransferAllowedIPs (zone_TransferAllowedIPs z) = Ok tt /\
  1 <= zone_Serial z.

(** What holds of each row by itself. *)
Record dns_rows (s : S) : Prop := {
  rows_keyed : keyed s;
  rows_records : map_Forall (fun _ r => validateRecord r = Ok tt) (ds_records s);
  rows_zones : map_Forall (fun _ z => zone_valid z) (ds_zones s)
}.

(** With the rule between rows: names are compared byte for byte, as stored. *)
Record dns_inv (s : S) : Prop := {
  inv_keyed : keyed s;
  inv_cname : cname_exclusive (ds_records s);
  inv_records : map_Forall (fun _ r => validateRecord r = Ok tt) (ds_records s);
  inv_zones : map_Forall (fun _ z => zone_valid z) (ds_zones s)
}.

(** The uniqueness check reads at most 10000 records of the zone. *)
Definition zones_small (s : S) : Prop :=
  forall zid, Z.of_nat (length (record_rows s zid)) <= 10000.

(** One call of the service, with the random ID and clock values it draws. *)
Inductive dns_op :=
| OpCreateZone (newID : ID) (now : Time) (req : CreateZoneRequest)
| OpUpdateZone (id : ID) (now : Time) (req : UpdateZoneRequest)
| OpDeleteZone (id : ID)
| OpCreateRecord (newID : ID) (now now' : Time) (req : CreateRecordRequest)
| OpUpdateRecord (id : ID) (now now' : Time) (req : UpdateRecordRequest)
| OpDeleteRecord (id : ID) (now : Time).

Definition run_op (op : dns_op) : stM S unit :=
  match op with
  | OpCreateZone newID now req => _ ← CreateZone newID now req; mret tt
  | OpUpdateZone id now req => _ ← UpdateZone id now req; mret tt
  | OpDeleteZone id => DeleteZone id
  | OpCreateRecord newID now now' req => _ ← CreateRecord newID now now' req; mret tt
  | OpUpdateRecord id now now' req => _ ← UpdateRecord id now now' req; mret tt
  | OpDeleteRecord id now => DeleteRecord id now
  end.

Definition dns_call (s s' : S) : Prop := exists op r, run_op op s = (r, s').

(** A call made while the uniqueness check still reads whole zones. *)
Definition dns_step (s s' : S) : Prop := zones_small s /\ dns_call s s'.

Implicit Types s : S.

Lemma elem_of_record_rows s zid r :
  r ∈ record_rows s zid <-> rec_ZoneID r = zid /\ exists id, ds_records s !! id = Some r.
Proof. unfold record_rows. by rewrite list_elem_of_filter, elem_of_rows. Qed.

(** What a passed check says about every record of the zone. *)
Lemma checkCNAMEExclusivity_ok recs new :
  checkCNAMEExclusivity recs new = Ok tt ->
  forall r, r ∈ recs -> rec_Name r = rec_Name new -> rec_ID r <> rec_ID new ->
  rec_Type new <> DNSRecordTypeCNAME /\ rec_Type r <> DNSRecordTypeCNAME.
Proof.
  unfold checkCNAMEExclusivity. intros Hc r Hr Hn Hid.
  destruct (_ && _) eqn:H1 in Hc; [done|]. destruct (existsb _ _) eqn:H2 in Hc; [done|].
  split; intros Ht.
  - rewrite bool_decide_true in H1 by done. cbn in H1.
    apply (existsb_false _ _ r) in H1; [|done]. cbv beta in H1. by rewrite !bool_decide_true in H1.
  - apply (existsb_false _ _ r) in H2; [|done]. cbv beta in H2. by rewrite !bool_decide_true in H2.
Qed.

(** Writing a record that passed the check keeps names with a CNAME exclusive. *)
Lemma cname_exclusive_insert recs id r :
  cname_exclusive recs ->
  (forall id' r', recs !! id' = Some r' -> id' <> id -> rec_ZoneID r' = rec_ZoneID r ->
     rec_Name r' = rec_Name r ->
     rec_Type r <> DNSRecordTypeCNAME /\ rec_Type r' <> DNSRecordTypeCNAME) ->
  cname_exclusive (<[id := r]> recs).
Proof.
  intros Hex Hnew id1 id2 r1 r2 H1 H2 Hz Hn Ht.
  destruct (decide (id1 = id)) as [->|Hne1], (decide (id2 = id)) as [->|Hne2]; [done|..];
    rewrite ?lookup_insert_eq in *; rewrite ?lookup_insert_ne in * by done; simplify_eq.
  - by destruct (Hnew id2 r2).
  - by destruct (Hnew id1 r1).
  - by eapply (Hex id1 id2).
Qed.

Lemma cname_exclusive_subseteq recs recs' :
  recs' ⊆ recs -> cname_exclusive recs -> cname_exclusive recs'.
Proof.
  intros Hsub Hex id1 id2 r1 r2 H1 H2. apply Hex; by eapply lookup_weaken.
Qed.

(** The check over the whole zone, as the service runs it. *)
Lemma exclusive_check_whole s l all zid new :
  all ≡ₚ record_rows s zid -> l = page limit10000 all -> zones_small s -> keyed s ->
  rec_ZoneID new = zid -> checkCNAMEExclusivity l new = Ok tt ->
  forall id' r', ds_records s !! id' = Some r' -> id' <> rec_ID new ->
    rec_ZoneID r' = rec_ZoneID new -> rec_Name r' = rec_Name new ->
    rec_Type new <> DNSRecordTypeCNAME /\ rec_Type r' <> DNSRecordTypeCNAME.
Proof.
  intros Hall -> Hsmall [_ Hk] <- Hc id' r' Hr' Hne Hz Hn.
  rewrite page_all in Hc; [|done|done|rewrite Hall; apply Hsmall].
  eapply checkCNAMEExclusivity_ok; [done| |done|].
  - rewrite Hall. apply elem_of_record_rows. eauto.
  - by rewrite (Hk _ _ Hr').
Qed.
End invariant.

Section effects.
Context {S : Type} `{DnsStoreLaws S}.
Implicit Types s : S.

Definition record_of (newID : ID) (req : CreateRecordRequest) : DNSRecord :=
  mkDNSRecord newID (crr_ZoneID req) (crr_Name req) (crr_Type req)
    (crr_Value req) (crr_TTL req) (crr_Priority req) (crr_Weight req) (crr_Port req) 0 0.

(** The record [id := rc] has been written to [s], after passing the checks
    against the records of its zone; the last step bumps the serial or fails. *)
Definition record_written {A} (now : Time) (id : ID) (rc : DNSRecord) (s s' : S) (r : result A)
    (v : A) : Prop :=
  rec_ID rc = id /\ validateRecord rc = Ok tt /\
  (zones_small s -> keyed s -> forall id' r', ds_records s !! id' = Some r' -> id' <> id ->
     rec_ZoneID r' = rec_ZoneID rc -> rec_Name r' = rec_Name rc ->
     rec_Type rc <> DNSRecordTypeCNAME /\ rec_Type r' <> DNSRecordTypeCNAME) /\
  ds_records s' = <[id := rc]> (ds_records s) /\
  match r with
  | Err _ => ds_zones s' = ds_zones s
  | Ok v' => v' = v /\ exists z, ds_zones s !! rec_ZoneID rc = Some z /\
      ds_zones s' = <[rec_ZoneID rc := bump_serial now z]> (ds_zones s)
  end.

Lemma same_small s s' : dns_same s s' -> zones_small s -> zones_small s'.
Proof. intros [Hz Hr] Hs zid. unfold record_rows. rewrite Hr. apply Hs. Qed.

Lemma same_keyed s s' : dns_same s s' -> keyed s -> keyed s'.
Proof. intros [Hz Hr]. unfold keyed. by rewrite Hz, Hr. Qed.

Lemma record_rows_same s s' zid : dns_same s s' -> record_rows s' zid = record_rows s zid.
Proof. intros [Hz Hr]. unfold record_rows. by rewrite Hr. Qed.

Lemma increment_run {A} now zid (v : A) s r s' :
  (_ ← wrap "increment serial" (IncrementDNSZoneSerial now zid); mret v) s = (r, s') ->
  ds_records s' = ds_records s /\
  match r with
  | Err _ => ds_zones s' = ds_zones s
  | Ok v' => v' = v /\ exists z, ds_zones s !! zid = Some z /\
      ds_zones s' = <[zid := bump_serial now z]> (ds_zones s)
  end.
Proof.
  intros Hrun. step_run Hrun; apply IncrementDNSZoneSerial_spec in Hm; [|done].
  unfold mret, stM_ret in Hrun. simplify_eq. naive_solver.
Qed.

Lemma CreateRecord_effect newID now now' req s r s' :
  CreateRecord newID now now' req s = (r, s') ->
  (dns_same s s' /\ is_Ok r = false) \/
  (ds_records s !! newID = None /\
   record_written now' newID (new_record now (record_of newID req)) s s' r
     (new_record now (record_of newID req))).
Proof.
  unfold CreateRecord. fold (record_of newID req). intros Hrun.
  step_run Hrun; apply GetDNSZone_spec in Hm as [Hs1 _]; [|by left].
  step_run Hrun; [|by left].
  step_run Hrun; apply ListDNSRecords_spec in Hm0 as [Hs2 Hl].
  2:{ left. split; [|done]. split; destruct Hs1, Hs2; congruence. }
  assert (Hs02 : dns_same s s1) by (destruct Hs1, Hs2; split; congruence).
  step_run Hrun; [|by left].
  step_run Hrun; apply CreateDNSRecord_spec in Hm1 as [Hz Hr].
  2:{ left. split; [|done]. destruct Hs02. split; congruence. }
  right. destruct Hr as (-> & Hnone & Hrecs), Hs02 as [Hz2 Hr2].
  rewrite Hr2 in Hnone, Hrecs. split; [done|].
  destruct x0, x1 as [l n], x2. destruct (Hl l n eq_refl) as (all & Hall & Hpage).
  rewrite (record_rows_same s s0) in Hall by done.
  assert (Hex : zones_small s -> keyed s -> forall id' r', ds_records s !! id' = Some r' ->
    id' <> newID -> rec_ZoneID r' = crr_ZoneID req -> rec_Name r' = crr_Name req ->
    crr_Type req <> DNSRecordTypeCNAME /\ rec_Type r' <> DNSRecordTypeCNAME).
  { intros Hsm Hk. by eapply (exclusive_check_whole s l all _ (record_of newID req)). }
  apply increment_run in Hrun as [Hr3 Hz3]. rewrite Hz, Hz2 in Hz3.
  split; [done|]. split; [exact Hm|]. split; [exact Hex|]. by rewrite Hr3, Hrecs.
Qed.

Lemma UpdateRecord_effect id now now' req s r s' :
  UpdateRecord id now now' req s = (r, s') ->
  (dns_same s s' /\ is_Ok r = false) \/
  (exists old, ds_records s !! id = Some old /\
   let rc := set_rec_UpdatedAt now (apply_record_update req old) in
   rec_ID old = id -> record_written now' id rc s s' r rc).
Proof.
  unfold UpdateRecord. intros Hrun.
  step_run Hrun; apply GetDNSRecord_spec in Hm as [Hs1 Hold]; [|by left].
  specialize (Hold _ eq_refl). set (rc := apply_record_update req a) in *.
  step_run Hrun; [|by left].
  step_run Hrun; apply ListDNSRecords_spec in Hm0 as [Hs2 Hl].
  2:{ left. split; [|done]. split; destruct Hs1, Hs2; congruence. }
  assert (Hs02 : dns_same s s1) by (destruct Hs1, Hs2; split; congruence).
  step_run Hrun; [|by left].
  step_run Hrun; apply UpdateDNSRecord_spec in Hm1 as [Hz Hr].
  2:{ left. split; [|done]. destruct Hs02. split; congruence. }
  right. destruct Hr as (-> & old & Hold' & Hrecs), Hs02 as [Hz2 Hr2].
  rewrite Hr2 in Hold', Hrecs. exists a. split; [done|]. cbv zeta. fold rc. intros Hid.
  change (rec_ID rc) with (rec_ID a) in Hold', Hrecs. rewrite Hid in Hold', Hrecs.
  assert (old = a) as -> by congruence.
  destruct x, x0 as [l n], x1. destruct (Hl l n eq_refl) as (all & Hall & Hpage).
  rewrite (record_rows_same s s0) in Hall by done.
  apply increment_run in Hrun as [Hr3 Hz3]. rewrite Hz, Hz2 in Hz3.
  split; [done|]. split; [exact Hm|]. split; [|by rewrite Hr3, Hrecs].
  intros Hsm Hk. rewrite <-Hid. by eapply (exclusive_check_whole s l all _ rc).
Qed.

Lemma DeleteRecord_effect id now s r s' :
  DeleteRecord id now s = (r, s') ->
  (dns_same s s' /\ is_Ok r = false) \/
  exists rc, ds_records s !! id = Some rc /\ ds_records s' = delete id (ds_records s) /\
    match r with
    | Err _ => ds_zones s' = ds_zones s
    | Ok _ => exists z, ds_zones s !! rec_ZoneID rc = Some z /\
        ds_zones s' = <[rec_ZoneID rc := bump_serial now z]> (ds_zones s)
    end.
Proof.
  unfold DeleteRecord. intros Hrun.
  step_run Hrun; apply GetDNSRecord_spec in Hm as [Hs1 Hold]; [|by left].
  specialize (Hold _ eq_refl).
  step_run Hrun; apply DeleteDNSRecord_spec in Hm as [Hz Hr]; destruct Hs1 as [Hz1 Hr1].
  2:{ left. split; [|done]. split; congruence. }
  right. destruct Hr as [Hr _]. exists a. split; [done|].
  apply wrap_run in Hrun as [(u & Hi & ->)|(e & Hi & ->)];
    apply IncrementDNSZoneSerial_spec in Hi as [Hr2 Hz2];
    (split; [congruence|]); [|congruence].
  rewrite Hz, Hz1 in Hz2. done.
Qed.

Lemma CreateZone_effect newID now req s r s' :
  CreateZone newID now req s = (r, s') ->
  ds_records s' = ds_records s /\
  match r with
  | Err _ => ds_zones s' = ds_zones s
  | Ok z => ds_zones s !! newID = None /\ zone_ID z = newID /\ zone_valid z /\
      ds_zones s' = <[newID := z]> (ds_zones s)
  end.
Proof.
  unfold CreateZone. intros Hrun. step_run Hrun; [|done]. step_run Hrun; [|done].
  apply wrap_run in Hrun as [(z & Hc & ->)|(e & Hc & ->)];
    apply CreateDNSZone_spec in Hc as [Hr Hz]; [|done].
  split; [done|]. destruct Hz as (-> & Hn & Hz), x, x0. split_and!; try done.
Qed.

Lemma UpdateZone_effect id now req s r s' :
  UpdateZone id now req s = (r, s') -> keyed s ->
  map_Forall (fun _ z => zone_valid z) (ds_zones s) ->
  ds_records s' = ds_records s /\
  match r with
  | Err _ => ds_zones s' = ds_zones s
  | Ok z => exists old, ds_zones s !! id = Some old /\ zone_ID z = id /\ zone_valid z /\
      zone_Serial z = zone_Serial old /\ ds_zones s' = <[id := z]> (ds_zones s)
  end.
Proof.
  unfold UpdateZone. intros Hrun [Hk _] Hv.
  step_run Hrun; apply GetDNSZone_spec in Hm as [[Hz1 Hr1] Hold]; [|done].
  specialize (Hold _ eq_refl).
  pose proof (Hv _ _ Hold) as (Hvn & Hvt & Hvs). pose proof (Hk _ _ Hold) as Hid.
  apply bind_run in Hrun as [(u & s1 & Hm & Hrun)|(e & Hm & ->)].
  2:{ destruct (uzr_Name req); [|done]. apply wrap_run in Hm as [(? & _ & ?)|(e' & Hm & _)]; [done|].
      by apply lift_Err in Hm as [_ ->]. }
  assert (s1 = s0 /\ validateZoneName (set_if (uzr_Name req) (zone_Name a)) = Ok tt) as [-> Hn].
  { destruct (uzr_Name req); inv_ok Hm; simplify_eq/=; try destruct u; done. }
  clear Hm. apply bind_run in Hrun as [(u' & s1 & Hm & Hrun)|(e & Hm & ->)].
  2:{ destruct (uzr_TransferAllowedIPs req); [|done].
      apply wrap_run in Hm as [(? & _ & ?)|(e' & Hm & _)]; [done|].
      by apply lift_Err in Hm as [_ ->]. }
  assert (s1 = s0 /\ validateTransferAllowedIPs
    (set_if (uzr_TransferAllowedIPs req) (zone_TransferAllowedIPs a)) = Ok tt) as [-> Ht].
  { destruct (uzr_TransferAllowedIPs req); inv_ok Hm; simplify_eq/=; try destruct u'; done. }
  apply wrap_run in Hrun as [(z & Hc & ->)|(e' & Hc & ->)];
    apply UpdateDNSZone_spec in Hc as [Hr Hz]; [|split; congruence].
  split; [congruence|]. destruct Hz as (-> & old & Hold' & Hz). cbn in Hold', Hz.
  rewrite Hz1, Hid in *. exists a. assert (old = a) as -> by congruence.
  split_and!; try done. rewrite Hz. unfold merge_zone, set_zone_UpdatedAt. cbn. by rewrite Hid.
Qed.
End effects.

Section preservation.
Context {S : Type} `{DnsStoreLaws S}.
Implicit Types s : S.

Lemma dns_inv_rows s : dns_inv s <-> dns_rows s /\ cname_exclusive (ds_records s).
Proof. split; [intros []|intros [[] ?]]; by split. Qed.

(** What every call keeps: the rows, and exclusivity where it was checked in full. *)
Definition dns_kept (s s' : S) : Prop :=
  dns_rows s' /\ (zones_small s -> cname_exclusive (ds_records s) -> cname_exclusive (ds_records s')).

Lemma dns_kept_same s s' : dns_same s s' -> dns_rows s -> dns_kept s s'.
Proof.
  intros Hsame [Hk Hr Hz]. pose proof Hsame as [Ez Er].
  split; [split; [by eapply same_keyed|..]|]; rewrite ?Ez, ?Er; done.
Qed.

Lemma bump_serial_valid now z : zone_valid z -> zone_valid (bump_serial now z).
Proof. intros (? & ? & ?). unfold zone_valid. cbn. split_and!; try done. lia. Qed.

(** Replacing zones and records row-wise by valid rows keeps the tables. *)
Lemma dns_kept_zone_insert s s' id z :
  dns_rows s -> zone_ID z = id -> zone_valid z ->
  ds_zones s' = <[id := z]> (ds_zones s) -> ds_records s' = ds_records s -> dns_kept s s'.
Proof.
  intros [[Hkz Hkr] Hr Hv] Hid Hz Ez Er. split; [split|]; rewrite ?Er; try done.
  - split; rewrite ?Ez, ?Er; [|done]. by apply map_Forall_insert_2.
  - rewrite Ez. by apply map_Forall_insert_2.
Qed.

Lemma bumped_zones_ok now zid z (zs : gmap ID DNSZone) :
  zs !! zid = Some z -> map_Forall (fun _ z => zone_valid z) zs -> map_Forall (fun id z => zone_ID z = id) zs ->
  map_Forall (fun _ z => zone_valid z) (<[zid := bump_serial now z]> zs) /\
  map_Forall (fun id z => zone_ID z = id) (<[zid := bump_serial now z]> zs).
Proof.
  intros Hz Hv Hk. split; apply map_Forall_insert_2; try done.
  - apply bump_serial_valid. by eapply Hv.
  - by apply (Hk _ _ Hz).
Qed.

Lemma dns_kept_written {A} now id rc s s' (r : result A) v :
  dns_rows s -> record_written now id rc s s' r v -> dns_kept s s'.
Proof.
  intros [[Hkz Hkr] Hr Hv] (Hid & Hval & Hex & Er & Hres).
  assert (map_Forall (fun _ z => zone_valid z) (ds_zones s') /\
          map_Forall (fun id z => zone_ID z = id) (ds_zones s')) as [Hz1 Hz2].
  { destruct r; [|by rewrite Hres]. destruct Hres as (_ & z & Hz & ->). by apply bumped_zones_ok. }
  split; [split; [split; [done|]|..]|]; rewrite ?Er; try done.
  - by apply map_Forall_insert_2.
  - by apply map_Forall_insert_2.
  - intros Hsm Hc. apply cname_exclusive_insert; [done|]. exact (Hex Hsm (conj Hkz Hkr)).
Qed.

Lemma dns_kept_records_shrink s s' :
  dns_rows s -> ds_records s' ⊆ ds_records s ->
  map_Forall (fun _ z => zone_valid z) (ds_zones s') ->
  map_Forall (fun id z => zone_ID z = id) (ds_zones s') -> dns_kept s s'.
Proof.
  intros [[Hkz Hkr] Hr Hv] Hsub Hz1 Hz2. split; [split; [split; [done|]|..]|]; try done.
  - intros id r Hl. apply Hkr. by eapply lookup_weaken.
  - intros id r Hl. eapply Hr. by eapply lookup_weaken.
  - intros _ Hc. by eapply cname_exclusive_subseteq.
Qed.

Lemma run_op_kept op s r s' : run_op op s = (r, s') -> dns_rows s -> dns_kept s s'.
Proof.
  intros Hrun Hinv. pose proof Hinv as [[Hkz Hkr] Hr Hv].
  destruct op; cbn [run_op] in Hrun.
  1,2,4,5: apply bind_run in Hrun as [(a & s1 & Hm & Hrun)|(e & Hm & He)];
    [unfold mret, stM_ret in Hrun; simplify_eq|].
  - apply CreateZone_effect in Hm as [Er (_ & Hid & Hz & Ez)]. by eapply dns_kept_zone_insert.
  - apply CreateZone_effect in Hm as [Er Ez]. by eapply dns_kept_same.
  - apply UpdateZone_effect in Hm as [Er (_ & _ & Hid & Hz & _ & Ez)]; [|done..].
    by eapply dns_kept_zone_insert.
  - apply UpdateZone_effect in Hm as [Er Ez]; [|done..]. by eapply dns_kept_same.
  - apply CreateRecord_effect in Hm as [[Hs _]|[_ Hw]]; [by eapply dns_kept_same|].
    by eapply dns_kept_written.
  - apply CreateRecord_effect in Hm as [[Hs _]|[_ Hw]]; [by eapply dns_kept_same|].
    by eapply dns_kept_written.
  - apply UpdateRecord_effect in Hm as [[Hs _]|(old & Ho & Hw)]; [by eapply dns_kept_same|].
    eapply dns_kept_written; [done|]. apply Hw. by apply Hkr.
  - apply UpdateRecord_effect in Hm as [[Hs _]|(old & Ho & Hw)]; [by eapply dns_kept_same|].
    eapply dns_kept_written; [done|]. apply Hw. by apply Hkr.
  - apply DeleteDNSZone_spec in Hrun. destruct r; [|by eapply dns_kept_same].
    destruct Hrun as (Ez & Hsub & _). eapply dns_kept_records_shrink; [done..| |];
      rewrite Ez; by apply map_Forall_delete.
  - apply DeleteRecord_effect in Hrun as [[Hs _]|(rc & Hrc & Er & Hz)]; [by eapply dns_kept_same|].
    assert (map_Forall (fun _ z => zone_valid z) (ds_zones s') /\
            map_Forall (fun id z => zone_ID z = id) (ds_zones s')) as [Hz1 Hz2].
    { destruct r; [|by rewrite Hz]. destruct Hz as (z & Hz & ->). by apply bumped_zones_ok. }
    eapply dns_kept_records_shrink; [done|rewrite Er; apply delete_subseteq|done..].
Qed.

Lemma run_op_inv op s r s' :
  run_op op s = (r, s') -> zones_small s -> dns_inv s -> dns_inv s'.
Proof.
  intros Hrun Hsm [Hrows Hc]%dns_inv_rows. apply dns_inv_rows.
  destruct (run_op_kept _ _ _ _ Hrun Hrows) as [Hr2 Hc2]. split; [exact Hr2|exact (Hc2 Hsm Hc)].
Qed.

(** The records of one zone. *)
Definition zone_view (s : S) (zid : ID) : gmap ID DNSRecord :=
  filter (fun kr => rec_ZoneID kr.2 = zid) (ds_records s).

Lemma zone_view_write (recs : gmap ID DNSRecord) id rc zid :
  rec_ZoneID rc <> zid ->
  (forall old, recs !! id = Some old -> rec_ZoneID old = rec_ZoneID rc) ->
  filter (fun kr : ID * DNSRecord => rec_ZoneID kr.2 = zid) (<[id := rc]> recs) =
  filter (fun kr : ID * DNSRecord => rec_ZoneID kr.2 = zid) recs.
Proof.
  intros Hn Ho. apply map_filter_insert_not'; [done|]. cbn. intros y Hy.
  by rewrite (Ho _ Hy).
Qed.

(** A successful record operation on another zone leaves this zone's view, so a
    changed view means this zone's serial was bumped. *)
Lemma bump_lookup (zs : gmap ID DNSZone) now zid zid' z z0 z1 :
  zs !! zid' = Some z -> zid' = zid ->
  zs !! zid = Some z0 -> <[zid' := bump_serial now z]> zs !! zid = Some z1 ->
  zone_Serial z1 = zone_Serial z0 + 1.
Proof. intros Hz -> H0' H1. rewrite lookup_insert_eq in H1. by simplify_eq. Qed.

Lemma run_op_serial op s s' zid z0 z1 :
  run_op op s = (Ok tt, s') -> keyed s ->
  map_Forall (fun _ z => zone_valid z) (ds_zones s) ->
  zone_view s' zid <> zone_view s zid ->
  ds_zones s !! zid = Some z0 -> ds_zones s' !! zid = Some z1 ->
  zone_Serial z1 = zone_Serial z0 + 1.
Proof.
  intros Hrun Hk Hv Hview Hz0 Hz1. unfold zone_view in Hview.
  destruct op; cbn [run_op] in Hrun.
  1,2,4,5: apply bind_Ok in Hrun as (a & s1 & Hm & Hrun);
    unfold mret, stM_ret in Hrun; simplify_eq.
  - apply CreateZone_effect in Hm as [Er _]. by rewrite Er in Hview.
  - apply UpdateZone_effect in Hm as [Er _]; [|done..]. by rewrite Er in Hview.
  - apply CreateRecord_effect in Hm as [[_ ?]|[Hnone (_ & _ & _ & Er & _ & z & Hz & Ez)]]; [done|].
    rewrite Ez in Hz1. eapply (bump_lookup _ _ _ _ _ _ _ Hz); [|exact Hz0|exact Hz1].
    apply dec_stable. intros Hne. apply Hview. rewrite Er. apply zone_view_write; [done|].
    intros old Ho. congruence.
  - apply UpdateRecord_effect in Hm as [[_ ?]|(old & Ho & Hw)]; [done|].
    destruct Hw as (_ & _ & _ & Er & _ & z & Hz & Ez); [by apply Hk|].
    rewrite Ez in Hz1. eapply (bump_lookup _ _ _ _ _ _ _ Hz); [|exact Hz0|exact Hz1].
    apply dec_stable. intros Hne. apply Hview. rewrite Er. apply zone_view_write; [done|].
    intros old' Ho'. by simplify_eq.
  - apply DeleteDNSZone_spec in Hrun as (Ez & Hsub & Hkeep). exfalso. apply Hview.
    assert (zid <> id) by (intros ->; by rewrite Ez, lookup_delete_eq in Hz1).
    apply map_eq. intros k. apply option_eq. intros rc.
    rewrite !map_lookup_filter_Some. cbn. split; intros [Hl Hzid].
    + split; [by eapply lookup_weaken|done].
    + split; [apply Hkeep; congruence|done].
  - apply DeleteRecord_effect in Hrun as [[_ ?]|(rc & Hrc & Er & z & Hz & Ez)]; [done|].
    rewrite Ez in Hz1. eapply (bump_lookup _ _ _ _ _ _ _ Hz); [|exact Hz0|exact Hz1].
    apply dec_stable. intros Hne. apply Hview. rewrite Er. apply map_filter_delete_not.
    cbn. intros rc' Hrc'. by simplify_eq.
Qed.
End preservation.

(** ** Config sync *)

(** What the DNS service relies on in the group store. *)
Class GroupStoreLaws (S : Type) `{DnsStore S, GroupStore S} := {
  GetNode_spec id (s : S) r s' :
    GetNode id s = (r, s') ->
    dns_same s s' /\ gs_groups s' = gs_groups s /\ gs_members s' = gs_members s;
  ListNodeGroups_ByNode_spec id (s : S) r s' :
    ListNodeGroups_ByNode id s = (r, s') ->
    dns_same s s' /\ forall l, r = Ok l -> forall g, g ∈ l <->
      exists gid, gs_groups s !! gid = Some g /\ (gid, id) ∈ gs_members s
}.

#[export] Instance sqlite_group_laws : GroupStoreLaws SqlState.
Proof.
  split.
  - intros id s r s' [Hd _]%sql_query_inv. unfold dns_same; cbn. by rewrite Hd.
  - intros id s r s' [Hd Hok]%sql_query_inv. unfold dns_same; cbn. rewrite Hd.
    split; [done|]. intros l ->. specialize (Hok l eq_refl). cbv beta in Hok. simplify_eq.
    intros g. rewrite merge_sort_Permutation. apply elem_of_groups_of_node.
Qed.

Section sync.
Context {S : Type} `{DnsStore S, GroupStore S, !DnsStoreLaws S, !GroupStoreLaws S}.
Implicit Types s : S.

Definition in_group (gid : ID) (z : DNSZone) : Prop :=
  zone_NodeGroupID z = Some gid /\ zone_Status z = DNSZoneActive.

Definition zwr_ID (x : ZoneWithRecords) : ID := zone_ID (zwr_Zone x).

(** An entry of the snapshot carries the (first 10000) records of its zone. *)
Definition entry_records s (x : ZoneWithRecords) : Prop :=
  exists all, all ≡ₚ record_rows s (zwr_ID x) /\ zwr_Records x = page limit10000 all.

(** The snapshot lists each zone once and [seenZones] is its set of IDs. *)
Definition sync_ok s (seen : gset ID) (acc : list ZoneWithRecords) : Prop :=
  NoDup (zwr_ID <$> acc) /\ seen = list_to_set (zwr_ID <$> acc) /\ Forall (entry_records s) acc.

Lemma dns_same_trans s1 s2 s3 : dns_same s1 s2 -> dns_same s2 s3 -> dns_same s1 s3.
Proof. intros [] []. split; congruence. Qed.

Lemma dns_same_refl s : dns_same s s.
Proof. done. Qed.

Lemma sync_ok_same s s' seen acc : dns_same s s' -> sync_ok s' seen acc <-> sync_ok s seen acc.
Proof.
  intros Hs. unfold sync_ok, entry_records. by setoid_rewrite (record_rows_same s s').
Qed.

Lemma sync_seen s seen acc id :
  sync_ok s seen acc -> id ∈ seen <-> exists x, x ∈ acc /\ zwr_ID x = id.
Proof.
  intros (_ & -> & _). rewrite elem_of_list_to_set, list_elem_of_fmap. naive_solver.
Qed.

Lemma sync_mono s seen acc seen' new id :
  sync_ok s seen acc -> sync_ok s seen' (acc ++ new) -> id ∈ seen -> id ∈ seen'.
Proof.
  intros H1 H2. rewrite (sync_seen _ _ _ _ H1), (sync_seen _ _ _ _ H2).
  intros (x & Hx & ?). exists x. rewrite elem_of_app. auto.
Qed.

Lemma sync_zones_spec gid zones seen acc s seen' acc' s' :
  sync_zones gid zones seen acc s = (Ok (seen', acc'), s') -> sync_ok s seen acc ->
  dns_same s s' /\ sync_ok s seen' acc' /\
  exists new, acc' = acc ++ new /\
    (forall x, x ∈ new -> zwr_Zone x ∈ zones /\ in_group gid (zwr_Zone x)) /\
    (forall z, z ∈ zones -> in_group gid z -> zone_ID z ∈ seen').
Proof.
  revert seen acc s. induction zones as [|z zones IH]; intros seen acc s Hrun Hok.
  { cbn in Hrun. unfold mret, stM_ret in Hrun. simplify_eq. split_and!; try done.
    exists []. rewrite app_nil_r. split_and!; [done|..]; by intros ? ?%elem_of_nil. }
  cbn [sync_zones] in Hrun.
  assert (Hskip : (in_group gid z -> zone_ID z ∈ seen) ->
    sync_zones gid zones seen acc s = (Ok (seen', acc'), s') ->
    dns_same s s' /\ sync_ok s seen' acc' /\ exists new, acc' = acc ++ new /\
      (forall x, x ∈ new -> zwr_Zone x ∈ z :: zones /\ in_group gid (zwr_Zone x)) /\
      (forall z', z' ∈ z :: zones -> in_group gid z' -> zone_ID z' ∈ seen')).
  { intros Hseen Hrun'. destruct (IH _ _ _ Hrun' Hok) as (Hs & Hok' & new & -> & Hn & Hc).
    split_and!; try done. exists new. split_and!; [done|..].
    - intros x Hx. destruct (Hn x Hx). rewrite elem_of_cons. auto.
    - intros z' [->|Hz']%elem_of_cons Hg; [|by apply Hc].
      apply (sync_mono _ _ _ _ _ _ Hok Hok'). auto. }
  repeat case_bool_decide; cbn [negb] in Hrun;
    try (apply Hskip in Hrun; [done|unfold in_group; tauto]).
  clear Hskip. step_run Hrun. apply ListDNSRecords_spec in Hm as [Hs1 Hl].
  destruct x as [l n]. destruct (Hl l n eq_refl) as (all & Hall & Hpage). cbn [fst] in Hrun.
  assert (Hok1 : sync_ok s0 ({[zone_ID z]} ∪ seen) (acc ++ [mkZoneWithRecords z l])).
  { rewrite (sync_ok_same s s0) by done. destruct Hok as (Hnd & -> & Hf).
    unfold sync_ok. rewrite fmap_app, list_to_set_app_L, NoDup_app, Forall_snoc.
    split_and!; try done; [|apply NoDup_singleton|cbn; by rewrite union_empty_r_L, union_comm_L|by exists all].
    intros x Hx ->%list_elem_of_singleton. by rewrite elem_of_list_to_set in *. }
  destruct (IH _ _ _ Hrun Hok1) as (Hs2 & Hok' & new & -> & Hn & Hc).
  split; [by eapply dns_same_trans|]. split; [by apply (sync_ok_same s s0)|].
  exists (mkZoneWithRecords z l :: new). rewrite <-app_assoc. split_and!; [done|..].
  - intros x [->|Hx]%elem_of_cons; rewrite elem_of_cons; [cbn; unfold in_group; auto|].
    destruct (Hn x Hx). auto.
  - intros z' [->|Hz']%elem_of_cons Hg; [|by apply Hc].
    apply (sync_mono _ _ _ _ _ _ Hok1 Hok'), elem_of_union. left. by apply elem_of_singleton.
Qed.

(** The zones a node must serve: active, and assigned to a group of the same
    tenant that the node is a member of. *)
Definition assigned s (groups : list NodeGroup) (z : DNSZone) : Prop :=
  exists g, g ∈ groups /\ z ∈ zone_rows s (ng_TenantID g) /\ in_group (ng_ID g) z.

Lemma zone_rows_same s s' tid : dns_same s s' -> zone_rows s' tid = zone_rows s tid.
Proof. intros [Hz Hr]. unfold zone_rows. by rewrite Hz. Qed.

Lemma sync_groups_spec groups seen acc s acc' s' :
  sync_groups groups seen acc s = (Ok acc', s') -> sync_ok s seen acc ->
  (forall tid, Z.of_nat (length (zone_rows s tid)) <= 10000) ->
  exists seen', sync_ok s seen' acc' /\
  exists new, acc' = acc ++ new /\
    (forall x, x ∈ new -> assigned s groups (zwr_Zone x)) /\
    (forall z, assigned s groups z -> zone_ID z ∈ seen').
Proof.
  revert seen acc s. induction groups as [|g groups IH]; intros seen acc s Hrun Hok Hsm.
  { cbn in Hrun. unfold mret, stM_ret in Hrun. simplify_eq. exists seen. split; [done|].
    exists []. rewrite app_nil_r. split_and!; [done|by intros ? ?%elem_of_nil|].
    by intros z (g & ?%elem_of_nil & _). }
  cbn [sync_groups] in Hrun. step_run Hrun. apply ListDNSZones_spec in Hm as [Hs1 Hl].
  destruct x as [l n]. destruct (Hl l n eq_refl) as (all & Hall & ->). cbn [fst] in Hrun.
  rewrite page_all in Hrun; [|done|done|rewrite Hall; apply Hsm].
  step_run Hrun; [|done]. destruct a as [seen1 acc1]. cbn [fst snd] in Hrun.
  apply sync_zones_spec in Hm as (Hs2 & Hok1 & new1 & -> & Hn1 & Hc1);
    [|by apply (sync_ok_same s s0)].
  assert (Hs02 : dns_same s s1) by (by eapply dns_same_trans).
  destruct (IH _ _ _ Hrun) as (seen' & Hok' & new2 & -> & Hn2 & Hc2).
  { by apply (sync_ok_same s0 s1). }
  { intros tid. rewrite (zone_rows_same s s1) by done. apply Hsm. }
  assert (Hass : forall gs z, assigned s1 gs z <-> assigned s gs z).
  { intros gs z. unfold assigned. by setoid_rewrite (zone_rows_same s s1). }
  setoid_rewrite Hass in Hn2. setoid_rewrite Hass in Hc2. setoid_rewrite Hall in Hn1.
  setoid_rewrite Hall in Hc1.
  apply (sync_ok_same s) in Hok'; [|done]. apply (sync_ok_same s) in Hok1; [|done].
  exists seen'. split; [done|]. exists (new1 ++ new2). rewrite app_assoc. split; [done|].
  split.
  - intros x [Hx|Hx]%elem_of_app.
    + exists g. destruct (Hn1 x Hx). rewrite elem_of_cons. auto.
    + destruct (Hn2 x Hx) as (g' & ? & ?). exists g'. rewrite elem_of_cons. auto.
  - intros z (g' & [->|Hg']%elem_of_cons & Hz & Hin).
    + apply (sync_mono _ _ _ _ _ _ Hok1 Hok'). auto.
    + apply Hc2. by exists g'.
Qed.

(** Zones of the tables that node [n] must serve. *)
Definition served_to s (n : ID) (z : DNSZone) : Prop :=
  (exists id, ds_zones s !! id = Some z) /\ zone_Status z = DNSZoneActive /\
  exists gid g, gs_groups s !! gid = Some g /\ (gid, n) ∈ gs_members s /\
    zone_NodeGroupID z = Some (ng_ID g) /\ zone_TenantID z = ng_TenantID g.

Lemma elem_of_zone_rows s tid z :
  z ∈ zone_rows s tid <-> zone_TenantID z = tid /\ exists id, ds_zones s !! id = Some z.
Proof. unfold zone_rows. by rewrite list_elem_of_filter, elem_of_rows. Qed.

Lemma GetNodeDNSConfig_run n s cfg s' :
  GetNodeDNSConfig n s = (Ok cfg, s') -> keyed s ->
  (forall tid, Z.of_nat (length (zone_rows s tid)) <= 10000) ->
  NoDup (zwr_ID <$> ndc_Zones cfg) /\ Forall (entry_records s) (ndc_Zones cfg) /\
  forall z, z ∈ zwr_Zone <$> ndc_Zones cfg <-> served_to s n z.
Proof.
  unfold GetNodeDNSConfig. intros Hrun [Hk _] Hsm.
  step_run Hrun. apply GetNode_spec in Hm as (Hs1 & Hg & Hmem).
  step_run Hrun. apply ListNodeGroups_ByNode_spec in Hm as [Hs2 Hgr].
  specialize (Hgr _ eq_refl). rewrite Hg, Hmem in Hgr.
  assert (Hs02 : dns_same s s1) by (by eapply dns_same_trans).
  step_run Hrun; [|done]. unfold mret, stM_ret in Hrun. simplify_eq. cbn [ndc_Zones].
  apply sync_groups_spec in Hm as (seen & Hok & new & -> & Hsound & Hcompl).
  2:{ split_and!; [apply NoDup_nil_2|done|constructor]. }
  2:{ intros tid. rewrite (zone_rows_same s s1) by done. apply Hsm. }
  apply (sync_ok_same s) in Hok; [|done]. cbn [app] in *. pose proof Hok as (Hnd & Hseen & Hrec).
  assert (Hass : forall z, assigned s1 x0 z <-> served_to s n z).
  { intros z. unfold assigned, served_to, in_group.
    setoid_rewrite (zone_rows_same s s1); [|done]. setoid_rewrite elem_of_zone_rows.
    setoid_rewrite Hgr. naive_solver. }
  setoid_rewrite Hass in Hsound. setoid_rewrite Hass in Hcompl.
  split_and!; [done..|]. intros z. rewrite list_elem_of_fmap. split.
  - intros (e & -> & He). by apply Hsound.
  - intros Hz. destruct (proj1 (sync_seen _ _ _ _ Hok) (Hcompl z Hz)) as (e & He & Hid).
    exists e. split; [|done]. destruct Hz as [[id Hz] _], (Hsound e He) as [[id' Hz'] _].
    pose proof (Hk _ _ Hz) as Hi. pose proof (Hk _ _ Hz') as Hi'. unfold zwr_ID in Hid.
    cbn in Hi, Hi'. congruence.
Qed.
End sync.
