(* ===== verification/DnsServer.v ===== *)
(** * Authoritative DNS server (internal/dnsserver/miekg.go, axfr.go)

    The node-side server: zone data rebuilt on every [Reconcile], zone
    selection, query answers and zone transfers.  Resource records are the
    values the code constructs; [Fqdn] of github.com/miekg/dns is a parameter.
    The iteration order of the record map during a transfer, the remote address
    and the outcome of binding the sockets are arguments. *)

From Stdlib Require Import ZArith Lia Ascii String.
From S2P Require Import Prelude GoStrings GoNet Domain DnsValidate DnsService.

Open Scope Z_scope.

(** ** Resource records *)

Definition TypeA : Z := 1.
Definition TypeNS : Z := 2.
Definition TypeCNAME : Z := 5.
Definition TypeSOA : Z := 6.
Definition TypePTR : Z := 12.
Definition TypeMX : Z := 15.
Definition TypeTXT : Z := 16.
Definition TypeAAAA : Z := 28.
Definition TypeSRV : Z := 33.
Definition TypeAXFR : Z := 252.
Definition TypeCAA : Z := 257.
Definition ClassINET : Z := 1.

Definition RcodeSuccess : Z := 0.
Definition RcodeServerFailure : Z := 2.
Definition RcodeNameError : Z := 3.
Definition RcodeRefused : Z := 5.

Record RR_Header := mkHdr { h_Name : string; h_Rrtype : Z; h_Class : Z; h_Ttl : Z }.

Inductive RR :=
| RR_A (h : RR_Header) (a : option IP)
| RR_AAAA (h : RR_Header) (aaaa : option IP)
| RR_CNAME (h : RR_Header) (target : string)
| RR_MX (h : RR_Header) (pref : Z) (mx : string)
| RR_TXT (h : RR_Header) (txt : list string)
| RR_NS (h : RR_Header) (ns : string)
| RR_SRV (h : RR_Header) (priority weight port : Z) (target : string)
| RR_CAA (h : RR_Header) (flag : Z) (tag value : string)
| RR_PTR (h : RR_Header) (ptr : string)
| RR_SOA (h : RR_Header) (ns mbox : string) (serial refresh retry expire minttl : Z).

Definition rr_hdr (rr : RR) : RR_Header :=
  match rr with
  | RR_A h _ | RR_AAAA h _ | RR_CNAME h _ | RR_MX h _ _ | RR_TXT h _ | RR_NS h _
  | RR_SRV h _ _ _ _ | RR_CAA h _ _ _ | RR_PTR h _ | RR_SOA h _ _ _ _ _ _ _ => h
  end.

(** ** State *)

Notation recordKey := (string * Z)%type.

Record zoneData := mkZoneData {
  zd_name : string;
  zd_tenantID : ID;
  zd_serial : Z;
  zd_ttl : Z;
  zd_records : gmap recordKey (list RR);
  zd_transferAllowedCIDRs : list IPNet
}.

(** [ms_udp] and [ms_tcp]: the server object exists and is listening. *)
Record MiekgService := mkMiekg {
  ms_running : bool;
  ms_listenAddr : string;
  ms_zones : gmap string zoneData;
  ms_sortedZones : list string;
  ms_udp : bool;
  ms_tcp : bool;
  ms_queriesTotal : Z;
  ms_axfrEnabled : bool
}.

Definition NewMiekgService (axfrEnabled : bool) : MiekgService :=
  mkMiekg false "" ∅ [] false false 0 axfrEnabled.

(** Start: both listeners must come up; [udp] and [tcp] say whether they do. *)
Definition Start (udp tcp : bool) (listenAddr : string) : stM MiekgService unit := fun s =>
  if ms_running s then (Err (Errorf "dns server already running"), s)
  else
    let s1 := mkMiekg false (ms_listenAddr s) (ms_zones s) (ms_sortedZones s) udp tcp
                (ms_queriesTotal s) (ms_axfrEnabled s) in
    if udp && tcp then
      (Ok tt, mkMiekg true listenAddr (ms_zones s) (ms_sortedZones s) true true
                (ms_queriesTotal s) (ms_axfrEnabled s))
    else (Err (Wrapf "start dns server" (Errorf "listen")), s1).

(** Stop: [errs] are the errors of the two shutdowns, in order. *)
Definition Stop (errs : list goerr) : stM MiekgService unit := fun s =>
  if negb (ms_running s) then (Err (Errorf "dns server not running"), s)
  else
    let s1 := mkMiekg false (ms_listenAddr s) ∅ [] false false
                (ms_queriesTotal s) (ms_axfrEnabled s) in
    match errs with
    | e :: _ => (Err (Wrapf "shutdown" e), s1)
    | [] => (Ok tt, s1)
    end.

(** ** Zone selection *)

(** [len(s[j]) > len(s[j-1])] and the swap of the two entries. *)
Definition longer (s : list string) (j i : nat) : bool :=
  match s !! j, s !! i with
  | Some a, Some b => bool_decide (String.length b < String.length a)%nat
  | _, _ => false
  end.
Definition swap (s : list string) (j i : nat) : list string :=
  match s !! j, s !! i with
  | Some a, Some b => <[i := a]> (<[j := b]> s)
  | _, _ => s
  end.

(** The inner loop, [j] counting down from [i]. *)
Fixpoint sort_inner (j : nat) (s : list string) : list string :=
  match j with
  | O => s
  | S j' => if longer s j j' then sort_inner j' (swap s j j') else s
  end.

(** The outer loop: [n] more turns, the next one for index [i]. *)
Fixpoint sort_outer (n i : nat) (s : list string) : list string :=
  match n with
  | O => s
  | S n => sort_outer n (S i) (sort_inner i s)
  end.

Definition sortByLengthDesc (s : list string) : list string :=
  sort_outer (length s - 1) 1 s.

(** The condition of [findZone]'s loop. *)
Definition zone_match (qname zoneName : string) : bool :=
  bool_decide (qname = zoneName) || HasSuffix qname ("." +:+ zoneName).

Definition findZone (s : MiekgService) (qname : string) : option zoneData :=
  match List.find (zone_match qname) (ms_sortedZones s) with
  | Some zoneName => ms_zones s !! zoneName
  | None => None
  end.

Definition nameExistsInZone (zd : zoneData) (qname : string) : bool :=
  existsb (fun kv => bool_decide (kv.1.1 = qname)) (map_to_list (zd_records zd)).

Definition rrs_at (zd : zoneData) (name : string) (typ : Z) : list RR :=
  default [] (zd_records zd !! (name, typ)).

Definition buildSOA (zd : zoneData) : RR :=
  RR_SOA (mkHdr (zd_name zd) TypeSOA ClassINET (zd_ttl zd))
    ("ns1." +:+ zd_name zd) ("hostmaster." +:+ zd_name zd) (zd_serial zd)
    3600 900 604800 300.

(** ** Transfer ACL (axfr.go) *)

Definition isTransferAllowed (zd : zoneData) (clientIP : IP) : bool :=
  existsb (fun cidr => IPNet_Contains cidr clientIP) (zd_transferAllowedCIDRs zd).

(** One entry of the ACL; entries that do not parse are dropped. *)
Definition parse_acl_entry (entry : string) : list IPNet :=
  if Contains entry "/" then
    match ParseCIDR entry with Some (_, n) => [n] | None => [] end
  else
    match ParseIP entry with
    | None => []
    | Some ip =>
        let bits := match To4 ip with Some _ => 32 | None => 128 end in
        [mkIPNet ip (CIDRMask bits bits)]
    end.

Definition parseAllowedCIDRs (ips : list string) : list IPNet :=
  ips ≫= parse_acl_entry.

Definition extractIP (addr : option string) : option IP :=
  match addr with
  | None => None
  | Some a =>
      match SplitHostPort a with
      | None => ParseIP a
      | Some (host, _) => ParseIP host
      end
  end.

(** ** Messages *)

Record Msg := mkMsg {
  m_Rcode : Z; m_Authoritative : bool; m_RecursionAvailable : bool;
  m_Answer : list RR; m_Ns : list RR
}.

(** What one query sends back: a message, or the envelopes of a transfer. *)
Inductive Reply :=
| RMsg (m : Msg)
| RTransfer (envelopes : list (list RR)).

(** The record loop of the transfer: full batches of 100 are sent as they fill. *)
Fixpoint axfr_batches (rrs batch : list RR) : list (list RR) :=
  match rrs with
  | [] => if bool_decide (batch = []) then [] else [batch]
  | rr :: rrs =>
      let batch := batch ++ [rr] in
      if bool_decide (100 <= length batch)%nat then batch :: axfr_batches rrs []
      else axfr_batches rrs batch
  end.

Definition refuseAXFR : Reply := RMsg (mkMsg RcodeRefused false false [] []).

(** [order] is the order in which the iteration visits the record sets. *)
Definition handleAXFR (s : MiekgService) (zd : zoneData) (remote : option string)
    (order : list (recordKey * list RR)) : Reply :=
  if negb (ms_axfrEnabled s) then refuseAXFR
  else if bool_decide (zd_transferAllowedCIDRs zd = []) then refuseAXFR
  else match extractIP remote with
       | None => refuseAXFR
       | Some clientIP =>
           if negb (isTransferAllowed zd clientIP) then refuseAXFR
           else
             let soa := buildSOA zd in
             RTransfer ([soa] :: axfr_batches (mjoin order.*2) [] ++ [[soa]])
       end.

Definition count_query (s : MiekgService) : MiekgService :=
  mkMiekg (ms_running s) (ms_listenAddr s) (ms_zones s) (ms_sortedZones s) (ms_udp s)
    (ms_tcp s) ((ms_queriesTotal s + 1) mod 2 ^ 64) (ms_axfrEnabled s).

(** The answer of an ordinary lookup in the zone (miekg.go:285-324). *)
Definition lookup_reply (zd : zoneData) (qname : string) (qtype : Z) : Msg :=
  let rrs := rrs_at zd qname qtype in
  let cnameRRs := rrs_at zd qname TypeCNAME in
  if bool_decide (rrs = []) && negb (qtype =? TypeCNAME) && negb (bool_decide (cnameRRs = []))
  then
    let target := match cnameRRs with
                  | RR_CNAME _ t :: _ => rrs_at zd (ToLower t) qtype
                  | _ => []
                  end in
    mkMsg RcodeSuccess true false (cnameRRs ++ target) []
  else if negb (bool_decide (rrs = [])) then mkMsg RcodeSuccess true false rrs []
  else
    mkMsg (if nameExistsInZone zd qname then RcodeSuccess else RcodeNameError)
      true false [] [buildSOA zd].

Definition handleQuery (remote : option string) (order : list (recordKey * list RR))
    (questions : list (string * Z)) (s0 : MiekgService) : Reply * MiekgService :=
  let s := count_query s0 in
  match questions with
  | [] => (RMsg (mkMsg RcodeServerFailure true false [] []), s)
  | (name, qtype) :: _ =>
      let qname := ToLower name in
      match findZone s qname with
      | None => (RMsg (mkMsg RcodeRefused false false [] []), s)
      | Some zd =>
          (if qtype =? TypeAXFR then handleAXFR s zd remote order
           else if qtype =? TypeSOA then
             RMsg (mkMsg RcodeSuccess true false [buildSOA zd] [])
           else if (qtype =? TypeNS) && bool_decide (qname = ToLower (zd_name zd)) then
             let rrs := rrs_at zd qname TypeNS in
             let ans := if negb (bool_decide (rrs = [])) then rrs
                        else [RR_NS (mkHdr (zd_name zd) TypeNS ClassINET (zd_ttl zd))
                                ("ns1." +:+ zd_name zd)] in
             RMsg (mkMsg RcodeSuccess true false ans [])
           else RMsg (lookup_reply zd qname qtype), s)
      end
  end.

(** ** Loading zones *)

Definition u32 (z : Z) : Z := z mod 2 ^ 32.
Definition u16 (z : Z) : Z := z mod 2 ^ 16.

Section fqdn.
(** [mdns.Fqdn] of github.com/miekg/dns. *)
Variable Fqdn : string -> string.

Definition record_fqdn (name zoneName : string) : string :=
  Fqdn (if bool_decide (name = "@") || bool_decide (name = "") then zoneName
        else name +:+ "." +:+ zoneName).

Definition convertRecord (rec : DNSRecord) (zoneName : string) (defaultTTL : Z) : list RR :=
  let fqdn := record_fqdn (rec_Name rec) zoneName in
  let ttl := match rec_TTL rec with
             | Some t => if 0 <? t then u32 t else defaultTTL
             | None => defaultTTL
             end in
  let hdr t := mkHdr fqdn t ClassINET ttl in
  let typ := rec_Type rec in
  if bool_decide (typ = DNSRecordTypeA) then
    match ParseIP (rec_Value rec) with
    | None => []
    | Some ip => [RR_A (hdr TypeA) (To4 ip)]
    end
  else if bool_decide (typ = DNSRecordTypeAAAA) then
    match ParseIP (rec_Value rec) with
    | None => []
    | Some ip => [RR_AAAA (hdr TypeAAAA) (To16 ip)]
    end
  else if bool_decide (typ = DNSRecordTypeCNAME) then
    [RR_CNAME (hdr TypeCNAME) (Fqdn (rec_Value rec))]
  else if bool_decide (typ = DNSRecordTypeMX) then
    [RR_MX (hdr TypeMX) (match rec_Priority rec with Some p => u16 p | None => 10 end)
       (Fqdn (rec_Value rec))]
  else if bool_decide (typ = DNSRecordTypeTXT) then
    [RR_TXT (hdr TypeTXT) [rec_Value rec]]
  else if bool_decide (typ = DNSRecordTypeNS) then
    [RR_NS (hdr TypeNS) (Fqdn (rec_Value rec))]
  else if bool_decide (typ = DNSRecordTypeSRV) then
    [RR_SRV (hdr TypeSRV) (u16 (default 0 (rec_Priority rec))) (u16 (default 0 (rec_Weight rec)))
       (u16 (default 0 (rec_Port rec))) (Fqdn (rec_Value rec))]
  else if bool_decide (typ = DNSRecordTypeCAA) then
    match SplitN (rec_Value rec) " " 3 with
    | [flag; tag; value] =>
        [RR_CAA (hdr TypeCAA) (if bool_decide (flag = "128") then 128 else 0) tag value]
    | _ => []
    end
  else if bool_decide (typ = DNSRecordTypePTR) then
    [RR_PTR (hdr TypePTR) (Fqdn (rec_Value rec))]
  else [].

Definition rr_key (rr : RR) : recordKey := (ToLower (h_Name (rr_hdr rr)), h_Rrtype (rr_hdr rr)).

(** [zd.records[key] = append(zd.records[key], rr)] *)
Definition add_rr (m : gmap recordKey (list RR)) (rr : RR) : gmap recordKey (list RR) :=
  <[rr_key rr := default [] (m !! rr_key rr) ++ [rr]]> m.

Definition zone_ttl (zone : DNSZone) : Z :=
  let ttl := u32 (zone_TTL zone) in if ttl =? 0 then 300 else ttl.

(** The resource records of a zone, in configuration order. *)
Definition zone_rrs (zwr : ZoneWithRecords) : list RR :=
  zwr_Records zwr ≫= fun rec =>
    convertRecord rec (zone_Name (zwr_Zone zwr)) (zone_ttl (zwr_Zone zwr)).

Definition buildZoneData (zwr : ZoneWithRecords) : zoneData :=
  let zone := zwr_Zone zwr in
  mkZoneData (zone_Name zone) (zone_TenantID zone) (zone_Serial zone) (zone_ttl zone)
    (foldl add_rr ∅ (zone_rrs zwr)) (parseAllowedCIDRs (zone_TransferAllowedIPs zone)).

(** The loop over the configured zones: later zones replace earlier ones of the
    same name. *)
Fixpoint load_zones (zs : list ZoneWithRecords) (newZones : gmap string zoneData)
    (sortedNames : list string) : gmap string zoneData * list string :=
  match zs with
  | [] => (newZones, sortedNames)
  | zwr :: zs =>
      let zd := buildZoneData zwr in
      load_zones zs (<[ToLower (zd_name zd) := zd]> newZones)
        (sortedNames ++ [ToLower (zd_name zd)])
  end.

Definition Reconcile (config : option NodeDNSConfig) : stM MiekgService unit := fun s =>
  if negb (ms_running s) then (Err (Errorf "dns server not running"), s)
  else
    let r := match config with
             | Some c => load_zones (ndc_Zones c) ∅ []
             | None => (∅, [])
             end in
    (Ok tt, mkMiekg (ms_running s) (ms_listenAddr s) r.1 (sortByLengthDesc r.2)
              (ms_udp s) (ms_tcp s) (ms_queriesTotal s) (ms_axfrEnabled s)).
End fqdn.

(** ** Status *)

Record ServerStatus := mkServerStatus {
  ss_Listening : bool; ss_ListenAddr : string; ss_ZoneCount : Z;
  ss_ZoneSerials : gmap string Z; ss_QueriesTotal : Z
}.

Definition GetStatus (s : MiekgService) : ServerStatus :=
  mkServerStatus (ms_running s) (ms_listenAddr s) (Z.of_nat (size (ms_zones s)))
    (zd_serial <$> ms_zones s) (ms_queriesTotal s).

(** * Lemmas about the DNS server

    The insertion sort of zone names, most-specific zone selection, the
    record map against the flat list of records it was built from, and the
    batches of a transfer. *)


(** ** sortByLengthDesc *)

Definition desc (a b : string) : Prop := (String.length b <= String.length a)%nat.

(** Insertion of [x] behind a prefix, given in reverse. *)
Fixpoint insr (x : string) (r : list string) : list string :=
  match r with
  | [] => [x]
  | y :: r => if bool_decide (String.length y < String.length x)%nat then y :: insr x r
              else x :: y :: r
  end.

Lemma sort_inner_insr r x l2 :
  sort_inner (length r) (reverse r ++ x :: l2) = reverse (insr x r) ++ l2.
Proof.
  revert l2. induction r as [|y r IH]; intros l2; [done|].
  cbn [length sort_inner insr].
  assert (Hj : (reverse (y :: r) ++ x :: l2) !! S (length r) = Some x).
  { apply list_lookup_middle. rewrite length_reverse. done. }
  assert (Hi : (reverse (y :: r) ++ x :: l2) !! length r = Some y).
  { rewrite reverse_cons, <-app_assoc. apply list_lookup_middle. by rewrite length_reverse. }
  unfold longer, swap. rewrite Hj, Hi. case_bool_decide.
  - assert (Hsw : <[length r := x]> (<[S (length r) := y]> (reverse (y :: r) ++ x :: l2)) =
                  reverse r ++ x :: y :: l2).
    { rewrite reverse_cons, <-app_assoc. cbn [app].
      replace (S (length r)) with (length (reverse r) + 1)%nat by (rewrite length_reverse; lia).
      rewrite insert_app_r. replace (length r) with (length (reverse r) + 0)%nat
        by (rewrite length_reverse; lia). by rewrite insert_app_r. }
    rewrite Hsw, IH, reverse_cons, <-app_assoc. done.
  - by rewrite (reverse_cons _ x), <-app_assoc.
Qed.

Lemma insr_Permutation x r : insr x r ≡ₚ x :: r.
Proof.
  induction r as [|y r IH]; [done|]. cbn. case_bool_decide; [|done].
  rewrite IH. apply Permutation_swap.
Qed.

Lemma insr_sorted x r :
  StronglySorted (flip desc) r -> StronglySorted (flip desc) (insr x r).
Proof.
  unfold desc. induction 1 as [|y r Hs IH Hf]; [by repeat constructor|]. cbn.
  case_bool_decide; constructor; try done.
  - rewrite insr_Permutation. constructor; [cbn; lia|done].
  - by constructor.
  - constructor; [cbn; lia|]. eapply Forall_impl; [done|]. cbn. lia.
Qed.

Lemma StronglySorted_reverse {A} (R : relation A) l :
  StronglySorted (flip R) l -> StronglySorted R (reverse l).
Proof.
  induction 1 as [|x l Hs IH Hf]; [constructor|]. rewrite reverse_cons.
  apply StronglySorted_app_2; [|done|by repeat constructor].
  intros a b Ha ->%list_elem_of_singleton. rewrite elem_of_reverse in Ha.
  rewrite Forall_forall in Hf. exact (Hf a Ha).
Qed.

Lemma sort_outer_sorted n i l :
  (i + n = length l)%nat -> StronglySorted (flip desc) (reverse (take i l)) ->
  StronglySorted desc (sort_outer n i l) /\ sort_outer n i l ≡ₚ l.
Proof.
  revert i l. induction n as [|n IH]; intros i l Hlen Hs; cbn [sort_outer].
  - rewrite take_ge in Hs by lia. split; [|done].
    apply StronglySorted_reverse in Hs. by rewrite reverse_involutive in Hs.
  - destruct (lookup_lt_is_Some_2 l i) as [x Hx]; [lia|].
    assert (Hl : l = reverse (reverse (take i l)) ++ x :: drop (S i) l).
    { rewrite reverse_involutive. by rewrite take_drop_middle. }
    assert (Hi : i = length (reverse (take i l))) by (rewrite length_reverse, length_take; lia).
    set (r := reverse (take i l)) in *. clearbody r.
    assert (Hin : sort_inner i l = reverse (insr x r) ++ drop (S i) l).
    { rewrite Hl at 1. rewrite Hi at 1. rewrite sort_inner_insr. done. }
    assert (Hll : length (insr x r) = S i) by (rewrite insr_Permutation; cbn; lia).
    destruct (IH (S i) (sort_inner i l)) as [HS HP].
    + rewrite Hin, length_app, length_reverse, Hll, length_drop. lia.
    + rewrite Hin, take_app_length' by (by rewrite length_reverse).
      rewrite reverse_involutive. by apply insr_sorted.
    + split; [done|]. rewrite HP, Hin, reverse_Permutation, insr_Permutation.
      rewrite Hl at 2. rewrite reverse_Permutation. cbn. by rewrite Permutation_middle.
Qed.

Lemma sortByLengthDesc_correct l :
  StronglySorted desc (sortByLengthDesc l) /\ sortByLengthDesc l ≡ₚ l.
Proof.
  unfold sortByLengthDesc. destruct l as [|x l]; [split; [constructor|done]|].
  apply sort_outer_sorted; [cbn; lia|]. cbn. by repeat constructor.
Qed.

(** ** Zone selection *)

Lemma zone_match_suffix q n : zone_match q n = true -> HasSuffix q n = true.
Proof.
  unfold zone_match. rewrite orb_true_iff, bool_decide_eq_true.
  intros [->|[p ->]%HasSuffix_spec]; apply HasSuffix_spec; [by exists ""|].
  exists (p +:+ "."). by rewrite append_assoc.
Qed.

(** Two zones of the same length that match a name are the same zone. *)
Lemma zone_match_unique q n1 n2 :
  zone_match q n1 = true -> zone_match q n2 = true ->
  String.length n1 = String.length n2 -> n1 = n2.
Proof.
  intros [p1 H1]%zone_match_suffix%HasSuffix_spec [p2 H2]%zone_match_suffix%HasSuffix_spec Hl.
  rewrite H1 in H2. by apply append_eq_length in H2 as [_ ->].
Qed.

Lemma find_longest q l n :
  StronglySorted desc l -> List.find (zone_match q) l = Some n ->
  zone_match q n = true /\ n ∈ l /\
  forall n', n' ∈ l -> zone_match q n' = true -> (String.length n' <= String.length n)%nat.
Proof.
  induction 1 as [|x l Hs IH Hf]; [done|]. cbn. destruct (zone_match q x) eqn:Hx.
  - intros [= ->]. split_and!; [done|left|]. intros n' [->|Hn']%elem_of_cons Hm; [done|].
    rewrite Forall_forall in Hf. by apply Hf.
  - intros Hfind. destruct (IH Hfind) as (Hm & Hin & Hmax). split_and!; [done|by right|].
    intros n' [->|Hn']%elem_of_cons Hm'; [congruence|]. by apply Hmax.
Qed.

Lemma find_none q l n :
  List.find (zone_match q) l = None -> n ∈ l -> zone_match q n = false.
Proof. intros Hf Hn%list_elem_of_In. by eapply List.find_none. Qed.

Section loading.
Variable Fqdn : string -> string.

Definition zwr_key (zwr : ZoneWithRecords) : string := ToLower (zone_Name (zwr_Zone zwr)).

Lemma load_zones_names zs m names :
  (load_zones Fqdn zs m names).2 = names ++ (zwr_key <$> zs).
Proof.
  revert m names. induction zs as [|z zs IH]; intros m names; cbn; [by rewrite app_nil_r|].
  by rewrite IH, <-app_assoc.
Qed.

(** The entry of a name comes from the last zone that carries it. *)
Lemma load_zones_lookup zs m names n :
  (load_zones Fqdn zs m names).1 !! n =
  match last (filter (fun z => zwr_key z = n) zs) with
  | Some z => Some (buildZoneData Fqdn z)
  | None => m !! n
  end.
Proof.
  revert m names. induction zs as [|z zs IH]; intros m names; [done|].
  cbn [load_zones]. rewrite IH, filter_cons.
  destruct (decide (zwr_key z = n)) as [<-|Hne].
  - rewrite last_cons. destruct (last _); [done|]. by rewrite lookup_insert_eq.
  - destruct (last _); [done|]. by rewrite lookup_insert_ne.
Qed.

(** The server after a successful reconciliation with [cfg]. *)
Definition loaded (cfg : NodeDNSConfig) (s : MiekgService) : Prop :=
  ms_sortedZones s = sortByLengthDesc (zwr_key <$> ndc_Zones cfg) /\
  forall n, ms_zones s !! n =
    buildZoneData Fqdn <$> last (filter (fun z => zwr_key z = n) (ndc_Zones cfg)).

Lemma Reconcile_loaded cfg s u s' :
  Reconcile Fqdn (Some cfg) s = (Ok u, s') -> loaded cfg s'.
Proof.
  unfold Reconcile. destruct (ms_running s); cbn [negb]; [|done]. intros [= _ <-].
  split; cbn -[load_zones].
  - by rewrite load_zones_names.
  - intros n. rewrite load_zones_lookup. by destruct (last _).
Qed.

Lemma loaded_count cfg s : loaded cfg s -> loaded cfg (count_query s).
Proof. done. Qed.

Lemma findZone_spec cfg s q :
  loaded cfg s ->
  match findZone s q with
  | Some zd => exists z, last (filter (fun z' => zwr_key z' = zwr_key z) (ndc_Zones cfg)) = Some z /\
      z ∈ ndc_Zones cfg /\ zd = buildZoneData Fqdn z /\ zone_match q (zwr_key z) = true /\
      forall z', z' ∈ ndc_Zones cfg -> zone_match q (zwr_key z') = true ->
        (String.length (zwr_key z') <= String.length (zwr_key z))%nat
  | None => forall z, z ∈ ndc_Zones cfg -> zone_match q (zwr_key z) = false
  end.
Proof.
  intros [Hs Hz]. unfold findZone. rewrite Hs.
  destruct (sortByLengthDesc_correct (zwr_key <$> ndc_Zones cfg)) as [Hsort Hperm].
  destruct (List.find _ _) as [n|] eqn:Hf.
  - apply find_longest in Hf as (Hm & Hin & Hmax); [|done]. rewrite Hz.
    rewrite Hperm in Hin. apply list_elem_of_fmap in Hin as (z0 & -> & Hz0).
    destruct (last (filter (fun z => zwr_key z = zwr_key z0) (ndc_Zones cfg))) as [z|] eqn:Hlast.
    2:{ apply last_None in Hlast. assert (Hin : z0 ∈ filter (fun z => zwr_key z = zwr_key z0) (ndc_Zones cfg))
          by (by apply list_elem_of_filter). rewrite Hlast in Hin. by apply elem_of_nil in Hin. }
    assert (z ∈ filter (fun z => zwr_key z = zwr_key z0) (ndc_Zones cfg)) as [Hk Hzin]%list_elem_of_filter
      by (by apply last_Some_elem_of).
    exists z. rewrite Hk. split_and!; try done. intros z' Hz' Hm'. apply Hmax; [|done].
    rewrite Hperm. by apply list_elem_of_fmap_2.
  - intros z Hzin. eapply find_none; [done|]. rewrite Hperm. by apply list_elem_of_fmap_2.
Qed.

(** ** The record map *)

Lemma foldl_add_rr rrs m k :
  default [] (foldl add_rr m rrs !! k) =
  default [] (m !! k) ++ filter (fun rr => rr_key rr = k) rrs.
Proof.
  revert m. induction rrs as [|rr rrs IH]; intros m; cbn [foldl]; [by rewrite app_nil_r|].
  rewrite IH, filter_cons. unfold add_rr. destruct (decide (rr_key rr = k)) as [<-|Hne].
  - rewrite lookup_insert_eq. cbn [from_option id]. by rewrite <-app_assoc.
  - by rewrite lookup_insert_ne.
Qed.

Lemma rrs_at_build zwr n t :
  rrs_at (buildZoneData Fqdn zwr) n t = filter (fun rr => rr_key rr = (n, t)) (zone_rrs Fqdn zwr).
Proof. unfold rrs_at. cbn. by rewrite foldl_add_rr, lookup_empty. Qed.

Lemma foldl_add_rr_keys rrs m k :
  is_Some (foldl add_rr m rrs !! k) <-> is_Some (m !! k) \/ exists rr, rr ∈ rrs /\ rr_key rr = k.
Proof.
  revert m. induction rrs as [|rr rrs IH]; intros m; cbn [foldl].
  - split; [by left|]. intros [?|(rr & ?%elem_of_nil & _)]; done.
  - rewrite IH. unfold add_rr. destruct (decide (rr_key rr = k)) as [<-|Hne].
    + rewrite lookup_insert_eq. split; [|intros _; left; by eexists].
      intros _. right. exists rr. split; [left|done].
    + rewrite lookup_insert_ne by done. setoid_rewrite elem_of_cons. naive_solver.
Qed.

Lemma nameExists_build zwr q :
  nameExistsInZone (buildZoneData Fqdn zwr) q =
  bool_decide (Exists (fun rr => (rr_key rr).1 = q) (zone_rrs Fqdn zwr)).
Proof.
  apply eq_true_iff_eq. unfold nameExistsInZone. rewrite existsb_exists, bool_decide_eq_true.
  setoid_rewrite <-list_elem_of_In. rewrite Exists_exists. cbn. split.
  - intros ([[n t] l] & Hin%elem_of_map_to_list & Hq%bool_decide_eq_true). cbn in Hq.
    destruct (proj1 (foldl_add_rr_keys (zone_rrs Fqdn zwr) ∅ (n, t))) as [H|(rr & Hrr & Hk)];
      [by eexists|by rewrite lookup_empty in H; destruct H|].
    exists rr. split; [done|]. unfold rr_key in Hk. by simplify_eq.
  - intros (rr & Hrr & Hq).
    destruct (proj2 (foldl_add_rr_keys (zone_rrs Fqdn zwr) ∅ (rr_key rr))) as [l Hl]; [by eauto|].
    exists (rr_key rr, l). rewrite elem_of_map_to_list. split; [done|]. by apply bool_decide_eq_true.
Qed.

(** Visiting every record set once visits every record once. *)
Lemma add_rr_Permutation m rr :
  mjoin (map_to_list (add_rr m rr)).*2 ≡ₚ rr :: mjoin (map_to_list m).*2.
Proof.
  unfold add_rr. destruct (m !! rr_key rr) as [l|] eqn:Hl; cbn [default].
  - rewrite <-(insert_delete_id m (rr_key rr) l) at 2 by done.
    rewrite <-insert_delete_eq.
    rewrite !map_to_list_insert by apply lookup_delete_eq. cbn.
    rewrite <-app_assoc. cbn. by rewrite Permutation_middle.
  - rewrite map_to_list_insert by done. done.
Qed.

Lemma records_Permutation rrs m :
  mjoin (map_to_list (foldl add_rr m rrs)).*2 ≡ₚ rrs ++ mjoin (map_to_list m).*2.
Proof.
  revert m. induction rrs as [|rr rrs IH]; intros m; [done|]. cbn [foldl].
  rewrite IH, add_rr_Permutation. symmetry. apply Permutation_middle.
Qed.
End loading.

(** ** Batches *)

Lemma mjoin_cons {A} (b : list A) bs : mjoin (b :: bs) = b ++ mjoin bs.
Proof. done. Qed.

Lemma axfr_batches_correct rrs batch :
  (length batch < 100)%nat ->
  mjoin (axfr_batches rrs batch) = batch ++ rrs /\
  Forall (fun b => 1 <= length b <= 100)%nat (axfr_batches rrs batch).
Proof.
  revert batch. induction rrs as [|rr rrs IH]; intros batch Hb; cbn [axfr_batches].
  - case_bool_decide as Hn; [by subst|]. rewrite app_nil_r. cbn. rewrite app_nil_r.
    split; [done|]. constructor; [|constructor]. destruct batch; [done|]. cbn in *. lia.
  - case_bool_decide as Hl; rewrite length_app in Hl; cbn in Hl.
    + destruct (IH []) as [IHj IHf]; [cbn; lia|]. rewrite mjoin_cons, IHj, <-app_assoc.
      split; [done|]. constructor; [|done]. rewrite length_app. cbn. lia.
    + destruct (IH (batch ++ [rr])) as [IHj IHf]; [rewrite length_app; cbn; lia|].
      by rewrite IHj, <-app_assoc.
Qed.
