(* ===== verification/DnsTheorems.v ===== *)
(** * DNS: theorems

    What the controller's DNS service keeps true of its tables, what a node is
    told to serve, and what the node's server answers. *)

From Stdlib Require Import ZArith Lia Ascii String.
From S2P Require Import Prelude GoStrings GoNet Regex Domain Storage StoreDns.
From S2P Require Import StoreFleet DnsValidate DnsService DnsServer.

Open Scope Z_scope.

(** ** Controller side *)

(** C1: every sequence of service calls, each succeeding or failing at any of
    its statements, keeps every row well formed: rows under their own ID, every
    stored zone and record valid, serials positive. While no zone exceeds the
    10000 records the uniqueness check reads, the calls also keep a CNAME the
    only record at its name in its zone, names compared byte for byte as stored. *)
Theorem dns_tables_invariant {S} `{DnsStoreLaws S} (s s' : S) :
  (rtc dns_call s s' -> dns_rows s -> dns_rows s') /\
  (rtc dns_step s s' -> dns_inv s -> dns_inv s').
Proof.
  split.
  - induction 1 as [|s1 s2 s3 (op & r & Hrun) _ IH]; [done|].
    intros Hrows. apply IH. exact (proj1 (run_op_kept _ _ _ _ Hrun Hrows)).
  - induction 1 as [|s1 s2 s3 (Hsm & op & r & Hrun) _ IH]; [done|].
    intros Hinv. apply IH. by eapply run_op_inv.
Qed.

(** A successful call that changes the records of a zone increases that
    zone's serial by exactly one, so secondaries and nodes see the change. *)
Theorem record_change_bumps_serial {S} `{DnsStoreLaws S} (op : dns_op) (s s' : S) zid z0 z1 :
  dns_inv s -> run_op op s = (Ok tt, s') ->
  zone_view s' zid <> zone_view s zid ->
  ds_zones s !! zid = Some z0 -> ds_zones s' !! zid = Some z1 ->
  zone_Serial z1 = zone_Serial z0 + 1.
Proof. intros [Hk _ _ Hv] Hrun. by eapply run_op_serial. Qed.

(** The snapshot a node polls contains each active zone that is assigned to
    a group of the same tenant the node belongs to, no other zone, each once,
    and with all records of the zone when it has at most 10000. *)
Theorem node_dns_config_exact {S}
    `{DnsStore S, GroupStore S, !DnsStoreLaws S, !GroupStoreLaws S} (n : ID) (s s' : S) cfg :
  GetNodeDNSConfig n s = (Ok cfg, s') -> dns_inv s ->
  (forall tid, Z.of_nat (length (zone_rows s tid)) <= 10000) -> zones_small s ->
  NoDup (zwr_ID <$> ndc_Zones cfg) /\
  (forall z, z ∈ zwr_Zone <$> ndc_Zones cfg <-> served_to s n z) /\
  (forall x, x ∈ ndc_Zones cfg -> zwr_Records x ≡ₚ record_rows s (zwr_ID x)).
Proof.
  intros Hrun [Hk _ _ _] Hz Hsm.
  destruct (GetNodeDNSConfig_run _ _ _ _ Hrun Hk Hz) as (Hnd & Hrec & Hex).
  split_and!; [done..|]. intros x Hx. rewrite Forall_forall in Hrec.
  destruct (Hrec x Hx) as (all & Hall & ->). rewrite page_all; [done|done|done|].
  rewrite Hall. apply Hsm.
Qed.

(** A zone name is accepted exactly when, after one trailing dot is removed,
    it has at most 253 bytes and consists of dot-separated labels of 1 to 63
    letters, digits, hyphens and (except in the last label) underscores that
    neither start nor end with a hyphen. *)
Theorem validateZoneName_spec (name : string) :
  validateZoneName name = Ok tt <->
  name <> "" /\ strlen (TrimSuffix name ".") <= 253 /\
  hostname_labels (TrimSuffix name ".") = true.
Proof.
  unfold validateZoneName. rewrite hostnameRegex_spec. case_bool_decide; [naive_solver|].
  destruct (Z.ltb_spec 253 (strlen (TrimSuffix name "."))).
  - split; [done|]. intros (_ & ? & _). lia.
  - destruct (hostname_labels _); cbn; naive_solver lia.
Qed.

(** Every entry of a transfer list that the validator accepts becomes
    exactly one prefix of the server's ACL; none is silently dropped. *)
Theorem transfer_acl_lossless (ips : list string) :
  validateTransferAllowedIPs ips = Ok tt ->
  length (parseAllowedCIDRs ips) = length ips.
Proof.
  unfold parseAllowedCIDRs. induction ips as [|e ips IH]; [done|]. cbn [validateTransferAllowedIPs].
  intros Hv. change ((e :: ips) ≫= parse_acl_entry) with (parse_acl_entry e ++ (ips ≫= parse_acl_entry)).
  rewrite length_app. unfold parse_acl_entry at 1. rewrite Contains_byte.
  destruct (ParseIP e) as [ip|] eqn:Hip.
  - rewrite (ParseIP_no_slash _ _ Hip). cbn. by rewrite IH.
  - destruct (ParseCIDR e) as [[ip net]|] eqn:Hc; [|done].
    rewrite (ParseCIDR_slash _ _ Hc). cbn. by rewrite IH.
Qed.

(** ** Node side *)

(** Reference resolver over the flat list of a zone's resource records. *)
Definition ref_at (rrs : list RR) (n : string) (t : Z) : list RR :=
  filter (fun rr => rr_key rr = (n, t)) rrs.

Definition ref_lookup (soa : RR) (rrs : list RR) (q : string) (t : Z) : Msg :=
  match ref_at rrs q t, ref_at rrs q TypeCNAME with
  | (_ :: _) as direct, _ => mkMsg RcodeSuccess true false direct []
  | [], (cn :: _) as cnames =>
      if t =? TypeCNAME then mkMsg RcodeSuccess true false cnames []
      else mkMsg RcodeSuccess true false
             (cnames ++ match cn with RR_CNAME _ tgt => ref_at rrs (ToLower tgt) t | _ => [] end) []
  | [], [] =>
      mkMsg (if bool_decide (Exists (fun rr => (rr_key rr).1 = q) rrs) then RcodeSuccess
             else RcodeNameError) true false [] [soa]
  end.

(** A query of any type but AXFR against one zone. *)
Definition ref_reply (Fqdn : string -> string) (zwr : ZoneWithRecords) (q : string) (t : Z) : Msg :=
  let zd := buildZoneData Fqdn zwr in
  let rrs := zone_rrs Fqdn zwr in
  if t =? TypeSOA then mkMsg RcodeSuccess true false [buildSOA zd] []
  else if (t =? TypeNS) && bool_decide (q = zwr_key zwr) && bool_decide (ref_at rrs q TypeNS = [])
  then mkMsg RcodeSuccess true false
         [RR_NS (mkHdr (zd_name zd) TypeNS ClassINET (zd_ttl zd)) ("ns1." +:+ zd_name zd)] []
  else ref_lookup (buildSOA zd) rrs q t.

(** [zwr] is the configured zone whose name is the longest suffix of [q]. *)
Definition most_specific (cfg : NodeDNSConfig) (q : string) (zwr : ZoneWithRecords) : Prop :=
  zwr ∈ ndc_Zones cfg /\ zone_match q (zwr_key zwr) = true /\
  forall z', z' ∈ ndc_Zones cfg -> zone_match q (zwr_key z') = true ->
    z' = zwr \/ (String.length (zwr_key z') < String.length (zwr_key zwr))%nat.

Lemma findZone_most_specific Fqdn cfg s q zwr :
  loaded Fqdn cfg s -> most_specific cfg q zwr -> findZone s q = Some (buildZoneData Fqdn zwr).
Proof.
  intros Hl (Hin & Hm & Hbest). pose proof (findZone_spec Fqdn cfg s q Hl) as Hf.
  destruct (findZone s q) as [zd|]; [|by rewrite (Hf _ Hin) in Hm].
  destruct Hf as (z & _ & Hz & -> & Hzm & Hmax). do 2 f_equal.
  destruct (Hbest z Hz Hzm) as [->|Hlt]; [done|]. specialize (Hmax zwr Hin Hm). lia.
Qed.

Lemma lookup_reply_ref Fqdn zwr q t :
  lookup_reply (buildZoneData Fqdn zwr) q t =
  ref_lookup (buildSOA (buildZoneData Fqdn zwr)) (zone_rrs Fqdn zwr) q t.
Proof.
  unfold lookup_reply, ref_lookup. rewrite !rrs_at_build, nameExists_build. fold ref_at.
  unfold ref_at. destruct (filter (fun rr => rr_key rr = (q, t)) _) as [|r rs] eqn:Hd.
  - rewrite bool_decide_true by done. cbn [andb negb].
    destruct (Z.eqb_spec t TypeCNAME) as [->|Ht]; cbn [andb negb].
    + rewrite Hd. done.
    + destruct (filter (fun rr => rr_key rr = (q, TypeCNAME)) _) as [|c cs]; [done|].
      rewrite bool_decide_false by done. cbn [negb]. by destruct c; rewrite ?rrs_at_build.
  - by rewrite !(bool_decide_false (r :: rs = [])).
Qed.

Lemma handleQuery_in_zone Fqdn cfg s remote ord name t qs zwr :
  loaded Fqdn cfg s -> most_specific cfg (ToLower name) zwr -> t <> TypeAXFR ->
  (handleQuery remote ord ((name, t) :: qs) s).1 = RMsg (ref_reply Fqdn zwr (ToLower name) t).
Proof.
  intros Hl Hms Ht. unfold handleQuery.
  rewrite (findZone_most_specific Fqdn cfg _ _ zwr) by done. cbn [fst].
  apply Z.eqb_neq in Ht. rewrite Ht. unfold ref_reply. cbv zeta.
  destruct (Z.eqb_spec t TypeSOA) as [->|Hsoa]; [done|].
  rewrite lookup_reply_ref, rrs_at_build.
  change (ToLower (zd_name (buildZoneData Fqdn zwr))) with (zwr_key zwr).
  destruct (Z.eqb_spec t TypeNS) as [->|Hns]; [|done]. cbn [andb].
  case_bool_decide as Hq; [|done]. cbn [andb]. unfold ref_lookup, ref_at.
  destruct (filter (fun rr => rr_key rr = (ToLower name, TypeNS)) _); [done|].
  by rewrite !bool_decide_false.
Qed.

(** C2: after a reconciliation the server answers every query, other than a
    transfer, exactly as the reference resolver does on the records of the most
    specific configured zone: direct match, else the CNAME with its target's
    records, else NODATA or NXDOMAIN with the zone's SOA. *)
Theorem handleQuery_refines_reference Fqdn cfg s0 u s remote ord name t qs zwr :
  Reconcile Fqdn (Some cfg) s0 = (Ok u, s) ->
  most_specific cfg (ToLower name) zwr -> t <> TypeAXFR ->
  (handleQuery remote ord ((name, t) :: qs) s).1 = RMsg (ref_reply Fqdn zwr (ToLower name) t).
Proof. intros Hr%Reconcile_loaded. by apply handleQuery_in_zone. Qed.

(** A query is REFUSED, without the authoritative flag, exactly when no
    configured zone is a dot-suffix of the name. *)
Theorem handleQuery_refused_iff Fqdn cfg s0 u s remote ord name t qs :
  Reconcile Fqdn (Some cfg) s0 = (Ok u, s) -> t <> TypeAXFR ->
  (handleQuery remote ord ((name, t) :: qs) s).1 = RMsg (mkMsg RcodeRefused false false [] []) <->
  Forall (fun z => zone_match (ToLower name) (zwr_key z) = false) (ndc_Zones cfg).
Proof.
  intros Hr%Reconcile_loaded Ht. pose proof (findZone_spec Fqdn cfg (count_query s) (ToLower name) Hr) as Hf.
  unfold handleQuery. rewrite Forall_forall. destruct (findZone _ _) as [zd|].
  - destruct Hf as (z & _ & Hz & _ & Hm & _). split.
    + apply Z.eqb_neq in Ht. rewrite Ht. cbn [fst]. unfold lookup_reply.
      repeat case_match; intros; simplify_eq.
    + intros Hall. rewrite (Hall z Hz) in Hm. done.
  - done.
Qed.

(** The records a node loads are the records it serves: each resource record
    of a zone whose name ends in a dot is in the answer to a query for its own
    name and type, together with exactly the other records of that set, as long
    as no more specific zone covers the name. *)
Theorem zone_record_served Fqdn cfg s0 u s remote ord qs zwr rec rr :
  (forall x, HasSuffix x "." = true -> ContainsByte x "\" = false -> Fqdn x = x) ->
  Reconcile Fqdn (Some cfg) s0 = (Ok u, s) ->
  zwr ∈ ndc_Zones cfg -> HasSuffix (zone_Name (zwr_Zone zwr)) "." = true ->
  rec ∈ zwr_Records zwr ->
  ContainsByte (rec_Name rec +:+ zone_Name (zwr_Zone zwr)) "\" = false ->
  rr ∈ convertRecord Fqdn rec (zone_Name (zwr_Zone zwr)) (zone_ttl (zwr_Zone zwr)) ->
  (forall z', z' ∈ ndc_Zones cfg -> zone_match (ToLower (h_Name (rr_hdr rr))) (zwr_key z') = true ->
     z' = zwr \/ (String.length (zwr_key z') < String.length (zwr_key zwr))%nat) ->
  exists m, (handleQuery remote ord ((h_Name (rr_hdr rr), h_Rrtype (rr_hdr rr)) :: qs) s).1 = RMsg m /\
    m_Rcode m = RcodeSuccess /\ m_Authoritative m = true /\ rr ∈ m_Answer m /\
    m_Answer m = filter (fun rr' => rr_key rr' = rr_key rr) (zone_rrs Fqdn zwr).
Proof.
  intros HF Hr%Reconcile_loaded Hz Hdot Hrec Hbs Hrr Hbest.
  assert (Hin : rr ∈ zone_rrs Fqdn zwr) by (apply list_elem_of_bind; eauto).
  assert (Hhdr : h_Name (rr_hdr rr) = record_fqdn Fqdn (rec_Name rec) (zone_Name (zwr_Zone zwr)) /\
                 h_Rrtype (rr_hdr rr) <> TypeAXFR /\ h_Rrtype (rr_hdr rr) <> TypeSOA).
  { unfold convertRecord in Hrr. repeat case_match;
      try (by apply elem_of_nil in Hrr); apply list_elem_of_singleton in Hrr as ->; done. }
  destruct Hhdr as (Hname & Haxfr & Hsoa).
  assert (Hmatch : zone_match (ToLower (h_Name (rr_hdr rr))) (zwr_key zwr) = true).
  { rewrite Hname. unfold record_fqdn, zone_match. rewrite orb_true_iff, bool_decide_eq_true.
    rewrite ContainsByte_append, orb_false_iff in Hbs. destruct Hbs as [Hb1 Hb2].
    destruct (_ || _).
    - left. by rewrite HF.
    - right. rewrite HF.
      + rewrite !ToLower_append. change (ToLower ".") with ".". apply HasSuffix_append.
      + apply HasSuffix_spec in Hdot as [p ->]. apply HasSuffix_spec.
        exists (rec_Name rec +:+ "." +:+ p). by rewrite !append_assoc.
      + rewrite !ContainsByte_append, Hb1, Hb2. done. }
  exists (ref_reply Fqdn zwr (ToLower (h_Name (rr_hdr rr))) (h_Rrtype (rr_hdr rr))).
  split; [by eapply handleQuery_in_zone|].
  apply Z.eqb_neq in Hsoa. unfold ref_reply. cbv zeta. rewrite Hsoa.
  assert (Hset : rr ∈ ref_at (zone_rrs Fqdn zwr) (ToLower (h_Name (rr_hdr rr))) (h_Rrtype (rr_hdr rr)))
    by (by apply list_elem_of_filter).
  unfold ref_lookup. change (filter (fun rr' => rr_key rr' = rr_key rr) (zone_rrs Fqdn zwr)) with
    (ref_at (zone_rrs Fqdn zwr) (ToLower (h_Name (rr_hdr rr))) (h_Rrtype (rr_hdr rr))).
  destruct (Z.eqb_spec (h_Rrtype (rr_hdr rr)) TypeNS) as [Hns|]; cbn [andb].
  - rewrite Hns in *. destruct (ref_at _ _ TypeNS) as [|r rs]; [by apply elem_of_nil in Hset|].
    rewrite (bool_decide_false (_ :: _ = [])), andb_false_r by done. done.
  - destruct (ref_at _ _ (h_Rrtype _)) as [|r rs]; [by apply elem_of_nil in Hset|]. done.
Qed.

(** C33: a zone transfer is sent only if transfers are enabled and the client's
    address is inside the zone's ACL; it then is the SOA, every record of the
    zone exactly once in envelopes of 1 to 100 records, and the SOA again. *)
Theorem axfr_transfer_exact Fqdn s zwr remote ord :
  ord ≡ₚ map_to_list (zd_records (buildZoneData Fqdn zwr)) ->
  match handleAXFR s (buildZoneData Fqdn zwr) remote ord with
  | RTransfer envs =>
      ms_axfrEnabled s = true /\
      (exists ip net, extractIP remote = Some ip /\
         net ∈ parseAllowedCIDRs (zone_TransferAllowedIPs (zwr_Zone zwr)) /\
         IPNet_Contains net ip = true) /\
      exists body, envs = [buildSOA (buildZoneData Fqdn zwr)] :: body ++
                          [[buildSOA (buildZoneData Fqdn zwr)]] /\
        mjoin body ≡ₚ zone_rrs Fqdn zwr /\
        Forall (fun b => 1 <= length b <= 100)%nat body
  | RMsg m => m = mkMsg RcodeRefused false false [] []
  end.
Proof.
  intros Hord. unfold handleAXFR, refuseAXFR.
  destruct (ms_axfrEnabled s); cbn [negb]; [|done].
  case_bool_decide; [done|]. destruct (extractIP remote) as [ip|]; [|done].
  destruct (isTransferAllowed _ ip) eqn:Hallow; cbn [negb]; [|done].
  split; [done|]. split.
  { unfold isTransferAllowed in Hallow. apply existsb_exists in Hallow as (net & Hin & Hc).
    exists ip, net. split_and!; [done| |done]. by apply list_elem_of_In. }
  destruct (axfr_batches_correct (mjoin ord.*2) []) as [Hj Hf]; [cbn; lia|].
  exists (axfr_batches (mjoin ord.*2) []). split_and!; [done| |done].
  rewrite Hj. cbn [app]. rewrite Hord. cbn [zd_records buildZoneData].
  rewrite records_Permutation, map_to_list_empty. cbn. by rewrite app_nil_r.
Qed.

(** ** Behaviours worth knowing *)

(** A zone whose stored name has no trailing dot is never served: query names
    on the wire end in a dot, so the server refuses every query for it. *)
Theorem undotted_zones_refused Fqdn cfg s0 u s remote ord name t qs :
  Reconcile Fqdn (Some cfg) s0 = (Ok u, s) ->
  Forall (fun z => HasSuffix (zone_Name (zwr_Zone z)) "." = false /\ zone_Name (zwr_Zone z) <> "")
    (ndc_Zones cfg) ->
  HasSuffix name "." = true ->
  (handleQuery remote ord ((name, t) :: qs) s).1 = RMsg (mkMsg RcodeRefused false false [] []).
Proof.
  intros Hr%Reconcile_loaded Hall Hdot.
  pose proof (findZone_spec Fqdn cfg (count_query s) (ToLower name) Hr) as Hf.
  unfold handleQuery. destruct (findZone _ _) as [zd|]; [exfalso|done].
  destruct Hf as (z & _ & Hz & _ & Hm & _). rewrite Forall_forall in Hall.
  destruct (Hall z Hz) as [Hno Hne]. apply zone_match_suffix in Hm.
  rewrite <-ToLower_suffix_dot in Hdot, Hno. fold (zwr_key z) in Hno.
  assert (String.length "." <= String.length (zwr_key z))%nat.
  { unfold zwr_key. rewrite length_ToLower. destruct (zone_Name _); [done|cbn; lia]. }
  by rewrite (HasSuffix_shorter _ _ _ Hdot Hm) in Hno.
Qed.

(** For a zone without a record at its apex the server answers SOA and NS
    queries at the apex and at the same time denies, with NXDOMAIN, that the apex
    exists when asked for an address. *)
Theorem apex_denied_while_served Fqdn cfg s0 u s remote ord qs zwr :
  Reconcile Fqdn (Some cfg) s0 = (Ok u, s) ->
  most_specific cfg (ToLower (zone_Name (zwr_Zone zwr))) zwr ->
  Forall (fun rr => (rr_key rr).1 <> zwr_key zwr) (zone_rrs Fqdn zwr) ->
  let apex := zone_Name (zwr_Zone zwr) in
  (exists m, (handleQuery remote ord ((apex, TypeA) :: qs) s).1 = RMsg m /\
     m_Rcode m = RcodeNameError) /\
  (exists m, (handleQuery remote ord ((apex, TypeNS) :: qs) s).1 = RMsg m /\
     m_Rcode m = RcodeSuccess /\ length (m_Answer m) = 1%nat) /\
  (exists m, (handleQuery remote ord ((apex, TypeSOA) :: qs) s).1 = RMsg m /\
     m_Rcode m = RcodeSuccess /\ m_Answer m = [buildSOA (buildZoneData Fqdn zwr)]).
Proof.
  intros Hr%Reconcile_loaded Hms Hno apex.
  assert (Hat : forall t, ref_at (zone_rrs Fqdn zwr) (zwr_key zwr) t = []).
  { intros t. unfold ref_at. induction Hno as [|rr rrs Hrr _ IH]; [done|].
    rewrite filter_cons_False; [done|]. intros Hk. apply Hrr. by rewrite Hk. }
  split; [|split]; eexists; (split; [by eapply handleQuery_in_zone|]);
    change (ToLower apex) with (zwr_key zwr); unfold ref_reply, ref_lookup; cbv zeta;
    rewrite ?Hat.
  - cbn. rewrite bool_decide_false; [done|].
    intros (rr & Hrr & Hk)%Exists_exists. rewrite Forall_forall in Hno. by apply (Hno rr).
  - rewrite (bool_decide_true (zwr_key zwr = zwr_key zwr)), (bool_decide_true ([] = [])) by done. done.
  - done.
Qed.

(** ** Concrete instances *)

Definition ex_Fqdn (s : string) : string := if HasSuffix s "." then s else s +:+ ".".

Definition ex_tenant : Tenant := mkTenant 1 "acme" "acme" TenantStatusActive "" 0 0.
Definition ex_node : Node :=
  mkNode 5 (Some 1%N) "n1" "n1" "192.0.2.1" "10.100.0.2" "" NodeStatusOnline "" "" 22 "root" None
    "" None None [] "" 0 0.
Definition ex_group : NodeGroup := mkNodeGroup 3 1 "edge" "" 0 0.

(** One tenant, one node in one group, no zone yet. *)
Definition ex_db : DB :=
  mkDB {[1%N := ex_tenant]} ∅ ∅ ∅ {[5%N := ex_node]} {[3%N := ex_group]} {[(3%N, 5%N)]} ∅ ∅ ∅ ∅
    ∅ ∅ ∅ ∅ ∅ ∅ ∅ ∅.
Definition ex_s0 : SqlState := mkSql ex_db true [].

Definition ex_zone_req : CreateZoneRequest :=
  mkCreateZoneRequest 1 "Example.com." 0 (Some 3%N) ["192.0.2.0/24"; "2001:db8::1"].
Definition ex_rec_req (name typ value : string) : CreateRecordRequest :=
  mkCreateRecordRequest 7 name typ value None None None None.
Definition ex_op1 : dns_op := OpCreateZone 7 100 ex_zone_req.
Definition ex_op2 : dns_op := OpCreateRecord 8 101 102 (ex_rec_req "www" "A" "192.0.2.10").
Definition ex_s1 : SqlState := (run_op ex_op1 ex_s0).2.
Definition ex_s2 : SqlState := (run_op ex_op2 ex_s1).2.

Lemma dns_inv_no_rows (s : SqlState) :
  dns_zones (sq_db s) = ∅ -> dns_records (sq_db s) = ∅ -> dns_inv s.
Proof.
  intros Hz Hr. split; [split| | |]; cbn; rewrite ?Hz, ?Hr;
    first [apply map_Forall_empty | intros ????; by rewrite lookup_empty].
Qed.

Lemma small_by_length (s : SqlState) :
  Z.of_nat (length (rows_of (dns_records (sq_db s)))) <= 10000 -> zones_small s.
Proof.
  intros Hl zid. unfold record_rows; cbn -[filter]. pose proof (length_filter
    (fun r => rec_ZoneID r = zid) (rows_of (dns_records (sq_db s)))). lia.
Qed.

Lemma small_zones_by_length (s : SqlState) :
  Z.of_nat (length (rows_of (dns_zones (sq_db s)))) <= 10000 ->
  forall tid, Z.of_nat (length (zone_rows s tid)) <= 10000.
Proof.
  intros Hl tid. unfold zone_rows; cbn -[filter]. pose proof (length_filter
    (fun z => zone_TenantID z = tid) (rows_of (dns_zones (sq_db s)))). lia.
Qed.

Lemma ex_step1 : dns_step ex_s0 ex_s1.
Proof.
  split; [apply small_by_length; by vm_compute|]. exists ex_op1, (Ok tt). by vm_compute.
Qed.

Lemma ex_step2 : dns_step ex_s1 ex_s2.
Proof.
  split; [apply small_by_length; by vm_compute|]. exists ex_op2, (Ok tt). by vm_compute.
Qed.

Lemma ex_inv2 : dns_inv ex_s2.
Proof.
  destruct ex_step1 as (Hs1 & op1 & r1 & H1), ex_step2 as (Hs2 & op2 & r2 & H2).
  eapply run_op_inv; [exact H2|done|]. eapply run_op_inv; [exact H1|done|].
  by apply dns_inv_no_rows.
Qed.

Lemma dns_tables_invariant_witness : dns_rows ex_s2 /\ dns_inv ex_s2.
Proof.
  pose proof (dns_inv_no_rows ex_s0 eq_refl eq_refl) as H0. split.
  - apply (proj1 (dns_tables_invariant ex_s0 ex_s2)).
    + eapply rtc_l; [exact (proj2 ex_step1)|]. apply rtc_once. exact (proj2 ex_step2).
    + exact (proj1 (proj1 (dns_inv_rows ex_s0) H0)).
  - apply (proj2 (dns_tables_invariant ex_s0 ex_s2)).
    + eapply rtc_l; [exact ex_step1|]. apply rtc_once. exact ex_step2.
    + exact H0.
Defined.

Lemma record_change_bumps_serial_witness : exists z0 z1,
  ds_zones ex_s2 !! 7%N = Some z0 /\
  ds_zones (run_op (OpDeleteRecord 8 103) ex_s2).2 !! 7%N = Some z1 /\
  zone_Serial z1 = zone_Serial z0 + 1.
Proof.
  eexists _, _. split; [by vm_compute|]. split; [by vm_compute|].
  apply (record_change_bumps_serial (OpDeleteRecord 8 103) ex_s2
           (run_op (OpDeleteRecord 8 103) ex_s2).2 7%N).
  - exact ex_inv2.
  - by vm_compute.
  - intros Heq. apply (f_equal (fun m : gmap ID DNSRecord => size m)) in Heq. by vm_compute in Heq.
  - by vm_compute.
  - by vm_compute.
Defined.

Definition ex_config : NodeDNSConfig :=
  match (GetNodeDNSConfig 5%N ex_s2).1 with Ok c => c | Err _ => mkNodeDNSConfig [] end.

Lemma node_dns_config_exact_witness :
  length (ndc_Zones ex_config) = 1%nat /\ NoDup (zwr_ID <$> ndc_Zones ex_config).
Proof.
  split; [by vm_compute|].
  apply (node_dns_config_exact 5%N ex_s2 (GetNodeDNSConfig 5%N ex_s2).2 ex_config).
  - by vm_compute.
  - exact ex_inv2.
  - apply small_zones_by_length. by vm_compute.
  - apply small_by_length. by vm_compute.
Defined.

Lemma transfer_acl_lossless_witness :
  length (parseAllowedCIDRs ["192.0.2.0/24"; "2001:db8::1"; "10.0.0.1"]) = 3%nat.
Proof. apply (transfer_acl_lossless ["192.0.2.0/24"; "2001:db8::1"; "10.0.0.1"]). by vm_compute. Defined.

(** The server loaded with the snapshot of the node. *)
Definition ex_server : MiekgService :=
  (Reconcile ex_Fqdn (Some ex_config)
     (mkMiekg true "0.0.0.0:53" ∅ [] true true 0 true)).2.
Definition ex_server0 : MiekgService := mkMiekg true "0.0.0.0:53" ∅ [] true true 0 true.
Definition ex_zwr : ZoneWithRecords :=
  default (mkZoneWithRecords (mkDNSZone 0 0 "" "" 0 0 None [] 0 0) []) (head (ndc_Zones ex_config)).

Lemma ex_only_zone z : z ∈ ndc_Zones ex_config -> z = ex_zwr.
Proof.
  assert (He : ndc_Zones ex_config = [ex_zwr]) by (by vm_compute).
  rewrite He. apply list_elem_of_singleton.
Qed.

Lemma ex_zwr_in : ex_zwr ∈ ndc_Zones ex_config.
Proof.
  assert (He : ndc_Zones ex_config = [ex_zwr]) by (by vm_compute).
  rewrite He. by apply list_elem_of_singleton.
Qed.

Lemma ex_most_specific q :
  zone_match q (zwr_key ex_zwr) = true -> most_specific ex_config q ex_zwr.
Proof.
  intros Hm. split; [apply ex_zwr_in|]. split; [done|]. intros z' Hz' _. left. by apply ex_only_zone.
Qed.

Lemma handleQuery_refines_reference_witness :
  (handleQuery None [] [("wWw.example.COM.", TypeA)] ex_server).1 =
  RMsg (ref_reply ex_Fqdn ex_zwr "www.example.com." TypeA).
Proof.
  apply (handleQuery_refines_reference ex_Fqdn ex_config ex_server0 tt ex_server None []
           "wWw.example.COM." TypeA [] ex_zwr).
  - by vm_compute.
  - apply ex_most_specific. by vm_compute.
  - done.
Defined.

Lemma handleQuery_refused_iff_witness :
  (handleQuery None [] [("other.org.", TypeA)] ex_server).1 =
  RMsg (mkMsg RcodeRefused false false [] []).
Proof.
  apply (handleQuery_refused_iff ex_Fqdn ex_config ex_server0 tt ex_server None [] "other.org." TypeA []).
  - by vm_compute.
  - done.
  - apply Forall_forall. intros z ->%ex_only_zone. by vm_compute.
Defined.

Definition ex_rec : DNSRecord :=
  default (mkDNSRecord 0 0 "" "" "" None None None None 0 0) (head (zwr_Records ex_zwr)).
Definition ex_rr : RR :=
  RR_A (mkHdr "www.Example.com." TypeA ClassINET 3600) (Some [192; 0; 2; 10]).

Lemma zone_record_served_witness : exists m,
  (handleQuery None [] [("www.Example.com.", TypeA)] ex_server).1 = RMsg m /\ ex_rr ∈ m_Answer m.
Proof.
  destruct (zone_record_served ex_Fqdn ex_config ex_server0 tt ex_server None [] [] ex_zwr ex_rec ex_rr)
    as (m & Hq & _ & _ & Hin & _).
  - intros x Hx _. unfold ex_Fqdn. by rewrite Hx.
  - by vm_compute.
  - apply ex_zwr_in.
  - by vm_compute.
  - assert (He : zwr_Records ex_zwr = [ex_rec]) by (by vm_compute).
    rewrite He. by apply list_elem_of_singleton.
  - by vm_compute.
  - assert (He : convertRecord ex_Fqdn ex_rec (zone_Name (zwr_Zone ex_zwr))
                   (zone_ttl (zwr_Zone ex_zwr)) = [ex_rr]) by (by vm_compute).
    rewrite He. by apply list_elem_of_singleton.
  - intros z' Hz' _. left. by apply ex_only_zone.
  - exists m. exact (conj Hq Hin).
Defined.

Lemma axfr_transfer_exact_witness : exists envs,
  handleAXFR ex_server (buildZoneData ex_Fqdn ex_zwr) (Some "192.0.2.77:4711")
    (map_to_list (zd_records (buildZoneData ex_Fqdn ex_zwr))) = RTransfer envs /\
  exists body, envs = [buildSOA (buildZoneData ex_Fqdn ex_zwr)] :: body ++
                      [[buildSOA (buildZoneData ex_Fqdn ex_zwr)]] /\
    mjoin body ≡ₚ zone_rrs ex_Fqdn ex_zwr.
Proof.
  pose proof (axfr_transfer_exact ex_Fqdn ex_server ex_zwr (Some "192.0.2.77:4711")
    (map_to_list (zd_records (buildZoneData ex_Fqdn ex_zwr))) (reflexivity _)) as H.
  destruct (handleAXFR _ _ _ _) as [m|envs] eqn:E; [by vm_compute in E|].
  exists envs. split; [reflexivity|]. destruct H as (_ & _ & body & H1 & H2 & _).
  exists body. exact (conj H1 H2).
Defined.

(** A zone stored as the API guide writes it, without the final dot. *)
Definition ex_undotted : NodeDNSConfig :=
  mkNodeDNSConfig [mkZoneWithRecords
    (mkDNSZone 7 1 "example.com" DNSZoneActive 1 3600 (Some 3%N) [] 0 0)
    [mkDNSRecord 8 7 "www" "A" "192.0.2.10" None None None None 0 0]].

Lemma undotted_zones_refused_witness :
  validateZoneName "example.com" = Ok tt /\
  (handleQuery None [] [("www.example.com.", TypeA)]
     (Reconcile ex_Fqdn (Some ex_undotted) ex_server0).2).1 =
  RMsg (mkMsg RcodeRefused false false [] []).
Proof.
  split; [by vm_compute|].
  apply (undotted_zones_refused ex_Fqdn ex_undotted ex_server0 tt).
  - by vm_compute.
  - by repeat constructor.
  - by vm_compute.
Defined.

Lemma apex_denied_while_served_witness : exists m,
  (handleQuery None [] [("Example.com.", TypeA)] ex_server).1 = RMsg m /\ m_Rcode m = RcodeNameError.
Proof.
  apply (apex_denied_while_served ex_Fqdn ex_config ex_server0 tt ex_server None [] [] ex_zwr).
  - by vm_compute.
  - apply ex_most_specific. by vm_compute.
  - assert (He : zone_rrs ex_Fqdn ex_zwr = [ex_rr]) by (by vm_compute).
    rewrite He. apply Forall_singleton. intros Hk. vm_compute in Hk. discriminate Hk.
Defined.

(** Record names are compared byte for byte when a record is stored but
    case-insensitively when served, so a CNAME and an address can be stored
    that share one name on the wire. *)
Theorem cname_exclusivity_is_case_sensitive :
  let create id name typ value :=
    run_op (OpCreateRecord id 101 102 (ex_rec_req name typ value)) in
  let s1 := create 8%N "WWW" "CNAME" "other.example.com." ex_s1 in
  let s2 := create 9%N "www" "A" "192.0.2.10" s1.2 in
  s1.1 = Ok tt /\ s2.1 = Ok tt /\
  match (GetNodeDNSConfig 5%N s2.2).1 with
  | Ok cfg => (fun zwr => (rrs_at (buildZoneData ex_Fqdn zwr) "www.example.com." TypeCNAME,
                           rrs_at (buildZoneData ex_Fqdn zwr) "www.example.com." TypeA))
              <$> ndc_Zones cfg =
      [([RR_CNAME (mkHdr "WWW.Example.com." TypeCNAME ClassINET 3600) "other.example.com."],
        [RR_A (mkHdr "www.Example.com." TypeA ClassINET 3600) (Some [192; 0; 2; 10])])]
  | Err _ => False
  end.
Proof. intros create s1 s2. split; [by vm_compute|]. split; [by vm_compute|]. by vm_compute. Qed.
