(* ===== verification/Cache.v ===== *)
(** * In-memory response cache (internal/cdnserver/cache.go)

    The LRU cache as the code builds it: a map from keys to entries that are
    also nodes of a doubly linked list, modelled with an explicit heap of
    entries addressed by location, so that the pointer surgery of
    [addToHead], [unlinkEntry] and [evictTail] is what is verified.  The clock is
    an argument; evicted entries, which the code hands to [OnEvict], are
    returned. *)

From Stdlib Require Import ZArith Lia Ascii String.
From S2P Require Import Prelude GoStrings.

Open Scope Z_scope.

(** [http.Header]: canonical name to values. *)
Notation Header := (gmap string (list string)).

(** [Header.Get]: the first value or the empty string. *)
Definition header_get (h : Header) (name : string) : string :=
  match h !! name with Some (v :: _) => v | _ => "" end.

Notation loc := positive.

Record cacheEntry := mkEntry {
  ce_body : string;
  ce_statusCode : Z;
  ce_headers : Header;
  ce_storedAt : Z;
  ce_ttl : Z;
  ce_prev : option loc;
  ce_next : option loc;
  ce_key : string
}.

Definition set_links (p n : option loc) (e : cacheEntry) : cacheEntry :=
  mkEntry (ce_body e) (ce_statusCode e) (ce_headers e) (ce_storedAt e) (ce_ttl e) p n (ce_key e).
Definition set_prev (p : option loc) (e : cacheEntry) : cacheEntry := set_links p (ce_next e) e.
Definition set_next (n : option loc) (e : cacheEntry) : cacheEntry := set_links (ce_prev e) n e.

(** [cacheEntry.expired] at time [now] *)
Definition expired (now : Z) (e : cacheEntry) : bool :=
  if ce_ttl e <=? 0 then false else ce_ttl e <? now - ce_storedAt e.

(** [c_heap] and [c_fresh] are the allocator; the other fields are the code's. *)
Record Cache := mkCache {
  c_heap : gmap loc cacheEntry;
  c_fresh : loc;
  c_entries : gmap string loc;
  c_maxEntries : Z;
  c_head : option loc;
  c_tail : option loc;
  c_hits : Z;
  c_misses : Z
}.

Definition NewCache (maxEntries : Z) : Cache :=
  mkCache ∅ 1%positive ∅ (if maxEntries <=? 0 then 10000 else maxEntries) None None 0 0.

Definition set_heap (h : gmap loc cacheEntry) (c : Cache) : Cache :=
  mkCache h (c_fresh c) (c_entries c) (c_maxEntries c) (c_head c) (c_tail c) (c_hits c) (c_misses c).
Definition set_entries (m : gmap string loc) (c : Cache) : Cache :=
  mkCache (c_heap c) (c_fresh c) m (c_maxEntries c) (c_head c) (c_tail c) (c_hits c) (c_misses c).
Definition set_head (l : option loc) (c : Cache) : Cache :=
  mkCache (c_heap c) (c_fresh c) (c_entries c) (c_maxEntries c) l (c_tail c) (c_hits c) (c_misses c).
Definition set_tail (l : option loc) (c : Cache) : Cache :=
  mkCache (c_heap c) (c_fresh c) (c_entries c) (c_maxEntries c) (c_head c) l (c_hits c) (c_misses c).
(** The counters are uint64. *)
Definition hit (c : Cache) : Cache :=
  mkCache (c_heap c) (c_fresh c) (c_entries c) (c_maxEntries c) (c_head c) (c_tail c)
    ((c_hits c + 1) mod 2 ^ 64) (c_misses c).
Definition miss (c : Cache) : Cache :=
  mkCache (c_heap c) (c_fresh c) (c_entries c) (c_maxEntries c) (c_head c) (c_tail c)
    (c_hits c) ((c_misses c + 1) mod 2 ^ 64).

(** Assignment through a pointer. *)
Definition store (l : loc) (f : cacheEntry -> cacheEntry) (c : Cache) : Cache :=
  set_heap (alter f l (c_heap c)) c.
Definition store_opt (l : option loc) (f : cacheEntry -> cacheEntry) (c : Cache) : Cache :=
  match l with Some l => store l f c | None => c end.

(** ** List operations *)

Definition addToHead (entry : loc) (c : Cache) : Cache :=
  let c := store entry (set_links None (c_head c)) c in
  let c := store_opt (c_head c) (set_prev (Some entry)) c in
  let c := set_head (Some entry) c in
  if bool_decide (c_tail c = None) then set_tail (Some entry) c else c.

Definition prev_of (entry : loc) (c : Cache) : option loc := c_heap c !! entry ≫= ce_prev.
Definition next_of (entry : loc) (c : Cache) : option loc := c_heap c !! entry ≫= ce_next.

Definition unlinkEntry (entry : loc) (c : Cache) : Cache :=
  let c := match prev_of entry c with
           | Some p => store p (set_next (next_of entry c)) c
           | None => set_head (next_of entry c) c
           end in
  let c := match next_of entry c with
           | Some n => store n (set_prev (prev_of entry c)) c
           | None => set_tail (prev_of entry c) c
           end in
  store entry (set_links None None) c.

Definition removeEntry (entry : loc) (c : Cache) : Cache :=
  let key := match c_heap c !! entry with Some e => ce_key e | None => "" end in
  unlinkEntry entry (set_entries (delete key (c_entries c)) c).

Definition moveToHead (entry : loc) (c : Cache) : Cache :=
  if bool_decide (c_head c = Some entry) then c else addToHead entry (unlinkEntry entry c).

(** Returns the entry given to [OnEvict]. *)
Definition evictTail (c : Cache) : Cache * list cacheEntry :=
  match c_tail c with
  | None => (c, [])
  | Some evicted =>
      let c := removeEntry evicted c in
      (c, option_list (c_heap c !! evicted))
  end.

(** [for len(c.entries) >= c.maxEntries { c.evictTail() }]; [None] when the fuel
    runs out. *)
Fixpoint evict_loop (fuel : nat) (c : Cache) : option (Cache * list cacheEntry) :=
  if Z.of_nat (size (c_entries c)) <? c_maxEntries c then Some (c, [])
  else match fuel with
       | O => None
       | S fuel =>
           let r := evictTail c in
           r' ← evict_loop fuel r.1;
           Some (r'.1, r.2 ++ r'.2)
       end.

Definition shouldSkipCache (headers : Header) : bool :=
  let cc := header_get headers "Cache-Control" in
  if bool_decide (cc = "") then false
  else let ccLower := ToLower cc in Contains ccLower "no-store" || Contains ccLower "no-cache".

(** ** Operations *)

Definition Get (now : Z) (key : string) (c : Cache) : option cacheEntry * Cache :=
  match c_entries c !! key with
  | None => (None, miss c)
  | Some l =>
      match c_heap c !! l with
      | None => (None, c)
      | Some e =>
          if expired now e then (None, miss (removeEntry l c))
          else
            let c := hit (moveToHead l c) in
            (c_heap c !! l, c)
      end
  end.

(** Overwriting the fields of an existing entry. *)
Definition overwrite (now : Z) (body : string) (status : Z) (h : Header) (ttl : Z)
    (e : cacheEntry) : cacheEntry :=
  mkEntry body status h now ttl (ce_prev e) (ce_next e) (ce_key e).

(** The loop starts with [size + 1] turns of fuel, one more than it has entries
    to evict.  [None] would be a loop that does not end. *)
Definition Put (now : Z) (key body : string) (statusCode : Z) (headers : Header) (ttl : Z)
    (c : Cache) : option (Cache * list cacheEntry) :=
  if shouldSkipCache headers then Some (c, [])
  else if (statusCode <? 200) || (300 <=? statusCode) then Some (c, [])
  else match c_entries c !! key with
       | Some existing =>
           Some (moveToHead existing (store existing (overwrite now body statusCode headers ttl) c), [])
       | None =>
           r ← evict_loop (S (size (c_entries c))) c;
           let c := r.1 in
           let l := c_fresh c in
           let e := mkEntry body statusCode headers now ttl None None key in
           let c := mkCache (<[l := e]> (c_heap c)) (Pos.succ l) (<[key := l]> (c_entries c))
                      (c_maxEntries c) (c_head c) (c_tail c) (c_hits c) (c_misses c) in
           Some (addToHead l c, r.2)
       end.

Definition Purge (c : Cache) : Cache := set_tail None (set_head None (set_entries ∅ c)).

Definition Len (c : Cache) : Z := Z.of_nat (size (c_entries c)).
Definition Stats (c : Cache) : Z * Z := (c_hits c, c_misses c).

(** [CacheKey] *)
Definition str_le_dec_sort (l : list string) : list string := merge_sort String.le l.
Definition CacheKey (method host path rawQuery : string) : string :=
  method +:+ "|" +:+ host +:+ "|" +:+ path +:+
  if bool_decide (rawQuery = "") then ""
  else "?" +:+ Join (str_le_dec_sort (Split rawQuery "&")) "&".

(** * The linked list of the LRU cache

    Segments of the doubly linked list in the heap, what unlinking and pushing
    do to them, and the representation invariant of the cache. *)


Notation Heap := (gmap loc cacheEntry).

(** ** Segments *)

Definition hd_or (ls : list loc) (x : option loc) : option loc :=
  match ls with [] => x | l :: _ => Some l end.
Definition last_or (ls : list loc) (p : option loc) : option loc :=
  match last ls with Some l => Some l | None => p end.

(** [ls] is linked in order, with predecessor [p] and successor [x]. *)
Fixpoint seg (h : Heap) (p : option loc) (ls : list loc) (x : option loc) : Prop :=
  match ls with
  | [] => True
  | l :: ls' => exists e, h !! l = Some e /\ ce_prev e = p /\ ce_next e = hd_or ls' x /\
                  seg h (Some l) ls' x
  end.

Definition links (e : cacheEntry) : option loc * option loc := (ce_prev e, ce_next e).
Definition payload (e : cacheEntry) : cacheEntry := set_links None None e.

Lemma seg_frame h h' p ls x :
  (forall l, l ∈ ls -> links <$> h' !! l = links <$> h !! l) -> seg h p ls x -> seg h' p ls x.
Proof.
  revert p. induction ls as [|l ls IH]; intros p Hf; [done|].
  intros (e & He & Hp & Hn & Hs). specialize (Hf l (list_elem_of_here _ _)) as Hl.
  rewrite He in Hl. apply fmap_Some in Hl as (e' & He' & Hlk).
  exists e'. unfold links in Hlk. simplify_eq. split_and!; try congruence.
  apply IH; [|done]. intros l' Hl'. apply Hf. by right.
Qed.

Lemma seg_app h p l1 l2 x :
  seg h p (l1 ++ l2) x <-> seg h p l1 (hd_or l2 x) /\ seg h (last_or l1 p) l2 x.
Proof.
  revert p. induction l1 as [|l l1 IH]; intros p; cbn [app seg].
  - cbn. tauto.
  - setoid_rewrite IH. assert (Hh : hd_or (l1 ++ l2) x = hd_or l1 (hd_or l2 x)) by (by destruct l1).
    assert (Hl : last_or (l :: l1) p = last_or l1 (Some l)).
    { unfold last_or. rewrite last_cons. by destruct (last l1). }
    rewrite Hh, Hl. naive_solver.
Qed.

Lemma seg_lookup h p ls x l : seg h p ls x -> l ∈ ls -> is_Some (h !! l).
Proof.
  revert p. induction ls as [|l' ls IH]; intros p; [by intros _ ?%elem_of_nil|].
  intros (e & He & _ & _ & Hs) [->|Hl]%elem_of_cons; [by eexists|by eapply IH].
Qed.

Definition alter_opt (f : cacheEntry -> cacheEntry) (o : option loc) (h : Heap) : Heap :=
  match o with Some l => alter f l h | None => h end.

Lemma alter_opt_ne f o h l : o <> Some l -> alter_opt f o h !! l = h !! l.
Proof. intros Hne. destruct o as [l'|]; [|done]. apply lookup_alter_ne. congruence. Qed.

Lemma seg_set_first h p q l ls x :
  NoDup (l :: ls) -> seg h p (l :: ls) x -> seg (alter (set_prev q) l h) q (l :: ls) x.
Proof.
  intros [Hni _]%NoDup_cons (e & He & Hp & Hn & Hs).
  exists (set_prev q e). rewrite lookup_alter_eq, He. split_and!; try done.
  eapply seg_frame; [|done]. intros l' Hl'. rewrite lookup_alter_ne; [done|].
  intros ->. done.
Qed.

Lemma seg_set_first_opt h p q ls x :
  NoDup ls -> seg h p ls x -> seg (alter_opt (set_prev q) (head ls) h) q ls x.
Proof. destruct ls; [done|]. apply seg_set_first. Qed.

Lemma seg_set_last_opt h p ls x y :
  NoDup ls -> seg h p ls x -> seg (alter_opt (set_next y) (last ls) h) p ls y.
Proof.
  destruct ls as [|l ls] using rev_ind; [done|]. clear IHls.
  rewrite last_snoc. cbn [alter_opt]. intros Hnd [H1 H2]%seg_app. apply NoDup_app in Hnd as (_ & Hni & _).
  apply seg_app. split.
  - eapply seg_frame; [|done]. intros l' Hl'. rewrite lookup_alter_ne; [done|].
    intros ->. apply (Hni l' Hl'). by apply list_elem_of_singleton.
  - destruct H2 as (e & He & Hp & _). exists (set_next y e).
    rewrite lookup_alter_eq, He. by split_and!.
Qed.

(** Joining two segments by fixing the two pointers in the middle. *)
Lemma seg_join h p l1 a b l2 x :
  NoDup (l1 ++ l2) -> seg h p l1 a -> seg h b l2 x ->
  seg (alter_opt (set_prev (last_or l1 p)) (head l2)
         (alter_opt (set_next (hd_or l2 x)) (last l1) h)) p (l1 ++ l2) x.
Proof.
  intros (Hn1 & Hdis & Hn2)%NoDup_app H1 H2. apply seg_app. split.
  - apply (seg_frame (alter_opt (set_next (hd_or l2 x)) (last l1) h)).
    + intros l Hl. rewrite alter_opt_ne; [done|]. intros Hh. apply (Hdis l Hl).
      destruct l2; [done|]. cbn in Hh. simplify_eq. by left.
    + by eapply seg_set_last_opt.
  - eapply (seg_set_first_opt _ b); [done|]. eapply seg_frame; [|done].
    intros l Hl. rewrite alter_opt_ne; [done|]. intros Hh%last_Some_elem_of.
    by apply (Hdis l).
Qed.

(** ** The list of the cache *)

Record dll (c : Cache) (ls : list loc) : Prop := {
  dll_nodup : NoDup ls;
  dll_seg : seg (c_heap c) None ls None;
  dll_head : c_head c = head ls;
  dll_tail : c_tail c = last ls
}.

(** [c'] differs from [c] only in the links of the heap and in head and tail. *)
Record relinked (c c' : Cache) : Prop := {
  rl_payload l : payload <$> c_heap c' !! l = payload <$> c_heap c !! l;
  rl_fresh : c_fresh c' = c_fresh c;
  rl_entries : c_entries c' = c_entries c;
  rl_max : c_maxEntries c' = c_maxEntries c;
  rl_hits : c_hits c' = c_hits c;
  rl_misses : c_misses c' = c_misses c
}.

Lemma relinked_trans c1 c2 c3 : relinked c1 c2 -> relinked c2 c3 -> relinked c1 c3.
Proof. intros [] []. split; intros; congruence. Qed.

Lemma payload_set_links p n e : payload (set_links p n e) = payload e.
Proof. done. Qed.

Lemma payload_alter f l h l' :
  (forall e, payload (f e) = payload e) ->
  payload <$> alter f l h !! l' = payload <$> (h : Heap) !! l'.
Proof.
  intros Hf. destruct (decide (l' = l)) as [->|Hne].
  - rewrite lookup_alter_eq. destruct (h !! l); cbn; [by rewrite Hf|done].
  - by rewrite lookup_alter_ne.
Qed.

Lemma relinked_store l f c :
  (forall e, payload (f e) = payload e) -> relinked c (store l f c).
Proof. intros Hf. split; try done. intros l'. by apply payload_alter. Qed.

Lemma relinked_head l c : relinked c (set_head l c).
Proof. by split. Qed.

Lemma relinked_tail l c : relinked c (set_tail l c).
Proof. by split. Qed.

Lemma relinked_refl c : relinked c c.
Proof. by split. Qed.

#[local] Hint Resolve relinked_store relinked_head relinked_tail relinked_refl : core.

Lemma unlinkEntry_relinked e c : relinked c (unlinkEntry e c).
Proof.
  unfold unlinkEntry. eapply relinked_trans; [|by apply relinked_store].
  eapply relinked_trans; [|destruct (next_of e _); auto].
  destruct (prev_of e c); auto.
Qed.

Lemma addToHead_relinked e c : relinked c (addToHead e c).
Proof.
  unfold addToHead. set (c1 := store e _ c).
  assert (H1 : relinked c c1) by (by apply relinked_store).
  assert (H2 : relinked c1 (store_opt (c_head c1) (set_prev (Some e)) c1)).
  { destruct (c_head c1); [by apply relinked_store|done]. }
  eapply relinked_trans; [done|]. eapply relinked_trans; [done|].
  eapply relinked_trans; [apply relinked_head|]. case_bool_decide; auto.
Qed.

Lemma dll_links c l1 e l2 :
  dll c (l1 ++ e :: l2) -> prev_of e c = last l1 /\ next_of e c = head l2 /\ e ∉ l1 /\ e ∉ l2.
Proof.
  intros [Hnd Hs _ _]. apply seg_app in Hs as [_ (n & Hn & Hp & Hx & _)].
  apply NoDup_app in Hnd as (_ & Hdis & Hnd). apply NoDup_cons in Hnd as [Hni _].
  unfold prev_of, next_of. rewrite Hn. cbn. rewrite Hp, Hx. split_and!; try done.
  - unfold last_or. by destruct (last l1).
  - intros He. apply (Hdis e He). by left.
Qed.

Lemma unlinkEntry_dll c l1 e l2 : dll c (l1 ++ e :: l2) -> dll (unlinkEntry e c) (l1 ++ l2).
Proof.
  intros Hd. pose proof (dll_links _ _ _ _ Hd) as (Hp & Hx & Hn1 & Hn2).
  destruct Hd as [Hnd Hs Hh Ht].
  assert (Hnd' : NoDup (l1 ++ l2)).
  { apply NoDup_app in Hnd as (? & Hdis & [_ ?]%NoDup_cons). apply NoDup_app. split_and!; try done.
    intros l Hl Hl2. apply (Hdis l Hl). by right. }
  apply seg_app in Hs as [Hs1 (n & Hn & Hnp & Hnx & Hs2)].
  pose proof (seg_join _ _ _ _ _ _ _ Hnd' Hs1 Hs2) as Hj.
  assert (Hh1 : hd_or l2 None = head l2) by (by destruct l2).
  assert (Hl1 : last_or l1 None = last l1) by (unfold last_or; by destruct (last l1)).
  rewrite Hh1, Hl1 in Hj. unfold unlinkEntry. rewrite Hp, Hx.
  set (c1 := match last l1 with Some p => store p (set_next (head l2)) c | None => set_head (head l2) c end).
  assert (Hheap1 : c_heap c1 = alter_opt (set_next (head l2)) (last l1) (c_heap c)).
  { unfold c1. by destruct (last l1). }
  assert (He1 : c_heap c1 !! e = c_heap c !! e).
  { rewrite Hheap1. apply alter_opt_ne. intros Hl%last_Some_elem_of. done. }
  assert (Hx1 : next_of e c1 = head l2 /\ prev_of e c1 = last l1).
  { unfold next_of, prev_of in *. by rewrite He1. }
  destruct Hx1 as [-> ->].
  assert (Hhead1 : c_head c1 = head (l1 ++ l2)).
  { unfold c1. destruct l1 as [|l l1]; [done|]. cbn [app head] in *.
    destruct (last (l :: l1)) eqn:E; [done|]. by apply last_None in E. }
  assert (Htail1 : c_tail c1 = last (l1 ++ e :: l2)) by (unfold c1; by destruct (last l1)).
  set (c2 := match head l2 with Some n0 => store n0 (set_prev (last l1)) c1 | None => set_tail (last l1) c1 end).
  assert (Hheap2 : c_heap c2 = alter_opt (set_prev (last l1)) (head l2) (c_heap c1)).
  { unfold c2. by destruct (head l2). }
  split; [done| | |].
  - cbn. eapply seg_frame; [|exact Hj]. intros l Hl. rewrite lookup_alter_ne.
    + by rewrite Hheap2, Hheap1.
    + intros ->. by apply elem_of_app in Hl as [?|?].
  - cbn. unfold c2. by destruct (head l2).
  - cbn. unfold c2. destruct l2 as [|l l2]; cbn [head].
    + cbn. by rewrite app_nil_r.
    + cbn. rewrite Htail1, !last_app. cbn. by destruct l2.
Qed.

Lemma addToHead_dll c e ls :
  dll c ls -> e ∉ ls -> is_Some (c_heap c !! e) -> dll (addToHead e c) (e :: ls).
Proof.
  intros [Hnd Hs Hh Ht] Hni [n Hn]. unfold addToHead.
  set (c1 := store e (set_links None (c_head c)) c).
  assert (Hs1 : seg (c_heap c1) None ls None).
  { eapply seg_frame; [|done]. intros l Hl. cbn. rewrite lookup_alter_ne; [done|]. by intros ->. }
  assert (Hc1 : c_head c1 = head ls) by done. rewrite Hc1.
  set (c2 := store_opt (head ls) (set_prev (Some e)) c1).
  assert (Hheap2 : c_heap c2 = alter_opt (set_prev (Some e)) (head ls) (c_heap c1)).
  { unfold c2. by destruct (head ls). }
  assert (Hs2 : seg (c_heap c2) (Some e) ls None).
  { rewrite Hheap2. by eapply seg_set_first_opt. }
  assert (He2 : c_heap c2 !! e = Some (set_links None (c_head c) n)).
  { rewrite Hheap2, alter_opt_ne.
    - cbn. by rewrite lookup_alter_eq, Hn.
    - intros Heq. destruct ls; [done|]. cbn in Heq. simplify_eq. apply Hni. by left. }
  assert (Hseg : seg (c_heap c2) None (e :: ls) None).
  { exists (set_links None (c_head c) n). split_and!; try done. }
  assert (Htail : c_tail c2 = last ls) by (unfold c2; by destruct (head ls)).
  assert (Hnd' : NoDup (e :: ls)) by (by apply NoDup_cons).
  cbn [set_head c_tail]. case_bool_decide as Hnone; split; try done; cbn.
  - rewrite Htail in Hnone. apply last_None in Hnone as ->. done.
  - rewrite Htail in *. rewrite last_cons. destruct (last ls); done.
Qed.

(** ** Representation invariant *)

Definition key_of (h : Heap) (l : loc) : option string := ce_key <$> h !! l.

Record lru (c : Cache) (ls : list loc) : Prop := {
  lru_dll : dll c ls;
  lru_keys k l : c_entries c !! k = Some l <-> l ∈ ls /\ key_of (c_heap c) l = Some k;
  lru_fresh l : is_Some (c_heap c !! l) -> (l < c_fresh c)%positive
}.

(** The entries from most to least recently used, without their links. *)
Definition abs (h : Heap) (ls : list loc) : list cacheEntry :=
  omap (fun l => payload <$> h !! l) ls.

Lemma relinked_key c c' l : relinked c c' -> key_of (c_heap c') l = key_of (c_heap c) l.
Proof.
  intros [Hp _ _ _ _ _]. specialize (Hp l). apply (f_equal (fmap ce_key)) in Hp.
  rewrite <-!option_fmap_compose in Hp. exact Hp.
Qed.

Lemma relinked_some c c' l : relinked c c' -> is_Some (c_heap c' !! l) <-> is_Some (c_heap c !! l).
Proof.
  intros [Hp _ _ _ _ _]. specialize (Hp l).
  destruct (c_heap c' !! l), (c_heap c !! l); cbn in *; try done; by split; intros [].
Qed.

Lemma relinked_abs c c' ls : relinked c c' -> abs (c_heap c') ls = abs (c_heap c) ls.
Proof.
  intros [Hp _ _ _ _ _]. unfold abs. induction ls as [|l ls IH]; [done|].
  cbn. by rewrite Hp, IH.
Qed.

Lemma lru_relinked c c' ls ls' :
  lru c ls -> relinked c c' -> dll c' ls' -> ls' ≡ₚ ls -> lru c' ls'.
Proof.
  intros [Hd Hk Hf] Hr Hd' Hp. split; [done| |].
  - intros k l. rewrite (rl_entries _ _ Hr), Hk, Hp. by rewrite (relinked_key c c').
  - intros l. rewrite (relinked_some c c') by done. rewrite (rl_fresh _ _ Hr). apply Hf.
Qed.

Lemma lru_key_inj c ls l1 l2 k :
  lru c ls -> l1 ∈ ls -> l2 ∈ ls ->
  key_of (c_heap c) l1 = Some k -> key_of (c_heap c) l2 = Some k -> l1 = l2.
Proof.
  intros [_ Hk _] H1 H2 K1 K2. assert (E1 := proj2 (Hk k l1) (conj H1 K1)).
  assert (E2 := proj2 (Hk k l2) (conj H2 K2)). congruence.
Qed.

Lemma lru_lookup c ls l : lru c ls -> l ∈ ls -> exists e, c_heap c !! l = Some e.
Proof. intros [[_ Hs _ _] _ _] Hl. by eapply seg_lookup. Qed.

Lemma lru_size c ls : lru c ls -> size (c_entries c) = length ls.
Proof.
  intros Hl. pose proof Hl as [[Hnd _ _ _] Hk _].
  assert (Hperm : (map_to_list (c_entries c)).*2 ≡ₚ ls).
  { apply NoDup_Permutation; [|done|].
    - apply NoDup_fmap_2_strong; [|apply NoDup_map_to_list].
      intros [k1 l1] [k2 l2] H1%elem_of_map_to_list H2%elem_of_map_to_list Heq.
      cbn in Heq. subst l2. apply Hk in H1 as [_ H1], H2 as [_ H2]. congruence.
    - intros l. rewrite list_elem_of_fmap. split.
      + intros ([k l'] & -> & [? _]%elem_of_map_to_list%Hk). done.
      + intros Hin. destruct (lru_lookup _ _ _ Hl Hin) as [e He].
        exists (ce_key e, l). split; [done|]. apply elem_of_map_to_list, Hk.
        unfold key_of. by rewrite He. }
  rewrite <-Hperm, length_fmap. by rewrite length_map_to_list.
Qed.

Lemma abs_app h l1 l2 : abs h (l1 ++ l2) = abs h l1 ++ abs h l2.
Proof. apply omap_app. Qed.

Lemma abs_length c ls : lru c ls -> length (abs (c_heap c) ls) = length ls.
Proof.
  intros Hl. assert (Hall : forall l, l ∈ ls -> is_Some (c_heap c !! l)).
  { intros l Hin. destruct (lru_lookup _ _ _ Hl Hin) as [e ->]. by eexists. }
  clear Hl. induction ls as [|l ls IH]; [done|]. cbn.
  destruct (Hall l (list_elem_of_here _ _)) as [e ->]. cbn. f_equal. apply IH.
  intros l' Hl'. apply Hall. by right.
Qed.

Lemma elem_of_abs h ls e : e ∈ abs h ls <-> exists l e0, l ∈ ls /\ h !! l = Some e0 /\ e = payload e0.
Proof.
  unfold abs. rewrite list_elem_of_omap. split.
  - intros (l & Hl & Ho). apply fmap_Some in Ho as (e0 & He & ->). eauto.
  - intros (l & e0 & Hl & He & ->). exists l. by rewrite He.
Qed.

(** ** Abstract LRU cache *)

Definition key_is (k : string) (e : cacheEntry) : Prop := ce_key e = k.
#[global] Instance key_is_dec k e : Decision (key_is k e).
Proof. unfold key_is. apply _. Defined.

Definition lookupL (k : string) (L : list cacheEntry) : option cacheEntry := head (filter (key_is k) L).
Definition removeL (k : string) (L : list cacheEntry) : list cacheEntry :=
  filter (fun e => ~ key_is k e) L.

Definition spec_get (now : Z) (k : string) (L : list cacheEntry)
    : option cacheEntry * list cacheEntry :=
  match lookupL k L with
  | None => (None, L)
  | Some e => if expired now e then (None, removeL k L) else (Some e, e :: removeL k L)
  end.

(** Only 2xx responses that allow storing; an existing entry is replaced and
    becomes the most recent, a new one makes room from the least recent end. *)
Definition spec_put (now : Z) (key body : string) (status : Z) (headers : Header) (ttl max : Z)
    (L : list cacheEntry) : list cacheEntry * list cacheEntry :=
  let e := mkEntry body status headers now ttl None None key in
  if shouldSkipCache headers || (status <? 200) || (300 <=? status) then (L, [])
  else match lookupL key L with
       | Some _ => (e :: removeL key L, [])
       | None => (e :: take (Z.to_nat (max - 1)) L, reverse (drop (Z.to_nat (max - 1)) L))
       end.

Lemma lookupL_None k L : lookupL k L = None <-> Forall (fun e => ~ key_is k e) L.
Proof.
  unfold lookupL. induction L as [|e L IH]; [split; [by constructor|done]|].
  rewrite filter_cons, Forall_cons. case_decide; [|tauto]. split; [done|tauto].
Qed.

Lemma removeL_app k L1 L2 : removeL k (L1 ++ L2) = removeL k L1 ++ removeL k L2.
Proof. apply filter_app. Qed.

Lemma removeL_id k L : Forall (fun e => ~ key_is k e) L -> removeL k L = L.
Proof.
  unfold removeL. induction 1 as [|e L He _ IH]; [done|]. by rewrite filter_cons_True, IH.
Qed.

(** An entry of the cache, its position in the list and in the abstraction. *)
Lemma lru_split c ls k l :
  lru c ls -> c_entries c !! k = Some l ->
  exists l1 l2 e, ls = l1 ++ l :: l2 /\ c_heap c !! l = Some e /\ ce_key e = k /\
    lookupL k (abs (c_heap c) ls) = Some (payload e) /\
    removeL k (abs (c_heap c) ls) = abs (c_heap c) (l1 ++ l2).
Proof.
  intros Hl Hent. pose proof (proj1 (lru_keys _ _ Hl k l) Hent) as [Hin Hkey].
  destruct (lru_lookup _ _ _ Hl Hin) as [e He].
  assert (Hk : ce_key e = k) by (unfold key_of in Hkey; rewrite He in Hkey; by injection Hkey).
  destruct (list_elem_of_split _ _ Hin) as (l1 & l2 & ->).
  pose proof (dll_links _ _ _ _ (lru_dll _ _ Hl)) as (_ & _ & Hn1 & Hn2).
  assert (Hother : forall ls', (forall l', l' ∈ ls' -> l' ∈ l1 ++ l :: l2 /\ l' <> l) ->
    Forall (fun e => ~ key_is k e) (abs (c_heap c) ls')).
  { intros ls' Hsub. apply Forall_forall. intros e' (l' & e0 & Hl' & He0 & ->)%elem_of_abs Hk'.
    destruct (Hsub l' Hl') as [Hin' Hne]. apply Hne.
    apply (lru_key_inj c (l1 ++ l :: l2) _ _ k Hl); try done.
    unfold key_of. rewrite He0. cbn. f_equal. exact Hk'. }
  assert (Ho1 := Hother l1 ltac:(intros l' Hl'; split; [apply elem_of_app; by left|by intros ->])).
  assert (Ho2 := Hother l2 ltac:(intros l' Hl'; split; [apply elem_of_app; right; by right|by intros ->])).
  exists l1, l2, e. rewrite !abs_app. cbn [abs omap]. unfold abs at 2 4; cbn [omap list_omap].
  rewrite He. cbn [fmap option_fmap option_map].
  change (omap (fun l0 => payload <$> c_heap c !! l0) l2) with (abs (c_heap c) l2).
  split_and!; try done.
  - unfold lookupL. rewrite filter_app.
    assert (Hf : filter (key_is k) (abs (c_heap c) l1) = []).
    { apply lookupL_None in Ho1. unfold lookupL in Ho1. by destruct (filter _ _). }
    rewrite Hf. cbn [app]. by rewrite filter_cons_True.
  - rewrite removeL_app, (removeL_id k _ Ho1). f_equal. unfold removeL at 1.
    rewrite filter_cons_False by (intros Hne; by apply Hne). by apply removeL_id.
Qed.

Lemma lru_absent c ls k :
  lru c ls -> c_entries c !! k = None -> lookupL k (abs (c_heap c) ls) = None.
Proof.
  intros Hl Hent. apply lookupL_None, Forall_forall.
  intros e (l & e0 & Hin & He & ->)%elem_of_abs Hk.
  assert (Hs : c_entries c !! k = Some l).
  { apply (lru_keys _ _ Hl). split; [done|]. unfold key_of. rewrite He. cbn. by f_equal. }
  congruence.
Qed.

(** ** Operations on the representation *)

Lemma moveToHead_lru c l1 l l2 :
  lru c (l1 ++ l :: l2) ->
  lru (moveToHead l c) (l :: l1 ++ l2) /\ relinked c (moveToHead l c).
Proof.
  intros Hl. pose proof (lru_dll _ _ Hl) as Hd. unfold moveToHead. case_bool_decide as Hh.
  - rewrite (dll_head _ _ Hd) in Hh. destruct l1 as [|l0 l1]; [by split|].
    cbn in Hh. simplify_eq. pose proof (dll_links _ _ _ _ Hd) as (_ & _ & Hn & _).
    destruct Hn. by left.
  - pose proof (dll_links _ _ _ _ Hd) as (_ & _ & Hn1 & Hn2).
    assert (Hr1 := unlinkEntry_relinked l c). pose proof (unlinkEntry_dll _ _ _ _ Hd) as Hd1.
    assert (Hr2 := addToHead_relinked l (unlinkEntry l c)).
    assert (Hd2 : dll (addToHead l (unlinkEntry l c)) (l :: l1 ++ l2)).
    { apply addToHead_dll; [done|by rewrite elem_of_app; intros [?|?]|].
      rewrite (relinked_some c) by done. apply (lru_lookup _ _ _ Hl).
      apply elem_of_app. right. by left. }
    assert (Hr : relinked c (addToHead l (unlinkEntry l c))) by (by eapply relinked_trans).
    split; [|done]. eapply lru_relinked; [done..|]. by rewrite Permutation_middle.
Qed.

Lemma removeEntry_lru c l1 l l2 :
  lru c (l1 ++ l :: l2) ->
  lru (removeEntry l c) (l1 ++ l2) /\
  (forall l', payload <$> c_heap (removeEntry l c) !! l' = payload <$> c_heap c !! l') /\
  c_maxEntries (removeEntry l c) = c_maxEntries c.
Proof.
  intros Hl. pose proof (lru_dll _ _ Hl) as Hd.
  assert (Hin : l ∈ l1 ++ l :: l2) by (apply elem_of_app; right; by left).
  destruct (lru_lookup _ _ _ Hl Hin) as [e He]. unfold removeEntry. rewrite He.
  set (c0 := set_entries (delete (ce_key e) (c_entries c)) c).
  assert (Hd0 : dll c0 (l1 ++ l :: l2)) by (by destruct Hd; split).
  pose proof (unlinkEntry_dll _ _ _ _ Hd0) as Hd1. assert (Hr := unlinkEntry_relinked l c0).
  pose proof (dll_links _ _ _ _ Hd) as (_ & _ & Hn1 & Hn2).
  split_and!; [split; [done| |]|apply Hr|apply (rl_max _ _ Hr)].
  - intros k l'. rewrite (rl_entries _ _ Hr), (relinked_key c0) by done. cbn.
    rewrite lookup_delete_Some, (lru_keys _ _ Hl), !elem_of_app, elem_of_cons. split.
    + intros (Hne & [?|[->|?]] & Hk); try tauto. unfold key_of in Hk. rewrite He in Hk.
      cbn in Hk. simplify_eq.
    + intros [Hl' Hk]. split; [|tauto]. intros <-.
      assert (l' = l) as ->; [|by destruct Hl'].
      apply (lru_key_inj c (l1 ++ l :: l2) _ _ (ce_key e) Hl); try done.
      * rewrite elem_of_app, elem_of_cons. tauto.
      * unfold key_of. by rewrite He.
  - intros l'. rewrite (relinked_some c0) by done. rewrite (rl_fresh _ _ Hr). apply (lru_fresh _ _ Hl).
Qed.

Lemma abs_payload h h' ls :
  (forall l, payload <$> h' !! l = payload <$> (h : Heap) !! l) -> abs h' ls = abs h ls.
Proof. intros Hp. unfold abs. induction ls as [|l ls IH]; [done|]. cbn. by rewrite Hp, IH. Qed.

Lemma abs_one h l : abs h [l] = option_list (payload <$> h !! l).
Proof. unfold abs. cbn. by destruct (h !! l). Qed.

(** The heaps hold the same entries up to links. *)
Definition same_payloads (c c' : Cache) : Prop :=
  forall l, payload <$> c_heap c' !! l = payload <$> c_heap c !! l.

Lemma evictTail_lru c ls l :
  lru c (ls ++ [l]) ->
  lru (evictTail c).1 ls /\ same_payloads c (evictTail c).1 /\
  payload <$> (evictTail c).2 = abs (c_heap c) [l] /\
  c_maxEntries (evictTail c).1 = c_maxEntries c.
Proof.
  intros Hl. unfold evictTail. rewrite (dll_tail _ _ (lru_dll _ _ Hl)), last_snoc. cbn [fst snd].
  destruct (removeEntry_lru _ _ _ _ Hl) as (Hl' & Hp & Hm). rewrite app_nil_r in Hl'.
  split_and!; [done..| |done].
  rewrite abs_one, <-Hp. by destruct (c_heap (removeEntry l c) !! l).
Qed.

Lemma evict_loop_lru fuel c ls :
  lru c ls -> 1 <= c_maxEntries c -> (length ls < fuel + Z.to_nat (c_maxEntries c))%nat ->
  let keep := Z.to_nat (c_maxEntries c - 1) in
  exists c' ev, evict_loop fuel c = Some (c', ev) /\
    lru c' (take keep ls) /\ same_payloads c c' /\
    payload <$> ev = reverse (abs (c_heap c) (drop keep ls)) /\
    c_maxEntries c' = c_maxEntries c.
Proof.
  revert c ls. induction fuel as [|fuel IH]; intros c ls Hl Hmax Hfuel keep; cbn [evict_loop];
    rewrite (lru_size _ _ Hl); destruct (Z.ltb_spec (Z.of_nat (length ls)) (c_maxEntries c)) as [Hlt|Hge].
  1,3: eexists c, []; unfold keep; rewrite take_ge, drop_ge by lia; done.
  - exfalso. lia.
  - destruct ls as [|l ls] using rev_ind; [cbn in Hge; lia|]. clear IHls.
    destruct (evictTail_lru _ _ _ Hl) as (Hl1 & Hp1 & He1 & Hm1).
    rewrite length_app in Hge, Hfuel. cbn in Hge, Hfuel.
    destruct (IH (evictTail c).1 ls Hl1) as (c' & ev & Hrun & Hl' & Hp & He & Hm);
      [lia|rewrite Hm1; lia|].
    rewrite Hm1 in *. fold keep in Hl', He.
    exists c', ((evictTail c).2 ++ ev). rewrite Hrun.
    rewrite take_app_le, drop_app_le by (unfold keep; lia). split_and!; try done.
    + intros l'. by rewrite Hp, Hp1.
    + rewrite fmap_app, He, He1, abs_app, reverse_app. f_equal.
      * rewrite abs_one. by destruct (c_heap c !! l).
      * f_equal. by apply abs_payload.
Qed.

(** ** The cache represents an abstract LRU list *)

Definition repr (c : Cache) (L : list cacheEntry) : Prop :=
  exists ls, lru c ls /\ L = abs (c_heap c) ls /\ 1 <= c_maxEntries c /\
    Z.of_nat (length ls) <= c_maxEntries c.

Lemma NewCache_repr n : repr (NewCache n) [].
Proof.
  exists []. split_and!; [|done| |].
  - split; [split; try done; apply NoDup_nil_2| |].
    + intros k l. cbn. rewrite lookup_empty. split; [done|]. by intros [?%elem_of_nil _].
    + intros l. cbn. rewrite lookup_empty. by intros [].
  - cbn. destruct (Z.leb_spec n 0); lia.
  - cbn. destruct (Z.leb_spec n 0); lia.
Qed.

Lemma max_miss c : c_maxEntries (miss c) = c_maxEntries c.
Proof. done. Qed.

Lemma max_hit c : c_maxEntries (hit c) = c_maxEntries c.
Proof. done. Qed.

Lemma abs_cons_some h l ls e : payload <$> h !! l = Some e -> abs h (l :: ls) = e :: abs h ls.
Proof. intros Hl. unfold abs. cbn. destruct (h !! l); [|done]. cbn in Hl. by simplify_eq. Qed.

Lemma lru_hit c ls : lru c ls -> lru (hit c) ls.
Proof. intros [[] ? ?]. by split. Qed.

Lemma lru_miss c ls : lru c ls -> lru (miss c) ls.
Proof. intros [[] ? ?]. by split. Qed.

Lemma Get_repr now k c L :
  repr c L ->
  payload <$> (Get now k c).1 = (spec_get now k L).1 /\ repr (Get now k c).2 (spec_get now k L).2.
Proof.
  intros (ls & Hl & -> & Hmax & Hlen). unfold Get, spec_get.
  destruct (c_entries c !! k) as [l|] eqn:Hent.
  - destruct (lru_split _ _ _ _ Hl Hent) as (l1 & l2 & e & -> & He & Hk & Hlook & Hrem).
    rewrite He, Hlook, Hrem. change (expired now (payload e)) with (expired now e).
    rewrite length_app in Hlen. cbn in Hlen. destruct (expired now e).
    + split; [done|]. destruct (removeEntry_lru _ _ _ _ Hl) as (Hl' & Hp & Hm).
      exists (l1 ++ l2). cbn [snd]. rewrite max_miss, Hm, length_app.
      split_and!; [by apply lru_miss| |done|lia]. symmetry. by apply abs_payload.
    + destruct (moveToHead_lru _ _ _ _ Hl) as [Hl' Hr].
      assert (Hpl : payload <$> c_heap (moveToHead l c) !! l = Some (payload e)).
      { by rewrite (rl_payload _ _ Hr), He. }
      split; [done|]. exists (l :: l1 ++ l2). cbn [snd]. rewrite max_hit, (rl_max _ _ Hr).
      split_and!; [by apply lru_hit| |done|cbn [length]; rewrite length_app; lia].
      change (c_heap (hit (moveToHead l c))) with (c_heap (moveToHead l c)).
      symmetry. rewrite (abs_cons_some _ _ _ _ Hpl). f_equal. by apply relinked_abs.
  - rewrite (lru_absent _ _ _ Hl Hent). split; [done|]. exists ls. split_and!; try done. by apply lru_miss.
Qed.

(** Overwriting the fields of a linked entry keeps the list. *)
Lemma store_overwrite_lru c ls l f :
  lru c ls -> (forall e, links (f e) = links e /\ ce_key (f e) = ce_key e) -> lru (store l f c) ls.
Proof.
  intros [[Hnd Hs Hh Ht] Hk Hf] Hfe.
  assert (Hlk : forall l', links <$> alter f l (c_heap c) !! l' = links <$> c_heap c !! l').
  { intros l'. destruct (decide (l' = l)) as [->|Hne]; [|by rewrite lookup_alter_ne].
    rewrite lookup_alter_eq. destruct (c_heap c !! l) as [e|]; [|done]. cbn. by rewrite (proj1 (Hfe e)). }
  assert (Hkk : forall l', key_of (alter f l (c_heap c)) l' = key_of (c_heap c) l').
  { intros l'. unfold key_of. destruct (decide (l' = l)) as [->|Hne]; [|by rewrite lookup_alter_ne].
    rewrite lookup_alter_eq. destruct (c_heap c !! l) as [e|]; [|done]. cbn. by rewrite (proj2 (Hfe e)). }
  split; [split; try done|..].
  - eapply seg_frame; [|done]. intros l' _. apply Hlk.
  - intros k l'. cbn. rewrite Hkk. apply Hk.
  - intros l' [e He]. apply Hf. cbn in He. destruct (decide (l' = l)) as [->|Hne].
    + rewrite lookup_alter_eq in He. apply fmap_Some in He as (e0 & -> & _). by eexists.
    + rewrite lookup_alter_ne in He by done. by eexists.
Qed.

Lemma abs_other h h' ls :
  (forall l, l ∈ ls -> h' !! l = (h : Heap) !! l) -> abs h' ls = abs h ls.
Proof.
  intros Heq. unfold abs. induction ls as [|l ls IH]; [done|]. cbn.
  rewrite Heq by (by left). rewrite IH; [done|]. intros l' Hl'. apply Heq. by right.
Qed.

(** Allocating a new entry and pushing it. *)
Definition alloc (key : string) (e : cacheEntry) (c : Cache) : Cache :=
  mkCache (<[c_fresh c := e]> (c_heap c)) (Pos.succ (c_fresh c)) (<[key := c_fresh c]> (c_entries c))
    (c_maxEntries c) (c_head c) (c_tail c) (c_hits c) (c_misses c).

Lemma push_new_lru c ls key e :
  lru c ls -> c_entries c !! key = None -> ce_key e = key ->
  lru (addToHead (c_fresh c) (alloc key e c)) (c_fresh c :: ls) /\
  abs (c_heap (addToHead (c_fresh c) (alloc key e c))) (c_fresh c :: ls) =
    payload e :: abs (c_heap c) ls /\
  c_maxEntries (addToHead (c_fresh c) (alloc key e c)) = c_maxEntries c.
Proof.
  intros Hl Hnone Hkey. pose proof Hl as [[Hnd Hs Hh Ht] Hk Hf]. set (l := c_fresh c).
  assert (Hnh : c_heap c !! l = None).
  { destruct (c_heap c !! l) eqn:E; [|done]. specialize (Hf l ltac:(by eexists)). unfold l in Hf. lia. }
  assert (Hne : forall l', l' ∈ ls -> l' <> l).
  { intros l' Hin ->. destruct (lru_lookup _ _ _ Hl Hin) as [e' He']. congruence. }
  assert (Hold : forall l', l' ∈ ls -> <[l := e]> (c_heap c) !! l' = c_heap c !! l').
  { intros l' Hin. rewrite lookup_insert_ne; [done|]. by apply not_eq_sym, Hne. }
  assert (Hd0 : dll (alloc key e c) ls).
  { split; try done. eapply seg_frame; [|done]. intros l' Hin. cbn. by rewrite Hold. }
  assert (Hd : dll (addToHead l (alloc key e c)) (l :: ls)).
  { apply addToHead_dll; [done|by intros Hin%Hne|]. cbn. rewrite lookup_insert_eq. by eexists. }
  assert (Hr := addToHead_relinked l (alloc key e c)).
  split_and!.
  - split; [done|..].
    + intros k l'. rewrite (rl_entries _ _ Hr), (relinked_key (alloc key e c)) by done. cbn.
      unfold key_of. rewrite elem_of_cons. destruct (decide (k = key)) as [->|Hkne].
      * rewrite lookup_insert_eq. split.
        -- intros [= <-]. split; [by left|]. fold l. rewrite lookup_insert_eq. cbn. by f_equal.
        -- intros [[->|Hin] Hkl]; [done|]. rewrite Hold in Hkl by done.
           assert (c_entries c !! key = Some l') by (by apply Hk). congruence.
      * rewrite lookup_insert_ne, Hk by done. fold l. unfold key_of. split.
        -- intros [Hin Hkl]. rewrite Hold by done. auto.
        -- intros [[->|Hin] Hkl]; [|by rewrite Hold in Hkl].
           rewrite lookup_insert_eq in Hkl. cbn in Hkl. congruence.
    + intros l'. rewrite (relinked_some (alloc key e c)), (rl_fresh _ _ Hr) by done. cbn. fold l.
      destruct (decide (l' = l)) as [->|Hln]; [intros _; lia|].
      rewrite lookup_insert_ne by done. intros Hs'%Hf. unfold l. lia.
  - rewrite (relinked_abs (alloc key e c)) by done.
    rewrite (abs_cons_some _ _ _ (payload e)) by (cbn; fold l; by rewrite lookup_insert_eq).
    f_equal. by apply abs_other.
  - by rewrite (rl_max _ _ Hr).
Qed.

Lemma abs_take_drop h n xs :
  (forall l, l ∈ xs -> is_Some ((h : Heap) !! l)) ->
  take n (abs h xs) = abs h (take n xs) /\ drop n (abs h xs) = abs h (drop n xs).
Proof.
  revert n. induction xs as [|x xs IH]; intros n Hx; [by destruct n|].
  destruct (Hx x ltac:(by left)) as [e He].
  assert (Hp : payload <$> h !! x = Some (payload e)) by (by rewrite He).
  rewrite (abs_cons_some _ _ _ _ Hp). destruct n as [|n].
  - cbn [take drop]. by rewrite (abs_cons_some _ _ _ _ Hp).
  - cbn [take drop]. rewrite (abs_cons_some _ _ _ _ Hp).
    destruct (IH n) as [-> ->]; [|done]. intros l Hin. apply Hx. by right.
Qed.

Lemma Put_repr now key body status headers ttl c L :
  repr c L ->
  exists c' ev, Put now key body status headers ttl c = Some (c', ev) /\
    repr c' (spec_put now key body status headers ttl (c_maxEntries c) L).1 /\
    payload <$> ev = (spec_put now key body status headers ttl (c_maxEntries c) L).2 /\
    c_maxEntries c' = c_maxEntries c.
Proof.
  intros Hrepr. pose proof Hrepr as (ls & Hl & -> & Hmax & Hlen). unfold Put, spec_put.
  destruct (shouldSkipCache headers); [by eexists _, _|]. cbn [orb].
  destruct ((status <? 200) || (300 <=? status)); [by eexists _, _|].
  destruct (c_entries c !! key) as [l|] eqn:Hent.
  - destruct (lru_split _ _ _ _ Hl Hent) as (l1 & l2 & e & -> & He & Hk & Hlook & Hrem).
    rewrite Hlook, Hrem. eexists _, []. split; [done|].
    pose proof (dll_links _ _ _ _ (lru_dll _ _ Hl)) as (_ & _ & Hn1 & Hn2).
    set (f := overwrite now body status headers ttl).
    assert (Hl1 : lru (store l f c) (l1 ++ l :: l2)) by (by apply store_overwrite_lru).
    destruct (moveToHead_lru _ _ _ _ Hl1) as [Hl2 Hr].
    split_and!; [|done|by rewrite (rl_max _ _ Hr)].
    exists (l :: l1 ++ l2). rewrite (rl_max _ _ Hr). rewrite length_app in Hlen. cbn in Hlen.
    split_and!; [done| |done|cbn; rewrite length_app; lia].
    rewrite (relinked_abs _ _ _ Hr).
    rewrite (abs_cons_some _ _ _ (payload (f e))) by (cbn; by rewrite lookup_alter_eq, He).
    cbn [fst]. f_equal.
    + unfold payload, set_links, f, overwrite. cbn. by rewrite Hk.
    + symmetry. apply abs_other. intros l' Hin. cbn. rewrite lookup_alter_ne; [done|].
      intros ->. by apply elem_of_app in Hin as [?|?].
  - rewrite (lru_absent _ _ _ Hl Hent).
    destruct (evict_loop_lru (S (size (c_entries c))) c ls Hl Hmax) as (c' & ev & Hrun & Hl' & Hp & Hev & Hm).
    { rewrite (lru_size _ _ Hl). lia. }
    set (keep := Z.to_nat (c_maxEntries c - 1)) in *.
    assert (Hent' : c_entries c' !! key = None).
    { destruct (c_entries c' !! key) as [l|] eqn:E; [|done].
      apply (lru_keys _ _ Hl') in E as [Hin Hkl]. apply elem_of_take in Hin as (i & Hi & _).
      assert (c_entries c !! key = Some l); [|congruence].
      apply (lru_keys _ _ Hl). split; [by eapply list_elem_of_lookup_2|].
      specialize (Hp l). apply (f_equal (fmap ce_key)) in Hp. rewrite <-!option_fmap_compose in Hp.
      unfold key_of in *. rewrite <-Hkl. symmetry. exact Hp. }
    set (e := mkEntry body status headers now ttl None None key).
    destruct (push_new_lru c' _ key e Hl' Hent' eq_refl) as (Hl2 & Habs & Hm2).
    exists (addToHead (c_fresh c') (alloc key e c')), ev. rewrite Hrun.
    assert (Hlive : forall l, l ∈ ls -> is_Some (c_heap c !! l)) by (intros l; apply (lru_lookup _ _ _ Hl)).
    split_and!; [done| |cbn [snd]; by rewrite (proj2 (abs_take_drop _ _ _ Hlive))|congruence].
    eexists. rewrite Hm2, Hm. split; [exact Hl2|]. split_and!; [|done|].
    + rewrite Habs. cbn [fst]. change (payload e) with e. f_equal.
      rewrite (abs_payload _ _ _ Hp). apply (proj1 (abs_take_drop _ _ _ Hlive)).
    + cbn [length]. rewrite length_take. lia.
Qed.
