(* ===== verification/DiskCache.v ===== *)
(** * Disk and hybrid caches (internal/cdnserver/diskcache.go)

    The file tree is a map from hash and extension to contents; a [.meta] file
    holds the metadata that [json.Marshal] wrote, any other contents do not
    unmarshal.  [hashKey] (hex SHA-256) is a parameter.  Which file operations
    of a [Put] fail is an argument; a failed write leaves the file as it was. *)

From Stdlib Require Import ZArith Lia Ascii String.
From S2P Require Import Prelude GoStrings Cache.

Open Scope Z_scope.

Record diskCacheMetadata := mkMeta {
  dm_Key : string; dm_StatusCode : Z; dm_Headers : Header; dm_StoredAt : Z; dm_TTL : Z;
  dm_BodySize : Z
}.

Record diskIndexEntry := mkIndexEntry { di_hash : string; di_storedAt : Z; di_size : Z }.

Inductive ext := Body | Meta.
#[export] Instance ext_eq_dec : EqDecision ext.
Proof. solve_decision. Defined.
#[export] Instance ext_countable : Countable ext.
Proof.
  refine (inj_countable' (fun x => match x with Body => true | Meta => false end)
            (fun b : bool => if b then Body else Meta) _). by intros [].
Defined.

Inductive file := FBytes (b : string) | FMeta (m : diskCacheMetadata).

Record DiskCache := mkDisk {
  d_fs : gmap (string * ext) file;
  d_maxBytes : Z;
  d_usedBytes : Z;
  d_index : gmap string diskIndexEntry;
  d_hits : Z;
  d_misses : Z
}.

Definition d_hit (d : DiskCache) : DiskCache :=
  mkDisk (d_fs d) (d_maxBytes d) (d_usedBytes d) (d_index d) ((d_hits d + 1) mod 2 ^ 64) (d_misses d).
Definition d_miss (d : DiskCache) : DiskCache :=
  mkDisk (d_fs d) (d_maxBytes d) (d_usedBytes d) (d_index d) (d_hits d) ((d_misses d + 1) mod 2 ^ 64).

Definition removeFilesLocked (hash : string) (fs : gmap (string * ext) file)
    : gmap (string * ext) file := delete (hash, Meta) (delete (hash, Body) fs).

Definition removeEntryLocked (key : string) (ie : diskIndexEntry) (d : DiskCache) : DiskCache :=
  mkDisk (removeFilesLocked (di_hash ie) (d_fs d)) (d_maxBytes d) (d_usedBytes d - di_size ie)
    (delete key (d_index d)) (d_hits d) (d_misses d).

(** [json.Unmarshal] of a metadata file *)
Definition read_meta (f : option file) : option diskCacheMetadata :=
  match f with Some (FMeta m) => Some m | _ => None end.
Definition read_body (f : option file) : option string :=
  match f with Some (FBytes b) => Some b | _ => None end.

Definition disk_Get (now : Z) (key : string) (d : DiskCache) : option cacheEntry * DiskCache :=
  match d_index d !! key with
  | None => (None, d_miss d)
  | Some ie =>
      match read_meta (d_fs d !! (di_hash ie, Meta)) with
      | None => (None, d_miss (removeEntryLocked key ie d))
      | Some meta =>
          if (0 <? dm_TTL meta) && (dm_TTL meta <? now - dm_StoredAt meta) then
            (None, d_miss (removeEntryLocked key ie d))
          else
            match read_body (d_fs d !! (di_hash ie, Body)) with
            | None => (None, d_miss (removeEntryLocked key ie d))
            | Some body =>
                (Some (mkEntry body (dm_StatusCode meta) (dm_Headers meta) (dm_StoredAt meta)
                         (dm_TTL meta) None None key), d_hit d)
            end
      end
  end.

(** The scan of [evictOldestLocked]: the empty key marks "none yet". *)
Definition oldest_step (acc : string * Z) (kv : string * diskIndexEntry) : string * Z :=
  if bool_decide (acc.1 = "") || (di_storedAt kv.2 <? acc.2) then (kv.1, di_storedAt kv.2) else acc.
Definition oldest_key (idx : gmap string diskIndexEntry) : string :=
  (foldl oldest_step ("", 0) (map_to_list idx)).1.

Definition evictOldestLocked (d : DiskCache) : DiskCache :=
  let k := oldest_key (d_index d) in
  if bool_decide (k = "") then d
  else match d_index d !! k with
       | Some ie => removeEntryLocked k ie d
       | None => d
       end.

(** [for d.usedBytes+bodySize > d.maxBytes && len(d.index) > 0]; [None] when the
    fuel runs out. *)
Fixpoint disk_evict_loop (fuel : nat) (bodySize : Z) (d : DiskCache) : option DiskCache :=
  if (d_maxBytes d <? d_usedBytes d + bodySize) && negb (bool_decide (d_index d = ∅)) then
    match fuel with
    | O => None
    | S fuel => disk_evict_loop fuel bodySize (evictOldestLocked d)
    end
  else Some d.

(** Outcome of the file operations of one [Put]. *)
Record diskIO := mkDiskIO { io_mkdir : bool; io_body : bool; io_meta : bool }.
Definition io_ok : diskIO := mkDiskIO true true true.

Section hash.
Variable hashKey : string -> string.

Definition disk_Put (io : diskIO) (now : Z) (key body : string) (statusCode : Z)
    (headers : Header) (ttl : Z) (d : DiskCache) : option DiskCache :=
  if shouldSkipCache headers then Some d
  else if (statusCode <? 200) || (300 <=? statusCode) then Some d
  else
    let d := match d_index d !! key with
             | Some ie => removeEntryLocked key ie d
             | None => d
             end in
    let bodySize := Z.of_nat (String.length body) in
    d ← disk_evict_loop (size (d_index d)) bodySize d;
    let hash := hashKey key in
    let meta := mkMeta key statusCode headers now ttl bodySize in
    if negb (io_mkdir io) then Some d
    else if negb (io_body io) then Some d
    else if negb (io_meta io) then
      Some (mkDisk (delete (hash, Body) (d_fs d)) (d_maxBytes d) (d_usedBytes d) (d_index d)
              (d_hits d) (d_misses d))
    else
      Some (mkDisk (<[(hash, Meta) := FMeta meta]> (<[(hash, Body) := FBytes body]> (d_fs d)))
              (d_maxBytes d) (d_usedBytes d + bodySize)
              (<[key := mkIndexEntry hash now bodySize]> (d_index d)) (d_hits d) (d_misses d)).

(** Every indexed entry's files are removed and the index emptied. *)
Definition disk_Purge (d : DiskCache) : DiskCache :=
  mkDisk (foldr removeFilesLocked (d_fs d) (di_hash <$> (map_to_list (d_index d)).*2))
    (d_maxBytes d) 0 ∅ (d_hits d) (d_misses d).

Definition disk_Len (d : DiskCache) : Z := Z.of_nat (size (d_index d)).

(** One readable metadata file found by [rebuildIndex]. *)
Definition rebuild_step (d : DiskCache) (f : (string * ext) * file) : DiskCache :=
  match f with
  | ((hash, Meta), FMeta meta) =>
      mkDisk (d_fs d) (d_maxBytes d) (d_usedBytes d + dm_BodySize meta)
        (<[dm_Key meta := mkIndexEntry hash (dm_StoredAt meta) (dm_BodySize meta)]> (d_index d))
        (d_hits d) (d_misses d)
  | _ => d
  end.

Definition rebuildIndex (d : DiskCache) : DiskCache := foldl rebuild_step d (map_to_list (d_fs d)).

(** [NewDiskCache] over an existing directory. *)
Definition NewDiskCache (fs : gmap (string * ext) file) (maxBytes : Z) : DiskCache :=
  rebuildIndex (mkDisk fs maxBytes 0 ∅ 0 0).

(** ** Hybrid cache *)

Record HybridCache := mkHybrid { hc_memory : Cache; hc_disk : DiskCache; hc_hits : Z; hc_misses : Z }.

Definition NewHybridCache (memEntries : Z) (fs : gmap (string * ext) file) (diskMaxBytes : Z)
    : HybridCache := mkHybrid (NewCache memEntries) (NewDiskCache fs diskMaxBytes) 0 0.

(** [OnEvict]: spill each evicted entry to disk. *)
Fixpoint spill (io : diskIO) (now : Z) (evicted : list cacheEntry) (d : DiskCache) : option DiskCache :=
  match evicted with
  | [] => Some d
  | e :: evicted =>
      d ← disk_Put io now (ce_key e) (ce_body e) (ce_statusCode e) (ce_headers e) (ce_ttl e) d;
      spill io now evicted d
  end.

Definition hybrid_Put (io : diskIO) (now : Z) (key body : string) (statusCode : Z)
    (headers : Header) (ttl : Z) (h : HybridCache) : option HybridCache :=
  r ← Put now key body statusCode headers ttl (hc_memory h);
  d ← spill io now r.2 (hc_disk h);
  Some (mkHybrid r.1 d (hc_hits h) (hc_misses h)).

Definition hybrid_Get (io : diskIO) (now : Z) (key : string) (h : HybridCache)
    : option (option cacheEntry * HybridCache) :=
  let r := Get now key (hc_memory h) in
  match r.1 with
  | Some entry => Some (Some entry, mkHybrid r.2 (hc_disk h) ((hc_hits h + 1) mod 2 ^ 64) (hc_misses h))
  | None =>
      let rd := disk_Get now key (hc_disk h) in
      match rd.1 with
      | Some entry =>
          rm ← Put now key (ce_body entry) (ce_statusCode entry) (ce_headers entry) (ce_ttl entry) r.2;
          d ← spill io now rm.2 rd.2;
          let d := match d_index d !! key with
                   | Some ie => removeEntryLocked key ie d
                   | None => d
                   end in
          Some (Some entry, mkHybrid rm.1 d ((hc_hits h + 1) mod 2 ^ 64) (hc_misses h))
      | None => Some (None, mkHybrid r.2 rd.2 (hc_hits h) ((hc_misses h + 1) mod 2 ^ 64))
      end
  end.

Definition hybrid_Purge (h : HybridCache) : HybridCache :=
  mkHybrid (Purge (hc_memory h)) (disk_Purge (hc_disk h)) (hc_hits h) (hc_misses h).

Definition hybrid_Len (h : HybridCache) : Z := Len (hc_memory h) + disk_Len (hc_disk h).
End hash.
