(* ===== verification/CacheTheorems.v ===== *)
(** * Response caches: theorems *)

From Stdlib Require Import ZArith Lia Ascii String.
From S2P Require Import Prelude GoStrings Cache DiskCache.

Open Scope Z_scope.

(** ** The memory cache refines an LRU list *)

Inductive cache_op :=
| OpGet (now : Z) (key : string)
| OpPut (now : Z) (key body : string) (status : Z) (headers : Header) (ttl : Z)
| OpPurge.

Inductive cache_out :=
| OutGet (e : option cacheEntry)
| OutPut (evicted : list cacheEntry)
| OutPurge.

(** One call on the pointer structure; links are not part of an output. *)
Definition cache_step (op : cache_op) (c : Cache) : option (cache_out * Cache) :=
  match op with
  | OpGet now k => let r := Get now k c in Some (OutGet (payload <$> r.1), r.2)
  | OpPut now k b st h ttl =>
      r ← Put now k b st h ttl c; Some (OutPut (payload <$> r.2), r.1)
  | OpPurge => Some (OutPurge, Purge c)
  end.

(** The same call on the list of entries, most recent first. *)
Definition lru_step (max : Z) (op : cache_op) (L : list cacheEntry) : cache_out * list cacheEntry :=
  match op with
  | OpGet now k => let r := spec_get now k L in (OutGet r.1, r.2)
  | OpPut now k b st h ttl => let r := spec_put now k b st h ttl max L in (OutPut r.2, r.1)
  | OpPurge => (OutPurge, [])
  end.

Fixpoint run_cache (ops : list cache_op) (c : Cache) : option (list cache_out * Cache) :=
  match ops with
  | [] => Some ([], c)
  | op :: ops => r ← cache_step op c; r' ← run_cache ops r.2; Some (r.1 :: r'.1, r'.2)
  end.

Fixpoint run_lru (max : Z) (ops : list cache_op) (L : list cacheEntry)
    : list cache_out * list cacheEntry :=
  match ops with
  | [] => ([], L)
  | op :: ops => let r := lru_step max op L in let r' := run_lru max ops r.2 in (r.1 :: r'.1, r'.2)
  end.

Lemma Purge_repr c L : repr c L -> repr (Purge c) [].
Proof.
  intros (ls & Hl & _ & Hmax & _). exists []. split_and!; [|done|done|cbn; lia].
  pose proof Hl as [_ _ Hf]. split; [split; try done; apply NoDup_nil_2| |done].
  intros k l. cbn. rewrite lookup_empty. split; [done|]. by intros [?%elem_of_nil _].
Qed.

Lemma Get_max now k c : c_maxEntries (Get now k c).2 = c_maxEntries c.
Proof.
  unfold Get. destruct (c_entries c !! k) as [l|]; [|done].
  destruct (c_heap c !! l) as [e|]; [|done]. destruct (expired now e); cbn [snd].
  - rewrite max_miss. unfold removeEntry. by rewrite (rl_max _ _ (unlinkEntry_relinked l _)).
  - rewrite max_hit. unfold moveToHead. case_bool_decide; [done|].
    by rewrite (rl_max _ _ (addToHead_relinked l _)), (rl_max _ _ (unlinkEntry_relinked l _)).
Qed.

(** Every call of the pointer structure is the call of the list. *)
Lemma cache_step_repr op c L :
  repr c L -> exists c', cache_step op c = Some ((lru_step (c_maxEntries c) op L).1, c') /\
    repr c' (lru_step (c_maxEntries c) op L).2 /\ c_maxEntries c' = c_maxEntries c.
Proof.
  intros Hr. destruct op as [now k|now k b st h ttl|]; cbn [cache_step lru_step].
  - destruct (Get_repr now k c L Hr) as [H1 H2]. exists (Get now k c).2. cbn [fst snd].
    rewrite <-H1. split_and!; [done|done|apply Get_max].
  - destruct (Put_repr now k b st h ttl c L Hr) as (c' & ev & Hput & Hr' & Hev & Hm).
    exists c'. rewrite Hput. cbn. by rewrite Hev.
  - exists (Purge c). split_and!; try done. by eapply Purge_repr.
Qed.

Lemma run_cache_repr ops c L :
  repr c L -> exists c', run_cache ops c = Some ((run_lru (c_maxEntries c) ops L).1, c') /\
    repr c' (run_lru (c_maxEntries c) ops L).2 /\ c_maxEntries c' = c_maxEntries c.
Proof.
  revert c L. induction ops as [|op ops IH]; intros c L Hr; cbn [run_cache run_lru]; [by exists c|].
  destruct (cache_step_repr op c L Hr) as (c1 & Hst & Hr1 & Hm1).
  destruct (IH c1 _ Hr1) as (c2 & Hrun & Hr2 & Hm2). rewrite Hm1 in Hrun, Hr2.
  exists c2. cbn [fst snd]. rewrite Hst. cbn. rewrite Hrun. split_and!; [done|done|congruence].
Qed.

Lemma NoDup_omap_inj {A B} (f : A -> option B) (l : list A) :
  (forall x y z, x ∈ l -> y ∈ l -> f x = Some z -> f y = Some z -> x = y) ->
  NoDup l -> NoDup (omap f l).
Proof.
  intros Hinj Hnd. induction Hnd as [|x l Hx Hnd IH]; [constructor|]. cbn.
  assert (IH' : NoDup (omap f l)).
  { apply IH. intros a b z Ha Hb. apply Hinj; by right. }
  destruct (f x) as [z|] eqn:Hz; [|done]. constructor; [|done].
  intros (y & Hy & Hfy)%list_elem_of_omap. apply Hx.
  by rewrite (Hinj x y z (list_elem_of_here _ _) (list_elem_of_further _ _ _ Hy) Hz Hfy).
Qed.

Lemma abs_keys_nodup c ls : lru c ls -> NoDup (ce_key <$> abs (c_heap c) ls).
Proof.
  intros Hl. assert (Heq : ce_key <$> abs (c_heap c) ls = omap (key_of (c_heap c)) ls).
  { unfold abs, key_of. induction ls as [|l ls' IH] in |-*; [done|]. cbn.
    destruct (c_heap c !! l); cbn; by rewrite IH. }
  rewrite Heq. apply NoDup_omap_inj; [|apply (dll_nodup _ _ (lru_dll _ _ Hl))].
  intros x y k Hx Hy. by apply (lru_key_inj c ls x y k).
Qed.

(** C6: the cache of map and doubly linked list behaves, on every sequence of
    calls, exactly as a bounded list ordered by recency: same lookups, same
    evictions in the same order; in particular no call runs forever. *)
Theorem cache_refines_lru (n : Z) (ops : list cache_op) :
  exists c', run_cache ops (NewCache n) =
    Some ((run_lru (c_maxEntries (NewCache n)) ops []).1, c') /\
  repr c' (run_lru (c_maxEntries (NewCache n)) ops []).2.
Proof.
  destruct (run_cache_repr ops _ _ (NewCache_repr n)) as (c' & H1 & H2 & _). eauto.
Qed.

(** At every point of every run the cache holds at most [maxEntries] entries
    with pairwise different keys, and its map and its list agree in size. *)
Theorem cache_bounded (n : Z) (ops : list cache_op) outs c :
  run_cache ops (NewCache n) = Some (outs, c) ->
  Len c <= (if n <=? 0 then 10000 else n) /\
  exists L, repr c L /\ Len c = Z.of_nat (length L) /\ NoDup (ce_key <$> L).
Proof.
  intros Hrun. destruct (run_cache_repr ops _ _ (NewCache_repr n)) as (c' & H1 & HL & Hm).
  rewrite H1 in Hrun. simplify_eq. pose proof HL as (ls & Hl & HLeq & _ & Hlen).
  unfold Len. rewrite (lru_size _ _ Hl). split; [cbn in Hm; lia|]. eexists. split; [exact HL|].
  rewrite HLeq, (abs_length _ _ Hl). split; [done|]. by apply abs_keys_nodup.
Qed.

Lemma cache_bounded_witness :
  match run_cache [OpPut 0 "a" "x" 200 ∅ 0; OpPut 1 "b" "y" 200 ∅ 0] (NewCache 1) with
  | Some (outs, c) => Len c <= 1
  | None => False
  end.
Proof.
  destruct (run_cache _ _) as [[outs c]|] eqn:E.
  - exact (proj1 (cache_bounded 1 _ outs c E)).
  - vm_compute in E. discriminate E.
Defined.

Lemma lookupL_head k e L : ce_key e = k -> lookupL k (e :: L) = Some e.
Proof. intros He. unfold lookupL. by rewrite filter_cons_True. Qed.

(** After any run, storing a cacheable response and reading its key back
    returns exactly that response until its time to live has passed, and nothing
    after that. *)
Theorem cache_put_get (n : Z) (ops : list cache_op) outs c now now' k body status h ttl :
  run_cache ops (NewCache n) = Some (outs, c) ->
  shouldSkipCache h = false -> 200 <= status < 300 ->
  exists c' ev, Put now k body status h ttl c = Some (c', ev) /\
    payload <$> (Get now' k c').1 =
      if (0 <? ttl) && (ttl <? now' - now) then None
      else Some (mkEntry body status h now ttl None None k).
Proof.
  intros Hrun Hskip Hst. destruct (run_cache_repr ops _ _ (NewCache_repr n)) as (c0 & H1 & HL & Hm).
  rewrite H1 in Hrun. simplify_eq.
  destruct (Put_repr now k body status h ttl _ _ HL) as (c' & ev & Hput & Hr & _ & _).
  exists c', ev. split; [done|]. destruct (Get_repr now' k _ _ Hr) as [-> _].
  set (e := mkEntry body status h now ttl None None k).
  assert (Hlk : lookupL k (spec_put now k body status h ttl (c_maxEntries c)
                  (run_lru (c_maxEntries (NewCache n)) ops []).2).1 = Some e).
  { unfold spec_put. rewrite Hskip. rewrite (proj2 (Z.ltb_ge _ _)) by lia.
    rewrite (proj2 (Z.leb_gt _ _)) by lia. cbn [orb].
    destruct (lookupL k (run_lru _ _ _).2); by apply lookupL_head. }
  unfold spec_get. rewrite Hlk. unfold expired. cbn [ce_ttl ce_storedAt e].
  destruct (Z.leb_spec ttl 0), (Z.ltb_spec 0 ttl); try lia; [done|]. cbn [andb].
  by destruct (ttl <? now' - now).
Qed.

Lemma cache_put_get_witness :
  exists c' ev, Put 5 "k" "hello" 200 ∅ 10 (NewCache 3) = Some (c', ev) /\
    payload <$> (Get 15 "k" c').1 = Some (mkEntry "hello" 200 ∅ 5 10 None None "k").
Proof.
  apply (cache_put_get 3 [] [] (NewCache 3) 5 15 "k" "hello" 200 ∅ 10); [reflexivity|reflexivity|lia].
Defined.

(** ** Cache keys *)

Lemma sort_unique l1 l2 : str_le_dec_sort l1 = str_le_dec_sort l2 <-> l1 ≡ₚ l2.
Proof.
  unfold str_le_dec_sort. split; intros H.
  - by rewrite <-(merge_sort_Permutation String.le l1), H, merge_sort_Permutation.
  - apply (StronglySorted_unique String.le); try apply (StronglySorted_merge_sort _).
    by rewrite !merge_sort_Permutation.
Qed.

Lemma sort_Split_ok q : Split q "&" <> [] -> str_le_dec_sort (Split q "&") <> [] /\
  Forall (fun f => ContainsByte f "&" = false) (str_le_dec_sort (Split q "&")).
Proof.
  unfold str_le_dec_sort. intros Hne. split.
  - intros Hs. apply Hne. apply Permutation_nil_r. by rewrite <-Hs, merge_sort_Permutation.
  - rewrite merge_sort_Permutation. apply Split_no_sep.
Qed.

Lemma Split_ne_nil s sep : Split s sep <> [].
Proof. destruct s as [|c s]; cbn; [done|]. case_bool_decide; [done|]. by destruct (Split s sep). Qed.

Lemma query_key_inj q q' :
  Join (str_le_dec_sort (Split q "&")) "&" = Join (str_le_dec_sort (Split q' "&")) "&" ->
  Split q "&" ≡ₚ Split q' "&".
Proof.
  intros H. apply sort_unique.
  destruct (sort_Split_ok q (Split_ne_nil _ _)) as [H1 H2].
  destruct (sort_Split_ok q' (Split_ne_nil _ _)) as [H3 H4].
  by rewrite <-(Split_Join _ "&" H1 H2), H, Split_Join.
Qed.

Lemma Split_perm_empty q : Split "" "&" ≡ₚ Split q "&" -> q = "".
Proof.
  intros H. cbn in H. apply Permutation_singleton_l in H.
  by rewrite <-(Join_Split q "&"), <-H.
Qed.

(** Everything after the path. *)
Definition query_suffix (q : string) : string :=
  if bool_decide (q = "") then "" else "?" +:+ Join (str_le_dec_sort (Split q "&")) "&".

Lemma path_query_inj p p' q q' :
  ContainsByte p "?" = false -> ContainsByte p' "?" = false ->
  p +:+ query_suffix q = p' +:+ query_suffix q' -> p = p' /\ Split q "&" ≡ₚ Split q' "&".
Proof.
  intros Hp Hp'. unfold query_suffix. repeat case_bool_decide; subst.
  - rewrite !append_nil_r. by intros ->.
  - rewrite append_nil_r. intros ->. by rewrite ContainsByte_append, orb_true_r in Hp.
  - rewrite append_nil_r. intros <-. by rewrite ContainsByte_append, orb_true_r in Hp'.
  - intros H'. apply cut_inj in H' as [-> H']; [|done..]. split; [done|by apply query_key_inj].
Qed.

(** Two requests share a cache key exactly when they have the same method,
    host and path and the same query parameters in any order, provided that
    method and host have no bar and the path no question mark. *)
Theorem CacheKey_spec m h p q m' h' p' q' :
  ContainsByte m "|" = false -> ContainsByte h "|" = false -> ContainsByte p "?" = false ->
  ContainsByte m' "|" = false -> ContainsByte h' "|" = false -> ContainsByte p' "?" = false ->
  CacheKey m h p q = CacheKey m' h' p' q' <->
  m = m' /\ h = h' /\ p = p' /\ Split q "&" ≡ₚ Split q' "&".
Proof.
  intros Hm Hh Hp Hm' Hh' Hp'. unfold CacheKey. fold (query_suffix q) (query_suffix q'). split.
  - intros [-> H]%cut_inj; [|done..]. apply cut_inj in H as [-> H]; [|done..].
    apply path_query_inj in H as [-> H]; done.
  - intros (-> & -> & -> & H). do 3 f_equal. unfold query_suffix.
    destruct (decide (q = "")) as [->|Hq], (decide (q' = "")) as [->|Hq'].
    + done.
    + by apply Split_perm_empty in H.
    + symmetry in H. by apply Split_perm_empty in H.
    + rewrite !bool_decide_false by done. by rewrite (proj2 (sort_unique _ _) H).
Qed.

Lemma CacheKey_spec_witness :
  CacheKey "GET" "a.com" "/x" "b=2&a=1" = CacheKey "GET" "a.com" "/x" "a=1&b=2".
Proof.
  apply (CacheKey_spec "GET" "a.com" "/x" "b=2&a=1" "GET" "a.com" "/x" "a=1&b=2"); try reflexivity.
  split_and!; [reflexivity..|]. cbn. apply perm_swap.
Defined.

(** The keys are built from the decoded path, so a path that contains an
    encoded question mark shares its cache entry with the path and query it
    spells, for every single-parameter query. *)
Theorem CacheKey_encoded_question_mark m h p q :
  q <> "" -> ContainsByte q "&" = false -> CacheKey m h (p +:+ "?" +:+ q) "" = CacheKey m h p q.
Proof.
  intros Hq Hamp. unfold CacheKey. rewrite (bool_decide_false (q = "")), bool_decide_true by done.
  rewrite Split_sep_free by done. do 4 f_equal. by rewrite append_nil_r.
Qed.

Lemma CacheKey_encoded_question_mark_witness :
  CacheKey "GET" "a.com" "/account?admin" "" = CacheKey "GET" "a.com" "/account" "admin".
Proof. apply (CacheKey_encoded_question_mark "GET" "a.com" "/account" "admin"); [discriminate|reflexivity]. Defined.
