(* ===== verification/DiskTheorems.v ===== *)
(** * Disk and hybrid caches: accounting, eviction order and freshness *)

From Stdlib Require Import ZArith Lia Ascii String.
From S2P Require Import Prelude GoStrings Cache DiskCache.

Open Scope Z_scope.

(** Bytes of the indexed bodies. *)
Definition total (idx : gmap string diskIndexEntry) : Z :=
  map_fold (fun _ ie acc => di_size ie + acc) 0 idx.

Lemma total_delete k ie idx :
  idx !! k = Some ie -> total idx = di_size ie + total (delete k idx).
Proof. intros H. unfold total. erewrite map_fold_delete_L; [done| |done]. intros; lia. Qed.

Lemma total_insert k ie idx :
  idx !! k = None -> total (<[k := ie]> idx) = di_size ie + total idx.
Proof. intros H. unfold total. rewrite map_fold_insert_L; [done| |done]. intros; lia. Qed.

Lemma total_empty : total ∅ = 0.
Proof. apply map_fold_empty. Qed.

(** No empty key (every [CacheKey] has a bar) and exact accounting. *)
Record accounted (d : DiskCache) : Prop := {
  acc_used : d_usedBytes d = total (d_index d);
  acc_keys k ie : d_index d !! k = Some ie -> k <> "" /\ 0 <= di_size ie
}.

Lemma removeEntryLocked_accounted k ie d :
  accounted d -> d_index d !! k = Some ie -> accounted (removeEntryLocked k ie d).
Proof.
  intros [Hu Hk] Hl. split; cbn.
  - rewrite Hu, (total_delete k ie _ Hl). lia.
  - intros k' ie' [_ H]%lookup_delete_Some. eauto.
Qed.

Lemma total_nonneg d : accounted d -> 0 <= total (d_index d).
Proof.
  intros [_ Hk]. revert Hk. generalize (d_index d) as idx. intros idx.
  induction idx as [|k ie idx Hn IH] using map_ind; intros Hk; [by rewrite total_empty|].
  rewrite total_insert by done.
  destruct (Hk k ie (lookup_insert_eq _ _ _)) as [_ Hs].
  assert (0 <= total idx); [|lia]. apply IH. intros k' ie' Hk'. apply Hk.
  rewrite lookup_insert_ne; [done|]. congruence.
Qed.

(** ** The scan for the oldest entry *)

Lemma oldest_step_next acc k ie :
  acc.1 <> "" ->
  oldest_step acc (k, ie) = if di_storedAt ie <? acc.2 then (k, di_storedAt ie) else acc.
Proof. intros Ha. unfold oldest_step. by rewrite bool_decide_false. Qed.

Lemma oldest_fold (l : list (string * diskIndexEntry)) acc :
  Forall (fun kv => kv.1 <> "") l -> acc.1 <> "" ->
  let r := foldl oldest_step acc l in
  r.1 <> "" /\ (r = acc \/ exists ie, (r.1, ie) ∈ l /\ di_storedAt ie = r.2) /\
  r.2 <= acc.2 /\ Forall (fun kv => r.2 <= di_storedAt kv.2) l.
Proof.
  revert acc. induction l as [|[k ie] l IH]; intros acc Hl Ha; cbn [foldl]; cbn zeta.
  - split_and!; [done|by left|apply Z.le_refl|by apply Forall_nil_2].
  - apply Forall_cons in Hl as [Hk Hl]. rewrite !(oldest_step_next acc k ie Ha).
    destruct (Z.ltb_spec (di_storedAt ie) acc.2) as [Hlt|Hge].
    + destruct (IH (k, di_storedAt ie) Hl Hk) as (H1 & H2 & H3 & H4). cbn [fst snd] in *.
      split_and!; [done| |lia|by constructor]. right. destruct H2 as [->|(ie' & Hin & He)].
      * exists ie. split; [by left|done].
      * exists ie'. split; [by right|done].
    + destruct (IH acc Hl Ha) as (H1 & H2 & H3 & H4). split_and!; [done| |done|].
      * destruct H2 as [->|(ie' & Hin & He)]; [by left|]. right. exists ie'. split; [by right|done].
      * constructor; [cbn; lia|done].
Qed.

(** With no empty key the scan of a non-empty index finds an entry that is as
    old as every other. *)
Lemma oldest_key_spec d :
  accounted d -> d_index d <> ∅ ->
  exists ie, d_index d !! oldest_key (d_index d) = Some ie /\ oldest_key (d_index d) <> "" /\
    forall k' ie', d_index d !! k' = Some ie' -> di_storedAt ie <= di_storedAt ie'.
Proof.
  intros [_ Hk] Hne. unfold oldest_key. destruct (map_to_list (d_index d)) as [|[k0 ie0] l] eqn:El.
  { by apply map_to_list_empty_iff in El. }
  assert (Hin : forall k ie, (k, ie) ∈ (k0, ie0) :: l <-> d_index d !! k = Some ie).
  { intros k ie. rewrite <-El. apply elem_of_map_to_list. }
  assert (Hl : Forall (fun kv : string * diskIndexEntry => kv.1 <> "") ((k0, ie0) :: l)).
  { apply Forall_forall. intros [k ie] H. apply Hin in H. by apply Hk in H as [? _]. }
  apply Forall_cons in Hl as [Hk0 Hl]. cbn [foldl].
  change (oldest_step ("", 0) (k0, ie0)) with (k0, di_storedAt ie0). cbn [fst snd] in *.
  destruct (oldest_fold l (k0, di_storedAt ie0) Hl Hk0) as (H1 & H2 & H3 & H4).
  set (r := foldl oldest_step (k0, di_storedAt ie0) l) in *. cbn [fst snd] in *.
  assert (exists ie, (r.1, ie) ∈ (k0, ie0) :: l /\ di_storedAt ie = r.2) as (ie & Hie & Hst).
  { destruct H2 as [->|(ie & H & ?)]; [exists ie0; split; [by left|done]|].
    exists ie. split; [by right|done]. }
  exists ie. split; [by apply Hin|]. split; [done|]. intros k' ie' H'.
  rewrite Hst. apply Hin in H'. apply elem_of_cons in H' as [[= -> ->]|H']; [done|].
  rewrite Forall_forall in H4. exact (H4 _ H').
Qed.

(** ** The eviction loop *)

(** [d'] is [d] after evicting oldest entries. *)
Record evicted (d d' : DiskCache) : Prop := {
  ev_sub : d_index d' ⊆ d_index d;
  ev_max : d_maxBytes d' = d_maxBytes d;
  ev_age k ie k' ie' : d_index d !! k = Some ie -> d_index d' !! k = None ->
    d_index d' !! k' = Some ie' -> di_storedAt ie <= di_storedAt ie'
}.

Lemma evictOldest_spec d :
  accounted d -> d_index d <> ∅ ->
  accounted (evictOldestLocked d) /\ evicted d (evictOldestLocked d) /\
  S (size (d_index (evictOldestLocked d))) = size (d_index d).
Proof.
  intros Ha Hne. destruct (oldest_key_spec d Ha Hne) as (ie & Hl & Hk & Hmin).
  unfold evictOldestLocked. rewrite bool_decide_false by done. rewrite Hl. split_and!.
  - by apply removeEntryLocked_accounted.
  - split; cbn; [apply delete_subseteq|done|].
    intros k1 ie1 k2 ie2 H1 Hd [_ H2]%lookup_delete_Some.
    destruct (decide (k1 = oldest_key (d_index d))) as [->|Hne'].
    + rewrite Hl in H1. simplify_eq. eauto.
    + rewrite lookup_delete_ne in Hd by done. congruence.
  - cbn. rewrite map_size_delete_Some by eauto.
    assert (size (d_index d) <> 0%nat) by (by rewrite map_size_non_empty_iff). lia.
Qed.

Lemma evicted_trans d1 d2 d3 : evicted d1 d2 -> evicted d2 d3 -> evicted d1 d3.
Proof.
  intros [S1 M1 A1] [S2 M2 A2]. split; [by etrans|congruence|].
  intros k ie k' ie' H1 H3 H'. destruct (d_index d2 !! k) as [ie2|] eqn:E2.
  - assert (Hs := lookup_weaken _ _ _ _ E2 S1). rewrite H1 in Hs. simplify_eq. eauto.
  - eapply A1; [done..|]. by eapply lookup_weaken.
Qed.

Lemma disk_evict_loop_spec fuel bs d :
  accounted d -> (size (d_index d) <= fuel)%nat ->
  exists d', disk_evict_loop fuel bs d = Some d' /\ accounted d' /\ evicted d d' /\
    (d_usedBytes d' + bs <= d_maxBytes d' \/ d_index d' = ∅).
Proof.
  revert d. induction fuel as [|fuel IH]; intros d Ha Hf; cbn [disk_evict_loop].
  all: destruct (Z.ltb_spec (d_maxBytes d) (d_usedBytes d + bs)) as [Hgt|Hle]; cbn [andb];
    [|exists d; split_and!; [done|done|by split; naive_solver|by left]].
  all: case_bool_decide as Hemp; cbn [negb];
    [exists d; split_and!; [done|done|by split; naive_solver|by right]|].
  - apply map_size_non_empty_iff in Hemp. lia.
  - destruct (evictOldest_spec d Ha Hemp) as (Ha1 & He1 & Hs1).
    destruct (IH _ Ha1 ltac:(lia)) as (d' & Hrun & Ha' & He' & Hend).
    exists d'. split_and!; [done|done|by eapply evicted_trans|done].
Qed.

(** ** Runs of the disk cache *)

Inductive disk_op :=
| DGet (now : Z) (key : string)
| DPut (io : diskIO) (now : Z) (key body : string) (status : Z) (headers : Header) (ttl : Z)
| DPurge.

Definition disk_op_key (op : disk_op) : option string :=
  match op with DGet _ k | DPut _ _ k _ _ _ _ => Some k | DPurge => None end.

Definition disk_step (hashKey : string -> string) (op : disk_op) (d : DiskCache) : option DiskCache :=
  match op with
  | DGet now k => Some (disk_Get now k d).2
  | DPut io now k b st h ttl => disk_Put hashKey io now k b st h ttl d
  | DPurge => Some (disk_Purge d)
  end.

Fixpoint run_disk (hashKey : string -> string) (ops : list disk_op) (d : DiskCache) : option DiskCache :=
  match ops with
  | [] => Some d
  | op :: ops => d ← disk_step hashKey op d; run_disk hashKey ops d
  end.

(** The limit is exceeded only by a single entry. *)
Definition within_limit (d : DiskCache) : Prop :=
  d_usedBytes d <= d_maxBytes d \/ (size (d_index d) <= 1)%nat.

Lemma removeEntryLocked_within k ie d :
  accounted d -> within_limit d -> d_index d !! k = Some ie -> within_limit (removeEntryLocked k ie d).
Proof.
  intros Ha [Hu|Hs] Hl.
  - left. cbn. apply (acc_keys _ Ha) in Hl as [_ ?]. lia.
  - right. cbn. rewrite map_size_delete_Some by eauto. lia.
Qed.

Lemma disk_Get_ok now k d :
  accounted d -> within_limit d -> accounted (disk_Get now k d).2 /\ within_limit (disk_Get now k d).2.
Proof.
  intros Ha Hw. unfold disk_Get. destruct (d_index d !! k) as [ie|] eqn:Hl; [|by destruct Ha].
  assert (Hrm : accounted (removeEntryLocked k ie d) /\ within_limit (removeEntryLocked k ie d)).
  { split; [by apply removeEntryLocked_accounted|by apply removeEntryLocked_within]. }
  destruct Hrm as [[Ha1 Ha2] Hw']. destruct Ha as [Hu Hk].
  destruct (read_meta _) as [m|]; [|by split].
  destruct (_ && _); [by split|]. by destruct (read_body _).
Qed.

Section put.
Context (hashKey : string -> string) (io : diskIO) (now : Z) (k body : string) (st : Z)
  (h : Header) (ttl : Z) (d : DiskCache).

(** The cache without the entry that is being replaced. *)
Definition without_key : DiskCache :=
  match d_index d !! k with Some ie => removeEntryLocked k ie d | None => d end.

Lemma without_key_accounted : accounted d -> accounted without_key.
Proof.
  intros Ha. unfold without_key. destruct (d_index d !! k) eqn:E; [|done].
  by apply removeEntryLocked_accounted.
Qed.

Lemma without_key_index : d_index without_key = delete k (d_index d).
Proof.
  unfold without_key. destruct (d_index d !! k) eqn:E; [done|]. by rewrite delete_id.
Qed.

Lemma without_key_max : d_maxBytes without_key = d_maxBytes d.
Proof. unfold without_key. by destruct (d_index d !! k). Qed.

(** The state [disk_Put] reaches when its file operations succeed, from the state
    after eviction. *)
Definition put_entry (d' : DiskCache) : DiskCache :=
  mkDisk (<[(hashKey k, Meta) := FMeta (mkMeta k st h now ttl (Z.of_nat (String.length body)))]>
            (<[(hashKey k, Body) := FBytes body]> (d_fs d')))
    (d_maxBytes d') (d_usedBytes d' + Z.of_nat (String.length body))
    (<[k := mkIndexEntry (hashKey k) now (Z.of_nat (String.length body))]> (d_index d'))
    (d_hits d') (d_misses d').

Lemma disk_Put_run :
  accounted d -> shouldSkipCache h = false -> 200 <= st < 300 ->
  exists d', disk_evict_loop (size (d_index without_key)) (Z.of_nat (String.length body)) without_key
      = Some d' /\ accounted d' /\ evicted without_key d' /\
    (d_usedBytes d' + Z.of_nat (String.length body) <= d_maxBytes d \/ d_index d' = ∅) /\
    d_index d' !! k = None /\
    exists d'', disk_Put hashKey io now k body st h ttl d = Some d'' /\
      (d'' = put_entry d' \/
       io <> io_ok /\ d_index d'' = d_index d' /\ d_usedBytes d'' = d_usedBytes d' /\
       d_maxBytes d'' = d_maxBytes d').
Proof.
  intros Ha Hskip Hst.
  destruct (disk_evict_loop_spec _ (Z.of_nat (String.length body)) without_key
              (without_key_accounted Ha) ltac:(done)) as (d' & Hrun & Ha' & He & Hend).
  exists d'. rewrite <-without_key_max, <-(ev_max _ _ He). split_and!; try done.
  - apply (lookup_weaken_None _ _ _ (lookup_delete_eq (d_index d) k)).
    rewrite <-without_key_index. by apply ev_sub.
  - unfold disk_Put. rewrite Hskip. rewrite (proj2 (Z.ltb_ge _ _)) by lia.
    rewrite (proj2 (Z.leb_gt _ _)) by lia. cbn [orb]. fold without_key. rewrite Hrun. cbn.
    destruct io as [[] [] []]; cbn; eexists; split; try reflexivity; auto; right; done.
Qed.

Lemma put_entry_accounted d' :
  accounted d' -> d_index d' !! k = None -> k <> "" -> accounted (put_entry d').
Proof.
  intros [Hu Hk] Hn Hne. split; cbn.
  - rewrite total_insert, Hu by done. cbn. lia.
  - intros k' ie' [[<- <-]|[_ H]]%lookup_insert_Some; [cbn; split; [done|lia]|eauto].
Qed.

Lemma disk_Put_ok :
  accounted d -> within_limit d -> k <> "" ->
  exists d'', disk_Put hashKey io now k body st h ttl d = Some d'' /\ accounted d'' /\ within_limit d'' /\
    d_maxBytes d'' = d_maxBytes d.
Proof.
  intros Ha Hw Hne. destruct (shouldSkipCache h) eqn:Hskip.
  { exists d. unfold disk_Put. by rewrite Hskip. }
  destruct ((st <? 200) || (300 <=? st)) eqn:Hst.
  { exists d. unfold disk_Put. by rewrite Hskip, Hst. }
  apply orb_false_iff in Hst as [?%Z.ltb_ge ?%Z.leb_gt].
  destruct (disk_Put_run Ha Hskip ltac:(lia))
    as (d' & _ & Ha' & He & Hend & Hn & d'' & Hput & Hcase).
  assert (Hm : d_maxBytes d' = d_maxBytes d) by (rewrite (ev_max _ _ He); apply without_key_max).
  exists d''. split; [done|]. destruct Hcase as [->|(_ & Hi & Hu & Hm')].
  - split_and!; [by apply put_entry_accounted| |done]. unfold within_limit. cbn. rewrite Hm.
    destruct Hend as [Hfit|Hemp]; [by left|right]. rewrite Hemp, insert_empty.
    by rewrite map_size_singleton.
  - split_and!; [|unfold within_limit|congruence].
    + destruct Ha' as [Hu' Hk']. split; [congruence|]. rewrite Hi. exact Hk'.
    + rewrite Hu, Hm', Hi. destruct Hend as [Hfit|Hemp]; [left|right]; [lia|].
      rewrite Hemp. by rewrite map_size_empty; lia.
Qed.
End put.

(** Over every sequence of calls, with any of the file operations failing,
    every call of the disk cache returns, its byte count is the exact sum of the
    indexed bodies, and it exceeds the limit only while one single entry is held. *)
Theorem disk_cache_accounting (hashKey : string -> string) (maxBytes : Z) (ops : list disk_op) :
  Forall (fun op => disk_op_key op <> Some "") ops ->
  exists d, run_disk hashKey ops (NewDiskCache ∅ maxBytes) = Some d /\
    d_usedBytes d = total (d_index d) /\
    (d_usedBytes d <= maxBytes \/ (size (d_index d) <= 1)%nat).
Proof.
  assert (Hgen : forall d, accounted d -> within_limit d ->
    Forall (fun op => disk_op_key op <> Some "") ops ->
    exists d', run_disk hashKey ops d = Some d' /\ accounted d' /\ within_limit d' /\
      d_maxBytes d' = d_maxBytes d).
  { induction ops as [|op ops IH]; intros d Ha Hw Hops; cbn [run_disk]; [by exists d|].
    apply Forall_cons in Hops as [Hop Hops].
    assert (exists d1, disk_step hashKey op d = Some d1 /\ accounted d1 /\ within_limit d1 /\
              d_maxBytes d1 = d_maxBytes d) as (d1 & -> & Ha1 & Hw1 & <-); [|by apply IH].
    destruct op as [now k|io now k b st h ttl|]; cbn [disk_step disk_op_key] in *.
    - eexists. split; [done|]. destruct (disk_Get_ok now k d Ha Hw). split_and!; [done..|].
      unfold disk_Get. repeat case_match; done.
    - apply disk_Put_ok; [done..|congruence].
    - eexists. split; [done|]. split_and!; [|by right; cbn; rewrite map_size_empty; lia|done].
      split; cbn; [by rewrite total_empty|]. intros ??. by rewrite lookup_empty. }
  intros Hops. destruct (Hgen (NewDiskCache ∅ maxBytes)) as (d & Hrun & Ha & Hw & Hm).
  - split; [done|]. intros k ie H. discriminate H.
  - right. apply Nat.leb_le. reflexivity.
  - done.
  - exists d. split_and!; [done|apply Ha|]. unfold within_limit in Hw. by rewrite Hm in Hw.
Qed.

Lemma disk_cache_accounting_witness :
  exists d, run_disk (fun k => k) [DPut io_ok 0 "a" "xyz" 200 ∅ 0; DPut io_ok 1 "b" "uvw" 200 ∅ 0]
      (NewDiskCache ∅ 4) = Some d /\
    d_usedBytes d = total (d_index d) /\ (d_usedBytes d <= 4 \/ (size (d_index d) <= 1)%nat).
Proof. apply disk_cache_accounting. repeat constructor; discriminate. Defined.

(** Storing a cacheable response in the disk cache and reading it back
    returns it until its time to live has passed; the other entries are all kept
    when there is room for it, and otherwise only entries are dropped that are at
    most as recent as each one that stays. *)
Theorem disk_put_spec (hashKey : string -> string) (d : DiskCache) now now' k body st h ttl :
  accounted d -> k <> "" -> shouldSkipCache h = false -> 200 <= st < 300 ->
  exists d', disk_Put hashKey io_ok now k body st h ttl d = Some d' /\
    (disk_Get now' k d').1 =
      (if (0 <? ttl) && (ttl <? now' - now) then None
       else Some (mkEntry body st h now ttl None None k)) /\
    (forall k1 ie1 k2 ie2, k1 <> k -> k2 <> k ->
      d_index d !! k1 = Some ie1 -> d_index d' !! k1 = None ->
      d_index d' !! k2 = Some ie2 -> d_index d !! k2 = Some ie2 /\ di_storedAt ie1 <= di_storedAt ie2) /\
    (total (delete k (d_index d)) + Z.of_nat (String.length body) <= d_maxBytes d ->
      forall k1, k1 <> k -> d_index d' !! k1 = d_index d !! k1).
Proof.
  intros Ha Hk Hskip Hst.
  destruct (disk_Put_run hashKey io_ok now k body st h ttl d Ha Hskip Hst)
    as (d' & Hloop & Ha' & He & Hend & Hn & d'' & Hput & [->|(? & _)]); [|done].
  eexists. split; [done|]. split_and!.
  - unfold disk_Get, put_entry. cbn [d_index d_fs]. rewrite lookup_insert_eq. cbn [di_hash].
    rewrite lookup_insert_eq. cbn [read_meta dm_TTL dm_StoredAt].
    destruct (_ && _); [done|]. rewrite lookup_insert_ne, lookup_insert_eq by done. done.
  - intros k1 ie1 k2 ie2 H1 H2 L1 L1' L2. cbn in L1', L2.
    rewrite lookup_insert_ne in L1', L2 by done.
    assert (Hsub := lookup_weaken _ _ _ _ L2 (ev_sub _ _ He)).
    rewrite without_key_index, lookup_delete_ne in Hsub by done. split; [done|].
    eapply (ev_age _ _ He); [|done..]. by rewrite without_key_index, lookup_delete_ne.
  - intros Hroom k1 H1. cbn. rewrite lookup_insert_ne by done.
    assert (Hsame : d' = without_key k d).
    { pose proof (without_key_accounted k d Ha) as [Hu _]. rewrite without_key_index in Hu.
      destruct (size (d_index (without_key k d))); cbn [disk_evict_loop] in Hloop;
        rewrite without_key_max, (proj2 (Z.ltb_ge _ _)) in Hloop by lia; by simplify_eq/=. }
    by rewrite Hsame, without_key_index, lookup_delete_ne.
Qed.

Lemma disk_put_spec_witness :
  exists d', disk_Put (fun k => k) io_ok 5 "k" "hello" 200 ∅ 10 (NewDiskCache ∅ 100) = Some d' /\
    (disk_Get 15 "k" d').1 = Some (mkEntry "hello" 200 ∅ 5 10 None None "k").
Proof.
  destruct (disk_put_spec (fun k => k) (NewDiskCache ∅ 100) 5 15 "k" "hello" 200 ∅ 10)
    as (d' & H1 & H2 & _); [|discriminate|reflexivity|lia|by exists d'].
  split; [reflexivity|]. intros k ie H. discriminate H.
Defined.

(** ** Freshness across the two levels *)

Inductive hybrid_op :=
| HGet (now : Z) (key : string)
| HPut (now : Z) (key body : string) (ttl : Z).

(** Bodies returned by the lookups of a run in which every file operation
    succeeds; the responses are plain 200s. *)
Fixpoint run_hybrid (hashKey : string -> string) (ops : list hybrid_op) (h : HybridCache)
    : option (list (option string)) :=
  match ops with
  | [] => Some []
  | HGet now k :: ops =>
      r ← hybrid_Get hashKey io_ok now k h; out ← run_hybrid hashKey ops r.2;
      Some (option_map ce_body r.1 :: out)
  | HPut now k b ttl :: ops =>
      h ← hybrid_Put hashKey io_ok now k b 200 ∅ ttl h; run_hybrid hashKey ops h
  end.

(** The hybrid cache serves responses past their time to live: an entry that
    expired in memory at time 10 is spilled to disk at time 1000 with a new
    storage time and served at 1005; and after a response was replaced and the
    replacement expired, the replaced one comes back from disk. *)
Theorem hybrid_serves_expired :
  run_hybrid (fun k => k)
    [HPut 0 "a|h|/" "old" 10; HPut 1000 "b|h|/" "other" 10; HGet 1005 "a|h|/"]
    (NewHybridCache 1 ∅ 1000) = Some [Some "old"] /\
  run_hybrid (fun k => k)
    [HPut 0 "a|h|/" "v1" 100; HPut 1 "b|h|/" "other" 100; HPut 2 "a|h|/" "v2" 10; HGet 20 "a|h|/"]
    (NewHybridCache 1 ∅ 1000) = Some [Some "v1"].
Proof. split; vm_compute; reflexivity. Qed.
