(* ===== verification/GoHttp.v ===== *)
(** * HTTP headers, URLs and case-folding expressions

    What the proxy uses of [net/http], [net/url] and [regexp]: canonical header
    names with [Get], [Set], [Add] and [Del], [http.Error], query parsing, and
    the letters that [(?i)] folds. *)

From Stdlib Require Import ZArith Lia Ascii String.
From S2P Require Import Prelude GoStrings GoNet GoBase64 Regex Cache.

Open Scope Z_scope.

(** ** [textproto.CanonicalMIMEHeaderKey] *)

Definition is_lower (c : ascii) : bool := in_range "a" "z" c.
Definition is_upper (c : ascii) : bool := in_range "A" "Z" c.

Definition upper_ascii (c : ascii) : ascii := if is_lower c then chr (byte_of c - 32) else c.

Definition validHeaderFieldByte (c : ascii) : bool :=
  is_lower c || is_upper c || is_digit c || ContainsByte "!#$%&'*+-.^_`|~" c.

Fixpoint all_bytes (p : ascii -> bool) (s : string) : bool :=
  match s with "" => true | String c s => p c && all_bytes p s end.

Fixpoint canonical_loop (upper : bool) (s : string) : string :=
  match s with
  | "" => ""
  | String c s =>
      let c' := if upper then upper_ascii c else lower_ascii c in
      String c' (canonical_loop (bool_decide (c' = "-"%char)) s)
  end.

Definition CanonicalHeaderKey (s : string) : string :=
  if all_bytes validHeaderFieldByte s then canonical_loop true s else s.

Definition Header_Get (h : Header) (name : string) : string := header_get h (CanonicalHeaderKey name).
Definition Header_Set (name value : string) (h : Header) : Header :=
  <[CanonicalHeaderKey name := [value]]> h.
Definition Header_Add (name value : string) (h : Header) : Header :=
  let k := CanonicalHeaderKey name in <[k := default [] (h !! k) ++ [value]]> h.
Definition Header_Del (name : string) (h : Header) : Header := delete (CanonicalHeaderKey name) h.

(** [copyHeader(dst, src)] of httputil: every value of [src] is added to [dst];
    the keys of a response are canonical already. *)
Definition copyHeader (dst src : Header) : Header :=
  union_with (fun d s => Some (d ++ s)) dst src.

(** ** Responses *)

Record Reply := mkReply { rp_status : Z; rp_headers : Header; rp_body : string }.

(** [http.Error] on a writer whose headers are [h]. *)
Definition http_Error (h : Header) (msg : string) (code : Z) : Reply :=
  mkReply code
    (Header_Set "X-Content-Type-Options" "nosniff"
       (Header_Set "Content-Type" "text/plain; charset=utf-8" (Header_Del "Content-Length" h)))
    (msg +:+ String (chr 10) "").

(** ** [url.QueryUnescape] and [URL.Query] *)

Fixpoint QueryUnescape (s : string) : option string :=
  match s with
  | "" => Some ""
  | String c s' =>
      if bool_decide (c = "%"%char) then
        match s' with
        | String a (String b s'') =>
            match hex_val a, hex_val b with
            | Some x, Some y => String (chr (16 * x + y)) <$> QueryUnescape s''
            | _, _ => None
            end
        | _ => None
        end
      else if bool_decide (c = "+"%char) then String " " <$> QueryUnescape s'
      else String c <$> QueryUnescape s'
  end.

(** One [key=value] segment of [parseQuery]; segments with a semicolon, empty
    ones and those that do not unescape are skipped. *)
Definition parse_segment (seg : string) : option (string * string) :=
  if ContainsByte seg ";" || bool_decide (seg = "") then None
  else
    let kv := match cut_first seg "=" with Some kv => kv | None => (seg, "") end in
    k ← QueryUnescape kv.1;
    v ← QueryUnescape kv.2;
    Some (k, v).

Definition add_value (m : gmap string (list string)) (kv : string * string)
    : gmap string (list string) := <[kv.1 := default [] (m !! kv.1) ++ [kv.2]]> m.

Definition URL_Query (rawQuery : string) : gmap string (list string) :=
  foldl add_value ∅ (omap parse_segment (Split rawQuery "&")).

(** ** Expressions with [(?i)], [\s], [\w] and [\b] *)

(** Under [(?i)] the letters s and k also match U+017F and U+212A. *)
Definition RFold (c : ascii) : regex :=
  let r := RByteFold c in
  if bool_decide (lower_ascii c = "s"%char) then RAlt r (RLit (String (chr 197) (String (chr 191) "")))
  else if bool_decide (lower_ascii c = "k"%char) then
    RAlt r (RLit (String (chr 226) (String (chr 132) (String (chr 170) ""))))
  else r.
Fixpoint RFolds (s : string) : regex :=
  match s with "" => REps | String c s => RSeq (RFold c) (RFolds s) end.

Definition is_space (c : ascii) : bool :=
  existsb (fun d => byte_of c =? d) [9; 10; 12; 13; 32].
Definition is_word (c : ascii) : bool :=
  is_lower c || is_upper c || is_digit c || bool_decide (c = "_"%char).
Definition RSpace : regex := RChr is_space.
Definition RWordFold : regex := RAlts [RChr is_word; RFold "s"; RFold "k"].

(** [MatchString] of [\b r], where [r] starts with a word character: a match at
    the start or after a byte that is not a word character. *)
Definition re_search_b (r : regex) (s : string) : bool :=
  re_match (RSeq (ROpt (RSeq (RStar RAny) (RChr (fun c => negb (is_word c)))))
              (RSeq r (RStar RAny))) s.

Example canonical_keys :
  CanonicalHeaderKey <$> ["content-type"; "X-CACHE"; "x y"; "-a"] =
  ["Content-Type"; "X-Cache"; "x y"; "-A"].
Proof. vm_compute. reflexivity. Qed.

Example query_values :
  map_to_list (URL_Query "a=1&b=%41&a=2&c;d=1&%zz=3") = [("a", ["1"; "2"]); ("b", ["A"])] \/
  map_to_list (URL_Query "a=1&b=%41&a=2&c;d=1&%zz=3") = [("b", ["A"]); ("a", ["1"; "2"])].
Proof. vm_compute. first [left; reflexivity | right; reflexivity]. Qed.
