(* ===== verification/StoreCdn.v ===== *)
(** * CDN tables (internal/storage/sqlite/cdn_site.go, cdn_origin.go)

    The rows of cdn_site_domains are kept in the [site_Domains] of their site,
    in the order of insertion; a read returns them sorted, as its ORDER BY asks.
    A site is written in one transaction, so that a failing statement leaves both
    tables as they were. *)

From Stdlib Require Import ZArith Lia String.
From S2P Require Import Prelude GoStrings Domain Storage StoreDns.

Open Scope Z_scope.

(** ** Sites *)

Definition new_site (now : Time) (s : CDNSite) : CDNSite :=
  mkCDNSite (site_ID s) (site_TenantID s) (site_Name s) (site_Domains s) (site_TLSMode s) (site_TLSCertID s)
    (site_CacheEnabled s) (if site_CacheTTL s =? 0 then 3600 else site_CacheTTL s) (site_CompressionEnabled s)
    (site_RateLimitRPS s) (site_NodeGroupID s) (site_HeaderRules s) (site_WAFEnabled s) (site_WAFMode s)
    (if bool_decide (site_Status s = "") then CDNSiteActive else site_Status s) now now.

Definition set_domains (ds : list string) (s : CDNSite) : CDNSite :=
  mkCDNSite (site_ID s) (site_TenantID s) (site_Name s) ds (site_TLSMode s) (site_TLSCertID s)
    (site_CacheEnabled s) (site_CacheTTL s) (site_CompressionEnabled s)
    (site_RateLimitRPS s) (site_NodeGroupID s) (site_HeaderRules s) (site_WAFEnabled s) (site_WAFMode s)
    (site_Status s) (site_CreatedAt s) (site_UpdatedAt s).

Definition set_site_UpdatedAt (now : Time) (s : CDNSite) : CDNSite :=
  mkCDNSite (site_ID s) (site_TenantID s) (site_Name s) (site_Domains s) (site_TLSMode s) (site_TLSCertID s)
    (site_CacheEnabled s) (site_CacheTTL s) (site_CompressionEnabled s)
    (site_RateLimitRPS s) (site_NodeGroupID s) (site_HeaderRules s) (site_WAFEnabled s) (site_WAFMode s)
    (site_Status s) (site_CreatedAt s) now.

(** The columns [UpdateCDNSite] writes. *)
Definition merge_site (s old : CDNSite) : CDNSite :=
  mkCDNSite (site_ID old) (site_TenantID old) (site_Name s) (site_Domains s) (site_TLSMode s) (site_TLSCertID s)
    (site_CacheEnabled s) (site_CacheTTL s) (site_CompressionEnabled s)
    (site_RateLimitRPS s) (site_NodeGroupID s) (site_HeaderRules s) (site_WAFEnabled s) (site_WAFMode s)
    (site_Status s) (site_CreatedAt old) (site_UpdatedAt s).

Definition loadCDNSiteDomains (s : CDNSite) : CDNSite :=
  set_domains (merge_sort (by_name (fun d => d)) (site_Domains s)) s.

(** The primary key of cdn_site_domains is (site_id, domain). *)
Definition domain_rows_ok (s : CDNSite) : bool := bool_decide (NoDup (site_Domains s)).

Definition sqlite_CreateCDNSite (now : Time) (site : CDNSite) : stM SqlState CDNSite := fun s =>
  let site := new_site now site in
  sql_exec "insert cdn site" (fun d =>
    if has_key (cdn_sites d) (site_ID site) then (Err (Wrapf "cdn site already exists" ErrAlreadyExists), d)
    else if sq_fk s && negb (has_key (tenants d) (site_TenantID site) &&
                             fk_opt (node_groups d) (site_NodeGroupID site)) then
      (Err (Wrapf "insert cdn site" (Errorf "FOREIGN KEY constraint failed")), d)
    else if negb (domain_rows_ok site) then
      (Err (Wrapf "insert cdn site domain" (Errorf "UNIQUE constraint failed")), d)
    else (Ok site, upd_cdn_sites (fun m => <[site_ID site := site]> m) d)) s.

Definition sqlite_GetCDNSite (id : ID) : stM SqlState CDNSite :=
  sql_query "get cdn site" (fun d =>
    match cdn_sites d !! id with None => Err ErrNotFound | Some s => Ok (loadCDNSiteDomains s) end).

Definition site_rows (d : DB) (tid : ID) : list CDNSite :=
  filter (fun s => site_TenantID s = tid) (rows_of (cdn_sites d)).

Definition sqlite_ListCDNSites (tid : ID) (p : ListParams) : stM SqlState (list CDNSite * Z) :=
  sql_query "list cdn sites" (fun d =>
    Ok (loadCDNSiteDomains <$> page p (merge_sort (by_name site_Name) (site_rows d tid)),
        Z.of_nat (length (site_rows d tid)))).

Definition sqlite_UpdateCDNSite (now : Time) (site : CDNSite) : stM SqlState CDNSite := fun s =>
  let site := set_site_UpdatedAt now site in
  sql_exec "update cdn site" (fun d =>
    if negb (has_key (cdn_sites d) (site_ID site)) then (Err ErrNotFound, d)
    else if sq_fk s && negb (fk_opt (node_groups d) (site_NodeGroupID site)) then
      (Err (Wrapf "update cdn site" (Errorf "FOREIGN KEY constraint failed")), d)
    else if negb (domain_rows_ok site) then
      (Err (Wrapf "insert cdn site domain" (Errorf "UNIQUE constraint failed")), d)
    else (Ok site, upd_cdn_sites (alter (merge_site site) (site_ID site)) d)) s.

(** The foreign keys of the domains and of the origins are ON DELETE CASCADE. *)
Definition sqlite_DeleteCDNSite (id : ID) : stM SqlState unit := fun s =>
  sql_update "delete cdn site" (fun d => has_key (cdn_sites d) id) (fun _ => true)
    (fun d => upd_cdn_sites (delete id)
       (if sq_fk s then upd_cdn_origins (filter (fun ko => origin_SiteID ko.2 <> id)) d else d))
    tt s.

(** ** Origins *)

Definition new_origin (now : Time) (o : CDNOrigin) : CDNOrigin :=
  mkCDNOrigin (origin_ID o) (origin_SiteID o) (origin_Address o)
    (if bool_decide (origin_Scheme o = "") then CDNOriginHTTPS else origin_Scheme o)
    (if origin_Weight o =? 0 then 1 else origin_Weight o)
    (origin_HealthCheckPath o) (origin_HealthCheckInterval o)
    (if bool_decide (origin_Status o = "") then CDNOriginUnknown else origin_Status o) now now.

Definition set_origin_UpdatedAt (now : Time) (o : CDNOrigin) : CDNOrigin :=
  mkCDNOrigin (origin_ID o) (origin_SiteID o) (origin_Address o) (origin_Scheme o) (origin_Weight o)
    (origin_HealthCheckPath o) (origin_HealthCheckInterval o) (origin_Status o) (origin_CreatedAt o) now.

(** The columns [UpdateCDNOrigin] writes. *)
Definition merge_origin (o old : CDNOrigin) : CDNOrigin :=
  mkCDNOrigin (origin_ID old) (origin_SiteID old) (origin_Address o) (origin_Scheme o) (origin_Weight o)
    (origin_HealthCheckPath o) (origin_HealthCheckInterval o) (origin_Status o) (origin_CreatedAt old)
    (origin_UpdatedAt o).

Definition sqlite_CreateCDNOrigin (now : Time) (o : CDNOrigin) : stM SqlState CDNOrigin :=
  let o := new_origin now o in
  sql_insert "insert cdn origin" "cdn origin already exists"
    (fun d => has_key (cdn_origins d) (origin_ID o))
    (fun d => has_key (cdn_sites d) (origin_SiteID o))
    (upd_cdn_origins (fun m => <[origin_ID o := o]> m)) o.

Definition sqlite_GetCDNOrigin (id : ID) : stM SqlState CDNOrigin :=
  sql_query "get cdn origin" (fun d =>
    match cdn_origins d !! id with None => Err ErrNotFound | Some o => Ok o end).

Definition origin_rows (d : DB) (sid : ID) : list CDNOrigin :=
  filter (fun o => origin_SiteID o = sid) (rows_of (cdn_origins d)).

Definition sqlite_ListCDNOrigins (sid : ID) (p : ListParams) : stM SqlState (list CDNOrigin * Z) :=
  sql_query "list cdn origins" (fun d =>
    Ok (page p (merge_sort (by_name origin_Address) (origin_rows d sid)),
        Z.of_nat (length (origin_rows d sid)))).

Definition sqlite_UpdateCDNOrigin (now : Time) (o : CDNOrigin) : stM SqlState CDNOrigin :=
  let o := set_origin_UpdatedAt now o in
  sql_update "update cdn origin" (fun d => has_key (cdn_origins d) (origin_ID o)) (fun _ => true)
    (upd_cdn_origins (alter (merge_origin o) (origin_ID o))) o.

Definition sqlite_DeleteCDNOrigin (id : ID) : stM SqlState unit :=
  sql_update "delete cdn origin" (fun d => has_key (cdn_origins d) id) (fun _ => true)
    (upd_cdn_origins (delete id)) tt.

(** ** Runs *)

Lemma CreateCDNSite_run now site s r s' :
  sqlite_CreateCDNSite now site s = (r, s') ->
  match r with
  | Ok site' => site' = new_site now site /\ cdn_sites (sq_db s) !! site_ID site = None /\
      NoDup (site_Domains site) /\
      sq_db s' = upd_cdn_sites (fun m => <[site_ID site := site']> m) (sq_db s)
  | Err _ => sq_db s' = sq_db s
  end.
Proof.
  unfold sqlite_CreateCDNSite, sql_exec, domain_rows_ok. cbv zeta. intros H. destruct (sq_fault s); [by simplify_eq|].
  destruct (has_key _ _) eqn:Hk; [by simplify_eq|]. destruct (sq_fk s && _); [by simplify_eq|].
  case_bool_decide as Hnd; cbn [negb] in H; simplify_eq; [|done]. by apply has_key_false in Hk.
Qed.

Lemma UpdateCDNSite_run now site s r s' :
  sqlite_UpdateCDNSite now site s = (r, s') ->
  match r with
  | Ok site' => site' = set_site_UpdatedAt now site /\ NoDup (site_Domains site) /\
      exists old, cdn_sites (sq_db s) !! site_ID site = Some old /\
        sq_db s' = upd_cdn_sites (fun m => <[site_ID site := merge_site site' old]> m) (sq_db s)
  | Err _ => sq_db s' = sq_db s
  end.
Proof.
  unfold sqlite_UpdateCDNSite, sql_exec, domain_rows_ok. cbv zeta. intros H. destruct (sq_fault s); [by simplify_eq|].
  destruct (has_key _ _) eqn:Hk; cbn [negb] in H; [|by simplify_eq]. destruct (sq_fk s && _); [by simplify_eq|].
  case_bool_decide as Hnd; cbn [negb] in H; simplify_eq; [|done].
  apply has_key_true in Hk as [old Ho]. split_and!; [done..|]. exists old. split; [done|]. cbn.
  unfold upd_cdn_sites. by rewrite (alter_insert_eq _ _ _ old).
Qed.
