(* ===== verification/CdnGuards.v ===== *)
(** * Request guards of the CDN proxy

    internal/cdnserver/ratelimit.go, waf.go, waf_rules.go and healthcheck.go:
    the token bucket in IEEE 754 binary64 arithmetic, the WAF with its built-in
    rules, and the origin health checker.  Times are nanoseconds. *)

From Stdlib Require Import ZArith Lia Ascii String.
From Stdlib Require Import SpecFloat.
From S2P Require Import Prelude GoStrings GoBase64 Regex Domain Cache GoHttp.

Open Scope Z_scope.

(** ** float64 *)

Notation float64 := spec_float.
Definition f64 (z : Z) : float64 := binary_normalize 53 1024 z 0 false.
Definition f_add : float64 -> float64 -> float64 := SFadd 53 1024.
Definition f_sub : float64 -> float64 -> float64 := SFsub 53 1024.
Definition f_mul : float64 -> float64 -> float64 := SFmul 53 1024.
Definition f_div : float64 -> float64 -> float64 := SFdiv 53 1024.

(** [Duration.Seconds] *)
Definition Seconds (d : Z) : float64 :=
  f_add (f64 (Z.quot d 1000000000)) (f_div (f64 (Z.rem d 1000000000)) (f64 1000000000)).

(** ** Token bucket *)

Record RateLimiter := mkLimiter {
  rl_tokens : float64;
  rl_maxTokens : float64;
  rl_refillRate : float64;
  rl_lastRefill : Z
}.

Definition NewRateLimiter (now rps : Z) : RateLimiter := mkLimiter (f64 rps) (f64 rps) (f64 rps) now.

Definition refill (now : Z) (rl : RateLimiter) : RateLimiter :=
  let elapsed := Seconds (now - rl_lastRefill rl) in
  let tokens := f_add (rl_tokens rl) (f_mul elapsed (rl_refillRate rl)) in
  mkLimiter (if SFltb (rl_maxTokens rl) tokens then rl_maxTokens rl else tokens)
    (rl_maxTokens rl) (rl_refillRate rl) now.

Definition Allow (now : Z) (rl : RateLimiter) : bool * RateLimiter :=
  let rl := refill now rl in
  if SFltb (rl_tokens rl) (f64 1) then (false, rl)
  else (true, mkLimiter (f_sub (rl_tokens rl) (f64 1)) (rl_maxTokens rl) (rl_refillRate rl)
                (rl_lastRefill rl)).

(** ** WAF *)

Inductive WAFMode := WAFModeDetect | WAFModeBlock.
#[export] Instance WAFMode_eq_dec : EqDecision WAFMode.
Proof. solve_decision. Defined.

Inductive WAFRuleCategory :=
| WAFCategorySQLi | WAFCategoryXSS | WAFCategoryPathTraversal | WAFCategoryProtocol.

Record WAFRule := mkRule { rule_ID : string; rule_Category : WAFRuleCategory; rule_Pattern : string -> bool }.

Definition not_byte (c : ascii) : regex := RChr (fun d => negb (bool_decide (c = d))).
Definition hexbyte (n : Z) : regex := RByte (chr n).

Definition DefaultRules : list WAFRule :=
  [ (* (?i)(union\s+(all\s+)?select) *)
    mkRule "sqli-union-select" WAFCategorySQLi
      (re_search (RSeqs [RFolds "union"; RPlus RSpace; ROpt (RSeq (RFolds "all") (RPlus RSpace)); RFolds "select"]));
    (* (/\*.*?\*/|--|#) *)
    mkRule "sqli-comment" WAFCategorySQLi
      (re_search (RAlts [RSeqs [RLit "/*"; RStar (not_byte (chr 10)); RLit "*/"]; RLit "--"; RLit "#"]));
    (* (?i)'\s*(or|and)\s+[...], the class being both quotes and digits *)
    mkRule "sqli-tautology" WAFCategorySQLi
      (re_search (RSeqs [RByte (chr 39); RStar RSpace; RAlt (RFolds "or") (RFolds "and"); RPlus RSpace;
                         RChr (fun c => (byte_of c =? 39) || (byte_of c =? 34) || is_digit c)]));
    (* (?i)(sleep\s*\(|benchmark\s*\(|waitfor\s+delay) *)
    mkRule "sqli-sleep" WAFCategorySQLi
      (re_search (RAlts [RSeqs [RFolds "sleep"; RStar RSpace; RLit "("];
                         RSeqs [RFolds "benchmark"; RStar RSpace; RLit "("];
                         RSeqs [RFolds "waitfor"; RPlus RSpace; RFolds "delay"]]));
    (* (?i)<\s*script[^>]*> *)
    mkRule "xss-script-tag" WAFCategoryXSS
      (re_search (RSeqs [RLit "<"; RStar RSpace; RFolds "script"; RStar (not_byte ">"); RLit ">"]));
    (* (?i)\bon\w+\s*= *)
    mkRule "xss-event-handler" WAFCategoryXSS
      (re_search_b (RSeqs [RFolds "on"; RPlus RWordFold; RStar RSpace; RLit "="]));
    (* (?i)javascript\s*: *)
    mkRule "xss-javascript-uri" WAFCategoryXSS
      (re_search (RSeqs [RFolds "javascript"; RStar RSpace; RLit ":"]));
    (* \.\./ *)
    mkRule "traversal-dotdot" WAFCategoryPathTraversal (re_search (RLit "../"));
    (* (?i)/etc/passwd *)
    mkRule "traversal-etc-passwd" WAFCategoryPathTraversal (re_search (RFolds "/etc/passwd"));
    (* %00|\x00 *)
    mkRule "proto-null-byte" WAFCategoryProtocol (re_search (RAlt (RLit "%00") (hexbyte 0)));
    (* %0[dD]%0[aA]|\r\n *)
    mkRule "proto-crlf" WAFCategoryProtocol
      (re_search (RAlt (RSeqs [RLit "%0"; RByteFold "d"; RLit "%0"; RByteFold "a"])
                       (RSeq (hexbyte 13) (hexbyte 10)))) ].

Record WAF := mkWAF { waf_mode : WAFMode; waf_rules : list WAFRule }.
Record WAFMatch := mkMatch { wm_Rule : string; wm_Field : string; wm_Value : string }.

Definition NewWAF (mode : WAFMode) (rules : list WAFRule) : WAF := mkWAF mode rules.

Definition truncate (s : string) (maxLen : nat) : string :=
  if bool_decide (String.length s <= maxLen)%nat then s else str_take maxLen s +:+ "...".

(** The first rule that matches. *)
Fixpoint check_rules (rules : list WAFRule) (value field : string) : option WAFMatch :=
  match rules with
  | [] => None
  | rule :: rules =>
      if rule_Pattern rule value then Some (mkMatch (rule_ID rule) field (truncate value 200))
      else check_rules rules value field
  end.
Definition checkValue (w : WAF) (value field : string) : option WAFMatch := check_rules (waf_rules w) value field.

(** The first match in a list of values with their field names. *)
Fixpoint first_match (w : WAF) (l : list (string * string)) : option WAFMatch :=
  match l with
  | [] => None
  | (value, field) :: l =>
      match checkValue w value field with Some m => Some m | None => first_match w l end
  end.

(** A request as the proxy reads it: [r.URL.Path] is decoded. *)
Record Request := mkRequest {
  rq_Method : string; rq_Host : string; rq_Path : string; rq_RawQuery : string; rq_Header : Header
}.

(** The values [Inspect] looks at, in its order; [query] is the order in which
    the iteration over [r.URL.Query()] visits the parameters. *)
Definition inspected (query : list (string * list string)) (r : Request) : list (string * string) :=
  [(rq_Path r, "path")] ++
  (query ≫= fun kv => (fun v => (v, "query:" +:+ kv.1)) <$> kv.2) ++
  (if bool_decide (rq_RawQuery r = "") then []
   else [(default (rq_RawQuery r) (QueryUnescape (rq_RawQuery r)), "query")]) ++
  omap (fun h => let v := Header_Get (rq_Header r) h in
                 if bool_decide (v = "") then None else Some (v, "header:" +:+ h))
    ["User-Agent"; "Referer"; "Cookie"].

Definition Inspect (w : WAF) (query : list (string * list string)) (r : Request) : option WAFMatch :=
  first_match w (inspected query r).

(** ** Origin health *)

Definition healthyThreshold : Z := 1.
Definition unhealthyThreshold : Z := 3.

Record originHealth := mkOriginHealth {
  oh_origin : CDNOrigin; oh_healthy : bool; oh_consecutiveFail : Z; oh_consecutiveOK : Z
}.

Definition new_health (o : CDNOrigin) : originHealth := mkOriginHealth o true 0 0.

Definition markResult (success : bool) (oh : originHealth) : originHealth :=
  if success then
    let ok := oh_consecutiveOK oh + 1 in
    mkOriginHealth (oh_origin oh) (if healthyThreshold <=? ok then true else oh_healthy oh) 0 ok
  else
    let fail := oh_consecutiveFail oh + 1 in
    mkOriginHealth (oh_origin oh) (if unhealthyThreshold <=? fail then false else oh_healthy oh) fail 0.

(** The probe's URL, and its verdict on a status code ([None]: no response). *)
Definition probe_url (o : CDNOrigin) : string :=
  let path := if bool_decide (origin_HealthCheckPath o = "") then "/" else origin_HealthCheckPath o in
  let scheme := if bool_decide (origin_Scheme o = "") then "https" else origin_Scheme o in
  scheme +:+ "://" +:+ origin_Address o +:+ path.
Definition probe_ok (status : option Z) : bool :=
  match status with Some c => (200 <=? c) && (c <? 400) | None => false end.

(** [get url]: the status the origin answers the probe with. *)
Definition checkOrigin (get : string -> option Z) (oh : originHealth) : originHealth :=
  markResult (probe_ok (get (probe_url (oh_origin oh)))) oh.

(** The [stop] channel: not made yet, open while the goroutine runs, closed. *)
Inductive chan := NoChan | Open | Closed.
#[export] Instance chan_eq_dec : EqDecision chan.
Proof. solve_decision. Defined.

Record HealthChecker := mkChecker { hk_origins : list originHealth; hk_stop : chan }.

Definition NewHealthChecker (origins : list CDNOrigin) : HealthChecker :=
  mkChecker (new_health <$> origins) NoChan.
Definition hk_Start (hk : HealthChecker) : HealthChecker := mkChecker (hk_origins hk) Open.
(** Closing a closed channel panics ([None]). *)
Definition hk_Stop (hk : HealthChecker) : option HealthChecker :=
  match hk_stop hk with
  | NoChan => Some hk
  | Open => Some (mkChecker (hk_origins hk) Closed)
  | Closed => None
  end.
Definition checkAll (get : string -> option Z) (hk : HealthChecker) : HealthChecker :=
  mkChecker (checkOrigin get <$> hk_origins hk) (hk_stop hk).
Definition HealthyOrigins (hk : HealthChecker) : list CDNOrigin :=
  oh_origin <$> filter (fun oh => oh_healthy oh = true) (hk_origins hk).

Example waf_examples :
  (fun s => wm_Rule <$> check_rules DefaultRules s "query") <$>
    ["q=1"; "1 UNION  all SELECT x"; "once=1"; "a=../../x"; "<ScRipt >"; "tone=2"] =
  [None; Some "sqli-union-select"; Some "xss-event-handler"; Some "traversal-dotdot"; Some "xss-script-tag"; None].
Proof. vm_compute. reflexivity. Qed.

Example burst_of_three :
  let fix go n rl := match n with O => [] | S n => let r := Allow 5 rl in r.1 :: go n r.2 end in
  go 5%nat (NewRateLimiter 5 3) = [true; true; true; false; false].
Proof. vm_compute. reflexivity. Qed.

Example refills_with_time :
  (Allow 1400000000 (mkLimiter (f64 0) (f64 3) (f64 3) 1000000000)).1 = true /\
  (Allow 1300000000 (mkLimiter (f64 0) (f64 3) (f64 3) 1000000000)).1 = false.
Proof. vm_compute. split; reflexivity. Qed.
