(* ===== verification/CdnProxy.v ===== *)
(** * CDN reverse proxy (internal/cdnserver/proxy.go)

    The proxy's routing tables point to shared [siteRuntime] objects, which
    requests mutate (cache, token bucket, health), so the runtimes live in a heap
    and the tables hold locations.  [ps_disk] is the file tree under the cache
    directory between the lifetimes of the disk caches.  Parameters: the hash of
    the disk cache, the compressors, the decoder of header rules, and the origins
    ([exchange]: the response that [ModifyResponse] gets, or a transport error).
    A request is one step; metrics and logging are left out. *)

From Stdlib Require Import ZArith Lia Ascii String.
From S2P Require Import Prelude GoStrings GoNet Domain Cache DiskCache GoHttp CdnGuards.

Open Scope Z_scope.

(** ** Configuration (internal/cdn/service.go) *)

Record SiteWithOrigins := mkSWO { swo_Site : CDNSite; swo_Origins : list CDNOrigin }.
Record NodeCDNConfig := mkNodeCDNConfig { ncc_Sites : list SiteWithOrigins }.
Record HeaderRule := mkHeaderRule { hr_Action : string; hr_Header : string; hr_Value : string }.

(** ** [CacheBackend] and its two implementations *)

Inductive CacheBackend := CMem (c : Cache) | CHybrid (h : HybridCache).

Section backend.
Context (hashKey : string -> string).

Definition backend_Get (io : diskIO) (now : Z) (key : string) (b : CacheBackend)
    : option (option cacheEntry * CacheBackend) :=
  match b with
  | CMem c => let r := Get now key c in Some (r.1, CMem r.2)
  | CHybrid h => r ← hybrid_Get hashKey io now key h; Some (r.1, CHybrid r.2)
  end.
Definition backend_Put (io : diskIO) (now : Z) (key body : string) (status : Z) (headers : Header)
    (ttl : Z) (b : CacheBackend) : option CacheBackend :=
  match b with
  | CMem c => r ← Put now key body status headers ttl c; Some (CMem r.1)
  | CHybrid h => CHybrid <$> hybrid_Put hashKey io now key body status headers ttl h
  end.
End backend.
Definition backend_Purge (b : CacheBackend) : CacheBackend :=
  match b with CMem c => CMem (Purge c) | CHybrid h => CHybrid (hybrid_Purge h) end.
Definition backend_Len (b : CacheBackend) : Z :=
  match b with CMem c => Len c | CHybrid h => hybrid_Len h end.
Definition backend_Stats (b : CacheBackend) : Z * Z :=
  match b with CMem c => Stats c | CHybrid h => (hc_hits h, hc_misses h) end.

(** ** State *)

Record siteRuntime := mkRuntime {
  sr_site : CDNSite;
  sr_origins : list CDNOrigin;
  sr_cache : option CacheBackend;
  sr_rateLimiter : option RateLimiter;
  sr_healthChecker : option HealthChecker;
  sr_headerRules : list HeaderRule;
  sr_waf : option WAF
}.
Definition set_cache (b : CacheBackend) (sr : siteRuntime) : siteRuntime :=
  mkRuntime (sr_site sr) (sr_origins sr) (Some b) (sr_rateLimiter sr) (sr_healthChecker sr)
    (sr_headerRules sr) (sr_waf sr).
Definition set_limiter (rl : RateLimiter) (sr : siteRuntime) : siteRuntime :=
  mkRuntime (sr_site sr) (sr_origins sr) (sr_cache sr) (Some rl) (sr_healthChecker sr)
    (sr_headerRules sr) (sr_waf sr).
Definition set_checker (hk : HealthChecker) (sr : siteRuntime) : siteRuntime :=
  mkRuntime (sr_site sr) (sr_origins sr) (sr_cache sr) (sr_rateLimiter sr) (Some hk)
    (sr_headerRules sr) (sr_waf sr).

Notation Files := (gmap (string * ext) file).

Record ProxyService := mkProxy {
  ps_running : bool;
  ps_listenAddr : string;
  ps_heap : gmap loc siteRuntime;
  ps_fresh : loc;
  ps_sites : gmap string loc;
  ps_siteByID : gmap ID loc;
  ps_cacheDir : string;
  ps_cacheMaxBytes : Z;
  ps_disk : gmap (string * ID) Files;
  ps_requestsTotal : Z
}.

Definition NewProxyService (disk : gmap (string * ID) Files) : ProxyService :=
  mkProxy false "" ∅ 1%positive ∅ ∅ "" 0 disk 0.

Definition SetCacheConfig (dir : string) (maxBytes : Z) (p : ProxyService) : ProxyService :=
  mkProxy (ps_running p) (ps_listenAddr p) (ps_heap p) (ps_fresh p) (ps_sites p) (ps_siteByID p)
    dir maxBytes (ps_disk p) (ps_requestsTotal p).
Definition set_runtimes (h : gmap loc siteRuntime) (p : ProxyService) : ProxyService :=
  mkProxy (ps_running p) (ps_listenAddr p) h (ps_fresh p) (ps_sites p) (ps_siteByID p)
    (ps_cacheDir p) (ps_cacheMaxBytes p) (ps_disk p) (ps_requestsTotal p).
Definition count_request (p : ProxyService) : ProxyService :=
  mkProxy (ps_running p) (ps_listenAddr p) (ps_heap p) (ps_fresh p) (ps_sites p) (ps_siteByID p)
    (ps_cacheDir p) (ps_cacheMaxBytes p) (ps_disk p) ((ps_requestsTotal p + 1) mod 2 ^ 64).
Definition put_runtime (l : loc) (sr : siteRuntime) (p : ProxyService) : ProxyService :=
  set_runtimes (<[l := sr]> (ps_heap p)) p.

(** ** Start *)

(** [listen]: whether the socket can be bound. *)
Definition proxy_Start (listen : bool) (listenAddr : string) : stM ProxyService unit := fun p =>
  if ps_running p then (Err (Errorf "cdn server already running"), p)
  else
    let p' run := mkProxy run listenAddr (ps_heap p) (ps_fresh p) (ps_sites p) (ps_siteByID p)
                    (ps_cacheDir p) (ps_cacheMaxBytes p) (ps_disk p) (ps_requestsTotal p) in
    if listen then (Ok tt, p' true) else (Err (Wrapf "listen" (Errorf "bind")), p' false).

(** ** Stopping the health checkers *)

(** The loop over [p.siteByID]; [None] is a panic. *)
Definition stop_runtime (h : gmap loc siteRuntime) (l : loc) : option (gmap loc siteRuntime) :=
  match h !! l with
  | Some sr =>
      match sr_healthChecker sr with
      | Some hk => hk' ← hk_Stop hk; Some (<[l := set_checker hk' sr]> h)
      | None => Some h
      end
  | None => Some h
  end.
Fixpoint stop_all (h : gmap loc siteRuntime) (ls : list loc) : option (gmap loc siteRuntime) :=
  match ls with [] => Some h | l :: ls => h ← stop_runtime h l; stop_all h ls end.
Definition stop_checkers (p : ProxyService) : option ProxyService :=
  h ← stop_all (ps_heap p) (map_to_list (ps_siteByID p)).*2;
  Some (set_runtimes h p).

(** The cache directory of a site ([filepath.Join(p.cacheDir, ID)]), and the files once the current runtimes are
    dropped: a disk cache leaves its files behind. *)
Definition cache_path (p : ProxyService) (id : ID) : string * ID := (ps_cacheDir p, id).
Definition leave_files (p : ProxyService) (disk : gmap (string * ID) Files) (il : ID * loc) : gmap (string * ID) Files :=
  match ps_heap p !! il.2 ≫= sr_cache with
  | Some (CHybrid h) => <[cache_path p il.1 := d_fs (hc_disk h)]> disk
  | _ => disk
  end.
Definition left_disk (p : ProxyService) : gmap (string * ID) Files :=
  foldl (leave_files p) (ps_disk p) (map_to_list (ps_siteByID p)).

(** [shutdown]: the result of [p.server.Shutdown(ctx)]. *)
Definition proxy_Stop (shutdown : result unit) (p : ProxyService) : option (result unit * ProxyService) :=
  if negb (ps_running p) then Some (Err (Errorf "cdn server not running"), p)
  else
    p ← stop_checkers p;
    match shutdown with
    | Err e => Some (Err (Wrapf "shutdown" e), p)
    | Ok _ =>
        Some (Ok tt, mkProxy false (ps_listenAddr p) (ps_heap p) (ps_fresh p) ∅ ∅ (ps_cacheDir p)
                (ps_cacheMaxBytes p) (left_disk p) (ps_requestsTotal p))
    end.

(** ** Reconcile *)

Section proxy.
Context (hashKey gzip brotli : string -> string).
Context (unmarshal_rules : string -> option (list HeaderRule)).

(** [mkdir path]: whether the cache directory can be created. *)
Definition new_cache (p : ProxyService) (disk : gmap (string * ID) Files) (mkdir : string * ID -> bool)
    (site : CDNSite) : option CacheBackend :=
  if site_CacheEnabled site then
    if bool_decide (ps_cacheDir p = "") then Some (CMem (NewCache 10000))
    else
      let path := cache_path p (site_ID site) in
      if mkdir path then Some (CHybrid (NewHybridCache 10000 (default ∅ (disk !! path)) (ps_cacheMaxBytes p)))
      else Some (CMem (NewCache 10000))
  else None.

Definition new_runtime (p : ProxyService) (disk : gmap (string * ID) Files) (mkdir : string * ID -> bool) (now : Z)
    (swo : SiteWithOrigins) : siteRuntime :=
  let site := swo_Site swo in
  mkRuntime site (swo_Origins swo) (new_cache p disk mkdir site)
    (match site_RateLimitRPS site with
     | Some rps => if 0 <? rps then Some (NewRateLimiter now rps) else None
     | None => None
     end)
    (if bool_decide (swo_Origins swo = []) then None
     else Some (hk_Start (NewHealthChecker (swo_Origins swo))))
    (if bool_decide (site_HeaderRules site = "") then []
     else default [] (unmarshal_rules (site_HeaderRules site)))
    (if site_WAFEnabled site then
       Some (NewWAF (if bool_decide (site_WAFMode site = "block") then WAFModeBlock else WAFModeDetect)
               DefaultRules)
     else None).

(** The loop over the configured sites: heap, allocator, both tables. *)
Definition tables : Type := gmap loc siteRuntime * loc * gmap string loc * gmap ID loc.
Definition add_site (build : SiteWithOrigins -> siteRuntime) (t : tables) (swo : SiteWithOrigins) : tables :=
  let '(heap, l, sites, byID) := t in
  (<[l := build swo]> heap, Pos.succ l,
   foldl (fun m d => <[ToLower d := l]> m) sites (site_Domains (swo_Site swo)),
   <[site_ID (swo_Site swo) := l]> byID).

Definition config_sites (config : option NodeCDNConfig) : list SiteWithOrigins :=
  match config with Some c => ncc_Sites c | None => [] end.

Definition proxy_Reconcile (mkdir : string * ID -> bool) (now : Z) (config : option NodeCDNConfig)
    (p : ProxyService) : option (result unit * ProxyService) :=
  if negb (ps_running p) then Some (Err (Errorf "cdn server not running"), p)
  else
    p ← stop_checkers p;
    let disk := left_disk p in
    let '(heap, l, sites, byID) :=
      foldl (add_site (new_runtime p disk mkdir now)) (ps_heap p, ps_fresh p, ∅, ∅) (config_sites config) in
    Some (Ok tt, mkProxy (ps_running p) (ps_listenAddr p) heap l sites byID (ps_cacheDir p)
            (ps_cacheMaxBytes p) disk (ps_requestsTotal p)).

(** ** Purge and status *)

Definition PurgeCache (siteID : ID) : stM ProxyService unit := fun p =>
  if negb (ps_running p) then (Err (Errorf "cdn server not running"), p)
  else match ps_siteByID p !! siteID with
       | None => (Err (Errorf "site not found"), p)
       | Some l =>
           match ps_heap p !! l with
           | Some sr =>
               (Ok tt, match sr_cache sr with
                       | Some b => put_runtime l (set_cache (backend_Purge b) sr) p
                       | None => p
                       end)
           | None => (Ok tt, p)
           end
       end.

Record ProxyStatus := mkProxyStatus {
  pst_Listening : bool; pst_ListenAddr : string; pst_SiteCount : Z; pst_CacheHits : Z;
  pst_CacheMisses : Z; pst_CacheEntries : Z; pst_RequestsTotal : Z
}.
Definition add_stats (p : ProxyService) (acc : Z * Z * Z) (l : loc) : Z * Z * Z :=
  match ps_heap p !! l ≫= sr_cache with
  | Some b =>
      let '(entries, hits, misses) := acc in
      ((entries + backend_Len b) mod 2 ^ 64, (hits + (backend_Stats b).1) mod 2 ^ 64,
       (misses + (backend_Stats b).2) mod 2 ^ 64)
  | None => acc
  end.
Definition proxy_GetStatus (p : ProxyService) : ProxyStatus :=
  let '(entries, hits, misses) := foldl (add_stats p) (0, 0, 0) (map_to_list (ps_siteByID p)).*2 in
  mkProxyStatus (ps_running p) (ps_listenAddr p) (Z.of_nat (size (ps_siteByID p))) hits misses entries
    (ps_requestsTotal p).

(** ** Origin selection *)

(** [for _, o := range candidates { r -= o.Weight; if r < 0 { return o } }] *)
Fixpoint pick (r : Z) (candidates : list CDNOrigin) : option CDNOrigin :=
  match candidates with
  | [] => None
  | o :: candidates =>
      let r := int64 (r - origin_Weight o) in
      if r <? 0 then Some o else pick r candidates
  end.
Definition total_weight (candidates : list CDNOrigin) : Z :=
  foldl (fun acc o => int64 (acc + origin_Weight o)) 0 candidates.

Definition candidates (sr : siteRuntime) : list CDNOrigin :=
  match sr_healthChecker sr with Some hk => HealthyOrigins hk | None => sr_origins sr end.

(** [intn]: [rand.Intn]. *)
Definition selectOrigin (intn : Z -> Z) (sr : siteRuntime) : option CDNOrigin :=
  let cs := candidates sr in
  match cs with
  | [] => None
  | [o] => Some o
  | _ =>
      let totalWeight := total_weight cs in
      if totalWeight <=? 0 then cs !! Z.to_nat (intn (Z.of_nat (length cs)))
      else match pick (intn totalWeight) cs with Some o => Some o | None => last cs end
  end.

(** ** Responses *)

(** A response of an origin; [rs_ok]: the body can be read to its end. *)
Record Response := mkResponse { rs_StatusCode : Z; rs_Header : Header; rs_Body : string; rs_ok : bool }.

Definition apply_rule (h : Header) (rule : HeaderRule) : Header :=
  if bool_decide (hr_Action rule = "add") then Header_Add (hr_Header rule) (hr_Value rule) h
  else if bool_decide (hr_Action rule = "set") then Header_Set (hr_Header rule) (hr_Value rule) h
  else if bool_decide (hr_Action rule = "remove") then Header_Del (hr_Header rule) h
  else h.
Definition applyHeaderRules (rules : list HeaderRule) (h : Header) : Header := foldl apply_rule h rules.

Definition acceptsBrotli (r : Request) : bool := Contains (Header_Get (rq_Header r) "Accept-Encoding") "br".
Definition acceptsGzip (r : Request) : bool := Contains (Header_Get (rq_Header r) "Accept-Encoding") "gzip".

Definition shouldCompress (contentType : string) : bool :=
  existsb (Contains (ToLower contentType))
    ["text/"; "application/json"; "application/javascript"; "application/xml"; "application/xhtml+xml";
     "image/svg+xml"].

(** [flush] of the two buffering writers. *)
Definition flush (encoding : string) (compress : string -> string) (rp : Reply) : Reply :=
  if negb (shouldCompress (Header_Get (rp_headers rp) "Content-Type")) || bool_decide (rp_body rp = "")
  then rp
  else mkReply (rp_status rp)
         (Header_Del "Content-Length" (Header_Set "Content-Encoding" encoding (rp_headers rp)))
         (compress (rp_body rp)).

Definition site_key (host : string) (r : Request) : string :=
  CacheKey (rq_Method r) host (rq_Path r) (rq_RawQuery r).

(** What the environment supplies to one request: the times of its cache lookup
    and of the origin's response, the random numbers, the iteration order of the
    query, the outcome of disk writes. *)
Record HttpEnv := mkHttpEnv {
  he_now : Z; he_then : Z; he_intn : Z -> Z; he_query : list (string * list string); he_io : diskIO
}.

(** The outgoing request of the [Director]. *)
Record Outgoing := mkOutgoing { og_Scheme : string; og_URLHost : string; og_Host : string; og_Request : Request }.
Definition outgoing (o : CDNOrigin) (r : Request) : Outgoing :=
  mkOutgoing (origin_Scheme o) (origin_Address o) (rq_Host r) r.

Definition maybeCacheResponse (e : HttpEnv) (sr : siteRuntime) (host : string) (r : Request)
    (resp : Response) : option siteRuntime :=
  match sr_cache sr with
  | None => Some sr
  | Some b =>
      if (rs_StatusCode resp <? 200) || (300 <=? rs_StatusCode resp) then Some sr
      else if negb (rs_ok resp) then Some sr
      else
        b ← backend_Put hashKey (he_io e) (he_then e) (site_key host r) (rs_Body resp) (rs_StatusCode resp)
              (rs_Header resp) (int64 (site_CacheTTL (sr_site sr) * 1000000000)) b;
        Some (set_cache b sr)
  end.

(** A reply, or the abort of a response whose body breaks off. *)
Inductive Served := Replied (rp : Reply) | Aborted.

(** [proxy.ServeHTTP] into the buffering or plain writer. *)
Definition reverse_proxy (e : HttpEnv) (sr : siteRuntime) (host : string) (r : Request)
    (answer : option Response) : option (Served * siteRuntime) :=
  let w : Header := {["X-Cache" := ["MISS"]]} in
  match answer with
  | None => Some (Replied (http_Error w "origin unavailable" 502), sr)
  | Some resp =>
      let resp := mkResponse (rs_StatusCode resp) (applyHeaderRules (sr_headerRules sr) (rs_Header resp))
                    (rs_Body resp) (rs_ok resp) in
      sr ← (if bool_decide (rq_Method r = "GET") then maybeCacheResponse e sr host r resp else Some sr);
      Some (if rs_ok resp then Replied (mkReply (rs_StatusCode resp) (copyHeader w (rs_Header resp)) (rs_Body resp))
            else Aborted, sr)
  end.

Definition on_reply (f : Reply -> Reply) (s : Served) : Served :=
  match s with Replied rp => Replied (f rp) | Aborted => Aborted end.

Definition compress_reply (sr : siteRuntime) (r : Request) : Reply -> Reply :=
  if site_CompressionEnabled (sr_site sr) then
    if acceptsBrotli r then flush "br" brotli
    else if acceptsGzip r then flush "gzip" gzip else id
  else id.

(** The cache lookup of a GET. *)
Definition cache_lookup (e : HttpEnv) (host : string) (r : Request) (sr : siteRuntime)
    : option (option cacheEntry * siteRuntime) :=
  match sr_cache sr with
  | Some b =>
      if bool_decide (rq_Method r = "GET") then
        x ← backend_Get hashKey (he_io e) (he_now e) (site_key host r) b;
        Some (x.1, set_cache x.2 sr)
      else Some (None, sr)
  | None => Some (None, sr)
  end.

Definition hit_reply (entry : cacheEntry) : Reply :=
  mkReply (ce_statusCode entry) (Header_Set "X-Cache" "HIT" (ce_headers entry)) (ce_body entry).

(** Rate limiting and WAF: the reply that rejects the request, if any. *)
Definition guards (e : HttpEnv) (r : Request) (sr : siteRuntime) : option Reply * siteRuntime :=
  let '(allowed, sr) :=
    match sr_rateLimiter sr with
    | Some rl => let x := Allow (he_now e) rl in (x.1, set_limiter x.2 sr)
    | None => (true, sr)
    end in
  if negb allowed then (Some (http_Error ∅ "rate limit exceeded" 429), sr)
  else
    let blocked :=
      match sr_waf sr with
      | Some w => match Inspect w (he_query e) r with
                  | Some _ => bool_decide (waf_mode w = WAFModeBlock)
                  | None => false
                  end
      | None => false
      end in
    (if blocked then Some (http_Error ∅ "request blocked by WAF" 403) else None, sr).

(** The handler of one site, after the lookup by host. *)
Definition serve_site (exchange : Outgoing -> option Response) (e : HttpEnv) (host : string) (r : Request)
    (sr : siteRuntime) : option (Served * siteRuntime) :=
  match guards e r sr with
  | (Some rp, sr) => Some (Replied rp, sr)
  | (None, sr) =>
      x ← cache_lookup e host r sr;
      match x with
      | (Some entry, sr) => Some (Replied (hit_reply entry), sr)
      | (None, sr) =>
          match selectOrigin (he_intn e) sr with
          | None => Some (Replied (http_Error ∅ "no healthy origin available" 502), sr)
          | Some origin =>
              y ← reverse_proxy e sr host r (exchange (outgoing origin r));
              Some (on_reply (compress_reply sr r) y.1, y.2)
          end
      end
  end.

Definition host_of (r : Request) : string :=
  let host := ToLower (rq_Host r) in
  match SplitHostPort host with Some (h, _) => h | None => host end.

Definition proxy_ServeHTTP (exchange : Outgoing -> option Response) (e : HttpEnv) (r : Request)
    (p : ProxyService) : option (Served * ProxyService) :=
  let p := count_request p in
  let host := host_of r in
  match ps_sites p !! host with
  | None => Some (Replied (http_Error ∅ "no CDN site configured for this host" 502), p)
  | Some l =>
      match ps_heap p !! l with
      | None => None
      | Some sr =>
          y ← serve_site exchange e host r sr;
          Some (y.1, put_runtime l y.2 p)
      end
  end.
End proxy.

(** ** The goroutine of a health checker: one [checkAll] while its channel is open *)
Definition health_tick (get : string -> option Z) (l : loc) (p : ProxyService) : ProxyService :=
  match ps_heap p !! l with
  | Some sr =>
      match sr_healthChecker sr with
      | Some hk => if bool_decide (hk_stop hk = Open) then put_runtime l (set_checker (checkAll get hk) sr) p else p
      | None => p
      end
  | None => p
  end.
