(* ===== verification/CdnValidate.v ===== *)
(** * CDN validation (internal/cdn/validation.go)

    The site and origin validators, with the address predicates of Go's [net]
    package they use.  [resolve] is the name resolver of the host and
    [unmarshal_rules] the JSON decoder of header rules. *)

From Stdlib Require Import ZArith Lia Ascii String.
From S2P Require Import Prelude GoStrings GoNet Regex Domain DnsValidate Cache DiskCache GoHttp CdnGuards CdnProxy.

Open Scope Z_scope.

(** ** [net.IP] predicates *)

(** [IP.Equal] *)
Definition IP_Equal (ip x : IP) : bool :=
  if bool_decide (length ip = length x) then bool_decide (ip = x)
  else if bool_decide (length ip = 4%nat /\ length x = 16%nat) then
    bool_decide (take 12 x = v4InV6Prefix /\ ip = drop 12 x)
  else if bool_decide (length ip = 16%nat /\ length x = 4%nat) then
    bool_decide (take 12 ip = v4InV6Prefix /\ drop 12 ip = x)
  else false.

Definition IPv4zero : IP := v4InV6Prefix ++ [0; 0; 0; 0].
Definition IPv6unspecified : IP := replicate 16 0.
Definition IPv6loopback : IP := replicate 15 0 ++ [1].

Definition IsLoopback (ip : IP) : bool :=
  match To4 ip with
  | Some ip4 => bool_decide (ip4 !! 0%nat = Some 127)
  | None => IP_Equal ip IPv6loopback
  end.

Definition IsLinkLocalUnicast (ip : IP) : bool :=
  match To4 ip with
  | Some ip4 => bool_decide (ip4 !! 0%nat = Some 169 /\ ip4 !! 1%nat = Some 254)
  | None => match ip with
            | b0 :: b1 :: _ => bool_decide (length ip = 16%nat) && (b0 =? 254) && (Z.land b1 192 =? 128)
            | _ => false
            end
  end.

Definition IsLinkLocalMulticast (ip : IP) : bool :=
  match To4 ip with
  | Some ip4 => bool_decide (ip4 !! 0%nat = Some 224 /\ ip4 !! 1%nat = Some 0 /\ ip4 !! 2%nat = Some 0)
  | None => match ip with
            | b0 :: b1 :: _ => bool_decide (length ip = 16%nat) && (b0 =? 255) && (Z.land b1 15 =? 2)
            | _ => false
            end
  end.

Definition IsUnspecified (ip : IP) : bool := IP_Equal ip IPv4zero || IP_Equal ip IPv6unspecified.

(** Whether [netip.ParseAddr] accepts the text: an address, or an IPv6 address
    with a zone. *)
Definition ParseAddr_ok (s : string) : bool :=
  match cut_first s "%" with
  | None => bool_decide (is_Some (ParseAddr s))
  | Some (a, zone) =>
      negb (bool_decide (zone = "")) && bool_decide (addr_family s = Some true) &&
      bool_decide (is_Some (parseIPv6 a))
  end.

(** ** Sites *)

Definition cdn_hostnameRegex : regex :=
  RSeq (RStar (RSeq (label_re is_alnum (or_hyphen is_alnum)) (RByte ".")))
    (RSeq (label_re is_alnum (or_hyphen is_alnum)) (ROpt (RByte "."))).

Definition validateDomain (d : string) : result unit :=
  if bool_decide (d = "") then Err (Errorf "domain must not be empty") else
  let clean := TrimSuffix d "." in
  if 253 <? strlen clean then Err (Errorf "domain too long (max 253 characters)")
  else if negb (re_match cdn_hostnameRegex clean) then Err (Errorf "not a valid hostname")
  else Ok tt.

Definition validateTLSMode (mode : TLSMode) : result unit :=
  if bool_decide (mode ∈ [TLSModeAuto; TLSModeManual; TLSModeDisabled]) then Ok tt
  else if bool_decide (mode = "") then Err (Errorf "tls_mode is required")
  else Err (Errorf "invalid tls_mode").

Definition validateWAFMode (mode : string) : result unit :=
  if bool_decide (mode ∈ ["detect"; "block"; ""]) then Ok tt else Err (Errorf "invalid waf_mode").

Definition validateRule (rule : HeaderRule) : result unit :=
  if bool_decide (hr_Header rule = "") then Err (Errorf "header is required")
  else if bool_decide (hr_Action rule ∈ ["add"; "set"]) then
    guard_err (negb (bool_decide (hr_Value rule = ""))) (Errorf "value is required for action")
  else guard_err (bool_decide (hr_Action rule = "remove")) (Errorf "invalid action").

(** [for _, x := range l { if err := f(x); err != nil { return err } }] *)
Fixpoint check_all {A} (f : A -> result unit) (l : list A) : result unit :=
  match l with [] => Ok tt | x :: l => _ ← f x; check_all f l end.

Section validation.
Context (unmarshal_rules : string -> option (list HeaderRule)).
Context (resolve : string -> option (list string)).

Definition validateHeaderRules (raw : string) : result unit :=
  match unmarshal_rules raw with
  | None => Err (Errorf "must be a valid JSON array")
  | Some rules => check_all validateRule rules
  end.

(** The checks that follow the domains, the same in both validators. *)
Definition validate_rest (site : CDNSite) : result unit :=
  _ ← validateTLSMode (site_TLSMode site);
  _ ← guard_err (negb (site_CacheTTL site <? 0)) (Errorf "cache_ttl must be >= 0");
  _ ← guard_err (match site_RateLimitRPS site with Some n => negb (n <=? 0) | None => true end)
        (Errorf "rate_limit_rps must be > 0 when set");
  _ ← (if bool_decide (site_HeaderRules site = "") then Ok tt
       else wrap_err "invalid header_rules" (validateHeaderRules (site_HeaderRules site)));
  validateWAFMode (site_WAFMode site).

Definition validate_name (site : CDNSite) : result unit :=
  if bool_decide (site_Name site = "") then Err (Errorf "site name is required")
  else guard_err (negb (255 <? strlen (site_Name site))) (Errorf "site name too long (max 255 characters)").

Definition validateSite (site : CDNSite) : result unit :=
  _ ← validate_name site;
  _ ← guard_err (negb (bool_decide (site_Domains site = []))) (Errorf "at least one domain is required");
  _ ← check_all (fun d => wrap_err "invalid domain" (validateDomain d)) (site_Domains site);
  validate_rest site.

Definition validateSiteUpdate (site : CDNSite) : result unit :=
  _ ← validate_name site;
  _ ← check_all (fun d => wrap_err "invalid domain" (validateDomain d)) (site_Domains site);
  validate_rest site.

(** ** Origins *)

Definition privateRanges : list string := ["10.0.0.0/8"; "172.16.0.0/12"; "192.168.0.0/16"; "fc00::/7"].
Definition metadataIPs : list string := ["169.254.169.254"; "fd00:ec2::254"].

Definition isBlockedIP (ip : IP) : bool :=
  IsLoopback ip ||
  (IsLinkLocalUnicast ip || IsLinkLocalMulticast ip) ||
  existsb (fun cidr => match ParseCIDR cidr with
                       | Some (_, network) => IPNet_Contains network ip
                       | None => false
                       end) privateRanges ||
  existsb (fun mip => match ParseIP mip with Some x => IP_Equal ip x | None => IP_Equal ip [] end) metadataIPs ||
  IsUnspecified ip.

Definition blockedHosts : list string :=
  ["localhost"; "metadata.google.internal"; "metadata.google"; "kubernetes.default"; "kubernetes.default.svc"].

(** [net.LookupHost] *)
Definition LookupHost (host : string) : option (list string) :=
  if bool_decide (host = "") then None
  else if ParseAddr_ok host then Some [host]
  else resolve host.

Definition origin_host (address : string) : string :=
  match SplitHostPort address with Some (h, _) => h | None => address end.

Definition validateOriginAddress (address : string) : result unit :=
  let host := origin_host address in
  let lower := ToLower host in
  if existsb (fun b => bool_decide (lower = b) || HasSuffix lower ("." +:+ b)) blockedHosts then
    Err (Errorf "origin address resolves to a blocked internal host")
  else
    ips ← match LookupHost host with
          | Some ips => Ok ips
          | None => match ParseIP host with
                    | None => Err (Errorf "cannot resolve origin address")
                    | Some ip => Ok [IPString ip]
                    end
          end;
    check_all (fun ipStr => match ParseIP ipStr with
                            | None => Ok tt
                            | Some ip => guard_err (negb (isBlockedIP ip)) (Errorf "origin address resolves to blocked IP")
                            end) ips.

Definition validateOriginScheme (scheme : CDNOriginScheme) : result unit :=
  if bool_decide (scheme ∈ [CDNOriginHTTP; CDNOriginHTTPS]) then Ok tt
  else if bool_decide (scheme = "") then Err (Errorf "origin scheme is required")
  else Err (Errorf "invalid origin scheme").

Definition validateOrigin (o : CDNOrigin) (allowPrivate : bool) : result unit :=
  if bool_decide (origin_Address o = "") then Err (Errorf "origin address is required")
  else
    _ ← (if allowPrivate then Ok tt else wrap_err "origin address" (validateOriginAddress (origin_Address o)));
    _ ← validateOriginScheme (origin_Scheme o);
    _ ← guard_err (negb (origin_Weight o <? 1)) (Errorf "origin weight must be >= 1");
    _ ← guard_err (bool_decide (origin_HealthCheckPath o = "") || HasPrefix (origin_HealthCheckPath o) "/")
          (Errorf "health_check_path must start with '/'");
    guard_err (match origin_HealthCheckInterval o with Some n => negb (n <? 5) | None => true end)
      (Errorf "health_check_interval must be >= 5 seconds when set").
End validation.
