(* ===== verification/NodeSync.v ===== *)
(** * Configuration snapshots

    The loops of [GetNodeCDNConfig] and of the route service visit the groups of
    a node, list the rows of each group's tenant, and append the rows that
    qualify and were not appended before.  [select_rows] and [select_groups] are
    those loops on lists, and the lemmas say which rows they return. *)

From Stdlib Require Import ZArith Lia String.
From S2P Require Import Prelude Domain.

Section select.
Context {V : Type} (key : V -> ID).

Fixpoint select_rows (ok : V -> bool) (rows : list V) (seen : gset ID) : list V * gset ID :=
  match rows with
  | [] => ([], seen)
  | v :: rows =>
      if ok v && negb (bool_decide (key v ∈ seen)) then
        let r := select_rows ok rows ({[key v]} ∪ seen) in (v :: r.1, r.2)
      else select_rows ok rows seen
  end.

Context {G : Type} (rows : G -> list V) (ok : G -> V -> bool).

Fixpoint select_groups (gs : list G) (seen : gset ID) : list V :=
  match gs with
  | [] => []
  | g :: gs => let r := select_rows (ok g) (rows g) seen in r.1 ++ select_groups gs r.2
  end.

Lemma select_rows_seen f l seen :
  (select_rows f l seen).2 = list_to_set (key <$> (select_rows f l seen).1) ∪ seen.
Proof.
  revert seen. induction l as [|v l IH]; intros seen; cbn; [set_solver|].
  destruct (f v && _); [|apply IH]. cbn. rewrite IH. set_solver.
Qed.

Lemma select_rows_fresh f l seen :
  NoDup (key <$> (select_rows f l seen).1) /\ forall v, v ∈ (select_rows f l seen).1 -> key v ∉ seen.
Proof.
  revert seen. induction l as [|v l IH]; intros seen; cbn; [split; [constructor|by intros v ?%elem_of_nil]|].
  destruct (f v) eqn:Hf; cbn [andb]; [|apply IH]. case_bool_decide as Hv; cbn [negb]; [apply IH|].
  destruct (IH ({[key v]} ∪ seen)) as [Hnd Hfr]. cbn. split.
  - apply NoDup_cons. split; [|done]. intros (w & Hw & Hin)%list_elem_of_fmap. specialize (Hfr w Hin). set_solver.
  - intros w [->|Hw]%elem_of_cons; [done|]. specialize (Hfr w Hw). set_solver.
Qed.

Lemma select_rows_sound f l seen v : v ∈ (select_rows f l seen).1 -> v ∈ l /\ f v = true.
Proof.
  revert seen. induction l as [|w l IH]; intros seen; cbn; [by intros ?%elem_of_nil|].
  destruct (f w) eqn:Hf; cbn [andb]; [|intros Hv%IH; rewrite elem_of_cons; naive_solver].
  case_bool_decide; cbn [negb]; [intros Hv%IH; rewrite elem_of_cons; naive_solver|]. cbn.
  intros [->|Hv%IH]%elem_of_cons; rewrite elem_of_cons; naive_solver.
Qed.

Lemma select_rows_complete f l seen v : v ∈ l -> f v = true -> key v ∈ (select_rows f l seen).2.
Proof.
  revert seen. induction l as [|w l IH]; intros seen Hv Hf; [by apply elem_of_nil in Hv|]. cbn.
  apply elem_of_cons in Hv as [<-|Hv].
  - rewrite Hf. cbn [andb]. case_bool_decide as Hw; cbn [negb].
    + rewrite select_rows_seen. set_solver.
    + cbn. rewrite select_rows_seen. set_solver.
  - destruct (f w && _); cbn; by apply IH.
Qed.

Lemma select_groups_spec gs seen :
  NoDup (key <$> select_groups gs seen) /\
  (forall v, v ∈ select_groups gs seen -> key v ∉ seen /\ exists g, g ∈ gs /\ v ∈ rows g /\ ok g v = true) /\
  (forall g v, g ∈ gs -> v ∈ rows g -> ok g v = true -> key v ∈ seen \/ key v ∈ key <$> select_groups gs seen).
Proof.
  revert seen. induction gs as [|g gs IH]; intros seen.
  { split_and!; [constructor|by intros v ?%elem_of_nil|by intros g v ?%elem_of_nil]. }
  cbn [select_groups]. destruct (select_rows_fresh (ok g) (rows g) seen) as [Hnd1 Hfr1].
  pose proof (select_rows_seen (ok g) (rows g) seen) as Hseen.
  destruct (IH (select_rows (ok g) (rows g) seen).2) as (Hnd2 & Hs2 & Hc2). split_and!.
  - rewrite fmap_app, NoDup_app. split_and!; [done| |done]. intros k Hk (w & -> & Hw)%list_elem_of_fmap.
    apply Hs2 in Hw as [Hw _]. rewrite Hseen in Hw. set_solver.
  - intros v [Hv|Hv]%elem_of_app.
    + split; [by apply Hfr1|]. apply select_rows_sound in Hv as [Hv Hok]. exists g. rewrite elem_of_cons. auto.
    + apply Hs2 in Hv as [Hv (g' & Hg' & ?)]. split; [rewrite Hseen in Hv; set_solver|].
      exists g'. rewrite elem_of_cons. auto.
  - intros g' v [->|Hg']%elem_of_cons Hv Hok; rewrite fmap_app, elem_of_app.
    + pose proof (select_rows_complete _ _ seen _ Hv Hok) as Hk. rewrite Hseen, elem_of_union, elem_of_list_to_set in Hk.
      tauto.
    + destruct (Hc2 g' v Hg' Hv Hok) as [Hk|Hk]; [|tauto]. rewrite Hseen, elem_of_union, elem_of_list_to_set in Hk. tauto.
Qed.

(** The rows returned are the rows that qualify in some group, each once. *)
Lemma select_groups_exact gs (all : list V) :
  (forall g v, g ∈ gs -> v ∈ rows g -> v ∈ all) ->
  (forall v w, v ∈ all -> w ∈ all -> key v = key w -> v = w) ->
  NoDup (key <$> select_groups gs ∅) /\
  forall v, v ∈ select_groups gs ∅ <-> exists g, g ∈ gs /\ v ∈ rows g /\ ok g v = true.
Proof.
  intros Hall Hinj. destruct (select_groups_spec gs ∅) as (Hnd & Hs & Hc). split; [done|]. intros v. split.
  - intros Hv. by apply Hs in Hv as [_ ?].
  - intros (g & Hg & Hv & Hok). destruct (Hc g v Hg Hv Hok) as [?|(w & Hk & Hw)%list_elem_of_fmap]; [set_solver|].
    assert (v = w) as ->; [|done]. apply Hinj; [by eapply Hall| |done].
    apply Hs in Hw as [_ (g' & Hg' & Hw & _)]. by eapply Hall.
Qed.
End select.
