(* ===== verification/CdnService.v ===== *)
(** * CDN service (internal/cdn/cdn.go, internal/cdn/service.go)

    Site and origin management on the SQLite tables and the snapshot a node
    polls.  Random IDs and the clock are arguments of the operations. *)

From Stdlib Require Import ZArith Lia Ascii String.
From S2P Require Import Prelude GoStrings GoNet Regex Domain Storage StoreDns StoreFleet StoreCdn NodeSync.
From S2P Require Import DnsValidate DnsService Cache DiskCache GoHttp CdnGuards CdnProxy CdnValidate.

Open Scope Z_scope.

(** ** Requests *)

Record CreateSiteRequest := mkCreateSiteRequest {
  csr_TenantID : ID; csr_Name : string; csr_Domains : list string; csr_TLSMode : TLSMode;
  csr_CacheEnabled : bool; csr_CacheTTL : Z; csr_CompressionEnabled : bool; csr_RateLimitRPS : option Z;
  csr_NodeGroupID : option ID; csr_HeaderRules : string; csr_WAFEnabled : bool; csr_WAFMode : string
}.

Record UpdateSiteRequest := mkUpdateSiteRequest {
  usr_Name : option string; usr_Domains : option (list string); usr_TLSMode : option TLSMode;
  usr_CacheEnabled : option bool; usr_CacheTTL : option Z; usr_CompressionEnabled : option bool;
  usr_RateLimitRPS : option Z; usr_NodeGroupID : option ID; usr_HeaderRules : string;
  usr_WAFEnabled : option bool; usr_WAFMode : option string; usr_Status : option CDNSiteStatus;
  usr_ClearNodeGroup : bool; usr_ClearRateLimit : bool
}.

Record CreateOriginRequest := mkCreateOriginRequest {
  cor_SiteID : ID; cor_Address : string; cor_Scheme : CDNOriginScheme; cor_Weight : Z;
  cor_HealthCheckPath : string; cor_HealthCheckInterval : option Z
}.

Record UpdateOriginRequest := mkUpdateOriginRequest {
  uor_Address : option string; uor_Scheme : option CDNOriginScheme; uor_Weight : option Z;
  uor_HealthCheckPath : option string; uor_HealthCheckInterval : option Z; uor_Status : option CDNOriginStatus
}.

Section service.
Context (unmarshal_rules : string -> option (list HeaderRule)).
(** What the resolver of the controller answers during one call. *)
Context (resolve : string -> option (list string)).
Context (allowPrivateOrigins : bool).

(** ** Sites *)

Definition CreateSite (newID : ID) (now : Time) (req : CreateSiteRequest) : stM SqlState CDNSite :=
  let site := mkCDNSite newID (csr_TenantID req) (csr_Name req) (csr_Domains req) (csr_TLSMode req) None
    (csr_CacheEnabled req) (csr_CacheTTL req) (csr_CompressionEnabled req) (csr_RateLimitRPS req)
    (csr_NodeGroupID req) (csr_HeaderRules req) (csr_WAFEnabled req) (csr_WAFMode req) "" 0 0 in
  _ ← wrap "invalid site" (lift (validateSite unmarshal_rules site));
  wrap "create site" (sqlite_CreateCDNSite now site).

Definition apply_site_update (req : UpdateSiteRequest) (s : CDNSite) : CDNSite :=
  mkCDNSite (site_ID s) (site_TenantID s) (set_if (usr_Name req) (site_Name s))
    (set_if (usr_Domains req) (site_Domains s)) (set_if (usr_TLSMode req) (site_TLSMode s)) (site_TLSCertID s)
    (set_if (usr_CacheEnabled req) (site_CacheEnabled s)) (set_if (usr_CacheTTL req) (site_CacheTTL s))
    (set_if (usr_CompressionEnabled req) (site_CompressionEnabled s))
    (if usr_ClearRateLimit req then None else set_ptr_if (usr_RateLimitRPS req) (site_RateLimitRPS s))
    (if usr_ClearNodeGroup req then None else set_ptr_if (usr_NodeGroupID req) (site_NodeGroupID s))
    (if bool_decide (usr_HeaderRules req = "") then site_HeaderRules s else usr_HeaderRules req)
    (set_if (usr_WAFEnabled req) (site_WAFEnabled s)) (set_if (usr_WAFMode req) (site_WAFMode s))
    (set_if (usr_Status req) (site_Status s)) (site_CreatedAt s) (site_UpdatedAt s).

Definition UpdateSite (id : ID) (now : Time) (req : UpdateSiteRequest) : stM SqlState CDNSite :=
  site ← sqlite_GetCDNSite id;
  let site := apply_site_update req site in
  _ ← wrap "invalid site" (lift (validateSiteUpdate unmarshal_rules site));
  wrap "update site" (sqlite_UpdateCDNSite now site).

Definition DeleteSite (id : ID) : stM SqlState unit := sqlite_DeleteCDNSite id.

(** ** Origins *)

Definition origin_of (newID : ID) (req : CreateOriginRequest) : CDNOrigin :=
  mkCDNOrigin newID (cor_SiteID req) (cor_Address req) (cor_Scheme req)
    (if cor_Weight req =? 0 then 1 else cor_Weight req)
    (cor_HealthCheckPath req) (cor_HealthCheckInterval req) "" 0 0.

Definition CreateOrigin (newID : ID) (now : Time) (req : CreateOriginRequest) : stM SqlState CDNOrigin :=
  _ ← wrap "site lookup" (sqlite_GetCDNSite (cor_SiteID req));
  let origin := origin_of newID req in
  _ ← wrap "invalid origin" (lift (validateOrigin resolve origin allowPrivateOrigins));
  wrap "create origin" (sqlite_CreateCDNOrigin now origin).

Definition apply_origin_update (req : UpdateOriginRequest) (o : CDNOrigin) : CDNOrigin :=
  mkCDNOrigin (origin_ID o) (origin_SiteID o) (set_if (uor_Address req) (origin_Address o))
    (set_if (uor_Scheme req) (origin_Scheme o)) (set_if (uor_Weight req) (origin_Weight o))
    (set_if (uor_HealthCheckPath req) (origin_HealthCheckPath o))
    (set_ptr_if (uor_HealthCheckInterval req) (origin_HealthCheckInterval o))
    (set_if (uor_Status req) (origin_Status o)) (origin_CreatedAt o) (origin_UpdatedAt o).

Definition UpdateOrigin (id : ID) (now : Time) (req : UpdateOriginRequest) : stM SqlState CDNOrigin :=
  origin ← sqlite_GetCDNOrigin id;
  let origin := apply_origin_update req origin in
  _ ← wrap "invalid origin" (lift (validateOrigin resolve origin allowPrivateOrigins));
  wrap "update origin" (sqlite_UpdateCDNOrigin now origin).

Definition DeleteOrigin (id : ID) : stM SqlState unit := sqlite_DeleteCDNOrigin id.

Definition PurgeSiteCache (siteID : ID) : stM SqlState unit :=
  _ ← wrap "site lookup" (sqlite_GetCDNSite siteID);
  mret tt.
End service.

(** ** Config sync *)

Fixpoint sync_sites (gid : ID) (sites : list CDNSite) (seenSites : gset ID) (acc : list SiteWithOrigins)
    : stM SqlState (gset ID * list SiteWithOrigins) :=
  match sites with
  | [] => mret (seenSites, acc)
  | site :: sites =>
      if negb (bool_decide (site_NodeGroupID site = Some gid)) then sync_sites gid sites seenSites acc
      else if negb (bool_decide (site_Status site = CDNSiteActive)) then sync_sites gid sites seenSites acc
      else if bool_decide (site_ID site ∈ seenSites) then sync_sites gid sites seenSites acc
      else
        origins ← wrap "list origins for site" (sqlite_ListCDNOrigins (site_ID site) limit10000);
        sync_sites gid sites ({[site_ID site]} ∪ seenSites) (acc ++ [mkSWO site origins.1])
  end.

Fixpoint sync_site_groups (groups : list NodeGroup) (seenSites : gset ID) (acc : list SiteWithOrigins)
    : stM SqlState (list SiteWithOrigins) :=
  match groups with
  | [] => mret acc
  | group :: groups =>
      sites ← wrap "list sites for group" (sqlite_ListCDNSites (ng_TenantID group) limit10000);
      r ← sync_sites (ng_ID group) sites.1 seenSites acc;
      sync_site_groups groups r.1 r.2
  end.

Definition GetNodeCDNConfig (nodeID : ID) : stM SqlState NodeCDNConfig :=
  _ ← wrap "get node" (GetNode nodeID);
  groups ← wrap "list node groups" (ListNodeGroups_ByNode nodeID);
  sites ← sync_site_groups groups ∅ [];
  mret (mkNodeCDNConfig sites).
