(* ===== verification/CdnValidateProofs.v ===== *)
(** * What the CDN validators accept

    [internal] says which addresses [isBlockedIP] blocks in terms of their bytes;
    the lemmas on [validateSiteUpdate] and [validateOrigin] turn an accepted site
    or origin into facts about its fields. *)

From Stdlib Require Import ZArith Lia Ascii String.
From S2P Require Import Prelude GoStrings GoNet Regex Domain DnsValidate Cache DiskCache GoHttp CdnGuards CdnProxy CdnValidate.

Open Scope Z_scope.

(** ** Blocked addresses *)

(** Loopback 127/8, link-local 169.254/16 and 224.0.0/24, private 10/8, 172.16/12
    and 192.168/16, unspecified 0.0.0.0. *)
Definition internal4 (a b c d : Z) : Prop :=
  a = 127 \/ (a = 169 /\ b = 254) \/ (a = 224 /\ b = 0 /\ c = 0) \/ a = 10 \/ (a = 172 /\ 16 <= b <= 31) \/
  (a = 192 /\ b = 168) \/ (a = 0 /\ b = 0 /\ c = 0 /\ d = 0).

(** ::1, ::, link-local fe80::/10 and ff?2::/16, unique local fc00::/7. *)
Definition internal6 (ip : IP) : Prop :=
  ip = IPv6loopback \/ ip = IPv6unspecified \/
  exists b0 b1 rest, ip = b0 :: b1 :: rest /\
    ((b0 = 254 /\ 128 <= b1 <= 191) \/ (b0 = 255 /\ b1 mod 16 = 2) \/ 252 <= b0 <= 253).

Definition internal (ip : IP) : Prop :=
  match To4 ip with
  | Some [a; b; c; d] => internal4 a b c d
  | _ => internal6 ip
  end.

Lemma land_byte_masks b :
  is_byte b ->
  Z.land b 255 = b /\ Z.land b 0 = 0 /\ (Z.land b 240 = 16 <-> 16 <= b <= 31) /\
  (Z.land b 254 = 252 <-> 252 <= b <= 253) /\ (Z.land b 192 = 128 <-> 128 <= b <= 191) /\
  (Z.land b 15 = 2 <-> b mod 16 = 2).
Proof.
  intros Hb. byte_cases b; split_and!; try reflexivity;
    (split; intros H; first [lia|reflexivity|vm_compute in H; first [discriminate H|lia|reflexivity]]).
Qed.

Definition nets : list IPNet :=
  [mkIPNet [10; 0; 0; 0] [255; 0; 0; 0]; mkIPNet [172; 16; 0; 0] [255; 240; 0; 0]; mkIPNet [192; 168; 0; 0] [255; 255; 0; 0];
   mkIPNet (252 :: replicate 15 0) (254 :: replicate 15 0)].

Lemma existsb_nets (f : IPNet -> bool) :
  existsb (fun cidr => match ParseCIDR cidr with Some (_, n) => f n | None => false end) privateRanges =
  existsb f nets.
Proof. vm_compute. reflexivity. Qed.

Definition metadata : list IP :=
  [v4InV6Prefix ++ [169; 254; 169; 254]; [253; 0; 14; 194] ++ replicate 10 0 ++ [2; 84]].
Lemma existsb_metadata (f : IP -> bool) :
  existsb (fun mip => match ParseIP mip with Some x => f x | None => f [] end) metadataIPs = existsb f metadata.
Proof. vm_compute. reflexivity. Qed.

Lemma isBlockedIP_unfold ip :
  isBlockedIP ip =
  IsLoopback ip || (IsLinkLocalUnicast ip || IsLinkLocalMulticast ip) || existsb (fun n => IPNet_Contains n ip) nets ||
  existsb (IP_Equal ip) metadata || IsUnspecified ip.
Proof. unfold isBlockedIP. by rewrite existsb_nets, existsb_metadata. Qed.

Lemma To4_four a b c d : To4 [a; b; c; d] = Some [a; b; c; d].
Proof. reflexivity. Qed.
Lemma To4_mapped a b c d : To4 (v4InV6Prefix ++ [a; b; c; d]) = Some [a; b; c; d].
Proof. reflexivity. Qed.

Lemma IP_Equal_same ip x : length ip = length x -> IP_Equal ip x = true <-> ip = x.
Proof. intros Hl. unfold IP_Equal. rewrite (bool_decide_true (_ = _)) by done. apply bool_decide_eq_true. Qed.

Lemma contains_v4 a b c d x0 x1 x2 x3 y0 y1 y2 y3 :
  IPNet_Contains (mkIPNet [x0; x1; x2; x3] [y0; y1; y2; y3]) (v4InV6Prefix ++ [a; b; c; d]) = true <->
  Z.land x0 y0 = Z.land a y0 /\ Z.land x1 y1 = Z.land b y1 /\ Z.land x2 y2 = Z.land c y2 /\ Z.land x3 y3 = Z.land d y3.
Proof.
  unfold IPNet_Contains, networkNumberAndMask. cbn [net_ip net_mask]. rewrite To4_four, To4_mapped.
  cbn [default id length]. rewrite (bool_decide_true (4 = 4)%nat) by done. rewrite bool_decide_true by done.
  cbn [andb]. rewrite bool_decide_eq_true. unfold land_bytes. cbn [zip_with].
  split; [intros [=]; split_and!; congruence|intros (-> & -> & -> & ->); done].
Qed.

Lemma contains_v6_v4 a b c d x m : length x = 15%nat -> length m = 16%nat ->
  IPNet_Contains (mkIPNet (252 :: x) m) (v4InV6Prefix ++ [a; b; c; d]) = false.
Proof.
  intros Hx Hm. unfold IPNet_Contains, networkNumberAndMask. cbn [net_ip net_mask]. rewrite To4_mapped.
  assert (To4 (252 :: x) = None) as ->.
  { unfold To4. rewrite (bool_decide_false (length (252 :: x) = 4%nat)) by (cbn; lia).
    rewrite bool_decide_false; [done|]. by intros [_ [=]]. }
  cbn [default id length]. rewrite Hm, Hx. rewrite (bool_decide_false (16 = 4)%nat), (bool_decide_true (16 = 16)%nat) by done.
  cbn [length]. rewrite Hx. by rewrite (bool_decide_false (4 = 16)%nat).
Qed.

Lemma blocked_v4 a b c d :
  is_byte a -> is_byte b -> is_byte c -> is_byte d ->
  isBlockedIP (v4InV6Prefix ++ [a; b; c; d]) = true <-> internal4 a b c d.
Proof.
  intros Ha Hb Hc Hd. rewrite isBlockedIP_unfold. unfold nets, metadata. cbn [existsb]. rewrite !orb_true_iff.
  rewrite contains_v6_v4 by done. rewrite !contains_v4.
  destruct (land_byte_masks a Ha) as (-> & _), (land_byte_masks b Hb) as (-> & -> & Hb' & _),
    (land_byte_masks c Hc) as (_ & -> & _), (land_byte_masks d Hd) as (_ & -> & _).
  change (Z.land 172 255) with 172. change (Z.land 10 255) with 10. change (Z.land 192 255) with 192.
  change (Z.land 168 255) with 168. change (Z.land 16 240) with 16. change (Z.land 0 0) with 0.
  unfold IsLoopback, IsLinkLocalUnicast, IsLinkLocalMulticast, IsUnspecified, internal4.
  rewrite !To4_mapped, !orb_true_iff, !IP_Equal_same by done. cbn [lookup list_lookup].
  rewrite !bool_decide_eq_true, !(inj_iff Some). split.
  - assert (Hb'' : 16 = Z.land b 240 -> 16 <= b <= 31) by (intros E; apply Hb'; congruence).
    unfold IPv4zero, IPv6unspecified, v4InV6Prefix. intros H.
    destruct_or?; destruct_and?; try done; try tauto; simplify_eq/=; tauto.
  - intros H. destruct_or?; destruct_and?; subst; try tauto. rewrite (proj2 Hb') by done. tauto.
Qed.

Lemma contains_v4_v6 ip x m :
  To4 ip = None -> length ip = 16%nat -> length x = 4%nat -> length m = 4%nat -> IPNet_Contains (mkIPNet x m) ip = false.
Proof.
  intros H4 Hip Hx Hm. unfold IPNet_Contains, networkNumberAndMask. cbn [net_ip net_mask]. rewrite H4.
  assert (To4 x = Some x) as -> by (unfold To4; by rewrite bool_decide_true). cbn [default id].
  rewrite Hm, Hx, (bool_decide_true (4 = 4)%nat) by done. cbn [length]. rewrite Hip, Hx. by rewrite (bool_decide_false (16 = 4)%nat).
Qed.

Lemma land_zeros rest : zip_with Z.land rest (replicate (length rest) 0) = replicate (length rest) 0.
Proof. induction rest as [|x rest IH]; [done|]. cbn [length replicate zip_with]. by rewrite Z.land_0_r, IH. Qed.

Lemma contains_ula b0 rest :
  To4 (b0 :: rest) = None -> length rest = 15%nat -> is_byte b0 ->
  IPNet_Contains (mkIPNet (252 :: replicate 15 0) (254 :: replicate 15 0)) (b0 :: rest) = true <-> 252 <= b0 <= 253.
Proof.
  intros H4 Hl Hb. unfold IPNet_Contains.
  assert (networkNumberAndMask (mkIPNet (252 :: replicate 15 0) (254 :: replicate 15 0)) =
          Some (252 :: replicate 15 0, 254 :: replicate 15 0)) as -> by reflexivity.
  rewrite H4. cbn [default id length]. rewrite Hl, length_replicate, bool_decide_true by done. cbn [andb].
  rewrite bool_decide_eq_true. unfold land_bytes. cbn [zip_with].
  rewrite <-Hl, land_zeros. rewrite <-(length_replicate (length rest) 0) at 2. rewrite land_zeros, length_replicate.
  destruct (land_byte_masks b0 Hb) as (_ & _ & _ & <- & _). change (Z.land 252 254) with 252.
  split; [intros [=]; congruence|by intros ->].
Qed.

Lemma blocked_v6 ip :
  To4 ip = None -> length ip = 16%nat -> Forall is_byte ip -> isBlockedIP ip = true <-> internal6 ip.
Proof.
  intros H4 Hl Hb. rewrite isBlockedIP_unfold. unfold nets, metadata. cbn [existsb].
  rewrite !(contains_v4_v6 ip) by done. destruct ip as [|b0 [|b1 rest]]; [done..|].
  apply Forall_cons in Hb as [Hb0 [Hb1 Hb]%Forall_cons]. rewrite !orb_true_iff.
  rewrite contains_ula; [|done|cbn in *; lia|done].
  unfold IsLoopback, IsLinkLocalUnicast, IsLinkLocalMulticast, IsUnspecified, internal6.
  rewrite H4, !orb_true_iff, !IP_Equal_same by (rewrite Hl; reflexivity).
  rewrite (bool_decide_true (length _ = 16%nat)) by done. cbn [andb]. rewrite !andb_true_iff, !Z.eqb_eq.
  destruct (land_byte_masks b1 Hb1) as (_ & _ & _ & _ & -> & ->). split.
  - intros H. destruct_or?; destruct_and?; try done; try tauto; try (right; right; exists b0, b1, rest; split; [done|tauto]).
    + exfalso. rewrite H in H4. vm_compute in H4. discriminate H4.
    + right. right. exists b0, b1, rest. split; [done|]. injection H as -> -> _. lia.
    + exfalso. rewrite H in H4. vm_compute in H4. discriminate H4.
  - intros [H|[H|(c0 & c1 & r & [= -> -> ->] & H)]]; tauto.
Qed.

Lemma isBlockedIP_spec ip : length ip = 16%nat -> Forall is_byte ip -> isBlockedIP ip = true <-> internal ip.
Proof.
  intros Hl Hb. unfold internal. destruct (To4 ip) as [v4|] eqn:H4; [|by apply blocked_v6].
  unfold To4 in H4. rewrite Hl, (bool_decide_false (16 = 4)%nat) in H4 by done. case_bool_decide as Hp; [|done].
  destruct Hp as [_ Hp]. injection H4 as <-.
  pose proof (take_drop 12 ip) as Hip. rewrite Hp in Hip.
  assert (Hd : length (drop 12 ip) = 4%nat) by (by rewrite length_drop, Hl).
  assert (Hbd : Forall is_byte (drop 12 ip)) by (by apply Forall_drop).
  destruct (drop 12 ip) as [|a [|b [|c [|d [|]]]]]; try done. rewrite <-Hip, !Forall_cons in *.
  destruct Hbd as (? & ? & ? & ? & _). by apply blocked_v4.
Qed.

(** ** Accepted origins *)

Lemma check_all_Ok {A} (f : A -> result unit) l : check_all f l = Ok tt <-> Forall (fun x => f x = Ok tt) l.
Proof.
  induction l as [|x l IH]; cbn; [by rewrite Forall_nil|]. rewrite Forall_cons, <-IH.
  unfold mbind, result_bind. destruct (f x) as [[]|]; naive_solver.
Qed.

Lemma cut_first_None s c : ContainsByte s c = false -> cut_first s c = None.
Proof.
  induction s as [|d s IH]; intros H; [done|]. cbn in *. apply orb_false_iff in H as [Hd Hs].
  apply bool_decide_eq_false in Hd. rewrite bool_decide_false by congruence. by rewrite IH.
Qed.

(** A literal address, with or without a port, is looked up as itself. *)
Lemma LookupHost_literal resolve host ip : ParseIP host = Some ip -> LookupHost resolve host = Some [host].
Proof.
  intros Hip. unfold LookupHost. rewrite bool_decide_false by (by intros ->).
  assert (ParseAddr_ok host = true) as ->; [|done]. unfold ParseAddr_ok.
  assert (Hp : ContainsByte host "%" = false).
  { unfold ParseIP, ParseAddr in Hip. by destruct (ContainsByte host "%"). }
  rewrite (cut_first_None _ _ Hp). apply bool_decide_eq_true. unfold ParseIP in Hip.
  destruct (ParseAddr host) as [a|] eqn:E; [by exists a|done].
Qed.

Definition internal_host (host : string) : Prop :=
  exists b, b ∈ blockedHosts /\ (ToLower host = b \/ HasSuffix (ToLower host) ("." +:+ b) = true).

Lemma validateOriginAddress_Ok resolve address :
  validateOriginAddress resolve address = Ok tt ->
  ~ internal_host (origin_host address) /\
  (forall ip, ParseIP (origin_host address) = Some ip -> ~ internal ip) /\
  (forall ips s ip, LookupHost resolve (origin_host address) = Some ips -> s ∈ ips -> ParseIP s = Some ip -> ~ internal ip).
Proof.
  unfold validateOriginAddress. cbv zeta. destruct (existsb _ blockedHosts) eqn:Hb; [done|]. intros Hrun.
  apply rbind_Ok in Hrun as (ips & Hips & Hall). rewrite check_all_Ok, Forall_forall in Hall.
  assert (Hsafe : forall s ip, s ∈ ips -> ParseIP s = Some ip -> ~ internal ip).
  { intros s ip Hs Hip Hint. specialize (Hall s Hs). rewrite Hip in Hall. apply guard_Ok in Hall.
    destruct (ParseIP_shape _ _ Hip) as [Hby Hlen]. apply isBlockedIP_spec in Hint; [|done..]. by rewrite Hint in Hall. }
  split_and!.
  - intros (b & Hin & Hm). pose proof (existsb_false _ _ _ Hb Hin) as Hf. cbv beta in Hf.
    apply orb_false_iff in Hf as [Hf1%bool_decide_eq_false Hf2]. destruct Hm; congruence.
  - intros ip Hip. rewrite (LookupHost_literal _ _ _ Hip) in Hips. injection Hips as <-. apply (Hsafe _ _ ltac:(by left) Hip).
  - intros ips' s ip Hl Hs Hip. rewrite Hl in Hips. injection Hips as <-. by eapply Hsafe.
Qed.

(** What every stored origin satisfies. *)
Record origin_valid (allowPrivate : bool) (o : CDNOrigin) : Prop := {
  ov_address : origin_Address o <> "";
  ov_scheme : origin_Scheme o = CDNOriginHTTP \/ origin_Scheme o = CDNOriginHTTPS;
  ov_weight : 1 <= origin_Weight o;
  ov_path : origin_HealthCheckPath o = "" \/ HasPrefix (origin_HealthCheckPath o) "/" = true;
  ov_interval n : origin_HealthCheckInterval o = Some n -> 5 <= n;
  ov_name : allowPrivate = false -> ~ internal_host (origin_host (origin_Address o));
  ov_literal ip : allowPrivate = false -> ParseIP (origin_host (origin_Address o)) = Some ip -> ~ internal ip
}.

Lemma validateOriginScheme_Ok sch u : validateOriginScheme sch = Ok u -> sch = CDNOriginHTTP \/ sch = CDNOriginHTTPS.
Proof.
  unfold validateOriginScheme. case_bool_decide as Hin; [|by case_bool_decide].
  apply elem_of_cons in Hin as [?|[?|[]%elem_of_nil]%elem_of_cons]; auto.
Qed.

Lemma validateOrigin_Ok resolve o allow : validateOrigin resolve o allow = Ok tt -> origin_valid allow o.
Proof.
  unfold validateOrigin. case_bool_decide as Ha; [done|]. intros Hrun. inv_ok Hrun.
  assert (Hsafe : allow = false -> ~ internal_host (origin_host (origin_Address o)) /\
    forall ip, ParseIP (origin_host (origin_Address o)) = Some ip -> ~ internal ip).
  { intros ->. apply rwrap_Ok in Hrun0. destruct a. by apply validateOriginAddress_Ok in Hrun0 as (? & ? & _). }
  split; try done.
  - by eapply validateOriginScheme_Ok.
  - match goal with H : negb (_ <? 1) = true |- _ => apply negb_true_iff, Z.ltb_ge in H; lia end.
  - match goal with H : _ || _ = true |- _ => apply orb_true_iff in H as [H%bool_decide_eq_true|H]; auto end.
  - intros n Hn. rewrite Hn in *. match goal with H : negb (n <? 5) = true |- _ => apply negb_true_iff, Z.ltb_ge in H; lia end.
  - intros H. by apply Hsafe.
  - intros ip H Hip. by apply Hsafe.
Qed.

(** ** Accepted sites *)

Section sites.
Context (unmarshal_rules : string -> option (list HeaderRule)).

Definition rule_valid (r : HeaderRule) : Prop :=
  hr_Header r <> "" /\ (hr_Action r ∈ ["add"; "set"] /\ hr_Value r <> "" \/ hr_Action r = "remove").

Record site_valid (s : CDNSite) : Prop := {
  sv_name : site_Name s <> "" /\ strlen (site_Name s) <= 255;
  sv_domains : Forall (fun d => validateDomain d = Ok tt) (site_Domains s);
  sv_tls : site_TLSMode s ∈ [TLSModeAuto; TLSModeManual; TLSModeDisabled];
  sv_ttl : 0 <= site_CacheTTL s;
  sv_rps n : site_RateLimitRPS s = Some n -> 0 < n;
  sv_rules : site_HeaderRules s <> "" -> exists rules, unmarshal_rules (site_HeaderRules s) = Some rules /\ Forall rule_valid rules;
  sv_waf : site_WAFMode s ∈ ["detect"; "block"; ""]
}.

Lemma validateRule_Ok r : validateRule r = Ok tt -> rule_valid r.
Proof.
  unfold validateRule, rule_valid. case_bool_decide; [done|]. case_bool_decide.
  - intros H1%guard_Ok%negb_true_iff%bool_decide_eq_false. auto.
  - intros H1%guard_Ok%bool_decide_eq_true. auto.
Qed.

Lemma validateTLSMode_Ok mode u : validateTLSMode mode = Ok u -> mode ∈ [TLSModeAuto; TLSModeManual; TLSModeDisabled].
Proof. unfold validateTLSMode. case_bool_decide; [done|by case_bool_decide]. Qed.
Lemma validateWAFMode_Ok mode u : validateWAFMode mode = Ok u -> mode ∈ ["detect"; "block"; ""].
Proof. unfold validateWAFMode. by case_bool_decide. Qed.
Lemma validate_name_Ok s u : validate_name s = Ok u -> site_Name s <> "" /\ strlen (site_Name s) <= 255.
Proof. unfold validate_name. case_bool_decide; [done|]. intros H1%guard_Ok%negb_true_iff%Z.ltb_ge. auto. Qed.
Lemma validateHeaderRules_Ok raw u :
  validateHeaderRules unmarshal_rules raw = Ok u -> exists rules, unmarshal_rules raw = Some rules /\ Forall rule_valid rules.
Proof.
  unfold validateHeaderRules. destruct (unmarshal_rules raw) as [rules|]; [|done]. destruct u. intros H%check_all_Ok.
  exists rules. split; [done|]. exact (Forall_impl _ _ _ H validateRule_Ok).
Qed.

Lemma validateSiteUpdate_Ok s : validateSiteUpdate unmarshal_rules s = Ok tt -> site_valid s.
Proof.
  unfold validateSiteUpdate. intros Hrun. apply rbind_Ok in Hrun as ([] & Hname & Hrun).
  apply rbind_Ok in Hrun as ([] & Hdoms & Hrun). unfold validate_rest in Hrun. inv_ok Hrun. split.
  - by eapply validate_name_Ok.
  - apply check_all_Ok in Hdoms. refine (Forall_impl _ _ _ Hdoms _). intros d Hd. by apply rwrap_Ok in Hd.
  - by eapply validateTLSMode_Ok.
  - match goal with H : negb (_ <? 0) = true |- _ => apply negb_true_iff, Z.ltb_ge in H; lia end.
  - intros n Hn. rewrite Hn in *. match goal with H : negb (n <=? 0) = true |- _ => apply negb_true_iff, Z.leb_gt in H; lia end.
  - intros Hne. rewrite bool_decide_false in * by done.
    match goal with H : wrap_err _ _ = Ok _ |- _ => apply rwrap_Ok in H; by eapply validateHeaderRules_Ok end.
  - by eapply validateWAFMode_Ok.
Qed.

Lemma validateSite_Ok s : validateSite unmarshal_rules s = Ok tt -> site_valid s /\ site_Domains s <> [].
Proof.
  intros Hrun. unfold validateSite in Hrun. apply rbind_Ok in Hrun as ([] & H1 & Hrun).
  apply rbind_Ok in Hrun as ([] & H2 & Hrun). apply guard_Ok, negb_true_iff, bool_decide_eq_false in H2. split; [|done].
  apply validateSiteUpdate_Ok. unfold validateSiteUpdate. rewrite H1. exact Hrun.
Qed.
End sites.
