(* ===== verification/CdnServiceTheorems.v ===== *)
(** * CDN service: tables and snapshots *)

From Stdlib Require Import ZArith Lia Ascii String.
From S2P Require Import Prelude GoStrings GoNet Regex Domain Storage StoreDns StoreFleet StoreCdn NodeSync.
From S2P Require Import DnsValidate DnsService Cache DiskCache GoHttp CdnGuards CdnProxy CdnValidate CdnService CdnValidateProofs.

Open Scope Z_scope.

(** ** Invariant of the CDN tables *)

Section tables.
Context (unmarshal_rules : string -> option (list HeaderRule)) (allowPrivate : bool).

Record cdn_inv (d : DB) : Prop := {
  ci_sites k s : cdn_sites d !! k = Some s ->
    site_ID s = k /\ site_valid unmarshal_rules s /\ NoDup (site_Domains s);
  ci_origins k o : cdn_origins d !! k = Some o ->
    origin_ID o = k /\ origin_valid allowPrivate o /\ is_Some (cdn_sites d !! origin_SiteID o)
}.

(** Its parts: what holds of each row by itself, the references of the origins, and
    that no site is without a domain. *)
Record cdn_rows (d : DB) : Prop := {
  cr_sites k s : cdn_sites d !! k = Some s ->
    site_ID s = k /\ site_valid unmarshal_rules s /\ NoDup (site_Domains s);
  cr_origins k o : cdn_origins d !! k = Some o -> origin_ID o = k /\ origin_valid allowPrivate o
}.
Definition origins_owned (d : DB) : Prop :=
  forall k o, cdn_origins d !! k = Some o -> is_Some (cdn_sites d !! origin_SiteID o).
Definition sites_named (d : DB) : Prop := forall k s, cdn_sites d !! k = Some s -> site_Domains s <> [].

Lemma cdn_inv_parts d : cdn_inv d <-> cdn_rows d /\ origins_owned d.
Proof.
  split.
  - intros [H1 H2]. split; [split; [exact H1|]|]; intros k o (? & ? & ?)%H2; done.
  - intros [[H1 H2] H3]. split; [exact H1|]. intros k o Ho. destruct (H2 _ _ Ho). split_and!; [done..|exact (H3 _ _ Ho)].
Qed.

(** One call of the service; the resolver may answer differently each time. *)
Inductive cdn_op :=
| OpCreateSite (newID : ID) (now : Time) (req : CreateSiteRequest)
| OpUpdateSite (id : ID) (now : Time) (req : UpdateSiteRequest)
| OpDeleteSite (id : ID)
| OpCreateOrigin (resolve : string -> option (list string)) (newID : ID) (now : Time) (req : CreateOriginRequest)
| OpUpdateOrigin (resolve : string -> option (list string)) (id : ID) (now : Time) (req : UpdateOriginRequest)
| OpDeleteOrigin (id : ID).

Definition ignore {A} (m : stM SqlState A) : stM SqlState unit := _ ← m; mret tt.

Definition run_cdn (op : cdn_op) : stM SqlState unit :=
  match op with
  | OpCreateSite i t req => ignore (CreateSite unmarshal_rules i t req)
  | OpUpdateSite i t req => ignore (UpdateSite unmarshal_rules i t req)
  | OpDeleteSite i => DeleteSite i
  | OpCreateOrigin res i t req => ignore (CreateOrigin res allowPrivate i t req)
  | OpUpdateOrigin res i t req => ignore (UpdateOrigin res allowPrivate i t req)
  | OpDeleteOrigin i => DeleteOrigin i
  end.

Definition cdn_same (d d' : DB) : Prop := cdn_sites d' = cdn_sites d /\ cdn_origins d' = cdn_origins d.

(** A call of the service that [ok] admits, on a connection that does or does not
    enforce foreign keys, or a statement of another component; the next call may get
    another connection. *)
Definition cdn_step (ok : bool -> cdn_op -> Prop) (s s' : SqlState) : Prop :=
  (exists op r s1, ok (sq_fk s) op /\ run_cdn op s = (r, s1) /\ sq_db s' = sq_db s1) \/ cdn_same (sq_db s) (sq_db s').

Definition any_call (fk : bool) (op : cdn_op) : Prop := True.
Definition enforced_call (fk : bool) (op : cdn_op) : Prop := fk = true.
(** Not an update that takes away the last domain of a site. *)
Definition naming_call (fk : bool) (op : cdn_op) : Prop :=
  match op with OpUpdateSite _ _ req => usr_Domains req <> Some [] | _ => True end.

(** What a call keeps: the rows always; the references where deletions cascade; the
    domains unless [op] takes them away. *)
Definition cdn_kept (cascades named : Prop) (d d' : DB) : Prop :=
  cdn_rows d' /\ (cascades -> origins_owned d -> origins_owned d') /\ (named -> sites_named d -> sites_named d').

Lemma cdn_kept_same P Q d d' : cdn_same d d' -> cdn_rows d -> cdn_kept P Q d d'.
Proof.
  intros [Hs Ho] [H1 H2]. unfold cdn_kept, origins_owned, sites_named.
  split; [split|split]; rewrite ?Hs, ?Ho; auto.
Qed.

Lemma cdn_kept_refl P Q d : cdn_rows d -> cdn_kept P Q d d.
Proof. by apply cdn_kept_same. Qed.

Lemma ignore_run {A} (m : stM SqlState A) s r s' : ignore m s = (r, s') -> exists x, m s = (x, s') /\ is_Ok x = is_Ok r.
Proof. unfold ignore, mbind, stM_bind. destruct (m s) as [[a|e] s1] eqn:E; intros [= <- <-]; eauto. Qed.

Lemma new_site_valid now s : site_valid unmarshal_rules s -> site_valid unmarshal_rules (new_site now s).
Proof.
  intros [? ? ? Httl ? ? ?]. split; try done. cbn. destruct (Z.eqb_spec (site_CacheTTL s) 0); [|done]. lia.
Qed.
Lemma merge_site_valid now s old :
  site_valid unmarshal_rules s -> site_valid unmarshal_rules (merge_site (set_site_UpdatedAt now s) old).
Proof. intros []. by split. Qed.
Lemma new_origin_valid now o : origin_valid allowPrivate o -> origin_valid allowPrivate (new_origin now o).
Proof.
  intros [? Hs Hw ? ? ? ?]. split; try done; cbn.
  - rewrite bool_decide_false; [done|]. by destruct Hs as [->| ->].
  - destruct (Z.eqb_spec (origin_Weight o) 0); lia.
Qed.
Lemma merge_origin_valid now o old :
  origin_valid allowPrivate o -> origin_valid allowPrivate (merge_origin (set_origin_UpdatedAt now o) old).
Proof. intros []. by split. Qed.

Lemma insert_site_kept (P Q : Prop) d k s :
  cdn_rows d -> site_ID s = k -> site_valid unmarshal_rules s -> NoDup (site_Domains s) ->
  (Q -> sites_named d -> site_Domains s <> []) -> cdn_kept P Q d (upd_cdn_sites (fun m => <[k := s]> m) d).
Proof.
  intros [H1 H2] Hk Hv Hnd Hdom. split; [split; cbn; [|exact H2]|split].
  - intros k' s' [[<- <-]|[_ H]]%lookup_insert_Some; [done|by apply H1].
  - intros _ Hown k' o Ho%Hown. cbn. destruct (decide (k = origin_SiteID o)) as [->|Hne].
    + rewrite lookup_insert_eq. eauto.
    + by rewrite lookup_insert_ne.
  - intros HQ Hn k' s'. cbn. intros [[_ <-]|[_ H]]%lookup_insert_Some; [exact (Hdom HQ Hn)|exact (Hn _ _ H)].
Qed.

Lemma insert_origin_kept (P Q : Prop) d k o :
  cdn_rows d -> origin_ID o = k -> origin_valid allowPrivate o ->
  (origins_owned d -> is_Some (cdn_sites d !! origin_SiteID o)) ->
  cdn_kept P Q d (upd_cdn_origins (fun m => <[k := o]> m) d).
Proof.
  intros [H1 H2] Hk Hv Hs. split; [split; cbn; [exact H1|]|split].
  - intros k' o' [[<- <-]|[_ H]]%lookup_insert_Some; [done|by apply H2].
  - intros _ Hown k' o'. cbn. intros [[_ <-]|[_ H]]%lookup_insert_Some; [exact (Hs Hown)|exact (Hown _ _ H)].
  - done.
Qed.

Lemma GetCDNSite_run id s r s' :
  sqlite_GetCDNSite id s = (r, s') -> sq_db s' = sq_db s /\
  forall x, r = Ok x -> exists row, cdn_sites (sq_db s) !! id = Some row /\ x = loadCDNSiteDomains row.
Proof.
  intros [Hd Hok]%sql_query_inv. split; [done|]. intros x ->. specialize (Hok x eq_refl). cbv beta in Hok.
  destruct (cdn_sites (sq_db s) !! id) as [row|]; simplify_eq. eauto.
Qed.
Lemma GetCDNOrigin_run id s r s' :
  sqlite_GetCDNOrigin id s = (r, s') -> sq_db s' = sq_db s /\ forall x, r = Ok x -> cdn_origins (sq_db s) !! id = Some x.
Proof.
  intros [Hd Hok]%sql_query_inv. split; [done|]. intros x ->. specialize (Hok x eq_refl). cbv beta in Hok.
  by destruct (cdn_origins (sq_db s) !! id) as [row|]; simplify_eq.
Qed.

Lemma CreateSite_kept P Q i t req s r s' :
  CreateSite unmarshal_rules i t req s = (r, s') -> cdn_rows (sq_db s) -> cdn_kept P Q (sq_db s) (sq_db s').
Proof.
  unfold CreateSite. cbv zeta. intros Hrun Hi. step_run Hrun; [|by apply cdn_kept_refl]. destruct x.
  apply validateSite_Ok in Hm as [Hv Hdom]. apply wrap_run in Hrun as [(site & Hc & ->)|(e & Hc & ->)].
  - apply CreateCDNSite_run in Hc as (-> & _ & Hnd & ->). by apply insert_site_kept; try apply new_site_valid.
  - apply CreateCDNSite_run in Hc. rewrite Hc. by apply cdn_kept_refl.
Qed.

Lemma load_domains_named row : site_Domains row <> [] -> site_Domains (loadCDNSiteDomains row) <> [].
Proof.
  cbn. intros Hne Hs. apply Hne. apply Permutation_nil. rewrite <- Hs. apply merge_sort_Permutation.
Qed.

Lemma UpdateSite_kept P i t req s r s' :
  UpdateSite unmarshal_rules i t req s = (r, s') -> cdn_rows (sq_db s) ->
  cdn_kept P (usr_Domains req <> Some []) (sq_db s) (sq_db s').
Proof.
  unfold UpdateSite. cbv zeta. intros Hrun Hi. step_run Hrun; [|apply GetCDNSite_run in Hm as [-> _]; by apply cdn_kept_refl].
  apply GetCDNSite_run in Hm as [Hd Hrow]. destruct (Hrow _ eq_refl) as (row & Hr & ->). rewrite <-Hd in *. clear Hd Hrow.
  step_run Hrun; [|by apply cdn_kept_refl]. destruct x.
  apply validateSiteUpdate_Ok in Hm. apply wrap_run in Hrun as [(site & Hc & ->)|(e & Hc & ->)].
  - apply UpdateCDNSite_run in Hc as (-> & Hnd & old & Hold & ->).
    apply insert_site_kept; [done| |by apply merge_site_valid|done|]; [by apply (cr_sites _ Hi _ _ Hold)|].
    intros HQ Hn. cbn. destruct (usr_Domains req) as [l|]; cbn; [congruence|]. by apply load_domains_named, (Hn _ _ Hr).
  - apply UpdateCDNSite_run in Hc. rewrite Hc. by apply cdn_kept_refl.
Qed.

Lemma CreateOrigin_kept P Q res i t req s r s' :
  CreateOrigin res allowPrivate i t req s = (r, s') -> cdn_rows (sq_db s) -> cdn_kept P Q (sq_db s) (sq_db s').
Proof.
  unfold CreateOrigin. cbv zeta. intros Hrun Hi. step_run Hrun; [|apply GetCDNSite_run in Hm as [-> _]; by apply cdn_kept_refl].
  apply GetCDNSite_run in Hm as [Hd Hs]. destruct (Hs _ eq_refl) as (row & Hrow & _). rewrite <-Hd in *. clear Hd Hs.
  step_run Hrun; [|by apply cdn_kept_refl]. destruct x0.
  apply validateOrigin_Ok in Hm. apply wrap_run in Hrun as [(o & Hc & ->)|(e & Hc & ->)].
  - apply sql_insert_inv in Hc as (-> & _ & _ & ->). apply insert_origin_kept; [done|done|by apply new_origin_valid|]. by eexists.
  - apply sql_insert_inv in Hc. rewrite Hc. by apply cdn_kept_refl.
Qed.

Lemma UpdateOrigin_kept P Q res i t req s r s' :
  UpdateOrigin res allowPrivate i t req s = (r, s') -> cdn_rows (sq_db s) -> cdn_kept P Q (sq_db s) (sq_db s').
Proof.
  unfold UpdateOrigin. cbv zeta. intros Hrun Hi. step_run Hrun; [|apply GetCDNOrigin_run in Hm as [-> _]; by apply cdn_kept_refl].
  apply GetCDNOrigin_run in Hm as [Hd _]. rewrite <-Hd in *. clear Hd. step_run Hrun; [|by apply cdn_kept_refl]. destruct x.
  apply validateOrigin_Ok in Hm. apply wrap_run in Hrun as [(o & Hc & ->)|(e & Hc & ->)].
  - apply sql_update_inv in Hc as (-> & [old Hold]%has_key_true & ->). cbn in Hold.
    destruct (cr_origins _ Hi _ _ Hold) as [Hid _]. unfold upd_cdn_origins. rewrite (alter_insert_eq _ _ _ old Hold).
    apply (insert_origin_kept P Q _ _ _ Hi); [exact Hid|by apply merge_origin_valid|]. intros Hown. exact (Hown _ _ Hold).
  - apply sql_update_inv in Hc. rewrite Hc. by apply cdn_kept_refl.
Qed.

Lemma DeleteSite_kept Q i s r s' :
  DeleteSite i s = (r, s') -> cdn_rows (sq_db s) -> cdn_kept (sq_fk s = true) Q (sq_db s) (sq_db s').
Proof.
  unfold DeleteSite, sqlite_DeleteCDNSite. intros Hrun%sql_update_inv Hi.
  destruct r; [|rewrite Hrun; by apply cdn_kept_refl]. destruct Hrun as (_ & _ & ->). destruct Hi as [H1 H2].
  split; [split|split].
  - cbn. intros k s0 H. apply H1. destruct (sq_fk s); cbn in H; by apply lookup_delete_Some in H as [_ ?].
  - cbn. intros k o H. apply H2. destruct (sq_fk s); cbn in H; [by apply map_lookup_filter_Some in H as [? _]|done].
  - intros Hfk Hown k o. rewrite Hfk. cbn. intros [H Hne]%map_lookup_filter_Some. cbn in Hne. rewrite lookup_delete_ne by done. by eapply Hown.
  - intros _ Hn k s0 H. apply (Hn k). destruct (sq_fk s); cbn in H; by apply lookup_delete_Some in H as [_ ?].
Qed.

Lemma DeleteOrigin_kept P Q i s r s' : DeleteOrigin i s = (r, s') -> cdn_rows (sq_db s) -> cdn_kept P Q (sq_db s) (sq_db s').
Proof.
  intros Hrun%sql_update_inv Hi. destruct r; [|rewrite Hrun; by apply cdn_kept_refl]. destruct Hrun as (_ & _ & ->). destruct Hi as [H1 H2].
  split; [split; cbn; [exact H1|]|split; [|done]].
  - intros k o [_ H]%lookup_delete_Some. by apply H2.
  - intros _ Hown k o. cbn. intros [_ H]%lookup_delete_Some. by eapply Hown.
Qed.

Lemma run_cdn_kept op s r s' : run_cdn op s = (r, s') -> cdn_rows (sq_db s) ->
  cdn_kept (sq_fk s = true) (naming_call (sq_fk s) op) (sq_db s) (sq_db s').
Proof.
  intros Hrun. destruct op; cbn [run_cdn naming_call] in *; try (apply ignore_run in Hrun as (x & Hrun & _)).
  - by eapply CreateSite_kept.
  - by eapply UpdateSite_kept.
  - by eapply DeleteSite_kept.
  - by eapply CreateOrigin_kept.
  - by eapply UpdateOrigin_kept.
  - by eapply DeleteOrigin_kept.
Qed.

Lemma cdn_step_kept ok s s' : cdn_step ok s s' -> cdn_rows (sq_db s) ->
  cdn_kept (forall fk op, ok fk op -> fk = true) (forall fk op, ok fk op -> naming_call fk op) (sq_db s) (sq_db s').
Proof.
  intros [(op & r & s1 & Hok & Hrun & ->)|Hsame] Hi; [|by apply cdn_kept_same].
  destruct (run_cdn_kept _ _ _ _ Hrun Hi) as (H1 & H2 & H3). split_and!; [done|intros H; apply H2|intros H; apply H3]; by eapply H.
Qed.

Lemma cdn_reachable ok s s' : rtc (cdn_step ok) s s' -> cdn_rows (sq_db s) ->
  cdn_kept (forall fk op, ok fk op -> fk = true) (forall fk op, ok fk op -> naming_call fk op) (sq_db s) (sq_db s').
Proof.
  induction 1 as [|s1 s2 s3 Hst _ IH]; intros Hi; [by apply cdn_kept_refl|].
  destruct (cdn_step_kept _ _ _ Hst Hi) as (H1 & H2 & H3). destruct (IH H1) as (G1 & G2 & G3). split_and!; auto.
Qed.

Lemma cdn_reachable_inv s s' : rtc (cdn_step enforced_call) s s' -> cdn_inv (sq_db s) -> cdn_inv (sq_db s').
Proof.
  intros Hst [Hi Ho]%cdn_inv_parts. apply cdn_inv_parts. destruct (cdn_reachable _ _ _ Hst Hi) as (H1 & H2 & _).
  split; [exact H1|]. apply H2; [by intros fk op Hfk|exact Ho].
Qed.

Lemma cdn_inv_empty d : cdn_sites d = ∅ -> cdn_origins d = ∅ -> cdn_inv d.
Proof. intros Hs Ho. split; rewrite ?Hs, ?Ho; intros ? ?; by rewrite lookup_empty. Qed.
End tables.

(** ** The snapshot of a node *)

Definition site_ok (gid : ID) (s : CDNSite) : bool :=
  bool_decide (site_NodeGroupID s = Some gid) && bool_decide (site_Status s = CDNSiteActive).

(** The entry of a site: its (first 10000) origins by address. *)
Definition entry (d : DB) (s : CDNSite) : SiteWithOrigins :=
  mkSWO s (page limit10000 (merge_sort (by_name origin_Address) (origin_rows d (site_ID s)))).

(** The sites the service lists for a group. *)
Definition listed (d : DB) (g : NodeGroup) : list CDNSite :=
  loadCDNSiteDomains <$> page limit10000 (merge_sort (by_name site_Name) (site_rows d (ng_TenantID g))).

Definition selected (d : DB) (groups : list NodeGroup) (seen : gset ID) : list CDNSite :=
  select_groups site_ID (listed d) (fun g => site_ok (ng_ID g)) groups seen.

Lemma sync_sites_run gid sites seen acc s r s' :
  sync_sites gid sites seen acc s = (r, s') -> sq_db s' = sq_db s /\ (calm s -> calm s' /\ is_Ok r = true) /\
  forall x, r = Ok x -> let y := select_rows site_ID (site_ok gid) sites seen in
    x = (y.2, acc ++ (entry (sq_db s) <$> y.1)).
Proof.
  revert seen acc s. induction sites as [|site sites IH]; intros seen acc s Hrun; cbn [sync_sites select_rows] in *.
  { injection Hrun as <- <-. split_and!; try done. intros x [= <-]. cbn. by rewrite app_nil_r. }
  assert (Hok : site_ok gid site =
    bool_decide (site_NodeGroupID site = Some gid) && bool_decide (site_Status site = CDNSiteActive)) by done.
  cbv zeta. rewrite Hok. clear Hok. repeat case_bool_decide; cbn [negb andb] in *; try exact (IH _ _ _ Hrun).
  apply bind_run in Hrun as [(l & s1 & Hl & Hrun)|(e & Hl & ->)].
  - apply wrap_Ok in Hl. pose proof Hl as [Hd Hv]%sql_query_ok. injection Hv as <-. cbn [fst] in Hrun.
    apply IH in Hrun as (Hd1 & Hc & Hx). rewrite Hd in *. split; [done|]. split.
    + intros Hs. apply Hc. unfold sqlite_ListCDNOrigins in Hl. rewrite calm_query in Hl by done. by injection Hl as <-.
    + intros x Hr. rewrite (Hx x Hr). cbn. by rewrite <-app_assoc.
  - apply wrap_Err in Hl as (e0 & -> & Hl). pose proof Hl as [Hd _]%sql_query_inv. split; [done|]. split; [|done].
    intros Hs. unfold sqlite_ListCDNOrigins in Hl. by rewrite calm_query in Hl.
Qed.

Lemma sync_site_groups_run groups seen acc s r s' :
  sync_site_groups groups seen acc s = (r, s') -> sq_db s' = sq_db s /\ (calm s -> calm s' /\ is_Ok r = true) /\
  forall x, r = Ok x -> x = acc ++ (entry (sq_db s) <$> selected (sq_db s) groups seen).
Proof.
  revert seen acc s. induction groups as [|g groups IH]; intros seen acc s Hrun; cbn [sync_site_groups] in *.
  { injection Hrun as <- <-. split_and!; try done. intros x [= <-]. cbn. by rewrite app_nil_r. }
  apply bind_run in Hrun as [(l & s1 & Hl & Hrun)|(e & Hl & ->)].
  - apply wrap_Ok in Hl. pose proof Hl as [Hd Hv]%sql_query_ok. injection Hv as <-. cbn [fst] in Hrun.
    fold (listed (sq_db s) g) in Hrun.
    assert (Hcs : calm s -> calm s1).
    { intros Hs. unfold sqlite_ListCDNSites in Hl. rewrite calm_query in Hl by done. by injection Hl as <-. }
    apply bind_run in Hrun as [(y & s2 & Hy & Hrun)|(e & Hy & ->)].
    + apply sync_sites_run in Hy as (Hd2 & Hc2 & Hy). rewrite (Hy _ eq_refl) in Hrun. cbn [fst snd] in Hrun.
      apply IH in Hrun as (Hd3 & Hc3 & Hx). rewrite Hd3, Hd2, Hd in *. split; [done|]. split; [naive_solver|].
      intros x Hr. rewrite (Hx x Hr). unfold selected. cbn [select_groups]. by rewrite fmap_app, app_assoc.
    + apply sync_sites_run in Hy as (Hd2 & Hc2 & _). rewrite Hd2, Hd. split; [done|]. split; [naive_solver|done].
  - apply wrap_Err in Hl as (e0 & -> & Hl). pose proof Hl as [Hd _]%sql_query_inv. split; [done|]. split; [|done].
    intros Hs. unfold sqlite_ListCDNSites in Hl. by rewrite calm_query in Hl.
Qed.

(** Rows that fit into one page of each list call. *)
Definition cdn_small (d : DB) : Prop :=
  (forall tid, Z.of_nat (length (site_rows d tid)) <= 10000) /\
  (forall sid, Z.of_nat (length (origin_rows d sid)) <= 10000).

(** The sites of the tables that node [n] must serve: active, and assigned to a
    group of the same tenant that the node is a member of. *)
Definition site_served_to (d : DB) (n : ID) (row : CDNSite) : Prop :=
  (exists k, cdn_sites d !! k = Some row) /\ site_Status row = CDNSiteActive /\
  exists gid g, node_groups d !! gid = Some g /\ (gid, n) ∈ node_group_memberships d /\
    site_NodeGroupID row = Some (ng_ID g) /\ site_TenantID row = ng_TenantID g.

Lemma listed_all d g : cdn_small d -> listed d g ≡ₚ loadCDNSiteDomains <$> site_rows d (ng_TenantID g).
Proof.
  intros [Hs _]. unfold listed. rewrite page_all; [|done|done|].
  - by rewrite merge_sort_Permutation.
  - rewrite merge_sort_Permutation. apply Hs.
Qed.

Lemma entry_origins d s : cdn_small d -> swo_Origins (entry d s) ≡ₚ origin_rows d (site_ID s).
Proof.
  intros [_ Ho]. cbn. rewrite page_all; [apply merge_sort_Permutation|done|done|]. rewrite merge_sort_Permutation. apply Ho.
Qed.

Lemma selected_spec d n groups :
  (forall k row, cdn_sites d !! k = Some row -> site_ID row = k) -> cdn_small d ->
  (forall g, g ∈ groups <-> exists gid, node_groups d !! gid = Some g /\ (gid, n) ∈ node_group_memberships d) ->
  NoDup (site_ID <$> selected d groups ∅) /\
  forall x, x ∈ selected d groups ∅ <-> exists row, site_served_to d n row /\ x = loadCDNSiteDomains row.
Proof.
  intros Hk Hsm Hg.
  destruct (select_groups_exact site_ID (listed d) (fun g => site_ok (ng_ID g)) groups
              (loadCDNSiteDomains <$> rows_of (cdn_sites d))) as [Hnd Hin].
  - intros g v _ Hv. rewrite (listed_all d g Hsm) in Hv. apply list_elem_of_fmap in Hv as (row & -> & Hr).
    apply list_elem_of_fmap. exists row. split; [done|]. by apply list_elem_of_filter in Hr as [_ ?].
  - intros v w (r1 & -> & [k1 H1]%elem_of_rows)%list_elem_of_fmap (r2 & -> & [k2 H2]%elem_of_rows)%list_elem_of_fmap Heq.
    cbn in Heq. rewrite (Hk _ _ H1), (Hk _ _ H2) in Heq. subst. congruence.
  - split; [exact Hnd|]. intros x. unfold selected. rewrite Hin. split.
    + intros (g & Hgin & Hx & Hok). rewrite (listed_all d g Hsm) in Hx.
      apply list_elem_of_fmap in Hx as (row & -> & [Ht Hr%elem_of_rows]%list_elem_of_filter).
      apply andb_true_iff in Hok as [Hgr%bool_decide_eq_true Hst%bool_decide_eq_true].
      apply Hg in Hgin as (gid & Hl & Hm). exists row. split; [|done]. split_and!; [done..|]. by exists gid, g.
    + intros (row & (Hr & Hst & gid & g & Hl & Hm & Hgr & Ht) & ->). exists g. split_and!.
      * apply Hg. eauto.
      * rewrite (listed_all d g Hsm). apply list_elem_of_fmap. exists row. split; [done|].
        apply list_elem_of_filter. split; [done|]. by apply elem_of_rows.
      * apply andb_true_iff. by rewrite !bool_decide_eq_true.
Qed.

Lemma GetNodeCDNConfig_run n s r s' :
  GetNodeCDNConfig n s = (r, s') ->
  sq_db s' = sq_db s /\
  (calm s -> is_Some (nodes (sq_db s) !! n) -> is_Ok r = true) /\
  forall cfg, r = Ok cfg -> exists groups,
    (forall g, g ∈ groups <-> exists gid, node_groups (sq_db s) !! gid = Some g /\ (gid, n) ∈ node_group_memberships (sq_db s)) /\
    ncc_Sites cfg = entry (sq_db s) <$> selected (sq_db s) groups ∅.
Proof.
  unfold GetNodeCDNConfig. intros Hrun. step_run Hrun.
  2:{ pose proof Hm as [Hd _]%sql_query_inv. split; [done|]. split; [|done]. intros Hs [nd Hn]. cbn in Hm.
      unfold sqlite_GetNode in Hm. rewrite calm_query, Hn in Hm by done. done. }
  pose proof Hm as [Hd _]%sql_query_inv. assert (Hc1 : calm s -> calm s0).
  { intros Hs. cbn in Hm. unfold sqlite_GetNode in Hm. rewrite calm_query in Hm by done. by injection Hm as _ <-. }
  clear Hm. rewrite <-Hd. step_run Hrun.
  2:{ pose proof Hm as [Hd1 _]%sql_query_inv. split; [done|]. split; [|done]. intros Hs%Hc1. cbn in Hm.
      unfold sqlite_ListNodeGroups_ByNode in Hm. by rewrite calm_query in Hm. }
  pose proof Hm as [Hd1 Hg]%sql_query_ok. injection Hg as Hg. assert (Hc2 : calm s0 -> calm s1).
  { intros Hs. cbn in Hm. unfold sqlite_ListNodeGroups_ByNode in Hm. rewrite calm_query in Hm by done. by injection Hm as _ <-. }
  clear Hm. rewrite <-Hd1. apply bind_run in Hrun as [(l & s2 & Hl & Hrun)|(e & Hl & ->)].
  - apply sync_site_groups_run in Hl as (Hd2 & _ & Hx). injection Hrun as <- <-. split; [done|]. split; [done|].
    intros cfg [= <-]. eexists. split; [|rewrite (Hx _ eq_refl); reflexivity].
    intros g. rewrite <-Hg, merge_sort_Permutation, Hd1. apply elem_of_groups_of_node.
  - apply sync_site_groups_run in Hl as (Hd2 & Hok & _). split; [done|]. split; [|done].
    intros Hs _. by destruct (Hok (Hc2 (Hc1 Hs))).
Qed.

(** ** Claims *)

(** C28: over every sequence of site and origin operations, with any failing
    statements, any answers of the resolver and any statements of other components
    in between, every stored site has a name, valid and distinct domains, a known
    TLS and WAF mode, a non-negative TTL, a positive rate limit and well-formed
    header rules; every stored origin has a known scheme, a positive weight and,
    unless private origins are allowed, an address whose host is neither a blocked
    name nor one that [net.ParseIP] reads as a loopback, link-local, private or
    unspecified address (it does not read an IPv6 address with a zone).  While no
    update sends an empty list of domains, every stored site has a domain.  When
    every call runs with foreign keys enforced, each stored origin belongs to a
    stored site. *)
Theorem cdn_tables_invariant (unmarshal_rules : string -> option (list HeaderRule)) (allowPrivate : bool) (s0 s : SqlState) :
  cdn_sites (sq_db s0) = ∅ -> cdn_origins (sq_db s0) = ∅ ->
  (rtc (cdn_step unmarshal_rules allowPrivate any_call) s0 s -> cdn_rows unmarshal_rules allowPrivate (sq_db s)) /\
  (rtc (cdn_step unmarshal_rules allowPrivate naming_call) s0 s -> sites_named (sq_db s)) /\
  (rtc (cdn_step unmarshal_rules allowPrivate enforced_call) s0 s -> origins_owned (sq_db s)).
Proof.
  intros Hs Ho. destruct (proj1 (cdn_inv_parts _ _ _) (cdn_inv_empty unmarshal_rules allowPrivate _ Hs Ho)) as [Hr Hown].
  split_and!; intros Hst; destruct (cdn_reachable _ _ _ _ _ Hst Hr) as (H1 & H2 & H3).
  - exact H1.
  - apply H3; [done|]. intros k x. by rewrite Hs, lookup_empty.
  - apply H2; [by intros fk op Hfk|exact Hown].
Qed.

(** A small deployment: one tenant, its group with one node, a site with an origin. *)
Definition cdn_db : DB :=
  upd_tenants (fun _ => {[1%N := mkTenant 1 "acme" "acme" TenantStatusActive "" 0 0]})
    (upd_nodes (fun _ => {[3%N := mkNode 3 (Some 1%N) "edge" "edge" "192.0.2.3" "" "" NodeStatusOnline "" "" 22 "root" None "" None None [] "" 0 0]})
      (upd_node_groups (fun _ => {[2%N := mkNodeGroup 2 1 "eu" "" 0 0]})
        (upd_node_group_memberships (fun _ => {[(2%N, 3%N)]}) emptyDB))).
Definition cdn_start : SqlState := mkSql cdn_db true [].
Definition no_rules (_ : string) : option (list HeaderRule) := Some [].
Definition no_dns (_ : string) : option (list string) := None.
Definition cdn_request : CreateSiteRequest :=
  mkCreateSiteRequest 1 "www" ["www.Example.org"] TLSModeAuto true 0 true None (Some 2%N) "" false "".
Definition cdn_origin_request (address : string) : CreateOriginRequest := mkCreateOriginRequest 4 address "https" 0 "" None.
Definition cdn_filled : SqlState :=
  (run_cdn no_rules false (OpCreateOrigin no_dns 5 8 (cdn_origin_request "198.51.100.7:443"))
    (run_cdn no_rules false (OpCreateSite 4 7 cdn_request) cdn_start).2).2.

Lemma cdn_filled_steps (ok : bool -> cdn_op -> Prop) :
  ok true (OpCreateSite 4 7 cdn_request) -> ok true (OpCreateOrigin no_dns 5 8 (cdn_origin_request "198.51.100.7:443")) ->
  rtc (cdn_step no_rules false ok) cdn_start cdn_filled.
Proof.
  intros H1 H2. eapply rtc_l; [|apply rtc_once]; left.
  - exists (OpCreateSite 4 7 cdn_request). do 2 eexists. split; [exact H1|]. split; [apply surjective_pairing|reflexivity].
  - exists (OpCreateOrigin no_dns 5 8 (cdn_origin_request "198.51.100.7:443")). do 2 eexists.
    split; [exact H2|]. split; [apply surjective_pairing|reflexivity].
Qed.

Lemma cdn_tables_invariant_witness :
  cdn_rows no_rules false (sq_db cdn_filled) /\ sites_named (sq_db cdn_filled) /\ origins_owned (sq_db cdn_filled) /\
  origin_Address <$> (cdn_origins (sq_db cdn_filled) !! 5%N) = Some "198.51.100.7:443".
Proof.
  destruct (cdn_tables_invariant no_rules false cdn_start cdn_filled eq_refl eq_refl) as (H1 & H2 & H3).
  split; [exact (H1 (cdn_filled_steps any_call I I))|]. split; [exact (H2 (cdn_filled_steps naming_call I I))|].
  split; [exact (H3 (cdn_filled_steps enforced_call eq_refl eq_refl))|]. vm_compute. reflexivity.
Defined.

(** An IPv6 literal with a zone passes the check of origin addresses
    whatever the resolver says, though the same address without the zone is
    rejected: [LookupHost] returns it as it is, and [ParseIP] does not read it. *)
Theorem zoned_origin_accepted (resolve : string -> option (list string)) :
  Forall (fun a => validateOriginAddress resolve a = Ok tt)
    ["[::1%lo]:80"; "::1%lo"; "[fe80::1%eth0]:8080"; "[::ffff:169.254.169.254%x]:80"; "[fd00:ec2::254%x]:80"] /\
  Forall (fun a => is_Ok (validateOriginAddress resolve a) = false)
    ["[::1]:80"; "::1"; "[fe80::1]:8080"; "[::ffff:169.254.169.254]:80"; "[fd00:ec2::254]:80"].
Proof. split; repeat constructor; vm_compute; reflexivity. Qed.
