(* ===== verification/CdnProxyProofs.v ===== *)
(** * CDN proxy: its caches stay sound

    The invariant of the caches behind the proxy, from which every cache call of
    a request returns: the memory cache represents a list, the disk cache
    accounts for its files, and a file tree that a disk cache left behind can be
    indexed again. *)

From Stdlib Require Import ZArith Lia Ascii String.
From S2P Require Import Prelude GoStrings GoNet Domain Cache DiskCache CacheTheorems DiskTheorems GoHttp CdnGuards CdnProxy.

Open Scope Z_scope.

Section caches.
Context (hashKey : string -> string).

(** ** Disk *)

(** Metadata files are stored under the hash of their key. *)
Definition files_ok (fs : Files) : Prop :=
  forall h m, fs !! (h, Meta) = Some (FMeta m) -> h = hashKey (dm_Key m) /\ dm_Key m <> "" /\ 0 <= dm_BodySize m.

Definition disk_ok (d : DiskCache) : Prop := accounted d /\ files_ok (d_fs d).

Lemma files_ok_sub fs fs' : files_ok fs -> fs' ⊆ fs -> files_ok fs'.
Proof. intros Hf Hs h m H. apply Hf. by eapply lookup_weaken. Qed.

Lemma removeFiles_sub h fs : removeFilesLocked h fs ⊆ fs.
Proof. unfold removeFilesLocked. etrans; [apply delete_subseteq|apply delete_subseteq]. Qed.

Lemma evictOldest_files d : d_fs (evictOldestLocked d) ⊆ d_fs d.
Proof.
  unfold evictOldestLocked. case_bool_decide; [done|].
  destruct (d_index d !! _); [apply removeFiles_sub|done].
Qed.

Lemma disk_evict_loop_files fuel bs d d' : disk_evict_loop fuel bs d = Some d' -> d_fs d' ⊆ d_fs d.
Proof.
  revert d. induction fuel as [|fuel IH]; intros d; cbn [disk_evict_loop]; destruct (_ && _); try done.
  - by intros [= <-].
  - intros H%IH. etrans; [exact H|apply evictOldest_files].
  - by intros [= <-].
Qed.

Lemma removeEntryLocked_ok k ie d : disk_ok d -> d_index d !! k = Some ie -> disk_ok (removeEntryLocked k ie d).
Proof.
  intros [Ha Hf] Hl. split; [by apply removeEntryLocked_accounted|]. eapply files_ok_sub; [done|apply removeFiles_sub].
Qed.

Lemma miss_disk_ok d : disk_ok d -> disk_ok (d_miss d).
Proof. intros [[] ?]. by split. Qed.

Lemma disk_Get_disk_ok now k d : disk_ok d -> disk_ok (disk_Get now k d).2.
Proof.
  intros Hd. unfold disk_Get. destruct (d_index d !! k) as [ie|] eqn:Hl; [|by apply miss_disk_ok].
  assert (Hrm := miss_disk_ok _ (removeEntryLocked_ok k ie d Hd Hl)).
  destruct (read_meta _) as [m|]; [|done]. destruct (_ && _); [done|].
  destruct (read_body _); [|done]. destruct Hd as [[] ?]. by split.
Qed.

Lemma disk_Put_files io now k body st h ttl d d' :
  k <> "" -> files_ok (d_fs d) -> disk_Put hashKey io now k body st h ttl d = Some d' -> files_ok (d_fs d').
Proof.
  intros Hne Hf. unfold disk_Put. destruct (shouldSkipCache h); [by intros [= <-]|].
  destruct (_ || _); [by intros [= <-]|]. intros Hput.
  apply bind_Some in Hput as (d1 & Hrun%disk_evict_loop_files & Hput).
  assert (Hf1 : files_ok (d_fs d1)).
  { eapply files_ok_sub; [exact Hf|]. etrans; [exact Hrun|].
    destruct (d_index d !! k); [apply removeFiles_sub|done]. }
  destruct io as [[] [] []]; cbn in Hput; simplify_eq; try done.
  - intros hh m H. cbn in H. apply lookup_insert_Some in H as [[[= <-] [= <-]]|[_ H]]; [cbn; split_and!; [done|done|lia]|].
    rewrite lookup_insert_ne in H by done. by apply Hf1.
  - eapply files_ok_sub; [done|apply delete_subseteq].
Qed.

Lemma disk_Put_disk_ok io now k body st h ttl d :
  disk_ok d -> k <> "" -> exists d', disk_Put hashKey io now k body st h ttl d = Some d' /\ disk_ok d'.
Proof.
  intros [Ha Hf] Hne.
  assert (exists d', disk_Put hashKey io now k body st h ttl d = Some d' /\ accounted d') as (d' & Hput & Ha').
  { destruct (shouldSkipCache h) eqn:Hskip; [exists d; unfold disk_Put; by rewrite Hskip|].
    destruct ((st <? 200) || (300 <=? st)) eqn:Hst; [exists d; unfold disk_Put; by rewrite Hskip, Hst|].
    apply orb_false_iff in Hst as [?%Z.ltb_ge ?%Z.leb_gt].
    destruct (disk_Put_run hashKey io now k body st h ttl d Ha Hskip ltac:(lia))
      as (d1 & _ & [Hu1 Hk1] & _ & _ & Hn & d2 & Hput & Hcase).
    exists d2. split; [done|]. destruct Hcase as [->|(_ & Hi & Hu & _)]; [by apply put_entry_accounted|].
    split; [congruence|]. by rewrite Hi. }
  exists d'. split_and!; [done|]. split; [done|]. by eapply disk_Put_files.
Qed.

Lemma disk_Purge_ok d : disk_ok d -> disk_ok (disk_Purge d).
Proof.
  intros [Ha Hf]. split; [split; cbn; [by rewrite total_empty|intros ??; by rewrite lookup_empty]|].
  cbn. eapply files_ok_sub; [done|]. generalize (di_hash <$> (map_to_list (d_index d)).*2) as hs.
  induction hs as [|hh hs IH]; [done|]. cbn [foldr]. etrans; [apply removeFiles_sub|done].
Qed.

(** ** Indexing a file tree again *)

Definition meta_of (f : (string * ext) * file) : option diskCacheMetadata :=
  match f with ((_, Meta), FMeta m) => Some m | _ => None end.

Lemma rebuild_step_meta d f :
  rebuild_step d f =
  match meta_of f with
  | Some m => mkDisk (d_fs d) (d_maxBytes d) (d_usedBytes d + dm_BodySize m)
                (<[dm_Key m := mkIndexEntry f.1.1 (dm_StoredAt m) (dm_BodySize m)]> (d_index d)) (d_hits d) (d_misses d)
  | None => d
  end.
Proof. by destruct f as [[? []] []]. Qed.

Lemma rebuild_ok (l : list ((string * ext) * file)) d :
  accounted d -> NoDup l.*1 ->
  (forall f m, f ∈ l -> meta_of f = Some m ->
     f.1 = (hashKey (dm_Key m), Meta) /\ dm_Key m <> "" /\ 0 <= dm_BodySize m /\ d_index d !! dm_Key m = None) ->
  accounted (foldl rebuild_step d l) /\ d_fs (foldl rebuild_step d l) = d_fs d.
Proof.
  revert d. induction l as [|f l IH]; intros d Ha Hnd Hl; cbn [foldl]; [done|].
  rewrite fmap_cons in Hnd. apply NoDup_cons in Hnd as [Hnew Hnd].
  destruct (meta_of f) as [m|] eqn:Hm; rewrite rebuild_step_meta, Hm.
  - destruct (Hl f m ltac:(left) Hm) as (Hf & Hne & Hsz & Hn).
    lazymatch goal with |- accounted (foldl _ ?d1 _) /\ _ => destruct (IH d1) as [Ha1 Hf1]; [|done| |by split] end.
    + destruct Ha as [Hu Hk]. split; cbn.
      * rewrite total_insert, Hu by done. cbn. lia.
      * intros k ie [[<- <-]|[_ H]]%lookup_insert_Some; [by cbn|eauto].
    + intros f' m' Hin Hm'. destruct (Hl f' m' ltac:(by right) Hm') as (Hf' & ? & ? & Hn'). split_and!; try done.
      cbn. rewrite lookup_insert_ne; [done|]. intros Heq. apply Hnew.
      rewrite Hf, Heq, <-Hf'. by apply list_elem_of_fmap_2.
  - apply IH; [done..|]. intros f' m' Hin. apply Hl. by right.
Qed.

Lemma NewDiskCache_ok fs maxBytes : files_ok fs -> disk_ok (NewDiskCache fs maxBytes).
Proof.
  intros Hf. unfold NewDiskCache, rebuildIndex. cbn [d_fs].
  destruct (rebuild_ok (map_to_list fs) (mkDisk fs maxBytes 0 ∅ 0 0)) as [Ha Hfs].
  - split; [done|]. intros ??. cbn. by rewrite lookup_empty.
  - apply NoDup_fst_map_to_list.
  - intros [[h x] f] m Hin%elem_of_map_to_list Hm. destruct x, f; try done. cbn in Hm. simplify_eq.
    destruct (Hf _ _ Hin) as (-> & ? & ?). cbn. by rewrite lookup_empty.
  - split; [done|]. by rewrite Hfs.
Qed.

(** ** Memory *)

Definition mem_ok (c : Cache) : Prop := exists L, repr c L /\ Forall (fun e => ce_key e <> "") L.

Lemma NewCache_ok n : mem_ok (NewCache n).
Proof. exists []. split; [apply NewCache_repr|by apply Forall_nil]. Qed.

Lemma mem_ok_bounded c : mem_ok c -> Len c <= c_maxEntries c.
Proof. intros (L & (ls & Hl & _ & _ & Hlen) & _). unfold Len. by rewrite (lru_size _ _ Hl). Qed.

Lemma Purge_ok c : mem_ok c -> mem_ok (Purge c).
Proof. intros (L & Hr & _). exists []. split; [by eapply Purge_repr|by apply Forall_nil]. Qed.

Lemma removeL_Forall (P : cacheEntry -> Prop) k L : Forall P L -> Forall P (removeL k L).
Proof. rewrite !Forall_forall. intros HP e [_ He]%list_elem_of_filter. by apply HP. Qed.

Lemma Get_ok now k c : mem_ok c -> mem_ok (Get now k c).2.
Proof.
  intros (L & Hr & Hk). destruct (Get_repr now k c L Hr) as [_ Hr']. eexists. split; [exact Hr'|].
  unfold spec_get. destruct (lookupL k L) as [e|] eqn:He; [|done].
  destruct (expired now e); cbn [snd]; [by apply removeL_Forall|].
  constructor; [|by apply removeL_Forall]. unfold lookupL in He. apply head_Some_elem_of in He.
  apply list_elem_of_filter in He as [_ Hin]. rewrite Forall_forall in Hk. by apply Hk.
Qed.

Lemma Put_ok now k body st h ttl c :
  mem_ok c -> k <> "" ->
  exists c' ev, Put now k body st h ttl c = Some (c', ev) /\ mem_ok c' /\ Forall (fun e => ce_key e <> "") ev.
Proof.
  intros (L & Hr & Hk) Hne. destruct (Put_repr now k body st h ttl c L Hr) as (c' & ev & Hput & Hr' & Hev & _).
  exists c', ev. split_and!; [done| |].
  - eexists. split; [exact Hr'|]. unfold spec_put. destruct (_ || _); [done|].
    destruct (lookupL k L); cbn [fst]; (constructor; [done|]); [by apply removeL_Forall|by apply Forall_take].
  - assert (Hp : Forall (fun e => ce_key e <> "") (payload <$> ev)).
    { rewrite Hev. unfold spec_put. destruct (_ || _); [by apply Forall_nil|].
      destruct (lookupL k L); cbn [snd]; [by apply Forall_nil|]. apply Forall_reverse. by apply Forall_drop. }
    rewrite Forall_fmap in Hp. exact Hp.
Qed.

(** ** Both backends *)

Definition hybrid_ok (h : HybridCache) : Prop := mem_ok (hc_memory h) /\ disk_ok (hc_disk h).
Definition backend_ok (b : CacheBackend) : Prop :=
  match b with CMem c => mem_ok c | CHybrid h => hybrid_ok h end.

Lemma spill_ok io now ev d :
  disk_ok d -> Forall (fun e => ce_key e <> "") ev -> exists d', spill hashKey io now ev d = Some d' /\ disk_ok d'.
Proof.
  intros Hd Hev. revert d Hd. induction Hev as [|e ev He _ IH]; intros d Hd; cbn [spill]; [by exists d|].
  destruct (disk_Put_disk_ok io now (ce_key e) (ce_body e) (ce_statusCode e) (ce_headers e) (ce_ttl e) d Hd He)
    as (d1 & -> & Hd1). cbn. by apply IH.
Qed.

Lemma backend_Put_ok io now k body st h ttl b :
  backend_ok b -> k <> "" -> exists b', backend_Put hashKey io now k body st h ttl b = Some b' /\ backend_ok b'.
Proof.
  intros Hb Hne. destruct b as [c|hc]; cbn in *.
  - destruct (Put_ok now k body st h ttl c Hb Hne) as (c' & ev & -> & Hc & _). cbn. by exists (CMem c').
  - destruct Hb as [Hm Hd]. unfold hybrid_Put.
    destruct (Put_ok now k body st h ttl _ Hm Hne) as (c' & ev & -> & Hc & Hev). cbn.
    destruct (spill_ok io now ev _ Hd Hev) as (d' & -> & Hd'). cbn. eexists. by split.
Qed.

Lemma backend_Get_ok io now k b :
  backend_ok b -> k <> "" -> exists r b', backend_Get hashKey io now k b = Some (r, b') /\ backend_ok b'.
Proof.
  intros Hb Hne. destruct b as [c|hc]; cbn in *; [eexists _, _; split; [done|]; by apply Get_ok|].
  destruct Hb as [Hm Hd]. unfold hybrid_Get. assert (Hm' := Get_ok now k _ Hm).
  destruct (Get now k (hc_memory hc)) as [[e|] m] eqn:Hg; cbn [fst snd] in *; [by eexists _, _|].
  assert (Hd' := disk_Get_disk_ok now k _ Hd).
  destruct (disk_Get now k (hc_disk hc)) as [[e|] d] eqn:Hdg; cbn [fst snd] in *; [|by eexists _, _].
  destruct (Put_ok now k (ce_body e) (ce_statusCode e) (ce_headers e) (ce_ttl e) m Hm' Hne)
    as (c' & ev & -> & Hc & Hev). cbn. destruct (spill_ok io now ev d Hd' Hev) as (d' & -> & Hd''). cbn.
  eexists _, _. split; [done|]. split; [done|]. cbn.
  destruct (d_index d' !! k) as [ie|] eqn:Hi; [by apply removeEntryLocked_ok|done].
Qed.

Lemma backend_Purge_ok b : backend_ok b -> backend_ok (backend_Purge b).
Proof.
  destruct b as [c|hc]; cbn; [apply Purge_ok|]. intros [Hm Hd]. split; [by apply Purge_ok|by apply disk_Purge_ok].
Qed.

Lemma NewHybridCache_ok n fs mb : files_ok fs -> hybrid_ok (NewHybridCache n fs mb).
Proof. intros Hf. split; [apply NewCache_ok|by apply NewDiskCache_ok]. Qed.
End caches.
