(* ===== verification/CdnProxyTheorems.v ===== *)
(** * CDN proxy: lifecycle, caching, selection and health of origins *)

From Stdlib Require Import ZArith Lia Ascii String.
From S2P Require Import Prelude GoStrings GoNet Domain Cache DiskCache DiskTheorems GoHttp CdnGuards CdnProxy CdnProxyProofs.

Open Scope Z_scope.

(** ** Runs of the proxy *)

Inductive proxy_op :=
| PSetCache (dir : string) (maxBytes : Z)
| PStart (listen : bool) (addr : string)
| PStop (shutdown : result unit)
| PReconcile (mkdir : string * ID -> bool) (now : Z) (config : option NodeCDNConfig)
| PPurge (siteID : ID)
| PServe (exchange : Outgoing -> option Response) (e : HttpEnv) (r : Request)
| PCheck (get : string -> option Z) (l : loc).

Section run.
Context (hashKey gzip brotli : string -> string) (unmarshal_rules : string -> option (list HeaderRule)).

(** [None]: the process panics or a call does not return. *)
Definition proxy_step (op : proxy_op) (p : ProxyService) : option ProxyService :=
  match op with
  | PSetCache dir mb => Some (SetCacheConfig dir mb p)
  | PStart listen addr => Some (proxy_Start listen addr p).2
  | PStop sh => snd <$> proxy_Stop sh p
  | PReconcile mkdir now cfg => snd <$> proxy_Reconcile unmarshal_rules mkdir now cfg p
  | PPurge id => Some (PurgeCache id p).2
  | PServe ex e r => snd <$> proxy_ServeHTTP hashKey gzip brotli ex e r p
  | PCheck get l => Some (health_tick get l p)
  end.
Fixpoint run_proxy (ops : list proxy_op) (p : ProxyService) : option ProxyService :=
  match ops with [] => Some p | op :: ops => p ← proxy_step op p; run_proxy ops p end.

(** Configurations list each site once; [ok_op] also says that shutdowns succeed. *)
Definition config_ok (c : option NodeCDNConfig) : Prop :=
  NoDup ((fun swo => site_ID (swo_Site swo)) <$> config_sites c).
Definition ok_op (op : proxy_op) : Prop :=
  match op with PStop (Err _) => False | PReconcile _ _ c => config_ok c | _ => True end.

(** ** Invariant *)

Definition runtime_ok (sr : siteRuntime) : Prop :=
  forall b, sr_cache sr = Some b -> backend_ok hashKey b.

(** Some site is served by the runtime at [l]. *)
Definition current (p : ProxyService) (l : loc) : Prop := exists id, ps_siteByID p !! id = Some l.

Record proxy_inv (p : ProxyService) : Prop := {
  pi_fresh l : is_Some (ps_heap p !! l) -> (l < ps_fresh p)%positive;
  pi_byID id l : ps_siteByID p !! id = Some l ->
    exists sr, ps_heap p !! l = Some sr /\ site_ID (sr_site sr) = id;
  pi_sites d l : ps_sites p !! d = Some l ->
    current p l /\ exists sr, ps_heap p !! l = Some sr /\ d ∈ ToLower <$> site_Domains (sr_site sr);
  pi_open l sr hk : ps_heap p !! l = Some sr -> sr_healthChecker sr = Some hk ->
    hk_stop hk = Open /\ current p l \/ hk_stop hk = Closed /\ ~ current p l;
  pi_caches l sr : ps_heap p !! l = Some sr -> runtime_ok sr;
  pi_disk : map_Forall (fun _ fs => files_ok hashKey fs) (ps_disk p);
  pi_stopped : ps_running p = false -> ps_sites p = ∅ /\ ps_siteByID p = ∅
}.

Lemma byID_inj p id1 id2 l :
  proxy_inv p -> ps_siteByID p !! id1 = Some l -> ps_siteByID p !! id2 = Some l -> id1 = id2.
Proof. intros Hi (s1 & H1 & <-)%(pi_byID _ Hi) (s2 & H2 & <-)%(pi_byID _ Hi). by simplify_eq. Qed.

(** ** Changing one runtime *)

Definition stop_of (sr : siteRuntime) : option chan := hk_stop <$> sr_healthChecker sr.

Lemma put_runtime_inv p l sr sr' :
  proxy_inv p -> ps_heap p !! l = Some sr -> runtime_ok sr' -> sr_site sr' = sr_site sr ->
  stop_of sr' = stop_of sr -> proxy_inv (put_runtime l sr' p).
Proof.
  intros Hi Hl Hok Hs Hst. split; cbn.
  - intros l' H. apply (pi_fresh _ Hi). destruct (decide (l' = l)) as [->|Hne]; [by eauto|].
    by rewrite lookup_insert_ne in H.
  - intros id l' H. destruct (pi_byID _ Hi _ _ H) as (sr0 & Hsr0 & Hid).
    destruct (decide (l' = l)) as [->|Hne]; [|exists sr0; by rewrite lookup_insert_ne].
    rewrite lookup_insert_eq. exists sr'. split; [done|]. simplify_eq. by rewrite Hs.
  - intros d l' H. destruct (pi_sites _ Hi _ _ H) as (Hc & sr0 & Hsr0 & Hd). split; [exact Hc|].
    destruct (decide (l' = l)) as [->|Hne]; [|exists sr0; by rewrite lookup_insert_ne].
    rewrite lookup_insert_eq. exists sr'. split; [done|]. simplify_eq. by rewrite Hs.
  - intros l' sr0 hk H Hhk. destruct (decide (l' = l)) as [->|Hne].
    + rewrite lookup_insert_eq in H. simplify_eq. unfold stop_of in Hst. rewrite Hhk in Hst. cbn in Hst.
      destruct (sr_healthChecker sr) as [hk0|] eqn:Hhk0; [|done]. cbn in Hst. simplify_eq.
      destruct (pi_open _ Hi _ _ _ Hl Hhk0) as [[H1 H2]|[H1 H2]]; [left|right]; (split; [congruence|exact H2]).
    + rewrite lookup_insert_ne in H by done. exact (pi_open _ Hi _ _ _ H Hhk).
  - intros l' sr0 [[<- <-]|[_ H]]%lookup_insert_Some; [done|]. by apply (pi_caches _ Hi _ _ H).
  - apply Hi.
  - apply Hi.
Qed.

(** ** Stopping the checkers *)

Definition closed (sr : siteRuntime) : siteRuntime :=
  match sr_healthChecker sr with Some hk => set_checker (mkChecker (hk_origins hk) Closed) sr | None => sr end.

Lemma stop_all_spec (ls : list loc) h :
  NoDup ls -> (forall l sr, l ∈ ls -> h !! l = Some sr -> stop_of sr <> Some Closed /\ stop_of sr <> Some NoChan) ->
  exists h', stop_all h ls = Some h' /\ (forall l, l ∈ ls -> h' !! l = closed <$> h !! l) /\
    (forall l, l ∉ ls -> h' !! l = h !! l).
Proof.
  revert h. induction ls as [|l ls IH]; intros h Hnd Hopen; cbn [stop_all].
  { exists h. split_and!; [done|by intros ? ?%elem_of_nil|done]. }
  apply NoDup_cons in Hnd as [Hn Hnd].
  assert (exists h1, stop_runtime h l = Some h1 /\ h1 !! l = closed <$> h !! l /\ forall l', l' <> l -> h1 !! l' = h !! l')
    as (h1 & -> & H1 & H2).
  { unfold stop_runtime, closed. destruct (h !! l) as [sr|] eqn:Hl; [|by exists h].
    destruct (Hopen l sr ltac:(left) Hl) as [Hc Hnc]. unfold stop_of in Hc, Hnc.
    destruct (sr_healthChecker sr) as [[os []]|] eqn:Hk; cbn in *; try done.
    - eexists. split; [done|]. rewrite Hk. cbn. rewrite lookup_insert_eq. split; [done|]. intros. by apply lookup_insert_ne.
    - exists h. rewrite Hk. done. }
  cbn. destruct (IH h1 Hnd) as (h' & Hrun & Hin & Hout).
  { intros l' sr Hl'. rewrite H2 by (intros ->; done). apply Hopen. by right. }
  exists h'. split; [done|]. split.
  - intros l' [->|Hl']%elem_of_cons; [by rewrite Hout|]. rewrite Hin, H2; [done|intros ->; done|done].
  - intros l' [Hne Hl']%not_elem_of_cons. by rewrite Hout, H2.
Qed.

Lemma closed_props sr :
  sr_site (closed sr) = sr_site sr /\ sr_cache (closed sr) = sr_cache sr /\
  (forall hk, sr_healthChecker (closed sr) = Some hk -> hk_stop hk = Closed).
Proof. unfold closed. destruct (sr_healthChecker sr) eqn:E; cbn; split_and!; try done; intros; by simplify_eq. Qed.

(** After the loop no checker runs, and nothing else has changed. *)
Lemma stop_checkers_spec p :
  proxy_inv p ->
  exists h, stop_checkers p = Some (set_runtimes h p) /\
    (forall l, h !! l = (if decide (l ∈ (map_to_list (ps_siteByID p)).*2) then closed <$> ps_heap p !! l else ps_heap p !! l)) /\
    (forall l sr hk, h !! l = Some sr -> sr_healthChecker sr = Some hk -> hk_stop hk = Closed).
Proof.
  intros Hi. set (ls := (map_to_list (ps_siteByID p)).*2).
  assert (Hcur : forall l, l ∈ ls <-> current p l).
  { intros l. unfold ls, current. rewrite list_elem_of_fmap. split.
    - intros ([id l'] & -> & H%elem_of_map_to_list). by exists id.
    - intros [id H%elem_of_map_to_list]. by exists (id, l). }
  destruct (stop_all_spec ls (ps_heap p)) as (h & Hrun & Hin & Hout).
  { apply NoDup_fmap_2_strong; [|apply NoDup_map_to_list].
    intros [i1 l1] [i2 l2] H1%elem_of_map_to_list H2%elem_of_map_to_list Heq. cbn in Heq. subst l2.
    by rewrite (byID_inj _ _ _ _ Hi H1 H2). }
  { intros l sr Hl Hsr. unfold stop_of. destruct (sr_healthChecker sr) as [hk|] eqn:Hhk; [|done].
    destruct (pi_open _ Hi _ _ _ Hsr Hhk) as [[Ho _]|[_ Hn]]; [by rewrite fmap_Some_2 with (x := hk), Ho|].
    by apply Hcur in Hl. }
  exists h. unfold stop_checkers. fold ls. rewrite Hrun. split; [done|].
  assert (Hlook : forall l, h !! l = (if decide (l ∈ ls) then closed <$> ps_heap p !! l else ps_heap p !! l)).
  { intros l. destruct (decide (l ∈ ls)); [by apply Hin|by apply Hout]. }
  split; [exact Hlook|]. intros l sr hk Hl Hhk. rewrite Hlook in Hl. destruct (decide (l ∈ ls)) as [Hc|Hc].
  - apply fmap_Some in Hl as (sr0 & _ & ->). by apply closed_props in Hhk.
  - destruct (pi_open _ Hi _ _ _ Hl Hhk) as [[_ Ho]|[H _]]; [by apply Hcur in Ho|done].
Qed.

Lemma left_disk_ok p :
  (forall l sr, ps_heap p !! l = Some sr -> runtime_ok sr) ->
  map_Forall (fun _ fs => files_ok hashKey fs) (ps_disk p) ->
  map_Forall (fun _ fs => files_ok hashKey fs) (left_disk p).
Proof.
  intros Hc Hd. unfold left_disk. generalize (map_to_list (ps_siteByID p)) as ls. intros ls.
  revert Hd. generalize (ps_disk p) as disk. induction ls as [|[id l] ls IH]; intros disk Hd; cbn [foldl]; [done|].
  apply IH. unfold leave_files. cbn [fst snd]. destruct (ps_heap p !! l) as [sr|] eqn:Hl; cbn; [|done].
  destruct (sr_cache sr) as [[c|h]|] eqn:Hb; try done.
  apply map_Forall_insert_2; [|done]. by destruct (Hc _ _ Hl _ Hb) as [_ [_ ?]].
Qed.

(** What is left when the current runtimes have been stopped. *)
Lemma stopped_runtimes p :
  proxy_inv p ->
  exists h, stop_checkers p = Some (set_runtimes h p) /\
    (forall l, is_Some (h !! l) -> (l < ps_fresh p)%positive) /\
    (forall l sr, h !! l = Some sr -> runtime_ok sr) /\
    (forall l sr hk, h !! l = Some sr -> sr_healthChecker sr = Some hk -> hk_stop hk = Closed) /\
    map_Forall (fun _ fs => files_ok hashKey fs) (left_disk (set_runtimes h p)).
Proof.
  intros Hi. destruct (stop_checkers_spec p Hi) as (h & Hrun & Hlook & Hcl).
  assert (Hc : forall l sr, h !! l = Some sr -> runtime_ok sr).
  { intros l sr Hl. rewrite Hlook in Hl. destruct (decide _); [|by apply (pi_caches _ Hi _ _ Hl)].
    apply fmap_Some in Hl as (sr0 & Hsr0 & ->). intros b Hb. rewrite (proj1 (proj2 (closed_props sr0))) in Hb.
    by apply (pi_caches _ Hi _ _ Hsr0). }
  exists h. split_and!; [done| |done|done|apply left_disk_ok; [exact Hc|apply Hi]].
  intros l Hl. apply (pi_fresh _ Hi). rewrite Hlook in Hl. destruct (decide _); [|done].
  by rewrite fmap_is_Some in Hl.
Qed.

Lemma proxy_Stop_ok p :
  proxy_inv p -> exists r p', proxy_Stop (Ok tt) p = Some (r, p') /\ proxy_inv p'.
Proof.
  intros Hi. unfold proxy_Stop. destruct (ps_running p); cbn [negb]; [|by eexists _, _].
  destruct (stopped_runtimes p Hi) as (h & -> & Hf & Hc & Hcl & Hd). cbn. eexists _, _. split; [done|].
  split; cbn; try done.
  intros l sr hk Hl Hhk. right. split; [by eapply Hcl|]. intros [id H]. cbn in H. by rewrite lookup_empty in H.
Qed.

(** ** Rebuilding the tables *)

Record tables_ok (h0 : gmap loc siteRuntime) (build : SiteWithOrigins -> siteRuntime) (t : tables) : Prop := {
  to_fresh l : is_Some (t.1.1.1 !! l) -> (l < t.1.1.2)%positive;
  to_byID id l : t.2 !! id = Some l -> exists swo, t.1.1.1 !! l = Some (build swo) /\ site_ID (swo_Site swo) = id;
  to_sites d l : t.1.2 !! d = Some l -> (exists id, t.2 !! id = Some l) /\
    exists swo, t.1.1.1 !! l = Some (build swo) /\ d ∈ ToLower <$> site_Domains (swo_Site swo);
  to_old l sr : t.1.1.1 !! l = Some sr -> (exists id, t.2 !! id = Some l) \/ h0 !! l = Some sr;
  to_new id l : t.2 !! id = Some l -> h0 !! l = None
}.

Lemma domains_lookup (ds : list string) (l : loc) (m : gmap string loc) d l' :
  foldl (fun m d => <[ToLower d := l]> m) m ds !! d = Some l' ->
  l' = l /\ d ∈ ToLower <$> ds \/ m !! d = Some l'.
Proof.
  revert m. induction ds as [|d0 ds IH]; intros m H; cbn [foldl] in H; [by right|].
  rewrite fmap_cons. apply IH in H as [[-> H]|H]; [left; split; [done|by right]|].
  apply lookup_insert_Some in H as [[<- <-]|[_ H]]; [left; split; [done|left]|by right].
Qed.

Lemma add_site_ok h0 build t swo :
  (forall l, is_Some (h0 !! l) -> (l < t.1.1.2)%positive) -> tables_ok h0 build t ->
  t.2 !! site_ID (swo_Site swo) = None -> tables_ok h0 build (add_site build t swo).
Proof.
  destruct t as [[[h fr] sites] byID]. intros H0 Ht Hnew. cbn [fst snd] in *.
  assert (Hfr : h !! fr = None).
  { destruct (h !! fr) eqn:E; [|done]. assert (fr < fr)%positive; [apply (to_fresh _ _ _ Ht); cbn; eauto|lia]. }
  assert (Hold : forall (l : loc) swo', h !! l = Some (build swo') -> <[fr := build swo]> h !! l = Some (build swo')).
  { intros l swo' H. rewrite lookup_insert_ne; [done|congruence]. }
  split; cbn [add_site fst snd].
  - intros l [sr [[<- _]|[_ H]]%lookup_insert_Some]; [lia|].
    assert (l < fr)%positive; [apply (to_fresh _ _ _ Ht); cbn; eauto|lia].
  - intros id l [[<- <-]|[Hne H]]%lookup_insert_Some.
    + exists swo. by rewrite lookup_insert_eq.
    + destruct (to_byID _ _ _ Ht _ _ H) as (swo' & H' & <-). exists swo'. split; [by apply Hold|done].
  - intros d l [[-> Hd]|H]%domains_lookup.
    + split; [exists (site_ID (swo_Site swo)); by rewrite lookup_insert_eq|].
      exists swo. by rewrite lookup_insert_eq.
    + destruct (to_sites _ _ _ Ht _ _ H) as ([id Hid] & swo' & H' & Hd). split.
      * exists id. rewrite lookup_insert_ne; [done|]. cbn in Hid. intros <-. by rewrite Hid in Hnew.
      * exists swo'. split; [by apply Hold|done].
  - intros l sr [[<- <-]|[_ H]]%lookup_insert_Some.
    + left. exists (site_ID (swo_Site swo)). by rewrite lookup_insert_eq.
    + destruct (to_old _ _ _ Ht _ _ H) as [[id Hid]|Ho]; [left|by right].
      exists id. rewrite lookup_insert_ne; [done|]. cbn in Hid. intros <-. by rewrite Hid in Hnew.
  - intros id l [[<- <-]|[_ H]]%lookup_insert_Some; [|by apply (to_new _ _ _ Ht _ _ H)].
    destruct (h0 !! fr) eqn:E; [|done]. assert (fr < fr)%positive; [apply H0; eauto|lia].
Qed.

Lemma add_sites_ok h0 build swos t :
  (forall l, is_Some (h0 !! l) -> (l < t.1.1.2)%positive) -> tables_ok h0 build t ->
  NoDup ((fun swo => site_ID (swo_Site swo)) <$> swos) ->
  Forall (fun swo => t.2 !! site_ID (swo_Site swo) = None) swos ->
  tables_ok h0 build (foldl (add_site build) t swos).
Proof.
  revert t. induction swos as [|swo swos IH]; intros t H0 Ht Hnd Hnew; cbn [foldl]; [done|].
  rewrite fmap_cons in Hnd. apply NoDup_cons in Hnd as [Hni Hnd]. apply Forall_cons in Hnew as [Hn Hnew].
  pose proof (add_site_ok h0 build t swo H0 Ht Hn) as Ht'.
  destruct t as [[[h fr] sites] byID]. apply IH; [|done|done|].
  - intros l Hl. cbn in *. apply H0 in Hl. lia.
  - rewrite Forall_forall in *. intros s Hs. cbn. rewrite lookup_insert_ne; [by apply Hnew|].
    intros Heq. apply Hni. apply list_elem_of_fmap. exists s. by rewrite Heq.
Qed.

Lemma new_runtime_ok p disk mkdir now swo :
  map_Forall (fun _ fs => files_ok hashKey fs) disk ->
  runtime_ok (new_runtime unmarshal_rules p disk mkdir now swo).
Proof.
  intros Hd b. cbn. unfold new_cache. destruct (site_CacheEnabled _); [|done].
  case_bool_decide; [intros [= <-]; apply NewCache_ok|].
  destruct (mkdir _); intros [= <-]; [|apply NewCache_ok]. apply NewHybridCache_ok.
  destruct (disk !! _) as [fs|] eqn:E; cbn; [by apply (Hd _ _ E)|].
  intros h m Hl. by rewrite lookup_empty in Hl.
Qed.

(** The runtimes that a reconciliation in [p] builds, and its result. *)
Definition rebuilt (p : ProxyService) (mkdir : string * ID -> bool) (now : Z) : SiteWithOrigins -> siteRuntime :=
  new_runtime unmarshal_rules p (left_disk p) mkdir now.
Definition with_tables (p : ProxyService) (t : tables) : ProxyService :=
  mkProxy (ps_running p) (ps_listenAddr p) t.1.1.1 t.1.1.2 t.1.2 t.2 (ps_cacheDir p) (ps_cacheMaxBytes p)
    (left_disk p) (ps_requestsTotal p).

Lemma reconcile_run mkdir now cfg p :
  proxy_inv p -> config_ok cfg -> ps_running p = true ->
  exists h t, let p1 := set_runtimes h p in
    proxy_Reconcile unmarshal_rules mkdir now cfg p = Some (Ok tt, with_tables p1 t) /\
    tables_ok h (rebuilt p1 mkdir now) t /\
    (forall l sr, h !! l = Some sr -> runtime_ok sr) /\
    (forall l sr hk, h !! l = Some sr -> sr_healthChecker sr = Some hk -> hk_stop hk = Closed) /\
    map_Forall (fun _ fs => files_ok hashKey fs) (left_disk p1).
Proof.
  intros Hi Hcfg Hrun. unfold proxy_Reconcile. rewrite Hrun. cbn [negb].
  destruct (stopped_runtimes p Hi) as (h & -> & Hf & Hc & Hcl & Hd). cbn [mbind option_bind].
  set (p1 := set_runtimes h p) in *. exists h. fold (rebuilt p1 mkdir now).
  exists (foldl (add_site (rebuilt p1 mkdir now)) (ps_heap p1, ps_fresh p1, ∅, ∅) (config_sites cfg)).
  cbn zeta. split_and!; try done.
  - by destruct (foldl _ _ _) as [[[h' fr] sites] byID].
  - apply add_sites_ok; [exact Hf| |exact Hcfg|apply Forall_true; intros; apply lookup_empty].
    split; cbn; [exact Hf| | |by right|]; intros ??; by rewrite lookup_empty.
Qed.

(** A runtime is current and new, or kept from before. *)
Lemma tables_cases h build t l sr :
  tables_ok h build t -> t.1.1.1 !! l = Some sr ->
  (exists id swo, t.2 !! id = Some l /\ sr = build swo) \/ ((forall id, t.2 !! id <> Some l) /\ h !! l = Some sr).
Proof.
  intros Ht Hl. destruct (to_old _ _ _ Ht l sr Hl) as [[id Hid]|Ho].
  - left. destruct (to_byID _ _ _ Ht _ _ Hid) as (swo & H & _). simplify_eq. eauto.
  - right. split; [|done]. intros id Hid. apply (to_new _ _ _ Ht) in Hid. congruence.
Qed.

Lemma proxy_Reconcile_ok mkdir now cfg p :
  proxy_inv p -> config_ok cfg ->
  exists r p', proxy_Reconcile unmarshal_rules mkdir now cfg p = Some (r, p') /\ proxy_inv p'.
Proof.
  intros Hi Hcfg. destruct (ps_running p) eqn:Hrun; [|unfold proxy_Reconcile; rewrite Hrun; by eexists _, _].
  destruct (reconcile_run mkdir now cfg p Hi Hcfg Hrun) as (h & t & -> & Ht & Hc & Hcl & Hd).
  eexists _, _. split; [done|]. split; cbn [with_tables ps_heap ps_fresh ps_sites ps_siteByID ps_disk ps_running].
  - exact (to_fresh _ _ _ Ht).
  - intros id l (swo & H & <-)%(to_byID _ _ _ Ht). eauto.
  - intros d l (Hcur & swo & H & Hd')%(to_sites _ _ _ Ht). split; [exact Hcur|]. eauto.
  - intros l sr hk Hl Hhk. destruct (tables_cases _ _ _ _ _ Ht Hl) as [(id & swo & Hid & ->)|[Hno Ho]].
    + left. split; [|by exists id]. revert Hhk. unfold rebuilt, new_runtime. cbn. case_bool_decide; [done|]. by intros [= <-].
    + right. split; [by eapply Hcl|]. intros [id Hid]. by apply (Hno id).
  - intros l sr Hl. destruct (tables_cases _ _ _ _ _ Ht Hl) as [(id & swo & _ & ->)|[_ Ho]]; [by apply new_runtime_ok|by eapply Hc].
  - exact Hd.
  - cbn. by rewrite Hrun.
Qed.

(** ** Requests *)

Lemma site_key_ne host r : site_key host r <> "".
Proof. unfold site_key, CacheKey. by destruct (rq_Method r). Qed.

(** A request keeps the site, the origins and the checker of its runtime. *)
Record same_site (sr sr' : siteRuntime) : Prop := {
  ss_site : sr_site sr' = sr_site sr;
  ss_origins : sr_origins sr' = sr_origins sr;
  ss_checker : sr_healthChecker sr' = sr_healthChecker sr;
  ss_ok : runtime_ok sr -> runtime_ok sr'
}.
Lemma same_site_trans s1 s2 s3 : same_site s1 s2 -> same_site s2 s3 -> same_site s1 s3.
Proof. intros [] []. split; [congruence..|auto]. Qed.

Lemma cache_lookup_ok e host r sr :
  runtime_ok sr -> exists x sr', cache_lookup hashKey e host r sr = Some (x, sr') /\ same_site sr sr'.
Proof.
  intros Hok. unfold cache_lookup. destruct (sr_cache sr) as [b|] eqn:Hb; [|by eexists _, _].
  case_bool_decide; [|by eexists _, _].
  destruct (backend_Get_ok hashKey (he_io e) (he_now e) (site_key host r) b (Hok _ Hb) (site_key_ne _ _))
    as (x & b' & -> & Hb'). cbn. eexists _, _. split; [done|]. split; try done. intros _ b0 [= <-]. done.
Qed.

Lemma reverse_proxy_ok e sr host r ans :
  runtime_ok sr -> exists x sr', reverse_proxy hashKey e sr host r ans = Some (x, sr') /\ same_site sr sr'.
Proof.
  intros Hok. unfold reverse_proxy. destruct ans as [resp|]; [|by eexists _, _].
  case_bool_decide; [|by eexists _, _]. unfold maybeCacheResponse.
  destruct (sr_cache sr) as [b|] eqn:Hb; [|by eexists _, _]. cbn [rs_StatusCode rs_ok].
  destruct (_ || _); [by eexists _, _|]. destruct (rs_ok resp); cbn [negb]; [|by eexists _, _].
  match goal with |- context [backend_Put hashKey ?io ?t ?k ?bd ?st ?h ?ttl b] =>
    destruct (backend_Put_ok hashKey io t k bd st h ttl b (Hok _ Hb) (site_key_ne _ _)) as (b' & -> & Hb') end.
  cbn. eexists _, _. split; [done|]. split; try done. intros _ b0 [= <-]. done.
Qed.

Lemma guards_same e r sr : same_site sr (guards e r sr).2.
Proof.
  unfold guards. destruct (sr_rateLimiter sr) as [rl|]; [|by split].
  destruct (Allow _ rl) as [[] rl']; by split.
Qed.

Lemma serve_site_ok ex e host r sr :
  runtime_ok sr -> exists x sr', serve_site hashKey gzip brotli ex e host r sr = Some (x, sr') /\ same_site sr sr'.
Proof.
  intros Hok. unfold serve_site. pose proof (guards_same e r sr) as Hs1.
  destruct (guards e r sr) as [[rp|] sr1]; cbn [snd] in Hs1; [by eexists _, _|].
  assert (Hok1 := ss_ok _ _ Hs1 Hok).
  destruct (cache_lookup_ok e host r sr1 Hok1) as (x & sr2 & -> & Hs2). cbn [mbind option_bind].
  assert (Hs := same_site_trans _ _ _ Hs1 Hs2). destruct x as [entry|]; [by eexists _, _|].
  destruct (selectOrigin _ sr2) as [o|]; [|by eexists _, _].
  destruct (reverse_proxy_ok e sr2 host r (ex (outgoing o r)) (ss_ok _ _ Hs Hok)) as (y & sr3 & -> & Hs3).
  cbn. eexists _, _. split; [done|]. by eapply same_site_trans.
Qed.

Lemma same_tables_inv p p' :
  proxy_inv p -> ps_heap p' = ps_heap p -> ps_fresh p' = ps_fresh p -> ps_sites p' = ps_sites p ->
  ps_siteByID p' = ps_siteByID p -> ps_disk p' = ps_disk p -> (ps_running p' = false -> ps_running p = false) ->
  proxy_inv p'.
Proof.
  intros [I1 I2 I3 I4 I5 I6 I7] E1 E2 E3 E4 E5 Er. split; unfold current in *; rewrite ?E1, ?E2, ?E3, ?E4, ?E5; eauto.
Qed.

Lemma proxy_step_ok op p : proxy_inv p -> ok_op op -> exists p', proxy_step op p = Some p' /\ proxy_inv p'.
Proof.
  intros Hi Hop. destruct op as [dir mb|listen addr|sh|mkdir now cfg|id|ex e r|get l]; cbn [proxy_step ok_op] in *.
  - eexists. split; [done|]. by eapply same_tables_inv.
  - eexists. split; [done|]. unfold proxy_Start. destruct (ps_running p) eqn:Hr; [done|].
    destruct listen; by eapply same_tables_inv.
  - destruct sh as [[]|]; [|done]. destruct (proxy_Stop_ok p Hi) as (r & p' & -> & Hi'). by exists p'.
  - destruct (proxy_Reconcile_ok mkdir now cfg p Hi Hop) as (r & p' & -> & Hi'). by exists p'.
  - eexists. split; [done|]. unfold PurgeCache. destruct (negb _); [done|].
    destruct (ps_siteByID p !! id) as [l|] eqn:Hid; [|done]. destruct (ps_heap p !! l) as [sr|] eqn:Hl; [|done].
    destruct (sr_cache sr) as [b|] eqn:Hb; [|done]. apply (put_runtime_inv _ _ _ _ Hi Hl); try done.
    intros b' [= <-]. apply backend_Purge_ok. by apply (pi_caches _ Hi _ _ Hl).
  - unfold proxy_ServeHTTP.
    assert (Hi' : proxy_inv (count_request p)) by (by eapply same_tables_inv).
    destruct (ps_sites (count_request p) !! host_of r) as [l|] eqn:Hh; [|by eexists].
    destruct (pi_sites _ Hi' _ _ Hh) as (_ & sr & Hl & _). rewrite Hl.
    destruct (serve_site_ok ex e (host_of r) r sr (pi_caches _ Hi' _ _ Hl)) as (x & sr' & -> & Hs). cbn.
    eexists. split; [done|]. apply (put_runtime_inv _ _ _ _ Hi' Hl); [apply Hs, (pi_caches _ Hi' _ _ Hl)|apply Hs|].
    unfold stop_of. by rewrite (ss_checker _ _ Hs).
  - eexists. split; [done|]. unfold health_tick. destruct (ps_heap p !! l) as [sr|] eqn:Hl; [|done].
    destruct (sr_healthChecker sr) as [hk|] eqn:Hhk; [|done]. case_bool_decide; [|done].
    apply (put_runtime_inv _ _ _ _ Hi Hl); try done; [exact (pi_caches _ Hi _ _ Hl)|].
    unfold stop_of. by rewrite Hhk.
Qed.

Lemma run_proxy_ok ops p :
  proxy_inv p -> Forall ok_op ops -> exists p', run_proxy ops p = Some p' /\ proxy_inv p'.
Proof.
  intros Hi Hops. revert p Hi. induction Hops as [|op ops Hop _ IH]; intros p Hi; cbn [run_proxy]; [by exists p|].
  destruct (proxy_step_ok op p Hi Hop) as (p1 & -> & Hi1). by apply IH.
Qed.

Lemma NewProxyService_inv disk :
  map_Forall (fun _ fs => files_ok hashKey fs) disk -> proxy_inv (NewProxyService disk).
Proof.
  intros Hd. split; cbn; try done. intros l [sr Hl]. by rewrite lookup_empty in Hl.
Qed.
End run.

(** C29: from a new proxy, over every sequence of calls in which each
    configuration lists a site once and shutdowns succeed, no call panics or
    fails to return; a health checker runs exactly while its site is in the
    routing table, every routed host belongs to a configured site that lists it,
    a stopped proxy routes nothing and has no checker running, every memory cache
    holds at most its maximum of entries and the byte count of every disk cache is
    the sum over its index.  Each description found on disk at the start lies under
    the hash of its key, which is not empty, and has no negative size. *)
Theorem proxy_lifecycle (hashKey gzip brotli : string -> string)
    (unmarshal_rules : string -> option (list HeaderRule)) (disk : gmap (string * ID) Files) (ops : list proxy_op) :
  map_Forall (fun _ fs => files_ok hashKey fs) disk -> Forall ok_op ops ->
  exists p, run_proxy hashKey gzip brotli unmarshal_rules ops (NewProxyService disk) = Some p /\
    (forall l sr hk, ps_heap p !! l = Some sr -> sr_healthChecker sr = Some hk ->
       hk_stop hk = Open <-> exists id, ps_siteByID p !! id = Some l) /\
    (forall d l, ps_sites p !! d = Some l -> exists id sr, ps_siteByID p !! id = Some l /\
       ps_heap p !! l = Some sr /\ site_ID (sr_site sr) = id /\ d ∈ ToLower <$> site_Domains (sr_site sr)) /\
    (ps_running p = false -> ps_sites p = ∅ /\
       forall l sr hk, ps_heap p !! l = Some sr -> sr_healthChecker sr = Some hk -> hk_stop hk = Closed) /\
    (forall l sr b, ps_heap p !! l = Some sr -> sr_cache sr = Some b ->
       match b with
       | CMem c => Len c <= c_maxEntries c
       | CHybrid h => Len (hc_memory h) <= c_maxEntries (hc_memory h) /\
           d_usedBytes (hc_disk h) = total (d_index (hc_disk h))
       end).
Proof.
  intros Hd Hops.
  destruct (run_proxy_ok hashKey gzip brotli unmarshal_rules ops _ (NewProxyService_inv hashKey disk Hd) Hops)
    as (p & Hrun & Hi).
  exists p. split_and!; [done| | | |].
  - intros l sr hk Hl Hhk. destruct (pi_open _ _ Hi _ _ _ Hl Hhk) as [[-> H]|[-> H]]; [done|]. by split.
  - intros d l Hd'. destruct (pi_sites _ _ Hi _ _ Hd') as ([id Hid] & sr & Hsr & Hin).
    destruct (pi_byID _ _ Hi _ _ Hid) as (sr' & Hsr' & Hid'). simplify_eq. eauto 6.
  - intros Hr. destruct (pi_stopped _ _ Hi Hr) as [Hs Hb]. split; [done|].
    intros l sr hk Hl Hhk. destruct (pi_open _ _ Hi _ _ _ Hl Hhk) as [[_ [id H]]|[H _]]; [|done].
    by rewrite Hb, lookup_empty in H.
  - intros l sr b Hl Hb. pose proof (pi_caches _ _ Hi _ _ Hl b Hb) as Hok. destruct b as [c|h]; cbn in Hok.
    + by apply mem_ok_bounded.
    + destruct Hok as [Hm [Ha _]]. split; [by apply mem_ok_bounded|apply (acc_used _ Ha)].
Qed.

(** A site with two origins, for the witnesses. *)
Definition cdn_origin (id : ID) (addr : string) (w : Z) : CDNOrigin :=
  mkCDNOrigin id 7 addr "http" w "" None "unknown" 0 0.
Definition cdn_site (compress : bool) : CDNSite :=
  mkCDNSite 7 1 "shop" ["Shop.example"] "auto" None true 60 compress None None "" false "" "active" 0 0.
Definition cdn_config (compress : bool) : option NodeCDNConfig :=
  Some (mkNodeCDNConfig [mkSWO (cdn_site compress) [cdn_origin 8 "10.0.0.1:80" 1; cdn_origin 9 "10.0.0.2:80" 3]]).
Definition cdn_ops (compress : bool) : list proxy_op :=
  [PStart true ":8080"; PReconcile (fun _ => true) 0 (cdn_config compress)].
Definition no_rules : string -> option (list HeaderRule) := fun _ => None.

Lemma proxy_lifecycle_witness :
  exists p, run_proxy id id id no_rules (cdn_ops true ++ [PStop (Ok tt)]) (NewProxyService ∅) = Some p /\
    ps_running p = false /\ ps_sites p = ∅.
Proof.
  destruct (proxy_lifecycle id id id no_rules ∅ (cdn_ops true ++ [PStop (Ok tt)]))
    as (p & Hrun & _ & _ & Hstop & _).
  - apply map_Forall_empty.
  - repeat constructor. cbn. rewrite list_elem_of_In. intros [].
  - exists p. split; [exact Hrun|]. assert (Hr : ps_running p = false).
    { revert Hrun. vm_compute. intros [= <-]. reflexivity. }
    split; [exact Hr|]. by apply Hstop.
Defined.

(** ** A failed shutdown *)

Lemma stop_all_closed h ls l sr :
  l ∈ ls -> h !! l = Some sr -> stop_of sr = Some Closed -> stop_all h ls = None.
Proof.
  intros Hin Hl Hst. revert h Hl. induction Hin as [l ls|l l0 ls Hin IH]; intros h Hl; cbn [stop_all].
  - unfold stop_runtime. rewrite Hl. unfold stop_of in Hst.
    destruct (sr_healthChecker sr) as [[os c]|]; cbn in Hst; [|done]. by simplify_eq.
  - destruct (stop_runtime h l0) as [h1|] eqn:H1; [|done]. cbn. apply IH. unfold stop_runtime in H1.
    destruct (h !! l0) as [sr0|] eqn:Hl0; [|by simplify_eq].
    destruct (sr_healthChecker sr0) as [[os []]|] eqn:Hk0; cbn in H1; simplify_eq; try done.
    + rewrite lookup_insert_ne; [done|]. intros ->. simplify_eq. unfold stop_of in Hst. by rewrite Hk0 in Hst.
    + rewrite lookup_insert_ne; [done|]. intros ->. simplify_eq. unfold stop_of in Hst. by rewrite Hk0 in Hst.
Qed.

(** When [Shutdown] fails (its deadline passes while requests are open),
    [Stop] has already closed the channels of the health checkers but the proxy
    still counts as running; with an origin configured, every later [Stop] or
    [Reconcile] then panics by closing them again. *)
Theorem failed_shutdown_panics (hashKey gzip brotli : string -> string)
    (unmarshal_rules : string -> option (list HeaderRule)) (ops : list proxy_op) p id l sr hk e :
  Forall ok_op ops ->
  run_proxy hashKey gzip brotli unmarshal_rules ops (NewProxyService ∅) = Some p ->
  ps_running p = true -> ps_siteByID p !! id = Some l -> ps_heap p !! l = Some sr ->
  sr_healthChecker sr = Some hk ->
  exists p', proxy_Stop (Err e) p = Some (Err (Wrapf "shutdown" e), p') /\ ps_running p' = true /\
    (forall sh, proxy_Stop sh p' = None) /\
    (forall mkdir now cfg, proxy_Reconcile unmarshal_rules mkdir now cfg p' = None).
Proof.
  intros Hops Hrun Hr Hid Hl Hhk.
  destruct (run_proxy_ok hashKey gzip brotli unmarshal_rules ops _
              (NewProxyService_inv hashKey ∅ (map_Forall_empty _)) Hops) as (p0 & Hrun' & Hi).
  rewrite Hrun in Hrun'. injection Hrun' as <-.
  destruct (stop_checkers_spec hashKey p Hi) as (h & Hst & Hlook & _).
  set (p' := set_runtimes h p). exists p'.
  assert (Hnone : stop_checkers p' = None).
  { unfold stop_checkers. erewrite (stop_all_closed h _ l (closed sr)); [done| | |].
    - apply list_elem_of_fmap. exists (id, l). split; [done|]. by apply elem_of_map_to_list.
    - rewrite Hlook, decide_True, Hl; [done|]. apply list_elem_of_fmap. exists (id, l).
      split; [done|]. by apply elem_of_map_to_list.
    - unfold stop_of, closed. by rewrite Hhk. }
  unfold proxy_Stop at 1. rewrite Hr, Hst. cbn [negb mbind option_bind].
  split_and!; [done|done|intros sh|intros mkdir now cfg].
  - unfold proxy_Stop. change (ps_running p') with (ps_running p). by rewrite Hr, Hnone.
  - unfold proxy_Reconcile. change (ps_running p') with (ps_running p). by rewrite Hr, Hnone.
Qed.

Lemma failed_shutdown_panics_witness :
  exists p p', run_proxy id id id no_rules (cdn_ops true) (NewProxyService ∅) = Some p /\
    proxy_Stop (Err (Errorf "context deadline exceeded")) p =
      Some (Err (Wrapf "shutdown" (Errorf "context deadline exceeded")), p') /\
    proxy_Stop (Ok tt) p' = None.
Proof.
  destruct (run_proxy id id id no_rules (cdn_ops true) (NewProxyService ∅)) as [p|] eqn:Hrun;
    [|vm_compute in Hrun; discriminate Hrun].
  assert (Hp : exists sr hk, ps_running p = true /\ ps_siteByID p !! 7%N = Some 1%positive /\
                 ps_heap p !! 1%positive = Some sr /\ sr_healthChecker sr = Some hk).
  { revert Hrun. vm_compute. intros [= <-]. eexists _, _. split_and!; reflexivity. }
  destruct Hp as (sr & hk & H1 & H2 & H3 & H4).
  destruct (failed_shutdown_panics id id id no_rules (cdn_ops true) p 7%N 1%positive sr hk
              (Errorf "context deadline exceeded")) as (p' & Hstop & _ & Hpanic & _); try done.
  - repeat constructor. cbn. rewrite list_elem_of_In. intros [].
  - exists p, p'. split_and!; [done|exact Hstop|apply Hpanic].
Defined.
