(* ===== verification/CdnServeTheorems.v ===== *)
(** * CDN proxy: what a client gets

    A cacheable response is served again from the cache, and what the compressing
    writers do to a response. *)

From Stdlib Require Import ZArith Lia Ascii String.
From S2P Require Import Prelude GoStrings GoNet Domain Cache DiskCache GoHttp CdnGuards CdnProxy CdnProxyProofs CdnProxyTheorems.

Open Scope Z_scope.

(** ** Putting and getting through a backend *)

Definition same_response (body : string) (st : Z) (h : Header) (e : cacheEntry) : Prop :=
  ce_body e = body /\ ce_statusCode e = st /\ ce_headers e = h.

Lemma lookupL_cons k e L : ce_key e = k -> lookupL k (e :: L) = Some e.
Proof. intros Hk. unfold lookupL. by rewrite filter_cons_True. Qed.

(** Not expired [ttl] after [now]; a time to live of at most zero never expires. *)
Definition still_fresh (now ttl now' : Z) : Prop := ttl <= 0 \/ now' - now <= ttl.

Lemma mem_put_get c c' ev now now' k body st h ttl :
  mem_ok c -> Put now k body st h ttl c = Some (c', ev) ->
  shouldSkipCache h = false -> 200 <= st < 300 -> still_fresh now ttl now' ->
  exists e, (Get now' k c').1 = Some e /\ same_response body st h e.
Proof.
  intros (L & Hr & _) Hput Hskip Hst Hfresh.
  destruct (Put_repr now k body st h ttl c L Hr) as (c1 & ev1 & Hput1 & Hr1 & _). simplify_eq.
  destruct (Get_repr now' k c' _ Hr1) as [Hg _].
  set (e0 := mkEntry body st h now ttl None None k) in *.
  assert (Hspec : exists L', (spec_put now k body st h ttl (c_maxEntries c) L).1 = e0 :: L').
  { unfold spec_put. rewrite Hskip. rewrite (proj2 (Z.ltb_ge _ _)), (proj2 (Z.leb_gt _ _)) by lia. cbn [orb].
    destruct (lookupL k L); cbn [fst]; eauto. }
  destruct Hspec as [L' HL]. rewrite HL in Hg. unfold spec_get in Hg. rewrite lookupL_cons in Hg by done.
  assert (He : expired now' e0 = false).
  { unfold expired, e0. cbn. destruct (Z.leb_spec ttl 0); [done|]. apply Z.ltb_ge. destruct Hfresh; lia. }
  rewrite He in Hg. cbn [fst] in Hg. apply fmap_Some in Hg as (e & -> & Heq). exists e. split; [done|].
  assert (Hb := f_equal ce_body Heq). assert (Hs := f_equal ce_statusCode Heq). assert (Hh := f_equal ce_headers Heq).
  cbn in *. by subst.
Qed.

Section serve.
Context (hashKey gzip brotli : string -> string).

Lemma backend_put_get b b' io io' now now' k body st h ttl :
  backend_ok hashKey b -> backend_Put hashKey io now k body st h ttl b = Some b' -> k <> "" ->
  shouldSkipCache h = false -> 200 <= st < 300 -> still_fresh now ttl now' ->
  exists e b'', backend_Get hashKey io' now' k b' = Some (Some e, b'') /\ same_response body st h e.
Proof.
  intros Hb Hput Hne Hskip Hst Hf. destruct b as [c|hc]; cbn in Hput, Hb.
  - apply bind_Some in Hput as ([c' ev] & Hput & [= <-]).
    destruct (mem_put_get _ _ _ _ _ _ _ _ _ _ Hb Hput Hskip Hst Hf) as (e & He & Hs).
    cbn. destruct (Get now' k c') as [x c'']. cbn in He. subst x. by eexists _, _.
  - apply fmap_Some in Hput as (hc' & Hput & ->). unfold hybrid_Put in Hput.
    apply bind_Some in Hput as ([c' ev] & Hput & Hsp). apply bind_Some in Hsp as (d' & Hsp & [= <-]).
    destruct Hb as [Hm _].
    destruct (mem_put_get _ _ _ _ _ _ _ _ _ _ Hm Hput Hskip Hst Hf) as (e & He & Hs).
    cbn. unfold hybrid_Get. cbn [hc_memory]. destruct (Get now' k c') as [x c'']. cbn in He |- *. subst x.
    cbn. by eexists _, _.
Qed.

(** The headers that reach the client and the cache. *)
Definition ruled (sr : siteRuntime) (resp : Response) : Header := applyHeaderRules (sr_headerRules sr) (rs_Header resp).
Definition miss_reply (sr : siteRuntime) (resp : Response) : Reply :=
  mkReply (rs_StatusCode resp) (copyHeader {["X-Cache" := ["MISS"]]} (ruled sr resp)) (rs_Body resp).

Lemma guards_config e r sr :
  let sr' := (guards e r sr).2 in sr_headerRules sr' = sr_headerRules sr /\ sr_cache sr' = sr_cache sr.
Proof.
  unfold guards. destruct (sr_rateLimiter sr) as [rl|]; [|done]. by destruct (Allow _ rl) as [[] rl'].
Qed.

Lemma cache_lookup_config e host r sr x sr' :
  cache_lookup hashKey e host r sr = Some (x, sr') ->
  sr_headerRules sr' = sr_headerRules sr /\ sr_site sr' = sr_site sr /\ (is_Some (sr_cache sr') <-> is_Some (sr_cache sr)).
Proof.
  unfold cache_lookup. destruct (sr_cache sr) as [b|] eqn:Hb; [|intros [= <- <-]; by rewrite Hb].
  case_bool_decide; [|intros [= <- <-]; by rewrite Hb].
  intros H0. apply bind_Some in H0 as ([y b'] & _ & [= <- <-]). by cbn.
Qed.

(** A request that passes the guards, misses, and gets an answer. *)
Lemma serve_site_miss ex e host r sr sr0 sr1 o resp :
  guards e r sr = (None, sr0) -> cache_lookup hashKey e host r sr0 = Some (None, sr1) ->
  selectOrigin (he_intn e) sr1 = Some o -> ex (outgoing o r) = Some resp -> rs_ok resp = true ->
  runtime_ok hashKey sr ->
  exists sr2, serve_site hashKey gzip brotli ex e host r sr =
      Some (Replied (compress_reply gzip brotli sr1 r (miss_reply sr resp)), sr2) /\
    (rq_Method r = "GET" -> 200 <= rs_StatusCode resp < 300 -> is_Some (sr_cache sr) ->
     exists b b2, sr_cache sr1 = Some b /\ backend_ok hashKey b /\ sr_cache sr2 = Some b2 /\
       backend_Put hashKey (he_io e) (he_then e) (site_key host r) (rs_Body resp) (rs_StatusCode resp)
         (ruled sr resp) (int64 (site_CacheTTL (sr_site sr) * 1000000000)) b = Some b2).
Proof.
  intros Hg Hc Ho Hex Hok Hrt. pose proof (guards_same hashKey e r sr) as Hs0.
  pose proof (guards_config e r sr) as [Hr0 Hc0]. rewrite Hg in Hs0, Hr0, Hc0. cbn [snd] in *.
  destruct (cache_lookup_ok hashKey e host r sr0 (ss_ok _ _ _ Hs0 Hrt)) as (x & sr1' & Hc' & Hs1).
  rewrite Hc in Hc'. simplify_eq. destruct (cache_lookup_config _ _ _ _ _ _ Hc) as (Hr1 & _ & Hsome).
  assert (Hrt1 : runtime_ok hashKey sr1') by (apply Hs1, Hs0, Hrt).
  destruct (reverse_proxy_ok hashKey e sr1' host r (Some resp) Hrt1) as (y & sr2 & Hrp & _).
  exists sr2. unfold serve_site. rewrite Hg, Hc. cbn [mbind option_bind]. rewrite Ho, Hex, Hrp. cbn.
  unfold reverse_proxy in Hrp. rewrite Hok in Hrp. apply bind_Some in Hrp as (sr3 & Hmc & [= <- ->]).
  split; [unfold miss_reply, ruled; by rewrite <-Hr0, <-Hr1|].
  intros Hget Hst Hca. rewrite bool_decide_true in Hmc by done.
  destruct (sr_cache sr1') as [b|] eqn:Hb; [|exfalso; rewrite <-Hc0 in Hca; by apply Hsome in Hca as []].
  unfold maybeCacheResponse in Hmc. rewrite Hb in Hmc. cbn [rs_StatusCode rs_ok negb rs_Header rs_Body] in Hmc.
  rewrite (proj2 (Z.ltb_ge _ _)), (proj2 (Z.leb_gt _ _)) in Hmc by lia. cbn [orb] in Hmc.
  apply bind_Some in Hmc as (b2 & Hput & [= <-]). exists b, b2.
  split_and!; [done|by apply Hrt1|done|].
  rewrite <-(ss_site _ _ _ Hs0), <-(ss_site _ _ _ Hs1). unfold ruled. by rewrite <-Hr0, <-Hr1.
Qed.
End serve.

(** A GET that an origin answers with a complete 2xx response that may be
    stored reaches the client as the origin sent it (with the header rules, [X-Cache:
    MISS] and compression applied), and the next GET for the same resource, from
    any client and whatever the origins do meanwhile, gets that status, those
    headers and that body back with [X-Cache: HIT] until the time to live has
    passed. *)
Theorem cached_response_served (hashKey gzip brotli : string -> string)
    (unmarshal_rules : string -> option (list HeaderRule)) (ops : list proxy_op) p l sr sr0 sr1 ex e r o resp :
  Forall ok_op ops -> run_proxy hashKey gzip brotli unmarshal_rules ops (NewProxyService ∅) = Some p ->
  ps_sites p !! host_of r = Some l -> ps_heap p !! l = Some sr -> is_Some (sr_cache sr) -> rq_Method r = "GET" ->
  guards e r sr = (None, sr0) -> cache_lookup hashKey e (host_of r) r sr0 = Some (None, sr1) ->
  selectOrigin (he_intn e) sr1 = Some o -> ex (outgoing o r) = Some resp ->
  rs_ok resp = true -> 200 <= rs_StatusCode resp < 300 -> shouldSkipCache (ruled sr resp) = false ->
  exists p', proxy_ServeHTTP hashKey gzip brotli ex e r p =
      Some (Replied (compress_reply gzip brotli sr1 r (miss_reply sr resp)), p') /\
    forall ex' e' r', rq_Method r' = "GET" -> host_of r' = host_of r ->
      site_key (host_of r) r' = site_key (host_of r) r ->
      still_fresh (he_then e) (int64 (site_CacheTTL (sr_site sr) * 1000000000)) (he_now e') ->
      (forall sr', ps_heap p' !! l = Some sr' -> (guards e' r' sr').1 = None) ->
      exists p'', proxy_ServeHTTP hashKey gzip brotli ex' e' r' p' =
        Some (Replied (mkReply (rs_StatusCode resp) (Header_Set "X-Cache" "HIT" (ruled sr resp)) (rs_Body resp)), p'').
Proof.
  intros Hops Hrun Hhost Hl Hca Hget Hg Hlook Ho Hex Hok Hst Hskip.
  destruct (run_proxy_ok hashKey gzip brotli unmarshal_rules ops _
              (NewProxyService_inv hashKey ∅ (map_Forall_empty _)) Hops) as (p0 & Hrun' & Hi).
  rewrite Hrun in Hrun'. injection Hrun' as <-.
  destruct (serve_site_miss hashKey gzip brotli ex e (host_of r) r sr sr0 sr1 o resp Hg Hlook Ho Hex Hok
              (pi_caches _ _ Hi _ _ Hl)) as (sr2 & Hserve & Hcache).
  destruct (Hcache Hget Hst Hca) as (b & b2 & Hb & Hbok & Hb2 & Hput).
  exists (put_runtime l sr2 (count_request p)). split.
  { unfold proxy_ServeHTTP. cbn [count_request ps_sites ps_heap]. by rewrite Hhost, Hl, Hserve. }
  intros ex' e' r' Hget' Hh' Hk' Hf Hg'. unfold proxy_ServeHTTP. rewrite Hh'. cbn [count_request put_runtime set_runtimes ps_sites ps_heap].
  rewrite Hhost, lookup_insert_eq. unfold serve_site.
  specialize (Hg' sr2 (lookup_insert_eq _ _ _)). pose proof (guards_config e' r' sr2) as [_ Hc3].
  destruct (guards e' r' sr2) as [x sr3]. cbn [fst snd] in *. subst x.
  destruct (backend_put_get hashKey b b2 (he_io e) (he_io e') (he_then e) (he_now e') (site_key (host_of r) r)
              (rs_Body resp) (rs_StatusCode resp) (ruled sr resp) _ Hbok Hput (site_key_ne _ _) Hskip Hst Hf)
    as (entry & b3 & Hgetb & Hbd & Hs & Hh).
  unfold cache_lookup. rewrite Hc3, Hb2, bool_decide_true, Hk', Hgetb by done. cbn.
  eexists. unfold hit_reply. by rewrite Hbd, Hs, Hh.
Qed.

Definition cdn_request (host enc : string) : Request :=
  mkRequest "GET" host "/a" "" {["Accept-Encoding" := [enc]]}.
Definition cdn_env (t : Z) : HttpEnv := mkHttpEnv t t (fun n => n - 1) [] io_ok.
Definition cdn_page : Response :=
  mkResponse 200 {["Content-Type" := ["text/html"]; "Content-Encoding" := ["gzip"]]} "page" true.
Definition cdn_answer : Outgoing -> option Response := fun _ => Some cdn_page.

Definition or_else {A} (d : A) (x : option A) : A := match x with Some a => a | None => d end.
Definition cdn_proxy (compress : bool) : ProxyService :=
  or_else (NewProxyService ∅) (run_proxy id id id no_rules (cdn_ops compress) (NewProxyService ∅)).
Definition cdn_runtime (compress : bool) : siteRuntime :=
  or_else (mkRuntime (cdn_site compress) [] None None None [] None) (ps_heap (cdn_proxy compress) !! 1%positive).
Definition cdn_get : Request := cdn_request "shop.EXAMPLE:80" "gzip".
Definition cdn_missed (compress : bool) : siteRuntime :=
  match cache_lookup id (cdn_env 5) "shop.example" cdn_get (cdn_runtime compress) with
  | Some x => x.2 | None => cdn_runtime compress end.
Definition cdn_served (compress : bool) : ProxyService :=
  match proxy_ServeHTTP id id id cdn_answer (cdn_env 5) cdn_get (cdn_proxy compress) with
  | Some x => x.2 | None => NewProxyService ∅ end.

Lemma cdn_ops_ok c : Forall ok_op (cdn_ops c).
Proof. repeat constructor. cbn. rewrite list_elem_of_In. intros []. Qed.

Lemma cached_response_served_witness :
  exists p'', proxy_ServeHTTP id id id (fun _ => None) (cdn_env 50000000000) (cdn_request "shop.example" "identity")
      (cdn_served false) =
    Some (Replied (mkReply 200 (Header_Set "X-Cache" "HIT" (rs_Header cdn_page)) "page"), p'').
Proof.
  destruct (cached_response_served id id id no_rules (cdn_ops false) (cdn_proxy false) 1%positive (cdn_runtime false)
              (cdn_runtime false) (cdn_missed false) cdn_answer (cdn_env 5) cdn_get
              (cdn_origin 9 "10.0.0.2:80" 3) cdn_page) as (p' & Hs1 & Hs2).
  - apply cdn_ops_ok.
  - vm_compute. reflexivity.
  - vm_compute. reflexivity.
  - vm_compute. reflexivity.
  - vm_compute. eexists. reflexivity.
  - reflexivity.
  - vm_compute. reflexivity.
  - vm_compute. reflexivity.
  - vm_compute. reflexivity.
  - reflexivity.
  - reflexivity.
  - cbn. lia.
  - vm_compute. reflexivity.
  - assert (Hp : p' = cdn_served false) by (unfold cdn_served; rewrite Hs1; reflexivity). subst p'.
    assert (Hg : (fun sr' => (guards (cdn_env 50000000000) (cdn_request "shop.example" "identity") sr').1)
                   <$> (ps_heap (cdn_served false) !! 1%positive) = Some None) by (vm_compute; reflexivity).
    apply Hs2.
    + reflexivity.
    + vm_compute. reflexivity.
    + vm_compute. reflexivity.
    + right. vm_compute. discriminate.
    + intros sr' Hsr'. rewrite Hsr' in Hg. injection Hg as Hg. exact Hg.
Defined.

(** ** Compression *)

Lemma copyHeader_other (k k' v : string) (h : Header) :
  k <> k' -> copyHeader {[k := [v]]} h !! k' = h !! k'.
Proof.
  intros Hne. unfold copyHeader. rewrite lookup_union_with, lookup_singleton_ne by done. by destruct (h !! k').
Qed.

(** The compressing writer does not look at the encoding of the response: for
    a client that accepts gzip, a text response that the origin has already
    compressed is compressed a second time while [Content-Encoding] still says
    [gzip] once, so that the client decodes it to the origin's compressed bytes. *)
Theorem response_compressed_twice (hashKey gzip brotli : string -> string)
    (unmarshal_rules : string -> option (list HeaderRule)) (ops : list proxy_op) p l sr sr0 sr1 ex e r o resp :
  Forall ok_op ops -> run_proxy hashKey gzip brotli unmarshal_rules ops (NewProxyService ∅) = Some p ->
  ps_sites p !! host_of r = Some l -> ps_heap p !! l = Some sr ->
  guards e r sr = (None, sr0) -> cache_lookup hashKey e (host_of r) r sr0 = Some (None, sr1) ->
  selectOrigin (he_intn e) sr1 = Some o -> ex (outgoing o r) = Some resp -> rs_ok resp = true ->
  sr_headerRules sr = [] -> site_CompressionEnabled (sr_site sr) = true ->
  acceptsGzip r = true -> acceptsBrotli r = false ->
  rs_Header resp !! "Content-Encoding" = Some ["gzip"] ->
  shouldCompress (Header_Get (rs_Header resp) "Content-Type") = true -> rs_Body resp <> "" ->
  exists rp p', proxy_ServeHTTP hashKey gzip brotli ex e r p = Some (Replied rp, p') /\
    rp_body rp = gzip (rs_Body resp) /\ rp_headers rp !! "Content-Encoding" = Some ["gzip"].
Proof.
  intros Hops Hrun Hhost Hl Hg Hlook Ho Hex Hok Hrules Hcomp Hgz Hbr Henc Hct Hne.
  destruct (run_proxy_ok hashKey gzip brotli unmarshal_rules ops _
              (NewProxyService_inv hashKey ∅ (map_Forall_empty _)) Hops) as (p0 & Hrun' & Hi).
  rewrite Hrun in Hrun'. injection Hrun' as <-.
  destruct (serve_site_miss hashKey gzip brotli ex e (host_of r) r sr sr0 sr1 o resp Hg Hlook Ho Hex Hok
              (pi_caches _ _ Hi _ _ Hl)) as (sr2 & Hserve & _).
  pose proof (guards_same hashKey e r sr) as Hs0. rewrite Hg in Hs0. cbn [snd] in Hs0.
  destruct (cache_lookup_config hashKey _ _ _ _ _ _ Hlook) as (_ & Hs1 & _).
  exists (compress_reply gzip brotli sr1 r (miss_reply sr resp)), (put_runtime l sr2 (count_request p)).
  split; [unfold proxy_ServeHTTP; cbn [count_request ps_sites ps_heap]; by rewrite Hhost, Hl, Hserve|].
  unfold compress_reply. rewrite Hs1, (ss_site _ _ _ Hs0), Hcomp, Hbr, Hgz. unfold flush, miss_reply, ruled.
  rewrite Hrules. cbn [rp_headers rp_body applyHeaderRules foldl].
  assert (Hct' : Header_Get (copyHeader {["X-Cache" := ["MISS"]]} (rs_Header resp)) "Content-Type" =
                 Header_Get (rs_Header resp) "Content-Type").
  { unfold Header_Get, header_get. change (CanonicalHeaderKey "Content-Type") with "Content-Type".
    by rewrite copyHeader_other. }
  rewrite Hct', Hct, bool_decide_false by done. cbn [negb orb rp_body rp_headers]. split; [done|].
  unfold Header_Del, Header_Set. change (CanonicalHeaderKey "Content-Length") with "Content-Length".
  change (CanonicalHeaderKey "Content-Encoding") with "Content-Encoding".
  by rewrite lookup_delete_ne, lookup_insert_eq.
Qed.

Definition mark (s : string) : string := "z(" +:+ s +:+ ")".

Lemma response_compressed_twice_witness :
  exists rp p', proxy_ServeHTTP id mark mark cdn_answer (cdn_env 5) cdn_get
      (or_else (NewProxyService ∅) (run_proxy id mark mark no_rules (cdn_ops true) (NewProxyService ∅))) =
      Some (Replied rp, p') /\
    rp_body rp = mark "page" /\ rp_headers rp !! "Content-Encoding" = Some ["gzip"].
Proof.
  apply (response_compressed_twice id mark mark no_rules (cdn_ops true) _ 1%positive (cdn_runtime true)
           (cdn_runtime true) (cdn_missed true) cdn_answer (cdn_env 5) cdn_get (cdn_origin 9 "10.0.0.2:80" 3) cdn_page).
  - apply cdn_ops_ok.
  - vm_compute. reflexivity.
  - vm_compute. reflexivity.
  - vm_compute. reflexivity.
  - vm_compute. reflexivity.
  - vm_compute. reflexivity.
  - vm_compute. reflexivity.
  - reflexivity.
  - reflexivity.
  - vm_compute. reflexivity.
  - vm_compute. reflexivity.
  - vm_compute. reflexivity.
  - vm_compute. reflexivity.
  - vm_compute. reflexivity.
  - vm_compute. reflexivity.
  - discriminate.
Defined.
