(* ===== verification/CdnOriginTheorems.v ===== *)
(** * CDN proxy: selection and health of origins *)

From Stdlib Require Import ZArith Lia Ascii String.
From S2P Require Import Prelude GoStrings Domain Cache DiskCache GoHttp CdnGuards CdnProxy CdnProxyProofs CdnProxyTheorems.

Open Scope Z_scope.

(** ** Weighted selection *)

Fixpoint weight_sum (cs : list CDNOrigin) : Z :=
  match cs with [] => 0 | o :: cs => origin_Weight o + weight_sum cs end.

Definition positive_weights (cs : list CDNOrigin) : Prop := Forall (fun o => 1 <= origin_Weight o) cs.

Lemma weight_sum_nonneg cs : positive_weights cs -> 0 <= weight_sum cs.
Proof. induction 1; cbn; lia. Qed.

Lemma total_weight_sum cs : positive_weights cs -> weight_sum cs < 2 ^ 63 -> total_weight cs = weight_sum cs.
Proof.
  intros Hw Hs. unfold total_weight.
  assert (Hgen : forall acc, 0 <= acc -> acc + weight_sum cs < 2 ^ 63 ->
            foldl (fun acc o => int64 (acc + origin_Weight o)) acc cs = acc + weight_sum cs).
  { clear Hs. induction Hw as [|o cs Ho Hw IH]; intros acc H0 Hacc; cbn [foldl weight_sum] in *; [lia|].
    pose proof (weight_sum_nonneg cs Hw). rewrite int64_id by lia. rewrite IH by lia. lia. }
  rewrite Hgen; lia.
Qed.

Lemma pick_cons r o cs :
  positive_weights (o :: cs) -> weight_sum (o :: cs) < 2 ^ 63 -> 0 <= r < weight_sum (o :: cs) ->
  pick r (o :: cs) = if r <? origin_Weight o then Some o else pick (r - origin_Weight o) cs.
Proof.
  intros [Ho Hw]%Forall_cons Hs Hr. pose proof (weight_sum_nonneg cs Hw). cbn [weight_sum] in *. cbn [pick]. rewrite int64_id by lia.
  destruct (Z.ltb_spec (r - origin_Weight o) 0), (Z.ltb_spec r (origin_Weight o)); done || lia.
Qed.

Lemma pick_member cs r : forall o, pick r cs = Some o -> o ∈ cs.
Proof.
  revert r. induction cs as [|x cs IH]; intros r o; cbn [pick]; [done|].
  destruct (_ <? 0); [intros [= ->]; left|]. intros H%IH. by right.
Qed.

Lemma pick_total cs r :
  positive_weights cs -> weight_sum cs < 2 ^ 63 -> 0 <= r < weight_sum cs -> exists o, pick r cs = Some o.
Proof.
  intros Hw. revert r. induction Hw as [|o cs Ho Hw IH]; intros r Hs Hr; [cbn in Hr; lia|].
  rewrite pick_cons by (done || by constructor). destruct (Z.ltb_spec r (origin_Weight o)); [eauto|].
  cbn [weight_sum] in *. apply IH; lia.
Qed.

Lemma length_filter_fmap {A B} (P : B -> Prop) `{forall x, Decision (P x)} (f : A -> B) (l : list A) :
  length (filter P (f <$> l)) = length (filter (fun x => P (f x)) l).
Proof.
  induction l as [|a l IH]; [done|]. rewrite fmap_cons.
  destruct (decide (P (f a))); [rewrite !filter_cons_True by done; cbn; by rewrite IH|by rewrite !filter_cons_False].
Qed.

Lemma length_filter_iff {A} (P Q : A -> Prop) `{forall x, Decision (P x)} `{forall x, Decision (Q x)} (l : list A) :
  (forall x, x ∈ l -> P x <-> Q x) -> length (filter P l) = length (filter Q l).
Proof.
  induction l as [|a l IH]; intros Hpq; [done|]. assert (Ha := Hpq a ltac:(left)).
  assert (Hl : length (filter P l) = length (filter Q l)) by (apply IH; intros x Hx; apply Hpq; by right).
  destruct (decide (P a)).
  - rewrite !filter_cons_True by tauto. cbn. by rewrite Hl.
  - rewrite !filter_cons_False by tauto. done.
Qed.

Lemma length_filter_none {A} (P : A -> Prop) `{forall x, Decision (P x)} (l : list A) :
  (forall x, x ∈ l -> ~ P x) -> length (filter P l) = 0%nat.
Proof.
  induction l as [|a l IH]; intros Hp; [done|]. rewrite filter_cons_False by (apply Hp; left).
  apply IH. intros x Hx. apply Hp. by right.
Qed.

Lemma length_filter_all {A} (P : A -> Prop) `{forall x, Decision (P x)} (l : list A) :
  (forall x, x ∈ l -> P x) -> length (filter P l) = length l.
Proof.
  induction l as [|a l IH]; intros Hp; [done|]. rewrite filter_cons_True by (apply Hp; left). cbn. f_equal.
  apply IH. intros x Hx. apply Hp. by right.
Qed.

(** Each origin is picked for as many numbers as its weight. *)
Lemma pick_count cs o :
  NoDup cs -> positive_weights cs -> weight_sum cs < 2 ^ 63 -> o ∈ cs ->
  length (filter (fun r => pick r cs = Some o) (seqZ 0 (weight_sum cs))) = Z.to_nat (origin_Weight o).
Proof.
  induction cs as [|x cs IH]; intros Hnd Hw Hs Hin; [by apply elem_of_nil in Hin|].
  apply NoDup_cons in Hnd as [Hx Hnd]. pose proof Hw as [Hox Hw']%Forall_cons.
  pose proof (weight_sum_nonneg cs Hw') as H0.
  assert (Hsum : weight_sum (x :: cs) = origin_Weight x + weight_sum cs) by done.
  assert (Hlow : forall r, r ∈ seqZ 0 (origin_Weight x) -> pick r (x :: cs) = Some x).
  { intros r ?%elem_of_seqZ. rewrite pick_cons by (done || lia). by rewrite (proj2 (Z.ltb_lt _ _)) by lia. }
  assert (Hhigh : forall r, r ∈ seqZ 0 (weight_sum cs) -> pick (origin_Weight x + r) (x :: cs) = pick r cs).
  { intros r ?%elem_of_seqZ. rewrite pick_cons by (done || lia). rewrite (proj2 (Z.ltb_ge _ _)) by lia. f_equal. lia. }
  rewrite Hsum, seqZ_app, filter_app, length_app by lia.
  replace (seqZ (0 + origin_Weight x) (weight_sum cs)) with (Z.add (origin_Weight x) <$> seqZ 0 (weight_sum cs))
    by (rewrite fmap_add_seqZ; f_equal; lia).
  rewrite length_filter_fmap.
  rewrite (length_filter_iff (fun r => pick (origin_Weight x + r) (x :: cs) = Some o) (fun r => pick r cs = Some o))
    by (intros r Hr; by rewrite Hhigh).
  apply elem_of_cons in Hin as [->|Hin].
  - rewrite length_filter_all by done. rewrite length_filter_none by (intros r _ Hr%pick_member; done).
    rewrite length_seqZ. lia.
  - rewrite length_filter_none, IH by (done || lia || (intros r Hr; rewrite Hlow by done; intros [= ->]; done)). done.
Qed.

(** With several healthy origins of positive weight, a random number below
    the sum of the weights always selects one of them, and each origin is selected
    by exactly as many of these numbers as its weight; without a healthy origin
    nothing is selected, and a single one always is. *)
Theorem selectOrigin_weighted (sr : siteRuntime) :
  let cs := candidates sr in
  NoDup cs -> Forall (fun o => 1 <= origin_Weight o) cs -> weight_sum cs < 2 ^ 63 ->
  (forall intn, cs = [] -> selectOrigin intn sr = None) /\
  (forall intn o, cs = [o] -> selectOrigin intn sr = Some o) /\
  ((2 <= length cs)%nat ->
   (forall intn, 0 <= intn (weight_sum cs) < weight_sum cs -> exists o, selectOrigin intn sr = Some o /\ o ∈ cs) /\
   (forall o, o ∈ cs ->
      length (filter (fun r => selectOrigin (fun _ => r) sr = Some o) (seqZ 0 (weight_sum cs))) =
      Z.to_nat (origin_Weight o))).
Proof.
  intros cs Hnd Hw Hs. subst cs. split; [intros intn H; unfold selectOrigin; by rewrite H|].
  split; [intros intn o H; unfold selectOrigin; by rewrite H|]. intros Hlen.
  assert (Hsel : forall intn, 0 <= intn (weight_sum (candidates sr)) < weight_sum (candidates sr) ->
            selectOrigin intn sr = pick (intn (weight_sum (candidates sr))) (candidates sr)).
  { intros intn Hr. unfold selectOrigin. rewrite total_weight_sum by done.
    destruct (candidates sr) as [|o1 [|o2 cs]]; [cbn in Hlen; lia|cbn in Hlen; lia|].
    rewrite (proj2 (Z.leb_gt _ _)) by lia. by destruct (pick_total (o1 :: o2 :: cs) _ Hw Hs Hr) as [o ->]. }
  split.
  - intros intn Hr. rewrite Hsel by done. destruct (pick_total _ _ Hw Hs Hr) as [o Ho].
    exists o. split; [done|]. by eapply pick_member.
  - intros o Ho. rewrite <-(pick_count (candidates sr) o) by done. apply length_filter_iff.
    intros r ?%elem_of_seqZ. rewrite Hsel by lia. done.
Qed.

Lemma selectOrigin_weighted_witness :
  let sr := mkRuntime (cdn_site true) [cdn_origin 8 "a" 1; cdn_origin 9 "b" 3] None None None [] None in
  length (filter (fun r => selectOrigin (fun _ => r) sr = Some (cdn_origin 9 "b" 3)) (seqZ 0 4)) = 3%nat.
Proof.
  cbn zeta. set (sr := mkRuntime _ _ _ _ _ _ _).
  apply (proj2 (proj2 (proj2 (selectOrigin_weighted sr ltac:(apply NoDup_cons; split; [|apply NoDup_singleton];
    intros [=]%list_elem_of_singleton) ltac:(repeat constructor; cbn; lia) ltac:(cbn; lia))) ltac:(cbn; lia))).
  right. left.
Defined.

(** ** Health *)

Definition probe_failed (get : string -> option Z) (o : CDNOrigin) : bool := negb (probe_ok (get (probe_url o))).

(** The last three rounds of probes all failed. *)
Definition down (rounds : list (string -> option Z)) (o : CDNOrigin) : bool :=
  match reverse rounds with
  | g3 :: g2 :: g1 :: _ => probe_failed g3 o && probe_failed g2 o && probe_failed g1 o
  | _ => false
  end.

(** Failed rounds at the end. *)
Fixpoint trailing (o : CDNOrigin) (rounds_rev : list (string -> option Z)) : nat :=
  match rounds_rev with
  | g :: l => if probe_failed g o then S (trailing o l) else O
  | [] => O
  end.

Lemma down_trailing rounds o : down rounds o = bool_decide (3 <= trailing o (reverse rounds))%nat.
Proof.
  unfold down. destruct (reverse rounds) as [|g3 [|g2 [|g1 l]]]; cbn [trailing];
    repeat case_match; case_bool_decide; cbn [andb]; try done; lia.
Qed.

Lemma checkOrigin_rounds o rounds :
  let oh := foldl (fun oh g => checkOrigin g oh) (new_health o) rounds in
  oh_origin oh = o /\ oh_healthy oh = negb (down rounds o) /\
  oh_consecutiveFail oh = Z.of_nat (trailing o (reverse rounds)) /\ 0 <= oh_consecutiveOK oh.
Proof.
  induction rounds as [|g rounds IH] using rev_ind; [done|]. rewrite foldl_snoc. cbn zeta in *.
  set (oh := foldl _ _ rounds) in *. destruct IH as (Ho & Hh & Hf & Hk).
  rewrite down_trailing in *. rewrite reverse_snoc. cbn [trailing]. unfold checkOrigin. rewrite Ho.
  unfold probe_failed. destruct (probe_ok (g (probe_url o))) eqn:Hp; cbn [negb markResult oh_origin oh_healthy oh_consecutiveFail oh_consecutiveOK].
  - rewrite (proj2 (Z.leb_le _ _)) by (unfold healthyThreshold; lia). split_and!; [done|case_bool_decide; lia || done|done|lia].
  - rewrite Ho, Hf, Hh. unfold unhealthyThreshold. split_and!; [done| |lia|lia].
    destruct (Z.leb_spec 3 (Z.of_nat (trailing o (reverse rounds)) + 1)); repeat case_bool_decide; cbn; lia || done.
Qed.

(** An origin counts as unhealthy exactly when its last three probes failed:
    whatever the history of the checker, [HealthyOrigins] returns, in order, the
    origins that are not down in this sense. *)
Theorem checker_last_three (os : list CDNOrigin) (rounds : list (string -> option Z)) :
  HealthyOrigins (foldl (fun hk get => checkAll get hk) (hk_Start (NewHealthChecker os)) rounds) =
  filter (fun o => down rounds o = false) os.
Proof.
  assert (Hfold : forall hk, hk_origins (foldl (fun hk get => checkAll get hk) hk rounds) =
            (fun oh => foldl (fun oh g => checkOrigin g oh) oh rounds) <$> hk_origins hk).
  { induction rounds as [|g rounds IH]; intros hk; cbn [foldl]; [by rewrite list_fmap_id|].
    rewrite IH. cbn. by rewrite <-list_fmap_compose. }
  unfold HealthyOrigins. rewrite Hfold. cbn. clear Hfold. rewrite <-list_fmap_compose.
  induction os as [|o os IH]; [done|]. rewrite fmap_cons. cbn [compose].
  destruct (checkOrigin_rounds o rounds) as (Ho & Hh & _). set (oh := foldl _ _ _) in *.
  destruct (down rounds o) eqn:Hd; cbn in Hh.
  - rewrite filter_cons_False by congruence. rewrite filter_cons_False by congruence. exact IH.
  - rewrite filter_cons_True by done. rewrite filter_cons_True by done. rewrite fmap_cons, Ho. by rewrite IH.
Qed.

(** ** Health under the node's reconcile loop (internal/app/node.go) *)

(** One turn of [cdnReconcileLoop], which runs every 30 seconds: poll the
    controller, and reconcile when the poll succeeded. *)
Definition cdnReconcileLoop_turn (fetch : result NodeCDNConfig) (mkdir : string * ID -> bool) (now : Z)
    : list proxy_op :=
  match fetch with Ok cfg => [PReconcile mkdir now (Some cfg)] | Err _ => [] end.

(** What happens between two turns: requests, purges and rounds of probes. *)
Definition between_turns (op : proxy_op) : Prop :=
  match op with PServe _ _ _ | PPurge _ | PCheck _ _ => True | _ => False end.
Definition probes (l : loc) (op : proxy_op) : Prop :=
  match op with PCheck _ l' => l' = l | _ => False end.
#[export] Instance probes_dec l op : Decision (probes l op).
Proof. destruct op; cbn; apply _. Defined.

(** A period of 30 seconds.  The checker of a site probes when it starts and then
    every 30 seconds, so it runs at most twice in a period. *)
Record period := mkPeriod {
  pd_config : NodeCDNConfig; pd_mkdir : string * ID -> bool; pd_now : Z; pd_ops : list proxy_op
}.
Definition period_ok (pd : period) : Prop :=
  config_ok (Some (pd_config pd)) /\ Forall between_turns (pd_ops pd) /\
  forall l, (length (filter (probes l) (pd_ops pd)) <= 2)%nat.
Definition period_ops (pd : period) : list proxy_op :=
  cdnReconcileLoop_turn (Ok (pd_config pd)) (pd_mkdir pd) (pd_now pd) ++ pd_ops pd.

Section periods.
Context (hashKey gzip brotli : string -> string) (unmarshal_rules : string -> option (list HeaderRule)).
Notation step := (proxy_step hashKey gzip brotli unmarshal_rules).
Notation run := (run_proxy hashKey gzip brotli unmarshal_rules).

(** The checker of a current runtime has all its origins healthy, with at most
    [n l] failures counted. *)
Definition checker_young (n : nat) (sr : siteRuntime) : Prop :=
  forall hk, sr_healthChecker sr = Some hk -> oh_origin <$> hk_origins hk = sr_origins sr /\
    Forall (fun oh => oh_healthy oh = true /\ oh_consecutiveFail oh <= Z.of_nat n) (hk_origins hk).
Definition young (n : loc -> nat) (p : ProxyService) : Prop :=
  forall l sr, ps_heap p !! l = Some sr -> current p l -> checker_young (n l) sr.

Lemma checker_young_candidates n sr : checker_young n sr -> candidates sr = sr_origins sr.
Proof.
  intros Hy. unfold candidates. destruct (sr_healthChecker sr) as [hk|] eqn:Hhk; [|done].
  destruct (Hy hk Hhk) as [<- Hall]. unfold HealthyOrigins. f_equal. clear Hhk.
  induction Hall as [|oh l [H _] _ IH]; [done|]. rewrite filter_cons_True by done. by rewrite IH.
Qed.

Lemma young_put n n' p l sr sr' :
  young n p -> ps_heap p !! l = Some sr -> (checker_young (n l) sr -> checker_young (n' l) sr') ->
  (forall l', l' <> l -> n' l' = n l') -> young n' (put_runtime l sr' p).
Proof.
  intros Hy Hl Hsr Hn l' x Hx Hcur. cbn in Hx. destruct (decide (l' = l)) as [->|Hne].
  - rewrite lookup_insert_eq in Hx. simplify_eq. apply Hsr. by apply (Hy l sr).
  - rewrite lookup_insert_ne in Hx by done. rewrite Hn by done. by apply Hy.
Qed.

(** A round of probes adds at most one failure and, below three, removes no origin. *)
Lemma checkAll_young n get sr hk :
  (n < 2)%nat -> sr_healthChecker sr = Some hk -> checker_young n sr ->
  checker_young (S n) (set_checker (checkAll get hk) sr).
Proof.
  intros Hn Hhk Hy hk' [= <-]. destruct (Hy hk Hhk) as [Ho Hall]. cbn. split.
  - rewrite <-Ho, <-list_fmap_compose. apply list_fmap_ext. intros _ oh _. cbn.
    unfold checkOrigin, markResult. by destruct (probe_ok _).
  - rewrite Forall_fmap. eapply Forall_impl; [exact Hall|]. intros oh [Hh Hf]. cbn. unfold checkOrigin, markResult.
    destruct (probe_ok _); cbn; [split; [by destruct (_ <=? _)|lia]|].
    split; [|lia]. rewrite (proj2 (Z.leb_gt _ _)) by (unfold unhealthyThreshold; lia). done.
Qed.

Lemma between_step n p op p' :
  proxy_inv hashKey p -> young n p -> between_turns op ->
  (forall l, (n l + length (filter (probes l) [op]) <= 2)%nat) -> step op p = Some p' ->
  young (fun l => (n l + length (filter (probes l) [op]))%nat) p'.
Proof.
  intros Hi Hy Hop Hn Hst. destruct op as [| | | |id|ex e r|get l0]; try done; cbn [proxy_step] in Hst.
  - simplify_eq. unfold PurgeCache.
    assert (Hy0 : young (fun l => (n l + length (filter (probes l) [PPurge id]))%nat) p).
    { intros l sr Hl Hc. cbn. rewrite Nat.add_0_r. by apply Hy. }
    destruct (negb _); [done|]. destruct (ps_siteByID p !! id) as [l|]; [|done].
    destruct (ps_heap p !! l) as [sr|] eqn:Hl; [|done]. destruct (sr_cache sr) as [b|]; [|done].
    by eapply young_put.
  - apply fmap_Some in Hst as ([x p1] & Hst & ->). cbn [snd]. unfold proxy_ServeHTTP in Hst.
    assert (Hy0 : young (fun l => (n l + length (filter (probes l) [PServe ex e r]))%nat) (count_request p)).
    { intros l sr Hl Hc. cbn. rewrite Nat.add_0_r. by apply Hy. }
    destruct (ps_sites (count_request p) !! host_of r) as [l|]; [|by simplify_eq].
    destruct (ps_heap (count_request p) !! l) as [sr|] eqn:Hl; [|done].
    apply bind_Some in Hst as ([y sr'] & Hserve & [= <- <-]).
    destruct (serve_site_ok hashKey gzip brotli ex e (host_of r) r sr (pi_caches _ _ Hi _ _ Hl)) as (y' & sr'' & Hserve' & Hs).
    rewrite Hserve in Hserve'. simplify_eq. eapply young_put; [exact Hy0|exact Hl| |done].
    unfold checker_young. by rewrite (ss_checker _ _ _ Hs), (ss_origins _ _ _ Hs).
  - simplify_eq. unfold health_tick.
    assert (Hge : forall p, young n p -> young (fun l => (n l + length (filter (probes l) [PCheck get l0]))%nat) p).
    { intros q Hq l sr Hl Hc hk Hhk. destruct (Hq l sr Hl Hc hk Hhk) as [H1 H2]. split; [done|].
      eapply Forall_impl; [exact H2|]. intros oh [? ?]. split; [done|lia]. }
    destruct (ps_heap p !! l0) as [sr|] eqn:Hl; [|by apply Hge].
    destruct (sr_healthChecker sr) as [hk|] eqn:Hhk; [|by apply Hge]. case_bool_decide; [|by apply Hge].
    specialize (Hn l0). rewrite filter_cons_True in Hn by done. cbn in Hn.
    eapply young_put; [exact Hy|exact Hl| |].
    + rewrite filter_cons_True by done. cbn. rewrite Nat.add_1_r. apply checkAll_young; [lia|done].
    + intros l' Hne. rewrite filter_cons_False by (cbn; congruence). cbn. lia.
Qed.

Lemma between_run n p ops :
  proxy_inv hashKey p -> young n p -> Forall between_turns ops ->
  (forall l, (n l + length (filter (probes l) ops) <= 2)%nat) ->
  exists p', run ops p = Some p' /\ proxy_inv hashKey p' /\ ps_running p' = ps_running p /\
    young (fun l => (n l + length (filter (probes l) ops))%nat) p'.
Proof.
  revert n p. induction ops as [|op ops IH]; intros n p Hi Hy Hops Hn; cbn [run_proxy].
  { exists p. split_and!; [done..|]. intros l sr Hl Hc. cbn. rewrite Nat.add_0_r. by apply Hy. }
  apply Forall_cons in Hops as [Hop Hops].
  assert (Hcount : forall l, length (filter (probes l) (op :: ops)) =
                     (length (filter (probes l) [op]) + length (filter (probes l) ops))%nat).
  { intros l. change (op :: ops) with ([op] ++ ops). by rewrite filter_app, length_app. }
  destruct (proxy_step_ok hashKey gzip brotli unmarshal_rules op p Hi) as (p1 & Hst & Hi1); [by destruct op|].
  assert (Hr : ps_running p1 = ps_running p).
  { destruct op as [| | | |id|ex e r|get l0]; try done; cbn [proxy_step] in Hst.
    - simplify_eq. unfold PurgeCache. by repeat case_match.
    - apply fmap_Some in Hst as ([x p2] & Hst & ->). cbn [snd]. unfold proxy_ServeHTTP in Hst.
      destruct (ps_sites _ !! _); [|by simplify_eq]. destruct (ps_heap _ !! _); [|done].
      by apply bind_Some in Hst as (y & _ & [= <- <-]).
    - simplify_eq. unfold health_tick. by repeat case_match. }
  assert (Hy1 := between_step n p op p1 Hi Hy Hop ltac:(intros l; specialize (Hn l); rewrite Hcount in Hn; lia) Hst).
  rewrite Hst. cbn [mbind option_bind]. destruct (IH _ p1 Hi1 Hy1 Hops) as (p' & Hrun & Hi' & Hr' & Hy').
  { intros l. specialize (Hn l). rewrite Hcount in Hn. lia. }
  exists p'. split_and!; [done|done|congruence|]. intros l sr Hl Hc.
  cbv beta. rewrite Hcount, Nat.add_assoc. by apply (Hy' l sr).
Qed.

(** A reconciliation starts every checker afresh. *)
Lemma reconcile_young mkdir now cfg p :
  proxy_inv hashKey p -> config_ok cfg -> ps_running p = true ->
  exists p', step (PReconcile mkdir now cfg) p = Some p' /\ proxy_inv hashKey p' /\ ps_running p' = true /\
    young (fun _ => 0%nat) p'.
Proof.
  intros Hi Hc Hr. destruct (reconcile_run hashKey unmarshal_rules mkdir now cfg p Hi Hc Hr) as (h & t & Hrun & Ht & _).
  destruct (proxy_Reconcile_ok hashKey unmarshal_rules mkdir now cfg p Hi Hc) as (r & p' & Hrun' & Hi').
  rewrite Hrun in Hrun'. injection Hrun' as <- <-. cbn [proxy_step]. rewrite Hrun. eexists. split; [done|].
  split_and!; [done|by cbn|]. intros l sr Hl [id Hid].
  destruct (to_byID _ _ _ Ht _ _ Hid) as (swo & Hswo & _). cbn in Hl. simplify_eq.
  intros hk. unfold rebuilt, new_runtime. cbn. case_bool_decide; [done|]. intros [= <-]. cbn. split.
  - rewrite <-list_fmap_compose. apply list_fmap_id.
  - rewrite Forall_fmap. apply Forall_true. by intros o.
Qed.

Lemma periods_run pds p :
  proxy_inv hashKey p -> ps_running p = true -> young (fun _ => 2%nat) p -> Forall period_ok pds ->
  exists p', run (pds ≫= period_ops) p = Some p' /\ young (fun _ => 2%nat) p'.
Proof.
  intros Hi Hr Hy Hpds. revert p Hi Hr Hy. induction Hpds as [|pd pds (Hc & Hops & Hn) _ IH]; intros p Hi Hr Hy.
  { by exists p. }
  rewrite bind_cons. unfold period_ops at 1. cbn [cdnReconcileLoop_turn app run_proxy].
  destruct (reconcile_young (pd_mkdir pd) (pd_now pd) (Some (pd_config pd)) p Hi Hc Hr) as (p1 & -> & Hi1 & Hr1 & Hy1).
  cbn [mbind option_bind]. destruct (between_run _ p1 (pd_ops pd) Hi1 Hy1 Hops Hn) as (p2 & Hrun & Hi2 & Hr2 & Hy2).
  assert (Hy2' : young (fun _ => 2%nat) p2).
  { intros l sr Hl Hcu hk Hhk. destruct (Hy2 l sr Hl Hcu hk Hhk) as [H1 H2]. split; [done|].
    eapply Forall_impl; [exact H2|]. intros oh [? ?]. specialize (Hn l). split; [done|lia]. }
  destruct (IH p2 Hi2 ltac:(congruence) Hy2') as (p' & Hrun' & Hy').
  exists p'. split; [|done]. clear -Hrun Hrun'. revert p1 Hrun. generalize (pd_ops pd) as ops.
  induction ops as [|op ops IH]; intros p1; cbn [app run_proxy]; [by intros [= ->]|].
  intros (p3 & -> & Hrun)%bind_Some. cbn. by apply IH.
Qed.
End periods.

(** While the polls of the controller succeed, no origin is ever taken out of
    rotation.  The reconcile loop rebuilds every site, and with it its health
    checker, every 30 seconds; the checker probes at its start and every 30
    seconds, so it never sees the three failures that mark an origin unhealthy:
    whatever the probes return, every origin of every site stays a candidate. *)
Theorem dead_origins_stay_in_rotation (hashKey gzip brotli : string -> string)
    (unmarshal_rules : string -> option (list HeaderRule)) (addr : string) (pds : list period) :
  Forall period_ok pds ->
  exists p, run_proxy hashKey gzip brotli unmarshal_rules (PStart true addr :: (pds ≫= period_ops)) (NewProxyService ∅) = Some p /\
    forall id l sr, ps_siteByID p !! id = Some l -> ps_heap p !! l = Some sr -> candidates sr = sr_origins sr.
Proof.
  intros Hpds.
  destruct (run_proxy_ok hashKey gzip brotli unmarshal_rules [PStart true addr] _
              (NewProxyService_inv hashKey ∅ (map_Forall_empty _)) ltac:(by repeat constructor)) as (p0 & Hrun0 & Hi).
  cbn in Hrun0. injection Hrun0 as <-. cbn [run_proxy proxy_step mbind option_bind]. cbn [proxy_Start NewProxyService snd ps_running].
  destruct (periods_run hashKey gzip brotli unmarshal_rules pds _ Hi eq_refl) as (p & Hrun & Hy); [|done|].
  - intros l sr Hl. cbn in Hl. by rewrite lookup_empty in Hl.
  - exists p. split; [exact Hrun|]. intros id l sr Hid Hl. apply (checker_young_candidates 2). apply (Hy l sr Hl). by exists id.
Qed.

Definition cdn_dead : period :=
  mkPeriod (mkNodeCDNConfig [mkSWO (cdn_site true) [cdn_origin 8 "10.0.0.1:80" 1; cdn_origin 9 "10.0.0.2:80" 3]])
    (fun _ => true) 0 [PCheck (fun _ => None) 1%positive; PCheck (fun _ => None) 1%positive].

Lemma dead_origins_stay_in_rotation_witness :
  exists p, run_proxy id id id no_rules (PStart true ":80" :: ([cdn_dead] ≫= period_ops)) (NewProxyService ∅) = Some p /\
    forall id l sr, ps_siteByID p !! id = Some l -> ps_heap p !! l = Some sr -> candidates sr = sr_origins sr.
Proof.
  apply dead_origins_stay_in_rotation. constructor; [|constructor]. split_and!; [apply NoDup_singleton|by repeat constructor|].
  intros l. cbn [pd_ops cdn_dead]. destruct (decide (1%positive = l)) as [<-|Hne].
  - rewrite !filter_cons_True by done. cbn. lia.
  - rewrite !filter_cons_False by done. cbn. lia.
Defined.
