(* ===== verification/CdnEdgeTheorems.v ===== *)
(** * From the controller's tables to the edge

    A node polls its CDN configuration and reconciles its proxy with it.  The
    theorems compose [GetNodeCDNConfig] on the tables with [proxy_Reconcile] and
    [proxy_ServeHTTP] on the proxy: which hosts are routed, and which origins a
    request can reach.  The JSON transport between the two is taken to deliver
    the configuration unchanged. *)

From Stdlib Require Import ZArith Lia Ascii String.
From S2P Require Import Prelude GoStrings GoNet Regex Domain Storage StoreDns StoreFleet StoreCdn NodeSync.
From S2P Require Import DnsValidate DnsService Cache DiskCache DiskTheorems GoHttp CdnGuards CdnProxy CdnProxyProofs.
From S2P Require Import CdnProxyTheorems CdnOriginTheorems CdnValidate CdnService CdnValidateProofs CdnServiceTheorems.

Open Scope Z_scope.

(** ** Routing tables of a reconciliation *)

Lemma domains_insert_some (ds : list string) (l : loc) (m : gmap string loc) d :
  is_Some (foldl (fun m d => <[ToLower d := l]> m) m ds !! d) <-> d ∈ ToLower <$> ds \/ is_Some (m !! d).
Proof.
  revert m. induction ds as [|d0 ds IH]; intros m; cbn [foldl]; [rewrite elem_of_nil; tauto|].
  rewrite IH, fmap_cons, elem_of_cons, lookup_insert_is_Some'. naive_solver.
Qed.

Lemma add_sites_routes build swos h0 fr0 :
  let t := foldl (add_site build) (h0, fr0, ∅, ∅) swos in
  (forall d, is_Some (t.1.2 !! d) <-> exists swo, swo ∈ swos /\ d ∈ ToLower <$> site_Domains (swo_Site swo)) /\
  (forall d l, t.1.2 !! d = Some l -> (l < t.1.1.2)%positive /\
     exists swo, swo ∈ swos /\ t.1.1.1 !! l = Some (build swo) /\ d ∈ ToLower <$> site_Domains (swo_Site swo)).
Proof.
  cbn zeta. induction swos as [|swo swos IH] using rev_ind.
  { cbn. split; [intros d|intros d l]; rewrite lookup_empty; [|done].
    split; [by intros [? ?]|]. by intros (? & ?%elem_of_nil & _). }
  rewrite foldl_snoc. destruct (foldl _ _ swos) as [[[h fr] sites] byID]. cbn [add_site fst snd] in *.
  destruct IH as [IH1 IH2]. split.
  - intros d. rewrite domains_insert_some, IH1. setoid_rewrite elem_of_app. setoid_rewrite list_elem_of_singleton.
    split; [intros [H|(x & ? & ?)]; eauto|intros (x & [H|H] & ?); subst; eauto].
  - intros d l [[-> Hd]|H]%domains_lookup.
    + split; [lia|]. exists swo. rewrite elem_of_app, list_elem_of_singleton, lookup_insert_eq. auto.
    + destruct (IH2 d l H) as (Hl & x & Hx & Hb & Hd). split; [lia|]. exists x. rewrite elem_of_app.
      split_and!; [auto|rewrite lookup_insert_ne by lia; done|done].
Qed.

(** ** What a runtime can reach *)

Definition pool (sr : siteRuntime) : list CDNOrigin :=
  sr_origins sr ++ match sr_healthChecker sr with Some hk => oh_origin <$> hk_origins hk | None => [] end.

Lemma selectOrigin_pool intn sr o : selectOrigin intn sr = Some o -> o ∈ pool sr.
Proof.
  assert (Hc : forall x, x ∈ candidates sr -> x ∈ pool sr).
  { intros x. unfold candidates, pool. destruct (sr_healthChecker sr) as [hk|]; rewrite elem_of_app; [|auto].
    unfold HealthyOrigins. intros (oh & -> & [_ H]%list_elem_of_filter)%list_elem_of_fmap. right.
    apply list_elem_of_fmap. eauto. }
  unfold selectOrigin. intros H. apply Hc. destruct (candidates sr) as [|x [|y cs]] eqn:E; [done|injection H as ->; left|].
  destruct (_ <=? 0); [by eapply list_elem_of_lookup_2|]. destruct (pick _ _) as [z|] eqn:Ep.
  - injection H as <-. by eapply pick_member.
  - by apply last_Some_elem_of.
Qed.

Section edge.
Context (hashKey gzip brotli : string -> string) (unmarshal_rules : string -> option (list HeaderRule)).
Context (d : DB) (n : ID).
Notation serve := (proxy_ServeHTTP hashKey gzip brotli).
Notation run := (run_proxy hashKey gzip brotli unmarshal_rules).

(** The runtime behind a routed host is the one of a site the node must serve. *)
Definition edge_inv (p : ProxyService) : Prop :=
  forall host l sr, ps_sites p !! host = Some l -> ps_heap p !! l = Some sr ->
    exists row, site_served_to d n row /\ sr_site sr = loadCDNSiteDomains row /\
      host ∈ ToLower <$> site_Domains row /\ forall o, o ∈ pool sr -> o ∈ origin_rows d (site_ID row).

Lemma edge_inv_put p l sr sr' :
  edge_inv p -> ps_heap p !! l = Some sr -> sr_site sr' = sr_site sr -> (forall o, o ∈ pool sr' -> o ∈ pool sr) ->
  edge_inv (put_runtime l sr' p).
Proof.
  intros He Hl Hs Hp host l' x Hh Hx. cbn in Hh, Hx. apply lookup_insert_Some in Hx as [[<- <-]|[_ Hx]]; [|by eapply He].
  destruct (He host l sr Hh Hl) as (row & ? & ? & ? & Ho). exists row. split_and!; [done|congruence|done|auto].
Qed.

Lemma edge_step op p p' :
  proxy_inv hashKey p -> edge_inv p -> between_turns op -> proxy_step hashKey gzip brotli unmarshal_rules op p = Some p' ->
  edge_inv p' /\ ps_sites p' = ps_sites p.
Proof.
  intros Hi He Hop Hst. destruct op as [| | | |id|ex e r|get l]; try done; cbn [proxy_step] in Hst.
  - injection Hst as <-. unfold PurgeCache. destruct (negb _); [done|]. destruct (ps_siteByID p !! id) as [l|]; [|done].
    destruct (ps_heap p !! l) as [sr|] eqn:Hl; [|done]. destruct (sr_cache sr) as [b|]; [|done]. cbn.
    split; [|done]. by eapply edge_inv_put.
  - unfold proxy_ServeHTTP in Hst. cbn [ps_sites count_request] in Hst.
    destruct (ps_sites p !! host_of r) as [l|] eqn:Hh; [|by injection Hst as <-].
    cbn [ps_heap count_request] in Hst. destruct (ps_heap p !! l) as [sr|] eqn:Hl; [|done].
    destruct (serve_site_ok hashKey gzip brotli ex e (host_of r) r sr (pi_caches _ _ Hi _ _ Hl)) as (x & sr' & E & Hs).
    rewrite E in Hst. cbn in Hst. injection Hst as <-. split; [|done].
    apply (edge_inv_put (count_request p) l sr); [exact He|done|apply Hs|].
    intros o. unfold pool. by rewrite (ss_origins _ _ _ Hs), (ss_checker _ _ _ Hs).
  - injection Hst as <-. unfold health_tick. destruct (ps_heap p !! l) as [sr|] eqn:Hl; [|done].
    destruct (sr_healthChecker sr) as [hk|] eqn:Hhk; [|done]. case_bool_decide; [|done]. cbn. split; [|done].
    apply (edge_inv_put p l sr); [done..|]. intros o. unfold pool. cbn. rewrite Hhk, !elem_of_app.
    intros [?|Ho]; [by left|right]. apply list_elem_of_fmap in Ho as (oh & -> & Hoh).
    apply list_elem_of_fmap in Hoh as (oh0 & -> & Hoh0). apply list_elem_of_fmap. exists oh0. split; [|done].
    unfold checkOrigin, markResult. by destruct (probe_ok _).
Qed.

Lemma edge_run ops p p' :
  proxy_inv hashKey p -> edge_inv p -> Forall between_turns ops -> run ops p = Some p' ->
  edge_inv p' /\ ps_sites p' = ps_sites p /\ proxy_inv hashKey p'.
Proof.
  intros Hi He Hops. revert p Hi He. induction Hops as [|op ops Hop _ IH]; intros p Hi He Hrun; cbn [run_proxy] in Hrun.
  { by injection Hrun as <-. }
  destruct (proxy_step _ _ _ _ op p) as [p1|] eqn:E; cbn in Hrun; [|done].
  destruct (edge_step op p p1 Hi He Hop E) as [He1 Hs1].
  assert (Hi1 : proxy_inv hashKey p1).
  { destruct (proxy_step_ok hashKey gzip brotli unmarshal_rules op p Hi) as (p2 & E2 & Hi2); [by destruct op|]. congruence. }
  destruct (IH p1 Hi1 He1 Hrun) as (? & -> & ?). done.
Qed.

(** A reply depends only on what the origins in the pool of the runtime answer. *)
Lemma serve_site_depends ex ex' e host r sr :
  runtime_ok hashKey sr -> (forall o, o ∈ pool sr -> ex (outgoing o r) = ex' (outgoing o r)) ->
  serve_site hashKey gzip brotli ex e host r sr = serve_site hashKey gzip brotli ex' e host r sr.
Proof.
  intros Hok Hag. unfold serve_site. pose proof (guards_same hashKey e r sr) as Hs1.
  destruct (guards e r sr) as [[rp|] sr1]; cbn [snd] in Hs1; [done|].
  destruct (cache_lookup_ok hashKey e host r sr1 (ss_ok _ _ _ Hs1 Hok)) as (x & sr2 & -> & Hs2).
  assert (Hs := same_site_trans _ _ _ _ Hs1 Hs2). cbn [mbind option_bind]. destruct x as [entry|]; [done|].
  destruct (selectOrigin _ sr2) as [o|] eqn:E; [|done]. apply selectOrigin_pool in E. rewrite Hag; [done|].
  revert E. unfold pool. by rewrite (ss_origins _ _ _ Hs), (ss_checker _ _ _ Hs).
Qed.

(** ** Polling and reconciling *)

Lemma reconcile_edge mkdir now cfg p :
  proxy_inv hashKey p -> ps_running p = true -> config_ok (Some cfg) ->
  (forall x, x ∈ ncc_Sites cfg -> exists row, site_served_to d n row /\ swo_Site x = loadCDNSiteDomains row /\
     forall o, o ∈ swo_Origins x -> o ∈ origin_rows d (site_ID row)) ->
  exists p', proxy_Reconcile unmarshal_rules mkdir now (Some cfg) p = Some (Ok tt, p') /\
    proxy_inv hashKey p' /\ edge_inv p' /\
    forall host, is_Some (ps_sites p' !! host) <->
      exists x, x ∈ ncc_Sites cfg /\ host ∈ ToLower <$> site_Domains (swo_Site x).
Proof.
  intros Hi Hrun Hok Hcfg.
  destruct (proxy_Reconcile_ok hashKey unmarshal_rules mkdir now (Some cfg) p Hi Hok) as (r & p' & Hrec & Hi').
  pose proof Hrec as Hrec0. unfold proxy_Reconcile in Hrec. rewrite Hrun in Hrec. cbn [negb] in Hrec.
  destruct (stop_checkers p) as [p1|]; cbn [mbind option_bind] in Hrec; [|done]. cbn [config_sites] in Hrec.
  destruct (add_sites_routes (new_runtime unmarshal_rules p1 (left_disk p1) mkdir now) (ncc_Sites cfg) (ps_heap p1) (ps_fresh p1))
    as [Hdom Hroute].
  destruct (foldl _ _ (ncc_Sites cfg)) as [[[h fr] sites] byID]. cbn [fst snd] in *. injection Hrec as <- <-.
  eexists. split; [exact Hrec0|]. split; [done|]. split; [|exact Hdom].
  intros host l sr Hh Hl. cbn in Hh, Hl. destruct (Hroute host l Hh) as (_ & x & Hx & Hb & Hd').
  rewrite Hb in Hl. injection Hl as <-. destruct (Hcfg x Hx) as (row & Hserv & Hsite & Ho). exists row.
  split_and!; [done|exact Hsite| |].
  - rewrite Hsite in Hd'. cbn in Hd'. apply list_elem_of_fmap in Hd' as (dom & -> & Hd').
    rewrite merge_sort_Permutation in Hd'. apply list_elem_of_fmap. eauto.
  - intros o. unfold pool, new_runtime. cbn. rewrite elem_of_app. intros [Hin|Hin]; [auto|].
    case_bool_decide; [by apply elem_of_nil in Hin|]. cbn in Hin. rewrite <-list_fmap_compose in Hin.
    apply list_elem_of_fmap in Hin as (o' & -> & Hin). auto.
Qed.
End edge.

Lemma poll_and_reconcile (hashKey : string -> string) (unmarshal_rules : string -> option (list HeaderRule))
    (allowPrivate : bool) (s : SqlState) (n : ID) (p : ProxyService) mkdir now :
  proxy_inv hashKey p -> ps_running p = true ->
  cdn_inv unmarshal_rules allowPrivate (sq_db s) -> cdn_small (sq_db s) -> calm s -> is_Some (nodes (sq_db s) !! n) ->
  exists cfg s' p',
    GetNodeCDNConfig n s = (Ok cfg, s') /\ sq_db s' = sq_db s /\
    proxy_Reconcile unmarshal_rules mkdir now (Some cfg) p = Some (Ok tt, p') /\
    proxy_inv hashKey p' /\ edge_inv (sq_db s) n p' /\
    forall host, is_Some (ps_sites p' !! host) <->
      exists row, site_served_to (sq_db s) n row /\ host ∈ ToLower <$> site_Domains row.
Proof.
  intros Hi Hrun Hinv Hsm Hs Hn. destruct (GetNodeCDNConfig n s) as [r s'] eqn:Hget.
  destruct (GetNodeCDNConfig_run n s r s' Hget) as (Hd & Hok & Hcfg). specialize (Hok Hs Hn).
  destruct r as [cfg|]; [|done]. destruct (Hcfg cfg eq_refl) as (groups & Hg & Hsites).
  destruct (selected_spec (sq_db s) n groups (fun k row H => proj1 (ci_sites _ _ _ Hinv k row H)) Hsm Hg) as [Hnd Hsel].
  assert (Hent : forall x, x ∈ ncc_Sites cfg <-> exists row, site_served_to (sq_db s) n row /\ x = entry (sq_db s) (loadCDNSiteDomains row)).
  { intros x. rewrite Hsites, list_elem_of_fmap. setoid_rewrite Hsel. naive_solver. }
  destruct (reconcile_edge hashKey unmarshal_rules (sq_db s) n mkdir now cfg p Hi Hrun) as (p' & Hrec & Hi' & He & Hhost).
  - unfold config_ok. cbn [config_sites]. rewrite Hsites, <-list_fmap_compose. exact Hnd.
  - intros x (row & Hserv & ->)%Hent. exists row. split_and!; [done..|]. intros o Ho. by rewrite entry_origins in Ho.
  - exists cfg, s', p'. split_and!; try done. intros host. rewrite Hhost. setoid_rewrite Hent. split.
    + intros (x & (row & Hserv & ->) & Hd'). exists row. split; [done|]. cbn in Hd'.
      apply list_elem_of_fmap in Hd' as (dom & -> & Hd'). rewrite merge_sort_Permutation in Hd'. apply list_elem_of_fmap. eauto.
    + intros (row & Hserv & Hd'). eexists. split; [eauto|]. cbn.
      apply list_elem_of_fmap in Hd' as (dom & -> & Hd'). apply list_elem_of_fmap. exists dom. by rewrite merge_sort_Permutation.
Qed.

Lemma started_inv (hashKey gzip brotli : string -> string) (unmarshal_rules : string -> option (list HeaderRule)) ops p :
  Forall ok_op ops -> run_proxy hashKey gzip brotli unmarshal_rules ops (NewProxyService ∅) = Some p -> proxy_inv hashKey p.
Proof.
  intros Hops Hrun.
  destruct (run_proxy_ok hashKey gzip brotli unmarshal_rules ops _ (NewProxyService_inv hashKey ∅ (map_Forall_empty _)) Hops)
    as (p0 & Hrun' & Hi). congruence.
Qed.



(** After a poll from valid tables of a controller that does not allow
    private origins, the reply to a request depends on nothing but the answers of
    origins stored for a site that the node serves under the requested host; none
    of them is a literal loopback, link-local, private or unspecified address. *)
Theorem edge_contacts_only_site_origins (hashKey gzip brotli : string -> string)
    (unmarshal_rules : string -> option (list HeaderRule)) (s : SqlState) (n : ID)
    (ops : list proxy_op) (p : ProxyService) mkdir now cfg s' p1 later p2 :
  Forall ok_op ops -> run_proxy hashKey gzip brotli unmarshal_rules ops (NewProxyService ∅) = Some p -> ps_running p = true ->
  cdn_inv unmarshal_rules false (sq_db s) -> cdn_small (sq_db s) -> calm s -> is_Some (nodes (sq_db s) !! n) ->
  GetNodeCDNConfig n s = (Ok cfg, s') -> proxy_Reconcile unmarshal_rules mkdir now (Some cfg) p = Some (Ok tt, p1) ->
  Forall between_turns later -> run_proxy hashKey gzip brotli unmarshal_rules later p1 = Some p2 ->
  forall ex ex' e r,
    (forall row o, site_served_to (sq_db s) n row -> host_of r ∈ ToLower <$> site_Domains row ->
       o ∈ origin_rows (sq_db s) (site_ID row) ->
       (forall ip, ParseIP (origin_host (og_URLHost (outgoing o r))) = Some ip -> ~ internal ip) ->
       ex (outgoing o r) = ex' (outgoing o r)) ->
    proxy_ServeHTTP hashKey gzip brotli ex e r p2 = proxy_ServeHTTP hashKey gzip brotli ex' e r p2.
Proof.
  intros Hops Hrun Hr Hinv Hsm Hs Hn Hget Hrec Hlater Hrun2 ex ex' e r Hag.
  pose proof (started_inv _ _ _ _ _ _ Hops Hrun) as Hi.
  destruct (poll_and_reconcile hashKey unmarshal_rules false s n p mkdir now Hi Hr Hinv Hsm Hs Hn)
    as (cfg' & s0 & p1' & Hget' & _ & Hrec' & Hi1 & He & _).
  rewrite Hget in Hget'. injection Hget' as <- <-. rewrite Hrec in Hrec'. injection Hrec' as <-.
  destruct (edge_run hashKey gzip brotli unmarshal_rules (sq_db s) n later p1 p2 Hi1 He Hlater Hrun2) as (He2 & _ & Hi2).
  unfold proxy_ServeHTTP. cbn [ps_sites ps_heap count_request]. destruct (ps_sites p2 !! host_of r) as [l|] eqn:Hh; [|done].
  destruct (ps_heap p2 !! l) as [sr|] eqn:Hl; [|done]. destruct (He2 _ _ _ Hh Hl) as (row & Hserv & _ & Hdom & Ho).
  rewrite (serve_site_depends hashKey gzip brotli ex ex'); [done|exact (pi_caches _ _ Hi2 _ _ Hl)|].
  intros o Hin. apply Ho in Hin. apply (Hag row o Hserv Hdom Hin). intros ip Hip. cbn in Hip.
  apply list_elem_of_filter in Hin as [_ [k Hk]%elem_of_rows]. destruct (ci_origins _ _ _ Hinv _ _ Hk) as (_ & Hv & _).
  by apply (ov_literal _ _ Hv).
Qed.

(** ** Witnesses *)

Lemma rows_length {V} (m : gmap ID V) : length (rows_of m) = size m.
Proof. unfold rows_of. by rewrite length_fmap, length_map_to_list. Qed.

Lemma cdn_filled_small : cdn_small (sq_db cdn_filled).
Proof.
  assert (Hs : size (cdn_sites (sq_db cdn_filled)) = 1%nat) by (vm_compute; reflexivity).
  assert (Ho : size (cdn_origins (sq_db cdn_filled)) = 1%nat) by (vm_compute; reflexivity).
  split; intros k.
  - unfold site_rows. pose proof (length_filter (fun s => site_TenantID s = k) (rows_of (cdn_sites (sq_db cdn_filled)))) as H.
    rewrite rows_length, Hs in H. lia.
  - unfold origin_rows. pose proof (length_filter (fun o => origin_SiteID o = k) (rows_of (cdn_origins (sq_db cdn_filled)))) as H.
    rewrite rows_length, Ho in H. lia.
Qed.

Lemma cdn_filled_inv : cdn_inv no_rules false (sq_db cdn_filled).
Proof. exact (cdn_reachable_inv no_rules false _ _ (cdn_filled_steps enforced_call eq_refl eq_refl) (cdn_inv_empty no_rules false cdn_db eq_refl eq_refl)). Qed.

Definition idle_proxy : ProxyService := mkProxy true ":80" ∅ 1%positive ∅ ∅ "" 0 ∅ 0.


Definition cdn_config : NodeCDNConfig := match (GetNodeCDNConfig 3 cdn_filled).1 with Ok c => c | Err _ => mkNodeCDNConfig [] end.
Definition edge_proxy : ProxyService :=
  match proxy_Reconcile no_rules (fun _ => true) 0 (Some cdn_config) idle_proxy with Some (_, p) => p | None => idle_proxy end.

Lemma edge_contacts_only_site_origins_witness :
  (exists row, site_served_to (sq_db cdn_filled) 3 row /\ "www.example.org" ∈ ToLower <$> site_Domains row) /\
  forall ex ex' e r,
    (forall row o, site_served_to (sq_db cdn_filled) 3 row -> host_of r ∈ ToLower <$> site_Domains row ->
       o ∈ origin_rows (sq_db cdn_filled) (site_ID row) ->
       (forall ip, ParseIP (origin_host (og_URLHost (outgoing o r))) = Some ip -> ~ internal ip) ->
       ex (outgoing o r) = ex' (outgoing o r)) ->
    proxy_ServeHTTP id id id ex e r edge_proxy = proxy_ServeHTTP id id id ex' e r edge_proxy.
Proof.
  split.
  - eexists. split; [split; [|split]|].
    + exists 4%N. vm_compute. reflexivity.
    + reflexivity.
    + exists 2%N, (mkNodeGroup 2 1 "eu" "" 0 0). split_and!; [reflexivity|set_solver|reflexivity..].
    + left.
  - apply (edge_contacts_only_site_origins id id id no_rules cdn_filled 3 [PStart true ":80"] idle_proxy (fun _ => true) 0
             cdn_config (GetNodeCDNConfig 3 cdn_filled).2 edge_proxy [] edge_proxy).
    + by constructor.
    + reflexivity.
    + reflexivity.
    + exact cdn_filled_inv.
    + exact cdn_filled_small.
    + vm_compute. reflexivity.
    + vm_compute. by eexists.
    + vm_compute. reflexivity.
    + vm_compute. reflexivity.
    + constructor.
    + reflexivity.
Defined.
