(* ===== verification/Overlay.v ===== *)
(** * Overlay address allocation (internal/provisioning/wireguard.go)

    [AllocateOverlayIP] for IPv4 and IPv6 subnets.  The scan of a subnet is a
    loop with early exit over the address space, run for at most as many turns
    as there are addresses ([loop_pos]); [None] stands for a scan that never
    ends. *)

From Stdlib Require Import ZArith Lia Ascii String.
From S2P Require Import Prelude GoStrings GoNet Domain.

Open Scope Z_scope.

(** ** A loop with early exit *)

(** At most [p] turns of [f]; [inl] is the state after the last turn. *)
Fixpoint loop_pos {A B} (f : A -> A + B) (p : positive) (a : A) : A + B :=
  match p with
  | xH => f a
  | xO p => match loop_pos f p a with inl a' => loop_pos f p a' | inr b => inr b end
  | xI p =>
      match f a with
      | inl a1 => match loop_pos f p a1 with inl a' => loop_pos f p a' | inr b => inr b end
      | inr b => inr b
      end
  end.

(** ** Byte order (encoding/binary, math/big) *)

Definition be_Uint32 (b : list Z) : Z :=
  match b with
  | [b0; b1; b2; b3] =>
      Z.lor (Z.lor (Z.lor b3 (Z.shiftl b2 8)) (Z.shiftl b1 16)) (Z.shiftl b0 24)
  | _ => 0
  end.
Definition be_PutUint32 (v : Z) : list Z :=
  [Z.land (Z.shiftr v 24) 255; Z.land (Z.shiftr v 16) 255; Z.land (Z.shiftr v 8) 255; Z.land v 255].

(** [big.Int.SetBytes] *)
Definition SetBytes (b : list Z) : Z := foldl (fun acc x => acc * 256 + x) 0 b.
(** [big.Int.Bytes], left-padded to [n] bytes *)
Fixpoint pad_bytes (n : nat) (v : Z) : list Z :=
  match n with O => [] | S n => pad_bytes n (v / 256) ++ [v mod 256] end.

(** ** Allocation *)

(** [net.ParseCIDR], falling back to [net.ParseIP] *)
Definition cidr_or_ip (s : string) : option IP :=
  match ParseCIDR s with Some (ip, _) => Some ip | None => ParseIP s end.

(** [ip.To4().String()] and [ip.To16().String()]; a nil address prints [<nil>]. *)
Definition To4_String (ip : IP) : string := match To4 ip with Some b => IPString b | None => "<nil>" end.
Definition To16_String (ip : IP) : string := match To16 ip with Some b => IPString b | None => "<nil>" end.

Definition incrementIP (ip : IP) : IP :=
  be_PutUint32 ((be_Uint32 (default [] (To4 ip)) + 1) mod 2 ^ 32).

(** [ip[i] |= ^n.Mask[i]] for every byte of the address *)
Definition or_not_mask (ip mask : list Z) : list Z :=
  zip_with (fun b m => Z.lor b (255 - m)) ip mask.
Definition broadcastAddr (n : IPNet) : IP := or_not_mask (default [] (To4 (net_ip n))) (net_mask n).
Definition lastIPv6Addr (n : IPNet) : IP := or_not_mask (default [] (To16 (net_ip n))) (net_mask n).

Section allocate.
Context (controllerAddr : string) (peers : list WireGuardPeer) (nodes : list Node).

(** The controller's own address, when it parses. *)
Definition controller_ips : list IP :=
  if bool_decide (controllerAddr = "") then [] else option_list (cidr_or_ip controllerAddr).
Definition peer_ips : list IP := omap cidr_or_ip (concat (peer_AllowedIPs <$> peers)).
(** [ParseIP] of the non-empty overlay addresses of the nodes. *)
Definition node_ips (field : Node -> string) : list IP :=
  omap (fun n => if bool_decide (field n = "") then None else ParseIP (field n)) nodes.

Definition used_v4 (ipNet : IPNet) (networkIP : IP) : gset string :=
  {[ IPString networkIP; IPString (broadcastAddr ipNet) ]} ∪
  list_to_set (To4_String <$> controller_ips) ∪
  list_to_set (To4_String <$> peer_ips) ∪
  list_to_set (To4_String <$> node_ips node_WireGuardIP).

Definition used_v6 (networkIP : IP) : gset string :=
  {[ IPString networkIP ]} ∪
  list_to_set (To16_String <$> controller_ips) ∪
  list_to_set (To16_String <$> filter (fun ip => To4 ip = None) peer_ips) ∪
  list_to_set (To16_String <$> node_ips node_WireGuardIPv6).

Definition exhausted : goerr := Wrapf "overlay subnet exhausted" ErrConflict.

(** One turn of the IPv4 scan. *)
Definition scan4 (ipNet : IPNet) (used : gset string) (ip : IP) : IP + result string :=
  if IPNet_Contains ipNet ip then
    if bool_decide (IPString ip ∈ used) then inl (incrementIP ip) else inr (Ok (IPString ip))
  else inr (Err exhausted).

(** One turn of the IPv6 scan. *)
Definition scan6 (last : Z) (used : gset string) (current : Z) : Z + result string :=
  if current <=? last then
    let ip := pad_bytes 16 current in
    if bool_decide (IPString ip ∈ used) then inl (current + 1) else inr (Ok (IPString ip))
  else inr (Err exhausted).

Definition ended {A B} (r : A + B) : option B := match r with inl _ => None | inr b => Some b end.

Definition allocateOverlayIPv6 (ipNet : IPNet) : option (result string) :=
  match To16 (net_ip ipNet) with
  | None => None
  | Some networkIP =>
      ended (loop_pos (scan6 (SetBytes (lastIPv6Addr ipNet)) (used_v6 networkIP)) (2 ^ 128 + 1)%positive
               (SetBytes networkIP + 1))
  end.

Definition AllocateOverlayIP (subnet : string) : option (result string) :=
  match ParseCIDR subnet with
  | None => Some (Err (Errorf "parse subnet"))
  | Some (_, ipNet) =>
      match To4 (net_ip ipNet) with
      | None => allocateOverlayIPv6 ipNet
      | Some networkIP =>
          ended (loop_pos (scan4 ipNet (used_v4 ipNet networkIP)) (2 ^ 32)%positive
                   (incrementIP networkIP))
      end
  end.
End allocate.

Example allocate_first :
  AllocateOverlayIP "10.100.0.1/24" [] [] "10.100.0.0/24" = Some (Ok "10.100.0.2").
Proof. vm_compute. reflexivity. Qed.
Example allocate_v6 :
  AllocateOverlayIP "fd00:ef::1/48" [] [] "fd00:ef::/48" = Some (Ok "fd00:ef::2").
Proof. vm_compute. reflexivity. Qed.

(** * Overlay address allocation: byte arithmetic, the scan and its theorems *)


(** ** Loops with early exit *)

Fixpoint loop_nat {A B} (f : A -> A + B) (n : nat) (a : A) : A + B :=
  match n with
  | O => inl a
  | S n => match f a with inl a' => loop_nat f n a' | inr b => inr b end
  end.

Lemma loop_nat_add {A B} (f : A -> A + B) n m a :
  loop_nat f (n + m) a = match loop_nat f n a with inl a' => loop_nat f m a' | inr b => inr b end.
Proof. revert a. induction n as [|n IH]; intros a; cbn; [done|]. by destruct (f a). Qed.

Lemma loop_pos_nat {A B} (f : A -> A + B) p a : loop_pos f p a = loop_nat f (Pos.to_nat p) a.
Proof.
  revert a. induction p as [p IH|p IH|]; intros a.
  - rewrite Pos2Nat.inj_xI. cbn [loop_pos loop_nat]. destruct (f a) as [a1|b]; [|done].
    replace (2 * Pos.to_nat p)%nat with (Pos.to_nat p + Pos.to_nat p)%nat by lia.
    rewrite loop_nat_add, IH. by destruct (loop_nat f _ a1).
  - rewrite Pos2Nat.inj_xO. cbn [loop_pos].
    replace (2 * Pos.to_nat p)%nat with (Pos.to_nat p + Pos.to_nat p)%nat by lia.
    rewrite loop_nat_add, IH. by destruct (loop_nat f _ a).
  - change (Pos.to_nat 1) with 1%nat. cbn. by destruct (f a).
Qed.

(** A loop that walks a sequence either leaves it at a first position or runs
    through all its turns. *)
Lemma loop_scan {A B} (f : A -> A + B) (x : nat -> A) n :
  (forall i, (i < n)%nat -> f (x i) = inl (x (S i)) \/ exists b, f (x i) = inr b) ->
  (exists i b, (i < n)%nat /\ (forall j, (j < i)%nat -> f (x j) = inl (x (S j))) /\
     f (x i) = inr b /\ loop_nat f n (x O) = inr b) \/
  ((forall i, (i < n)%nat -> f (x i) = inl (x (S i))) /\ loop_nat f n (x O) = inl (x n)).
Proof.
  revert x. induction n as [|n IH]; intros x Hf.
  - right. split; [intros; lia|done].
  - destruct (Hf O) as [H0|[b H0]]; [lia| |].
    + destruct (IH (fun i => x (S i))) as [(i & b & Hi & Hj & Hb & Hl)|[Hall Hl]].
      * intros i Hi. apply Hf. lia.
      * left. exists (S i), b. split_and!; [lia| |done|cbn; by rewrite H0].
        intros [|j] Hji; [done|]. apply Hj. lia.
      * right. split; [|cbn; by rewrite H0]. intros [|i] Hi; [done|]. apply Hall. lia.
    + left. exists O, b. split_and!; [lia|intros; lia|done|cbn; by rewrite H0].
Qed.

(** ** Digits in base [2^n] *)

Lemma split_testbit x y n i :
  0 <= n -> 0 <= x < 2 ^ n -> 0 <= i ->
  Z.testbit (x + y * 2 ^ n) i = if i <? n then Z.testbit x i else Z.testbit y (i - n).
Proof.
  intros Hn Hx Hi. destruct (Z.ltb_spec i n) as [Hlt|Hge].
  - rewrite <-(Z.mod_pow2_bits_low (x + y * 2 ^ n) n i) by lia.
    rewrite Z.mod_add by (apply Z.pow_nonzero; lia). by rewrite Z.mod_small.
  - replace i with ((i - n) + n) at 1 by lia. rewrite <-Z.div_pow2_bits by lia.
    rewrite Z.div_add by (apply Z.pow_nonzero; lia). by rewrite Z.div_small.
Qed.

Lemma land_bound x x' n : 0 <= n -> 0 <= x < 2 ^ n -> 0 <= x' -> 0 <= Z.land x x' < 2 ^ n.
Proof.
  intros Hn Hx Hx'. rewrite <-(Z.mod_small x (2 ^ n)), <-Z.land_ones by lia.
  rewrite <-Z.land_assoc, (Z.land_comm (Z.ones n)), Z.land_assoc, Z.land_ones by lia.
  apply Z.mod_pos_bound. apply Z.pow_pos_nonneg; lia.
Qed.

Lemma lor_bound x x' n : 0 <= n -> 0 <= x < 2 ^ n -> 0 <= x' < 2 ^ n -> 0 <= Z.lor x x' < 2 ^ n.
Proof.
  intros Hn Hx Hx'. split; [apply Z.lor_nonneg; lia|].
  destruct (decide (Z.lor x x' = 0)) as [->|Hne]; [apply Z.pow_pos_nonneg; lia|].
  assert (0 <= Z.lor x x') by (apply Z.lor_nonneg; lia).
  assert (n <> 0) by (intros ->; assert (x = 0 /\ x' = 0) as [-> ->] by lia; done).
  apply Z.log2_lt_pow2; [lia|]. rewrite Z.log2_lor by lia.
  apply Z.max_lub_lt.
  - destruct (decide (x = 0)) as [->|]; [cbn; lia|]. apply Z.log2_lt_pow2; lia.
  - destruct (decide (x' = 0)) as [->|]; [cbn; lia|]. apply Z.log2_lt_pow2; lia.
Qed.

Lemma land_split x y x' y' n :
  0 <= n -> 0 <= x < 2 ^ n -> 0 <= x' < 2 ^ n ->
  Z.land (x + y * 2 ^ n) (x' + y' * 2 ^ n) = Z.land x x' + Z.land y y' * 2 ^ n.
Proof.
  intros Hn Hx Hx'. apply Z.bits_inj'. intros i Hi.
  rewrite Z.land_spec, !split_testbit by (try apply land_bound; lia).
  destruct (i <? n); by rewrite Z.land_spec.
Qed.

Lemma lor_split x y x' y' n :
  0 <= n -> 0 <= x < 2 ^ n -> 0 <= x' < 2 ^ n ->
  Z.lor (x + y * 2 ^ n) (x' + y' * 2 ^ n) = Z.lor x x' + Z.lor y y' * 2 ^ n.
Proof.
  intros Hn Hx Hx'. apply Z.bits_inj'. intros i Hi.
  rewrite Z.lor_spec, !split_testbit by (try apply lor_bound; lia).
  destruct (i <? n); by rewrite Z.lor_spec.
Qed.

Lemma lor_shiftl x y n : 0 <= n -> 0 <= x < 2 ^ n -> Z.lor x (Z.shiftl y n) = x + y * 2 ^ n.
Proof.
  intros Hn Hx. rewrite Z.shiftl_mul_pow2 by done.
  pose proof (lor_split x 0 0 y n Hn Hx) as H. cbn in H. rewrite Z.lor_0_r, Z.add_0_r in H.
  apply H. split; [done|]. apply Z.pow_pos_nonneg; lia.
Qed.

(** The high part under a mask of leading ones. *)
Lemma land_high_mask x k m :
  0 <= k -> 0 <= m -> 0 <= x < 2 ^ (k + m) ->
  Z.land x (Z.ones m * 2 ^ k) = x - x mod 2 ^ k.
Proof.
  intros Hk Hm Hx. assert (Hp : 0 < 2 ^ k) by (apply Z.pow_pos_nonneg; lia).
  pose proof (Z.mod_pos_bound x (2 ^ k) Hp) as Hmod.
  pose proof (Z.div_mod x (2 ^ k) ltac:(lia)) as Hdm.
  replace x with (x mod 2 ^ k + (x / 2 ^ k) * 2 ^ k) at 1 by lia.
  rewrite <-(Z.add_0_l (Z.ones m * 2 ^ k)), land_split by lia.
  rewrite Z.land_0_r, Z.land_ones by lia. rewrite Z.mod_small; [lia|].
  split; [apply Z.div_pos; lia|]. apply Z.div_lt_upper_bound; [lia|].
  rewrite <-Z.pow_add_r by lia. lia.
Qed.

(** ** Four bytes as a number *)

Definition quad (b : list Z) : Prop := length b = 4%nat /\ Forall is_byte b.

Lemma be_arith a b c d :
  is_byte a -> is_byte b -> is_byte c -> is_byte d ->
  be_Uint32 [a; b; c; d] = ((a * 2 ^ 8 + b) * 2 ^ 8 + c) * 2 ^ 8 + d.
Proof.
  unfold is_byte. intros Ha Hb Hc Hd. cbn [be_Uint32].
  rewrite (lor_shiftl d c 8), (lor_shiftl _ b 16), (lor_shiftl _ a 24) by lia. lia.
Qed.

Ltac quad_cases H :=
  let Hl := fresh in let Hf := fresh in
  destruct H as [Hl Hf];
  repeat match type of Hf with
    | Forall _ ?l => is_var l; destruct l as [|? l]; cbn in Hl; try discriminate Hl
    | Forall _ (_ :: _) => let Hx := fresh "Hb" in apply Forall_cons in Hf as [Hx Hf]
    end.

Lemma be_range b : quad b -> 0 <= be_Uint32 b < 2 ^ 32.
Proof. intros H. quad_cases H. rewrite be_arith by done. unfold is_byte in *. lia. Qed.

Lemma be_inj b b' : quad b -> quad b' -> be_Uint32 b = be_Uint32 b' -> b = b'.
Proof.
  intros H H'. quad_cases H. quad_cases H'. rewrite !be_arith by done. unfold is_byte in *.
  intros Heq. repeat f_equal; lia.
Qed.

Lemma be_land b m : quad b -> quad m -> be_Uint32 (land_bytes b m) = Z.land (be_Uint32 b) (be_Uint32 m).
Proof.
  intros H H'. quad_cases H. quad_cases H'. cbn [land_bytes zip_with]. unfold is_byte in *.
  rewrite !be_arith by (try apply (land_bound _ _ 8); unfold is_byte; lia).
  rewrite !(Z.add_comm (_ * 2 ^ 8)), !land_split by lia. lia.
Qed.

Lemma be_lor b m :
  quad b -> quad m -> be_Uint32 (zip_with Z.lor b m) = Z.lor (be_Uint32 b) (be_Uint32 m).
Proof.
  intros H H'. quad_cases H. quad_cases H'. cbn [zip_with]. unfold is_byte in *.
  rewrite !be_arith by (try apply (lor_bound _ _ 8); unfold is_byte; lia).
  rewrite !(Z.add_comm (_ * 2 ^ 8)), !lor_split by lia. lia.
Qed.

Lemma quad_put v : quad (be_PutUint32 v).
Proof.
  split; [done|]. unfold be_PutUint32. change 255 with (Z.ones 8).
  repeat constructor; rewrite Z.land_ones by lia; apply Z.mod_pos_bound; lia.
Qed.

Lemma be_put v : 0 <= v < 2 ^ 32 -> be_Uint32 (be_PutUint32 v) = v.
Proof.
  intros Hv. pose proof (quad_put v) as H. unfold be_PutUint32 in *. quad_cases H.
  rewrite be_arith by done. change 255 with (Z.ones 8).
  rewrite !Z.land_ones, !Z.shiftr_div_pow2 by lia.
  change (2 ^ 24) with (2 ^ 8 * 2 ^ 8 * 2 ^ 8). change (2 ^ 16) with (2 ^ 8 * 2 ^ 8).
  rewrite <-!Z.div_div by lia. Z.div_mod_to_equations. lia.
Qed.

Lemma put_be b : quad b -> be_PutUint32 (be_Uint32 b) = b.
Proof. intros H. apply be_inj; [apply quad_put|done|]. by rewrite be_put by (by apply be_range). Qed.

Lemma quad_land b m : quad b -> quad m -> quad (land_bytes b m).
Proof.
  intros H H'. quad_cases H. quad_cases H'. split; [done|]. unfold is_byte in *.
  repeat constructor; apply (land_bound _ _ 8); lia.
Qed.

Lemma quad_lor b m : quad b -> quad m -> quad (zip_with Z.lor b m).
Proof.
  intros H H'. quad_cases H. quad_cases H'. split; [done|]. unfold is_byte in *.
  repeat constructor; apply (lor_bound _ _ 8); lia.
Qed.

(** ** Subnets as ranges *)

Definition mask_facts (n : Z) : bool :=
  let m := CIDRMask n 32 in
  bool_decide (length m = 4%nat) && forallb (fun b => (0 <=? b) && (b <? 256)) m &&
  (be_Uint32 m =? Z.ones n * 2 ^ (32 - n)) &&
  (be_Uint32 ((fun b => 255 - b) <$> m) =? 2 ^ (32 - n) - 1).

Lemma mask_facts_all n : 0 <= n <= 32 -> mask_facts n = true.
Proof.
  intros Hn. assert (Hall : forallb mask_facts (seqZ 0 33) = true) by (vm_compute; reflexivity).
  rewrite forallb_forall in Hall. apply Hall. apply list_elem_of_In, elem_of_seqZ. lia.
Qed.

Lemma mask_ok n :
  0 <= n <= 32 ->
  quad (CIDRMask n 32) /\ be_Uint32 (CIDRMask n 32) = Z.ones n * 2 ^ (32 - n) /\
  quad ((fun b => 255 - b) <$> CIDRMask n 32) /\
  be_Uint32 ((fun b => 255 - b) <$> CIDRMask n 32) = 2 ^ (32 - n) - 1.
Proof.
  intros H%mask_facts_all. unfold mask_facts in H. cbn zeta in H.
  apply andb_true_iff in H as [H H4%Z.eqb_eq]. apply andb_true_iff in H as [H H3%Z.eqb_eq].
  apply andb_true_iff in H as [H1%bool_decide_eq_true H2].
  assert (Hb : Forall is_byte (CIDRMask n 32)).
  { rewrite forallb_forall in H2. apply Forall_forall. intros b Hb%list_elem_of_In.
    apply H2 in Hb. apply andb_true_iff in Hb as [?%Z.leb_le ?%Z.ltb_lt]. done. }
  split_and!; [done|done| |done]. split; [by rewrite length_fmap|].
  apply Forall_fmap. eapply Forall_impl; [exact Hb|]. intros b. unfold is_byte. cbn. lia.
Qed.

Lemma length_CIDRMask_bytes n k : length (CIDRMask_bytes n k) = k.
Proof. revert n. induction k; intros n; cbn; [done|]. by rewrite IHk. Qed.

(** The IPv4 subnet [n] is the block of [B] addresses starting at [N]. *)
Record block4 (n : IPNet) (N B : Z) : Prop := {
  blk_net : quad (net_ip n);
  blk_start : be_Uint32 (net_ip n) = N;
  blk_top : N + B <= 2 ^ 32;
  blk_size : 1 <= B;
  blk_bcast : quad (broadcastAddr n);
  blk_last : be_Uint32 (broadcastAddr n) = N + B - 1;
  blk_whole : B = 2 ^ 32 -> net_mask n = [0; 0; 0; 0];
  blk_contains v : 0 <= v < 2 ^ 32 ->
    IPNet_Contains n (be_PutUint32 v) = bool_decide (N <= v < N + B)
}.

Lemma To4_quad b : length b = 4%nat -> To4 b = Some b.
Proof. intros H. unfold To4. by rewrite bool_decide_true. Qed.

Lemma MaskIP_v4 b m : quad b -> length m = 4%nat -> MaskIP (v4InV6Prefix ++ b) m = Some (land_bytes b m).
Proof.
  intros [Hl _] Hm. unfold MaskIP.
  rewrite (bool_decide_true (_ /\ _ /\ _)) by (rewrite length_app, Hl; done).
  change (drop 12 (v4InV6Prefix ++ b)) with b. cbn zeta. by rewrite bool_decide_true by congruence.
Qed.

Lemma block_range N B v : 1 <= B -> N mod B = 0 -> N = v - v mod B <-> N <= v < N + B.
Proof.
  intros HB HN. pose proof (Z.mod_pos_bound v B ltac:(lia)) as Hm. split; [lia|]. intros Hv.
  assert (v mod B = v - N); [|lia].
  rewrite <-(Z.mod_small (v - N) B) by lia. rewrite Zminus_mod, HN, Z.sub_0_r.
  by rewrite Z.mod_mod by lia.
Qed.

Lemma ParseCIDR_block s ip n :
  ParseCIDR s = Some (ip, n) -> length (net_mask n) = 4%nat -> exists N B, block4 n N B.
Proof.
  intros Hp Hlen. apply ParseCIDR_shape in Hp as (a & ones & -> & _ & Hones & Hmask & Hnet & Hb).
  destruct a as [b|b]; cbn [BitLen] in *.
  2: { rewrite Hmask in Hlen. unfold CIDRMask in Hlen. by rewrite length_CIDRMask_bytes in Hlen. }
  destruct (mask_ok ones Hones) as (Hqm & Hbm & Hqi & Hbi).
  cbn [As16] in Hnet. destruct Hb as [Hb Hbl]. assert (Hqb : quad b) by done.
  rewrite Hmask, MaskIP_v4 in Hnet by (done || apply Hqm). injection Hnet as Hnet.
  set (B := 2 ^ (32 - ones)). assert (HB : 1 <= B).
  { unfold B. pose proof (Z.pow_pos_nonneg 2 (32 - ones)). lia. }
  pose proof (be_range b Hqb) as Hr.
  assert (Hland : forall x, 0 <= x < 2 ^ 32 -> Z.land x (be_Uint32 (CIDRMask ones 32)) = x - x mod B).
  { intros x Hx. rewrite Hbm. apply land_high_mask; [lia..|]. by replace (32 - ones + ones) with 32 by lia. }
  assert (HN : be_Uint32 (net_ip n) = be_Uint32 b - be_Uint32 b mod B).
  { rewrite Hnet, be_land, Hland by done. done. }
  set (N := be_Uint32 (net_ip n)) in *.
  assert (HNB : N mod B = 0).
  { rewrite HN, Zminus_mod, Z.mod_mod, Z.sub_diag by lia. done. }
  pose proof (Z.mod_pos_bound (be_Uint32 b) B ltac:(lia)).
  assert (Hpow : 2 ^ 32 = 2 ^ ones * B) by (unfold B; rewrite <-Z.pow_add_r by lia; f_equal; lia).
  assert (Hqn : quad (net_ip n)) by (rewrite Hnet; by apply quad_land).
  assert (HNdiv : N = B * (N / B)) by (pose proof (Z.div_mod N B); lia).
  assert (Hbc : broadcastAddr n = zip_with Z.lor (net_ip n) ((fun m => 255 - m) <$> net_mask n)).
  { unfold broadcastAddr, or_not_mask. rewrite To4_quad by apply Hqn. by rewrite zip_with_fmap_r. }
  exists N, B. split; try done.
  - assert (N / B < 2 ^ ones); [|nia]. apply Z.div_lt_upper_bound; nia.
  - rewrite Hbc, Hmask. by apply quad_lor.
  - rewrite Hbc, Hmask, be_lor, Hbi by done. fold N. fold B.
    pose proof (lor_split 0 (N / B) (B - 1) 0 (32 - ones)) as Hs. fold B in Hs.
    rewrite Z.lor_0_l, Z.lor_0_r, Z.add_0_l, Z.mul_0_l, Z.add_0_r in Hs.
    rewrite HNdiv at 1. rewrite Z.mul_comm, Hs by lia. lia.
  - intros HB32. rewrite Hmask. assert (ones = 0) as ->; [|reflexivity].
    unfold B in HB32. apply Z.pow_inj_r in HB32; lia.
  - intros v Hv. unfold IPNet_Contains, networkNumberAndMask. rewrite To4_quad by apply Hqn.
    cbn [from_option id]. rewrite (bool_decide_true (length (net_mask n) = 4%nat)) by done.
    rewrite (bool_decide_true (length (net_ip n) = 4%nat)) by apply Hqn.
    rewrite To4_quad by done. cbn [from_option id]. rewrite bool_decide_true by (by rewrite (proj1 Hqn)).
    cbn [andb]. apply bool_decide_ext. rewrite <-block_range by done. rewrite Hmask.
    assert (Hself : be_Uint32 (land_bytes (net_ip n) (CIDRMask ones 32)) = N).
    { rewrite be_land, Hland by (done || by apply be_range). fold N. lia. }
    split.
    + intros He. rewrite <-Hself, He, be_land, be_put, Hland by (done || apply quad_put). done.
    + intros He. apply be_inj; [by apply quad_land|apply quad_land; [apply quad_put|done]|].
      rewrite Hself, be_land, be_put, Hland by (done || apply quad_put). done.
Qed.

(** ** Which addresses are in use *)

Lemma IPString_quad_parse b : quad b -> ParseIP (IPString b) = Some (v4InV6Prefix ++ b).
Proof. intros H. quad_cases H. by apply ParseIP_IPString. Qed.

Lemma IPString_quad_inj b b' : quad b -> quad b' -> IPString b = IPString b' -> b = b'.
Proof.
  intros H H' He. apply IPString_quad_parse in H, H'. rewrite He, H' in H.
  injection H as ->. done.
Qed.

Lemma To4_shape ip b : Forall is_byte ip -> To4 ip = Some b -> quad b.
Proof.
  unfold To4. intros Hf. repeat case_bool_decide; intros; simplify_eq; [done|].
  destruct H0 as [Hl _]. split; [by rewrite length_drop, Hl|by apply Forall_drop].
Qed.

Lemma To4_String_put ip v :
  Forall is_byte ip -> IPString (be_PutUint32 v) = To4_String ip <-> To4 ip = Some (be_PutUint32 v).
Proof.
  intros Hf. unfold To4_String. destruct (To4 ip) as [b|] eqn:E.
  - apply To4_shape in E; [|done]. split; [|by intros [= ->]].
    intros H. f_equal. symmetry. apply IPString_quad_inj; [apply quad_put|done|done].
  - split; [|done]. intros H. pose proof (IPString_quad_parse _ (quad_put v)) as Hp.
    rewrite H in Hp. discriminate Hp.
Qed.

Section taken.
Context (controllerAddr : string) (peers : list WireGuardPeer) (nodes : list Node).

Lemma cidr_or_ip_bytes s ip : cidr_or_ip s = Some ip -> Forall is_byte ip /\ length ip = 16%nat.
Proof.
  unfold cidr_or_ip. destruct (ParseCIDR s) as [[ip0 n]|] eqn:E; [|apply ParseIP_shape].
  intros [= ->]. by apply ParseCIDR_shape in E as (a & ones & -> & H & _).
Qed.

Lemma controller_ips_bytes ip : ip ∈ controller_ips controllerAddr -> Forall is_byte ip.
Proof.
  unfold controller_ips. case_bool_decide; [by intros ?%elem_of_nil|].
  destruct (cidr_or_ip _) eqn:E; cbn; [|by intros ?%elem_of_nil].
  intros ->%list_elem_of_singleton. by apply cidr_or_ip_bytes in E as [? _].
Qed.

Lemma peer_ips_bytes ip : ip ∈ peer_ips peers -> Forall is_byte ip.
Proof. intros (s & _ & H)%list_elem_of_omap. by apply cidr_or_ip_bytes in H as [? _]. Qed.

Lemma node_ips_bytes f ip : ip ∈ node_ips nodes f -> Forall is_byte ip.
Proof.
  intros (n & _ & H)%list_elem_of_omap. case_bool_decide; [done|]. by apply ParseIP_shape in H as [? _].
Qed.

(** The IPv4 address [v] belongs to the controller, a peer or a node. *)
Definition taken4 (v : Z) : Prop :=
  exists ip, ip ∈ controller_ips controllerAddr ++ peer_ips peers ++ node_ips nodes node_WireGuardIP /\
    To4 ip = Some (be_PutUint32 v).

Lemma used_of_list v (ips : list IP) :
  (forall ip, ip ∈ ips -> Forall is_byte ip) ->
  IPString (be_PutUint32 v) ∈ (list_to_set (To4_String <$> ips) : gset string) <->
  exists ip, ip ∈ ips /\ To4 ip = Some (be_PutUint32 v).
Proof.
  intros Hb. rewrite elem_of_list_to_set, list_elem_of_fmap. split.
  - intros (ip & He & Hin). exists ip. split; [done|]. apply To4_String_put; [by apply Hb|done].
  - intros (ip & Hin & He). exists ip. split; [|done]. apply To4_String_put; [by apply Hb|done].
Qed.

Lemma used4_iff n N B v :
  block4 n N B -> 0 <= v < 2 ^ 32 ->
  IPString (be_PutUint32 v) ∈ used_v4 controllerAddr peers nodes n (net_ip n) <->
  v = N \/ v = N + B - 1 \/ taken4 v.
Proof.
  intros Hb Hv. unfold used_v4, taken4. rewrite !elem_of_union, !elem_of_singleton.
  rewrite !used_of_list by eauto using controller_ips_bytes, peer_ips_bytes, node_ips_bytes.
  setoid_rewrite elem_of_app. setoid_rewrite elem_of_app.
  assert (Hstr : forall b w, quad b -> be_Uint32 b = w -> IPString (be_PutUint32 v) = IPString b <-> v = w).
  { intros b w Hq <-. split.
    - intros He. apply IPString_quad_inj in He; [|apply quad_put|done]. by rewrite <-He, be_put.
    - intros ->. by rewrite put_be. }
  rewrite (Hstr (net_ip n) N), (Hstr (broadcastAddr n) (N + B - 1)).
  - split; [intros [[[[?|?]|(ip & ? & ?)]|(ip & ? & ?)]|(ip & ? & ?)]; eauto 7|].
    intros [?|[?|(ip & [?|[?|?]] & ?)]]; eauto 7.
  - apply Hb.
  - apply Hb.
  - apply Hb.
  - apply Hb.
Qed.
End taken.

(** ** The IPv4 scan *)

Lemma incrementIP_put v : 0 <= v < 2 ^ 32 -> incrementIP (be_PutUint32 v) = be_PutUint32 ((v + 1) mod 2 ^ 32).
Proof. intros Hv. unfold incrementIP. rewrite To4_quad by done. cbn [from_option id]. by rewrite be_put. Qed.

(** The addresses of the scan, in order. *)
Definition addr4 (N : Z) (i : nat) : IP := be_PutUint32 ((N + 1 + Z.of_nat i) mod 2 ^ 32).

Section scan.
Context (n : IPNet) (N B : Z) (used : gset string).
Context (Hblk : block4 n N B) (HB : B < 2 ^ 32).

Lemma N_range : 0 <= N < 2 ^ 32.
Proof using Hblk HB.
  rewrite <-(blk_start _ _ _ Hblk). apply be_range, (blk_net _ _ _ Hblk).
Qed.

Lemma increment_addr4 i : incrementIP (addr4 N i) = addr4 N (S i).
Proof using Type.
  unfold addr4. rewrite incrementIP_put by (apply Z.mod_pos_bound; lia).
  f_equal. rewrite Zplus_mod_idemp_l. f_equal. lia.
Qed.

Lemma scan4_step i :
  scan4 n used (addr4 N i) = inl (addr4 N (S i)) \/ exists b, scan4 n used (addr4 N i) = inr b.
Proof using Type.
  unfold scan4. rewrite increment_addr4. destruct (IPNet_Contains n (addr4 N i)); [|eauto].
  case_bool_decide; eauto.
Qed.

(** Inside the block the scan does not wrap around. *)
Lemma addr4_inside i : Z.of_nat i < B - 1 -> addr4 N i = be_PutUint32 (N + 1 + Z.of_nat i).
Proof using Hblk HB.
  intros Hi. unfold addr4. rewrite Z.mod_small; [done|].
  pose proof N_range. pose proof (blk_top _ _ _ Hblk). lia.
Qed.

Lemma scan4_inside i :
  Z.of_nat i < B - 1 ->
  scan4 n used (addr4 N i) =
    if bool_decide (IPString (addr4 N i) ∈ used) then inl (addr4 N (S i))
    else inr (Ok (IPString (addr4 N i))).
Proof using Hblk HB.
  intros Hi. pose proof N_range. pose proof (blk_top _ _ _ Hblk). unfold scan4.
  rewrite increment_addr4.
  assert (IPNet_Contains n (addr4 N i) = true) as ->; [|done].
  by rewrite (addr4_inside i), (blk_contains _ _ _ Hblk), bool_decide_true by lia.
Qed.

(** One past the last address the subnet does not contain the address. *)
Lemma scan4_end i : Z.of_nat i = B - 1 -> scan4 n used (addr4 N i) = inr (Err exhausted).
Proof using Hblk HB.
  intros Hi. pose proof N_range. pose proof (blk_top _ _ _ Hblk). unfold scan4, addr4.
  rewrite (blk_contains _ _ _ Hblk) by (apply Z.mod_pos_bound; lia).
  rewrite bool_decide_false; [done|]. rewrite Hi.
  destruct (decide (N + B = 2 ^ 32)) as [He|Hne].
  - replace (N + 1 + (B - 1)) with (2 ^ 32) by lia. rewrite Z.mod_same by lia. lia.
  - rewrite Z.mod_small by lia. lia.
Qed.

(** The scan ends, at the first address of the block that is not used. *)
Lemma scan4_result :
  (exists i, Z.of_nat i < B - 1 /\
     loop_pos (scan4 n used) (2 ^ 32) (addr4 N 0) = inr (Ok (IPString (addr4 N i))) /\
     IPString (addr4 N i) ∉ used /\ forall j, (j < i)%nat -> IPString (addr4 N j) ∈ used) \/
  (loop_pos (scan4 n used) (2 ^ 32) (addr4 N 0) = inr (Err exhausted) /\
   forall j, Z.of_nat j < B - 1 -> IPString (addr4 N j) ∈ used).
Proof using Hblk HB.
  assert (HT : Z.of_nat (Pos.to_nat (2 ^ 32)) = 2 ^ 32) by (by rewrite positive_nat_Z).
  rewrite loop_pos_nat. revert HT. generalize (Pos.to_nat (2 ^ 32)) as T. intros T HT.
  pose proof (blk_size _ _ _ Hblk) as HB1.
  assert (Hcont : forall j, Z.of_nat j < B - 1 -> scan4 n used (addr4 N j) = inl (addr4 N (S j)) ->
                  IPString (addr4 N j) ∈ used).
  { intros j Hj. rewrite scan4_inside by done. by case_bool_decide. }
  pose proof (scan4_end (Z.to_nat (B - 1)) ltac:(lia)) as Hend.
  destruct (loop_scan (scan4 n used) (addr4 N) T (fun i _ => scan4_step i))
    as [(i & b & Hi & Hj & Hb & Hl)|[Hall _]].
  - assert (Hle : (i <= Z.to_nat (B - 1))%nat).
    { destruct (decide (i <= Z.to_nat (B - 1))%nat) as [|Hgt]; [done|].
      rewrite Hj in Hend by lia. done. }
    destruct (decide (Z.of_nat i < B - 1)) as [Hlt|Hge].
    + left. exists i. rewrite (scan4_inside i Hlt) in Hb. case_bool_decide; simplify_eq.
      split_and!; [done..|]. intros j Hji. apply Hcont; [lia|by apply Hj].
    + right. assert (i = Z.to_nat (B - 1)) as -> by lia. rewrite Hend in Hb. simplify_eq.
      split; [done|]. intros j Hji. apply Hcont; [done|]. apply Hj. lia.
  - rewrite Hall in Hend by lia. done.
Qed.
End scan.

(** C30: in every IPv4 subnet other than the whole address space, allocation ends.
    It returns the lowest address strictly between the network and the broadcast
    address that belongs to neither the controller, nor a listed peer, nor a
    listed node, and reports exhaustion exactly when there is none. *)
Theorem AllocateOverlayIP_v4_spec controllerAddr peers nodes subnet ip n :
  ParseCIDR subnet = Some (ip, n) -> length (net_mask n) = 4%nat -> net_mask n <> [0; 0; 0; 0] ->
  let N := be_Uint32 (net_ip n) in let L := be_Uint32 (broadcastAddr n) in
  let taken := taken4 controllerAddr peers nodes in
  exists r, AllocateOverlayIP controllerAddr peers nodes subnet = Some r /\
  match r with
  | Ok s => exists v, s = IPString (be_PutUint32 v) /\ N < v < L /\ ~ taken v /\
              forall w, N < w < v -> taken w
  | Err e => e = Wrapf "overlay subnet exhausted" ErrConflict /\ forall w, N < w < L -> taken w
  end.
Proof.
  intros Hp Hlen Hne. cbn zeta. destruct (ParseCIDR_block _ _ _ Hp Hlen) as (N & B & Hblk).
  rewrite (blk_start _ _ _ Hblk), (blk_last _ _ _ Hblk).
  pose proof (blk_top _ _ _ Hblk). pose proof (blk_size _ _ _ Hblk). pose proof (blk_whole _ _ _ Hblk).
  assert (HN : 0 <= N < 2 ^ 32) by (rewrite <-(blk_start _ _ _ Hblk); apply be_range, (blk_net _ _ _ Hblk)).
  assert (HB : B < 2 ^ 32) by (destruct (decide (B = 2 ^ 32)); [tauto|lia]).
  unfold AllocateOverlayIP. rewrite Hp, To4_quad by apply (blk_net _ _ _ Hblk).
  assert (Hstart : incrementIP (net_ip n) = addr4 N 0).
  { rewrite <-(put_be (net_ip n)), (blk_start _ _ _ Hblk) by apply (blk_net _ _ _ Hblk).
    rewrite incrementIP_put by done. unfold addr4. by rewrite Z.add_0_r. }
  rewrite Hstart.
  assert (Hused : forall j, Z.of_nat j < B - 1 ->
    IPString (addr4 N j) ∈ used_v4 controllerAddr peers nodes n (net_ip n) <->
    N + 1 + Z.of_nat j = N + B - 1 \/ taken4 controllerAddr peers nodes (N + 1 + Z.of_nat j)).
  { intros j Hj. rewrite (addr4_inside n N B Hblk HB) by done.
    rewrite (used4_iff _ _ _ n N B) by (done || lia). naive_solver lia. }
  destruct (scan4_result n N B (used_v4 controllerAddr peers nodes n (net_ip n)) Hblk HB)
    as [(i & Hi & -> & Hfree & Hbefore)|[-> Hall]]; eexists; (split; [reflexivity|]).
  - exists (N + 1 + Z.of_nat i). rewrite Hused in Hfree by done. split_and!.
    + by rewrite (addr4_inside n N B Hblk HB).
    + lia.
    + destruct (decide (N + 1 + Z.of_nat i = N + B - 1)); [tauto|lia].
    + tauto.
    + intros w Hw. specialize (Hbefore (Z.to_nat (w - N - 1)) ltac:(lia)).
      apply Hused in Hbefore; [|lia]. rewrite Z2Nat.id in Hbefore by lia.
      destruct Hbefore as [?|?]; [lia|]. by replace (N + 1 + (w - N - 1)) with w in * by lia.
  - split; [done|]. intros w Hw. specialize (Hall (Z.to_nat (w - N - 1)) ltac:(lia)).
    apply Hused in Hall; [|lia]. rewrite Z2Nat.id in Hall by lia.
    destruct Hall as [?|?]; [lia|]. by replace (N + 1 + (w - N - 1)) with w in * by lia.
Qed.

Lemma AllocateOverlayIP_v4_spec_witness :
  exists ip n, ParseCIDR "10.100.0.0/30" = Some (ip, n) /\
    AllocateOverlayIP "10.100.0.1/30" [] [] "10.100.0.0/30" = Some (Ok "10.100.0.2") /\
    exists r, AllocateOverlayIP "10.100.0.1/30" [] [] "10.100.0.0/30" = Some r.
Proof.
  eexists _, _. split; [vm_compute; reflexivity|]. split; [vm_compute; reflexivity|].
  destruct (AllocateOverlayIP_v4_spec "10.100.0.1/30" [] [] "10.100.0.0/30" [0;0;0;0;0;0;0;0;0;0;255;255;10;100;0;0]
              (mkIPNet [10;100;0;0] [255;255;255;252])) as (r & H & _);
    [vm_compute; reflexivity|reflexivity|discriminate|by exists r].
Defined.

(** ** The IPv6 scan *)

Lemma mask_byte_ok n : is_byte (mask_byte n).
Proof.
  unfold mask_byte, is_byte. destruct (Z.leb_spec 8 n); [lia|].
  rewrite Z.shiftr_div_pow2 by lia.
  assert (Hp : 0 < 2 ^ Z.max 0 n) by (apply Z.pow_pos_nonneg; lia).
  pose proof (Z.div_pos 255 _ ltac:(lia) Hp).
  assert (255 / 2 ^ Z.max 0 n <= 255) by (apply Z.div_le_upper_bound; nia). lia.
Qed.

Lemma CIDRMask_bytes_ok n k : Forall is_byte (CIDRMask_bytes n k).
Proof. revert n. induction k; intros n; cbn; constructor; [apply mask_byte_ok|done]. Qed.

Lemma SetBytes_bound b : Forall is_byte b -> 0 <= SetBytes b < 256 ^ Z.of_nat (length b).
Proof.
  unfold SetBytes. induction b as [|x b IH] using rev_ind; intros H; [cbn; lia|].
  apply Forall_snoc in H as [Hb Hx]. specialize (IH Hb). unfold is_byte in Hx.
  rewrite foldl_app, length_app, Nat2Z.inj_add, Z.pow_add_r by lia. cbn. lia.
Qed.

Lemma or_not_mask_ok ip mask :
  Forall is_byte ip -> Forall is_byte mask -> Forall is_byte (or_not_mask ip mask).
Proof.
  intros Hi. revert mask. induction Hi as [|b ip Hb Hip IH]; intros mask Hm; [constructor|].
  destruct Hm as [|m mask Hm Hms]; [constructor|]. constructor; [|by apply IH].
  unfold is_byte in *. apply (lor_bound _ _ 8); lia.
Qed.

(** An IPv6 network number has sixteen bytes. *)
Lemma ParseCIDR_v6 s ip n :
  ParseCIDR s = Some (ip, n) -> To4 (net_ip n) = None ->
  length (net_ip n) = 16%nat /\ Forall is_byte (net_ip n) /\ Forall is_byte (net_mask n).
Proof.
  intros (a & ones & -> & [Hb Hl] & Hones & Hmask & Hnet & Ha)%ParseCIDR_shape Hno4.
  destruct a as [b|b]; cbn [BitLen As16] in *.
  - exfalso. destruct (mask_ok ones Hones) as (Hqm & _).
    assert (Hqb : quad b) by (destruct Ha; done). rewrite Hmask, MaskIP_v4 in Hnet by (done || apply Hqm). injection Hnet as Hnet.
    rewrite Hnet, To4_quad in Hno4; [done|]. by apply quad_land.
  - assert (Hlm : length (net_mask n) = 16%nat).
    { rewrite Hmask. apply (length_CIDRMask_bytes _ 16). }
    assert (Hbm : Forall is_byte (net_mask n)) by (rewrite Hmask; apply CIDRMask_bytes_ok).
    unfold MaskIP in Hnet. rewrite (bool_decide_false (_ /\ _ /\ _)) in Hnet by (rewrite Hlm; intros [Hbad _]; discriminate Hbad).
    rewrite bool_decide_true in Hnet by congruence. injection Hnet as ->.
    split_and!; [unfold land_bytes; rewrite length_zip_with; lia| |done].
    clear -Hb Hbm. revert Hbm. generalize (net_mask n) as m. induction Hb as [|x b Hx Hb IH];
      intros m Hm; [constructor|]. destruct Hm as [|y m Hy Hm]; [constructor|].
    constructor; [|by apply IH]. unfold is_byte in *. apply (land_bound _ _ 8); lia.
Qed.

Section taken6.
Context (controllerAddr : string) (peers : list WireGuardPeer) (nodes : list Node).

(** The IPv6 address with these bytes belongs to the controller, a peer or a node. *)
Definition taken6 (b : list Z) : Prop :=
  exists ip, ip ∈ controller_ips controllerAddr ++ filter (fun ip => To4 ip = None) (peer_ips peers) ++
    node_ips nodes node_WireGuardIPv6 /\ To16 ip = Some b.

Lemma taken6_used b net : taken6 b -> IPString b ∈ used_v6 controllerAddr peers nodes net.
Proof.
  assert (Hstr : forall ips ip, ip ∈ ips -> To16 ip = Some b ->
            IPString b ∈ (list_to_set (To16_String <$> ips) : gset string)).
  { intros ips ip Hip He. rewrite elem_of_list_to_set, list_elem_of_fmap.
    exists ip. unfold To16_String. by rewrite He. }
  intros (ip & [H|[H|H]%elem_of_app]%elem_of_app & He); unfold used_v6; rewrite !elem_of_union; eauto.
Qed.

(** In every IPv6 subnet allocation ends, with an address of the subnet other
    than its network address that belongs to neither the controller, nor a listed
    peer, nor a listed node, or with every candidate in use. *)
Theorem AllocateOverlayIP_v6_spec subnet ip n :
  ParseCIDR subnet = Some (ip, n) -> To4 (net_ip n) = None ->
  let N := SetBytes (net_ip n) in let L := SetBytes (lastIPv6Addr n) in
  exists r, AllocateOverlayIP controllerAddr peers nodes subnet = Some r /\
  match r with
  | Ok s => exists v, s = IPString (pad_bytes 16 v) /\ N < v <= L /\ ~ taken6 (pad_bytes 16 v)
  | Err e => e = Wrapf "overlay subnet exhausted" ErrConflict /\
      forall w, N < w <= L -> IPString (pad_bytes 16 w) ∈ used_v6 controllerAddr peers nodes (net_ip n)
  end.
Proof.
  intros Hp Hno4. cbn zeta. destruct (ParseCIDR_v6 _ _ _ Hp Hno4) as (Hlen & Hb & Hbm).
  assert (H16 : To16 (net_ip n) = Some (net_ip n)).
  { unfold To16. rewrite bool_decide_false, bool_decide_true by lia. done. }
  unfold AllocateOverlayIP. rewrite Hp, Hno4. unfold allocateOverlayIPv6. rewrite H16.
  set (used := used_v6 _ _ _ _). set (N := SetBytes (net_ip n)). set (L := SetBytes (lastIPv6Addr n)).
  pose proof (SetBytes_bound _ Hb) as HN. fold N in HN.
  assert (HL : L < 2 ^ 128).
  { unfold L, lastIPv6Addr. rewrite H16. cbn [from_option id].
    pose proof (SetBytes_bound _ (or_not_mask_ok _ _ Hb Hbm)) as [_ HL].
    eapply Z.lt_le_trans; [exact HL|]. change (2 ^ 128) with (256 ^ 16).
    apply Z.pow_le_mono_r; [lia|]. unfold or_not_mask. rewrite length_zip_with. lia. }
  assert (HT : Z.of_nat (Pos.to_nat (2 ^ 128 + 1)) = 2 ^ 128 + 1) by (by rewrite positive_nat_Z).
  rewrite loop_pos_nat. revert HT. generalize (Pos.to_nat (2 ^ 128 + 1)) as T. intros T HT.
  assert (Hstep : forall i, scan6 L used (N + 1 + Z.of_nat i) =
    if N + 1 + Z.of_nat i <=? L then
      if bool_decide (IPString (pad_bytes 16 (N + 1 + Z.of_nat i)) ∈ used)
      then inl (N + 1 + Z.of_nat (S i)) else inr (Ok (IPString (pad_bytes 16 (N + 1 + Z.of_nat i))))
    else inr (Err exhausted)).
  { intros i. unfold scan6. replace (N + 1 + Z.of_nat (S i)) with (N + 1 + Z.of_nat i + 1) by lia. done. }
  destruct (loop_scan (scan6 L used) (fun i => N + 1 + Z.of_nat i) T) as [(i & b & Hi & Hj & Hbi & Hl)|[Hall _]].
  - intros i _. rewrite Hstep. destruct (_ <=? L); [case_bool_decide|]; eauto.
  - change (Z.of_nat 0) with 0 in Hl. rewrite Z.add_0_r in Hl. rewrite Hl.
    exists b. split; [done|]. rewrite Hstep in Hbi.
    destruct (Z.leb_spec (N + 1 + Z.of_nat i) L) as [Hle|Hgt]; [case_bool_decide as Hu|]; simplify_eq.
    + exists (N + 1 + Z.of_nat i). split_and!; [done|lia|lia|].
      intros Ht. by apply Hu, taken6_used.
    + split; [done|]. intros w Hw. specialize (Hj (Z.to_nat (w - N - 1)) ltac:(lia)).
      rewrite Hstep, Z2Nat.id in Hj by lia. replace (N + 1 + (w - N - 1)) with w in Hj by lia.
      destruct (w <=? L); [|done]. by case_bool_decide.
  - specialize (Hall (Z.to_nat (2 ^ 128)) ltac:(lia)). rewrite Hstep, Z2Nat.id in Hall by lia.
    rewrite (proj2 (Z.leb_gt _ _)) in Hall by lia. done.
Qed.
End taken6.

Lemma AllocateOverlayIP_v6_spec_witness :
  exists r, AllocateOverlayIP "fd00::1/64" [] [] "fd00::/64" = Some r.
Proof.
  destruct (AllocateOverlayIP_v6_spec "fd00::1/64" [] [] "fd00::/64" (253 :: replicate 15 0)
              (mkIPNet (253 :: replicate 15 0) (replicate 8 255 ++ replicate 8 0))) as (r & H & _);
    [vm_compute; reflexivity|vm_compute; reflexivity|by exists r].
Defined.
