(* ===== verification/StoreProvision.v ===== *)
(** * Tables of the provisioning service (internal/storage/sqlite)

    SSH keys (read), node listing, provisioning jobs, enrollment tokens and
    WireGuard peers.  The allowed addresses of a peer are a field of its row
    here; in the database they are a table with primary key (peer, address), so
    a repeated address fails the statement. *)

From Stdlib Require Import ZArith Lia String.
From S2P Require Import Prelude GoStrings Domain Storage.

Open Scope Z_scope.

(** [ORDER BY created_at DESC], and with [id DESC] as second key. *)
Definition by_created_desc {V} (created : V -> Time) : relation V := fun a b => created b <= created a.
#[export] Instance by_created_desc_dec {V} (created : V -> Time) : RelDecision (by_created_desc created).
Proof. intros a b. unfold by_created_desc. apply _. Defined.
Definition by_created_id_desc {V} (created : V -> Time) (id : V -> ID) : relation V := fun a b =>
  created b < created a \/ (created a = created b /\ (id b <= id a)%N).
#[export] Instance by_created_id_desc_dec {V} (created : V -> Time) (id : V -> ID) :
  RelDecision (by_created_id_desc created id).
Proof. intros a b. unfold by_created_id_desc. apply _. Defined.

Definition fk_failed {A} (msg : string) : result A :=
  Err (Wrapf msg (Errorf "FOREIGN KEY constraint failed")).

(** ** SSH keys *)

Definition sqlite_GetSSHKey (id : ID) : stM SqlState SSHKey :=
  sql_query "get ssh key" (fun d =>
    match ssh_keys d !! id with None => Err ErrNotFound | Some k => Ok k end).

(** ** Node listing *)

(** [cursor] is what [DecodeCursor(params.Cursor)] yields. *)
(** A cursor is a time and the test of an ID against the text of the cursor. *)
Definition after_cursor (cursor : Time * (ID -> bool)) (n : Node) : Prop :=
  node_CreatedAt n < cursor.1 \/ (node_CreatedAt n = cursor.1 /\ cursor.2 (node_ID n) = true).
#[export] Instance after_cursor_dec cursor n : Decision (after_cursor cursor n).
Proof. unfold after_cursor. apply _. Defined.

Definition sqlite_ListNodes (cursor : option (Time * (ID -> bool))) (tenantID : option ID) (params : ListParams)
    : stM SqlState (list Node * Z) :=
  total ← sql_query "count nodes" (fun d =>
    Ok (Z.of_nat (length (filter (fun n => tenantID = None \/ node_TenantID n = tenantID) (rows_of (nodes d))))));
  sql_query "list nodes" (fun d =>
    let rows := filter (fun n => tenantID = None \/ node_TenantID n = tenantID) (rows_of (nodes d)) in
    match cursor with
    | Some c =>
        Ok (page (mkListParams 0 (lp_Limit params) "")
              (merge_sort (by_created_id_desc node_CreatedAt node_ID) (filter (after_cursor c) rows)), total)
    | None => Ok (page params (merge_sort (by_created_desc node_CreatedAt) rows), total)
    end).

(** ** Provisioning jobs *)

Definition new_job (now : Time) (j : ProvisioningJob) : ProvisioningJob :=
  mkProvisioningJob (job_ID j) (job_NodeID j) (job_TenantID j) (job_Action j)
    (if bool_decide (job_Status j = "") then ProvisionStatusPending else job_Status j)
    (job_CurrentStep j) (job_Steps j) (job_Error j) (job_InitiatedBy j)
    (job_StartedAt j) (job_CompletedAt j) now now.

Definition sqlite_CreateProvisioningJob (now : Time) (j : ProvisioningJob) : stM SqlState ProvisioningJob :=
  sql_insert "insert provisioning job" "provisioning job already exists"
    (fun d => has_key (provisioning_jobs d) (job_ID j))
    (fun d => has_key (nodes d) (job_NodeID j) && fk_opt (tenants d) (job_TenantID j))
    (upd_provisioning_jobs (fun m => <[job_ID j := new_job now j]> m)) (new_job now j).

Definition sqlite_GetProvisioningJob (id : ID) : stM SqlState ProvisioningJob :=
  sql_query "get provisioning job" (fun d =>
    match provisioning_jobs d !! id with None => Err ErrNotFound | Some j => Ok j end).

Definition sqlite_ListProvisioningJobs (nodeID : option ID) (params : ListParams)
    : stM SqlState (list ProvisioningJob * Z) :=
  total ← sql_query "count provisioning jobs" (fun d =>
    Ok (Z.of_nat (length (filter (fun j => nodeID = None \/ Some (job_NodeID j) = nodeID)
                            (rows_of (provisioning_jobs d))))));
  sql_query "list provisioning jobs" (fun d =>
    Ok (page params (merge_sort (by_created_desc job_CreatedAt)
          (filter (fun j => nodeID = None \/ Some (job_NodeID j) = nodeID) (rows_of (provisioning_jobs d)))), total)).

Definition merge_job (now : Time) (j old : ProvisioningJob) : ProvisioningJob :=
  mkProvisioningJob (job_ID old) (job_NodeID old) (job_TenantID old) (job_Action old)
    (job_Status j) (job_CurrentStep j) (job_Steps j) (job_Error j) (job_InitiatedBy old)
    (job_StartedAt j) (job_CompletedAt j) (job_CreatedAt old) now.

Definition sqlite_UpdateProvisioningJob (now : Time) (j : ProvisioningJob) : stM SqlState unit :=
  sql_update "update provisioning job" (fun d => has_key (provisioning_jobs d) (job_ID j)) (fun _ => true)
    (upd_provisioning_jobs (alter (merge_job now j) (job_ID j))) tt.

Definition active (j : ProvisioningJob) : Prop :=
  job_Status j = ProvisionStatusPending \/ job_Status j = ProvisionStatusRunning.
#[export] Instance active_dec j : Decision (active j).
Proof. unfold active. apply _. Defined.

Definition active_jobs (d : DB) (nodeID : ID) : list ProvisioningJob :=
  filter (fun j => job_NodeID j = nodeID /\ active j) (rows_of (provisioning_jobs d)).

Definition sqlite_GetActiveProvisioningJob (nodeID : ID) : stM SqlState ProvisioningJob :=
  sql_query "get active provisioning job" (fun d =>
    match merge_sort (by_created_desc job_CreatedAt) (active_jobs d nodeID) with
    | [] => Err ErrNotFound
    | j :: _ => Ok j
    end).

(** ** Enrollment tokens *)

Definition new_token (now : Time) (t : EnrollmentToken) : EnrollmentToken :=
  mkEnrollmentToken (etok_ID t) (etok_TenantID t) (etok_TargetType t) (etok_TargetID t) (etok_Token t)
    (etok_ExpiresAt t) None now.

(** Primary key, then the UNIQUE column [token]. *)
Definition sqlite_CreateEnrollmentToken (now : Time) (t : EnrollmentToken) : stM SqlState EnrollmentToken :=
  sql_insert "insert enrollment token" "enrollment token already exists"
    (fun d => has_key (enrollment_tokens d) (etok_ID t) ||
              existsb (fun t' => bool_decide (etok_Token t' = etok_Token t)) (rows_of (enrollment_tokens d)))
    (fun d => has_key (tenants d) (etok_TenantID t))
    (upd_enrollment_tokens (fun m => <[etok_ID t := new_token now t]> m)) (new_token now t).

Definition sqlite_GetEnrollmentToken (token : string) : stM SqlState EnrollmentToken :=
  sql_query "get enrollment token" (fun d =>
    match filter (fun t => etok_Token t = token) (rows_of (enrollment_tokens d)) with
    | [] => Err ErrNotFound
    | t :: _ => Ok t
    end).

Definition set_used (now : Time) (t : EnrollmentToken) : EnrollmentToken :=
  mkEnrollmentToken (etok_ID t) (etok_TenantID t) (etok_TargetType t) (etok_TargetID t) (etok_Token t)
    (etok_ExpiresAt t) (Some now) (etok_CreatedAt t).

(** [... WHERE id = ? AND used_at IS NULL] *)
Definition sqlite_MarkEnrollmentTokenUsed (now : Time) (id : ID) : stM SqlState unit :=
  sql_update "mark enrollment token used"
    (fun d => match enrollment_tokens d !! id with
              | Some t => bool_decide (etok_UsedAt t = None)
              | None => false
              end) (fun _ => true)
    (upd_enrollment_tokens (alter (set_used now) id)) tt.

(** ** WireGuard peers *)

(** [LastRotatedAt] defaults to now when zero. *)
Definition new_peer (now : Time) (p : WireGuardPeer) : WireGuardPeer :=
  mkWireGuardPeer (peer_ID p) (peer_OwnerType p) (peer_OwnerID p) (peer_PublicKey p) (peer_PrivateKey p)
    (peer_PresharedKey p) (peer_AllowedIPs p) (peer_Endpoint p)
    (if peer_LastRotatedAt p =? 0 then now else peer_LastRotatedAt p) now now.

(** One transaction: the row, then its addresses. *)
Definition sqlite_CreateWireGuardPeer (now : Time) (p : WireGuardPeer) : stM SqlState WireGuardPeer :=
  sql_exec "insert wireguard peer" (fun d =>
    if has_key (wireguard_peers d) (peer_ID p) then
      (Err (Wrapf "wireguard peer already exists" ErrAlreadyExists), d)
    else if negb (bool_decide (NoDup (peer_AllowedIPs p))) then
      (Err (Wrapf "insert allowed ip" (Errorf "UNIQUE constraint failed")), d)
    else (Ok (new_peer now p), upd_wireguard_peers (fun m => <[peer_ID p := new_peer now p]> m) d)).

Definition sqlite_GetWireGuardPeer (id : ID) : stM SqlState WireGuardPeer :=
  sql_query "get wireguard peer" (fun d =>
    match wireguard_peers d !! id with None => Err ErrNotFound | Some p => Ok p end).

Definition peers_of_owner (d : DB) (ownerType : string) (ownerID : ID) : list WireGuardPeer :=
  filter (fun p => peer_OwnerType p = ownerType /\ peer_OwnerID p = ownerID) (rows_of (wireguard_peers d)).

Definition sqlite_GetWireGuardPeerByOwner (ownerType : string) (ownerID : ID) : stM SqlState WireGuardPeer :=
  sql_query "get wireguard peer by owner" (fun d =>
    match peers_of_owner d ownerType ownerID with [] => Err ErrNotFound | p :: _ => Ok p end).

Definition sqlite_ListWireGuardPeers (params : ListParams) : stM SqlState (list WireGuardPeer * Z) :=
  total ← sql_query "count wireguard peers" (fun d => Ok (Z.of_nat (size (wireguard_peers d))));
  sql_query "list wireguard peers" (fun d =>
    Ok (page params (merge_sort (by_created_desc peer_CreatedAt) (rows_of (wireguard_peers d))), total)).

Definition merge_peer (now : Time) (p old : WireGuardPeer) : WireGuardPeer :=
  mkWireGuardPeer (peer_ID old) (peer_OwnerType old) (peer_OwnerID old) (peer_PublicKey p) (peer_PrivateKey p)
    (peer_PresharedKey p) (peer_AllowedIPs p) (peer_Endpoint p) (peer_LastRotatedAt p)
    (peer_CreatedAt old) now.

Definition sqlite_UpdateWireGuardPeer (now : Time) (p : WireGuardPeer) : stM SqlState unit :=
  sql_exec "update wireguard peer" (fun d =>
    if negb (has_key (wireguard_peers d) (peer_ID p)) then (Err ErrNotFound, d)
    else if negb (bool_decide (NoDup (peer_AllowedIPs p))) then
      (Err (Wrapf "insert allowed ip" (Errorf "UNIQUE constraint failed")), d)
    else (Ok tt, upd_wireguard_peers (alter (merge_peer now p) (peer_ID p)) d)).

Definition sqlite_DeleteWireGuardPeer (id : ID) : stM SqlState unit :=
  sql_update "delete wireguard peer" (fun d => has_key (wireguard_peers d) id) (fun _ => true)
    (upd_wireguard_peers (delete id)) tt.
