(* ===== verification/Provisioner.v ===== *)
(** * Provisioning service (internal/provisioning)

    Pipelines of remote steps, enrollment tokens and WireGuard key assignment,
    over the SQLite tables.  What lies outside the code is the record
    [Outside]: the clock, UUIDs and random bytes (indexed by a counter of the
    draws), Curve25519, the local binary, and the SSH client, whose answers may
    depend on everything sent to the nodes before ([pe_trace]).  The background
    goroutine of [startAction] is [runPipeline] on the job and node it is given;
    the pointers [job] and [node] it mutates are threaded through it. *)

From Stdlib Require Import ZArith Lia Ascii String.
From S2P Require Import Prelude GoStrings GoNet GoBase64 Secrets Domain Storage StoreFleet StoreProvision Overlay.

Open Scope Z_scope.

(** ** Environment *)

(** internal/ssh/client.go *)
Record Target := mkTarget { tg_Host : string; tg_Port : Z; tg_User : string; tg_PrivateKey : string }.

(** What was sent to a node. *)
Inductive remote :=
| RConnect (t : Target)
| RRun (cmd : string)
| RUpload (path : string) (size mode : Z).

Record Outside := mkOutside {
  o_clock : nat -> Time;
  o_newID : nat -> ID;
  o_rand : nat -> nat -> option string;
  o_x25519 : string -> option string;
  o_open : string -> result Z;
  o_connect : list remote -> Target -> option goerr;
  o_run : list remote -> string -> string * option goerr;
  o_upload : list remote -> string -> Z -> Z -> option goerr
}.

Record PEnv := mkPEnv { pe_sql : SqlState; pe_trace : list remote; pe_tick : nat }.

(** config.WireGuardHub *)
Record WireGuardHub := mkWireGuardHub {
  wg_ListenPort : Z; wg_Subnet : string; wg_Address : string; wg_Topology : string;
  wg_IPv6Subnet : string; wg_IPv6Address : string
}.

Record DefaultProvisioner := mkProvisioner {
  p_secrets : Store;
  p_wgConfig : WireGuardHub;
  p_extURL : string;
  p_binaryPath : string;
  p_wgConfigGen : option (ID -> stM SqlState string)
}.

Definition NewProvisioner (secrets : Store) (wgConfig : WireGuardHub) (externalURL : string) : DefaultProvisioner :=
  mkProvisioner secrets wgConfig externalURL "" None.
Definition SetBinaryPath (path : string) (p : DefaultProvisioner) : DefaultProvisioner :=
  mkProvisioner (p_secrets p) (p_wgConfig p) (p_extURL p) path (p_wgConfigGen p).
Definition SetWireGuardConfigGenerator (gen : ID -> stM SqlState string) (p : DefaultProvisioner)
    : DefaultProvisioner :=
  mkProvisioner (p_secrets p) (p_wgConfig p) (p_extURL p) (p_binaryPath p) (Some gen).

(** ** Records with pointer fields assigned *)

Definition set_node_Status (st : string) (n : Node) : Node :=
  mkNode (node_ID n) (node_TenantID n) (node_Name n) (node_Hostname n) (node_PublicIP n)
    (node_WireGuardIP n) (node_WireGuardIPv6 n) st (node_Region n) (node_Provider n) (node_SSHPort n)
    (node_SSHUser n) (node_SSHKeyID n) (node_BinaryVersion n) (node_LastHeartbeat n)
    (node_LastConfigSync n) (node_Capabilities n) (node_Metadata n) (node_CreatedAt n) (node_UpdatedAt n).
Definition set_node_overlay (ip ipv6 : string) (n : Node) : Node :=
  mkNode (node_ID n) (node_TenantID n) (node_Name n) (node_Hostname n) (node_PublicIP n)
    ip ipv6 (node_Status n) (node_Region n) (node_Provider n) (node_SSHPort n)
    (node_SSHUser n) (node_SSHKeyID n) (node_BinaryVersion n) (node_LastHeartbeat n)
    (node_LastConfigSync n) (node_Capabilities n) (node_Metadata n) (node_CreatedAt n) (node_UpdatedAt n).

Definition job_running (now : Time) (j : ProvisioningJob) : ProvisioningJob :=
  mkProvisioningJob (job_ID j) (job_NodeID j) (job_TenantID j) (job_Action j) ProvisionStatusRunning
    (job_CurrentStep j) (job_Steps j) (job_Error j) (job_InitiatedBy j) (Some now) (job_CompletedAt j)
    (job_CreatedAt j) (job_UpdatedAt j).
Definition job_at_step (step : string) (results : list StepResult) (j : ProvisioningJob) : ProvisioningJob :=
  mkProvisioningJob (job_ID j) (job_NodeID j) (job_TenantID j) (job_Action j) (job_Status j)
    step (Some results) (job_Error j) (job_InitiatedBy j) (job_StartedAt j) (job_CompletedAt j)
    (job_CreatedAt j) (job_UpdatedAt j).
Definition job_finished (st : string) (e : option goerr) (completedAt : Time) (results : list StepResult)
    (j : ProvisioningJob) : ProvisioningJob :=
  mkProvisioningJob (job_ID j) (job_NodeID j) (job_TenantID j) (job_Action j) st
    (job_CurrentStep j) (Some results) (match e with Some _ => e | None => job_Error j end)
    (job_InitiatedBy j) (job_StartedAt j) (Some completedAt) (job_CreatedAt j) (job_UpdatedAt j).

(** ** Texts *)

Definition nl : string := String (chr 10) EmptyString.
Definition dq : string := String (chr 34) EmptyString.
Definition sq : string := String (chr 39) EmptyString.

(** [%q]: [strconv.Quote] of a string of printable ASCII characters and line ends *)
Fixpoint quote_body (s : string) : string :=
  match s with
  | EmptyString => EmptyString
  | String c s =>
      if (byte_of c =? 34) || (byte_of c =? 92) then String (chr 92) (String c (quote_body s))
      else if byte_of c =? 10 then String (chr 92) (String "n" (quote_body s))
      else String c (quote_body s)
  end.
Definition Quote (s : string) : string := dq +:+ quote_body s +:+ dq.

Definition GenerateSystemdUnit : string :=
  Join ["[Unit]"; "Description=EdgeFabric Agent"; "After=network-online.target";
        "Wants=network-online.target"; ""; "[Service]"; "Type=simple";
        "ExecStart=/usr/local/bin/edgefabric --config /etc/edgefabric/config.yaml";
        "Restart=on-failure"; "RestartSec=5"; "LimitNOFILE=65535"; ""; "[Install]";
        "WantedBy=multi-user.target"] nl.

Definition GenerateNodeConfig (controllerAddr enrollmentToken dataDir : string) : string :=
  Join ["role: node"; "log_level: info"; "node:";
        "  controller_addr: " +:+ Quote controllerAddr;
        "  enrollment_token: " +:+ Quote enrollmentToken;
        "  data_dir: " +:+ Quote dataDir; ""] nl.

Definition remoteBinaryPath : string := "/usr/local/bin/edgefabric".
Definition remoteBinaryStaging : string := "/usr/local/bin/edgefabric.new".
Definition remoteBinaryBackup : string := "/usr/local/bin/edgefabric.bak".

Definition cmd_validate : string := "echo edgefabric-ssh-ok && uname -a".
Definition cmd_backup : string :=
  "if [ -f " +:+ remoteBinaryPath +:+ " ]; then cp " +:+ remoteBinaryPath +:+ " " +:+ remoteBinaryBackup +:+
  " && echo backed-up; else echo no-existing-binary; fi".
Definition cmd_swap : string := "mv " +:+ remoteBinaryStaging +:+ " " +:+ remoteBinaryPath.
Definition cmd_rollback : string :=
  "if [ -f " +:+ remoteBinaryBackup +:+ " ]; then mv " +:+ remoteBinaryBackup +:+ " " +:+ remoteBinaryPath +:+
  " && systemctl restart edgefabric && echo rolled-back; else echo no-backup-available; fi".
Definition heredoc (prefix marker text : string) : string :=
  prefix +:+ " << " +:+ sq +:+ marker +:+ sq +:+ nl +:+ text +:+ nl +:+ marker.
Definition cmd_write_config (cfg : string) : string :=
  heredoc "mkdir -p /etc/edgefabric && cat > /etc/edgefabric/config.yaml" "EFCONFIG" cfg.
Definition cmd_systemd : string :=
  heredoc "cat > /etc/systemd/system/edgefabric.service" "EFUNIT" GenerateSystemdUnit +:+ nl +:+
  "systemctl daemon-reload && systemctl enable edgefabric".
Definition cmd_wg (conf : string) : string :=
  heredoc "mkdir -p /etc/wireguard && cat > /etc/wireguard/wg0.conf" "WGCONF" conf.
Definition cmd_cleanup : string :=
  Join ["systemctl disable edgefabric 2>/dev/null || true"; "rm -f /etc/systemd/system/edgefabric.service";
        "systemctl daemon-reload"; "rm -f /usr/local/bin/edgefabric"; "rm -rf /etc/edgefabric";
        "rm -rf /var/lib/edgefabric"] " && ".

(** ** Effects *)

Section provisioner.
Context `{AEAD} (o : Outside) (p : DefaultProvisioner).

Definition next (e : PEnv) : PEnv := mkPEnv (pe_sql e) (pe_trace e) (S (pe_tick e)).
(** [time.Now().UTC()], [domain.NewID()], [rand.Read] of [n] bytes *)
Definition now : stM PEnv Time := fun e => (Ok (o_clock o (pe_tick e)), next e).
Definition NewID : stM PEnv ID := fun e => (Ok (o_newID o (pe_tick e)), next e).
Definition rand (n : nat) : stM PEnv (option string) := fun e => (Ok (o_rand o (pe_tick e) n), next e).

(** A store method, and one that reads the clock. *)
Definition db {A} (m : stM SqlState A) : stM PEnv A := fun e =>
  match m (pe_sql e) with (r, s) => (r, mkPEnv s (pe_trace e) (pe_tick e)) end.
Definition db_now {A} (m : Time -> stM SqlState A) : stM PEnv A := t ← now; db (m t).
(** [_ = f()] *)
Definition ignore {A} (m : stM PEnv A) : stM PEnv unit := fun e => (Ok tt, (m e).2).

Definition sent (r : remote) (e : PEnv) : PEnv := mkPEnv (pe_sql e) (pe_trace e ++ [r]) (pe_tick e).
Definition ssh_Connect (t : Target) : stM PEnv unit := fun e =>
  match o_connect o (pe_trace e) t with
  | None => (Ok tt, sent (RConnect t) e)
  | Some err => (Err err, sent (RConnect t) e)
  end.
(** Output and error of [session.Run]. *)
Definition session_Run (cmd : string) : stM PEnv (string * option goerr) := fun e =>
  (Ok (o_run o (pe_trace e) cmd), sent (RRun cmd) e).
Definition session_Upload (path : string) (size mode : Z) : stM PEnv unit := fun e =>
  match o_upload o (pe_trace e) path size mode with
  | None => (Ok tt, sent (RUpload path size mode) e)
  | Some err => (Err err, sent (RUpload path size mode) e)
  end.

(** ** Enrollment tokens (enrollment.go) *)

Definition EnrollmentTokenTTL : Z := 3600 * 10 ^ 9.
Definition enrollmentTokenLength : nat := 32.

Definition GenerateEnrollmentToken (tenantID targetID : ID) : stM PEnv EnrollmentToken :=
  b ← rand enrollmentTokenLength;
  tokenStr ← wrap "generate token" (lift (GenerateRandomString b));
  id ← NewID;
  t ← now;
  wrap "store enrollment token" (db_now (fun created =>
    sqlite_CreateEnrollmentToken created
      (mkEnrollmentToken id tenantID EnrollmentTargetNode targetID tokenStr (t + EnrollmentTokenTTL) None 0))).

Definition ValidateEnrollmentToken (tokenStr : string) : stM PEnv EnrollmentToken :=
  token ← wrap "get enrollment token" (db (sqlite_GetEnrollmentToken tokenStr));
  _ ← lift (guard_err (bool_decide (etok_UsedAt token = None))
              (Wrapf "enrollment token already used" ErrConflict));
  t ← now;
  _ ← lift (guard_err (negb (etok_ExpiresAt token <? t)) (Wrapf "enrollment token expired" ErrConflict));
  mret token.

(** ** WireGuard keys (wireguard.go) *)

(** Clamping of the private key: [b[0] &= 248; b[31] &= 127; b[31] |= 64]. *)
Definition clamp_first (c : ascii) : ascii := chr (Z.land (byte_of c) 248).
Definition clamp_last (c : ascii) : ascii := chr (Z.lor (Z.land (byte_of c) 127) 64).
Fixpoint map_last (f : ascii -> ascii) (s : string) : string :=
  match s with
  | EmptyString => EmptyString
  | String c EmptyString => String (f c) EmptyString
  | String c s => String c (map_last f s)
  end.
Definition clamp (b : string) : string :=
  match b with String c b => map_last clamp_last (String (clamp_first c) b) | EmptyString => EmptyString end.

Record WireGuardKeyPair := mkKeyPair { kp_PrivateKey : string; kp_PublicKey : string }.

Definition GenerateWireGuardKeyPair : stM PEnv WireGuardKeyPair :=
  b ← rand 32;
  match b with
  | None => throw (Wrapf "generate private key" (Errorf "rand"))
  | Some b =>
      let privateKey := clamp b in
      match o_x25519 o privateKey with
      | None => throw (Wrapf "derive public key" (Errorf "curve25519"))
      | Some publicKey => mret (mkKeyPair (Std_EncodeToString privateKey) (Std_EncodeToString publicKey))
      end
  end.

Definition GeneratePresharedKey : stM PEnv string :=
  b ← rand 32;
  match b with
  | None => throw (Wrapf "generate preshared key" (Errorf "rand"))
  | Some b => mret (Std_EncodeToString b)
  end.

Definition secrets_Encrypt (plaintext : string) : stM PEnv string :=
  nonce ← rand NonceSize; lift (Encrypt nonce (p_secrets p) plaintext).

Definition all_rows : ListParams := mkListParams 0 10000 "".

(** [AllocateOverlayIP]; the error of the last case is a scan that never ends. *)
Definition allocate (subnet addr : string) (peers : list WireGuardPeer) (nodes : list Node)
    : stM PEnv string :=
  lift (default (Err (Errorf "unbounded scan")) (AllocateOverlayIP addr peers nodes subnet)).

(** The code shared by [stepGenerateWGKeys] and [CompleteEnrollment]: keys,
    overlay addresses and the peer row; returns the addresses (the second one
    empty when no IPv6 subnet is configured). *)
Definition assign_peer (node : Node) : stM PEnv (string * string) :=
  kp ← wrap "generate WG key pair" GenerateWireGuardKeyPair;
  psk ← wrap "generate preshared key" GeneratePresharedKey;
  encPriv ← wrap "encrypt WG private key" (secrets_Encrypt (kp_PrivateKey kp));
  encPSK ← wrap "encrypt preshared key" (secrets_Encrypt psk);
  peers ← wrap "list WG peers" (db (sqlite_ListWireGuardPeers all_rows));
  nodes ← wrap "list nodes" (db (sqlite_ListNodes None None all_rows));
  overlayIP ← wrap "allocate overlay IP"
    (allocate (wg_Subnet (p_wgConfig p)) (wg_Address (p_wgConfig p)) peers.1 nodes.1);
  overlayIPv6 ←
    (if bool_decide (wg_IPv6Subnet (p_wgConfig p) = "") then mret ""
     else wrap "allocate overlay IPv6"
       (allocate (wg_IPv6Subnet (p_wgConfig p)) (wg_IPv6Address (p_wgConfig p)) peers.1 nodes.1));
  let allowedIPs := (overlayIP +:+ "/32") ::
    (if bool_decide (wg_IPv6Subnet (p_wgConfig p) = "") then [] else [overlayIPv6 +:+ "/128"]) in
  id ← NewID;
  _ ← wrap "create WG peer" (db_now (fun created =>
    sqlite_CreateWireGuardPeer created
      (mkWireGuardPeer id PeerOwnerNode (node_ID node) (kp_PublicKey kp) encPriv encPSK allowedIPs
         (node_PublicIP node +:+ ":" +:+ Itoa (wg_ListenPort (p_wgConfig p))) 0 0 0)));
  mret (overlayIP, overlayIPv6).

(** The node's IPv6 address only changes when one was allocated. *)
Definition with_overlay (ips : string * string) (n : Node) : Node :=
  set_node_overlay ips.1 (if bool_decide (ips.2 = "") then node_WireGuardIPv6 n else ips.2) n.

Record EnrollmentResult := mkEnrollmentResult {
  er_NodeID : ID; er_TenantID : option ID; er_WireGuardIP : string
}.

Definition CompleteEnrollment (tokenStr : string) : stM PEnv EnrollmentResult :=
  token ← ValidateEnrollmentToken tokenStr;
  node ← wrap "get target node" (db (sqlite_GetNode (etok_TargetID token)));
  existing ← try (db (sqlite_GetWireGuardPeerByOwner PeerOwnerNode (node_ID node)));
  node ← match existing with
         | Ok _ => mret node
         | Err ErrNotFound => ips ← assign_peer node; mret (with_overlay ips node)
         | Err e => throw (Wrapf "check existing WG peer" e)
         end;
  _ ← wrap "mark token used" (db_now (fun t => sqlite_MarkEnrollmentTokenUsed t (etok_ID token)));
  let node := set_node_Status NodeStatusOnline node in
  _ ← wrap "update node status" (db_now (fun t => sqlite_UpdateNode t node));
  mret (mkEnrollmentResult (node_ID node) (node_TenantID node) (node_WireGuardIP node)).

(** ** Steps (steps.go) *)

(** Output and error of a step. *)
Notation step_out := (string * option goerr)%type.

(** [if err != nil { return "", err }] around the calls of a step. *)
Definition attempt {A} (m : stM PEnv A) (k : A -> stM PEnv step_out) : stM PEnv step_out := fun e =>
  match m e with
  | (Ok a, e1) => k a e1
  | (Err err, e1) => (Ok ("", Some err), e1)
  end.
(** [output, err := session.Run(cmd); if err != nil { return output, wrapped }] *)
Definition run_or_fail (cmd msg : string) (k : string -> stM PEnv step_out) : stM PEnv step_out :=
  r ← session_Run cmd;
  match r.2 with
  | Some err => mret (r.1, Some (Wrapf msg err))
  | None => k r.1
  end.
Definition done_with (out : string) : stM PEnv step_out := mret (out, None).

Definition connectToNode (node : Node) : stM PEnv unit :=
  match node_SSHKeyID node with
  | None => throw (Errorf "node has no SSH key assigned")
  | Some keyID =>
      key ← wrap "get SSH key" (db (sqlite_GetSSHKey keyID));
      privateKeyPEM ← wrap "decrypt SSH private key" (lift (Decrypt (p_secrets p) (sshkey_PrivateKey key)));
      wrap "SSH connect"
        (ssh_Connect (mkTarget (node_PublicIP node) (node_SSHPort node) (node_SSHUser node) privateKeyPEM))
  end.

(** Connect, run one command, report a fixed text. *)
Definition run_step (node : Node) (cmd msg : string) (k : string -> stM PEnv step_out) : stM PEnv step_out :=
  attempt (connectToNode node) (fun _ => run_or_fail cmd msg k).

Definition stepValidateSSH (node : Node) : stM PEnv step_out :=
  run_step node cmd_validate "SSH validation failed" (fun output =>
    if Contains output "edgefabric-ssh-ok" then done_with output
    else mret (output, Some (Errorf "SSH validation: unexpected output"))).

Definition stepUploadBinary (node : Node) : stM PEnv step_out :=
  if bool_decide (p_binaryPath p = "") then mret ("", Some (Errorf "binary_path not configured on provisioner"))
  else attempt (wrap "open binary" (lift (o_open o (p_binaryPath p)))) (fun size =>
    attempt (connectToNode node) (fun _ =>
      run_or_fail "mkdir -p /usr/local/bin" "create /usr/local/bin" (fun _ =>
        attempt (wrap "upload binary via SCP" (session_Upload remoteBinaryStaging size 493)) (fun _ =>
          done_with ("binary uploaded to " +:+ remoteBinaryStaging +:+ " (" +:+ Itoa size +:+ " bytes)"))))).

Definition stepBackupBinary (node : Node) : stM PEnv step_out :=
  run_step node cmd_backup "backup binary" done_with.
Definition stepAtomicSwap (node : Node) : stM PEnv step_out :=
  run_step node cmd_swap "atomic swap" (fun _ => done_with "binary swapped atomically").
Definition stepRollback (node : Node) : stM PEnv step_out :=
  run_step node cmd_rollback "rollback" done_with.

Definition stepWriteConfig (node : Node) : stM PEnv step_out :=
  attempt (connectToNode node) (fun _ =>
    let tenantID := default ZeroID (node_TenantID node) in
    attempt (wrap "generate enrollment token" (GenerateEnrollmentToken tenantID (node_ID node))) (fun token =>
      let cfg := GenerateNodeConfig (p_extURL p) (etok_Token token) "/var/lib/edgefabric" in
      run_or_fail (cmd_write_config cfg) "write config" (fun _ =>
        done_with "config written to /etc/edgefabric/config.yaml"))).

Definition stepInstallSystemd (node : Node) : stM PEnv step_out :=
  run_step node cmd_systemd "install systemd unit" (fun _ => done_with "systemd unit installed and enabled").
Definition stepStartService (node : Node) : stM PEnv step_out :=
  run_step node "systemctl start edgefabric" "start service" (fun _ => done_with "edgefabric service started").
Definition stepStopService (node : Node) : stM PEnv step_out :=
  run_step node "systemctl stop edgefabric" "stop service" (fun _ => done_with "edgefabric service stopped").

(** The node object keeps the new addresses even when its update fails. *)
Definition stepGenerateWGKeys (node : Node) : stM PEnv (step_out * Node) := fun e =>
  match assign_peer node e with
  | (Err err, e1) => (Ok (("", Some err), node), e1)
  | (Ok ips, e1) =>
      let node := with_overlay ips node in
      match wrap "update node overlay IP" (db_now (fun t => sqlite_UpdateNode t node)) e1 with
      | (Err err, e2) => (Ok (("", Some err), node), e2)
      | (Ok _, e2) => (Ok (("WG keys generated, overlay IP " +:+ ips.1 +:+ " assigned", None), node), e2)
      end
  end.

Definition stepConfigureWireGuard (node : Node) : stM PEnv step_out :=
  match p_wgConfigGen p with
  | None => done_with "wireguard config sync skipped (config generator not configured)"
  | Some gen =>
      attempt (wrap "generate WG config" (db (gen (node_ID node)))) (fun wgConf =>
        run_step node (cmd_wg wgConf) "write wg0.conf" (fun _ =>
          run_or_fail "wg-quick down wg0 2>/dev/null; wg-quick up wg0" "wg-quick up" (fun _ =>
            done_with "wireguard config written and interface started")))
  end.

Definition stepWaitEnrollment : stM PEnv step_out := done_with "enrollment acknowledged (v1: auto-complete)".

Definition stepVerifyOnline (node : Node) : stM PEnv step_out :=
  run_step node "systemctl is-active edgefabric" "service not active" (fun output =>
    if Contains output "active" then done_with "edgefabric service verified active"
    else mret (output, Some (Errorf "service status"))).

Definition action_command (action : string) : string :=
  if bool_decide (action = ProvisionActionStart) then "systemctl start edgefabric"
  else if bool_decide (action = ProvisionActionStop \/ action = ProvisionActionDecommission)
  then "systemctl stop edgefabric"
  else if bool_decide (action = ProvisionActionRestart \/ action = ProvisionActionUpgrade)
  then "systemctl restart edgefabric"
  else "systemctl status edgefabric".

Definition stepSendCommand (job : ProvisioningJob) (node : Node) : stM PEnv step_out :=
  let cmd := action_command (job_Action job) in
  run_step node cmd "send command" (fun _ => done_with ("command " +:+ Quote cmd +:+ " executed")).

Definition stepCleanup (node : Node) : stM PEnv step_out :=
  run_step node cmd_cleanup "cleanup" (fun _ =>
    existing ← try (db (sqlite_GetWireGuardPeerByOwner PeerOwnerNode (node_ID node)));
    _ ← match existing with
        | Ok peer => ignore (db (sqlite_DeleteWireGuardPeer (peer_ID peer)))
        | Err _ => mret tt
        end;
    done_with "node cleaned up and decommissioned").

Definition same_node (node : Node) (m : stM PEnv step_out) : stM PEnv (step_out * Node) :=
  out ← m; mret (out, node).

Definition executeStep (step : string) (job : ProvisioningJob) (node : Node) : stM PEnv (step_out * Node) :=
  if bool_decide (step = StepValidateSSH) then same_node node (stepValidateSSH node)
  else if bool_decide (step = StepUploadBinary) then same_node node (stepUploadBinary node)
  else if bool_decide (step = StepWriteConfig) then same_node node (stepWriteConfig node)
  else if bool_decide (step = StepInstallSystemd) then same_node node (stepInstallSystemd node)
  else if bool_decide (step = StepStartService) then same_node node (stepStartService node)
  else if bool_decide (step = StepGenerateWGKeys) then stepGenerateWGKeys node
  else if bool_decide (step = StepConfigureWireGuard) then same_node node (stepConfigureWireGuard node)
  else if bool_decide (step = StepWaitEnrollment) then same_node node stepWaitEnrollment
  else if bool_decide (step = StepVerifyOnline) then same_node node (stepVerifyOnline node)
  else if bool_decide (step = StepStopService) then same_node node (stepStopService node)
  else if bool_decide (step = StepSendCommand) then same_node node (stepSendCommand job node)
  else if bool_decide (step = StepCleanup) then same_node node (stepCleanup node)
  else if bool_decide (step = StepBackupBinary) then same_node node (stepBackupBinary node)
  else if bool_decide (step = StepAtomicSwap) then same_node node (stepAtomicSwap node)
  else if bool_decide (step = StepRollback) then same_node node (stepRollback node)
  else mret (("", Some (Errorf "unknown step")), node).

(** ** Pipelines (statemachine.go, provisioner.go) *)

Definition enroll_pipeline : list string :=
  [StepValidateSSH; StepUploadBinary; StepWriteConfig; StepInstallSystemd; StepStartService;
   StepGenerateWGKeys; StepConfigureWireGuard; StepWaitEnrollment; StepVerifyOnline].
Definition PipelineFor (action : string) : list string :=
  if bool_decide (action = ProvisionActionEnroll) then enroll_pipeline
  else if bool_decide (action = ProvisionActionUpgrade) then
    [StepValidateSSH; StepBackupBinary; StepUploadBinary; StepStopService; StepAtomicSwap;
     StepStartService; StepVerifyOnline]
  else if bool_decide (action = ProvisionActionStart) then [StepSendCommand]
  else if bool_decide (action = ProvisionActionStop) then [StepSendCommand]
  else if bool_decide (action = ProvisionActionRestart) then [StepSendCommand]
  else if bool_decide (action = ProvisionActionReprovision) then enroll_pipeline
  else if bool_decide (action = ProvisionActionDecommission) then [StepSendCommand; StepCleanup]
  else [].

Fixpoint rollback_scan (backupSeen : bool) (failedStep : string) (steps : list string) : bool :=
  match steps with
  | [] => false
  | s :: steps =>
      let backupSeen := bool_decide (s = StepBackupBinary) || backupSeen in
      if bool_decide (s = failedStep) then backupSeen else rollback_scan backupSeen failedStep steps
  end.
Definition shouldRollback (steps : list string) (failedStep : string) : bool :=
  rollback_scan false failedStep steps.

(** The first half of [startAction]: its checks. *)
Definition startAction_check (nodeID : ID) (action : string) : stM PEnv Node :=
  node ← wrap "get node" (db (sqlite_GetNode nodeID));
  _ ← lift (guard_err (IsValidTransition action (node_Status node)) (Wrapf "cannot act in state" ErrConflict));
  existing ← try (db (sqlite_GetActiveProvisioningJob nodeID));
  match existing with
  | Ok _ => throw (Wrapf "node already has an active provisioning job" ErrConflict)
  | Err ErrNotFound => mret node
  | Err e => throw (Wrapf "check active job" e)
  end.

(** The second half: the job row. *)
Definition startAction_create (nodeID initiatedBy : ID) (action : string) (node : Node)
    : stM PEnv ProvisioningJob :=
  id ← NewID;
  wrap "create job" (db_now (fun t => sqlite_CreateProvisioningJob t
    (mkProvisioningJob id nodeID (node_TenantID node) action ProvisionStatusPending
       (default "" (head (PipelineFor action))) None None initiatedBy None None 0 0))).

(** The job and the node are what the goroutine gets. *)
Definition startAction (nodeID initiatedBy : ID) (action : string) : stM PEnv (ProvisioningJob * Node) :=
  node ← startAction_check nodeID action;
  job ← startAction_create nodeID initiatedBy action node;
  mret (job, node).

Definition EnrollNode nodeID initiatedBy := startAction nodeID initiatedBy ProvisionActionEnroll.
Definition StartNode nodeID initiatedBy := startAction nodeID initiatedBy ProvisionActionStart.
Definition StopNode nodeID initiatedBy := startAction nodeID initiatedBy ProvisionActionStop.
Definition RestartNode nodeID initiatedBy := startAction nodeID initiatedBy ProvisionActionRestart.
Definition UpgradeNode nodeID initiatedBy := startAction nodeID initiatedBy ProvisionActionUpgrade.
Definition ReprovisionNode nodeID initiatedBy := startAction nodeID initiatedBy ProvisionActionReprovision.
Definition DecommissionNode nodeID initiatedBy := startAction nodeID initiatedBy ProvisionActionDecommission.

Definition update_job (j : ProvisioningJob) : stM PEnv unit :=
  ignore (db_now (fun t => sqlite_UpdateProvisioningJob t j)).
Definition update_node (n : Node) : stM PEnv unit := ignore (db_now (fun t => sqlite_UpdateNode t n)).

Definition completion_status (action status : string) : string :=
  if bool_decide (action ∈ [ProvisionActionEnroll; ProvisionActionStart; ProvisionActionRestart;
                            ProvisionActionUpgrade; ProvisionActionReprovision]) then NodeStatusOnline
  else if bool_decide (action = ProvisionActionStop) then NodeStatusOffline
  else if bool_decide (action = ProvisionActionDecommission) then NodeStatusDecommissioned
  else status.
Definition updateNodeStatusAfterCompletion (node : Node) (action : string) : stM PEnv unit :=
  update_node (set_node_Status (completion_status action (node_Status node)) node).

(** [time.Since(start).Milliseconds()] *)
Definition millis_since (start : Time) : stM PEnv Z := t ← now; mret (Z.quot (t - start) (10 ^ 6)).

Definition rollback_result (steps : list string) (step : string) (job : ProvisioningJob) (node : Node)
    : stM PEnv (list StepResult) :=
  if bool_decide (job_Action job = ProvisionActionUpgrade) && shouldRollback steps step then
    rbStart ← now;
    rb ← stepRollback node;
    ms ← millis_since rbStart;
    mret [mkStepResult StepRollback (match rb.2 with Some _ => "failed" | None => "success" end)
            rb.1 rb.2 rbStart ms]
  else mret [].

(** A failed step: rollback if due, the failed job, and the node of an enrollment. *)
Definition fail_pipeline (steps : list string) (step : string) (err : goerr) (results : list StepResult)
    (job : ProvisioningJob) (node : Node) : stM PEnv (ProvisioningJob * Node) :=
  rb ← rollback_result steps step job node;
  completedAt ← now;
  let job := job_finished ProvisionStatusFailed (Some (Wrapf ("step " +:+ step +:+ " failed") err))
               completedAt (results ++ rb) job in
  _ ← update_job job;
  if bool_decide (job_Action job = ProvisionActionEnroll) then
    let node := set_node_Status NodeStatusError node in
    _ ← update_node node; mret (job, node)
  else mret (job, node).

(** The loop over the steps that remain; [steps] is the whole pipeline. *)
Fixpoint run_steps (steps remaining : list string) (results : list StepResult) (job : ProvisioningJob)
    (node : Node) : stM PEnv (ProvisioningJob * Node) :=
  match remaining with
  | [] =>
      completedAt ← now;
      let job := job_finished ProvisionStatusCompleted None completedAt results job in
      _ ← update_job job;
      _ ← updateNodeStatusAfterCompletion node (job_Action job);
      mret (job, set_node_Status (completion_status (job_Action job) (node_Status node)) node)
  | step :: remaining =>
      let job := job_at_step step results job in
      _ ← update_job job;
      stepStart ← now;
      r ← executeStep step job node;
      duration ← millis_since stepStart;
      let node := r.2 in
      match r.1.2 with
      | Some err =>
          fail_pipeline steps step err
            (results ++ [mkStepResult step "failed" r.1.1 (Some err) stepStart duration]) job node
      | None =>
          run_steps steps remaining
            (results ++ [mkStepResult step "success" r.1.1 None stepStart duration]) job node
      end
  end.

Definition runPipeline (job : ProvisioningJob) (node : Node) (steps : list string)
    : stM PEnv (ProvisioningJob * Node) :=
  startedAt ← now;
  let job := job_running startedAt job in
  _ ← update_job job;
  node ← (if bool_decide (job_Action job = ProvisionActionEnroll) then
            let node := set_node_Status NodeStatusEnrolling node in
            _ ← update_node node; mret node
          else mret node);
  run_steps steps steps [] job node.

(** An action run to its end, with nothing else in between. *)
Definition perform (nodeID initiatedBy : ID) (action : string) : stM PEnv (ProvisioningJob * Node) :=
  r ← startAction nodeID initiatedBy action;
  runPipeline r.1 r.2 (PipelineFor action).

Definition GetJob (id : ID) : stM PEnv ProvisioningJob := db (sqlite_GetProvisioningJob id).
Definition ListJobs (nodeID : option ID) (params : ListParams) : stM PEnv (list ProvisioningJob * Z) :=
  db (sqlite_ListProvisioningJobs nodeID params).
End provisioner.
