(* ===== verification/ProvisionFrame.v ===== *)
(** * Provisioning: what each action may change

    [respects R m]: every run of [m] relates the state before to the state after
    by the preorder [R].  The combinators of the provisioning service preserve
    it, so that a frame property of a whole pipeline follows from the one of the
    primitive effects. *)

From Stdlib Require Import ZArith Lia Ascii String.
From S2P Require Import Prelude GoStrings GoNet GoBase64 Secrets Domain Storage StoreFleet Overlay StoreProvision Provisioner.

Open Scope Z_scope.

Create HintDb frame.

Section respects.
Context (R : relation PEnv) `{!PreOrder R}.

Definition respects {A} (m : stM PEnv A) : Prop := forall e r e', m e = (r, e') -> R e e'.

Lemma resp_ret {A} (a : A) : respects (mret a).
Proof using Type*. intros e r e' [= _ <-]. reflexivity. Qed.
Lemma resp_throw {A} err : respects (throw (A:=A) err).
Proof using Type*. intros e r e' [= _ <-]. reflexivity. Qed.
Lemma resp_lift {A} (x : result A) : respects (lift x).
Proof using Type*. intros e r e' [= _ <-]. reflexivity. Qed.

Lemma resp_bind {A B} (m : stM PEnv A) (f : A -> stM PEnv B) :
  respects m -> (forall a, respects (f a)) -> respects (m ≫= f).
Proof using Type*.
  intros Hm Hf e r e' Hrun. apply bind_run in Hrun as [(a & s & H1 & H2)|(err & H1 & _)].
  - etrans; [exact (Hm _ _ _ H1)|exact (Hf a _ _ _ H2)].
  - exact (Hm _ _ _ H1).
Qed.

Lemma resp_wrap {A} msg (m : stM PEnv A) : respects m -> respects (wrap msg m).
Proof using Type*. intros Hm e r e' Hrun. apply wrap_run in Hrun as [(a & H1 & _)|(err & H1 & _)]; exact (Hm _ _ _ H1). Qed.

Lemma resp_try {A} (m : stM PEnv A) : respects m -> respects (try m).
Proof using Type*. intros Hm e r e'. unfold try. destruct (m e) as [x e1] eqn:E. intros [= _ <-]. exact (Hm _ _ _ E). Qed.

Lemma resp_ignore {A} (m : stM PEnv A) : respects m -> respects (ignore m).
Proof using Type*. intros Hm e r e'. unfold ignore. destruct (m e) as [x e1] eqn:E. intros [= _ <-]. exact (Hm _ _ _ E). Qed.

Lemma resp_attempt {A} (m : stM PEnv A) k : respects m -> (forall a, respects (k a)) -> respects (attempt m k).
Proof using Type*.
  intros Hm Hk e r e'. unfold attempt. destruct (m e) as [[a|err] e1] eqn:E.
  - intros H. etrans; [exact (Hm _ _ _ E)|exact (Hk a _ _ _ H)].
  - intros [= _ <-]. exact (Hm _ _ _ E).
Qed.

Lemma resp_if (b : bool) {A} (m1 m2 : stM PEnv A) : respects m1 -> respects m2 -> respects (if b then m1 else m2).
Proof using Type*. by destruct b. Qed.

Lemma resp_done out : respects (done_with out).
Proof using Type*. apply resp_ret. Qed.
End respects.

#[export] Hint Resolve resp_ret resp_throw resp_lift resp_wrap resp_try resp_ignore resp_attempt resp_if resp_done : frame.
#[export] Hint Extern 2 (respects _ (_ ≫= _)) => apply resp_bind : frame.
#[export] Hint Extern 0 (PreOrder _) => apply _ : frame.

(** The preorders used here compare databases and traces only, and the
    primitive effects change one of them. *)
Class Frame (R : relation PEnv) (dbR : relation SqlState) (sentR : remote -> Prop) := {
  frame_pre :: PreOrder R;
  frame_next e : R e (next e);
  frame_db e s : dbR (pe_sql e) s -> R e (mkPEnv s (pe_trace e) (pe_tick e));
  frame_sent e r : sentR r -> R e (sent r e)
}.

Definition sql_respects (dbR : relation SqlState) {A} (m : stM SqlState A) : Prop :=
  forall s r s', m s = (r, s') -> dbR s s'.

Section frame.
Context (R : relation PEnv) (dbR : relation SqlState) (sentR : remote -> Prop) `{!Frame R dbR sentR}.
Context `{AEAD} (o : Outside) (p : DefaultProvisioner).

Lemma resp_now : respects R (now o).
Proof using Type*. intros e r e' [= _ <-]. apply frame_next. Qed.
Lemma resp_NewID : respects R (NewID o).
Proof using Type*. intros e r e' [= _ <-]. apply frame_next. Qed.
Lemma resp_rand n : respects R (rand o n).
Proof using Type*. intros e r e' [= _ <-]. apply frame_next. Qed.

Lemma resp_db {A} (m : stM SqlState A) : sql_respects dbR m -> respects R (db m).
Proof using Type*.
  intros Hm e r e'. unfold db. destruct (m (pe_sql e)) as [x s] eqn:E. intros [= _ <-].
  eapply frame_db, Hm, E.
Qed.
Lemma resp_db_now {A} (m : Time -> stM SqlState A) :
  (forall t, sql_respects dbR (m t)) -> respects R (db_now o m).
Proof using Type*.
  intros Hm. apply resp_bind; [apply _|apply resp_now|]. intros t. by apply resp_db.
Qed.

Lemma resp_Run cmd : sentR (RRun cmd) -> respects R (session_Run o cmd).
Proof using Type*. intros Hs e r e' [= _ <-]. by eapply frame_sent. Qed.
Lemma resp_Upload path size mode : sentR (RUpload path size mode) -> respects R (session_Upload o path size mode).
Proof using Type*.
  intros Hs e r e'. unfold session_Upload. destruct (o_upload _ _ _ _ _); intros [= _ <-]; by eapply frame_sent.
Qed.
Lemma resp_Connect t : sentR (RConnect t) -> respects R (ssh_Connect o t).
Proof using Type*.
  intros Hs e r e'. unfold ssh_Connect. destruct (o_connect _ _ _); intros [= _ <-]; by eapply frame_sent.
Qed.

Lemma resp_run_or_fail cmd msg k :
  sentR (RRun cmd) -> (forall out, respects R (k out)) -> respects R (run_or_fail o cmd msg k).
Proof using Type*.
  intros Hs Hk. apply resp_bind; [apply _|by apply resp_Run|].
  intros [out [err|]]; cbn; [apply resp_ret; apply _|apply Hk].
Qed.
End frame.

(** ** The statements of the service *)

Class DbFrame (dbR : relation SqlState) := {
  df_pre :: PreOrder dbR;
  df_same s s' : sq_db s' = sq_db s -> sq_fk s' = sq_fk s -> (calm s -> calm s') -> dbR s s';
  df_token t tok : sql_respects dbR (sqlite_CreateEnrollmentToken t tok);
  df_used t id : sql_respects dbR (sqlite_MarkEnrollmentTokenUsed t id);
  df_peer t pr : sql_respects dbR (sqlite_CreateWireGuardPeer t pr);
  df_delpeer id : sql_respects dbR (sqlite_DeleteWireGuardPeer id);
  df_node t n : sql_respects dbR (sqlite_UpdateNode t n);
  df_job t j : sql_respects dbR (sqlite_CreateProvisioningJob t j);
  df_updjob t j : sql_respects dbR (sqlite_UpdateProvisioningJob t j)
}.

#[export] Hint Extern 0 (DbFrame _) => apply _ : frame.

Lemma sql_respects_query dbR `{!DbFrame dbR} {A} msg (f : DB -> result A) : sql_respects dbR (sql_query msg f).
Proof.
  intros s r s'. unfold sql_query, sql_exec. destruct (sq_fault s); intros [= _ <-]; (apply df_same; [done..|]);
    unfold calm; cbn; by intros ->.
Qed.

Lemma sql_respects_bind dbR `{!DbFrame dbR} {A B} (m : stM SqlState A) (f : A -> stM SqlState B) :
  sql_respects dbR m -> (forall a, sql_respects dbR (f a)) -> sql_respects dbR (m ≫= f).
Proof.
  intros Hm Hf s r s' Hrun. apply bind_run in Hrun as [(a & s1 & H1 & H2)|(err & H1 & _)].
  - etrans; [exact (Hm _ _ _ H1)|exact (Hf a _ _ _ H2)].
  - exact (Hm _ _ _ H1).
Qed.

(** What a step may send to the node. *)
Definition step_sends (step : string) (r : remote) : Prop :=
  match r with
  | RConnect _ => True
  | RUpload path _ _ => step = StepUploadBinary /\ path = remoteBinaryStaging
  | RRun cmd =>
      (step = StepValidateSSH /\ cmd = cmd_validate) \/
      (step = StepUploadBinary /\ cmd = "mkdir -p /usr/local/bin") \/
      (step = StepWriteConfig /\ exists cfg, cmd = cmd_write_config cfg) \/
      (step = StepInstallSystemd /\ cmd = cmd_systemd) \/
      (step = StepStartService /\ cmd = "systemctl start edgefabric") \/
      (step = StepConfigureWireGuard /\
         (cmd = "wg-quick down wg0 2>/dev/null; wg-quick up wg0" \/ exists conf, cmd = cmd_wg conf)) \/
      (step = StepVerifyOnline /\ cmd = "systemctl is-active edgefabric") \/
      (step = StepStopService /\ cmd = "systemctl stop edgefabric") \/
      (step = StepSendCommand /\ exists action, cmd = action_command action) \/
      (step = StepCleanup /\ cmd = cmd_cleanup) \/
      (step = StepBackupBinary /\ cmd = cmd_backup) \/
      (step = StepAtomicSwap /\ cmd = cmd_swap) \/
      (step = StepRollback /\ cmd = cmd_rollback)
  end.

Ltac sends :=
  cbn [step_sends];
  let rec go := first [solve [split; [reflexivity|eauto]] | left; solve [split; [reflexivity|eauto]] | right; go]
  in go.

Section service.
Context (R : relation PEnv) (dbR : relation SqlState) (sentR : remote -> Prop).
Context `{!Frame R dbR sentR} `{!DbFrame dbR}.
Context `{AEAD} (o : Outside) (p : DefaultProvisioner).
Context (Hgen : forall gen id, p_wgConfigGen p = Some gen -> sql_respects dbR (gen id)).
Context (Hconnect : forall t, sentR (RConnect t)).

#[local] Hint Resolve sql_respects_query df_token df_used df_peer df_delpeer df_node df_job df_updjob : frame.
#[local] Hint Extern 1 (respects R (now _)) => apply (resp_now R dbR sentR) : frame.
#[local] Hint Extern 1 (respects R (NewID _)) => apply (resp_NewID R dbR sentR) : frame.
#[local] Hint Extern 1 (respects R (rand _ _)) => apply (resp_rand R dbR sentR) : frame.
#[local] Hint Extern 1 (respects R (db _)) => apply (resp_db R dbR sentR) : frame.
#[local] Hint Extern 1 (respects R (db_now _ _)) => apply (resp_db_now R dbR sentR) : frame.
#[local] Hint Extern 1 (respects R (ssh_Connect _ _)) => apply (resp_Connect R dbR sentR) : frame.
#[local] Hint Extern 1 (sql_respects _ (_ ≫= _)) => apply sql_respects_bind : frame.

Lemma resp_GenerateEnrollmentToken tenant target : respects R (GenerateEnrollmentToken o tenant target).
Proof using Frame0 DbFrame0. unfold GenerateEnrollmentToken. eauto 20 with frame. Qed.

Lemma resp_ValidateEnrollmentToken tok : respects R (ValidateEnrollmentToken o tok).
Proof using Frame0 DbFrame0. unfold ValidateEnrollmentToken, sqlite_GetEnrollmentToken. eauto 20 with frame. Qed.

Lemma resp_assign_peer node : respects R (assign_peer o p node).
Proof using Frame0 DbFrame0.
  assert (Hkp : respects R (GenerateWireGuardKeyPair o)).
  { unfold GenerateWireGuardKeyPair. apply resp_bind; [apply _|eauto with frame|]. intros [b|]; [|eauto with frame].
    cbn zeta. destruct (o_x25519 o _); eauto with frame. }
  assert (Hpsk : respects R (GeneratePresharedKey o)).
  { unfold GeneratePresharedKey. apply resp_bind; [apply _|eauto with frame|]. intros [b|]; eauto with frame. }
  assert (Henc : forall s, respects R (secrets_Encrypt o p s)).
  { intros s. unfold secrets_Encrypt. eauto with frame. }
  unfold assign_peer, allocate, sqlite_ListWireGuardPeers, sqlite_ListNodes.
  repeat (apply resp_bind; [apply _|by eauto 10 with frame|intros ?]). cbn zeta. eauto 10 with frame.
Qed.

Lemma resp_CompleteEnrollment tok : respects R (CompleteEnrollment o p tok).
Proof using Frame0 DbFrame0.
  unfold CompleteEnrollment, sqlite_GetNode, sqlite_GetWireGuardPeerByOwner.
  apply resp_bind; [apply _|apply resp_ValidateEnrollmentToken|intros token].
  apply resp_bind; [apply _|by eauto 10 with frame|intros node].
  apply resp_bind; [apply _|by eauto 10 with frame|intros existing].
  apply resp_bind; [apply _| |intros node'].
  - pose proof resp_assign_peer. destruct existing as [?|[]]; eauto with frame.
  - eauto 10 with frame.
Qed.

Lemma resp_connectToNode node : respects R (connectToNode o p node).
Proof using Type*.
  unfold connectToNode, sqlite_GetSSHKey. destruct (node_SSHKeyID node); eauto 10 with frame.
Qed.

Lemma resp_run_step node cmd msg k :
  sentR (RRun cmd) -> (forall out, respects R (k out)) -> respects R (run_step o p node cmd msg k).
Proof using Type*.
  intros Hs Hk. apply resp_attempt; [apply _|apply resp_connectToNode|]. intros _. by apply (resp_run_or_fail R dbR sentR).
Qed.

Lemma resp_same_node node (m : stM PEnv (string * option goerr)) : respects R m -> respects R (same_node node m).
Proof using Type*. intros Hm. unfold same_node. eauto with frame. Qed.

Lemma resp_stepRollback node : sentR (RRun cmd_rollback) -> respects R (stepRollback o p node).
Proof using Type*. intros Hs. apply resp_run_step; eauto with frame. Qed.

Lemma resp_stepGenerateWGKeys node : respects R (stepGenerateWGKeys o p node).
Proof using Type*.
  intros e r e'. unfold stepGenerateWGKeys. destruct (assign_peer o p node e) as [[ips|err] e1] eqn:E1.
  - cbn zeta. destruct (wrap _ _ e1) as [[u|err] e2] eqn:E2; intros [= _ <-];
      (etrans; [exact (resp_assign_peer _ _ _ _ E1)|]);
      (eapply (resp_wrap R); [|exact E2]); eauto with frame.
  - intros [= _ <-]. exact (resp_assign_peer _ _ _ _ E1).
Qed.

Lemma resp_executeStep step job node :
  (forall r, step_sends step r -> sentR r) -> respects R (executeStep o p step job node).
Proof using Type*.
  intros Hs. pose proof resp_connectToNode as Hc.
  assert (Hrun : forall cmd msg k, step_sends step (RRun cmd) -> (forall out, respects R (k out)) ->
            respects R (run_step o p node cmd msg k)) by (intros; apply resp_run_step; auto).
  assert (Hrf : forall cmd msg k, step_sends step (RRun cmd) -> (forall out, respects R (k out)) ->
            respects R (run_or_fail o cmd msg k)) by (intros; apply (resp_run_or_fail R dbR sentR); auto).
  unfold executeStep. repeat (case_bool_decide; [subst; try apply resp_same_node|]).
  - apply Hrun; [sends|]. intros out. eauto with frame.
  - unfold stepUploadBinary. case_bool_decide; [eauto with frame|].
    apply resp_attempt; [apply _|eauto with frame|intros size].
    apply resp_attempt; [apply _|apply Hc|intros _]. apply Hrf; [sends|intros _].
    apply resp_attempt; [apply _| |eauto with frame].
    apply resp_wrap; [apply _|]. apply (resp_Upload R dbR sentR). apply Hs. done.
  - unfold stepWriteConfig. apply resp_attempt; [apply _|apply Hc|intros _].
    apply resp_attempt; [apply _|apply resp_wrap; [apply _|apply resp_GenerateEnrollmentToken]|intros tok].
    cbn zeta. apply Hrf; [sends|]. eauto with frame.
  - apply Hrun; [sends|]. eauto with frame.
  - apply Hrun; [sends|]. eauto with frame.
  - apply resp_stepGenerateWGKeys.
  - unfold stepConfigureWireGuard. destruct (p_wgConfigGen p) as [gen|] eqn:Hg; [|eauto with frame].
    apply resp_attempt; [apply _|apply resp_wrap; [apply _|]; apply (resp_db R dbR sentR); by apply Hgen|intros conf].
    apply Hrun; [sends|intros _]. apply Hrf; [sends|]. eauto with frame.
  - apply resp_done. apply _.
  - apply Hrun; [sends|]. intros out. eauto with frame.
  - apply Hrun; [sends|]. eauto with frame.
  - apply Hrun; [sends|]. eauto with frame.
  - apply Hrun; [sends|]. intros _. unfold sqlite_GetWireGuardPeerByOwner.
    apply resp_bind; [apply _|eauto with frame|]. intros [pr|er];
      (apply resp_bind; [apply _|unfold sqlite_DeleteWireGuardPeer|]); eauto with frame.
  - apply Hrun; [sends|]. eauto with frame.
  - apply Hrun; [sends|]. eauto with frame.
  - apply Hrun; [sends|]. eauto with frame.
  - eauto with frame.
Qed.

Lemma resp_update_job j : respects R (update_job o j).
Proof using Type*. unfold update_job. eauto with frame. Qed.
Lemma resp_update_node n : respects R (update_node o n).
Proof using Type*. unfold update_node. eauto with frame. Qed.
Lemma resp_millis t : respects R (millis_since o t).
Proof using Type*. unfold millis_since. eauto with frame. Qed.
#[local] Hint Resolve resp_update_job resp_update_node resp_millis : frame.

Lemma resp_fail_pipeline steps step err results job node :
  (job_Action job = ProvisionActionUpgrade -> sentR (RRun cmd_rollback)) ->
  respects R (fail_pipeline o p steps step err results job node).
Proof using Type*.
  intros Hrb. unfold fail_pipeline. apply resp_bind; [apply _| |intros rb].
  - unfold rollback_result. case_bool_decide as Ha; cbn [andb]; [|eauto with frame].
    apply resp_if; [apply _| |eauto with frame]. apply resp_bind; [apply _|eauto with frame|intros t].
    apply resp_bind; [apply _|apply resp_stepRollback; auto|]. eauto with frame.
  - apply resp_bind; [apply _|eauto with frame|intros t]. cbn zeta.
    apply resp_bind; [apply _|eauto with frame|intros _]. apply resp_if; eauto with frame.
Qed.

Lemma resp_run_steps steps remaining : forall results job node,
  (forall step r, step ∈ remaining -> step_sends step r -> sentR r) ->
  (job_Action job = ProvisionActionUpgrade -> sentR (RRun cmd_rollback)) ->
  respects R (run_steps o p steps remaining results job node).
Proof using Type*.
  induction remaining as [|step remaining IH]; intros results job node Hs Hrb; cbn [run_steps].
  - apply resp_bind; [apply _|eauto with frame|intros t]. cbn zeta.
    unfold updateNodeStatusAfterCompletion. eauto with frame.
  - cbn zeta. apply resp_bind; [apply _|eauto with frame|intros _].
    apply resp_bind; [apply _|eauto with frame|intros t].
    apply resp_bind; [apply _| |intros [[out [err|]] node']].
    { apply resp_executeStep. intros r. apply Hs. left. }
    all: apply resp_bind; [apply _|eauto with frame|intros d]; cbn [fst snd].
    + by apply resp_fail_pipeline.
    + apply IH; [|done]. intros step' r Hin. apply Hs. by right.
Qed.

Lemma resp_runPipeline steps job node :
  (forall step r, step ∈ steps -> step_sends step r -> sentR r) ->
  (job_Action job = ProvisionActionUpgrade -> sentR (RRun cmd_rollback)) ->
  respects R (runPipeline o p job node steps).
Proof using Type*.
  intros Hs Hrb. unfold runPipeline. apply resp_bind; [apply _|eauto with frame|intros t]. cbn zeta.
  apply resp_bind; [apply _|eauto with frame|intros _].
  apply resp_bind; [apply _|apply resp_if; eauto with frame|intros node']. by apply resp_run_steps.
Qed.

Lemma resp_startAction nodeID by_ action : respects R (startAction o nodeID by_ action).
Proof using Frame0 DbFrame0.
  unfold startAction, startAction_check, startAction_create, sqlite_GetNode, sqlite_GetActiveProvisioningJob.
  apply resp_bind; [apply _| |intros node].
  - apply resp_bind; [apply _|eauto with frame|intros node].
    apply resp_bind; [apply _|eauto with frame|intros _].
    apply resp_bind; [apply _|eauto with frame|]. intros [?|[]]; eauto with frame.
  - eauto 10 with frame.
Qed.

(** Every pipeline, when everything may be sent. *)
Lemma resp_perform nodeID by_ action :
  (forall r, sentR r) -> respects R (perform o p nodeID by_ action).
Proof using Type*.
  intros Hall. unfold perform. apply resp_bind; [apply _|apply resp_startAction|intros [job node]].
  apply resp_runPipeline; auto.
Qed.
End service.

(** * A small deployment, for the witnesses of the provisioning theorems *)


Fixpoint repeat_char (n : nat) (c : ascii) : string :=
  match n with O => EmptyString | S n => String c (repeat_char n c) end.

(** Everything outside answers, and answers well. *)
Definition sample_outside : Outside := mkOutside
  (fun n => Z.of_nat n) (fun n => N.of_nat (100 + n)) (fun n k => Some (repeat_char k "r"))
  (fun k => Some k) (fun _ => Ok 1000) (fun _ _ => None)
  (fun _ _ => ("edgefabric-ssh-ok active", None)) (fun _ _ _ _ => None).

Definition sample_store : Store := mkStore key_a 1 [mkVersionedKey 1 key_a].
Definition sample_provisioner : DefaultProvisioner :=
  SetBinaryPath "/opt/edgefabric"
    (NewProvisioner sample_store (mkWireGuardHub 51820 "10.100.0.0/24" "10.100.0.1/24" "hub-spoke" "" "")
       "https://controller").

Definition sealed_key : string :=
  match @Encrypt tag_aead (Some "nnnnnnnnnnnn") sample_store "PEM" with Ok c => c | Err _ => "" end.

Definition sample_node (id : ID) (tenant : option ID) (status : string) : Node :=
  mkNode id tenant "edge" "edge.example" "192.0.2.7" "" "" status "" "" 22 "root" (Some 3%N) "" None None
    ["dns"] "" 0 0.

Definition sample_tenant : Tenant := mkTenant 7 "acme" "acme" TenantStatusActive "" 0 0.

Definition sample_db : DB :=
  mkDB {[ 7%N := sample_tenant ]} ∅ ∅ {[ 3%N := mkSSHKey 3 "k" "pub" sealed_key "fp" 0 0 ]}
    {[ 5%N := sample_node 5 (Some 7%N) NodeStatusPending; 6%N := sample_node 6 None NodeStatusPending ]}
    ∅ ∅ ∅ ∅ ∅ ∅ ∅ ∅ ∅ ∅ ∅ ∅ ∅ ∅.

Definition sample_env : PEnv := mkPEnv (mkSql sample_db true []) [] 0.
#[export] Existing Instance tag_aead.

(** The enrollment of node 5 completes, and the first address of the subnet that
    is not the controller's is assigned to it. *)
Example sample_enrolls :
  match perform sample_outside sample_provisioner 5 9 ProvisionActionEnroll sample_env with
  | (Ok (job, node), _) =>
      (job_Status job, node_Status node, node_WireGuardIP node) =
      (ProvisionStatusCompleted, NodeStatusOnline, "10.100.0.2")
  | _ => False
  end.
Proof. vm_compute. reflexivity. Qed.
