(* ===== verification/ProvisionTheorems.v ===== *)
(** * Provisioning: pipelines, jobs and enrollment, theorems *)

From Stdlib Require Import ZArith Lia Ascii String.
From S2P Require Import Prelude GoStrings GoNet GoBase64 Secrets Domain Storage StoreFleet StoreProvision Overlay Provisioner.
From S2P Require Import ProvisionFrame.

Open Scope Z_scope.

(** ** Actions that never fail *)

Definition total {A} (m : stM PEnv A) : Prop := forall e, exists a e', m e = (Ok a, e').

Create HintDb prov.

Section total.
Context `{AEAD} (o : Outside) (p : DefaultProvisioner).

Lemma total_ret {A} (a : A) : total (mret a).
Proof. intros e. by eexists _, _. Qed.

Lemma total_bind {A B} (m : stM PEnv A) (f : A -> stM PEnv B) :
  total m -> (forall a, total (f a)) -> total (m ≫= f).
Proof. intros Hm Hf e. destruct (Hm e) as (a & e1 & He). unfold mbind, stM_bind. rewrite He. apply Hf. Qed.

Lemma total_now : total (now o).
Proof. intros e. by eexists _, _. Qed.
Lemma total_NewID : total (NewID o).
Proof. intros e. by eexists _, _. Qed.
Lemma total_ignore {A} (m : stM PEnv A) : total (ignore m).
Proof. intros e. by eexists _, _. Qed.
Lemma total_try {A} (m : stM PEnv A) : total (try m).
Proof. intros e. unfold try. destruct (m e). by eexists _, _. Qed.
Lemma total_Run cmd : total (session_Run o cmd).
Proof. intros e. by eexists _, _. Qed.

Lemma total_attempt {A} (m : stM PEnv A) k : (forall a, total (k a)) -> total (attempt m k).
Proof. intros Hk e. unfold attempt. destruct (m e) as [[a|err] e1]; [apply Hk|by eexists _, _]. Qed.

Lemma total_run_or_fail cmd msg k : (forall out, total (k out)) -> total (run_or_fail o cmd msg k).
Proof.
  intros Hk. apply total_bind; [apply total_Run|]. intros [out [err|]]; cbn; [apply total_ret|apply Hk].
Qed.

Lemma total_run_step node cmd msg k : (forall out, total (k out)) -> total (run_step o p node cmd msg k).
Proof. intros Hk. apply total_attempt. intros _. by apply total_run_or_fail. Qed.

Lemma total_if (b : bool) {A} (m1 m2 : stM PEnv A) : total m1 -> total m2 -> total (if b then m1 else m2).
Proof. by destruct b. Qed.
End total.

(** Running a sequence whose first action is known. *)
Lemma run_bind {S A B} (m : stM S A) (f : A -> stM S B) s a s1 : m s = (Ok a, s1) -> (m ≫= f) s = f a s1.
Proof. intros Hm. unfold mbind, stM_bind. by rewrite Hm. Qed.

Lemma run_now o {B} (f : Time -> stM PEnv B) e : (now o ≫= f) e = f (o_clock o (pe_tick e)) (next e).
Proof. done. Qed.

Lemma run_ignore {A B} (m : stM PEnv A) (f : unit -> stM PEnv B) e : (ignore m ≫= f) e = f tt (m e).2.
Proof. done. Qed.

Lemma run_ignore_ret {A B C} (m : stM PEnv A) (b : B) (f : B -> stM PEnv C) e :
  ((ignore m ≫= fun _ => mret b) ≫= f) e = f b (m e).2.
Proof. done. Qed.

Lemma run_ret {A B} (a : A) (f : A -> stM PEnv B) e : (mret a ≫= f) e = f a e.
Proof. done. Qed.

Lemma run_millis o start {B} (f : Z -> stM PEnv B) e :
  (millis_since o start ≫= f) e = f (Z.quot (o_clock o (pe_tick e) - start) (10 ^ 6)) (next e).
Proof. done. Qed.

#[export] Hint Resolve total_ret total_now total_NewID total_ignore total_try total_Run total_attempt
  total_run_or_fail total_run_step total_if : prov.
#[export] Hint Extern 2 (total (_ ≫= _)) => apply total_bind : prov.
#[export] Hint Extern 1 (total (done_with _)) => apply total_ret : prov.

Section steps.
Context `{AEAD} (o : Outside) (p : DefaultProvisioner).

Lemma stepRollback_total node : total (stepRollback o p node).
Proof. unfold stepRollback. eauto with prov. Qed.

(** What no step changes of the node. *)
Definition same_row (n n' : Node) : Prop :=
  node_Status n' = node_Status n /\ node_ID n' = node_ID n /\ node_TenantID n' = node_TenantID n /\
  node_SSHKeyID n' = node_SSHKeyID n /\ node_Capabilities n' = node_Capabilities n.

(** A step reports its outcome as a value. *)
Lemma executeStep_spec step job node e :
  exists out node' e', executeStep o p step job node e = (Ok (out, node'), e') /\ same_row node node'.
Proof.
  assert (Hsame : forall m : stM PEnv (string * option goerr), total m ->
    exists out node' e', same_node node m e = (Ok (out, node'), e') /\ same_row node node').
  { intros m Hm. destruct (Hm e) as (out & e' & He). exists out, node, e'.
    unfold same_node, mbind, stM_bind. by rewrite He. }
  unfold executeStep. repeat case_bool_decide; try (apply Hsame).
  - unfold stepValidateSSH. eauto with prov.
  - unfold stepUploadBinary. case_bool_decide; eauto 10 with prov.
  - unfold stepWriteConfig. eauto 10 with prov.
  - unfold stepInstallSystemd. eauto with prov.
  - unfold stepStartService. eauto with prov.
  - unfold stepGenerateWGKeys. destruct (assign_peer o p node e) as [[ips|err] e1]; [|by eexists _, _, _].
    by destruct (wrap _ _ e1) as [[?|?] e2]; eexists _, _, _.
  - unfold stepConfigureWireGuard. destruct (p_wgConfigGen p); eauto 10 with prov.
  - unfold stepWaitEnrollment. eauto with prov.
  - unfold stepVerifyOnline. eauto with prov.
  - unfold stepStopService. eauto with prov.
  - unfold stepSendCommand. eauto with prov.
  - unfold stepCleanup. apply total_run_step. intros out. apply total_bind; [apply total_try|].
    intros [pr|er]; apply total_bind; eauto with prov.
  - unfold stepBackupBinary. eauto with prov.
  - unfold stepAtomicSwap. eauto with prov.
  - apply stepRollback_total.
  - by eexists _, _, _.
Qed.
End steps.

(** ** Outcome of a pipeline *)

Lemma rollback_scan_prefix seen step done rest :
  step ∉ done ->
  rollback_scan seen step (done ++ step :: rest) =
  seen || bool_decide (StepBackupBinary ∈ done ++ [step]).
Proof.
  revert seen. induction done as [|s done IH]; intros seen Hni; cbn [app rollback_scan].
  - rewrite (bool_decide_true (step = step)) by done. rewrite orb_comm. f_equal.
    apply bool_decide_ext. rewrite list_elem_of_singleton. done.
  - apply not_elem_of_cons in Hni as [Hne Hni]. rewrite (bool_decide_false (s = step)) by congruence.
    rewrite IH by done. rewrite (orb_comm (bool_decide (s = StepBackupBinary))), <-orb_assoc. f_equal.
    apply Bool.eq_iff_eq_true. rewrite orb_true_iff, !bool_decide_eq_true, elem_of_cons. naive_solver.
Qed.

(** The fields of a job that no step of a run touches. *)
Definition same_job (j j' : ProvisioningJob) : Prop :=
  job_ID j' = job_ID j /\ job_NodeID j' = job_NodeID j /\ job_Action j' = job_Action j.

(** The record of a call that returned [out]. *)
Definition record_of (step : string) (out : string * option goerr) (start : Time) (ms : Z) : StepResult :=
  mkStepResult step (match out.2 with Some _ => "failed" | None => "success" end) out.1 out.2 start ms.
Definition succeeded (r : StepResult) : Prop := sr_Error r = None.

Section run.
Context `{AEAD} (o : Outside) (p : DefaultProvisioner).

(** [elapsed e e']: the milliseconds between the clock readings of two states. *)
Definition elapsed (e e' : PEnv) : Z := Z.quot (o_clock o (pe_tick e') - o_clock o (pe_tick e)) (10 ^ 6).

(** [ran j n0 e0 done rs n e]: the steps [done] of job [j] were executed one after the
    other, from node [n0] and state [e0], with the records [rs]; each record is of what
    [executeStep] returned on the node and in the state the steps before it left. *)
Inductive ran (j : ProvisioningJob) (n0 : Node) (e0 : PEnv) : list string -> list StepResult -> Node -> PEnv -> Prop :=
| ran_none : ran j n0 e0 [] [] n0 e0
| ran_next done rs n e step e1 out n' e2 : ran j n0 e0 done rs n e ->
    e1 = (update_job o (job_at_step step rs j) e).2 ->
    executeStep o p step (job_at_step step rs j) n (next e1) = (Ok (out, n'), e2) ->
    ran j n0 e0 (done ++ [step]) (rs ++ [record_of step out (o_clock o (pe_tick e1)) (elapsed e1 e2)]) n' (next e2).

(** The rollback after a failure, when an upgrade had reached its backup. *)
Definition rolled_back (action : string) (done : list string) (n : Node) (e : PEnv) (rb : list StepResult) (e' : PEnv) : Prop :=
  if bool_decide (action = ProvisionActionUpgrade /\ StepBackupBinary ∈ done)
  then exists out e1, stepRollback o p n (next e) = (Ok out, e1) /\ e' = next e1 /\
         rb = [record_of StepRollback out (o_clock o (pe_tick e)) (elapsed e e1)]
  else rb = [] /\ e' = e.

Lemma rollback_result_spec step job node done rest e :
  NoDup (done ++ step :: rest) ->
  exists rb e', rollback_result o p (done ++ step :: rest) step job node e = (Ok rb, e') /\
    rolled_back (job_Action job) (done ++ [step]) node e rb e'.
Proof.
  intros (_ & Hd & _)%NoDup_app. assert (Hni : step ∉ done) by (intros Hin; apply (Hd step Hin); left).
  unfold rollback_result, shouldRollback, rolled_back. rewrite rollback_scan_prefix by done. cbn [orb].
  rewrite bool_decide_and. destruct (_ && _); [|by eexists _, _].
  edestruct (stepRollback_total o p node) as (rb & e1 & Hrb).
  eexists _, _. rewrite run_now, (run_bind _ _ _ _ _ Hrb), run_millis. split; [reflexivity|]. by exists rb, e1.
Qed.

(** The end of a run: [job'] and [node'] are what is left of [j] after [rs]. *)
Record ended (j : ProvisioningJob) (n0 : Node) (e0 : PEnv) (steps : list string) (job' : ProvisioningJob) (node' : Node)
    (e' : PEnv) (done rest : list string) (rs rb : list StepResult) (n1 : Node) (e1 e2 : PEnv) : Prop := {
  en_steps : steps = done ++ rest;
  en_ran : ran j n0 e0 done rs n1 e1;
  en_job : same_job j job' /\ job_Steps job' = Some (rs ++ rb);
  en_case :
    rest = [] /\ rb = [] /\ e2 = e1 /\ Forall succeeded rs /\ job_Status job' = ProvisionStatusCompleted /\ job_Error job' = job_Error j /\
      node' = set_node_Status (completion_status (job_Action j) (node_Status n1)) n1 /\
      e' = (update_node o node' (update_job o job' (next e2)).2).2 \/
    (exists ok r err, rs = ok ++ [r] /\ Forall succeeded ok /\ sr_Error r = Some err /\
       job_Status job' = ProvisionStatusFailed /\ job_Error job' = Some (Wrapf ("step " +:+ sr_Step r +:+ " failed") err) /\
       rolled_back (job_Action j) done n1 e1 rb e2 /\
       node' = (if bool_decide (job_Action j = ProvisionActionEnroll) then set_node_Status NodeStatusError n1 else n1) /\
       e' = (if bool_decide (job_Action j = ProvisionActionEnroll) then (update_node o node' (update_job o job' (next e2)).2).2
             else (update_job o job' (next e2)).2))
}.

Lemma run_steps_ended j n0 e0 steps remaining : NoDup steps -> forall done rs jx n e,
  steps = done ++ remaining -> ran j n0 e0 done rs n e -> Forall succeeded rs ->
  same_job j jx -> job_Error jx = job_Error j -> (forall step rs, job_at_step step rs jx = job_at_step step rs j) ->
  exists job' node' e' done' rest rs' rb n1 e1 e2, run_steps o p steps remaining rs jx n e = (Ok (job', node'), e') /\
    ended j n0 e0 steps job' node' e' done' rest rs' rb n1 e1 e2.
Proof.
  intros Hnd. induction remaining as [|step remaining IH]; intros done rs jx n e Hs Hran Hall Hsame Herr Hj; cbn [run_steps].
  - unfold updateNodeStatusAfterCompletion. rewrite run_now. cbn zeta. unfold update_job, update_node. rewrite !run_ignore.
    destruct Hsame as (Hi & Hn & Ha). exists (job_finished ProvisionStatusCompleted None (o_clock o (pe_tick e)) rs jx).
    do 2 eexists. exists done, [], rs, [], n, e, e. split; [reflexivity|]. split; [done|done| |].
    + split; [by split_and!|]. cbn. by rewrite app_nil_r.
    + left. split_and!; try done; cbn; by rewrite Ha.
  - cbn zeta. rewrite Hj. unfold update_job at 1. rewrite run_ignore, run_now.
    set (e1 := (db_now _ _ e).2). destruct (executeStep_spec o p step (job_at_step step rs j) n (next e1)) as (out & n' & e2 & Hex & _).
    rewrite (run_bind _ _ _ _ _ Hex), run_millis. cbn [fst snd].
    pose proof (ran_next j n0 e0 done rs n e step e1 out n' e2 Hran eq_refl Hex) as Hran'. unfold elapsed in Hran'.
    destruct out as [text [err|]]; cbn [fst snd record_of] in *.
    + unfold fail_pipeline. destruct (rollback_result_spec step (job_at_step step rs j) n' done remaining (next e2)) as (rb & e3 & Hrb & Hback).
      { by rewrite <- Hs. }
      rewrite <- Hs in Hrb. rewrite (run_bind _ _ _ _ _ Hrb), run_now. cbn zeta. unfold update_job at 1. rewrite run_ignore.
      set (r := mkStepResult step _ _ _ _ _) in *.
      exists (job_finished ProvisionStatusFailed (Some (Wrapf ("step " +:+ step +:+ " failed") err)) (o_clock o (pe_tick e3)) ((rs ++ [r]) ++ rb) (job_at_step step rs j)).
      set (job' := job_finished _ _ _ _ _). destruct Hsame as (Hi & Hn & Ha).
      exists (if bool_decide (job_Action j = ProvisionActionEnroll) then set_node_Status NodeStatusError n' else n'),
        (if bool_decide (job_Action j = ProvisionActionEnroll) then (update_node o (set_node_Status NodeStatusError n') (update_job o job' (next e3)).2).2
         else (update_job o job' (next e3)).2). exists (done ++ [step]), remaining, (rs ++ [r]), rb, n', (next e2), e3.
      change (job_Action job') with (job_Action j). split; [|split; [by rewrite <- app_assoc|done|by split_and!|]].
      * case_bool_decide; [unfold update_node at 1; rewrite run_ignore|]; reflexivity.
      * right. exists rs, r, err. split_and!; try done. by case_bool_decide.
    + apply (IH (done ++ [step])); [by rewrite <- app_assoc|exact Hran'|by apply Forall_snoc|by split_and!|done|done].
Qed.

(** Where a run starts: the job marked running, the node of an enrollment moved. *)
Definition started_node (action : string) (node : Node) : Node :=
  if bool_decide (action = ProvisionActionEnroll) then set_node_Status NodeStatusEnrolling node else node.
Definition started_env (job : ProvisioningJob) (node : Node) (e : PEnv) : PEnv :=
  let e1 := (update_job o (job_running (o_clock o (pe_tick e)) job) (next e)).2 in
  if bool_decide (job_Action job = ProvisionActionEnroll) then (update_node o (started_node (job_Action job) node) e1).2 else e1.

Lemma runPipeline_starts job node steps e :
  runPipeline o p job node steps e =
  run_steps o p steps steps [] (job_running (o_clock o (pe_tick e)) job) (started_node (job_Action job) node) (started_env job node e).
Proof.
  unfold runPipeline, started_env, started_node. rewrite run_now. cbn zeta. unfold update_job at 1. rewrite run_ignore. cbn [job_Action job_running].
  case_bool_decide; [unfold update_node at 1; by rewrite run_ignore_ret|by rewrite run_ret].
Qed.

Lemma runPipeline_ended job node steps e : NoDup steps ->
  exists job' node' e' done rest rs rb n1 e1 e2, runPipeline o p job node steps e = (Ok (job', node'), e') /\
    ended (job_running (o_clock o (pe_tick e)) job) (started_node (job_Action job) node) (started_env job node e)
      steps job' node' e' done rest rs rb n1 e1 e2.
Proof.
  intros Hnd. rewrite runPipeline_starts. apply (run_steps_ended _ _ _ steps steps Hnd []); try done. apply ran_none.
Qed.

Lemma ran_same_row j n0 e0 done rs n e : ran j n0 e0 done rs n e -> same_row n0 n.
Proof.
  induction 1 as [|done rs n e step e1 out n' e2 _ IH _ Hex]; [done|].
  destruct (executeStep_spec o p step (job_at_step step rs j) n (next e1)) as (out' & n'' & e2' & Hex' & Hn).
  rewrite Hex in Hex'. injection Hex' as <- <- <-. destruct IH as (? & ? & ? & ? & ?), Hn as (? & ? & ? & ? & ?).
  split_and!; congruence.
Qed.
End run.

(** A pipeline ends completed or failed, and its loop starts in a state that only
    the first updates of job and node separate from the start. *)
Lemma runPipeline_runs `{AEAD} o p job node steps e :
  NoDup steps ->
  exists job' node' e' j1 n1 e1, runPipeline o p job node steps e = (Ok (job', node'), e') /\
    run_steps o p steps steps [] j1 n1 e1 = (Ok (job', node'), e') /\
    (forall (R : relation PEnv) `{!PreOrder R}, (forall j, respects R (update_job o j)) ->
       (forall n, respects R (update_node o n)) -> respects R (now o) -> R e e1) /\
    node_TenantID n1 = node_TenantID node /\
    (job_Status job' = ProvisionStatusCompleted \/ job_Status job' = ProvisionStatusFailed).
Proof.
  intros Hnd. destruct (runPipeline_ended o p job node steps e Hnd) as (job' & node' & e' & ? & ? & ? & ? & ? & ? & ? & Hrun & Hend).
  eexists job', node', e', _, _, _. split; [exact Hrun|]. rewrite runPipeline_starts in Hrun. split; [exact Hrun|]. split_and!.
  - intros R HP Hj Hn Ht. transitivity (next e); [exact (Ht e _ _ eq_refl)|]. unfold started_env. cbn zeta.
    set (j := job_running _ job). transitivity (update_job o j (next e)).2; [exact (Hj j (next e) _ _ eq_refl)|].
    case_bool_decide; [|reflexivity]. exact (Hn (started_node (job_Action job) node) (update_job o j (next e)).2 _ _ eq_refl).
  - unfold started_node. by case_bool_decide.
  - destruct (en_case _ _ _ _ _ _ _ _ _ _ _ _ _ _ _ _ Hend) as [(_ & _ & _ & _ & -> & _)|(? & ? & ? & _ & _ & _ & -> & _)]; auto.
Qed.

Lemma PipelineFor_nodup action : NoDup (PipelineFor action).
Proof.
  unfold PipelineFor, enroll_pipeline.
  repeat case_bool_decide; apply (bool_decide_unpack _); vm_compute; exact I.
Qed.

(** ** What is stored at the end of a run *)

(** What every statement of a run keeps of the tables. *)
Definition db_kept (d d' : DB) : Prop :=
  (forall k, is_Some (provisioning_jobs d !! k) -> is_Some (provisioning_jobs d' !! k)) /\
  (forall k, is_Some (nodes d !! k) -> is_Some (nodes d' !! k)) /\
  tenants d' = tenants d /\ ssh_keys d' = ssh_keys d.
Definition rows_kept (s s' : SqlState) : Prop :=
  (calm s -> calm s') /\ sq_fk s' = sq_fk s /\ db_kept (sq_db s) (sq_db s').
Definition env_rows_kept (e e' : PEnv) : Prop := rows_kept (pe_sql e) (pe_sql e').

Lemma sql_exec_rows {A} msg (f : DB -> result A * DB) :
  (forall d r d', f d = (r, d') -> db_kept d d') -> sql_respects rows_kept (sql_exec msg f).
Proof.
  intros Hf s r s'. unfold sql_exec, rows_kept. destruct (sq_fault s); [intros [= _ <-]|].
  - split; [unfold calm; cbn; by intros ->|done].
  - destruct (f (sq_db s)) as [x d] eqn:E. intros [= _ <-]. split; [unfold calm; cbn; by intros ->|]. split; [done|]. exact (Hf _ _ _ E).
Qed.

Lemma sql_insert_rows {A} msg dup ex fks put (v : A) :
  (forall d, db_kept d (put d)) -> sql_respects rows_kept (sql_insert msg dup ex fks put v).
Proof.
  intros Hp s r s'. unfold sql_insert. apply sql_exec_rows. intros d x d'.
  repeat case_match; intros [= _ <-]; try apply Hp; by split_and!.
Qed.

Lemma sql_update_rows {A} msg ex fks put (v : A) :
  (forall d, db_kept d (put d)) -> sql_respects rows_kept (sql_update msg ex fks put v).
Proof.
  intros Hp s r s'. unfold sql_update. apply sql_exec_rows. intros d x d'.
  repeat case_match; intros [= _ <-]; try apply Hp; by split_and!.
Qed.

#[export] Instance rows_kept_frame : DbFrame rows_kept.
Proof.
  split; try (intros; first [apply sql_insert_rows|apply sql_update_rows]; intros d; by split_and!).
  - split; [by intros s|]. intros s1 s2 s3 (H1 & H2 & H3 & H4 & H5 & H6) (G1 & G2 & G3 & G4 & G5 & G6).
    split_and!; [auto|congruence|]. split_and!; [auto|auto|congruence|congruence].
  - intros s s' Hd Hf Hc. split_and!; [done|done|]. by rewrite Hd.
  - intros t pr. apply sql_exec_rows. intros d r d'. repeat case_match; intros [= _ <-]; by split_and!.
  - intros t n s r s'. unfold sqlite_UpdateNode. apply sql_exec_rows. intros d x d'.
    repeat case_match; intros [= _ <-]; try by split_and!. split_and!; try done. intros k Hk. apply lookup_insert_is_Some'. by right.
  - intros t j. apply sql_insert_rows. intros d. split_and!; try done. intros k Hk. apply lookup_insert_is_Some'. by right.
  - intros t j. apply sql_update_rows. intros d. split_and!; try done. intros k Hk. by apply lookup_alter_is_Some.
Qed.

#[export] Instance env_rows_kept_frame : Frame env_rows_kept rows_kept (fun _ => True).
Proof.
  split; try done. split; [by intros e; split_and!|].
  intros e1 e2 e3. unfold env_rows_kept. apply (transitivity (R := rows_kept)).
Qed.

Section stored.
Context `{AEAD} (o : Outside) (p : DefaultProvisioner).
Context (Hgen : forall gen id, p_wgConfigGen p = Some gen -> sql_respects rows_kept (gen id)).

Lemma update_job_rows j e : env_rows_kept e (update_job o j e).2.
Proof using Type.
  assert (Hr : respects env_rows_kept (update_job o j)); [|exact (Hr e _ _ eq_refl)].
  apply resp_ignore; [apply _|]. apply (resp_db_now env_rows_kept rows_kept (fun _ => True)). intros t. apply df_updjob.
Qed.
Lemma update_node_rows n e : env_rows_kept e (update_node o n e).2.
Proof using Type.
  assert (Hr : respects env_rows_kept (update_node o n)); [|exact (Hr e _ _ eq_refl)].
  apply resp_ignore; [apply _|]. apply (resp_db_now env_rows_kept rows_kept (fun _ => True)). intros t. apply df_node.
Qed.
Lemma next_rows e : env_rows_kept e (next e).
Proof using Type. by split_and!. Qed.

Lemma started_env_rows job node e : env_rows_kept e (started_env o job node e).
Proof using Type.
  unfold started_env. cbn zeta. etrans; [apply next_rows|]. etrans; [apply update_job_rows|].
  case_bool_decide; [apply update_node_rows|reflexivity].
Qed.

Lemma ran_rows j n0 e0 done rs n e : ran o p j n0 e0 done rs n e -> env_rows_kept e0 e.
Proof using Hgen.
  induction 1 as [|done rs n e step e1 out n' e2 _ IH -> Hex]; [reflexivity|].
  etrans; [exact IH|]. etrans; [apply update_job_rows|]. etrans; [apply next_rows|]. etrans; [|apply next_rows].
  exact (resp_executeStep env_rows_kept rows_kept (fun _ => True) o p Hgen (fun _ => I) step _ _ (fun _ _ => I) _ _ _ Hex).
Qed.

Lemma rolled_back_rows action done n e rb e' : rolled_back o p action done n e rb e' -> env_rows_kept e e'.
Proof using Hgen.
  unfold rolled_back. case_bool_decide; [|intros [_ ->]; reflexivity]. intros (out & e1 & Hrb & -> & _).
  etrans; [apply next_rows|]. etrans; [|apply next_rows].
  exact (resp_stepRollback env_rows_kept rows_kept (fun _ => True) o p Hgen (fun _ => I) n I _ _ _ Hrb).
Qed.

Lemma update_job_stored j e : calm (pe_sql e) -> is_Some (provisioning_jobs (sq_db (pe_sql e)) !! job_ID j) ->
  exists row, provisioning_jobs (sq_db (pe_sql (update_job o j e).2)) !! job_ID j = Some row /\
    job_Status row = job_Status j /\ job_Steps row = job_Steps j /\ job_Error row = job_Error j.
Proof using Type.
  intros Hc [old Hold]. unfold update_job, ignore, db_now, mbind, stM_bind, now, db. cbn.
  unfold sqlite_UpdateProvisioningJob. rewrite calm_update; [|exact Hc| |done].
  - eexists. cbn. rewrite lookup_alter_eq, Hold. by split.
  - apply bool_decide_eq_true. by eexists.
Qed.

Lemma update_node_jobs n e : provisioning_jobs (sq_db (pe_sql (update_node o n e).2)) = provisioning_jobs (sq_db (pe_sql e)).
Proof using Type.
  unfold update_node, ignore, db_now, mbind, stM_bind, now, db, sqlite_UpdateNode, sql_exec. cbn.
  destruct (sq_fault _); [done|]. cbn. by repeat case_match; simplify_eq/=.
Qed.

(** A node whose update is accepted. *)
Definition storable (d : DB) (n : Node) : Prop :=
  is_Some (nodes d !! node_ID n) /\ fk_opt (tenants d) (node_TenantID n) = true /\ fk_opt (ssh_keys d) (node_SSHKeyID n) = true /\
  NoDup (node_Capabilities n).

Lemma update_node_stored n e : calm (pe_sql e) -> storable (sq_db (pe_sql e)) n ->
  exists row, nodes (sq_db (pe_sql (update_node o n e).2)) !! node_ID n = Some row /\ node_Status row = node_Status n.
Proof using Type.
  intros Hc ([old Hold] & Ht & Hk & Hnd). unfold update_node, ignore, db_now, mbind, stM_bind, now, db, sqlite_UpdateNode, sql_exec.
  unfold calm in Hc. unfold sq_fault. cbn. rewrite Hc. cbn. rewrite Hold, Ht, Hk. cbn. rewrite andb_false_r, bool_decide_true by done. cbn.
  eexists. rewrite lookup_insert_eq. by split.
Qed.

Lemma storable_kept d d' n n' : db_kept d d' -> same_row n n' \/ n' = set_node_Status (node_Status n') n -> storable d n -> storable d' n'.
Proof using Type.
  intros (_ & Hn & Ht & Hk) Hs (H1 & H2 & H3 & H4). unfold storable. rewrite Ht, Hk.
  destruct Hs as [(_ & -> & -> & -> & ->)| ->]; cbn; auto.
Qed.
End stored.

(** C7: a pipeline always runs to an end and reports it truthfully: the records of the
    job are, in order, of what the steps of its action returned, each executed on the
    node and in the state the steps before it left.  Either all steps were executed
    without an error, the job is completed and the node gets the status of the action;
    or the last one executed returned an error, the job is failed with that error, a
    rollback was executed and recorded exactly when an upgrade had reached its backup,
    and only an enrollment moves the node, to error.  If no statement fails and the job
    is stored, its row has that status, error and these records at the end; and so has
    the row of the node its status, where the run sets one and the node can be stored.
    (The run ignores the errors of its updates.) *)
Theorem runPipeline_outcome `{AEAD} o p job node e :
  let steps := PipelineFor (job_Action job) in
  let enrolls := bool_decide (job_Action job = ProvisionActionEnroll) in
  exists job' node' e' done rest rs rb n1 e1 e2, runPipeline o p job node steps e = (Ok (job', node'), e') /\
    steps = done ++ rest /\
    ran o p (job_running (o_clock o (pe_tick e)) job) (started_node (job_Action job) node) (started_env o job node e) done rs n1 e1 /\
    same_job job job' /\ job_Steps job' = Some (rs ++ rb) /\
    ((rest = [] /\ rb = [] /\ Forall succeeded rs /\ job_Status job' = ProvisionStatusCompleted /\
      node_Status node' = completion_status (job_Action job) (if enrolls then NodeStatusEnrolling else node_Status node)) \/
     (exists ok r err, rs = ok ++ [r] /\ Forall succeeded ok /\ sr_Error r = Some err /\
      job_Status job' = ProvisionStatusFailed /\ job_Error job' = Some (Wrapf ("step " +:+ sr_Step r +:+ " failed") err) /\
      rolled_back o p (job_Action job) done n1 e1 rb e2 /\
      node_Status node' = if enrolls then NodeStatusError else node_Status node)) /\
    ((forall gen id, p_wgConfigGen p = Some gen -> sql_respects rows_kept (gen id)) -> calm (pe_sql e) ->
     (is_Some (provisioning_jobs (sq_db (pe_sql e)) !! job_ID job) ->
      exists row, provisioning_jobs (sq_db (pe_sql e')) !! job_ID job = Some row /\
        job_Status row = job_Status job' /\ job_Steps row = job_Steps job' /\ job_Error row = job_Error job') /\
     (storable (sq_db (pe_sql e)) node -> job_Status job' = ProvisionStatusCompleted \/ enrolls = true ->
      exists row, nodes (sq_db (pe_sql e')) !! node_ID node = Some row /\ node_Status row = node_Status node')).
Proof.
  cbn zeta. destruct (runPipeline_ended o p job node (PipelineFor (job_Action job)) e (PipelineFor_nodup _))
    as (job' & node' & e' & done & rest & rs & rb & n1 & e1 & e2 & Hrun & [Hst Hran [Hsame Hsteps] Hcase]).
  exists job', node', e', done, rest, rs, rb, n1, e1, e2. do 5 (split; [first [exact Hrun|assumption]|]).
  cbn [job_Action job_running job_Error] in Hcase. pose proof (ran_same_row _ _ _ _ _ _ _ _ _ Hran) as Hrow.
  assert (Hstatus : node_Status n1 = if bool_decide (job_Action job = ProvisionActionEnroll) then NodeStatusEnrolling else node_Status node).
  { rewrite (proj1 Hrow). unfold started_node. by case_bool_decide. }
  split.
  { destruct Hcase as [(-> & -> & _ & Hall & Hj & _ & -> & _)|(ok & r & err & -> & Hall & Hr & Hj & He & Hback & -> & _)].
    - left. split_and!; try done. cbn. by rewrite Hstatus.
    - right. exists ok, r, err. split_and!; try done. case_bool_decide; [done|exact Hstatus]. }
  intros Hgen Hc. assert (Hk : env_rows_kept e (next e2)).
  { transitivity (started_env o job node e); [exact (started_env_rows o job node e)|].
    transitivity e1; [exact (ran_rows o p Hgen _ _ _ _ _ _ _ Hran)|]. transitivity e2; [|exact (next_rows e2)].
    destruct Hcase as [(_ & _ & -> & _)|(ok & r & err & _ & _ & _ & _ & _ & Hback & _)]; [reflexivity|exact (rolled_back_rows o p Hgen _ _ _ _ _ _ Hback)]. }
  destruct Hsame as (Hid & _ & _). cbn in Hid. destruct Hk as (Hcalm & Hfk & Hkept). specialize (Hcalm Hc). split.
  - intros Hj. rewrite <- Hid. rewrite <- Hid in Hj. destruct (update_job_stored o job' (next e2) Hcalm (proj1 Hkept _ Hj)) as (row & Hr & Heq).
    exists row. split; [|exact Heq]. rewrite <- Hr.
    destruct Hcase as [(_ & _ & _ & _ & _ & _ & _ & ->)|(? & ? & ? & _ & _ & _ & _ & _ & _ & _ & ->)]; [apply f_equal2; [done|apply update_node_jobs]|].
    case_bool_decide; [apply f_equal2; [done|apply update_node_jobs]|done].
  - intros Hn Hset. assert (Hs1 : storable (sq_db (pe_sql (update_job o job' (next e2)).2)) n1).
    { eapply storable_kept; [exact (proj2 (proj2 (update_job_rows o job' (next e2))))|left; by split_and!|].
      eapply storable_kept; [exact Hkept|left; exact Hrow|]. eapply storable_kept; [| |exact Hn]; [by split_and!|].
      right. unfold started_node. by case_bool_decide; destruct node. }
    assert (Hc1 : calm (pe_sql (update_job o job' (next e2)).2)) by (apply (update_job_rows o job' (next e2)), Hcalm).
    assert (Hup : e' = (update_node o node' (update_job o job' (next e2)).2).2 /\ node' = set_node_Status (node_Status node') n1).
    { destruct Hcase as [(_ & _ & _ & _ & _ & _ & -> & ->)|(? & ? & ? & _ & _ & _ & Hf & _ & _ & -> & ->)]; [done|].
      case_bool_decide; [done|]. destruct Hset as [Hset|Hset]; [rewrite Hf in Hset; discriminate Hset|discriminate Hset]. }
    destruct Hup as [-> Hn']. assert (Hid' : node_ID node' = node_ID node).
    { rewrite Hn'. cbn. rewrite (proj1 (proj2 Hrow)). unfold started_node. by case_bool_decide. }
    rewrite <- Hid'. apply update_node_stored; [exact Hc1|]. eapply storable_kept; [|right; exact Hn'|exact Hs1]. by split_and!.
Qed.

(** ** What is sent to a node *)

(** The trace grows by actions that satisfy [ok]. *)
Definition sends_only (ok : remote -> Prop) (e e' : PEnv) : Prop :=
  exists ext, pe_trace e' = pe_trace e ++ ext /\ Forall ok ext.

#[export] Instance sends_only_frame ok : Frame (sends_only ok) (fun _ _ => True) ok.
Proof.
  split.
  - split.
    + intros e. exists []. by rewrite app_nil_r.
    + intros e1 e2 e3 (x1 & H1 & F1) (x2 & H2 & F2). exists (x1 ++ x2).
      rewrite H2, H1, app_assoc. split; [done|by apply Forall_app].
  - intros e. exists []. cbn. by rewrite app_nil_r.
  - intros e s _. exists []. cbn. by rewrite app_nil_r.
  - intros e r Hr. exists [r]. cbn. split; [done|by constructor].
Qed.

#[export] Instance any_db_frame : DbFrame (fun _ _ => True).
Proof. by repeat split. Qed.

(** An upload elsewhere than to the installed binary, or a command other than the
    two that move a file onto it. *)
Definition leaves_binary (r : remote) : Prop :=
  match r with
  | RConnect _ => True
  | RUpload path _ _ => path = remoteBinaryStaging
  | RRun cmd => cmd <> cmd_swap /\ cmd <> cmd_rollback
  end.

Lemma enroll_step_leaves_binary step r : step ∈ enroll_pipeline -> step_sends step r -> leaves_binary r.
Proof.
  intros Hin Hs. destruct r as [t|cmd|path size mode]; [done| |by destruct Hs].
  assert (Hno : step <> StepAtomicSwap /\ step <> StepRollback /\ step <> StepSendCommand /\
                step <> StepCleanup /\ step <> StepBackupBinary /\ step <> StepStopService).
  { unfold enroll_pipeline in Hin. repeat (apply elem_of_cons in Hin as [->|Hin]; [by split_and!|]).
    by apply elem_of_nil in Hin. }
  destruct Hno as (H1 & H2 & H3 & H4 & H5 & H6). cbn [step_sends] in Hs.
  repeat match type of Hs with _ \/ _ => destruct Hs as [[He Hc]|Hs] | _ /\ _ => destruct Hs as [He Hc] end;
    try contradiction;
    repeat match type of Hc with _ \/ _ => destruct Hc as [Hc|Hc] | ex _ => destruct Hc as [? Hc] end;
    rewrite Hc; by split.
Qed.

(** Enrolling or reprovisioning a node never installs the agent: whatever the
    node answers, the binary is only ever uploaded to the staging path, and no
    command moves it (or a backup) to the path the service unit starts. *)
Theorem enroll_never_installs_binary `{AEAD} o p job node e r e' :
  job_Action job = ProvisionActionEnroll \/ job_Action job = ProvisionActionReprovision ->
  runPipeline o p job node (PipelineFor (job_Action job)) e = (r, e') ->
  (exists ext, pe_trace e' = pe_trace e ++ ext /\ Forall leaves_binary ext) /\
  Contains GenerateSystemdUnit ("ExecStart=" +:+ remoteBinaryPath +:+ " ") = true.
Proof.
  intros Ha Hrun. split; [|vm_compute; reflexivity].
  assert (Hp : PipelineFor (job_Action job) = enroll_pipeline) by (destruct Ha as [-> | ->]; reflexivity).
  rewrite Hp in Hrun. eapply (resp_runPipeline (sends_only leaves_binary) (fun _ _ => True) leaves_binary); [..|exact Hrun].
  - by intros.
  - done.
  - apply enroll_step_leaves_binary.
  - intros Hu. rewrite Hu in Ha. by destruct Ha.
Qed.

(** ** Completed runs *)

(** In a run that completes, every step was executed successfully in some state
    reached from the start. *)
Lemma run_steps_completed `{AEAD} o p (R : relation PEnv) `{!PreOrder R} steps remaining :
  (forall step job node, step ∈ remaining -> respects R (executeStep o p step job node)) ->
  (forall j, respects R (update_job o j)) -> respects R (now o) ->
  forall results job node e job' node' e',
  run_steps o p steps remaining results job node e = (Ok (job', node'), e') ->
  job_Status job' = ProvisionStatusCompleted ->
  forall step, step ∈ remaining -> exists job1 node1 e1 out node2 e2,
    R e e1 /\ node_TenantID node1 = node_TenantID node /\ node_ID node1 = node_ID node /\
    executeStep o p step job1 node1 e1 = (Ok ((out, None), node2), e2).
Proof.
  intros Hex Hupd Hnow. induction remaining as [|s remaining IH];
    intros results job node e job' node' e' Hrun Hst step Hin; [by apply elem_of_nil in Hin|].
  cbn [run_steps] in Hrun. cbn zeta in Hrun.
  apply bind_Ok in Hrun as (u & e1 & He1 & Hrun). apply bind_Ok in Hrun as (t & e2 & He2 & Hrun).
  apply bind_Ok in Hrun as ([[out err] node1] & e3 & He3 & Hrun).
  apply bind_Ok in Hrun as (d & e4 & He4 & Hrun). cbn [fst snd] in Hrun.
  assert (HR : R e e2) by (etrans; [exact (Hupd _ _ _ _ He1)|exact (Hnow _ _ _ He2)]).
  destruct (executeStep_spec o p s (job_at_step s results job) node e2)
    as (out' & node1' & e3' & Hspec & _ & Hid & Hten & _).
  rewrite Hspec in He3. simplify_eq.
  destruct err as [err|].
  - exfalso. unfold fail_pipeline in Hrun. apply bind_Ok in Hrun as (rb & e5 & _ & Hrun).
    apply bind_Ok in Hrun as (t' & e6 & _ & Hrun). cbn zeta in Hrun.
    apply bind_Ok in Hrun as (u' & e7 & _ & Hrun).
    case_bool_decide; [apply bind_Ok in Hrun as (u'' & e8 & _ & Hrun)|];
      apply ret_Ok in Hrun as [Hr _]; simplify_eq; discriminate Hst.
  - apply elem_of_cons in Hin as [->|Hin].
    + by exists (job_at_step s results job), node, e2, out, node1, e3.
    + assert (HR4 : R e e4).
      { etrans; [exact HR|]. etrans; [eapply Hex; [left|exact Hspec]|].
        unfold millis_since in He4. apply bind_Ok in He4 as (t' & e5 & Ht & Hret).
        apply ret_Ok in Hret as [_ ->]. exact (Hnow _ _ _ Ht). }
      destruct (IH (fun s' j n Hs' => Hex s' j n (list_elem_of_further _ _ _ Hs')) _ _ _ _ _ _ _ Hrun Hst step Hin)
        as (j1 & n1 & e5 & o1 & n2 & e6 & HR5 & Ht5 & Hi5 & Hx5).
      exists j1, n1, e5, o1, n2, e6. split_and!; [by etrans|congruence|congruence|done].
Qed.

(** ** Nodes without a tenant *)

Definition tenants_kept (s s' : SqlState) : Prop :=
  sq_fk s' = sq_fk s /\ tenants (sq_db s') = tenants (sq_db s).
Definition env_tenants_kept (e e' : PEnv) : Prop := tenants_kept (pe_sql e) (pe_sql e').

Lemma sql_exec_kept {A} msg (f : DB -> result A * DB) :
  (forall d r d', f d = (r, d') -> tenants d' = tenants d) -> sql_respects tenants_kept (sql_exec msg f).
Proof.
  intros Hf s r s'. unfold sql_exec. destruct (sq_fault s); [by intros [= _ <-]|].
  destruct (f (sq_db s)) as [x d] eqn:E. intros [= _ <-]. split; [done|]. exact (Hf _ _ _ E).
Qed.

Lemma sql_insert_kept {A} msg dup ex fks put (v : A) :
  (forall d, tenants (put d) = tenants d) -> sql_respects tenants_kept (sql_insert msg dup ex fks put v).
Proof.
  intros Hp s r s'. unfold sql_insert. apply sql_exec_kept. intros d x d'.
  repeat case_match; intros [= _ <-]; auto.
Qed.

Lemma sql_update_kept {A} msg ex fks put (v : A) :
  (forall d, tenants (put d) = tenants d) -> sql_respects tenants_kept (sql_update msg ex fks put v).
Proof.
  intros Hp s r s'. unfold sql_update. apply sql_exec_kept. intros d x d'.
  repeat case_match; intros [= _ <-]; auto.
Qed.

#[export] Instance tenants_kept_frame : DbFrame tenants_kept.
Proof.
  split; try (intros; first [by apply sql_insert_kept|by apply sql_update_kept]).
  - split; [by intros s|]. intros s1 s2 s3 [? ?] [? ?]. split; congruence.
  - intros s s' Hd Hf _. split; [done|by rewrite Hd].
  - intros t pr. apply sql_exec_kept. intros d r d'. repeat case_match; by intros [= _ <-].
  - intros t n s r s'. unfold sqlite_UpdateNode. apply sql_exec_kept. intros d x d'.
    repeat case_match; by intros [= _ <-].
Qed.

#[export] Instance env_tenants_kept_frame : Frame env_tenants_kept tenants_kept (fun _ => True).
Proof.
  split; try done. split; [by intros e|].
  intros e1 e2 e3. unfold env_tenants_kept. apply (transitivity (R := tenants_kept)).
Qed.

Section tenantless.
Context `{AEAD} (o : Outside) (p : DefaultProvisioner).
Context (Hgen : forall gen id, p_wgConfigGen p = Some gen -> sql_respects tenants_kept (gen id)).

Lemma create_token_no_tenant t tok s r s' :
  sq_fk s = true -> tenants (sq_db s) !! etok_TenantID tok = None ->
  sqlite_CreateEnrollmentToken t tok s = (r, s') -> exists err, r = Err err.
Proof.
  intros Hfk Hno Hrun. apply sql_insert_inv in Hrun. destruct r as [a|err]; [|by eexists].
  destruct Hrun as (_ & _ & Hfks & _). specialize (Hfks Hfk). unfold has_key in Hfks.
  rewrite Hno in Hfks. discriminate Hfks.
Qed.

Lemma write_config_no_tenant node e out err e' :
  sq_fk (pe_sql e) = true -> tenants (sq_db (pe_sql e)) !! ZeroID = None -> node_TenantID node = None ->
  stepWriteConfig o p node e = (Ok (out, err), e') -> err <> None.
Proof using Hgen.
  intros Hfk Hno Hten. unfold stepWriteConfig, attempt at 1.
  destruct (connectToNode o p node e) as [[u|ce] e1] eqn:Hc; [|by intros [= _ <- _]].
  apply (resp_connectToNode env_tenants_kept tenants_kept (fun _ => True)) in Hc as [Hfk1 Hten1]; [|done..].
  rewrite Hten. cbn [from_option id default]. unfold attempt at 1.
  destruct (wrap _ _ e1) as [[tok|te] e2] eqn:Hg; [|by intros [= _ <- _]]. exfalso.
  apply wrap_Ok in Hg. unfold GenerateEnrollmentToken in Hg.
  apply bind_Ok in Hg as (b & e3 & Hb & Hg). apply bind_Ok in Hg as (ts & e4 & Hts & Hg).
  apply bind_Ok in Hg as (id & e5 & Hid & Hg). apply bind_Ok in Hg as (t & e6 & Ht & Hg).
  apply wrap_Ok in Hg. unfold db_now in Hg. apply bind_Ok in Hg as (t' & e7 & Ht' & Hg).
  assert (He7 : pe_sql e7 = pe_sql e1).
  { apply wrap_Ok, lift_Ok in Hts as [_ ->]. unfold rand in Hb. unfold NewID in Hid. unfold now in Ht, Ht'.
    simplify_eq. done. }
  unfold db in Hg. destruct (sqlite_CreateEnrollmentToken _ _ _) as [r s] eqn:Hcr.
  apply create_token_no_tenant in Hcr as [err' ->]; [done|..]; rewrite He7; [congruence|].
  cbn. by rewrite Hten1.
Qed.
End tenantless.

(** With foreign keys enforced, enrolling or reprovisioning a node that has no
    tenant always fails: its enrollment token is stored under the zero tenant,
    which no row has. *)
Theorem tenantless_enroll_fails `{AEAD} o p job node e :
  job_Action job = ProvisionActionEnroll \/ job_Action job = ProvisionActionReprovision ->
  sq_fk (pe_sql e) = true -> tenants (sq_db (pe_sql e)) !! ZeroID = None -> node_TenantID node = None ->
  (forall gen id, p_wgConfigGen p = Some gen -> sql_respects tenants_kept (gen id)) ->
  exists job' node' e', runPipeline o p job node (PipelineFor (job_Action job)) e = (Ok (job', node'), e') /\
    job_Status job' = ProvisionStatusFailed.
Proof.
  intros Ha Hfk Hno Hten Hgen.
  assert (Hp : PipelineFor (job_Action job) = enroll_pipeline) by (destruct Ha as [-> | ->]; reflexivity).
  assert (Hex : forall step j n, respects env_tenants_kept (executeStep o p step j n)).
  { intros step j n. by apply (resp_executeStep env_tenants_kept tenants_kept (fun _ => True)). }
  assert (Hup : forall j, respects env_tenants_kept (update_job o j)).
  { intros j. by apply (resp_update_job env_tenants_kept tenants_kept (fun _ => True) o p). }
  assert (Hun : forall n, respects env_tenants_kept (update_node o n)).
  { intros n. by apply (resp_update_node env_tenants_kept tenants_kept (fun _ => True) o p). }
  assert (Hnow : respects env_tenants_kept (now o)) by (by eapply resp_now, env_tenants_kept_frame).
  assert (Hsteps : forall j n e1 j' n' e', run_steps o p enroll_pipeline enroll_pipeline [] j n e1 = (Ok (j', n'), e') ->
    env_tenants_kept e e1 -> node_TenantID n = None -> job_Status j' <> ProvisionStatusCompleted).
  { intros j n e1 j' n' e' Hrun [Hk1 Hk2] Hn Hc.
    destruct (run_steps_completed o p env_tenants_kept enroll_pipeline enroll_pipeline (fun s j0 n0 _ => Hex s j0 n0)
                Hup Hnow _ _ _ _ _ _ _ Hrun Hc StepWriteConfig) as (j1 & n1 & e2 & out & n2 & e3 & [Hk3 Hk4] & Ht & _ & Hx).
    { apply (bool_decide_unpack _). vm_compute. exact I. }
    change (executeStep o p StepWriteConfig j1 n1 e2) with (same_node n1 (stepWriteConfig o p n1) e2) in Hx.
    unfold same_node in Hx. apply bind_Ok in Hx as ([out' err] & e4 & Hx & Hret).
    apply ret_Ok in Hret as [Hret _]. simplify_eq.
    eapply (write_config_no_tenant o p Hgen n2); [..|exact Hx|reflexivity]; congruence. }
  destruct (runPipeline_runs o p job node (PipelineFor (job_Action job)) e (PipelineFor_nodup _))
    as (job' & node' & e' & j1 & n1 & e1 & Hrun & Hsub & HR & Hn1 & Hst).
  exists job', node', e'. split; [done|]. destruct Hst as [Hc|Hf]; [|done]. exfalso.
  rewrite Hp in Hsub. eapply Hsteps; [exact Hsub| |congruence|exact Hc].
  apply (HR env_tenants_kept); [apply _|done..].
Qed.

(** ** Witnesses *)

Definition sample_job (action : string) : ProvisioningJob :=
  mkProvisioningJob 200 5 (Some 7%N) action ProvisionStatusPending "" None None 9 None None 0 0.

Lemma enroll_never_installs_binary_witness :
  (exists ext, pe_trace (runPipeline sample_outside sample_provisioner (sample_job ProvisionActionEnroll)
      (sample_node 5 (Some 7%N) NodeStatusPending) enroll_pipeline sample_env).2 = [] ++ ext /\
    Forall leaves_binary ext) /\
  Contains GenerateSystemdUnit ("ExecStart=" +:+ remoteBinaryPath +:+ " ") = true.
Proof.
  destruct (runPipeline sample_outside sample_provisioner (sample_job ProvisionActionEnroll)
      (sample_node 5 (Some 7%N) NodeStatusPending) enroll_pipeline sample_env) as [r e'] eqn:E.
  exact (enroll_never_installs_binary sample_outside sample_provisioner (sample_job ProvisionActionEnroll)
           (sample_node 5 (Some 7%N) NodeStatusPending) sample_env r e' (or_introl eq_refl) E).
Defined.

Lemma tenantless_enroll_fails_witness :
  exists job' node' e', runPipeline sample_outside sample_provisioner (sample_job ProvisionActionEnroll)
      (sample_node 6 None NodeStatusPending) enroll_pipeline sample_env = (Ok (job', node'), e') /\
    job_Status job' = ProvisionStatusFailed.
Proof.
  apply (tenantless_enroll_fails sample_outside sample_provisioner (sample_job ProvisionActionEnroll)
           (sample_node 6 None NodeStatusPending) sample_env).
  - left. reflexivity.
  - reflexivity.
  - vm_compute. reflexivity.
  - reflexivity.
  - intros gen id Hg. discriminate Hg.
Defined.

Definition job_env : PEnv :=
  mkPEnv (mkSql (upd_provisioning_jobs (<[200%N := sample_job ProvisionActionEnroll]>) sample_db) true []) [] 0.

Lemma runPipeline_outcome_witness :
  exists job' node' e' row nrow, runPipeline sample_outside sample_provisioner (sample_job ProvisionActionEnroll)
      (sample_node 5 (Some 7%N) NodeStatusPending) enroll_pipeline job_env = (Ok (job', node'), e') /\
    provisioning_jobs (sq_db (pe_sql e')) !! 200%N = Some row /\ job_Status row = job_Status job' /\ job_Steps row = job_Steps job' /\
    nodes (sq_db (pe_sql e')) !! 5%N = Some nrow /\ node_Status nrow = node_Status node'.
Proof.
  destruct (runPipeline_outcome sample_outside sample_provisioner (sample_job ProvisionActionEnroll)
              (sample_node 5 (Some 7%N) NodeStatusPending) job_env)
    as (job' & node' & e' & done & rest & rs & rb & n1 & e1 & e2 & Hrun & _ & _ & _ & _ & _ & Hstored).
  destruct Hstored as [Hjob Hnode].
  - intros gen id Hg. discriminate Hg.
  - reflexivity.
  - destruct Hjob as (row & Hr & Hs & Hst & _); [vm_compute; eauto|].
    destruct Hnode as (nrow & Hn & Hns).
    + split_and!; [vm_compute; eauto|vm_compute; reflexivity..|]. apply (bool_decide_unpack _). vm_compute. exact I.
    + right. reflexivity.
    + exists job', node', e', row, nrow. split; [exact Hrun|]. split; [exact Hr|]. split; [exact Hs|]. split; [exact Hst|]. split; [exact Hn|exact Hns].
Defined.
