(* ===== verification/EnrollTheorems.v ===== *)
(** * Enrollment tokens and the start of actions: theorems *)

From Stdlib Require Import ZArith Lia Ascii String.
From S2P Require Import Prelude GoStrings GoNet GoBase64 Secrets Domain Storage StoreFleet StoreProvision Overlay Provisioner.
From S2P Require Import ProvisionFrame.

Open Scope Z_scope.

(** ** The token table only moves forward *)

Definition tokens_wf (d : DB) : Prop :=
  (forall id t, enrollment_tokens d !! id = Some t -> etok_ID t = id) /\
  (forall id1 id2 t1 t2, enrollment_tokens d !! id1 = Some t1 -> enrollment_tokens d !! id2 = Some t2 ->
     etok_Token t1 = etok_Token t2 -> id1 = id2).

Definition tokens_forward (d d' : DB) : Prop :=
  (tokens_wf d -> tokens_wf d') /\
  forall id t, enrollment_tokens d !! id = Some t ->
    exists t', enrollment_tokens d' !! id = Some t' /\ etok_Token t' = etok_Token t /\
      (is_Some (etok_UsedAt t) -> is_Some (etok_UsedAt t')).

Definition sql_forward (s s' : SqlState) : Prop := tokens_forward (sq_db s) (sq_db s').
Definition env_forward (e e' : PEnv) : Prop := sql_forward (pe_sql e) (pe_sql e').

Lemma tokens_forward_same d d' : enrollment_tokens d' = enrollment_tokens d -> tokens_forward d d'.
Proof. intros Heq. unfold tokens_forward, tokens_wf. rewrite Heq. split; [done|]. eauto. Qed.

#[export] Instance tokens_forward_pre : PreOrder tokens_forward.
Proof.
  split; [intros d; by apply tokens_forward_same|].
  intros d1 d2 d3 [W1 F1] [W2 F2]. split; [tauto|]. intros id t Ht.
  destruct (F1 id t Ht) as (t2 & H2 & E2 & U2). destruct (F2 id t2 H2) as (t3 & H3 & E3 & U3).
  exists t3. split_and!; [done|congruence|tauto].
Qed.

Lemma sql_exec_forward {A} msg (f : DB -> result A * DB) :
  (forall d r d', f d = (r, d') -> tokens_forward d d') -> sql_respects sql_forward (sql_exec msg f).
Proof.
  intros Hf s r s'. unfold sql_exec, sql_forward. destruct (sq_fault s); [by intros [= _ <-]|].
  destruct (f (sq_db s)) as [x d] eqn:E. intros [= _ <-]. exact (Hf _ _ _ E).
Qed.

(** An insertion or update whose effect on the tables is forward when its row
    condition holds. *)
Lemma sql_insert_forward {A} msg dup ex fks put (v : A) :
  (forall d, ex d = false -> tokens_forward d (put d)) -> sql_respects sql_forward (sql_insert msg dup ex fks put v).
Proof.
  intros Hp s r s'. unfold sql_insert. apply sql_exec_forward. intros d x d'.
  destruct (ex d) eqn:E; [by intros [= _ <-]|]. destruct (_ && _); intros [= _ <-]; auto. reflexivity.
Qed.
Lemma sql_update_forward {A} msg ex fks put (v : A) :
  (forall d, ex d = true -> tokens_forward d (put d)) -> sql_respects sql_forward (sql_update msg ex fks put v).
Proof.
  intros Hp s r s'. unfold sql_update. apply sql_exec_forward. intros d x d'.
  destruct (ex d) eqn:E; cbn [negb]; [|by intros [= _ <-]].
  destruct (_ && _); intros [= _ <-]; auto. reflexivity.
Qed.

Lemma create_token_forward now tok d :
  has_key (enrollment_tokens d) (etok_ID tok) ||
    existsb (fun t' => bool_decide (etok_Token t' = etok_Token tok)) (rows_of (enrollment_tokens d)) = false ->
  tokens_forward d (upd_enrollment_tokens (fun m => <[etok_ID tok := new_token now tok]> m) d).
Proof.
  intros [Hk Hu]%orb_false_iff. unfold has_key in Hk. apply bool_decide_eq_false in Hk.
  apply eq_None_not_Some in Hk.
  assert (Hfresh : forall id t, enrollment_tokens d !! id = Some t -> etok_Token t <> etok_Token tok).
  { intros id t Ht. eapply existsb_false in Hu; [by apply bool_decide_eq_false in Hu|].
    apply elem_of_rows. by exists id. }
  split.
  - intros [W1 W2]. split; cbn.
    + intros id t [[<- <-]|[_ Ht]]%lookup_insert_Some; [done|eauto].
    + intros id1 id2 t1 t2 [[<- <-]|[N1 H1]]%lookup_insert_Some [[<- <-]|[N2 H2]]%lookup_insert_Some He;
        [done| | |by eapply W2].
      * exfalso. eapply Hfresh; [exact H2|by symmetry].
      * exfalso. by eapply Hfresh; [exact H1|].
  - intros id t Ht. exists t. split_and!; try done. cbn. rewrite lookup_insert_ne; [done|]. congruence.
Qed.

Lemma mark_used_forward now id d : tokens_forward d (upd_enrollment_tokens (alter (set_used now) id) d).
Proof.
  assert (Hl : forall id' t', alter (set_used now) id (enrollment_tokens d) !! id' = Some t' ->
    exists t, enrollment_tokens d !! id' = Some t /\ etok_Token t' = etok_Token t /\ etok_ID t' = etok_ID t).
  { intros id' t'. destruct (decide (id = id')) as [->|Hne].
    - rewrite lookup_alter_eq. intros (t & Ht & ->)%fmap_Some. eauto.
    - rewrite lookup_alter_ne by done. eauto. }
  split.
  - intros [W1 W2]. split; cbn.
    + intros id' t' (t & Ht & _ & ->)%Hl. eauto.
    + intros i1 i2 t1 t2 (u1 & H1 & E1 & _)%Hl (u2 & H2 & E2 & _)%Hl He. eapply W2; [done..|congruence].
  - intros id' t Ht. destruct (decide (id = id')) as [->|Hne].
    + exists (set_used now t). cbn. rewrite lookup_alter_eq, Ht. split_and!; [done|done|by eexists].
    + exists t. cbn. by rewrite lookup_alter_ne.
Qed.

#[export] Instance sql_forward_frame : DbFrame sql_forward.
Proof.
  split.
  - split; [intros s; unfold sql_forward; reflexivity|].
    intros s1 s2 s3. unfold sql_forward. apply transitivity.
  - intros s s' Hd _ _. unfold sql_forward. by rewrite Hd.
  - intros t tok. apply sql_insert_forward. intros d Hd. by apply create_token_forward.
  - intros t id. apply sql_update_forward. intros d _. apply mark_used_forward.
  - intros t pr. apply sql_exec_forward. intros d r d'. repeat case_match; intros [= _ <-]; by apply tokens_forward_same.
  - intros id. apply sql_update_forward. intros d _. by apply tokens_forward_same.
  - intros t n s r s'. unfold sqlite_UpdateNode. apply sql_exec_forward. intros d x d'.
    repeat case_match; intros [= _ <-]; by apply tokens_forward_same.
  - intros t j. apply sql_insert_forward. intros d _. by apply tokens_forward_same.
  - intros t j. apply sql_update_forward. intros d _. by apply tokens_forward_same.
Qed.

#[export] Instance env_forward_frame : Frame env_forward sql_forward (fun _ => True).
Proof.
  split; try (intros; unfold env_forward; reflexivity); [|done].
  split; [intros e; unfold env_forward; reflexivity|].
  intros e1 e2 e3. unfold env_forward. apply (transitivity (R := sql_forward)).
Qed.

(** ** Single use *)

Definition token_used (tok : string) (d : DB) : Prop :=
  exists id t, enrollment_tokens d !! id = Some t /\ etok_Token t = tok /\ is_Some (etok_UsedAt t).

Lemma token_used_forward tok d d' : tokens_forward d d' -> token_used tok d -> token_used tok d'.
Proof.
  intros [_ F] (id & t & Ht & He & Hu). destruct (F id t Ht) as (t' & H' & E' & U').
  exists id, t'. split_and!; [done|congruence|auto].
Qed.

Inductive prov_op :=
| PComplete (tok : string)
| PToken (tenantID targetID : ID)
| PPerform (nodeID initiatedBy : ID) (action : string).

Section runs.
Context `{AEAD} (o : Outside) (p : DefaultProvisioner).
Context (Hgen : forall gen id, p_wgConfigGen p = Some gen -> sql_respects sql_forward (gen id)).

Definition run_prov (op : prov_op) (e : PEnv) : PEnv :=
  match op with
  | PComplete tok => (CompleteEnrollment o p tok e).2
  | PToken tenant target => (GenerateEnrollmentToken o tenant target e).2
  | PPerform n b a => (perform o p n b a e).2
  end.

Lemma run_prov_forward ops e : env_forward e (foldl (flip run_prov) e ops).
Proof using Hgen.
  revert e. induction ops as [|op ops IH]; intros e; cbn [foldl]; [by apply tokens_forward_same|].
  etrans; [|apply IH]. unfold flip. destruct op as [tok|tenant target|n b a]; cbn [run_prov].
  - destruct (CompleteEnrollment o p tok e) as [r e'] eqn:E.
    eapply (resp_CompleteEnrollment env_forward sql_forward (fun _ => True)); exact E.
  - destruct (GenerateEnrollmentToken o tenant target e) as [r e'] eqn:E.
    eapply (resp_GenerateEnrollmentToken env_forward sql_forward (fun _ => True)); exact E.
  - destruct (perform o p n b a e) as [r e'] eqn:E.
    eapply (resp_perform env_forward sql_forward (fun _ => True) o p); [done..|exact E].
Qed.

(** What a validated token is. *)
Lemma ValidateEnrollmentToken_row tok e t e' :
  ValidateEnrollmentToken o tok e = (Ok t, e') ->
  (exists id, enrollment_tokens (sq_db (pe_sql e)) !! id = Some t) /\ etok_Token t = tok /\ etok_UsedAt t = None /\
  sq_db (pe_sql e') = sq_db (pe_sql e) /\ o_clock o (pe_tick e) <= etok_ExpiresAt t.
Proof.
  intros Hrun. unfold ValidateEnrollmentToken in Hrun.
  apply bind_Ok in Hrun as (t0 & e1 & H1 & Hrun). apply bind_Ok in Hrun as (u & e2 & H2 & Hrun).
  apply bind_Ok in Hrun as (tm & e3 & H3 & Hrun). apply bind_Ok in Hrun as (u' & e4 & H4 & Hrun).
  apply ret_Ok in Hrun as [-> ->]. apply lift_Ok in H2 as [H2 ->]. apply lift_Ok in H4 as [H4 ->].
  apply guard_Ok in H2, H4. apply bool_decide_eq_true in H2. apply wrap_Ok in H1.
  unfold db, sqlite_GetEnrollmentToken in H1.
  destruct (sql_query _ _ (pe_sql e)) as [r s] eqn:Hq. simplify_eq.
  apply sql_query_ok in Hq as [Hdb Hq]. unfold now in H3. simplify_eq. cbn in *.
  destruct (filter _ _) as [|t1 ts] eqn:Hf; simplify_eq.
  assert (Hin : t ∈ filter (fun t => etok_Token t = tok) (rows_of (enrollment_tokens (sq_db (pe_sql e))))).
  { rewrite Hf. left. }
  apply list_elem_of_filter in Hin as [Htok Hin]. apply elem_of_rows in Hin as [id Hid].
  split_and!; try done; [by exists id|]. apply negb_true_iff, Z.ltb_ge in H4. lia.
Qed.

(** Checking a token changes nothing. *)
Definition same_db : relation PEnv := fun a b => sq_db (pe_sql b) = sq_db (pe_sql a).
#[export] Instance same_db_preorder : PreOrder same_db.
Proof. split; [done|]. intros a b c Hab Hbc. unfold same_db in *. congruence. Qed.
Lemma ValidateEnrollmentToken_db tok : respects same_db (ValidateEnrollmentToken o tok).
Proof.
  assert (Hnow : respects same_db (now o)) by (by intros e r e' [= _ <-]).
  assert (Hget : respects same_db (db (sqlite_GetEnrollmentToken tok))).
  { intros e r e'. unfold db. destruct (sqlite_GetEnrollmentToken tok (pe_sql e)) as [x s] eqn:E. intros [= _ <-].
    by apply sql_query_inv in E as [? _]. }
  unfold ValidateEnrollmentToken. eauto 10 with frame.
Qed.

Lemma ValidateEnrollmentToken_ok tok e t e' :
  tokens_wf (sq_db (pe_sql e)) -> ValidateEnrollmentToken o tok e = (Ok t, e') ->
  enrollment_tokens (sq_db (pe_sql e)) !! etok_ID t = Some t /\ etok_Token t = tok /\ etok_UsedAt t = None /\
  sq_db (pe_sql e') = sq_db (pe_sql e) /\ o_clock o (pe_tick e) <= etok_ExpiresAt t.
Proof.
  intros [W1 _] ([id Hid] & ? & ? & ? & ?)%ValidateEnrollmentToken_row. by rewrite (W1 id t Hid) in *.
Qed.

Lemma CompleteEnrollment_marks tok e r e' :
  tokens_wf (sq_db (pe_sql e)) -> CompleteEnrollment o p tok e = (Ok r, e') ->
  token_used tok (sq_db (pe_sql e')) /\ tokens_wf (sq_db (pe_sql e')) /\
  exists t, enrollment_tokens (sq_db (pe_sql e)) !! etok_ID t = Some t /\ etok_Token t = tok /\
    etok_UsedAt t = None /\ o_clock o (pe_tick e) <= etok_ExpiresAt t.
Proof using Hgen.
  intros Hwf Hrun.
  assert (Hfw : env_forward e e').
  { eapply (resp_CompleteEnrollment env_forward sql_forward (fun _ => True)); exact Hrun. }
  split; [|split; [by apply Hfw|]].
  all: unfold CompleteEnrollment in Hrun; apply bind_Ok in Hrun as (t & e1 & H1 & Hrun);
    apply ValidateEnrollmentToken_ok in H1 as (Ht & Htok & Hunused & Hdb1 & Hexp); [|done].
  2: { by exists t. }
  apply bind_Ok in Hrun as (n & e2 & H2 & Hrun). apply bind_Ok in Hrun as (ex & e3 & H3 & Hrun).
  apply bind_Ok in Hrun as (n' & e4 & H4 & Hrun). apply bind_Ok in Hrun as (u & e5 & H5 & Hrun).
  apply bind_Ok in Hrun as (u' & e6 & H6 & Hrun). apply ret_Ok in Hrun as [_ ->].
  assert (F14 : env_forward e1 e4).
  { assert (F2 : env_forward e1 e2).
    { apply wrap_Ok in H2. eapply (resp_db env_forward sql_forward (fun _ => True)); [|exact H2].
      apply sql_respects_query. apply _. }
    assert (F3 : env_forward e2 e3).
    { unfold try in H3. destruct (db _ e2) as [x e0] eqn:E. simplify_eq.
      eapply (resp_db env_forward sql_forward (fun _ => True)); [|exact E]. apply sql_respects_query. apply _. }
    etrans; [exact F2|]. etrans; [exact F3|]. destruct ex as [?|[]]; try by apply throw_Ok in H4.
    - apply ret_Ok in H4 as [_ ->]. reflexivity.
    - apply bind_Ok in H4 as (ips & e0 & H4 & Hr). apply ret_Ok in Hr as [_ ->].
      eapply (resp_assign_peer env_forward sql_forward (fun _ => True)); [done..|exact H4]. }
  assert (F56 : env_forward e5 e6).
  { apply wrap_Ok in H6. eapply (resp_db_now env_forward sql_forward (fun _ => True)); [|exact H6].
    intros tm. apply df_node. }
  apply (token_used_forward tok _ _ F56). apply wrap_Ok in H5.
  unfold db_now in H5. apply bind_Ok in H5 as (tm & e7 & H7 & H5). unfold now in H7. simplify_eq.
  unfold db in H5. destruct (sqlite_MarkEnrollmentTokenUsed _ _ _) as [x s] eqn:Hm. simplify_eq.
  apply sql_update_inv in Hm as (_ & _ & Hput). cbn in Hput |- *.
  destruct F14 as [_ F14]. unfold sql_forward in F14. rewrite Hdb1 in F14.
  destruct (F14 _ _ Ht) as (t4 & Ht4 & Et4 & _). exists (etok_ID t), (set_used (o_clock o (pe_tick e4)) t4).
  rewrite Hput. cbn. rewrite lookup_alter_eq, Ht4. split_and!; [done|cbn; congruence|by eexists].
Qed.

(** C27: an enrollment token admits a node once.  It is accepted only if it is
    stored, unused and not expired; and after that no later call with it succeeds,
    whatever tokens, actions and enrollments come in between, and whichever
    statements fail. *)
Theorem enrollment_token_single_use tok e r e1 ops :
  tokens_wf (sq_db (pe_sql e)) -> CompleteEnrollment o p tok e = (Ok r, e1) ->
  (exists t, enrollment_tokens (sq_db (pe_sql e)) !! etok_ID t = Some t /\ etok_Token t = tok /\
     etok_UsedAt t = None /\ o_clock o (pe_tick e) <= etok_ExpiresAt t) /\
  is_Ok (CompleteEnrollment o p tok (foldl (flip run_prov) e1 ops)).1 = false.
Proof using Hgen.
  intros Hwf Hrun. destruct (CompleteEnrollment_marks tok e r e1 Hwf Hrun) as (Hused & Hwf1 & Hex).
  split; [done|]. set (e2 := foldl _ _ _).
  pose proof (run_prov_forward ops e1) as Hfw. fold e2 in Hfw.
  destruct (CompleteEnrollment o p tok e2) as [[r'|err] e3] eqn:Hagain; [|done]. exfalso.
  assert (Hwf2 : tokens_wf (sq_db (pe_sql e2))) by (by apply Hfw).
  apply (token_used_forward tok _ _ Hfw) in Hused as (id & t & Ht & Etok & Hu).
  destruct (CompleteEnrollment_marks tok e2 r' e3 Hwf2 Hagain) as (_ & _ & t' & Ht' & Etok' & Hun & _).
  assert (id = etok_ID t') as -> by (eapply (proj2 Hwf2); [exact Ht|exact Ht'|congruence]).
  rewrite Ht' in Ht. simplify_eq. rewrite Hun in Hu. by destruct Hu.
Qed.
End runs.

(** Node 5 with a token for it. *)
Definition token_env : PEnv := (GenerateEnrollmentToken sample_outside 7 5 sample_env).2.
Definition token_text : string := RawURL_EncodeToString (repeat_char 32 "r").

Lemma enrollment_token_single_use_witness :
  match CompleteEnrollment sample_outside sample_provisioner token_text token_env with
  | (Ok r, e1) =>
      is_Ok (CompleteEnrollment sample_outside sample_provisioner token_text
        (foldl (flip (run_prov sample_outside sample_provisioner)) e1 [PToken 7 5; PComplete "x"])).1 = false
  | (Err _, _) => False
  end.
Proof.
  destruct (CompleteEnrollment sample_outside sample_provisioner token_text token_env) as [[r|err] e1] eqn:E.
  - refine (proj2 (enrollment_token_single_use sample_outside sample_provisioner _ token_text token_env r e1
                     [PToken 7 5; PComplete "x"] _ E)).
    + intros gen id Hg. discriminate Hg.
    + assert (Ht : enrollment_tokens (sq_db (pe_sql token_env)) =
                   {[ 101%N := mkEnrollmentToken 101 7 EnrollmentTargetNode 5 token_text
                                 (2 + EnrollmentTokenTTL) None 3 ]}) by (vm_compute; reflexivity).
      split; rewrite Ht.
      * intros id t [<- <-]%lookup_singleton_Some. reflexivity.
      * intros id1 id2 t1 t2 [<- <-]%lookup_singleton_Some [<- <-]%lookup_singleton_Some _. reflexivity.
  - vm_compute in E. discriminate E.
Defined.

(** ** Starting an action *)

Section start.
Context (o : Outside).

Lemma active_jobs_insert d nodeID j :
  provisioning_jobs d !! job_ID j = None -> job_NodeID j = nodeID -> active j ->
  active_jobs (upd_provisioning_jobs (fun m => <[job_ID j := j]> m) d) nodeID ≡ₚ j :: active_jobs d nodeID.
Proof.
  intros Hn Hj Ha. unfold active_jobs, rows_of. cbn [provisioning_jobs upd_provisioning_jobs].
  rewrite map_to_list_insert by done. rewrite fmap_cons. by rewrite filter_cons_True.
Qed.

Lemma get_active_none e e' :
  forall nodeID, (try (db (sqlite_GetActiveProvisioningJob nodeID))) e = (Ok (Err ErrNotFound), e') ->
  active_jobs (sq_db (pe_sql e)) nodeID = [] /\ sq_db (pe_sql e') = sq_db (pe_sql e).
Proof.
  intros nodeID. unfold try, db, sqlite_GetActiveProvisioningJob.
  destruct (sql_query _ _ _) as [r s] eqn:Hq. intros [= Hr <-]. cbn.
  unfold sql_query, sql_exec in Hq. destruct (sq_fault (pe_sql e)); [by simplify_eq|].
  destruct (merge_sort _ _) as [|j js] eqn:Hm; simplify_eq. split; [|done].
  apply Permutation_nil_r. by rewrite <-Hm, merge_sort_Permutation.
Qed.

Lemma db_query_run {A} msg (f : DB -> result A) e r e' :
  db (sql_query msg f) e = (r, e') ->
  sq_db (pe_sql e') = sq_db (pe_sql e) /\ (forall a, r = Ok a -> f (sq_db (pe_sql e)) = Ok a).
Proof.
  unfold db. destruct (sql_query msg f _) as [x s] eqn:Hq. intros [= <- <-]. by apply sql_query_inv in Hq.
Qed.

Lemma check_run nodeID action e r e' :
  startAction_check nodeID action e = (r, e') ->
  sq_db (pe_sql e') = sq_db (pe_sql e) /\
  forall node, r = Ok node -> nodes (sq_db (pe_sql e)) !! nodeID = Some node /\
    IsValidTransition action (node_Status node) = true /\ active_jobs (sq_db (pe_sql e)) nodeID = [].
Proof.
  unfold startAction_check. intros Hrun.
  apply bind_run in Hrun as [(n & e1 & H1 & Hrun)|(er & H1 & ->)].
  2: { apply wrap_Err in H1 as (? & _ & H1). by apply db_query_run in H1 as [? _]. }
  apply wrap_Ok, db_query_run in H1 as [Hd1 Hn]. specialize (Hn n eq_refl).
  destruct (nodes _ !! nodeID) as [n0|] eqn:Hnode; [|done]. injection Hn as ->.
  apply bind_run in Hrun as [(u & e2 & H2 & Hrun)|(er & H2 & ->)].
  2: { by apply lift_Err in H2 as [_ ->]. }
  apply lift_Ok in H2 as [H2%guard_Ok ->].
  apply bind_run in Hrun as [(ex & e2 & H3 & Hrun)|(er & H3 & ->)]; [|unfold try in H3; by destruct (db _ _)].
  assert (Hd2 : sq_db (pe_sql e2) = sq_db (pe_sql e)).
  { unfold try in H3. destruct (db _ e1) as [x e0] eqn:Hdb. simplify_eq.
    apply db_query_run in Hdb as [? _]. congruence. }
  destruct ex as [j|[]]; try (unfold throw in Hrun; by simplify_eq).
  apply get_active_none in H3 as [Hno _]. rewrite Hd1 in Hno.
  unfold mret, stM_ret in Hrun. simplify_eq. split; [done|]. by intros ? [= <-].
Qed.

Lemma create_run nodeID by_ action node e r e' :
  startAction_create o nodeID by_ action node e = (r, e') ->
  match r with
  | Ok job =>
      provisioning_jobs (sq_db (pe_sql e)) !! job_ID job = None /\
      job_NodeID job = nodeID /\ job_Action job = action /\ job_Status job = ProvisionStatusPending /\
      job_CurrentStep job = default "" (head (PipelineFor action)) /\
      sq_db (pe_sql e') = upd_provisioning_jobs (fun m => <[job_ID job := job]> m) (sq_db (pe_sql e))
  | Err _ => sq_db (pe_sql e') = sq_db (pe_sql e)
  end.
Proof.
  unfold startAction_create, wrap, db_now, db, mbind, stM_bind, NewID, now. cbn beta iota zeta.
  destruct (sqlite_CreateProvisioningJob _ _ _) as [x s] eqn:Hcr. apply sql_insert_inv in Hcr.
  destruct x as [job|er]; intros [= <- <-]; [|exact Hcr].
  destruct Hcr as (-> & Hfresh & _ & Hput). unfold has_key in Hfresh.
  apply bool_decide_eq_false, eq_None_not_Some in Hfresh. by split_and!.
Qed.

(** An action starts only on an existing node, from a status the state machine
    allows, with no other active job on it; then exactly one pending job is added,
    at the first step of the action's pipeline, and it is the node's only active
    job.  In every other case the tables are unchanged. *)
Theorem startAction_exclusive nodeID by_ action e r e' :
  startAction o nodeID by_ action e = (r, e') ->
  match r with
  | Ok (job, node) =>
      nodes (sq_db (pe_sql e)) !! nodeID = Some node /\ IsValidTransition action (node_Status node) = true /\
      active_jobs (sq_db (pe_sql e)) nodeID = [] /\
      job_NodeID job = nodeID /\ job_Action job = action /\ job_Status job = ProvisionStatusPending /\
      job_CurrentStep job = default "" (head (PipelineFor action)) /\
      sq_db (pe_sql e') = upd_provisioning_jobs (fun m => <[job_ID job := job]> m) (sq_db (pe_sql e)) /\
      active_jobs (sq_db (pe_sql e')) nodeID = [job]
  | Err _ => sq_db (pe_sql e') = sq_db (pe_sql e)
  end.
Proof.
  intros Hrun. unfold startAction in Hrun.
  apply bind_run in Hrun as [(node & e1 & Hc & Hrun)|(err & Hc & ->)]; apply check_run in Hc as [Hd Hc]; [|done].
  destruct (Hc node eq_refl) as (Hn & Hv & Hno).
  apply bind_run in Hrun as [(job & e2 & Hcr & Hrun)|(err & Hcr & ->)]; apply create_run in Hcr; rewrite Hd in Hcr; [|done].
  destruct Hcr as (Hfresh & Hj1 & Hj2 & Hj3 & Hj4 & Hput).
  unfold mret, stM_ret in Hrun. injection Hrun as <- <-. split_and!; try done.
  apply Permutation_singleton_r. rewrite Hput, <-Hno. apply active_jobs_insert; [done..|by left].
Qed.
End start.

Lemma startAction_exclusive_witness :
  match startAction sample_outside 5 9 ProvisionActionEnroll sample_env with
  | (Ok (job, node), e') => active_jobs (sq_db (pe_sql e')) 5 = [job]
  | (Err _, _) => False
  end.
Proof.
  destruct (startAction sample_outside 5 9 ProvisionActionEnroll sample_env) as [[[job node]|err] e'] eqn:E.
  - apply (startAction_exclusive sample_outside 5 9 ProvisionActionEnroll sample_env _ e' E).
  - vm_compute in E. discriminate E.
Defined.

(** Two calls of [startAction] on the same node, the second one running its checks
    before the first one creates its job. *)
Definition interleaved_starts (o : Outside) (nodeID by1 by2 : ID) (action : string)
    : stM PEnv (ProvisioningJob * ProvisioningJob) :=
  node1 ← startAction_check nodeID action;
  node2 ← startAction_check nodeID action;
  job1 ← startAction_create o nodeID by1 action node1;
  job2 ← startAction_create o nodeID by2 action node2;
  mret (job1, job2).

(** The check for an active job and the creation of the new one are separate
    statements: when two callers interleave between them, both actions start and
    the node has two active jobs. *)
Theorem startAction_race :
  is_Ok (interleaved_starts sample_outside 5 9 10 ProvisionActionEnroll sample_env).1 = true /\
  length (active_jobs (sq_db (pe_sql
    (interleaved_starts sample_outside 5 9 10 ProvisionActionEnroll sample_env).2)) 5) = 2%nat.
Proof. split; vm_compute; reflexivity. Qed.

(** ** Updates whose error is dropped *)

(** The sample deployment in which the statement with index [k] fails. *)
Definition fault_env (k : nat) : PEnv := mkPEnv (mkSql sample_db true (replicate k false ++ [true])) [] 0.
Definition enrolled (k : nat) : PEnv :=
  (perform sample_outside sample_provisioner 5 9 ProvisionActionEnroll (fault_env k)).2.

Lemma IsValidTransition_enrolling action : IsValidTransition action NodeStatusEnrolling = false.
Proof. unfold IsValidTransition, ValidActionStates. repeat case_bool_decide; reflexivity. Qed.

(** The pipeline drops the errors of its updates.  One failed statement at its
    end leaves the job running for ever (first part) or the node enrolling for ever
    (second part), and from then on no action can be started on the node. *)
Theorem dropped_update_error_blocks_node by_ action :
  (node_Status <$> nodes (sq_db (pe_sql (enrolled 27))) !! 5%N = Some NodeStatusOnline /\
   is_Ok (startAction sample_outside 5 by_ action (enrolled 27)).1 = false) /\
  (active_jobs (sq_db (pe_sql (enrolled 28))) 5 = [] /\
   is_Ok (startAction sample_outside 5 by_ action (enrolled 28)).1 = false).
Proof.
  assert (Hblock : forall e, (forall node, startAction_check 5 action e <> (Ok node, (startAction_check 5 action e).2)) ->
            is_Ok (startAction sample_outside 5 by_ action e).1 = false).
  { intros e Hno. unfold startAction, mbind, stM_bind. destruct (startAction_check 5 action e) as [[n|er] e1]; [|done].
    exfalso. by apply (Hno n). }
  split; (split; [vm_compute; reflexivity|]); apply Hblock; intros node Hc; apply check_run in Hc as [_ Hc];
    destruct (Hc node eq_refl) as (Hn & Hv & Ha).
  - vm_compute in Ha. discriminate Ha.
  - assert (Hst : node_Status <$> nodes (sq_db (pe_sql (enrolled 28))) !! 5%N = Some NodeStatusEnrolling)
      by (vm_compute; reflexivity).
    rewrite Hn in Hst. injection Hst as Hst. clear Hn Ha Hc. rewrite Hst, IsValidTransition_enrolling in Hv. discriminate Hv.
Qed.
