(* ===== verification/StoreAccess.v ===== *)
(** * Identity tables (internal/storage/sqlite: tenant.go, user.go, apikey.go, audit.go)

    Tenants, users, API keys and audit events.  Unique columns (tenant name and
    slug, user email) are part of the statements; so are the foreign keys of
    users and API keys, and the rows that keep a user from being deleted. *)

From Stdlib Require Import ZArith Lia String.
From S2P Require Import Prelude GoStrings Domain Storage StoreProvision.

Open Scope Z_scope.

(** Some row other than the one with key [id] satisfies [p]. *)
Definition other_row {V} (m : gmap ID V) (id : ID) (p : V -> bool) : bool :=
  existsb (fun kv => negb (bool_decide (kv.1 = id)) && p kv.2) (map_to_list m).
Definition any_row {V} (m : gmap ID V) (p : V -> bool) : bool := existsb p (rows_of m).
(** [QueryRow]: the first selected row, [sql.ErrNoRows] when there is none. *)
Definition first_row {V} (l : list V) : result V :=
  match l with v :: _ => Ok v | [] => Err ErrNotFound end.
Definition get_row {V} (m : gmap ID V) (id : ID) : result V :=
  match m !! id with Some v => Ok v | None => Err ErrNotFound end.

(** ** Tenants *)

Definition new_tenant (now : Time) (t : Tenant) : Tenant :=
  mkTenant (tenant_ID t) (tenant_Name t) (tenant_Slug t)
    (if bool_decide (tenant_Status t = "") then TenantStatusActive else tenant_Status t)
    (tenant_Settings t) now now.

Definition same_tenant (t t' : Tenant) : bool :=
  bool_decide (tenant_Name t' = tenant_Name t) || bool_decide (tenant_Slug t' = tenant_Slug t).

Definition sqlite_CreateTenant (now : Time) (t : Tenant) : stM SqlState Tenant :=
  sql_insert "insert tenant" "tenant name or slug already exists"
    (fun d => has_key (tenants d) (tenant_ID t) || any_row (tenants d) (same_tenant t)) (fun _ => true)
    (upd_tenants (<[tenant_ID t := new_tenant now t]>)) (new_tenant now t).

Definition sqlite_GetTenant (id : ID) : stM SqlState Tenant :=
  sql_query "get tenant" (fun d => get_row (tenants d) id).

Definition sqlite_GetTenantBySlug (slug : string) : stM SqlState Tenant :=
  sql_query "get tenant by slug" (fun d =>
    first_row (filter (fun t => tenant_Slug t = slug) (rows_of (tenants d)))).

Definition sqlite_ListTenants (params : ListParams) : stM SqlState (list Tenant * Z) :=
  total ← sql_query "count tenants" (fun d => Ok (Z.of_nat (size (tenants d))));
  sql_query "list tenants" (fun d =>
    Ok (page params (merge_sort (by_created_desc tenant_CreatedAt) (rows_of (tenants d))), total)).

Definition set_tenant_UpdatedAt (now : Time) (t : Tenant) : Tenant :=
  mkTenant (tenant_ID t) (tenant_Name t) (tenant_Slug t) (tenant_Status t) (tenant_Settings t)
    (tenant_CreatedAt t) now.
Definition merge_tenant (now : Time) (t old : Tenant) : Tenant :=
  mkTenant (tenant_ID old) (tenant_Name t) (tenant_Slug t) (tenant_Status t) (tenant_Settings t)
    (tenant_CreatedAt old) now.

(** UPDATE of a table with unique columns: the row must exist and no other row
    may hold the same values. *)
Definition sql_update_unique {V A} (msg dup : string) (table : DB -> gmap ID V) (id : ID) (clash : V -> bool)
    (fks : DB -> bool) (put : DB -> DB) (v : A) : stM SqlState A := fun s =>
  sql_exec msg (fun d =>
    if negb (has_key (table d) id) then (Err ErrNotFound, d)
    else if other_row (table d) id clash then (Err (Wrapf dup ErrAlreadyExists), d)
    else if sq_fk s && negb (fks d) then (fk_failed msg, d)
    else (Ok v, put d)) s.

Definition sqlite_UpdateTenant (now : Time) (t : Tenant) : stM SqlState Tenant :=
  sql_update_unique "update tenant" "tenant name or slug already exists" tenants (tenant_ID t)
    (same_tenant t) (fun _ => true)
    (upd_tenants (alter (merge_tenant now t) (tenant_ID t))) (set_tenant_UpdatedAt now t).

(** ** Users *)

Definition new_user (now : Time) (u : User) : User :=
  mkUser (user_ID u) (user_TenantID u) (user_Email u) (user_Name u) (user_PasswordHash u)
    (user_TOTPSecret u) (user_TOTPEnabled u) (user_Role u)
    (if bool_decide (user_Status u = "") then UserStatusActive else user_Status u) None now now.

Definition same_email (u u' : User) : bool := bool_decide (user_Email u' = user_Email u).

(** [last_login_at] is not among the inserted columns. *)
Definition sqlite_CreateUser (now : Time) (u : User) : stM SqlState User :=
  sql_insert "insert user" "email already exists"
    (fun d => has_key (users d) (user_ID u) || any_row (users d) (same_email u))
    (fun d => fk_opt (tenants d) (user_TenantID u))
    (upd_users (<[user_ID u := new_user now u]>)) (new_user now u).

Definition sqlite_GetUser (id : ID) : stM SqlState User :=
  sql_query "scan user" (fun d => get_row (users d) id).

Definition sqlite_GetUserByEmail (email : string) : stM SqlState User :=
  sql_query "scan user" (fun d => first_row (filter (fun u => user_Email u = email) (rows_of (users d)))).

Definition in_tenant {V} (tid : V -> option ID) (tenantID : option ID) (v : V) : Prop :=
  tenantID = None \/ tid v = tenantID.
#[export] Instance in_tenant_dec {V} (tid : V -> option ID) t v : Decision (in_tenant tid t v).
Proof. unfold in_tenant. apply _. Defined.

Definition sqlite_ListUsers (tenantID : option ID) (params : ListParams) : stM SqlState (list User * Z) :=
  total ← sql_query "count users" (fun d =>
    Ok (Z.of_nat (length (filter (in_tenant user_TenantID tenantID) (rows_of (users d))))));
  sql_query "list users" (fun d =>
    Ok (page params (merge_sort (by_created_desc user_CreatedAt)
          (filter (in_tenant user_TenantID tenantID) (rows_of (users d)))), total)).

Definition set_user_UpdatedAt (now : Time) (u : User) : User :=
  mkUser (user_ID u) (user_TenantID u) (user_Email u) (user_Name u) (user_PasswordHash u)
    (user_TOTPSecret u) (user_TOTPEnabled u) (user_Role u) (user_Status u) (user_LastLoginAt u)
    (user_CreatedAt u) now.
Definition merge_user (now : Time) (u old : User) : User :=
  mkUser (user_ID old) (user_TenantID u) (user_Email u) (user_Name u) (user_PasswordHash u)
    (user_TOTPSecret u) (user_TOTPEnabled u) (user_Role u) (user_Status u) (user_LastLoginAt u)
    (user_CreatedAt old) now.

Definition sqlite_UpdateUser (now : Time) (u : User) : stM SqlState User :=
  sql_update_unique "update user" "email already exists" users (user_ID u) (same_email u)
    (fun d => fk_opt (tenants d) (user_TenantID u))
    (upd_users (alter (merge_user now u) (user_ID u))) (set_user_UpdatedAt now u).

(** API keys reference their user without [ON DELETE]. *)
Definition sqlite_DeleteUser (id : ID) : stM SqlState unit :=
  sql_update "delete user" (fun d => has_key (users d) id)
    (fun d => negb (any_row (api_keys d) (fun k => bool_decide (apikey_UserID k = id))))
    (upd_users (delete id)) tt.

(** ** API keys *)

Definition new_apikey (now : Time) (k : APIKey) : APIKey :=
  mkAPIKey (apikey_ID k) (apikey_TenantID k) (apikey_UserID k) (apikey_Name k) (apikey_KeyHash k)
    (apikey_KeyPrefix k) (apikey_Role k) (apikey_ExpiresAt k) None now.

(** The code has no duplicate case; a taken primary key is a plain error. *)
Definition sqlite_CreateAPIKey (now : Time) (k : APIKey) : stM SqlState APIKey := fun s =>
  sql_exec "insert api key" (fun d =>
    if has_key (api_keys d) (apikey_ID k) then
      (Err (Wrapf "insert api key" (Errorf "UNIQUE constraint failed")), d)
    else if sq_fk s && negb (has_key (tenants d) (apikey_TenantID k) && has_key (users d) (apikey_UserID k)) then
      (fk_failed "insert api key", d)
    else (Ok (new_apikey now k), upd_api_keys (<[apikey_ID k := new_apikey now k]>) d)) s.

Definition sqlite_GetAPIKey (id : ID) : stM SqlState APIKey :=
  sql_query "get api key" (fun d => get_row (api_keys d) id).

Definition sqlite_GetAPIKeyByPrefix (prefix : string) : stM SqlState APIKey :=
  sql_query "get api key by prefix" (fun d =>
    first_row (filter (fun k => apikey_KeyPrefix k = prefix) (rows_of (api_keys d)))).

Definition sqlite_ListAPIKeys (tenantID : ID) (params : ListParams) : stM SqlState (list APIKey * Z) :=
  total ← sql_query "count api keys" (fun d =>
    Ok (Z.of_nat (length (filter (fun k => apikey_TenantID k = tenantID) (rows_of (api_keys d))))));
  sql_query "list api keys" (fun d =>
    Ok (page params (merge_sort (by_created_desc apikey_CreatedAt)
          (filter (fun k => apikey_TenantID k = tenantID) (rows_of (api_keys d)))), total)).

Definition sqlite_DeleteAPIKey (id : ID) : stM SqlState unit :=
  sql_update "delete api key" (fun d => has_key (api_keys d) id) (fun _ => true)
    (upd_api_keys (delete id)) tt.

Definition set_last_used (now : Time) (k : APIKey) : APIKey :=
  mkAPIKey (apikey_ID k) (apikey_TenantID k) (apikey_UserID k) (apikey_Name k) (apikey_KeyHash k)
    (apikey_KeyPrefix k) (apikey_Role k) (apikey_ExpiresAt k) (Some now) (apikey_CreatedAt k).

Definition sqlite_UpdateAPIKeyLastUsed (now : Time) (id : ID) : stM SqlState unit :=
  sql_update "update api key last used" (fun d => has_key (api_keys d) id) (fun _ => true)
    (upd_api_keys (alter (set_last_used now) id)) tt.

(** ** Audit events *)

Definition sqlite_CreateAuditEvent (e : AuditEvent) : stM SqlState unit :=
  sql_exec "insert audit event" (fun d =>
    if has_key (audit_events d) (audit_ID e) then
      (Err (Wrapf "insert audit event" (Errorf "UNIQUE constraint failed")), d)
    else (Ok tt, upd_audit_events (<[audit_ID e := e]>) d)).

Definition sqlite_ListAuditEvents (tenantID : option ID) (params : ListParams)
    : stM SqlState (list AuditEvent * Z) :=
  total ← sql_query "count audit events" (fun d =>
    Ok (Z.of_nat (length (filter (in_tenant audit_TenantID tenantID) (rows_of (audit_events d))))));
  sql_query "list audit events" (fun d =>
    Ok (page params (merge_sort (by_created_desc audit_Timestamp)
          (filter (in_tenant audit_TenantID tenantID) (rows_of (audit_events d)))), total)).
