(* ===== verification/StoreInventory.v ===== *)
(** * Inventory tables (internal/storage/sqlite: node.go, nodegroup.go, gateway.go,
      sshkey.go, route.go, ip_allocation.go, bgp_session.go)

    The store methods of nodes and groups that StoreFleet does not hold, and
    gateways, SSH keys, routes, address allocations and BGP sessions.  The
    announced prefixes of a session are a field of its row; in the database they
    are a table with primary key (session, prefix), so a repeated prefix fails the
    transaction.  A delete removes what cascades and fails when rows that do not
    cascade still refer to the row. *)

From Stdlib Require Import ZArith Lia String.
From S2P Require Import Prelude GoStrings Domain Storage StoreFleet StoreProvision StoreAccess.

Open Scope Z_scope.

(** ** Nodes *)

(** Memberships cascade; BGP sessions and provisioning jobs keep the node. *)
Definition sqlite_DeleteNode (id : ID) : stM SqlState unit := fun s =>
  sql_update "delete node" (fun d => has_key (nodes d) id)
    (fun d => negb (any_row (bgp_sessions d) (fun b => bool_decide (bgp_NodeID b = id))) &&
              negb (any_row (provisioning_jobs d) (fun j => bool_decide (job_NodeID j = id))))
    (fun d => upd_nodes (delete id)
       (if sq_fk s then upd_node_group_memberships (filter (fun gn => gn.2 <> id)) d else d)) tt s.

(** ** Node groups *)

Definition new_group (now : Time) (g : NodeGroup) : NodeGroup :=
  mkNodeGroup (ng_ID g) (ng_TenantID g) (ng_Name g) (ng_Description g) now now.

Definition sqlite_CreateNodeGroup (now : Time) (g : NodeGroup) : stM SqlState NodeGroup :=
  sql_insert "insert node group" "node group already exists"
    (fun d => has_key (node_groups d) (ng_ID g)) (fun d => has_key (tenants d) (ng_TenantID g))
    (upd_node_groups (<[ng_ID g := new_group now g]>)) (new_group now g).

Definition sqlite_GetNodeGroup (id : ID) : stM SqlState NodeGroup :=
  sql_query "get node group" (fun d => get_row (node_groups d) id).

Definition sqlite_ListNodeGroups (tenantID : ID) (params : ListParams) : stM SqlState (list NodeGroup * Z) :=
  total ← sql_query "count node groups" (fun d =>
    Ok (Z.of_nat (length (filter (fun g => ng_TenantID g = tenantID) (rows_of (node_groups d))))));
  sql_query "list node groups" (fun d =>
    Ok (page params (merge_sort (by_created_desc ng_CreatedAt)
          (filter (fun g => ng_TenantID g = tenantID) (rows_of (node_groups d)))), total)).

Definition merge_group (now : Time) (g old : NodeGroup) : NodeGroup :=
  mkNodeGroup (ng_ID old) (ng_TenantID old) (ng_Name g) (ng_Description g) (ng_CreatedAt old) now.

Definition sqlite_UpdateNodeGroup (now : Time) (g : NodeGroup) : stM SqlState unit :=
  sql_update "update node group" (fun d => has_key (node_groups d) (ng_ID g)) (fun _ => true)
    (upd_node_groups (alter (merge_group now g) (ng_ID g))) tt.

(** Memberships cascade; zones, sites and routes keep the group. *)
Definition sqlite_DeleteNodeGroup (id : ID) : stM SqlState unit := fun s =>
  sql_update "delete node group" (fun d => has_key (node_groups d) id)
    (fun d => negb (any_row (dns_zones d) (fun z => bool_decide (zone_NodeGroupID z = Some id))) &&
              negb (any_row (cdn_sites d) (fun c => bool_decide (site_NodeGroupID c = Some id))) &&
              negb (any_row (routes d) (fun r => bool_decide (route_NodeGroupID r = Some id))))
    (fun d => upd_node_groups (delete id)
       (if sq_fk s then upd_node_group_memberships (filter (fun gn => gn.1 <> id)) d else d)) tt s.

(** ** Gateways *)

(** [INSERT INTO gateways] writes no heartbeat and no sync time. *)
Definition new_gateway (now : Time) (g : Gateway) : Gateway :=
  mkGateway (gw_ID g) (gw_TenantID g) (gw_Name g) (gw_PublicIP g) (gw_WireGuardIP g)
    (if bool_decide (gw_Status g = "") then GatewayStatusPending else gw_Status g)
    (gw_EnrollmentToken g) None None (gw_Metadata g) now now.

Definition sqlite_CreateGateway (now : Time) (g : Gateway) : stM SqlState Gateway :=
  sql_insert "insert gateway" "gateway already exists"
    (fun d => has_key (gateways d) (gw_ID g)) (fun d => has_key (tenants d) (gw_TenantID g))
    (upd_gateways (<[gw_ID g := new_gateway now g]>)) (new_gateway now g).

Definition sqlite_GetGateway (id : ID) : stM SqlState Gateway :=
  sql_query "get gateway" (fun d => get_row (gateways d) id).

Definition sqlite_ListGateways (tenantID : option ID) (params : ListParams) : stM SqlState (list Gateway * Z) :=
  total ← sql_query "count gateways" (fun d =>
    Ok (Z.of_nat (length (filter (fun g => tenantID = None \/ Some (gw_TenantID g) = tenantID)
                            (rows_of (gateways d))))));
  sql_query "list gateways" (fun d =>
    Ok (page params (merge_sort (by_created_desc gw_CreatedAt)
          (filter (fun g => tenantID = None \/ Some (gw_TenantID g) = tenantID) (rows_of (gateways d)))), total)).

(** The tenant of a gateway does not change. *)
Definition merge_gateway (now : Time) (g old : Gateway) : Gateway :=
  mkGateway (gw_ID old) (gw_TenantID old) (gw_Name g) (gw_PublicIP g) (gw_WireGuardIP g) (gw_Status g)
    (gw_EnrollmentToken g) (gw_LastHeartbeat old) (gw_LastConfigSync old) (gw_Metadata g) (gw_CreatedAt old) now.

Definition sqlite_UpdateGateway (now : Time) (g : Gateway) : stM SqlState unit :=
  sql_update "update gateway" (fun d => has_key (gateways d) (gw_ID g)) (fun _ => true)
    (upd_gateways (alter (merge_gateway now g) (gw_ID g))) tt.

Definition sqlite_DeleteGateway (id : ID) : stM SqlState unit :=
  sql_update "delete gateway" (fun d => has_key (gateways d) id)
    (fun d => negb (any_row (routes d) (fun r => bool_decide (route_GatewayID r = id))))
    (upd_gateways (delete id)) tt.

Definition set_gateway_heartbeat (now : Time) (g : Gateway) : Gateway :=
  mkGateway (gw_ID g) (gw_TenantID g) (gw_Name g) (gw_PublicIP g) (gw_WireGuardIP g) GatewayStatusOnline
    (gw_EnrollmentToken g) (Some now) (gw_LastConfigSync g) (gw_Metadata g) (gw_CreatedAt g) now.

Definition sqlite_UpdateGatewayHeartbeat (now : Time) (id : ID) : stM SqlState unit :=
  sql_update "update gateway heartbeat" (fun d => has_key (gateways d) id) (fun _ => true)
    (upd_gateways (alter (set_gateway_heartbeat now) id)) tt.

Definition set_gateway_config_sync (now : Time) (g : Gateway) : Gateway :=
  mkGateway (gw_ID g) (gw_TenantID g) (gw_Name g) (gw_PublicIP g) (gw_WireGuardIP g) (gw_Status g)
    (gw_EnrollmentToken g) (gw_LastHeartbeat g) (Some now) (gw_Metadata g) (gw_CreatedAt g) now.

Definition sqlite_UpdateGatewayConfigSync (now : Time) (id : ID) : stM SqlState unit :=
  sql_update "update gateway config sync" (fun d => has_key (gateways d) id) (fun _ => true)
    (upd_gateways (alter (set_gateway_config_sync now) id)) tt.

(** ** SSH keys *)

Definition new_sshkey (now : Time) (k : SSHKey) : SSHKey :=
  mkSSHKey (sshkey_ID k) (sshkey_Name k) (sshkey_PublicKey k) (sshkey_PrivateKey k) (sshkey_Fingerprint k) now now.

Definition sqlite_CreateSSHKey (now : Time) (k : SSHKey) : stM SqlState SSHKey :=
  sql_insert "insert ssh key" "SSH key already exists"
    (fun d => has_key (ssh_keys d) (sshkey_ID k)) (fun _ => true)
    (upd_ssh_keys (<[sshkey_ID k := new_sshkey now k]>)) (new_sshkey now k).

Definition sqlite_ListSSHKeys (params : ListParams) : stM SqlState (list SSHKey * Z) :=
  total ← sql_query "count ssh keys" (fun d => Ok (Z.of_nat (size (ssh_keys d))));
  sql_query "list ssh keys" (fun d =>
    Ok (page params (merge_sort (by_created_desc sshkey_CreatedAt) (rows_of (ssh_keys d))), total)).

Definition merge_sshkey (k old : SSHKey) : SSHKey :=
  mkSSHKey (sshkey_ID old) (sshkey_Name k) (sshkey_PublicKey k) (sshkey_PrivateKey k) (sshkey_Fingerprint k)
    (sshkey_CreatedAt old) (sshkey_LastRotatedAt k).

Definition sqlite_UpdateSSHKey (k : SSHKey) : stM SqlState unit :=
  sql_update "update ssh key" (fun d => has_key (ssh_keys d) (sshkey_ID k)) (fun _ => true)
    (upd_ssh_keys (alter (merge_sshkey k) (sshkey_ID k))) tt.

(** Nodes keep their key. *)
Definition sqlite_DeleteSSHKey (id : ID) : stM SqlState unit :=
  sql_update "delete ssh key" (fun d => has_key (ssh_keys d) id)
    (fun d => negb (any_row (nodes d) (fun n => bool_decide (node_SSHKeyID n = Some id))))
    (upd_ssh_keys (delete id)) tt.

(** ** Routes *)

Definition new_route (now : Time) (r : Route) : Route :=
  mkRoute (route_ID r) (route_TenantID r) (route_Name r) (route_Protocol r) (route_EntryIP r) (route_EntryPort r)
    (route_GatewayID r) (route_DestinationIP r) (route_DestinationPort r) (route_NodeGroupID r)
    (if bool_decide (route_Status r = "") then RouteStatusActive else route_Status r) now now.

Definition route_fks (d : DB) (r : Route) : bool :=
  has_key (gateways d) (route_GatewayID r) && fk_opt (node_groups d) (route_NodeGroupID r).

Definition sqlite_CreateRoute (now : Time) (r : Route) : stM SqlState Route :=
  sql_insert "insert route" "route already exists"
    (fun d => has_key (routes d) (route_ID r))
    (fun d => has_key (tenants d) (route_TenantID r) && route_fks d r)
    (upd_routes (<[route_ID r := new_route now r]>)) (new_route now r).

Definition sqlite_GetRoute (id : ID) : stM SqlState Route :=
  sql_query "get route" (fun d => get_row (routes d) id).

Definition route_rows (d : DB) (tenantID : ID) : list Route :=
  merge_sort (by_name route_Name) (filter (fun r => route_TenantID r = tenantID) (rows_of (routes d))).

Definition sqlite_ListRoutes (tenantID : ID) (params : ListParams) : stM SqlState (list Route * Z) :=
  total ← sql_query "count routes" (fun d => Ok (Z.of_nat (length (route_rows d tenantID))));
  sql_query "list routes" (fun d => Ok (page params (route_rows d tenantID), total)).

Definition set_route_UpdatedAt (now : Time) (r : Route) : Route :=
  mkRoute (route_ID r) (route_TenantID r) (route_Name r) (route_Protocol r) (route_EntryIP r) (route_EntryPort r)
    (route_GatewayID r) (route_DestinationIP r) (route_DestinationPort r) (route_NodeGroupID r)
    (route_Status r) (route_CreatedAt r) now.

(** The tenant of a route does not change. *)
Definition merge_route (now : Time) (r old : Route) : Route :=
  mkRoute (route_ID old) (route_TenantID old) (route_Name r) (route_Protocol r) (route_EntryIP r) (route_EntryPort r)
    (route_GatewayID r) (route_DestinationIP r) (route_DestinationPort r) (route_NodeGroupID r)
    (route_Status r) (route_CreatedAt old) now.

Definition sqlite_UpdateRoute (now : Time) (r : Route) : stM SqlState Route :=
  sql_update "update route" (fun d => has_key (routes d) (route_ID r)) (fun d => route_fks d r)
    (upd_routes (alter (merge_route now r) (route_ID r))) (set_route_UpdatedAt now r).

Definition sqlite_DeleteRoute (id : ID) : stM SqlState unit :=
  sql_update "delete route" (fun d => has_key (routes d) id) (fun _ => true) (upd_routes (delete id)) tt.

Definition gateway_routes (d : DB) (gatewayID : ID) : list Route :=
  merge_sort (by_name route_Name)
    (filter (fun r => route_GatewayID r = gatewayID /\ route_Status r = RouteStatusActive) (rows_of (routes d))).

Definition sqlite_ListRoutesByGateway (gatewayID : ID) : stM SqlState (list Route) :=
  sql_query "list routes by gateway" (fun d => Ok (gateway_routes d gatewayID)).

(** ** Address allocations *)

Definition new_allocation (now : Time) (a : IPAllocation) : IPAllocation :=
  mkIPAllocation (ipa_ID a) (ipa_TenantID a) (ipa_Prefix a) (ipa_Type a) (ipa_Purpose a)
    (if bool_decide (ipa_Status a = "") then IPAllocationPending else ipa_Status a) now now.

Definition sqlite_CreateIPAllocation (now : Time) (a : IPAllocation) : stM SqlState IPAllocation :=
  sql_insert "insert ip allocation" "ip allocation already exists"
    (fun d => has_key (ip_allocations d) (ipa_ID a)) (fun d => has_key (tenants d) (ipa_TenantID a))
    (upd_ip_allocations (<[ipa_ID a := new_allocation now a]>)) (new_allocation now a).

Definition sqlite_GetIPAllocation (id : ID) : stM SqlState IPAllocation :=
  sql_query "get ip allocation" (fun d => get_row (ip_allocations d) id).

Definition sqlite_ListIPAllocations (tenantID : ID) (params : ListParams) : stM SqlState (list IPAllocation * Z) :=
  total ← sql_query "count ip allocations" (fun d =>
    Ok (Z.of_nat (length (filter (fun a => ipa_TenantID a = tenantID) (rows_of (ip_allocations d))))));
  sql_query "list ip allocations" (fun d =>
    Ok (page params (merge_sort (by_created_desc ipa_CreatedAt)
          (filter (fun a => ipa_TenantID a = tenantID) (rows_of (ip_allocations d)))), total)).

Definition set_allocation_UpdatedAt (now : Time) (a : IPAllocation) : IPAllocation :=
  mkIPAllocation (ipa_ID a) (ipa_TenantID a) (ipa_Prefix a) (ipa_Type a) (ipa_Purpose a) (ipa_Status a)
    (ipa_CreatedAt a) now.

Definition merge_allocation (now : Time) (a old : IPAllocation) : IPAllocation :=
  mkIPAllocation (ipa_ID old) (ipa_TenantID old) (ipa_Prefix a) (ipa_Type a) (ipa_Purpose a) (ipa_Status a)
    (ipa_CreatedAt old) now.

Definition sqlite_UpdateIPAllocation (now : Time) (a : IPAllocation) : stM SqlState IPAllocation :=
  sql_update "update ip allocation" (fun d => has_key (ip_allocations d) (ipa_ID a)) (fun _ => true)
    (upd_ip_allocations (alter (merge_allocation now a) (ipa_ID a))) (set_allocation_UpdatedAt now a).

Definition sqlite_DeleteIPAllocation (id : ID) : stM SqlState unit :=
  sql_update "delete ip allocation" (fun d => has_key (ip_allocations d) id) (fun _ => true)
    (upd_ip_allocations (delete id)) tt.

(** ** BGP sessions *)

Definition new_bgp (now : Time) (b : BGPSession) : BGPSession :=
  mkBGPSession (bgp_ID b) (bgp_NodeID b) (bgp_PeerASN b) (bgp_PeerAddress b) (bgp_LocalASN b)
    (if bool_decide (bgp_Status b = "") then BGPSessionConfigured else bgp_Status b)
    (bgp_AnnouncedPrefixes b) (bgp_ImportPolicy b) (bgp_ExportPolicy b) (bgp_Metadata b) now now.

(** One transaction: the row, then its prefixes. *)
Definition sqlite_CreateBGPSession (now : Time) (b : BGPSession) : stM SqlState BGPSession := fun s =>
  sql_exec "insert bgp session" (fun d =>
    if has_key (bgp_sessions d) (bgp_ID b) then (Err (Wrapf "bgp session already exists" ErrAlreadyExists), d)
    else if sq_fk s && negb (has_key (nodes d) (bgp_NodeID b)) then (fk_failed "insert bgp session", d)
    else if negb (bool_decide (NoDup (bgp_AnnouncedPrefixes b))) then
      (Err (Wrapf "insert announced prefix" (Errorf "UNIQUE constraint failed")), d)
    else (Ok (new_bgp now b), upd_bgp_sessions (<[bgp_ID b := new_bgp now b]>) d)) s.

Definition sqlite_GetBGPSession (id : ID) : stM SqlState BGPSession :=
  sql_query "get bgp session" (fun d => get_row (bgp_sessions d) id).

Definition bgp_rows (d : DB) (nodeID : ID) : list BGPSession :=
  merge_sort (by_created_desc bgp_CreatedAt) (filter (fun b => bgp_NodeID b = nodeID) (rows_of (bgp_sessions d))).

Definition sqlite_ListBGPSessions (nodeID : ID) (params : ListParams) : stM SqlState (list BGPSession * Z) :=
  total ← sql_query "count bgp sessions" (fun d => Ok (Z.of_nat (length (bgp_rows d nodeID))));
  sql_query "list bgp sessions" (fun d => Ok (page params (bgp_rows d nodeID), total)).

Definition set_bgp_UpdatedAt (now : Time) (b : BGPSession) : BGPSession :=
  mkBGPSession (bgp_ID b) (bgp_NodeID b) (bgp_PeerASN b) (bgp_PeerAddress b) (bgp_LocalASN b) (bgp_Status b)
    (bgp_AnnouncedPrefixes b) (bgp_ImportPolicy b) (bgp_ExportPolicy b) (bgp_Metadata b) (bgp_CreatedAt b) now.

(** A session stays with its node. *)
Definition merge_bgp (now : Time) (b old : BGPSession) : BGPSession :=
  mkBGPSession (bgp_ID old) (bgp_NodeID old) (bgp_PeerASN b) (bgp_PeerAddress b) (bgp_LocalASN b) (bgp_Status b)
    (bgp_AnnouncedPrefixes b) (bgp_ImportPolicy b) (bgp_ExportPolicy b) (bgp_Metadata b) (bgp_CreatedAt old) now.

Definition sqlite_UpdateBGPSession (now : Time) (b : BGPSession) : stM SqlState BGPSession :=
  sql_exec "update bgp session" (fun d =>
    if negb (has_key (bgp_sessions d) (bgp_ID b)) then (Err ErrNotFound, d)
    else if negb (bool_decide (NoDup (bgp_AnnouncedPrefixes b))) then
      (Err (Wrapf "insert announced prefix" (Errorf "UNIQUE constraint failed")), d)
    else (Ok (set_bgp_UpdatedAt now b), upd_bgp_sessions (alter (merge_bgp now b) (bgp_ID b)) d)).

Definition sqlite_DeleteBGPSession (id : ID) : stM SqlState unit :=
  sql_update "delete bgp session" (fun d => has_key (bgp_sessions d) id) (fun _ => true)
    (upd_bgp_sessions (delete id)) tt.
