(* ===== verification/KeyRotation.v ===== *)
(** * Rotation of SSH keys (internal/provisioning/rotation.go)

    Ed25519 and the OpenSSH encodings (golang.org/x/crypto/ssh, encoding/pem) are
    parameters. *)

From Stdlib Require Import ZArith Lia Ascii String.
From S2P Require Import Prelude GoStrings Secrets Domain Storage StoreProvision StoreInventory Provisioner.

Open Scope Z_scope.

Record SSHKeyLib := mkSSHKeyLib {
  (** [ed25519.GenerateKey] from a seed: public and private key *)
  sl_GenerateKey : string -> string * string;
  (** [NewPublicKey] and [MarshalAuthorizedKey] *)
  sl_Authorized : string -> option string;
  (** [MarshalPrivateKey] and [pem.EncodeToMemory] *)
  sl_PEM : string -> option string;
  sl_Fingerprint : string -> string
}.

Section rotation.
Context `{AEAD} (o : Outside) (p : DefaultProvisioner) (lib : SSHKeyLib).

Definition with_keypair (pub priv fp : string) (t : Time) (k : SSHKey) : SSHKey :=
  mkSSHKey (sshkey_ID k) (sshkey_Name k) pub priv fp (sshkey_CreatedAt k) t.

Definition or_fail {A} (msg : string) (x : option A) : result A :=
  match x with Some a => Ok a | None => Err (Wrapf msg (Errorf "crypto")) end.

Definition RotateSSHKey (keyID : ID) : stM PEnv SSHKey :=
  existing ← wrap "get SSH key" (db (sqlite_GetSSHKey keyID));
  seed ← rand o 32;
  seed ← lift (or_fail "generate ed25519 key" seed);
  let kp := sl_GenerateKey lib seed in
  pubKeyStr ← lift (or_fail "convert public key" (sl_Authorized lib kp.1));
  privKeyStr ← lift (or_fail "marshal private key" (sl_PEM lib kp.2));
  encryptedPriv ← wrap "encrypt private key" (secrets_Encrypt o p privKeyStr);
  t ← now o;
  let existing := with_keypair pubKeyStr encryptedPriv (sl_Fingerprint lib kp.1) t existing in
  _ ← wrap "update SSH key" (db (sqlite_UpdateSSHKey existing));
  mret (with_keypair pubKeyStr "" (sl_Fingerprint lib kp.1) t existing).

Definition cmd_authorize (pubKey : string) : string :=
  "grep -qF " +:+ Quote pubKey +:+ " ~/.ssh/authorized_keys 2>/dev/null || echo " +:+ Quote pubKey +:+
  " >> ~/.ssh/authorized_keys".

Definition deployKeyToNode (node : Node) (pubKey privKey : string) : stM PEnv unit :=
  let port := if node_SSHPort node =? 0 then 22 else node_SSHPort node in
  let user := if bool_decide (node_SSHUser node = "") then "root" else node_SSHUser node in
  _ ← wrap "connect" (ssh_Connect o (mkTarget (node_PublicIP node) port user privKey));
  out ← session_Run o (cmd_authorize pubKey);
  match out.2 with Some err => throw (Wrapf "append authorized_keys" err) | None => mret tt end.

(** Nodes that use the key and may be reachable. *)
Definition deploys_to (keyID : ID) (node : Node) : bool :=
  bool_decide (node_SSHKeyID node = Some keyID) &&
  bool_decide (node_Status node = NodeStatusOnline \/ node_Status node = NodeStatusOffline).

(** The errors of the nodes, in order. *)
Fixpoint deploy_all (keyID : ID) (pubKey privKey : string) (nodes : list Node) : stM PEnv (list goerr) :=
  match nodes with
  | [] => mret []
  | node :: nodes =>
      if deploys_to keyID node then
        r ← try (deployKeyToNode node pubKey privKey);
        rest ← deploy_all keyID pubKey privKey nodes;
        mret (match r with Ok _ => rest | Err err => err :: rest end)
      else deploy_all keyID pubKey privKey nodes
  end.

Definition DeploySSHKey (keyID : ID) : stM PEnv unit :=
  key ← wrap "get SSH key" (db (sqlite_GetSSHKey keyID));
  privKeyPlain ← wrap "decrypt private key" (lift (Decrypt (p_secrets p) (sshkey_PrivateKey key)));
  nodes ← wrap "list nodes" (db (sqlite_ListNodes None None all_rows));
  deployErrors ← deploy_all keyID (sshkey_PublicKey key) privKeyPlain nodes.1;
  match deployErrors with
  | [] => mret tt
  | err :: _ => throw (Errorf "deploy failed")
  end.
End rotation.
