(* ===== verification/Events.v ===== *)
(** * Event bus (internal/events/event.go, bus.go)

    Events and the table of subscribers.  [Publish] starts one goroutine per
    subscriber of the event's type; its result here is the list of handlers
    started, each of which runs on its own with the event. *)

From Stdlib Require Import ZArith Lia String.
From S2P Require Import Prelude Domain.

Open Scope Z_scope.

Notation EventType := string (only parsing).
Definition NodeStatusChanged : EventType := "node.status_changed".
Definition GatewayStatusChanged : EventType := "gateway.status_changed".
Definition ProvisioningFailed : EventType := "provisioning.failed".
Definition CertificateExpiring : EventType := "certificate.expiring".
Definition HealthCheckFailed : EventType := "health_check.failed".
Definition OverlayPeerUnreachable : EventType := "overlay.peer_unreachable".
Definition OverlayPeerRecovered : EventType := "overlay.peer_recovered".
Definition BGPSessionDown : EventType := "bgp.session_down".
Definition ev_BGPSessionEstablished : EventType := "bgp.session_established".
Definition RouteHealthCheckFailed : EventType := "route.health_check_failed".
Definition RouteHealthCheckRecovered : EventType := "route.health_check_recovered".
Definition LeaderElected : EventType := "leader.elected".
Definition LeaderLost : EventType := "leader.lost".

Notation Severity := string (only parsing).
Definition SeverityInfo : Severity := "info".
Definition SeverityWarning : Severity := "warning".
Definition SeverityCritical : Severity := "critical".

Record Event := mkBusEvent {
  ev_Type : EventType;
  ev_Timestamp : Time;
  ev_Severity : Severity;
  ev_Resource : string;
  ev_Details : gmap string string
}.
#[export] Instance Event_eq_dec : EqDecision Event.
Proof. solve_decision. Defined.

(** ** The bus *)

Section bus.
Context {Handler : Type}.

Record Bus := mkBus { bus_handlers : gmap EventType (list Handler) }.

Definition NewBus : Bus := mkBus ∅.

Definition Subscribe (eventType : EventType) (handler : Handler) (b : Bus) : Bus :=
  mkBus (<[eventType := default [] (bus_handlers b !! eventType) ++ [handler]]> (bus_handlers b)).

Definition Publish (b : Bus) (event : Event) : list Handler :=
  default [] (bus_handlers b !! ev_Type event).

(** The loop [for _, et := range types { bus.Subscribe(et, handler) }]. *)
Definition subscribe_all (types : list EventType) (handler : Handler) (b : Bus) : Bus :=
  fold_left (fun b et => Subscribe et handler b) types b.

Lemma Publish_Subscribe et h b e :
  Publish (Subscribe et h b) e = Publish b e ++ (if decide (ev_Type e = et) then [h] else []).
Proof.
  unfold Publish, Subscribe; cbn. destruct (decide (ev_Type e = et)) as [->|Hne].
  - by rewrite lookup_insert_eq.
  - rewrite lookup_insert_ne by done. by rewrite app_nil_r.
Qed.

Lemma Publish_subscribe_all types h b e :
  NoDup types ->
  Publish (subscribe_all types h b) e = Publish b e ++ (if decide (ev_Type e ∈ types) then [h] else []).
Proof.
  unfold subscribe_all. revert b. induction types as [|t types IH]; intros b Hnd; cbn.
  - rewrite decide_False by apply not_elem_of_nil. by rewrite app_nil_r.
  - apply NoDup_cons in Hnd as [Ht Hnd]. rewrite IH, Publish_Subscribe, <- app_assoc by done. f_equal.
    destruct (decide (ev_Type e = t)) as [->|Hne].
    + rewrite decide_False by done. rewrite decide_True by apply list_elem_of_here. done.
    + destruct (decide (ev_Type e ∈ types)).
      * by rewrite decide_True by by apply list_elem_of_further.
      * rewrite decide_False; [done|]. rewrite elem_of_cons. naive_solver.
Qed.
End bus.
Arguments Bus : clear implicits.
