(* ===== verification/Fleet.v ===== *)
(** * Fleet service (internal/fleet)

    Nodes, gateways, node groups and SSH keys over the SQLite tables.  The event
    bus is optional, as in the code: [bus] tells whether one is set, and the
    heartbeat operations return the events they publish. *)

From Stdlib Require Import ZArith Lia String.
From S2P Require Import Prelude GoStrings GoNet Domain Storage StoreFleet StoreProvision DnsService StoreInventory Events.

Open Scope Z_scope.

Record CreateNodeRequest := mkCreateNodeRequest {
  cnr_TenantID : option ID; cnr_Name : string; cnr_Hostname : string; cnr_PublicIP : string;
  cnr_Region : string; cnr_Provider : string; cnr_SSHPort : Z; cnr_SSHUser : string
}.
Record UpdateNodeRequest := mkUpdateNodeRequest {
  unr_Name : option string; unr_TenantID : option ID; unr_Status : option string; unr_Region : option string
}.
Record CreateGatewayRequest := mkCreateGatewayRequest { cgr_TenantID : ID; cgr_Name : string; cgr_PublicIP : string }.
Record UpdateGatewayRequest := mkUpdateGatewayRequest { ugr_Name : option string; ugr_Status : option string }.
Record CreateNodeGroupRequest := mkCreateNodeGroupRequest { cgp_TenantID : ID; cgp_Name : string; cgp_Description : string }.

(** ** Nodes *)

Definition node_of (newID : ID) (req : CreateNodeRequest) : Node :=
  mkNode newID (cnr_TenantID req) (cnr_Name req) (cnr_Hostname req) (cnr_PublicIP req) "" "" NodeStatusPending
    (cnr_Region req) (cnr_Provider req)
    (if cnr_SSHPort req =? 0 then 22 else cnr_SSHPort req)
    (if bool_decide (cnr_SSHUser req = "") then "root" else cnr_SSHUser req)
    None "" None None [] "" 0 0.

Definition check_node_request (req : CreateNodeRequest) : result unit :=
  _ ← guard_err (negb (bool_decide (cnr_Name req = ""))) (Errorf "name is required");
  _ ← guard_err (negb (bool_decide (cnr_Hostname req = ""))) (Errorf "hostname is required");
  _ ← guard_err (negb (bool_decide (cnr_PublicIP req = ""))) (Errorf "public_ip is required");
  guard_err (bool_decide (is_Some (ParseIP (cnr_PublicIP req)))) (Errorf "invalid public_ip").

Definition fleet_CreateNode (newID : ID) (now : Time) (req : CreateNodeRequest) : stM SqlState Node :=
  _ ← lift (check_node_request req);
  wrap "create node" (sqlite_CreateNode now (node_of newID req)).

Definition fleet_GetNode (id : ID) : stM SqlState Node := sqlite_GetNode id.

Definition fleet_ListNodes (cursor : option (Time * (ID -> bool))) (tenantID : option ID) (params : ListParams)
    : stM SqlState (list Node * Z) := sqlite_ListNodes cursor tenantID params.

Definition apply_node_update (req : UpdateNodeRequest) (n : Node) : Node :=
  mkNode (node_ID n) (set_ptr_if (unr_TenantID req) (node_TenantID n)) (set_if (unr_Name req) (node_Name n))
    (node_Hostname n) (node_PublicIP n) (node_WireGuardIP n) (node_WireGuardIPv6 n)
    (set_if (unr_Status req) (node_Status n)) (set_if (unr_Region req) (node_Region n)) (node_Provider n)
    (node_SSHPort n) (node_SSHUser n) (node_SSHKeyID n) (node_BinaryVersion n) (node_LastHeartbeat n)
    (node_LastConfigSync n) (node_Capabilities n) (node_Metadata n) (node_CreatedAt n) (node_UpdatedAt n).

(** [n.UpdatedAt = time.Now().UTC()] in the store method *)
Definition set_node_UpdatedAt (now : Time) (n : Node) : Node :=
  mkNode (node_ID n) (node_TenantID n) (node_Name n) (node_Hostname n) (node_PublicIP n)
    (node_WireGuardIP n) (node_WireGuardIPv6 n) (node_Status n) (node_Region n) (node_Provider n) (node_SSHPort n)
    (node_SSHUser n) (node_SSHKeyID n) (node_BinaryVersion n) (node_LastHeartbeat n)
    (node_LastConfigSync n) (node_Capabilities n) (node_Metadata n) (node_CreatedAt n) now.

Definition fleet_UpdateNode (id : ID) (now : Time) (req : UpdateNodeRequest) : stM SqlState Node :=
  n ← sqlite_GetNode id;
  let n := apply_node_update req n in
  _ ← wrap "update node" (sqlite_UpdateNode now n);
  mret (set_node_UpdatedAt now n).

Definition fleet_DeleteNode (id : ID) : stM SqlState unit := sqlite_DeleteNode id.

(** The status before the heartbeat, empty without a bus or when the read fails. *)
Definition previous_status {A} (bus : bool) (get : stM SqlState A) (status : A -> string) : stM SqlState string :=
  if bus then r ← try get; mret (match r with Ok a => status a | Err _ => "" end) else mret "".

Definition status_event (typ resource previous online : string) (t : Time) : Event :=
  mkBusEvent typ t SeverityInfo resource {["previous_status" := previous; "new_status" := online]}.

(** [id_String] is the text of an ID. *)
Section heartbeat.
Context (id_String : ID -> string) (bus : bool).

Definition RecordNodeHeartbeat (id : ID) (now t : Time) : stM SqlState (list Event) :=
  previous ← previous_status bus (sqlite_GetNode id) node_Status;
  _ ← sqlite_UpdateNodeHeartbeat now id;
  mret (if bus && negb (bool_decide (previous = NodeStatusOnline))
        then [status_event NodeStatusChanged ("node/" +:+ id_String id) previous NodeStatusOnline t] else []).

Definition RecordGatewayHeartbeat (id : ID) (now t : Time) : stM SqlState (list Event) :=
  previous ← previous_status bus (sqlite_GetGateway id) gw_Status;
  _ ← sqlite_UpdateGatewayHeartbeat now id;
  mret (if bus && negb (bool_decide (previous = GatewayStatusOnline))
        then [status_event GatewayStatusChanged ("gateway/" +:+ id_String id) previous GatewayStatusOnline t] else []).
End heartbeat.

(** ** Gateways *)

Definition fleet_CreateGateway (newID : ID) (now : Time) (req : CreateGatewayRequest) : stM SqlState Gateway :=
  _ ← lift (guard_err (negb (bool_decide (cgr_Name req = ""))) (Errorf "name is required"));
  wrap "create gateway" (sqlite_CreateGateway now
    (mkGateway newID (cgr_TenantID req) (cgr_Name req) (cgr_PublicIP req) "" GatewayStatusPending "" None None "" now now)).

Definition fleet_GetGateway (id : ID) : stM SqlState Gateway := sqlite_GetGateway id.
Definition fleet_ListGateways (tenantID : option ID) (params : ListParams) : stM SqlState (list Gateway * Z) :=
  sqlite_ListGateways tenantID params.

Definition apply_gateway_update (now : Time) (req : UpdateGatewayRequest) (g : Gateway) : Gateway :=
  mkGateway (gw_ID g) (gw_TenantID g) (set_if (ugr_Name req) (gw_Name g)) (gw_PublicIP g) (gw_WireGuardIP g)
    (set_if (ugr_Status req) (gw_Status g)) (gw_EnrollmentToken g) (gw_LastHeartbeat g) (gw_LastConfigSync g)
    (gw_Metadata g) (gw_CreatedAt g) now.

Definition fleet_UpdateGateway (id : ID) (now : Time) (req : UpdateGatewayRequest) : stM SqlState Gateway :=
  g ← sqlite_GetGateway id;
  let g := apply_gateway_update now req g in
  _ ← wrap "update gateway" (sqlite_UpdateGateway now g);
  mret g.

Definition fleet_DeleteGateway (id : ID) : stM SqlState unit := sqlite_DeleteGateway id.

(** ** Node groups *)

Definition fleet_CreateNodeGroup (newID : ID) (now : Time) (req : CreateNodeGroupRequest) : stM SqlState NodeGroup :=
  _ ← lift (guard_err (negb (bool_decide (cgp_Name req = ""))) (Errorf "name is required"));
  wrap "create node group" (sqlite_CreateNodeGroup now
    (mkNodeGroup newID (cgp_TenantID req) (cgp_Name req) (cgp_Description req) 0 0)).

Definition fleet_GetNodeGroup (id : ID) : stM SqlState NodeGroup := sqlite_GetNodeGroup id.
Definition fleet_ListNodeGroups (tenantID : ID) (params : ListParams) : stM SqlState (list NodeGroup * Z) :=
  sqlite_ListNodeGroups tenantID params.

Definition fleet_AddNodeToGroup (groupID nodeID : ID) : stM SqlState unit :=
  _ ← wrap "get group" (sqlite_GetNodeGroup groupID);
  _ ← wrap "get node" (sqlite_GetNode nodeID);
  sqlite_AddNodeToGroup groupID nodeID.

Definition fleet_DeleteNodeGroup (id : ID) : stM SqlState unit := sqlite_DeleteNodeGroup id.
Definition fleet_RemoveNodeFromGroup (groupID nodeID : ID) : stM SqlState unit :=
  sqlite_RemoveNodeFromGroup groupID nodeID.

(** ** SSH keys *)

Definition fleet_CreateSSHKey (now : Time) (k : SSHKey) : stM SqlState SSHKey := sqlite_CreateSSHKey now k.
Definition fleet_GetSSHKey (id : ID) : stM SqlState SSHKey := sqlite_GetSSHKey id.
Definition fleet_ListSSHKeys (params : ListParams) : stM SqlState (list SSHKey * Z) := sqlite_ListSSHKeys params.
Definition fleet_DeleteSSHKey (id : ID) : stM SqlState unit := sqlite_DeleteSSHKey id.
