(* ===== verification/RouteService.v ===== *)
(** * Route service (internal/route)

    Route validation, CRUD, and the snapshots that nodes and gateways poll. *)

From Stdlib Require Import ZArith Lia String.
From S2P Require Import Prelude GoStrings GoNet Domain Storage StoreFleet StoreProvision DnsService StoreInventory.

Open Scope Z_scope.

Record CreateRouteRequest := mkCreateRouteRequest {
  crt_TenantID : ID; crt_Name : string; crt_Protocol : string; crt_EntryIP : string; crt_EntryPort : option Z;
  crt_GatewayID : ID; crt_DestinationIP : string; crt_DestinationPort : option Z; crt_NodeGroupID : option ID
}.
Record UpdateRouteRequest := mkUpdateRouteRequest {
  urt_Name : option string; urt_Protocol : option string; urt_EntryIP : option string; urt_EntryPort : option Z;
  urt_GatewayID : option ID; urt_DestinationIP : option string; urt_DestinationPort : option Z;
  urt_NodeGroupID : option ID; urt_Status : option string; urt_ClearNodeGroup : bool
}.
Record RouteWithGateway := mkRWG { rwg_Route : Route; rwg_GatewayWGIP : string }.
Record NodeRouteConfig := mkNodeRouteConfig { nrc_Routes : list RouteWithGateway }.
Record GatewayRouteConfig := mkGatewayRouteConfig { grc_Routes : list Route }.

(** ** validation.go *)

(** A port is required, and in range, unless the protocol is ICMP. *)
Definition validate_port (what : string) (icmp : bool) (port : option Z) : result unit :=
  if icmp then guard_err (bool_decide (port = None)) (Errorf (what +:+ " must not be set for icmp protocol"))
  else match port with
       | None => Err (Errorf (what +:+ " is required"))
       | Some p => guard_err (negb ((p <? 1) || (65535 <? p))) (Errorf (what +:+ " must be 1-65535"))
       end.

Definition validateRoute (r : Route) : result unit :=
  let icmp := bool_decide (route_Protocol r = RouteProtocolICMP) in
  _ ← guard_err (negb (bool_decide (route_Name r = ""))) (Errorf "route name is required");
  _ ← guard_err (negb (255 <? String.length (route_Name r))%nat) (Errorf "route name too long (max 255 characters)");
  _ ← guard_err (bool_decide (route_Protocol r ∈
         [RouteProtocolTCP; RouteProtocolUDP; RouteProtocolICMP; RouteProtocolAll])) (Errorf "invalid protocol");
  _ ← guard_err (bool_decide (is_Some (ParseIP (route_EntryIP r)))) (Errorf "invalid entry_ip");
  _ ← validate_port "entry_port" icmp (route_EntryPort r);
  _ ← guard_err (bool_decide (is_Some (ParseIP (route_DestinationIP r)))) (Errorf "invalid destination_ip");
  validate_port "destination_port" icmp (route_DestinationPort r).

(** ** route.go *)

Definition route_of (newID : ID) (req : CreateRouteRequest) : Route :=
  mkRoute newID (crt_TenantID req) (crt_Name req) (crt_Protocol req) (crt_EntryIP req) (crt_EntryPort req)
    (crt_GatewayID req) (crt_DestinationIP req) (crt_DestinationPort req) (crt_NodeGroupID req) "" 0 0.

Definition svc_CreateRoute (newID : ID) (now : Time) (req : CreateRouteRequest) : stM SqlState Route :=
  let r := route_of newID req in
  _ ← wrap "invalid route" (lift (validateRoute r));
  _ ← wrap "gateway lookup" (sqlite_GetGateway (crt_GatewayID req));
  wrap "create route" (sqlite_CreateRoute now r).

Definition svc_GetRoute (id : ID) : stM SqlState Route := sqlite_GetRoute id.
Definition svc_ListRoutes (tenantID : ID) (params : ListParams) : stM SqlState (list Route * Z) :=
  sqlite_ListRoutes tenantID params.

Definition apply_route_update (req : UpdateRouteRequest) (r : Route) : Route :=
  mkRoute (route_ID r) (route_TenantID r) (set_if (urt_Name req) (route_Name r))
    (set_if (urt_Protocol req) (route_Protocol r)) (set_if (urt_EntryIP req) (route_EntryIP r))
    (set_ptr_if (urt_EntryPort req) (route_EntryPort r)) (set_if (urt_GatewayID req) (route_GatewayID r))
    (set_if (urt_DestinationIP req) (route_DestinationIP r))
    (set_ptr_if (urt_DestinationPort req) (route_DestinationPort r))
    (if urt_ClearNodeGroup req then None else set_ptr_if (urt_NodeGroupID req) (route_NodeGroupID r))
    (set_if (urt_Status req) (route_Status r)) (route_CreatedAt r) (route_UpdatedAt r).

Definition svc_UpdateRoute (id : ID) (now : Time) (req : UpdateRouteRequest) : stM SqlState Route :=
  r ← sqlite_GetRoute id;
  let r := apply_route_update req r in
  _ ← wrap "invalid route" (lift (validateRoute r));
  _ ← match urt_GatewayID req with
      | Some g => _ ← wrap "gateway lookup" (sqlite_GetGateway g); mret tt
      | None => mret tt
      end;
  wrap "update route" (sqlite_UpdateRoute now r).

Definition svc_DeleteRoute (id : ID) : stM SqlState unit := sqlite_DeleteRoute id.

(** ** Config sync *)

(** The overlay address, or the public one without an overlay. *)
Definition dial_address (gw : Gateway) : string :=
  if bool_decide (gw_WireGuardIP gw = "") then gw_PublicIP gw else gw_WireGuardIP gw.

(** The address of a route's gateway, and the cache with it. *)
Definition gateway_address (gatewayID : ID) (gwCache : gmap ID string) : stM SqlState (string * gmap ID string) :=
  match gwCache !! gatewayID with
  | Some ip => mret (ip, gwCache)
  | None =>
      gw ← wrap "get gateway" (sqlite_GetGateway gatewayID);
      mret (dial_address gw, <[gatewayID := dial_address gw]> gwCache)
  end.

Record sync_state := mkSync { sy_seen : gset ID; sy_cache : gmap ID string; sy_acc : list RouteWithGateway }.

Fixpoint sync_routes (gid : ID) (rs : list Route) (st : sync_state) : stM SqlState sync_state :=
  match rs with
  | [] => mret st
  | r :: rs =>
      if negb (bool_decide (route_NodeGroupID r = Some gid)) then sync_routes gid rs st
      else if negb (bool_decide (route_Status r = RouteStatusActive)) then sync_routes gid rs st
      else if bool_decide (route_ID r ∈ sy_seen st) then sync_routes gid rs st
      else
        ic ← gateway_address (route_GatewayID r) (sy_cache st);
        sync_routes gid rs
          (mkSync ({[route_ID r]} ∪ sy_seen st) ic.2 (sy_acc st ++ [mkRWG r ic.1]))
  end.

Fixpoint sync_route_groups (groups : list NodeGroup) (st : sync_state) : stM SqlState sync_state :=
  match groups with
  | [] => mret st
  | group :: groups =>
      rs ← wrap "list routes for group" (sqlite_ListRoutes (ng_TenantID group) limit10000);
      st ← sync_routes (ng_ID group) rs.1 st;
      sync_route_groups groups st
  end.

Definition GetNodeRouteConfig (nodeID : ID) : stM SqlState NodeRouteConfig :=
  _ ← wrap "get node" (sqlite_GetNode nodeID);
  groups ← wrap "list node groups" (sqlite_ListNodeGroups_ByNode nodeID);
  st ← sync_route_groups groups (mkSync ∅ ∅ []);
  mret (mkNodeRouteConfig (sy_acc st)).

Definition GetGatewayRouteConfig (gatewayID : ID) : stM SqlState GatewayRouteConfig :=
  _ ← wrap "get gateway" (sqlite_GetGateway gatewayID);
  rs ← wrap "list routes by gateway" (sqlite_ListRoutesByGateway gatewayID);
  mret (mkGatewayRouteConfig rs).
