(* ===== verification/Networking.v ===== *)
(** * Networking service (internal/networking)

    BGP sessions, address allocations, the WireGuard configurations of the hub
    and of the nodes, key rotation and the controller's own peer.  Key material
    comes from the same draws as in the provisioning service ([Outside]). *)

From Stdlib Require Import ZArith Lia Ascii String.
From S2P Require Import Prelude GoStrings GoNet GoBase64 Secrets Domain Storage StoreFleet StoreProvision Overlay Provisioner.
From S2P Require Import DnsService StoreInventory NodeSync.

Open Scope Z_scope.

Record CreateBGPSessionRequest := mkCreateBGPSessionRequest {
  cbr_NodeID : ID; cbr_PeerASN : Z; cbr_PeerAddress : string; cbr_LocalASN : Z;
  cbr_AnnouncedPrefixes : list string; cbr_ImportPolicy : string; cbr_ExportPolicy : string
}.
Record UpdateBGPSessionRequest := mkUpdateBGPSessionRequest {
  ubr_PeerASN : option Z; ubr_PeerAddress : option string; ubr_LocalASN : option Z; ubr_Status : option string;
  ubr_AnnouncedPrefixes : option (list string); ubr_ImportPolicy : option string; ubr_ExportPolicy : option string
}.
Record CreateIPAllocationRequest := mkCreateIPAllocationRequest {
  car_TenantID : ID; car_Prefix : string; car_Type : string; car_Purpose : string
}.
Record UpdateIPAllocationRequest := mkUpdateIPAllocationRequest { uar_Status : option string }.
Record NodeNetworkingState := mkNodeNetworkingState {
  nns_NodeID : ID; nns_WireGuardIP : string; nns_WireGuardPeer : option WireGuardPeer; nns_BGPSessions : list BGPSession
}.

(** ** wireguard_config.go *)

Record WireGuardPeerConfig := mkWGPeer {
  wp_PublicKey : string; wp_PresharedKey : string; wp_AllowedIPs : list string; wp_Endpoint : string;
  wp_PersistentKeepalive : Z
}.
Record WireGuardConfig := mkWGConfig {
  wc_PrivateKey : string; wc_Address : string; wc_ListenPort : Z; wc_DNS : string; wc_Peers : list WireGuardPeerConfig
}.

(** [fmt.Sprintf("key = value\n")], and the same only when [show] holds. *)
Definition line (key value : string) : string := key +:+ " = " +:+ value +:+ nl.
Definition line_if (show : bool) (key value : string) : string := if show then line key value else "".

Definition render_peer (p : WireGuardPeerConfig) : string :=
  nl +:+ "[Peer]" +:+ nl +:+
  line "PublicKey" (wp_PublicKey p) +:+
  line_if (negb (bool_decide (wp_PresharedKey p = ""))) "PresharedKey" (wp_PresharedKey p) +:+
  line_if (negb (bool_decide (wp_AllowedIPs p = []))) "AllowedIPs" (Join (wp_AllowedIPs p) ", ") +:+
  line_if (negb (bool_decide (wp_Endpoint p = ""))) "Endpoint" (wp_Endpoint p) +:+
  line_if (0 <? wp_PersistentKeepalive p) "PersistentKeepalive" (Itoa (wp_PersistentKeepalive p)).

Definition Render (c : WireGuardConfig) : string :=
  "[Interface]" +:+ nl +:+
  line "PrivateKey" (wc_PrivateKey c) +:+
  line "Address" (wc_Address c) +:+
  line_if (0 <? wc_ListenPort c) "ListenPort" (Itoa (wc_ListenPort c)) +:+
  line_if (negb (bool_decide (wc_DNS c = ""))) "DNS" (wc_DNS c) +:+
  foldr (fun p text => render_peer p +:+ text) "" (wc_Peers c).

(** ** BGP sessions *)

Definition check_bgp_request (req : CreateBGPSessionRequest) : result unit :=
  _ ← guard_err (negb (cbr_PeerASN req =? 0)) (Errorf "peer_asn is required");
  _ ← guard_err (negb (bool_decide (cbr_PeerAddress req = ""))) (Errorf "peer_address is required");
  _ ← guard_err (bool_decide (is_Some (ParseIP (cbr_PeerAddress req)))) (Errorf "invalid peer_address");
  guard_err (negb (cbr_LocalASN req =? 0)) (Errorf "local_asn is required").

Definition net_CreateBGPSession (newID : ID) (now : Time) (req : CreateBGPSessionRequest) : stM SqlState BGPSession :=
  _ ← wrap "node not found" (sqlite_GetNode (cbr_NodeID req));
  _ ← lift (check_bgp_request req);
  wrap "create bgp session" (sqlite_CreateBGPSession now
    (mkBGPSession newID (cbr_NodeID req) (cbr_PeerASN req) (cbr_PeerAddress req) (cbr_LocalASN req)
       BGPSessionConfigured (cbr_AnnouncedPrefixes req) (cbr_ImportPolicy req) (cbr_ExportPolicy req) "" 0 0)).

Definition net_GetBGPSession (id : ID) : stM SqlState BGPSession := sqlite_GetBGPSession id.
Definition net_ListBGPSessions (nodeID : ID) (params : ListParams) : stM SqlState (list BGPSession * Z) :=
  sqlite_ListBGPSessions nodeID params.

Definition apply_bgp_update (req : UpdateBGPSessionRequest) (b : BGPSession) : BGPSession :=
  mkBGPSession (bgp_ID b) (bgp_NodeID b) (set_if (ubr_PeerASN req) (bgp_PeerASN b))
    (set_if (ubr_PeerAddress req) (bgp_PeerAddress b)) (set_if (ubr_LocalASN req) (bgp_LocalASN b))
    (set_if (ubr_Status req) (bgp_Status b)) (set_if (ubr_AnnouncedPrefixes req) (bgp_AnnouncedPrefixes b))
    (set_if (ubr_ImportPolicy req) (bgp_ImportPolicy b)) (set_if (ubr_ExportPolicy req) (bgp_ExportPolicy b))
    (bgp_Metadata b) (bgp_CreatedAt b) (bgp_UpdatedAt b).

Definition net_UpdateBGPSession (id : ID) (now : Time) (req : UpdateBGPSessionRequest) : stM SqlState BGPSession :=
  b ← sqlite_GetBGPSession id;
  _ ← lift (guard_err (match ubr_PeerAddress req with
                       | Some a => bool_decide (is_Some (ParseIP a))
                       | None => true
                       end) (Errorf "invalid peer_address"));
  wrap "update bgp session" (sqlite_UpdateBGPSession now (apply_bgp_update req b)).

Definition net_DeleteBGPSession (id : ID) : stM SqlState unit := sqlite_DeleteBGPSession id.

(** ** Address allocations *)

Definition check_allocation (req : CreateIPAllocationRequest) : result unit :=
  _ ← guard_err (negb (bool_decide (car_Prefix req = ""))) (Errorf "prefix is required");
  _ ← guard_err (bool_decide (is_Some (ParseCIDR (car_Prefix req)))) (Wrapf "invalid CIDR prefix" (Errorf "CIDR"));
  _ ← guard_err (negb (bool_decide (car_Type req = ""))) (Errorf "type is required");
  guard_err (negb (bool_decide (car_Purpose req = ""))) (Errorf "purpose is required").

Definition net_CreateIPAllocation (newID : ID) (now : Time) (req : CreateIPAllocationRequest) : stM SqlState IPAllocation :=
  _ ← lift (check_allocation req);
  wrap "create ip allocation" (sqlite_CreateIPAllocation now
    (mkIPAllocation newID (car_TenantID req) (car_Prefix req) (car_Type req) (car_Purpose req) IPAllocationPending 0 0)).

Definition net_GetIPAllocation (id : ID) : stM SqlState IPAllocation := sqlite_GetIPAllocation id.
Definition net_ListIPAllocations (tenantID : ID) (params : ListParams) : stM SqlState (list IPAllocation * Z) :=
  sqlite_ListIPAllocations tenantID params.

Definition apply_allocation_update (req : UpdateIPAllocationRequest) (a : IPAllocation) : IPAllocation :=
  mkIPAllocation (ipa_ID a) (ipa_TenantID a) (ipa_Prefix a) (ipa_Type a) (ipa_Purpose a)
    (set_if (uar_Status req) (ipa_Status a)) (ipa_CreatedAt a) (ipa_UpdatedAt a).

Definition net_UpdateIPAllocation (id : ID) (now : Time) (req : UpdateIPAllocationRequest) : stM SqlState IPAllocation :=
  a ← sqlite_GetIPAllocation id;
  wrap "update ip allocation" (sqlite_UpdateIPAllocation now (apply_allocation_update req a)).

Definition net_DeleteIPAllocation (id : ID) : stM SqlState unit := sqlite_DeleteIPAllocation id.

(** ** WireGuard configurations *)

(** The secrets store, the hub configuration, and whether a group store is set. *)
Record NetService := mkNetService { ns_secrets : Store; ns_wgConfig : WireGuardHub; ns_nodeGroups : bool }.

Section wireguard.
Context `{AEAD} (n : NetService).

Definition decrypt (msg s : string) : result string := wrap_err msg (Decrypt (ns_secrets n) s).
(** An absent preshared key stays absent. *)
Definition decrypt_psk (msg s : string) : result string := if bool_decide (s = "") then Ok "" else decrypt msg s.

(** [GetWireGuardPeerByOwner] of the controller. *)
Definition controller_peer : stM SqlState WireGuardPeer :=
  wrap "get controller peer" (sqlite_GetWireGuardPeerByOwner PeerOwnerController ControllerPeerID).

Fixpoint hub_peers (peers : list WireGuardPeer) : result (list WireGuardPeerConfig) :=
  match peers with
  | [] => Ok []
  | p :: peers =>
      if bool_decide (peer_OwnerType p = PeerOwnerController) then hub_peers peers
      else
        psk ← decrypt_psk "decrypt preshared key for peer" (peer_PresharedKey p);
        rest ← hub_peers peers;
        Ok (mkWGPeer (peer_PublicKey p) psk (peer_AllowedIPs p) (peer_Endpoint p) 0 :: rest)
  end.

Definition hub_address : string :=
  if bool_decide (wg_IPv6Address (ns_wgConfig n) = "") then wg_Address (ns_wgConfig n)
  else wg_Address (ns_wgConfig n) +:+ ", " +:+ wg_IPv6Address (ns_wgConfig n).

Definition hub_config : stM SqlState WireGuardConfig :=
  ctrlPeer ← controller_peer;
  privKey ← lift (decrypt "decrypt controller private key" (peer_PrivateKey ctrlPeer));
  allPeers ← wrap "list peers" (sqlite_ListWireGuardPeers all_rows);
  peerConfigs ← lift (hub_peers allPeers.1);
  mret (mkWGConfig privKey hub_address (wg_ListenPort (ns_wgConfig n)) "" peerConfigs).

Definition GenerateHubConfig : stM SqlState string := cfg ← hub_config; mret (Render cfg).

(** *** mesh.go *)

(** Members of the groups, each once, without those already seen. *)
Fixpoint group_members (groups : list NodeGroup) (seen : gset ID) : stM SqlState (list Node) :=
  match groups with
  | [] => mret []
  | g :: groups =>
      members ← wrap "list group nodes" (sqlite_ListGroupNodes (ng_ID g));
      let new := select_rows node_ID (fun _ => true) members seen in
      rest ← group_members groups new.2;
      mret (new.1 ++ rest)
  end.

Definition mesh_peer (m : Node) (wgPeer : WireGuardPeer) : WireGuardPeerConfig :=
  mkWGPeer (peer_PublicKey wgPeer) ""
    ((node_WireGuardIP m +:+ "/32") ::
       (if bool_decide (node_WireGuardIPv6 m = "") then [] else [node_WireGuardIPv6 m +:+ "/128"]))
    (if negb (bool_decide (node_PublicIP m = "")) && (0 <? wg_ListenPort (ns_wgConfig n))
     then node_PublicIP m +:+ ":" +:+ Itoa (wg_ListenPort (ns_wgConfig n)) else "") 25.

(** Nodes without an overlay address, or whose peer cannot be read, are left out. *)
Fixpoint mesh_peers (nodes : list Node) : stM SqlState (list WireGuardPeerConfig) :=
  match nodes with
  | [] => mret []
  | m :: nodes =>
      if bool_decide (node_WireGuardIP m = "") then mesh_peers nodes
      else
        r ← try (sqlite_GetWireGuardPeerByOwner PeerOwnerNode (node_ID m));
        rest ← mesh_peers nodes;
        mret (match r with Ok wgPeer => mesh_peer m wgPeer :: rest | Err _ => rest end)
  end.

Definition generateMeshPeers (node : Node) : stM SqlState (list WireGuardPeerConfig * Z) :=
  groups ← wrap "list node groups for node" (sqlite_ListNodeGroups_ByNode (node_ID node));
  if bool_decide (groups = []) then mret ([], 0)
  else
    peerNodes ← group_members groups {[node_ID node]};
    peers ← mesh_peers peerNodes;
    mret (peers, wg_ListenPort (ns_wgConfig n)).

(** *** networking.go *)

Definition hub_allowed_ips : list string :=
  wg_Subnet (ns_wgConfig n) ::
    (if bool_decide (wg_IPv6Subnet (ns_wgConfig n) = "") then [] else [wg_IPv6Subnet (ns_wgConfig n)]).

Definition node_address (node : Node) : string :=
  node_WireGuardIP node +:+ "/32" +:+
    (if bool_decide (node_WireGuardIPv6 node = "") then "" else ", " +:+ node_WireGuardIPv6 node +:+ "/128").

Definition node_config (nodeID : ID) : stM SqlState WireGuardConfig :=
  node ← wrap "get node" (sqlite_GetNode nodeID);
  nodePeer ← wrap "get node peer" (sqlite_GetWireGuardPeerByOwner PeerOwnerNode nodeID);
  nodePrivKey ← lift (decrypt "decrypt node private key" (peer_PrivateKey nodePeer));
  ctrlPeer ← controller_peer;
  psk ← lift (decrypt_psk "decrypt node preshared key" (peer_PresharedKey nodePeer));
  let hubPeer := mkWGPeer (peer_PublicKey ctrlPeer) psk hub_allowed_ips (peer_Endpoint ctrlPeer) 25 in
  _ ← lift (guard_err (negb (bool_decide (node_WireGuardIP node = ""))) (Errorf "node has no WireGuard IP assigned"));
  mesh ← (if bool_decide (wg_Topology (ns_wgConfig n) = "mesh") && ns_nodeGroups n
          then wrap "generate mesh peers" (generateMeshPeers node) else mret ([], 0));
  mret (mkWGConfig nodePrivKey (node_address node) mesh.2 "" (hubPeer :: mesh.1)).

Definition net_GenerateNodeConfig (nodeID : ID) : stM SqlState string := cfg ← node_config nodeID; mret (Render cfg).

(** The peer of a node is shown when it can be read. *)
Definition GetNodeNetworkingState (nodeID : ID) : stM SqlState NodeNetworkingState :=
  node ← wrap "get node" (sqlite_GetNode nodeID);
  peer ← try (sqlite_GetWireGuardPeerByOwner PeerOwnerNode nodeID);
  sessions ← wrap "list bgp sessions" (sqlite_ListBGPSessions nodeID (mkListParams 0 1000 ""));
  mret (mkNodeNetworkingState nodeID (node_WireGuardIP node)
          (match peer with Ok p => Some p | Err _ => None end) sessions.1).

(** ** Keys *)

Context (o : Outside).

Definition net_Encrypt (plaintext : string) : stM PEnv string :=
  nonce ← rand o NonceSize; lift (Encrypt nonce (ns_secrets n) plaintext).

Definition with_keys (pub priv psk : string) (t : Time) (p : WireGuardPeer) : WireGuardPeer :=
  mkWireGuardPeer (peer_ID p) (peer_OwnerType p) (peer_OwnerID p) pub priv psk (peer_AllowedIPs p)
    (peer_Endpoint p) t (peer_CreatedAt p) t.

Definition RotateWireGuardKeys (peerID : ID) : stM PEnv WireGuardPeer :=
  peer ← wrap "get wireguard peer" (db (sqlite_GetWireGuardPeer peerID));
  kp ← wrap "generate new wireguard keypair" (GenerateWireGuardKeyPair o);
  encPriv ← wrap "encrypt new private key" (net_Encrypt (kp_PrivateKey kp));
  psk ← wrap "generate new preshared key" (GeneratePresharedKey o);
  encPSK ← wrap "encrypt new preshared key" (net_Encrypt psk);
  t ← now o;
  let peer := with_keys (kp_PublicKey kp) encPriv encPSK t peer in
  updated ← now o;
  _ ← wrap "update wireguard peer" (db (sqlite_UpdateWireGuardPeer updated peer));
  mret (mkWireGuardPeer (peer_ID peer) (peer_OwnerType peer) (peer_OwnerID peer) (peer_PublicKey peer) "" ""
          (peer_AllowedIPs peer) (peer_Endpoint peer) t (peer_CreatedAt peer) updated).

(** *** bootstrap.go *)

Definition BootstrapControllerPeer (controllerID : ID) : stM PEnv WireGuardPeer :=
  existing ← try (db (sqlite_GetWireGuardPeerByOwner PeerOwnerController controllerID));
  match existing with
  | Ok peer => mret peer
  | Err err =>
      if negb (bool_decide (err = ErrNotFound)) then throw (Wrapf "check controller peer" err)
      else
        kp ← wrap "generate wireguard keys" (GenerateWireGuardKeyPair o);
        psk ← wrap "generate preshared key" (GeneratePresharedKey o);
        encPriv ← wrap "encrypt private key" (net_Encrypt (kp_PrivateKey kp));
        encPSK ← wrap "encrypt preshared key" (net_Encrypt psk);
        id ← NewID o;
        let endpoint := if 0 <? wg_ListenPort (ns_wgConfig n) then ":" +:+ Itoa (wg_ListenPort (ns_wgConfig n)) else "" in
        wrap "create controller peer" (db_now o (fun created => sqlite_CreateWireGuardPeer created
          (mkWireGuardPeer id PeerOwnerController controllerID (kp_PublicKey kp) encPriv encPSK
             [wg_Subnet (ns_wgConfig n)] endpoint 0 0 0)))
  end.
End wireguard.
