(* ===== verification/InventoryTheorems.v ===== *)
(** * Inventory: referential integrity of the fleet, route and networking tables *)

From Stdlib Require Import ZArith Lia String.
From S2P Require Import Prelude GoStrings GoNet Domain Storage StoreFleet StoreProvision StoreAccess DnsService.
From S2P Require Import StoreInventory Events Fleet RouteService Secrets Provisioner Networking.

Open Scope Z_scope.

(** ** Tables keyed by a column *)

Definition table {V} (id : V -> ID) (P : V -> Prop) (m : gmap ID V) : Prop := map_Forall (fun k v => id v = k /\ P v) m.
Definition refers {V} (m : gmap ID V) (k : ID) : Prop := is_Some (m !! k).
Definition refers_opt {V} (m : gmap ID V) (k : option ID) : Prop := forall i, k = Some i -> refers m i.
(** A reference that counts only where [refs] says so. *)
Definition points {V} (refs : bool) (m : gmap ID V) (k : ID) : Prop := refs = true -> refers m k.
Definition points_opt {V} (refs : bool) (m : gmap ID V) (k : option ID) : Prop := forall i, k = Some i -> points refs m i.

Section tables.
Context {V : Type} (id : V -> ID).
Implicit Types (P : V -> Prop) (m : gmap ID V).

Lemma table_insert P m v : table id P m -> P v -> table id P (<[id v := v]> m).
Proof. intros Hm Hv. apply map_Forall_insert_2; auto. Qed.
Lemma table_alter P m f k :
  table id P m -> (forall v, m !! k = Some v -> P v -> id (f v) = id v /\ P (f v)) -> table id P (alter f k m).
Proof.
  intros Hm Hf j v [[<- (w & Hw & ->)]|[_ Hj]]%lookup_alter_Some; [|by apply Hm].
  destruct (Hm _ _ Hw) as [<- Hp]. by apply Hf.
Qed.
Lemma table_delete P m k : table id P m -> table id P (delete k m).
Proof. apply map_Forall_delete. Qed.
Lemma table_mono P Q m : table id P m -> (forall k v, m !! k = Some v -> P v -> Q v) -> table id Q m.
Proof. intros Hm Hpq k v Hk. destruct (Hm _ _ Hk) as [? ?]. split; [done|by eapply Hpq]. Qed.

Lemma refers_insert m k v i : refers m i -> refers (<[k := v]> m) i.
Proof.
  intros H. unfold refers. destruct (decide (k = i)) as [<-|Hne]; [rewrite lookup_insert_eq; eauto|by rewrite lookup_insert_ne].
Qed.
Lemma refers_alter m f k i : refers m i -> refers (alter f k m) i.
Proof. apply lookup_alter_is_Some. Qed.
Lemma refers_delete m k i : refers m i -> i <> k -> refers (delete k m) i.
Proof. intros H Hne. unfold refers. by rewrite lookup_delete_ne. Qed.
Lemma refers_opt_mono {W} m (m' : gmap ID W) k : (forall i, refers m i -> refers m' i) -> refers_opt m k -> refers_opt m' k.
Proof. intros Hm Hk i Hi. auto. Qed.
Lemma has_key_refers m k : has_key m k = true <-> refers m k.
Proof. apply bool_decide_eq_true. Qed.
Lemma fk_opt_refers m k : fk_opt m k = true <-> refers_opt m k.
Proof.
  unfold fk_opt, refers_opt. destruct k as [k|]; [|naive_solver]. rewrite has_key_refers. naive_solver.
Qed.
End tables.

Section pointing.
Context {V : Type} (refs : bool).
Implicit Types m : gmap ID V.
Lemma points_insert m k v i : points refs m i -> points refs (<[k := v]> m) i.
Proof. intros H Hr. apply refers_insert. auto. Qed.
Lemma points_alter m f k i : points refs m i -> points refs (alter f k m) i.
Proof. intros H Hr. apply refers_alter. auto. Qed.
Lemma points_delete m k i : points refs m i -> (refs = true -> i <> k) -> points refs (delete k m) i.
Proof. intros H Hne Hr. apply refers_delete; auto. Qed.
Lemma points_opt_mono {W} m (m' : gmap ID W) k : (forall i, points refs m i -> points refs m' i) -> points_opt refs m k -> points_opt refs m' k.
Proof. intros Hm Hk i Hi. auto. Qed.
Lemma points_key m k : (refs = true -> has_key m k = true) -> points refs m k.
Proof. intros H Hr. apply has_key_refers. auto. Qed.
Lemma points_fk m k : (refs = true -> fk_opt m k = true) -> points_opt refs m k.
Proof. intros H i -> Hr. exact (proj1 (fk_opt_refers m (Some i)) (H Hr) i eq_refl). Qed.
End pointing.

Lemma no_row {V} (m : gmap ID V) (P : V -> Prop) `{!forall v, Decision (P v)} :
  negb (any_row m (fun v => bool_decide (P v))) = true -> forall k v, m !! k = Some v -> ~ P v.
Proof.
  intros Hn%negb_true_iff k v Hk. apply (existsb_false _ _ v) in Hn; [by apply bool_decide_eq_false in Hn|].
  apply elem_of_rows. eauto.
Qed.

(** ** The invariant *)

(** What [validateRoute] accepts. *)
Definition port_ok (icmp : Prop) (p : option Z) : Prop :=
  (icmp /\ p = None) \/ (~ icmp /\ exists z, p = Some z /\ 1 <= z <= 65535).
Record route_ok (r : Route) : Prop := {
  ro_name : route_Name r <> "" /\ (String.length (route_Name r) <= 255)%nat;
  ro_protocol : route_Protocol r ∈ [RouteProtocolTCP; RouteProtocolUDP; RouteProtocolICMP; RouteProtocolAll];
  ro_entry : is_Some (ParseIP (route_EntryIP r)) /\ port_ok (route_Protocol r = RouteProtocolICMP) (route_EntryPort r);
  ro_destination : is_Some (ParseIP (route_DestinationIP r)) /\
    port_ok (route_Protocol r = RouteProtocolICMP) (route_DestinationPort r)
}.

Record inventory_inv (d : DB) : Prop := {
  ii_nodes : table node_ID (fun n => refers_opt (tenants d) (node_TenantID n) /\ refers_opt (ssh_keys d) (node_SSHKeyID n)) (nodes d);
  ii_groups : table ng_ID (fun g => refers (tenants d) (ng_TenantID g)) (node_groups d);
  ii_members g n : (g, n) ∈ node_group_memberships d -> refers (node_groups d) g /\ refers (nodes d) n;
  ii_gateways : table gw_ID (fun g => refers (tenants d) (gw_TenantID g)) (gateways d);
  ii_routes : table route_ID (fun r => route_ok r /\ refers (tenants d) (route_TenantID r) /\
    refers (gateways d) (route_GatewayID r) /\ refers_opt (node_groups d) (route_NodeGroupID r)) (routes d);
  ii_bgp : table bgp_ID (fun b => is_Some (ParseIP (bgp_PeerAddress b)) /\ NoDup (bgp_AnnouncedPrefixes b) /\
    refers (nodes d) (bgp_NodeID b)) (bgp_sessions d);
  ii_allocations : table ipa_ID (fun a => is_Some (ParseCIDR (ipa_Prefix a)) /\ ipa_Type a <> "" /\ ipa_Purpose a <> "" /\
    refers (tenants d) (ipa_TenantID a)) (ip_allocations d);
  ii_keys : table sshkey_ID (fun _ => True) (ssh_keys d)
}.

(** The same, with references part of it only where [refs] says so. *)
Record inventory_at (refs : bool) (d : DB) : Prop := {
  ia_nodes : table node_ID (fun n => points_opt refs (tenants d) (node_TenantID n) /\ points_opt refs (ssh_keys d) (node_SSHKeyID n)) (nodes d);
  ia_groups : table ng_ID (fun g => points refs (tenants d) (ng_TenantID g)) (node_groups d);
  ia_members g n : (g, n) ∈ node_group_memberships d -> points refs (node_groups d) g /\ points refs (nodes d) n;
  ia_gateways : table gw_ID (fun g => points refs (tenants d) (gw_TenantID g)) (gateways d);
  ia_routes : table route_ID (fun r => route_ok r /\ points refs (tenants d) (route_TenantID r) /\
    points refs (gateways d) (route_GatewayID r) /\ points_opt refs (node_groups d) (route_NodeGroupID r)) (routes d);
  ia_bgp : table bgp_ID (fun b => is_Some (ParseIP (bgp_PeerAddress b)) /\ NoDup (bgp_AnnouncedPrefixes b) /\
    points refs (nodes d) (bgp_NodeID b)) (bgp_sessions d);
  ia_allocations : table ipa_ID (fun a => is_Some (ParseCIDR (ipa_Prefix a)) /\ ipa_Type a <> "" /\ ipa_Purpose a <> "" /\
    points refs (tenants d) (ipa_TenantID a)) (ip_allocations d);
  ia_keys : table sshkey_ID (fun _ => True) (ssh_keys d)
}.

Lemma inventory_at_true d : inventory_at true d <-> inventory_inv d.
Proof.
  assert (H1 : forall V (m : gmap ID V) k, points true m k <-> refers m k) by (unfold points; tauto).
  assert (H2 : forall V (m : gmap ID V) k, points_opt true m k <-> refers_opt m k).
  { intros. unfold points_opt, refers_opt. by setoid_rewrite H1. }
  split; intros [Hn Hg Hm Hgw Hr Hb Ha Hk]; split; try done;
    try (eapply table_mono; [eassumption|]; cbn; intros ? ?; rewrite ?H1, ?H2; tauto);
    intros g n Hgn; specialize (Hm g n Hgn); by rewrite !H1 in *.
Qed.

Lemma inventory_at_weaken d : inventory_at true d -> inventory_at false d.
Proof.
  intros [Hn Hg Hm Hgw Hr Hb Ha Hk]. split; try done; try (eapply table_mono; [eassumption|]; cbn; intros; destruct_and?; split_and?; done).
Qed.

Lemma validate_port_Ok what (P : Prop) `{!Decision P} p :
  validate_port what (bool_decide P) p = Ok tt -> port_ok P p.
Proof.
  unfold validate_port, port_ok. case_bool_decide as HP.
  - intros Hp%guard_Ok%bool_decide_eq_true. auto.
  - destruct p as [z|]; [|done]. intros Hz%guard_Ok. right. split; [done|]. exists z. split; [done|].
    apply negb_true_iff, orb_false_iff in Hz as [?%Z.ltb_ge ?%Z.ltb_ge]. lia.
Qed.

Lemma validateRoute_Ok r : validateRoute r = Ok tt -> route_ok r.
Proof.
  unfold validateRoute. cbv zeta. intros Hv.
  apply rbind_Ok in Hv as ([] & Hname%guard_Ok & Hv). apply rbind_Ok in Hv as ([] & Hlen%guard_Ok & Hv).
  apply rbind_Ok in Hv as ([] & Hpr%guard_Ok & Hv). apply rbind_Ok in Hv as ([] & He%guard_Ok & Hv).
  apply rbind_Ok in Hv as ([] & Hep & Hv). apply rbind_Ok in Hv as ([] & Hd%guard_Ok & Hdp).
  apply validate_port_Ok in Hep, Hdp. apply bool_decide_eq_true in Hpr, He, Hd.
  apply negb_true_iff, bool_decide_eq_false in Hname. apply negb_true_iff, Nat.ltb_ge in Hlen. split; auto.
Qed.

(** Statements that do not touch the tables of the invariant, except that
    tenants may be added. *)
Definition inventory_same (d d' : DB) : Prop :=
  nodes d' = nodes d /\ node_groups d' = node_groups d /\ node_group_memberships d' = node_group_memberships d /\
  gateways d' = gateways d /\ routes d' = routes d /\ bgp_sessions d' = bgp_sessions d /\
  ip_allocations d' = ip_allocations d /\ ssh_keys d' = ssh_keys d /\ forall t, refers (tenants d) t -> refers (tenants d') t.

Lemma inventory_at_same refs d d' : inventory_same d d' -> inventory_at refs d -> inventory_at refs d'.
Proof.
  intros (En & Eg & Em & Egw & Er & Eb & Ea & Ek & Ht) [Hn Hg Hm Hgw Hr Hb Ha Hk].
  assert (Ht' : forall t, points refs (tenants d) t -> points refs (tenants d') t) by (intros t H Hrefs; auto).
  split; rewrite ?En, ?Eg, ?Em, ?Egw, ?Er, ?Eb, ?Ea, ?Ek; try done;
    (eapply table_mono; [eassumption|]); cbn; intros; destruct_and?; split_and?; eauto using points_opt_mono.
Qed.

Lemma inventory_inv_same d d' : inventory_same d d' -> inventory_inv d -> inventory_inv d'.
Proof. intros Hs Hi. apply inventory_at_true. apply inventory_at_true in Hi. by eapply inventory_at_same. Qed.

(** ** Writes to the tables *)

Section writes.
Context (refs : bool) (d : DB) (Hi : inventory_at refs d).

Ltac crush :=
  first [ assumption
        | solve [eapply table_mono; [eassumption|]; cbn; intros; destruct_and?; split_and?;
          eauto using points_opt_mono, points_insert, points_alter, points_delete] ].

Lemma put_node n :
  points_opt refs (tenants d) (node_TenantID n) -> points_opt refs (ssh_keys d) (node_SSHKeyID n) ->
  inventory_at refs (upd_nodes (<[node_ID n := n]>) d).
Proof using Hi.
  intros Ht Hk. destruct Hi as [Hn Hg Hm Hgw Hr Hb Ha Hks]. split; cbn; try crush.
  - by apply table_insert.
  - intros g m [? ?]%Hm. eauto using points_insert.
Qed.

Lemma touch_node f k :
  (forall n, node_ID (f n) = node_ID n /\ node_TenantID (f n) = node_TenantID n /\ node_SSHKeyID (f n) = node_SSHKeyID n) ->
  inventory_at refs (upd_nodes (alter f k) d).
Proof using Hi.
  intros Hf. destruct Hi as [Hn Hg Hm Hgw Hr Hb Ha Hks]. split; cbn; try crush.
  - apply table_alter; [done|]. intros n _ [? ?]. destruct (Hf n) as (-> & -> & ->). done.
  - intros g m [? ?]%Hm. eauto using points_alter.
Qed.

Lemma drop_node k :
  (refs = true -> forall i b, bgp_sessions d !! i = Some b -> bgp_NodeID b <> k) ->
  inventory_at refs (upd_nodes (delete k) (upd_node_group_memberships (filter (fun gn => gn.2 <> k)) d)).
Proof using Hi.
  intros Hb0. destruct Hi as [Hn Hg Hm Hgw Hr Hb Ha Hks]. split; cbn; try crush.
  - by apply table_delete.
  - intros g m [Hne [? ?]%Hm]%elem_of_filter. cbn in Hne. eauto using points_delete.
Qed.

(** Without cascades, where references do not count. *)
Lemma drop_node_only k : refs = false -> inventory_at refs (upd_nodes (delete k) d).
Proof using Hi.
  intros Hrefs. assert (Hp : forall V (m : gmap ID V) i, points refs m i) by (unfold points; congruence).
  destruct Hi as [Hn Hg Hm Hgw Hr Hb Ha Hks]. split; cbn; try crush; [by apply table_delete|by intros g m _; split].
Qed.

Lemma drop_group_only k : refs = false -> inventory_at refs (upd_node_groups (delete k) d).
Proof using Hi.
  intros Hrefs. assert (Hp : forall V (m : gmap ID V) i, points refs m i) by (unfold points; congruence).
  destruct Hi as [Hn Hg Hm Hgw Hr Hb Ha Hks]. split; cbn; try crush; [by apply table_delete|by intros g m _; split].
Qed.

Lemma put_group g : points refs (tenants d) (ng_TenantID g) -> inventory_at refs (upd_node_groups (<[ng_ID g := g]>) d).
Proof using Hi.
  intros Ht. destruct Hi as [Hn Hg Hm Hgw Hr Hb Ha Hks]. split; cbn; try crush.
  - by apply table_insert.
  - intros g' m [? ?]%Hm. eauto using points_insert.
Qed.

Lemma drop_group k :
  (refs = true -> forall i r, routes d !! i = Some r -> route_NodeGroupID r <> Some k) ->
  inventory_at refs (upd_node_groups (delete k) (upd_node_group_memberships (filter (fun gn => gn.1 <> k)) d)).
Proof using Hi.
  intros Hr0. destruct Hi as [Hn Hg Hm Hgw Hr Hb Ha Hks]. split; cbn; try crush.
  - by apply table_delete.
  - intros g m [Hne [? ?]%Hm]%elem_of_filter. cbn in Hne. eauto using points_delete.
  - eapply table_mono; [exact Hr|]. cbn. intros i r Hri (? & ? & ? & Hgr). split_and!; [done..|].
    intros j Hj. apply points_delete; [by apply Hgr|]. intros Hrefs ->. by eapply (Hr0 Hrefs).
Qed.

Lemma add_member g n : points refs (node_groups d) g -> points refs (nodes d) n ->
  inventory_at refs (upd_node_group_memberships (fun m => {[(g, n)]} ∪ m) d).
Proof using Hi.
  intros Hg0 Hn0. destruct Hi as [Hn Hg Hm Hgw Hr Hb Ha Hks]. split; cbn; try crush.
  intros g' m [[= -> ->]%elem_of_singleton|?%Hm]%elem_of_union; done.
Qed.

Lemma drop_member g n : inventory_at refs (upd_node_group_memberships (fun m => m ∖ {[(g, n)]}) d).
Proof using Hi.
  destruct Hi as [Hn Hg Hm Hgw Hr Hb Ha Hks]. split; cbn; try crush. by intros g' m [?%Hm _]%elem_of_difference.
Qed.

Lemma put_gateway g : points refs (tenants d) (gw_TenantID g) -> inventory_at refs (upd_gateways (<[gw_ID g := g]>) d).
Proof using Hi.
  intros Ht. destruct Hi as [Hn Hg Hm Hgw Hr Hb Ha Hks]. split; cbn; try crush. by apply table_insert.
Qed.

Lemma touch_gateway f k :
  (forall g, gw_ID (f g) = gw_ID g /\ gw_TenantID (f g) = gw_TenantID g) -> inventory_at refs (upd_gateways (alter f k) d).
Proof using Hi.
  intros Hf. destruct Hi as [Hn Hg Hm Hgw Hr Hb Ha Hks]. split; cbn; try crush.
  apply table_alter; [done|]. intros g _ ?. by destruct (Hf g) as [-> ->].
Qed.

Lemma drop_gateway k :
  (refs = true -> forall i r, routes d !! i = Some r -> route_GatewayID r <> k) -> inventory_at refs (upd_gateways (delete k) d).
Proof using Hi.
  intros Hr0. destruct Hi as [Hn Hg Hm Hgw Hr Hb Ha Hks]. split; cbn; try crush. by apply table_delete.
Qed.

Lemma put_route r : route_ok r -> points refs (tenants d) (route_TenantID r) -> points refs (gateways d) (route_GatewayID r) ->
  points_opt refs (node_groups d) (route_NodeGroupID r) -> inventory_at refs (upd_routes (<[route_ID r := r]>) d).
Proof using Hi.
  intros. destruct Hi as [Hn Hg Hm Hgw Hr Hb Ha Hks]. split; cbn; try crush. by apply table_insert.
Qed.

Lemma touch_route f k :
  (forall r, routes d !! k = Some r -> route_ID (f r) = route_ID r /\ route_TenantID (f r) = route_TenantID r /\
     route_ok (f r) /\ points refs (gateways d) (route_GatewayID (f r)) /\ points_opt refs (node_groups d) (route_NodeGroupID (f r))) ->
  inventory_at refs (upd_routes (alter f k) d).
Proof using Hi.
  intros Hf. destruct Hi as [Hn Hg Hm Hgw Hr Hb Ha Hks]. split; cbn; try crush.
  apply table_alter; [done|]. intros r Hr0 (? & ? & ? & ?). destruct (Hf r Hr0) as (-> & -> & ? & ? & ?). done.
Qed.

Lemma drop_route k : inventory_at refs (upd_routes (delete k) d).
Proof using Hi. destruct Hi. split; cbn; try assumption. by apply table_delete. Qed.

Lemma put_bgp b : is_Some (ParseIP (bgp_PeerAddress b)) -> NoDup (bgp_AnnouncedPrefixes b) -> points refs (nodes d) (bgp_NodeID b) ->
  inventory_at refs (upd_bgp_sessions (<[bgp_ID b := b]>) d).
Proof using Hi. intros. destruct Hi. split; cbn; try assumption. by apply table_insert. Qed.

Lemma touch_bgp f k :
  (forall b, bgp_sessions d !! k = Some b -> bgp_ID (f b) = bgp_ID b /\ bgp_NodeID (f b) = bgp_NodeID b /\
     is_Some (ParseIP (bgp_PeerAddress (f b))) /\ NoDup (bgp_AnnouncedPrefixes (f b))) ->
  inventory_at refs (upd_bgp_sessions (alter f k) d).
Proof using Hi.
  intros Hf. destruct Hi. split; cbn; try assumption.
  apply table_alter; [done|]. intros b Hb0 (? & ? & ?). destruct (Hf b Hb0) as (-> & -> & ? & ?). done.
Qed.

Lemma drop_bgp k : inventory_at refs (upd_bgp_sessions (delete k) d).
Proof using Hi. destruct Hi. split; cbn; try assumption. by apply table_delete. Qed.

Lemma put_allocation a :
  is_Some (ParseCIDR (ipa_Prefix a)) -> ipa_Type a <> "" -> ipa_Purpose a <> "" -> points refs (tenants d) (ipa_TenantID a) ->
  inventory_at refs (upd_ip_allocations (<[ipa_ID a := a]>) d).
Proof using Hi. intros. destruct Hi. split; cbn; try assumption. by apply table_insert. Qed.

Lemma touch_allocation f k :
  (forall a, ip_allocations d !! k = Some a -> ipa_ID (f a) = ipa_ID a /\ ipa_TenantID (f a) = ipa_TenantID a /\
     is_Some (ParseCIDR (ipa_Prefix (f a))) /\ ipa_Type (f a) <> "" /\ ipa_Purpose (f a) <> "") ->
  inventory_at refs (upd_ip_allocations (alter f k) d).
Proof using Hi.
  intros Hf. destruct Hi. split; cbn; try assumption.
  apply table_alter; [done|]. intros a Ha0 (? & ? & ? & ?). destruct (Hf a Ha0) as (-> & -> & ? & ? & ?). done.
Qed.

Lemma drop_allocation k : inventory_at refs (upd_ip_allocations (delete k) d).
Proof using Hi. destruct Hi. split; cbn; try assumption. by apply table_delete. Qed.

Lemma put_sshkey k : inventory_at refs (upd_ssh_keys (<[sshkey_ID k := k]>) d).
Proof using Hi.
  destruct Hi as [Hn Hg Hm Hgw Hr Hb Ha Hks]. split; cbn; try crush. by apply table_insert.
Qed.

Lemma drop_sshkey k :
  (refs = true -> forall i n, nodes d !! i = Some n -> node_SSHKeyID n <> Some k) -> inventory_at refs (upd_ssh_keys (delete k) d).
Proof using Hi.
  intros Hn0. destruct Hi as [Hn Hg Hm Hgw Hr Hb Ha Hks]. split; cbn; try crush; [|by apply table_delete].
  eapply table_mono; [exact Hn|]. cbn. intros i n Hni [? Hk]. split; [done|].
  intros j Hj. apply points_delete; [by apply Hk|]. intros Hrefs ->. by eapply (Hn0 Hrefs).
Qed.
End writes.

(** ** Operations *)

Inductive inventory_op :=
| OpCreateNode (newID : ID) (now : Time) (req : CreateNodeRequest)
| OpUpdateNode (id : ID) (now : Time) (req : UpdateNodeRequest)
| OpStoreNode (now : Time) (n : Node)
| OpDeleteNode (id : ID)
| OpNodeHeartbeat (id_String : ID -> string) (bus : bool) (id : ID) (now t : Time)
| OpNodeSync (now : Time) (id : ID)
| OpCreateGateway (newID : ID) (now : Time) (req : CreateGatewayRequest)
| OpUpdateGateway (id : ID) (now : Time) (req : UpdateGatewayRequest)
| OpDeleteGateway (id : ID)
| OpGatewayHeartbeat (id_String : ID -> string) (bus : bool) (id : ID) (now t : Time)
| OpGatewaySync (now : Time) (id : ID)
| OpCreateGroup (newID : ID) (now : Time) (req : CreateNodeGroupRequest)
| OpDeleteGroup (id : ID)
| OpAddNode (groupID nodeID : ID)
| OpRemoveNode (groupID nodeID : ID)
| OpCreateKey (now : Time) (k : SSHKey)
| OpDeleteKey (id : ID)
| OpCreateRoute (newID : ID) (now : Time) (req : CreateRouteRequest)
| OpUpdateRoute (id : ID) (now : Time) (req : UpdateRouteRequest)
| OpDeleteRoute (id : ID)
| OpCreateBGP (newID : ID) (now : Time) (req : CreateBGPSessionRequest)
| OpUpdateBGP (id : ID) (now : Time) (req : UpdateBGPSessionRequest)
| OpDeleteBGP (id : ID)
| OpCreateAllocation (newID : ID) (now : Time) (req : CreateIPAllocationRequest)
| OpUpdateAllocation (id : ID) (now : Time) (req : UpdateIPAllocationRequest)
| OpDeleteAllocation (id : ID).

Definition discard {A} (m : stM SqlState A) : stM SqlState unit := _ ← m; mret tt.

Definition run_inventory (op : inventory_op) : stM SqlState unit :=
  match op with
  | OpCreateNode i t req => discard (fleet_CreateNode i t req)
  | OpUpdateNode i t req => discard (fleet_UpdateNode i t req)
  | OpStoreNode t n => sqlite_UpdateNode t n
  | OpDeleteNode i => fleet_DeleteNode i
  | OpNodeHeartbeat str bus i now t => discard (RecordNodeHeartbeat str bus i now t)
  | OpNodeSync t i => sqlite_UpdateNodeConfigSync t i
  | OpCreateGateway i t req => discard (fleet_CreateGateway i t req)
  | OpUpdateGateway i t req => discard (fleet_UpdateGateway i t req)
  | OpDeleteGateway i => fleet_DeleteGateway i
  | OpGatewayHeartbeat str bus i now t => discard (RecordGatewayHeartbeat str bus i now t)
  | OpGatewaySync t i => sqlite_UpdateGatewayConfigSync t i
  | OpCreateGroup i t req => discard (fleet_CreateNodeGroup i t req)
  | OpDeleteGroup i => fleet_DeleteNodeGroup i
  | OpAddNode g n => fleet_AddNodeToGroup g n
  | OpRemoveNode g n => fleet_RemoveNodeFromGroup g n
  | OpCreateKey t k => discard (fleet_CreateSSHKey t k)
  | OpDeleteKey i => fleet_DeleteSSHKey i
  | OpCreateRoute i t req => discard (svc_CreateRoute i t req)
  | OpUpdateRoute i t req => discard (svc_UpdateRoute i t req)
  | OpDeleteRoute i => svc_DeleteRoute i
  | OpCreateBGP i t req => discard (net_CreateBGPSession i t req)
  | OpUpdateBGP i t req => discard (net_UpdateBGPSession i t req)
  | OpDeleteBGP i => net_DeleteBGPSession i
  | OpCreateAllocation i t req => discard (net_CreateIPAllocation i t req)
  | OpUpdateAllocation i t req => discard (net_UpdateIPAllocation i t req)
  | OpDeleteAllocation i => net_DeleteIPAllocation i
  end.

(** An operation, or statements of other components; with [enforced], on a connection
    that enforces foreign keys.  The next operation may get another connection. *)
Definition inventory_step (enforced : bool) (s s' : SqlState) : Prop :=
  (enforced = true -> sq_fk s = true) /\
  ((exists op r s1, run_inventory op s = (r, s1) /\ sq_db s' = sq_db s1) \/ inventory_same (sq_db s) (sq_db s')).

Section keeping.
Context (refs : bool).

(** [pres m]: every run of [m] keeps the invariant, where its references count only
    with foreign keys enforced. *)
Definition stays (s s' : SqlState) : Prop :=
  sq_fk s' = sq_fk s /\ ((refs = true -> sq_fk s = true) -> inventory_at refs (sq_db s) -> inventory_at refs (sq_db s')).
Definition pres {A} (m : stM SqlState A) : Prop := forall s r s', m s = (r, s') -> stays s s'.

Lemma stays_same s s' : sq_fk s' = sq_fk s -> sq_db s' = sq_db s -> stays s s'.
Proof using Type. intros Hf Hd. split; [exact Hf|]. by rewrite Hd. Qed.
Lemma stays_trans s1 s2 s3 : stays s1 s2 -> stays s2 s3 -> stays s1 s3.
Proof using Type. intros [Hf H] [Hf' H']. split; [congruence|]. intros Hfk Hi. apply H'; [by rewrite Hf|auto]. Qed.

Lemma pres_reader {A} (m : stM SqlState A) f : reader m f -> pres m.
Proof using Type. intros Hm s r s' [? ?]%(rd_same _ _ Hm). by apply stays_same. Qed.
Lemma pres_bind {A B} (m : stM SqlState A) (k : A -> stM SqlState B) : pres m -> (forall a, pres (k a)) -> pres (m ≫= k).
Proof using Type.
  intros Hm Hk s r s' [(a & s1 & H1 & H2)|(e & H1 & _)]%bind_run; [|by eapply Hm].
  eapply stays_trans; [by eapply Hm|by eapply Hk].
Qed.
Lemma pres_wrap {A} msg (m : stM SqlState A) : pres m -> pres (wrap msg m).
Proof using Type. intros Hm s r s' [(a & H & _)|(e & H & _)]%wrap_run; by eapply Hm. Qed.
Lemma pres_try {A} (m : stM SqlState A) : pres m -> pres (try m).
Proof using Type. intros Hm s r s'. unfold try. destruct (m s) eqn:E. intros [= _ <-]. by eapply Hm. Qed.
Lemma pres_discard {A} (m : stM SqlState A) : pres m -> pres (discard m).
Proof using Type. intros Hm. apply pres_bind; [done|]. intros _. eapply pres_reader, reader_ret. Qed.

(** The rules of the three kinds of statements. *)
Lemma pres_insert {A} msg dup ex fks put (v : A) :
  (forall d, inventory_at refs d -> (refs = true -> fks d = true) -> inventory_at refs (put d)) -> pres (sql_insert msg dup ex fks put v).
Proof using Type.
  intros Hp s r s' Hrun. split; [by eapply sql_exec_fk|]. intros Hfk Hi. apply sql_insert_inv in Hrun.
  destruct r; [|by rewrite Hrun]. destruct Hrun as (_ & _ & Hf & ->). auto.
Qed.
Lemma pres_update {A} msg ex fks put (v : A) :
  (forall d, inventory_at refs d -> ex d = true -> (refs = true -> fks d = true) -> inventory_at refs (put d)) -> pres (sql_update msg ex fks put v).
Proof using Type.
  intros Hp s r s' Hrun. split; [by eapply sql_exec_fk|]. intros Hfk Hi. apply sql_update_fk_inv in Hrun.
  destruct r; [|by rewrite Hrun]. destruct Hrun as (_ & Hex & Hf & ->). auto.
Qed.

(** ** Every statement keeps the invariant *)

(** What a statement has checked, where it counts. *)
Lemma fk_checked (fk b : bool) : fk && negb b = false -> (refs = true -> fk = true) -> refs = true -> b = true.
Proof using Type. intros Hb Hfk Hr. rewrite (Hfk Hr) in Hb. by destruct b. Qed.
Lemma checked_both (a b : bool) : (refs = true -> a && b = true) -> (refs = true -> a = true) /\ (refs = true -> b = true).
Proof using Type. intros H. split; intros Hr; by destruct (proj1 (andb_true_iff a b) (H Hr)). Qed.

Lemma pres_CreateNode t n : pres (sqlite_CreateNode t n).
Proof using Type.
  intros s r s' Hrun. split; [by eapply sql_exec_fk|]. intros Hfk Hi. revert Hrun. unfold sqlite_CreateNode, sql_exec.
  destruct (sq_fault s); [by intros [= _ <-]|]. destruct (has_key _ _); [by intros [= _ <-]|].
  destruct (sq_fk s && _) eqn:Hc; [by intros [= _ <-]|]. destruct (checked_both _ _ (fk_checked _ _ Hc Hfk)) as [Ht Hk].
  case_bool_decide; cbn [negb]; intros [= _ <-]; [|done]. cbn. apply points_fk in Ht, Hk. by apply (put_node _ _ Hi (new_node t n)).
Qed.

Lemma pres_UpdateNode t n : pres (sqlite_UpdateNode t n).
Proof using Type.
  intros s r s' Hrun. split; [by eapply sql_exec_fk|]. intros Hfk Hi. revert Hrun. unfold sqlite_UpdateNode, sql_exec.
  destruct (sq_fault s); [by intros [= _ <-]|]. destruct (nodes (sq_db s) !! node_ID n) as [old|] eqn:Hold; [|by intros [= _ <-]].
  destruct (sq_fk s && _) eqn:Hc; [by intros [= _ <-]|]. destruct (checked_both _ _ (fk_checked _ _ Hc Hfk)) as [Ht Hk].
  case_bool_decide; cbn [negb]; intros [= _ <-]; [|done]. cbn. apply points_fk in Ht, Hk.
  destruct (ia_nodes _ _ Hi _ _ Hold) as [Hid _]. rewrite <-Hid. by apply (put_node _ _ Hi (merge_node t n old)).
Qed.

Lemma not_enforced : (refs = true -> false = true) -> refs = false.
Proof using Type. intros H. destruct (Bool.bool_dec refs true) as [Hr|Hr]; [discriminate (H Hr)|by apply not_true_is_false]. Qed.

Lemma pres_DeleteNode i : pres (sqlite_DeleteNode i).
Proof using Type.
  intros s r s' Hrun. split; [by eapply sql_exec_fk|]. intros Hfk Hi.
  apply sql_update_fk_inv in Hrun. destruct r; [|by rewrite Hrun]. destruct Hrun as (_ & _ & Hf & ->).
  destruct (sq_fk s) eqn:E; [|by apply drop_node_only, not_enforced].
  apply andb_true_iff in Hf as [Hf _]; [|done]. apply drop_node; [done|]. intros _. exact (no_row _ _ Hf).
Qed.

Lemma pres_DeleteNodeGroup i : pres (sqlite_DeleteNodeGroup i).
Proof using Type.
  intros s r s' Hrun. split; [by eapply sql_exec_fk|]. intros Hfk Hi.
  apply sql_update_fk_inv in Hrun. destruct r; [|by rewrite Hrun]. destruct Hrun as (_ & _ & Hf & ->).
  destruct (sq_fk s) eqn:E; [|by apply drop_group_only, not_enforced].
  apply andb_true_iff in Hf as [_ Hf]; [|done]. apply drop_group; [done|]. intros _. exact (no_row _ _ Hf).
Qed.

Lemma pres_node_touch msg f i :
  (forall n, node_ID (f n) = node_ID n /\ node_TenantID (f n) = node_TenantID n /\ node_SSHKeyID (f n) = node_SSHKeyID n) ->
  pres (sql_update msg (fun d => has_key (nodes d) i) (fun _ => true) (upd_nodes (alter f i)) tt).
Proof using Type. intros Hf. apply pres_update. intros d Hi _ _. by apply touch_node. Qed.

Lemma pres_gateway_touch msg f i :
  (forall g, gw_ID (f g) = gw_ID g /\ gw_TenantID (f g) = gw_TenantID g) ->
  pres (sql_update msg (fun d => has_key (gateways d) i) (fun _ => true) (upd_gateways (alter f i)) tt).
Proof using Type. intros Hf. apply pres_update. intros d Hi _ _. by apply touch_gateway. Qed.

Lemma pres_GetNode i : pres (sqlite_GetNode i).
Proof using Type. eapply pres_reader, reader_query. Qed.
Lemma pres_GetGateway i : pres (sqlite_GetGateway i).
Proof using Type. eapply pres_reader, reader_query. Qed.
Lemma pres_GetNodeGroup i : pres (sqlite_GetNodeGroup i).
Proof using Type. eapply pres_reader, reader_query. Qed.
Lemma pres_GetRoute i : pres (sqlite_GetRoute i).
Proof using Type. eapply pres_reader, reader_query. Qed.
Lemma pres_lift {A} (x : result A) : pres (lift x).
Proof using Type. eapply pres_reader, reader_lift. Qed.
Lemma pres_ret {A} (a : A) : pres (mret a).
Proof using Type. eapply pres_reader, reader_ret. Qed.

Lemma pres_CreateGateway t g : pres (sqlite_CreateGateway t g).
Proof using Type. apply pres_insert. intros d Hi Hf%points_key. by apply (put_gateway refs d Hi (new_gateway t g)). Qed.
Lemma pres_UpdateGateway t g : pres (sqlite_UpdateGateway t g).
Proof using Type. by apply pres_gateway_touch. Qed.
Lemma pres_CreateNodeGroup t g : pres (sqlite_CreateNodeGroup t g).
Proof using Type. apply pres_insert. intros d Hi Hf%points_key. by apply (put_group refs d Hi (new_group t g)). Qed.
Lemma pres_AddNodeToGroup g n : pres (sqlite_AddNodeToGroup g n).
Proof using Type. apply pres_insert. intros d Hi [Hg%points_key Hn%points_key]%checked_both. by apply add_member. Qed.
Lemma pres_CreateSSHKey t k : pres (sqlite_CreateSSHKey t k).
Proof using Type. apply pres_insert. intros d Hi _. by apply (put_sshkey refs d Hi (new_sshkey t k)). Qed.
Lemma pres_CreateIPAllocation t a :
  is_Some (ParseCIDR (ipa_Prefix a)) -> ipa_Type a <> "" -> ipa_Purpose a <> "" -> pres (sqlite_CreateIPAllocation t a).
Proof using Type. intros. apply pres_insert. intros d Hi Hf%points_key. by apply (put_allocation refs d Hi (new_allocation t a)). Qed.

Lemma pres_CreateRoute t r : route_ok r -> pres (sqlite_CreateRoute t r).
Proof using Type.
  intros [? ? ? ?]. apply pres_insert. intros d Hi [Ht%points_key [Hg%points_key Hn%points_fk]%checked_both]%checked_both.
  by apply (put_route refs d Hi (new_route t r)).
Qed.
Lemma pres_UpdateRoute t r : route_ok r -> pres (sqlite_UpdateRoute t r).
Proof using Type.
  intros [? ? ? ?]. apply pres_update. intros d Hi _ [Hg%points_key Hn%points_fk]%checked_both.
  apply touch_route; [done|]. intros old _. by split_and!.
Qed.

Lemma pres_CreateBGPSession t b : is_Some (ParseIP (bgp_PeerAddress b)) -> pres (sqlite_CreateBGPSession t b).
Proof using Type.
  intros Hip s r s' Hrun. split; [by eapply sql_exec_fk|]. intros Hfk Hi. revert Hrun. unfold sqlite_CreateBGPSession, sql_exec.
  destruct (sq_fault s); [by intros [= _ <-]|]. destruct (has_key (bgp_sessions _) _); [by intros [= _ <-]|].
  destruct (sq_fk s && _) eqn:Hc; [by intros [= _ <-]|]. pose proof (points_key _ _ _ (fk_checked _ _ Hc Hfk)) as Hn.
  case_bool_decide as Hnd; cbn [negb]; intros [= _ <-]; [|done]. cbn.
  by apply (put_bgp _ _ Hi (new_bgp t b)).
Qed.

Lemma pres_UpdateBGPSession t b :
  is_Some (ParseIP (bgp_PeerAddress b)) -> pres (sqlite_UpdateBGPSession t b).
Proof using Type.
  intros Hip s r s' Hrun. split; [by eapply sql_exec_fk|]. intros Hfk Hi. revert Hrun. unfold sqlite_UpdateBGPSession, sql_exec.
  destruct (sq_fault s); [by intros [= _ <-]|]. destruct (negb (has_key _ _)); [by intros [= _ <-]|].
  case_bool_decide as Hnd; cbn [negb]; intros [= _ <-]; [|done]. cbn. apply touch_bgp; [done|]. intros old _. by split_and!.
Qed.

(** ** Every operation keeps the invariant *)

Create HintDb pres.
#[local] Hint Resolve pres_CreateNode pres_UpdateNode pres_DeleteNode pres_DeleteNodeGroup pres_GetNode pres_GetGateway
  pres_GetNodeGroup pres_GetRoute pres_lift pres_ret pres_CreateGateway pres_UpdateGateway pres_CreateNodeGroup
  pres_AddNodeToGroup pres_CreateSSHKey pres_wrap pres_try pres_discard : pres.
#[local] Hint Extern 1 (pres (_ ≫= _)) => apply pres_bind : pres.
#[local] Hint Extern 2 (pres (if ?b then _ else _)) => destruct b : pres.

Lemma pres_heartbeats str bus i now t :
  pres (RecordNodeHeartbeat str bus i now t) /\ pres (RecordGatewayHeartbeat str bus i now t).
Proof using Type.
  unfold RecordNodeHeartbeat, RecordGatewayHeartbeat, previous_status. split.
  - apply pres_bind; [eauto 6 with pres|]. intros st. apply pres_bind; [by apply pres_node_touch|eauto with pres].
  - apply pres_bind; [eauto 6 with pres|]. intros st. apply pres_bind; [by apply pres_gateway_touch|eauto with pres].
Qed.

Lemma pres_svc_CreateRoute i t req : pres (svc_CreateRoute i t req).
Proof using Type.
  intros s r s' Hrun. unfold svc_CreateRoute in Hrun. cbv zeta in Hrun. step_run Hrun; [|by apply stays_same].
  destruct x. apply validateRoute_Ok in Hm.
  revert Hrun. apply pres_bind; [eauto with pres|]. intros _. by apply pres_wrap, pres_CreateRoute.
Qed.

Lemma pres_svc_UpdateRoute i t req : pres (svc_UpdateRoute i t req).
Proof using Type.
  unfold svc_UpdateRoute. apply pres_bind; [eauto with pres|]. intros r0. cbv zeta. intros s r s' Hrun.
  step_run Hrun; [|by apply stays_same]. destruct x. apply validateRoute_Ok in Hm.
  revert Hrun. apply pres_bind; [|intros _; by apply pres_wrap, pres_UpdateRoute].
  destruct (urt_GatewayID req); eauto with pres.
Qed.

Lemma get_row_Ok {V} (m : gmap ID V) k v : get_row m k = Ok v <-> m !! k = Some v.
Proof using Type. unfold get_row. destruct (m !! k); naive_solver. Qed.

Lemma pres_net_CreateBGPSession i t req : pres (net_CreateBGPSession i t req).
Proof using Type.
  unfold net_CreateBGPSession. apply pres_bind; [eauto with pres|]. intros _ s r s' Hrun.
  step_run Hrun; [|by apply stays_same]. unfold check_bgp_request in Hm.
  apply rbind_Ok in Hm as (_ & _ & Hm). apply rbind_Ok in Hm as (_ & _ & Hm).
  apply rbind_Ok in Hm as ([] & Hip%guard_Ok%bool_decide_eq_true & _).
  revert Hrun. by apply pres_wrap, pres_CreateBGPSession.
Qed.

(** An update that reads its row first. *)
Lemma pres_read {A B} (m : stM SqlState A) f (k : A -> stM SqlState B) :
  reader m f -> (forall d a s1 r s', inventory_at refs d -> f d = Ok a -> k a s1 = (r, s') -> stays s1 s') ->
  (forall a s1 r s', k a s1 = (r, s') -> sq_fk s' = sq_fk s1) -> pres (m ≫= k).
Proof using Type.
  intros Hm Hk Hfk s r s' Hrun. eapply reader_run in Hrun; [|done].
  destruct Hrun as [(a & s1 & Ha & Hd & Hf & Hrun)|(e & _ & Hd & Hf)]; [|by apply stays_same].
  split; [rewrite <-Hf; by eapply Hfk|]. intros Hfk1 Hi. destruct (Hk _ _ _ _ _ Hi Ha Hrun) as [_ Hst].
  apply Hst; [by rewrite Hf|by rewrite Hd].
Qed.

Lemma pres_net_UpdateBGPSession i t req : pres (net_UpdateBGPSession i t req).
Proof using Type.
  unfold net_UpdateBGPSession. eapply pres_read; [apply reader_query| |].
  - intros d b s r s' Hi Hb%get_row_Ok Hrun. destruct (ia_bgp _ _ Hi _ _ Hb) as (_ & Hip & _).
    step_run Hrun; [|by apply stays_same]. apply guard_Ok in Hm. revert Hrun. apply pres_wrap, pres_UpdateBGPSession. cbn.
    destruct (ubr_PeerAddress req); cbn; [by apply bool_decide_eq_true in Hm|done].
  - intros b s r s' Hrun. step_run Hrun; [|done].
    by apply wrap_run in Hrun as [(? & Hrun & _)|(? & Hrun & _)]; apply sql_exec_fk in Hrun.
Qed.

Lemma pres_net_CreateIPAllocation i t req : pres (net_CreateIPAllocation i t req).
Proof using Type.
  intros s r s' Hrun. unfold net_CreateIPAllocation in Hrun. step_run Hrun; [|by apply stays_same].
  unfold check_allocation in Hm. apply rbind_Ok in Hm as (_ & _ & Hm).
  apply rbind_Ok in Hm as ([] & Hp%guard_Ok%bool_decide_eq_true & Hm).
  apply rbind_Ok in Hm as ([] & Ht%guard_Ok%negb_true_iff%bool_decide_eq_false & Hu%guard_Ok%negb_true_iff%bool_decide_eq_false).
  revert Hrun. by apply pres_wrap, pres_CreateIPAllocation.
Qed.

Lemma pres_net_UpdateIPAllocation i t req : pres (net_UpdateIPAllocation i t req).
Proof using Type.
  unfold net_UpdateIPAllocation. eapply pres_read; [apply reader_query| |].
  - intros d a s r s' Hi Ha%get_row_Ok. destruct (ia_allocations _ _ Hi _ _ Ha) as (Hid & Hp & Ht & Hu & _).
    apply pres_wrap, pres_update. intros d' Hi' _ _. apply touch_allocation; [done|]. by intros old _.
  - intros a s r s' Hrun.
    by apply wrap_run in Hrun as [(? & Hrun & _)|(? & Hrun & _)]; apply sql_exec_fk in Hrun.
Qed.

Lemma run_inventory_pres op : pres (run_inventory op).
Proof using Type.
  destruct op; cbn [run_inventory]; try apply pres_discard;
    try solve [apply pres_node_touch; done | apply pres_gateway_touch; done | apply pres_heartbeats; done].
  - unfold fleet_CreateNode. eauto with pres.
  - unfold fleet_UpdateNode. eauto 6 with pres.
  - apply pres_UpdateNode.
  - apply pres_DeleteNode.
  - unfold fleet_CreateGateway. eauto with pres.
  - unfold fleet_UpdateGateway. eauto 6 with pres.
  - apply pres_update. intros d Hi _ Hf. apply drop_gateway; [done|]. intros Hr. exact (no_row _ _ (Hf Hr)).
  - unfold fleet_CreateNodeGroup. eauto with pres.
  - apply pres_DeleteNodeGroup.
  - unfold fleet_AddNodeToGroup. eauto with pres.
  - apply pres_update. intros d Hi _ _. by apply drop_member.
  - apply pres_CreateSSHKey.
  - apply pres_update. intros d Hi _ Hf. apply drop_sshkey; [done|]. intros Hr. exact (no_row _ _ (Hf Hr)).
  - apply pres_svc_CreateRoute.
  - apply pres_svc_UpdateRoute.
  - apply pres_update. intros d Hi _ _. by apply drop_route.
  - apply pres_net_CreateBGPSession.
  - apply pres_net_UpdateBGPSession.
  - apply pres_update. intros d Hi _ _. by apply drop_bgp.
  - apply pres_net_CreateIPAllocation.
  - apply pres_net_UpdateIPAllocation.
  - apply pres_update. intros d Hi _ _. by apply drop_allocation.
Qed.

End keeping.

Lemma inventory_reachable_at refs s s' :
  rtc (inventory_step refs) s s' -> inventory_at refs (sq_db s) -> inventory_at refs (sq_db s').
Proof.
  induction 1 as [|s1 s2 s3 [Hfk Hst] _ IH]; [done|]. intros Hi. apply IH.
  destruct Hst as [(op & r & s1' & Hrun & ->)|Hsame]; [|by eapply inventory_at_same].
  apply (run_inventory_pres refs op) in Hrun as [_ Hrun]. exact (Hrun Hfk Hi).
Qed.

Lemma inventory_reachable s s' : rtc (inventory_step true) s s' -> inventory_inv (sq_db s) -> inventory_inv (sq_db s').
Proof. intros Hst Hi. apply inventory_at_true. apply inventory_at_true in Hi. by eapply inventory_reachable_at. Qed.

Definition no_inventory (d : DB) : Prop :=
  nodes d = ∅ /\ node_groups d = ∅ /\ node_group_memberships d = ∅ /\ gateways d = ∅ /\ routes d = ∅ /\
  bgp_sessions d = ∅ /\ ip_allocations d = ∅ /\ ssh_keys d = ∅.

Lemma inventory_inv_empty d : no_inventory d -> inventory_inv d.
Proof.
  intros (En & Eg & Em & Egw & Er & Eb & Ea & Ek).
  split; rewrite ?En, ?Eg, ?Em, ?Egw, ?Er, ?Eb, ?Ea, ?Ek; try apply map_Forall_empty.
  by intros g n ?%elem_of_empty.
Qed.

(** ** Claims *)

(** C9: over every sequence of fleet, route and networking operations, with any
    failing statements and any statements of other components in between, rows are
    stored under their own ID, every stored route has a valid protocol with matching
    ports and addresses, and every BGP session and allocation a valid address.  If
    moreover each operation runs on a connection that enforces foreign keys, rows
    refer only to rows that exist (nodes, groups, gateways, routes and allocations to
    tenants, nodes to SSH keys, memberships to groups and nodes, routes to gateways
    and groups, BGP sessions to nodes). *)
Theorem inventory_invariant (s0 s : SqlState) : no_inventory (sq_db s0) ->
  (rtc (inventory_step false) s0 s -> inventory_at false (sq_db s)) /\
  (rtc (inventory_step true) s0 s -> inventory_inv (sq_db s)).
Proof.
  intros H0%inventory_inv_empty. split; intros Hst; [|exact (inventory_reachable _ _ Hst H0)].
  apply (inventory_reachable_at _ _ _ Hst), inventory_at_weaken, inventory_at_true, H0.
Qed.

(** A small deployment, built by the operations. *)
Definition run_ops (ops : list inventory_op) (s : SqlState) : SqlState :=
  fold_left (fun s op => (run_inventory op s).2) ops s.

Lemma run_ops_steps ops s : sq_fk s = true -> rtc (inventory_step true) s (run_ops ops s).
Proof.
  revert s. induction ops as [|op ops IH]; intros s Hfk; [apply rtc_refl|]. cbn. eapply rtc_l; [|apply IH].
  - split; [done|]. left. exists op. do 2 eexists. split; [apply surjective_pairing|reflexivity].
  - by rewrite (proj1 (run_inventory_pres true op s _ _ (surjective_pairing _))).
Qed.

Definition inv_start : SqlState :=
  mkSql (upd_tenants (fun _ => {[1%N := mkTenant 1 "acme" "acme" TenantStatusActive "" 0 0]}) emptyDB) true [].
Definition inv_ops : list inventory_op :=
  [OpCreateNode 3 1 (mkCreateNodeRequest (Some 1%N) "edge-1" "edge-1" "192.0.2.3" "eu" "" 0 "");
   OpCreateGroup 2 2 (mkCreateNodeGroupRequest 1 "eu" ""); OpAddNode 2 3;
   OpCreateGateway 4 3 (mkCreateGatewayRequest 1 "office" "198.51.100.9");
   OpCreateRoute 5 4 (mkCreateRouteRequest 1 "ssh" "tcp" "203.0.113.1" (Some 2222) 4 "10.1.0.5" (Some 22) (Some 2%N));
   OpCreateBGP 6 5 (mkCreateBGPSessionRequest 3 64500 "192.0.2.1" 64501 ["203.0.113.0/24"] "" "");
   OpCreateAllocation 7 6 (mkCreateIPAllocationRequest 1 "203.0.113.0/24" IPAllocationAnycast IPPurposeRoute);
   OpDeleteGateway 4; OpDeleteNode 3].
Definition inv_filled : SqlState := run_ops inv_ops inv_start.

(** The last two are refused: a route and a session still refer to their rows. *)
Lemma inventory_invariant_witness :
  inventory_inv (sq_db inv_filled) /\
  route_Status <$> (routes (sq_db inv_filled) !! 5%N) = Some RouteStatusActive /\
  is_Some (gateways (sq_db inv_filled) !! 4%N) /\ is_Some (nodes (sq_db inv_filled) !! 3%N).
Proof.
  split_and!; [|vm_compute; eauto..].
  apply (proj2 (inventory_invariant inv_start inv_filled ltac:(repeat split; reflexivity))), run_ops_steps. reflexivity.
Defined.

(** On a connection that does not enforce foreign keys they are carried out: the
    route is left without its gateway, the session without its node. *)
Example unenforced_delete_dangles :
  let d := sq_db (run_ops inv_ops (mkSql (sq_db inv_start) false [])) in
  route_GatewayID <$> (routes d !! 5%N) = Some 4%N /\ gateways d !! 4%N = None /\
  bgp_NodeID <$> (bgp_sessions d !! 6%N) = Some 3%N /\ nodes d !! 3%N = None.
Proof. vm_compute. done. Qed.
