(* ===== verification/RouteTheorems.v ===== *)
(** * Route snapshots: what nodes and gateways are told *)

From Stdlib Require Import ZArith Lia String.
From S2P Require Import Prelude GoStrings GoNet Domain Storage StoreFleet StoreProvision StoreAccess DnsService.
From S2P Require Import StoreInventory NodeSync Fleet RouteService InventoryTheorems.

Open Scope Z_scope.

(** ** The snapshot as a function of the tables *)

Section pure.
Context (d : DB).

Definition p_address (gatewayID : ID) (gwCache : gmap ID string) : result (string * gmap ID string) :=
  match gwCache !! gatewayID with
  | Some ip => Ok (ip, gwCache)
  | None =>
      gw ← wrap_err "get gateway" (get_row (gateways d) gatewayID);
      Ok (dial_address gw, <[gatewayID := dial_address gw]> gwCache)
  end.

Fixpoint p_routes (gid : ID) (rs : list Route) (st : sync_state) : result sync_state :=
  match rs with
  | [] => Ok st
  | r :: rs =>
      if negb (bool_decide (route_NodeGroupID r = Some gid)) then p_routes gid rs st
      else if negb (bool_decide (route_Status r = RouteStatusActive)) then p_routes gid rs st
      else if bool_decide (route_ID r ∈ sy_seen st) then p_routes gid rs st
      else
        ic ← p_address (route_GatewayID r) (sy_cache st);
        p_routes gid rs (mkSync ({[route_ID r]} ∪ sy_seen st) ic.2 (sy_acc st ++ [mkRWG r ic.1]))
  end.

(** The routes the service lists for a group. *)
Definition listed_routes (g : NodeGroup) : list Route := page limit10000 (route_rows d (ng_TenantID g)).

Fixpoint p_groups (groups : list NodeGroup) (st : sync_state) : result sync_state :=
  match groups with
  | [] => Ok st
  | g :: groups => st ← p_routes (ng_ID g) (listed_routes g) st; p_groups groups st
  end.

Definition groups_by_name (nodeID : ID) : list NodeGroup := merge_sort (by_name ng_Name) (groups_of_node d nodeID).

Definition p_config (nodeID : ID) : result NodeRouteConfig :=
  _ ← wrap_err "get node" (match nodes d !! nodeID with None => Err ErrNotFound | Some n => Ok n end);
  st ← p_groups (groups_by_name nodeID) (mkSync ∅ ∅ []);
  Ok (mkNodeRouteConfig (sy_acc st)).
End pure.

Lemma reader_address g c : reader (gateway_address g c) (fun d => p_address d g c).
Proof.
  unfold gateway_address, p_address. destruct (c !! g); [apply reader_ret|].
  apply reader_bind; [apply reader_wrap, reader_query|]. intros gw. apply reader_ret.
Qed.

Lemma reader_routes gid rs st : reader (sync_routes gid rs st) (fun d => p_routes d gid rs st).
Proof.
  revert st. induction rs as [|r rs IH]; intros st; cbn [sync_routes p_routes]; [apply reader_ret|].
  destruct (negb _); [done|]. destruct (negb _); [done|]. destruct (bool_decide _); [done|].
  apply reader_bind; [apply reader_address|]. intros ic. apply IH.
Qed.

Lemma reader_groups gs st : reader (sync_route_groups gs st) (fun d => p_groups d gs st).
Proof.
  revert st. induction gs as [|g gs IH]; intros st; cbn [sync_route_groups p_groups]; [apply reader_ret|].
  eapply reader_ext.
  - apply reader_bind; [apply reader_wrap, reader_count|]. intros rs. apply reader_bind; [apply reader_routes|]. intros st'. apply IH.
  - done.
Qed.

Lemma reader_config n : reader (GetNodeRouteConfig n) (fun d => p_config d n).
Proof.
  unfold GetNodeRouteConfig, p_config. eapply reader_ext.
  - apply reader_bind; [apply reader_wrap, reader_query|]. intros nd.
    apply reader_bind; [apply reader_wrap, reader_query|]. intros gs.
    apply reader_bind; [apply reader_groups|]. intros st. apply reader_ret.
  - intros d. cbv beta. destruct (nodes d !! n); reflexivity.
Qed.

(** ** Which routes it holds *)

Definition route_active (gid : ID) (r : Route) : bool :=
  bool_decide (route_NodeGroupID r = Some gid) && bool_decide (route_Status r = RouteStatusActive).
Definition gateway_addr (d : DB) (g : ID) : string := default "" (dial_address <$> gateways d !! g).
Definition with_gateway (d : DB) (r : Route) : RouteWithGateway := mkRWG r (gateway_addr d (route_GatewayID r)).

Section exact.
Context (d : DB) (Hi : inventory_inv d).

(** The cache holds addresses of gateways. *)
Definition cache_ok (c : gmap ID string) : Prop := map_Forall (fun g ip => ip = gateway_addr d g) c.

Lemma p_address_ok g c :
  cache_ok c -> refers (gateways d) g -> exists c', p_address d g c = Ok (gateway_addr d g, c') /\ cache_ok c'.
Proof using Type.
  intros Hc [gw Hg]. unfold p_address. destruct (c !! g) as [ip|] eqn:E.
  - exists c. split; [|done]. by rewrite (Hc _ _ E).
  - unfold get_row. rewrite Hg. cbn. eexists. split; [unfold gateway_addr; by rewrite Hg|].
    apply map_Forall_insert_2; [|done]. unfold gateway_addr. by rewrite Hg.
Qed.

Lemma p_routes_ok gid rs st :
  cache_ok (sy_cache st) -> (forall r, r ∈ rs -> refers (gateways d) (route_GatewayID r)) ->
  exists c, let y := select_rows route_ID (route_active gid) rs (sy_seen st) in
    p_routes d gid rs st = Ok (mkSync y.2 c (sy_acc st ++ (with_gateway d <$> y.1))) /\ cache_ok c.
Proof using Type.
  revert st. induction rs as [|r rs IH]; intros st Hc Hg; cbn [p_routes select_rows].
  { exists (sy_cache st). destruct st as [seen c acc]. cbn. by rewrite app_nil_r. }
  assert (Hrest : forall r0, r0 ∈ rs -> refers (gateways d) (route_GatewayID r0)) by (intros; apply Hg; by right).
  cbv zeta.
  change (route_active gid r) with
    (bool_decide (route_NodeGroupID r = Some gid) && bool_decide (route_Status r = RouteStatusActive)).
  destruct (bool_decide (route_NodeGroupID r = Some gid)); cbn [andb negb]; [|by apply IH].
  destruct (bool_decide (route_Status r = RouteStatusActive)); cbn [andb negb]; [|by apply IH].
  destruct (bool_decide (route_ID r ∈ sy_seen st)); cbn [negb]; [by apply IH|].
  destruct (p_address_ok (route_GatewayID r) (sy_cache st) Hc) as (c' & Ha & Hc'); [apply Hg; by left|]. rewrite Ha.
  cbn. destruct (IH (mkSync ({[route_ID r]} ∪ sy_seen st) c' (sy_acc st ++ [mkRWG r (gateway_addr d (route_GatewayID r))])))
    as (c2 & H2 & Hc2); [done|done|]. cbn in H2. rewrite H2, <-app_assoc. by exists c2.
Qed.

Lemma listed_rows g r : r ∈ listed_routes d g -> exists k, routes d !! k = Some r.
Proof using Type.
  intros Hr%page_subseteq. unfold route_rows in Hr. rewrite merge_sort_Permutation in Hr.
  apply list_elem_of_filter in Hr as [_ Hr]. by apply elem_of_rows.
Qed.

Lemma p_groups_ok gs st :
  cache_ok (sy_cache st) ->
  exists st', p_groups d gs st = Ok st' /\ sy_acc st' = sy_acc st ++
    (with_gateway d <$> select_groups route_ID (listed_routes d) (fun g => route_active (ng_ID g)) gs (sy_seen st)).
Proof using Hi.
  revert st. induction gs as [|g gs IH]; intros st Hc; cbn [p_groups select_groups].
  { exists st. by rewrite app_nil_r. }
  destruct (p_routes_ok (ng_ID g) (listed_routes d g) st Hc) as (c & Hp & Hc').
  { intros r [k Hk]%listed_rows. by destruct (ii_routes _ Hi _ _ Hk) as (_ & _ & _ & ? & _). }
  rewrite Hp. cbn [mbind result_bind]. destruct (IH (mkSync (select_rows route_ID (route_active (ng_ID g)) (listed_routes d g) (sy_seen st)).2 c
    (sy_acc st ++ (with_gateway d <$> (select_rows route_ID (route_active (ng_ID g)) (listed_routes d g) (sy_seen st)).1)))) as (st' & H' & Hacc); [done|].
  exists st'. split; [exact H'|]. rewrite Hacc. cbn. by rewrite fmap_app, app_assoc.
Qed.
End exact.

(** The routes of the tables that node [n] must forward: active, and assigned to
    a group of the same tenant that the node is a member of. *)
Definition route_served_to (d : DB) (n : ID) (r : Route) : Prop :=
  routes d !! route_ID r = Some r /\ route_Status r = RouteStatusActive /\
  exists gid g, node_groups d !! gid = Some g /\ (gid, n) ∈ node_group_memberships d /\
    route_NodeGroupID r = Some gid /\ route_TenantID r = ng_TenantID g.

Definition routes_small (d : DB) : Prop := forall tid, Z.of_nat (length (route_rows d tid)) <= 10000.

Lemma elem_of_listed d g r : routes_small d -> r ∈ listed_routes d g <-> (exists k, routes d !! k = Some r) /\ route_TenantID r = ng_TenantID g.
Proof.
  intros Hsm. unfold listed_routes. rewrite page_all; [|done|done|apply Hsm]. unfold route_rows.
  rewrite merge_sort_Permutation, list_elem_of_filter, elem_of_rows. tauto.
Qed.

Lemma config_exact d n : inventory_inv d -> routes_small d -> refers (nodes d) n ->
  exists cfg, p_config d n = Ok cfg /\ NoDup (route_ID ∘ rwg_Route <$> nrc_Routes cfg) /\
    forall rg, rg ∈ nrc_Routes cfg <-> route_served_to d n (rwg_Route rg) /\
      exists gw, gateways d !! route_GatewayID (rwg_Route rg) = Some gw /\ rwg_GatewayWGIP rg = dial_address gw.
Proof.
  intros Hi Hsm [nd Hn]. unfold p_config. rewrite Hn. cbn [wrap_err mbind result_bind].
  destruct (p_groups_ok d Hi (groups_by_name d n) (mkSync ∅ ∅ [])) as (st & Hst & Hacc); [apply map_Forall_empty|].
  rewrite Hst. eexists. split; [reflexivity|]. cbn in *. rewrite Hacc.
  destruct (select_groups_exact route_ID (listed_routes d) (fun g => route_active (ng_ID g)) (groups_by_name d n) (rows_of (routes d))) as [Hnd Hin].
  { intros g r _ Hr. apply elem_of_rows. by eapply listed_rows. }
  { intros r r' [k Hk]%elem_of_rows [k' Hk']%elem_of_rows Heq.
    destruct (ii_routes _ Hi _ _ Hk) as [Hid _], (ii_routes _ Hi _ _ Hk') as [Hid' _]. congruence. }
  split; [by rewrite <-list_fmap_compose|]. intros rg. rewrite list_elem_of_fmap. setoid_rewrite Hin.
  split.
  - intros (r & -> & g & Hg & Hr & Hact). cbn. apply (elem_of_listed d g r Hsm) in Hr as [[k Hk] Ht].
    unfold groups_by_name in Hg. rewrite merge_sort_Permutation in Hg. apply elem_of_groups_of_node in Hg as (gid & Hg & Hm).
    destruct (ii_groups _ Hi _ _ Hg) as [Hgid _]. destruct (ii_routes _ Hi _ _ Hk) as (Hid & _ & _ & [gw Hgw] & _).
    apply andb_true_iff in Hact as [Hgr%bool_decide_eq_true Hst'%bool_decide_eq_true]. split.
    + split; [by rewrite Hid|]. split; [done|]. exists gid, g. split_and!; [done..| |done]. by rewrite Hgr, Hgid.
    + exists gw. unfold gateway_addr. by rewrite Hgw.
  - intros ((Hk & Hst' & gid & g & Hg & Hm & Hgr & Ht) & gw & Hgw & Hip). exists (rwg_Route rg). split.
    + destruct rg as [r ip]. cbn in *. unfold with_gateway, gateway_addr. by rewrite Hgw, Hip.
    + exists g. split_and!.
      * unfold groups_by_name. rewrite merge_sort_Permutation. apply elem_of_groups_of_node. eauto.
      * apply elem_of_listed; eauto.
      * destruct (ii_groups _ Hi _ _ Hg) as [Hgid _]. apply andb_true_iff. rewrite !bool_decide_eq_true. by rewrite Hgid.
Qed.

Lemma reader_gateway_config g :
  reader (GetGatewayRouteConfig g) (fun d =>
    _ ← wrap_err "get gateway" (get_row (gateways d) g); Ok (mkGatewayRouteConfig (gateway_routes d g))).
Proof.
  unfold GetGatewayRouteConfig. eapply reader_ext.
  - apply reader_bind; [apply reader_wrap, reader_query|]. intros gw.
    apply reader_bind; [apply reader_wrap, reader_query|]. intros rs. apply reader_ret.
  - intros d. cbv beta. destruct (get_row (gateways d) g); reflexivity.
Qed.

Lemma elem_of_gateway_routes d g r :
  r ∈ gateway_routes d g <-> route_GatewayID r = g /\ route_Status r = RouteStatusActive /\ exists k, routes d !! k = Some r.
Proof.
  unfold gateway_routes. rewrite merge_sort_Permutation, list_elem_of_filter, elem_of_rows. tauto.
Qed.

(** C10: on tables whose references hold, with at most 10000 routes to a tenant (the
    limit of the listing), the route snapshot of a stored node is returned unless a
    statement fails, and whenever it is returned it holds exactly the active routes
    assigned to groups of the node that belong to the route's own tenant, each once,
    with the dial address of its gateway; the snapshot that gateway polls from the
    same tables holds the route as well. *)
Theorem node_route_config_exact (s : SqlState) (n : ID) :
  inventory_inv (sq_db s) -> routes_small (sq_db s) -> refers (nodes (sq_db s)) n ->
  (calm s -> exists cfg, GetNodeRouteConfig n s = (Ok cfg, s)) /\
  forall cfg s', GetNodeRouteConfig n s = (Ok cfg, s') ->
    NoDup (route_ID ∘ rwg_Route <$> nrc_Routes cfg) /\
    (forall rg, rg ∈ nrc_Routes cfg <-> route_served_to (sq_db s) n (rwg_Route rg) /\
       exists gw, gateways (sq_db s) !! route_GatewayID (rwg_Route rg) = Some gw /\ rwg_GatewayWGIP rg = dial_address gw) /\
    (forall rg gcfg s'', rg ∈ nrc_Routes cfg -> GetGatewayRouteConfig (route_GatewayID (rwg_Route rg)) s' = (Ok gcfg, s'') ->
       rwg_Route rg ∈ grc_Routes gcfg).
Proof.
  intros Hi Hsm Hn. destruct (config_exact _ _ Hi Hsm Hn) as (cfg & Hc & Hnd & Hin). split.
  - intros Hs. exists cfg. by rewrite (rd_calm _ _ (reader_config n) _ Hs), Hc.
  - intros cfg' s' Hrun. pose proof (rd_ok _ _ (reader_config n) _ _ _ Hrun) as Hok. cbv beta in Hok.
    rewrite Hc in Hok. injection Hok as <-. split_and!; [done|done|]. intros rg gcfg s'' Hrg Hg.
    apply (rd_ok _ _ (reader_gateway_config _)) in Hg.
    apply (rd_same _ _ (reader_config n)) in Hrun as [Hd _]. rewrite Hd in Hg.
    apply rbind_Ok in Hg as (_ & _ & [= <-]). cbn. apply Hin in Hrg as ((Hk & Hst & _) & _).
    apply elem_of_gateway_routes. eauto.
Qed.

Lemma node_route_config_exact_witness :
  exists cfg, GetNodeRouteConfig 3 inv_filled = (Ok cfg, inv_filled) /\
    (route_Name ∘ rwg_Route <$> nrc_Routes cfg) = ["ssh"] /\ (rwg_GatewayWGIP <$> nrc_Routes cfg) = ["198.51.100.9"] /\
    NoDup (route_ID ∘ rwg_Route <$> nrc_Routes cfg).
Proof.
  eexists. split_and!; [vm_compute; reflexivity..|].
  eapply (node_route_config_exact inv_filled 3).
  - apply (inventory_reachable inv_start); [by apply run_ops_steps|]. apply inventory_inv_empty. repeat split; reflexivity.
  - intros tid. unfold route_rows. rewrite merge_sort_Permutation. etrans; [apply inj_le, length_filter|]. vm_compute. discriminate.
  - vm_compute. eauto.
  - vm_compute. reflexivity.
Defined.
