(* ===== verification/NetTheorems.v ===== *)
(** * The WireGuard overlay: keys and configurations agree *)

From Stdlib Require Import ZArith Lia Ascii String.
From S2P Require Import Prelude GoStrings GoNet GoBase64 Secrets Domain Storage StoreFleet DnsService NodeSync Overlay StoreProvision.
From S2P Require Import Provisioner ProvisionFrame StoreInventory Fleet Networking InventoryTheorems.

Open Scope Z_scope.

Section keys.
Context `{AEADLaws} (o : Outside) (n : NetService) (p : DefaultProvisioner).
Context (Hmade : made (ns_secrets n)) (Hsame : p_secrets p = ns_secrets n).
(** [rand.Read] fills the buffer it is given. *)
Context (Hrand : forall t k b, o_rand o t k = Some b -> String.length b = k).

(** ** Key material in the peer table *)

(** The stored secrets decrypt to a private key, whose public key is stored, and
    to a preshared key. *)
Definition keys_ok (q : WireGuardPeer) : Prop := exists priv pub psk,
  Decrypt (ns_secrets n) (peer_PrivateKey q) = Ok (Std_EncodeToString priv) /\ o_x25519 o priv = Some pub /\
  peer_PublicKey q = Std_EncodeToString pub /\ Decrypt (ns_secrets n) (peer_PresharedKey q) = Ok psk.

(** Keys are in order, and a controller has one peer. *)
Definition peers_ok (m : gmap ID WireGuardPeer) : Prop :=
  map_Forall (fun _ q => keys_ok q) m /\
  forall k k' q q', m !! k = Some q -> m !! k' = Some q' -> peer_OwnerType q = PeerOwnerController ->
    peer_OwnerType q' = PeerOwnerController -> peer_OwnerID q = peer_OwnerID q' -> k = k'.
Definition peers_inv (e : PEnv) : Prop := peers_ok (wireguard_peers (sq_db (pe_sql e))).

Lemma encrypt_ok nonce x c :
  (forall b, nonce = Some b -> String.length b = NonceSize) ->
  Encrypt nonce (ns_secrets n) x = Ok c -> Decrypt (ns_secrets n) c = Ok x.
Proof using All.
  intros Hn Hc. destruct nonce as [b|].
  - destruct (decrypt_encrypt (ns_secrets n) (ns_secrets n) b x) as (c' & Hc' & Hd); [done..|by apply Hn|by left|].
    rewrite Hc in Hc'. by injection Hc' as <-.
  - exfalso. revert Hc. unfold Encrypt, VersionedEncryptAESGCM, EncryptAESGCM.
    destruct (0 <? _); destruct (NewCipher _); cbn; discriminate.
Qed.

(** [quiet_env m]: [m] leaves the database alone. *)
Definition quiet_env {A} (m : stM PEnv A) : Prop := forall e r e', m e = (r, e') -> pe_sql e' = pe_sql e.

Lemma net_Encrypt_run x e r e' :
  net_Encrypt n o x e = (r, e') -> pe_sql e' = pe_sql e /\ forall c, r = Ok c -> Decrypt (ns_secrets n) c = Ok x.
Proof using All.
  unfold net_Encrypt. intros Hrun. cbn in Hrun. injection Hrun as <- <-. split; [done|]. intros c Hc.
  eapply encrypt_ok, Hc. intros b Hb. by eapply Hrand.
Qed.
Lemma secrets_Encrypt_run x e r e' :
  secrets_Encrypt o p x e = (r, e') -> pe_sql e' = pe_sql e /\ forall c, r = Ok c -> Decrypt (ns_secrets n) c = Ok x.
Proof using All.
  unfold secrets_Encrypt. intros Hrun. cbn in Hrun. rewrite Hsame in Hrun. injection Hrun as <- <-. split; [done|]. intros c Hc.
  eapply encrypt_ok, Hc. intros b Hb. by eapply Hrand.
Qed.
Lemma keypair_run e r e' :
  GenerateWireGuardKeyPair o e = (r, e') -> pe_sql e' = pe_sql e /\
  forall kp, r = Ok kp -> exists priv pub, o_x25519 o priv = Some pub /\ kp_PrivateKey kp = Std_EncodeToString priv /\
    kp_PublicKey kp = Std_EncodeToString pub.
Proof using Type.
  unfold GenerateWireGuardKeyPair, mbind, stM_bind, rand. destruct (o_rand o (pe_tick e) 32) as [b|]; [|by intros [= <- <-]].
  destruct (o_x25519 o (clamp b)) as [pub|] eqn:E; intros [= <- <-]; (split; [done|]); [|done].
  intros kp [= <-]. cbn. eauto.
Qed.
Lemma psk_run e r e' : GeneratePresharedKey o e = (r, e') -> pe_sql e' = pe_sql e.
Proof using Type.
  unfold GeneratePresharedKey, mbind, stM_bind, rand. by destruct (o_rand o (pe_tick e) 32) as [b|]; intros [= _ <-].
Qed.

Lemma db_run {A} (m : stM SqlState A) e r e' : db m e = (r, e') -> m (pe_sql e) = (r, pe_sql e').
Proof using Type. unfold db. destruct (m (pe_sql e)). by intros [= <- <-]. Qed.
Lemma db_now_run {A} (m : Time -> stM SqlState A) e r e' :
  db_now o m e = (r, e') -> exists t, m t (pe_sql e) = (r, pe_sql e').
Proof using Type. unfold db_now. intros Hrun. cbn in Hrun. apply db_run in Hrun. by eexists. Qed.

Lemma create_peer_inv t q s r s' :
  sqlite_CreateWireGuardPeer t q s = (r, s') -> keys_ok q ->
  peer_OwnerType q = PeerOwnerNode \/ peers_of_owner (sq_db s) PeerOwnerController (peer_OwnerID q) = [] ->
  peers_ok (wireguard_peers (sq_db s)) -> peers_ok (wireguard_peers (sq_db s')).
Proof using Type.
  unfold sqlite_CreateWireGuardPeer, sql_exec. destruct (sq_fault s); [by intros [= _ <-]|].
  destruct (has_key _ _); [by intros [= _ <-]|]. destruct (negb _); intros [= _ <-] Hq Hown [Hi Hu]; [done|]. cbn.
  split; [by apply map_Forall_insert_2|].
  assert (Hnew : forall k q', wireguard_peers (sq_db s) !! k = Some q' -> peer_OwnerType (new_peer t q) = PeerOwnerController ->
    peer_OwnerType q' = PeerOwnerController -> peer_OwnerID (new_peer t q) <> peer_OwnerID q').
  { intros k q' Hk Ht Ht' Heq. destruct Hown as [Hown|Hown]; [cbn in Ht; rewrite Hown in Ht; discriminate|].
    assert (Hin : q' ∈ peers_of_owner (sq_db s) PeerOwnerController (peer_OwnerID q)).
    { apply list_elem_of_filter. split; [done|]. apply elem_of_rows. eauto. }
    rewrite Hown in Hin. by apply elem_of_nil in Hin. }
  intros k k' q1 q2 [[<- <-]|[Hne H1]]%lookup_insert_Some [[<- <-]|[Hne' H2]]%lookup_insert_Some Ht1 Ht2 Heq;
    [done|exfalso; by eapply Hnew|exfalso; by eapply Hnew|by eapply Hu].
Qed.
Lemma update_peer_inv t q s r s' :
  sqlite_UpdateWireGuardPeer t q s = (r, s') -> keys_ok q ->
  peers_ok (wireguard_peers (sq_db s)) -> peers_ok (wireguard_peers (sq_db s')).
Proof using Type.
  unfold sqlite_UpdateWireGuardPeer, sql_exec. destruct (sq_fault s); [by intros [= _ <-]|].
  destruct (negb (has_key _ _)); [by intros [= _ <-]|]. destruct (negb _); intros [= _ <-] Hq [Hi Hu]; [done|]. cbn. split.
  - intros k v [[<- (w & Hw & ->)]|[_ Hj]]%lookup_alter_Some; [done|by eapply Hi].
  - assert (Hold : forall k v, alter (merge_peer t q) (peer_ID q) (wireguard_peers (sq_db s)) !! k = Some v -> exists w,
      wireguard_peers (sq_db s) !! k = Some w /\ peer_OwnerType v = peer_OwnerType w /\ peer_OwnerID v = peer_OwnerID w).
    { intros k v [[<- (w & Hw & ->)]|[_ Hj]]%lookup_alter_Some; eauto. }
    intros k k' q1 q2 (w1 & H1 & -> & ->)%Hold (w2 & H2 & -> & ->)%Hold. by apply Hu.
Qed.

(** ** What writes to the peer table *)

(** The first action of a sequence, wrapped or not: success, then failure. *)
Ltac act H a e H1 :=
  apply bind_run in H as [(a & e & H1 & H)|(?err & H1 & ->)];
  try (first [apply wrap_Ok in H1 | apply wrap_Err in H1 as (?err & -> & H1)]).

Lemma rotate_inv i e r e' : RotateWireGuardKeys n o i e = (r, e') -> peers_inv e -> peers_inv e'.
Proof using All.
  unfold RotateWireGuardKeys, peers_inv. intros Hrun Hi.
  act Hrun q e1 Hm; apply db_run, sql_query_inv in Hm as [Hd _]; rewrite <-Hd in Hi; [|done]. clear Hd.
  act Hrun kp e2 Hm; apply keypair_run in Hm as [Hd Hkp]; rewrite <-Hd in Hi; [|done]. clear Hd.
  destruct (Hkp _ eq_refl) as (priv & pub & Hx & Hpriv & Hpub).
  act Hrun encPriv e3 Hm; apply net_Encrypt_run in Hm as [Hd Henc]; rewrite <-Hd in Hi; [|done]. clear Hd.
  specialize (Henc _ eq_refl). rewrite Hpriv in Henc.
  act Hrun psk e4 Hm; apply psk_run in Hm as Hd; rewrite <-Hd in Hi; [|done]. clear Hd Hm.
  act Hrun encPSK e5 Hm; apply net_Encrypt_run in Hm as [Hd Hpsk]; rewrite <-Hd in Hi; [|done]. clear Hd. specialize (Hpsk _ eq_refl).
  act Hrun t e6 Hm; [|done]. injection Hm as _ <-. act Hrun t' e7 Hm; [|done]. injection Hm as _ <-.
  assert (Hk : keys_ok (with_keys (kp_PublicKey kp) encPriv encPSK t q)) by (exists priv, pub; rewrite <-Hpub; eauto).
  act Hrun u e8 Hm; apply db_run in Hm; cbn in Hm; [injection Hrun as _ <-|]; by eapply update_peer_inv.
Qed.

Lemma not_found_none typ i s s' :
  sqlite_GetWireGuardPeerByOwner typ i s = (Err ErrNotFound, s') -> sq_db s' = sq_db s /\ peers_of_owner (sq_db s) typ i = [].
Proof using Type.
  unfold sqlite_GetWireGuardPeerByOwner, sql_query, sql_exec. destruct (sq_fault s); [discriminate|].
  destruct (peers_of_owner (sq_db s) typ i); intros [= <-]; done.
Qed.

Lemma bootstrap_inv i e r e'  : BootstrapControllerPeer n o i e = (r, e') -> peers_inv e -> peers_inv e'.
Proof using All.
  unfold BootstrapControllerPeer, peers_inv. intros Hrun Hi. unfold mbind at 1, stM_bind at 1, try in Hrun.
  destruct (db _ e) as [x e0] eqn:Hm. apply db_run in Hm.
  destruct x as [q|err]; [apply sql_query_inv in Hm as [Hd _]; rewrite <-Hd in Hi; by injection Hrun as _ <-|].
  case_bool_decide as Herr; cbn [negb] in Hrun; [|apply sql_query_inv in Hm as [Hd _]; rewrite <-Hd in Hi; by injection Hrun as _ <-].
  subst err. apply not_found_none in Hm as [Hd Hnone]. rewrite <-Hd in Hi, Hnone. clear Hd.
  act Hrun kp e2 Hm; apply keypair_run in Hm as [Hd Hkp]; rewrite <-Hd in Hi, Hnone; [|done]. clear Hd.
  destruct (Hkp _ eq_refl) as (priv & pub & Hx & Hpriv & Hpub).
  act Hrun psk e4 Hm; apply psk_run in Hm as Hd; rewrite <-Hd in Hi, Hnone; [|done]. clear Hd Hm.
  act Hrun encPriv e3 Hm; apply net_Encrypt_run in Hm as [Hd Henc]; rewrite <-Hd in Hi, Hnone; [|done]. clear Hd.
  specialize (Henc _ eq_refl). rewrite Hpriv in Henc.
  act Hrun encPSK e5 Hm; apply net_Encrypt_run in Hm as [Hd Hpsk]; rewrite <-Hd in Hi, Hnone; [|done]. clear Hd. specialize (Hpsk _ eq_refl).
  act Hrun newid e6 Hm; [|done]. injection Hm as _ <-. cbv zeta in Hrun.
  apply wrap_run in Hrun as [(q & Hrun & _)|(er & Hrun & _)]; apply db_now_run in Hrun as [t Hrun];
    (eapply create_peer_inv; [exact Hrun| |by right|exact Hi]); exists priv, pub; rewrite <-Hpub; eauto.
Qed.

Lemma allocate_run subnet addr peers nodes e r e' : allocate subnet addr peers nodes e = (r, e') -> e' = e.
Proof using Type. by intros [= _ <-]. Qed.

Lemma assign_inv node e r e' : assign_peer o p node e = (r, e') -> peers_inv e -> peers_inv e'.
Proof using All.
  unfold assign_peer, peers_inv. intros Hrun Hi.
  act Hrun kp e2 Hm; apply keypair_run in Hm as [Hd Hkp]; rewrite <-Hd in Hi; [|done]. clear Hd.
  destruct (Hkp _ eq_refl) as (priv & pub & Hx & Hpriv & Hpub).
  act Hrun psk e4 Hm; apply psk_run in Hm as Hd; rewrite <-Hd in Hi; [|done]. clear Hd Hm.
  act Hrun encPriv e3 Hm; apply secrets_Encrypt_run in Hm as [Hd Henc]; rewrite <-Hd in Hi; [|done]. clear Hd.
  specialize (Henc _ eq_refl). rewrite Hpriv in Henc.
  act Hrun encPSK e5 Hm; apply secrets_Encrypt_run in Hm as [Hd Hpsk]; rewrite <-Hd in Hi; [|done]. clear Hd. specialize (Hpsk _ eq_refl).
  act Hrun l e6 Hm; apply db_run, (rd_same _ _ (reader_count _ _ _ _)) in Hm as [Hd _]; rewrite <-Hd in Hi; [|done]. clear Hd.
  act Hrun ns e7 Hm; apply db_run, (rd_same _ _ (reader_bind _ _ _ _ (reader_query _ _) (fun _ => reader_query _ _))) in Hm as [Hd _];
    rewrite <-Hd in Hi; [|done]. clear Hd.
  act Hrun ip e8 Hm; apply allocate_run in Hm as ->; [|done].
  act Hrun ip6 e9 Hm.
  2:{ destruct (bool_decide _); [by injection Hm as _ <-|]. by apply wrap_Err in Hm as (? & _ & ->%allocate_run). }
  assert (e9 = e7) as ->.
  { destruct (bool_decide _); [by injection Hm as _ <-|]. by apply wrap_Ok, allocate_run in Hm. }
  clear Hm. cbv zeta in Hrun. act Hrun newid e10 Hm; [|done]. injection Hm as _ <-.
  act Hrun u e11 Hm; apply db_now_run in Hm as [t Hm]; [injection Hrun as _ <-|];
    (eapply create_peer_inv; [exact Hm| |by left|exact Hi]); exists priv, pub; rewrite <-Hpub; eauto.
Qed.

Inductive net_op := OpRotate (peerID : ID) | OpBootstrap (controllerID : ID) | OpAssign (node : Node) | OpForget (peerID : ID).

Definition run_net (op : net_op) : stM PEnv unit :=
  match op with
  | OpRotate i => _ ← RotateWireGuardKeys n o i; mret tt
  | OpBootstrap i => _ ← BootstrapControllerPeer n o i; mret tt
  | OpAssign node => _ ← assign_peer o p node; mret tt
  | OpForget i => db (sqlite_DeleteWireGuardPeer i)
  end.

(** An operation that writes peers, or anything that leaves them alone. *)
Definition net_step (e e' : PEnv) : Prop :=
  (exists op r, run_net op e = (r, e')) \/ wireguard_peers (sq_db (pe_sql e')) = wireguard_peers (sq_db (pe_sql e)).

Lemma then_ret_run {A} (m : stM PEnv A) e r e' : (_ ← m; mret tt) e = (r, e') -> exists x, m e = (x, e').
Proof using Type. intros [(a & e1 & H1 & H2)|(err & H1 & _)]%bind_run; [injection H2 as _ <-|]; eauto. Qed.

Lemma net_step_inv e e' : net_step e e' -> peers_inv e -> peers_inv e'.
Proof using All.
  intros [(op & r & Hrun)|Hsame'] Hi; [|by unfold peers_inv; rewrite Hsame'].
  destruct op; cbn [run_net] in Hrun; try apply then_ret_run in Hrun as [x Hrun].
  - by eapply rotate_inv.
  - by eapply bootstrap_inv.
  - by eapply assign_inv.
  - apply db_run, sql_update_inv in Hrun. unfold peers_inv in *. destruct r; [|by rewrite Hrun].
    destruct Hrun as (_ & _ & ->). cbn. destruct Hi as [Hk Hu]. split; [by apply map_Forall_delete|].
    intros k k' q q' [_ H1]%lookup_delete_Some [_ H2]%lookup_delete_Some. by eapply Hu.
Qed.

Lemma net_steps_inv e e' : rtc net_step e e' -> peers_inv e -> peers_inv e'.
Proof using All. induction 1 as [|e1 e2 e3 H1 _ IH]; [done|]. intros Hi. by eapply IH, net_step_inv. Qed.
End keys.

(** ** Configurations *)

Section configs.
Context `{AEAD} (n : NetService).

Lemma peer_by_owner_run typ i s q s' :
  sqlite_GetWireGuardPeerByOwner typ i s = (Ok q, s') ->
  sq_db s' = sq_db s /\ (exists k, wireguard_peers (sq_db s) !! k = Some q) /\ peer_OwnerType q = typ /\ peer_OwnerID q = i.
Proof using Type.
  intros [Hd Hok]%sql_query_ok. split; [done|]. unfold peers_of_owner in Hok.
  destruct (filter _ _) as [|q' l] eqn:E; [done|]. injection Hok as ->.
  assert (Hin : q ∈ filter (fun q => peer_OwnerType q = typ /\ peer_OwnerID q = i) (rows_of (wireguard_peers (sq_db s)))).
  { rewrite E. by left. }
  apply list_elem_of_filter in Hin as [[Ht Ho] Hq]. split; [by apply elem_of_rows|done].
Qed.

Lemma hub_peers_elem l cfgs q :
  hub_peers n l = Ok cfgs -> q ∈ l -> peer_OwnerType q <> PeerOwnerController ->
  exists c, c ∈ cfgs /\ wp_PublicKey c = peer_PublicKey q /\ wp_AllowedIPs c = peer_AllowedIPs q /\
    decrypt_psk n "decrypt preshared key for peer" (peer_PresharedKey q) = Ok (wp_PresharedKey c).
Proof using Type.
  revert cfgs. induction l as [|q' l IH]; intros cfgs Hl Hq Hne; [by apply elem_of_nil in Hq|]. cbn [hub_peers] in Hl.
  case_bool_decide as Hc.
  - apply elem_of_cons in Hq as [->|Hq]; [done|]. by apply IH.
  - apply rbind_Ok in Hl as (psk & Hpsk & Hl). apply rbind_Ok in Hl as (rest & Hrest & [= <-]).
    apply elem_of_cons in Hq as [<-|Hq].
    + eexists. split; [by left|]. done.
    + destruct (IH rest Hrest Hq Hne) as (c & Hin & Hrest'). exists c. split; [by right|done].
Qed.

Lemma hub_peers_from l cfgs c :
  hub_peers n l = Ok cfgs -> c ∈ cfgs -> exists q, q ∈ l /\ peer_OwnerType q <> PeerOwnerController /\ wp_PublicKey c = peer_PublicKey q.
Proof using Type.
  revert cfgs. induction l as [|q' l IH]; intros cfgs Hl Hc; cbn [hub_peers] in Hl; [injection Hl as <-; by apply elem_of_nil in Hc|].
  case_bool_decide as Ht.
  - destruct (IH _ Hl Hc) as (q & Hq & ?). exists q. split; [by right|done].
  - apply rbind_Ok in Hl as (psk & Hpsk & Hl). apply rbind_Ok in Hl as (rest & Hrest & [= <-]).
    apply elem_of_cons in Hc as [->|Hc].
    + exists q'. split; [by left|done].
    + destruct (IH _ Hrest Hc) as (q & Hq & ?). exists q. split; [by right|done].
Qed.

(** What the hub configuration is made of. *)
Lemma hub_config_run s t s' :
  GenerateHubConfig n s = (Ok t, s') -> exists cfg cp, t = Render cfg /\ sq_db s' = sq_db s /\
    (exists k, wireguard_peers (sq_db s) !! k = Some cp) /\ peer_OwnerType cp = PeerOwnerController /\ peer_OwnerID cp = ControllerPeerID /\
    Decrypt (ns_secrets n) (peer_PrivateKey cp) = Ok (wc_PrivateKey cfg) /\
    hub_peers n (page all_rows (merge_sort (by_created_desc peer_CreatedAt) (rows_of (wireguard_peers (sq_db s))))) = Ok (wc_Peers cfg).
Proof using Type.
  unfold GenerateHubConfig, hub_config, controller_peer. intros (cfg & s1 & Hrun & Hr)%bind_Ok. injection Hr as <- <-.
  apply bind_Ok in Hrun as (cp & s2 & Hm & Hrun). apply wrap_Ok, peer_by_owner_run in Hm as (Hd & Hk & Ht & Ho).
  apply bind_Ok in Hrun as (priv & s3 & Hm & Hrun). apply lift_Ok in Hm as [Hpriv ->].
  apply bind_Ok in Hrun as (l & s4 & Hm & Hrun). apply wrap_Ok in Hm.
  pose proof (rd_same _ _ (reader_count _ _ _ _) _ _ _ Hm) as [Hd1 _]. apply (rd_ok _ _ (reader_count _ _ _ _)) in Hm.
  injection Hm as <-. apply bind_Ok in Hrun as (cfgs & s5 & Hm & Hrun). apply lift_Ok in Hm as [Hcfgs ->].
  injection Hrun as <- <-. unfold decrypt in Hpriv. apply rwrap_Ok in Hpriv. rewrite Hd in *.
  eexists _, cp. split; [reflexivity|]. split_and!; done.
Qed.

(** What the configuration of a node is made of. *)
Lemma node_config_run i s t s' :
  net_GenerateNodeConfig n i s = (Ok t, s') -> exists cfg q cp hp mesh, t = Render cfg /\
    (exists k, wireguard_peers (sq_db s) !! k = Some q) /\ peer_OwnerType q = PeerOwnerNode /\ peer_OwnerID q = i /\
    (exists k, wireguard_peers (sq_db s) !! k = Some cp) /\ peer_OwnerType cp = PeerOwnerController /\ peer_OwnerID cp = ControllerPeerID /\
    Decrypt (ns_secrets n) (peer_PrivateKey q) = Ok (wc_PrivateKey cfg) /\
    wc_Peers cfg = hp :: mesh /\ wp_PublicKey hp = peer_PublicKey cp /\
    decrypt_psk n "decrypt node preshared key" (peer_PresharedKey q) = Ok (wp_PresharedKey hp).
Proof using Type.
  unfold net_GenerateNodeConfig, node_config, controller_peer. intros (cfg & s1 & Hrun & Hr)%bind_Ok. injection Hr as <- <-.
  apply bind_Ok in Hrun as (node & s2 & Hm & Hrun). apply wrap_Ok, sql_query_ok in Hm as [Hd _].
  apply bind_Ok in Hrun as (q & s3 & Hm & Hrun). apply wrap_Ok, peer_by_owner_run in Hm as (Hd1 & Hq & Hqt & Hqo).
  apply bind_Ok in Hrun as (priv & s4 & Hm & Hrun). apply lift_Ok in Hm as [Hpriv ->]. apply rwrap_Ok in Hpriv.
  apply bind_Ok in Hrun as (cp & s5 & Hm & Hrun). apply wrap_Ok, peer_by_owner_run in Hm as (Hd2 & Hcp & Hct & Hco).
  apply bind_Ok in Hrun as (psk & s6 & Hm & Hrun). apply lift_Ok in Hm as [Hpsk ->]. cbv zeta in Hrun.
  apply bind_Ok in Hrun as (u & s7 & Hm & Hrun). apply bind_Ok in Hrun as (mesh & s8 & _ & Hrun). injection Hrun as <- <-.
  rewrite Hd1, Hd in *. eexists _, q, cp, _, mesh.1. split; [reflexivity|]. split_and!; try done.
Qed.
End configs.

(** ** Claims *)

(** C11: after every sequence of peer assignments, key rotations, peer deletions
    and other statements, the configurations generated for the hub and for a node
    fit together: the hub's private key belongs to the public key the node lists
    for the hub, the node's private key belongs to a public key the hub lists, and
    both ends of that entry have the same preshared key. *)
Theorem overlay_keys_agree `{AEADLaws} (o : Outside) (n : NetService) (p : DefaultProvisioner) (e0 e : PEnv) (i : ID) hub node s1 s2 :
  made (ns_secrets n) -> p_secrets p = ns_secrets n -> (forall t k b, o_rand o t k = Some b -> String.length b = k) ->
  wireguard_peers (sq_db (pe_sql e0)) = ∅ -> rtc (net_step o n p) e0 e ->
  Z.of_nat (size (wireguard_peers (sq_db (pe_sql e)))) <= 10000 ->
  GenerateHubConfig n (pe_sql e) = (Ok hub, s1) -> net_GenerateNodeConfig n i (pe_sql e) = (Ok node, s2) ->
  exists hc nc hubPriv hubPub nodePriv nodePub hp mesh entry,
    hub = Render hc /\ node = Render nc /\
    wc_PrivateKey hc = Std_EncodeToString hubPriv /\ o_x25519 o hubPriv = Some hubPub /\
    wc_PrivateKey nc = Std_EncodeToString nodePriv /\ o_x25519 o nodePriv = Some nodePub /\
    wc_Peers nc = hp :: mesh /\ wp_PublicKey hp = Std_EncodeToString hubPub /\
    entry ∈ wc_Peers hc /\ wp_PublicKey entry = Std_EncodeToString nodePub /\ wp_PresharedKey entry = wp_PresharedKey hp.
Proof.
  intros Hmade Hsame Hrand He0 Hsteps Hsize Hhub Hnode.
  assert (Hi : peers_inv o n e).
  { eapply net_steps_inv; [done..|]. unfold peers_inv. rewrite He0. split; [apply map_Forall_empty|].
    intros k k' q q' Hk. by rewrite lookup_empty in Hk. }
  apply hub_config_run in Hhub as (hc & cp & -> & _ & [kc Hcp] & Hct & Hco & Hhpriv & Hpeers).
  apply node_config_run in Hnode as (nc & q & cp' & hp & mesh & -> & [kq Hq] & Hqt & Hqo & [kc' Hcp'] & Hct' & Hco' & Hnpriv & Hnp & Hhp & Hpsk).
  destruct Hi as [Hi Hu]. assert (kc = kc') as -> by (apply (Hu kc kc' cp cp'); congruence).
  assert (cp = cp') as -> by congruence.
  destruct (Hi _ _ Hcp') as (hubPriv & hubPub & _ & Hd1 & Hx1 & Hpub1 & _).
  destruct (Hi _ _ Hq) as (nodePriv & nodePub & psk & Hd2 & Hx2 & Hpub2 & Hpsk2).
  rewrite Hd1 in Hhpriv. injection Hhpriv as Hhpriv. rewrite Hd2 in Hnpriv. injection Hnpriv as Hnpriv.
  rewrite page_all in Hpeers; [|done|done|].
  2:{ rewrite merge_sort_Permutation. unfold rows_of. rewrite length_fmap, length_map_to_list. exact Hsize. }
  destruct (hub_peers_elem n _ _ q Hpeers) as (entry & Hin & Hpk & _ & Hdec).
  { rewrite merge_sort_Permutation. apply elem_of_rows. eauto. }
  { rewrite Hqt. discriminate. }
  exists hc, nc, hubPriv, hubPub, nodePriv, nodePub, hp, mesh, entry. split_and!; try congruence; try done.
  unfold decrypt_psk, decrypt in Hdec, Hpsk. rewrite Hpsk2 in *. destruct (bool_decide _); cbn in *; congruence.
Qed.

(** The sample deployment with the controller's peer, an assigned and then rotated node. *)
Definition net_sample : NetService := mkNetService sample_store (p_wgConfig sample_provisioner) true.
Definition net_run (op : net_op) (e : PEnv) : PEnv := (run_net sample_outside net_sample sample_provisioner op e).2.
Definition overlay_node : Node := set_node_overlay "10.100.0.2" "" (sample_node 5 (Some 7%N) NodeStatusOnline).
Definition net_assigned : PEnv := net_run (OpAssign overlay_node) (net_run (OpBootstrap ControllerPeerID) sample_env).
Definition net_named : PEnv := (db (sqlite_UpdateNode 9 overlay_node) net_assigned).2.
Definition net_rotated : PEnv := net_run (OpRotate 110) net_named.

Lemma net_run_step op e : net_step sample_outside net_sample sample_provisioner e (net_run op e).
Proof. left. exists op. eexists. apply surjective_pairing. Qed.

Lemma net_named_same :
  wireguard_peers (sq_db (pe_sql net_named)) = wireguard_peers (sq_db (pe_sql net_assigned)).
Proof. vm_compute. reflexivity. Qed.

Lemma net_rotated_steps : rtc (net_step sample_outside net_sample sample_provisioner) sample_env net_rotated.
Proof.
  apply (rtc_l _ _ _ _ (net_run_step (OpBootstrap ControllerPeerID) sample_env)).
  apply (rtc_l _ _ _ _ (net_run_step (OpAssign overlay_node) _)).
  apply (rtc_l _ _ net_named); [right; exact net_named_same|].
  apply rtc_once. exact (net_run_step (OpRotate 110) net_named).
Qed.

Definition config_of (r : result string * SqlState) : string := match r.1 with Ok t => t | Err _ => "" end.
Definition sample_hub : string := config_of (GenerateHubConfig net_sample (pe_sql net_rotated)).
Definition sample_spoke : string := config_of (net_GenerateNodeConfig net_sample 5 (pe_sql net_rotated)).

Lemma length_repeat_char k c : String.length (repeat_char k c) = k.
Proof. induction k; cbn; congruence. Qed.

Lemma overlay_keys_agree_witness :
  exists hc nc hubPriv hubPub nodePriv nodePub hp mesh entry,
    sample_hub = Render hc /\ sample_spoke = Render nc /\
    wc_PrivateKey hc = Std_EncodeToString hubPriv /\ o_x25519 sample_outside hubPriv = Some hubPub /\
    wc_PrivateKey nc = Std_EncodeToString nodePriv /\ o_x25519 sample_outside nodePriv = Some nodePub /\
    wc_Peers nc = hp :: mesh /\ wp_PublicKey hp = Std_EncodeToString hubPub /\
    entry ∈ wc_Peers hc /\ wp_PublicKey entry = Std_EncodeToString nodePub /\ wp_PresharedKey entry = wp_PresharedKey hp.
Proof.
  apply (@overlay_keys_agree tag_aead tag_aead_laws sample_outside net_sample sample_provisioner sample_env net_rotated 5
           sample_hub sample_spoke (GenerateHubConfig net_sample (pe_sql net_rotated)).2
           (net_GenerateNodeConfig net_sample 5 (pe_sql net_rotated)).2).
  - right. exists [mkVersionedKey 1 key_a]. split; [reflexivity|]. repeat constructor; cbn; lia.
  - reflexivity.
  - intros t k b [= <-]. apply length_repeat_char.
  - reflexivity.
  - exact net_rotated_steps.
  - vm_compute. discriminate.
  - vm_compute. reflexivity.
  - vm_compute. reflexivity.
Defined.

(** * The mesh topology: direct peers of a node *)


(** ** The peers as a function of the tables *)

Definition listed_members (d : DB) (g : NodeGroup) : list Node :=
  without_capabilities <$> merge_sort (by_name node_Name) (nodes_of_group d (ng_ID g)).

Definition members_of (d : DB) (groups : list NodeGroup) (seen : gset ID) : list Node :=
  select_groups node_ID (listed_members d) (fun _ _ => true) groups seen.

Lemma reader_members groups seen : reader (group_members groups seen) (fun d => Ok (members_of d groups seen)).
Proof.
  revert seen. induction groups as [|g gs IH]; intros seen; cbn [group_members]; [exact (reader_ret [])|].
  eapply reader_ext.
  - apply reader_bind; [apply reader_wrap, reader_query|]. intros ms. apply reader_bind; [apply IH|]. intros rest. apply reader_ret.
  - reflexivity.
Qed.

Section mesh.
Context (n : NetService).

(** The entry for a member, when it has an overlay address and a peer. *)
Definition mesh_entry (d : DB) (m : Node) : option WireGuardPeerConfig :=
  if bool_decide (node_WireGuardIP m = "") then None
  else mesh_peer n m <$> head (peers_of_owner d PeerOwnerNode (node_ID m)).

Lemma mesh_peers_calm ms s : calm s -> mesh_peers n ms s = (Ok (omap (mesh_entry (sq_db s)) ms), s).
Proof using Type.
  intros Hs. induction ms as [|m ms IH]; cbn [mesh_peers omap list_omap]; [done|]. unfold mesh_entry at 1.
  case_bool_decide; [done|]. unfold mbind, stM_bind, try, sqlite_GetWireGuardPeerByOwner. rewrite calm_query by done.
  destruct (peers_of_owner _ _ _) as [|q l]; rewrite IH; reflexivity.
Qed.

Lemma generateMeshPeers_calm nd s :
  calm s -> groups_of_node (sq_db s) (node_ID nd) <> [] ->
  generateMeshPeers n nd s =
    (Ok (omap (mesh_entry (sq_db s)) (members_of (sq_db s) (merge_sort (by_name ng_Name) (groups_of_node (sq_db s) (node_ID nd))) {[node_ID nd]}),
         wg_ListenPort (ns_wgConfig n)), s).
Proof using Type.
  intros Hs Hg. unfold generateMeshPeers, sqlite_ListNodeGroups_ByNode. unfold mbind at 1, stM_bind at 1, wrap. rewrite calm_query by done.
  rewrite bool_decide_false.
  2:{ intros Hnil. apply Hg. apply Permutation_nil. by rewrite <-Hnil, merge_sort_Permutation. }
  unfold mbind at 1, stM_bind at 1. rewrite (rd_calm _ _ (reader_members _ _) _ Hs).
  unfold mbind at 1, stM_bind at 1. by rewrite mesh_peers_calm.
Qed.
End mesh.

(** ** Who is a member *)

(** Another node that shares a group with node [i]. *)
Definition mesh_member (d : DB) (i : ID) (m : Node) : Prop :=
  node_ID m <> i /\ nodes d !! node_ID m = Some m /\
  exists gid, (gid, i) ∈ node_group_memberships d /\ (gid, node_ID m) ∈ node_group_memberships d.

Lemma elem_of_nodes_of_group d g m :
  m ∈ nodes_of_group d g <-> exists k, nodes d !! k = Some m /\ (g, k) ∈ node_group_memberships d.
Proof.
  unfold nodes_of_group. rewrite list_elem_of_fmap. split.
  - intros ([k m'] & -> & [Hm Hl%elem_of_map_to_list]%list_elem_of_filter). eauto.
  - intros (k & Hl & Hm). exists (k, m). split; [done|]. apply list_elem_of_filter. by rewrite elem_of_map_to_list.
Qed.

Lemma elem_of_listed_members d g x : inventory_inv d ->
  x ∈ listed_members d g <-> exists m, nodes d !! node_ID m = Some m /\ (ng_ID g, node_ID m) ∈ node_group_memberships d /\ x = without_capabilities m.
Proof.
  intros Hi. unfold listed_members. rewrite list_elem_of_fmap. setoid_rewrite merge_sort_Permutation. setoid_rewrite elem_of_nodes_of_group.
  split.
  - intros (m & -> & k & Hk & Hm). destruct (ii_nodes _ Hi _ _ Hk) as [Hid _]. exists m. by rewrite Hid.
  - intros (m & Hk & Hm & ->). eauto.
Qed.

Lemma members_exact d i : inventory_inv d -> let ms := members_of d (merge_sort (by_name ng_Name) (groups_of_node d i)) {[i]} in
  NoDup (node_ID <$> ms) /\ forall x, x ∈ ms <-> exists m, mesh_member d i m /\ x = without_capabilities m.
Proof.
  intros Hi ms. destruct (select_groups_spec node_ID (listed_members d) (fun _ _ => true)
    (merge_sort (by_name ng_Name) (groups_of_node d i)) {[i]}) as (Hnd & Hs & Hc). split; [exact Hnd|].
  assert (Hg : forall g, g ∈ merge_sort (by_name ng_Name) (groups_of_node d i) <->
    node_groups d !! ng_ID g = Some g /\ (ng_ID g, i) ∈ node_group_memberships d).
  { intros g. rewrite merge_sort_Permutation, elem_of_groups_of_node. split.
    - intros (gid & Hgid & Hm). destruct (ii_groups _ Hi _ _ Hgid) as [Hid _]. by rewrite Hid.
    - intros [? ?]. eauto. }
  intros x. split.
  - intros Hx. apply Hs in Hx as [Hne (g & [_ Hgi]%Hg & (m & Hm & Hgm & ->)%(elem_of_listed_members _ _ _ Hi) & _)].
    exists m. split; [|done]. split; [set_solver|]. split; [done|]. eauto.
  - intros (m & (Hne & Hm & gid & Hgi & Hgm) & ->).
    destruct (ii_members _ Hi _ _ Hgi) as [[g Hgr] _]. destruct (ii_groups _ Hi _ _ Hgr) as [Hid _]. subst gid.
    destruct (Hc g (without_capabilities m)) as [Hin|Hin]; [by apply Hg|apply elem_of_listed_members; eauto|done|cbn in Hin; set_solver|].
    apply list_elem_of_fmap in Hin as (y & Hy & Hin). pose proof (Hs _ Hin) as [_ (g' & _ & (m' & Hm' & _ & ->)%(elem_of_listed_members _ _ _ Hi) & _)].
    cbn in Hy. rewrite Hy in Hm. assert (m = m') as -> by congruence. done.
Qed.

(** ** Claims *)

(** In the mesh topology a node in at least one group gets, besides the hub,
    exactly one entry for every other node that shares a group with it and has an
    overlay address and a peer: that peer's public key, the member's own overlay
    addresses as the only allowed ones, and the member's public address with the
    listen port as the endpoint.  Being a member is symmetric. *)
Theorem mesh_peers_exact (n : NetService) (s : SqlState) (nd : Node) :
  inventory_inv (sq_db s) -> calm s -> nodes (sq_db s) !! node_ID nd = Some nd -> groups_of_node (sq_db s) (node_ID nd) <> [] ->
  exists members, generateMeshPeers n nd s = (Ok (omap (mesh_entry n (sq_db s)) members, wg_ListenPort (ns_wgConfig n)), s) /\
    NoDup (node_ID <$> members) /\
    (forall c, c ∈ omap (mesh_entry n (sq_db s)) members <-> exists m q, mesh_member (sq_db s) (node_ID nd) m /\
       node_WireGuardIP m <> "" /\ head (peers_of_owner (sq_db s) PeerOwnerNode (node_ID m)) = Some q /\ c = mesh_peer n m q) /\
    (forall m, mesh_member (sq_db s) (node_ID nd) m -> mesh_member (sq_db s) (node_ID m) nd).
Proof.
  intros Hi Hs Hnd Hg. eexists. split; [by apply generateMeshPeers_calm|].
  destruct (members_exact (sq_db s) (node_ID nd) Hi) as [Hdup Hin]. split; [exact Hdup|]. split.
  - intros c. rewrite list_elem_of_omap. setoid_rewrite Hin. split.
    + intros (x & (m & Hm & ->) & He). unfold mesh_entry in He. cbn in He. case_bool_decide as Hip; [done|].
      apply fmap_Some in He as (q & Hq & ->). exists m, q. split_and!; done.
    + intros (m & q & Hm & Hip & Hq & ->). exists (without_capabilities m). split; [eauto|].
      unfold mesh_entry. cbn. rewrite bool_decide_false by done. by rewrite Hq.
  - intros m (Hne & Hm & gid & Ha & Hb). split; [done|]. split; [done|]. eauto.
Qed.

(** Two nodes of a group, one of them with its overlay address and peer. *)
Definition mesh_hub : WireGuardHub := mkWireGuardHub 51820 "10.100.0.0/24" "10.100.0.1/24" "mesh" "" "".
Definition mesh_net : NetService := mkNetService (mkStore "" 0 []) mesh_hub true.
Definition mesh_node (i : ID) (name ip overlay : string) : Node :=
  mkNode i (Some 1%N) name name ip overlay "" NodeStatusOnline "eu" "" 22 "root" None "" None None [] "" 1 1.
Definition mesh_ops : list inventory_op :=
  [OpCreateNode 3 1 (mkCreateNodeRequest (Some 1%N) "edge-1" "edge-1" "192.0.2.3" "eu" "" 0 "");
   OpCreateNode 8 1 (mkCreateNodeRequest (Some 1%N) "edge-2" "edge-2" "192.0.2.8" "eu" "" 0 "");
   OpCreateGroup 2 2 (mkCreateNodeGroupRequest 1 "eu" ""); OpAddNode 2 3; OpAddNode 2 8;
   OpStoreNode 5 (mesh_node 8 "edge-2" "192.0.2.8" "10.100.0.3")].
Definition mesh_state : SqlState :=
  let s := run_ops mesh_ops inv_start in
  mkSql (upd_wireguard_peers (fun _ => {[9%N := mkWireGuardPeer 9 PeerOwnerNode 8 "PUB8" "" "" ["10.100.0.3/32"] "" 1 1 1]}) (sq_db s)) true [].
Definition mesh_first : Node :=
  mkNode 3 (Some 1%N) "edge-1" "edge-1" "192.0.2.3" "" "" NodeStatusPending "eu" "" 22 "root" None "" None None [] "" 1 1.

Lemma mesh_peers_exact_witness :
  exists members, generateMeshPeers mesh_net mesh_first mesh_state =
      (Ok (omap (mesh_entry mesh_net (sq_db mesh_state)) members, 51820), mesh_state) /\
    omap (mesh_entry mesh_net (sq_db mesh_state)) members = [mkWGPeer "PUB8" "" ["10.100.0.3/32"] "192.0.2.8:51820" 25] /\
    NoDup (node_ID <$> members).
Proof.
  destruct (mesh_peers_exact mesh_net mesh_state mesh_first) as (ms & Hrun & Hnd & _).
  - apply (inventory_inv_same (sq_db (run_ops mesh_ops inv_start))); [repeat split; auto|].
    apply (inventory_reachable inv_start); [by apply run_ops_steps|]. apply inventory_inv_empty. repeat split; reflexivity.
  - reflexivity.
  - vm_compute. reflexivity.
  - vm_compute. discriminate.
  - exists ms. split; [exact Hrun|]. split; [|exact Hnd].
    assert (Hv : (generateMeshPeers mesh_net mesh_first mesh_state).1 =
      Ok ([mkWGPeer "PUB8" "" ["10.100.0.3/32"] "192.0.2.8:51820" 25], 51820)) by (vm_compute; reflexivity).
    rewrite Hrun in Hv. cbn [fst] in Hv. congruence.
Defined.
