(* ===== verification/Token.v ===== *)
(** * Session tokens (internal/auth/token.go)

    [TokenService] issues and verifies the signed tokens that carry a caller's
    claims.  HMAC-SHA256 is a parameter; [github.com/google/uuid] is the class
    [UUID], whose laws are its documented text form.  [fmt.Sscanf] with [%d] is
    modelled on ASCII input. *)

From Stdlib Require Import ZArith Lia Ascii String.
From S2P Require Import Prelude GoStrings GoBase64 Domain GoHttp.

Open Scope Z_scope.

Class UUID := { uuid_String : ID -> string; uuid_Parse : string -> option ID }.

(** Lower-case hexadecimal digits and dashes. *)
Definition uuid_char (c : ascii) : bool := is_digit c || in_range "a" "f" c || bool_decide (c = "-"%char).

Class UUIDLaws `{UUID} := {
  uuid_roundtrip id : uuid_Parse (uuid_String id) = Some id;
  uuid_chars id : all_bytes uuid_char (uuid_String id) = true;
  uuid_nonempty id : uuid_String id <> ""
}.

(** internal/auth/service.go *)
Record Claims := mkClaims {
  cl_UserID : ID; cl_TenantID : option ID; cl_Role : Role; cl_APIKeyID : option ID; cl_MFAPending : bool
}.
#[export] Instance Claims_eq_dec : EqDecision Claims.
Proof. solve_decision. Defined.

(** ** fmt.Sscanf(s, "%d", &x) *)

Fixpoint SkipSpace (s : string) : option string :=
  match s with
  | EmptyString => Some s
  | String c r =>
      if byte_of c =? 10 then None
      else if bool_decide (byte_of c ∈ [9; 11; 12; 13; 32]) then SkipSpace r else Some s
  end.

Fixpoint take_digits (s : string) : string :=
  match s with
  | String c r => if is_digit c then String c (take_digits r) else EmptyString
  | EmptyString => EmptyString
  end.

(** Trailing input is not looked at; a value outside int64 is an error. *)
Definition Sscanf_d (s : string) : option Z :=
  s ← SkipSpace s;
  let '(neg, s) := match s with
                   | String c r => if bool_decide (c = "-"%char) then (true, r)
                                   else if bool_decide (c = "+"%char) then (false, r) else (false, s)
                   | EmptyString => (false, s)
                   end in
  let ds := take_digits s in
  if bool_decide (ds = "") then None
  else
    v ← digits_val 0 ds;
    let v := if neg : bool then - v else v in
    if (- 2 ^ 63 <=? v) && (v <? 2 ^ 63) then Some v else None.

(** [time.Time.Unix] *)
Definition Unix (t : Time) : Z := t / 1000000000.

(** ** The service *)

Record TokenService := NewTokenService { ts_signingKey : string; ts_ttl : Z }.

Section token.
Context `{UUID} (hmac_sha256 : string -> string -> string).

Definition sign (ts : TokenService) (data : string) : string := hmac_sha256 (ts_signingKey ts) data.

Definition token_payload (ts : TokenService) (now : Time) (claims : Claims) : string :=
  Join [uuid_String (cl_UserID claims);
        match cl_TenantID claims with Some t => uuid_String t | None => "" end;
        cl_Role claims; Itoa (Unix now); Itoa (Unix (now + ts_ttl ts));
        if cl_MFAPending claims then "1" else "0"] "|".

Definition Issue (ts : TokenService) (now : Time) (claims : Claims) : result string :=
  let payloadB64 := RawURL_EncodeToString (token_payload ts now claims) in
  Ok (payloadB64 +:+ "." +:+ RawURL_EncodeToString (sign ts payloadB64)).

Definition of_option {A} (msg : string) (o : option A) : result A :=
  match o with Some a => Ok a | None => Err (Errorf msg) end.

(** The fields of a signed payload. *)
Definition verify_fields (now : Time) (fields : list string) : result Claims :=
  match fields with
  | f0 :: f1 :: f2 :: f3 :: f4 :: rest =>
      _ ← guard_err (bool_decide (length rest <= 1)%nat) (Errorf "invalid token payload");
      userID ← of_option "invalid user ID in token" (uuid_Parse f0);
      tenantID ← (if bool_decide (f1 = "") then Ok None
                  else tid ← of_option "invalid tenant ID in token" (uuid_Parse f1); Ok (Some tid));
      _ ← of_option "invalid issued time in token" (Sscanf_d f3);
      expiresAt ← of_option "invalid expiry time in token" (Sscanf_d f4);
      _ ← guard_err (negb (expiresAt <? Unix now)) (Errorf "token has expired");
      Ok (mkClaims userID tenantID f2 None (bool_decide (rest = ["1"])))
  | _ => Err (Errorf "invalid token payload")
  end.

Definition Verify (ts : TokenService) (now : Time) (token : string) : result Claims :=
  match SplitN token "." 2 with
  | [payloadB64; sigB64] =>
      sig ← of_option "invalid token signature encoding" (RawURL_DecodeString sigB64);
      _ ← guard_err (bool_decide (sig = sign ts payloadB64)) (Errorf "invalid token signature");
      payload ← of_option "invalid token payload encoding" (RawURL_DecodeString payloadB64);
      verify_fields now (Split payload "|")
  | _ => Err (Errorf "invalid token format")
  end.
End token.

(** * Session tokens: what is issued is verified, until it expires *)


(** ** Splitting at the first separator *)

Lemma SplitN_1 (s : string) sep : SplitN s sep 1 = [s].
Proof. by destruct s. Qed.

Lemma SplitN_2_cons c (s : string) sep :
  SplitN (String c s) sep 2 =
    if bool_decide (c = sep) then [""; s]
    else match SplitN s sep 2 with f :: fs => String c f :: fs | [] => [String c ""] end.
Proof. cbn. rewrite SplitN_1. by destruct s. Qed.

Lemma SplitN_2 (a b : string) sep :
  ContainsByte a sep = false -> SplitN (a +:+ String sep b) sep 2 = [a; b].
Proof.
  induction a as [|c a IH]; intros Ha.
  - change ("" +:+ String sep b) with (String sep b). rewrite SplitN_2_cons. by rewrite bool_decide_true.
  - cbn in Ha. apply orb_false_iff in Ha as [Hc%bool_decide_eq_false Ha].
    rewrite append_cons, SplitN_2_cons, bool_decide_false by congruence. by rewrite IH.
Qed.

(** ** Decimal numbers read back *)

Lemma digit_char_ok d : 0 <= d < 10 -> is_digit (digit_char d) = true /\ digit_val (digit_char d) = d.
Proof.
  intros Hd. assert (H : forallb (fun d => is_digit (digit_char d) && (digit_val (digit_char d) =? d)) (seqZ 0 10) = true)
    by (vm_compute; reflexivity).
  rewrite forallb_forall in H. specialize (H d). rewrite <-list_elem_of_In, elem_of_seqZ in H.
  specialize (H ltac:(lia)). by apply andb_true_iff in H as [? ?%Z.eqb_eq].
Qed.

Lemma take_digits_all s : all_bytes is_digit s = true -> take_digits s = s.
Proof. induction s as [|c s IH]; [done|]. cbn. intros [-> Hs]%andb_true_iff. by rewrite IH. Qed.

Lemma dec_digits_spec fuel n acc :
  0 <= n < 10 ^ Z.of_nat fuel -> (0 < fuel)%nat ->
  exists ds, dec_digits fuel n acc = ds +:+ acc /\ ds <> "" /\ all_bytes is_digit ds = true /\
    forall a rest, digits_val a (ds +:+ rest) = digits_val (a * 10 ^ Z.of_nat (String.length ds) + n) rest.
Proof.
  revert n acc. induction fuel as [|fuel IH]; intros n acc Hn Hf; [lia|]. cbn [dec_digits].
  destruct (Z.ltb_spec n 10) as [Hlt|Hge].
  - destruct (digit_char_ok n) as [Hd Hv]; [lia|]. exists (String (digit_char n) "").
    split_and!; [done..|cbn; by rewrite Hd|]. intros a rest. cbn [append digits_val]. rewrite Hd, Hv. done.
  - assert (Hf' : (0 < fuel)%nat). { destruct fuel; [|lia]. cbn in Hn. lia. }
    assert (Hq : 0 <= n / 10 < 10 ^ Z.of_nat fuel).
    { rewrite Nat2Z.inj_succ, Z.pow_succ_r in Hn by lia. split; [apply Z.div_pos; lia|].
      apply Z.div_lt_upper_bound; lia. }
    destruct (IH (n / 10) (String (digit_char (n mod 10)) acc) Hq Hf') as (ds & -> & Hne & Hds & Hval).
    destruct (digit_char_ok (n mod 10)) as [Hd Hv]; [by apply Z.mod_pos_bound|].
    exists (ds +:+ String (digit_char (n mod 10)) ""). rewrite append_assoc. split_and!; [done|by destruct ds|..].
    + clear -Hds Hd. induction ds as [|c ds IH]; cbn in *; [by rewrite Hd|].
      apply andb_true_iff in Hds as [-> ?]. by apply IH.
    + intros a rest. rewrite append_assoc, Hval. cbn [append digits_val]. rewrite Hd, Hv, length_append.
      f_equal. cbn [String.length]. rewrite Nat2Z.inj_add, Z.pow_add_r by lia. change (10 ^ Z.of_nat 1) with 10.
      pose proof (Z.div_mod n 10 ltac:(lia)). lia.
Qed.

Lemma digit_not_blank c : is_digit c = true ->
  (byte_of c =? 10) = false /\ bool_decide (byte_of c ∈ [9; 11; 12; 13; 32]) = false /\
  c <> "-"%char /\ c <> "+"%char.
Proof.
  unfold is_digit, in_range. intros [H1%Z.leb_le H2%Z.leb_le]%andb_true_iff. 
  change (byte_of "0") with 48 in H1. change (byte_of "9") with 57 in H2. split_and!.
  - apply Z.eqb_neq. lia.
  - apply bool_decide_eq_false. rewrite !elem_of_cons, elem_of_nil. lia.
  - intros ->. by vm_compute in H1.
  - intros ->. by vm_compute in H1.
Qed.

Lemma Sscanf_Itoa n : - 2 ^ 63 <= n < 2 ^ 63 -> Sscanf_d (Itoa n) = Some n.
Proof.
  intros Hn. unfold Itoa. destruct (Z.ltb_spec n 0) as [Hneg|Hpos].
  - destruct (dec_digits_spec 20 (- n) "" ltac:(cbn in *; lia) ltac:(lia)) as (ds & -> & Hne & Hds & Hval).
    rewrite append_nil_r. unfold Sscanf_d. cbn [SkipSpace mbind option_bind]. cbn [byte_of].
    change (byte_of "-" =? 10) with false. rewrite bool_decide_false by (vm_compute; set_solver). cbn [mbind option_bind].
    rewrite bool_decide_true by done. rewrite take_digits_all by done. rewrite bool_decide_false by done.
    specialize (Hval 0 ""). rewrite append_nil_r in Hval. rewrite Hval. cbn [digits_val mbind option_bind].
    replace (- (0 * 10 ^ Z.of_nat (String.length ds) + - n)) with n by lia.
    by rewrite (proj2 (Z.leb_le _ _)), (proj2 (Z.ltb_lt _ _)) by lia.
  - destruct (dec_digits_spec 20 n "" ltac:(cbn in *; lia) ltac:(lia)) as (ds & -> & Hne & Hds & Hval).
    rewrite append_nil_r. destruct ds as [|c ds]; [done|].
    assert (Hc : is_digit c = true) by (cbn in Hds; by apply andb_true_iff in Hds as [? _]).
    destruct (digit_not_blank c Hc) as (Hb & Hs & Hm & Hp).
    unfold Sscanf_d. cbn [SkipSpace]. rewrite Hb, Hs. cbn [mbind option_bind].
    rewrite !bool_decide_false by done. rewrite take_digits_all by done. rewrite bool_decide_false by done.
    specialize (Hval 0 ""). rewrite append_nil_r in Hval. rewrite Hval. cbn [digits_val mbind option_bind].
    rewrite (proj2 (Z.leb_le _ _)), (proj2 (Z.ltb_lt _ _)) by lia. done.
Qed.

(** ** Field separators *)

Lemma all_bytes_free p s c : all_bytes p s = true -> p c = false -> ContainsByte s c = false.
Proof.
  intros Hs Hc. induction s as [|d s IH]; [done|]. cbn in *. apply andb_true_iff in Hs as [Hd Hs].
  rewrite IH by done. rewrite bool_decide_false; [done|congruence].
Qed.

Lemma Itoa_free n c : is_digit c = false -> c <> "-"%char -> - 2 ^ 63 <= n < 2 ^ 63 -> ContainsByte (Itoa n) c = false.
Proof.
  intros Hc Hm Hn. unfold Itoa. destruct (Z.ltb_spec n 0) as [Hneg|Hpos].
  - destruct (dec_digits_spec 20 (- n) "" ltac:(cbn in *; lia) ltac:(lia)) as (ds & -> & _ & Hds & _).
    rewrite append_nil_r. cbn. rewrite bool_decide_false by done. by apply (all_bytes_free is_digit).
  - destruct (dec_digits_spec 20 n "" ltac:(cbn in *; lia) ltac:(lia)) as (ds & -> & _ & Hds & _).
    rewrite append_nil_r. by apply (all_bytes_free is_digit).
Qed.

Lemma SplitN_2_inv (s p q : string) sep : SplitN s sep 2 = [p; q] -> s = p +:+ String sep q.
Proof.
  revert p. induction s as [|c s IH]; intros p; [done|]. rewrite SplitN_2_cons. case_bool_decide as Hc.
  - intros [= <- <-]. by subst.
  - destruct (SplitN s sep 2) as [|f fs]; [done|]. intros [= <- ->]. by rewrite append_cons, <-IH.
Qed.

Section token.
Context `{UUIDLaws} (hmac_sha256 : string -> string -> string).

(** Times whose seconds fit 64 bits, as all [time.Time] values do. *)
Definition unix_ok (t : Time) : Prop := - 2 ^ 63 <= Unix t < 2 ^ 63.

Lemma payload_fields ts now c :
  ContainsByte (cl_Role c) "|" = false -> unix_ok now -> unix_ok (now + ts_ttl ts) ->
  Split (token_payload ts now c) "|" =
    [uuid_String (cl_UserID c); match cl_TenantID c with Some t => uuid_String t | None => "" end;
     cl_Role c; Itoa (Unix now); Itoa (Unix (now + ts_ttl ts)); if cl_MFAPending c then "1" else "0"].
Proof.
  intros Hr Hn He. unfold token_payload. apply Split_Join; [done|].
  assert (Hu : forall id, ContainsByte (uuid_String id) "|" = false).
  { intros id. apply (all_bytes_free uuid_char); [apply uuid_chars|done]. }
  repeat constructor; try done; try (by apply Itoa_free).
  - by destruct (cl_TenantID c).
  - by destruct (cl_MFAPending c).
Qed.

Lemma Verify_parts ts now p sig :
  ContainsByte p "." = false ->
  Verify hmac_sha256 ts now (p +:+ "." +:+ RawURL_EncodeToString sig) =
    if bool_decide (sig = sign hmac_sha256 ts p) then
      payload ← of_option "invalid token payload encoding" (RawURL_DecodeString p);
      verify_fields now (Split payload "|")
    else Err (Errorf "invalid token signature").
Proof.
  intros Hp. unfold Verify. change ("." +:+ RawURL_EncodeToString sig) with (String "." (RawURL_EncodeToString sig)).
  rewrite SplitN_2 by done. rewrite RawURL_roundtrip. cbn [of_option mbind result_bind]. unfold guard_err.
  by destruct (bool_decide _).
Qed.

Lemma Verify_Issue ts now now' c tok :
  ContainsByte (cl_Role c) "|" = false -> unix_ok now -> unix_ok (now + ts_ttl ts) ->
  Issue hmac_sha256 ts now c = Ok tok ->
  Verify hmac_sha256 ts now' tok =
    if Unix (now + ts_ttl ts) <? Unix now' then Err (Errorf "token has expired")
    else Ok (mkClaims (cl_UserID c) (cl_TenantID c) (cl_Role c) None (cl_MFAPending c)).
Proof.
  intros Hr Hn He Htok. assert (Htok' : tok = RawURL_EncodeToString (token_payload ts now c) +:+ "." +:+
    RawURL_EncodeToString (sign hmac_sha256 ts (RawURL_EncodeToString (token_payload ts now c)))) by (unfold Issue in Htok; congruence).
  subst tok. rewrite Verify_parts by apply RawURL_no_dot. rewrite bool_decide_true by done.
  rewrite RawURL_roundtrip. cbn [of_option mbind result_bind]. rewrite payload_fields by done.
  unfold verify_fields. rewrite uuid_roundtrip, !Sscanf_Itoa by done. cbn [length of_option mbind result_bind guard_err].
  rewrite (bool_decide_true (1 <= 1)%nat) by lia. cbn [guard_err mbind result_bind].
  assert (Ht : (if bool_decide (match cl_TenantID c with Some t => uuid_String t | None => "" end = "") then Ok None
                else tid ← of_option "invalid tenant ID in token"
                       (uuid_Parse match cl_TenantID c with Some t => uuid_String t | None => "" end); Ok (Some tid))
               = Ok (cl_TenantID c)).
  { destruct (cl_TenantID c) as [t|]; [|done]. rewrite bool_decide_false by apply uuid_nonempty.
    by rewrite uuid_roundtrip. }
  cbn [mbind result_bind] in Ht. rewrite Ht. unfold guard_err. destruct (Unix _ <? Unix _); [done|]. cbn.
  by destruct (cl_MFAPending c).
Qed.

(** A session token does not look like an API key. *)
Lemma Issue_no_key_prefix ts now c tok :
  Issue hmac_sha256 ts now c = Ok tok -> HasPrefix tok "ef_" = false.
Proof.
  intros [= <-]. destruct (HasPrefix _ _) eqn:Hp; [|done]. exfalso. revert Hp.
  unfold token_payload. cbn [Join]. pose proof (uuid_nonempty (cl_UserID c)) as Hne.
  pose proof (uuid_chars (cl_UserID c)) as Hch. destruct (uuid_String (cl_UserID c)) as [|a u]; [done|].
  rewrite append_cons. generalize (u +:+ "|" +:+ match cl_TenantID c with Some t => uuid_String t | None => "" end +:+ "|" +:+
    cl_Role c +:+ "|" +:+ Itoa (Unix now) +:+ "|" +:+ Itoa (Unix (now + ts_ttl ts)) +:+ "|" +:+
    (if cl_MFAPending c then "1" else "0")) as rest. intros rest.
  assert (Ha : url_digit (byte_of a / 4) <> "e"%char).
  { cbn in Hch. apply andb_true_iff in Hch as [Ha _]. clear -Ha. pose proof (byte_of_range a).
    assert (Hall : forallb (fun b => negb (uuid_char (chr b)) || negb (bool_decide (url_digit (b / 4) = "e"%char))) (seqZ 0 256) = true)
      by (vm_compute; reflexivity).
    rewrite forallb_forall in Hall. specialize (Hall (byte_of a)). rewrite <-list_elem_of_In, elem_of_seqZ in Hall.
    specialize (Hall ltac:(lia)). rewrite chr_byte, Ha in Hall. cbn in Hall. by apply negb_true_iff, bool_decide_eq_false in Hall. }
  pose proof (byte_of_range a). assert (Hhead : exists r, RawURL_EncodeToString (String a rest) = String (url_digit (byte_of a / 4)) r).
  { unfold RawURL_EncodeToString. destruct rest as [|b [|d rest]]; cbn [encode_with]; eexists; do 2 f_equal.
    - Z.div_mod_to_equations; lia.
    - pose proof (byte_of_range b). Z.div_mod_to_equations; lia.
    - pose proof (byte_of_range b). pose proof (byte_of_range d). Z.div_mod_to_equations; lia. }
  destruct Hhead as [r ->]. rewrite append_cons. cbn [HasPrefix]. rewrite bool_decide_false by congruence. done.
Qed.
End token.

(** Identifiers written in binary, lowest bit first, with an end mark. *)
Fixpoint bits_String (p : positive) : string :=
  match p with
  | xH => "2"
  | xO p => String "0" (bits_String p)
  | xI p => String "1" (bits_String p)
  end.
Fixpoint bits_Parse (s : string) : option positive :=
  match s with
  | EmptyString => None
  | String c s =>
      if bool_decide (c = "2"%char) then Some xH
      else if bool_decide (c = "0"%char) then xO <$> bits_Parse s
      else if bool_decide (c = "1"%char) then xI <$> bits_Parse s else None
  end.

#[export] Instance bits_uuid : UUID := {
  uuid_String id := match id with N0 => "3" | Npos p => bits_String p end;
  uuid_Parse s := if bool_decide (s = "3") then Some 0%N else Npos <$> bits_Parse s
}.

#[export] Instance bits_uuid_laws : UUIDLaws.
Proof.
  split.
  - intros [|p]; [done|]. cbn. rewrite bool_decide_false by (by destruct p).
    assert (H : bits_Parse (bits_String p) = Some p) by (induction p as [p IH|p IH|]; cbn; [by rewrite IH..|done]).
    by rewrite H.
  - intros [|p]; [done|]. cbn. induction p; cbn; done.
  - intros [|p]; [done|]. by destruct p.
Qed.

(** C32: a session token verifies, with exactly the claims it was issued for, at
    every time up to the second its lifetime ends and at none after; it is never
    taken for an API key; and whatever text is accepted as a token carries the
    signature of its payload under the key of the service. *)
Theorem session_token_roundtrip `{UUIDLaws} (hmac_sha256 : string -> string -> string) (ts : TokenService)
    (now : Time) (c : Claims) (tok : string) :
  ContainsByte (cl_Role c) "|" = false -> unix_ok now -> unix_ok (now + ts_ttl ts) ->
  Issue hmac_sha256 ts now c = Ok tok ->
  HasPrefix tok "ef_" = false /\
  (forall now', Verify hmac_sha256 ts now' tok =
     if Unix (now + ts_ttl ts) <? Unix now' then Err (Errorf "token has expired")
     else Ok (mkClaims (cl_UserID c) (cl_TenantID c) (cl_Role c) None (cl_MFAPending c))) /\
  (forall now' tok' c', Verify hmac_sha256 ts now' tok' = Ok c' ->
     exists p sig, tok' = p +:+ String "." sig /\ RawURL_DecodeString sig = Some (sign hmac_sha256 ts p)).
Proof.
  intros Hr Hn He Htok. split_and!.
  - by eapply Issue_no_key_prefix.
  - intros now'. by apply Verify_Issue.
  - intros now' tok' c'. unfold Verify. destruct (SplitN tok' "." 2) as [|p [|sig [|]]] eqn:E; try done. intros Hv.
    exists p, sig. split; [by apply SplitN_2_inv|]. destruct (RawURL_DecodeString sig) as [b|]; [|done].
    cbn in Hv. unfold guard_err in Hv. case_bool_decide as Hb; [by rewrite Hb|done].
Qed.

Definition sample_claims : Claims := mkClaims 7 (Some 1%N) RoleAdmin None true.
Definition sample_token : string :=
  match Issue append (NewTokenService "k" 1000000000) 5 sample_claims with Ok t => t | Err _ => "" end.

Lemma session_token_roundtrip_witness :
  HasPrefix sample_token "ef_" = false /\
  Verify append (NewTokenService "k" 1000000000) 7 sample_token = Ok sample_claims /\
  Verify append (NewTokenService "k" 1000000000) 2000000000 sample_token = Err (Errorf "token has expired").
Proof.
  destruct (session_token_roundtrip append (NewTokenService "k" 1000000000) 5 sample_claims sample_token) as (Hp & Hv & _).
  - reflexivity.
  - split; vm_compute; congruence.
  - split; vm_compute; congruence.
  - vm_compute. reflexivity.
  - split; [exact Hp|]. rewrite !Hv. split; vm_compute; reflexivity.
Defined.
