(* ===== verification/Auth.v ===== *)
(** * Identity services (internal/auth, internal/rbac, internal/user, internal/tenant, internal/audit)

    Password, TOTP and API-key authentication, the role check, and the user and
    tenant services, over the identity tables.  bcrypt and TOTP are the class
    [AuthLib]; what they draw at random is an argument, as are the clock, new
    UUIDs and random bytes.  [net/mail]'s address grammar is a parameter of
    [user_Create].  Strings are trimmed and lower-cased on ASCII. *)

From Stdlib Require Import ZArith Lia Ascii String.
From S2P Require Import Prelude GoStrings GoBase64 GoHttp Regex Secrets Domain Storage StoreProvision StoreAccess DnsValidate DnsService Token Provisioner.

Open Scope Z_scope.

(** ** strings.TrimSpace *)

Definition trim_byte (c : ascii) : bool := bool_decide (byte_of c ∈ [9; 10; 11; 12; 13; 32]).
Fixpoint TrimLeft (s : string) : string :=
  match s with
  | String c r => if trim_byte c then TrimLeft r else s
  | EmptyString => EmptyString
  end.
Fixpoint TrimRight (s : string) : string :=
  match s with
  | EmptyString => EmptyString
  | String c r =>
      match TrimRight r with
      | EmptyString => if trim_byte c then EmptyString else String c EmptyString
      | r' => String c r'
      end
  end.
Definition TrimSpace (s : string) : string := TrimRight (TrimLeft s).

(** ** rbac/service.go *)

Notation Action := string (only parsing).
Definition ActionCreate : Action := "create".
Definition ActionRead : Action := "read".
Definition ActionUpdate : Action := "update".
Definition ActionDelete : Action := "delete".
Definition ActionList : Action := "list".

Notation Resource := string (only parsing).
Definition ResourceTenant : Resource := "tenant".
Definition ResourceUser : Resource := "user".
Definition ResourceNode : Resource := "node".
Definition ResourceNodeGroup : Resource := "node_group".
Definition ResourceGateway : Resource := "gateway".
Definition ResourceIPAllocation : Resource := "ip_allocation".
Definition ResourceBGPSession : Resource := "bgp_session".
Definition ResourceCDNSite : Resource := "cdn_site".
Definition ResourceCDNOrigin : Resource := "cdn_origin".
Definition ResourceRoute : Resource := "route".
Definition ResourceProvisioningJob : Resource := "provisioning_job".
Definition ResourceDNSZone : Resource := "dns_zone".
Definition ResourceDNSRecord : Resource := "dns_record".
Definition ResourceSSHKey : Resource := "ssh_key".
Definition ResourceAuditEvent : Resource := "audit_event".
Definition ResourceAPIKey : Resource := "api_key".

Definition ErrForbidden : goerr := Errorf "forbidden".

(** [action != ActionRead && action != ActionList] *)
Definition writes (action : Action) : bool :=
  negb (bool_decide (action = ActionRead)) && negb (bool_decide (action = ActionList)).

Definition Authorize (claims : Claims) (action : Action) (resource : Resource) (tenantID : option ID)
    : result unit :=
  if bool_decide (cl_Role claims = RoleSuperUser) then Ok tt
  else if bool_decide (cl_Role claims = RoleReadOnly) && writes action then Err ErrForbidden
  else match cl_TenantID claims with
       | None => Err ErrForbidden
       | Some own =>
           if match tenantID with Some t => negb (bool_decide (own = t)) | None => false end
           then Err ErrForbidden
           else if bool_decide (resource ∈ [ResourceTenant; ResourceSSHKey]) && writes action
           then Err ErrForbidden
           else Ok tt
       end.

(** ** auth/auth.go *)

Class AuthLib := {
  bcrypt_GenerateFromPassword : nat -> string -> option string;
  bcrypt_Compare : string -> string -> bool;
  totp_Validate : Time -> string -> string -> bool;
  totp_Generate : nat -> string -> string -> option (string * string)
}.
(** A hash matches the password it was made of. *)
Class AuthLibLaws `{AuthLib} := {
  bcrypt_hash_ok salt pw h : bcrypt_GenerateFromPassword salt pw = Some h -> bcrypt_Compare h pw = true
}.

Definition set_LastLoginAt (now : Time) (u : User) : User :=
  mkUser (user_ID u) (user_TenantID u) (user_Email u) (user_Name u) (user_PasswordHash u)
    (user_TOTPSecret u) (user_TOTPEnabled u) (user_Role u) (user_Status u) (Some now)
    (user_CreatedAt u) (user_UpdatedAt u).
Definition set_totp (secret : string) (enabled : bool) (u : User) : User :=
  mkUser (user_ID u) (user_TenantID u) (user_Email u) (user_Name u) (user_PasswordHash u)
    secret enabled (user_Role u) (user_Status u) (user_LastLoginAt u)
    (user_CreatedAt u) (user_UpdatedAt u).

(** An error of [m] replaced by the given one. *)
Definition or_error {S A} (e : goerr) (m : stM S A) : stM S A := fun s =>
  match m s with (Ok a, s) => (Ok a, s) | (Err _, s) => (Err e, s) end.

Section auth.
Context `{AuthLib} `{AEAD}.

(** The error of [UpdateUser] is dropped. *)
Definition AuthenticatePassword (now now' : Time) (email password : string) : stM SqlState User :=
  user ← or_error (Errorf "invalid credentials") (sqlite_GetUserByEmail email);
  _ ← lift (guard_err (bool_decide (user_Status user = UserStatusActive)) (Errorf "account is disabled"));
  _ ← lift (guard_err (bcrypt_Compare (user_PasswordHash user) password) (Errorf "invalid credentials"));
  let user := set_LastLoginAt now user in
  r ← try (sqlite_UpdateUser now' user);
  mret (match r with Ok u => u | Err _ => set_user_UpdatedAt now' user end).

Definition AuthenticateTOTP (st : Store) (now : Time) (userID : ID) (code : string) : stM SqlState unit :=
  user ← or_error (Errorf "user not found") (sqlite_GetUser userID);
  _ ← lift (guard_err (user_TOTPEnabled user && negb (bool_decide (user_TOTPSecret user = "")))
              (Errorf "TOTP not enabled for this user"));
  secret ← wrap "failed to decrypt TOTP secret" (lift (Decrypt st (user_TOTPSecret user)));
  lift (guard_err (totp_Validate now code secret) (Errorf "invalid TOTP code")).

Definition AuthenticateAPIKey (now now' : Time) (key : string) : stM SqlState APIKey :=
  let rawKey := TrimPrefix key "ef_" in
  if (String.length rawKey <? 8)%nat then throw (Errorf "invalid API key format")
  else
    apiKey ← or_error (Errorf "invalid API key") (sqlite_GetAPIKeyByPrefix (str_take 8 rawKey));
    _ ← lift (guard_err (match apikey_ExpiresAt apiKey with Some t => negb (t <? now) | None => true end)
                (Errorf "API key has expired"));
    _ ← lift (guard_err (bcrypt_Compare (apikey_KeyHash apiKey) rawKey) (Errorf "invalid API key"));
    _ ← try (sqlite_UpdateAPIKeyLastUsed now' (apikey_ID apiKey));
    mret apiKey.

Definition HashPassword (salt : nat) (password : string) : result string :=
  match bcrypt_GenerateFromPassword salt password with
  | Some h => Ok h
  | None => Err (Wrapf "hash password" (Errorf "bcrypt"))
  end.

Definition auth_EnrollTOTP (st : Store) (issuer : string) (draw : nat) (nonce : option string) (now : Time) (userID : ID)
    : stM SqlState (string * string) :=
  user ← or_error (Errorf "user not found") (sqlite_GetUser userID);
  key ← lift (match totp_Generate draw issuer (user_Email user) with
              | Some k => Ok k
              | None => Err (Wrapf "generate TOTP key" (Errorf "totp"))
              end);
  encrypted ← wrap "encrypt TOTP secret" (lift (Encrypt nonce st key.1));
  _ ← wrap "save TOTP secret" (sqlite_UpdateUser now (set_totp encrypted (user_TOTPEnabled user) user));
  mret key.

Definition auth_ConfirmTOTP (st : Store) (now now' : Time) (userID : ID) (code : string) : stM SqlState unit :=
  user ← or_error (Errorf "user not found") (sqlite_GetUser userID);
  _ ← lift (guard_err (negb (bool_decide (user_TOTPSecret user = ""))) (Errorf "TOTP not enrolled"));
  secret ← wrap "decrypt TOTP secret" (lift (Decrypt st (user_TOTPSecret user)));
  _ ← lift (guard_err (totp_Validate now code secret) (Errorf "invalid TOTP code"));
  _ ← wrap "enable TOTP" (sqlite_UpdateUser now' (set_totp (user_TOTPSecret user) true user));
  mret tt.

(** [rand] is what [rand.Read] fills the 32 bytes with. *)
Definition GenerateAPIKey (rand : option string) (salt : nat) (newID : ID) (now : Time) (tenantID userID : ID)
    (name : string) (role : Role) : stM SqlState (string * APIKey) :=
  keyBytes ← lift (match rand with
                   | Some b => Ok b
                   | None => Err (Wrapf "generate random key" (Errorf "rand"))
                   end);
  let rawKey := RawURL_EncodeToString keyBytes in
  hash ← lift (match bcrypt_GenerateFromPassword salt rawKey with
               | Some h => Ok h
               | None => Err (Wrapf "hash API key" (Errorf "bcrypt"))
               end);
  k ← wrap "create API key" (sqlite_CreateAPIKey now
        (mkAPIKey newID tenantID userID name hash (str_take 8 rawKey) role None None 0));
  mret ("ef_" +:+ rawKey, k).

(** ** user/user.go *)

Record user_CreateRequest := mkCreateUser {
  cu_TenantID : option ID; cu_Email : string; cu_Name : string; cu_Password : string; cu_Role : Role
}.
Record user_UpdateRequest := mkUpdateUser {
  uu_Name : option string; uu_Password : option string; uu_Role : option Role; uu_Status : option UserStatus
}.

Definition user_validate (ParseAddress : string -> bool) (email name : string) (req : user_CreateRequest) : result unit :=
  _ ← guard_err (negb (bool_decide (email = ""))) (Errorf "email is required");
  _ ← guard_err (ParseAddress email) (Errorf "invalid email address");
  _ ← guard_err (negb (bool_decide (name = ""))) (Errorf "name is required");
  _ ← guard_err (negb (bool_decide (cu_Password req = ""))) (Errorf "password is required");
  _ ← guard_err (8 <=? String.length (cu_Password req))%nat (Errorf "password must be at least 8 characters");
  _ ← guard_err (negb (bool_decide (cu_Role req = ""))) (Errorf "role is required");
  _ ← guard_err (negb (bool_decide (cu_Role req = RoleSuperUser) && bool_decide (is_Some (cu_TenantID req))))
        (Errorf "superusers cannot be assigned to a tenant");
  guard_err (bool_decide (cu_Role req = RoleSuperUser) || bool_decide (is_Some (cu_TenantID req)))
    (Errorf "non-superuser users must be assigned to a tenant").

Definition user_Create (ParseAddress : string -> bool) (salt : nat) (newID : ID) (now : Time)
    (req : user_CreateRequest) : stM SqlState User :=
  let email := TrimSpace (ToLower (cu_Email req)) in
  let name := TrimSpace (cu_Name req) in
  _ ← lift (user_validate ParseAddress email name req);
  hash ← wrap "hash password" (lift (HashPassword salt (cu_Password req)));
  sqlite_CreateUser now (mkUser newID (cu_TenantID req) email name hash "" false (cu_Role req) UserStatusActive None 0 0).

Definition clamp_limit (params : ListParams) : ListParams :=
  let limit := if lp_Limit params <=? 0 then DefaultLimit else lp_Limit params in
  mkListParams (lp_Offset params) (if 200 <? limit then 200 else limit) (lp_Cursor params).

Definition user_Get (id : ID) : stM SqlState User := sqlite_GetUser id.
Definition user_GetByEmail (email : string) : stM SqlState User := sqlite_GetUserByEmail email.
Definition user_List (tenantID : option ID) (params : ListParams) : stM SqlState (list User * Z) :=
  sqlite_ListUsers tenantID (clamp_limit params).

Definition new_name (old : string) (name : option string) : result string :=
  match name with
  | Some n => if bool_decide (TrimSpace n = "") then Err (Errorf "name cannot be empty") else Ok (TrimSpace n)
  | None => Ok old
  end.

Definition new_hash (salt : nat) (old : string) (password : option string) : result string :=
  match password with
  | Some pw =>
      if (String.length pw <? 8)%nat then Err (Errorf "password must be at least 8 characters")
      else wrap_err "hash password" (HashPassword salt pw)
  | None => Ok old
  end.

Definition user_Update (salt : nat) (now : Time) (id : ID) (req : user_UpdateRequest) : stM SqlState User :=
  u ← sqlite_GetUser id;
  name ← lift (new_name (user_Name u) (uu_Name req));
  hash ← lift (new_hash salt (user_PasswordHash u) (uu_Password req));
  sqlite_UpdateUser now (mkUser (user_ID u) (user_TenantID u) (user_Email u) name hash (user_TOTPSecret u)
    (user_TOTPEnabled u) (set_if (uu_Role req) (user_Role u)) (set_if (uu_Status req) (user_Status u))
    (user_LastLoginAt u) (user_CreatedAt u) (user_UpdatedAt u)).

Definition user_Delete (id : ID) : stM SqlState unit := sqlite_DeleteUser id.
End auth.

(** ** tenant/tenant.go *)

Definition is_slug_char (c : ascii) : bool := is_lower c || is_digit c.
Definition slugPattern : regex :=
  RSeqs [RChr is_slug_char; RStar (RChr (fun c => is_slug_char c || bool_decide (c = "-"%char))); RChr is_slug_char].

Record tenant_CreateRequest := mkCreateTenant { ct_Name : string; ct_Slug : string }.
Record tenant_UpdateRequest := mkUpdateTenant { ut_Name : option string; ut_Status : option TenantStatus }.

Definition tenant_Create (newID : ID) (now : Time) (req : tenant_CreateRequest) : stM SqlState Tenant :=
  let name := TrimSpace (ct_Name req) in
  let slug := TrimSpace (ToLower (ct_Slug req)) in
  _ ← lift (guard_err (negb (bool_decide (name = ""))) (Errorf "name is required"));
  _ ← lift (guard_err (negb (bool_decide (slug = ""))) (Errorf "slug is required"));
  _ ← lift (guard_err ((2 <=? String.length slug)%nat && re_match slugPattern slug)
              (Errorf "slug must be lowercase alphanumeric with hyphens, at least 2 characters"));
  sqlite_CreateTenant now (mkTenant newID name slug TenantStatusActive "" 0 0).

Definition tenant_Get (id : ID) : stM SqlState Tenant := sqlite_GetTenant id.
Definition tenant_GetBySlug (slug : string) : stM SqlState Tenant := sqlite_GetTenantBySlug slug.
Definition tenant_List (params : ListParams) : stM SqlState (list Tenant * Z) :=
  sqlite_ListTenants (clamp_limit params).

Definition tenant_Update (now : Time) (id : ID) (req : tenant_UpdateRequest) : stM SqlState Tenant :=
  t ← sqlite_GetTenant id;
  name ← lift (new_name (tenant_Name t) (ut_Name req));
  sqlite_UpdateTenant now (mkTenant (tenant_ID t) name (tenant_Slug t) (set_if (ut_Status req) (tenant_Status t))
    (tenant_Settings t) (tenant_CreatedAt t) (tenant_UpdatedAt t)).

(** A soft delete: the row stays, with status deleted. *)
Definition tenant_Delete (now : Time) (id : ID) : stM SqlState unit :=
  t ← sqlite_GetTenant id;
  _ ← sqlite_UpdateTenant now (mkTenant (tenant_ID t) (tenant_Name t) (tenant_Slug t) TenantStatusDeleted
        (tenant_Settings t) (tenant_CreatedAt t) (tenant_UpdatedAt t));
  mret tt.

(** ** audit/service.go *)

(** Details are a map of strings; [None] is a nil value. *)
Record audit_Event := mkEvent {
  ev_TenantID : option ID; ev_UserID : option ID; ev_APIKeyID : option ID; ev_Action : string;
  ev_Resource : string; ev_Details : option (list (string * string)); ev_SourceIP : string
}.

(** encoding/json on such a map, on printable ASCII; keys come out sorted. *)
Fixpoint json_escape (s : string) : string :=
  match s with
  | EmptyString => EmptyString
  | String c s =>
      (if (byte_of c =? 34) || (byte_of c =? 92) then String (chr 92) (String c EmptyString)
       else if byte_of c =? 60 then String (chr 92) "u003c"
       else if byte_of c =? 62 then String (chr 92) "u003e"
       else if byte_of c =? 38 then String (chr 92) "u0026"
       else String c EmptyString) +:+ json_escape s
  end.
Definition json_string (s : string) : string := dq +:+ json_escape s +:+ dq.
Definition json_map (m : option (list (string * string))) : string :=
  match m with
  | None => "null"
  | Some kvs =>
      "{" +:+ Join ((fun kv => json_string kv.1 +:+ ":" +:+ json_string kv.2) <$>
                    merge_sort (by_name fst) kvs) "," +:+ "}"
  end.

Definition audit_Log (newID : ID) (now : Time) (event : audit_Event) : stM SqlState unit :=
  sqlite_CreateAuditEvent (mkAuditEvent newID (ev_TenantID event) (ev_UserID event) (ev_APIKeyID event)
    (ev_Action event) (ev_Resource event) (json_map (ev_Details event)) (ev_SourceIP event) now).

Definition audit_List (tenantID : option ID) (params : ListParams) : stM SqlState (list AuditEvent * Z) :=
  sqlite_ListAuditEvents tenantID params.
