(* ===== verification/Api.v ===== *)
(** * HTTP layer of the controller (internal/api/apiutil, internal/api/middleware)

    An [http.Handler] is a function from a request and the database to a reply
    and the database; middleware maps handlers to handlers.  A request carries
    the claims that [Auth] puts into its context.  A JSON body reaches a handler
    as what [encoding/json] decodes it to, [None] when it is rejected; the value
    given to the JSON encoder is the body of the reply.  [ReqEnv] holds the
    readings of the clock, new UUIDs and random draws of one request. *)

From Stdlib Require Import ZArith Lia Ascii String.
From S2P Require Import Prelude GoStrings GoBase64 GoHttp Secrets Domain Storage StoreAccess DnsService CdnProxy RouteService Networking Token Auth.

Open Scope Z_scope.

(** ** Requests and replies *)

Record HttpReq := mkHttpReq {
  hq_Authorization : string;
  hq_Cookie : option string;
  hq_Path : string;
  hq_PathValue : string -> string;
  hq_RawQuery : string;
  hq_RemoteAddr : string;
  hq_claims : option Claims
}.

Record ReqEnv := mkReqEnv {
  re_now : nat -> Time; re_newID : nat -> ID; re_draw : nat;
  re_rand : option string; re_nonce : option string; re_tick : nat
}.

(** An error message of the code, or the text of an error. *)
Inductive detail := Msg (s : string) | ErrText (e : goerr).

(** The overview of api/v1/status.go. *)
Record statusResponse := mkStatusResponse {
  sr_Version : string; sr_Commit : string; sr_BuildTime : string; sr_TenantCount : Z; sr_UserCount : Z;
  sr_NodeCount : Z; sr_NodesByStatus : gmap string Z; sr_GatewayCount : Z; sr_GatewaysByStatus : gmap string Z;
  sr_StaleNodeCount : Z; sr_StaleGatewayCount : Z; sr_RouteCount : Z; sr_DNSZoneCount : Z; sr_CDNSiteCount : Z;
  sr_SchemaVersion : Z; sr_IsLeader : bool; sr_Plugins : gmap string (list string)
}.

Inductive Body :=
| BNone
| BError (code : string) (d : detail)
| BLogin (token : string) (totpRequired : bool)
| BStatus (s : string)
| BTotp (secret uri : string)
| BTenant (t : Tenant)
| BUser (u : User)
| BRawKey (raw : string) (k : APIKey)
| BZone (z : DNSZone)
| BRecord (r : DNSRecord)
| BTenants (l : list Tenant) (total offset limit : Z)
| BUsers (l : list User) (total offset limit : Z)
| BKeys (l : list APIKey) (total offset limit : Z)
| BAudit (l : list AuditEvent) (total offset limit : Z)
| BZones (l : list DNSZone) (total offset limit : Z)
| BRecords (l : list DNSRecord) (total offset limit : Z)
| BNode (n : Node)
| BGateway (g : Gateway)
| BGroup (g : NodeGroup)
| BSSHKey (k : SSHKey)
| BRoute (r : Route)
| BAllocation (a : IPAllocation)
| BSession (b : BGPSession)
| BSite (s : CDNSite)
| BOrigin (o : CDNOrigin)
| BJob (j : ProvisioningJob)
| BNetState (n : NodeNetworkingState)
| BNodes (l : list Node) (total offset limit : Z)
| BNodesPage (l : list Node) (total limit : Z) (nextCursor : string)
| BGateways (l : list Gateway) (total offset limit : Z)
| BGroups (l : list NodeGroup) (total offset limit : Z)
| BSSHKeys (l : list SSHKey) (total offset limit : Z)
| BRoutes (l : list Route) (total offset limit : Z)
| BAllocations (l : list IPAllocation) (total offset limit : Z)
| BSessions (l : list BGPSession) (total offset limit : Z)
| BPeers (l : list WireGuardPeer) (total offset limit : Z)
| BSites (l : list CDNSite) (total offset limit : Z)
| BOrigins (l : list CDNOrigin) (total offset limit : Z)
| BJobs (l : list ProvisioningJob) (total offset limit : Z)
| BText (text : string)
| BBGPConfig (l : list BGPSession)
| BDNSConfig (c : NodeDNSConfig)
| BCDNConfig (c : NodeCDNConfig)
| BRouteConfig (c : NodeRouteConfig)
| BGatewayConfig (c : GatewayRouteConfig)
| BToken (token : string) (expiresAt : Time)
| BEnrolled (nodeID apiToken wireGuardIP : string)
| BOverview (o : statusResponse).

Record Cookie := mkCookie { ck_Name : string; ck_Value : string; ck_MaxAge : Z; ck_HttpOnly : bool; ck_Secure : bool }.

Record ApiReply := mkApiReply { ar_status : Z; ar_cookie : option Cookie; ar_body : Body }.

Definition Handler : Type := HttpReq -> SqlState -> ApiReply * SqlState.

(** ** apiutil *)

Definition JSON (status : Z) (data : Body) : ApiReply := mkApiReply status None data.
Definition WriteError (status : Z) (code : string) (d : detail) : ApiReply := mkApiReply status None (BError code d).
Definition NoContent : ApiReply := mkApiReply 204 None BNone.

(** A handler body that may reply early. *)
Definition hM (A : Type) : Type := SqlState -> (ApiReply + A) * SqlState.
#[export] Instance hM_ret : MRet hM := fun A a s => (inr a, s).
#[export] Instance hM_bind : MBind hM := fun A B f m s =>
  match m s with (inl r, s) => (inl r, s) | (inr a, s) => f a s end.

Definition reply {A} (r : ApiReply) : hM A := fun s => (inl r, s).
(** [x, err := m; if err != nil { onerr; return }] *)
Definition svc {A} (m : stM SqlState A) (onerr : goerr -> ApiReply) : hM A := fun s =>
  match m s with (Ok a, s) => (inr a, s) | (Err e, s) => (inl (onerr e), s) end.
(** A call whose error is dropped. *)
Definition dropped {A} (m : stM SqlState A) : hM unit := fun s => (inr tt, (m s).2).

Definition HandlerFunc (f : HttpReq -> hM ApiReply) : Handler := fun r s =>
  match f r s with (inl rep, s) => (rep, s) | (inr rep, s) => (rep, s) end.

Definition Decode {A} (body : option A) : hM A :=
  match body with
  | Some a => mret a
  | None => reply (WriteError 400 "bad_request" (Msg "invalid request body"))
  end.

Section uuid.
Context `{UUID}.

Definition ParseID (r : HttpReq) (name : string) : hM ID :=
  let raw := hq_PathValue r name in
  if bool_decide (raw = "") then reply (WriteError 400 "bad_request" (Msg "missing path parameter"))
  else match uuid_Parse raw with
       | Some id => mret id
       | None => reply (WriteError 400 "bad_request" (Msg "invalid UUID"))
       end.
End uuid.

(** [strconv.Atoi] *)
Definition Atoi (s : string) : option Z :=
  let '(neg, ds) := match s with
                    | String c r => if bool_decide (c = "-"%char) then (true, r)
                                    else if bool_decide (c = "+"%char) then (false, r) else (false, s)
                    | EmptyString => (false, s)
                    end in
  if bool_decide (ds = "") then None
  else
    v ← digits_val 0 ds;
    let v := if neg : bool then - v else v in
    if (- 2 ^ 63 <=? v) && (v <? 2 ^ 63) then Some v else None.

Definition query_get (rawQuery name : string) : string :=
  match URL_Query rawQuery !! name with Some (v :: _) => v | _ => "" end.

Definition ParseListParams (r : HttpReq) : ListParams :=
  let get := query_get (hq_RawQuery r) in
  let offset := match Atoi (get "offset") with Some n => if 0 <=? n then n else 0 | None => 0 end in
  let limit := match Atoi (get "limit") with Some n => if 0 <? n then n else DefaultLimit | None => DefaultLimit end in
  mkListParams offset (if 200 <? limit then 200 else limit) (get "cursor").

Definition CanAccessTenant (claims : Claims) (resourceTenantID : option ID) : bool :=
  match cl_TenantID claims, resourceTenantID with
  | Some t, Some t' => bool_decide (t = t')
  | _, _ => true
  end.

Definition CanAccessTenantVal (claims : Claims) (resourceTenantID : ID) : bool :=
  match cl_TenantID claims with Some t => bool_decide (t = resourceTenantID) | None => true end.

(** ** Middleware *)

Definition Chain (handler : Handler) (mws : list (Handler -> Handler)) : Handler :=
  foldr (fun mw h => mw h) handler mws.

Definition with_claims (c : Claims) (r : HttpReq) : HttpReq :=
  mkHttpReq (hq_Authorization r) (hq_Cookie r) (hq_Path r) (hq_PathValue r) (hq_RawQuery r) (hq_RemoteAddr r) (Some c).
Definition ClaimsFromContext (r : HttpReq) : option Claims := hq_claims r.

Definition TenantFromClaims (r : HttpReq) : option ID := c ← ClaimsFromContext r; cl_TenantID c.

Definition RequirePermission (action : Action) (resource : Resource)
    (tenantIDFunc : option (HttpReq -> option ID)) (next : Handler) : Handler := fun r s =>
  match ClaimsFromContext r with
  | None => (WriteError 401 "unauthorized" (Msg "authentication required"), s)
  | Some claims =>
      let tenantID := f ← tenantIDFunc; f r in
      match Authorize claims action resource tenantID with
      | Err _ => (WriteError 403 "forbidden" (Msg "insufficient permissions"), s)
      | Ok _ => next r s
      end
  end.

Section middleware.
Context `{UUID} `{AuthLib} (hmac_sha256 : string -> string -> string).

Definition RequireResourceOwnerOrAdmin (paramName : string) (next : Handler) : Handler := fun r s =>
  match ClaimsFromContext r with
  | None => (WriteError 401 "unauthorized" (Msg "authentication required"), s)
  | Some claims =>
      if bool_decide (cl_TenantID claims = None) || bool_decide (cl_Role claims = RoleAdmin) ||
         bool_decide (cl_Role claims = RoleSuperUser) then next r s
      else match ParseID r paramName s with
           | (inl rep, s) => (rep, s)
           | (inr pathID, s) =>
               if bool_decide (cl_UserID claims = pathID) then next r s
               else (WriteError 403 "forbidden" (Msg "not authorized for this resource"), s)
           end
  end.

(** The bearer token of the header, or the session cookie. *)
Definition request_token (r : HttpReq) : ApiReply + string :=
  if bool_decide (hq_Authorization r = "") then
    match hq_Cookie r with
    | Some v => inr v
    | None => inr ""
    end
  else if HasPrefix (hq_Authorization r) "Bearer " then inr (TrimPrefix (hq_Authorization r) "Bearer ")
  else inl (WriteError 401 "unauthorized" (Msg "invalid authorization scheme")).

(** The paths a token with a pending second factor may use. *)
Definition mfa_path (path : string) : bool :=
  bool_decide (path ∈ ["/api/v1/auth/totp/verify"; "/api/v1/auth/totp/confirm"; "/api/v1/auth/me"]).

Definition key_claims (k : APIKey) : Claims :=
  mkClaims (apikey_UserID k) (Some (apikey_TenantID k)) (apikey_Role k) (Some (apikey_ID k)) false.

Definition authenticate (ts : TokenService) (e : ReqEnv) (r : HttpReq) : hM Claims :=
  match request_token r with
  | inl rep => reply rep
  | inr token =>
      if bool_decide (token = "") then reply (WriteError 401 "unauthorized" (Msg "missing authorization"))
      else if HasPrefix token "ef_" then
        apiKey ← svc (AuthenticateAPIKey (re_now e 0) (re_now e 1) token)
                   (fun _ => WriteError 401 "unauthorized" (Msg "invalid API key"));
        mret (key_claims apiKey)
      else
        match Verify hmac_sha256 ts (re_now e 0) token with
        | Ok c => mret c
        | Err _ => reply (WriteError 401 "unauthorized" (Msg "invalid or expired token"))
        end
  end.

Definition Auth (ts : TokenService) (e : ReqEnv) (next : Handler) : Handler := fun r s =>
  match authenticate ts e r s with
  | (inl rep, s) => (rep, s)
  | (inr claims, s) =>
      if cl_MFAPending claims && negb (mfa_path (hq_Path r))
      then (WriteError 403 "mfa_required" (Msg "MFA verification required"), s)
      else next (with_claims claims r) s
  end.
End middleware.
