(* ===== verification/ApiCore.v ===== *)
(** * What the services behind the API leave alone

    [obeys P m]: every run of [m], failing or not, relates the state before to
    the state after by [P].  Operations that only read obey every preorder that
    allows a statement without effect ([Skip]).  [bystander] is the preorder of
    operations that touch neither user accounts nor the audit log: every
    operation of the fleet, route, networking, CDN and provisioning services. *)

From Stdlib Require Import ZArith Lia Ascii String.
From S2P Require Import Prelude GoStrings Secrets Domain Storage StoreDns StoreFleet StoreCdn StoreProvision StoreInventory Overlay DnsService CdnService Provisioner ProvisionFrame KeyRotation Fleet RouteService Networking.

Open Scope Z_scope.

Create HintDb obeys.

Class Skip (P : relation SqlState) := { skip_pre :: PreOrder P; skip_next s : P s (sq_next s (sq_db s)) }.

Definition obeys (P : relation SqlState) {A} (m : stM SqlState A) : Prop := forall s r s', m s = (r, s') -> P s s'.

Section obeys.
Context (P : relation SqlState) `{!Skip P} {A B : Type}.
Lemma ob_ret (a : A) : obeys P (mret a).
Proof using Type*. intros s r s' [= _ <-]. reflexivity. Qed.
Lemma ob_throw e : obeys P (throw (A:=A) e).
Proof using Type*. intros s r s' [= _ <-]. reflexivity. Qed.
Lemma ob_lift (x : result A) : obeys P (lift x).
Proof using Type*. intros s r s' [= _ <-]. reflexivity. Qed.
Lemma ob_bind (m : stM SqlState A) (f : A -> stM SqlState B) : obeys P m -> (forall a, obeys P (f a)) -> obeys P (m ≫= f).
Proof using Type*.
  intros Hm Hf s r s' Hrun. apply bind_run in Hrun as [(a & s1 & H1 & H2)|(err & H1 & _)]; [|by eapply Hm].
  etrans; [by eapply Hm|by eapply Hf].
Qed.
Lemma ob_wrap msg (m : stM SqlState A) : obeys P m -> obeys P (wrap msg m).
Proof using Type*. intros Hm s r s' Hrun. apply wrap_run in Hrun as [(a & H1 & _)|(err & H1 & _)]; by eapply Hm. Qed.
Lemma ob_try (m : stM SqlState A) : obeys P m -> obeys P (try m).
Proof using Type*. intros Hm s r s'. unfold try. destruct (m s) as [x s1] eqn:E. intros [= _ <-]. by eapply Hm. Qed.
Lemma ob_query msg (f : DB -> result A) : obeys P (sql_query msg f).
Proof using Type*. intros s r s'. unfold sql_query, sql_exec. destruct (sq_fault s); intros [= _ <-]; apply skip_next. Qed.
End obeys.
#[export] Hint Resolve ob_ret ob_throw ob_lift ob_wrap ob_try ob_query : obeys.
#[export] Hint Extern 0 (Skip _) => apply _ : obeys.

(** Relations between the tables. *)
Definition on_db (R : relation DB) : relation SqlState := fun s s' => R (sq_db s) (sq_db s').
#[export] Instance on_db_skip R `{!PreOrder R} : Skip (on_db R).
Proof.
  split; [split|].
  - intros s. unfold on_db. reflexivity.
  - intros a b c Hab Hbc. unfold on_db in *. by etrans.
  - intros s. unfold on_db. cbn. reflexivity.
Qed.

Definition spares (s s' : SqlState) : Prop :=
  users (sq_db s') = users (sq_db s) /\ audit_events (sq_db s') = audit_events (sq_db s) /\ (calm s -> calm s').
#[export] Instance spares_skip : Skip spares.
Proof.
  split; [split; [by intros s|]|].
  - intros a b c (U1 & A1 & C1) (U2 & A2 & C2). split_and!; [congruence..|auto].
  - intros s. split_and!; try done. unfold calm. cbn. by intros ->.
Qed.
Notation bystander := (obeys spares).

(** A store method that consists of one statement. *)
Ltac by_statement :=
  let s := fresh "s" in let r := fresh "r" in let s' := fresh "s'" in
  intros s r s'; unfold sql_insert, sql_update, sql_exec; cbv zeta;
  destruct (sq_fault s); [|repeat case_match]; intros; simplify_eq; cbn;
  split_and!; try done; unfold calm; cbn; by intros ->.

Ltac head_of m := lazymatch m with ?f _ => head_of f | _ => m end.

(** Follow the structure of an operation, opening its definitions. *)
Ltac ob_all :=
  repeat lazymatch goal with
  | |- forall _, obeys _ _ => intros ?
  | |- obeys _ (_ ≫= _) => apply ob_bind; [apply _|..]
  | |- obeys _ (wrap _ _) => apply ob_wrap; [apply _|]
  | |- obeys _ (try _) => apply ob_try; [apply _|]
  | |- obeys _ (let _ := _ in _) => cbv zeta
  | |- obeys _ (match ?x with _ => _ end) => destruct x
  | |- obeys spares ?m => first [solve [eauto 4 with obeys]
                                | let h := head_of m in unfold h; first [solve [by_statement]|idtac]]
  | |- obeys _ ?m => first [solve [eauto 4 with obeys] | let h := head_of m in unfold h]
  end.

(** ** Operations with loops *)

Section loops.
Context (P : relation SqlState) `{!Skip P}.

Lemma ob_dns_reads id p : obeys P (ListDNSZones (S:=SqlState) id p) /\ obeys P (ListDNSRecords (S:=SqlState) id p).
Proof using Type*. split; apply ob_query, _. Qed.
Lemma ob_group_reads id : obeys P (GetNode (S:=SqlState) id) /\ obeys P (ListNodeGroups_ByNode (S:=SqlState) id).
Proof using Type*. split; apply ob_query, _. Qed.
#[local] Hint Extern 1 (obeys _ (ListDNSZones _ _)) => apply ob_dns_reads : obeys.
#[local] Hint Extern 1 (obeys _ (ListDNSRecords _ _)) => apply ob_dns_reads : obeys.
#[local] Hint Extern 1 (obeys _ (GetNode _)) => apply ob_group_reads : obeys.
#[local] Hint Extern 1 (obeys _ (ListNodeGroups_ByNode _)) => apply ob_group_reads : obeys.

Lemma ob_sync_zones gid zs seen acc : obeys P (sync_zones (S:=SqlState) gid zs seen acc).
Proof using Type*. revert seen acc. induction zs as [|z zs IH]; intros seen acc; cbn [sync_zones]; ob_all. Qed.
#[local] Hint Resolve ob_sync_zones : obeys.
Lemma ob_sync_groups gs seen acc : obeys P (sync_groups (S:=SqlState) gs seen acc).
Proof using Type*. revert seen acc. induction gs as [|g gs IH]; intros seen acc; cbn [sync_groups]; ob_all. Qed.
#[local] Hint Resolve ob_sync_groups : obeys.
Lemma ob_GetNodeDNSConfig id : obeys P (GetNodeDNSConfig (S:=SqlState) id).
Proof using Type*. unfold GetNodeDNSConfig. ob_all. Qed.

Lemma ob_sync_sites gid sites seen acc : obeys P (sync_sites gid sites seen acc).
Proof using Type*. revert seen acc. induction sites as [|z zs IH]; intros seen acc; cbn [sync_sites]; ob_all. Qed.
#[local] Hint Resolve ob_sync_sites : obeys.
Lemma ob_sync_site_groups gs seen acc : obeys P (sync_site_groups gs seen acc).
Proof using Type*. revert seen acc. induction gs as [|g gs IH]; intros seen acc; cbn [sync_site_groups]; ob_all. Qed.
#[local] Hint Resolve ob_sync_site_groups : obeys.
Lemma ob_GetNodeCDNConfig id : obeys P (GetNodeCDNConfig id).
Proof using Type*. unfold GetNodeCDNConfig. ob_all. Qed.

Lemma ob_sync_routes gid rs st : obeys P (sync_routes gid rs st).
Proof using Type*. revert st. induction rs as [|r rs IH]; intros st; cbn [sync_routes]; ob_all. Qed.
#[local] Hint Resolve ob_sync_routes : obeys.
Lemma ob_sync_route_groups gs st : obeys P (sync_route_groups gs st).
Proof using Type*. revert st. induction gs as [|g gs IH]; intros st; cbn [sync_route_groups]; ob_all. Qed.
#[local] Hint Resolve ob_sync_route_groups : obeys.
Lemma ob_GetNodeRouteConfig id : obeys P (GetNodeRouteConfig id).
Proof using Type*. unfold GetNodeRouteConfig. ob_all. Qed.

Context `{AEAD} (n : NetService).
Lemma ob_group_members gs seen : obeys P (group_members gs seen).
Proof using Type*. revert seen. induction gs as [|g gs IH]; intros seen; cbn [group_members]; ob_all. Qed.
Lemma ob_mesh_peers ns : obeys P (mesh_peers n ns).
Proof using Type*. induction ns as [|m ns IH]; cbn [mesh_peers]; ob_all. Qed.
#[local] Hint Resolve ob_group_members ob_mesh_peers : obeys.
Lemma ob_GenerateNodeConfig id : obeys P (net_GenerateNodeConfig n id).
Proof using Type*. unfold net_GenerateNodeConfig. ob_all. Qed.
End loops.
#[export] Hint Resolve ob_GetNodeDNSConfig ob_GetNodeCDNConfig ob_GetNodeRouteConfig ob_GenerateNodeConfig : obeys.

(** ** Provisioning *)

#[export] Instance spares_frame : DbFrame spares.
Proof.
  split; try (intros; unfold sqlite_CreateEnrollmentToken, sqlite_MarkEnrollmentTokenUsed, sqlite_CreateWireGuardPeer,
    sqlite_DeleteWireGuardPeer, sqlite_UpdateNode, sqlite_CreateProvisioningJob, sqlite_UpdateProvisioningJob; by_statement).
  - apply _.
  - intros s s' Hd _ Hc. unfold spares. by rewrite Hd.
Qed.

Definition p_spares : relation PEnv := fun e e' => spares (pe_sql e) (pe_sql e').
#[export] Instance p_spares_frame : Frame p_spares spares (fun _ => True).
Proof.
  split.
  - split; [intros e; unfold p_spares; reflexivity|]. intros a b c Hab Hbc. unfold p_spares in *. by etrans.
  - intros e. unfold p_spares. reflexivity.
  - done.
  - intros e r _. unfold p_spares. reflexivity.
Qed.

Section provisioning.
Context `{AEAD} (o : Outside) (p : DefaultProvisioner) (lib : SSHKeyLib).
#[local] Hint Extern 1 (respects p_spares (now _)) => apply (resp_now p_spares spares (fun _ => True)) : frame.
#[local] Hint Extern 1 (respects p_spares (rand _ _)) => apply (resp_rand p_spares spares (fun _ => True)) : frame.
#[local] Hint Extern 1 (respects p_spares (db _)) => apply (resp_db p_spares spares (fun _ => True)) : frame.
#[local] Hint Extern 1 (sql_respects spares ?m) => change (bystander m); solve [ob_all] : frame.

Lemma spares_RotateSSHKey id : respects p_spares (RotateSSHKey o p lib id).
Proof using Type.
  assert (Henc : forall s, respects p_spares (secrets_Encrypt o p s)) by (intros s; unfold secrets_Encrypt; eauto with frame).
  unfold RotateSSHKey. cbv zeta. repeat (apply resp_bind; [apply _|by eauto 6 with frame|intros ?]). eauto with frame.
Qed.

Lemma spares_deploy_all id pub priv ns : respects p_spares (deploy_all o id pub priv ns).
Proof using Type.
  induction ns as [|n ns IH]; cbn [deploy_all]; [eauto with frame|]. destruct (deploys_to _ _); [|done].
  apply resp_bind; [apply _| |intros r; eauto with frame]. apply resp_try; [apply _|].
  unfold deployKeyToNode. cbv zeta. apply resp_bind; [apply _| |intros _].
  - apply resp_wrap; [apply _|]. by apply (resp_Connect p_spares spares (fun _ => True)).
  - apply resp_bind; [apply _|by apply (resp_Run p_spares spares (fun _ => True))|]. intros [out [err|]]; cbn; eauto with frame.
Qed.

Lemma spares_DeploySSHKey id : respects p_spares (DeploySSHKey o p id).
Proof using Type.
  unfold DeploySSHKey. pose proof spares_deploy_all. repeat (apply resp_bind; [apply _|by eauto 6 with frame|intros ?]).
  destruct a2; eauto with frame.
Qed.

Lemma spares_startAction id by_ action : respects p_spares (startAction o id by_ action).
Proof using Type. apply (resp_startAction p_spares spares (fun _ => True)). Qed.
Lemma spares_GenerateEnrollmentToken t id : respects p_spares (GenerateEnrollmentToken o t id).
Proof using Type. apply (resp_GenerateEnrollmentToken p_spares spares (fun _ => True)). Qed.
Lemma spares_CompleteEnrollment tok : respects p_spares (CompleteEnrollment o p tok).
Proof using Type. by apply (resp_CompleteEnrollment p_spares spares (fun _ => True)). Qed.
Lemma spares_jobs id nodeID params : respects p_spares (GetJob id) /\ respects p_spares (ListJobs nodeID params).
Proof using Type. split; unfold GetJob, ListJobs; eauto with frame. Qed.
End provisioning.
