(* ===== verification/ApiHandlers.v ===== *)
(** * Handlers of the controller API (internal/api/v1: auth, tenant, user, audit, dns_zone, dns_record)

    One definition per handler function and, in [route], the middleware chain
    each one is registered with.  [call] is a request as the mux dispatches it:
    the endpoint with its raw path values, query and decoded body. *)

From Stdlib Require Import ZArith Lia Ascii String.
From S2P Require Import Prelude GoStrings GoBase64 GoHttp Secrets Domain Storage StoreDns StoreAccess DnsValidate DnsService CdnProxy Provisioner KeyRotation Networking Token Auth Api.

Open Scope Z_scope.

(** The services behind the API. *)
Record ApiServer := mkApiServer {
  as_tokens : TokenService; as_secrets : Store; as_issuer : string; as_tls : bool;
  (** whether the fleet service has an event bus *)
  as_bus : bool;
  as_cursor : CursorJSON;
  (** JSON decoding of header rules, the resolver, and the option of the CDN service *)
  as_rules : string -> option (list HeaderRule); as_resolve : string -> option (list string); as_allowPrivate : bool;
  as_net : NetService;
  (** which services of the node config handler are set *)
  as_dnsSvc : bool; as_cdnSvc : bool; as_routeSvc : bool;
  as_outside : Outside; as_provisioner : DefaultProvisioner; as_keylib : SSHKeyLib;
  (** whether the SSH key handler has the provisioning service *)
  as_keyProvisioner : bool
}.

Definition sessionCookieName : string := "ef_session".
Definition sessionCookieMaxAge : Z := 86400.

Definition setSessionCookie (tls : bool) (token : string) : Cookie :=
  mkCookie sessionCookieName token sessionCookieMaxAge true tls.
Definition clearSessionCookie (tls : bool) : Cookie := mkCookie sessionCookieName "" (-1) true tls.

Section handlers.
Context `{UUID} `{AuthLib} `{AEAD} (hmac_sha256 : string -> string -> string) (ParseAddress : string -> bool).
Context (srv : ApiServer) (e : ReqEnv).

(** [h.audit.Log(...)]; its error is dropped. *)
Definition log (r : HttpReq) (tenant user : option ID) (action resource : string)
    (details : option (list (string * string))) : hM unit :=
  dropped (audit_Log (re_newID e 1) (re_now e 8)
    (mkEvent tenant user None action resource details (hq_RemoteAddr r))).

Definition err400 (err : goerr) : ApiReply := WriteError 400 "bad_request" (ErrText err).
Definition err500 (msg : string) (_ : goerr) : ApiReply := WriteError 500 "internal_error" (Msg msg).
(** [ErrNotFound] as 404, any other error as [other] says. *)
Definition or404 (what : string) (other : goerr -> ApiReply) (err : goerr) : ApiReply :=
  if errors_Is err ErrNotFound then WriteError 404 "not_found" (Msg what) else other err.
Definition or409 (msg : string) (other : goerr -> ApiReply) (err : goerr) : ApiReply :=
  if errors_Is err ErrAlreadyExists then WriteError 409 "conflict" (Msg msg) else other err.

Definition unauthorized : ApiReply := WriteError 401 "unauthorized" (Msg "authentication required").
Definition need_claims (r : HttpReq) : hM Claims :=
  match ClaimsFromContext r with Some c => mret c | None => reply unauthorized end.

(** The same without a check for nil: the dereference panics, which the Recover
    middleware answers. *)
Definition ctx_claims (r : HttpReq) : hM Claims :=
  match ClaimsFromContext r with
  | Some c => mret c
  | None => reply (WriteError 500 "internal_error" (Msg "an unexpected error occurred"))
  end.

(** ** auth.go *)

Definition claims_of (u : User) (pending : bool) : Claims :=
  mkClaims (user_ID u) (user_TenantID u) (user_Role u) None pending.

Definition issue (c : Claims) : hM string :=
  match Issue hmac_sha256 (as_tokens srv) (re_now e 4) c with
  | Ok t => mret t
  | Err _ => reply (WriteError 500 "internal_error" (Msg "failed to issue token"))
  end.

Definition Login (body : option (string * string)) : Handler := HandlerFunc (fun r =>
  req ← Decode body;
  u ← (fun s => match AuthenticatePassword (re_now e 2) (re_now e 3) req.1 req.2 s with
                | (Ok u, s) => (inr u, s)
                | (Err _, s) =>
                    (_ ← log r None None "login_failed" "session" (Some [("email", req.1)]);
                     reply (WriteError 401 "unauthorized" (Msg "invalid credentials"))) s
                end);
  if user_TOTPEnabled u then
    token ← issue (claims_of u true);
    mret (JSON 200 (BLogin token true))
  else
    token ← issue (claims_of u false);
    _ ← log r (user_TenantID u) (Some (user_ID u)) "login" "session" None;
    mret (mkApiReply 200 (Some (setSessionCookie (as_tls srv) token)) (BLogin "" false))).

Definition Me : Handler := HandlerFunc (fun r =>
  claims ← need_claims r;
  u ← svc (user_Get (cl_UserID claims)) (err500 "failed to fetch user profile");
  mret (JSON 200 (BUser u))).

Definition VerifyTOTP (body : option string) : Handler := HandlerFunc (fun r =>
  claims ← need_claims r;
  code ← Decode body;
  _ ← (fun s => match AuthenticateTOTP (as_secrets srv) (re_now e 2) (cl_UserID claims) code s with
                | (Ok _, s) => (inr tt, s)
                | (Err _, s) =>
                    (_ ← log r (cl_TenantID claims) (Some (cl_UserID claims)) "totp_verify_failed" "session" None;
                     reply (WriteError 401 "unauthorized" (Msg "invalid TOTP code"))) s
                end);
  token ← issue (mkClaims (cl_UserID claims) (cl_TenantID claims) (cl_Role claims) None false);
  _ ← log r (cl_TenantID claims) (Some (cl_UserID claims)) "totp_verify" "session" None;
  mret (mkApiReply 200 (Some (setSessionCookie (as_tls srv) token)) (BStatus "ok"))).

Definition EnrollTOTP : Handler := HandlerFunc (fun r =>
  claims ← need_claims r;
  key ← svc (auth_EnrollTOTP (as_secrets srv) (as_issuer srv) (re_draw e) (re_nonce e) (re_now e 2) (cl_UserID claims))
          (err500 "failed to enroll TOTP");
  _ ← log r (cl_TenantID claims) (Some (cl_UserID claims)) "totp_enroll" "user" None;
  mret (JSON 200 (BTotp key.1 key.2))).

Definition ConfirmTOTP (body : option string) : Handler := HandlerFunc (fun r =>
  claims ← need_claims r;
  code ← Decode body;
  _ ← svc (auth_ConfirmTOTP (as_secrets srv) (re_now e 2) (re_now e 3) (cl_UserID claims) code)
        (fun _ => WriteError 400 "bad_request" (Msg "invalid TOTP code"));
  _ ← log r (cl_TenantID claims) (Some (cl_UserID claims)) "totp_enable" "user" None;
  mret (JSON 200 (BStatus "totp_enabled"))).

Definition Logout : Handler := HandlerFunc (fun _ =>
  mret (mkApiReply 204 (Some (clearSessionCookie (as_tls srv))) BNone)).

(** A key never gets more rights than its creator, and never the superuser role. *)
Definition key_role_check (role own : Role) : option ApiReply :=
  if bool_decide (role = RoleReadOnly) then None
  else if bool_decide (role = RoleAdmin) then
    if bool_decide (own = RoleReadOnly)
    then Some (WriteError 403 "forbidden" (Msg "cannot create API key with higher privileges than your own role"))
    else None
  else Some (WriteError 400 "bad_request" (Msg "invalid API key role: must be 'readonly' or 'admin'")).

Definition tenant_scoped (r : HttpReq) : hM (Claims * ID) :=
  match ClaimsFromContext r with
  | Some c =>
      match cl_TenantID c with
      | Some t => mret (c, t)
      | None => reply (WriteError 400 "bad_request" (Msg "API keys require a tenant-scoped user"))
      end
  | None => reply (WriteError 400 "bad_request" (Msg "API keys require a tenant-scoped user"))
  end.

Definition CreateAPIKey (body : option (string * Role)) : Handler := HandlerFunc (fun r =>
  ct ← tenant_scoped r;
  let '(claims, tenantID) := ct : Claims * ID in
  req ← Decode body;
  if bool_decide (req.1 = "") then reply (WriteError 400 "bad_request" (Msg "name is required"))
  else match key_role_check req.2 (cl_Role claims) with
       | Some rep => reply rep
       | None =>
           rk ← svc (GenerateAPIKey (re_rand e) (re_draw e) (re_newID e 0) (re_now e 2) tenantID (cl_UserID claims) req.1 req.2)
                  (err500 "failed to create API key");
           _ ← log r (cl_TenantID claims) (Some (cl_UserID claims)) "create" "api_key"
                 (Some [("api_key_id", uuid_String (apikey_ID rk.2)); ("name", apikey_Name rk.2)]);
           mret (JSON 201 (BRawKey rk.1 rk.2))
       end).

Definition ListAPIKeys : Handler := HandlerFunc (fun r =>
  ct ← tenant_scoped r;
  let params := ParseListParams r in
  l ← svc (sqlite_ListAPIKeys ct.2 params) (err500 "failed to list API keys");
  mret (JSON 200 (BKeys l.1 l.2 (lp_Offset params) (lp_Limit params)))).

Definition DeleteAPIKey : Handler := HandlerFunc (fun r =>
  id ← ParseID r "id";
  _ ← svc (sqlite_DeleteAPIKey id) (err500 "failed to delete API key");
  claims ← ctx_claims r;
  _ ← log r (cl_TenantID claims) (Some (cl_UserID claims)) "delete" "api_key" (Some [("api_key_id", uuid_String id)]);
  mret NoContent).

(** ** tenant.go *)

Definition tenantH_Create (body : option tenant_CreateRequest) : Handler := HandlerFunc (fun r =>
  req ← Decode body;
  t ← svc (tenant_Create (re_newID e 0) (re_now e 2) req) (or409 "tenant slug already exists" err400);
  claims ← ctx_claims r;
  _ ← log r None (Some (cl_UserID claims)) "create" "tenant"
        (Some [("tenant_id", uuid_String (tenant_ID t)); ("slug", tenant_Slug t)]);
  mret (JSON 201 (BTenant t))).

Definition tenantH_Get : Handler := HandlerFunc (fun r =>
  id ← ParseID r "id";
  t ← svc (tenant_Get id) (or404 "tenant not found" (err500 "failed to get tenant"));
  mret (JSON 200 (BTenant t))).

Definition tenantH_List : Handler := HandlerFunc (fun r =>
  let params := ParseListParams r in
  l ← svc (tenant_List params) (err500 "failed to list tenants");
  mret (JSON 200 (BTenants l.1 l.2 (lp_Offset params) (lp_Limit params)))).

Definition tenantH_Update (body : option tenant_UpdateRequest) : Handler := HandlerFunc (fun r =>
  id ← ParseID r "id";
  req ← Decode body;
  t ← svc (tenant_Update (re_now e 2) id req) (or404 "tenant not found" err400);
  claims ← ctx_claims r;
  _ ← log r None (Some (cl_UserID claims)) "update" "tenant" (Some [("tenant_id", uuid_String (tenant_ID t))]);
  mret (JSON 200 (BTenant t))).

Definition tenantH_Delete : Handler := HandlerFunc (fun r =>
  id ← ParseID r "id";
  _ ← svc (tenant_Delete (re_now e 2) id) (or404 "tenant not found" (err500 "failed to delete tenant"));
  claims ← ctx_claims r;
  _ ← log r None (Some (cl_UserID claims)) "delete" "tenant" (Some [("tenant_id", uuid_String id)]);
  mret NoContent).

(** ** user.go *)

Definition userH_Create (body : option user_CreateRequest) : Handler := HandlerFunc (fun r =>
  req ← Decode body;
  u ← svc (user_Create ParseAddress (re_draw e) (re_newID e 0) (re_now e 2) req) (or409 "email already in use" err400);
  claims ← ctx_claims r;
  _ ← log r (user_TenantID u) (Some (cl_UserID claims)) "create" "user"
        (Some [("user_id", uuid_String (user_ID u)); ("email", user_Email u)]);
  mret (JSON 201 (BUser u))).

Definition userH_Get : Handler := HandlerFunc (fun r =>
  id ← ParseID r "id";
  u ← svc (user_Get id) (or404 "user not found" (err500 "failed to get user"));
  mret (JSON 200 (BUser u))).

Definition userH_List : Handler := HandlerFunc (fun r =>
  let params := ParseListParams r in
  claims ← ctx_claims r;
  l ← svc (user_List (cl_TenantID claims) params) (err500 "failed to list users");
  mret (JSON 200 (BUsers l.1 l.2 (lp_Offset params) (lp_Limit params)))).

Definition userH_Update (body : option user_UpdateRequest) : Handler := HandlerFunc (fun r =>
  id ← ParseID r "id";
  req ← Decode body;
  u ← svc (user_Update (re_draw e) (re_now e 2) id req) (or404 "user not found" err400);
  claims ← ctx_claims r;
  _ ← log r (user_TenantID u) (Some (cl_UserID claims)) "update" "user" (Some [("user_id", uuid_String (user_ID u))]);
  mret (JSON 200 (BUser u))).

Definition userH_Delete : Handler := HandlerFunc (fun r =>
  id ← ParseID r "id";
  _ ← svc (user_Delete id) (or404 "user not found" (err500 "failed to delete user"));
  claims ← ctx_claims r;
  _ ← log r None (Some (cl_UserID claims)) "delete" "user" (Some [("user_id", uuid_String id)]);
  mret NoContent).

(** ** audit.go *)

Definition auditH_List : Handler := HandlerFunc (fun r =>
  claims ← need_claims r;
  let params := ParseListParams r in
  l ← svc (audit_List (cl_TenantID claims) params) (err500 "failed to list audit events");
  mret (JSON 200 (BAudit l.1 l.2 (lp_Offset params) (lp_Limit params)))).

(** ** dns_zone.go *)

Definition log_dns (r : HttpReq) (claims : Claims) (action resource : string) (details : list (string * string)) : hM unit :=
  log r (cl_TenantID claims) (Some (cl_UserID claims)) action resource (Some details).

Definition with_tenant (t : ID) (req : CreateZoneRequest) : CreateZoneRequest :=
  mkCreateZoneRequest t (czr_Name req) (czr_TTL req) (czr_NodeGroupID req) (czr_TransferAllowedIPs req).

Definition zoneH_Create (body : option CreateZoneRequest) : Handler := HandlerFunc (fun r =>
  tenantID ← ParseID r "tenantId";
  req ← Decode body;
  z ← svc (CreateZone (re_newID e 0) (re_now e 2) (with_tenant tenantID req)) err400;
  claims ← ctx_claims r;
  _ ← log_dns r claims "create" "dns_zone" [("zone_id", uuid_String (zone_ID z)); ("zone_name", zone_Name z)];
  mret (JSON 201 (BZone z))).

Definition zoneH_Get : Handler := HandlerFunc (fun r =>
  id ← ParseID r "id";
  z ← svc (GetDNSZone id) (or404 "dns zone not found" (err500 "failed to get dns zone"));
  mret (JSON 200 (BZone z))).

Definition zoneH_List : Handler := HandlerFunc (fun r =>
  tenantID ← ParseID r "tenantId";
  let params := ParseListParams r in
  l ← svc (ListDNSZones tenantID params) (err500 "failed to list dns zones");
  mret (JSON 200 (BZones l.1 l.2 (lp_Offset params) (lp_Limit params)))).

Definition zoneH_Update (body : option UpdateZoneRequest) : Handler := HandlerFunc (fun r =>
  id ← ParseID r "id";
  req ← Decode body;
  z ← svc (UpdateZone id (re_now e 2) req) (or404 "dns zone not found" err400);
  claims ← ctx_claims r;
  _ ← log_dns r claims "update" "dns_zone" [("zone_id", uuid_String (zone_ID z)); ("zone_name", zone_Name z)];
  mret (JSON 200 (BZone z))).

Definition zoneH_Delete : Handler := HandlerFunc (fun r =>
  id ← ParseID r "id";
  _ ← svc (DeleteZone id) (or404 "dns zone not found" (err500 "failed to delete dns zone"));
  claims ← ctx_claims r;
  _ ← log_dns r claims "delete" "dns_zone" [("zone_id", uuid_String id)];
  mret NoContent).

(** ** dns_record.go *)

Definition with_zone (z : ID) (req : CreateRecordRequest) : CreateRecordRequest :=
  mkCreateRecordRequest z (crr_Name req) (crr_Type req) (crr_Value req) (crr_TTL req) (crr_Priority req)
    (crr_Weight req) (crr_Port req).

Definition recordH_Create (body : option CreateRecordRequest) : Handler := HandlerFunc (fun r =>
  zoneID ← ParseID r "zoneId";
  req ← Decode body;
  rc ← svc (CreateRecord (re_newID e 0) (re_now e 2) (re_now e 3) (with_zone zoneID req))
         (or404 "dns zone not found" err400);
  claims ← ctx_claims r;
  _ ← log_dns r claims "create" "dns_record" [("record_id", uuid_String (rec_ID rc)); ("zone_id", uuid_String zoneID);
        ("name", rec_Name rc); ("type", rec_Type rc)];
  mret (JSON 201 (BRecord rc))).

Definition recordH_Get : Handler := HandlerFunc (fun r =>
  id ← ParseID r "id";
  rc ← svc (GetDNSRecord id) (or404 "dns record not found" (err500 "failed to get dns record"));
  mret (JSON 200 (BRecord rc))).

Definition recordH_List : Handler := HandlerFunc (fun r =>
  zoneID ← ParseID r "zoneId";
  let params := ParseListParams r in
  l ← svc (ListDNSRecords zoneID params) (err500 "failed to list dns records");
  mret (JSON 200 (BRecords l.1 l.2 (lp_Offset params) (lp_Limit params)))).

Definition recordH_Update (body : option UpdateRecordRequest) : Handler := HandlerFunc (fun r =>
  id ← ParseID r "id";
  req ← Decode body;
  rc ← svc (UpdateRecord id (re_now e 2) (re_now e 3) req) (or404 "dns record not found" err400);
  claims ← ctx_claims r;
  _ ← log_dns r claims "update" "dns_record" [("record_id", uuid_String (rec_ID rc)); ("name", rec_Name rc);
        ("type", rec_Type rc)];
  mret (JSON 200 (BRecord rc))).

Definition recordH_Delete : Handler := HandlerFunc (fun r =>
  id ← ParseID r "id";
  _ ← svc (DeleteRecord id (re_now e 2)) (or404 "dns record not found" (err500 "failed to delete dns record"));
  claims ← ctx_claims r;
  _ ← log_dns r claims "delete" "dns_record" [("record_id", uuid_String id)];
  mret NoContent).
End handlers.
