(* ===== verification/ApiFleet.v ===== *)
(** * Fleet endpoints (internal/api/v1: node, gateway, nodegroup, sshkey) *)

From Stdlib Require Import ZArith Lia Ascii String.
From S2P Require Import Prelude GoStrings GoHttp Domain Storage StoreProvision StoreInventory Fleet Token Auth Api ApiHandlers.

Open Scope Z_scope.

(** The body of a request to create an SSH key. *)
Record createSSHKeyRequest := mkCreateSSHKeyRequest { csk_Name : string; csk_PublicKey : string; csk_PrivateKey : string }.

Inductive fleet_call :=
| CNodeCreate (body : option CreateNodeRequest) | CNodeList | CNodeGet (id : string)
| CNodeUpdate (id : string) (body : option UpdateNodeRequest) | CNodeDelete (id : string) | CNodeHeartbeat (id : string)
| CGatewayCreate (body : option CreateGatewayRequest) | CGatewayList | CGatewayGet (id : string)
| CGatewayUpdate (id : string) (body : option UpdateGatewayRequest) | CGatewayDelete (id : string)
| CGatewayHeartbeat (id : string)
| CGroupCreate (body : option CreateNodeGroupRequest) | CGroupList | CGroupGet (id : string) | CGroupDelete (id : string)
| CGroupAddNode (id nodeId : string) | CGroupRemoveNode (id nodeId : string)
| CKeyCreate (body : option createSSHKeyRequest) | CKeyList | CKeyGet (id : string) | CKeyDelete (id : string).

Definition fleet_path (c : fleet_call) : string :=
  match c with
  | CNodeCreate _ | CNodeList => "/api/v1/nodes"
  | CNodeGet id | CNodeUpdate id _ | CNodeDelete id => "/api/v1/nodes/" +:+ id
  | CNodeHeartbeat id => "/api/v1/nodes/" +:+ id +:+ "/heartbeat"
  | CGatewayCreate _ | CGatewayList => "/api/v1/gateways"
  | CGatewayGet id | CGatewayUpdate id _ | CGatewayDelete id => "/api/v1/gateways/" +:+ id
  | CGatewayHeartbeat id => "/api/v1/gateways/" +:+ id +:+ "/heartbeat"
  | CGroupCreate _ | CGroupList => "/api/v1/node-groups"
  | CGroupGet id | CGroupDelete id => "/api/v1/node-groups/" +:+ id
  | CGroupAddNode id n | CGroupRemoveNode id n => "/api/v1/node-groups/" +:+ id +:+ "/nodes/" +:+ n
  | CKeyCreate _ | CKeyList => "/api/v1/ssh-keys"
  | CKeyGet id | CKeyDelete id => "/api/v1/ssh-keys/" +:+ id
  end.

Definition fleet_value (c : fleet_call) (name : string) : string :=
  match c with
  | CNodeGet id | CNodeUpdate id _ | CNodeDelete id | CNodeHeartbeat id
  | CGatewayGet id | CGatewayUpdate id _ | CGatewayDelete id | CGatewayHeartbeat id
  | CGroupGet id | CGroupDelete id | CKeyGet id | CKeyDelete id => if bool_decide (name = "id") then id else ""
  | CGroupAddNode id n | CGroupRemoveNode id n =>
      if bool_decide (name = "id") then id else if bool_decide (name = "nodeId") then n else ""
  | _ => ""
  end.

(** Action, resource, and whether the tenant of the caller goes into the check. *)
Definition fleet_permission (c : fleet_call) : Action * Resource * bool :=
  match c with
  | CNodeCreate _ => (ActionCreate, ResourceNode, true)
  | CNodeList => (ActionList, ResourceNode, true)
  | CNodeGet _ => (ActionRead, ResourceNode, true)
  | CNodeUpdate _ _ | CNodeHeartbeat _ => (ActionUpdate, ResourceNode, true)
  | CNodeDelete _ => (ActionDelete, ResourceNode, true)
  | CGatewayCreate _ => (ActionCreate, ResourceGateway, true)
  | CGatewayList => (ActionList, ResourceGateway, true)
  | CGatewayGet _ => (ActionRead, ResourceGateway, true)
  | CGatewayUpdate _ _ | CGatewayHeartbeat _ => (ActionUpdate, ResourceGateway, true)
  | CGatewayDelete _ => (ActionDelete, ResourceGateway, true)
  | CGroupCreate _ => (ActionCreate, ResourceNodeGroup, true)
  | CGroupList => (ActionList, ResourceNodeGroup, true)
  | CGroupGet _ => (ActionRead, ResourceNodeGroup, true)
  | CGroupDelete _ => (ActionDelete, ResourceNodeGroup, true)
  | CGroupAddNode _ _ | CGroupRemoveNode _ _ => (ActionUpdate, ResourceNodeGroup, true)
  | CKeyCreate _ => (ActionCreate, ResourceSSHKey, false)
  | CKeyList => (ActionList, ResourceSSHKey, false)
  | CKeyGet _ => (ActionRead, ResourceSSHKey, false)
  | CKeyDelete _ => (ActionDelete, ResourceSSHKey, false)
  end.

Section fleet.
Context `{UUID} (srv : ApiServer) (e : ReqEnv).

(** [if !ok { WriteError(404); return }] *)
Definition or_absent (ok : bool) (what : string) : hM unit :=
  if ok then mret tt else reply (WriteError 404 "not_found" (Msg what)).

(** ** node.go *)

(** Callers of a tenant create nodes in their own. *)
Definition node_for (claims : Claims) (req : CreateNodeRequest) : CreateNodeRequest :=
  mkCreateNodeRequest (match cl_TenantID claims with Some t => Some t | None => cnr_TenantID req end) (cnr_Name req)
    (cnr_Hostname req) (cnr_PublicIP req) (cnr_Region req) (cnr_Provider req) (cnr_SSHPort req) (cnr_SSHUser req).

Definition nodeH_Create (body : option CreateNodeRequest) : Handler := HandlerFunc (fun r =>
  req ← Decode body;
  claims ← ctx_claims r;
  n ← svc (fleet_CreateNode (re_newID e 0) (re_now e 2) (node_for claims req)) (or409 "node already exists" err400);
  _ ← log_dns e r claims "create" "node" [("node_id", uuid_String (node_ID n)); ("name", node_Name n)];
  mret (JSON 201 (BNode n))).

(** A node the caller may see. *)
Definition own_node (r : HttpReq) (id : ID) : hM Node :=
  n ← svc (fleet_GetNode id) (or404 "node not found" (err500 "failed to get node"));
  claims ← ctx_claims r;
  _ ← or_absent (CanAccessTenant claims (node_TenantID n)) "node not found";
  mret n.

Definition nodeH_Get : Handler := HandlerFunc (fun r =>
  id ← ParseID r "id";
  n ← own_node r id;
  mret (JSON 200 (BNode n))).

(** The cursor of a request, as the query compares it. *)
Definition cursor_of (cursor : string) : option (Time * (ID -> bool)) :=
  d ← DecodeCursor (as_cursor srv) cursor;
  Some (cd_CreatedAt d, fun id => String.ltb (uuid_String id) (cd_ID d)).

Definition nodeH_List : Handler := HandlerFunc (fun r =>
  let params := ParseListParams r in
  claims ← ctx_claims r;
  l ← svc (fleet_ListNodes (cursor_of (lp_Cursor params)) (cl_TenantID claims) params) (err500 "failed to list nodes");
  match last l.1 with
  | Some lastNode =>
      if negb (bool_decide (lp_Cursor params = "")) && (Z.of_nat (length l.1) =? lp_Limit params) then
        mret (JSON 200 (BNodesPage l.1 l.2 (lp_Limit params)
                (EncodeCursor (as_cursor srv) (node_CreatedAt lastNode) (uuid_String (node_ID lastNode)))))
      else mret (JSON 200 (BNodes l.1 l.2 (lp_Offset params) (lp_Limit params)))
  | None => mret (JSON 200 (BNodes l.1 l.2 (lp_Offset params) (lp_Limit params)))
  end).

Definition nodeH_Update (body : option UpdateNodeRequest) : Handler := HandlerFunc (fun r =>
  id ← ParseID r "id";
  _ ← own_node r id;
  req ← Decode body;
  n ← svc (fleet_UpdateNode id (re_now e 2) req) (or404 "node not found" err400);
  claims ← ctx_claims r;
  _ ← log_dns e r claims "update" "node" [("node_id", uuid_String (node_ID n))];
  mret (JSON 200 (BNode n))).

Definition nodeH_Delete : Handler := HandlerFunc (fun r =>
  id ← ParseID r "id";
  _ ← own_node r id;
  _ ← svc (fleet_DeleteNode id) (or404 "node not found" (err500 "failed to delete node"));
  claims ← ctx_claims r;
  _ ← log_dns e r claims "delete" "node" [("node_id", uuid_String id)];
  mret NoContent).

Definition nodeH_Heartbeat : Handler := HandlerFunc (fun r =>
  id ← ParseID r "id";
  _ ← own_node r id;
  _ ← svc (RecordNodeHeartbeat uuid_String (as_bus srv) id (re_now e 2) (re_now e 3))
        (or404 "node not found" (err500 "failed to record heartbeat"));
  mret (JSON 200 (BStatus "ok"))).

(** ** gateway.go *)

Definition gateway_for (claims : Claims) (req : CreateGatewayRequest) : CreateGatewayRequest :=
  mkCreateGatewayRequest (default (cgr_TenantID req) (cl_TenantID claims)) (cgr_Name req) (cgr_PublicIP req).

Definition gatewayH_Create (body : option CreateGatewayRequest) : Handler := HandlerFunc (fun r =>
  req ← Decode body;
  claims ← ctx_claims r;
  gw ← svc (fleet_CreateGateway (re_newID e 0) (re_now e 2) (gateway_for claims req)) (or409 "gateway already exists" err400);
  _ ← log_dns e r claims "create" "gateway" [("gateway_id", uuid_String (gw_ID gw)); ("name", gw_Name gw)];
  mret (JSON 201 (BGateway gw))).

Definition own_gateway (r : HttpReq) (id : ID) : hM Gateway :=
  gw ← svc (fleet_GetGateway id) (or404 "gateway not found" (err500 "failed to get gateway"));
  claims ← ctx_claims r;
  _ ← or_absent (CanAccessTenantVal claims (gw_TenantID gw)) "gateway not found";
  mret gw.

Definition gatewayH_Get : Handler := HandlerFunc (fun r =>
  id ← ParseID r "id";
  gw ← own_gateway r id;
  mret (JSON 200 (BGateway gw))).

Definition gatewayH_List : Handler := HandlerFunc (fun r =>
  let params := ParseListParams r in
  claims ← ctx_claims r;
  l ← svc (fleet_ListGateways (cl_TenantID claims) params) (err500 "failed to list gateways");
  mret (JSON 200 (BGateways l.1 l.2 (lp_Offset params) (lp_Limit params)))).

Definition gatewayH_Update (body : option UpdateGatewayRequest) : Handler := HandlerFunc (fun r =>
  id ← ParseID r "id";
  _ ← own_gateway r id;
  req ← Decode body;
  gw ← svc (fleet_UpdateGateway id (re_now e 2) req) (or404 "gateway not found" err400);
  claims ← ctx_claims r;
  _ ← log_dns e r claims "update" "gateway" [("gateway_id", uuid_String (gw_ID gw))];
  mret (JSON 200 (BGateway gw))).

Definition gatewayH_Delete : Handler := HandlerFunc (fun r =>
  id ← ParseID r "id";
  _ ← own_gateway r id;
  _ ← svc (fleet_DeleteGateway id) (or404 "gateway not found" (err500 "failed to delete gateway"));
  claims ← ctx_claims r;
  _ ← log_dns e r claims "delete" "gateway" [("gateway_id", uuid_String id)];
  mret NoContent).

Definition gatewayH_Heartbeat : Handler := HandlerFunc (fun r =>
  id ← ParseID r "id";
  _ ← own_gateway r id;
  _ ← svc (RecordGatewayHeartbeat uuid_String (as_bus srv) id (re_now e 2) (re_now e 3))
        (or404 "gateway not found" (err500 "failed to record heartbeat"));
  mret (JSON 200 (BStatus "ok"))).

(** ** nodegroup.go *)

Definition group_for (claims : Claims) (req : CreateNodeGroupRequest) : CreateNodeGroupRequest :=
  mkCreateNodeGroupRequest (default (cgp_TenantID req) (cl_TenantID claims)) (cgp_Name req) (cgp_Description req).

Definition groupH_Create (body : option CreateNodeGroupRequest) : Handler := HandlerFunc (fun r =>
  req ← Decode body;
  claims ← ctx_claims r;
  g ← svc (fleet_CreateNodeGroup (re_newID e 0) (re_now e 2) (group_for claims req)) (or409 "node group already exists" err400);
  _ ← log_dns e r claims "create" "node_group" [("group_id", uuid_String (ng_ID g)); ("name", ng_Name g)];
  mret (JSON 201 (BGroup g))).

Definition own_group (r : HttpReq) (id : ID) : hM NodeGroup :=
  g ← svc (fleet_GetNodeGroup id) (or404 "node group not found" (err500 "failed to get node group"));
  claims ← ctx_claims r;
  _ ← or_absent (CanAccessTenantVal claims (ng_TenantID g)) "node group not found";
  mret g.

Definition groupH_Get : Handler := HandlerFunc (fun r =>
  id ← ParseID r "id";
  g ← own_group r id;
  mret (JSON 200 (BGroup g))).

(** The tenant whose groups are listed: that of the caller, or of the query. *)
Definition group_scope (r : HttpReq) (claims : Claims) : hM ID :=
  match cl_TenantID claims with
  | Some t => mret t
  | None =>
      let tenantIDStr := query_get (hq_RawQuery r) "tenant_id" in
      if bool_decide (tenantIDStr = "")
      then reply (WriteError 400 "bad_request" (Msg "tenant_id query parameter required for superuser"))
      else match uuid_Parse tenantIDStr with
           | Some tid => mret tid
           | None => reply (WriteError 400 "bad_request" (Msg "invalid tenant_id"))
           end
  end.

Definition groupH_List : Handler := HandlerFunc (fun r =>
  let params := ParseListParams r in
  claims ← ctx_claims r;
  tid ← group_scope r claims;
  l ← svc (fleet_ListNodeGroups tid params) (err500 "failed to list node groups");
  mret (JSON 200 (BGroups l.1 l.2 (lp_Offset params) (lp_Limit params)))).

Definition groupH_Delete : Handler := HandlerFunc (fun r =>
  id ← ParseID r "id";
  _ ← own_group r id;
  _ ← svc (fleet_DeleteNodeGroup id) (err500 "failed to delete node group");
  claims ← ctx_claims r;
  _ ← log_dns e r claims "delete" "node_group" [("group_id", uuid_String id)];
  mret NoContent).

Definition groupH_AddNode : Handler := HandlerFunc (fun r =>
  groupID ← ParseID r "id";
  nodeID ← ParseID r "nodeId";
  _ ← svc (fleet_AddNodeToGroup groupID nodeID)
        (or404 "group or node not found" (or409 "node already in group" (err500 "failed to add node to group")));
  claims ← ctx_claims r;
  _ ← log_dns e r claims "update" "node_group"
        [("group_id", uuid_String groupID); ("node_id", uuid_String nodeID); ("action", "add_node")];
  mret NoContent).

Definition groupH_RemoveNode : Handler := HandlerFunc (fun r =>
  groupID ← ParseID r "id";
  nodeID ← ParseID r "nodeId";
  _ ← svc (fleet_RemoveNodeFromGroup groupID nodeID)
        (or404 "membership not found" (err500 "failed to remove node from group"));
  claims ← ctx_claims r;
  _ ← log_dns e r claims "update" "node_group"
        [("group_id", uuid_String groupID); ("node_id", uuid_String nodeID); ("action", "remove_node")];
  mret NoContent).

(** ** sshkey.go *)

Definition required (s msg : string) : hM unit :=
  if bool_decide (s = "") then reply (WriteError 400 "bad_request" (Msg msg)) else mret tt.

Definition without_private (k : SSHKey) : SSHKey :=
  mkSSHKey (sshkey_ID k) (sshkey_Name k) (sshkey_PublicKey k) "" (sshkey_Fingerprint k) (sshkey_CreatedAt k)
    (sshkey_LastRotatedAt k).

Definition keyH_Create (body : option createSSHKeyRequest) : Handler := HandlerFunc (fun r =>
  req ← Decode body;
  _ ← required (csk_Name req) "name is required";
  _ ← required (csk_PublicKey req) "public_key is required";
  _ ← required (csk_PrivateKey req) "private_key is required";
  k ← svc (sqlite_CreateSSHKey (re_now e 2) (mkSSHKey (re_newID e 0) (csk_Name req) (csk_PublicKey req) (csk_PrivateKey req)
             "SHA256:placeholder" 0 0)) (or409 "SSH key already exists" (err500 "failed to create SSH key"));
  claims ← ctx_claims r;
  _ ← log e r None (Some (cl_UserID claims)) "create" "ssh_key"
        (Some [("key_id", uuid_String (sshkey_ID k)); ("name", sshkey_Name k)]);
  mret (JSON 201 (BSSHKey (without_private k)))).

Definition keyH_Get : Handler := HandlerFunc (fun r =>
  id ← ParseID r "id";
  k ← svc (sqlite_GetSSHKey id) (or404 "SSH key not found" (err500 "failed to get SSH key"));
  mret (JSON 200 (BSSHKey (without_private k)))).

Definition keyH_List : Handler := HandlerFunc (fun r =>
  let params := ParseListParams r in
  l ← svc (sqlite_ListSSHKeys params) (err500 "failed to list SSH keys");
  mret (JSON 200 (BSSHKeys (without_private <$> l.1) l.2 (lp_Offset params) (lp_Limit params)))).

Definition keyH_Delete : Handler := HandlerFunc (fun r =>
  id ← ParseID r "id";
  _ ← svc (sqlite_DeleteSSHKey id) (or404 "SSH key not found" (err500 "failed to delete SSH key"));
  claims ← ctx_claims r;
  _ ← log e r None (Some (cl_UserID claims)) "delete" "ssh_key" (Some [("key_id", uuid_String id)]);
  mret NoContent).

Definition fleet_handler (c : fleet_call) : Handler :=
  match c with
  | CNodeCreate b => nodeH_Create b
  | CNodeList => nodeH_List
  | CNodeGet _ => nodeH_Get
  | CNodeUpdate _ b => nodeH_Update b
  | CNodeDelete _ => nodeH_Delete
  | CNodeHeartbeat _ => nodeH_Heartbeat
  | CGatewayCreate b => gatewayH_Create b
  | CGatewayList => gatewayH_List
  | CGatewayGet _ => gatewayH_Get
  | CGatewayUpdate _ b => gatewayH_Update b
  | CGatewayDelete _ => gatewayH_Delete
  | CGatewayHeartbeat _ => gatewayH_Heartbeat
  | CGroupCreate b => groupH_Create b
  | CGroupList => groupH_List
  | CGroupGet _ => groupH_Get
  | CGroupDelete _ => groupH_Delete
  | CGroupAddNode _ _ => groupH_AddNode
  | CGroupRemoveNode _ _ => groupH_RemoveNode
  | CKeyCreate b => keyH_Create b
  | CKeyList => keyH_List
  | CKeyGet _ => keyH_Get
  | CKeyDelete _ => keyH_Delete
  end.
End fleet.
