(* ===== verification/ApiNet.v ===== *)
(** * Network and CDN endpoints (internal/api/v1: route, ip_allocation, bgp_session, wireguard, node_networking,
    cdn_site, cdn_origin) *)

From Stdlib Require Import ZArith Lia Ascii String.
From S2P Require Import Prelude GoStrings GoHttp Secrets Domain Storage StoreProvision StoreInventory StoreCdn CdnService RouteService Networking Token Auth Api ApiHandlers.

Open Scope Z_scope.

Inductive net_call :=
| CRouteCreate (tenantId : string) (body : option CreateRouteRequest) | CRouteList (tenantId : string)
| CRouteGet (id : string) | CRouteUpdate (id : string) (body : option UpdateRouteRequest) | CRouteDelete (id : string)
| CAllocCreate (tenantId : string) (body : option CreateIPAllocationRequest) | CAllocList (tenantId : string)
| CAllocGet (id : string) | CAllocUpdate (id : string) (body : option UpdateIPAllocationRequest) | CAllocDelete (id : string)
| CBGPCreate (nodeId : string) (body : option CreateBGPSessionRequest) | CBGPList (nodeId : string)
| CBGPGet (id : string) | CBGPUpdate (id : string) (body : option UpdateBGPSessionRequest) | CBGPDelete (id : string)
| CPeerList | CNetState (id : string)
| CSiteCreate (tenantId : string) (body : option CreateSiteRequest) | CSiteList (tenantId : string)
| CSiteGet (id : string) | CSiteUpdate (id : string) (body : option UpdateSiteRequest) | CSiteDelete (id : string)
| CSitePurge (id : string)
| COriginCreate (siteId : string) (body : option CreateOriginRequest) | COriginList (siteId : string)
| COriginGet (id : string) | COriginUpdate (id : string) (body : option UpdateOriginRequest) | COriginDelete (id : string).

Definition net_path (c : net_call) : string :=
  match c with
  | CRouteCreate t _ | CRouteList t => "/api/v1/tenants/" +:+ t +:+ "/routes"
  | CRouteGet id | CRouteUpdate id _ | CRouteDelete id => "/api/v1/routes/" +:+ id
  | CAllocCreate t _ | CAllocList t => "/api/v1/tenants/" +:+ t +:+ "/ip-allocations"
  | CAllocGet id | CAllocUpdate id _ | CAllocDelete id => "/api/v1/ip-allocations/" +:+ id
  | CBGPCreate n _ | CBGPList n => "/api/v1/nodes/" +:+ n +:+ "/bgp-sessions"
  | CBGPGet id | CBGPUpdate id _ | CBGPDelete id => "/api/v1/bgp-sessions/" +:+ id
  | CPeerList => "/api/v1/wireguard/peers"
  | CNetState id => "/api/v1/nodes/" +:+ id +:+ "/networking"
  | CSiteCreate t _ | CSiteList t => "/api/v1/tenants/" +:+ t +:+ "/cdn/sites"
  | CSiteGet id | CSiteUpdate id _ | CSiteDelete id => "/api/v1/cdn/sites/" +:+ id
  | CSitePurge id => "/api/v1/cdn/sites/" +:+ id +:+ "/purge"
  | COriginCreate s _ | COriginList s => "/api/v1/cdn/sites/" +:+ s +:+ "/origins"
  | COriginGet id | COriginUpdate id _ | COriginDelete id => "/api/v1/cdn/origins/" +:+ id
  end.

Definition net_value (c : net_call) (name : string) : string :=
  match c with
  | CRouteGet id | CRouteUpdate id _ | CRouteDelete id | CAllocGet id | CAllocUpdate id _ | CAllocDelete id
  | CBGPGet id | CBGPUpdate id _ | CBGPDelete id | CNetState id
  | CSiteGet id | CSiteUpdate id _ | CSiteDelete id | CSitePurge id
  | COriginGet id | COriginUpdate id _ | COriginDelete id => if bool_decide (name = "id") then id else ""
  | CRouteCreate t _ | CRouteList t | CAllocCreate t _ | CAllocList t
  | CSiteCreate t _ | CSiteList t => if bool_decide (name = "tenantId") then t else ""
  | CBGPCreate n _ | CBGPList n => if bool_decide (name = "nodeId") then n else ""
  | COriginCreate s _ | COriginList s => if bool_decide (name = "siteId") then s else ""
  | CPeerList => ""
  end.

(** Action, resource, and whether the tenant of the caller goes into the check. *)
Definition net_permission (c : net_call) : Action * Resource * bool :=
  match c with
  | CRouteCreate _ _ => (ActionCreate, ResourceRoute, true)
  | CRouteList _ => (ActionList, ResourceRoute, true)
  | CRouteGet _ => (ActionRead, ResourceRoute, true)
  | CRouteUpdate _ _ => (ActionUpdate, ResourceRoute, true)
  | CRouteDelete _ => (ActionDelete, ResourceRoute, true)
  | CAllocCreate _ _ => (ActionCreate, ResourceIPAllocation, true)
  | CAllocList _ => (ActionList, ResourceIPAllocation, true)
  | CAllocGet _ => (ActionRead, ResourceIPAllocation, true)
  | CAllocUpdate _ _ => (ActionUpdate, ResourceIPAllocation, true)
  | CAllocDelete _ => (ActionDelete, ResourceIPAllocation, true)
  | CBGPCreate _ _ => (ActionCreate, ResourceBGPSession, true)
  | CBGPList _ => (ActionList, ResourceBGPSession, true)
  | CBGPGet _ => (ActionRead, ResourceBGPSession, true)
  | CBGPUpdate _ _ => (ActionUpdate, ResourceBGPSession, true)
  | CBGPDelete _ => (ActionDelete, ResourceBGPSession, true)
  | CPeerList => (ActionList, ResourceNode, false)
  | CNetState _ => (ActionRead, ResourceNode, true)
  | CSiteCreate _ _ => (ActionCreate, ResourceCDNSite, true)
  | CSiteList _ => (ActionList, ResourceCDNSite, true)
  | CSiteGet _ => (ActionRead, ResourceCDNSite, true)
  | CSiteUpdate _ _ | CSitePurge _ => (ActionUpdate, ResourceCDNSite, true)
  | CSiteDelete _ => (ActionDelete, ResourceCDNSite, true)
  | COriginCreate _ _ => (ActionCreate, ResourceCDNOrigin, true)
  | COriginList _ => (ActionList, ResourceCDNOrigin, true)
  | COriginGet _ => (ActionRead, ResourceCDNOrigin, true)
  | COriginUpdate _ _ => (ActionUpdate, ResourceCDNOrigin, true)
  | COriginDelete _ => (ActionDelete, ResourceCDNOrigin, true)
  end.

Section net.
Context `{UUID} (srv : ApiServer) (e : ReqEnv).

(** ** route.go *)

Definition route_for (t : ID) (req : CreateRouteRequest) : CreateRouteRequest :=
  mkCreateRouteRequest t (crt_Name req) (crt_Protocol req) (crt_EntryIP req) (crt_EntryPort req) (crt_GatewayID req)
    (crt_DestinationIP req) (crt_DestinationPort req) (crt_NodeGroupID req).

Definition routeH_Create (body : option CreateRouteRequest) : Handler := HandlerFunc (fun r =>
  tenantID ← ParseID r "tenantId";
  req ← Decode body;
  rt ← svc (svc_CreateRoute (re_newID e 0) (re_now e 2) (route_for tenantID req)) err400;
  claims ← ctx_claims r;
  _ ← log_dns e r claims "create" "route" [("route_id", uuid_String (route_ID rt)); ("route_name", route_Name rt)];
  mret (JSON 201 (BRoute rt))).

Definition routeH_Get : Handler := HandlerFunc (fun r =>
  id ← ParseID r "id";
  rt ← svc (svc_GetRoute id) (or404 "route not found" (err500 "failed to get route"));
  mret (JSON 200 (BRoute rt))).

Definition routeH_List : Handler := HandlerFunc (fun r =>
  tenantID ← ParseID r "tenantId";
  let params := ParseListParams r in
  l ← svc (svc_ListRoutes tenantID params) (err500 "failed to list routes");
  mret (JSON 200 (BRoutes l.1 l.2 (lp_Offset params) (lp_Limit params)))).

Definition routeH_Update (body : option UpdateRouteRequest) : Handler := HandlerFunc (fun r =>
  id ← ParseID r "id";
  req ← Decode body;
  rt ← svc (svc_UpdateRoute id (re_now e 2) req) (or404 "route not found" err400);
  claims ← ctx_claims r;
  _ ← log_dns e r claims "update" "route" [("route_id", uuid_String (route_ID rt)); ("route_name", route_Name rt)];
  mret (JSON 200 (BRoute rt))).

Definition routeH_Delete : Handler := HandlerFunc (fun r =>
  id ← ParseID r "id";
  _ ← svc (svc_DeleteRoute id) (or404 "route not found" (err500 "failed to delete route"));
  claims ← ctx_claims r;
  _ ← log_dns e r claims "delete" "route" [("route_id", uuid_String id)];
  mret NoContent).

(** ** ip_allocation.go *)

Definition allocation_for (t : ID) (req : CreateIPAllocationRequest) : CreateIPAllocationRequest :=
  mkCreateIPAllocationRequest t (car_Prefix req) (car_Type req) (car_Purpose req).

Definition allocH_Create (body : option CreateIPAllocationRequest) : Handler := HandlerFunc (fun r =>
  tenantID ← ParseID r "tenantId";
  req ← Decode body;
  a ← svc (net_CreateIPAllocation (re_newID e 0) (re_now e 2) (allocation_for tenantID req)) err400;
  claims ← ctx_claims r;
  _ ← log_dns e r claims "create" "ip_allocation" [("allocation_id", uuid_String (ipa_ID a)); ("prefix", ipa_Prefix a)];
  mret (JSON 201 (BAllocation a))).

Definition allocH_Get : Handler := HandlerFunc (fun r =>
  id ← ParseID r "id";
  a ← svc (net_GetIPAllocation id) (or404 "ip allocation not found" (err500 "failed to get ip allocation"));
  mret (JSON 200 (BAllocation a))).

Definition allocH_List : Handler := HandlerFunc (fun r =>
  tenantID ← ParseID r "tenantId";
  let params := ParseListParams r in
  l ← svc (net_ListIPAllocations tenantID params) (err500 "failed to list ip allocations");
  mret (JSON 200 (BAllocations l.1 l.2 (lp_Offset params) (lp_Limit params)))).

Definition allocH_Update (body : option UpdateIPAllocationRequest) : Handler := HandlerFunc (fun r =>
  id ← ParseID r "id";
  req ← Decode body;
  a ← svc (net_UpdateIPAllocation id (re_now e 2) req) (or404 "ip allocation not found" err400);
  claims ← ctx_claims r;
  _ ← log_dns e r claims "update" "ip_allocation" [("allocation_id", uuid_String (ipa_ID a))];
  mret (JSON 200 (BAllocation a))).

Definition allocH_Delete : Handler := HandlerFunc (fun r =>
  id ← ParseID r "id";
  _ ← svc (net_DeleteIPAllocation id) (or404 "ip allocation not found" (err500 "failed to delete ip allocation"));
  claims ← ctx_claims r;
  _ ← log_dns e r claims "delete" "ip_allocation" [("allocation_id", uuid_String id)];
  mret NoContent).

(** ** bgp_session.go *)

Definition session_for (n : ID) (req : CreateBGPSessionRequest) : CreateBGPSessionRequest :=
  mkCreateBGPSessionRequest n (cbr_PeerASN req) (cbr_PeerAddress req) (cbr_LocalASN req) (cbr_AnnouncedPrefixes req)
    (cbr_ImportPolicy req) (cbr_ExportPolicy req).

Definition bgpH_Create (body : option CreateBGPSessionRequest) : Handler := HandlerFunc (fun r =>
  nodeID ← ParseID r "nodeId";
  req ← Decode body;
  sess ← svc (net_CreateBGPSession (re_newID e 0) (re_now e 2) (session_for nodeID req)) err400;
  claims ← ctx_claims r;
  _ ← log_dns e r claims "create" "bgp_session" [("session_id", uuid_String (bgp_ID sess)); ("node_id", uuid_String nodeID)];
  mret (JSON 201 (BSession sess))).

Definition bgpH_Get : Handler := HandlerFunc (fun r =>
  id ← ParseID r "id";
  sess ← svc (net_GetBGPSession id) (or404 "bgp session not found" (err500 "failed to get bgp session"));
  mret (JSON 200 (BSession sess))).

Definition bgpH_List : Handler := HandlerFunc (fun r =>
  nodeID ← ParseID r "nodeId";
  let params := ParseListParams r in
  l ← svc (net_ListBGPSessions nodeID params) (err500 "failed to list bgp sessions");
  mret (JSON 200 (BSessions l.1 l.2 (lp_Offset params) (lp_Limit params)))).

Definition bgpH_Update (body : option UpdateBGPSessionRequest) : Handler := HandlerFunc (fun r =>
  id ← ParseID r "id";
  req ← Decode body;
  sess ← svc (net_UpdateBGPSession id (re_now e 2) req) (or404 "bgp session not found" err400);
  claims ← ctx_claims r;
  _ ← log_dns e r claims "update" "bgp_session" [("session_id", uuid_String (bgp_ID sess))];
  mret (JSON 200 (BSession sess))).

Definition bgpH_Delete : Handler := HandlerFunc (fun r =>
  id ← ParseID r "id";
  _ ← svc (net_DeleteBGPSession id) (or404 "bgp session not found" (err500 "failed to delete bgp session"));
  claims ← ctx_claims r;
  _ ← log_dns e r claims "delete" "bgp_session" [("session_id", uuid_String id)];
  mret NoContent).

(** ** wireguard.go, node_networking.go *)

Definition ListPeers : Handler := HandlerFunc (fun r =>
  let params := ParseListParams r in
  l ← svc (sqlite_ListWireGuardPeers params) (err500 "failed to list wireguard peers");
  mret (JSON 200 (BPeers l.1 l.2 (lp_Offset params) (lp_Limit params)))).

Definition GetState : Handler := HandlerFunc (fun r =>
  id ← ParseID r "id";
  st ← svc (GetNodeNetworkingState id) (or404 "node not found" (err500 "failed to get node networking state"));
  mret (JSON 200 (BNetState st))).

(** ** cdn_site.go *)

Definition site_for (t : ID) (req : CreateSiteRequest) : CreateSiteRequest :=
  mkCreateSiteRequest t (csr_Name req) (csr_Domains req) (csr_TLSMode req) (csr_CacheEnabled req) (csr_CacheTTL req)
    (csr_CompressionEnabled req) (csr_RateLimitRPS req) (csr_NodeGroupID req) (csr_HeaderRules req) (csr_WAFEnabled req)
    (csr_WAFMode req).

Definition siteH_Create (body : option CreateSiteRequest) : Handler := HandlerFunc (fun r =>
  tenantID ← ParseID r "tenantId";
  req ← Decode body;
  site ← svc (CreateSite (as_rules srv) (re_newID e 0) (re_now e 2) (site_for tenantID req)) err400;
  claims ← ctx_claims r;
  _ ← log_dns e r claims "create" "cdn_site" [("site_id", uuid_String (site_ID site)); ("site_name", site_Name site)];
  mret (JSON 201 (BSite site))).

Definition siteH_Get : Handler := HandlerFunc (fun r =>
  id ← ParseID r "id";
  site ← svc (sqlite_GetCDNSite id) (or404 "cdn site not found" (err500 "failed to get cdn site"));
  mret (JSON 200 (BSite site))).

Definition siteH_List : Handler := HandlerFunc (fun r =>
  tenantID ← ParseID r "tenantId";
  let params := ParseListParams r in
  l ← svc (sqlite_ListCDNSites tenantID params) (err500 "failed to list cdn sites");
  mret (JSON 200 (BSites l.1 l.2 (lp_Offset params) (lp_Limit params)))).

Definition siteH_Update (body : option UpdateSiteRequest) : Handler := HandlerFunc (fun r =>
  id ← ParseID r "id";
  req ← Decode body;
  site ← svc (UpdateSite (as_rules srv) id (re_now e 2) req) (or404 "cdn site not found" err400);
  claims ← ctx_claims r;
  _ ← log_dns e r claims "update" "cdn_site" [("site_id", uuid_String (site_ID site)); ("site_name", site_Name site)];
  mret (JSON 200 (BSite site))).

Definition siteH_Delete : Handler := HandlerFunc (fun r =>
  id ← ParseID r "id";
  _ ← svc (DeleteSite id) (or404 "cdn site not found" (err500 "failed to delete cdn site"));
  claims ← ctx_claims r;
  _ ← log_dns e r claims "delete" "cdn_site" [("site_id", uuid_String id)];
  mret NoContent).

Definition PurgeCache : Handler := HandlerFunc (fun r =>
  id ← ParseID r "id";
  _ ← svc (PurgeSiteCache id) (or404 "cdn site not found" (err500 "failed to purge cache"));
  claims ← ctx_claims r;
  _ ← log_dns e r claims "purge_cache" "cdn_site" [("site_id", uuid_String id)];
  mret NoContent).

(** ** cdn_origin.go *)

Definition origin_for (s : ID) (req : CreateOriginRequest) : CreateOriginRequest :=
  mkCreateOriginRequest s (cor_Address req) (cor_Scheme req) (cor_Weight req) (cor_HealthCheckPath req)
    (cor_HealthCheckInterval req).

Definition originH_Create (body : option CreateOriginRequest) : Handler := HandlerFunc (fun r =>
  siteID ← ParseID r "siteId";
  req ← Decode body;
  o ← svc (CreateOrigin (as_resolve srv) (as_allowPrivate srv) (re_newID e 0) (re_now e 2) (origin_for siteID req))
        (or404 "cdn site not found" err400);
  claims ← ctx_claims r;
  _ ← log_dns e r claims "create" "cdn_origin"
        [("origin_id", uuid_String (origin_ID o)); ("site_id", uuid_String siteID); ("address", origin_Address o)];
  mret (JSON 201 (BOrigin o))).

Definition originH_Get : Handler := HandlerFunc (fun r =>
  id ← ParseID r "id";
  o ← svc (sqlite_GetCDNOrigin id) (or404 "cdn origin not found" (err500 "failed to get cdn origin"));
  mret (JSON 200 (BOrigin o))).

Definition originH_List : Handler := HandlerFunc (fun r =>
  siteID ← ParseID r "siteId";
  let params := ParseListParams r in
  l ← svc (sqlite_ListCDNOrigins siteID params) (err500 "failed to list cdn origins");
  mret (JSON 200 (BOrigins l.1 l.2 (lp_Offset params) (lp_Limit params)))).

Definition originH_Update (body : option UpdateOriginRequest) : Handler := HandlerFunc (fun r =>
  id ← ParseID r "id";
  req ← Decode body;
  o ← svc (UpdateOrigin (as_resolve srv) (as_allowPrivate srv) id (re_now e 2) req) (or404 "cdn origin not found" err400);
  claims ← ctx_claims r;
  _ ← log_dns e r claims "update" "cdn_origin" [("origin_id", uuid_String (origin_ID o)); ("address", origin_Address o)];
  mret (JSON 200 (BOrigin o))).

Definition originH_Delete : Handler := HandlerFunc (fun r =>
  id ← ParseID r "id";
  _ ← svc (DeleteOrigin id) (or404 "cdn origin not found" (err500 "failed to delete cdn origin"));
  claims ← ctx_claims r;
  _ ← log_dns e r claims "delete" "cdn_origin" [("origin_id", uuid_String id)];
  mret NoContent).

Definition net_handler (c : net_call) : Handler :=
  match c with
  | CRouteCreate _ b => routeH_Create b
  | CRouteList _ => routeH_List
  | CRouteGet _ => routeH_Get
  | CRouteUpdate _ b => routeH_Update b
  | CRouteDelete _ => routeH_Delete
  | CAllocCreate _ b => allocH_Create b
  | CAllocList _ => allocH_List
  | CAllocGet _ => allocH_Get
  | CAllocUpdate _ b => allocH_Update b
  | CAllocDelete _ => allocH_Delete
  | CBGPCreate _ b => bgpH_Create b
  | CBGPList _ => bgpH_List
  | CBGPGet _ => bgpH_Get
  | CBGPUpdate _ b => bgpH_Update b
  | CBGPDelete _ => bgpH_Delete
  | CPeerList => ListPeers
  | CNetState _ => GetState
  | CSiteCreate _ b => siteH_Create b
  | CSiteList _ => siteH_List
  | CSiteGet _ => siteH_Get
  | CSiteUpdate _ b => siteH_Update b
  | CSiteDelete _ => siteH_Delete
  | CSitePurge _ => PurgeCache
  | COriginCreate _ b => originH_Create b
  | COriginList _ => originH_List
  | COriginGet _ => originH_Get
  | COriginUpdate _ b => originH_Update b
  | COriginDelete _ => originH_Delete
  end.
End net.
