(* ===== verification/ApiProvision.v ===== *)
(** * Configuration endpoints (internal/api/v1: node_config, gateway_config)

    Nodes and gateways poll these.  A successful fetch records its time in the
    row of the node or gateway; the error of that update is only logged. *)

From Stdlib Require Import ZArith Lia Ascii String.
From S2P Require Import Prelude GoStrings Secrets Domain Storage StoreDns StoreFleet DnsService GoHttp CdnService StoreProvision Provisioner.
From S2P Require Import StoreInventory KeyRotation RouteService Networking Token Auth Api ApiHandlers ApiFleet.

Open Scope Z_scope.

Inductive config_call :=
| CConfigWireGuard (id : string) | CConfigBGP (id : string) | CConfigDNS (id : string) | CConfigCDN (id : string)
| CConfigRoutes (id : string) | CConfigGateway (id : string).

Definition config_target (c : config_call) : string :=
  match c with
  | CConfigWireGuard id | CConfigBGP id | CConfigDNS id | CConfigCDN id | CConfigRoutes id | CConfigGateway id => id
  end.

Definition config_path (c : config_call) : string :=
  match c with
  | CConfigWireGuard id => "/api/v1/nodes/" +:+ id +:+ "/config/wireguard"
  | CConfigBGP id => "/api/v1/nodes/" +:+ id +:+ "/config/bgp"
  | CConfigDNS id => "/api/v1/nodes/" +:+ id +:+ "/config/dns"
  | CConfigCDN id => "/api/v1/nodes/" +:+ id +:+ "/config/cdn"
  | CConfigRoutes id => "/api/v1/nodes/" +:+ id +:+ "/config/routes"
  | CConfigGateway id => "/api/v1/gateways/" +:+ id +:+ "/config/routes"
  end.

Definition config_value (c : config_call) (name : string) : string :=
  if bool_decide (name = "id") then config_target c else "".

Definition config_permission (c : config_call) : Action * Resource * bool :=
  match c with
  | CConfigGateway _ => (ActionRead, ResourceGateway, true)
  | _ => (ActionRead, ResourceNode, true)
  end.

Section config.
Context `{UUID} `{AEAD} (srv : ApiServer) (e : ReqEnv).

Definition available (set : bool) (msg : string) : hM unit :=
  if set then mret tt else reply (WriteError 501 "not_implemented" (Msg msg)).

Definition node_synced (id : ID) : hM unit := dropped (sqlite_UpdateNodeConfigSync (re_now e 2) id).

Definition GetWireGuardConfig : Handler := HandlerFunc (fun r =>
  id ← ParseID r "id";
  conf ← svc (net_GenerateNodeConfig (as_net srv) id)
           (or404 "node not found or wireguard not configured" (err500 "failed to generate wireguard config"));
  _ ← node_synced id;
  mret (JSON 200 (BText conf))).

Definition GetBGPConfig : Handler := HandlerFunc (fun r =>
  id ← ParseID r "id";
  l ← svc (net_ListBGPSessions id (mkListParams 0 1000 "")) (err500 "failed to list bgp sessions");
  _ ← node_synced id;
  mret (JSON 200 (BBGPConfig l.1))).

Definition GetDNSConfig : Handler := HandlerFunc (fun r =>
  id ← ParseID r "id";
  _ ← available (as_dnsSvc srv) "dns service not available";
  config ← svc (GetNodeDNSConfig id) (or404 "node not found" (err500 "failed to get dns config"));
  _ ← node_synced id;
  mret (JSON 200 (BDNSConfig config))).

Definition GetCDNConfig : Handler := HandlerFunc (fun r =>
  id ← ParseID r "id";
  _ ← available (as_cdnSvc srv) "cdn service not available";
  config ← svc (GetNodeCDNConfig id) (or404 "node not found" (err500 "failed to get cdn config"));
  _ ← node_synced id;
  mret (JSON 200 (BCDNConfig config))).

Definition GetRouteConfig : Handler := HandlerFunc (fun r =>
  id ← ParseID r "id";
  _ ← available (as_routeSvc srv) "route service not available";
  routeConfig ← svc (GetNodeRouteConfig id) (or404 "node not found" (err500 "failed to get route config"));
  _ ← node_synced id;
  mret (JSON 200 (BRouteConfig routeConfig))).

Definition gatewayConfigH_GetRouteConfig : Handler := HandlerFunc (fun r =>
  id ← ParseID r "id";
  config ← svc (GetGatewayRouteConfig id) (or404 "gateway not found" (err500 "failed to get route config"));
  _ ← dropped (sqlite_UpdateGatewayConfigSync (re_now e 2) id);
  mret (JSON 200 (BGatewayConfig config))).

Definition config_handler (c : config_call) : Handler :=
  match c with
  | CConfigWireGuard _ => GetWireGuardConfig
  | CConfigBGP _ => GetBGPConfig
  | CConfigDNS _ => GetDNSConfig
  | CConfigCDN _ => GetCDNConfig
  | CConfigRoutes _ => GetRouteConfig
  | CConfigGateway _ => gatewayConfigH_GetRouteConfig
  end.
End config.

(** * Provisioning endpoints (internal/api/v1: provisioning, enrollment, sshkey)

    The provisioning service runs inside a request: its readings of the outside
    world start at the tick of the request, and the goroutine that an action
    starts is not part of the request. *)


(** The lifecycle actions that have an endpoint. *)
Inductive lifecycle := LEnroll | LStart | LStop | LRestart | LUpgrade | LReprovision | LDecommission.
Definition lifecycle_name (a : lifecycle) : string :=
  match a with
  | LEnroll => "enroll" | LStart => "start" | LStop => "stop" | LRestart => "restart" | LUpgrade => "upgrade"
  | LReprovision => "reprovision" | LDecommission => "decommission"
  end.

Inductive provision_call :=
| CAction (id : string) (a : lifecycle) | CEnrollmentToken (id : string) | CNodeJobs (id : string) | CJobGet (id : string)
| CKeyRotate (id : string) | CKeyDeploy (id : string).

Definition provision_path (c : provision_call) : string :=
  match c with
  | CAction id a => "/api/v1/nodes/" +:+ id +:+ "/" +:+ lifecycle_name a
  | CEnrollmentToken id => "/api/v1/nodes/" +:+ id +:+ "/enrollment-token"
  | CNodeJobs id => "/api/v1/nodes/" +:+ id +:+ "/jobs"
  | CJobGet id => "/api/v1/provisioning/jobs/" +:+ id
  | CKeyRotate id => "/api/v1/ssh-keys/" +:+ id +:+ "/rotate"
  | CKeyDeploy id => "/api/v1/ssh-keys/" +:+ id +:+ "/deploy"
  end.

Definition provision_value (c : provision_call) (name : string) : string :=
  match c with
  | CAction id _ | CEnrollmentToken id | CNodeJobs id | CJobGet id | CKeyRotate id | CKeyDeploy id =>
      if bool_decide (name = "id") then id else ""
  end.

Definition provision_permission (c : provision_call) : Action * Resource * bool :=
  match c with
  | CAction _ _ | CEnrollmentToken _ => (ActionCreate, ResourceProvisioningJob, true)
  | CNodeJobs _ => (ActionList, ResourceProvisioningJob, true)
  | CJobGet _ => (ActionRead, ResourceProvisioningJob, true)
  | CKeyRotate _ | CKeyDeploy _ => (ActionUpdate, ResourceSSHKey, false)
  end.

(** The last segment of a path, empty without a slash. *)
Fixpoint after_slash (acc : option string) (path : string) : option string :=
  match path with
  | EmptyString => acc
  | String c path =>
      if bool_decide (c = "/"%char) then after_slash (Some "") path
      else after_slash ((fun s => s +:+ String c EmptyString) <$> acc) path
  end.
Definition extractAction (path : string) : string := default "" (after_slash None path).

(** [err.Error()] *)
Fixpoint error_text (err : goerr) : string :=
  match err with
  | ErrNotFound => "not found"
  | ErrAlreadyExists => "already exists"
  | ErrConflict => "conflict"
  | Errorf msg => msg
  | Wrapf msg inner => msg +:+ ": " +:+ error_text inner
  end.

Section provision.
Context `{UUID} `{AEAD} (hmac_sha256 : string -> string -> string) (srv : ApiServer) (e : ReqEnv).

Definition in_request {A} (m : stM PEnv A) : stM SqlState A := fun s =>
  match m (mkPEnv s [] (re_tick e)) with (r, p) => (r, pe_sql p) end.

Definition or_conflict (other : goerr -> ApiReply) (err : goerr) : ApiReply :=
  if errors_Is err ErrConflict then WriteError 409 "conflict" (ErrText err) else other err.

(** ** provisioning.go *)

Definition known_action (action : string) : bool :=
  bool_decide (action ∈ [ProvisionActionEnroll; ProvisionActionStart; ProvisionActionStop; ProvisionActionRestart;
                         ProvisionActionUpgrade; ProvisionActionReprovision; ProvisionActionDecommission]).

Definition provisionH_Action : Handler := HandlerFunc (fun r =>
  nodeID ← ParseID r "id";
  let action := extractAction (hq_Path r) in
  _ ← required action "unknown action";
  claims ← ctx_claims r;
  if known_action action then
    jn ← svc (in_request (startAction (as_outside srv) nodeID (cl_UserID claims) action))
           (or404 "node not found" (or_conflict err400));
    _ ← log_dns e r claims action "provisioning_job"
          [("node_id", uuid_String nodeID); ("job_id", uuid_String (job_ID jn.1))];
    mret (JSON 202 (BJob jn.1))
  else reply (WriteError 400 "bad_request" (Msg ("unknown action: " +:+ action)))).

Definition ListNodeJobs : Handler := HandlerFunc (fun r =>
  nodeID ← ParseID r "id";
  let params := ParseListParams r in
  l ← svc (in_request (ListJobs (Some nodeID) params)) (err500 "failed to list jobs");
  mret (JSON 200 (BJobs l.1 l.2 (lp_Offset params) (lp_Limit params)))).

Definition provisionH_GetJob : Handler := HandlerFunc (fun r =>
  id ← ParseID r "id";
  job ← svc (in_request (GetJob id)) (or404 "job not found" (err500 "failed to get job"));
  mret (JSON 200 (BJob job))).

Definition GenerateToken : Handler := HandlerFunc (fun r =>
  nodeID ← ParseID r "id";
  node ← svc (sqlite_GetNode nodeID) (or404 "node not found" (err500 "failed to get node"));
  token ← svc (in_request (GenerateEnrollmentToken (as_outside srv) (default ZeroID (node_TenantID node)) nodeID))
            (err500 "failed to generate enrollment token");
  claims ← ctx_claims r;
  _ ← log_dns e r claims "generate_enrollment_token" "node" [("node_id", uuid_String nodeID)];
  mret (JSON 200 (BToken (etok_Token token) (etok_ExpiresAt token)))).

(** ** sshkey.go *)

Definition provisioner_set : hM unit :=
  if as_keyProvisioner srv then mret tt
  else reply (WriteError 503 "service_unavailable" (Msg "provisioning service not available")).

Definition keyH_Rotate : Handler := HandlerFunc (fun r =>
  id ← ParseID r "id";
  _ ← provisioner_set;
  key ← svc (in_request (RotateSSHKey (as_outside srv) (as_provisioner srv) (as_keylib srv) id))
          (or404 "SSH key not found" (err500 "failed to rotate SSH key"));
  claims ← ctx_claims r;
  _ ← log e r None (Some (cl_UserID claims)) "rotate" "ssh_key"
        (Some [("key_id", uuid_String id); ("fingerprint", sshkey_Fingerprint key)]);
  mret (JSON 200 (BSSHKey key))).

Definition keyH_Deploy : Handler := HandlerFunc (fun r =>
  id ← ParseID r "id";
  _ ← provisioner_set;
  _ ← svc (in_request (DeploySSHKey (as_outside srv) (as_provisioner srv) id))
        (or404 "SSH key not found" (err500 "failed to deploy SSH key"));
  claims ← ctx_claims r;
  _ ← log e r None (Some (cl_UserID claims)) "deploy" "ssh_key" (Some [("key_id", uuid_String id)]);
  mret (JSON 200 (BStatus "deployed"))).

Definition provision_handler (c : provision_call) : Handler :=
  match c with
  | CAction _ _ => provisionH_Action
  | CEnrollmentToken _ => GenerateToken
  | CNodeJobs _ => ListNodeJobs
  | CJobGet _ => provisionH_GetJob
  | CKeyRotate _ => keyH_Rotate
  | CKeyDeploy _ => keyH_Deploy
  end.

(** ** enrollment.go *)

Definition enroll_error (err : goerr) : ApiReply :=
  or404 "invalid enrollment token" (or_conflict (err500 "enrollment failed")) err.

(** The claims of the token a node gets. *)
Definition node_claims (res : EnrollmentResult) : Claims := mkClaims (er_NodeID res) (er_TenantID res) RoleReadOnly None false.

Definition Enroll (body : option string) : Handler := HandlerFunc (fun r =>
  token ← Decode body;
  _ ← required token "token is required";
  res ← (fun s => match in_request (CompleteEnrollment (as_outside srv) (as_provisioner srv) token) s with
                  | (Ok res, s) => (inr res, s)
                  | (Err err, s) =>
                      (_ ← log e r None None "enrollment_failed" "node" (Some [("error", error_text err)]);
                       reply (enroll_error err)) s
                  end);
  apiToken ← match Issue hmac_sha256 (as_tokens srv) (re_now e 4) (node_claims res) with
             | Ok t => mret t
             | Err _ => reply (WriteError 500 "internal_error" (Msg "failed to issue api token"))
             end;
  _ ← log e r None None "enrollment_completed" "node" (Some [("node_id", uuid_String (er_NodeID res))]);
  mret (JSON 200 (BEnrolled (uuid_String (er_NodeID res)) apiToken (er_WireGuardIP res)))).
End provision.
