(* ===== verification/ApiRoutes.v ===== *)
(** * Routing (internal/api/router.go and the Register methods of internal/api/v1)

    [call] is a request as the mux dispatches it; [middlewares] is the chain the
    endpoint is registered with, outermost first.  The middleware around the mux
    (CORS, security headers, request IDs, rate limits, metrics, logging) does not
    touch the database; [Middleware] has its rate limits and CORS. *)

From Stdlib Require Import ZArith Lia Ascii String.
From S2P Require Import Prelude GoStrings GoBase64 Secrets Domain Storage StoreDns DnsService GoHttp Provisioner ProvisionFrame StoreAccess KeyRotation.
From S2P Require Import Networking Token Auth Api ApiHandlers ApiFleet ApiNet ApiProvision.

Open Scope Z_scope.

Inductive call :=
| CLogin (body : option (string * string)) | CLogout | CMe
| CVerifyTOTP (body : option string) | CEnrollTOTP | CConfirmTOTP (body : option string)
| CCreateKey (body : option (string * Role)) | CListKeys | CDeleteKey (id : string)
| CTenantCreate (body : option tenant_CreateRequest) | CTenantList | CTenantGet (id : string)
| CTenantUpdate (id : string) (body : option tenant_UpdateRequest) | CTenantDelete (id : string)
| CUserCreate (body : option user_CreateRequest) | CUserList | CUserGet (id : string)
| CUserUpdate (id : string) (body : option user_UpdateRequest) | CUserDelete (id : string)
| CAuditList
| CZoneCreate (tenantId : string) (body : option CreateZoneRequest) | CZoneList (tenantId : string)
| CZoneGet (id : string) | CZoneUpdate (id : string) (body : option UpdateZoneRequest) | CZoneDelete (id : string)
| CRecordCreate (zoneId : string) (body : option CreateRecordRequest) | CRecordList (zoneId : string)
| CRecordGet (id : string) | CRecordUpdate (id : string) (body : option UpdateRecordRequest) | CRecordDelete (id : string)
| CFleet (c : fleet_call) | CNet (c : net_call) | CConfig (c : config_call) | CProvision (c : provision_call)
| CEnroll (body : option string).

Definition URL_Path (c : call) : string :=
  match c with
  | CLogin _ => "/api/v1/auth/login"
  | CLogout => "/api/v1/auth/logout"
  | CMe => "/api/v1/auth/me"
  | CVerifyTOTP _ => "/api/v1/auth/totp/verify"
  | CEnrollTOTP => "/api/v1/auth/totp/enroll"
  | CConfirmTOTP _ => "/api/v1/auth/totp/confirm"
  | CCreateKey _ | CListKeys => "/api/v1/api-keys"
  | CDeleteKey id => "/api/v1/api-keys/" +:+ id
  | CTenantCreate _ | CTenantList => "/api/v1/tenants"
  | CTenantGet id | CTenantUpdate id _ | CTenantDelete id => "/api/v1/tenants/" +:+ id
  | CUserCreate _ | CUserList => "/api/v1/users"
  | CUserGet id | CUserUpdate id _ | CUserDelete id => "/api/v1/users/" +:+ id
  | CAuditList => "/api/v1/audit-events"
  | CZoneCreate t _ | CZoneList t => "/api/v1/tenants/" +:+ t +:+ "/dns/zones"
  | CZoneGet id | CZoneUpdate id _ | CZoneDelete id => "/api/v1/dns/zones/" +:+ id
  | CRecordCreate z _ | CRecordList z => "/api/v1/dns/zones/" +:+ z +:+ "/records"
  | CRecordGet id | CRecordUpdate id _ | CRecordDelete id => "/api/v1/dns/records/" +:+ id
  | CFleet c => fleet_path c
  | CNet c => net_path c
  | CConfig c => config_path c
  | CProvision c => provision_path c
  | CEnroll _ => "/api/v1/enroll"
  end.

(** [r.PathValue(name)] *)
Definition PathValue (c : call) (name : string) : string :=
  match c with
  | CDeleteKey id | CTenantGet id | CTenantUpdate id _ | CTenantDelete id
  | CUserGet id | CUserUpdate id _ | CUserDelete id
  | CZoneGet id | CZoneUpdate id _ | CZoneDelete id
  | CRecordGet id | CRecordUpdate id _ | CRecordDelete id => if bool_decide (name = "id") then id else ""
  | CZoneCreate t _ | CZoneList t => if bool_decide (name = "tenantId") then t else ""
  | CRecordCreate z _ | CRecordList z => if bool_decide (name = "zoneId") then z else ""
  | CFleet c => fleet_value c name
  | CNet c => net_value c name
  | CConfig c => config_value c name
  | CProvision c => provision_value c name
  | _ => ""
  end.

(** The permission an endpoint requires: action, resource, and whether the
    tenant of the caller is passed to the check. *)
Definition permission (c : call) : option (Action * Resource * bool) :=
  match c with
  | CLogin _ | CLogout | CMe | CVerifyTOTP _ | CEnrollTOTP | CConfirmTOTP _ | CEnroll _ => None
  | CCreateKey _ => Some (ActionCreate, ResourceAPIKey, true)
  | CListKeys => Some (ActionList, ResourceAPIKey, true)
  | CDeleteKey _ => Some (ActionDelete, ResourceAPIKey, true)
  | CTenantCreate _ => Some (ActionCreate, ResourceTenant, false)
  | CTenantList => Some (ActionList, ResourceTenant, false)
  | CTenantGet _ => Some (ActionRead, ResourceTenant, false)
  | CTenantUpdate _ _ => Some (ActionUpdate, ResourceTenant, false)
  | CTenantDelete _ => Some (ActionDelete, ResourceTenant, false)
  | CUserCreate _ => Some (ActionCreate, ResourceUser, true)
  | CUserList => Some (ActionList, ResourceUser, true)
  | CUserGet _ => Some (ActionRead, ResourceUser, true)
  | CUserUpdate _ _ => Some (ActionUpdate, ResourceUser, true)
  | CUserDelete _ => Some (ActionDelete, ResourceUser, true)
  | CAuditList => Some (ActionList, ResourceAuditEvent, true)
  | CZoneCreate _ _ => Some (ActionCreate, ResourceDNSZone, true)
  | CZoneList _ => Some (ActionList, ResourceDNSZone, true)
  | CZoneGet _ => Some (ActionRead, ResourceDNSZone, true)
  | CZoneUpdate _ _ => Some (ActionUpdate, ResourceDNSZone, true)
  | CZoneDelete _ => Some (ActionDelete, ResourceDNSZone, true)
  | CRecordCreate _ _ => Some (ActionCreate, ResourceDNSRecord, true)
  | CRecordList _ => Some (ActionList, ResourceDNSRecord, true)
  | CRecordGet _ => Some (ActionRead, ResourceDNSRecord, true)
  | CRecordUpdate _ _ => Some (ActionUpdate, ResourceDNSRecord, true)
  | CRecordDelete _ => Some (ActionDelete, ResourceDNSRecord, true)
  | CFleet c => Some (fleet_permission c)
  | CNet c => Some (net_permission c)
  | CConfig c => Some (config_permission c)
  | CProvision c => Some (provision_permission c)
  end.

(** The parts of a request that do not depend on the endpoint. *)
Record Incoming := mkIncoming { in_Authorization : string; in_Cookie : option string; in_RawQuery : string; in_RemoteAddr : string }.

Definition request (c : call) (i : Incoming) : HttpReq :=
  mkHttpReq (in_Authorization i) (in_Cookie i) (URL_Path c) (PathValue c) (in_RawQuery i) (in_RemoteAddr i) None.

Section routes.
Context `{UUID} `{AuthLib} `{AEAD} (hmac_sha256 : string -> string -> string) (ParseAddress : string -> bool).
Context (srv : ApiServer) (e : ReqEnv).

Definition handler (c : call) : Handler :=
  match c with
  | CLogin b => Login hmac_sha256 srv e b
  | CLogout => Logout srv
  | CMe => Me
  | CVerifyTOTP b => VerifyTOTP hmac_sha256 srv e b
  | CEnrollTOTP => EnrollTOTP srv e
  | CConfirmTOTP b => ConfirmTOTP srv e b
  | CCreateKey b => CreateAPIKey e b
  | CListKeys => ListAPIKeys
  | CDeleteKey _ => DeleteAPIKey e
  | CTenantCreate b => tenantH_Create e b
  | CTenantList => tenantH_List
  | CTenantGet _ => tenantH_Get
  | CTenantUpdate _ b => tenantH_Update e b
  | CTenantDelete _ => tenantH_Delete e
  | CUserCreate b => userH_Create ParseAddress e b
  | CUserList => userH_List
  | CUserGet _ => userH_Get
  | CUserUpdate _ b => userH_Update e b
  | CUserDelete _ => userH_Delete e
  | CAuditList => auditH_List
  | CZoneCreate _ b => zoneH_Create e b
  | CZoneList _ => zoneH_List
  | CZoneGet _ => zoneH_Get
  | CZoneUpdate _ b => zoneH_Update e b
  | CZoneDelete _ => zoneH_Delete e
  | CRecordCreate _ b => recordH_Create e b
  | CRecordList _ => recordH_List
  | CRecordGet _ => recordH_Get
  | CRecordUpdate _ b => recordH_Update e b
  | CRecordDelete _ => recordH_Delete e
  | CFleet c => fleet_handler srv e c
  | CNet c => net_handler srv e c
  | CConfig c => config_handler srv e c
  | CProvision c => provision_handler srv e c
  | CEnroll b => Enroll hmac_sha256 srv e b
  end.

(** Configurations are for their node or gateway, and for administrators. *)
Definition owner_check (c : call) : list (Handler -> Handler) :=
  match c with CConfig _ => [RequireResourceOwnerOrAdmin "id"] | _ => [] end.

Definition authMW : Handler -> Handler := Auth hmac_sha256 (as_tokens srv) e.

Definition middlewares (c : call) : list (Handler -> Handler) :=
  match c with
  | CLogin _ | CLogout | CEnroll _ => []
  | _ => authMW :: match permission c with
                   | Some (a, res, scoped) =>
                       [RequirePermission a res (if scoped : bool then Some TenantFromClaims else None)]
                   | None => []
                   end ++ owner_check c
  end.

Definition ServeHTTP (c : call) (i : Incoming) (s : SqlState) : ApiReply * SqlState :=
  Chain (handler c) (middlewares c) (request c i) s.
End routes.

(** * A small deployment, for the witnesses of the access-control theorems

    Concrete instances of the libraries outside the code, and a database with two
    tenants, a superuser, an administrator of the first tenant and a zone of the
    second. *)


(** Hashes and codes that can be computed by hand. *)
#[export] Instance plain_auth : AuthLib := {
  bcrypt_GenerateFromPassword _ pw := if (72 <? String.length pw)%nat then None else Some ("#" +:+ pw);
  bcrypt_Compare h pw := bool_decide (h = "#" +:+ pw);
  totp_Validate _ code secret := bool_decide (code = secret);
  totp_Generate _ _ account := Some ("secret", "otpauth://" +:+ account)
}.
#[export] Instance plain_auth_laws : AuthLibLaws.
Proof. split. intros salt pw h. cbn. case_match; intros [= <-]. by apply bool_decide_eq_true. Qed.
#[export] Existing Instance tag_aead.

Definition plain_hmac (key data : string) : string := key +:+ data.

Definition sample_server : ApiServer :=
  mkApiServer (NewTokenService "signing-key" 86400000000000) (mkStore key_a 1 [mkVersionedKey 1 key_a]) "EdgeFabric" true true (mkCursorJSON (fun _ => None) (fun _ => None)) (fun _ => None) (fun _ => None) false
    (mkNetService (mkStore key_a 1 []) (p_wgConfig sample_provisioner) true) true true true sample_outside sample_provisioner
    (mkSSHKeyLib (fun s => (s, s)) Some Some (fun s => s)) true.
Definition sample_req : ReqEnv := mkReqEnv (fun n => Z.of_nat n) (fun n => N.of_nat (100 + n)) 0 (Some "r") (Some "n") 0.

Definition api_user (id : ID) (tenant : option ID) (email role : string) (totp : bool) : User :=
  mkUser id tenant email "name" "#password" "" totp role UserStatusActive None 0 0.

Definition api_zone : DNSZone := mkDNSZone 30 2 "example.org." DNSZoneActive 1 3600 None [] 0 0.

Definition api_db : DB :=
  upd_tenants (fun _ => {[ 1%N := mkTenant 1 "one" "one" TenantStatusActive "" 0 0;
                           2%N := mkTenant 2 "two" "two" TenantStatusActive "" 0 0 ]})
  (upd_users (fun _ => {[ 10%N := api_user 10 None "root@example.org" RoleSuperUser false;
                          11%N := api_user 11 (Some 1%N) "ann@example.org" RoleAdmin false;
                          12%N := api_user 12 (Some 1%N) "bob@example.org" RoleReadOnly true ]})
  (upd_dns_zones (fun _ => {[ 30%N := api_zone ]}) emptyDB)).
Definition api_state : SqlState := mkSql api_db true [].

Definition ann : Claims := mkClaims 11 (Some 1%N) RoleAdmin None false.
Definition bob_pending : Claims := mkClaims 12 (Some 1%N) RoleReadOnly None true.
Definition token_of (c : Claims) : string :=
  match Issue plain_hmac (as_tokens sample_server) 0 c with Ok t => t | Err _ => "" end.
Definition incoming (c : Claims) : Incoming := mkIncoming ("Bearer " +:+ token_of c) None "" "192.0.2.1:4711".
Definition anonymous : Incoming := mkIncoming "" None "" "192.0.2.1:4711".
