(* ===== verification/ApiFrame.v ===== *)
(** * What a request may change in the database

    [keeps R m]: every run of the statement sequence [m], failing or not, relates
    the tables before to the tables after by the preorder [R]; [hkeeps] is the
    same for handler bodies.  [quiet] is the preorder of requests that change
    nothing but audit events, sign-in times, last uses of API keys, TOTP
    enrolments and times of config fetches. *)

From Stdlib Require Import ZArith Lia Ascii String.
From S2P Require Import Prelude GoStrings GoHttp Secrets Domain Storage StoreDns StoreFleet StoreProvision StoreInventory StoreAccess DnsService Provisioner ProvisionFrame ApiCore Token Auth Api ApiHandlers ApiFleet ApiNet ApiProvision ApiRoutes.

Open Scope Z_scope.

Create HintDb keeps.

Section keeps.
Context (R : relation DB) `{!PreOrder R}.

Definition keeps {A} (m : stM SqlState A) : Prop := forall s r s', m s = (r, s') -> R (sq_db s) (sq_db s').
Definition hkeeps {A} (m : hM A) : Prop := forall s r s', m s = (r, s') -> R (sq_db s) (sq_db s').

Lemma keeps_ret {A} (a : A) : keeps (mret a).
Proof using Type*. intros s r s' [= _ <-]. reflexivity. Qed.
Lemma keeps_throw {A} e : keeps (throw (A:=A) e).
Proof using Type*. intros s r s' [= _ <-]. reflexivity. Qed.
Lemma keeps_lift {A} (x : result A) : keeps (lift x).
Proof using Type*. intros s r s' [= _ <-]. reflexivity. Qed.
Lemma keeps_bind {A B} (m : stM SqlState A) (f : A -> stM SqlState B) :
  keeps m -> (forall a, keeps (f a)) -> keeps (m ≫= f).
Proof using Type*.
  intros Hm Hf s r s' Hrun. apply bind_run in Hrun as [(a & s1 & H1 & H2)|(err & H1 & _)].
  - etrans; [exact (Hm _ _ _ H1)|exact (Hf a _ _ _ H2)].
  - exact (Hm _ _ _ H1).
Qed.
Lemma keeps_wrap {A} msg (m : stM SqlState A) : keeps m -> keeps (wrap msg m).
Proof using Type*. intros Hm s r s' Hrun. apply wrap_run in Hrun as [(a & H1 & _)|(err & H1 & _)]; exact (Hm _ _ _ H1). Qed.
Lemma keeps_try {A} (m : stM SqlState A) : keeps m -> keeps (try m).
Proof using Type*. intros Hm s r s'. unfold try. destruct (m s) as [x s1] eqn:E. intros [= _ <-]. exact (Hm _ _ _ E). Qed.
Lemma keeps_or_error {A} e (m : stM SqlState A) : keeps m -> keeps (or_error e m).
Proof using Type*.
  intros Hm s r s'. unfold or_error. destruct (m s) as [[x|x] s1] eqn:E; intros [= _ <-]; exact (Hm _ _ _ E).
Qed.
Lemma keeps_query {A} msg (f : DB -> result A) : keeps (sql_query msg f).
Proof using Type*. intros s r s' Hrun. apply sql_query_inv in Hrun as [-> _]. reflexivity. Qed.

Lemma hkeeps_ret {A} (a : A) : hkeeps (mret a).
Proof using Type*. intros s r s' [= _ <-]. reflexivity. Qed.
Lemma hkeeps_reply {A} rep : hkeeps (reply (A:=A) rep).
Proof using Type*. intros s r s' [= _ <-]. reflexivity. Qed.
Lemma hkeeps_bind {A B} (m : hM A) (f : A -> hM B) : hkeeps m -> (forall a, hkeeps (f a)) -> hkeeps (m ≫= f).
Proof using Type*.
  intros Hm Hf s r s'. unfold mbind, hM_bind. destruct (m s) as [[rep|a] s1] eqn:E.
  - intros [= _ <-]. exact (Hm _ _ _ E).
  - intros H. etrans; [exact (Hm _ _ _ E)|exact (Hf a _ _ _ H)].
Qed.
Lemma hkeeps_svc {A} (m : stM SqlState A) onerr : keeps m -> hkeeps (svc m onerr).
Proof using Type*.
  intros Hm s r s'. unfold svc. destruct (m s) as [[x|x] s1] eqn:E; intros [= _ <-]; exact (Hm _ _ _ E).
Qed.
Lemma hkeeps_dropped {A} (m : stM SqlState A) : keeps m -> hkeeps (dropped m).
Proof using Type*.
  intros Hm s r s'. unfold dropped. destruct (m s) as [x s1] eqn:E. intros [= _ <-]. exact (Hm _ _ _ E).
Qed.
Lemma hkeeps_Decode {A} (b : option A) : hkeeps (Decode b).
Proof using Type*. destruct b; [apply hkeeps_ret|apply hkeeps_reply]. Qed.
Lemma hkeeps_ParseID `{UUID} r name : hkeeps (ParseID r name).
Proof using Type*.
  unfold ParseID. destruct (bool_decide _); [apply hkeeps_reply|].
  destruct (uuid_Parse _); [apply hkeeps_ret|apply hkeeps_reply].
Qed.
Lemma hkeeps_claims r : hkeeps (need_claims r) /\ hkeeps (ctx_claims r) /\ hkeeps (tenant_scoped r).
Proof using Type*.
  unfold need_claims, ctx_claims, tenant_scoped.
  destruct (ClaimsFromContext r) as [c|]; split_and!; try destruct (cl_TenantID c);
    first [apply hkeeps_ret|apply hkeeps_reply].
Qed.
(** An error branch that does something before it replies. *)
Lemma hkeeps_match_err {A B} (m : stM SqlState A) (ok : A -> hM B) (bad : goerr -> hM B) :
  keeps m -> (forall a, hkeeps (ok a)) -> (forall err, hkeeps (bad err)) ->
  hkeeps (fun s => match m s with (Ok a, s) => ok a s | (Err err, s) => bad err s end).
Proof using Type*.
  intros Hm Hok Hbad s r s'. destruct (m s) as [[x|x] s1] eqn:E; intros H.
  - etrans; [exact (Hm _ _ _ E)|exact (Hok x _ _ _ H)].
  - etrans; [exact (Hm _ _ _ E)|exact (Hbad x _ _ _ H)].
Qed.
Lemma hkeeps_match {A B} (m : stM SqlState A) (ok : A -> hM B) (bad : hM B) :
  keeps m -> (forall a, hkeeps (ok a)) -> hkeeps bad ->
  hkeeps (fun s => match m s with (Ok a, s) => ok a s | (Err _, s) => bad s end).
Proof using Type*. intros Hm Hok Hbad. by apply (hkeeps_match_err m ok (fun _ => bad)). Qed.

Definition handler_keeps (h : Handler) : Prop := forall r s rep s', h r s = (rep, s') -> R (sq_db s) (sq_db s').
Lemma HandlerFunc_keeps f : (forall r, hkeeps (f r)) -> handler_keeps (HandlerFunc f).
Proof using Type*.
  intros Hf r s rep s'. unfold HandlerFunc. destruct (f r s) as [[x|x] s1] eqn:E; intros [= _ <-]; exact (Hf r _ _ _ E).
Qed.
End keeps.

#[export] Hint Resolve keeps_ret keeps_throw keeps_lift keeps_wrap keeps_try keeps_or_error keeps_query
  hkeeps_ret hkeeps_reply hkeeps_svc hkeeps_dropped hkeeps_Decode hkeeps_ParseID : keeps.
#[export] Hint Extern 1 (keeps _ (_ ≫= _)) => apply keeps_bind : keeps.
#[export] Hint Extern 1 (hkeeps _ (_ ≫= _)) => apply hkeeps_bind : keeps.
#[export] Hint Extern 1 (hkeeps _ (need_claims _)) => apply hkeeps_claims : keeps.
#[export] Hint Extern 1 (hkeeps _ (ctx_claims _)) => apply hkeeps_claims : keeps.
#[export] Hint Extern 1 (hkeeps _ (tenant_scoped _)) => apply hkeeps_claims : keeps.
#[export] Hint Extern 0 (PreOrder _) => apply _ : keeps.
#[export] Hint Extern 3 (hkeeps _ (if ?b then _ else _)) => destruct b : keeps.
#[export] Hint Extern 3 (keeps _ (if ?b then _ else _)) => destruct b : keeps.

(** Follow the structure of a statement sequence or handler body. *)
Ltac keep_all :=
  repeat lazymatch goal with
  | |- forall _, keeps _ _ => intros ?
  | |- forall _, hkeeps _ _ => intros ?
  | |- keeps _ (_ ≫= _) => apply keeps_bind; [apply _|..]
  | |- hkeeps _ (_ ≫= _) => apply hkeeps_bind; [apply _|..]
  | |- hkeeps _ (svc _ _) => apply hkeeps_svc; [apply _|]
  | |- keeps _ (wrap _ _) => apply keeps_wrap; [apply _|]
  | |- keeps _ (match ?x with _ => _ end) => destruct x
  | |- hkeeps _ (match ?x with _ => _ end) => destruct x
  | |- hkeeps _ (let '(_, _) := ?x in _) => destruct x
  | |- hkeeps _ (own_node _ _) => unfold own_node
  | |- hkeeps _ (own_gateway _ _) => unfold own_gateway
  | |- hkeeps _ (own_group _ _) => unfold own_group
  | |- keeps ?R ?m => first [solve [eauto 6 with keeps] | change (obeys (on_db R) m); solve [ob_all]]
  | _ => solve [eauto 6 with keeps]
  end.

Section dns_reads.
Context (R : relation DB) `{!PreOrder R}.
Lemma keeps_GetDNSZone id : keeps R (GetDNSZone (S:=SqlState) id).
Proof using Type*. apply keeps_query, _. Qed.
Lemma keeps_ListDNSZones id p : keeps R (ListDNSZones (S:=SqlState) id p).
Proof using Type*. apply keeps_query, _. Qed.
Lemma keeps_GetDNSRecord id : keeps R (GetDNSRecord (S:=SqlState) id).
Proof using Type*. apply keeps_query, _. Qed.
Lemma keeps_ListDNSRecords id p : keeps R (ListDNSRecords (S:=SqlState) id p).
Proof using Type*. apply keeps_query, _. Qed.
End dns_reads.
#[export] Hint Resolve keeps_GetDNSZone keeps_ListDNSZones keeps_GetDNSRecord keeps_ListDNSRecords : keeps.

(** The small checks of the handlers. *)
Section checks.
Context (R : relation DB) `{!PreOrder R}.
Lemma hkeeps_or_absent b what : hkeeps R (or_absent b what).
Proof using Type*. destruct b; [apply hkeeps_ret|apply hkeeps_reply]; apply _. Qed.
Lemma hkeeps_required s msg : hkeeps R (required s msg).
Proof using Type*. unfold required. destruct (bool_decide _); [apply hkeeps_reply|apply hkeeps_ret]; apply _. Qed.
Lemma hkeeps_available b msg : hkeeps R (available b msg).
Proof using Type*. destruct b; [apply hkeeps_ret|apply hkeeps_reply]; apply _. Qed.
Lemma hkeeps_provisioner_set srv : hkeeps R (provisioner_set srv).
Proof using Type*. unfold provisioner_set. destruct (as_keyProvisioner srv); [apply hkeeps_ret|apply hkeeps_reply]; apply _. Qed.
Lemma hkeeps_group_scope `{UUID} r claims : hkeeps R (group_scope r claims).
Proof using Type*. unfold group_scope. destruct (cl_TenantID claims); cbv zeta; keep_all. Qed.
Lemma keeps_in_request_db {A} e (m : stM SqlState A) : keeps R m -> keeps R (in_request e (db m)).
Proof using Type*. intros Hm s r s'. unfold in_request, db. cbn. destruct (m s) as [x s1] eqn:E. intros [= _ <-]. by eapply Hm. Qed.
Lemma keeps_GetJob e id : keeps R (in_request e (GetJob id)).
Proof using Type*. apply keeps_in_request_db. keep_all. Qed.
Lemma keeps_ListJobs e nodeID params : keeps R (in_request e (ListJobs nodeID params)).
Proof using Type*. apply keeps_in_request_db. keep_all. Qed.
End checks.
#[export] Hint Resolve hkeeps_or_absent hkeeps_required hkeeps_available hkeeps_provisioner_set hkeeps_group_scope
  keeps_GetJob keeps_ListJobs : keeps.

(** ** Quiet requests *)

Definition strip_user (u : User) : User :=
  mkUser (user_ID u) (user_TenantID u) (user_Email u) (user_Name u) (user_PasswordHash u) "" false
    (user_Role u) (user_Status u) None (user_CreatedAt u) 0.
Definition strip_key (k : APIKey) : APIKey :=
  mkAPIKey (apikey_ID k) (apikey_TenantID k) (apikey_UserID k) (apikey_Name k) (apikey_KeyHash k)
    (apikey_KeyPrefix k) (apikey_Role k) (apikey_ExpiresAt k) None (apikey_CreatedAt k).

Definition strip_node (n : Node) : Node :=
  mkNode (node_ID n) (node_TenantID n) (node_Name n) (node_Hostname n) (node_PublicIP n)
    (node_WireGuardIP n) (node_WireGuardIPv6 n) (node_Status n) (node_Region n) (node_Provider n) (node_SSHPort n)
    (node_SSHUser n) (node_SSHKeyID n) (node_BinaryVersion n) (node_LastHeartbeat n) None (node_Capabilities n)
    (node_Metadata n) (node_CreatedAt n) 0.
Definition strip_gateway (g : Gateway) : Gateway :=
  mkGateway (gw_ID g) (gw_TenantID g) (gw_Name g) (gw_PublicIP g) (gw_WireGuardIP g) (gw_Status g)
    (gw_EnrollmentToken g) (gw_LastHeartbeat g) None (gw_Metadata g) (gw_CreatedAt g) 0.

(** The database without what a quiet request may change. *)
Definition settled (d : DB) : DB :=
  mkDB (tenants d) (strip_user <$> users d) (strip_key <$> api_keys d) (ssh_keys d) (strip_node <$> nodes d)
    (node_groups d) (node_group_memberships d) (strip_gateway <$> gateways d) (wireguard_peers d) (ip_allocations d)
    (bgp_sessions d) (dns_zones d) (dns_records d) (cdn_sites d) (cdn_origins d) (routes d) (enrollment_tokens d)
    (provisioning_jobs d) ∅.
Definition quiet : relation DB := fun d d' => settled d' = settled d.

#[export] Instance quiet_preorder : PreOrder quiet.
Proof. split; [done|]. intros a b c Hab Hbc. unfold quiet in *. congruence. Qed.

(** Users are stored under their ID, and no two share an email address. *)
Definition accounts_ok (d : DB) : Prop :=
  map_Forall (fun k u => user_ID u = k) (users d) /\
  forall k k' u u', users d !! k = Some u -> users d !! k' = Some u' -> user_Email u = user_Email u' -> k = k'.

Lemma strip_eq u u' : strip_user u = strip_user u' ->
  user_ID u = user_ID u' /\ user_Email u = user_Email u' /\ user_Role u = user_Role u' /\
  user_TenantID u = user_TenantID u'.
Proof. intros [=]. done. Qed.

Lemma settled_users d : users (settled d) = strip_user <$> users d.
Proof. done. Qed.

Lemma quiet_users d d' k u' : quiet d d' -> users d' !! k = Some u' ->
  exists u, users d !! k = Some u /\ strip_user u' = strip_user u.
Proof.
  intros Hq Hu. assert (H : (strip_user <$> users d') !! k = Some (strip_user u')) by (by rewrite lookup_fmap, Hu).
  rewrite <-settled_users, Hq, settled_users, lookup_fmap in H.
  destruct (users d !! k) as [u|]; cbn in H; [|done]. injection H as H. exists u. split; [done|].
  unfold strip_user in *. congruence.
Qed.

Lemma quiet_accounts d d' : quiet d d' -> accounts_ok d -> accounts_ok d'.
Proof.
  intros Hq [Hk He]. split.
  - intros k u' Hu. destruct (quiet_users _ _ _ _ Hq Hu) as (u & Hu0 & (-> & _)%strip_eq). by apply Hk.
  - intros k k' u1 u2 H1 H2 Heq.
    destruct (quiet_users _ _ _ _ Hq H1) as (v1 & Hv1 & (_ & E1 & _)%strip_eq).
    destruct (quiet_users _ _ _ _ Hq H2) as (v2 & Hv2 & (_ & E2 & _)%strip_eq).
    eapply He; [exact Hv1|exact Hv2|congruence].
Qed.

(** ** Quiet statements *)

Lemma fmap_alter_same {V W} (g : V -> W) (f : V -> V) (m : gmap ID V) k :
  (forall v, m !! k = Some v -> g (f v) = g v) -> g <$> alter f k m = g <$> m.
Proof.
  intros Hg. apply map_eq. intros j. rewrite !lookup_fmap. destruct (decide (k = j)) as [<-|Hne].
  - rewrite lookup_alter_eq. destruct (m !! k) as [v|] eqn:E; [|done]. cbn. by rewrite Hg.
  - by rewrite lookup_alter_ne.
Qed.

Lemma quiet_log `{UUID} e r t u a res d : hkeeps quiet (log e r t u a res d).
Proof.
  apply hkeeps_dropped; [apply _|]. intros s x s'. unfold audit_Log, sqlite_CreateAuditEvent, sql_exec.
  destruct (sq_fault s); [by intros [= _ <-]|]. by destruct (has_key _ _); intros [= _ <-].
Qed.

Lemma quiet_last_used now id : keeps quiet (sqlite_UpdateAPIKeyLastUsed now id).
Proof.
  intros s r s' Hrun. apply sql_update_inv in Hrun. destruct r; [|by rewrite Hrun].
  destruct Hrun as (_ & _ & ->). unfold quiet, settled. cbn.
  f_equal. by apply fmap_alter_same.
Qed.
Lemma quiet_node_sync now id : keeps quiet (sqlite_UpdateNodeConfigSync now id).
Proof.
  intros s r s' Hrun. apply sql_update_inv in Hrun. destruct r; [|by rewrite Hrun].
  destruct Hrun as (_ & _ & ->). unfold quiet, settled. cbn.
  f_equal. by apply fmap_alter_same.
Qed.
Lemma quiet_gateway_sync now id : keeps quiet (sqlite_UpdateGatewayConfigSync now id).
Proof.
  intros s r s' Hrun. apply sql_update_inv in Hrun. destruct r; [|by rewrite Hrun].
  destruct Hrun as (_ & _ & ->). unfold quiet, settled. cbn.
  f_equal. by apply fmap_alter_same.
Qed.
#[export] Hint Resolve quiet_log quiet_last_used quiet_node_sync quiet_gateway_sync : keeps.

Lemma sql_update_unique_inv {V A} msg dup (table : DB -> gmap ID V) id clash fks put (v : A) s r s' :
  sql_update_unique msg dup table id clash fks put v s = (r, s') ->
  match r with
  | Ok a => a = v /\ is_Some (table (sq_db s) !! id) /\ other_row (table (sq_db s)) id clash = false /\
            sq_db s' = put (sq_db s)
  | Err _ => sq_db s' = sq_db s
  end.
Proof.
  unfold sql_update_unique, sql_exec. intros H. destruct (sq_fault s); [by simplify_eq|].
  destruct (has_key _ _) eqn:Hh; cbn in H; [|by simplify_eq].
  destruct (other_row _ _ _) eqn:?; [by simplify_eq|].
  destruct (sq_fk s && negb (fks (sq_db s))); simplify_eq; [done|].
  split_and!; try done. by apply bool_decide_eq_true in Hh.
Qed.

(** Writing a user back with nothing but the stripped fields changed. *)
Lemma quiet_UpdateUser now u u0 s r s' :
  users (sq_db s) !! user_ID u = Some u0 -> strip_user u = strip_user u0 ->
  sqlite_UpdateUser now u s = (r, s') -> quiet (sq_db s) (sq_db s').
Proof.
  intros Hu Hs Hrun. apply sql_update_unique_inv in Hrun. destruct r; [|by rewrite Hrun].
  destruct Hrun as (_ & _ & _ & ->). unfold quiet, settled. cbn.
  f_equal. apply fmap_alter_same. intros v Hv. rewrite Hu in Hv. injection Hv as <-.
  unfold strip_user, merge_user in *. cbn. congruence.
Qed.

(** Quiet on databases whose accounts are in order. *)
Definition quietly : relation DB := fun d d' => accounts_ok d -> quiet d d'.
#[export] Instance quietly_preorder : PreOrder quietly.
Proof.
  split; [intros d _; reflexivity|]. intros a b c Hab Hbc Ha. pose proof (Hab Ha) as Hq.
  etrans; [exact Hq|]. apply Hbc. by eapply quiet_accounts.
Qed.

Lemma keeps_quietly {A} (m : stM SqlState A) : keeps quiet m -> keeps quietly m.
Proof. intros Hm s r s' Hrun _. exact (Hm _ _ _ Hrun). Qed.
Lemma hkeeps_quietly {A} (m : hM A) : hkeeps quiet m -> hkeeps quietly m.
Proof. intros Hm s r s' Hrun _. exact (Hm _ _ _ Hrun). Qed.
Lemma quietly_log `{UUID} e r t u a res d : hkeeps quietly (log e r t u a res d).
Proof. apply hkeeps_quietly, quiet_log. Qed.
Lemma quietly_node_synced e id : hkeeps quietly (node_synced e id).
Proof. apply hkeeps_quietly, hkeeps_dropped; [apply _|]. apply quiet_node_sync. Qed.
Lemma quietly_gateway_synced now id : hkeeps quietly (dropped (sqlite_UpdateGatewayConfigSync now id)).
Proof. apply hkeeps_quietly, hkeeps_dropped; [apply _|]. apply quiet_gateway_sync. Qed.
#[export] Hint Resolve quietly_log quietly_node_synced quietly_gateway_synced : keeps.

Lemma GetUser_run id s r s' :
  sqlite_GetUser id s = (r, s') -> sq_db s' = sq_db s /\ forall u, r = Ok u -> users (sq_db s) !! id = Some u.
Proof.
  intros Hrun. apply sql_query_inv in Hrun as [Hd Hr]. split; [done|]. intros u ->.
  specialize (Hr u eq_refl). unfold get_row in Hr. by destruct (users (sq_db s) !! id); simplify_eq.
Qed.

Lemma first_row_Ok {V} (P : V -> Prop) `{!forall v, Decision (P v)} (m : gmap ID V) v :
  first_row (filter P (rows_of m)) = Ok v -> P v /\ exists k, m !! k = Some v.
Proof.
  unfold first_row. destruct (filter P (rows_of m)) as [|x l] eqn:E; [done|]. intros [= ->].
  assert (Hin : v ∈ filter P (rows_of m)) by (rewrite E; by left). apply list_elem_of_filter in Hin as [HP Hv].
  split; [done|]. by apply elem_of_rows.
Qed.

Lemma GetUserByEmail_run email s r s' :
  sqlite_GetUserByEmail email s = (r, s') ->
  sq_db s' = sq_db s /\ forall u, r = Ok u -> user_Email u = email /\ exists k, users (sq_db s) !! k = Some u.
Proof.
  intros Hrun. apply sql_query_inv in Hrun as [Hd Hr]. split; [done|]. intros u ->. exact (first_row_Ok (fun u => user_Email u = email) _ _ (Hr u eq_refl)).
Qed.

Lemma or_error_run {A} e (m : stM SqlState A) s r s' :
  or_error e m s = (r, s') -> (exists a, r = Ok a /\ m s = (Ok a, s')) \/ (r = Err e /\ exists e0, m s = (Err e0, s')).
Proof. unfold or_error. destruct (m s) as [[a|e0] s1]; intros [= <- <-]; eauto. Qed.

Lemma try_run {A} (m : stM SqlState A) s r s' : try m s = (r, s') -> exists x, r = Ok x /\ m s = (x, s').
Proof. unfold try. destruct (m s) as [x s1]. intros [= <- <-]. eauto. Qed.

Lemma lift_bind_run {A B} (x : result A) (f : A -> stM SqlState B) s r s' :
  (lift x ≫= f) s = (r, s') ->
  (exists a, x = Ok a /\ f a s = (r, s')) \/ (exists e, r = Err e /\ s' = s).
Proof. unfold mbind, stM_bind, lift. destruct x; intros H; simplify_eq; eauto. Qed.
Lemma wrap_lift_bind_run {A B} msg (x : result A) (f : A -> stM SqlState B) s r s' :
  (wrap msg (lift x) ≫= f) s = (r, s') ->
  (exists a, x = Ok a /\ f a s = (r, s')) \/ (exists e, r = Err e /\ s' = s).
Proof. unfold mbind, stM_bind, wrap, lift. destruct x; intros H; simplify_eq; eauto. Qed.

(** Step over a check or a computation; the failing branch, where nothing has
    been done, is closed with [t]. *)
Ltac pass H pat t :=
  first [apply lift_bind_run in H as [(?x & pat & H)|(?e & -> & ->)]
        |apply wrap_lift_bind_run in H as [(?x & pat & H)|(?e & -> & ->)]];
  [|solve [t]].

Section auth_ops.
Context `{AuthLib} `{AEAD}.

(** Read a user, then write it back as [f] says. *)
Lemma quietly_read_user {B} err id (f : User -> stM SqlState B) :
  (forall u s r s', users (sq_db s) !! id = Some u -> f u s = (r, s') -> quietly (sq_db s) (sq_db s')) ->
  keeps quietly (u ← or_error err (sqlite_GetUser id); f u).
Proof.
  intros Hf s r s' Hrun. apply bind_run in Hrun as [(u & s1 & Hm & Hrun)|(e & Hm & ->)].
  - apply or_error_run in Hm as [(a & [= <-] & Hm)|([=] & _)]. apply GetUser_run in Hm as [Hd Hu].
    specialize (Hu u eq_refl). rewrite <-Hd in *. by eapply Hf.
  - apply or_error_run in Hm as [(a & [=] & _)|(_ & e0 & Hm)]. apply GetUser_run in Hm as [-> _]. reflexivity.
Qed.

Lemma quietly_write_user {B} now msg u u0 (v : B) s r s' :
  users (sq_db s) !! user_ID u0 = Some u0 \/ (exists id, users (sq_db s) !! id = Some u0) ->
  user_ID u = user_ID u0 -> strip_user u = strip_user u0 ->
  (_ ← wrap msg (sqlite_UpdateUser now u); mret v) s = (r, s') -> quietly (sq_db s) (sq_db s').
Proof.
  intros Hu Hid Hs Hrun [Hkey _].
  assert (Hu0 : users (sq_db s) !! user_ID u = Some u0).
  { rewrite Hid. destruct Hu as [Hu|[id Hu]]; [done|]. by rewrite (Hkey _ _ Hu). }
  apply bind_run in Hrun as [(u' & s2 & Hm & Hrun)|(e & Hm & ->)].
  - apply wrap_Ok in Hm. injection Hrun as _ <-. by eapply quiet_UpdateUser.
  - apply wrap_Err in Hm as (e0 & _ & Hm). by eapply quiet_UpdateUser.
Qed.

Lemma quietly_EnrollTOTP st issuer draw nonce now id : keeps quietly (auth_EnrollTOTP st issuer draw nonce now id).
Proof.
  apply quietly_read_user. intros u s r s' Hu Hrun.
  pass Hrun Hkey ltac:(reflexivity). pass Hrun Henc ltac:(reflexivity).
  eapply quietly_write_user, Hrun; [right; eauto|done..].
Qed.

Lemma quietly_ConfirmTOTP st now now' id code : keeps quietly (auth_ConfirmTOTP st now now' id code).
Proof.
  apply quietly_read_user. intros u s r s' Hu Hrun.
  pass Hrun Hset ltac:(reflexivity). pass Hrun Hdec ltac:(reflexivity). pass Hrun Hval ltac:(reflexivity).
  eapply quietly_write_user, Hrun; [right; eauto|done..].
Qed.

(** What a successful second factor has checked. *)
Lemma AuthenticateTOTP_run st now id code s r s' :
  AuthenticateTOTP st now id code s = (r, s') ->
  sq_db s' = sq_db s /\
  forall u, r = Ok u -> exists u0 secret, users (sq_db s) !! id = Some u0 /\ user_TOTPEnabled u0 = true /\
    Decrypt st (user_TOTPSecret u0) = Ok secret /\ totp_Validate now code secret = true.
Proof.
  unfold AuthenticateTOTP. intros Hrun. apply bind_run in Hrun as [(u & s1 & Hm & Hrun)|(e & Hm & ->)].
  2:{ apply or_error_run in Hm as [(a & [=] & _)|(_ & e0 & Hm)]. by apply GetUser_run in Hm as [-> _]. }
  apply or_error_run in Hm as [(a & [= <-] & Hm)|([=] & _)]. apply GetUser_run in Hm as [Hd Hu].
  specialize (Hu u eq_refl). pass Hrun Hen ltac:(done). pass Hrun Hdec ltac:(done).
  unfold lift in Hrun. injection Hrun as <- <-. split; [done|]. intros u' Hval.
  apply guard_Ok in Hen, Hval. apply andb_true_iff in Hen as [Hen _]. eauto 7.
Qed.

(** What a successful sign-in with a password has checked. *)
Lemma AuthenticatePassword_run now now' email pw s r s' :
  AuthenticatePassword now now' email pw s = (r, s') ->
  quietly (sq_db s) (sq_db s') /\
  forall u, r = Ok u -> exists k u0, users (sq_db s) !! k = Some u0 /\ user_Email u0 = email /\
    user_Status u0 = UserStatusActive /\ bcrypt_Compare (user_PasswordHash u0) pw = true /\
    user_ID u = user_ID u0 /\ user_TenantID u = user_TenantID u0 /\ user_Role u = user_Role u0 /\
    user_TOTPEnabled u = user_TOTPEnabled u0.
Proof.
  unfold AuthenticatePassword. intros Hrun. apply bind_run in Hrun as [(u0 & s1 & Hm & Hrun)|(e & Hm & ->)].
  2:{ apply or_error_run in Hm as [(a & [=] & _)|(_ & e0 & Hm)]. apply GetUserByEmail_run in Hm as [-> _].
      split; [reflexivity|done]. }
  apply or_error_run in Hm as [(a & [= <-] & Hm)|([=] & _)].
  apply GetUserByEmail_run in Hm as [Hd Hu]. destruct (Hu u0 eq_refl) as (Hmail & k & Hk). rewrite <-Hd in *. clear Hu Hd s.
  pass Hrun Hst ltac:(split; [reflexivity|done]). pass Hrun Hpw ltac:(split; [reflexivity|done]).
  apply guard_Ok in Hst, Hpw. apply bool_decide_eq_true in Hst.
  apply bind_run in Hrun as [(z & s2 & Hm & Hrun)|(e & Hm & ->)].
  2:{ apply try_run in Hm as (? & [=] & _). }
  apply try_run in Hm as (w & [= ->] & Hm). injection Hrun as <- <-. split.
  - intros [Hkey _]. eapply (quiet_UpdateUser _ _ u0), Hm; [|done]. cbn. by rewrite (Hkey _ _ Hk).
  - intros u [= <-]. exists k, u0. split_and!; try done; destruct w as [u'|]; cbn; try done;
      apply sql_update_unique_inv in Hm as (-> & _); done.
Qed.

Lemma quiet_AuthenticateAPIKey now now' key : keeps quiet (AuthenticateAPIKey now now' key).
Proof. unfold AuthenticateAPIKey, sqlite_GetAPIKeyByPrefix. cbv zeta. keep_all. Qed.
End auth_ops.

(** ** Requests *)

Section requests.
Context `{UUID} `{AuthLib} `{AEAD} (hmac_sha256 : string -> string -> string) (ParseAddress : string -> bool).
Context (srv : ApiServer) (e : ReqEnv).

Lemma quiet_authenticate r : hkeeps quiet (authenticate hmac_sha256 (as_tokens srv) e r).
Proof using Type*.
  unfold authenticate. pose proof quiet_AuthenticateAPIKey. keep_all.
Qed.

(** Calls that need no permission, or one that does not write; an enrollment
    writes on the strength of its token. *)
Definition reads (c : call) : bool :=
  match c with
  | CEnroll _ => false
  | _ => match permission c with Some (a, _, _) => negb (writes a) | None => true end
  end.

Lemma issue_keeps R `{!PreOrder R} c : hkeeps R (issue hmac_sha256 srv e c).
Proof using Type*. unfold issue. keep_all. Qed.

Lemma Login_quietly b : handler_keeps quietly (Login hmac_sha256 srv e b).
Proof using Type*.
  apply HandlerFunc_keeps; [apply _|]. intros r. apply hkeeps_bind; [apply _|eauto with keeps|]. intros req.
  apply hkeeps_bind; [apply _| |].
  - apply (hkeeps_match quietly); [| intros u; apply hkeeps_ret; apply _ |keep_all].
    intros s x s' Hrun. by apply AuthenticatePassword_run in Hrun as [? _].
  - intros u. pose proof issue_keeps. keep_all.
Qed.

Lemma VerifyTOTP_quietly b : handler_keeps quietly (VerifyTOTP hmac_sha256 srv e b).
Proof using Type*.
  apply HandlerFunc_keeps; [apply _|]. intros r. apply hkeeps_bind; [apply _|eauto with keeps|]. intros claims.
  apply hkeeps_bind; [apply _|eauto with keeps|]. intros code. apply hkeeps_bind; [apply _| |].
  - apply (hkeeps_match quietly); [|intros u; apply hkeeps_ret; apply _ |keep_all].
    intros s x s' Hrun. apply AuthenticateTOTP_run in Hrun as [-> _]. reflexivity.
  - intros u. pose proof issue_keeps. keep_all.
Qed.

Lemma handler_quietly c : reads c = true -> handler_keeps quietly (handler hmac_sha256 ParseAddress srv e c).
Proof using Type*.
  pose proof quietly_EnrollTOTP. pose proof quietly_ConfirmTOTP.
  intros Hc. destruct c as [| | | | | | | | | | | | | | | | | | | | | | | | | | | | | |c|c|c|c|]; try discriminate Hc;
    try (destruct c; try discriminate Hc); cbn [handler fleet_handler net_handler config_handler provision_handler];
    try apply Login_quietly; try apply VerifyTOTP_quietly;
    (apply HandlerFunc_keeps; [apply _|]; intros r; cbv zeta;
     unfold user_Get, tenant_Get, tenant_List, user_List, audit_List, sqlite_GetUser, sqlite_GetTenant,
       sqlite_ListTenants, sqlite_ListUsers, sqlite_ListAuditEvents, sqlite_ListAPIKeys; keep_all).
Qed.
End requests.

(** ** Accounts under writing requests *)

Definition accounts_kept : relation DB := fun d d' => accounts_ok d -> accounts_ok d'.
#[export] Instance accounts_kept_preorder : PreOrder accounts_kept.
Proof. split; [by intros d ?|]. intros a b c Hab Hbc Ha. auto. Qed.

Lemma users_same_kept d d' : users d' = users d -> accounts_kept d d'.
Proof. unfold accounts_kept, accounts_ok. by intros ->. Qed.

Lemma kept_log `{UUID} e r t u a res d : hkeeps accounts_kept (log e r t u a res d).
Proof. intros s x s' Hrun. exact (quiet_accounts _ _ (quiet_log _ _ _ _ _ _ _ _ _ _ Hrun)). Qed.

Lemma kept_insert {A} msg dup ex fks put (v : A) :
  (forall d, users (put d) = users d) -> keeps accounts_kept (sql_insert msg dup ex fks put v).
Proof.
  intros Hp s r s' Hrun. apply sql_insert_inv in Hrun. apply users_same_kept.
  destruct r; [destruct Hrun as (_ & _ & _ & ->); apply Hp|by rewrite Hrun].
Qed.
Lemma kept_update {A} msg ex fks put (v : A) :
  (forall d, users (put d) = users d) -> keeps accounts_kept (sql_update msg ex fks put v).
Proof.
  intros Hp s r s' Hrun. apply sql_update_inv in Hrun. apply users_same_kept.
  destruct r; [destruct Hrun as (_ & _ & ->); apply Hp|by rewrite Hrun].
Qed.
Lemma kept_update_unique {V A} msg dup (table : DB -> gmap ID V) id clash fks put (v : A) :
  (forall d, users (put d) = users d) -> keeps accounts_kept (sql_update_unique msg dup table id clash fks put v).
Proof.
  intros Hp s r s' Hrun. apply sql_update_unique_inv in Hrun. apply users_same_kept.
  destruct r; [destruct Hrun as (_ & _ & _ & ->); apply Hp|by rewrite Hrun].
Qed.

Lemma kept_CreateAPIKey now k : keeps accounts_kept (sqlite_CreateAPIKey now k).
Proof.
  intros s r s'. unfold sqlite_CreateAPIKey, sql_exec. destruct (sq_fault s); [by intros [= _ <-]|].
  destruct (has_key _ _); [by intros [= _ <-]|]. destruct (_ && _); intros [= _ <-]; by apply users_same_kept.
Qed.
Lemma kept_DeleteDNSZone id : keeps accounts_kept (DeleteDNSZone (S:=SqlState) id).
Proof.
  intros s r s' Hrun. cbn in Hrun. unfold sqlite_DeleteDNSZone in Hrun. apply sql_update_inv in Hrun.
  apply users_same_kept. destruct r; [|by rewrite Hrun]. destruct Hrun as (_ & _ & ->). cbn. by destruct (sq_fk s).
Qed.

Lemma kept_CreateUser now u : keeps accounts_kept (sqlite_CreateUser now u).
Proof.
  intros s r s' Hrun [Hkey Hmail]. apply sql_insert_inv in Hrun. destruct r as [u'|]; [|by rewrite Hrun].
  destruct Hrun as (_ & [Hno Hmails]%orb_false_iff & _ & ->). cbn.
  assert (Hother : forall k v, users (sq_db s) !! k = Some v -> user_Email v <> user_Email u).
  { intros k v Hv. assert (Hin : v ∈ rows_of (users (sq_db s))) by (apply elem_of_rows; eauto).
    pose proof (existsb_false _ _ _ Hmails Hin) as Hb. by apply bool_decide_eq_false in Hb. }
  split; cbn [upd_users users].
  - apply map_Forall_insert_2; done.
  - intros k k' u1 u2 H1 H2 Heq. apply lookup_insert_Some in H1 as [[<- <-]|[Hn1 H1]], H2 as [[<- <-]|[Hn2 H2]]; try done.
    + by destruct (Hother _ _ H2).
    + by destruct (Hother _ _ H1).
    + by eapply Hmail.
Qed.

Lemma kept_UpdateUser now u : keeps accounts_kept (sqlite_UpdateUser now u).
Proof.
  intros s r s' Hrun [Hkey Hmail]. apply sql_update_unique_inv in Hrun. destruct r as [u'|]; [|by rewrite Hrun].
  destruct Hrun as (_ & _ & Hother & ->). unfold other_row in Hother.
  assert (Hne : forall k v, users (sq_db s) !! k = Some v -> k <> user_ID u -> user_Email v <> user_Email u).
  { intros k v Hv Hk. assert (Hin : (k, v) ∈ map_to_list (users (sq_db s))) by by apply elem_of_map_to_list.
    pose proof (existsb_false _ _ _ Hother Hin) as Hb. cbn in Hb. rewrite bool_decide_false in Hb by done.
    by apply bool_decide_eq_false in Hb. }
  assert (Hlk : forall k v, alter (merge_user now u) (user_ID u) (users (sq_db s)) !! k = Some v ->
     exists v0, users (sq_db s) !! k = Some v0 /\ user_ID v = user_ID v0 /\
       user_Email v = (if decide (k = user_ID u) then user_Email u else user_Email v0)).
  { intros k v Hv. destruct (decide (k = user_ID u)) as [->|Hn].
    - rewrite lookup_alter_eq in Hv. destruct (users (sq_db s) !! user_ID u) as [v0|]; [|done]. injection Hv as <-. eauto.
    - rewrite lookup_alter_ne in Hv by done. eauto. }
  split; cbn [upd_users users].
  - intros k v (v0 & Hv0 & -> & _)%Hlk. by apply Hkey.
  - intros k k' u1 u2 (v1 & H1 & _ & E1)%Hlk (v2 & H2 & _ & E2)%Hlk Heq. rewrite E1, E2 in Heq.
    destruct (decide (k = user_ID u)) as [->|Hn1], (decide (k' = user_ID u)) as [->|Hn2]; try done.
    + by destruct (Hne _ _ H2 Hn2).
    + by destruct (Hne _ _ H1 Hn1).
    + by eapply Hmail.
Qed.

Lemma kept_DeleteUser id : keeps accounts_kept (sqlite_DeleteUser id).
Proof.
  intros s r s' Hrun [Hkey Hmail]. apply sql_update_inv in Hrun. destruct r; [|by rewrite Hrun].
  destruct Hrun as (_ & _ & ->). split; cbn [upd_users users].
  - by apply map_Forall_delete.
  - intros k k' u1 u2 [_ H1]%lookup_delete_Some [_ H2]%lookup_delete_Some. by eapply Hmail.
Qed.

Lemma kept_tenants now t : keeps accounts_kept (sqlite_CreateTenant now t) /\ keeps accounts_kept (sqlite_UpdateTenant now t).
Proof. split; [by apply kept_insert|by apply kept_update_unique]. Qed.
Lemma kept_DeleteAPIKey id : keeps accounts_kept (sqlite_DeleteAPIKey id).
Proof. by apply kept_update. Qed.
Lemma kept_zone_writes now z :
  keeps accounts_kept (CreateDNSZone (S:=SqlState) now z) /\ keeps accounts_kept (UpdateDNSZone (S:=SqlState) now z).
Proof. split; [by apply kept_insert|]. intros s r s'. cbn. unfold sqlite_UpdateDNSZone. by apply kept_update. Qed.
Lemma kept_Increment now id : keeps accounts_kept (IncrementDNSZoneSerial (S:=SqlState) now id).
Proof. by apply kept_update. Qed.
Lemma kept_record_writes now r :
  keeps accounts_kept (CreateDNSRecord (S:=SqlState) now r) /\ keeps accounts_kept (UpdateDNSRecord (S:=SqlState) now r).
Proof. split; [by apply kept_insert|by apply kept_update]. Qed.
Lemma kept_DeleteDNSRecord id : keeps accounts_kept (DeleteDNSRecord (S:=SqlState) id).
Proof. by apply kept_update. Qed.

#[export] Hint Resolve kept_log kept_CreateAPIKey kept_DeleteDNSZone kept_CreateUser kept_UpdateUser kept_DeleteUser
  kept_DeleteAPIKey kept_Increment kept_DeleteDNSRecord : keeps.
#[export] Hint Extern 1 (keeps accounts_kept (sqlite_CreateTenant _ _)) => apply kept_tenants : keeps.
#[export] Hint Extern 1 (keeps accounts_kept (sqlite_UpdateTenant _ _)) => apply kept_tenants : keeps.
#[export] Hint Extern 1 (keeps accounts_kept (CreateDNSZone _ _)) => apply kept_zone_writes : keeps.
#[export] Hint Extern 1 (keeps accounts_kept (UpdateDNSZone _ _)) => apply kept_zone_writes : keeps.
#[export] Hint Extern 1 (keeps accounts_kept (CreateDNSRecord _ _)) => apply kept_record_writes : keeps.
#[export] Hint Extern 1 (keeps accounts_kept (UpdateDNSRecord _ _)) => apply kept_record_writes : keeps.

(** Operations that leave the accounts alone. *)
Lemma kept_bystander {A} (m : stM SqlState A) : bystander m -> keeps accounts_kept m.
Proof. intros Hm s r s' Hrun. apply users_same_kept. by eapply Hm. Qed.
Lemma by_in_request {A} e (m : stM PEnv A) : respects p_spares m -> bystander (in_request e m).
Proof. intros Hm s r s'. unfold in_request. destruct (m _) as [x p] eqn:E. intros [= _ <-]. exact (Hm _ _ _ E). Qed.
#[export] Hint Extern 2 (bystander (in_request _ _)) => apply by_in_request : obeys.
#[export] Hint Resolve spares_RotateSSHKey spares_DeploySSHKey spares_startAction spares_GenerateEnrollmentToken
  spares_CompleteEnrollment : obeys.
#[export] Hint Extern 5 (keeps accounts_kept _) => apply kept_bystander; solve [ob_all] : keeps.

Section writes.
Context `{UUID} `{AuthLib} `{AEAD} (hmac_sha256 : string -> string -> string) (ParseAddress : string -> bool).
Context (srv : ApiServer) (e : ReqEnv).

Lemma kept_HandlerFunc f : (forall r, hkeeps accounts_kept (f r)) -> handler_keeps accounts_kept (HandlerFunc f).
Proof. by apply HandlerFunc_keeps, _. Qed.

Lemma Enroll_accounts b : handler_keeps accounts_kept (Enroll hmac_sha256 srv e b).
Proof using Type*.
  apply kept_HandlerFunc. intros r. apply hkeeps_bind; [apply _|eauto with keeps|]. intros tok.
  apply hkeeps_bind; [apply _|eauto with keeps|]. intros _. apply hkeeps_bind; [apply _| |].
  - apply (hkeeps_match_err accounts_kept); [|intros res; apply hkeeps_ret; apply _|intros err; apply (hkeeps_bind accounts_kept (log _ _ _ _ _ _ _) (fun _ => reply _)); eauto with keeps].
    apply kept_bystander, by_in_request, spares_CompleteEnrollment.
  - intros res. keep_all.
Qed.

Lemma handler_accounts c : reads c = false -> handler_keeps accounts_kept (handler hmac_sha256 ParseAddress srv e c).
Proof using Type*.
  intros Hc. destruct c as [| | | | | | | | | | | | | | | | | | | | | | | | | | | | | |c|c|c|c|]; try discriminate Hc;
    try apply Enroll_accounts; try (destruct c; try discriminate Hc);
    cbn [handler fleet_handler net_handler config_handler provision_handler]; apply kept_HandlerFunc; intros r; unfold log_dns;
    unfold GenerateAPIKey, tenant_Create, tenant_Update, tenant_Delete, user_Create, user_Update, user_Delete,
      sqlite_GetUser, sqlite_GetTenant, CreateZone, UpdateZone, DeleteZone, CreateRecord, UpdateRecord, DeleteRecord;
    cbv zeta; keep_all.
Qed.
End writes.
