(* ===== verification/ApiTheorems.v ===== *)
(** * Access control of the API: who may change what *)

From Stdlib Require Import ZArith Lia Ascii String.
From S2P Require Import Prelude GoStrings GoHttp Secrets Domain Storage StoreDns StoreProvision StoreAccess DnsService Provisioner EnrollTheorems ApiCore Token Auth Api ApiHandlers ApiFleet ApiNet ApiProvision ApiRoutes ApiFrame.

Open Scope Z_scope.

(** ** Dispatch *)

(** Endpoints behind the Auth middleware. *)
Definition protected (c : call) : bool := match c with CLogin _ | CLogout | CEnroll _ => false | _ => true end.

Section dispatch.
Context `{UUID} `{AuthLib} `{AEAD} (hmac_sha256 : string -> string -> string) (ParseAddress : string -> bool).
Context (srv : ApiServer) (e : ReqEnv).
Notation serve := (ServeHTTP hmac_sha256 ParseAddress srv e).
Notation auth := (authenticate hmac_sha256 (as_tokens srv) e).
Notation handle := (handler hmac_sha256 ParseAddress srv e).

Definition forbidden : ApiReply := WriteError 403 "forbidden" (Msg "insufficient permissions").
Definition mfa_required : ApiReply := WriteError 403 "mfa_required" (Msg "MFA verification required").

(** The check of the permission an endpoint requires. *)
Definition permitted (claims : Claims) (c : call) : bool :=
  match permission c with
  | Some (a, res, scoped) => is_Ok (Authorize claims a res (if scoped : bool then cl_TenantID claims else None))
  | None => true
  end.

(** The handler of an endpoint behind the check of ownership, where it has one. *)
Definition inner (c : call) : Handler := Chain (handle c) (owner_check c).

Lemma serve_protected c i s :
  protected c = true ->
  serve c i s =
    match auth (request c i) s with
    | (inl rep, s1) => (rep, s1)
    | (inr claims, s1) =>
        if cl_MFAPending claims && negb (mfa_path (URL_Path c)) then (mfa_required, s1)
        else if permitted claims c then inner c (with_claims claims (request c i)) s1 else (forbidden, s1)
    end.
Proof.
  intros Hc. unfold ServeHTTP, permitted.
  assert (Hm : middlewares hmac_sha256 srv e c =
    authMW hmac_sha256 srv e :: match permission c with
                   | Some (a, res, scoped) =>
                       [RequirePermission a res (if scoped : bool then Some TenantFromClaims else None)]
                   | None => []
                   end ++ owner_check c) by (by destruct c).
  rewrite Hm. unfold inner. cbn [Chain foldr]. unfold authMW at 1, Auth.
  destruct (auth (request c i) s) as [[rep|claims] s1]; [done|].
  change (hq_Path (request c i)) with (URL_Path c). destruct (_ && _); [done|].
  destruct (permission c) as [[[a res] scoped]|]; [|done]. cbn [app Chain foldr]. unfold RequirePermission. cbn [ClaimsFromContext with_claims hq_claims].
  replace (f ← (if scoped then Some TenantFromClaims else None); f (with_claims claims (request c i)))
    with (if scoped then cl_TenantID claims else None) by (by destruct scoped).
  by destruct (Authorize _ _ _ _) as [[]|].
Qed.

(** A check of ownership replies early or lets the request through. *)
Lemma inner_run c r s rep s' :
  inner c r s = (rep, s') -> (ar_cookie rep = None /\ s' = s) \/ handle c r s = (rep, s').
Proof.
  unfold inner. destruct (owner_check c) as [|mw l] eqn:E; [by right|]. destruct c; try done. injection E as <- <-.
  cbn [Chain foldr]. unfold RequireResourceOwnerOrAdmin, ParseID, reply, mret, hM_ret. destruct (ClaimsFromContext r); [|intros [= <- <-]; by left].
  repeat case_match; intros; simplify_eq; eauto.
Qed.
Lemma inner_plain c : reads c = false -> inner c = handle c.
Proof. destruct c as [| | | | | | | | | | | | | | | | | | | | | | | | | | | | | | | |c| |]; try done. by destruct c. Qed.

(** What stands behind the claims of a request: a token signed with the key of
    the controller that has not expired, or a stored, unexpired API key. *)
Definition vouched (d : DB) (r : HttpReq) (claims : Claims) : Prop :=
  exists tok, request_token r = inr tok /\
    ((HasPrefix tok "ef_" = false /\ Verify hmac_sha256 (as_tokens srv) (re_now e 0) tok = Ok claims) \/
     (exists k key, api_keys d !! k = Some key /\ claims = key_claims key /\
        apikey_KeyPrefix key = str_take 8 (TrimPrefix tok "ef_") /\
        bcrypt_Compare (apikey_KeyHash key) (TrimPrefix tok "ef_") = true /\
        forall t, apikey_ExpiresAt key = Some t -> re_now e 0 <= t)).

Lemma AuthenticateAPIKey_Ok now now' key s k s' :
  AuthenticateAPIKey now now' key s = (Ok k, s') ->
  exists id, api_keys (sq_db s) !! id = Some k /\ apikey_KeyPrefix k = str_take 8 (TrimPrefix key "ef_") /\
    bcrypt_Compare (apikey_KeyHash k) (TrimPrefix key "ef_") = true /\
    forall t, apikey_ExpiresAt k = Some t -> now <= t.
Proof.
  unfold AuthenticateAPIKey. cbv zeta. destruct (_ <? _)%nat; [done|]. intros Hrun.
  apply bind_Ok in Hrun as (k0 & s1 & Hm & Hrun). apply or_error_run in Hm as [(a & [= <-] & Hm)|([=] & _)].
  apply sql_query_ok in Hm as [Hd Hm].
  apply (first_row_Ok (fun k => apikey_KeyPrefix k = str_take 8 (TrimPrefix key "ef_"))) in Hm as (Hpre & id & Hid).
  apply bind_Ok in Hrun as (x1 & s2 & [Hexp ->]%lift_Ok & Hrun).
  apply bind_Ok in Hrun as (x2 & s3 & [Hcmp ->]%lift_Ok & Hrun). apply guard_Ok in Hexp, Hcmp.
  apply bind_Ok in Hrun as (y & s4 & _ & Hrun). injection Hrun as <- _. exists id. split_and!; try done.
  intros t Ht. rewrite Ht in Hexp. apply negb_true_iff, Z.ltb_ge in Hexp. done.
Qed.

Lemma authenticate_vouched r s claims s1 :
  auth r s = (inr claims, s1) -> vouched (sq_db s) r claims /\ (cl_MFAPending claims = true -> s1 = s).
Proof.
  unfold authenticate. destruct (request_token r) as [rep|tok] eqn:Htok; [done|].
  destruct (bool_decide _); [done|]. destruct (HasPrefix tok "ef_") eqn:Hp.
  - unfold mbind, hM_bind, svc. destruct (AuthenticateAPIKey _ _ _ s) as [[k|err] s2] eqn:E; [|done].
    intros [= <- <-]. apply AuthenticateAPIKey_Ok in E as (id & ? & ? & ? & ?). split; [|done].
    exists tok. split; [done|]. right. eauto 7.
  - destruct (Verify _ _ _ _) as [c|err] eqn:E; [|done]. intros [= <- <-]. split; [|done].
    exists tok. eauto.
Qed.

(** ** Writing needs permission *)

Lemma write_path c : reads c = false -> mfa_path (URL_Path c) = false.
Proof.
  intros Hc. apply bool_decide_eq_false. rewrite !elem_of_cons, elem_of_nil.
  destruct c as [| | | | | | | | | | | | | | | | | | | | | | | | | | | | | |c|c|c|c|]; try discriminate Hc;
    try (destruct c; try discriminate Hc); cbn; intros [[=]|[[=]|[[=]|[]]]].
Qed.

Lemma reads_protected c : reads c = false -> protected c = true \/ exists b, c = CEnroll b.
Proof. destruct c; eauto. Qed.

Lemma Authorize_writes claims a res t :
  writes a = true -> Authorize claims a res t = Ok tt ->
  cl_Role claims = RoleSuperUser \/ (cl_Role claims <> RoleReadOnly /\ is_Some (cl_TenantID claims)).
Proof.
  intros Ha. unfold Authorize. case_bool_decide; [by left|]. rewrite Ha, andb_true_r.
  case_bool_decide; [done|]. destruct (cl_TenantID claims); [|done]. intros _. right. eauto.
Qed.

(** Whoever changes more than a quiet request may: a caller with vouched claims,
    past the second factor, with the permission of the endpoint, and with a role
    that writes. *)
Definition authorised (d : DB) (c : call) (i : Incoming) : Prop :=
  exists claims, vouched d (request c i) claims /\ cl_MFAPending claims = false /\ permitted claims c = true /\
    reads c = false /\ (cl_Role claims = RoleSuperUser \/ (cl_Role claims <> RoleReadOnly /\ is_Some (cl_TenantID claims))).

(** An enrollment with a stored token that is neither used nor expired. *)
Definition enrolls (d : DB) (c : call) : Prop :=
  exists tok id t, c = CEnroll (Some tok) /\ enrollment_tokens d !! id = Some t /\ etok_Token t = tok /\
    etok_UsedAt t = None /\ o_clock (as_outside srv) (re_tick e) <= etok_ExpiresAt t.

Lemma Enroll_needs_token b r s rep s' :
  Enroll hmac_sha256 srv e b r s = (rep, s') -> quiet (sq_db s) (sq_db s') \/ enrolls (sq_db s) (CEnroll b).
Proof.
  unfold Enroll, HandlerFunc. destruct b as [tok|]; [|intros [= _ <-]; by left].
  unfold mbind at 1, hM_bind at 1. cbn [Decode mret hM_ret]. unfold mbind at 1, hM_bind at 1, required.
  destruct (bool_decide (tok = "")); [intros [= _ <-]; by left|]. cbn [mret hM_ret].
  unfold mbind at 1, hM_bind at 1. unfold in_request, CompleteEnrollment, mbind at 1, stM_bind at 1.
  destruct (ValidateEnrollmentToken _ _ _) as [[t|err] p1] eqn:Ev.
  - intros _. right. apply ValidateEnrollmentToken_row in Ev as ([id Hid] & Ht & Hu & _ & Hx). by exists tok, id, t.
  - assert (Hdb : sq_db (pe_sql p1) = sq_db s).
    { exact (ValidateEnrollmentToken_db _ _ _ _ _ Ev). }
    destruct (log e r None None "enrollment_failed" "node" (Some [("error", error_text err)]) (pe_sql p1)) as [x s2] eqn:El.
    pose proof (quiet_log _ _ _ _ _ _ _ _ _ _ El) as Hq. rewrite Hdb in Hq.
    unfold mbind, hM_bind. rewrite El. destruct x; intros [= _ <-]; by left.
Qed.

Lemma serve_quiet_or_authorised c i s rep s' :
  accounts_ok (sq_db s) -> serve c i s = (rep, s') ->
  accounts_ok (sq_db s') /\ (quiet (sq_db s) (sq_db s') \/ authorised (sq_db s) c i \/ enrolls (sq_db s) c).
Proof.
  intros Hok Hrun. destruct (reads c) eqn:Hreads.
  - assert (Hq : quiet (sq_db s) (sq_db s')).
    { destruct (protected c) eqn:Hp.
      - rewrite serve_protected in Hrun by done. destruct (auth _ s) as [x s1] eqn:Ha.
        pose proof (quiet_authenticate hmac_sha256 srv e _ _ _ _ Ha) as Hqa. destruct x as [r1|claims]; [by simplify_eq|].
        destruct (_ && _); [by simplify_eq|]. destruct (permitted claims c); [|by simplify_eq].
        etrans; [exact Hqa|]. apply inner_run in Hrun as [(_ & ->)|Hrun]; [reflexivity|].
        eapply handler_quietly; [done|exact Hrun|by eapply quiet_accounts].
      - assert (Hh : serve c i s = handle c (request c i) s) by (by destruct c). rewrite Hh in Hrun.
        exact (handler_quietly hmac_sha256 ParseAddress srv e c Hreads _ _ _ _ Hrun Hok). }
    split; [by eapply quiet_accounts|by left].
  - destruct (reads_protected c Hreads) as [Hprot|[b ->]].
    2:{ split; [exact (handler_accounts hmac_sha256 ParseAddress srv e (CEnroll b) eq_refl _ _ _ _ Hrun Hok)|].
        destruct (Enroll_needs_token _ _ _ _ _ Hrun); auto. }
    rewrite serve_protected in Hrun by done. destruct (auth _ s) as [x s1] eqn:Ha.
    pose proof (quiet_authenticate hmac_sha256 srv e _ _ _ _ Ha) as Hqa.
    assert (Hok1 : accounts_ok (sq_db s1)) by by eapply quiet_accounts.
    destruct x as [r1|claims]; [by simplify_eq; auto|]. rewrite write_path in Hrun by done.
    destruct (cl_MFAPending claims) eqn:Hmfa; cbn in Hrun; [by simplify_eq; auto|].
    destruct (permitted claims c) eqn:Hperm; [|by simplify_eq; auto].
    assert (Hrun' : handle c (with_claims claims (request c i)) s1 = (rep, s')) by by rewrite inner_plain in Hrun.
    split; [by eapply handler_accounts|]. right; left. exists claims. apply authenticate_vouched in Ha as [Hv _].
    split_and!; try done. unfold permitted in Hperm. unfold reads in Hreads.
    destruct (permission c) as [[[a res] sc]|] eqn:Hpm; [|by destruct c]. assert (Hw : writes a = true) by (apply negb_false_iff; by destruct c).
    destruct (Authorize _ _ _ _) as [[]|] eqn:HA; [|done]. by eapply Authorize_writes.
Qed.

(** ** Session cookies *)

(** Replies that set no cookie: early ones of a handler body, and all of them. *)
Definition plain {A} (m : hM A) : Prop := forall s rep s', m s = (inl rep, s') -> ar_cookie rep = None.
Definition nocookie (m : hM ApiReply) : Prop :=
  forall s x s', m s = (x, s') -> ar_cookie (match x with inl r => r | inr r => r end) = None.

Lemma plain_ret {A} (a : A) : plain (mret a).
Proof. by intros s rep s' [=]. Qed.
Lemma plain_reply {A} rep : ar_cookie rep = None -> plain (reply (A:=A) rep).
Proof. by intros Hr s rep' s' [= <- _]. Qed.
Lemma plain_bind {A B} (m : hM A) (f : A -> hM B) : plain m -> (forall a, plain (f a)) -> plain (m ≫= f).
Proof.
  intros Hm Hf s rep s'. unfold mbind, hM_bind. destruct (m s) as [[r|a] s1] eqn:E.
  - intros [= <- _]. by eapply Hm.
  - apply Hf.
Qed.
Lemma plain_svc {A} (m : stM SqlState A) onerr : (forall x, ar_cookie (onerr x) = None) -> plain (svc m onerr).
Proof. intros Ho s rep s'. unfold svc. destruct (m s) as [[?|?] ?]; intros [= <- _]. apply Ho. Qed.
Lemma plain_dropped {A} (m : stM SqlState A) : plain (dropped m).
Proof. by intros s rep s' [=]. Qed.
Lemma plain_Decode {A} (b : option A) : plain (Decode b).
Proof. destruct b; [apply plain_ret|by apply plain_reply]. Qed.
Lemma plain_ParseID r name : plain (ParseID r name).
Proof. unfold ParseID. destruct (bool_decide _); [by apply plain_reply|]. destruct (uuid_Parse _); [apply plain_ret|by apply plain_reply]. Qed.
Lemma plain_claims r : plain (need_claims r) /\ plain (ctx_claims r) /\ plain (tenant_scoped r).
Proof.
  unfold need_claims, ctx_claims, tenant_scoped. destruct (ClaimsFromContext r) as [cl|]; split_and!;
    try destruct (cl_TenantID cl); try apply plain_ret; by apply plain_reply.
Qed.
Lemma nocookie_bind {A} (m : hM A) (f : A -> hM ApiReply) : plain m -> (forall a, nocookie (f a)) -> nocookie (m ≫= f).
Proof.
  intros Hm Hf s x s'. unfold mbind, hM_bind. destruct (m s) as [[r|a] s1] eqn:E.
  - intros [= <- _]. by eapply Hm.
  - apply Hf.
Qed.
Lemma nocookie_plain (m : hM ApiReply) : (forall s rep s', m s <> (inr rep, s')) -> plain m -> nocookie m.
Proof. intros Hn Hm s [r|r] s' Hrun; [by eapply Hm|by destruct (Hn s r s')]. Qed.
Lemma nocookie_ret rep : ar_cookie rep = None -> nocookie (mret rep).
Proof. by intros Hr s x s' [= <- _]. Qed.
Lemma nocookie_reply rep : ar_cookie rep = None -> nocookie (reply rep).
Proof. by intros Hr s x s' [= <- _]. Qed.

Lemma key_role_plain role own rep : key_role_check role own = Some rep -> ar_cookie rep = None.
Proof. unfold key_role_check. repeat case_bool_decide; by intros [= <-]. Qed.

Ltac no_cookies :=
  repeat lazymatch goal with
  | |- forall _, nocookie _ => intros ?
  | |- forall _, plain _ => intros ?
  | |- nocookie (_ ≫= _) => apply nocookie_bind
  | |- nocookie (mret _) => by apply nocookie_ret
  | |- nocookie (reply _) => apply nocookie_reply; first [done|by eapply key_role_plain]
  | |- nocookie (match ?x with _ => _ end) => destruct x eqn:?
  | |- plain (svc _ _) => apply plain_svc; intros ?; unfold or404, or409, or_conflict; by repeat case_match
  | |- plain (Decode _) => apply plain_Decode
  | |- plain (ParseID _ _) => apply plain_ParseID
  | |- plain (need_claims _) => apply plain_claims
  | |- plain (ctx_claims _) => apply plain_claims
  | |- plain (tenant_scoped _) => apply plain_claims
  | |- plain (log _ _ _ _ _ _ _) => apply plain_dropped
  | |- plain (issue _ _ _ _) => apply plain_ret
  | |- plain (_ ≫= _) => apply plain_bind
  | |- plain (mret _) => apply plain_ret
  | |- plain (reply _) => by apply plain_reply
  | |- plain (dropped _) => apply plain_dropped
  | |- plain (match ?x with _ => _ end) => destruct x eqn:?
  | |- plain ?m => let h := head_of m in unfold h; cbv zeta
  end.

Definition sets_session (c : call) : bool := match c with CLogin _ | CVerifyTOTP _ | CLogout => true | _ => false end.

Lemma plain_match_err {A B} (m : stM SqlState A) (ok : A -> hM B) (bad : goerr -> hM B) :
  (forall a, plain (ok a)) -> (forall err, plain (bad err)) ->
  plain (fun s => match m s with (Ok a, s) => ok a s | (Err err, s) => bad err s end).
Proof. intros Hok Hbad s rep s'. destruct (m s) as [[a|err] s1]; [apply Hok|apply Hbad]. Qed.

Lemma Enroll_nocookie b : exists f, Enroll hmac_sha256 srv e b = HandlerFunc f /\ forall r, nocookie (f r).
Proof.
  eexists. split; [reflexivity|]. intros r. apply nocookie_bind; [apply plain_Decode|]. intros tok.
  apply nocookie_bind; [no_cookies|]. intros _. apply nocookie_bind; [|intros res; no_cookies].
  apply (plain_match_err _ _ (fun err => log e r None None "enrollment_failed" "node" _ ≫= fun _ => reply (enroll_error err))).
  - intros res. apply plain_ret.
  - intros err. apply plain_bind; [apply plain_dropped|]. intros _. apply plain_reply.
    unfold enroll_error, or404, or_conflict. by repeat case_match.
Qed.

Lemma other_handlers_nocookie c r s rep s' :
  sets_session c = false -> handle c r s = (rep, s') -> ar_cookie rep = None.
Proof.
  intros Hc. assert (Hf : exists f, handle c = HandlerFunc f /\ forall r, nocookie (f r)).
  { destruct c as [| | | | | | | | | | | | | | | | | | | | | | | | | | | | | |c|c|c|c|b]; try discriminate Hc; try destruct c;
      try apply Enroll_nocookie;
      cbn [handler fleet_handler net_handler config_handler provision_handler];
      (eexists; split; [reflexivity|]); intros r0; unfold log_dns; cbv zeta beta; no_cookies. }
  destruct Hf as (f & -> & Hf). unfold HandlerFunc. destruct (f r s) as [[x|x] s1] eqn:E; intros [= <- _];
    specialize (Hf _ _ _ _ E); done.
Qed.

(** The account [u] signs in with this password alone. *)
Definition password_session (d : DB) (email pw tok : string) : Prop :=
  exists k u, users d !! k = Some u /\ user_Email u = email /\ user_Status u = UserStatusActive /\
    bcrypt_Compare (user_PasswordHash u) pw = true /\ user_TOTPEnabled u = false /\
    Issue hmac_sha256 (as_tokens srv) (re_now e 4) (claims_of u false) = Ok tok.

(** The caller has presented a valid code of its second factor. *)
Definition totp_session (d : DB) (claims : Claims) (code tok : string) : Prop :=
  exists u secret, users d !! cl_UserID claims = Some u /\ user_TOTPEnabled u = true /\
    Decrypt (as_secrets srv) (user_TOTPSecret u) = Ok secret /\ totp_Validate (re_now e 2) code secret = true /\
    Issue hmac_sha256 (as_tokens srv) (re_now e 4)
      (mkClaims (cl_UserID claims) (cl_TenantID claims) (cl_Role claims) None false) = Ok tok.

Lemma Login_session b r s rep s' ck :
  Login hmac_sha256 srv e b r s = (rep, s') -> ar_cookie rep = Some ck ->
  exists email pw, b = Some (email, pw) /\ password_session (sq_db s) email pw (ck_Value ck).
Proof.
  unfold Login, HandlerFunc. destruct b as [[email pw]|]; [|by intros [= <- _]].
  unfold mbind at 1, hM_bind at 1. cbn [Decode mret hM_ret]. unfold mbind at 1, hM_bind at 1. cbn [fst snd].
  destruct (AuthenticatePassword _ _ email pw s) as [[u|err] s1] eqn:E.
  2:{ unfold mbind, hM_bind, log, dropped, reply. by intros [= <- _]. }
  apply AuthenticatePassword_run in E as [_ Hu].
  destruct (Hu u eq_refl) as (k & u0 & Hk & Hmail & Hst & Hpw & Hid & Hten & Hrole & Htotp).
  destruct (user_TOTPEnabled u) eqn:Ht; [by intros [= <- _]|].
  intros [= <- _] [= <-]. exists email, pw. split; [done|]. exists k, u0. split_and!; try done.
  unfold claims_of. by rewrite Hid, Hten, Hrole.
Qed.

Lemma VerifyTOTP_session b claims r s rep s' ck :
  VerifyTOTP hmac_sha256 srv e b (with_claims claims r) s = (rep, s') -> ar_cookie rep = Some ck ->
  exists code, b = Some code /\ totp_session (sq_db s) claims code (ck_Value ck).
Proof.
  unfold VerifyTOTP, HandlerFunc. unfold mbind at 1, hM_bind at 1. cbn [need_claims ClaimsFromContext with_claims hq_claims mret hM_ret].
  destruct b as [code|]; [|by intros [= <- _]].
  unfold mbind at 1, hM_bind at 1. cbn [Decode mret hM_ret]. unfold mbind at 1, hM_bind at 1.
  destruct (AuthenticateTOTP _ _ _ code s) as [[u|err] s1] eqn:E.
  2:{ unfold mbind, hM_bind, log, dropped, reply. by intros [= <- _]. }
  apply AuthenticateTOTP_run in E as [_ Hu]. destruct (Hu u eq_refl) as (u0 & secret & Hk & Hen & Hdec & Hval).
  intros [= <- _] [= <-]. exists code. split; [done|]. exists u0, secret. done.
Qed.

Lemma authenticate_early r s rep s1 : auth r s = (inl rep, s1) -> ar_cookie rep = None.
Proof.
  unfold authenticate. destruct (request_token r) as [r0|tok] eqn:Ht.
  - intros [= <- _]. revert Ht. unfold request_token. repeat case_match; by intros [= <-].
  - destruct (bool_decide _); [by intros [= <- _]|]. destruct (HasPrefix _ _).
    + unfold mbind, hM_bind, svc. destruct (AuthenticateAPIKey _ _ _ s) as [[?|?] ?]; by intros [= <- _].
    + destruct (Verify _ _ _ _); by intros [= <- _].
Qed.
End dispatch.

(** C5: a session cookie is only ever set by a sign-in of an active account with
    its password when the account has no second factor, or, for a caller whose
    claims are vouched for, by a valid code of the account's second factor; the
    token a password alone yields for an account with a second factor opens
    nothing but the endpoints that verify and confirm a code and the user's own
    profile ([/api/v1/auth/me]), and every other request with it is refused and
    changes nothing. *)
Theorem session_needs_all_factors `{UUID} `{AuthLib} `{AEAD} (hmac_sha256 : string -> string -> string)
    (ParseAddress : string -> bool) (srv : ApiServer) (e : ReqEnv) (c : call) (i : Incoming) (s s' : SqlState) (rep : ApiReply) :
  ServeHTTP hmac_sha256 ParseAddress srv e c i s = (rep, s') ->
  (forall ck, ar_cookie rep = Some ck -> ck_Value ck <> "" ->
     (exists email pw, c = CLogin (Some (email, pw)) /\
        password_session hmac_sha256 srv e (sq_db s) email pw (ck_Value ck)) \/
     (exists code claims d, c = CVerifyTOTP (Some code) /\ vouched hmac_sha256 srv e (sq_db s) (request c i) claims /\
        quiet (sq_db s) d /\ totp_session hmac_sha256 srv e d claims code (ck_Value ck))) /\
  (forall claims s1, protected c = true ->
     authenticate hmac_sha256 (as_tokens srv) e (request c i) s = (inr claims, s1) -> cl_MFAPending claims = true ->
     URL_Path c ∉ ["/api/v1/auth/totp/verify"; "/api/v1/auth/totp/confirm"; "/api/v1/auth/me"] ->
     rep = mfa_required /\ s' = s).
Proof.
  intros Hrun. split.
  - intros ck Hck Hv. destruct (protected c) eqn:Hp.
    + rewrite serve_protected in Hrun by done. destruct (authenticate _ _ _ _ s) as [[r1|claims] s1] eqn:Ha.
      { apply authenticate_early in Ha. by simplify_eq. }
      destruct (_ && _); [by simplify_eq|]. destruct (permitted claims c); [|by simplify_eq].
      apply inner_run in Hrun as [[? _]|Hrun]; [congruence|]. destruct (sets_session c) eqn:Hs.
      2:{ apply other_handlers_nocookie in Hrun; [congruence|done]. }
      destruct c as [| | |body| | | | | | | | | | | | | | | | | | | | | | | | | | | | | | |]; try done.
      cbn [handler] in Hrun. destruct (VerifyTOTP_session _ _ _ _ _ _ _ _ _ _ Hrun Hck) as (code & -> & Ht).
      right. exists code, claims, (sq_db s1). split_and!; try done.
      * by apply authenticate_vouched in Ha as [? _].
      * exact (quiet_authenticate hmac_sha256 srv e _ _ _ _ Ha).
    + destruct c as [body| | | | | | | | | | | | | | | | | | | | | | | | | | | | | | | | | |body]; try done.
      * left. destruct (Login_session _ _ _ _ _ _ _ _ _ Hrun Hck) as (email & pw & -> & Ht). eauto.
      * injection Hrun as <- _. injection Hck as <-. done.
      * apply (other_handlers_nocookie hmac_sha256 ParseAddress srv e (CEnroll body)) in Hrun; [congruence|done].
  - intros claims s1 Hp Ha Hmfa Hpath. rewrite serve_protected, Ha, Hmfa in Hrun by done.
    unfold mfa_path in Hrun. rewrite bool_decide_false in Hrun by done. cbn in Hrun.
    apply authenticate_vouched in Ha as [_ Hs]. by rewrite Hs in Hrun; [injection Hrun as <- <-|].
Qed.

(** C3: a request leaves the database as it is, up to audit events, sign-in
    times, last uses of API keys, second-factor enrolments and the times of
    configuration fetches, unless its caller has vouched claims, is past the second
    factor, holds the permission of the endpoint, and is a superuser or a member of
    a tenant with a role other than read-only, or unless it enrolls a node with a
    stored token that is neither used nor expired; and whatever it does, users stay
    stored under their ID with pairwise different email addresses. *)
Theorem writes_need_authority `{UUID} `{AuthLib} `{AEAD} (hmac_sha256 : string -> string -> string)
    (ParseAddress : string -> bool) (srv : ApiServer) (e : ReqEnv) (c : call) (i : Incoming) (s s' : SqlState) (rep : ApiReply) :
  accounts_ok (sq_db s) -> ServeHTTP hmac_sha256 ParseAddress srv e c i s = (rep, s') ->
  accounts_ok (sq_db s') /\
  (settled (sq_db s') = settled (sq_db s) \/ authorised hmac_sha256 srv e (sq_db s) c i \/ enrolls srv e (sq_db s) c).
Proof. apply serve_quiet_or_authorised. Qed.

Lemma session_needs_all_factors_witness :
  let r := ServeHTTP plain_hmac (fun _ => true) sample_server sample_req CUserList (incoming bob_pending) api_state in
  r.1 = mfa_required /\ r.2 = api_state.
Proof.
  cbv zeta. destruct (ServeHTTP _ _ _ _ _ _ _) as [rep s'] eqn:E.
  destruct (session_needs_all_factors _ _ _ _ _ _ _ _ _ E) as [_ Hmfa].
  apply (Hmfa bob_pending api_state); [reflexivity|vm_compute; reflexivity|reflexivity|].
  rewrite !not_elem_of_cons. split_and!; [discriminate..|apply not_elem_of_nil].
Defined.

Lemma api_accounts : accounts_ok api_db.
Proof.
  split.
  - repeat (apply map_Forall_insert_2; [done|]). apply map_Forall_empty.
  - intros k k' u u' Hu Hu'. unfold api_db in Hu, Hu'. cbn in Hu, Hu'.
    rewrite !lookup_insert_Some, lookup_singleton_Some in Hu, Hu'. naive_solver.
Qed.

Lemma writes_need_authority_witness :
  let r := ServeHTTP plain_hmac (fun _ => true) sample_server sample_req (CUserDelete (uuid_String 12)) anonymous api_state in
  accounts_ok (sq_db r.2) /\
  (settled (sq_db r.2) = settled api_db \/
   authorised plain_hmac sample_server sample_req api_db (CUserDelete (uuid_String 12)) anonymous \/
   enrolls sample_server sample_req api_db (CUserDelete (uuid_String 12))).
Proof.
  cbv zeta. destruct (ServeHTTP _ _ _ _ _ _ _) as [rep s'] eqn:E.
  exact (writes_need_authority _ _ _ _ _ _ api_state _ _ api_accounts E).
Defined.
