(* ===== verification/ApiIsolation.v ===== *)
(** * Tenant isolation of the API

    The permission check of an endpoint compares the tenant of the caller with
    the tenant of the caller.  What follows from that for DNS zones and for user
    accounts, over every database, and a small deployment for the witnesses. *)

From Stdlib Require Import ZArith Lia Ascii String.
From S2P Require Import Prelude GoStrings GoBase64 Secrets Domain Storage StoreDns StoreFleet DnsService GoHttp Provisioner StoreAccess Token Auth Api.
From S2P Require Import ApiCore ApiHandlers ApiFleet ApiNet ApiProvision ApiRoutes ApiFrame ApiTheorems.

Open Scope Z_scope.

Lemma calm_update_unique {V A} msg dup (table : DB -> gmap ID V) id clash fks put (v : A) s :
  calm s -> is_Some (table (sq_db s) !! id) -> other_row (table (sq_db s)) id clash = false ->
  (sq_fk s = true -> fks (sq_db s) = true) ->
  sql_update_unique msg dup table id clash fks put v s = (Ok v, mkSql (put (sq_db s)) (sq_fk s) []).
Proof.
  intros Hs Hex Ho Hfk. destruct s as [d fk fl]. unfold calm in Hs. cbn in *. subst. unfold sql_update_unique, sql_exec. cbn.
  unfold has_key. rewrite bool_decide_true, Ho by done. cbn. destruct fk; [by rewrite Hfk|done].
Qed.

(** An audit event leaves the other tables and the calm alone. *)
Lemma log_calm `{UUID} e r t u a res d s :
  calm s -> exists s', log e r t u a res d s = (inr tt, s') /\ calm s' /\ sq_fk s' = sq_fk s /\
    upd_audit_events (fun _ => ∅) (sq_db s') = upd_audit_events (fun _ => ∅) (sq_db s).
Proof.
  intros Hs. destruct s as [db fk fl]. unfold calm in Hs. cbn in Hs. subst. unfold log, dropped, audit_Log, sqlite_CreateAuditEvent, sql_exec. cbn.
  destruct (has_key _ _); eexists; split_and!; done.
Qed.

Section isolation.
Context `{UUIDLaws} `{AuthLib} `{AEAD} (hmac_sha256 : string -> string -> string) (ParseAddress : string -> bool).
Context (srv : ApiServer).
Notation serve := (ServeHTTP hmac_sha256 ParseAddress srv).

(** A request whose bearer token is a session token for [claims]. *)
Definition bears (e : ReqEnv) (i : Incoming) (claims : Claims) : Prop :=
  exists tok, in_Authorization i = "Bearer " +:+ tok /\ tok <> "" /\ HasPrefix tok "ef_" = false /\
    Verify hmac_sha256 (as_tokens srv) (re_now e 0) tok = Ok claims.

Lemma TrimPrefix_bearer tok : TrimPrefix ("Bearer " +:+ tok) "Bearer " = tok.
Proof. by destruct tok. Qed.

Lemma bears_authenticates e i claims c s :
  bears e i claims -> authenticate hmac_sha256 (as_tokens srv) e (request c i) s = (inr claims, s).
Proof.
  intros (tok & Hi & Hne & Hp & Hv). unfold authenticate, request_token. cbn [request hq_Authorization]. rewrite Hi.
  rewrite bool_decide_false by done. change (HasPrefix ("Bearer " +:+ tok) "Bearer ") with true.
  rewrite TrimPrefix_bearer, bool_decide_false, Hp, Hv by done. done.
Qed.

(** An administrator of a tenant holds every permission that is passed the
    tenant of the caller and is not on tenants or SSH keys. *)
Definition tenant_admin (claims : Claims) : Prop :=
  cl_Role claims = RoleAdmin /\ is_Some (cl_TenantID claims) /\ cl_MFAPending claims = false.

Lemma admin_permitted claims c a res :
  tenant_admin claims -> permission c = Some (a, res, true) -> res ∉ [ResourceTenant; ResourceSSHKey] ->
  permitted claims c = true.
Proof.
  intros (Hr & [t Ht] & _) Hp Hres. unfold permitted, Authorize. rewrite Hp, Hr, Ht.
  rewrite (bool_decide_false (RoleAdmin = RoleSuperUser)), (bool_decide_false (RoleAdmin = RoleReadOnly)) by done.
  cbn [andb]. by rewrite (bool_decide_true (t = t)), (bool_decide_false (res ∈ _)).
Qed.

Lemma serve_admin e c i s claims a res :
  bears e i claims -> tenant_admin claims -> protected c = true -> permission c = Some (a, res, true) ->
  res ∉ [ResourceTenant; ResourceSSHKey] -> owner_check c = [] ->
  serve e c i s = handler hmac_sha256 ParseAddress srv e c (with_claims claims (request c i)) s.
Proof.
  intros Hb Ha Hprot Hp Hres Hown. rewrite serve_protected, (bears_authenticates _ _ claims) by done. unfold inner. rewrite Hown.
  destruct Ha as (Hr & Ht & Hm). rewrite Hm. cbn.
  by rewrite (admin_permitted claims c a res (conj Hr (conj Ht Hm)) Hp Hres).
Qed.

Lemma ParseID_String r name id s : hq_PathValue r name = uuid_String id -> ParseID r name s = (inr id, s).
Proof.
  intros Hr. unfold ParseID. rewrite Hr, bool_decide_false by apply uuid_nonempty. by rewrite uuid_roundtrip.
Qed.

Lemma admin_reads_zone e i s claims zid z :
  bears e i claims -> tenant_admin claims -> calm s -> dns_zones (sq_db s) !! zid = Some z -> zone_Serial z < 2 ^ 32 ->
  serve e (CZoneGet (uuid_String zid)) i s = (JSON 200 (BZone z), s).
Proof.
  intros Hb Ha Hs Hz Hser. rewrite (serve_admin _ _ _ _ claims ActionRead ResourceDNSZone) by (done || set_solver).
  cbn [handler]. unfold zoneH_Get, HandlerFunc, mbind, hM_bind. rewrite (ParseID_String _ _ zid) by done.
  unfold svc. cbn [GetDNSZone sqlite_dns]. unfold sqlite_GetDNSZone. rewrite calm_query by done. rewrite Hz.
  unfold scan_zone. by rewrite (proj2 (Z.ltb_lt _ _)).
Qed.

Lemma admin_deletes_zone e i s claims zid z :
  bears e i claims -> tenant_admin claims -> calm s -> dns_zones (sq_db s) !! zid = Some z ->
  exists s', serve e (CZoneDelete (uuid_String zid)) i s = (NoContent, s') /\
    dns_zones (sq_db s') = delete zid (dns_zones (sq_db s)).
Proof.
  intros Hb Ha Hs Hz. rewrite (serve_admin _ _ _ _ claims ActionDelete ResourceDNSZone) by (done || set_solver).
  cbn [handler]. unfold zoneH_Delete, HandlerFunc, mbind, hM_bind. rewrite (ParseID_String _ _ zid) by done.
  unfold svc, DeleteZone. cbn [DeleteDNSZone sqlite_dns]. unfold sqlite_DeleteDNSZone.
  rewrite calm_update; [|done| |done].
  2:{ unfold has_key. by rewrite Hz, bool_decide_true. }
  cbn [ctx_claims ClaimsFromContext with_claims hq_claims mret hM_ret]. unfold log_dns.
  set (s1 := mkSql _ _ _). destruct (log_calm e (with_claims claims (request (CZoneDelete (uuid_String zid)) i))
    (cl_TenantID claims) (Some (cl_UserID claims)) "delete" "dns_zone" (Some [("zone_id", uuid_String zid)]) s1 eq_refl)
    as (s2 & -> & _ & _ & Hd).
  exists s2. split; [done|]. apply (f_equal dns_zones) in Hd. cbn in Hd. rewrite Hd. by destruct (sq_fk s).
Qed.

(** ** Accounts *)

Lemma accounts_keyed d k u : accounts_ok d -> users d !! k = Some u -> user_ID u = k.
Proof. intros [Hk _] Hu. exact (Hk _ _ Hu). Qed.

Lemma find_by_email d k u :
  accounts_ok d -> users d !! k = Some u ->
  first_row (filter (fun v => user_Email v = user_Email u) (rows_of (users d))) = Ok u.
Proof.
  intros [_ Hmail] Hu. destruct (first_row _) as [v|err] eqn:E.
  - apply (first_row_Ok (fun v => user_Email v = user_Email u)) in E as [Hv [k' Hk']].
    rewrite (Hmail _ _ _ _ Hk' Hu Hv) in Hk'. congruence.
  - exfalso. unfold first_row in E. destruct (filter _ _) as [|x l] eqn:F; [|done].
    assert (Hin : u ∈ filter (fun v => user_Email v = user_Email u) (rows_of (users d))).
    { apply list_elem_of_filter. split; [done|]. apply elem_of_rows. eauto. }
    rewrite F in Hin. by apply elem_of_nil in Hin.
Qed.

Lemma no_other_email d u u' :
  accounts_ok d -> users d !! user_ID u = Some u' -> user_Email u = user_Email u' ->
  other_row (users d) (user_ID u) (same_email u) = false.
Proof.
  intros [_ Hmail] Hu He. unfold other_row. apply not_true_is_false. intros Hex.
  apply existsb_exists in Hex as ([k v] & Hin & Hb). apply list_elem_of_In, elem_of_map_to_list in Hin. cbn in Hb.
  apply andb_true_iff in Hb as [Hk%negb_true_iff%bool_decide_eq_false Hv%bool_decide_eq_true].
  apply Hk, (Hmail _ _ _ _ Hin Hu). congruence.
Qed.

Definition with_hash (h : string) (now : Time) (u : User) : User :=
  mkUser (user_ID u) (user_TenantID u) (user_Email u) (user_Name u) h (user_TOTPSecret u) (user_TOTPEnabled u)
    (user_Role u) (user_Status u) (user_LastLoginAt u) (user_CreatedAt u) now.

Lemma admin_resets_password e i s claims uid u pw h :
  bears e i claims -> tenant_admin claims -> calm s -> accounts_ok (sq_db s) ->
  users (sq_db s) !! uid = Some u -> user_TenantID u = None ->
  (8 <= String.length pw)%nat -> bcrypt_GenerateFromPassword (re_draw e) pw = Some h ->
  exists rep s', serve e (CUserUpdate (uuid_String uid) (Some (mkUpdateUser None (Some pw) None None))) i s = (rep, s') /\
    ar_status rep = 200 /\ calm s' /\ sq_fk s' = sq_fk s /\
    users (sq_db s') = <[uid := with_hash h (re_now e 2) u]> (users (sq_db s)).
Proof.
  intros Hb Ha Hs Hok Hu Ht Hlen Hh. rewrite (serve_admin _ _ _ _ claims ActionUpdate ResourceUser) by (done || set_solver).
  pose proof (accounts_keyed _ _ _ Hok Hu) as Hid.
  cbn [handler]. unfold userH_Update, HandlerFunc, mbind, hM_bind. rewrite (ParseID_String _ _ uid) by done.
  cbn [Decode mret hM_ret]. unfold svc, user_Update, mbind, stM_bind. unfold sqlite_GetUser. rewrite calm_query by done.
  unfold get_row. rewrite Hu. cbn [new_name new_hash uu_Name uu_Password uu_Role uu_Status set_if default lift].
  rewrite (proj2 (Nat.ltb_ge _ _)) by done. unfold HashPassword. rewrite Hh. cbn [wrap_err].
  unfold sqlite_UpdateUser. rewrite calm_update_unique; [|done|..].
  2:{ cbn. rewrite Hid, Hu. eauto. }
  2:{ apply (no_other_email _ _ u Hok); cbn; [by rewrite Hid|done]. }
  2:{ intros _. cbn. by rewrite Ht. }
  cbn [ctx_claims ClaimsFromContext with_claims hq_claims mret hM_ret].
  edestruct (log_calm e) as (s2 & Hlog & Hc & Hfk & Hd); [|erewrite Hlog]; [done|].
  eexists _, s2. split; [reflexivity|]. split_and!; [done..|]. apply (f_equal users) in Hd. cbn in Hd. rewrite Hd.
  apply map_eq. intros k. rewrite Hid. destruct (decide (uid = k)) as [<-|Hne].
  - rewrite lookup_alter_eq, lookup_insert_eq, Hu. done.
  - by rewrite lookup_alter_ne, lookup_insert_ne.
Qed.

Lemma login_succeeds e i s k u pw :
  calm s -> accounts_ok (sq_db s) -> users (sq_db s) !! k = Some u -> user_TenantID u = None ->
  user_Status u = UserStatusActive -> user_TOTPEnabled u = false -> bcrypt_Compare (user_PasswordHash u) pw = true ->
  exists rep s' tok, serve e (CLogin (Some (user_Email u, pw))) i s = (rep, s') /\
    ar_status rep = 200 /\ ar_cookie rep = Some (setSessionCookie (as_tls srv) tok) /\
    Issue hmac_sha256 (as_tokens srv) (re_now e 4) (claims_of u false) = Ok tok.
Proof.
  intros Hs Hok Hu Ht Hst Htotp Hpw. pose proof (accounts_keyed _ _ _ Hok Hu) as Hid.
  unfold ServeHTTP. cbn [middlewares Chain foldr handler]. unfold Login, HandlerFunc, mbind, hM_bind.
  cbn [Decode mret hM_ret fst snd]. unfold AuthenticatePassword, mbind, stM_bind, or_error, try.
  unfold sqlite_GetUserByEmail. rewrite calm_query by done. rewrite (find_by_email _ k u) by done.
  unfold lift, guard_err. rewrite Hst, bool_decide_true, Hpw by done. unfold sqlite_UpdateUser.
  rewrite calm_update_unique; [|done|..].
  2:{ cbn. rewrite Hid, Hu. eauto. }
  2:{ apply (no_other_email _ _ u Hok); cbn; [by rewrite Hid|done]. }
  2:{ intros _. cbn. by rewrite Ht. }
  cbn [mret stM_ret set_user_UpdatedAt set_LastLoginAt user_TOTPEnabled]. rewrite Htotp.
  unfold issue. cbn [Issue mret hM_ret]. edestruct (log_calm e) as (s2 & Hlog & _); [|erewrite Hlog]; [done|].
  eexists _, s2, _. split; [reflexivity|]. split_and!; done.
Qed.
End isolation.

(** Any administrator of any tenant reads and deletes the DNS zones of every
    tenant: the endpoints check only that the caller belongs to its own tenant. *)
Theorem zones_of_other_tenants `{UUIDLaws} `{AuthLib} `{AEAD} (hmac_sha256 : string -> string -> string)
    (ParseAddress : string -> bool) (srv : ApiServer) (e : ReqEnv) (i : Incoming) (claims : Claims)
    (s : SqlState) (zid : ID) (z : DNSZone) :
  bears hmac_sha256 srv e i claims -> tenant_admin claims -> calm s ->
  dns_zones (sq_db s) !! zid = Some z -> cl_TenantID claims <> Some (zone_TenantID z) -> zone_Serial z < 2 ^ 32 ->
  ServeHTTP hmac_sha256 ParseAddress srv e (CZoneGet (uuid_String zid)) i s = (JSON 200 (BZone z), s) /\
  exists s', ServeHTTP hmac_sha256 ParseAddress srv e (CZoneDelete (uuid_String zid)) i s = (NoContent, s') /\
    dns_zones (sq_db s') = delete zid (dns_zones (sq_db s)).
Proof.
  intros Hb Ha Hs Hz _ Hser. split.
  - by apply (admin_reads_zone hmac_sha256 ParseAddress srv e i s claims).
  - by apply (admin_deletes_zone hmac_sha256 ParseAddress srv e i s claims zid z).
Qed.

(** C35: any administrator of any tenant becomes superuser in two requests: the
    user endpoint sets a new password for a superuser account (an active one
    without second factor), and the sign-in with that password yields a session
    whose token verifies, until it expires, as the superuser's, which holds every
    permission. *)
Theorem tenant_admin_becomes_superuser `{UUIDLaws} `{AuthLibLaws} `{AEAD} (hmac_sha256 : string -> string -> string)
    (ParseAddress : string -> bool) (srv : ApiServer) (e1 e2 : ReqEnv) (i1 i2 : Incoming) (claims : Claims)
    (s : SqlState) (uid : ID) (u : User) (pw h : string) :
  bears hmac_sha256 srv e1 i1 claims -> tenant_admin claims -> calm s -> accounts_ok (sq_db s) ->
  users (sq_db s) !! uid = Some u -> user_Role u = RoleSuperUser -> user_TenantID u = None ->
  user_Status u = UserStatusActive -> user_TOTPEnabled u = false ->
  (8 <= String.length pw)%nat -> bcrypt_GenerateFromPassword (re_draw e1) pw = Some h ->
  unix_ok (re_now e2 4) -> unix_ok (re_now e2 4 + ts_ttl (as_tokens srv)) ->
  exists rep1 s1 rep2 s2 tok,
    ServeHTTP hmac_sha256 ParseAddress srv e1
      (CUserUpdate (uuid_String uid) (Some (mkUpdateUser None (Some pw) None None))) i1 s = (rep1, s1) /\
    ar_status rep1 = 200 /\
    ServeHTTP hmac_sha256 ParseAddress srv e2 (CLogin (Some (user_Email u, pw))) i2 s1 = (rep2, s2) /\
    ar_cookie rep2 = Some (setSessionCookie (as_tls srv) tok) /\
    (forall t, Unix t <= Unix (re_now e2 4 + ts_ttl (as_tokens srv)) ->
       Verify hmac_sha256 (as_tokens srv) t tok = Ok (mkClaims uid None RoleSuperUser None false)) /\
    (forall c, permitted (mkClaims uid None RoleSuperUser None false) c = true).
Proof.
  intros Hb Ha Hs Hok Hu Hrole Hten Hst Htotp Hlen Hh Hux1 Hux2.
  destruct (admin_resets_password hmac_sha256 ParseAddress srv e1 i1 s claims uid u pw h)
    as (rep1 & s1 & Hrun1 & Hrep1 & Hs1 & _ & Hus); try done.
  pose proof (serve_quiet_or_authorised _ _ _ _ _ _ _ _ _ Hok Hrun1) as [Hok1 _].
  pose proof (accounts_keyed _ _ _ Hok Hu) as Hid.
  destruct (login_succeeds hmac_sha256 ParseAddress srv e2 i2 s1 uid (with_hash h (re_now e1 2) u) pw)
    as (rep2 & s2 & tok & Hrun2 & _ & Hck & Hiss); try done.
  { by rewrite Hus, lookup_insert_eq. }
  { by eapply bcrypt_hash_ok. }
  exists rep1, s1, rep2, s2, tok. split_and!; try done.
  - intros t Htime. rewrite (fun R U1 U2 => Verify_Issue hmac_sha256 _ _ t _ _ R U1 U2 Hiss); try done.
    + rewrite (proj2 (Z.ltb_ge _ _)) by done. unfold claims_of, with_hash. cbn. by rewrite Hid, Hrole, Hten.
    + cbn. by rewrite Hrole.
  - intros c. unfold permitted, Authorize. cbn [cl_Role]. rewrite bool_decide_true by done. by destruct (permission c) as [[[? ?] []]|].
Qed.

Lemma ann_bears : bears plain_hmac sample_server sample_req (incoming ann) ann.
Proof. exists (token_of ann). split_and!; [reflexivity|discriminate|vm_compute; reflexivity..]. Qed.
Lemma ann_admin : tenant_admin ann.
Proof. split_and!; [reflexivity|by eexists|reflexivity]. Qed.

Lemma zones_of_other_tenants_witness :
  ServeHTTP plain_hmac (fun _ => true) sample_server sample_req (CZoneGet (uuid_String 30)) (incoming ann) api_state =
    (JSON 200 (BZone api_zone), api_state) /\
  exists s', ServeHTTP plain_hmac (fun _ => true) sample_server sample_req (CZoneDelete (uuid_String 30)) (incoming ann) api_state =
    (NoContent, s') /\ dns_zones (sq_db s') = delete 30%N (dns_zones api_db).
Proof.
  apply (zones_of_other_tenants plain_hmac (fun _ => true) sample_server sample_req (incoming ann) ann api_state 30 api_zone).
  - exact ann_bears.
  - exact ann_admin.
  - reflexivity.
  - vm_compute. reflexivity.
  - discriminate.
  - cbn. lia.
Defined.

Lemma tenant_admin_becomes_superuser_witness :
  exists rep1 s1 rep2 s2 tok,
    ServeHTTP plain_hmac (fun _ => true) sample_server sample_req
      (CUserUpdate (uuid_String 10) (Some (mkUpdateUser None (Some "password1") None None))) (incoming ann) api_state = (rep1, s1) /\
    ar_status rep1 = 200 /\
    ServeHTTP plain_hmac (fun _ => true) sample_server sample_req (CLogin (Some ("root@example.org", "password1"))) anonymous s1 =
      (rep2, s2) /\
    ar_cookie rep2 = Some (setSessionCookie true tok) /\
    (forall t, Unix t <= Unix (re_now sample_req 4 + ts_ttl (as_tokens sample_server)) ->
       Verify plain_hmac (as_tokens sample_server) t tok = Ok (mkClaims 10 None RoleSuperUser None false)) /\
    (forall c, permitted (mkClaims 10 None RoleSuperUser None false) c = true).
Proof.
  apply (tenant_admin_becomes_superuser plain_hmac (fun _ => true) sample_server sample_req sample_req (incoming ann) anonymous ann
           api_state 10 (api_user 10 None "root@example.org" RoleSuperUser false) "password1" "#password1").
  - exact ann_bears.
  - exact ann_admin.
  - reflexivity.
  - exact api_accounts.
  - vm_compute. reflexivity.
  - reflexivity.
  - reflexivity.
  - reflexivity.
  - reflexivity.
  - cbn. lia.
  - reflexivity.
  - split; vm_compute; congruence.
  - split; vm_compute; congruence.
Defined.

(** * What the token of a node may do

    The enrollment endpoint gives a node a read-only token whose user ID is the
    ID of the node.  With such a token a request changes nothing that matters,
    and of the configurations it reaches only those of its own node. *)


Section node_token.
Context `{UUID} `{AuthLib} `{AEAD} (hmac_sha256 : string -> string -> string) (ParseAddress : string -> bool).
Context (srv : ApiServer) (e : ReqEnv).
Notation serve := (ServeHTTP hmac_sha256 ParseAddress srv e).

Lemma readonly_reads claims c :
  cl_Role claims = RoleReadOnly -> permitted claims c = true -> protected c = true -> reads c = true.
Proof.
  intros Hr Hp Hc. unfold permitted in Hp. unfold reads. destruct c; try discriminate Hc; try done; cbn [permission] in Hp |- *;
    try (destruct c as []); unfold Authorize in Hp; rewrite Hr in Hp; done.
Qed.

Lemma owner_only claims c r s rep s' :
  cl_Role claims = RoleReadOnly -> is_Some (cl_TenantID claims) -> ClaimsFromContext r = Some claims ->
  hq_PathValue r = config_value c -> inner hmac_sha256 ParseAddress srv e (CConfig c) r s = (rep, s') -> ar_status rep = 200 ->
  uuid_Parse (config_target c) = Some (cl_UserID claims).
Proof.
  intros Hr [t Ht] Hc Hpv. unfold inner. cbn [owner_check Chain foldr]. unfold RequireResourceOwnerOrAdmin. rewrite Hc, Ht, Hr.
  rewrite !bool_decide_false by done. cbn [orb]. unfold ParseID. rewrite Hpv. unfold config_value.
  rewrite (bool_decide_true ("id" = "id")) by done.
  destruct (bool_decide (config_target c = "")); [intros [= <- _]; done|].
  destruct (uuid_Parse (config_target c)) as [id|]; [|intros [= <- _]; done]. cbn.
  case_bool_decide as Hid; [by rewrite Hid|]. intros [= <- _]. done.
Qed.

Lemma readonly_tenant claims c : cl_Role claims = RoleReadOnly -> permitted claims (CConfig c) = true -> is_Some (cl_TenantID claims).
Proof. intros Hr. unfold permitted, Authorize. rewrite Hr. destruct c; cbn; by destruct (cl_TenantID claims). Qed.

(** A request that bears the claims of a read-only session. *)
Lemma readonly_confined claims c i s rep s' :
  bears hmac_sha256 srv e i claims -> cl_Role claims = RoleReadOnly -> accounts_ok (sq_db s) -> protected c = true ->
  serve c i s = (rep, s') ->
  quiet (sq_db s) (sq_db s') /\
  forall cc, c = CConfig cc -> ar_status rep = 200 -> uuid_Parse (config_target cc) = Some (cl_UserID claims).
Proof.
  intros Hb Hr Hok Hc. rewrite serve_protected by done. rewrite (bears_authenticates hmac_sha256 srv e i claims) by done.
  destruct (_ && _); [by intros [= <- <-]|]. destruct (permitted claims c) eqn:Hp; [|by intros [= <- <-]].
  intros Hrun. split.
  - apply inner_run in Hrun as [(_ & ->)|Hrun]; [done|].
    eapply handler_quietly; [by eapply readonly_reads|exact Hrun|done].
  - intros cc -> Hst. apply (owner_only claims _ (with_claims claims (request (CConfig cc) i)) _ _ _ Hr (readonly_tenant _ _ Hr Hp) eq_refl eq_refl Hrun Hst).
Qed.
End node_token.

(** C26: with the token that an enrollment issues to a node a request to any endpoint
    that asks for authentication changes nothing but audit events, sign-in times,
    last uses of keys, second-factor enrolments and the times of configuration
    fetches, and a request for the configuration of a node or gateway succeeds only
    when that is the node of the token.  (The other reading endpoints of its tenant
    are open to it, as to every member with the read-only role.) *)
Theorem node_token_confined `{UUIDLaws} `{AuthLib} `{AEAD} (hmac_sha256 : string -> string -> string)
    (ParseAddress : string -> bool) (srv : ApiServer) (e : ReqEnv) (res : EnrollmentResult) (tok : string) (issued : Time)
    (c : call) (i : Incoming) (s s' : SqlState) (rep : ApiReply) :
  Issue hmac_sha256 (as_tokens srv) issued (node_claims res) = Ok tok -> 
  unix_ok issued -> unix_ok (issued + ts_ttl (as_tokens srv)) ->
  in_Authorization i = "Bearer " +:+ tok -> accounts_ok (sq_db s) -> protected c = true ->
  ServeHTTP hmac_sha256 ParseAddress srv e c i s = (rep, s') ->
  settled (sq_db s') = settled (sq_db s) /\
  forall cc, c = CConfig cc -> ar_status rep = 200 -> uuid_Parse (config_target cc) = Some (er_NodeID res).
Proof.
  intros Htok Hi He Hin Hok Hc Hrun. pose proof (Issue_no_key_prefix _ _ _ _ _ Htok) as Hpre.
  pose proof (Verify_Issue hmac_sha256 _ issued (re_now e 0) (node_claims res) tok eq_refl Hi He Htok) as Hv.
  assert (Hne : tok <> "") by (unfold Issue in Htok; intros ->; injection Htok; by destruct (RawURL_EncodeToString _)).
  destruct (_ <? _).
  - assert (Ha : authenticate hmac_sha256 (as_tokens srv) e (request c i) s =
      (inl (WriteError 401 "unauthorized" (Msg "invalid or expired token")), s)).
    { unfold authenticate, request_token. cbn [request hq_Authorization]. rewrite Hin, bool_decide_false by done.
      change (HasPrefix ("Bearer " +:+ tok) "Bearer ") with true.
      by rewrite TrimPrefix_bearer, bool_decide_false, Hpre, Hv. }
    rewrite serve_protected, Ha in Hrun by done. by injection Hrun as <- <-.
  - eapply (readonly_confined _ _ _ _ (node_claims res)); [|done..]. exists tok. done.
Qed.

Definition sample_result : EnrollmentResult := mkEnrollmentResult 20 (Some 1%N) "10.100.0.5".

Lemma node_token_confined_witness :
  let r := ServeHTTP plain_hmac (fun _ => true) sample_server sample_req (CConfig (CConfigBGP (uuid_String 20)))
             (incoming (node_claims sample_result)) api_state in
  ar_status r.1 = 200 /\ settled (sq_db r.2) = settled api_db /\ uuid_Parse (uuid_String 20) = Some 20%N.
Proof.
  cbv zeta. destruct (ServeHTTP _ _ _ _ _ _ _) as [rep s'] eqn:E.
  assert (Hst : ar_status rep = 200) by (change rep with (rep, s').1; rewrite <- E; vm_compute; reflexivity).
  destruct (node_token_confined plain_hmac (fun _ => true) sample_server sample_req sample_result
    (token_of (node_claims sample_result)) 0 (CConfig (CConfigBGP (uuid_String 20))) (incoming (node_claims sample_result)) api_state _ _ eq_refl ltac:(split; vm_compute; congruence)
    ltac:(split; vm_compute; congruence) eq_refl api_accounts eq_refl E) as [Hq Hid].
  split; [exact Hst|]. split; [exact Hq|exact (Hid _ eq_refl Hst)].
Defined.
