(* ===== verification/ApiAudit.v ===== *)
(** * Every change is audited

    [steady m]: a run of [m] in which no statement fails leaves the audit log
    alone.  [audits m]: a run of the handler body [m] that ends in success leaves
    exactly one more event. *)

From Stdlib Require Import ZArith Lia Ascii String.
From S2P Require Import Prelude GoStrings GoHttp Secrets Domain Storage StoreDns StoreProvision StoreAccess DnsService Provisioner ApiCore Token Auth Api ApiHandlers ApiFleet ApiNet ApiProvision ApiRoutes ApiFrame ApiTheorems ApiIsolation.

Open Scope Z_scope.

Create HintDb steady.

Definition still (s s' : SqlState) : Prop := calm s' /\ audit_events (sq_db s') = audit_events (sq_db s).
Definition steady {A} (m : stM SqlState A) : Prop := forall s r s', calm s -> m s = (r, s') -> still s s'.
Definition hsteady {A} (m : hM A) : Prop :=
  forall s r s', calm s -> m s = (r, s') -> still s s' /\ (forall rep, r = inl rep -> 400 <= ar_status rep).

Section steady.
Context {A B : Type}.

Lemma steady_ret (a : A) : steady (mret a).
Proof. by intros s r s' Hs [= _ <-]. Qed.
Lemma steady_throw e : steady (throw (A:=A) e).
Proof. by intros s r s' Hs [= _ <-]. Qed.
Lemma steady_lift (x : result A) : steady (lift x).
Proof. by intros s r s' Hs [= _ <-]. Qed.
Lemma steady_bind (m : stM SqlState A) (f : A -> stM SqlState B) : steady m -> (forall a, steady (f a)) -> steady (m ≫= f).
Proof.
  intros Hm Hf s r s' Hs Hrun. apply bind_run in Hrun as [(a & s1 & H1 & H2)|(err & H1 & _)]; [|by eapply Hm].
  destruct (Hm _ _ _ Hs H1) as [Hc1 Ha1]. destruct (Hf a _ _ _ Hc1 H2) as [Hc2 Ha2]. split; [done|congruence].
Qed.
Lemma steady_wrap msg (m : stM SqlState A) : steady m -> steady (wrap msg m).
Proof. intros Hm s r s' Hs Hrun. apply wrap_run in Hrun as [(a & H1 & _)|(err & H1 & _)]; by eapply Hm. Qed.
Lemma steady_query msg (f : DB -> result A) : steady (sql_query msg f).
Proof. intros s r s' Hs. rewrite calm_query by done. by intros [= _ <-]. Qed.
Lemma steady_insert msg dup ex fks put (v : A) :
  (forall d, audit_events (put d) = audit_events d) -> steady (sql_insert msg dup ex fks put v).
Proof.
  intros Hp [d fk fl] r s' Hs. unfold calm in Hs. cbn in Hs. subst. unfold sql_insert, sql_exec. cbn.
  destruct (ex d); [by intros [= _ <-]|]. destruct (fk && negb (fks d)); intros [= _ <-]; [done|]. by split; cbn.
Qed.
Lemma steady_update msg ex fks put (v : A) :
  (forall d, audit_events (put d) = audit_events d) -> steady (sql_update msg ex fks put v).
Proof.
  intros Hp [d fk fl] r s' Hs. unfold calm in Hs. cbn in Hs. subst. unfold sql_update, sql_exec. cbn.
  destruct (ex d); cbn; [|by intros [= _ <-]]. destruct (fk && negb (fks d)); intros [= _ <-]; [done|]. by split; cbn.
Qed.
Lemma steady_update_unique {V} msg dup (table : DB -> gmap ID V) id clash fks put (v : A) :
  (forall d, audit_events (put d) = audit_events d) -> steady (sql_update_unique msg dup table id clash fks put v).
Proof.
  intros Hp [d fk fl] r s' Hs. unfold calm in Hs. cbn in Hs. subst. unfold sql_update_unique, sql_exec. cbn.
  destruct (has_key _ _); cbn; [|by intros [= _ <-]]. destruct (other_row _ _ _); [by intros [= _ <-]|].
  destruct (fk && negb (fks d)); intros [= _ <-]; [done|]. by split; cbn.
Qed.

Lemma hsteady_ret (a : A) : hsteady (mret a).
Proof. by intros s r s' Hs [= <- <-]. Qed.
Lemma hsteady_reply rep : 400 <= ar_status rep -> hsteady (reply (A:=A) rep).
Proof. intros Hr s r s' Hs [= <- <-]. split; [done|]. by intros ? [= <-]. Qed.
Lemma hsteady_svc (m : stM SqlState A) onerr :
  (forall x, 400 <= ar_status (onerr x)) -> steady m -> hsteady (svc m onerr).
Proof.
  intros Ho Hm s r s' Hs. unfold svc. destruct (m s) as [[x|x] s1] eqn:E; intros [= <- <-]; (split; [by eapply Hm|]); [done|].
  by intros ? [= <-].
Qed.
End steady.

Lemma or404_status what other x : 400 <= ar_status (other x) -> 400 <= ar_status (or404 what other x).
Proof. unfold or404. by destruct (errors_Is _ _). Qed.
Lemma or409_status what other x : 400 <= ar_status (other x) -> 400 <= ar_status (or409 what other x).
Proof. unfold or409. by destruct (errors_Is _ _). Qed.
Lemma or_conflict_status other x : 400 <= ar_status (other x) -> 400 <= ar_status (or_conflict other x).
Proof. unfold or_conflict. by destruct (errors_Is _ _). Qed.
Lemma hsteady_Decode {A} (b : option A) : hsteady (Decode b).
Proof. destruct b; [apply hsteady_ret|by apply hsteady_reply]. Qed.
Lemma hsteady_ParseID `{UUID} r name : hsteady (ParseID r name).
Proof.
  unfold ParseID. destruct (bool_decide _); [by apply hsteady_reply|].
  destruct (uuid_Parse _); [apply hsteady_ret|by apply hsteady_reply].
Qed.

Lemma hsteady_bind {A B} (m : hM A) (f : A -> hM B) : hsteady m -> (forall a, hsteady (f a)) -> hsteady (m ≫= f).
Proof.
  intros Hm Hf s r s' Hs. unfold mbind, hM_bind. destruct (m s) as [[rep|a] s1] eqn:E;
    destruct (Hm _ _ _ Hs E) as [[Hc Ha] Hrep].
  - intros [= <- <-]. split; [done|]. intros ? [= <-]. by apply Hrep.
  - intros Hrun. destruct (Hf a _ _ _ Hc Hrun) as [[Hc2 Ha2] Hrep2]. split; [split; [done|congruence]|done].
Qed.
Lemma hsteady_ctx_claims r : hsteady (ctx_claims r).
Proof. unfold ctx_claims. destruct (ClaimsFromContext r); [apply hsteady_ret|by apply hsteady_reply]. Qed.
Lemma hsteady_or_absent b what : hsteady (or_absent b what).
Proof. destruct b; [apply hsteady_ret|by apply hsteady_reply]. Qed.
Lemma hsteady_required s msg : hsteady (required s msg).
Proof. unfold required. destruct (bool_decide _); [by apply hsteady_reply|apply hsteady_ret]. Qed.
Lemma hsteady_provisioner_set srv : hsteady (provisioner_set srv).
Proof. unfold provisioner_set. destruct (as_keyProvisioner srv); [apply hsteady_ret|by apply hsteady_reply]. Qed.

(** The services that leave the audit log alone. *)
Lemma steady_bystander {A} (m : stM SqlState A) : bystander m -> steady m.
Proof. intros Hm s r s' Hs Hrun. destruct (Hm _ _ _ Hrun) as (_ & Ha & Hc). split; auto. Qed.

Lemma hsteady_own `{UUID} r id : hsteady (own_node r id) /\ hsteady (own_gateway r id) /\ hsteady (own_group r id).
Proof.
  split_and!; unfold own_node, own_gateway, own_group;
    (apply hsteady_bind; [apply hsteady_svc; [intros ?; by apply or404_status|apply steady_bystander; ob_all]|intros x]);
    (apply hsteady_bind; [apply hsteady_ctx_claims|intros c]);
    (apply hsteady_bind; [apply hsteady_or_absent|intros _; apply hsteady_ret]).
Qed.

(** ** Handlers that end with an audit event *)

Lemma HandlerFunc_run f q s rep s' :
  HandlerFunc f q s = (rep, s') -> exists x, f q s = (x, s') /\ rep = match x with inl r => r | inr r => r end.
Proof. unfold HandlerFunc. destruct (f q s) as [[x|x] s1]; intros [= <- <-]; eauto. Qed.

Section audits.
Context `{UUID} (e : ReqEnv) (user : option ID) (r : HttpReq) (a res : string).

Definition recorded (s s' : SqlState) : Prop :=
  exists ev, audit_events (sq_db s') = <[re_newID e 1 := ev]> (audit_events (sq_db s)) /\
    audit_UserID ev = user /\ audit_Action ev = a /\ audit_Resource ev = res /\
    audit_SourceIP ev = hq_RemoteAddr r.

Definition audits (m : hM ApiReply) : Prop := forall s x s',
  calm s -> audit_events (sq_db s) !! re_newID e 1 = None -> m s = (x, s') ->
  ar_status (match x with inl rep => rep | inr rep => rep end) < 300 -> recorded s s'.

Lemma audits_bind {A} (m : hM A) (f : A -> hM ApiReply) : hsteady m -> (forall a, audits (f a)) -> audits (m ≫= f).
Proof using Type.
  intros Hm Hf s x s' Hs Hfresh. unfold mbind, hM_bind. destruct (m s) as [[rep|v] s1] eqn:E;
    destruct (Hm _ _ _ Hs E) as [[Hc Ha] Hrep].
  - intros [= <- <-] Hst. specialize (Hrep rep eq_refl). lia.
  - intros Hrun Hst. destruct (Hf v s1 x s' Hc) as (ev & Hev & ?); [by rewrite Ha|done..|].
    exists ev. by rewrite <-Ha.
Qed.

Lemma audits_reply rep : 400 <= ar_status rep -> audits (reply rep).
Proof using Type. intros Hr s x s' Hs Hf [= <- <-] Hst. lia. Qed.

Lemma audits_log t details rep :
  audits (_ ← log e r t user a res details; mret rep).
Proof using Type.
  intros [d fk fl] x s' Hs Hf. unfold calm in Hs. cbn in Hs, Hf. subst.
  unfold mbind, hM_bind, log, dropped, audit_Log, sqlite_CreateAuditEvent, sql_exec. cbn.
  unfold has_key. rewrite bool_decide_false by (rewrite Hf; by intros [? ?]). intros [= <- <-] _. cbn.
  eexists. split; [reflexivity|]. done.
Qed.

Lemma audits_claims claims f :
  ClaimsFromContext r = Some claims -> (forall c, c = claims -> audits (f c)) -> audits (c ← ctx_claims r; f c).
Proof using Type.
  intros Hclaims Hf s x s' Hs Hfresh. unfold mbind, hM_bind, ctx_claims. rewrite Hclaims. cbn. by apply Hf.
Qed.

Lemma audits_tenant_scoped claims f :
  ClaimsFromContext r = Some claims -> (forall t, audits (f (claims, t))) -> audits (ct ← tenant_scoped r; f ct).
Proof using Type.
  intros Hclaims Hf s x s' Hs Hfresh. unfold mbind, hM_bind, tenant_scoped. rewrite Hclaims.
  destruct (cl_TenantID claims) as [t|]; [by apply Hf|]. intros [= <- <-]. cbn. lia.
Qed.
End audits.

Lemma key_role_status role own rep : key_role_check role own = Some rep -> 400 <= ar_status rep.
Proof. unfold key_role_check. repeat case_bool_decide; by intros [= <-]. Qed.

(** ** The statements of the writing handlers *)

Lemma steady_CreateAPIKey now k : steady (sqlite_CreateAPIKey now k).
Proof.
  intros [d fk fl] r s' Hs. unfold calm in Hs. cbn in Hs. subst. unfold sqlite_CreateAPIKey, sql_exec. cbn.
  destruct (has_key _ _); [by intros [= _ <-]|]. by destruct (fk && _); intros [= _ <-].
Qed.
Lemma steady_CreateTenant now t : steady (sqlite_CreateTenant now t).
Proof. by apply steady_insert. Qed.
Lemma steady_UpdateTenant now t : steady (sqlite_UpdateTenant now t).
Proof. by apply steady_update_unique. Qed.
Lemma steady_CreateUser now u : steady (sqlite_CreateUser now u).
Proof. by apply steady_insert. Qed.
Lemma steady_UpdateUser now u : steady (sqlite_UpdateUser now u).
Proof. by apply steady_update_unique. Qed.
Lemma steady_DeleteUser id : steady (sqlite_DeleteUser id).
Proof. by apply steady_update. Qed.
Lemma steady_DeleteAPIKey id : steady (sqlite_DeleteAPIKey id).
Proof. by apply steady_update. Qed.
Lemma steady_CreateDNSZone now z : steady (CreateDNSZone (S:=SqlState) now z).
Proof. by apply steady_insert. Qed.
Lemma steady_UpdateDNSZone now z : steady (UpdateDNSZone (S:=SqlState) now z).
Proof. by apply steady_update. Qed.
Lemma steady_GetDNSZone id : steady (GetDNSZone (S:=SqlState) id).
Proof. apply steady_query. Qed.
Lemma steady_IncrementDNSZoneSerial now id : steady (IncrementDNSZoneSerial (S:=SqlState) now id).
Proof. by apply steady_update. Qed.
Lemma steady_DeleteDNSZone id : steady (DeleteDNSZone (S:=SqlState) id).
Proof.
  intros s r s'. apply (steady_update "delete dns zone" _ _ (fun d => upd_dns_zones (delete id)
    (if sq_fk s then upd_dns_records (filter (fun kr => rec_ZoneID kr.2 <> id)) d else d))). intros d. by destruct (sq_fk s).
Qed.
Lemma steady_CreateDNSRecord now rc : steady (CreateDNSRecord (S:=SqlState) now rc).
Proof. by apply steady_insert. Qed.
Lemma steady_UpdateDNSRecord now rc : steady (UpdateDNSRecord (S:=SqlState) now rc).
Proof. by apply steady_update. Qed.
Lemma steady_GetDNSRecord id : steady (GetDNSRecord (S:=SqlState) id).
Proof. apply steady_query. Qed.
Lemma steady_ListDNSRecords id p : steady (ListDNSRecords (S:=SqlState) id p).
Proof. apply steady_query. Qed.
Lemma steady_DeleteDNSRecord id : steady (DeleteDNSRecord (S:=SqlState) id).
Proof. by apply steady_update. Qed.

#[export] Hint Resolve steady_ret steady_throw steady_lift steady_query steady_CreateAPIKey steady_CreateTenant steady_UpdateTenant
  steady_CreateUser steady_UpdateUser steady_DeleteUser steady_DeleteAPIKey steady_CreateDNSZone steady_UpdateDNSZone
  steady_GetDNSZone steady_IncrementDNSZoneSerial steady_DeleteDNSZone steady_CreateDNSRecord steady_UpdateDNSRecord
  steady_GetDNSRecord steady_ListDNSRecords steady_DeleteDNSRecord : steady.

Ltac steady_all :=
  repeat lazymatch goal with
  | |- forall _, steady _ => intros ?
  | |- steady (_ ≫= _) => apply steady_bind
  | |- steady (wrap _ _) => apply steady_wrap
  | |- steady (match ?x with _ => _ end) => destruct x
  | |- steady ?m => first [solve [eauto with steady] | apply steady_bystander; solve [ob_all]]
  end.

Ltac audit_all :=
  repeat lazymatch goal with
  | |- forall _, audits _ _ _ _ _ _ => intros ?
  | |- audits _ _ _ _ _ (_ ← ctx_claims _; _) => eapply audits_claims; [done|]; intros ? ->
  | |- audits _ _ _ _ _ (_ ← tenant_scoped _; _) => eapply audits_tenant_scoped; [done|]
  | |- audits _ _ _ _ _ (_ ← log _ _ _ _ _ _ _; mret _) => apply audits_log
  | |- audits _ _ _ _ _ (_ ← svc _ _; _) =>
      apply audits_bind; [apply hsteady_svc; [intros ?; repeat first [apply or404_status|apply or409_status|apply or_conflict_status]; done|]|]
  | |- audits _ _ _ _ _ (_ ← _; _) => 
      apply audits_bind; [first [apply hsteady_Decode|apply hsteady_ParseID|apply hsteady_required|apply hsteady_provisioner_set
        |apply hsteady_own]|]
  | |- audits _ _ _ _ _ (match ?x with _ => _ end) => destruct x eqn:?
  | |- audits _ _ _ _ _ (reply _) => apply audits_reply; first [done|by eapply key_role_status]
  | |- steady _ => steady_all
  end.

(** The action and resource of the audit event of an endpoint; heartbeats have
    none. *)
Definition records (c : call) : option (string * string) :=
  match c with
  | CFleet (CNodeHeartbeat _) | CFleet (CGatewayHeartbeat _) => None
  | CNet (CSitePurge _) => Some ("purge_cache", ResourceCDNSite)
  | CProvision (CAction _ a) => Some (lifecycle_name a, ResourceProvisioningJob)
  | CProvision (CEnrollmentToken _) => Some ("generate_enrollment_token", ResourceNode)
  | CProvision (CKeyRotate _) => Some ("rotate", ResourceSSHKey)
  | CProvision (CKeyDeploy _) => Some ("deploy", ResourceSSHKey)
  | CEnroll _ => Some ("enrollment_completed", ResourceNode)
  | _ => p ← permission c; Some p.1
  end.

Lemma after_slash_last acc p w : after_slash acc (p +:+ String "/" w) = after_slash (Some "") w.
Proof.
  revert acc. induction p as [|c p IH]; intros acc; [done|]. cbn [String.append after_slash]. destruct (bool_decide _); apply IH.
Qed.
Lemma extractAction_path id a : extractAction (provision_path (CAction id a)) = lifecycle_name a.
Proof.
  unfold extractAction. cbn [provision_path].
  change ("/api/v1/nodes/" +:+ id +:+ "/" +:+ lifecycle_name a)
    with ("/api/v1/nodes/" +:+ id +:+ String "/" (lifecycle_name a)).
  cbn [String.append after_slash]. rewrite after_slash_last. by destruct a.
Qed.

Lemma Action_audits `{UUID} srv e id a claims q :
  ClaimsFromContext q = Some claims -> hq_Path q = provision_path (CAction id a) ->
  exists f, provisionH_Action srv e = HandlerFunc f /\ audits e (Some (cl_UserID claims)) q (lifecycle_name a) ResourceProvisioningJob (f q).
Proof.
  intros Hq Hpath. eexists. split; [reflexivity|]. cbv beta zeta. rewrite Hpath, extractAction_path. unfold log_dns.
  audit_all.
Qed.

Lemma handler_audits `{UUID} `{AuthLib} `{AEAD} hmac_sha256 ParseAddress srv e c i claims q a res :
  records c = Some (a, res) -> reads c = false -> protected c = true -> q = with_claims claims (request c i) ->
  exists f, handler hmac_sha256 ParseAddress srv e c = HandlerFunc f /\ audits e (Some (cl_UserID claims)) q a res (f q).
Proof.
  intros Hp Hr Hpr Hq'. assert (Hq : ClaimsFromContext q = Some claims) by by rewrite Hq'.
  destruct c as [| | | | | | | | | | | | | | | | | | | | | | | | | | | | | |c|c|c|c|]; try discriminate Hr; try discriminate Hpr;
    try (destruct c; try discriminate Hr; try discriminate Hp); injection Hp as <- <-;
    cbn [handler fleet_handler net_handler config_handler provision_handler];
    try (by apply (Action_audits srv e id a0 claims q); [done|rewrite Hq']);
    (eexists; split; [reflexivity|]); cbv beta zeta; unfold log_dns;
    unfold GenerateAPIKey, tenant_Create, tenant_Update, tenant_Delete, user_Create, user_Update, user_Delete,
      sqlite_GetUser, sqlite_GetTenant, CreateZone, UpdateZone, DeleteZone, CreateRecord, UpdateRecord, DeleteRecord;
    cbv zeta; audit_all.
Qed.

Section authenticate.
Context `{UUID} `{AuthLib} (hmac_sha256 : string -> string -> string) (ts : TokenService) (e : ReqEnv).

Lemma steady_AuthenticateAPIKey now now' key : steady (AuthenticateAPIKey now now' key).
Proof using Type.
  unfold AuthenticateAPIKey. cbv zeta. case_match; [apply steady_throw|]. apply steady_bind; [|intros k; steady_all].
  - intros s r s' Hs. unfold or_error, sqlite_GetAPIKeyByPrefix. rewrite calm_query by done.
    by destruct (first_row _); intros [= _ <-].
Qed.

Lemma authenticate_refuses r s rep s1 : authenticate hmac_sha256 ts e r s = (inl rep, s1) -> ar_status rep = 401.
Proof using Type.
  unfold authenticate. destruct (request_token r) as [r0|tok] eqn:Ht.
  - intros [= <- _]. revert Ht. unfold request_token. repeat case_match; by intros [= <-].
  - destruct (bool_decide _); [by intros [= <- _]|]. destruct (HasPrefix _ _).
    + unfold mbind, hM_bind, svc. destruct (AuthenticateAPIKey _ _ _ s) as [[?|?] ?]; by intros [= <- _].
    + destruct (Verify _ _ _ _); by intros [= <- _].
Qed.

Lemma authenticate_still r s x s1 : authenticate hmac_sha256 ts e r s = (x, s1) -> calm s -> still s s1.
Proof using Type.
  intros Hrun Hs. unfold authenticate in Hrun. destruct (request_token r) as [r0|tok]; [by injection Hrun as _ <-|].
  destruct (bool_decide _); [by injection Hrun as _ <-|]. destruct (HasPrefix _ _).
  - revert Hrun. unfold mbind, hM_bind, svc. destruct (AuthenticateAPIKey _ _ _ s) as [[?|?] ?] eqn:E; intros [= _ <-];
      by eapply steady_AuthenticateAPIKey.
  - destruct (Verify _ _ _ _); by injection Hrun as _ <-.
Qed.
End authenticate.

(** An enrollment that succeeds leaves its event. *)
Lemma Enroll_audits `{UUID} `{AEAD} hmac_sha256 srv e b q :
  exists f, Enroll hmac_sha256 srv e b = HandlerFunc f /\ audits e None q "enrollment_completed" ResourceNode (f q).
Proof.
  eexists. split; [reflexivity|]. cbv beta. apply audits_bind; [apply hsteady_Decode|]. intros tok.
  apply audits_bind; [apply hsteady_required|]. intros _ s x s' Hs Hf. unfold mbind at 1, hM_bind at 1.
  destruct (in_request e (CompleteEnrollment (as_outside srv) (as_provisioner srv) tok) s) as [[res|err] s1] eqn:E.
  - destruct (by_in_request e _ (spares_CompleteEnrollment (as_outside srv) (as_provisioner srv) tok) _ _ _ E) as (_ & Ha & Hc).
    cbn [Issue mret hM_ret]. unfold mbind at 1, hM_bind at 1. intros Hrun Hst.
    destruct (audits_log e None q "enrollment_completed" ResourceNode None (Some [("node_id", uuid_String (er_NodeID res))])
      _ s1 x s' (Hc Hs) ltac:(by rewrite Ha) Hrun Hst) as (ev & Hev & ?). exists ev. by rewrite <-Ha.
  - unfold mbind, hM_bind, log, dropped, reply. intros [= <- <-]. unfold enroll_error, or404, or_conflict.
    by repeat case_match.
Qed.

(** C31: a request to an endpoint whose permission is a writing one, other than a
    heartbeat, or to the enrollment endpoint, that succeeds leaves exactly one more
    audit event, with the action and resource that belong to the endpoint, the address
    it came from, and the user ID of the caller whose claims are vouched for (none for
    the enrollment of a node), as long as no statement fails.  The heartbeats of nodes
    and gateways have such a permission and leave no event. *)
Theorem changes_are_audited `{UUID} `{AuthLib} `{AEAD} (hmac_sha256 : string -> string -> string)
    (ParseAddress : string -> bool) (srv : ApiServer) (e : ReqEnv) (c : call) (i : Incoming) (s s' : SqlState) (rep : ApiReply) :
  ServeHTTP hmac_sha256 ParseAddress srv e c i s = (rep, s') ->
  reads c = false -> (forall id, c <> CFleet (CNodeHeartbeat id) /\ c <> CFleet (CGatewayHeartbeat id)) ->
  ar_status rep < 300 -> calm s -> audit_events (sq_db s) !! re_newID e 1 = None ->
  exists a res ev, records c = Some (a, res) /\
    audit_events (sq_db s') = <[re_newID e 1 := ev]> (audit_events (sq_db s)) /\
    audit_Action ev = a /\ audit_Resource ev = res /\ audit_SourceIP ev = in_RemoteAddr i /\
    ((exists claims, vouched hmac_sha256 srv e (sq_db s) (request c i) claims /\ audit_UserID ev = Some (cl_UserID claims)) \/
     (exists b, c = CEnroll b /\ audit_UserID ev = None)).
Proof.
  intros Hrun Hr Hhb Hst Hs Hf.
  assert (Hrec : exists a res, records c = Some (a, res)).
  { destruct c as [| | | | | | | | | | | | | | | | | | | | | | | | | | | | | |c|c|c|c|]; try discriminate Hr; try (by eexists _, _);
      destruct c; try discriminate Hr; try (by eexists _, _); destruct (Hhb id); done. }
  destruct Hrec as (a & res & Hrec). destruct (reads_protected c Hr) as [Hp|[b ->]].
  - rewrite serve_protected in Hrun by done. destruct (authenticate _ _ _ _ s) as [[r1|claims] s1] eqn:Ha.
    { apply authenticate_refuses in Ha. simplify_eq. lia. }
    destruct (_ && _); [by simplify_eq|]. destruct (permitted claims c); [|by simplify_eq].
    rewrite inner_plain in Hrun by done.
    pose proof (authenticate_vouched _ _ _ _ _ _ _ Ha) as [Hv _].
    apply authenticate_still in Ha as [Hs1 Ha1]; [|done].
    destruct (handler_audits hmac_sha256 ParseAddress srv e c i claims _ a res Hrec Hr Hp eq_refl) as (f & Hh & Hau).
    rewrite Hh in Hrun. apply HandlerFunc_run in Hrun as (x & Hx & ->).
    destruct (Hau _ _ _ Hs1 ltac:(by rewrite Ha1) Hx Hst) as (ev & Hev & Hu & Hac & Hre & Hip).
    exists a, res, ev. rewrite <-Ha1. split_and!; eauto.
  - destruct (Enroll_audits hmac_sha256 srv e b (request (CEnroll b) i)) as (f & Hh & Hau).
    unfold ServeHTTP in Hrun. cbn [middlewares Chain foldr handler] in Hrun. rewrite Hh in Hrun.
    apply HandlerFunc_run in Hrun as (x & Hx & ->). injection Hrec as <- <-.
    destruct (Hau _ _ _ Hs Hf Hx Hst) as (ev & Hev & Hu & Hac & Hre & Hip). eexists _, _, ev. split_and!; eauto.
Qed.

Lemma changes_are_audited_witness :
  let r := ServeHTTP plain_hmac (fun _ => true) sample_server sample_req (CZoneDelete (uuid_String 30)) (incoming ann) api_state in
  exists a res ev, records (CZoneDelete (uuid_String 30)) = Some (a, res) /\
    audit_events (sq_db r.2) = <[101%N := ev]> ∅ /\ audit_Action ev = a /\ audit_Resource ev = res /\
    audit_SourceIP ev = "192.0.2.1:4711" /\
    ((exists claims, vouched plain_hmac sample_server sample_req api_db (request (CZoneDelete (uuid_String 30)) (incoming ann)) claims /\
        audit_UserID ev = Some (cl_UserID claims)) \/
     (exists b, CZoneDelete (uuid_String 30) = CEnroll b /\ audit_UserID ev = None)).
Proof.
  cbv zeta. destruct (ServeHTTP _ _ _ _ _ _ _) as [rep s'] eqn:E. pose proof (f_equal fst E) as Hrep.
  apply (changes_are_audited _ _ _ _ _ _ api_state s' rep E).
  - reflexivity.
  - intros id. split; discriminate.
  - vm_compute in Hrep. subst rep. cbn. lia.
  - reflexivity.
  - reflexivity.
Defined.
