(* ===== verification/ApiFleetIsolation.v ===== *)
(** * Tenant isolation of the fleet endpoints

    The handlers for nodes, gateways and node groups look at the tenant of the
    row before they act.  What a caller of one tenant can do and see through
    them: [fleet_kept] relates the tables before and after a request, [shows] says which
    rows a reply may show, and the handlers are followed with [okay]. *)

From Stdlib Require Import ZArith Lia Ascii String.
From S2P Require Import Prelude GoStrings GoHttp Secrets Domain Storage StoreDns StoreFleet StoreProvision StoreInventory StoreAccess DnsService Fleet InventoryTheorems ApiCore Token Auth Api ApiHandlers ApiFleet ApiRoutes ApiFrame ApiTheorems.

Open Scope Z_scope.

(** ** Rows of others *)

Section tables.
Context {V : Type} (mine : V -> Prop) `{!forall v, Decision (mine v)}.

(** The rows that are not [mine] are still there, unchanged. *)
Definition kept (m0 m : gmap ID V) : Prop := forall k v, m0 !! k = Some v -> ~ mine v -> m !! k = Some v.
(** The key is free or holds a row of mine. *)
Definition harmless (m0 : gmap ID V) (k : ID) : Prop := forall v, m0 !! k = Some v -> mine v.

Lemma harmless_row m0 m k v : kept m0 m -> m !! k = Some v -> mine v -> harmless m0 k.
Proof using Type*. intros Hk Hv Hm v0 H0. apply dec_stable. intros Hn. pose proof (Hk _ _ H0 Hn). congruence. Qed.
Lemma harmless_free m0 m k : kept m0 m -> m !! k = None -> harmless m0 k.
Proof using Type*. intros Hk Hv v0 H0. apply dec_stable. intros Hn. pose proof (Hk _ _ H0 Hn). congruence. Qed.
Lemma kept_at m0 m m' k : kept m0 m -> harmless m0 k -> (forall i, i <> k -> m' !! i = m !! i) -> kept m0 m'.
Proof using Type.
  intros Hk Hh Hm i v Hi Hv. destruct (decide (i = k)) as [->|Hne]; [by destruct Hv; apply Hh|].
  rewrite Hm by done. by apply Hk.
Qed.
End tables.

Section isolation.
Context (t : ID).

Definition my_node (n : Node) : Prop := node_TenantID n = None \/ node_TenantID n = Some t.
Definition my_gateway (g : Gateway) : Prop := gw_TenantID g = t.
Definition my_group (g : NodeGroup) : Prop := ng_TenantID g = t.

#[local] Instance my_node_dec n : Decision (my_node n).
Proof. unfold my_node. apply _. Defined.
#[local] Instance my_gateway_dec g : Decision (my_gateway g).
Proof. unfold my_gateway. apply _. Defined.
#[local] Instance my_group_dec g : Decision (my_group g).
Proof. unfold my_group. apply _. Defined.

(** No node, gateway or node group of another tenant has changed. *)
Record fleet_kept (d0 d : DB) : Prop := {
  fk_nodes : kept my_node (nodes d0) (nodes d);
  fk_gateways : kept my_gateway (gateways d0) (gateways d);
  fk_groups : kept my_group (node_groups d0) (node_groups d)
}.

Record fleet_keyed (d : DB) : Prop := {
  fd_nodes : forall k n, nodes d !! k = Some n -> node_ID n = k;
  fd_gateways : forall k g, gateways d !! k = Some g -> gw_ID g = k;
  fd_groups : forall k g, node_groups d !! k = Some g -> ng_ID g = k
}.

(** The rows of a reply. *)
Definition body_nodes (b : Body) : list Node :=
  match b with BNode n => [n] | BNodes l _ _ _ | BNodesPage l _ _ _ => l | _ => [] end.
Definition body_gateways (b : Body) : list Gateway := match b with BGateway g => [g] | BGateways l _ _ _ => l | _ => [] end.
Definition body_groups (b : Body) : list NodeGroup := match b with BGroup g => [g] | BGroups l _ _ _ => l | _ => [] end.

(** None of the rows of a reply was a row of another tenant in [d0]. *)
Record shows (d0 : DB) (b : Body) : Prop := {
  sh_nodes : Forall (fun n => harmless my_node (nodes d0) (node_ID n)) (body_nodes b);
  sh_gateways : Forall (fun g => harmless my_gateway (gateways d0) (gw_ID g)) (body_gateways b);
  sh_groups : Forall (fun g => harmless my_group (node_groups d0) (ng_ID g)) (body_groups b)
}.

Context (d0 : DB).
Definition fine (d : DB) : Prop := fleet_kept d0 d /\ fleet_keyed d.

(** The three tables are the same. *)
Definition fleet_same (d d' : DB) : Prop :=
  nodes d' = nodes d /\ gateways d' = gateways d /\ node_groups d' = node_groups d.
Lemma fine_same d d' : fleet_same d d' -> fine d -> fine d'.
Proof. intros (En & Eg & Ep) [[] []]. split; split; rewrite ?En, ?Eg, ?Ep; done. Qed.

(** ** Store operations *)

Definition sok {A} (m : stM SqlState A) (phi : A -> Prop) : Prop :=
  forall s r s', fine (sq_db s) -> m s = (r, s') -> fine (sq_db s') /\ forall a, r = Ok a -> phi a.

Lemma sok_bind {A B} (m : stM SqlState A) (f : A -> stM SqlState B) phi psi :
  sok m phi -> (forall a, phi a -> sok (f a) psi) -> sok (m ≫= f) psi.
Proof.
  intros Hm Hf s r s' Hs Hrun. apply bind_run in Hrun as [(a & s1 & H1 & H2)|(err & H1 & ->)].
  - destruct (Hm _ _ _ Hs H1) as [Hs1 Ha]. exact (Hf a (Ha a eq_refl) _ _ _ Hs1 H2).
  - destruct (Hm _ _ _ Hs H1) as [Hs1 _]. done.
Qed.
Lemma sok_ret {A} (a : A) (phi : A -> Prop) : phi a -> sok (mret a) phi.
Proof. intros Ha s r s' Hs [= <- <-]. split; [done|]. by intros ? [= <-]. Qed.
Lemma sok_lift {A} (x : result A) : sok (lift x) (fun _ => True).
Proof. intros s r s' Hs [= <- <-]. done. Qed.
Lemma sok_wrap {A} msg (m : stM SqlState A) phi : sok m phi -> sok (wrap msg m) phi.
Proof.
  intros Hm s r s' Hs Hrun. apply wrap_run in Hrun as [(a & H1 & ->)|(err & H1 & ->)];
    destruct (Hm _ _ _ Hs H1) as [Hs' Ha]; split; try done.
Qed.
Lemma sok_try {A} (m : stM SqlState A) phi : sok m phi -> sok (try m) (fun _ => True).
Proof.
  intros Hm s r s' Hs. unfold try. destruct (m s) as [x s1] eqn:E. intros [= _ <-]. by split; [apply (Hm _ _ _ Hs E)|].
Qed.
Lemma sok_query {A} msg (f : DB -> result A) (phi : A -> Prop) :
  (forall d a, fine d -> f d = Ok a -> phi a) -> sok (sql_query msg f) phi.
Proof.
  intros Hf s r s' Hs Hrun. unfold sql_query, sql_exec in Hrun. destruct (sq_fault s); injection Hrun as <- <-; (split; [done|]); [done|].
  intros a Ha. by apply (Hf _ _ Hs).
Qed.
Lemma sok_weak {A} (m : stM SqlState A) (phi psi : A -> Prop) : sok m phi -> (forall a, phi a -> psi a) -> sok m psi.
Proof. intros Hm Hp s r s' Hs Hrun. destruct (Hm _ _ _ Hs Hrun) as [? Ha]. split; [done|]. intros a ->. eauto. Qed.

(** Writes at one key of one of the tables. *)
Lemma sok_insert {A} msg dup ex fks put (v : A) (phi : A -> Prop) :
  (forall d, fine d -> ex d = false -> fine (put d) /\ phi v) -> sok (sql_insert msg dup ex fks put v) phi.
Proof.
  intros Hp s r s' Hs Hrun. apply sql_insert_inv in Hrun. destruct r as [a|err]; [|by rewrite Hrun].
  destruct Hrun as (-> & Hex & _ & ->). destruct (Hp _ Hs Hex) as [? ?]. split; [done|]. by intros ? [= <-].
Qed.
Lemma sok_update {A} msg ex fks put (v : A) (phi : A -> Prop) :
  (forall d, fine d -> ex d = true -> fine (put d) /\ phi v) -> sok (sql_update msg ex fks put v) phi.
Proof.
  intros Hp s r s' Hs Hrun. apply sql_update_inv in Hrun. destruct r as [a|err]; [|by rewrite Hrun].
  destruct Hrun as (-> & Hex & ->). destruct (Hp _ Hs Hex) as [? ?]. split; [done|]. by intros ? [= <-].
Qed.

Lemma fine_nodes k d d' :
  fine d -> harmless my_node (nodes d0) k -> (forall i, i <> k -> nodes d' !! i = nodes d !! i) ->
  (forall n, nodes d' !! k = Some n -> node_ID n = k) -> gateways d' = gateways d -> node_groups d' = node_groups d -> fine d'.
Proof.
  intros [[Kn Kg Kp] [Dn Dg Dp]] Hh Hm Hk Eg Ep. split; split; rewrite ?Eg, ?Ep; try done; [by eapply kept_at|].
  intros i n Hi. destruct (decide (i = k)) as [->|Hne]; [by apply Hk|]. rewrite Hm in Hi by done. eauto.
Qed.
Lemma fine_gateways k d d' :
  fine d -> harmless my_gateway (gateways d0) k -> (forall i, i <> k -> gateways d' !! i = gateways d !! i) ->
  (forall n, gateways d' !! k = Some n -> gw_ID n = k) -> nodes d' = nodes d -> node_groups d' = node_groups d -> fine d'.
Proof.
  intros [[Kn Kg Kp] [Dn Dg Dp]] Hh Hm Hk En Ep. split; split; rewrite ?En, ?Ep; try done; [by eapply kept_at|].
  intros i n Hi. destruct (decide (i = k)) as [->|Hne]; [by apply Hk|]. rewrite Hm in Hi by done. eauto.
Qed.
Lemma fine_groups k d d' :
  fine d -> harmless my_group (node_groups d0) k -> (forall i, i <> k -> node_groups d' !! i = node_groups d !! i) ->
  (forall n, node_groups d' !! k = Some n -> ng_ID n = k) -> nodes d' = nodes d -> gateways d' = gateways d -> fine d'.
Proof.
  intros [[Kn Kg Kp] [Dn Dg Dp]] Hh Hm Hk En Eg. split; split; rewrite ?En, ?Eg; try done; [by eapply kept_at|].
  intros i n Hi. destruct (decide (i = k)) as [->|Hne]; [by apply Hk|]. rewrite Hm in Hi by done. eauto.
Qed.

(** ** Operations of the fleet service *)

(** The table outside a key that is written, and the row written there. *)
Ltac off_key := cbn; intros; rewrite ?lookup_insert_ne, ?lookup_alter_ne, ?lookup_delete_ne in * by done; done.

Lemma sok_CreateNode newID now req :
  sok (fleet_CreateNode newID now req) (fun n => harmless my_node (nodes d0) (node_ID n)).
Proof.
  apply (sok_bind _ _ (fun _ => True)); [apply sok_lift|intros _ _]. apply sok_wrap. intros s r s' Hs.
  unfold sqlite_CreateNode, sql_exec. cbv zeta. destruct (sq_fault s); [by intros [= <- <-]|].
  destruct (has_key _ _) eqn:Hk; [by intros [= <- <-]|]. destruct (_ && _); [by intros [= <- <-]|].
  destruct (negb _); [by intros [= <- <-]|]. intros [= <- <-]. cbn [sq_db sq_next].
  assert (Hh : harmless my_node (nodes d0) newID) by (exact (harmless_free _ _ _ _ (fk_nodes _ _ (proj1 Hs)) (has_key_false _ _ Hk))).
  split; [|by intros n [= <-]]. apply (fine_nodes newID _ _ Hs Hh); try done; cbn.
  - intros i Hi. by rewrite lookup_insert_ne.
  - intros n. rewrite lookup_insert_eq. by intros [= <-].
Qed.
Lemma sok_GetNode id :
  sok (fleet_GetNode id) (fun n => node_ID n = id /\ (my_node n -> harmless my_node (nodes d0) id)).
Proof.
  apply sok_query. intros d n [K D]. destruct (nodes d !! id) as [n'|] eqn:E; [|done]. intros [= <-].
  split; [by eapply fd_nodes|]. intros Hm. exact (harmless_row _ _ _ _ _ (fk_nodes _ _ K) E Hm).
Qed.

Lemma sok_UpdateNode id now req :
  harmless my_node (nodes d0) id -> sok (fleet_UpdateNode id now req) (fun n => harmless my_node (nodes d0) (node_ID n)).
Proof.
  intros Hh. apply (sok_bind _ _ _ _ (sok_GetNode id)). intros n [Hid _]. cbv zeta.
  apply (sok_bind _ _ (fun _ => True)); [|intros _ _; apply sok_ret; cbn; by rewrite Hid].
  apply sok_wrap. intros s r s' Hs. unfold sqlite_UpdateNode, sql_exec. destruct (sq_fault s); [by intros [= <- <-]|].
  change (node_ID (apply_node_update req n)) with (node_ID n). rewrite Hid.
  destruct (nodes (sq_db s) !! id) as [old|] eqn:Hold; [|by intros [= <- <-]].
  destruct (_ && _); [by intros [= <- <-]|]. destruct (negb _); [by intros [= <- <-]|]. intros [= <- <-]. split; [|done].
  apply (fine_nodes id _ _ Hs Hh); try done; [off_key|]. cbn. intros m. rewrite lookup_insert_eq. intros [= <-].
  cbn. by eapply fd_nodes, Hold; apply Hs.
Qed.

Lemma sok_DeleteNode id : harmless my_node (nodes d0) id -> sok (fleet_DeleteNode id) (fun _ => True).
Proof.
  intros Hh s r s' Hs Hrun. apply sql_update_inv in Hrun. destruct r; [|by rewrite Hrun]. destruct Hrun as (_ & _ & ->).
  split; [|done]. apply (fine_nodes id _ _ Hs Hh); destruct (sq_fk s); try done; try off_key;
    cbn; intros n; by rewrite lookup_delete_eq.
Qed.

Lemma sok_heartbeat {A} bus get (status : A -> string) phi : sok get phi -> sok (previous_status bus get status) (fun _ => True).
Proof.
  intros Hg. unfold previous_status. destruct bus; [|by apply sok_ret].
  eapply sok_bind; [by eapply sok_try|]. intros r _. by apply sok_ret.
Qed.

Lemma sok_NodeHeartbeat id_String bus id now tick :
  harmless my_node (nodes d0) id -> sok (RecordNodeHeartbeat id_String bus id now tick) (fun _ => True).
Proof.
  intros Hh. eapply sok_bind; [eapply sok_heartbeat, sok_GetNode|]. intros prev _.
  apply (sok_bind _ _ (fun _ => True)); [|intros; by apply sok_ret]. apply sok_update. intros d Hd _. split; [|done].
  apply (fine_nodes id _ _ Hd Hh); try done; [off_key|]. cbn. intros n. rewrite lookup_alter_eq.
  destruct (nodes d !! id) as [n'|] eqn:E; [|done]. intros [= <-]. cbn. by eapply fd_nodes, E; apply Hd.
Qed.

Lemma sok_CreateGateway newID now req :
  sok (fleet_CreateGateway newID now req) (fun g => harmless my_gateway (gateways d0) (gw_ID g)).
Proof.
  apply (sok_bind _ _ (fun _ => True)); [apply sok_lift|intros _ _]. apply sok_wrap, sok_insert. intros d Hd Hk.
  assert (Hh : harmless my_gateway (gateways d0) newID) by (exact (harmless_free _ _ _ _ (fk_gateways _ _ (proj1 Hd)) (has_key_false _ _ Hk))).
  split; [|done]. apply (fine_gateways newID _ _ Hd Hh); try done; [off_key|]. cbn. intros g. rewrite lookup_insert_eq. by intros [= <-].
Qed.

Lemma sok_GetGateway id :
  sok (fleet_GetGateway id) (fun g => gw_ID g = id /\ (my_gateway g -> harmless my_gateway (gateways d0) id)).
Proof.
  apply sok_query. intros d g [K D]. unfold get_row. destruct (gateways d !! id) as [g'|] eqn:E; [|done]. intros [= <-].
  split; [by eapply fd_gateways|]. intros Hm. exact (harmless_row _ _ _ _ _ (fk_gateways _ _ K) E Hm).
Qed.

(** A write to the row of one gateway that keeps its ID. *)
Lemma fine_alter_gateway f id d :
  fine d -> harmless my_gateway (gateways d0) id -> (forall g, gw_ID (f g) = gw_ID g) -> fine (upd_gateways (alter f id) d).
Proof.
  intros Hd Hh Hf. apply (fine_gateways id _ _ Hd Hh); try done; [off_key|]. cbn. intros g. rewrite lookup_alter_eq.
  destruct (gateways d !! id) as [g'|] eqn:E; [|done]. intros [= <-]. rewrite Hf. by eapply fd_gateways, E; apply Hd.
Qed.

Lemma sok_UpdateGateway id now req :
  harmless my_gateway (gateways d0) id -> sok (fleet_UpdateGateway id now req) (fun g => harmless my_gateway (gateways d0) (gw_ID g)).
Proof.
  intros Hh. apply (sok_bind _ _ _ _ (sok_GetGateway id)). intros g [Hid _]. cbv zeta.
  apply (sok_bind _ _ (fun _ => True)); [|intros _ _; apply sok_ret; cbn; by rewrite Hid]. apply sok_wrap, sok_update. intros d Hd _. cbn.
  rewrite Hid. split; [|done]. by apply fine_alter_gateway.
Qed.

Lemma sok_DeleteGateway id : harmless my_gateway (gateways d0) id -> sok (fleet_DeleteGateway id) (fun _ => True).
Proof.
  intros Hh. apply sok_update. intros d Hd _. split; [|done]. apply (fine_gateways id _ _ Hd Hh); try done; [off_key|].
  cbn. intros g. by rewrite lookup_delete_eq.
Qed.

Lemma sok_GatewayHeartbeat id_String bus id now tick :
  harmless my_gateway (gateways d0) id -> sok (RecordGatewayHeartbeat id_String bus id now tick) (fun _ => True).
Proof.
  intros Hh. eapply sok_bind; [eapply sok_heartbeat, sok_GetGateway|]. intros prev _.
  apply (sok_bind _ _ (fun _ => True)); [|intros; by apply sok_ret]. apply sok_update. intros d Hd _. split; [|done].
  by apply fine_alter_gateway.
Qed.

Lemma sok_CreateGroup newID now req :
  sok (fleet_CreateNodeGroup newID now req) (fun g => harmless my_group (node_groups d0) (ng_ID g)).
Proof.
  apply (sok_bind _ _ (fun _ => True)); [apply sok_lift|intros _ _]. apply sok_wrap, sok_insert. intros d Hd Hk.
  assert (Hh : harmless my_group (node_groups d0) newID) by (exact (harmless_free _ _ _ _ (fk_groups _ _ (proj1 Hd)) (has_key_false _ _ Hk))).
  split; [|done]. apply (fine_groups newID _ _ Hd Hh); try done; [off_key|]. cbn. intros g. rewrite lookup_insert_eq. by intros [= <-].
Qed.

Lemma sok_GetGroup id :
  sok (fleet_GetNodeGroup id) (fun g => ng_ID g = id /\ (my_group g -> harmless my_group (node_groups d0) id)).
Proof.
  apply sok_query. intros d g [K D]. unfold get_row. destruct (node_groups d !! id) as [g'|] eqn:E; [|done]. intros [= <-].
  split; [by eapply fd_groups|]. intros Hm. exact (harmless_row _ _ _ _ _ (fk_groups _ _ K) E Hm).
Qed.

Lemma sok_DeleteGroup id : harmless my_group (node_groups d0) id -> sok (fleet_DeleteNodeGroup id) (fun _ => True).
Proof.
  intros Hh s r s' Hs Hrun. apply sql_update_inv in Hrun. destruct r; [|by rewrite Hrun]. destruct Hrun as (_ & _ & ->).
  split; [|done]. apply (fine_groups id _ _ Hs Hh); destruct (sq_fk s); try done; try off_key;
    cbn; intros n; by rewrite lookup_delete_eq.
Qed.

Lemma sok_ListNodes cursor params :
  sok (fleet_ListNodes cursor (Some t) params) (fun l => Forall (fun n => harmless my_node (nodes d0) (node_ID n)) l.1).
Proof.
  apply (sok_bind _ _ (fun _ => True)); [by apply sok_query|]. intros total _. apply sok_query. intros d l [K D] Hl.
  assert (Hin : forall n, n ∈ l.1 -> n ∈ filter (fun n => Some t = None \/ node_TenantID n = Some t) (rows_of (nodes d))).
  { intros n Hn. destruct cursor as [c|]; injection Hl as <-; apply page_subseteq in Hn; rewrite merge_sort_Permutation in Hn; [|done].
    by apply list_elem_of_filter in Hn as [_ Hn]. }
  apply Forall_forall. intros n [Ht [k Hk]%elem_of_rows]%Hin%list_elem_of_filter. rewrite (fd_nodes _ D _ _ Hk).
  apply (harmless_row _ _ _ _ _ (fk_nodes _ _ K) Hk). right. by destruct Ht.
Qed.

Lemma sok_ListGateways params :
  sok (fleet_ListGateways (Some t) params) (fun l => Forall (fun g => harmless my_gateway (gateways d0) (gw_ID g)) l.1).
Proof.
  apply (sok_bind _ _ (fun _ => True)); [by apply sok_query|]. intros total _. apply sok_query. intros d l [K D] [= <-].
  apply Forall_forall. cbn. intros g Hg%page_subseteq. rewrite merge_sort_Permutation in Hg.
  apply list_elem_of_filter in Hg as [Ht [k Hk]%elem_of_rows]. rewrite (fd_gateways _ D _ _ Hk).
  apply (harmless_row _ _ _ _ _ (fk_gateways _ _ K) Hk). unfold my_gateway. destruct Ht; congruence.
Qed.

Lemma sok_ListGroups params :
  sok (fleet_ListNodeGroups t params) (fun l => Forall (fun g => harmless my_group (node_groups d0) (ng_ID g)) l.1).
Proof.
  apply (sok_bind _ _ (fun _ => True)); [by apply sok_query|]. intros total _. apply sok_query. intros d l [K D] [= <-].
  apply Forall_forall. cbn. intros g Hg%page_subseteq. rewrite merge_sort_Permutation in Hg.
  apply list_elem_of_filter in Hg as [Ht [k Hk]%elem_of_rows]. rewrite (fd_groups _ D _ _ Hk).
  by apply (harmless_row _ _ _ _ _ (fk_groups _ _ K) Hk).
Qed.

(** ** Handlers *)

Definition okay {A} (m : hM A) (phi : A -> Prop) : Prop :=
  forall s x s', fine (sq_db s) -> m s = (x, s') ->
    fine (sq_db s') /\ match x with inl rep => shows d0 (ar_body rep) | inr a => phi a end.

Lemma okay_bind {A B} (m : hM A) (f : A -> hM B) phi psi :
  okay m phi -> (forall a, phi a -> okay (f a) psi) -> okay (m ≫= f) psi.
Proof.
  intros Hm Hf s x s' Hs. unfold mbind, hM_bind. destruct (m s) as [[rep|a] s1] eqn:E; destruct (Hm _ _ _ Hs E) as [Hs1 Ha].
  - by intros [= <- <-].
  - by apply Hf.
Qed.
Lemma okay_ret {A} (a : A) (phi : A -> Prop) : phi a -> okay (mret a) phi.
Proof. intros Ha s x s' Hs [= <- <-]. done. Qed.
Lemma shows_none b : body_nodes b = [] -> body_gateways b = [] -> body_groups b = [] -> shows d0 b.
Proof. intros En Eg Ep. split; rewrite ?En, ?Eg, ?Ep; constructor. Qed.
Lemma okay_reply {A} st code msg (phi : A -> Prop) : okay (reply (WriteError st code msg)) phi.
Proof. intros s x s' Hs [= <- <-]. split; [done|]. by apply shows_none. Qed.

(** Error replies show no rows. *)
Definition blank (f : goerr -> ApiReply) : Prop := forall err, shows d0 (ar_body (f err)).
Lemma blank_400 : blank err400.
Proof. intros err. by apply shows_none. Qed.
Lemma blank_500 msg : blank (err500 msg).
Proof. intros err. by apply shows_none. Qed.
Lemma blank_404 msg f : blank f -> blank (or404 msg f).
Proof. intros Hf err. unfold or404. destruct (errors_Is _ _); [by apply shows_none|done]. Qed.
Lemma blank_409 msg f : blank f -> blank (or409 msg f).
Proof. intros Hf err. unfold or409. destruct (errors_Is _ _); [by apply shows_none|done]. Qed.

Lemma okay_svc {A} (m : stM SqlState A) onerr phi : sok m phi -> blank onerr -> okay (svc m onerr) phi.
Proof.
  intros Hm Hb s x s' Hs. unfold svc. destruct (m s) as [[a|err] s1] eqn:E; intros [= <- <-];
    destruct (Hm _ _ _ Hs E) as [Hs1 Ha]; auto.
Qed.

Section handlers.
Context `{UUID} (srv : ApiServer) (e : ReqEnv) (claims : Claims) (Hclaims : cl_TenantID claims = Some t).

Lemma okay_ParseID r name : okay (ParseID r name) (fun _ => True).
Proof using Type.
  unfold ParseID. case_bool_decide; [apply okay_reply|]. destruct (uuid_Parse _); [by apply okay_ret|apply okay_reply].
Qed.
Lemma okay_Decode {A} (body : option A) : okay (Decode body) (fun _ => True).
Proof using Type. destruct body; [by apply okay_ret|apply okay_reply]. Qed.
Lemma okay_claims r : hq_claims r = Some claims -> okay (ctx_claims r) (fun c => c = claims).
Proof using Type. intros Hr. unfold ctx_claims, ClaimsFromContext. rewrite Hr. by apply okay_ret. Qed.
Lemma okay_absent ok what : okay (or_absent ok what) (fun _ => ok = true).
Proof using Type. destruct ok; [by apply okay_ret|apply okay_reply]. Qed.
Lemma okay_log r c a res l : okay (log_dns e r c a res l) (fun _ => True).
Proof using Type.
  intros s x s' Hs. unfold log_dns, log, dropped, audit_Log, sqlite_CreateAuditEvent. destruct (sql_exec _ _ _) as [y s1] eqn:E. intros [= <- <-].
  split; [|done]. cbn. revert E. unfold sql_exec. destruct (sq_fault s); [|cbv zeta; destruct (has_key _ _)]; intros [= _ <-];
    eapply fine_same; try exact Hs; done.
Qed.

Lemma okay_own_node r id :
  hq_claims r = Some claims -> okay (own_node r id) (fun n => node_ID n = id /\ harmless my_node (nodes d0) id).
Proof using Hclaims.
  intros Hr. eapply okay_bind; [eapply okay_svc; [apply sok_GetNode|auto using blank_404, blank_500]|]. cbn. intros n [Hid Hh].
  eapply okay_bind; [by apply okay_claims|]. intros c ->. eapply okay_bind; [apply okay_absent|]. cbn. intros _ Hacc.
  apply okay_ret. split; [done|]. apply Hh. unfold CanAccessTenant in Hacc. rewrite Hclaims in Hacc. unfold my_node.
  destruct (node_TenantID n); [|by left]. apply bool_decide_eq_true in Hacc as ->. by right.
Qed.
Lemma okay_own_gateway r id :
  hq_claims r = Some claims -> okay (own_gateway r id) (fun g => gw_ID g = id /\ harmless my_gateway (gateways d0) id).
Proof using Hclaims.
  intros Hr. eapply okay_bind; [eapply okay_svc; [apply sok_GetGateway|auto using blank_404, blank_500]|]. cbn. intros g [Hid Hh].
  eapply okay_bind; [by apply okay_claims|]. intros c ->. eapply okay_bind; [apply okay_absent|]. cbn. intros _ Hacc.
  apply okay_ret. split; [done|]. apply Hh. unfold CanAccessTenantVal in Hacc. rewrite Hclaims in Hacc.
  by apply bool_decide_eq_true in Hacc as ->.
Qed.
Lemma okay_own_group r id :
  hq_claims r = Some claims -> okay (own_group r id) (fun g => ng_ID g = id /\ harmless my_group (node_groups d0) id).
Proof using Hclaims.
  intros Hr. eapply okay_bind; [eapply okay_svc; [apply sok_GetGroup|auto using blank_404, blank_500]|]. cbn. intros g [Hid Hh].
  eapply okay_bind; [by apply okay_claims|]. intros c ->. eapply okay_bind; [apply okay_absent|]. cbn. intros _ Hacc.
  apply okay_ret. split; [done|]. apply Hh. unfold CanAccessTenantVal in Hacc. rewrite Hclaims in Hacc.
  by apply bool_decide_eq_true in Hacc as ->.
Qed.

(** Follow a handler, from the rules above. *)
Create HintDb okay.
#[local] Hint Resolve okay_ParseID okay_Decode okay_claims okay_absent okay_log okay_own_node okay_own_gateway okay_own_group
  okay_svc okay_reply blank_400 blank_404 blank_409 blank_500 sok_CreateNode sok_UpdateNode sok_DeleteNode sok_NodeHeartbeat
  sok_CreateGateway sok_UpdateGateway sok_DeleteGateway sok_GatewayHeartbeat sok_CreateGroup sok_DeleteGroup : okay.
Ltac shown := apply okay_ret; split; cbn; rewrite ?Forall_singleton; auto; congruence.
Ltac walk := repeat (eapply okay_bind; [solve [eauto 6 with okay]|cbn; intros ? ?; destruct_and?; subst]); try solve [shown].

(** The calls on nodes, gateways and node groups that look at the tenant of the row. *)
Definition row_checked (c : fleet_call) : bool :=
  match c with
  | CGroupAddNode _ _ | CGroupRemoveNode _ _ | CKeyCreate _ | CKeyList | CKeyGet _ | CKeyDelete _ => false
  | _ => true
  end.

Lemma okay_handler c r s rep s' :
  row_checked c = true -> hq_claims r = Some claims -> fine (sq_db s) ->
  fleet_handler srv e c r s = (rep, s') -> fine (sq_db s') /\ shows d0 (ar_body rep).
Proof using Hclaims.
  intros Hc Hr Hs Hrun. assert (Hh : exists f, fleet_handler srv e c = HandlerFunc f /\ okay (f r) (fun rep => shows d0 (ar_body rep))).
  { destruct c; try discriminate Hc; (eexists; split; [reflexivity|]); cbv beta zeta.
    all: try solve [walk].
    - eapply okay_bind; [by apply okay_claims|]. intros c ->. rewrite Hclaims. eapply okay_bind;
        [eapply okay_svc; [apply sok_ListNodes|apply blank_500]|]. cbn. intros l Hl. repeat case_match; shown.
    - eapply okay_bind; [by apply okay_claims|]. intros c ->. rewrite Hclaims. eapply okay_bind;
        [eapply okay_svc; [apply sok_ListGateways|apply blank_500]|]. cbn. intros l Hl. shown.
    - eapply okay_bind; [by apply okay_claims|]. intros c ->. unfold group_scope. rewrite Hclaims.
      eapply okay_bind; [by apply (okay_ret t (fun x => x = t))|]. intros tid ->. eapply okay_bind;
        [eapply okay_svc; [apply sok_ListGroups|apply blank_500]|]. cbn. intros l Hl. shown. }
  destruct Hh as (f & Hf & Hok). rewrite Hf in Hrun. unfold HandlerFunc in Hrun. destruct (f r s) as [x s1] eqn:E.
  destruct (Hok _ _ _ Hs E) as [Hs1 Hx]. destruct x; injection Hrun as <- <-; done.
Qed.
End handlers.
End isolation.

(** ** Requests *)

#[export] Instance fleet_same_pre : PreOrder fleet_same.
Proof. split; [by intros d|]. intros a b c (A1 & A2 & A3) (B1 & B2 & B3). split_and!; congruence. Qed.

Lemma fleet_same_AuthenticateAPIKey `{AuthLib} now now' key : obeys (on_db fleet_same) (AuthenticateAPIKey now now' key).
Proof.
  unfold AuthenticateAPIKey, sqlite_GetAPIKeyByPrefix. cbv zeta. ob_all; intros s r s'; unfold sql_query, sql_exec;
    destruct (sq_fault s); cbv zeta; repeat case_match; intros; simplify_eq; done.
Qed.

Section requests.
Context `{UUID} `{AuthLib} `{AEAD} (hmac_sha256 : string -> string -> string) (ParseAddress : string -> bool).
Context (srv : ApiServer) (e : ReqEnv).

Lemma fleet_same_authenticate r s x s' :
  authenticate hmac_sha256 (as_tokens srv) e r s = (x, s') -> fleet_same (sq_db s) (sq_db s').
Proof using Type.
  unfold authenticate. destruct (request_token r) as [rep|tok]; [by intros [= _ <-]|].
  case_bool_decide; [by intros [= _ <-]|]. destruct (HasPrefix tok "ef_").
  - unfold mbind, hM_bind, svc. destruct (AuthenticateAPIKey _ _ _ s) as [k s2] eqn:E. apply fleet_same_AuthenticateAPIKey in E.
    destruct k; by intros [= _ <-].
  - destruct (Verify _ _ _ _); by intros [= _ <-].
Qed.

Lemma fine_start t d : fleet_keyed d -> fine t d d.
Proof using Type. intros Hd. split; [|done]. by split; intros k v. Qed.

End requests.

(** C4: on tables whose references hold, through the endpoints for nodes, gateways
    and node groups, except those that add a member to a group or remove one, a
    caller of one tenant neither changes nor removes a row of another tenant, and no
    reply shows a row that belonged to another tenant when the request came in; nodes
    without a tenant are open to all. *)
Theorem fleet_isolation `{UUID} `{AuthLib} `{AEAD} (hmac_sha256 : string -> string -> string)
    (ParseAddress : string -> bool) (srv : ApiServer) (e : ReqEnv) (c : fleet_call) (i : Incoming)
    (s s1 s' : SqlState) (claims : Claims) (t : ID) (rep : ApiReply) :
  authenticate hmac_sha256 (as_tokens srv) e (request (CFleet c) i) s = (inr claims, s1) -> cl_TenantID claims = Some t ->
  row_checked c = true -> inventory_inv (sq_db s) ->
  ServeHTTP hmac_sha256 ParseAddress srv e (CFleet c) i s = (rep, s') ->
  fleet_kept t (sq_db s) (sq_db s') /\ shows t (sq_db s) (ar_body rep).
Proof.
  intros Ha Ht Hc Hinv. rewrite serve_protected, Ha by done.
  assert (Hf : fine t (sq_db s) (sq_db s1)).
  { eapply fine_same; [by eapply fleet_same_authenticate|]. apply fine_start.
    destruct Hinv as [Hn Hg _ Hw _ _ _ _]. split; intros k v Hv; [apply (Hn _ _ Hv)|apply (Hw _ _ Hv)|apply (Hg _ _ Hv)]. }
  destruct (_ && _); [intros [= <- <-]; split; [apply Hf|by apply shows_none]|].
  destruct (permitted _ _); [|intros [= <- <-]; split; [apply Hf|by apply shows_none]].
  intros Hrun. eapply okay_handler in Hrun as [Hf' ?]; [split; [apply Hf'|]|..]; done.
Qed.

(** A node of each of two tenants. *)
Definition fleet_node (id : ID) (tenant : option ID) : Node :=
  mkNode id tenant "n" "n.example.org" "192.0.2.7" "" "" NodeStatusOnline "" "" 22 "root" None "" None None [] "" 0 0.
Definition fleet_db : DB :=
  upd_nodes (fun _ => {[ 20%N := fleet_node 20 (Some 1%N); 21%N := fleet_node 21 (Some 2%N) ]}) api_db.
Definition fleet_state : SqlState := mkSql fleet_db true [].

Lemma fleet_db_inventory : inventory_inv fleet_db.
Proof.
  split; cbn; try apply map_Forall_empty; [|by intros g n Hgn%elem_of_empty].
  assert (Ht : forall k, k = 1%N \/ k = 2%N -> refers (tenants fleet_db) k).
  { intros k [->| ->]; apply has_key_refers; reflexivity. }
  repeat (apply map_Forall_insert_2; [split; [done|]; split; [|intros i [=]]; intros i [= <-]; apply Ht; auto|]).
  apply map_Forall_empty.
Qed.

Lemma fleet_isolation_witness :
  let r := ServeHTTP plain_hmac (fun _ => true) sample_server sample_req (CFleet (CNodeDelete (uuid_String 21)))
             (incoming ann) fleet_state in
  let r' := ServeHTTP plain_hmac (fun _ => true) sample_server sample_req (CFleet CNodeList) (incoming ann) fleet_state in
  fleet_kept 1 fleet_db (sq_db r.2) /\ ar_status r'.1 = 200 /\ shows 1 fleet_db (ar_body r'.1).
Proof.
  cbv zeta. destruct (ServeHTTP _ _ _ _ (CFleet (CNodeDelete _)) _ _) as [rep s'] eqn:E.
  destruct (ServeHTTP _ _ _ _ (CFleet CNodeList) _ _) as [rep2 s2] eqn:E2.
  assert (Hst : ar_status rep2 = 200) by (change rep2 with (rep2, s2).1; rewrite <- E2; vm_compute; reflexivity).
  split; [|split; [exact Hst|]].
  - eapply (fleet_isolation plain_hmac (fun _ => true) sample_server sample_req (CNodeDelete (uuid_String 21)) (incoming ann)
      fleet_state fleet_state s' ann 1%N rep);
      [vm_compute; reflexivity|reflexivity|reflexivity|exact fleet_db_inventory|exact E].
  - eapply (fleet_isolation plain_hmac (fun _ => true) sample_server sample_req CNodeList (incoming ann)
      fleet_state fleet_state s2 ann 1%N rep2);
      [vm_compute; reflexivity|reflexivity|reflexivity|exact fleet_db_inventory|exact E2].
Defined.
