(* ===== verification/ApiPages.v ===== *)
(** * Reading a listing page by page

    A client that asks for the nodes of its tenant and follows [next_cursor].
    The query text, the cursor codec, the keyset query of the store and the reply
    of the handler fit together: the client reads every node after its first
    cursor exactly once, newest first, and stops. *)

From Stdlib Require Import ZArith Lia Ascii String.
From S2P Require Import Prelude GoStrings GoNet GoBase64 GoHttp Secrets Domain Storage StoreDns StoreFleet StoreProvision StoreAccess Fleet Token Auth Api ApiHandlers ApiFleet ApiRoutes ApiFrame ApiTheorems ApiIsolation.

Open Scope Z_scope.

(** ** Queries without escapes *)

Definition query_char (c : ascii) : bool :=
  negb (bool_decide (c = "&"%char)) && negb (bool_decide (c = ";"%char)) && negb (bool_decide (c = "="%char)) &&
  negb (bool_decide (c = "%"%char)) && negb (bool_decide (c = "+"%char)).
Fixpoint query_text (s : string) : bool := match s with "" => true | String c s => query_char c && query_text s end.

Lemma query_text_free s c : query_text s = true -> query_char c = false -> ContainsByte s c = false.
Proof.
  induction s as [|d s IH]; [done|]. cbn. intros [Hd Hs]%andb_true_iff Hc. rewrite IH by done.
  rewrite bool_decide_false; [done|]. intros ->. congruence.
Qed.
Lemma QueryUnescape_text s : query_text s = true -> QueryUnescape s = Some s.
Proof.
  induction s as [|d s IH]; [done|]. cbn. intros [Hd Hs]%andb_true_iff. unfold query_char in Hd. rewrite !andb_true_iff in Hd.
  destruct Hd as [[[[_ _] _] Hp] Hq]. apply negb_true_iff in Hp, Hq. rewrite Hp, Hq, IH by done. done.
Qed.
Lemma cut_first_text k c s : ContainsByte k c = false -> cut_first (k +:+ String c s) c = Some (k, s).
Proof.
  induction k as [|d k IH]; cbn; [by rewrite bool_decide_true|]. intros [Hd Hk]%orb_false_iff.
  apply bool_decide_eq_false in Hd. by rewrite bool_decide_false, IH by congruence.
Qed.
Lemma query_text_app a b : query_text (a +:+ b) = query_text a && query_text b.
Proof. induction a as [|c a IH]; [done|]. cbn. by rewrite IH, andb_assoc. Qed.
Lemma ContainsByte_app_text a b c : ContainsByte (a +:+ b) c = ContainsByte a c || ContainsByte b c.
Proof. induction a as [|d a IH]; [done|]. cbn. by rewrite IH, orb_assoc. Qed.

Lemma parse_segment_text k v :
  query_text k = true -> query_text v = true -> k <> "" -> parse_segment (k +:+ String "=" v) = Some (k, v).
Proof.
  intros Hk Hv Hne. unfold parse_segment.
  rewrite ContainsByte_app_text. cbn [ContainsByte]. rewrite !(query_text_free _ ";") by done.
  rewrite (bool_decide_false (k +:+ String "=" v = "")) by (by destruct k). cbn [orb].
  rewrite (bool_decide_false (";"%char = "="%char)) by done. cbn [orb].
  rewrite cut_first_text by by apply query_text_free. cbn. by rewrite !QueryUnescape_text.
Qed.

(** The query of a page. *)
Definition page_query (limit cursor : string) : string := "limit=" +:+ limit +:+ "&cursor=" +:+ cursor.

Lemma page_query_values limit cursor :
  query_text limit = true -> query_text cursor = true ->
  URL_Query (page_query limit cursor) = {[ "limit" := [limit]; "cursor" := [cursor] ]}.
Proof.
  intros Hl Hc. unfold URL_Query, page_query.
  change ("limit=" +:+ limit +:+ "&cursor=" +:+ cursor) with ("limit" +:+ String "=" (limit +:+ String "&" ("cursor" +:+ String "=" cursor))).
  assert (Hsplit : Split ("limit" +:+ String "=" (limit +:+ String "&" ("cursor" +:+ String "=" cursor))) "&" =
    ["limit" +:+ String "=" limit; "cursor" +:+ String "=" cursor]).
  { change ("limit" +:+ String "=" (limit +:+ String "&" ("cursor" +:+ String "=" cursor))) with
      (("limit=" +:+ limit) +:+ String "&" ("cursor" +:+ String "=" cursor)).
    rewrite Split_append_sep, Split_sep_free; [done|..]; rewrite ContainsByte_app_text; cbn; by rewrite (query_text_free _ "&"). }
  rewrite Hsplit. cbn [omap list_omap]. rewrite !parse_segment_text by done. cbn.
  rewrite insert_insert_ne by done. by rewrite <- insert_empty.
Qed.

Lemma url_digit_text v : 0 <= v < 64 -> query_char (url_digit v) = true.
Proof.
  intros Hv. assert (H : forallb (fun v => query_char (url_digit v)) (seqZ 0 64) = true) by (vm_compute; reflexivity).
  rewrite forallb_forall in H. apply H. rewrite <-list_elem_of_In, elem_of_seqZ. lia.
Qed.
Lemma RawURL_text s : query_text (RawURL_EncodeToString s) = true.
Proof.
  unfold RawURL_EncodeToString. induction s as [|a|a b|a b c s IH] using string_ind3; cbn [encode_with query_text append]; [done|..].
  all: pose proof (byte_of_range a); try pose proof (byte_of_range b); try pose proof (byte_of_range c).
  all: rewrite ?IH, !url_digit_text by (Z.div_mod_to_equations; lia); done.
Qed.
Lemma EncodeCursor_text j t id : query_text (EncodeCursor j t id) = true.
Proof. unfold EncodeCursor. destruct (cj_Marshal j _); [apply RawURL_text|done]. Qed.

(** ** The order of the listing *)

Lemma string_ltb_trans a b c : String.ltb a b = true -> String.ltb b c = true -> String.ltb a c = true.
Proof.
  revert b c. unfold String.ltb. induction a as [|x a IH]; intros [|y b] [|z c]; cbn; try done.
  destruct (Ascii.compare x y) eqn:Hxy; destruct (Ascii.compare y z) eqn:Hyz; try done; unfold Ascii.compare in *.
  - apply N.compare_eq in Hxy. rewrite Hxy, Hyz. apply IH.
  - apply N.compare_eq in Hxy. by rewrite Hxy, Hyz.
  - apply N.compare_eq in Hyz. by rewrite <-Hyz, Hxy.
  - apply N.compare_lt_iff in Hxy, Hyz. by rewrite (proj2 (N.compare_lt_iff _ _) (N.lt_trans _ _ _ Hxy Hyz)).
Qed.

(** [a] is listed before [b]. *)
Definition newer (a b : Node) : Prop :=
  node_CreatedAt b < node_CreatedAt a \/ (node_CreatedAt a = node_CreatedAt b /\ (node_ID b < node_ID a)%N).
#[export] Instance newer_dec : RelDecision newer.
Proof. intros a b. unfold newer. apply _. Defined.

Notation listed := (by_created_id_desc node_CreatedAt node_ID).
#[export] Instance listed_trans : Transitive listed.
Proof. intros a b c. unfold by_created_id_desc. lia. Qed.
#[export] Instance listed_total : Total listed.
Proof. intros a b. unfold by_created_id_desc. lia. Qed.

Section filters.
Context {A : Type} (P : A -> Prop) `{!forall x, Decision (P x)}.
Lemma filter_id (l : list A) : (forall x, x ∈ l -> P x) -> filter P l = l.
Proof using Type.
  induction l as [|x l IH]; intros Hl; [done|]. rewrite filter_cons_True, IH; [done|set_solver|set_solver].
Qed.
Lemma filter_empty (l : list A) : (forall x, x ∈ l -> ~ P x) -> filter P l = [].
Proof using Type. induction l as [|x l IH]; intros Hl; [done|]. rewrite filter_cons_False, IH; [done|set_solver|set_solver]. Qed.
Lemma filter_sorted (R : relation A) (l : list A) : StronglySorted R l -> StronglySorted R (filter P l).
Proof using Type.
  induction 1 as [|x l Hs IH Hx]; [constructor|]. rewrite filter_cons. destruct (decide (P x)); [|done]. constructor; [done|].
  rewrite Forall_forall in Hx |- *. intros y [_ Hy]%list_elem_of_filter. auto.
Qed.
End filters.

(** A strictly sorted list after the last element of a prefix. *)
Lemma filter_after_prefix (l : list Node) k x :
  StronglySorted newer l -> last (take k l) = Some x -> filter (newer x) l = drop k l.
Proof.
  intros Hs Hx. apply last_Some in Hx as [p Hp]. rewrite <-(take_drop k l), Hp in Hs. rewrite <-(take_drop k l) at 1. rewrite Hp.
  apply StronglySorted_app in Hs as (Hpd & Hpx & _). apply StronglySorted_app in Hpx as (Hpx & _ & _). rewrite filter_app.
  replace (filter (newer x) (p ++ [x])) with (@nil Node).
  - cbn. apply filter_id. intros y Hy. apply Hpd; [set_solver|done].
  - symmetry. apply filter_empty. intros y Hy Hn. unfold newer in *. apply elem_of_app in Hy as [Hy|Hy].
    + specialize (Hpx y x Hy ltac:(set_solver)). lia.
    + apply list_elem_of_singleton in Hy as ->. lia.
Qed.

(** Rows of a table keyed by ID. *)
Definition distinct_rows (rows : list Node) : Prop :=
  NoDup rows /\ forall a b, a ∈ rows -> b ∈ rows -> node_ID a = node_ID b -> a = b.

Definition listing (c : Time * (ID -> bool)) (rows : list Node) : list Node := merge_sort listed (filter (after_cursor c) rows).

Lemma elem_of_listing c rows n : n ∈ listing c rows <-> after_cursor c n /\ n ∈ rows.
Proof. unfold listing. by rewrite merge_sort_Permutation, list_elem_of_filter. Qed.

Lemma listing_sorted c rows : distinct_rows rows -> StronglySorted newer (listing c rows).
Proof.
  intros [Hnd Hid].
  assert (Hs : StronglySorted listed (listing c rows)) by (apply StronglySorted_merge_sort; apply _).
  assert (Hn : NoDup (listing c rows)) by (unfold listing; rewrite merge_sort_Permutation; by apply NoDup_filter).
  assert (Hin : forall n, n ∈ listing c rows -> n ∈ rows) by (intros n [_ ?]%elem_of_listing; done).
  induction Hs as [|x l Hs IH Hx]; constructor.
  - apply IH; [by inversion Hn|]. intros n Hl. apply Hin. by right.
  - rewrite Forall_forall in Hx |- *. intros y Hy. specialize (Hx y Hy). unfold by_created_id_desc, newer in *.
    assert (node_ID x <> node_ID y); [|lia]. intros E. apply NoDup_cons in Hn as [Hxl _]. apply Hxl.
    rewrite (Hid x y); [done|apply Hin; by left|apply Hin; by right|done].
Qed.

(** The listing after the last node of a page is the rest of the listing. *)
Lemma listing_rest c c' rows k x :
  distinct_rows rows -> last (take k (listing c rows)) = Some x ->
  (forall n, n ∈ rows -> after_cursor c' n <-> newer x n) ->
  (forall n, n ∈ rows -> newer x n -> after_cursor c n) ->
  listing c' rows = drop k (listing c rows).
Proof.
  intros Hd Hx Hc' Hmono. rewrite <-(filter_after_prefix _ _ x) by (done || by apply listing_sorted).
  pose proof (listing_sorted c' _ Hd) as Hs'. pose proof (listing_sorted c _ Hd) as Hs. destruct Hd as [Hnd _].
  apply (StronglySorted_unique_strong newer); [intros a b _ _; unfold newer; lia|done|by apply filter_sorted|].
  apply NoDup_Permutation.
  - unfold listing. rewrite merge_sort_Permutation. by apply NoDup_filter.
  - apply NoDup_filter. unfold listing. rewrite merge_sort_Permutation. by apply NoDup_filter.
  - intros n. rewrite list_elem_of_filter, !elem_of_listing. naive_solver.
Qed.

(** ** The client *)

Section client.
Context `{UUIDLaws} `{AuthLib} `{AEAD} (hmac_sha256 : string -> string -> string) (ParseAddress : string -> bool).
Context (srv : ApiServer) (e : ReqEnv) (claims : Claims) (auth addr limit : string).

Definition page_request (cursor : string) : Incoming := mkIncoming auth None (page_query limit cursor) addr.

(** Ask for the page at [cursor] and follow [next_cursor]; [None] when a reply
    is not a page of nodes. *)
Fixpoint read_pages (fuel : nat) (cursor : string) (s : SqlState) : option (list Node) :=
  match fuel with
  | 0%nat => None
  | S fuel =>
      let '(rep, s) := ServeHTTP hmac_sha256 ParseAddress srv e (CFleet CNodeList) (page_request cursor) s in
      match ar_body rep with
      | BNodesPage l _ _ next => app l <$> read_pages fuel next s
      | BNodes l _ _ _ => Some l
      | _ => None
      end
  end.

Context (s : SqlState) (Hs : calm s) (Hc : bears hmac_sha256 srv e (page_request "") claims).
Context (Hp : permitted claims (CFleet CNodeList) = true) (Hm : cl_MFAPending claims = false).
Context (n : Z) (Hl : query_text limit = true) (Hn : Atoi limit = Some n) (Hr : 1 <= n <= 200).
Context (Hlaw : cursor_law (as_cursor srv)).

Notation rows := (filter (fun n => cl_TenantID claims = None \/ node_TenantID n = cl_TenantID claims) (rows_of (nodes (sq_db s)))).

Context (Hrows : distinct_rows rows).
Context (Hmarshal : forall m, m ∈ rows -> is_Some (cj_Marshal (as_cursor srv) (mkCursorData (node_CreatedAt m) (uuid_String (node_ID m))))).
Context (Horder : forall m m', m ∈ rows -> m' ∈ rows ->
  String.ltb (uuid_String (node_ID m)) (uuid_String (node_ID m')) = (node_ID m <? node_ID m')%N).

Lemma page_params cursor r :
  query_text cursor = true -> hq_RawQuery r = page_query limit cursor -> ParseListParams r = mkListParams 0 n cursor.
Proof using Hl Hn Hr.
  intros Ht Hq. unfold ParseListParams, query_get. rewrite Hq, page_query_values by done.
  assert (Ho : ({["limit" := [limit]; "cursor" := [cursor]]} : gmap string (list string)) !! "offset" = None)
    by by rewrite lookup_insert_ne, lookup_singleton_ne.
  assert (Hcu : ({["limit" := [limit]; "cursor" := [cursor]]} : gmap string (list string)) !! "cursor" = Some [cursor])
    by by rewrite lookup_insert_ne, lookup_singleton_eq.
  rewrite Ho, Hcu, lookup_insert_eq. cbn [Atoi]. rewrite Hn.
  rewrite (proj2 (Z.ltb_lt 0 n)), (proj2 (Z.ltb_ge 200 n)) by lia. done.
Qed.

(** The reply to a request for the page at a cursor. *)
Lemma serve_page cursor d :
  query_text cursor = true -> DecodeCursor (as_cursor srv) cursor = Some d ->
  exists total, let c := (cd_CreatedAt d, fun id => String.ltb (uuid_String id) (cd_ID d)) in
    let l := take (Z.to_nat n) (listing c rows) in
    ServeHTTP hmac_sha256 ParseAddress srv e (CFleet CNodeList) (page_request cursor) s =
    (JSON 200 match last l with
              | Some x => if Z.of_nat (length l) =? n
                          then BNodesPage l total n (EncodeCursor (as_cursor srv) (node_CreatedAt x) (uuid_String (node_ID x)))
                          else BNodes l total 0 n
              | None => BNodes l total 0 n
              end, s).
Proof using Hs Hc Hp Hm Hl Hn Hr.
  intros Ht Hd. eexists. cbv zeta. rewrite serve_protected by done.
  assert (Hb : bears hmac_sha256 srv e (page_request cursor) claims) by (destruct Hc as (tok & Hi & Hrest); exists tok; done).
  rewrite (bears_authenticates hmac_sha256 srv e _ claims), Hm by done. cbn [andb]. rewrite Hp.
  cbn [inner owner_check Chain foldr handler fleet_handler].
  unfold inner. cbn [owner_check Chain foldr handler fleet_handler]. unfold nodeH_List, HandlerFunc. cbv zeta.
  rewrite (page_params cursor) by done. unfold ctx_claims. cbn [ClaimsFromContext with_claims hq_claims].
  unfold mbind, hM_bind, mret, hM_ret, svc. cbn [lp_Cursor lp_Limit lp_Offset].
  unfold fleet_ListNodes, sqlite_ListNodes. unfold mbind, stM_bind. rewrite !calm_query by done. cbn beta iota.
  assert (Hcne : cursor <> "") by (intros ->; discriminate Hd).
  assert (Hcur : cursor_of srv cursor = Some (cd_CreatedAt d, fun id => String.ltb (uuid_String id) (cd_ID d)))
    by (unfold cursor_of; by rewrite Hd).
  assert (Hpage : forall l : list Node, page (mkListParams 0 n "") l = take (Z.to_nat n) l).
  { intros l. unfold page. cbn. by rewrite (proj2 (Z.leb_gt n 0)) by lia. }
  cbn [lp_Limit]. rewrite Hcur, Hpage. fold (listing (cd_CreatedAt d, fun id => String.ltb (uuid_String id) (cd_ID d)) rows).
  rewrite (bool_decide_false (cursor = "")) by done. cbn [fst snd negb andb].
  destruct (last _); [destruct (_ =? n)|]; reflexivity.
Qed.

Lemma read_pages_spec fuel cursor d :
  query_text cursor = true -> DecodeCursor (as_cursor srv) cursor = Some d ->
  let xs := listing (cd_CreatedAt d, fun id => String.ltb (uuid_String id) (cd_ID d)) rows in
  (length xs < fuel)%nat -> read_pages fuel cursor s = Some xs.
Proof using All.
  revert cursor d. induction fuel as [|fuel IH]; intros cursor d Ht Hd xs Hf; [lia|]. cbn [read_pages].
  destruct (serve_page cursor d Ht Hd) as [total ->]. cbv zeta. cbn [ar_body JSON]. fold xs.
  destruct (last (take (Z.to_nat n) xs)) as [x|] eqn:Hx.
  - assert (Hxs : x ∈ xs).
    { apply last_Some in Hx as [p Hp']. assert (x ∈ take (Z.to_nat n) xs) as Hin by (rewrite Hp'; set_solver).
      eapply elem_of_take in Hin as (i & Hi & _). by eapply list_elem_of_lookup_2. }
    apply elem_of_listing in Hxs as [Hac Hxin].
    destruct (Z.eqb_spec (Z.of_nat (length (take (Z.to_nat n) xs))) n) as [Hlen|Hlen].
    + destruct (Hmarshal x Hxin) as [b Hb].
      pose proof (DecodeCursor_Encode _ _ _ _ Hlaw Hb (uuid_nonempty _)) as Hd'.
      assert (Hrest : listing (node_CreatedAt x, fun id => String.ltb (uuid_String id) (uuid_String (node_ID x))) rows =
                      drop (Z.to_nat n) xs).
      { apply (listing_rest _ _ _ _ x Hrows Hx); unfold after_cursor, newer in *; cbn [fst snd] in *.
        - intros m Hin. rewrite (Horder m x Hin Hxin), N.ltb_lt. lia.
        - intros m Hin [Hlt|[Heq Hlt]]; [lia|]. rewrite Heq in Hac. destruct Hac as [Hac|[Hac Hid]]; [by left|right].
          split; [done|]. eapply string_ltb_trans; [|exact Hid]. rewrite (Horder m x Hin Hxin). by apply N.ltb_lt. }
      rewrite (IH _ _ (EncodeCursor_text _ _ _) Hd'); cbn; rewrite Hrest.
      * cbn. by rewrite take_drop.
      * rewrite length_drop. rewrite length_take in Hlen. lia.
    + f_equal. apply take_ge. rewrite length_take in Hlen. lia.
  - apply last_None in Hx. f_equal. rewrite Hx. destruct xs; [done|]. destruct (Z.to_nat n) eqn:E; [lia|done].
Qed.
End client.

Definition keyed_nodes (d : DB) : Prop := map_Forall (fun k m => node_ID m = k) (nodes d).

Lemma keyed_distinct d P `{!forall m : Node, Decision (P m)} : keyed_nodes d -> distinct_rows (filter P (rows_of (nodes d))).
Proof.
  intros Hk. split.
  - apply NoDup_filter. unfold rows_of. apply (NoDup_fmap_1 node_ID). rewrite <-list_fmap_compose.
    rewrite (list_fmap_ext _ fst); [apply NoDup_fst_map_to_list|].
    intros i [k m] Hi. cbn. apply Hk, elem_of_map_to_list. by eapply list_elem_of_lookup_2.
  - intros a b [_ [k Ha]%elem_of_rows]%list_elem_of_filter [_ [k' Hb]%elem_of_rows]%list_elem_of_filter E.
    rewrite (Hk _ _ Ha), (Hk _ _ Hb) in E. subst. congruence.
Qed.

(** C12: a client that may list nodes and follows the cursor of each reply, with a
    page size from 1 to 200, ends after at most one request more than there are
    nodes; it has then read exactly the nodes of its tenant that come after its
    first cursor, each once, newest first. *)
Theorem pages_read_each_node_once `{UUIDLaws} `{AuthLib} `{AEAD} (hmac_sha256 : string -> string -> string)
    (ParseAddress : string -> bool) (srv : ApiServer) (e : ReqEnv) (claims : Claims) (auth addr limit cursor : string)
    (n : Z) (d : CursorData) (s : SqlState) :
  calm s -> bears hmac_sha256 srv e (page_request auth addr limit "") claims ->
  permitted claims (CFleet CNodeList) = true -> cl_MFAPending claims = false ->
  query_text limit = true -> Atoi limit = Some n -> 1 <= n <= 200 ->
  query_text cursor = true -> DecodeCursor (as_cursor srv) cursor = Some d ->
  cursor_law (as_cursor srv) -> keyed_nodes (sq_db s) ->
  (forall k m, nodes (sq_db s) !! k = Some m ->
     is_Some (cj_Marshal (as_cursor srv) (mkCursorData (node_CreatedAt m) (uuid_String k)))) ->
  (forall k k', is_Some (nodes (sq_db s) !! k) -> is_Some (nodes (sq_db s) !! k') ->
     String.ltb (uuid_String k) (uuid_String k') = (k <? k')%N) ->
  exists l, read_pages hmac_sha256 ParseAddress srv e auth addr limit (S (size (nodes (sq_db s)))) cursor s = Some l /\
    NoDup l /\ StronglySorted newer l /\
    forall m, m ∈ l <->
      (exists k, nodes (sq_db s) !! k = Some m) /\ (cl_TenantID claims = None \/ node_TenantID m = cl_TenantID claims) /\
      (node_CreatedAt m < cd_CreatedAt d \/
       (node_CreatedAt m = cd_CreatedAt d /\ String.ltb (uuid_String (node_ID m)) (cd_ID d) = true)).
Proof.
  intros Hs Hb Hp Hm Hl Hn Hr Ht Hd Hlaw Hk Hmar Hord.
  pose proof (keyed_distinct (sq_db s) (fun m => cl_TenantID claims = None \/ node_TenantID m = cl_TenantID claims) Hk) as Hrows.
  assert (Hin : forall m P `{!forall m : Node, Decision (P m)}, m ∈ filter P (rows_of (nodes (sq_db s))) ->
    nodes (sq_db s) !! node_ID m = Some m).
  { intros m P HP [_ [k Hkm]%elem_of_rows]%list_elem_of_filter. by rewrite (Hk _ _ Hkm). }
  eexists. split; [|split; [|split; [by apply listing_sorted|]]].
  - eapply (read_pages_spec hmac_sha256 ParseAddress srv e claims auth addr limit s Hs Hb Hp Hm n Hl Hn Hr Hlaw Hrows); try done.
    + intros m Hx%Hin. by apply Hmar.
    + intros m m' Hx%Hin Hx'%Hin. apply Hord; by eexists.
    + unfold listing. rewrite merge_sort_Permutation. unfold lt. apply le_n_S.
      etrans; [apply length_filter|]. etrans; [apply length_filter|]. unfold rows_of. by rewrite length_fmap, length_map_to_list.
  - unfold listing. rewrite merge_sort_Permutation. apply NoDup_filter, Hrows.
  - intros m. rewrite elem_of_listing, list_elem_of_filter, elem_of_rows. unfold after_cursor. cbn. tauto.
Qed.

(** Cursors with two times that can be written by hand. *)
Definition two_times : CursorJSON := mkCursorJSON
  (fun d => if cd_CreatedAt d =? 0 then Some (String "a" (cd_ID d)) else
            if cd_CreatedAt d =? 1 then Some (String "b" (cd_ID d)) else None)
  (fun b => match b with
            | String c id => if bool_decide (c = "a"%char) then Some (mkCursorData 0 id) else
                             if bool_decide (c = "b"%char) then Some (mkCursorData 1 id) else None
            | "" => None
            end).
Lemma two_times_law : cursor_law two_times.
Proof.
  intros [t id] b. cbn. destruct (Z.eqb_spec t 0) as [->|]; [by intros [= <-]|].
  destruct (Z.eqb_spec t 1) as [->|]; [by intros [= <-]|done].
Qed.

Definition page_server : ApiServer :=
  mkApiServer (as_tokens sample_server) (as_secrets sample_server) "EdgeFabric" true true two_times (as_rules sample_server)
    (as_resolve sample_server) false (as_net sample_server) true true true (as_outside sample_server)
    (as_provisioner sample_server) (as_keylib sample_server) true.

Definition dated_node (id : ID) (t : Time) : Node :=
  mkNode id (Some 1%N) "n" "n.example.org" "192.0.2.7" "" "" NodeStatusOnline "" "" 22 "root" None "" None None [] "" t t.
Definition page_db : DB := upd_nodes (fun _ => {[ 2%N := dated_node 2 1; 5%N := dated_node 5 0; 7%N := dated_node 7 1 ]}) api_db.

Lemma page_db_nodes k m : nodes page_db !! k = Some m -> (k = 2%N \/ k = 5%N \/ k = 7%N) /\ (node_CreatedAt m = 0 \/ node_CreatedAt m = 1).
Proof. unfold page_db. cbn. rewrite !lookup_insert_Some, lookup_singleton_Some. naive_solver. Qed.

Lemma pages_read_each_node_once_witness :
  read_pages plain_hmac (fun _ => true) page_server sample_req ("Bearer " +:+ token_of ann) "192.0.2.1:4711" "1" 4
    (EncodeCursor two_times 1 "9") (mkSql page_db true []) = Some [dated_node 7 1; dated_node 2 1; dated_node 5 0].
Proof.
  destruct (pages_read_each_node_once plain_hmac (fun _ => true) page_server sample_req ann ("Bearer " +:+ token_of ann)
    "192.0.2.1:4711" "1" (EncodeCursor two_times 1 "9") 1 (mkCursorData 1 "9") (mkSql page_db true [])) as (l & Hl & Hnd & Hs & Hin).
  - reflexivity.
  - exists (token_of ann). split; [reflexivity|]. split; [discriminate|]. split; vm_compute; reflexivity.
  - reflexivity.
  - reflexivity.
  - reflexivity.
  - reflexivity.
  - lia.
  - vm_compute. reflexivity.
  - vm_compute. reflexivity.
  - exact two_times_law.
  - repeat (apply map_Forall_insert_2; [reflexivity|]). apply map_Forall_empty.
  - intros k m [_ [Ht|Ht]]%page_db_nodes; cbn; rewrite Ht; eexists; reflexivity.
  - intros k k' [m [Hk _]%page_db_nodes] [m' [Hk' _]%page_db_nodes].
    destruct Hk as [->|[->| ->]], Hk' as [->|[->| ->]]; vm_compute; reflexivity.
  - change (S (size (nodes (sq_db (mkSql page_db true []))))) with 4%nat in Hl.
    etransitivity; [exact Hl|]. rewrite <-Hl. vm_compute. reflexivity.
Defined.
