(* ===== verification/Middleware.v ===== *)
(** * Middleware around the mux (internal/api/middleware: ratelimit.go, cors.go)

    A middleware either calls the next handler, with the headers it has set on the
    writer, or answers the request itself.  The token bucket of golang.org/x/time/rate
    is the class [Limiter]; asking a limiter follows its lookup at once, as a request
    is not suspended between the two for the minutes after which a limiter is
    dropped. *)

From Stdlib Require Import ZArith Lia Ascii String.
From S2P Require Import Prelude GoStrings GoNet GoBase64 Domain Cache GoHttp.

Open Scope Z_scope.

Inductive mw_result := Next (h : Header) | Answer (status : Z) (h : Header) (body : string).

(** ** ratelimit.go *)

(** A limiter made by [rate.NewLimiter(r, b)] and [Allow] at a time. *)
Class Limiter (L : Type) := {
  NewLimiter : Z -> Z -> L;
  Allow : Time -> L -> bool * L
}.

(** Documented behaviour of a bucket of [b] tokens that is refilled with [r] tokens
    per second: [level] bounds its content from above, in billionths of a token. *)
Class LimiterLaws (L : Type) `{Limiter L} := {
  level : L -> Time -> Z;
  rate_of : L -> Z * Z;
  rate_new r b : rate_of (NewLimiter r b) = (r, b);
  rate_allow t l : rate_of (Allow t l).2 = rate_of l;
  level_range l t : 0 <= level l t <= Z.max 0 (rate_of l).2 * 1000000000;
  level_later l t t' : 0 <= (rate_of l).1 -> t <= t' -> level l t' <= level l t + (rate_of l).1 * (t' - t);
  allow_taken t l l' : Allow t l = (true, l') -> level l' t + 1000000000 <= level l t;
  allow_refused t l l' : Allow t l = (false, l') -> level l' t <= level l t
}.

Record visitorLimiter (L : Type) := mkVisitor { vl_limiter : L; vl_lastSeen : Time }.
Arguments mkVisitor {L}. Arguments vl_limiter {L}. Arguments vl_lastSeen {L}.
Record RateLimiter (L : Type) := mkRateLimiter {
  rl_limiters : gmap string (visitorLimiter L); rl_rps : Z; rl_burst : Z; rl_cleanup : Z
}.
Arguments mkRateLimiter {L}. Arguments rl_limiters {L}. Arguments rl_rps {L}. Arguments rl_burst {L}. Arguments rl_cleanup {L}.

Definition minute : Z := 60 * 1000000000.

Section ratelimit.
Context {L : Type} `{Limiter L}.

Definition NewRateLimiter (rps burst : Z) : RateLimiter L := mkRateLimiter ∅ rps burst (3 * minute).

Definition set_limiters (m : gmap string (visitorLimiter L)) (rl : RateLimiter L) : RateLimiter L :=
  mkRateLimiter m (rl_rps rl) (rl_burst rl) (rl_cleanup rl).

(** The limiter of an address, and the table with its time of use. *)
Definition getLimiter (now : Time) (ip : string) (rl : RateLimiter L) : L * RateLimiter L :=
  let l := match rl_limiters rl !! ip with Some v => vl_limiter v | None => NewLimiter (rl_rps rl) (rl_burst rl) end in
  (l, set_limiters (<[ip := mkVisitor l now]> (rl_limiters rl)) rl).

(** [getLimiter(ip).Allow()]: the limiter in the table is the one that is asked. *)
Definition allow_ip (now : Time) (ip : string) (rl : RateLimiter L) : bool * RateLimiter L :=
  let '(l, rl) := getLimiter now ip rl in
  let '(b, l') := Allow now l in
  (b, set_limiters (<[ip := mkVisitor l' now]> (rl_limiters rl)) rl).

(** One turn of [cleanupLoop]. *)
Definition cleanup (now : Time) (rl : RateLimiter L) : RateLimiter L :=
  set_limiters (filter (fun kv => negb (rl_cleanup rl <? now - vl_lastSeen kv.2)) (rl_limiters rl)) rl.

Definition clientIP (remoteAddr : string) : string :=
  match SplitHostPort remoteAddr with Some (host, _) => host | None => remoteAddr end.

Definition quoted (s : string) : string := String (chr 34) (s +:+ String (chr 34) "").
Definition too_many : string :=
  "{" +:+ quoted "error" +:+ ":" +:+ quoted "rate_limit_exceeded" +:+ "," +:+ quoted "message" +:+ ":" +:+ quoted "too many requests" +:+ "}".

Definition limit_Middleware (paths : list string) (now : Time) (path remoteAddr : string) (h : Header) (rl : RateLimiter L)
    : mw_result * RateLimiter L :=
  if negb (bool_decide (paths = [])) && negb (bool_decide (path ∈ paths)) then (Next h, rl)
  else let '(ok, rl) := allow_ip now (clientIP remoteAddr) rl in
    if ok then (Next h, rl)
    else (Answer 429 (Header_Set "Content-Type" "application/json" (Header_Set "Retry-After" "1" h)) too_many, rl).
End ratelimit.

(** The limiter of the router, and the paths it guards (api/router.go). *)
Definition router_limiter {L} `{Limiter L} : RateLimiter L := NewRateLimiter 10 20.
Definition limited_paths : list string := ["/api/v1/auth/login"; "/api/v1/auth/totp/verify"; "/api/v1/api-keys"; "/api/v1/enroll"].

(** ** cors.go *)

Record CORSConfig := mkCORSConfig {
  cc_AllowedOrigins : list string; cc_AllowedMethods : list string; cc_AllowedHeaders : list string;
  cc_AllowCredentials : bool; cc_MaxAge : Z
}.
Definition DefaultCORSConfig : CORSConfig :=
  mkCORSConfig [] ["GET"; "POST"; "PUT"; "DELETE"; "PATCH"; "OPTIONS"] ["Authorization"; "Content-Type"; "X-Request-ID"] true 86400.

(** The loop of [itoa]; [None] when the buffer of 20 bytes is too short. *)
Fixpoint itoa_loop (room : nat) (n : Z) (acc : string) : option string :=
  if n <=? 0 then Some acc
  else match room with
       | O => None
       | S room => itoa_loop room (n / 10) (String (digit_char (n mod 10)) acc)
       end.
Definition itoa (n : Z) : option string := if n =? 0 then Some "0" else itoa_loop 20 n "".

Definition CORS (cfg : CORSConfig) (method origin : string) (h : Header) : mw_result :=
  if bool_decide (cc_AllowedOrigins cfg = []) then Next h
  else
    let allowAll := bool_decide ("*" ∈ cc_AllowedOrigins cfg) in
    if bool_decide (origin = "") then Next h
    else if negb allowAll && negb (bool_decide (origin ∈ cc_AllowedOrigins cfg)) then Next h
    else
      let h := if allowAll then Header_Set "Access-Control-Allow-Origin" "*" h
               else Header_Set "Vary" "Origin" (Header_Set "Access-Control-Allow-Origin" origin h) in
      let h := if cc_AllowCredentials cfg && negb allowAll then Header_Set "Access-Control-Allow-Credentials" "true" h else h in
      if bool_decide (method = "OPTIONS") then
        let h := Header_Set "Access-Control-Allow-Headers" (Join (cc_AllowedHeaders cfg) ", ")
                   (Header_Set "Access-Control-Allow-Methods" (Join (cc_AllowedMethods cfg) ", ") h) in
        let h := if 0 <? cc_MaxAge cfg then Header_Set "Access-Control-Max-Age" (default "" (itoa (cc_MaxAge cfg))) h else h in
        Answer 204 h ""
      else Next h.

(** ** How often a client gets through *)

Inductive rl_event := Request (path remoteAddr : string) | CleanupTick.

Section bound.
Context {L : Type} `{LimiterLaws L} (paths : list string) (ip : string) (a b : Time).

Definition limited (path : string) : bool := bool_decide (paths = []) || bool_decide (path ∈ paths).

(** The requests of [ip] to the limited paths that reach the next handler between [a] and [b]. *)
Fixpoint admitted (l : list (Time * rl_event)) (rl : RateLimiter L) : Z :=
  match l with
  | [] => 0
  | (t, Request path remoteAddr) :: l =>
      let '(r, rl) := limit_Middleware paths t path remoteAddr ∅ rl in
      (if limited path && bool_decide (clientIP remoteAddr = ip) && (a <=? t) && (t <=? b)
       then match r with Next _ => 1 | Answer _ _ _ => 0 end else 0) + admitted l rl
  | (t, CleanupTick) :: l => admitted l (cleanup t rl)
  end.

Fixpoint in_order (now : Time) (l : list (Time * rl_event)) : Prop :=
  match l with [] => True | (t, _) :: l => now <= t /\ in_order t l end.

Context (rps burst period : Z) (Hrps : 0 <= rps) (Hburst : 0 <= burst) (Hrefill : burst * 1000000000 <= rps * period).
Notation F := (burst * 1000000000).

(** An ideal bucket with [v] at time [last]. *)
Definition ideal (v : Z) (last t : Time) : Z := Z.min F (v + rps * (t - last)).

Lemma ideal_step v last t t' : t <= t' -> ideal v last t' <= ideal v last t + rps * (t' - t).
Proof using Hrps.
  intros Ht. unfold ideal. replace (rps * (t' - last)) with (rps * (t - last) + rps * (t' - t)) by ring.
  pose proof (Z.mul_nonneg_nonneg rps (t' - t) Hrps ltac:(lia)). lia.
Qed.

Lemma ideal_mono v last t t' : t <= t' -> ideal v last t <= ideal v last t'.
Proof using Hrps.
  intros Ht. unfold ideal. replace (rps * (t' - last)) with (rps * (t - last) + rps * (t' - t)) by ring.
  pose proof (Z.mul_nonneg_nonneg rps (t' - t) Hrps ltac:(lia)). lia.
Qed.

Lemma ideal_restart v last t t' c : 0 <= c -> t <= t' -> ideal (ideal v last t - c) t t' <= ideal v last t'.
Proof using Hrps.
  intros Hc Ht. unfold ideal. replace (rps * (t' - last)) with (rps * (t - last) + rps * (t' - t)) by ring.
  pose proof (Z.mul_nonneg_nonneg rps (t' - t) Hrps ltac:(lia)). lia.
Qed.

(** The limiter of [ip] never holds more than the ideal bucket, and is absent only
    when that is full. *)
Definition bucket (now : Time) (rl : RateLimiter L) (v : Z) (last : Time) : Prop :=
  rl_rps rl = rps /\ rl_burst rl = burst /\ rl_cleanup rl = period /\ last <= now /\ 0 <= v <= F /\
  match rl_limiters rl !! ip with
  | Some vl => vl_lastSeen vl = last /\ rate_of (vl_limiter vl) = (rps, burst) /\ level (vl_limiter vl) last <= v
  | None => F <= v + rps * (now - last)
  end.

Lemma bucket_later now t rl v last : now <= t -> bucket now rl v last -> bucket t rl v last.
Proof using Hrps.
  intros Ht (? & ? & ? & ? & ? & Hl). unfold bucket. split_and!; try lia. destruct (rl_limiters rl !! ip); [done|].
  replace (rps * (t - last)) with (rps * (now - last) + rps * (t - now)) by ring.
  pose proof (Z.mul_nonneg_nonneg rps (t - now) Hrps ltac:(lia)). lia.
Qed.

Lemma bucket_level now rl v last vl t : bucket now rl v last -> now <= t -> rl_limiters rl !! ip = Some vl ->
  level (vl_limiter vl) t <= ideal v last t.
Proof using Hrps Hburst.
  intros (_ & _ & _ & Hn & _ & Hl) Ht E. rewrite E in Hl. destruct Hl as (_ & Hr & Hle).
  pose proof (level_range (vl_limiter vl) t) as Hf. pose proof (level_later (vl_limiter vl) last t) as Hs.
  rewrite Hr in Hf, Hs. cbn in Hf, Hs. specialize (Hs Hrps ltac:(lia)). unfold ideal. lia.
Qed.

Lemma bucket_allow now rl v last t ok rl' : bucket now rl v last -> now <= t -> allow_ip t ip rl = (ok, rl') ->
  0 <= ideal v last t - (if ok : bool then 1000000000 else 0) /\ bucket t rl' (ideal v last t - (if ok then 1000000000 else 0)) t.
Proof using Hrps Hburst.
  intros HB Ht. pose proof (bucket_later _ _ _ _ _ Ht HB) as HBt. destruct HB as (E1 & E2 & E3 & Hn & Hv & Hl).
  unfold allow_ip, getLimiter. cbn [rl_limiters set_limiters].
  set (l := match rl_limiters rl !! ip with Some x => vl_limiter x | None => _ end).
  assert (Hlev : level l t <= ideal v last t /\ rate_of l = (rps, burst)).
  { subst l. destruct (rl_limiters rl !! ip) as [vl|] eqn:E.
    - split; [by eapply bucket_level|by destruct Hl as (_ & ? & _)].
    - rewrite E1, E2, rate_new. split; [|done]. destruct HBt as (_ & _ & _ & _ & _ & Hf). rewrite E in Hf.
      pose proof (level_range (NewLimiter rps burst) t) as Hr. rewrite rate_new in Hr. cbn in Hr. unfold ideal. lia. }
  destruct Hlev as [Hlev Hrate]. destruct (Allow t l) as [ok' l'] eqn:Ea. intros [= <- <-].
  pose proof (rate_allow t l) as Hra. rewrite Ea in Hra. cbn in Hra.
  pose proof (level_range l' t) as Hr'. pose proof (level_range l t) as Hr.
  assert (ideal v last t <= F) as Hcap by (unfold ideal; lia).
  assert (level l' t <= ideal v last t - (if ok' then 1000000000 else 0)) as Hle.
  { destruct ok'; [apply allow_taken in Ea|apply allow_refused in Ea]; lia. }
  split; [lia|]. unfold bucket. cbn [rl_rps rl_burst rl_cleanup rl_limiters set_limiters]. split_and!; try done; try lia; [destruct ok'; lia|].
  rewrite lookup_insert_eq. cbn. split_and!; [done|congruence|exact Hle].
Qed.

Lemma allow_ip_other t ip' rl : ip' <> ip ->
  rl_limiters (allow_ip t ip' rl).2 !! ip = rl_limiters rl !! ip /\
  rl_rps (allow_ip t ip' rl).2 = rl_rps rl /\ rl_burst (allow_ip t ip' rl).2 = rl_burst rl /\ rl_cleanup (allow_ip t ip' rl).2 = rl_cleanup rl.
Proof using Type.
  intros Hne. unfold allow_ip, getLimiter. destruct (Allow _ _) as [ok l']. cbn. by rewrite !lookup_insert_ne by done.
Qed.

Lemma bucket_other now rl rl' v last : bucket now rl v last -> rl_limiters rl' !! ip = rl_limiters rl !! ip ->
  rl_rps rl' = rl_rps rl -> rl_burst rl' = rl_burst rl -> rl_cleanup rl' = rl_cleanup rl -> bucket now rl' v last.
Proof using Type. intros HB E1 E2 E3 E4. unfold bucket in *. by rewrite E1, E2, E3, E4. Qed.

Lemma bucket_cleanup now rl v last t : bucket now rl v last -> now <= t -> bucket t (cleanup t rl) v last.
Proof using Hrps Hrefill.
  intros HB Ht. pose proof (bucket_later _ _ _ _ _ Ht HB) as (E1 & E2 & E3 & Hn & Hv & Hl).
  unfold bucket, cleanup. cbn [rl_rps rl_burst rl_cleanup rl_limiters set_limiters]. split_and!; try done; try lia.
  destruct (rl_limiters rl !! ip) as [vl|] eqn:E.
  - destruct (negb (rl_cleanup rl <? t - vl_lastSeen vl)) eqn:Ek.
    + rewrite (map_lookup_filter_Some_2 _ _ _ vl); [done|done|]. cbn. by rewrite Ek.
    + rewrite map_lookup_filter_None_2; [|right; intros x; rewrite E; intros [= <-]; cbn; rewrite Ek; by intros []].
      apply negb_false_iff, Z.ltb_lt in Ek. destruct Hl as (El & _). rewrite El, E3 in Ek.
      pose proof (Z.mul_le_mono_nonneg_l period (t - last) rps Hrps ltac:(lia)). lia.
  - rewrite map_lookup_filter_None_2; [done|by left].
Qed.

Notation most now v last := (if b <? now then 0 else ideal v last (Z.max now a) + rps * (b - Z.max now a)).

Lemma ideal_nonneg v last t : 0 <= v -> last <= t -> 0 <= ideal v last t.
Proof using Hrps Hburst.
  intros Hv Ht. unfold ideal. pose proof (Z.mul_nonneg_nonneg rps (t - last) Hrps ltac:(lia)). lia.
Qed.

Lemma most_later now t v last : 0 <= v -> last <= now -> now <= t -> a <= b -> most t v last <= most now v last.
Proof using Hrps Hburst.
  intros Hv Hl Ht Hab. destruct (b <? t) eqn:E1, (b <? now) eqn:E2; try lia.
  - pose proof (ideal_nonneg v last (Z.max now a) Hv ltac:(lia)). apply Z.ltb_ge in E2.
    pose proof (Z.mul_nonneg_nonneg rps (b - Z.max now a) Hrps ltac:(lia)). lia.
  - apply Z.ltb_ge in E1, E2. pose proof (ideal_step v last (Z.max now a) (Z.max t a) ltac:(lia)) as Hs.
    replace (rps * (b - Z.max now a)) with (rps * (b - Z.max t a) + rps * (Z.max t a - Z.max now a)) by ring. lia.
Qed.

Lemma most_allowed t v last (ok : bool) : 0 <= v <= F -> last <= t -> a <= b ->
  0 <= ideal v last t - (if ok then 1000000000 else 0) ->
  (if (a <=? t) && (t <=? b) then if ok then 1000000000 else 0 else 0) + most t (ideal v last t - (if ok then 1000000000 else 0)) t <= most t v last.
Proof using Hrps Hburst.
  intros Hv Hl Hab Hnn. destruct (b <? t) eqn:Eb.
  { apply Z.ltb_lt in Eb. rewrite (proj2 (Z.leb_gt t b)) by lia. rewrite andb_false_r. lia. }
  apply Z.ltb_ge in Eb. rewrite (proj2 (Z.leb_le t b)) by lia. rewrite andb_true_r. destruct (a <=? t) eqn:Ea.
  - apply Z.leb_le in Ea. rewrite Z.max_l by lia.
    assert (ideal (ideal v last t - (if ok then 1000000000 else 0)) t t <= ideal v last t - (if ok then 1000000000 else 0)) as Hi.
    { unfold ideal at 1. rewrite Z.sub_diag, Z.mul_0_r. lia. }
    destruct ok; lia.
  - apply Z.leb_gt in Ea. rewrite Z.max_r by lia.
    pose proof (ideal_restart v last t a (if ok then 1000000000 else 0) ltac:(destruct ok; lia) ltac:(lia)). lia.
Qed.

Lemma admitted_bound l : forall now rl v last, a <= b -> in_order now l -> bucket now rl v last ->
  admitted l rl * 1000000000 <= most now v last.
Proof using Hrps Hburst Hrefill.
  induction l as [|[t ev] l IH]; intros now rl v last Hab Ho HB.
  { pose proof HB as (_ & _ & _ & Hl & Hv & _). cbn [admitted]. destruct (b <? now) eqn:E; [lia|]. apply Z.ltb_ge in E.
    pose proof (ideal_nonneg v last (Z.max now a) ltac:(lia) ltac:(lia)). pose proof (Z.mul_nonneg_nonneg rps (b - Z.max now a) Hrps ltac:(lia)). lia. }
  destruct Ho as [Ht Ho]. pose proof HB as (_ & _ & _ & Hl & Hv & _).
  pose proof (most_later now t v last ltac:(lia) Hl Ht Hab) as Hm. destruct ev as [path remoteAddr|]; cbn [admitted].
  2:{ pose proof (IH t _ v last Hab Ho (bucket_cleanup _ _ _ _ _ HB Ht)). lia. }
  unfold limit_Middleware. fold (limited path).
  assert (negb (bool_decide (paths = [])) && negb (bool_decide (path ∈ paths)) = negb (limited path)) as -> by (unfold limited; by rewrite negb_orb).
  destruct (limited path) eqn:El; cbn [negb andb].
  2:{ pose proof (IH t rl v last Hab Ho (bucket_later _ _ _ _ _ Ht HB)). lia. }
  destruct (decide (clientIP remoteAddr = ip)) as [Hip|Hip].
  - rewrite bool_decide_eq_true_2 by done. rewrite Hip. destruct (allow_ip t ip rl) as [ok rl'] eqn:Ea. cbn [andb].
    destruct (bucket_allow _ _ _ _ _ _ _ HB Ht Ea) as [Hnn HB'].
    pose proof (IH t rl' _ _ Hab Ho HB') as Hi. pose proof (most_allowed t v last ok Hv ltac:(lia) Hab Hnn) as Ha.
    destruct ok; cbn beta iota in *; destruct ((a <=? t) && (t <=? b)); cbn beta iota in *; lia.
  - rewrite bool_decide_eq_false_2 by done. destruct (allow_ip_other t (clientIP remoteAddr) rl Hip) as (E1 & E2 & E3 & E4).
    destruct (allow_ip t (clientIP remoteAddr) rl) as [ok rl']. cbn [andb snd] in *.
    pose proof (IH t rl' v last Hab Ho (bucket_other _ _ _ _ _ (bucket_later _ _ _ _ _ Ht HB) E1 E2 E3 E4)).
    destruct ok; lia.
Qed.
End bound.

(** ** Claims *)

(** C37: in every interval, whatever else happens and whenever the table is cleaned
    up, a client address gets at most 20 requests through to the sign-in, second
    factor, API key and enrollment endpoints, and 10 more for each second of the
    interval. *)
Theorem login_attempts_bounded {L} `{LimiterLaws L} (ip : string) (a b t0 : Time) (l : list (Time * rl_event)) :
  a <= b -> in_order t0 l ->
  admitted limited_paths ip a b l router_limiter * 1000000000 <= 20 * 1000000000 + 10 * (b - a).
Proof.
  intros Hab Ho. pose proof (admitted_bound limited_paths ip a b 10 20 (3 * minute) ltac:(lia) ltac:(lia) ltac:(unfold minute; lia)
    l t0 router_limiter (20 * 1000000000) t0 Hab Ho) as Hb.
  etransitivity; [apply Hb|].
  - unfold bucket. cbn [rl_rps rl_burst rl_cleanup rl_limiters router_limiter NewRateLimiter]. rewrite lookup_empty. split_and!; try done; lia.
  - unfold ideal. case_match; lia.
Qed.

(** A cross-origin request is answered as the configuration says: without an
    origin, or with one that is not allowed, it passes through unchanged;
    credentials are allowed only together with the very origin that was listed,
    never with the wildcard; a preflight request of an allowed origin is answered
    and does not reach the handlers. *)
Theorem cors_spec (cfg : CORSConfig) (method origin : string) (h : Header) :
  let allowed := origin <> "" /\ (origin ∈ cc_AllowedOrigins cfg \/ "*" ∈ cc_AllowedOrigins cfg) in
  let out := match CORS cfg method origin h with Next h' | Answer _ h' _ => h' end in
  (~ allowed -> CORS cfg method origin h = Next h) /\
  (allowed -> out !! "Access-Control-Allow-Origin" = Some [if bool_decide ("*" ∈ cc_AllowedOrigins cfg) then "*" else origin]) /\
  (h !! "Access-Control-Allow-Credentials" = None -> out !! "Access-Control-Allow-Credentials" <> None ->
     origin ∈ cc_AllowedOrigins cfg /\ "*" ∉ cc_AllowedOrigins cfg /\ out !! "Access-Control-Allow-Origin" = Some [origin]) /\
  (allowed -> match CORS cfg method origin h with Answer st _ _ => method = "OPTIONS" /\ st = 204 | Next _ => method <> "OPTIONS" end).
Proof.
  cbv zeta. unfold CORS, Header_Set.
  set (kO := CanonicalHeaderKey "Access-Control-Allow-Origin"). set (kC := CanonicalHeaderKey "Access-Control-Allow-Credentials").
  set (kV := CanonicalHeaderKey "Vary"). set (kM := CanonicalHeaderKey "Access-Control-Allow-Methods").
  set (kH := CanonicalHeaderKey "Access-Control-Allow-Headers"). set (kA := CanonicalHeaderKey "Access-Control-Max-Age").
  assert (kO = "Access-Control-Allow-Origin" /\ kC = "Access-Control-Allow-Credentials" /\ kV = "Vary" /\ kM = "Access-Control-Allow-Methods" /\
          kH = "Access-Control-Allow-Headers" /\ kA = "Access-Control-Max-Age") as (-> & -> & -> & -> & -> & ->) by (vm_compute; auto 10).
  case_bool_decide as Hnil.
  { rewrite Hnil. split_and!; try done; intros; set_solver. }
  case_bool_decide as Horigin; [split_and!; try done; by intros [? _]|].
  destruct (decide ("*" ∈ cc_AllowedOrigins cfg)) as [Hall|Hall].
  - rewrite (bool_decide_eq_true_2 _ Hall). cbn [negb andb]. rewrite andb_false_r.
    split_and!; [intros []; tauto|..]; case_bool_decide; try done; repeat case_match; intros; simplify_map_eq; done.
  - rewrite (bool_decide_eq_false_2 _ Hall). cbn [negb andb]. rewrite andb_true_r.
    destruct (decide (origin ∈ cc_AllowedOrigins cfg)) as [Hin|Hin].
    + rewrite (bool_decide_eq_true_2 _ Hin). cbn [negb].
      split_and!; [intros []; tauto|..]; case_bool_decide; try done; repeat case_match; intros; simplify_map_eq; done.
    + rewrite (bool_decide_eq_false_2 _ Hin). cbn [negb]. split_and!; try done; intros; tauto.
Qed.

Lemma itoa_loop_spec k : forall n acc, 0 < n < 10 ^ Z.of_nat k -> itoa_loop k n acc = Some (dec_digits k n acc).
Proof.
  induction k as [|k IH]; intros n acc Hn; [cbn in Hn; lia|].
  cbn [itoa_loop dec_digits]. rewrite (proj2 (Z.leb_gt n 0)) by lia. destruct (Z.ltb_spec n 10).
  - rewrite Z.mod_small, Z.div_small by lia. by destruct k.
  - apply IH. rewrite Nat2Z.inj_succ, Z.pow_succ_r in Hn by lia. split; [apply Z.div_str_pos; lia|apply Z.div_lt_upper_bound; lia].
Qed.

(** The hand-written conversion agrees with [strconv.Itoa] on every non-negative
    64-bit number. *)
Lemma itoa_Itoa n : 0 <= n < 2 ^ 63 -> itoa n = Some (Itoa n).
Proof.
  intros Hn. unfold itoa, Itoa. destruct (Z.eqb_spec n 0) as [->|Hne]; [done|]. rewrite (proj2 (Z.ltb_ge n 0)) by lia.
  apply itoa_loop_spec. split; [lia|]. change (10 ^ Z.of_nat 20) with 100000000000000000000. lia.
Qed.

(** ** Witness *)

Record tokenBucket := mkBucket { tb_rate : Z; tb_burst : Z; tb_tokens : Z; tb_last : option Time }.
Definition tb_level (l : tokenBucket) (t : Time) : Z :=
  Z.max 0 (Z.min (Z.max 0 (tb_burst l) * 1000000000)
    (match tb_last l with None => Z.max 0 (tb_burst l) * 1000000000 | Some u => tb_tokens l + tb_rate l * Z.max 0 (t - u) end)).
#[export] Instance bucket_limiter : Limiter tokenBucket := {
  NewLimiter r b := mkBucket r b 0 None;
  Allow t l := let v := tb_level l t in
    if 1000000000 <=? v then (true, mkBucket (tb_rate l) (tb_burst l) (v - 1000000000) (Some t))
    else (false, mkBucket (tb_rate l) (tb_burst l) v (Some t))
}.
#[export] Instance bucket_limiter_laws : LimiterLaws tokenBucket.
Proof.
  refine (Build_LimiterLaws tokenBucket _ tb_level (fun l => (tb_rate l, tb_burst l)) _ _ _ _ _ _).
  - done.
  - intros t l. cbn. by case_match.
  - intros l t. cbn [snd]. unfold tb_level. destruct (tb_last l); lia.
  - intros l t t' Hr Ht. cbn [fst] in *. unfold tb_level. destruct (tb_last l) as [u|].
    + pose proof (Z.mul_nonneg_nonneg (tb_rate l) (t' - t) Hr ltac:(lia)).
      assert (tb_rate l * Z.max 0 (t' - u) <= tb_rate l * Z.max 0 (t - u) + tb_rate l * (t' - t)) as Hm.
      { rewrite <-Z.mul_add_distr_l. apply Z.mul_le_mono_nonneg_l; lia. }
      lia.
    + pose proof (Z.mul_nonneg_nonneg (tb_rate l) (t' - t) Hr ltac:(lia)). lia.
  - intros t l l'. unfold Allow, bucket_limiter. assert (0 <= tb_level l t) by apply Z.le_max_l. set (v := tb_level l t) in *. cbv zeta.
    destruct (Z.leb_spec 1000000000 v); [|done]. intros [= <-]. unfold tb_level. cbn. rewrite Z.sub_diag, Z.max_id, Z.mul_0_r. lia.
  - intros t l l'. unfold Allow, bucket_limiter. assert (0 <= tb_level l t) by apply Z.le_max_l. set (v := tb_level l t) in *. cbv zeta.
    destruct (Z.leb_spec 1000000000 v); [done|]. intros [= <-]. unfold tb_level. cbn. rewrite Z.sub_diag, Z.max_id, Z.mul_0_r. lia.
Defined.

Definition burst_of_logins : list (Time * rl_event) :=
  (fun i => (Z.of_nat i * 1000000, Request "/api/v1/auth/login" "192.0.2.7:5000")) <$> seq 0 40.

Lemma login_attempts_bounded_witness :
  admitted limited_paths "192.0.2.7" 0 1000000000 burst_of_logins (router_limiter (L:=tokenBucket)) = 20 /\
  admitted limited_paths "192.0.2.7" 0 1000000000 burst_of_logins (router_limiter (L:=tokenBucket)) * 1000000000 <= 20 * 1000000000 + 10 * (1000000000 - 0).
Proof.
  split; [vm_compute; reflexivity|]. apply (login_attempts_bounded "192.0.2.7" 0 1000000000 0 burst_of_logins); [lia|].
  vm_compute. repeat (split; [intros Hc; discriminate Hc|]). exact Logic.I.
Defined.
