(* ===== verification/Notify.v ===== *)
(** * Notifications (internal/events: webhook_handler.go, slack_handler.go,
    email_handler.go; registerNotificationHandlers of internal/app/controller.go)

    A handler is run with an event; what it does is the list of its actions: requests
    sent, SMTP commands, pauses.  The answers of the outside come from oracles, indexed
    by webhook and attempt.  JSON texts, HMAC-SHA256 and the printing of times are
    arguments; the order in which a map of details is ranged over is one too. *)

From Stdlib Require Import ZArith Lia Ascii String.
From S2P Require Import Prelude GoStrings GoNet GoBase64 Domain Cache GoHttp Events.

Open Scope Z_scope.

(** ** Retries *)

Definition a_second : Z := 1000000000.

Inductive once := Sent | Failed (e : goerr) | Aborted (e : goerr).

(** [for attempt := 0; attempt <= retries; attempt++]: before every attempt but the
    first a pause of [1<<(attempt-1)] seconds, which ends the loop when the context is
    done. *)
Inductive outcome := Success | GaveUp (lastErr : goerr) | Stopped (e : goerr).

Section retry.
Context {A : Type} (pause : Z -> A) (ctx_done : nat -> bool) (act : nat -> list A * once).

Fixpoint attempts (n attempt : nat) (lastErr : goerr) : outcome * list A :=
  match n with
  | O => (GaveUp lastErr, [])
  | S n =>
      let wait := match attempt with O => [] | S k => [pause (2 ^ Z.of_nat k * a_second)] end in
      if negb (bool_decide (attempt = 0%nat)) && ctx_done attempt then (Stopped (Errorf "context canceled"), wait)
      else
        let '(done, r) := act attempt in
        match r with
        | Sent => (Success, wait ++ done)
        | Aborted e => (Stopped e, wait ++ done)
        | Failed e => let '(res, log) := attempts n (S attempt) e in (res, wait ++ done ++ log)
        end
  end.
End retry.

(** ** webhook_handler.go *)

Record WebhookConfig := mkWebhook { wh_URL : string; wh_Secret : string }.
Record webhookPayload := mkPayload {
  wp_Event : string; wp_Timestamp : Time; wp_Severity : string; wp_Resource : string; wp_Details : gmap string string
}.
Record webhookRequest := mkWebhookRequest { wr_URL : string; wr_Header : Header; wr_Body : string }.
Inductive action := Pause (d : Z) | Post (r : webhookRequest).

(** [hex.EncodeToString] *)
Fixpoint hex_EncodeToString (s : string) : string :=
  match s with
  | EmptyString => ""
  | String c s => String (hex_digit (byte_of c / 16)) (String (hex_digit (byte_of c mod 16)) (hex_EncodeToString s))
  end.

Section webhook.
Context (hmac_sha256 : string -> string -> string) (marshal : webhookPayload -> string) (valid_url : string -> bool).
(** status of the answer to the request of a webhook at an attempt *)
Context (answer : nat -> nat -> webhookRequest -> option Z) (ctx_done : nat -> bool) (retries : nat).

Definition signPayload (payload secret : string) : string := hex_EncodeToString (hmac_sha256 secret payload).

Definition webhook_request (wh : WebhookConfig) (body : string) : webhookRequest :=
  let h := Header_Set "User-Agent" "EdgeFabric-Webhook/1.0" (Header_Set "Content-Type" "application/json" ∅) in
  let h := if bool_decide (wh_Secret wh = "") then h
           else Header_Set "X-EdgeFabric-Signature" ("sha256=" +:+ signPayload body (wh_Secret wh)) h in
  mkWebhookRequest (wh_URL wh) h body.

Definition ok_status (st : option Z) : bool := match st with Some st => (200 <=? st) && (st <? 300) | None => false end.

Definition post_once (j : nat) (wh : WebhookConfig) (body : string) (attempt : nat) : list action * once :=
  if negb (valid_url (wh_URL wh)) then ([], Aborted (Wrapf "create request" (Errorf "url")))
  else
    let req := webhook_request wh body in
    ([Post req], match answer j attempt req with
                 | None => Failed (Wrapf "POST" (Errorf "transport"))
                 | Some st => if ok_status (Some st) then Sent else Failed (Errorf "POST: status")
                 end).

Definition webhook_send (j : nat) (wh : WebhookConfig) (body : string) : option goerr * list action :=
  let '(r, log) := attempts Pause ctx_done (post_once j wh body) (S retries) 0 (Errorf "") in
  (match r with Success => None | GaveUp e | Stopped e => Some e end, log).

Fixpoint send_all (j : nat) (whs : list WebhookConfig) (body : string) (lastErr : option goerr) : option goerr * list action :=
  match whs with
  | [] => (lastErr, [])
  | wh :: whs =>
      let '(err, log) := webhook_send j wh body in
      let '(res, rest) := send_all (S j) whs body (match err with Some e => Some e | None => lastErr end) in
      (res, log ++ rest)
  end.

Definition payload_of (e : Event) : webhookPayload :=
  mkPayload (ev_Type e) (ev_Timestamp e) (ev_Severity e) (ev_Resource e) (ev_Details e).

Definition webhook_Handle (whs : list WebhookConfig) (e : Event) : option goerr * list action :=
  send_all 0 whs (marshal (payload_of e)) None.
End webhook.

(** ** Texts *)

(** [strings.ReplaceAll] of one byte *)
Fixpoint replace_byte (c : ascii) (by_ s : string) : string :=
  match s with
  | EmptyString => ""
  | String d s => if bool_decide (d = c) then by_ +:+ replace_byte c by_ s else String d (replace_byte c by_ s)
  end.

Definition readableEventType (t : EventType) : string := replace_byte "_" " " (replace_byte "." " — " t).

Definition severityEmoji (s : Severity) : string :=
  if bool_decide (s = SeverityCritical) then ":red_circle:"
  else if bool_decide (s = SeverityWarning) then ":warning:"
  else ":information_source:".

Definition LF : string := String (chr 10) "".
Definition CRLF : string := String (chr 13) LF.

(** ** slack_handler.go *)

Record SlackConfig := mkSlackConfig { sl_WebhookURL : string; sl_Channel : string }.
Record slackText := mkSlackText { st_Type : string; st_Text : string }.
Record slackBlock := mkSlackBlock { sb_Type : string; sb_Text : option slackText; sb_Fields : list slackText }.
Record slackMessage := mkSlackMessage { sm_Channel : string; sm_Blocks : list slackBlock }.

Section slack.
Context (format_time : Time -> string) (details : gmap string string -> list (string * string)).

Definition mrkdwn (s : string) : slackText := mkSlackText "mrkdwn" s.

Definition formatMessage (c : SlackConfig) (e : Event) : slackMessage :=
  mkSlackMessage (sl_Channel c)
    ([ mkSlackBlock "section" (Some (mrkdwn (severityEmoji (ev_Severity e) +:+ " *" +:+ readableEventType (ev_Type e) +:+ "*"))) [];
       mkSlackBlock "section" None [ mrkdwn ("*Severity:*" +:+ LF +:+ ev_Severity e); mrkdwn ("*Resource:*" +:+ LF +:+ ev_Resource e) ] ] ++
     (if bool_decide (ev_Details e = ∅) then []
      else [ mkSlackBlock "section" None ((fun '(k, v) => mrkdwn ("*" +:+ k +:+ ":*" +:+ LF +:+ v)) <$> details (ev_Details e)) ]) ++
     [ mkSlackBlock "context" None [ mrkdwn ("EdgeFabric | " +:+ format_time (ev_Timestamp e)) ] ]).

(** [Handle]: one request, without retry. *)
Definition slack_Handle (marshal : slackMessage -> string) (valid_url : string -> bool) (answer : webhookRequest -> option Z)
    (c : SlackConfig) (e : Event) : option goerr * list action :=
  if negb (valid_url (sl_WebhookURL c)) then (Some (Wrapf "create slack request" (Errorf "url")), [])
  else
    let req := mkWebhookRequest (sl_WebhookURL c) (Header_Set "Content-Type" "application/json" ∅) (marshal (formatMessage c e)) in
    (match answer req with
     | None => Some (Wrapf "POST slack webhook" (Errorf "transport"))
     | Some st => if st =? 200 then None else Some (Errorf "slack webhook returned status")
     end, [Post req]).
End slack.

(** ** email_handler.go *)

Record EmailConfig := mkEmailConfig {
  em_SMTPHost : string; em_SMTPPort : Z; em_Username : string; em_Password : string; em_FromAddr : string;
  em_Recipients : list string; em_UseTLS : bool
}.

(** The calls of net/smtp and crypto/tls, in order. *)
Inductive smtp_call :=
| TlsDial (addr host : string) | SmtpNewClient (host : string) | SmtpAuth (username password host : string)
| SmtpMail (from : string) | SmtpRcpt (to : string) | SmtpData | SmtpWrite (msg : string) | SmtpCloseData
| StdSendMail (addr : string) (auth : option (string * string * string)) (from : string) (to : list string) (msg : string).

Inductive mail_action := MailPause (d : Z) | Smtp (c : smtp_call).

(** What [fmt.Errorf] wraps the error of a call with. *)
Definition smtp_context (c : smtp_call) (e : goerr) : goerr :=
  match c with
  | TlsDial _ _ => Wrapf "tls dial" e
  | SmtpNewClient _ => Wrapf "smtp client" e
  | SmtpAuth _ _ _ => Wrapf "smtp auth" e
  | SmtpMail _ => Wrapf "smtp mail" e
  | SmtpRcpt _ => Wrapf "smtp rcpt" e
  | SmtpData => Wrapf "smtp data" e
  | SmtpWrite _ => Wrapf "smtp write" e
  | SmtpCloseData | StdSendMail _ _ _ _ _ => e
  end.

(** Calls up to the first that fails. *)
Fixpoint run_calls (fails : smtp_call -> option goerr) (l : list smtp_call) : option goerr * list smtp_call :=
  match l with
  | [] => (None, [])
  | c :: l => match fails c with
              | Some e => (Some (smtp_context c e), [c])
              | None => let '(r, log) := run_calls fails l in (r, c :: log)
              end
  end.

Definition addr_host (addr : string) : string := match Split addr ":" with h :: _ => h | [] => "" end.

(** [defaultSMTPDialer.SendMail] *)
Definition SendMail_calls (c : EmailConfig) (addr from : string) (to : list string) (msg : string) : list smtp_call :=
  let host := addr_host addr in
  let auth := if bool_decide (em_Username c = "") then None else Some (em_Username c, em_Password c, host) in
  if em_UseTLS c then
    [TlsDial addr host; SmtpNewClient host] ++
    match auth with Some (u, p, h) => [SmtpAuth u p h] | None => [] end ++
    [SmtpMail from] ++ (SmtpRcpt <$> to) ++ [SmtpData; SmtpWrite msg; SmtpCloseData]
  else [StdSendMail addr auth from to msg].

Definition upper_byte (c : ascii) : ascii := if in_range "a" "z" c then chr (byte_of c - 32) else c.
Definition ToUpper (s : string) : string := str_map upper_byte s.

Definition formatSubject (e : Event) : string :=
  "[EdgeFabric] [" +:+ ToUpper (ev_Severity e) +:+ "] " +:+ readableEventType (ev_Type e) +:+ " - " +:+ ev_Resource e.

Definition buildMIME (c : EmailConfig) (subject htmlBody : string) : string :=
  "From: " +:+ em_FromAddr c +:+ CRLF +:+
  "To: " +:+ Join (em_Recipients c) ", " +:+ CRLF +:+
  "Subject: " +:+ subject +:+ CRLF +:+
  "MIME-Version: 1.0" +:+ CRLF +:+
  "Content-Type: text/html; charset=UTF-8" +:+ CRLF +:+
  CRLF +:+
  htmlBody.

(** The quotes of the templates are written as apostrophes, of which they have none. *)
Definition dq (s : string) : string := str_map (fun c => if bool_decide (c = "'"%char) then chr 34 else c) s.

Definition cell (label value : string) : string :=
  dq "<tr><td style='padding:8px 12px;font-weight:bold;border-bottom:1px solid #eee;'>" +:+ label +:+
  dq "</td><td style='padding:8px 12px;border-bottom:1px solid #eee;'>" +:+ value +:+ "</td></tr>".

Section email.
Context (format_time : Time -> string) (details : gmap string string -> list (string * string)).

Definition severityColor (s : Severity) : string :=
  if bool_decide (s = SeverityCritical) then "#F44336" else if bool_decide (s = SeverityWarning) then "#FF9800" else "#2196F3".

Definition formatHTML (e : Event) : string :=
  "<!DOCTYPE html>" +:+ LF +:+ "<html>" +:+ LF +:+ dq "<head><meta charset='UTF-8'></head>" +:+ LF +:+
  dq "<body style='margin:0;padding:0;font-family:Arial,sans-serif;background:#f5f5f5;'>" +:+ LF +:+
  dq "<table width='100%' cellpadding='0' cellspacing='0' style='max-width:600px;margin:20px auto;background:#fff;border-radius:8px;overflow:hidden;box-shadow:0 2px 4px rgba(0,0,0,0.1);'>" +:+ LF +:+
  dq "  <tr><td style='background:" +:+ severityColor (ev_Severity e) +:+ dq ";height:6px;'></td></tr>" +:+ LF +:+
  dq "  <tr><td style='padding:24px;'>" +:+ LF +:+
  dq "    <h2 style='margin:0 0 16px;color:#333;'>" +:+ readableEventType (ev_Type e) +:+ "</h2>" +:+ LF +:+
  dq "    <table width='100%' cellpadding='0' cellspacing='0' style='border:1px solid #eee;border-radius:4px;'>" +:+ LF +:+
  "      " +:+ cell "Event" (ev_Type e) +:+ LF +:+
  "      " +:+ cell "Severity" (ev_Severity e) +:+ LF +:+
  "      " +:+ cell "Resource" (ev_Resource e) +:+ LF +:+
  "      " +:+ cell "Time" (format_time (ev_Timestamp e)) +:+ LF +:+
  "      " +:+ Join ((fun '(k, v) => cell k v) <$> details (ev_Details e)) "" +:+ LF +:+
  "    </table>" +:+ LF +:+ "  </td></tr>" +:+ LF +:+
  dq "  <tr><td style='padding:16px 24px;background:#f9f9f9;color:#999;font-size:12px;text-align:center;'>" +:+ LF +:+
  "    EdgeFabric Alert Notification" +:+ LF +:+ "  </td></tr>" +:+ LF +:+ "</table>" +:+ LF +:+ "</body>" +:+ LF +:+ "</html>".

Definition email_message (c : EmailConfig) (e : Event) : string := buildMIME c (formatSubject e) (formatHTML e).

(** [fails] tells which call of an attempt fails. *)
Definition mail_once (fails : nat -> smtp_call -> option goerr) (c : EmailConfig) (e : Event) (attempt : nat) : list mail_action * once :=
  let addr := em_SMTPHost c +:+ ":" +:+ Itoa (em_SMTPPort c) in
  let '(r, log) := run_calls (fails attempt) (SendMail_calls c addr (em_FromAddr c) (em_Recipients c) (email_message c e)) in
  (Smtp <$> log, match r with None => Sent | Some err => Failed err end).

Definition email_Handle (fails : nat -> smtp_call -> option goerr) (ctx_done : nat -> bool) (retries : nat) (c : EmailConfig) (e : Event)
    : option goerr * list mail_action :=
  let '(r, log) := attempts MailPause ctx_done (mail_once fails c e) (S retries) 0 (Errorf "") in
  (match r with Success => None | Stopped e => Some e | GaveUp err => Some (Wrapf "email delivery failed" err) end, log).
End email.

(** ** controller.go *)

Record NotificationsConfig := mkNotifications { nf_Webhooks : list WebhookConfig; nf_Slack : SlackConfig; nf_Email : EmailConfig }.

Inductive notifier := NotifyWebhooks (whs : list WebhookConfig) | NotifySlack (c : SlackConfig) | NotifyEmail (c : EmailConfig).

Definition allEventTypes : list EventType :=
  [NodeStatusChanged; GatewayStatusChanged; ProvisioningFailed; CertificateExpiring; HealthCheckFailed; OverlayPeerUnreachable;
   OverlayPeerRecovered; BGPSessionDown; ev_BGPSessionEstablished; RouteHealthCheckFailed; RouteHealthCheckRecovered; LeaderElected; LeaderLost].

Definition subscribe_if (b : bool) (n : notifier) (bus : Bus notifier) : Bus notifier := if b then subscribe_all allEventTypes n bus else bus.

Definition registerNotificationHandlers (c : NotificationsConfig) (bus : Bus notifier) : Bus notifier :=
  let bus := subscribe_if (0 <? length (nf_Webhooks c))%nat (NotifyWebhooks (nf_Webhooks c)) bus in
  let bus := subscribe_if (negb (bool_decide (sl_WebhookURL (nf_Slack c) = ""))) (NotifySlack (nf_Slack c)) bus in
  subscribe_if (negb (bool_decide (em_SMTPHost (nf_Email c) = "")) && (0 <? length (em_Recipients (nf_Email c)))%nat) (NotifyEmail (nf_Email c)) bus.

(** ** The retry loop *)

Section retry_lemmas.
Context {A : Type} (pause : Z -> A) (ctx_done : nat -> bool) (act : nat -> list A * once) (Hctx : forall i, ctx_done i = false).
Context (done : list A) (good : nat -> bool) (Hact : forall i, act i = (done, if good i then Sent else match (act i).2 with Failed e => Failed e | _ => Failed (Errorf "") end)).

(** What [k] attempts from the one numbered [i] leave behind. *)
Fixpoint trace (k i : nat) : list A :=
  match k with
  | O => []
  | S k => match i with O => [] | S j => [pause (2 ^ Z.of_nat j * a_second)] end ++ done ++ trace k (S i)
  end.

(** The number of attempts until the first that succeeds. *)
Fixpoint needed (n i : nat) : nat :=
  match n with O => 0%nat | S n => if good i then 1%nat else S (needed n (S i)) end.

Lemma attempts_trace n : forall i e, (n > 0)%nat ->
  attempts pause ctx_done act n i e =
    (match attempts pause ctx_done act n i e with (r, _) => r end, trace (needed n i) i) /\
  (fst (attempts pause ctx_done act n i e) = Success <-> exists j, (i <= j < i + n)%nat /\ good j = true).
Proof using Hctx Hact.
  induction n as [|n IH]; intros i e Hn; [lia|]. cbn [attempts needed]. rewrite Hctx, andb_false_r, Hact.
  destruct (good i) eqn:Hg.
  - cbn [trace]. rewrite app_nil_r. split; [done|]. split; [intros _; exists i; split; [lia|done]|done].
  - set (f := match (act i).2 with Failed e => _ | _ => _ end). assert (exists e', f = Failed e') as [e' ->].
    { subst f. destruct (act i).2; by eexists. }
    cbn [trace]. destruct (decide (n = 0%nat)) as [->|Hn0].
    + cbn. rewrite !app_nil_r. split; [done|]. split; [done|]. intros (j & Hj & Hgj). assert (j = i) as -> by lia. congruence.
    + destruct (IH (S i) e' ltac:(lia)) as [E1 E2]. destruct (attempts pause ctx_done act n (S i) e') as [r log]. cbn [fst] in *.
      injection E1 as ->. split; [done|]. rewrite E2. split; intros (j & Hj & Hgj); exists j; (split; [|done]); [lia|].
      destruct (decide (j = i)) as [->|]; [congruence|lia].
Qed.

Lemma needed_spec n : forall i, (n > 0)%nat -> let k := needed n i in
  (1 <= k <= n)%nat /\ (forall j, (j + 1 < k)%nat -> good (i + j)%nat = false) /\
  ((exists j, (i <= j < i + n)%nat /\ good j = true) -> good (i + k - 1)%nat = true).
Proof using Type.
  induction n as [|n IH]; intros i Hn; [lia|]. cbn [needed]. destruct (good i) eqn:Hg; cbv zeta.
  - split_and!; [lia..| |]; [intros j; lia|intros _]. by replace (i + 1 - 1)%nat with i by lia.
  - destruct (decide (n = 0%nat)) as [->|Hn0].
    + cbn. split_and!; [lia..| |]; [intros j; lia|]. intros (j & Hj & Hgj). assert (j = i) as -> by lia. congruence.
    + destruct (IH (S i) ltac:(lia)) as (Hk & Hbad & Hgood). cbv zeta in *. split_and!; [lia..| |].
      * intros [|j] Hj; [by rewrite Nat.add_0_r|]. replace (i + S j)%nat with (S i + j)%nat by lia. apply Hbad. lia.
      * intros (j & Hj & Hgj). replace (i + S (needed n (S i)) - 1)%nat with (S i + needed n (S i) - 1)%nat by lia.
        apply Hgood. exists j. split; [|done]. destruct (decide (j = i)) as [->|]; [congruence|lia].
Qed.
End retry_lemmas.

Lemma needed_lt (good : nat -> bool) n : forall i, (needed good n i < n)%nat -> good (i + needed good n i - 1)%nat = true.
Proof.
  induction n as [|n IH]; intros i; cbn [needed]; [lia|]. destruct (good i) eqn:Hg; [intros _; by replace (i + 1 - 1)%nat with i by lia|].
  intros Hlt. replace (i + S (needed good n (S i)) - 1)%nat with (S i + needed good n (S i) - 1)%nat by lia. apply IH. lia.
Qed.

(** ** Webhooks *)

Section webhook_lemmas.
Context (hmac_sha256 : string -> string -> string) (marshal : webhookPayload -> string) (valid_url : string -> bool).
Context (answer : nat -> nat -> webhookRequest -> option Z) (ctx_done : nat -> bool) (retries : nat).
Context (Hctx : forall i, ctx_done i = false).
Notation req wh body := (webhook_request hmac_sha256 wh body).
Notation good j wh body := (fun i => ok_status (answer j i (req wh body))).

Lemma webhook_send_spec j wh body : valid_url (wh_URL wh) = true ->
  let r := webhook_send hmac_sha256 valid_url answer ctx_done retries j wh body in
  (r.1 = None <-> exists i, (i <= retries)%nat /\ good j wh body i = true) /\
  r.2 = trace Pause [Post (req wh body)] (needed (good j wh body) (S retries) 0) 0.
Proof using Hctx.
  intros Hv. unfold webhook_send.
  destruct (attempts_trace Pause ctx_done (post_once hmac_sha256 valid_url answer j wh body) Hctx [Post (req wh body)] (good j wh body)
    ltac:(intros i; unfold post_once; rewrite Hv; cbn [negb]; f_equal; destruct (answer j i _) as [st|]; [|done]; by destruct (ok_status (Some st)))
    (S retries) 0 (Errorf "") ltac:(lia)) as [E1 E2].
  destruct (attempts _ _ _ _ _ _) as [r log]. cbn [fst snd] in *. injection E1 as ->. split; [|done].
  split.
  - intros Hr. destruct (proj1 E2) as (i & Hi & Hg); [by destruct r|]. exists i. split; [lia|done].
  - intros (i & Hi & Hg). rewrite (proj2 E2); [done|]. exists i. split; [lia|done].
Qed.

Lemma send_all_spec whs body : forall j last, (forall wh, wh ∈ whs -> valid_url (wh_URL wh) = true) ->
  let r := send_all hmac_sha256 valid_url answer ctx_done retries j whs body last in
  (r.1 = None <-> last = None /\ forall i wh, whs !! i = Some wh -> exists k, (k <= retries)%nat /\ good (j + i)%nat wh body k = true) /\
  r.2 = concat (imap (fun i wh => trace Pause [Post (req wh body)] (needed (good (j + i)%nat wh body) (S retries) 0) 0) whs).
Proof using Hctx.
  induction whs as [|wh whs IH]; intros j last Hv; cbn [send_all]; cbv zeta.
  { cbn [fst snd]. split; [|done]. split; [intros ->; split; [done|]; intros i wh E; by rewrite lookup_nil in E|by intros [-> _]]. }
  destruct (webhook_send_spec j wh body (Hv wh ltac:(by left))) as [Hs1 Hs2].
  destruct (webhook_send _ _ _ _ _ j wh body) as [err log]. cbn [fst snd] in *.
  destruct (IH (S j) (match err with Some e => Some e | None => last end) ltac:(intros; apply Hv; by right)) as [Hr1 Hr2].
  destruct (send_all _ _ _ _ _ (S j) whs body _) as [res rest]. cbn [fst snd] in *. split.
  - rewrite Hr1. split.
    + intros [He Hall]. destruct err as [e|]; [done|]. split; [done|]. intros [|i] w E; cbn in E.
      * injection E as <-. rewrite Nat.add_0_r. by apply Hs1.
      * replace (j + S i)%nat with (S j + i)%nat by lia. by apply Hall.
    + intros [-> Hall]. assert (err = None) as ->. { apply Hs1. specialize (Hall 0%nat wh eq_refl). by rewrite Nat.add_0_r in Hall. }
      split; [done|]. intros i w E. specialize (Hall (S i) w E). by replace (S j + i)%nat with (j + S i)%nat by lia.
  - rewrite Hs2, Hr2. cbn [imap concat]. rewrite Nat.add_0_r. f_equal. f_equal. apply imap_ext. intros i w _. cbn.
    by replace (j + S i)%nat with (S (j + i)) by lia.
Qed.
End webhook_lemmas.

(** ** Mail headers *)

(** A reader of messages: header lines up to the first empty one, then the body. *)
Fixpoint cut_line (s : string) : option (string * string) :=
  match s with
  | String c (String d rest as s') =>
      if bool_decide (c = chr 13) && bool_decide (d = chr 10) then Some ("", rest)
      else match cut_line s' with Some (l, r) => Some (String c l, r) | None => None end
  | _ => None
  end.
Fixpoint read_message (fuel : nat) (s : string) : option (list string * string) :=
  match fuel with
  | O => None
  | S fuel => match cut_line s with
              | Some ("", rest) => Some ([], rest)
              | Some (l, rest) => match read_message fuel rest with Some (ls, b) => Some (l :: ls, b) | None => None end
              | None => None
              end
  end.

Definition no_cr (s : string) : Prop := ContainsByte s (chr 13) = false.

Lemma no_cr_app a b : no_cr (a +:+ b) <-> no_cr a /\ no_cr b.
Proof. unfold no_cr. rewrite ContainsByte_append, orb_false_iff. done. Qed.

Lemma cut_line_app l rest : no_cr l -> cut_line (l +:+ CRLF +:+ rest) = Some (l, rest).
Proof.
  unfold no_cr. induction l as [|c l IH]; intros Hl; [done|]. cbn [ContainsByte] in Hl. apply orb_false_iff in Hl as [Hc Hl].
  apply bool_decide_eq_false in Hc. specialize (IH Hl). rewrite append_cons.
  destruct (l +:+ CRLF +:+ rest) as [|d s'] eqn:E; [destruct l; done|]. cbn [cut_line]. cbn [cut_line] in IH. rewrite bool_decide_eq_false_2 by congruence.
  cbn [andb]. by rewrite IH.
Qed.

Lemma read_message_line fuel l rest : no_cr l -> l <> "" ->
  read_message (S fuel) (l +:+ CRLF +:+ rest) =
  match read_message fuel rest with Some (ls, b) => Some (l :: ls, b) | None => None end.
Proof. intros Hl Hne. cbn [read_message]. rewrite cut_line_app by done. destruct l; done. Qed.

Lemma no_cr_replace c by_ s : no_cr by_ -> no_cr s -> no_cr (replace_byte c by_ s).
Proof.
  intros Hb. induction s as [|d s IH]; [done|]. unfold no_cr. cbn [ContainsByte replace_byte]. intros [Hd Hs]%orb_false_iff.
  destruct (bool_decide (d = c)); [apply no_cr_app; split; [done|by apply IH]|]. cbn [ContainsByte]. rewrite Hd. by apply IH.
Qed.

Lemma no_cr_upper s : no_cr s -> no_cr (ToUpper s).
Proof.
  induction s as [|c s IH]; [done|]. unfold no_cr. cbn [ContainsByte ToUpper str_map]. intros [Hc Hs]%orb_false_iff.
  apply orb_false_iff. split; [|by apply IH]. apply bool_decide_eq_false in Hc. apply bool_decide_eq_false. intros E. apply Hc. clear Hc Hs IH s.
  revert E. destruct c as [[] [] [] [] [] [] [] []]; vm_compute; intros E; congruence.
Qed.

Lemma no_cr_Join l : Forall no_cr l -> no_cr (Join l ", ").
Proof.
  induction l as [|s l IH]; intros Hl; [done|]. apply Forall_cons in Hl as [Hs Hl]. destruct l as [|s' l]; [done|].
  cbn [Join]. cbn [Join] in IH. repeat (apply no_cr_app; split; try done). by apply IH.
Qed.

(** ** Claims *)

(** While its context lives, the webhook handler tries every endpoint, whatever
    becomes of the others, at most retries + 1 times and not again after a success,
    with pauses of 1, 2, 4, ... seconds; it returns no error exactly when every
    endpoint has accepted the event; and each request to an endpoint with a secret
    carries the HMAC of its body under that secret. *)
Theorem webhooks_delivered hmac_sha256 marshal valid_url answer ctx_done retries (whs : list WebhookConfig) (e : Event) :
  (forall i, ctx_done i = false) -> (forall wh, wh ∈ whs -> valid_url (wh_URL wh) = true) ->
  let body := marshal (payload_of e) in
  let req wh := webhook_request hmac_sha256 wh body in
  let r := webhook_Handle hmac_sha256 marshal valid_url answer ctx_done retries whs e in
  (r.1 = None <-> forall j wh, whs !! j = Some wh -> exists i, (i <= retries)%nat /\ ok_status (answer j i (req wh)) = true) /\
  (exists n : nat -> WebhookConfig -> nat,
     r.2 = concat (imap (fun j wh => trace Pause [Post (req wh)] (n j wh) 0) whs) /\
     forall j wh, whs !! j = Some wh -> (1 <= n j wh <= S retries)%nat /\
       (forall i, (i + 1 < n j wh)%nat -> ok_status (answer j i (req wh)) = false) /\
       ((n j wh <= retries)%nat -> ok_status (answer j (n j wh - 1)%nat (req wh)) = true)) /\
  (forall wh, wh_Secret wh <> "" -> Header_Get (wr_Header (req wh)) "X-EdgeFabric-Signature" = "sha256=" +:+ signPayload hmac_sha256 body (wh_Secret wh)).
Proof.
  intros Hctx Hv body req r.
  destruct (send_all_spec hmac_sha256 valid_url answer ctx_done retries Hctx whs body 0 None Hv) as [H1 H2]. split_and!.
  - split; [intros Hn; by apply H1 in Hn as [_ ?]|intros Hall; by apply H1].
  - exists (fun j wh => needed (fun i => ok_status (answer j i (req wh))) (S retries) 0). split; [exact H2|]. intros j wh _.
    destruct (needed_spec (fun i => ok_status (answer j i (req wh))) (S retries) 0 ltac:(lia)) as (Hk & Hbad & _). split_and!; [lia..| |].
    + intros i Hi. exact (Hbad i Hi).
    + intros Hle. apply (needed_lt (fun i => ok_status (answer j i (req wh))) (S retries) 0). lia.
  - intros wh Hs. unfold req, webhook_request. rewrite bool_decide_eq_false_2 by done. cbn [wr_Header]. unfold Header_Get, Header_Set, header_get.
    by rewrite lookup_insert_eq.
Qed.

(** A notification mail reads back as it was meant: when no field of the
    configuration and of the event has a carriage return, its header is exactly the
    five lines the handler writes, and its body the formatted event. *)
Theorem email_reads_back format_time details (c : EmailConfig) (e : Event) :
  no_cr (em_FromAddr c) -> Forall no_cr (em_Recipients c) -> no_cr (ev_Severity e) -> no_cr (ev_Type e) -> no_cr (ev_Resource e) ->
  read_message 6 (email_message format_time details c e) =
    Some (["From: " +:+ em_FromAddr c; "To: " +:+ Join (em_Recipients c) ", "; "Subject: " +:+ formatSubject e; "MIME-Version: 1.0";
           "Content-Type: text/html; charset=UTF-8"], formatHTML format_time details e).
Proof.
  intros Hf Hr Hs Ht Hres. unfold email_message, buildMIME. set (html := formatHTML _ _ _).
  assert (no_cr (formatSubject e)) as Hsub.
  { unfold formatSubject, readableEventType. repeat (apply no_cr_app; split; try done); [by apply no_cr_upper|].
    by apply no_cr_replace; [done|]; apply no_cr_replace. }
  rewrite <-(append_assoc "From: "), read_message_line; [|by apply no_cr_app|done].
  rewrite <-(append_assoc "To: "), read_message_line; [|apply no_cr_app; split; [done|by apply no_cr_Join]|done].
  rewrite <-(append_assoc "Subject: "), read_message_line; [|by apply no_cr_app|done].
  rewrite !read_message_line by done. done.
Qed.

(** ** Witnesses *)

Definition sample_event : Event := mkBusEvent NodeStatusChanged 0 SeverityInfo "node/7" {["status" := "online"]}.
Definition two_hooks : list WebhookConfig := [mkWebhook "https://a.example" "k"; mkWebhook "https://b.example" ""].
(** the first endpoint accepts the second attempt, the other none *)
Definition sample_answer (j i : nat) (_ : webhookRequest) : option Z := if bool_decide (j = 0%nat /\ i = 1%nat) then Some 204 else Some 500.

Lemma webhooks_delivered_witness :
  let r := webhook_Handle (fun k b => k +:+ b) wp_Event (fun _ => true) sample_answer (fun _ => false) 2 two_hooks sample_event in
  r.1 <> None /\ length (filter (fun a => Is_true (match a with Post _ => true | Pause _ => false end)) r.2) = 5%nat.
Proof.
  cbv zeta. split; [|vm_compute; reflexivity]. intros Hn.
  destruct (webhooks_delivered (fun k b => k +:+ b) wp_Event (fun _ => true) sample_answer (fun _ => false) 2 two_hooks sample_event
    (fun _ => eq_refl) (fun _ _ => eq_refl)) as (H1 & _).
  destruct (proj1 H1 Hn 1%nat (mkWebhook "https://b.example" "") eq_refl) as (i & _ & Hi). vm_compute in Hi. discriminate Hi.
Defined.

Definition sample_mail : EmailConfig := mkEmailConfig "mail.example" 25 "" "" "ef@example.org" ["ops@example.org"; "sre@example.org"] true.

Lemma email_reads_back_witness :
  match read_message 6 (email_message (fun _ => "t") map_to_list sample_mail sample_event) with
  | Some (h, b) => length h = 5%nat /\ b = formatHTML (fun _ => "t") map_to_list sample_event
  | None => False
  end.
Proof.
  rewrite (email_reads_back (fun _ => "t") map_to_list sample_mail sample_event); [split; reflexivity|reflexivity| |reflexivity..].
  repeat constructor.
Defined.
