(* ===== verification/Leader.v ===== *)
(** * Leader election (internal/ha/leader.go, internal/app/controller.go)

    One elector per controller.  [tryAcquire] turns the reply of
    [pg_try_advisory_lock] into the state of the elector; the cluster is a set of
    electors around one lock server.  The server is a parameter: [AdvisoryLock]
    states what the manual of PostgreSQL says of session-level advisory locks
    (requests of one session stack; the end of a session releases all). *)

From Stdlib Require Import ZArith Lia String.
From S2P Require Import Prelude Domain Events.

Open Scope Z_scope.

Definition defaultLockID : Z := 0x45464C4452.
Definition defaultInterval : Z := 5 * 1000000000.

(** ** One elector *)

(** [G] is the state that the callbacks change. *)
Record Elector (G : Type) := mkElector { el_isLeader : bool; el_state : G; el_published : list Event }.
Arguments mkElector {G}. Arguments el_isLeader {G}. Arguments el_state {G}. Arguments el_published {G}.

Section elector.
Context {G : Type} (bus : bool) (onElected onDemoted : option (G -> G)).

Definition leader_event (typ severity action : string) (now : Time) : Event :=
  mkBusEvent typ now severity "controller" {["action" := action]}.

(** [if f != nil { f() }] *)
Definition call_if (f : option (G -> G)) (g : G) : G := match f with Some f => f g | None => g end.

Definition elect (now : Time) (e : Elector G) : Elector G :=
  mkElector true (call_if onElected (el_state e))
    (el_published e ++ if bus then [leader_event LeaderElected SeverityInfo "elected" now] else []).

Definition demote (now : Time) (e : Elector G) : Elector G :=
  mkElector false (call_if onDemoted (el_state e))
    (el_published e ++ if bus then [leader_event LeaderLost SeverityWarning "demoted" now] else []).

(** [reply] is what the query scanned, [None] when it returned an error. *)
Definition tryAcquire (now : Time) (reply : option bool) (e : Elector G) : Elector G :=
  match reply with
  | None => if el_isLeader e then demote now e else e
  | Some acquired =>
      let wasLeader := el_isLeader e in
      if acquired && negb wasLeader then elect now e
      else if negb acquired && wasLeader then demote now e
      else e
  end.

(** The [ctx.Done] branch of [Start]: whether the lock is released, and the
    elector after it. *)
Definition finish (now : Time) (e : Elector G) : bool * Elector G :=
  if el_isLeader e then (true, demote now e) else (false, e).

(** [NoopLeaderElector.Start], up to [<-ctx.Done()] and after it. *)
Definition noop_begin (e : Elector G) : Elector G := mkElector true (call_if onElected (el_state e)) (el_published e).
Definition noop_end (e : Elector G) : Elector G := mkElector false (call_if onDemoted (el_state e)) (el_published e).
End elector.

(** ** The callbacks of the controller *)

(** [gaugeCancel], the updaters that have not been cancelled, and the gauge
    LeaderStatus. *)
Record Gauges := mkGauges { ga_status : Z; ga_cancel : option nat; ga_running : gset nat; ga_next : nat }.

Definition no_gauges : Gauges := mkGauges 0 None ∅ 0.
Definition startGauges (g : Gauges) : Gauges :=
  mkGauges 1 (Some (ga_next g)) ({[ga_next g]} ∪ ga_running g) (S (ga_next g)).
Definition stopGauges (g : Gauges) : Gauges :=
  mkGauges 0 None (match ga_cancel g with Some c => ga_running g ∖ {[c]} | None => ga_running g end) (ga_next g).

(** ** The lock server *)

Notation Session := nat (only parsing).

Class AdvisoryLock (L : Type) := {
  lk_none : L;
  pg_try_advisory_lock : Session -> L -> bool * L;
  pg_advisory_unlock : Session -> L -> L;
  session_ends : Session -> L -> L;
  (** how often a session holds the lock *)
  holds : L -> Session -> nat
}.

Class AdvisoryLockLaws (L : Type) `{AdvisoryLock L} := {
  holds_none s : holds lk_none s = 0%nat;
  try_free s l : (forall s', s' <> s -> holds l s' = 0%nat) ->
    (pg_try_advisory_lock s l).1 = true /\
    forall s', holds (pg_try_advisory_lock s l).2 s' = (if decide (s' = s) then S (holds l s) else holds l s')%nat;
  try_taken s s' l : s' <> s -> holds l s' <> 0%nat ->
    (pg_try_advisory_lock s l).1 = false /\ forall t, holds (pg_try_advisory_lock s l).2 t = holds l t;
  unlock_holds s l s' : holds (pg_advisory_unlock s l) s' = (if decide (s' = s) then pred (holds l s) else holds l s')%nat;
  ends_holds s l s' : holds (session_ends s l) s' = (if decide (s' = s) then 0 else holds l s')%nat
}.

(** ** A cluster of controllers *)

(** [Start] has not run, runs with a dedicated session, or has returned. *)
Inductive phase := Idle | Running (s : Session) | Returned (s : Session).

Record Controller (G : Type) := mkController { ct_phase : phase; ct_elector : Elector G }.
Arguments mkController {G}. Arguments ct_phase {G}. Arguments ct_elector {G}.

Record Cluster (L G : Type) := mkCluster {
  cl_lock : L;
  cl_controllers : gmap ID (Controller G);
  (** sessions that have not ended, and the number of sessions opened so far *)
  cl_alive : gset Session; cl_opened : nat
}.
Arguments mkCluster {L G}. Arguments cl_lock {L G}. Arguments cl_controllers {L G}. Arguments cl_alive {L G}. Arguments cl_opened {L G}.

Section cluster.
Context {L G : Type} `{AdvisoryLock L} (bus : bool) (onElected onDemoted : option (G -> G)) (now : Time).
Notation try_acquire := (tryAcquire bus onElected onDemoted now).

Definition put (i : ID) (c : Controller G) (l : L) (w : Cluster L G) : Cluster L G :=
  mkCluster l (<[i := c]> (cl_controllers w)) (cl_alive w) (cl_opened w).

(** One attempt over a session: a dead session only yields errors. *)
Definition attempt (i : ID) (s : Session) (e : Elector G) (w : Cluster L G) : Cluster L G :=
  if decide (s ∈ cl_alive w) then
    let '(b, l) := pg_try_advisory_lock s (cl_lock w) in put i (mkController (Running s) (try_acquire (Some b) e)) l w
  else put i (mkController (Running s) (try_acquire None e)) (cl_lock w) w.

(** A tick of the loop without a fault. *)
Definition tick (i : ID) (w : Cluster L G) : Cluster L G :=
  match cl_controllers w !! i with
  | Some (mkController (Running s) e) => attempt i s e w
  | _ => w
  end.

Definition open_session (w : Cluster L G) : Cluster L G :=
  mkCluster (cl_lock w) (cl_controllers w) ({[cl_opened w]} ∪ cl_alive w) (S (cl_opened w)).
Definition end_session (s : Session) (w : Cluster L G) : Cluster L G :=
  mkCluster (session_ends s (cl_lock w)) (cl_controllers w) (cl_alive w ∖ {[s]}) (cl_opened w).

Inductive cluster_step : Cluster L G -> Cluster L G -> Prop :=
(** [Start]: the connection is opened and the first attempt made *)
| step_start w i e :
    cl_controllers w !! i = Some (mkController Idle e) ->
    cluster_step w (attempt i (cl_opened w) e (open_session w))
| step_tick w i : cluster_step w (tick i w)
(** the query of a tick fails although the session lives *)
| step_error w i s e :
    cl_controllers w !! i = Some (mkController (Running s) e) ->
    cluster_step w (put i (mkController (Running s) (try_acquire None e)) (cl_lock w) w)
(** the context is cancelled; the unlock query may fail; the connection goes back to the pool *)
| step_cancel w i s e (unlocked : bool) :
    cl_controllers w !! i = Some (mkController (Running s) e) ->
    cluster_step w (put i (mkController (Returned s) (finish bus onDemoted now e).2)
      (if (finish bus onDemoted now e).1 && unlocked && bool_decide (s ∈ cl_alive w)
       then pg_advisory_unlock s (cl_lock w) else cl_lock w) w)
(** a session ends: the server restarts, the network fails or the process exits *)
| step_end w s : s ∈ cl_alive w -> cluster_step w (end_session s w).

(** Controllers that have not started, no session, the lock free. *)
Definition cluster_init (ids : gset ID) (g : G) : Cluster L G :=
  mkCluster lk_none (gset_to_gmap (mkController Idle (mkElector false g [])) ids) ∅ 0.
End cluster.

(** * Leader election: one leader, and one soon *)

Open Scope nat_scope.

Section leader.
Context {L G : Type} `{AdvisoryLockLaws L} (bus : bool) (onElected onDemoted : option (G -> G)) (now : Time).
Notation step := (cluster_step bus onElected onDemoted now).
Notation tick := (tick bus onElected onDemoted now).
Notation attempt := (attempt bus onElected onDemoted now).
Notation try_acquire := (tryAcquire bus onElected onDemoted now).
Implicit Types (w : Cluster L G) (e : Elector G).

Definition running w (i : ID) (s : nat) (e : Elector G) : Prop := cl_controllers w !! i = Some (mkController (Running s) e).
Definition leads w (i : ID) : Prop := exists c, cl_controllers w !! i = Some c /\ el_isLeader (ct_elector c) = true.
(** The session a controller has opened. *)
Definition session_of (c : Controller G) : option nat :=
  match ct_phase c with Idle => None | Running s | Returned s => Some s end.

Record cluster_inv w : Prop := {
  ci_opened i c s : cl_controllers w !! i = Some c -> session_of c = Some s -> s < cl_opened w;
  ci_distinct i j c c' s : cl_controllers w !! i = Some c -> cl_controllers w !! j = Some c' ->
    session_of c = Some s -> session_of c' = Some s -> i = j;
  ci_alive s : s ∈ cl_alive w -> s < cl_opened w;
  ci_holder s : holds (cl_lock w) s <> 0 -> s ∈ cl_alive w;
  ci_exclusive s s' : holds (cl_lock w) s <> 0 -> holds (cl_lock w) s' <> 0 -> s = s';
  ci_leader i c : cl_controllers w !! i = Some c -> el_isLeader (ct_elector c) = true ->
    exists s, ct_phase c = Running s /\ (s ∈ cl_alive w -> holds (cl_lock w) s <> 0)
}.

Lemma leader_after_error e : el_isLeader (try_acquire None e) = false.
Proof. unfold tryAcquire. by destruct (el_isLeader e) eqn:?. Qed.
Lemma leader_after_reply b e : el_isLeader (try_acquire (Some b) e) = b.
Proof. unfold tryAcquire. destruct b, (el_isLeader e) eqn:E; cbn; done. Qed.
Lemma leader_after_finish e : el_isLeader (finish bus onDemoted now e).2 = false.
Proof. unfold finish. by destruct (el_isLeader e) eqn:?. Qed.

(** The lock is free for a session, or another one holds it. *)
Lemma lock_cases w s : cluster_inv w ->
  (forall s', s' <> s -> holds (cl_lock w) s' = 0) \/ exists s', s' <> s /\ holds (cl_lock w) s' <> 0.
Proof using Type.
  intros Hw. destruct (decide (set_Exists (fun s' => s' <> s /\ holds (cl_lock w) s' <> 0) (cl_alive w))) as [(s' & _ & Hs)|Hno].
  - right. by exists s'.
  - left. intros s' Hne. destruct (decide (holds (cl_lock w) s' = 0)) as [|Hh]; [done|]. destruct Hno.
    exists s'. split; [by apply (ci_holder w)|done].
Qed.

(** What an attempt over a live session does to the lock. *)
Lemma try_cases w s : cluster_inv w ->
  let r := pg_try_advisory_lock s (cl_lock w) in
  (r.1 = true /\ (forall s', s' <> s -> holds (cl_lock w) s' = 0) /\
     forall s', holds r.2 s' = if decide (s' = s) then S (holds (cl_lock w) s) else holds (cl_lock w) s') \/
  (r.1 = false /\ (exists s', s' <> s /\ holds (cl_lock w) s' <> 0) /\ forall t, holds r.2 t = holds (cl_lock w) t).
Proof using Type*.
  intros Hw. destruct (lock_cases w s Hw) as [Hf|(s' & Hne & Hh)].
  - left. destruct (try_free s (cl_lock w) Hf). done.
  - right. destruct (try_taken s s' (cl_lock w) Hne Hh). eauto.
Qed.

(** The session belongs to no other controller. *)
Definition owns w (i : ID) (s : nat) : Prop :=
  s < cl_opened w /\ forall j c', j <> i -> cl_controllers w !! j = Some c' -> session_of c' <> Some s.
Lemma owns_session w i c s : cluster_inv w -> cl_controllers w !! i = Some c -> session_of c = Some s -> owns w i s.
Proof using Type. intros Hw Hi Hs. split; [by eapply (ci_opened w)|]. intros j c' Hne Hj Hs'. by destruct Hne; eapply (ci_distinct w). Qed.

(** A controller with a session of its own writes its entry. *)
Lemma cluster_put_inv w i s (c : Controller G) l :
  cluster_inv w -> owns w i s -> session_of c = Some s ->
  (forall s', holds l s' <> 0 -> s' ∈ cl_alive w) ->
  (forall a b, holds l a <> 0 -> holds l b <> 0 -> a = b) ->
  (forall s', s' <> s -> holds (cl_lock w) s' <> 0 -> holds l s' <> 0) ->
  (el_isLeader (ct_elector c) = true -> ct_phase c = Running s /\ (s ∈ cl_alive w -> holds l s <> 0)) ->
  cluster_inv (put i c l w).
Proof using Type.
  intros Hw [Hsn Hown] Hs Hh Hx Hk Hl. destruct Hw as [Ho Hd Ha _ _ Hle]. split; cbn.
  - intros j c' s' [[<- <-]|[Hne Hc']]%lookup_insert_Some Hs'; [by replace s' with s by congruence|by eapply Ho].
  - intros j j' c1 c2 s' [[<- <-]|[Hne Hc1]]%lookup_insert_Some [[<- <-]|[Hne' Hc2]]%lookup_insert_Some S1 S2; try done.
    + destruct (Hown _ _ (not_eq_sym Hne') Hc2). congruence.
    + destruct (Hown _ _ (not_eq_sym Hne) Hc1). congruence.
    + by eapply Hd.
  - done.
  - done.
  - done.
  - intros j c' [[<- <-]|[Hne Hc']]%lookup_insert_Some Hlead; [exists s; by apply Hl|].
    destruct (Hle _ _ Hc' Hlead) as (s' & Hph & Hhold). exists s'. split; [done|]. intros Hal. apply Hk; [|by apply Hhold].
    intros ->. apply (Hown _ _ (not_eq_sym Hne) Hc'). unfold session_of. by rewrite Hph.
Qed.

Lemma attempt_inv w i s e : cluster_inv w -> owns w i s -> cluster_inv (attempt i s e w).
Proof using Type*.
  intros Hw Ho. unfold Leader.attempt. destruct (decide _) as [Hal|Hde].
  - pose proof (try_cases w s Hw) as Ht. cbv zeta in Ht. destruct (pg_try_advisory_lock s (cl_lock w)) as [b l]. cbn in Ht.
    apply (cluster_put_inv w i s); try done; cbn [ct_elector ct_phase].
    + intros s' Hs'. destruct Ht as [(_ & Hf & Hl)|(_ & _ & Hl)]; rewrite Hl in Hs'; [|by apply (ci_holder w)].
      destruct (decide (s' = s)) as [->|]; [done|]. by apply (ci_holder w).
    + intros x y. destruct Ht as [(_ & Hf & Hl)|(_ & _ & Hl)]; rewrite !Hl; [|by apply (ci_exclusive w)].
      destruct (decide (x = s)) as [->|Hx%Hf], (decide (y = s)) as [->|Hy%Hf]; congruence.
    + intros s' Hne Hh. destruct Ht as [(_ & Hf & Hl)|(_ & _ & Hl)]; rewrite Hl; [by rewrite decide_False|done].
    + rewrite leader_after_reply. intros ->. split; [done|]. intros _. destruct Ht as [(_ & _ & Hl)|([=] & _)].
      rewrite Hl, decide_True by done. done.
  - apply (cluster_put_inv w i s); try apply Hw; try done; cbn [ct_elector ct_phase]; by rewrite ?leader_after_error.
Qed.

Lemma tick_inv w i : cluster_inv w -> cluster_inv (tick i w).
Proof using Type*.
  intros Hw. unfold Leader.tick. destruct (cl_controllers w !! i) as [[[|s|s] e]|] eqn:Hi; try done.
  apply attempt_inv; [done|]. by eapply owns_session.
Qed.

Lemma step_inv w w' : step w w' -> cluster_inv w -> cluster_inv w'.
Proof using Type*.
  intros Hst Hw. destruct Hst as [w i e Hi|w i|w i s e Hi|w i s e u Hi|w s Hs].
  - assert (Hw1 : cluster_inv (open_session w)).
    { destruct Hw as [Ho Hd Ha Hh Hx Hl]. split; cbn; try done.
      - intros j c s Hj Hs. specialize (Ho _ _ _ Hj Hs). lia.
      - intros s [->%elem_of_singleton|Hs%Ha]%elem_of_union; lia.
      - intros s Hs%Hh. set_solver.
      - intros j c Hj Hle. destruct (Hl _ _ Hj Hle) as (s & Hp & Hal). exists s. split; [done|].
        intros [->%elem_of_singleton|Hs]%elem_of_union; [|by apply Hal].
        specialize (Ho j c (cl_opened w) Hj). unfold session_of in Ho. rewrite Hp in Ho. specialize (Ho eq_refl). lia. }
    apply attempt_inv; [done|]. split; [cbn; lia|]. cbn. intros j c' Hne Hj Hs. pose proof (ci_opened w Hw _ _ _ Hj Hs). lia.
  - by apply tick_inv.
  - apply (cluster_put_inv w i s); try apply Hw; try done; cbn [ct_elector ct_phase]; first [by eapply owns_session|by rewrite leader_after_error].
  - apply (cluster_put_inv w i s); try done; cbn [ct_elector ct_phase]; [by eapply owns_session|..].
    + intros s' Hs'. apply (ci_holder w Hw). destruct (_ && _ && _); [|done]. rewrite unlock_holds in Hs'.
      destruct (decide (s' = s)) as [->|]; [lia|done].
    + intros x y Hx Hy. apply (ci_exclusive w Hw); destruct (_ && _ && _); try done.
      * rewrite unlock_holds in Hx. destruct (decide (x = s)) as [->|]; [lia|done].
      * rewrite unlock_holds in Hy. destruct (decide (y = s)) as [->|]; [lia|done].
    + intros s' Hne Hs'. destruct (_ && _ && _); [|done]. by rewrite unlock_holds, decide_False.
    + by rewrite leader_after_finish.
  - destruct Hw as [Ho Hd Ha Hh Hx Hl]. split; cbn; try done.
    + intros s' Hs'. apply Ha. set_solver.
    + intros s'. rewrite ends_holds. destruct (decide (s' = s)); [done|]. intros Hs'%Hh. set_solver.
    + intros a b. rewrite !ends_holds. destruct (decide (a = s)), (decide (b = s)); try done. apply Hx.
    + intros j c Hj Hle. destruct (Hl _ _ Hj Hle) as (s' & Hp & Hal). exists s'. split; [done|].
      intros Hs'. rewrite ends_holds, decide_False by set_solver. apply Hal. set_solver.
Qed.

Lemma init_inv ids g : cluster_inv (cluster_init ids g).
Proof using Type*.
  split; cbn; try (intros *; rewrite ?holds_none; done); try set_solver.
  - intros i c s [_ <-]%lookup_gset_to_gmap_Some [=].
  - intros i j c c' s [_ <-]%lookup_gset_to_gmap_Some _ [=].
  - intros i c [_ <-]%lookup_gset_to_gmap_Some [=].
Qed.

Lemma reachable_inv ids g w : rtc step (cluster_init ids g) w -> cluster_inv w.
Proof using Type*.
  assert (Hgen : forall w1 w2, rtc step w1 w2 -> cluster_inv w1 -> cluster_inv w2).
  { induction 1; [done|]. intros. eauto using step_inv. }
  intros Hr. eapply Hgen; [exact Hr|]. apply init_inv.
Qed.

(** ** Ticks *)

Definition ticks (l : list ID) (w : Cluster L G) : Cluster L G := foldl (fun w i => tick i w) w l.

Lemma tick_other w i j : j <> i -> cl_controllers (tick i w) !! j = cl_controllers w !! j.
Proof using Type.
  intros Hne. unfold Leader.tick, Leader.attempt. repeat case_match; try done; cbn; by rewrite lookup_insert_ne.
Qed.
Lemma tick_alive w i : cl_alive (tick i w) = cl_alive w /\ cl_opened (tick i w) = cl_opened w.
Proof using Type. unfold Leader.tick, Leader.attempt. repeat case_match; done. Qed.

Lemma ticks_alive l w : cl_alive (ticks l w) = cl_alive w.
Proof using Type. revert w. induction l as [|x l IH]; intros w; [done|]. etrans; [apply (IH (tick x w))|]. apply tick_alive. Qed.

(** A tick over a dead session, over one that gets the lock and over one that does not. *)
Lemma tick_dead w i s e : running w i s e -> s ∉ cl_alive w ->
  running (tick i w) i s (try_acquire None e) /\ cl_lock (tick i w) = cl_lock w.
Proof using Type.
  intros Hi Hs. unfold Leader.tick. rewrite Hi. unfold Leader.attempt. rewrite decide_False by done.
  split; [|done]. unfold running. cbn. by rewrite lookup_insert_eq.
Qed.
Lemma tick_live w i s e : cluster_inv w -> running w i s e -> s ∈ cl_alive w ->
  (running (tick i w) i s (try_acquire (Some true) e) /\ (forall s', s' <> s -> holds (cl_lock w) s' = 0) /\
   forall s', holds (cl_lock (tick i w)) s' <> 0 <-> s' = s) \/
  (running (tick i w) i s (try_acquire (Some false) e) /\ (exists s', s' <> s /\ holds (cl_lock w) s' <> 0) /\
   forall s', holds (cl_lock (tick i w)) s' = holds (cl_lock w) s').
Proof using Type*.
  intros Hw Hi Hs. pose proof (try_cases w s Hw) as Ht. cbv zeta in Ht.
  assert (Htk : tick i w = put i (mkController (Running s) (try_acquire (Some (pg_try_advisory_lock s (cl_lock w)).1) e))
    (pg_try_advisory_lock s (cl_lock w)).2 w).
  { unfold Leader.tick. rewrite Hi. unfold Leader.attempt. rewrite decide_True by done. by destruct (pg_try_advisory_lock _ _). }
  rewrite Htk. destruct (pg_try_advisory_lock s (cl_lock w)) as [b l]. cbn [fst snd] in *.
  unfold running. cbn [put cl_controllers cl_lock]. rewrite lookup_insert_eq.
  destruct Ht as [(-> & Hf & Hl)|(-> & Ht & Hl)]; [left|right]; (split; [reflexivity|]); (split; [done|]); [|done].
  intros s'. rewrite Hl. destruct (decide (s' = s)) as [->|Hne]; [done|]. rewrite Hf by done. done.
Qed.

Lemma live_or_not w k :
  (exists sk ek, running w k sk ek /\ sk ∈ cl_alive w) \/ (forall sk ek, running w k sk ek -> sk ∉ cl_alive w).
Proof using Type.
  unfold running. destruct (cl_controllers w !! k) as [[[|sk|sk] ek]|]; try (right; intros ? ? [=]; done).
  destruct (decide (sk ∈ cl_alive w)); [left; eauto|right; intros ? ? [= <- <-]; done].
Qed.

Lemma tick_not_live w k :
  cluster_inv w -> (forall sk ek, running w k sk ek -> sk ∉ cl_alive w) ->
  cl_lock (tick k w) = cl_lock w /\ ~ leads (tick k w) k.
Proof using Type.
  intros Hw Hno. destruct (cl_controllers w !! k) as [[[|sk|sk] ek]|] eqn:Ek.
  1,3,4: unfold Leader.tick; rewrite Ek; split; [done|]; intros (c & Hc & Hcl); simplify_eq;
    destruct (ci_leader w Hw _ _ Ek Hcl) as (? & [=] & _).
  destruct (tick_dead w k sk ek Ek (Hno _ _ Ek)) as [Hk1 ->]. split; [done|]. intros (c & Hc & Hcl). unfold running in Hk1.
  simplify_eq. cbn [ct_elector] in Hcl. by rewrite leader_after_error in Hcl.
Qed.

(** While a live session holds the lock, its controller leads after its next tick
    and the others do not. *)
Lemma ticks_held l w i s e :
  cluster_inv w -> running w i s e -> s ∈ cl_alive w -> holds (cl_lock w) s <> 0 ->
  (exists e', running (ticks l w) i s e' /\ (el_isLeader e = true \/ i ∈ l -> el_isLeader e' = true)) /\
  holds (cl_lock (ticks l w)) s <> 0 /\
  (forall j, leads (ticks l w) j -> j = i \/ (j ∉ l /\ leads w j)).
Proof using Type*.
  revert w e. induction l as [|k l IH]; intros w e Hw Hi Hs Hh; cbn [ticks foldl].
  - split_and!; [|done|intros j Hj; destruct (decide (j = i)) as [->|]; [by left|right; set_solver]].
    exists e. split; [done|]. intros [?|?%not_elem_of_nil]; done.
  - pose proof (tick_inv w k Hw) as Hw1. destruct (tick_alive w k) as [Hal _].
    destruct (decide (k = i)) as [->|Hki].
    + destruct (tick_live w i s e Hw Hi Hs) as [(Hi1 & _ & Hl)|(_ & (s' & Hne & Hs') & _)].
      2:{ destruct Hne. by apply (ci_exclusive w). }
      destruct (IH (tick i w) _ Hw1 Hi1) as ((e' & He' & Hlead) & Hh' & Hj); [by rewrite Hal|by apply Hl|].
      split_and!; [|done|].
      * exists e'. split; [done|]. intros _. apply Hlead. left. apply leader_after_reply.
      * intros j Hl'. destruct (Hj j Hl') as [->|[Hjl (c & Hc & Hcl)]]; [by left|]. destruct (decide (j = i)) as [->|Hji]; [by left|].
        right. split; [set_solver|]. exists c. by rewrite tick_other in Hc.
    + assert (Hi1 : running (tick k w) i s e) by (unfold running; by rewrite tick_other).
      assert (Hk : holds (cl_lock (tick k w)) s <> 0 /\ ~ leads (tick k w) k).
      { destruct (live_or_not w k) as [(sk & ek & Ek & Hska)|Hno]; [|by destruct (tick_not_live w k Hw Hno) as [-> ?]].
        assert (Hne : s <> sk) by (intros ->; apply Hki; by eapply (ci_distinct w)).
        destruct (tick_live w k sk ek Hw Ek Hska) as [(_ & Hf & _)|(Hk1 & _ & Hl)]; [by rewrite Hf in Hh|].
        rewrite Hl. split; [done|]. intros (c & Hc & Hcl). unfold running in Hk1. simplify_eq. cbn [ct_elector] in Hcl.
        by rewrite leader_after_reply in Hcl. }
      destruct Hk as [Hh1 Hnk]. destruct (IH (tick k w) e Hw1 Hi1) as ((e' & He' & Hlead) & Hh' & Hj); [by rewrite Hal|done|].
      split_and!; [|done|].
      * exists e'. split; [done|]. intros Hin. apply Hlead. destruct Hin as [?|[?|?]%elem_of_cons]; [by left|congruence|by right].
      * intros j Hl'. destruct (Hj j Hl') as [->|[Hjl Hjlead]]; [by left|]. destruct (decide (j = k)) as [->|Hjk]; [done|].
        right. split; [set_solver|]. destruct Hjlead as (c & Hc & Hcl). exists c. by rewrite tick_other in Hc.
Qed.

(** With the lock free, the first live session of a round gets it. *)
Lemma ticks_free l w :
  cluster_inv w -> (forall s, holds (cl_lock w) s = 0) -> (exists i s e, i ∈ l /\ running w i s e /\ s ∈ cl_alive w) ->
  exists i s e, i ∈ l /\ running (ticks l w) i s e /\ s ∈ cl_alive (ticks l w) /\ el_isLeader e = true /\
    forall j, leads (ticks l w) j -> j = i \/ (j ∉ l /\ leads w j).
Proof using Type*.
  revert w. induction l as [|k l IH]; intros w Hw Hfree (i & s & e & Hin & Hi & Hs); [by apply not_elem_of_nil in Hin|].
  cbn [ticks foldl]. pose proof (tick_inv w k Hw) as Hw1. destruct (tick_alive w k) as [Hal _].
  assert (Hup : forall j, j <> k -> leads (tick k w) j -> leads w j).
  { intros j Hjk (c & Hc & Hcl). exists c. by rewrite tick_other in Hc. }
  destruct (live_or_not w k) as [(sk & ek & Hk & Hska)|Hno].
  - destruct (tick_live w k sk ek Hw Hk Hska) as [(Hk1 & _ & Hl)|(_ & (s' & _ & Hs') & _)]; [|by rewrite Hfree in Hs'].
    destruct (ticks_held l (tick k w) k sk _ Hw1 Hk1) as ((e' & He' & Hlead) & _ & Hj); [by rewrite Hal|by apply Hl|].
    exists k, sk, e'. split_and!; [set_solver|done| |apply Hlead; left; apply leader_after_reply|].
    + change (sk ∈ cl_alive (ticks l (tick k w))). by rewrite ticks_alive, Hal.
    + intros j Hl'. destruct (Hj j Hl') as [->|[Hjl Hjlead]]; [by left|]. destruct (decide (j = k)) as [->|Hjk]; [by left|].
      right. split; [set_solver|auto].
  - destruct (tick_not_live w k Hw Hno) as [Hlk Hnk].
    assert (Hf1 : forall t, holds (cl_lock (tick k w)) t = 0) by (intros t; by rewrite Hlk).
    assert (Hik : i <> k) by (intros ->; by eapply Hno).
    destruct (IH (tick k w) Hw1 Hf1) as (i' & s' & e' & Hi' & Hr & Ha' & Hl' & Hj).
    { exists i, s, e. split_and!; [set_solver|unfold running; by rewrite tick_other|by rewrite Hal]. }
    exists i', s', e'. split_and!; [set_solver|done..|]. intros j Hlj. destruct (Hj j Hlj) as [->|[Hjl Hjlead]]; [by left|].
    destruct (decide (j = k)) as [->|Hjk]; [done|]. right. split; [set_solver|auto].
Qed.

(** ** Sessions that have ended *)

Lemma attempt_other w i j s e : j <> i -> cl_controllers (attempt i s e w) !! j = cl_controllers w !! j.
Proof using Type. intros Hne. unfold Leader.attempt. repeat case_match; cbn; by rewrite lookup_insert_ne. Qed.
Lemma attempt_alive w i s e : cl_alive (attempt i s e w) = cl_alive w.
Proof using Type. unfold Leader.attempt. repeat case_match; done. Qed.

(** Once its session has ended a controller keeps it, and it is not elected again. *)
Lemma lost_step w w' i s c :
  step w w' -> s < cl_opened w -> cl_controllers w !! i = Some c -> session_of c = Some s -> s ∉ cl_alive w ->
  s ∉ cl_alive w' /\ exists c', cl_controllers w' !! i = Some c' /\ session_of c' = Some s /\
    (c' = c \/ el_isLeader (ct_elector c') = false).
Proof using Type*.
  intros Hst Hlt Hi Hs Hd. destruct Hst as [w j e Hj|w j|w j s' e Hj|w j s' e u Hj|w s' Hs'].
  - rewrite attempt_alive. split; [cbn; intros [->%elem_of_singleton|?]%elem_of_union; [lia|done]|].
    assert (Hji : i <> j) by (intros ->; simplify_eq). exists c. rewrite attempt_other by done. auto.
  - rewrite (proj1 (tick_alive w j)). split; [done|]. destruct (decide (i = j)) as [->|Hne]; [|exists c; rewrite tick_other by done; auto].
    destruct c as [[|sc|sc] e]; [done|..]; injection Hs as ->.
    + destruct (tick_dead w j s e Hi Hd) as [Hr _]. eexists. split; [exact Hr|]. split; [done|]. right. apply leader_after_error.
    + exists (mkController (Returned s) e). unfold Leader.tick. rewrite Hi. auto.
  - split; [done|]. destruct (decide (i = j)) as [->|Hne]; cbn [put cl_controllers].
    + simplify_eq. rewrite lookup_insert_eq. eexists. split_and!; [done|done|]. right. apply leader_after_error.
    + exists c. rewrite lookup_insert_ne by done. auto.
  - split; [done|]. destruct (decide (i = j)) as [->|Hne]; cbn [put cl_controllers].
    + simplify_eq. rewrite lookup_insert_eq. eexists. split_and!; [done|done|]. right. apply leader_after_finish.
    + exists c. rewrite lookup_insert_ne by done. auto.
  - split; [cbn; set_solver|]. exists c. auto.
Qed.

Lemma opened_step w w' : step w w' -> cl_opened w <= cl_opened w'.
Proof using Type*.
  destruct 1 as [w j e Hj|w j|w j s' e Hj|w j s' e u Hj|w s' Hs']; cbn; try lia.
  - unfold Leader.attempt. repeat case_match; cbn; lia.
  - rewrite (proj2 (tick_alive w j)). lia.
Qed.

Lemma lost_forever w w' i s c :
  rtc step w w' -> s < cl_opened w -> cl_controllers w !! i = Some c -> session_of c = Some s -> s ∉ cl_alive w ->
  el_isLeader (ct_elector c) = false ->
  exists c', cl_controllers w' !! i = Some c' /\ session_of c' = Some s /\ el_isLeader (ct_elector c') = false.
Proof using Type*.
  intros Hr. revert c. induction Hr as [w|w w1 w' H1 Hr IH]; intros c Hlt Hi Hs Hd Hl; [by exists c|].
  destruct (lost_step w w1 i s c H1 Hlt Hi Hs Hd) as (Hd1 & c1 & Hc1 & Hs1 & Hor). pose proof (opened_step _ _ H1).
  apply (IH c1); try done; [lia|]. by destruct Hor as [->|?].
Qed.

(** ** Reachable clusters *)

Lemma leaders_one ids g w i j :
  rtc step (cluster_init ids g) w ->
  forall s s' e e', running w i s e -> running w j s' e' -> el_isLeader e = true -> el_isLeader e' = true ->
  s ∈ cl_alive w -> s' ∈ cl_alive w -> i = j.
Proof using Type*.
  intros Hr s s' e e' Hi Hj Hl Hl' Hs Hs'. apply reachable_inv in Hr as Hw.
  destruct (ci_leader w Hw _ _ Hi Hl) as (? & [= <-] & Hh), (ci_leader w Hw _ _ Hj Hl') as (? & [= <-] & Hh').
  rewrite (ci_exclusive w Hw s s') in Hi by auto. by eapply (ci_distinct w Hw).
Qed.
End leader.

(** The updater of the gauges runs exactly while its controller leads. *)
Definition gauges_follow (e : Elector Gauges) : Prop :=
  let g := el_state e in
  if el_isLeader e then ga_status g = 1%Z /\ exists c, ga_cancel g = Some c /\ ga_running g = {[c]}
  else ga_status g = 0%Z /\ ga_cancel g = None /\ ga_running g = ∅.

Section gauges.
Context (bus : bool) (now : Time).

Lemma gauges_elect e : gauges_follow e -> el_isLeader e = false -> gauges_follow (elect bus (Some startGauges) now e).
Proof using Type*.
  unfold gauges_follow. intros He Hl. rewrite Hl in He. destruct He as (_ & _ & Hr). cbn. split; [done|].
  eexists. split; [done|]. rewrite Hr. set_solver.
Qed.
Lemma gauges_demote e : gauges_follow e -> el_isLeader e = true -> gauges_follow (demote bus (Some stopGauges) now e).
Proof using Type*.
  unfold gauges_follow. intros He Hl. rewrite Hl in He. destruct He as (_ & c & Hc & Hr). cbn. split; [done|]. split; [done|].
  rewrite Hc, Hr. set_solver.
Qed.
Lemma gauges_try r e : gauges_follow e -> gauges_follow (tryAcquire bus (Some startGauges) (Some stopGauges) now r e).
Proof using Type*.
  intros He. unfold tryAcquire. destruct r as [[]|], (el_isLeader e) eqn:El; cbn [negb andb]; auto using gauges_elect, gauges_demote.
Qed.
Lemma gauges_finish e : gauges_follow e -> gauges_follow (finish bus (Some stopGauges) now e).2.
Proof using Type*. intros He. unfold finish. destruct (el_isLeader e) eqn:El; [by apply gauges_demote|done]. Qed.

Context {L : Type} `{AdvisoryLockLaws L}.
Notation step := (cluster_step bus (Some startGauges) (Some stopGauges) now).
Definition all_follow (w : Cluster L Gauges) : Prop := map_Forall (fun _ c => gauges_follow (ct_elector c)) (cl_controllers w).

Lemma attempt_follow w i s e : all_follow w -> gauges_follow e -> all_follow (attempt bus (Some startGauges) (Some stopGauges) now i s e w).
Proof using Type*. intros Hw He. unfold attempt. repeat case_match; apply map_Forall_insert_2; try done; by apply gauges_try. Qed.

Lemma follow_step w w' : step w w' -> all_follow w -> all_follow w'.
Proof using Type*.
  intros Hst Hw. destruct Hst as [w j e Hj|w j|w j s' e Hj|w j s' e u Hj|w s' Hs'].
  - apply attempt_follow; [done|exact (Hw _ _ Hj)].
  - unfold tick. destruct (cl_controllers w !! j) as [[[|s|s] e]|] eqn:Hj; try done. apply attempt_follow; [done|exact (Hw _ _ Hj)].
  - apply map_Forall_insert_2; [|done]. apply gauges_try, (Hw _ _ Hj).
  - apply map_Forall_insert_2; [|done]. apply gauges_finish, (Hw _ _ Hj).
  - done.
Qed.

Lemma reachable_follow ids w : rtc step (cluster_init ids no_gauges) w -> all_follow w.
Proof using Type*.
  assert (Hgen : forall w1 w2, rtc step w1 w2 -> all_follow w1 -> all_follow w2) by (induction 1; eauto using follow_step).
  intros Hr. eapply Hgen; [exact Hr|]. intros i c [_ <-]%lookup_gset_to_gmap_Some. done.
Qed.
End gauges.

(** C16: in every cluster of controllers, whatever starts, ticks, failing queries,
    cancellations and lost sessions happen, at most one controller with a live session
    leads; a controller whose session has ended no longer leads after its next
    tick; and in each controller exactly one gauge updater runs while it leads, and
    none otherwise. *)
Theorem one_leader {L : Type} `{AdvisoryLockLaws L} (bus : bool) (now : Time) (ids : gset ID) (w : Cluster L Gauges) :
  rtc (cluster_step bus (Some startGauges) (Some stopGauges) now) (cluster_init ids no_gauges) w ->
  (forall i j s s' e e', running w i s e -> running w j s' e' -> el_isLeader e = true -> el_isLeader e' = true ->
     s ∈ cl_alive w -> s' ∈ cl_alive w -> i = j) /\
  (forall i s e, running w i s e -> s ∉ cl_alive w ->
     ~ leads (tick bus (Some startGauges) (Some stopGauges) now i w) i) /\
  (forall i c, cl_controllers w !! i = Some c -> gauges_follow (ct_elector c)).
Proof.
  intros Hr. split_and!.
  - intros i j s s' e e' ? ? ? ? ? ?. by eapply leaders_one.
  - intros i s e Hi Hs. apply tick_not_live; [by eapply reachable_inv|]. intros sk ek Hk. unfold running in *. by simplify_eq.
  - by apply reachable_follow in Hr.
Qed.

(** C17: from every reachable state in which some controller runs with a live
    session and the lock, if taken, is held by a running controller, one round of
    ticks without faults makes exactly one of the controllers of the round leader. *)
Theorem leader_after_a_round {L G : Type} `{AdvisoryLockLaws L} (bus : bool) (onElected onDemoted : option (G -> G)) (now : Time)
    (ids : gset ID) (g : G) (w : Cluster L G) (round : list ID) :
  rtc (cluster_step bus onElected onDemoted now) (cluster_init ids g) w ->
  (exists i s e, i ∈ round /\ running w i s e /\ s ∈ cl_alive w) ->
  (forall s, holds (cl_lock w) s <> 0 -> exists i e, i ∈ round /\ running w i s e) ->
  exists i, i ∈ round /\ forall j, j ∈ round -> leads (ticks bus onElected onDemoted now round w) j <-> j = i.
Proof.
  intros Hr Hlive Hheld. apply reachable_inv in Hr as Hw.
  assert (Hone : exists i s e, i ∈ round /\ running (ticks bus onElected onDemoted now round w) i s e /\ el_isLeader e = true /\
    forall j, leads (ticks bus onElected onDemoted now round w) j -> j = i \/ (j ∉ round /\ leads w j)).
  { destruct (decide (set_Exists (fun s => holds (cl_lock w) s <> 0) (cl_alive w))) as [(s & Hs & Hh)|Hno].
    - destruct (Hheld s Hh) as (i & e & Hin & Hi).
      destruct (ticks_held bus onElected onDemoted now round w i s e Hw Hi Hs Hh) as ((e' & He' & Hl) & _ & Hj).
      exists i, s, e'. split_and!; auto.
    - destruct (ticks_free bus onElected onDemoted now round w Hw) as (i & s & e & Hin & Hi & _ & Hl & Hj); [|done|].
      + intros s. destruct (decide (holds (cl_lock w) s = 0)) as [|Hh]; [done|]. destruct Hno. exists s.
        split; [by apply (ci_holder w)|done].
      + exists i, s, e. done. }
  destruct Hone as (i & s & e & Hin & Hi & Hl & Hj). exists i. split; [done|]. intros j Hjr. split.
  - intros Hlj. destruct (Hj j Hlj) as [?|[? _]]; done.
  - intros ->. eexists. split; [exact Hi|done].
Qed.

(** A controller whose session has ended, and that has noticed, is never
    leader again, whatever else happens: [Start] keeps its connection for good.
    After a restart of the database server no running controller can be elected. *)
Theorem lost_session_is_final {L G : Type} `{AdvisoryLockLaws L} (bus : bool) (onElected onDemoted : option (G -> G)) (now : Time)
    (ids : gset ID) (g : G) (w w' : Cluster L G) (i : ID) (s : nat) (e : Elector G) :
  rtc (cluster_step bus onElected onDemoted now) (cluster_init ids g) w ->
  running w i s e -> s ∉ cl_alive w -> el_isLeader e = false ->
  rtc (cluster_step bus onElected onDemoted now) w w' -> ~ leads w' i.
Proof.
  intros Hr Hi Hs Hl Hr'. apply reachable_inv in Hr as Hw.
  destruct (lost_forever bus onElected onDemoted now w w' i s (mkController (Running s) e) Hr') as (c & Hc & _ & Hcl); try done; [by eapply (ci_opened w)|].
  intros (c' & Hc' & Hl'). congruence.
Qed.

(** A lock that can be computed: the session that holds it, and how often more than once. *)
#[export] Instance simple_lock : AdvisoryLock (option (nat * nat)) := {
  lk_none := None;
  pg_try_advisory_lock s l :=
    match l with
    | None => (true, Some (s, 0))
    | Some (t, k) => if decide (s = t) then (true, Some (t, S k)) else (false, l)
    end;
  pg_advisory_unlock s l :=
    match l with
    | Some (t, k) => if decide (s = t) then match k with 0 => None | S k => Some (t, k) end else l
    | None => None
    end;
  session_ends s l := match l with Some (t, k) => if decide (s = t) then None else l | None => None end;
  holds l s := match l with Some (t, k) => if decide (s = t) then S k else 0 | None => 0 end
}.
#[export] Instance simple_lock_laws : AdvisoryLockLaws (option (nat * nat)).
Proof.
  split.
  - done.
  - intros s [[t k]|] Hf; cbn in *.
    + destruct (decide (s = t)) as [->|Hne].
      * split; [done|]. intros s'. cbn. destruct (decide (s' = t)); done.
      * specialize (Hf t ltac:(congruence)). by rewrite decide_True in Hf.
    + split; [done|]. intros s'. done.
  - intros s s' [[t k]|] Hne Hh; cbn in *; [|done]. destruct (decide (s' = t)) as [->|]; [|done].
    rewrite decide_False by congruence. done.
  - intros s [[t k]|] s'; cbn; [|by destruct (decide _)]. destruct (decide (s = t)) as [->|Hne]; [destruct k|]; cbn;
      repeat destruct (decide _); congruence.
  - intros s [[t k]|] s'; cbn; [|by destruct (decide _)]. destruct (decide (s = t)) as [->|Hne]; cbn; repeat destruct (decide _); congruence.
Qed.

(** Two controllers have started; the first one leads. *)
Notation sample_step := (cluster_step true (Some startGauges) (Some stopGauges) 0%Z).
Notation sample_attempt := (attempt true (Some startGauges) (Some stopGauges) 0%Z).
Definition sample_init : Cluster (option (nat * nat)) Gauges := cluster_init {[1%N; 2%N]} no_gauges.
Definition fresh_elector : Elector Gauges := mkElector false no_gauges [].
Definition one_started : Cluster (option (nat * nat)) Gauges := sample_attempt 1%N 0 fresh_elector (open_session sample_init).
Definition two_started : Cluster (option (nat * nat)) Gauges := sample_attempt 2%N 1 fresh_elector (open_session one_started).
Lemma two_started_reachable : rtc sample_step sample_init two_started.
Proof.
  eapply rtc_l; [apply (step_start true (Some startGauges) (Some stopGauges) 0%Z sample_init 1%N fresh_elector); reflexivity|].
  eapply rtc_l; [apply (step_start true (Some startGauges) (Some stopGauges) 0%Z one_started 2%N fresh_elector); reflexivity|].
  apply rtc_refl.
Qed.
Definition elector_of (w : Cluster (option (nat * nat)) Gauges) (i : ID) : Elector Gauges :=
  match cl_controllers w !! i with Some c => ct_elector c | None => fresh_elector end.

Lemma one_leader_witness :
  el_isLeader (elector_of two_started 1%N) = true /\ el_isLeader (elector_of two_started 2%N) = false /\
  gauges_follow (elector_of two_started 1%N).
Proof.
  destruct (one_leader true 0%Z {[1%N; 2%N]} two_started two_started_reachable) as (Huniq & _ & Hg).
  split; [vm_compute; reflexivity|]. split; [vm_compute; reflexivity|].
  apply (Hg 1%N (mkController (Running 0) (elector_of two_started 1%N))). vm_compute. reflexivity.
Defined.

Lemma leader_after_a_round_witness :
  exists i, i ∈ [2%N; 1%N] /\ forall j, j ∈ [2%N; 1%N] ->
    leads (ticks true (Some startGauges) (Some stopGauges) 0%Z [2%N; 1%N] two_started) j <-> j = i.
Proof.
  assert (H1 : running two_started 1%N 0 (elector_of two_started 1%N)) by (vm_compute; reflexivity).
  apply (leader_after_a_round true (Some startGauges) (Some stopGauges) 0%Z {[1%N; 2%N]} no_gauges two_started [2%N; 1%N]).
  - exact two_started_reachable.
  - exists 1%N, 0, (elector_of two_started 1%N). split; [set_solver|]. split; [exact H1|]. vm_compute. reflexivity.
  - intros s Hs. exists 1%N, (elector_of two_started 1%N). split; [set_solver|]. destruct s as [|s]; [exact H1|]. vm_compute in Hs. congruence.
Defined.

(** The session of the second controller ends; it is not leader. *)
Definition second_lost : Cluster (option (nat * nat)) Gauges := end_session 1 two_started.
Lemma second_lost_reachable : rtc sample_step sample_init second_lost.
Proof. eapply rtc_r; [exact two_started_reachable|]. apply step_end. vm_compute. reflexivity. Qed.

Lemma lost_session_is_final_witness :
  ~ leads (tick true (Some startGauges) (Some stopGauges) 0%Z 2%N (end_session 0 second_lost)) 2%N.
Proof.
  apply (lost_session_is_final true (Some startGauges) (Some stopGauges) 0%Z {[1%N; 2%N]} no_gauges second_lost _ 2%N 1
    (elector_of second_lost 2%N)).
  - exact second_lost_reachable.
  - vm_compute. reflexivity.
  - vm_compute. discriminate.
  - vm_compute. reflexivity.
  - apply (rtc_l _ _ (end_session 0 second_lost)); [apply step_end; vm_compute; reflexivity|].
    eapply rtc_l; [apply step_tick|]. apply rtc_refl.
Defined.
