(* ===== verification/Forwarder.v ===== *)
(** * Route forwarding on nodes and gateways
      (internal/routeserver/forwarder.go and icmp.go, internal/gatewayrt/forwarder.go and icmp.go)

    The two services have the same code up to the address they listen on, the
    address they dial and the fields that make a route restart: those are the
    record [Side], with one instance per service.  The sockets of the process are
    a table of handles; whether the operating system accepts a bind is the
    parameter [can_bind].  A listener and the goroutine that serves it live and
    die together, so the open sockets also stand for the running loops; that is the
    code as long as Accept and ReadFrom fail only on a closed socket, since a loop
    that meets any other error returns and leaves its socket open. *)

From Stdlib Require Import ZArith Lia Ascii String.
From S2P Require Import Prelude GoStrings GoNet Domain RouteService Token.

Open Scope Z_scope.

(** ** Addresses *)

(** [net.JoinHostPort] *)
Definition JoinHostPort (host port : string) : string :=
  if ContainsByte host ":"%char then "[" +:+ host +:+ "]:" +:+ port else host +:+ ":" +:+ port.

Definition safePort (p : option Z) : Z := match p with None => 0 | Some p => p end.

Definition intPtrEqual (a b : option Z) : bool :=
  match a, b with
  | None, None => true
  | Some a, Some b => a =? b
  | _, _ => false
  end.

(** ** What differs between the two services *)

Record Side (D I : Type) := mkSide {
  (** how its messages start *)
  sd_prefix : string;
  sd_ID : D -> ID;
  sd_Protocol : D -> RouteProtocol;
  (** the address bound for a route, and the address dialled for its traffic *)
  sd_listen : D -> string;
  sd_dial : D -> string;
  (** key and entry in the table of the ICMP proxy *)
  sd_icmp : D -> string * I;
  (** running configuration, desired configuration *)
  sd_changed : D -> D -> bool
}.
Arguments mkSide {D I}. Arguments sd_prefix {D I}. Arguments sd_ID {D I}. Arguments sd_Protocol {D I}. Arguments sd_listen {D I}.
Arguments sd_dial {D I}. Arguments sd_icmp {D I}. Arguments sd_changed {D I}.

Section icmp_entries.
Context `{UUID}.

(** routeserver/icmp.go *)
Record node_icmpRoute := mkNodeIcmp {
  ni_routeID : string; ni_entryIP : string; ni_gatewayWGIP : string; ni_destinationIP : string
}.
(** gatewayrt/icmp.go *)
Record gateway_icmpRoute := mkGatewayIcmp { gi_routeID : string; gi_destinationIP : string }.

Definition node_routeChanged (existing desired : RouteWithGateway) : bool :=
  let r := rwg_Route existing in
  let d := rwg_Route desired in
  if negb (bool_decide (route_EntryIP r = route_EntryIP d)) then true
  else if negb (intPtrEqual (route_EntryPort r) (route_EntryPort d)) then true
  else if negb (bool_decide (route_Protocol r = route_Protocol d)) then true
  else if negb (bool_decide (rwg_GatewayWGIP existing = rwg_GatewayWGIP desired)) then true
  else if negb (bool_decide (route_DestinationIP r = route_DestinationIP d)) then true
  else if negb (intPtrEqual (route_DestinationPort r) (route_DestinationPort d)) then true
  else false.

Definition gateway_routeChanged (existing desired : Route) : bool :=
  if negb (intPtrEqual (route_EntryPort existing) (route_EntryPort desired)) then true
  else if negb (bool_decide (route_Protocol existing = route_Protocol desired)) then true
  else if negb (bool_decide (route_DestinationIP existing = route_DestinationIP desired)) then true
  else if negb (intPtrEqual (route_DestinationPort existing) (route_DestinationPort desired)) then true
  else false.

Definition node_listen (d : RouteWithGateway) : string :=
  JoinHostPort (route_EntryIP (rwg_Route d)) (Itoa (safePort (route_EntryPort (rwg_Route d)))).
Definition node_dial (d : RouteWithGateway) : string :=
  JoinHostPort (rwg_GatewayWGIP d) (Itoa (safePort (route_EntryPort (rwg_Route d)))).
Definition node_icmp (d : RouteWithGateway) : string * node_icmpRoute :=
  let r := rwg_Route d in
  (route_EntryIP r, mkNodeIcmp (uuid_String (route_ID r)) (route_EntryIP r) (rwg_GatewayWGIP d) (route_DestinationIP r)).

Definition gateway_listen (wireGuardIP : string) (r : Route) : string :=
  JoinHostPort wireGuardIP (Itoa (safePort (route_EntryPort r))).
Definition gateway_dial (r : Route) : string :=
  JoinHostPort (route_DestinationIP r) (Itoa (safePort (route_DestinationPort r))).
Definition gateway_icmp (r : Route) : string * gateway_icmpRoute :=
  (uuid_String (route_ID r), mkGatewayIcmp (uuid_String (route_ID r)) (route_DestinationIP r)).

Definition node_side : Side RouteWithGateway node_icmpRoute :=
  mkSide "" (route_ID ∘ rwg_Route) (route_Protocol ∘ rwg_Route) node_listen node_dial node_icmp node_routeChanged.
Definition gateway_side (wireGuardIP : string) : Side Route gateway_icmpRoute :=
  mkSide "gateway " route_ID route_Protocol (gateway_listen wireGuardIP) gateway_dial gateway_icmp gateway_routeChanged.
End icmp_entries.

(** ** The sockets of the process *)

Notation Handle := nat (only parsing).
(** network and address *)
Notation Endpoint := (string * string)%type (only parsing).

Record Sockets := mkSockets { sk_next : Handle; sk_open : gmap Handle Endpoint }.
Definition no_sockets : Sockets := mkSockets 0 ∅.
Definition sk_close (h : Handle) (k : Sockets) : Sockets := mkSockets (sk_next k) (delete h (sk_open k)).

(** ** State *)

Record icmpProxy (I : Type) := mkIcmpProxy { ip_conn : Handle; ip_routes : gmap string I }.
Arguments mkIcmpProxy {I}. Arguments ip_conn {I}. Arguments ip_routes {I}.

Record routeRuntime (D : Type) := mkRuntime { rt_route : D; rt_tcpListener : option Handle; rt_udpConn : option Handle }.
Arguments mkRuntime {D}. Arguments rt_route {D}. Arguments rt_tcpListener {D}. Arguments rt_udpConn {D}.

Record Forwarder (D I : Type) := mkForwarder {
  fw_running : bool;
  fw_routes : gmap ID (routeRuntime D);
  fw_icmpProxy : option (icmpProxy I);
  (** [icmpOnce] has fired *)
  fw_icmpOnce : bool;
  fw_sockets : Sockets
}.
Arguments mkForwarder {D I}. Arguments fw_running {D I}. Arguments fw_routes {D I}. Arguments fw_icmpProxy {D I}.
Arguments fw_icmpOnce {D I}. Arguments fw_sockets {D I}.

Record ServerStatus := mkServerStatus {
  ss_Running : bool; ss_ActiveRoutes : Z; ss_TCPListeners : Z; ss_UDPListeners : Z; ss_ICMPRoutes : Z
}.

Section forwarder.
Context {D I : Type} (sd : Side D I).
(** the operating system: given the open sockets, is this bind accepted? *)
Context (can_bind : list Endpoint -> Endpoint -> bool).

Notation fwM := (stM (Forwarder D I)).

Definition NewForwarderService : Forwarder D I := mkForwarder false ∅ None false no_sockets.

Definition set_sockets (k : Sockets) (s : Forwarder D I) : Forwarder D I :=
  mkForwarder (fw_running s) (fw_routes s) (fw_icmpProxy s) (fw_icmpOnce s) k.
Definition set_routes (m : gmap ID (routeRuntime D)) (s : Forwarder D I) : Forwarder D I :=
  mkForwarder (fw_running s) m (fw_icmpProxy s) (fw_icmpOnce s) (fw_sockets s).
Definition set_icmp (p : option (icmpProxy I)) (s : Forwarder D I) : Forwarder D I :=
  mkForwarder (fw_running s) (fw_routes s) p true (fw_sockets s).

(** [net.Listen], [net.ListenPacket] and [icmp.ListenPacket] *)
Definition Listen (e : Endpoint) : fwM Handle := fun s =>
  let k := fw_sockets s in
  if can_bind (map_to_list (sk_open k)).*2 e
  then (Ok (sk_next k), set_sockets (mkSockets (S (sk_next k)) (<[sk_next k := e]> (sk_open k))) s)
  else (Err (Errorf "bind"), s).

Definition Close (h : Handle) (s : Forwarder D I) : Forwarder D I := set_sockets (sk_close h (fw_sockets s)) s.
Definition Close_if (h : option Handle) (s : Forwarder D I) : Forwarder D I :=
  match h with Some h => Close h s | None => s end.

(** ** Starting a route *)

Definition startTCPListener (rt : routeRuntime D) : fwM (routeRuntime D) :=
  ln ← wrap "listen tcp" (Listen ("tcp", sd_listen sd (rt_route rt)));
  mret (mkRuntime (rt_route rt) (Some ln) (rt_udpConn rt)).

Definition startUDPListener (rt : routeRuntime D) : fwM (routeRuntime D) :=
  conn ← wrap "listen udp" (Listen ("udp", sd_listen sd (rt_route rt)));
  mret (mkRuntime (rt_route rt) (rt_tcpListener rt) (Some conn)).

Definition newICMPProxy : fwM (icmpProxy I) :=
  conn ← wrap "open raw ICMP socket (requires CAP_NET_RAW)" (Listen ("ip4:icmp", "0.0.0.0"));
  mret (mkIcmpProxy conn ∅).

Definition addRoute (e : string * I) (p : icmpProxy I) : icmpProxy I := mkIcmpProxy (ip_conn p) (<[e.1 := e.2]> (ip_routes p)).
Definition removeRoute (key : string) (p : icmpProxy I) : icmpProxy I := mkIcmpProxy (ip_conn p) (delete key (ip_routes p)).
Definition routeCount (p : icmpProxy I) : Z := Z.of_nat (size (ip_routes p)).

(** [icmpOnce.Do]: the constructor runs at most once, whatever it returns. *)
Definition icmp_init : fwM unit := fun s =>
  if fw_icmpOnce s then (Ok tt, s)
  else match newICMPProxy s with
       | (Ok p, s1) => (Ok tt, set_icmp (Some p) s1)
       | (Err e, s1) => (Err e, set_icmp None s1)
       end.

Definition icmp_register (d : D) : fwM unit := fun s =>
  match fw_icmpProxy s with
  | None => (Err (Errorf "ICMP proxy unavailable"), s)
  | Some p => (Ok tt, set_icmp (Some (addRoute (sd_icmp sd d) p)) s)
  end.

Definition startICMPRoute (d : D) : fwM unit :=
  _ ← wrap "init ICMP proxy" icmp_init;
  icmp_register d.

(** The UDP half of a route for both protocols: the TCP listener does not
    outlive a failure. *)
Definition startUDPListener_or_close (rt : routeRuntime D) : fwM (routeRuntime D) := fun s =>
  match startUDPListener rt s with
  | (Err e, s1) => (Err e, Close_if (rt_tcpListener rt) s1)
  | ok => ok
  end.

Definition startRoute (d : D) : fwM (routeRuntime D) :=
  let rt := mkRuntime d None None in
  let protocol := sd_Protocol sd d in
  if bool_decide (protocol = RouteProtocolTCP) then startTCPListener rt
  else if bool_decide (protocol = RouteProtocolUDP) then startUDPListener rt
  else if bool_decide (protocol = RouteProtocolAll) then
    rt ← startTCPListener rt;
    startUDPListener_or_close rt
  else if bool_decide (protocol = RouteProtocolICMP) then _ ← startICMPRoute d; mret rt
  else throw (Errorf "unsupported protocol").

Definition stopRouteLocked (rt : routeRuntime D) (s : Forwarder D I) : Forwarder D I :=
  Close_if (rt_udpConn rt) (Close_if (rt_tcpListener rt) s).

(** [stopRouteLocked(rt); delete(routes, id)] *)
Definition stop_and_delete (id : ID) (rt : routeRuntime D) (s : Forwarder D I) : Forwarder D I :=
  let s := stopRouteLocked rt s in set_routes (delete id (fw_routes s)) s.

(** ** Service *)

Definition Start : fwM unit := fun s =>
  if fw_running s then (Err (Errorf (sd_prefix sd +:+ "route forwarder already running")), s)
  else (Ok tt, mkForwarder true (fw_routes s) (fw_icmpProxy s) (fw_icmpOnce s) (fw_sockets s)).

Definition stop_all (s : Forwarder D I) : Forwarder D I :=
  foldl (fun s p => stop_and_delete p.1 p.2 s) s (map_to_list (fw_routes s)).

Definition close_icmp (s : Forwarder D I) : Forwarder D I :=
  match fw_icmpProxy s with
  | Some p => let s := Close (ip_conn p) s in
      mkForwarder (fw_running s) (fw_routes s) None (fw_icmpOnce s) (fw_sockets s)
  | None => s
  end.

Definition Stop : fwM unit := fun s =>
  if negb (fw_running s) then (Err (Errorf (sd_prefix sd +:+ "route forwarder not running")), s)
  else let s := close_icmp (stop_all s) in
    (Ok tt, mkForwarder false (fw_routes s) (fw_icmpProxy s) (fw_icmpOnce s) (fw_sockets s)).

Definition desired_routes (config : list D) : gmap ID D :=
  foldl (fun m d => <[sd_ID sd d := d]> m) ∅ config.

Definition stop_removed (desired : gmap ID D) (s : Forwarder D I) : Forwarder D I :=
  foldl (fun s p => match desired !! p.1 with None => stop_and_delete p.1 p.2 s | Some _ => s end)
    s (map_to_list (fw_routes s)).

Definition start_one (id : ID) (d : D) (s : Forwarder D I) : Forwarder D I :=
  match startRoute d s with
  | (Ok rt, s1) => set_routes (<[id := rt]> (fw_routes s1)) s1
  | (Err _, s1) => s1
  end.

(** One turn of the second loop. *)
Definition sync_one (id : ID) (d : D) (s : Forwarder D I) : Forwarder D I :=
  match fw_routes s !! id with
  | Some existing =>
      if negb (sd_changed sd (rt_route existing) d) then s
      else start_one id d (stop_and_delete id existing s)
  | None => start_one id d s
  end.

(** [order] is the order in which the second loop ranges over the map. *)
Definition Reconcile (order : list (ID * D)) (config : list D) : fwM unit := fun s =>
  if negb (fw_running s) then (Err (Errorf (sd_prefix sd +:+ "route forwarder not running")), s)
  else (Ok tt, foldl (fun s p => sync_one p.1 p.2 s) (stop_removed (desired_routes config) s) order).

Definition GetStatus (s : Forwarder D I) : ServerStatus :=
  let rts := (map_to_list (fw_routes s)).*2 in
  mkServerStatus (fw_running s) (Z.of_nat (size (fw_routes s)))
    (Z.of_nat (length (filter (fun rt => is_Some (rt_tcpListener rt)) rts)))
    (Z.of_nat (length (filter (fun rt => is_Some (rt_udpConn rt)) rts)))
    (match fw_icmpProxy s with Some p => routeCount p | None => 0 end).

(** ** Traffic *)

(** Where a connection or datagram that arrives at an endpoint is relayed to:
    the address the loop of the listener bound there dials. *)
Definition relays (s : Forwarder D I) (e : Endpoint) (target : string) : Prop :=
  exists id rt h, fw_routes s !! id = Some rt /\
    (rt_tcpListener rt = Some h \/ rt_udpConn rt = Some h) /\
    sk_open (fw_sockets s) !! h = Some e /\ target = sd_dial sd (rt_route rt).
End forwarder.

(** ** The forwarder of a gateway *)

(** gatewayrt/forwarder.go repeats the code of routeserver/forwarder.go with its
    own addresses, table entries and comparison: it is the service at
    [gateway_side]. *)
Section gateway_forwarder.
Context `{UUID} (wireGuardIP : string) (can_bind : list Endpoint -> Endpoint -> bool).
Notation gwM := (stM (Forwarder Route gateway_icmpRoute)).

Definition gwrt_startTCPListener : routeRuntime Route -> gwM (routeRuntime Route) := startTCPListener (gateway_side wireGuardIP) can_bind.
Definition gwrt_startUDPListener : routeRuntime Route -> gwM (routeRuntime Route) := startUDPListener (gateway_side wireGuardIP) can_bind.
Definition gwrt_startICMPRoute : Route -> gwM unit := startICMPRoute (gateway_side wireGuardIP) can_bind.
Definition gwrt_startRoute : Route -> gwM (routeRuntime Route) := startRoute (gateway_side wireGuardIP) can_bind.
Definition gwrt_stopRouteLocked : routeRuntime Route -> Forwarder Route gateway_icmpRoute -> Forwarder Route gateway_icmpRoute := stopRouteLocked.
Definition gwrt_Start : gwM unit := Start (gateway_side wireGuardIP).
Definition gwrt_Stop : gwM unit := Stop (gateway_side wireGuardIP).
Definition gwrt_Reconcile : list (ID * Route) -> list Route -> gwM unit := Reconcile (gateway_side wireGuardIP) can_bind.
Definition gwrt_GetStatus : Forwarder Route gateway_icmpRoute -> ServerStatus := GetStatus.
End gateway_forwarder.
