(* ===== verification/ForwarderTheorems.v ===== *)
(** * Route forwarders: no socket leaks, and the running routes follow the configuration *)

From Stdlib Require Import ZArith Lia String.
From S2P Require Import Prelude GoStrings GoNet Domain RouteService Token Forwarder.

Open Scope Z_scope.

(** ** What a side must satisfy *)

Class SideLaws {D I} (sd : Side D I) := {
  changed_refl d : sd_changed sd d d = false;
  unchanged_protocol d d' : sd_changed sd d d' = false -> sd_Protocol sd d = sd_Protocol sd d';
  unchanged_listen d d' : sd_changed sd d d' = false -> sd_listen sd d = sd_listen sd d';
  unchanged_dial d d' : sd_changed sd d d' = false -> sd_dial sd d = sd_dial sd d'
}.

Lemma intPtrEqual_spec a b : intPtrEqual a b = true <-> a = b.
Proof. destruct a, b; cbn; rewrite ?Z.eqb_eq; naive_solver. Qed.

Lemma node_unchanged d d' : node_routeChanged d d' = false <->
  route_EntryIP (rwg_Route d) = route_EntryIP (rwg_Route d') /\
  route_EntryPort (rwg_Route d) = route_EntryPort (rwg_Route d') /\
  route_Protocol (rwg_Route d) = route_Protocol (rwg_Route d') /\
  rwg_GatewayWGIP d = rwg_GatewayWGIP d' /\
  route_DestinationIP (rwg_Route d) = route_DestinationIP (rwg_Route d') /\
  route_DestinationPort (rwg_Route d) = route_DestinationPort (rwg_Route d').
Proof.
  unfold node_routeChanged. rewrite <-!intPtrEqual_spec.
  repeat case_bool_decide; repeat (destruct (intPtrEqual _ _)); cbn; intuition congruence.
Qed.

Lemma gateway_unchanged d d' : gateway_routeChanged d d' = false <->
  route_EntryPort d = route_EntryPort d' /\ route_Protocol d = route_Protocol d' /\
  route_DestinationIP d = route_DestinationIP d' /\ route_DestinationPort d = route_DestinationPort d'.
Proof.
  unfold gateway_routeChanged. rewrite <-!intPtrEqual_spec.
  repeat case_bool_decide; repeat (destruct (intPtrEqual _ _)); cbn; intuition congruence.
Qed.

#[export] Instance node_side_laws `{UUID} : SideLaws node_side.
Proof.
  split; intros d; [by apply node_unchanged| | |]; intros d' (He & Hp & Hpr & Hg & Hd & Hdp)%node_unchanged; cbn.
  - done.
  - unfold node_listen. by rewrite He, Hp.
  - unfold node_dial. by rewrite Hg, Hp.
Qed.

#[export] Instance gateway_side_laws `{UUID} ip : SideLaws (gateway_side ip).
Proof.
  split; intros d; [by apply gateway_unchanged| | |]; intros d' (Hp & Hpr & Hd & Hdp)%gateway_unchanged; cbn.
  - done.
  - unfold gateway_listen. by rewrite Hp.
  - unfold gateway_dial. by rewrite Hd, Hdp.
Qed.

(** ** The sockets a state owns *)

Section forwarder_proofs.
Context {D I : Type} (sd : Side D I).
Implicit Types (s : Forwarder D I) (rt : routeRuntime D) (d : D).

Definition icmp_endpoint : Endpoint := ("ip4:icmp", "0.0.0.0").

Definition held (network : string) (d : D) (h : option Handle) : list (Handle * Endpoint) :=
  match h with Some h => [(h, (network, sd_listen sd d))] | None => [] end.
Definition handles (rt : routeRuntime D) : list (Handle * Endpoint) :=
  held "tcp" (rt_route rt) (rt_tcpListener rt) ++ held "udp" (rt_route rt) (rt_udpConn rt).
Definition icmp_handles (p : option (icmpProxy I)) : list (Handle * Endpoint) :=
  match p with Some p => [(ip_conn p, icmp_endpoint)] | None => [] end.
Definition owned (s : Forwarder D I) : list (Handle * Endpoint) :=
  (map_to_list (fw_routes s) ≫= fun p => handles p.2) ++ icmp_handles (fw_icmpProxy s).

(** The listeners of a running route are those of its protocol. *)
Definition shaped (rt : routeRuntime D) : Prop :=
  let p := sd_Protocol sd (rt_route rt) in
  p ∈ [RouteProtocolTCP; RouteProtocolUDP; RouteProtocolAll; RouteProtocolICMP] /\
  (is_Some (rt_tcpListener rt) <-> p = RouteProtocolTCP \/ p = RouteProtocolAll) /\
  (is_Some (rt_udpConn rt) <-> p = RouteProtocolUDP \/ p = RouteProtocolAll).

(** The invariant, with sockets [L] that no route owns yet. *)
Record fw_inv_with (L : list (Handle * Endpoint)) (s : Forwarder D I) : Prop := mkFwInv {
  fi_owned : map_to_list (sk_open (fw_sockets s)) ≡ₚ L ++ owned s;
  fi_fresh : forall h e, sk_open (fw_sockets s) !! h = Some e -> (h < sk_next (fw_sockets s))%nat;
  fi_routes : forall id rt, fw_routes s !! id = Some rt -> sd_ID sd (rt_route rt) = id /\ shaped rt;
  fi_idle : fw_running s = false -> fw_routes s = ∅ /\ fw_icmpProxy s = None;
  fi_once : fw_icmpProxy s <> None -> fw_icmpOnce s = true
}.
Notation fw_inv := (fw_inv_with []).

Lemma close_perm (m : gmap Handle Endpoint) h e R :
  map_to_list m ≡ₚ (h, e) :: R -> map_to_list (delete h m) ≡ₚ R.
Proof using Type.
  intros Hp. assert (m !! h = Some e) as Hh by (apply elem_of_map_to_list; rewrite Hp; by left).
  rewrite <-(map_to_list_delete _ _ _ Hh) in Hp. by apply Permutation_cons_inv in Hp.
Qed.

Lemma Close_inv L s h e : fw_inv_with ((h, e) :: L) s -> fw_inv_with L (Close h s).
Proof using Type.
  intros [Ho Hf Hr Hi Hn]. split; cbn; try done.
  - by apply (close_perm _ h e).
  - intros h' e' [_ H']%lookup_delete_Some. eauto.
Qed.

Lemma Close_if_inv L s n d h : fw_inv_with (held n d h ++ L) s -> fw_inv_with L (Close_if h s).
Proof using Type. destruct h; cbn; [apply Close_inv|done]. Qed.

Lemma Listen_inv cb L s e h s1 :
  fw_inv_with L s -> Listen cb e s = (Ok h, s1) ->
  fw_inv_with ((h, e) :: L) s1 /\ fw_routes s1 = fw_routes s /\ fw_running s1 = fw_running s /\
    fw_icmpProxy s1 = fw_icmpProxy s /\ fw_icmpOnce s1 = fw_icmpOnce s.
Proof using Type.
  intros [Ho Hf Hr Hi Hn]. unfold Listen. destruct (cb _ _); [|done]. intros [= <- <-]. split; [|done].
  assert (sk_open (fw_sockets s) !! sk_next (fw_sockets s) = None) as Hnone.
  { destruct (sk_open _ !! _) eqn:E; [|done]. apply Hf in E. lia. }
  split; cbn; try done.
  - rewrite map_to_list_insert, Ho by done. done.
  - intros h' e' [[<- _]|[_ H']]%lookup_insert_Some; [lia|]. apply Hf in H'. lia.
Qed.

Lemma Listen_err cb s e err s1 : Listen cb e s = (Err err, s1) -> s1 = s.
Proof using Type. unfold Listen. destruct (cb _ _); congruence. Qed.

(** Moving a route out of the map and into it. *)
Lemma take_inv L s id rt : fw_inv_with L s -> fw_routes s !! id = Some rt ->
  fw_inv_with (handles rt ++ L) (set_routes (delete id (fw_routes s)) s).
Proof using Type.
  intros [Ho Hf Hr Hi Hn] Hl. split; cbn; try done.
  - rewrite Ho. unfold owned. cbn. rewrite <-(map_to_list_delete _ _ _ Hl). cbn. rewrite !app_assoc. f_equiv.
    f_equiv. apply Permutation_app_comm.
  - intros id' rt' [_ H']%lookup_delete_Some. eauto.
  - intros Hs. destruct (Hi Hs) as [Hr0 ?]. split; [|done]. by rewrite Hr0, delete_empty.
Qed.

Lemma put_inv L s id rt : fw_inv_with (handles rt ++ L) s -> fw_running s = true -> fw_routes s !! id = None ->
  sd_ID sd (rt_route rt) = id -> shaped rt -> fw_inv_with L (set_routes (<[id := rt]> (fw_routes s)) s).
Proof using Type.
  intros [Ho Hf Hr Hi Hn] Hrun Hl Hid Hsh. split; cbn; try done.
  - rewrite Ho. unfold owned. cbn. rewrite (map_to_list_insert _ _ _ Hl). cbn. rewrite !app_assoc. f_equiv.
    f_equiv. apply Permutation_app_comm.
  - intros id' rt' [[<- <-]|[_ H']]%lookup_insert_Some; eauto.
  - congruence.
Qed.

Lemma stop_and_delete_eq id rt s :
  stop_and_delete id rt s = stopRouteLocked rt (set_routes (delete id (fw_routes s)) s).
Proof using Type. unfold stop_and_delete, stopRouteLocked. destruct rt as [d [t|] [u|]]; done. Qed.

Lemma stop_and_delete_inv L s id rt :
  fw_inv_with L s -> fw_routes s !! id = Some rt -> fw_inv_with L (stop_and_delete id rt s).
Proof using Type.
  intros Hs Hl. rewrite stop_and_delete_eq. unfold stopRouteLocked.
  eapply Close_if_inv, Close_if_inv. rewrite app_assoc. by apply take_inv.
Qed.

Lemma stop_and_delete_same id rt s : fw_routes (stop_and_delete id rt s) = delete id (fw_routes s) /\
  fw_running (stop_and_delete id rt s) = fw_running s /\ fw_icmpProxy (stop_and_delete id rt s) = fw_icmpProxy s.
Proof using Type. destruct rt as [d [t|] [u|]]; done. Qed.

(** ** Starting a route *)

(** A start either returns a runtime for the route whose sockets are in flight,
    or leaves no socket behind; it touches no running route. *)
Definition started L d s (o : result (routeRuntime D) * Forwarder D I) : Prop :=
  fw_routes o.2 = fw_routes s /\ fw_running o.2 = fw_running s /\
  match o.1 with
  | Ok rt => fw_inv_with (handles rt ++ L) o.2 /\ rt_route rt = d /\ shaped rt
  | Err _ => fw_inv_with L o.2
  end.

Section start.
Context (cb : list Endpoint -> Endpoint -> bool).

Lemma startTCP_spec L d u s : fw_inv_with L s ->
  let o := startTCPListener sd cb (mkRuntime d None u) s in
  fw_routes o.2 = fw_routes s /\ fw_running o.2 = fw_running s /\
  match o.1 with
  | Ok rt => exists h, rt = mkRuntime d (Some h) u /\ fw_inv_with ((h, ("tcp", sd_listen sd d)) :: L) o.2
  | Err _ => fw_inv_with L o.2
  end.
Proof using Type.
  intros Hs. unfold startTCPListener, mbind, stM_bind, wrap. cbn [rt_route].
  destruct (Listen cb _ s) as [[h|e] s1] eqn:E; cbn.
  - apply (Listen_inv _ L) in E as (? & ? & ? & _); [|done]. eauto.
  - by apply Listen_err in E as ->.
Qed.

Lemma startUDP_spec L d t s : fw_inv_with L s ->
  let o := startUDPListener sd cb (mkRuntime d t None) s in
  fw_routes o.2 = fw_routes s /\ fw_running o.2 = fw_running s /\
  match o.1 with
  | Ok rt => exists h, rt = mkRuntime d t (Some h) /\ fw_inv_with ((h, ("udp", sd_listen sd d)) :: L) o.2
  | Err _ => fw_inv_with L o.2
  end.
Proof using Type.
  intros Hs. unfold startUDPListener, mbind, stM_bind, wrap. cbn [rt_route].
  destruct (Listen cb _ s) as [[h|e] s1] eqn:E; cbn.
  - apply (Listen_inv _ L) in E as (? & ? & ? & _); [|done]. eauto.
  - by apply Listen_err in E as ->.
Qed.

Lemma fw_inv_perm L L' s : L ≡ₚ L' -> fw_inv_with L s -> fw_inv_with L' s.
Proof using Type. intros Hp [Ho Hf Hr Hi Hn]. split; try done. by rewrite <-Hp. Qed.

Lemma startUDP_or_close_spec L d h s : fw_inv_with ((h, ("tcp", sd_listen sd d)) :: L) s ->
  let o := startUDPListener_or_close sd cb (mkRuntime d (Some h) None) s in
  fw_routes o.2 = fw_routes s /\ fw_running o.2 = fw_running s /\
  match o.1 with
  | Ok rt => exists u, rt = mkRuntime d (Some h) (Some u) /\ fw_inv_with (handles rt ++ L) o.2
  | Err _ => fw_inv_with L o.2
  end.
Proof using Type.
  intros Hs. unfold startUDPListener_or_close. pose proof (startUDP_spec _ d (Some h) s Hs) as H.
  destruct (startUDPListener _ _ _ s) as [[rt|e] s1]; cbn in *; destruct H as (Hr & Hrun & H).
  - destruct H as (u & -> & H). split_and!; [done..|]. exists u. split; [done|].
    eapply fw_inv_perm; [|exact H]. cbn. constructor.
  - split_and!; [done..|]. by apply (Close_inv _ _ _ ("tcp", sd_listen sd d)).
Qed.

Lemma icmp_init_spec L s : fw_running s = true -> fw_inv_with L s ->
  let o := icmp_init cb s in
  fw_routes o.2 = fw_routes s /\ fw_running o.2 = fw_running s /\ fw_icmpOnce o.2 = true /\ fw_inv_with L o.2.
Proof using Type.
  intros Hrun Hs. unfold icmp_init. destruct (fw_icmpOnce s) eqn:Eo; [done|].
  assert (fw_icmpProxy s = None) as Hnone.
  { destruct (fw_icmpProxy s) eqn:E; [|done]. rewrite (fi_once _ _ Hs) in Eo; [done|]. by rewrite E. }
  unfold newICMPProxy, mbind, stM_bind, wrap. destruct (Listen cb _ s) as [[h|e] s1] eqn:E.
  - apply (Listen_inv _ L) in E as ([Ho Hf Hr Hi Hn] & Er & Erun & Ep & _); [|done]. cbn. split_and!; [done..|].
    split; cbn; try done.
    + rewrite Ho. unfold owned. rewrite Ep, Hnone. cbn. rewrite app_nil_r.
      rewrite Er, (app_assoc L). apply Permutation_cons_append.
    + rewrite Erun, Hrun. done.
  - apply Listen_err in E as ->. cbn. split_and!; [done..|]. destruct Hs as [Ho Hf Hr Hi Hn].
    split; cbn; try done; [|congruence]. rewrite Ho. unfold owned. by rewrite Hnone.
Qed.

Lemma startRoute_spec L d s : fw_running s = true -> fw_inv_with L s -> started L d s (startRoute sd cb d s).
Proof using Type.
  intros Hrun Hs. unfold startRoute, started.
  destruct (bool_decide (sd_Protocol sd d = RouteProtocolTCP)) eqn:E1; [apply bool_decide_eq_true in E1|apply bool_decide_eq_false in E1].
  { pose proof (startTCP_spec L d None s Hs) as H. destruct (startTCPListener _ _ _ s) as [[rt|e] s1]; cbn in *; [|done].
    destruct H as (? & ? & h & -> & H). split_and!; try done.
    unfold shaped. cbn. rewrite E1. split_and!; [set_solver|naive_solver|]. split; [intros []; done|intros [[=]|[=]]]. }
  destruct (bool_decide (sd_Protocol sd d = RouteProtocolUDP)) eqn:E2; [apply bool_decide_eq_true in E2|apply bool_decide_eq_false in E2].
  { pose proof (startUDP_spec L d None s Hs) as H. destruct (startUDPListener _ _ _ s) as [[rt|e] s1]; cbn in *; [|done].
    destruct H as (? & ? & h & -> & H). split_and!; try done.
    unfold shaped. cbn. rewrite E2. split_and!; [set_solver| |naive_solver]. split; [intros []; done|intros [[=]|[=]]]. }
  destruct (bool_decide (sd_Protocol sd d = RouteProtocolAll)) eqn:E3; [apply bool_decide_eq_true in E3|apply bool_decide_eq_false in E3].
  { pose proof (startTCP_spec L d None s Hs) as H. unfold mbind, stM_bind.
    destruct (startTCPListener _ _ _ s) as [[rt|e] s1]; cbn in H; [|done]. destruct H as (Hr1 & Hrun1 & h & -> & H).
    apply startUDP_or_close_spec in H. destruct (startUDPListener_or_close _ _ _ s1) as [[rt|e] s2]; cbn in *.
    - destruct H as (? & ? & u & -> & H). split_and!; try done; [congruence..|].
      unfold shaped. cbn. rewrite E3. split_and!; [set_solver|naive_solver|naive_solver].
    - destruct H as (? & ? & H). split_and!; [congruence..|done]. }
  destruct (bool_decide (sd_Protocol sd d = RouteProtocolICMP)) eqn:E4; [apply bool_decide_eq_true in E4|by cbn].
  pose proof (icmp_init_spec L s Hrun Hs) as H. unfold startICMPRoute, mbind, stM_bind, wrap.
  destruct (icmp_init cb s) as [[[]|e] s1]; cbn in H; destruct H as (Hr1 & Hrun1 & Ho1 & H); [|done].
  unfold icmp_register. destruct (fw_icmpProxy s1) as [p|] eqn:Ep; cbn; [|done]. split_and!; try done.
  - destruct H as [Ho Hf Hr Hi Hn]. split; cbn; try done.
    + rewrite Ho. unfold owned. by rewrite Ep.
    + congruence.
  - unfold shaped. cbn. rewrite E4. split_and!; [set_solver|..]; (split; [intros []; done|intros [[=]|[=]]]).
Qed.
End start.

(** ** The loops *)

Notation fw_stop P := (fun s (p : ID * routeRuntime D) => if P p.1 then stop_and_delete p.1 p.2 s else s).

Lemma stop_loop (P : ID -> bool) l s : fw_inv s -> NoDup l.*1 -> (forall p, p ∈ l -> fw_routes s !! p.1 = Some p.2) ->
  let s' := foldl (fw_stop P) s l in
  fw_inv s' /\ fw_running s' = fw_running s /\ fw_icmpProxy s' = fw_icmpProxy s /\
  forall id, fw_routes s' !! id = if decide (id ∈ l.*1 /\ P id = true) then None else fw_routes s !! id.
Proof using Type.
  revert s. induction l as [|[id0 rt0] l IH]; intros s Hs Hnd Hl; cbn in *.
  { split_and!; [done..|]. intros id. rewrite decide_False; [done|]. intros [[]%not_elem_of_nil _]. }
  apply NoDup_cons in Hnd as [Hnin Hnd]. pose proof (Hl (id0, rt0) ltac:(by left)) as H0. cbn in H0.
  set (s1 := if P id0 then stop_and_delete id0 rt0 s else s).
  assert (fw_routes s1 = if P id0 then delete id0 (fw_routes s) else fw_routes s) as Hr1.
  { subst s1. destruct (P id0); [apply stop_and_delete_same|done]. }
  assert (fw_inv s1 /\ fw_running s1 = fw_running s /\ fw_icmpProxy s1 = fw_icmpProxy s) as (H1 & Hrun1 & Hp1).
  { subst s1. destruct (P id0); [|done]. split; [by apply stop_and_delete_inv|]. apply stop_and_delete_same. }
  destruct (IH s1 H1 Hnd) as (Hs' & Hrun' & Hp' & Hr').
  { intros [id rt] Hp. rewrite Hr1. pose proof (Hl (id, rt) ltac:(by right)) as Hid. cbn in *. destruct (P id0); [|done].
    rewrite lookup_delete_ne; [done|]. intros ->. apply Hnin. apply list_elem_of_fmap. by exists (id, rt). }
  split_and!; [done|congruence..|]. intros id. rewrite Hr', Hr1.
  destruct (decide (id ∈ l.*1 /\ P id = true)) as [[? ?]|Hno].
  { rewrite decide_True; [done|]. split; [by right|done]. }
  destruct (decide (id ∈ id0 :: l.*1 /\ P id = true)) as [[Hin HP]|Hno'].
  - apply elem_of_cons in Hin as [->|Hin]; [|naive_solver]. by rewrite HP, lookup_delete_eq.
  - destruct (P id0) eqn:E; [|done]. apply lookup_delete_ne. intros ->. apply Hno'. split; [by left|done].
Qed.

Lemma stop_loop_all (P : ID -> bool) s : fw_inv s ->
  let s' := foldl (fw_stop P) s (map_to_list (fw_routes s)) in
  fw_inv s' /\ fw_running s' = fw_running s /\ fw_icmpProxy s' = fw_icmpProxy s /\
  forall id, fw_routes s' !! id = if P id then None else fw_routes s !! id.
Proof using Type.
  intros Hs. destruct (stop_loop P (map_to_list (fw_routes s)) s Hs) as (H1 & H2 & H3 & H4).
  { apply NoDup_fst_map_to_list. }
  { intros [id rt] Hp. by apply elem_of_map_to_list in Hp. }
  cbn in *. split_and!; [done..|]. intros id. rewrite H4. destruct (P id) eqn:E.
  - destruct (decide _) as [|Hno]; [done|]. destruct (fw_routes s !! id) as [rt|] eqn:El; [|done]. exfalso. apply Hno.
    split; [|done]. apply list_elem_of_fmap. exists (id, rt). split; [done|]. by apply elem_of_map_to_list.
  - rewrite decide_False; [done|]. naive_solver.
Qed.

Lemma stop_all_inv s : fw_inv s ->
  fw_inv (stop_all s) /\ fw_running (stop_all s) = fw_running s /\ fw_icmpProxy (stop_all s) = fw_icmpProxy s /\
  fw_routes (stop_all s) = ∅.
Proof using Type.
  intros Hs. destruct (stop_loop_all (fun _ => true) s Hs) as (H1 & H2 & H3 & H4). unfold stop_all.
  split_and!; [exact H1|exact H2|exact H3|]. apply map_eq. intros id. by rewrite H4, lookup_empty.
Qed.

Lemma stop_removed_eq desired s : stop_removed desired s =
  foldl (fw_stop (fun id => bool_decide (desired !! id = None))) s (map_to_list (fw_routes s)).
Proof using Type.
  unfold stop_removed. generalize (map_to_list (fw_routes s)). intros l. revert s.
  induction l as [|p l IH]; intros s; [done|]. cbn. rewrite IH. f_equal. by destruct (desired !! p.1).
Qed.

Section sync.
Context (cb : list Endpoint -> Endpoint -> bool).

(** What a turn of the second loop, or the whole loop, does to one route. *)
Definition synced (id : ID) (d : D) s s' : Prop :=
  (forall rt, fw_routes s' !! id = Some rt ->
     rt_route rt = d \/ fw_routes s !! id = Some rt /\ sd_changed sd (rt_route rt) d = false) /\
  (forall rt, fw_routes s !! id = Some rt -> sd_changed sd (rt_route rt) d = false -> fw_routes s' !! id = Some rt).

Lemma start_one_spec id d s : fw_inv s -> fw_running s = true -> fw_routes s !! id = None -> sd_ID sd d = id ->
  let s' := start_one sd cb id d s in
  fw_inv s' /\ fw_running s' = true /\ (forall id', id' <> id -> fw_routes s' !! id' = fw_routes s !! id') /\
  (forall rt, fw_routes s' !! id = Some rt -> rt_route rt = d).
Proof using Type.
  intros Hs Hrun Hnone Hid. unfold start_one. pose proof (startRoute_spec cb [] d s Hrun Hs) as H. unfold started in H.
  destruct (startRoute sd cb d s) as [[rt|e] s1]; cbn in *; destruct H as (Hr & Hrun1 & H).
  - destruct H as (Hi & Hd & Hsh). rewrite Hr in *. split_and!.
    + rewrite <-Hr. apply put_inv; [done|congruence|by rewrite Hr|by rewrite Hd|done].
    + congruence.
    + intros id' Hne. by apply lookup_insert_ne.
    + intros rt'. rewrite lookup_insert_eq. by intros [= <-].
  - rewrite Hr. split_and!; [done|congruence|done|]. intros rt. by rewrite Hnone.
Qed.

Lemma sync_one_spec id d s : fw_inv s -> fw_running s = true -> sd_ID sd d = id ->
  let s' := sync_one sd cb id d s in
  fw_inv s' /\ fw_running s' = true /\ (forall id', id' <> id -> fw_routes s' !! id' = fw_routes s !! id') /\ synced id d s s'.
Proof using Type.
  intros Hs Hrun Hid. unfold sync_one, synced. destruct (fw_routes s !! id) as [rt|] eqn:El.
  - destruct (sd_changed sd (rt_route rt) d) eqn:Ec; cbn [negb].
    + destruct (stop_and_delete_same id rt s) as (Hr1 & Hrun1 & _).
      destruct (start_one_spec id d (stop_and_delete id rt s)) as (H1 & H2 & H3 & H4).
      { by apply stop_and_delete_inv. } { congruence. } { by rewrite Hr1, lookup_delete_eq. } { done. }
      cbn in *. split_and!; [done|done| | |].
      * intros id' Hne. by rewrite H3, Hr1, lookup_delete_ne.
      * intros rt' Hrt'. left. by apply H4.
      * intros rt' [= <-]. congruence.
    + split_and!; [done..|naive_solver|naive_solver].
  - destruct (start_one_spec id d s) as (H1 & H2 & H3 & H4); [done..|]. split_and!; [done..| |done]. intros rt Hrt. left. by apply H4.
Qed.

Lemma sync_loop l s : fw_inv s -> fw_running s = true -> NoDup l.*1 -> (forall p, p ∈ l -> sd_ID sd p.2 = p.1) ->
  let s' := foldl (fun s p => sync_one sd cb p.1 p.2 s) s l in
  fw_inv s' /\ fw_running s' = true /\ (forall id, id ∉ l.*1 -> fw_routes s' !! id = fw_routes s !! id) /\
  forall id d, (id, d) ∈ l -> synced id d s s'.
Proof using Type.
  revert s. induction l as [|[id0 d0] l IH]; intros s Hs Hrun Hnd Hl; cbn in *.
  { split_and!; [done..|]. intros id d []%not_elem_of_nil. }
  apply NoDup_cons in Hnd as [Hnin Hnd].
  destruct (sync_one_spec id0 d0 s Hs Hrun) as (H1 & Hrun1 & Ho1 & Hy1); [apply (Hl (id0, d0)); by left|].
  destruct (IH _ H1 Hrun1 Hnd) as (H2 & Hrun2 & Ho2 & Hy2); [intros p Hp; apply Hl; by right|]. cbn in *.
  split_and!; [done..| |].
  - intros id [Hne Hid]%not_elem_of_cons. by rewrite Ho2, Ho1.
  - intros id d [[= -> ->]|Hp]%elem_of_cons.
    + unfold synced in *. by rewrite (Ho2 id0 Hnin).
    + assert (id <> id0) as Hne. { intros ->. apply Hnin, list_elem_of_fmap. by exists (id0, d). }
      specialize (Hy2 _ _ Hp). unfold synced in *. by rewrite (Ho1 _ Hne) in Hy2.
Qed.
End sync.

(** ** The desired set *)

Lemma desired_snoc config d : desired_routes sd (config ++ [d]) = <[sd_ID sd d := d]> (desired_routes sd config).
Proof using Type. unfold desired_routes. by rewrite foldl_app. Qed.

Lemma desired_ids config id d : desired_routes sd config !! id = Some d -> sd_ID sd d = id /\ d ∈ config.
Proof using Type.
  induction config as [|d0 config IH] using rev_ind; [unfold desired_routes; cbn; by rewrite lookup_empty|]. rewrite desired_snoc.
  intros [[<- <-]|[_ H]]%lookup_insert_Some; [set_solver|]. apply IH in H. set_solver.
Qed.

Lemma desired_all config : NoDup (sd_ID sd <$> config) -> forall d, d ∈ config -> desired_routes sd config !! sd_ID sd d = Some d.
Proof using Type.
  induction config as [|d0 config IH] using rev_ind; intros Hnd d Hd; [by apply not_elem_of_nil in Hd|].
  rewrite desired_snoc. rewrite fmap_app in Hnd. apply NoDup_app in Hnd as (Hnd & Hdis & _).
  apply elem_of_app in Hd as [Hd|Hd]; [|apply list_elem_of_singleton in Hd as ->; apply lookup_insert_eq].
  rewrite lookup_insert_ne; [by apply IH|]. intros He. apply (Hdis (sd_ID sd d)); [by apply list_elem_of_fmap_2|].
  rewrite <-He. by left.
Qed.

(** An order of the second loop: some listing of the desired map. *)
Definition ranges (order : list (ID * D)) (config : list D) : Prop := order ≡ₚ map_to_list (desired_routes sd config).

Lemma ranges_elem order config id d : ranges order config -> (id, d) ∈ order <-> desired_routes sd config !! id = Some d.
Proof using Type. intros H. rewrite H. apply elem_of_map_to_list. Qed.

Lemma ranges_nodup order config : ranges order config -> NoDup order.*1.
Proof using Type. intros H. rewrite H. apply NoDup_fst_map_to_list. Qed.

Lemma ranges_ids order config p : ranges order config -> p ∈ order -> sd_ID sd p.2 = p.1.
Proof using Type. intros H Hp. destruct p. apply (ranges_elem _ _ _ _ H) in Hp. by apply desired_ids in Hp as [? _]. Qed.

(** ** One call of Reconcile *)

(** Every running route is desired, with nothing changed that matters. *)
Definition follows (config : list D) s : Prop := forall id rt, fw_routes s !! id = Some rt ->
  exists d, desired_routes sd config !! id = Some d /\ sd_changed sd (rt_route rt) d = false.

Lemma Reconcile_spec `{!SideLaws sd} cb order config s : fw_inv s -> fw_running s = true -> ranges order config ->
  exists s', Reconcile sd cb order config s = (Ok tt, s') /\ fw_inv s' /\ fw_running s' = true /\ follows config s' /\
    forall id rt d, fw_routes s !! id = Some rt -> desired_routes sd config !! id = Some d ->
      sd_changed sd (rt_route rt) d = false -> fw_routes s' !! id = Some rt.
Proof using Type.
  intros Hs Hrun Hord. unfold Reconcile. rewrite Hrun. cbn [negb]. eexists. split; [reflexivity|].
  rewrite stop_removed_eq.
  destruct (stop_loop_all (fun id => bool_decide (desired_routes sd config !! id = None)) s Hs) as (H1 & Hrun1 & _ & Hr1).
  revert H1 Hrun1 Hr1. set (s1 := foldl _ s _). intros H1 Hrun1 Hr1. rewrite Hrun in Hrun1.
  destruct (sync_loop cb order s1 H1 Hrun1 (ranges_nodup _ _ Hord)) as (H2 & Hrun2 & Ho2 & Hy2).
  { intros p. by apply (ranges_ids _ _ _ Hord). }
  split_and!; [done..| |].
  - intros id rt Hrt. destruct (desired_routes sd config !! id) as [d|] eqn:Ed.
    + exists d. split; [done|]. destruct (Hy2 id d) as [Hy _]; [by apply (ranges_elem _ _ _ _ Hord)|].
      destruct (Hy rt Hrt) as [->|[_ ?]]; [apply changed_refl|done].
    + exfalso. rewrite Ho2, Hr1, bool_decide_true in Hrt; [done|done|].
      intros ([id' d'] & -> & Hin)%list_elem_of_fmap. apply (ranges_elem _ _ _ _ Hord) in Hin. cbn in Ed. congruence.
  - intros id rt d Hrt Hd Hc. destruct (Hy2 id d) as [_ Hy]; [by apply (ranges_elem _ _ _ _ Hord)|].
    apply Hy; [|done]. by rewrite Hr1, Hd.
Qed.

(** ** Histories of a service *)

(** The operating system may answer differently at each call. *)
Inductive fw_step : Forwarder D I -> Forwarder D I -> Prop :=
| fw_Start s : fw_step s (Start sd s).2
| fw_Stop s : fw_step s (Stop sd s).2
| fw_Reconcile cb order config s : ranges order config -> fw_step s (Reconcile sd cb order config s).2.

Lemma Stop_inv s : fw_inv s -> fw_inv (Stop sd s).2.
Proof using Type.
  intros Hs. unfold Stop. destruct (fw_running s) eqn:Hrun; cbn [negb snd]; [|done].
  destruct (stop_all_inv s Hs) as (H1 & _ & _ & Hr1).
  assert (fw_inv (close_icmp (stop_all s)) /\ fw_routes (close_icmp (stop_all s)) = ∅ /\
    fw_icmpProxy (close_icmp (stop_all s)) = None) as (H2 & Hr2 & Hp2).
  { unfold close_icmp. destruct (fw_icmpProxy (stop_all s)) as [p|] eqn:Ep; [|done]. split_and!; [|done..].
    destruct H1 as [Ho Hf Hr Hi Hn]. unfold owned in Ho. rewrite Hr1, Ep, map_to_list_empty in Ho. cbn in Ho.
    split; cbn; try done.
    - rewrite (close_perm _ _ icmp_endpoint [] Ho). unfold owned. cbn. by rewrite Hr1.
    - intros h' e' [_ H']%lookup_delete_Some. eauto. }
  destruct H2 as [Ho Hf Hr Hi Hn]. split; cbn; done.
Qed.

Lemma fw_step_inv `{!SideLaws sd} s s' : fw_inv s -> fw_step s s' -> fw_inv s'.
Proof using Type.
  intros Hs Hst. revert Hs. destruct Hst as [s|s|cb order config s Hord]; intros Hs; [| by apply Stop_inv|].
  - unfold Start. destruct (fw_running s) eqn:Hrun; cbn; [done|]. destruct Hs as [Ho Hf Hr Hi Hn]. by split.
  - destruct (fw_running s) eqn:Hrun; [|unfold Reconcile; by rewrite Hrun].
    destruct (Reconcile_spec cb order config s) as (s' & -> & ? & _); done.
Qed.

Lemma New_inv : fw_inv NewForwarderService.
Proof using Type. split; try done. Qed.

Lemma fw_reachable_inv `{!SideLaws sd} s : rtc fw_step NewForwarderService s -> fw_inv s.
Proof using Type.
  assert (Hgen : forall s1 s2, rtc fw_step s1 s2 -> fw_inv s1 -> fw_inv s2) by (induction 1; eauto using fw_step_inv).
  eauto using New_inv.
Qed.
End forwarder_proofs.
