(* ===== verification/ForwarderPaths.v ===== *)
(** * Route forwarders: convergence, and the path from a node to a destination *)

From Stdlib Require Import ZArith Lia String.
From S2P Require Import Prelude GoStrings GoNet Domain Storage StoreInventory NodeSync RouteService Token.
From S2P Require Import InventoryTheorems RouteTheorems Forwarder ForwarderTheorems.

Open Scope Z_scope.

Notation fw_inv sd := (fw_inv_with sd []).

Section convergence.
Context {D I : Type} (sd : Side D I).
Implicit Types (s : Forwarder D I) (rt : routeRuntime D) (d : D).

(** The endpoints a route listens on. *)
Definition wants_tcp (d : D) : bool :=
  bool_decide (sd_Protocol sd d = RouteProtocolTCP) || bool_decide (sd_Protocol sd d = RouteProtocolAll).
Definition wants_udp (d : D) : bool :=
  bool_decide (sd_Protocol sd d = RouteProtocolUDP) || bool_decide (sd_Protocol sd d = RouteProtocolAll).
Definition wanted (d : D) : list Endpoint :=
  (if wants_tcp d then [("tcp", sd_listen sd d)] else []) ++ (if wants_udp d then [("udp", sd_listen sd d)] else []).

Definition wanted_by (config : list D) : list Endpoint := map_to_list (desired_routes sd config) ≫= fun p => wanted p.2.

(** The endpoints of a configuration are local addresses, free, and do not
    stand in each other's way. *)
Definition bindable (cb : list Endpoint -> Endpoint -> bool) (config : list D) : Prop :=
  forall op e, e ∈ wanted_by config -> (forall q, q ∈ op -> q ∈ wanted_by config \/ q = icmp_endpoint) ->
    e ∉ op -> cb op e = true.

Definition opens s : list Endpoint := (map_to_list (sk_open (fw_sockets s))).*2.

Lemma elem_of_wanted e d : e ∈ wanted d <->
  wants_tcp d = true /\ e = ("tcp", sd_listen sd d) \/ wants_udp d = true /\ e = ("udp", sd_listen sd d).
Proof using Type. unfold wanted. rewrite elem_of_app. destruct (wants_tcp d), (wants_udp d); set_solver. Qed.

Lemma elem_of_wanted_by e config :
  e ∈ wanted_by config <-> exists id d, desired_routes sd config !! id = Some d /\ e ∈ wanted d.
Proof using Type.
  unfold wanted_by. rewrite list_elem_of_bind. split.
  - intros ([id d] & He & Hp%elem_of_map_to_list). eauto.
  - intros (id & d & Hd & He). exists (id, d). by rewrite elem_of_map_to_list.
Qed.

Lemma shaped_wants rt : shaped sd rt ->
  (is_Some (rt_tcpListener rt) <-> wants_tcp (rt_route rt) = true) /\ (is_Some (rt_udpConn rt) <-> wants_udp (rt_route rt) = true).
Proof using Type. intros (_ & Ht & Hu). unfold wants_tcp, wants_udp. by rewrite !orb_true_iff, !bool_decide_eq_true. Qed.

Lemma handles_wanted rt : shaped sd rt -> (handles sd rt).*2 = wanted (rt_route rt).
Proof using Type.
  intros [Ht Hu]%shaped_wants. unfold handles, wanted. rewrite fmap_app. f_equal.
  - destruct (rt_tcpListener rt), (wants_tcp _); try done; exfalso; [naive_solver|]. by destruct (proj2 Ht eq_refl).
  - destruct (rt_udpConn rt), (wants_udp _); try done; exfalso; [naive_solver|]. by destruct (proj2 Hu eq_refl).
Qed.

(** The open endpoints are those of the running routes and of the ICMP proxy. *)
Lemma elem_of_opens e s : fw_inv sd s -> e ∈ opens s <->
  (exists id rt, fw_routes s !! id = Some rt /\ e ∈ wanted (rt_route rt)) \/ (e = icmp_endpoint /\ fw_icmpProxy s <> None).
Proof using Type.
  intros Hs. unfold opens. rewrite (fi_owned _ _ _ Hs). cbn. unfold owned. rewrite fmap_app, elem_of_app. f_equiv.
  - rewrite list_elem_of_fmap. split.
    + intros (x & -> & Hx). apply list_elem_of_bind in Hx as ([id rt] & Hx & Hp%elem_of_map_to_list). exists id, rt. split; [done|].
      destruct (fi_routes _ _ _ Hs _ _ Hp) as [_ Hsh]. rewrite <-(handles_wanted _ Hsh). by apply list_elem_of_fmap_2.
    + intros (id & rt & Hp & He). destruct (fi_routes _ _ _ Hs _ _ Hp) as [_ Hsh].
      rewrite <-(handles_wanted _ Hsh), list_elem_of_fmap in He. destruct He as (x & -> & Hx). exists x. split; [done|].
      apply list_elem_of_bind. exists (id, rt). by rewrite elem_of_map_to_list.
  - unfold icmp_handles. destruct (fw_icmpProxy s); cbn; [set_solver|]. split; [by intros ?%not_elem_of_nil|naive_solver].
Qed.
Context {laws : SideLaws sd}.

Lemma wanted_same d d' : sd_changed sd d d' = false -> wanted d = wanted d'.
Proof using laws.
  intros Hc. unfold wanted, wants_tcp, wants_udp. by rewrite (unchanged_protocol _ _ Hc), (unchanged_listen _ _ Hc).
Qed.

(** ** Starting succeeds when the endpoints are free *)

Lemma Listen_free cb e s : cb (opens s) e = true ->
  exists h s1, Listen cb e s = (Ok h, s1) /\ forall q, q ∈ opens s1 -> q = e \/ q ∈ opens s.
Proof using Type.
  intros Hc. unfold Listen. change (map_to_list (sk_open (fw_sockets s))).*2 with (opens s). rewrite Hc.
  eexists _, _. split; [reflexivity|]. unfold opens. cbn. intros q ([h q'] & -> & Hq%elem_of_map_to_list)%list_elem_of_fmap.
  apply lookup_insert_Some in Hq as [[_ <-]|[_ Hq]]; [by left|right]. apply list_elem_of_fmap. exists (h, q').
  by rewrite elem_of_map_to_list.
Qed.

Lemma startRoute_free cb d s :
  wants_tcp d || wants_udp d = true ->
  (forall op e, e ∈ wanted d -> (forall q, q ∈ op -> q ∈ opens s \/ q ∈ wanted d) -> e ∉ op -> cb op e = true) ->
  (forall e, e ∈ wanted d -> e ∉ opens s) ->
  exists rt s1, startRoute sd cb d s = (Ok rt, s1).
Proof using Type.
  intros Hw Hcb Hfree.
  assert (Htcp : wants_tcp d = true -> exists h s1, Listen cb ("tcp", sd_listen sd d) s = (Ok h, s1) /\
    forall q, q ∈ opens s1 -> q = ("tcp", sd_listen sd d) \/ q ∈ opens s).
  { intros Ht. apply Listen_free, Hcb; [apply elem_of_wanted; eauto|eauto|]. apply Hfree, elem_of_wanted. eauto. }
  assert (Hudp : wants_udp d = true -> forall s1,
    (forall q, q ∈ opens s1 -> q = ("tcp", sd_listen sd d) /\ wants_tcp d = true \/ q ∈ opens s) ->
    exists h s2, Listen cb ("udp", sd_listen sd d) s1 = (Ok h, s2)).
  { intros Hu s1 Hq. destruct (Listen_free cb ("udp", sd_listen sd d) s1) as (h & s2 & Hl & _); [|eauto].
    apply Hcb; [apply elem_of_wanted; eauto| |].
    - intros q [[-> ?]|?]%Hq; [right; apply elem_of_wanted; eauto|eauto].
    - intros [[[=] _]|Hin]%Hq. revert Hin. apply Hfree, elem_of_wanted. eauto. }
  assert (Hp : sd_Protocol sd d = RouteProtocolTCP \/ sd_Protocol sd d = RouteProtocolUDP \/ sd_Protocol sd d = RouteProtocolAll).
  { unfold wants_tcp, wants_udp in Hw. rewrite !orb_true_iff, !bool_decide_eq_true in Hw. tauto. }
  unfold wants_tcp, wants_udp in *. destruct Hp as [E|[E|E]]; rewrite E in Htcp, Hudp.
  - destruct (Htcp eq_refl) as (h & s1 & Hl & _).
    assert (startRoute sd cb d s = startTCPListener sd cb (mkRuntime d None None) s) as -> by (unfold startRoute; by rewrite E).
    unfold startTCPListener, mbind, stM_bind, wrap. cbn [rt_route]. rewrite Hl. eauto.
  - destruct (Hudp eq_refl s) as (h & s1 & Hl); [eauto|].
    assert (startRoute sd cb d s = startUDPListener sd cb (mkRuntime d None None) s) as -> by (unfold startRoute; by rewrite E).
    unfold startUDPListener, mbind, stM_bind, wrap. cbn [rt_route]. rewrite Hl. eauto.
  - destruct (Htcp eq_refl) as (h & s1 & Hl & Hq). destruct (Hudp eq_refl s1) as (u & s2 & Hl2); [naive_solver|].
    assert (startRoute sd cb d s = (rt ← startTCPListener sd cb (mkRuntime d None None); startUDPListener_or_close sd cb rt) s) as ->
      by (unfold startRoute; by rewrite E).
    unfold startTCPListener, startUDPListener_or_close, startUDPListener, mbind, stM_bind, wrap. cbn [rt_route].
    rewrite Hl. unfold mret, stM_ret. cbn [rt_route]. rewrite Hl2. eauto.
Qed.

(** ** The second round *)

Section round.
Context (cb : list Endpoint -> Endpoint -> bool) (config : list D).
Hypothesis distinct : NoDup (wanted_by config).
Hypothesis free : bindable cb config.

Lemma wanted_disjoint id id' d d' e :
  desired_routes sd config !! id = Some d -> desired_routes sd config !! id' = Some d' ->
  e ∈ wanted d -> e ∈ wanted d' -> id = id'.
Proof using distinct.
  intros Hd Hd' He He'. destruct (decide (id = id')) as [|Hne]; [done|exfalso].
  unfold wanted_by in distinct. revert distinct.
  rewrite <-(map_to_list_delete _ _ _ Hd). cbn. rewrite NoDup_app. intros (_ & Hdis & _).
  apply (Hdis e He), list_elem_of_bind. exists (id', d'). split; [done|]. apply elem_of_map_to_list. by rewrite lookup_delete_ne.
Qed.

Lemma sync_free id d s : fw_inv sd s -> fw_running s = true -> follows sd config s ->
  desired_routes sd config !! id = Some d ->
  let s' := sync_one sd cb id d s in
  follows sd config s' /\ (forall id', is_Some (fw_routes s !! id') -> is_Some (fw_routes s' !! id')) /\
  (wants_tcp d || wants_udp d = true -> is_Some (fw_routes s' !! id)).
Proof using laws distinct free.
  intros Hs Hrun Hf Hd. destruct (desired_ids sd _ _ _ Hd) as [Hid _].
  destruct (sync_one_spec sd cb id d s Hs Hrun Hid) as (_ & _ & Hoth & Hy & Hkeep). cbn. split_and!.
  - intros id' rt' Hrt'. destruct (decide (id' = id)) as [->|Hne]; [|rewrite Hoth in Hrt' by done; eauto].
    exists d. split; [done|]. destruct (Hy _ Hrt') as [->|[_ ?]]; [apply changed_refl|done].
  - intros id' [rt Hrt]. destruct (decide (id' = id)) as [->|Hne]; [|rewrite Hoth by done; eauto].
    destruct (Hf _ _ Hrt) as (d' & Hd' & Hc). rewrite Hd in Hd'. injection Hd' as <-. eauto.
  - intros Hw. destruct (fw_routes s !! id) as [rt|] eqn:El.
    { destruct (Hf _ _ El) as (d' & Hd' & Hc). rewrite Hd in Hd'. injection Hd' as <-. eauto. }
    unfold sync_one. rewrite El. unfold start_one.
    assert (Hop : forall q, q ∈ opens s -> (exists id' d', id' <> id /\ desired_routes sd config !! id' = Some d' /\ q ∈ wanted d') \/ q = icmp_endpoint).
    { intros q [(id' & rt & Hrt & Hq)|[-> _]]%(elem_of_opens _ _ Hs); [|by right]. left.
      destruct (Hf _ _ Hrt) as (d' & Hd' & Hc). exists id', d'. rewrite <-(wanted_same _ _ Hc). split_and!; [congruence|done..]. }
    destruct (startRoute_free cb d s Hw) as (rt & s1 & ->).
    + intros op e He Hq Hn. apply free; [apply elem_of_wanted_by; eauto| |done].
      intros q [[(id' & d' & _ & ? & ?)| ->]%Hop|Hq']%Hq; [left|by right|left]; apply elem_of_wanted_by; eauto.
    + intros e He [(id' & d' & Hne & Hd' & He')| ->]%Hop.
      * by apply Hne, (wanted_disjoint id' id d' d e).
      * apply elem_of_wanted in He as [[_ [=]]|[_ [=]]].
    + cbn. rewrite lookup_insert_eq. eauto.
Qed.

Lemma sync_loop_free l s : fw_inv sd s -> fw_running s = true -> follows sd config s ->
  (forall p, p ∈ l -> desired_routes sd config !! p.1 = Some p.2) ->
  let s' := foldl (fun s p => sync_one sd cb p.1 p.2 s) s l in
  fw_inv sd s' /\ follows sd config s' /\ (forall id, is_Some (fw_routes s !! id) -> is_Some (fw_routes s' !! id)) /\
  forall id d, (id, d) ∈ l -> wants_tcp d || wants_udp d = true -> is_Some (fw_routes s' !! id).
Proof using laws distinct free.
  revert s. induction l as [|[id0 d0] l IH]; intros s Hs Hrun Hf Hl; cbn.
  { split_and!; [done..|]. intros id d []%not_elem_of_nil. }
  pose proof (Hl (id0, d0) ltac:(by left)) as H0. cbn in H0. destruct (desired_ids sd _ _ _ H0) as [Hid _].
  destruct (sync_one_spec sd cb id0 d0 s Hs Hrun Hid) as (H1 & Hrun1 & _).
  destruct (sync_free id0 d0 s Hs Hrun Hf H0) as (Hf1 & Hk1 & Hn1).
  destruct (IH _ H1 Hrun1 Hf1) as (H2 & Hf2 & Hk2 & Hn2); [intros p Hp; apply Hl; by right|]. cbn in *.
  split_and!; [done|done|eauto|]. intros id d [[= -> ->]|Hp]%elem_of_cons Hw; eauto.
Qed.

Lemma second_round order s : fw_inv sd s -> fw_running s = true -> follows sd config s -> ranges sd order config ->
  let s' := (Reconcile sd cb order config s).2 in
  fw_inv sd s' /\ follows sd config s' /\
  forall id d, desired_routes sd config !! id = Some d -> wants_tcp d || wants_udp d = true -> is_Some (fw_routes s' !! id).
Proof using laws distinct free.
  intros Hs Hrun Hf Hord. unfold Reconcile. rewrite Hrun. cbn [negb snd]. rewrite stop_removed_eq.
  destruct (stop_loop_all sd (fun id => bool_decide (desired_routes sd config !! id = None)) s Hs) as (H1 & Hrun1 & _ & Hr1).
  revert H1 Hrun1 Hr1. set (s1 := foldl _ s _). intros H1 Hrun1 Hr1. rewrite Hrun in Hrun1.
  destruct (sync_loop_free order s1 H1 Hrun1) as (H2 & Hf2 & _ & Hn2).
  - intros id rt. rewrite Hr1. case_bool_decide; [done|]. eauto.
  - intros [id d] Hp. by apply (ranges_elem sd _ _ _ _ Hord).
  - split_and!; [done..|]. intros id d Hd. eapply Hn2. by apply (ranges_elem sd _ _ _ _ Hord).
Qed.

(** Traffic for a desired endpoint is relayed to the address of its route, and
    nowhere else. *)
Lemma relays_exact s id d e t : fw_inv sd s -> follows sd config s -> desired_routes sd config !! id = Some d ->
  is_Some (fw_routes s !! id) -> e ∈ wanted d -> relays sd s e t <-> t = sd_dial sd d.
Proof using laws distinct.
  intros Hs Hf Hd [rt Hrt] He. split.
  - intros (id' & rt' & h & Hrt' & Hh & Hop & ->). destruct (Hf _ _ Hrt') as (d' & Hd' & Hc).
    assert (id' = id) as ->.
    { apply (wanted_disjoint id' id d' d e); try done. rewrite <-(wanted_same _ _ Hc).
      destruct (fi_routes _ _ _ Hs _ _ Hrt') as [_ Hsh]. rewrite <-(handles_wanted _ Hsh). apply list_elem_of_fmap.
      assert (exists e', (h, e') ∈ handles sd rt') as (e' & He').
      { unfold handles. setoid_rewrite elem_of_app. destruct Hh as [-> | ->]; cbn; eexists; [left|right]; by left. }
      exists (h, e'). split; [|done]. cbn. apply elem_of_map_to_list in Hop. 
      assert ((h, e') ∈ map_to_list (sk_open (fw_sockets s))) as H'.
      { rewrite (fi_owned _ _ _ Hs). cbn. unfold owned. apply elem_of_app. left. apply list_elem_of_bind.
        exists (id', rt'). by rewrite elem_of_map_to_list. }
      apply elem_of_map_to_list in H', Hop. congruence. }
    rewrite Hd in Hd'. injection Hd' as <-. by apply unchanged_dial.
  - intros ->. destruct (Hf _ _ Hrt) as (d' & Hd' & Hc). rewrite Hd in Hd'. injection Hd' as <-.
    rewrite <-(wanted_same _ _ Hc) in He. destruct (fi_routes _ _ _ Hs _ _ Hrt) as [_ Hsh].
    rewrite <-(handles_wanted _ Hsh) in He. apply list_elem_of_fmap in He as ([h e'] & -> & Hh).
    exists id, rt, h. split_and!; [done| | |by rewrite (unchanged_dial _ _ Hc)].
    + unfold handles in Hh. apply elem_of_app in Hh.
      destruct (rt_tcpListener rt), (rt_udpConn rt); cbn in Hh; clear free cb; set_solver.
    + apply elem_of_map_to_list. rewrite (fi_owned _ _ _ Hs). cbn. unfold owned. apply elem_of_app. left.
      apply list_elem_of_bind. exists (id, rt). by rewrite elem_of_map_to_list.
Qed.
End round.
End convergence.

(** ** Claims *)

(** C15: whatever calls of Start, Stop and Reconcile a forwarder has served, and
    whichever binds the system refused on the way, the open sockets are exactly
    the listeners its protocol calls for of each running route and the socket of
    the ICMP proxy, each route is kept under its own id, and a stopped service
    holds no socket. *)
Theorem forwarder_sockets {D I} (sd : Side D I) `{!SideLaws sd} (s : Forwarder D I) :
  rtc (fw_step sd) NewForwarderService s ->
  map_to_list (sk_open (fw_sockets s)) ≡ₚ owned sd s /\
  (forall id rt, fw_routes s !! id = Some rt -> sd_ID sd (rt_route rt) = id /\ shaped sd rt) /\
  (fw_running s = false -> sk_open (fw_sockets s) = ∅).
Proof.
  intros Hr%fw_reachable_inv; [|done]. split_and!; [apply Hr..|]. intros [H1 H2]%(fi_idle _ _ _ Hr).
  pose proof (fi_owned _ _ _ Hr) as Ho. unfold owned in Ho. rewrite H1, H2, map_to_list_empty in Ho. cbn in Ho.
  by apply Permutation_nil_r, map_to_list_empty_iff in Ho.
Qed.

(** C18: from any state a running forwarder can be in, two calls of Reconcile
    with the same configuration start all of its TCP and UDP routes when their
    endpoints are distinct and free (a first call may find an endpoint still held
    by a route that is about to change); nothing else keeps running, and traffic
    that arrives at an endpoint is relayed to the address of its route and
    nowhere else. *)
Theorem two_rounds_suffice {D I} (sd : Side D I) `{!SideLaws sd} cb1 cb2 order1 order2 (config : list D) (s : Forwarder D I) :
  rtc (fw_step sd) NewForwarderService s -> fw_running s = true ->
  ranges sd order1 config -> ranges sd order2 config -> NoDup (wanted_by sd config) -> bindable sd cb2 config ->
  let s2 := (Reconcile sd cb2 order2 config (Reconcile sd cb1 order1 config s).2).2 in
  (forall id rt, fw_routes s2 !! id = Some rt ->
     exists d, desired_routes sd config !! id = Some d /\ sd_changed sd (rt_route rt) d = false) /\
  forall id d e, desired_routes sd config !! id = Some d -> e ∈ wanted sd d ->
    is_Some (fw_routes s2 !! id) /\ forall t, relays sd s2 e t <-> t = sd_dial sd d.
Proof.
  intros Hr%fw_reachable_inv Hrun H1 H2 Hd Hb; [|done].
  destruct (Reconcile_spec sd cb1 order1 config s) as (s1 & -> & Hi1 & Hrun1 & Hf1 & _); [done..|]. cbn [snd].
  destruct (second_round sd cb2 config Hd Hb order2 s1) as (Hi2 & Hf2 & Hn2); [done..|]. split; [done|].
  intros id d e Hid He. assert (wants_tcp sd d || wants_udp sd d = true) as Hw.
  { apply elem_of_wanted in He as [[-> _]|[-> _]]; [done|apply orb_true_r]. }
  split; [eauto|]. intros t. eapply relays_exact; eauto.
Qed.

Section path.
Context `{UUID}.

(** The network carries the route. *)
Definition carries (network : string) (r : Route) : Prop :=
  (network = "tcp" \/ network = "udp") /\ (route_Protocol r = network \/ route_Protocol r = RouteProtocolAll).

(** [s] is a forwarder that was running and has reconciled [config] twice. *)
Definition converged {D I} (sd : Side D I) (config : list D) (s : Forwarder D I) : Prop :=
  exists s0 cb1 cb2 order1 order2, rtc (fw_step sd) NewForwarderService s0 /\ fw_running s0 = true /\
    ranges sd order1 config /\ ranges sd order2 config /\ NoDup (wanted_by sd config) /\ bindable sd cb2 config /\
    s = (Reconcile sd cb2 order2 config (Reconcile sd cb1 order1 config s0).2).2.

Lemma converged_relays {D I} (sd : Side D I) {laws : SideLaws sd} config s d network :
  converged sd config s -> NoDup (sd_ID sd <$> config) -> d ∈ config -> (network = "tcp" \/ network = "udp") ->
  sd_Protocol sd d = network \/ sd_Protocol sd d = RouteProtocolAll ->
  forall t, relays sd s (network, sd_listen sd d) t <-> t = sd_dial sd d.
Proof using Type.
  intros (s0 & cb1 & cb2 & o1 & o2 & Hr & Hrun & H1 & H2 & Hd & Hb & ->) Hids Hin Hnet Hp.
  apply fw_reachable_inv in Hr; [|done]. pose proof (desired_all sd config Hids d Hin) as Hid.
  assert ((network, sd_listen sd d) ∈ wanted sd d) as He.
  { apply elem_of_wanted. unfold wants_tcp, wants_udp. rewrite !orb_true_iff, !bool_decide_eq_true.
    destruct Hnet as [-> | ->]; [left|right]; split; try done; destruct Hp as [-> | ->]; auto. }
  destruct (Reconcile_spec sd cb1 o1 config s0) as (s1 & -> & Hi1 & Hrun1 & Hf1 & _); [done..|]. cbn [snd].
  destruct (second_round sd cb2 config Hd Hb o2 s1) as (Hi2 & Hf2 & Hn2); [done..|].
  assert (wants_tcp sd d || wants_udp sd d = true) as Hw.
  { apply elem_of_wanted in He as [[-> _]|[-> _]]; [done|apply orb_true_r]. }
  intros t. eapply relays_exact; eauto.
Qed.

(** Rows kept under their own id are listed once. *)
Lemma rows_ids_nodup {V} (f : V -> ID) (P : V -> Prop) `{!forall v, Decision (P v)} (m : gmap ID V) :
  (forall k v, m !! k = Some v -> f v = k) -> NoDup (f <$> filter P (rows_of m)).
Proof using Type.
  intros Hk. eapply sublist_NoDup; [|apply fmap_sublist, sublist_filter].
  replace (f <$> rows_of m) with (map_to_list m).*1; [apply NoDup_fst_map_to_list|].
  unfold rows_of. rewrite <-list_fmap_compose. apply list_fmap_ext. intros i [k v] Hi%list_elem_of_lookup_2.
  apply elem_of_map_to_list in Hi. cbn. by rewrite (Hk _ _ Hi).
Qed.

(** C14: a TCP or UDP route of the tables that node [n] serves (active, assigned to a
    group of its own tenant that the node is in, within the listing limit) works end
    to end.  When the node and the gateway of the route have polled their
    configurations from those tables and have converged on them, which takes two
    rounds and endpoints that are pairwise distinct and free, and the gateway listens
    on the address the controller hands out for it, a connection to the route's entry
    address on the node is relayed to the gateway and by the gateway to the
    destination, and nowhere else. *)
Theorem route_end_to_end (s s1 s2 : SqlState) (n : ID) (r : Route) (gw : Gateway) cfg gcfg fnode fgateway network :
  inventory_inv (sq_db s) -> routes_small (sq_db s) -> refers (nodes (sq_db s)) n ->
  route_served_to (sq_db s) n r -> gateways (sq_db s) !! route_GatewayID r = Some gw -> carries network r ->
  GetNodeRouteConfig n s = (Ok cfg, s1) -> GetGatewayRouteConfig (route_GatewayID r) s1 = (Ok gcfg, s2) ->
  converged node_side (nrc_Routes cfg) fnode ->
  converged (gateway_side (dial_address gw)) (grc_Routes gcfg) fgateway ->
  let entry := JoinHostPort (route_EntryIP r) (Itoa (safePort (route_EntryPort r))) in
  let hop := JoinHostPort (dial_address gw) (Itoa (safePort (route_EntryPort r))) in
  let destination := JoinHostPort (route_DestinationIP r) (Itoa (safePort (route_DestinationPort r))) in
  forall t, (exists a, relays node_side fnode (network, entry) a /\ relays (gateway_side (dial_address gw)) fgateway (network, a) t) <->
    t = destination.
Proof using Type.
  intros Hi Hsm Hn Hserved Hgw [Hnet Hp] Hrun Hgrun Hfn Hfg entry hop destination t.
  destruct (config_exact _ _ Hi Hsm Hn) as (cfg0 & Hc & Hnd & Hin).
  pose proof (rd_ok _ _ (reader_config n) _ _ _ Hrun) as Hok. cbv beta in Hok. rewrite Hc in Hok. injection Hok as ->.
  apply (rd_same _ _ (reader_config n)) in Hrun as [Hd _]. apply (rd_ok _ _ (reader_gateway_config _)) in Hgrun.
  rewrite Hd in Hgrun. apply rbind_Ok in Hgrun as (_ & _ & [= <-]).
  assert (Hnode : forall a, relays node_side fnode (network, entry) a <-> a = hop).
  { apply (converged_relays node_side _ _ (mkRWG r (dial_address gw)) network Hfn Hnd); [|done..]. apply Hin. cbn. eauto. }
  assert (Hgate : forall a, relays (gateway_side (dial_address gw)) fgateway (network, hop) a <-> a = destination).
  { apply (converged_relays (gateway_side (dial_address gw)) _ _ r network Hfg); [|..|done|done].
    - unfold gateway_routes. cbn. rewrite merge_sort_Permutation. apply rows_ids_nodup.
      intros k v Hk. by destruct (ii_routes _ Hi _ _ Hk).
    - cbn. apply elem_of_gateway_routes. destruct Hserved as (? & ? & _). eauto. }
  setoid_rewrite Hnode. split; [intros (a & -> & Ht); by apply Hgate|]. intros ->. exists hop. by rewrite Hgate.
Qed.
End path.

(** ** Witnesses *)

(** An operating system that refuses only endpoints that are taken. *)
Definition free_bind (op : list Endpoint) (e : Endpoint) : bool := bool_decide (e ∉ op).
Definition listing {D I} (sd : Side D I) (config : list D) : list (ID * D) := map_to_list (desired_routes sd config).

Lemma free_bindable {D I} (sd : Side D I) config : bindable sd free_bind config.
Proof. intros op e _ _ Hn. unfold free_bind. by apply bool_decide_true. Qed.

Definition fw_started {D I} (sd : Side D I) : Forwarder D I := (Start sd NewForwarderService).2.
Definition fw_after {D I} (sd : Side D I) (config : list D) (s : Forwarder D I) : Forwarder D I :=
  (Reconcile sd free_bind (listing sd config) config s).2.

Lemma started_reachable {D I} (sd : Side D I) : rtc (fw_step sd) NewForwarderService (fw_started sd).
Proof. eapply rtc_l; [apply fw_Start|apply rtc_refl]. Qed.
Lemma after_reachable {D I} (sd : Side D I) config s :
  rtc (fw_step sd) NewForwarderService s -> rtc (fw_step sd) NewForwarderService (fw_after sd config s).
Proof. intros Hs. eapply rtc_r; [exact Hs|]. apply fw_Reconcile. unfold ranges, listing. reflexivity. Qed.

Lemma converged_example {D I} (sd : Side D I) config : NoDup (wanted_by sd config) ->
  converged sd config (fw_after sd config (fw_after sd config (fw_started sd))).
Proof.
  intros Hd. exists (fw_started sd), free_bind, free_bind, (listing sd config), (listing sd config).
  split_and!; first [apply started_reachable|apply free_bindable|done|unfold ranges, listing; reflexivity].
Qed.

Definition sample_route (id : ID) (port : Z) : RouteWithGateway :=
  mkRWG (mkRoute id 1 "r" "all" "203.0.113.1" (Some port) 4 "10.1.0.5" (Some 22) (Some 2%N) RouteStatusActive 0 0) "10.100.0.9".

(** Two routes swap their ports: the first round leaves one of them out. *)
Definition swap_start : Forwarder RouteWithGateway node_icmpRoute :=
  fw_after node_side [sample_route 1 80; sample_route 2 81] (fw_started node_side).
Definition swapped : list RouteWithGateway := [sample_route 1 81; sample_route 2 80].

Lemma forwarder_sockets_witness :
  length (owned node_side swap_start) = 4%nat /\
  map_to_list (sk_open (fw_sockets swap_start)) ≡ₚ owned node_side swap_start.
Proof.
  split; [vm_compute; reflexivity|]. apply (forwarder_sockets node_side swap_start). apply after_reachable, started_reachable.
Defined.

Lemma two_rounds_suffice_witness :
  size (fw_routes (fw_after node_side swapped swap_start)) = 1%nat /\
  is_Some (fw_routes (fw_after node_side swapped (fw_after node_side swapped swap_start)) !! 1%N) /\
  is_Some (fw_routes (fw_after node_side swapped (fw_after node_side swapped swap_start)) !! 2%N).
Proof.
  split; [vm_compute; reflexivity|].
  assert (forall id d e, desired_routes node_side swapped !! id = Some d -> e ∈ wanted node_side d ->
    is_Some (fw_routes (fw_after node_side swapped (fw_after node_side swapped swap_start)) !! id)) as Hall.
  { intros id d e Hd He.
    refine (proj1 (proj2 (two_rounds_suffice node_side free_bind free_bind (listing node_side swapped) (listing node_side swapped)
      swapped swap_start _ _ _ _ _ _) id d e Hd He)); try (unfold ranges, listing; reflexivity).
    - apply after_reachable, started_reachable.
    - apply (bool_decide_eq_true_1 (NoDup _)). vm_compute. reflexivity.
    - apply free_bindable. }
  split; (eapply (Hall _ _ ("tcp", _)); [vm_compute; reflexivity|apply elem_of_wanted; left; split; reflexivity]).
Defined.

Definition path_node_config : list RouteWithGateway :=
  match GetNodeRouteConfig 3 inv_filled with (Ok cfg, _) => nrc_Routes cfg | _ => [] end.
Definition path_gateway_config : list Route :=
  match GetGatewayRouteConfig 4 inv_filled with (Ok cfg, _) => grc_Routes cfg | _ => [] end.
Definition path_node : Forwarder RouteWithGateway node_icmpRoute :=
  fw_after node_side path_node_config (fw_after node_side path_node_config (fw_started node_side)).
Definition path_gateway : Forwarder Route gateway_icmpRoute :=
  let sd := gateway_side "198.51.100.9" in fw_after sd path_gateway_config (fw_after sd path_gateway_config (fw_started sd)).

Definition path_route : Route :=
  mkRoute 5 1 "ssh" "tcp" "203.0.113.1" (Some 2222) 4 "10.1.0.5" (Some 22) (Some 2%N) RouteStatusActive 4 4.

Lemma route_end_to_end_witness :
  exists a, relays node_side path_node ("tcp", "203.0.113.1:2222") a /\
    relays (gateway_side "198.51.100.9") path_gateway ("tcp", a) "10.1.0.5:22".
Proof.
  destruct (gateways (sq_db inv_filled) !! 4%N) as [gw|] eqn:Eg; [|vm_compute in Eg; discriminate].
  assert (dial_address gw = "198.51.100.9") as Ha by (vm_compute in Eg; injection Eg as <-; reflexivity).
  unshelve epose proof (route_end_to_end inv_filled inv_filled inv_filled 3 path_route gw (mkNodeRouteConfig path_node_config)
    (mkGatewayRouteConfig path_gateway_config) path_node path_gateway "tcp" _ _ _ _ Eg _ _ _ _ _ "10.1.0.5:22") as Hp.
  - apply (inventory_reachable inv_start); [by apply run_ops_steps|]. apply inventory_inv_empty. repeat split; reflexivity.
  - intros tid. unfold route_rows. rewrite merge_sort_Permutation. etrans; [apply inj_le, length_filter|]. vm_compute. discriminate.
  - vm_compute. eauto.
  - split_and!; [vm_compute; reflexivity|reflexivity|]. eexists 2%N, (mkNodeGroup 2 1 "eu" "" 2 2).
    split_and!; [vm_compute; reflexivity| |reflexivity..]. apply (bool_decide_eq_true_1 (_ ∈ _)). vm_compute. reflexivity.
  - split; [by left|by left].
  - vm_compute. reflexivity.
  - vm_compute. reflexivity.
  - apply converged_example. apply (bool_decide_eq_true_1 (NoDup _)). vm_compute. reflexivity.
  - rewrite Ha. apply converged_example. apply (bool_decide_eq_true_1 (NoDup _)). vm_compute. reflexivity.
  - rewrite Ha in Hp. exact (proj2 Hp eq_refl).
Defined.
