(* ===== verification/Relay.v ===== *)
(** * Relaying UDP and TCP traffic of a route
      (udpReadLoop, udpReverseRelay, tcpAcceptLoop and tcpRelay of
      internal/routeserver/forwarder.go and internal/gatewayrt/forwarder.go)

    One loop reads the datagrams that arrive at the listener of a route; each
    client has a session with an upstream connection of its own, and a goroutine
    that carries the replies back.  The goroutines share the session table, so
    the loop and the relays are a step relation: a step is one turn of one of
    them.  A relay that closes a connection between the lookup and the write of
    the read loop makes that write fail, which a step with [written = false]
    covers.  Times are nanoseconds, as in package time. *)

From Stdlib Require Import ZArith Lia String.
From S2P Require Import Prelude Domain.

Open Scope Z_scope.

Definition second : Z := 1000000000.
(** [time.Now().Unix()] *)
Definition unix (now : Time) : Z := now / second.
Definition idleTimeout : Z := 30 * second.

(** ** UDP *)

Notation Upstream := nat (only parsing).

Record udpSession := mkUdpSession { us_upstreamConn : Upstream; us_lastActivity : Z }.

(** The arguments of a running [udpReverseRelay], and the deadline of its read. *)
Record reverseRelay := mkReverse { rr_clientAddr : string; rr_deadline : Time }.

Record UdpLoop := mkUdpLoop {
  ul_running : bool;
  ul_sessions : gmap string udpSession;
  ul_relays : gmap Upstream reverseRelay;
  (** upstream connections that are not closed *)
  ul_open : gset Upstream;
  ul_bytesForwarded : Z;
  (** history: the client each upstream connection was dialled for, and when a
      client last sent a datagram that found or opened a session *)
  ul_dialled : list string;
  ul_heard : gmap string Time
}.

Definition udp_start : UdpLoop := mkUdpLoop true ∅ ∅ ∅ 0 [] ∅.

Definition uint64 (z : Z) : Z := z mod 2 ^ 64.

(** What is sent. *)
Inductive sent := ToUpstream (k : Upstream) (n : Z) | ToClient (client : string) (n : Z).

Definition add_bytes (n : Z) (u : UdpLoop) : UdpLoop :=
  mkUdpLoop (ul_running u) (ul_sessions u) (ul_relays u) (ul_open u) (uint64 (ul_bytesForwarded u + n)) (ul_dialled u) (ul_heard u).

(** A dialled connection with its session and its relay. *)
Definition open_udp_session (now : Time) (client : string) (u : UdpLoop) : UdpLoop :=
  let k := length (ul_dialled u) in
  mkUdpLoop (ul_running u) (<[client := mkUdpSession k (unix now)]> (ul_sessions u))
    (<[k := mkReverse client (now + idleTimeout)]> (ul_relays u)) ({[k]} ∪ ul_open u)
    (ul_bytesForwarded u) (ul_dialled u ++ [client]) (ul_heard u).

(** [sess.lastActivity.Store], the write, and what follows a failed one. *)
Definition forward (now : Time) (client : string) (s : udpSession) (n : Z) (written : bool) (u : UdpLoop) : UdpLoop * list sent :=
  let k := us_upstreamConn s in
  let heard := <[client := now]> (ul_heard u) in
  if written && bool_decide (k ∈ ul_open u) then
    (mkUdpLoop (ul_running u) (<[client := mkUdpSession k (unix now)]> (ul_sessions u)) (ul_relays u) (ul_open u)
       (ul_bytesForwarded u) (ul_dialled u) heard, [ToUpstream k n])
  else
    (mkUdpLoop (ul_running u) (delete client (ul_sessions u)) (ul_relays u) (ul_open u ∖ {[k]})
       (ul_bytesForwarded u) (ul_dialled u) heard, []).

(** A datagram of [n] bytes read by [udpReadLoop]. *)
Definition udp_datagram (now : Time) (client : string) (n : Z) (dialled written : bool) (u : UdpLoop) : UdpLoop * list sent :=
  let u := add_bytes n u in
  match ul_sessions u !! client with
  | Some s => forward now client s n written u
  | None =>
      if negb dialled then (u, [])
      else let s := mkUdpSession (length (ul_dialled u)) (unix now) in
        forward now client s n written (open_udp_session now client u)
  end.

(** The deferred calls of [udpReverseRelay]. *)
Definition end_relay (k : Upstream) (client : string) (u : UdpLoop) : UdpLoop :=
  mkUdpLoop (ul_running u) (delete client (ul_sessions u)) (delete k (ul_relays u)) (ul_open u ∖ {[k]})
    (ul_bytesForwarded u) (ul_dialled u) (ul_heard u).

Definition set_deadline (k : Upstream) (r : reverseRelay) (now : Time) (u : UdpLoop) : UdpLoop :=
  mkUdpLoop (ul_running u) (ul_sessions u) (<[k := mkReverse (rr_clientAddr r) (now + idleTimeout)]> (ul_relays u))
    (ul_open u) (ul_bytesForwarded u) (ul_dialled u) (ul_heard u).

(** A reply of [n] bytes read by the relay of [k]. *)
Definition udp_reply (now : Time) (k : Upstream) (r : reverseRelay) (n : Z) (written : bool) (u : UdpLoop) : UdpLoop * list sent :=
  let u := add_bytes n u in
  if written then (set_deadline k r now u, [ToClient (rr_clientAddr r) n])
  else (end_relay k (rr_clientAddr r) u, []).

(** The read of the relay of [k] reaches its deadline. *)
Definition udp_timeout (now : Time) (k : Upstream) (r : reverseRelay) (u : UdpLoop) : UdpLoop :=
  match ul_sessions u !! rr_clientAddr r with
  | None => end_relay k (rr_clientAddr r) u
  | Some s =>
      if idleTimeout <? now - us_lastActivity s * second then end_relay k (rr_clientAddr r) u
      else set_deadline k r now u
  end.

(** The context is cancelled: the read loop closes the connections of the
    sessions in its table and returns. *)
Definition udp_cancelled (u : UdpLoop) : UdpLoop :=
  mkUdpLoop false (ul_sessions u) (ul_relays u)
    (ul_open u ∖ list_to_set (us_upstreamConn <$> (map_to_list (ul_sessions u)).*2))
    (ul_bytesForwarded u) (ul_dialled u) (ul_heard u).

(** What happens to a loop, and when. *)
Inductive udp_event :=
| Datagram (client : string) (n : Z) (dialled written : bool)
| Reply (k : Upstream) (n : Z) (written : bool)
| ReadDeadline (k : Upstream)
| ReadError (k : Upstream)
| Cancelled.

Inductive udp_step (now : Time) : udp_event -> UdpLoop -> UdpLoop -> list sent -> Prop :=
| us_datagram client n dialled written u :
    ul_running u = true ->
    udp_step now (Datagram client n dialled written) u
      (udp_datagram now client n dialled written u).1 (udp_datagram now client n dialled written u).2
| us_reply k r n written u :
    ul_relays u !! k = Some r -> k ∈ ul_open u -> now <= rr_deadline r ->
    udp_step now (Reply k n written) u (udp_reply now k r n written u).1 (udp_reply now k r n written u).2
| us_timeout k r u :
    ul_relays u !! k = Some r -> k ∈ ul_open u -> rr_deadline r <= now ->
    udp_step now (ReadDeadline k) u (udp_timeout now k r u) []
(** a read error: also what every read of a closed connection returns; the
    same path is taken when the context is cancelled *)
| us_error k r u :
    ul_relays u !! k = Some r ->
    udp_step now (ReadError k) u (end_relay k (rr_clientAddr r) u) []
| us_cancelled u :
    ul_running u = true -> udp_step now Cancelled u (udp_cancelled u) [].

(** ** TCP *)

(** The counters, and the relays that have not returned. *)
Record TcpPlane := mkTcpPlane { tp_connectionsOpen : Z; tp_bytesForwarded : Z; tp_relays : gset nat; tp_next : nat }.

Definition tcp_start : TcpPlane := mkTcpPlane 0 0 ∅ 0.

(** [Accept] returned a connection. *)
Definition tcp_accept (p : TcpPlane) : TcpPlane :=
  mkTcpPlane (uint64 (tp_connectionsOpen p + 1)) (tp_bytesForwarded p) ({[tp_next p]} ∪ tp_relays p) (S (tp_next p)).

(** [io.Copy] of one direction returned after [n] bytes. *)
Definition tcp_copied (n : Z) (p : TcpPlane) : TcpPlane :=
  mkTcpPlane (tp_connectionsOpen p) (uint64 (tp_bytesForwarded p + n)) (tp_relays p) (tp_next p).

(** [tcpRelay] returns (the dial failed, a direction finished or the context was
    cancelled): [Add(^uint64(0))]. *)
Definition tcp_return (c : nat) (p : TcpPlane) : TcpPlane :=
  mkTcpPlane (uint64 (tp_connectionsOpen p + (2 ^ 64 - 1))) (tp_bytesForwarded p) (tp_relays p ∖ {[c]}) (tp_next p).

Inductive tcp_step : TcpPlane -> TcpPlane -> Prop :=
| ts_accept p : tcp_step p (tcp_accept p)
| ts_copied n p : 0 <= n -> tcp_step p (tcp_copied n p)
| ts_return c p : c ∈ tp_relays p -> tcp_step p (tcp_return c p).

(** * Relayed traffic: replies reach their client, sessions end when idle, counters *)


(** ** UDP *)

(** One turn of some goroutine at some time. *)
Definition udp_any (u u' : UdpLoop) : Prop := exists now ev outs, udp_step now ev u u' outs.

Record udp_inv (u : UdpLoop) : Prop := mkUdpInv {
  ui_sessions : forall c s, ul_sessions u !! c = Some s ->
    ul_dialled u !! us_upstreamConn s = Some c /\ exists t, ul_heard u !! c = Some t /\ us_lastActivity s = unix t;
  ui_relays : forall k r, ul_relays u !! k = Some r -> ul_dialled u !! k = Some (rr_clientAddr r)
}.

Lemma add_bytes_inv n u : udp_inv u -> udp_inv (add_bytes n u).
Proof. intros [Hs Hr]. by split. Qed.

Lemma end_relay_inv k c u : udp_inv u -> udp_inv (end_relay k c u).
Proof.
  intros [Hs Hr]. split; cbn.
  - intros c' s [_ H]%lookup_delete_Some. eauto.
  - intros k' r [_ H]%lookup_delete_Some. eauto.
Qed.

Lemma set_deadline_inv k r now u : ul_relays u !! k = Some r -> udp_inv u -> udp_inv (set_deadline k r now u).
Proof.
  intros Hk [Hs Hr]. split; cbn; [done|]. intros k' r' [[<- <-]|[_ H]]%lookup_insert_Some; [|eauto]. cbn. by apply Hr.
Qed.

(** The write of a datagram, for a session whose connection was dialled for the
    client and whose entry is the only one that may lack a time. *)
Lemma forward_inv now c s n w u :
  ul_dialled u !! us_upstreamConn s = Some c ->
  (forall c' s', c' <> c -> ul_sessions u !! c' = Some s' ->
     ul_dialled u !! us_upstreamConn s' = Some c' /\ exists t, ul_heard u !! c' = Some t /\ us_lastActivity s' = unix t) ->
  (forall k r, ul_relays u !! k = Some r -> ul_dialled u !! k = Some (rr_clientAddr r)) ->
  udp_inv (forward now c s n w u).1 /\ ul_dialled (forward now c s n w u).1 = ul_dialled u /\
  forall o, o ∈ (forward now c s n w u).2 -> o = ToUpstream (us_upstreamConn s) n.
Proof.
  intros Hc Hs Hr. unfold forward. destruct (w && _); cbn; split_and!; try done.
  - split; cbn; [|done]. intros c' s' [[<- <-]|[Hne H]]%lookup_insert_Some.
    + cbn. split; [done|]. exists now. by rewrite lookup_insert_eq.
    + rewrite lookup_insert_ne by done. eauto.
  - intros o ->%list_elem_of_singleton. done.
  - split; cbn; [|done]. intros c' s' [Hne H]%lookup_delete_Some. rewrite lookup_insert_ne by done. eauto.
  - intros o []%not_elem_of_nil.
Qed.

Lemma datagram_inv now c n d w u : udp_inv u ->
  let o := udp_datagram now c n d w u in
  udp_inv o.1 /\ ul_dialled u `prefix_of` ul_dialled o.1 /\
  forall x, x ∈ o.2 -> exists k, x = ToUpstream k n /\ ul_dialled o.1 !! k = Some c.
Proof.
  intros Hu. apply (add_bytes_inv n) in Hu. unfold udp_datagram.
  change (ul_dialled u) with (ul_dialled (add_bytes n u)). revert Hu. generalize (add_bytes n u). clear u. intros u [Hs Hr].
  destruct (ul_sessions u !! c) as [s|] eqn:Es.
  - destruct (Hs _ _ Es) as [Hc _]. destruct (forward_inv now c s n w u) as (H1 & H2 & H3); [done|eauto|done|].
    cbn. rewrite H2. split_and!; [done..|]. intros x ->%H3. eauto.
  - destruct d; cbn [negb]; [|cbn; split_and!; [by split|done|intros x []%not_elem_of_nil]].
    set (s := mkUdpSession (length (ul_dialled u)) (unix now)). set (u1 := open_udp_session now c u).
    assert (Hk : ul_dialled u1 !! length (ul_dialled u) = Some c) by (cbn; by rewrite lookup_app_r, Nat.sub_diag by lia).
    destruct (forward_inv now c s n w u1) as (H1 & H2 & H3).
    + done.
    + intros c' s' Hne H'. cbn in *. rewrite lookup_insert_ne in H' by done. destruct (Hs _ _ H') as [Hd ?]. split; [|done].
      rewrite lookup_app_l; [done|]. by eapply lookup_lt_Some.
    + intros k r H. cbn in H. apply lookup_insert_Some in H as [[<- <-]|[_ H]]; [done|]. cbn. apply Hr in H. rewrite lookup_app_l; [done|]. by eapply lookup_lt_Some.
    + cbn zeta. rewrite H2. split_and!; [done|by apply prefix_app_r|]. intros x ->%H3. eauto.
Qed.

Lemma udp_step_spec now ev u u' outs : udp_step now ev u u' outs -> udp_inv u -> udp_inv u' /\
  forall o, o ∈ outs -> match o, ev with
    | ToUpstream k m, Datagram client n _ _ => ul_dialled u' !! k = Some client /\ m = n
    | ToClient c m, Reply k n _ => ul_dialled u' !! k = Some c /\ m = n
    | _, _ => False
    end.
Proof.
  intros [client n d w ? _|k r n w ? Hk _ _|k r ? Hk _ _|k r ? Hk|? _] Hu.
  - destruct (datagram_inv now client n d w u0 Hu) as (H1 & _ & H3). split; [done|]. intros o (k & -> & Hk)%H3. done.
  - unfold udp_reply. destruct w; cbn; (split; [by auto using set_deadline_inv, end_relay_inv, add_bytes_inv|]).
    + intros o ->%list_elem_of_singleton. split; [|done]. by apply (ui_relays _ Hu).
    + intros o []%not_elem_of_nil.
  - split; [|intros o []%not_elem_of_nil]. unfold udp_timeout.
    destruct (ul_sessions u0 !! _); [destruct (_ <? _)|]; auto using set_deadline_inv, end_relay_inv.
  - split; [auto using end_relay_inv|intros o []%not_elem_of_nil].
  - split; [|intros o []%not_elem_of_nil]. destruct Hu. by split.
Qed.

Lemma udp_reachable_inv u : rtc udp_any udp_start u -> udp_inv u.
Proof.
  assert (Hgen : forall u1 u2, rtc udp_any u1 u2 -> udp_inv u1 -> udp_inv u2).
  { induction 1 as [|u1 u2 u3 (now & ev & outs & Hst) _ IH]; [done|]. intros H1. apply IH. by eapply udp_step_spec. }
  intros H. apply (Hgen _ _ H). split; cbn; intros ? ?; by rewrite lookup_empty.
Qed.

(** In every interleaving of the read loop and the reverse relays, a
    datagram of a client is only written, unchanged in length, to a connection
    that was dialled for that client, and what is read from a connection is only
    sent to the client it was dialled for. *)
Theorem udp_traffic_separated (now : Time) (ev : udp_event) (u u' : UdpLoop) (outs : list sent) :
  rtc udp_any udp_start u -> udp_step now ev u u' outs ->
  forall o, o ∈ outs -> match o, ev with
    | ToUpstream k m, Datagram client n _ _ => ul_dialled u' !! k = Some client /\ m = n
    | ToClient c m, Reply k n _ => ul_dialled u' !! k = Some c /\ m = n
    | _, _ => False
    end.
Proof. intros Hr%udp_reachable_inv Hst. by apply (udp_step_spec _ _ _ _ _ Hst). Qed.

(** The read deadline of a relay ends a session only when its client has
    sent nothing for more than 29 seconds (the stored time has whole seconds, the
    limit is 30), and only the session of the client the connection was dialled
    for. *)
Theorem udp_session_expiry (now : Time) (k : Upstream) (u u' : UdpLoop) (outs : list sent) :
  rtc udp_any udp_start u -> udp_step now (ReadDeadline k) u u' outs ->
  forall c s, ul_sessions u !! c = Some s -> ul_sessions u' !! c = None ->
    ul_dialled u !! k = Some c /\ exists t, ul_heard u !! c = Some t /\ 29 * second < now - t.
Proof.
  intros Hu%udp_reachable_inv Hst c s Hs Hnone. inversion Hst as [| |k0 r u0 Hk Hop Hdl| |]; subst.
  unfold udp_timeout in Hnone. destruct (ul_sessions u !! rr_clientAddr r) as [s0|] eqn:E0.
  - destruct (idleTimeout <? _) eqn:Et; cbn in Hnone; [|congruence]. apply Z.ltb_lt in Et.
    apply lookup_delete_None in Hnone as [<-|?]; [|congruence]. assert (s0 = s) as -> by congruence.
    split; [by apply (ui_relays _ Hu)|]. destruct (ui_sessions _ Hu _ _ Hs) as (_ & t & Ht & Hl). exists t. split; [done|].
    rewrite Hl in Et. unfold unix, idleTimeout, second in *. pose proof (Z.mod_pos_bound t 1000000000). pose proof (Z.div_mod t 1000000000). lia.
  - cbn in Hnone. apply lookup_delete_None in Hnone as [<-|?]; congruence.
Qed.

(** ** TCP *)

Lemma tcp_inv p : rtc tcp_step tcp_start p ->
  (forall c, c ∈ tp_relays p -> (c < tp_next p)%nat) /\ tp_connectionsOpen p = uint64 (Z.of_nat (size (tp_relays p))) /\
  0 <= tp_bytesForwarded p < 2 ^ 64.
Proof.
  assert (Hgen : forall p1 p2, rtc tcp_step p1 p2 ->
    ((forall c, c ∈ tp_relays p1 -> (c < tp_next p1)%nat) /\ tp_connectionsOpen p1 = uint64 (Z.of_nat (size (tp_relays p1))) /\ 0 <= tp_bytesForwarded p1 < 2 ^ 64) ->
    ((forall c, c ∈ tp_relays p2 -> (c < tp_next p2)%nat) /\ tp_connectionsOpen p2 = uint64 (Z.of_nat (size (tp_relays p2))) /\ 0 <= tp_bytesForwarded p2 < 2 ^ 64)).
  { induction 1 as [|p1 p2 p3 Hst _ IH]; [done|]. intros (H1 & H2 & H3). apply IH. clear IH. destruct Hst as [q|n q Hn|c q Hc]; cbn.
    - split_and!; [| |lia..].
      + intros c [Hc%elem_of_singleton|Hc%H1]%elem_of_union; lia.
      + rewrite size_union by (apply disjoint_singleton_l; intros Hc%H1; lia). rewrite size_singleton, H2. unfold uint64.
        rewrite Zplus_mod_idemp_l. f_equal. lia.
    - split_and!; [done|done|..]; apply Z.mod_pos_bound; lia.
    - split_and!; [set_solver| |lia..]. rewrite H2, size_difference, size_singleton by set_solver.
      assert (size (tp_relays q) <> 0%nat). { intros E%size_empty_inv. set_solver. }
      unfold uint64. rewrite Zplus_mod_idemp_l.
      replace (Z.of_nat (size (tp_relays q)) + (2 ^ 64 - 1)) with (Z.of_nat (size (tp_relays q) - 1) + 1 * 2 ^ 64) by lia.
      by rewrite Z_mod_plus_full. }
  intros H. apply (Hgen _ _ H). cbn. split_and!; [set_solver|done|lia|lia].
Qed.

(** The counter of open connections, a 64-bit word that a relay decrements by
    adding its complement, is the number of relays that have not returned as long
    as that number fits the word. *)
Theorem tcp_connections_counted (p : TcpPlane) :
  rtc tcp_step tcp_start p -> Z.of_nat (size (tp_relays p)) < 2 ^ 64 ->
  tp_connectionsOpen p = Z.of_nat (size (tp_relays p)).
Proof. intros (_ & -> & _)%tcp_inv Hlt. unfold uint64. apply Z.mod_small. lia. Qed.

(** ** Witnesses *)

(** A client sends a datagram, the write of its second one fails, and the third
    one opens a new session while the relay of the first connection still runs. *)
Definition udp_1 : UdpLoop := (udp_datagram (5 * second) "192.0.2.7:5000" 64 true true udp_start).1.
Definition udp_2 : UdpLoop := (udp_datagram (6 * second) "192.0.2.7:5000" 64 true false udp_1).1.
Definition udp_3 : UdpLoop := (udp_datagram (7 * second) "192.0.2.7:5000" 64 true true udp_2).1.

Lemma udp_1_reachable : rtc udp_any udp_start udp_1.
Proof. apply rtc_once. eexists _, _, _. by apply us_datagram. Qed.
Lemma udp_3_reachable : rtc udp_any udp_start udp_3.
Proof.
  transitivity udp_1; [apply udp_1_reachable|]. eapply rtc_l; [|apply rtc_once].
  - eexists _, _, _. by apply (us_datagram (6 * second) "192.0.2.7:5000" 64 true false).
  - eexists _, _, _. by apply us_datagram.
Qed.

Lemma udp_traffic_separated_witness :
  exists outs u', udp_step (6 * second) (Reply 0 128 true) udp_1 u' outs /\ outs = [ToClient "192.0.2.7:5000" 128] /\
    ul_dialled u' !! 0%nat = Some "192.0.2.7:5000".
Proof.
  assert (Hst : udp_step (6 * second) (Reply 0 128 true) udp_1
    (udp_reply (6 * second) 0 (mkReverse "192.0.2.7:5000" (35 * second)) 128 true udp_1).1 [ToClient "192.0.2.7:5000" 128]).
  { apply us_reply; [vm_compute; reflexivity|vm_compute; set_solver|vm_compute; discriminate]. }
  eexists _, _. split; [exact Hst|]. split; [reflexivity|].
  exact (proj1 (udp_traffic_separated _ _ _ _ _ udp_1_reachable Hst (ToClient "192.0.2.7:5000" 128) ltac:(by left))).
Defined.

Lemma udp_session_expiry_witness :
  exists u', udp_step (36 * second) (ReadDeadline 0) udp_1 u' [] /\ ul_sessions u' = ∅ /\
    exists t, ul_heard udp_1 !! "192.0.2.7:5000" = Some t /\ 29 * second < 36 * second - t.
Proof.
  assert (Hst : udp_step (36 * second) (ReadDeadline 0) udp_1
    (udp_timeout (36 * second) 0 (mkReverse "192.0.2.7:5000" (35 * second)) udp_1) []).
  { apply us_timeout; [vm_compute; reflexivity|vm_compute; set_solver|vm_compute; discriminate]. }
  eexists. split; [exact Hst|]. split; [vm_compute; reflexivity|].
  apply (udp_session_expiry _ _ _ _ _ udp_1_reachable Hst "192.0.2.7:5000" (mkUdpSession 0 5)); vm_compute; reflexivity.
Defined.

(** A relay that outlives its session ends the session that replaced it: the
    deferred delete is by client and not by connection. After a failed write the
    next datagram of the client opens a second connection; when the relay of the
    first one then returns, the live session is gone from the table although its
    connection stays open, and the datagram after that dials a third one. *)
Theorem stale_relay_drops_session :
  rtc udp_any udp_start udp_3 /\ ul_sessions udp_3 !! "192.0.2.7:5000" = Some (mkUdpSession 1 7) /\
  exists u', udp_step (7 * second) (ReadError 0) udp_3 u' [] /\ ul_sessions u' !! "192.0.2.7:5000" = None /\
    1%nat ∈ ul_open u' /\ is_Some (ul_relays u' !! 1%nat) /\
    (udp_datagram (8 * second) "192.0.2.7:5000" 64 true true u').2 = [ToUpstream 2 64].
Proof.
  split; [apply udp_3_reachable|]. split; [vm_compute; reflexivity|].
  eexists. split; [apply (us_error (7 * second) 0 (mkReverse "192.0.2.7:5000" (35 * second))); vm_compute; reflexivity|].
  split_and!; [vm_compute; reflexivity|vm_compute; set_solver|vm_compute; eauto|vm_compute; reflexivity].
Qed.

Definition tcp_two : TcpPlane := tcp_return 0 (tcp_accept (tcp_copied 512 (tcp_accept tcp_start))).

Lemma tcp_connections_counted_witness : tp_connectionsOpen tcp_two = 1 /\ tp_connectionsOpen tcp_two = Z.of_nat (size (tp_relays tcp_two)).
Proof.
  split; [vm_compute; reflexivity|]. apply (tcp_connections_counted tcp_two); [|vm_compute; reflexivity].
  eapply rtc_l; [apply ts_accept|]. eapply rtc_l; [by apply (ts_copied 512)|]. eapply rtc_l; [apply ts_accept|].
  apply rtc_once, ts_return. vm_compute. set_solver.
Defined.
