(* ===== verification/Bgp.v ===== *)
(** * BGP on the node (internal/bgp: gobgp.go, noop.go, monitor.go)

    The embedded BGP server is a library outside the code: [lib] gives its answer
    to a call from the history of the calls before it, so it may be any library
    and may fail at any point.  The history is kept in the state, which lets
    theorems speak of what the library has been told. *)

From Stdlib Require Import ZArith Lia Ascii String.
From S2P Require Import Prelude GoStrings GoNet Domain Events.

Open Scope Z_scope.

(** ** Calls of the library *)

Record BgpPath := mkBgpPath { pa_v6 : bool; pa_prefix : string; pa_len : Z; pa_nextHop : string }.

Inductive lib_call :=
| NewBgpServer
| StartBgp (asn : Z) (routerID : string)
| StopBgp
| AddPeer (address : string) (asn : Z)
| DeletePeer (address : string)
| AddPath (p : BgpPath)
| DeletePath (uuid : string).

Notation lib_history := (list (lib_call * result string)).

(** [IPMask.Size] *)
Fixpoint ones_in (fuel : nat) (v : Z) : Z :=
  match fuel with
  | O => 0
  | S k => if Z.testbit v 7 then 1 + ones_in k (Z.land (Z.shiftl v 1) 255) else 0
  end.
Fixpoint simpleMaskLength (mask : list Z) : Z :=
  match mask with
  | [] => 0
  | v :: mask =>
      if v =? 255 then match simpleMaskLength mask with -1 => -1 | n => 8 + n end
      else if (Z.land (Z.shiftl v (ones_in 8 v)) 255 =? 0) && forallb (fun b => b =? 0) mask then ones_in 8 v
      else -1
  end.
Definition MaskSize (mask : list Z) : Z := match simpleMaskLength mask with -1 => 0 | n => n end.

(** ** GoBGPService *)

Record GoBGPService := mkGoBGP {
  gb_running : bool;
  gb_routerID : string;
  gb_localASN : Z;
  gb_peers : gset string;
  gb_prefixes : gmap string string;
  gb_calls : lib_history
}.

Definition NewGoBGPService : GoBGPService := mkGoBGP false "" 0 ∅ ∅ [].

Section gobgp.
Context (lib : lib_history -> lib_call -> result string).
Notation bgpM := (stM GoBGPService).

Definition lib_do (c : lib_call) : bgpM string := fun s =>
  let r := lib (gb_calls s) c in
  (r, mkGoBGP (gb_running s) (gb_routerID s) (gb_localASN s) (gb_peers s) (gb_prefixes s) (gb_calls s ++ [(c, r)])).

Definition modify (f : GoBGPService -> GoBGPService) : bgpM unit := fun s => (Ok tt, f s).
Definition on_peers (f : gset string -> gset string) : bgpM unit := modify (fun s =>
  mkGoBGP (gb_running s) (gb_routerID s) (gb_localASN s) (f (gb_peers s)) (gb_prefixes s) (gb_calls s)).
Definition on_prefixes (f : gmap string string -> gmap string string) : bgpM unit := modify (fun s =>
  mkGoBGP (gb_running s) (gb_routerID s) (gb_localASN s) (gb_peers s) (f (gb_prefixes s)) (gb_calls s)).

Definition gobgp_Start (routerID : string) (localASN : Z) : bgpM unit := fun s =>
  if gb_running s then (Err (Errorf "bgp service already running"), s)
  else (_ ← try (lib_do NewBgpServer);
        _ ← wrap "start bgp" (lib_do (StartBgp localASN routerID));
        modify (fun s => mkGoBGP true routerID localASN (gb_peers s) (gb_prefixes s) (gb_calls s))) s.

Definition gobgp_Stop : bgpM unit := fun s =>
  if negb (gb_running s) then (Err (Errorf "bgp service not running"), s)
  else (_ ← wrap "stop bgp" (lib_do StopBgp);
        modify (fun s => mkGoBGP false (gb_routerID s) (gb_localASN s) ∅ ∅ (gb_calls s))) s.

(** The path of a prefix.  Wrapping the attributes in protobuf messages does not
    fail for these messages. *)
Definition path_of (prefix nextHop : string) : result BgpPath :=
  match ParseCIDR prefix with
  | None => Err (Errorf "invalid CIDR")
  | Some (ip, ipNet) =>
      Ok (mkBgpPath (bool_decide (To4 ip = None)) (IPString ip) (MaskSize (net_mask ipNet)) nextHop)
  end.

Definition announcePrefix (prefix nextHop : string) : bgpM unit :=
  p ← lift (path_of prefix nextHop);
  uuid ← wrap "add path" (lib_do (AddPath p));
  on_prefixes (insert prefix uuid).

(** ** Reconcile *)

Definition desired_peers (desired : list BGPSession) : gmap string BGPSession :=
  foldl (fun m sess => <[bgp_PeerAddress sess := sess]> m) ∅ desired.

Definition delete_peer (addr : string) : bgpM unit :=
  _ ← wrap "delete peer" (lib_do (DeletePeer addr));
  on_peers (fun ps => ps ∖ {[addr]}).

Fixpoint remove_peers (desiredPeers : gmap string BGPSession) (order : list string) : bgpM unit :=
  match order with
  | [] => mret tt
  | addr :: order =>
      match desiredPeers !! addr with
      | Some _ => remove_peers desiredPeers order
      | None => _ ← delete_peer addr; remove_peers desiredPeers order
      end
  end.

Definition announce_new (prefix : string) : bgpM unit := fun s =>
  match gb_prefixes s !! prefix with
  | Some _ => (Ok tt, s)
  | None => wrap "announce prefix" (announcePrefix prefix (gb_routerID s)) s
  end.

Fixpoint announce_all (prefixes : list string) : bgpM unit :=
  match prefixes with
  | [] => mret tt
  | prefix :: prefixes => _ ← announce_new prefix; announce_all prefixes
  end.

Definition add_peer (addr : string) (sess : BGPSession) : bgpM unit :=
  _ ← wrap "add peer" (lib_do (AddPeer (bgp_PeerAddress sess) (bgp_PeerASN sess)));
  _ ← on_peers (fun ps => {[addr]} ∪ ps);
  announce_all (bgp_AnnouncedPrefixes sess).

Definition add_if_new (addr : string) (sess : BGPSession) : bgpM unit := fun s =>
  if decide (addr ∈ gb_peers s) then (Ok tt, s) else add_peer addr sess s.

Fixpoint add_peers (order : list (string * BGPSession)) : bgpM unit :=
  match order with
  | [] => mret tt
  | (addr, sess) :: order => _ ← add_if_new addr sess; add_peers order
  end.

(** [removing] and [adding] are the orders in which the loops range over the maps. *)
Definition gobgp_Reconcile (removing : list string) (adding : list (string * BGPSession)) (desired : list BGPSession) : bgpM unit := fun s =>
  if negb (gb_running s) then (Err (Errorf "bgp service not running"), s)
  else (_ ← remove_peers (desired_peers desired) removing; add_peers adding) s.

Definition AnnouncePrefix (prefix nextHop : string) : bgpM unit := fun s =>
  if negb (gb_running s) then (Err (Errorf "bgp service not running"), s) else announcePrefix prefix nextHop s.

Definition withdraw (prefix uuid : string) : bgpM unit :=
  _ ← wrap "delete path" (lib_do (DeletePath uuid));
  on_prefixes (delete prefix).

Definition WithdrawPrefix (prefix : string) : bgpM unit := fun s =>
  if negb (gb_running s) then (Err (Errorf "bgp service not running"), s)
  else match gb_prefixes s !! prefix with
       | None => (Ok tt, s)
       | Some uuid => withdraw prefix uuid s
       end.

(** ** Status *)

(** A peer as the library lists it. *)
Inductive fsm := ESTABLISHED | IDLE | CONNECT | ACTIVE | OPENSENT | OPENCONFIRM | OTHER.
Record LibPeer := mkLibPeer { lp_address : string; lp_asn : Z; lp_state : option fsm; lp_uptime : Z }.

Record SessionState := mkSessionState {
  st_PeerASN : Z; st_PeerAddress : string; st_LocalASN : Z; st_Status : string; st_PrefixesOut : Z; st_UptimeSeconds : Z
}.

Definition fsm_status (f : fsm) : string :=
  match f with
  | ESTABLISHED => "established" | IDLE => "idle" | CONNECT => "connect" | ACTIVE => "active"
  | OPENSENT => "opensent" | OPENCONFIRM => "openconfirm" | OTHER => "unknown"
  end.

Definition session_state (s : GoBGPService) (p : LibPeer) : SessionState :=
  mkSessionState (lp_asn p) (lp_address p) (gb_localASN s)
    (match lp_state p with Some f => fsm_status f | None => "" end)
    (Z.of_nat (size (gb_prefixes s)))
    (match lp_state p with Some ESTABLISHED => lp_uptime p | _ => 0 end).

(** [listed] is what ListPeer passed to the callback. *)
Definition gobgp_GetStatus (listed : result (list LibPeer)) (s : GoBGPService) : result (list SessionState) :=
  if negb (gb_running s) then Ok []
  else match listed with
       | Ok ps => Ok (session_state s <$> ps)
       | Err e => Err (Wrapf "list peers" e)
       end.
End gobgp.

(** ** NoopService *)

Record noopSession := mkNoopSession { ns_sessionID : ID; ns_peerASN : Z; ns_peerAddress : string; ns_localASN : Z }.
Record BgpNoop := mkBgpNoop {
  bn_running : bool; bn_routerID : string; bn_localASN : Z; bn_sessions : gmap string noopSession; bn_prefixes : gmap string string
}.
Definition NewBgpNoop : BgpNoop := mkBgpNoop false "" 0 ∅ ∅.

Definition sessionKey (peerASN : Z) (peerAddress : string) : string := Itoa peerASN +:+ ":" +:+ peerAddress.

Definition bgp_noop_Start (routerID : string) (localASN : Z) : stM BgpNoop unit := fun s =>
  if bn_running s then (Err (Errorf "bgp service already running"), s)
  else (Ok tt, mkBgpNoop true routerID localASN (bn_sessions s) (bn_prefixes s)).

Definition bgp_noop_Stop : stM BgpNoop unit := fun s =>
  if negb (bn_running s) then (Err (Errorf "bgp service not running"), s)
  else (Ok tt, mkBgpNoop false (bn_routerID s) (bn_localASN s) ∅ ∅).

Definition noop_session (sess : BGPSession) : noopSession :=
  mkNoopSession (bgp_ID sess) (bgp_PeerASN sess) (bgp_PeerAddress sess) (bgp_LocalASN sess).

Definition noop_announce (routerID : string) (m : gmap string string) (prefixes : list string) : gmap string string :=
  foldl (fun m p => match m !! p with Some _ => m | None => <[p := routerID]> m end) m prefixes.

Definition bgp_noop_Reconcile (desired : list BGPSession) : stM BgpNoop unit := fun s =>
  if negb (bn_running s) then (Err (Errorf "bgp service not running"), s)
  else
    let desiredMap : gmap string BGPSession :=
      foldl (fun m sess => <[sessionKey (bgp_PeerASN sess) (bgp_PeerAddress sess) := sess]> m) ∅ desired in
    (Ok tt, mkBgpNoop true (bn_routerID s) (bn_localASN s) (noop_session <$> desiredMap)
              (foldl (fun m p => noop_announce (bn_routerID s) m (bgp_AnnouncedPrefixes p.2)) (bn_prefixes s) (map_to_list desiredMap))).

Definition bgp_noop_AnnouncePrefix (prefix nextHop : string) : stM BgpNoop unit := fun s =>
  if negb (bn_running s) then (Err (Errorf "bgp service not running"), s)
  else (Ok tt, mkBgpNoop true (bn_routerID s) (bn_localASN s) (bn_sessions s) (<[prefix := nextHop]> (bn_prefixes s))).

Definition bgp_noop_WithdrawPrefix (prefix : string) : stM BgpNoop unit := fun s =>
  if negb (bn_running s) then (Err (Errorf "bgp service not running"), s)
  else (Ok tt, mkBgpNoop true (bn_routerID s) (bn_localASN s) (bn_sessions s) (delete prefix (bn_prefixes s))).

(** ** Monitor *)

(** [peerStates], the gauge BGPSessionState and the events handed to the bus. *)
Record Monitor := mkMonitor { mo_peerStates : gmap string string; mo_gauge : gmap (string * string) Z; mo_events : list Event }.
Definition NewMonitor : Monitor := mkMonitor ∅ ∅ [].

Section monitor.
(** is there an event bus, are there metrics; the clock *)
Context (bus metrics : bool) (now : Time).

Definition mo_publish (typ severity resource : string) (details : gmap string string) (m : Monitor) : Monitor :=
  if bus then mkMonitor (mo_peerStates m) (mo_gauge m) (mo_events m ++ [mkBusEvent typ now severity resource details]) else m.

Definition mo_set (addr status : string) (m : Monitor) : Monitor :=
  mkMonitor (<[addr := status]> (mo_peerStates m)) (mo_gauge m) (mo_events m).

Definition mo_observe (s : SessionState) (m : Monitor) : Monitor :=
  if metrics then
    mkMonitor (mo_peerStates m)
      (<[(st_PeerAddress s, Itoa (st_PeerASN s)) := if bool_decide (st_Status s = "established") then 1 else 0]> (mo_gauge m)) (mo_events m)
  else m.

Definition mo_transition (prev : string) (s : SessionState) (m : Monitor) : Monitor :=
  let addr := st_PeerAddress s in
  let resource := "bgp/" +:+ addr in
  if bool_decide (st_Status s = "established") && negb (bool_decide (prev = "established")) then
    mo_publish ev_BGPSessionEstablished SeverityInfo resource
      (<["peer_address" := addr]> (<["peer_asn" := Itoa (st_PeerASN s)]> {["from_status" := prev]})) m
  else if bool_decide (prev = "established") && negb (bool_decide (st_Status s = "established")) then
    mo_publish BGPSessionDown SeverityCritical resource
      (<["peer_address" := addr]> (<["peer_asn" := Itoa (st_PeerASN s)]> {["to_status" := st_Status s]})) m
  else m.

(** One turn of the loop over the sessions. *)
Definition mo_session (initial : bool) (m : Monitor) (s : SessionState) : Monitor :=
  let addr := st_PeerAddress s in
  let m := mo_observe s m in
  match mo_peerStates m !! addr with
  | None => mo_set addr (st_Status s) m
  | Some prev =>
      if initial then mo_set addr (st_Status s) m
      else if negb (bool_decide (prev = st_Status s)) then mo_set addr (st_Status s) (mo_transition prev s m)
      else m
  end.

Definition mo_forget (sessions : list SessionState) (m : Monitor) : Monitor :=
  mkMonitor (filter (fun p => p.1 ∈ st_PeerAddress <$> sessions) (mo_peerStates m)) (mo_gauge m) (mo_events m).

Definition mo_poll (initial : bool) (status : result (list SessionState)) (m : Monitor) : Monitor :=
  match status with
  | Err _ => m
  | Ok sessions => mo_forget sessions (foldl (mo_session initial) m sessions)
  end.
End monitor.

(** * BGP: the peers mirror the library's, what a reconciliation does and does not do *)


(** ** What the library has been told *)

(** The peers that a history of calls leaves configured. *)
Definition tell (ps : gset string) (x : lib_call * result string) : gset string :=
  match x with
  | (AddPeer a _, Ok _) => {[a]} ∪ ps
  | (DeletePeer a, Ok _) => ps ∖ {[a]}
  | (StopBgp, Ok _) | (NewBgpServer, _) => ∅
  | _ => ps
  end.
Definition told_peers (h : lib_history) : gset string := foldl tell ∅ h.

(** No peer is added twice, and only peers that are there are deleted. *)
Definition lawful (h : lib_history) : Prop := forall h1 c r h2, h = h1 ++ (c, r) :: h2 ->
  match c with
  | AddPeer a _ => a ∉ told_peers h1
  | DeletePeer a => a ∈ told_peers h1
  | _ => True
  end.

Lemma told_snoc h x : told_peers (h ++ [x]) = tell (told_peers h) x.
Proof. unfold told_peers. by rewrite foldl_app. Qed.

Lemma lawful_snoc h c r :
  lawful h -> match c with AddPeer a _ => a ∉ told_peers h | DeletePeer a => a ∈ told_peers h | _ => True end ->
  lawful (h ++ [(c, r)]).
Proof.
  intros Hl Hc h1 c' r' h2 Heq. destruct h2 as [|x h2 _] using rev_ind.
  - apply app_inj_tail in Heq as [<- [= <- <-]]. done.
  - rewrite app_comm_cons, app_assoc in Heq. apply app_inj_tail in Heq as [Heq _]. by apply (Hl h1 c' r' h2).
Qed.

Record bgp_inv (s : GoBGPService) : Prop := mkBgpInv {
  bi_peers : gb_peers s = told_peers (gb_calls s);
  bi_lawful : lawful (gb_calls s);
  bi_down : gb_running s = false -> gb_peers s = ∅ /\ gb_prefixes s = ∅
}.

Section bgp.
Context (lib : lib_history -> lib_call -> result string).

(** What a run of the code may have done to a running service without touching
    its peers. *)
Record bgp_frame (s s' : GoBGPService) : Prop := mkFrame {
  bf_inv : bgp_inv s';
  bf_peers : gb_peers s' = gb_peers s;
  bf_running : gb_running s' = gb_running s;
  bf_prefixes : gb_prefixes s ⊆ gb_prefixes s';
  bf_calls : exists h, gb_calls s' = gb_calls s ++ h /\ Forall (fun x => exists p, x.1 = AddPath p) h
}.

Lemma frame_refl s : bgp_inv s -> bgp_frame s s.
Proof using Type. intros Hs. split; try done. exists []. by rewrite app_nil_r. Qed.

Lemma frame_trans s1 s2 s3 : bgp_frame s1 s2 -> bgp_frame s2 s3 -> bgp_frame s1 s3.
Proof using Type.
  intros [_ Hp Hr Hx (h & Hh & Hf)] [H1 H2 H3 H4 (h' & Hh' & Hf')]. split; [done|congruence|congruence|by etrans|].
  exists (h ++ h'). rewrite Hh', Hh, app_assoc. split; [done|]. by apply Forall_app.
Qed.

(** A call that says nothing about peers. *)
Lemma path_call_inv c s : (exists p, c = AddPath p) \/ (exists u, c = DeletePath u) -> bgp_inv s -> bgp_inv (lib_do lib c s).2.
Proof using Type.
  intros Hc [Hp Hl Hd]. split; cbn; [|apply lawful_snoc; [done|by destruct Hc as [[p ->]|[u ->]]]|done].
  rewrite told_snoc, Hp. by destruct Hc as [[p ->]|[u ->]].
Qed.

Lemma announcePrefix_inv prefix nh s : bgp_inv s -> gb_running s = true -> bgp_inv (announcePrefix lib prefix nh s).2.
Proof using Type.
  intros Hs Hrun. unfold announcePrefix, lift, mbind, stM_bind. destruct (path_of prefix nh) as [p|e]; [|done].
  pose proof (path_call_inv (AddPath p) s (or_introl (ex_intro _ p eq_refl)) Hs) as Hi. unfold wrap, lib_do in *. cbn in Hi.
  destruct (lib (gb_calls s) (AddPath p)) as [u|e]; cbn; [|done]. destruct Hi as [Hp Hl Hd]. split; [done..|]. cbn. congruence.
Qed.

Lemma announcePrefix_frame prefix nh s : bgp_inv s -> gb_running s = true -> gb_prefixes s !! prefix = None ->
  bgp_frame s (announcePrefix lib prefix nh s).2.
Proof using Type.
  intros Hs Hrun Hn. pose proof (announcePrefix_inv prefix nh s Hs Hrun) as Hi. revert Hi.
  unfold announcePrefix, lift, mbind, stM_bind. destruct (path_of prefix nh) as [p|e]; [|intros _; by apply frame_refl].
  unfold wrap, lib_do. destruct (lib (gb_calls s) (AddPath p)) as [u|e]; cbn; intros Hi.
  - split; cbn; try done.
    + by apply insert_subseteq.
    + eexists. split; [reflexivity|]. constructor; [|done]. by exists p.
  - split; cbn; try done. eexists. split; [reflexivity|]. constructor; [|done]. by exists p.
Qed.

Lemma announce_all_frame prefixes s : bgp_inv s -> gb_running s = true -> bgp_frame s (announce_all lib prefixes s).2 /\
  ((announce_all lib prefixes s).1 = Ok tt -> forall p, p ∈ prefixes -> is_Some (gb_prefixes (announce_all lib prefixes s).2 !! p)).
Proof using Type.
  revert s. induction prefixes as [|p ps IH]; intros s Hs Hrun.
  { split; [by apply frame_refl|]. by intros _ p []%not_elem_of_nil. }
  cbn [announce_all]. assert (Hf : bgp_frame s (announce_new lib p s).2).
  { unfold announce_new, wrap. destruct (gb_prefixes s !! p) eqn:E; [by apply frame_refl|].
    pose proof (announcePrefix_frame p (gb_routerID s) s Hs Hrun E) as Hf. by destruct (announcePrefix _ _ _ s) as [[] ?]. }
  assert (Hp : forall u, (announce_new lib p s).1 = Ok u -> is_Some (gb_prefixes (announce_new lib p s).2 !! p)).
  { unfold announce_new, wrap, announcePrefix, lift, mbind, stM_bind, wrap, lib_do. destruct (gb_prefixes s !! p) eqn:E; [by eauto|].
    destruct (path_of p _) as [pa|e]; [|done]. destruct (lib _ _) as [u|e]; [|done]. cbn. rewrite lookup_insert_eq. eauto. }
  unfold mbind, stM_bind. destruct (announce_new lib p s) as [[u|e] s1]; cbn in *; [|by split].
  destruct (IH s1) as [Hf2 Hall]; [apply Hf|by rewrite (bf_running _ _ Hf)|]. split; [by eapply frame_trans|].
  intros Hok q [->|Hq]%elem_of_cons; [|by apply Hall]. destruct (Hp u eq_refl) as [x Hx]. exists x.
  eapply lookup_weaken; [exact Hx|apply Hf2].
Qed.

(** ** Adding and deleting peers *)

Lemma delete_peer_spec addr s : bgp_inv s -> gb_running s = true -> addr ∈ gb_peers s ->
  let o := delete_peer lib addr s in
  bgp_inv o.2 /\ gb_running o.2 = true /\ gb_prefixes o.2 = gb_prefixes s /\
  match o.1 with Ok _ => gb_peers o.2 = gb_peers s ∖ {[addr]} | Err _ => gb_peers o.2 = gb_peers s end.
Proof using Type.
  intros [Hp Hl Hd] Hrun Ha. unfold delete_peer, mbind, stM_bind, wrap, lib_do. rewrite Hp in Ha.
  destruct (lib (gb_calls s) (DeletePeer addr)) as [u|e] eqn:E; cbn; (split_and!; [|done..]); split; cbn.
  - by rewrite told_snoc, Hp.
  - by apply lawful_snoc.
  - congruence.
  - by rewrite told_snoc.
  - by apply lawful_snoc.
  - congruence.
Qed.

Lemma add_peer_spec addr sess s : bgp_inv s -> gb_running s = true -> addr ∉ gb_peers s -> bgp_PeerAddress sess = addr ->
  let o := add_peer lib addr sess s in
  bgp_inv o.2 /\ gb_running o.2 = true /\ gb_prefixes s ⊆ gb_prefixes o.2 /\
  (gb_peers o.2 = gb_peers s \/ gb_peers o.2 = {[addr]} ∪ gb_peers s) /\
  match o.1 with
  | Ok _ => gb_peers o.2 = {[addr]} ∪ gb_peers s /\ forall p, p ∈ bgp_AnnouncedPrefixes sess -> is_Some (gb_prefixes o.2 !! p)
  | Err _ => True
  end.
Proof using Type.
  intros [Hp Hl Hd] Hrun Ha Haddr. unfold add_peer, mbind, stM_bind, wrap, lib_do. rewrite Hp in Ha. rewrite Haddr.
  destruct (lib (gb_calls s) (AddPeer addr (bgp_PeerASN sess))) as [u|e] eqn:E.
  - cbn. set (s1 := mkGoBGP _ _ _ _ _ _).
    assert (Hi1 : bgp_inv s1).
    { split; cbn; [by rewrite told_snoc, Hp|by apply lawful_snoc|congruence]. }
    pose proof (announce_all_frame (bgp_AnnouncedPrefixes sess) s1 Hi1 Hrun) as [[H1 H2 H3 H4 _] H5].
    destruct (announce_all _ _ s1) as [[[]|e] s2]; cbn in *.
    + split_and!; [done|congruence|done|by right|done|by apply H5].
    + split_and!; [done|congruence|done|by right|done].
  - cbn. split_and!; try done; [|by left]. split; cbn; [by rewrite told_snoc|by apply lawful_snoc|congruence].
Qed.

Lemma remove_peers_spec desired order s : bgp_inv s -> gb_running s = true -> NoDup order -> (forall a, a ∈ order -> a ∈ gb_peers s) ->
  let o := remove_peers lib desired order s in
  bgp_inv o.2 /\ gb_running o.2 = true /\ gb_prefixes o.2 = gb_prefixes s /\ gb_peers o.2 ⊆ gb_peers s /\
  match o.1 with
  | Ok _ => forall a, a ∈ gb_peers o.2 <-> a ∈ gb_peers s /\ (a ∈ order -> is_Some (desired !! a))
  | Err _ => True
  end.
Proof using Type.
  revert s. induction order as [|a order IH]; intros s Hs Hrun Hnd Hin; cbn [remove_peers].
  { cbn. split_and!; try done. intros a. split; [|by intros []]. intros Ha. split; [done|]. by intros []%not_elem_of_nil. }
  apply NoDup_cons in Hnd as [Hna Hnd]. destruct (desired !! a) as [d|] eqn:Ed.
  { destruct (IH s Hs Hrun Hnd) as (H1 & H2 & H3 & H4 & H5); [intros b Hb; apply Hin; by right|]. cbn in *.
    destruct (remove_peers _ _ _ s) as [[u|e] s']; cbn in *; split_and!; try done.
    intros b. rewrite H5, elem_of_cons. naive_solver. }
  destruct (delete_peer_spec a s Hs Hrun) as (H1 & H2 & H3 & H4); [apply Hin; by left|].
  unfold mbind, stM_bind. destruct (delete_peer lib a s) as [[u|e] s1]; cbn in *; [|by rewrite H4].
  destruct (IH s1 H1 H2 Hnd) as (G1 & G2 & G3 & G4 & G5); [intros b Hb; rewrite H4; apply elem_of_difference; split; [apply Hin; by right|intros ->%elem_of_singleton; done]|].
  destruct (remove_peers _ _ _ s1) as [[u'|e] s']; cbn in *; (split_and!; [done|done|congruence|by etrans; [exact G4|rewrite H4; apply subseteq_difference_l]|]); [|done].
  intros b. rewrite G5, H4, elem_of_cons, elem_of_difference, elem_of_singleton. split.
  - intros [[Hb Hne] Hb']. split; [done|]. intros [->|?]; [done|auto].
  - intros [Hb Hb']. split_and!; [done| |auto]. intros ->. rewrite Ed in Hb'. by destruct (Hb' (or_introl eq_refl)).
Qed.

Lemma add_peers_spec order s : bgp_inv s -> gb_running s = true -> (forall p, p ∈ order -> bgp_PeerAddress p.2 = p.1) ->
  let o := add_peers lib order s in
  bgp_inv o.2 /\ gb_running o.2 = true /\ gb_prefixes s ⊆ gb_prefixes o.2 /\
  match o.1 with
  | Ok _ => (forall a, a ∈ gb_peers o.2 <-> a ∈ gb_peers s \/ a ∈ order.*1) /\
      (NoDup order.*1 -> forall a sess p, (a, sess) ∈ order -> a ∉ gb_peers s -> p ∈ bgp_AnnouncedPrefixes sess -> is_Some (gb_prefixes o.2 !! p))
  | Err _ => True
  end.
Proof using Type.
  revert s. induction order as [|[a sess] order IH]; intros s Hs Hrun Hin; cbn [add_peers].
  { cbn. split_and!; try done; [intros a; rewrite elem_of_nil; tauto|]. by intros _ a sess p []%not_elem_of_nil. }
  assert (Ha : bgp_PeerAddress sess = a) by (apply (Hin (a, sess)); by left).
  assert (H1 : let o := add_if_new lib a sess s in bgp_inv o.2 /\ gb_running o.2 = true /\ gb_prefixes s ⊆ gb_prefixes o.2 /\
    match o.1 with
    | Ok _ => gb_peers o.2 = {[a]} ∪ gb_peers s /\ (a ∉ gb_peers s -> forall p, p ∈ bgp_AnnouncedPrefixes sess -> is_Some (gb_prefixes o.2 !! p))
    | Err _ => True
    end).
  { unfold add_if_new. destruct (decide _); cbn; [split_and!; try done; clear -e; set_solver|].
    destruct (add_peer_spec a sess s) as (? & ? & ? & _ & Hok); [done..|].
    destruct (add_peer _ _ _ s) as [[]?]; cbn in *; [|done]. destruct Hok. done. }
  unfold mbind, stM_bind. destruct (add_if_new lib a sess s) as [[u|e] s1]; cbn in H1; [|tauto]. destruct H1 as (H1 & H2 & H3 & H4 & H5).
  destruct (IH s1 H1 H2) as (G1 & G2 & G3 & G4); [intros p Hp; apply Hin; by right|].
  destruct (add_peers _ _ s1) as [[u'|e] s']; cbn in *; [|split_and!; [done|done|by etrans|done]].
  destruct G4 as [G4 G5]. split; [done|]. split; [done|]. split; [by etrans|]. split.
  { intros b. rewrite G4, H4, elem_of_union, elem_of_singleton, elem_of_cons. clear. tauto. }
  intros [Hna Hnd]%NoDup_cons b sess' p [[= -> ->]|Hb]%elem_of_cons Hnew Hp.
  - destruct (H5 Hnew p Hp) as [x Hx]. exists x. by eapply lookup_weaken.
  - apply (G5 Hnd b sess' p Hb); [|done]. rewrite H4, elem_of_union, elem_of_singleton. intros [->|?]; [|done].
    apply Hna, list_elem_of_fmap. by exists (a, sess').
Qed.
End bgp.

(** ** Histories *)

Section histories.
Context (lib : lib_history -> lib_call -> result string).

(** Orders in which the loops may range over the maps. *)
Definition bgp_orders (removing : list string) (adding : list (string * BGPSession)) (desired : list BGPSession) (s : GoBGPService) : Prop :=
  removing ≡ₚ elements (gb_peers s) /\ adding ≡ₚ map_to_list (desired_peers desired).

Inductive bgp_step : GoBGPService -> GoBGPService -> Prop :=
| bs_Start rid asn s : bgp_step s (gobgp_Start lib rid asn s).2
| bs_Stop s : bgp_step s (gobgp_Stop lib s).2
| bs_Reconcile removing adding desired s :
    bgp_orders removing adding desired s -> bgp_step s (gobgp_Reconcile lib removing adding desired s).2
| bs_Announce prefix nh s : bgp_step s (AnnouncePrefix lib prefix nh s).2
| bs_Withdraw prefix s : bgp_step s (WithdrawPrefix lib prefix s).2.

Lemma desired_peers_key desired a sess : desired_peers desired !! a = Some sess -> bgp_PeerAddress sess = a.
Proof using Type.
  unfold desired_peers. induction desired as [|d desired IH] using rev_ind; [done|]. rewrite foldl_app. cbn.
  intros [[<- <-]|[_ H]]%lookup_insert_Some; auto.
Qed.

Lemma reconcile_spec removing adding desired s : bgp_inv s -> gb_running s = true -> bgp_orders removing adding desired s ->
  let o := gobgp_Reconcile lib removing adding desired s in
  bgp_inv o.2 /\ gb_running o.2 = true /\ gb_prefixes s ⊆ gb_prefixes o.2 /\
  (o.1 = Ok tt ->
   (forall a, a ∈ gb_peers o.2 <-> is_Some (desired_peers desired !! a)) /\
   forall a sess p, desired_peers desired !! a = Some sess -> a ∉ gb_peers s -> p ∈ bgp_AnnouncedPrefixes sess ->
     is_Some (gb_prefixes o.2 !! p)).
Proof using Type.
  intros Hs Hrun [Hrem Hadd]. unfold gobgp_Reconcile. rewrite Hrun. cbn [negb]. unfold mbind, stM_bind.
  assert (Hin : forall p, p ∈ adding -> desired_peers desired !! p.1 = Some p.2).
  { intros [a sess] Hp. rewrite Hadd in Hp. by apply elem_of_map_to_list in Hp. }
  destruct (remove_peers_spec lib (desired_peers desired) removing s Hs Hrun) as (H1 & H2 & H3 & H4 & H5).
  { rewrite Hrem. apply NoDup_elements. } { intros a Ha. rewrite Hrem in Ha. by apply elem_of_elements in Ha. }
  destruct (remove_peers _ _ _ s) as [[[]|e] s1]; cbn in *; [|split_and!; [done|done|by rewrite H3|done]].
  destruct (add_peers_spec lib adding s1 H1 H2) as (G1 & G2 & G3 & G4).
  { intros p Hp. apply Hin, desired_peers_key in Hp. done. }
  destruct (add_peers _ _ s1) as [[[]|e] s2]; cbn in *; [|by rewrite H3 in G3].
  destruct G4 as [G4 G5]. split; [done|]. split; [done|]. split; [by rewrite H3 in G3|]. intros _. split.
  - intros a. rewrite G4, H5. split.
    + intros [[Ha Hd]|([a' sess] & -> & Hp)%list_elem_of_fmap].
      * apply Hd. rewrite Hrem. by apply elem_of_elements.
      * apply Hin in Hp. cbn in *. by exists sess.
    + intros [sess Hd]. right. apply list_elem_of_fmap. exists (a, sess). split; [done|]. rewrite Hadd. by apply elem_of_map_to_list.
  - intros a sess p Hd Hna Hp. apply (G5 ltac:(rewrite Hadd; apply NoDup_fst_map_to_list) a sess p); [|by intros ?%H4|done].
    rewrite Hadd. by apply elem_of_map_to_list.
Qed.

Lemma bgp_step_inv s s' : bgp_step s s' -> bgp_inv s -> bgp_inv s'.
Proof using Type.
  intros Hst. destruct Hst as [rid asn s|s|removing adding desired s Ho|prefix nh s|prefix s]; intros Hs.
  - unfold gobgp_Start. destruct (gb_running s) eqn:Hrun; [done|]. destruct Hs as [Hp Hl Hd]. destruct (Hd Hrun) as [Hp0 Hx0].
    unfold mbind, stM_bind, try, wrap, lib_do. cbn.
    destruct (lib _ (StartBgp asn rid)) as [u|e]; cbn; (split; cbn; [rewrite !told_snoc; cbn; by rewrite Hp0| |done || (intros _; done)]);
      apply lawful_snoc; [|done| |done]; by apply lawful_snoc.
  - unfold gobgp_Stop. destruct (gb_running s) eqn:Hrun; [|done]. destruct Hs as [Hp Hl Hd].
    unfold mbind, stM_bind, wrap, lib_do. cbn. destruct (lib _ StopBgp) as [u|e]; cbn; split; cbn.
    + by rewrite told_snoc.
    + by apply lawful_snoc.
    + done.
    + by rewrite told_snoc.
    + by apply lawful_snoc.
    + congruence.
  - destruct (gb_running s) eqn:Hrun; [|unfold gobgp_Reconcile; by rewrite Hrun]. by apply reconcile_spec.
  - unfold AnnouncePrefix. destruct (gb_running s) eqn:Hrun; [|done]. by apply announcePrefix_inv.
  - unfold WithdrawPrefix. destruct (gb_running s) eqn:Hrun; [|done]. cbn [negb]. destruct (gb_prefixes s !! prefix) as [u|]; [|done].
    unfold withdraw, mbind, stM_bind, wrap.
    pose proof (path_call_inv lib (DeletePath u) s (or_intror (ex_intro _ u eq_refl)) Hs) as Hi. unfold lib_do in *. cbn in Hi.
    destruct (lib _ _); cbn; [|done]. destruct Hi as [Hp Hl Hd]. split; [done..|]. cbn. congruence.
Qed.

Lemma bgp_reachable_inv s : rtc bgp_step NewGoBGPService s -> bgp_inv s.
Proof using Type.
  assert (Hgen : forall s1 s2, rtc bgp_step s1 s2 -> bgp_inv s1 -> bgp_inv s2) by (induction 1; eauto using bgp_step_inv).
  intros H. apply (Hgen _ _ H). split; [done| |done]. intros h1 c r h2 Heq. by destruct h1.
Qed.
End histories.

(** ** Prefixes *)

(** The paths, by identifier, that a history of calls leaves in the library. *)
Definition tell_path (ps : gmap string BgpPath) (x : lib_call * result string) : gmap string BgpPath :=
  match x with
  | (AddPath p, Ok u) => <[u := p]> ps
  | (DeletePath u, Ok _) => delete u ps
  | (StopBgp, Ok _) | (NewBgpServer, _) => ∅
  | _ => ps
  end.
Definition told_paths (h : lib_history) : gmap string BgpPath := foldl tell_path ∅ h.

(** The identifiers the library gave out. *)
Definition path_ids (h : lib_history) : list string :=
  omap (fun x : lib_call * result string => match x with (AddPath _, Ok u) => Some u | _ => None end) h.

Lemma told_paths_snoc h x : told_paths (h ++ [x]) = tell_path (told_paths h) x.
Proof. unfold told_paths. by rewrite foldl_app. Qed.

Lemma path_ids_snoc h c r :
  path_ids (h ++ [(c, r)]) = path_ids h ++ match c, r with AddPath _, Ok u => [u] | _, _ => [] end.
Proof. unfold path_ids. rewrite omap_app. cbn. by destruct c, r. Qed.

Lemma told_paths_ids h u p : told_paths h !! u = Some p -> u ∈ path_ids h.
Proof.
  induction h as [|[c r] h IH] using rev_ind; [done|]. rewrite told_paths_snoc, path_ids_snoc, elem_of_app.
  destruct c, r; cbn [tell_path]; try (intros H; left; by apply IH); try done.
  - intros [[<- _]|[_ H]]%lookup_insert_Some; [right; by left|left; by apply IH].
  - intros [_ H]%lookup_delete_Some. left. by apply IH.
Qed.

(** Each prefix on record is a path of the library, and no two are the same path. *)
Definition table_told (s : GoBGPService) : Prop :=
  (forall p u, gb_prefixes s !! p = Some u ->
     exists nh path, path_of p nh = Ok path /\ told_paths (gb_calls s) !! u = Some path) /\
  (forall p q u, gb_prefixes s !! p = Some u -> gb_prefixes s !! q = Some u -> p = q).
Definition paths_inv (s : GoBGPService) : Prop :=
  (gb_running s = false -> gb_prefixes s = ∅) /\ (NoDup (path_ids (gb_calls s)) -> table_told s).

Section paths.
Context (lib : lib_history -> lib_call -> result string).

Definition keeps {A} (m : stM GoBGPService A) : Prop := forall s, paths_inv s -> paths_inv (m s).2.

Lemma gb_keeps_bind {A B} (m : stM GoBGPService A) (f : A -> stM GoBGPService B) : keeps m -> (forall x, keeps (f x)) -> keeps (x ← m; f x).
Proof. intros Hm Hf s Hs. unfold mbind, stM_bind. specialize (Hm s Hs). destruct (m s) as [[x|e] s']; [by apply Hf|done]. Qed.

Lemma gb_keeps_wrap {A} msg (m : stM GoBGPService A) : keeps m -> keeps (wrap msg m).
Proof. intros Hm s Hs. unfold wrap. specialize (Hm s Hs). by destruct (m s) as [[x|e] s']. Qed.

Lemma keeps_peers f : keeps (on_peers f).
Proof. by intros s Hs. Qed.

(** A call that adds no path and drops none, whatever its result. *)
Lemma keeps_lib c : (forall ps r, tell_path ps (c, r) = ps) -> (forall p, c <> AddPath p) -> keeps (lib_do lib c).
Proof.
  intros Hc Hn s [Hd Ht]. split; [exact Hd|]. cbn. rewrite path_ids_snoc. intros Hnd.
  assert (NoDup (path_ids (gb_calls s))) as Hnd' by (by apply NoDup_app in Hnd as [? _]).
  destruct (Ht Hnd') as [H1 H2]. split; [|exact H2]. cbn. rewrite told_paths_snoc, Hc. exact H1.
Qed.

Lemma keeps_announcePrefix prefix nh s : gb_running s = true -> paths_inv s -> paths_inv (announcePrefix lib prefix nh s).2.
Proof.
  intros Hrun [Hd Ht]. unfold announcePrefix, lift, mbind, stM_bind.
  destruct (path_of prefix nh) as [path|e] eqn:Ep; [|by split]. unfold wrap, lib_do.
  destruct (lib (gb_calls s) (AddPath path)) as [u|e] eqn:E; cbn.
  2:{ split; cbn; [congruence|]. rewrite path_ids_snoc, app_nil_r. intros Hnd. unfold table_told. cbn. rewrite told_paths_snoc. by apply Ht. }
  split; cbn; [congruence|]. rewrite path_ids_snoc. intros (Hnd & Hnew & _)%NoDup_app. destruct (Ht Hnd) as [H1 H2].
  assert (Hu : forall q, gb_prefixes s !! q <> Some u).
  { intros q Hq. destruct (H1 _ _ Hq) as (? & ? & _ & Hin%told_paths_ids). apply (Hnew u Hin). by left. }
  unfold table_told. cbn. rewrite told_paths_snoc. cbn. split.
  - intros q v [[<- <-]|[_ Hq]]%lookup_insert_Some; [exists nh, path; by rewrite lookup_insert_eq|].
    rewrite lookup_insert_ne; [by apply H1|]. intros ->. by eapply Hu.
  - intros q q' v [[<- <-]|[_ Hq]]%lookup_insert_Some [[<- Hv]|[_ Hq']]%lookup_insert_Some; [done| | |by eapply H2].
    + by destruct (Hu q').
    + subst v. by destruct (Hu q).
Qed.

Lemma keeps_withdraw prefix u s : gb_running s = true -> gb_prefixes s !! prefix = Some u ->
  paths_inv s -> paths_inv (withdraw lib prefix u s).2.
Proof.
  intros Hrun Hp [Hd Ht]. unfold withdraw, mbind, stM_bind, wrap, lib_do.
  destruct (lib (gb_calls s) (DeletePath u)) as [x|e]; cbn; (split; cbn; [congruence|]); rewrite path_ids_snoc, app_nil_r;
    intros Hnd; destruct (Ht Hnd) as [H1 H2]; unfold table_told; cbn; rewrite told_paths_snoc; cbn; [|by split]. split.
  - intros q v [Hne Hq]%lookup_delete_Some. rewrite lookup_delete_ne; [by apply H1|]. intros ->. by apply Hne, (H2 _ _ v).
  - intros q q' v [_ Hq]%lookup_delete_Some [_ Hq']%lookup_delete_Some. by eapply H2.
Qed.

(** The calls of [lib_do] keep [running]. *)
Definition steady {A} (m : stM GoBGPService A) : Prop :=
  forall s, gb_running s = true -> paths_inv s -> gb_running (m s).2 = true /\ paths_inv (m s).2.

Lemma gb_steady_bind {A B} (m : stM GoBGPService A) (f : A -> stM GoBGPService B) : steady m -> (forall x, steady (f x)) -> steady (x ← m; f x).
Proof.
  intros Hm Hf s Hr Hs. unfold mbind, stM_bind. destruct (Hm s Hr Hs) as [Hr' Hs']. destruct (m s) as [[x|e] s']; [by apply Hf|done].
Qed.

Lemma gb_steady_wrap {A} msg (m : stM GoBGPService A) : steady m -> steady (wrap msg m).
Proof. intros Hm s Hr Hs. unfold wrap. specialize (Hm s Hr Hs). by destruct (m s) as [[x|e] s']. Qed.

Lemma steady_announce prefix nh : steady (announcePrefix lib prefix nh).
Proof.
  intros s Hr Hs. split; [|by apply keeps_announcePrefix]. unfold announcePrefix, lift, mbind, stM_bind, wrap, lib_do.
  destruct (path_of _ _); [|done]. by destruct (lib _ _).
Qed.

Lemma steady_reconcile removing adding desired : steady (gobgp_Reconcile lib removing adding desired).
Proof.
  assert (Hpeer : forall c f, (forall ps r, tell_path ps (c, r) = ps) -> (forall p, c <> AddPath p) ->
    forall msg, steady (_ ← wrap msg (lib_do lib c); on_peers f)).
  { intros c f Hc Hn msg. apply gb_steady_bind; [|by intros u s Hr Hs]. apply gb_steady_wrap. intros s Hr Hs. split; [done|by apply keeps_lib]. }
  assert (Hrem : forall d l, steady (remove_peers lib d l)).
  { intros d. induction l as [|a l IH]; [by intros s|]. cbn [remove_peers]. destruct (d !! a); [done|].
    apply gb_steady_bind; [by apply Hpeer|done]. }
  assert (Hann : forall l, steady (announce_all lib l)).
  { induction l as [|a l IH]; [by intros s|]. cbn [announce_all]. apply gb_steady_bind; [|done].
    intros s Hr Hs. unfold announce_new. destruct (gb_prefixes s !! a); [done|]. by apply gb_steady_wrap, Hs; [apply steady_announce|]. }
  assert (Hadd : forall l, steady (add_peers lib l)).
  { induction l as [|[a sess] l IH]; [by intros s|]. cbn [add_peers]. apply gb_steady_bind; [|done].
    intros s Hr Hs. unfold add_if_new. destruct (decide _) as [?|Hn]; [done|]. clear Hn. revert s Hr Hs. apply gb_steady_bind.
    - apply gb_steady_wrap. intros s Hr Hs. split; [done|by apply keeps_lib].
    - intros _. apply gb_steady_bind; [by intros s|done]. }
  intros s Hr Hs. unfold gobgp_Reconcile. rewrite Hr. cbn [negb]. revert s Hr Hs. by apply gb_steady_bind.
Qed.

Lemma bgp_step_paths s s' : bgp_step lib s s' -> paths_inv s -> paths_inv s'.
Proof.
  intros Hst. destruct Hst as [rid asn s|s|removing adding desired s Ho|prefix nh s|prefix s]; intros Hs.
  - unfold gobgp_Start. destruct (gb_running s) eqn:Hr; [done|]. destruct Hs as [Hd _]. specialize (Hd Hr).
    unfold mbind, stM_bind, try, wrap, lib_do. cbn.
    destruct (lib _ (StartBgp asn rid)); cbn; (split; cbn; [by intros _|]); intros _; split; cbn; rewrite Hd; by intros ??.
  - unfold gobgp_Stop. destruct (gb_running s) eqn:Hr; [|done]. unfold mbind, stM_bind, wrap, lib_do. cbn.
    destruct (lib _ StopBgp); cbn; [by split; cbn; [|intros _; split; cbn; by intros ??]|].
    destruct Hs as [Hd Ht]. split; cbn; [congruence|]. rewrite path_ids_snoc, app_nil_r. intros Hnd. unfold table_told. cbn.
    rewrite told_paths_snoc. by apply Ht.
  - destruct (gb_running s) eqn:Hr; [by apply steady_reconcile|]. unfold gobgp_Reconcile. by rewrite Hr.
  - unfold AnnouncePrefix. destruct (gb_running s) eqn:Hr; [by apply keeps_announcePrefix|done].
  - unfold WithdrawPrefix. destruct (gb_running s) eqn:Hr; [|done]. cbn [negb].
    destruct (gb_prefixes s !! prefix) as [u|] eqn:Hp; [by apply keeps_withdraw|done].
Qed.

Lemma bgp_reachable_paths s : rtc (bgp_step lib) NewGoBGPService s -> paths_inv s.
Proof.
  assert (Hgen : forall s1 s2, rtc (bgp_step lib) s1 s2 -> paths_inv s1 -> paths_inv s2) by (induction 1; eauto using bgp_step_paths).
  intros H. apply (Hgen _ _ H). split; [done|]. intros _. split; cbn; by intros ??.
Qed.
End paths.

(** ** The monitor *)

Definition est (status : string) : bool := bool_decide (status = "established").

(** The event types that a sequence of statuses calls for. *)
Fixpoint changes (prev : string) (sts : list string) : list string :=
  match sts with
  | [] => []
  | st :: sts => (if est st && negb (est prev) then [ev_BGPSessionEstablished]
                  else if est prev && negb (est st) then [BGPSessionDown] else []) ++ changes st sts
  end.

(** The types of the events of one peer. *)
Definition events_of (addr : string) (m : Monitor) : list string :=
  ev_Type <$> filter (fun ev => ev_Resource ev = "bgp/" +:+ addr) (mo_events m).

Section monitor.
Context (metrics : bool) (now : Time).
Notation session := (mo_session true metrics now false).

Lemma session_other addr s m : st_PeerAddress s <> addr ->
  mo_peerStates (session m s) !! addr = mo_peerStates m !! addr /\ events_of addr (session m s) = events_of addr m.
Proof using Type.
  intros Hne. assert (Hr : "bgp/" +:+ st_PeerAddress s <> "bgp/" +:+ addr) by (by intros ?%append_inj_l).
  unfold mo_session, mo_observe. destruct metrics; cbn [mo_peerStates mo_events].
  all: destruct (mo_peerStates m !! st_PeerAddress s) as [prev|]; [|by split; [apply lookup_insert_ne|]].
  all: case_bool_decide; [done|]; cbn [negb]; unfold mo_transition, mo_publish; cbv zeta.
  all: destruct (bool_decide (st_Status s = "established")), (bool_decide (prev = "established")); cbn;
    (split; [by apply lookup_insert_ne|]); try done; unfold events_of; cbn; rewrite filter_app, fmap_app;
    rewrite (filter_cons_False (fun ev => ev_Resource ev = "bgp/" +:+ addr)) by done; by rewrite app_nil_r.
Qed.

Lemma session_own s m prev : mo_peerStates m !! st_PeerAddress s = Some prev ->
  mo_peerStates (session m s) !! st_PeerAddress s = Some (st_Status s) /\
  events_of (st_PeerAddress s) (session m s) = events_of (st_PeerAddress s) m ++ changes prev [st_Status s].
Proof using Type.
  intros Hp. unfold mo_session, mo_observe, changes. rewrite app_nil_r. destruct metrics; cbn [mo_peerStates mo_events]; rewrite Hp.
  all: case_bool_decide as Hc; cbn [negb]; [subst prev; split; [done|]; unfold est; by destruct (bool_decide _); cbn; rewrite app_nil_r|].
  all: unfold mo_transition, mo_publish, est; cbv zeta.
  all: destruct (bool_decide (st_Status s = "established")) eqn:E1, (bool_decide (prev = "established")) eqn:E2; cbn;
    (split; [apply lookup_insert_eq|]); try (by rewrite app_nil_r); unfold events_of; cbn; rewrite filter_app, fmap_app;
    rewrite (filter_cons_True (fun ev => ev_Resource ev = "bgp/" +:+ st_PeerAddress s)) by done; done.
Qed.

Lemma poll_own sessions addr st m prev :
  NoDup (st_PeerAddress <$> sessions) -> (exists s, s ∈ sessions /\ st_PeerAddress s = addr /\ st_Status s = st) ->
  mo_peerStates m !! addr = Some prev ->
  let m' := mo_poll true metrics now false (Ok sessions) m in
  mo_peerStates m' !! addr = Some st /\ events_of addr m' = events_of addr m ++ changes prev [st].
Proof using Type.
  intros Hnd (s & Hin & Ha & Hst) Hp.
  assert (Hskip : forall l m0, addr ∉ st_PeerAddress <$> l ->
    mo_peerStates (foldl session m0 l) !! addr = mo_peerStates m0 !! addr /\ events_of addr (foldl session m0 l) = events_of addr m0).
  { induction l as [|x l IH]; intros m0 Hl; [done|]. cbn in *. apply not_elem_of_cons in Hl as [Hne Hl].
    destruct (IH (session m0 x) Hl) as [-> ->]. by apply session_other. }
  apply list_elem_of_split in Hin as (l1 & l2 & ->). rewrite fmap_app, fmap_cons in Hnd.
  apply NoDup_app in Hnd as (_ & Hdis & [Hn2 _]%NoDup_cons). rewrite Ha in *.
  assert (Hn1 : addr ∉ st_PeerAddress <$> l1). { intros H1. apply (Hdis _ H1). by left. }
  cbn [mo_poll]. rewrite foldl_app. cbn [foldl].
  destruct (Hskip l1 m Hn1) as [Hp1 He1]. set (m1 := foldl _ m l1) in *.
  destruct (session_own s m1 prev) as [Hp2 He2]; [by rewrite Ha, Hp1|]. rewrite Ha in Hp2, He2.
  destruct (Hskip l2 (session m1 s) Hn2) as [Hp3 He3]. split.
  - cbn. apply map_lookup_filter_Some. split; [by rewrite Hp3, Hp2, Hst|]. cbn. apply list_elem_of_fmap. exists s. split; [done|].
    apply elem_of_app. right. by left.
  - transitivity (events_of addr (foldl session (session m1 s) l2)); [reflexivity|]. by rewrite He3, He2, He1, Hst.
Qed.
End monitor.

(** ** Claims *)

(** C19: after any sequence of calls of the service, and whichever calls of the
    library failed on the way, the peers it has on record are those the library was
    last told to have, no peer was added to the library twice or deleted when it
    was not there, and a stopped service has neither peers nor prefixes.  If the
    library never gave the same identifier to two paths, every prefix on record is a
    path of that prefix that the library was told to announce and not told to drop
    since, and different prefixes are different paths. *)
Theorem bgp_mirrors_library (lib : lib_history -> lib_call -> result string) (s : GoBGPService) :
  rtc (bgp_step lib) NewGoBGPService s ->
  gb_peers s = told_peers (gb_calls s) /\ lawful (gb_calls s) /\
  (gb_running s = false -> gb_peers s = ∅ /\ gb_prefixes s = ∅) /\
  (NoDup (path_ids (gb_calls s)) ->
   (forall p u, gb_prefixes s !! p = Some u ->
      exists nh path, path_of p nh = Ok path /\ told_paths (gb_calls s) !! u = Some path) /\
   (forall p q u, gb_prefixes s !! p = Some u -> gb_prefixes s !! q = Some u -> p = q)).
Proof. intros Hs. destruct (bgp_reachable_inv _ _ Hs). destruct (bgp_reachable_paths _ _ Hs). done. Qed.

(** A reconciliation that returns without an error leaves exactly the
    desired peers, and every prefix of a session that was new is announced. *)
Theorem bgp_reconcile_exact (lib : lib_history -> lib_call -> result string) (s s' : GoBGPService) removing adding desired :
  rtc (bgp_step lib) NewGoBGPService s -> bgp_orders removing adding desired s ->
  gobgp_Reconcile lib removing adding desired s = (Ok tt, s') ->
  (forall a, a ∈ gb_peers s' <-> exists sess, desired_peers desired !! a = Some sess) /\
  forall a sess p, desired_peers desired !! a = Some sess -> a ∉ gb_peers s -> p ∈ bgp_AnnouncedPrefixes sess ->
    exists uuid, gb_prefixes s' !! p = Some uuid.
Proof.
  intros Hs%bgp_reachable_inv Ho Hrun. destruct (gb_running s) eqn:Hr; [|unfold gobgp_Reconcile in Hrun; by rewrite Hr in Hrun].
  destruct (reconcile_spec lib removing adding desired s Hs Hr Ho) as (_ & _ & _ & H). rewrite Hrun in H. by apply H.
Qed.

(** A reconciliation never withdraws a prefix and never updates a peer it
    knows: whatever the desired sessions say about peers that are all on record
    (another AS number, other prefixes, prefixes whose announcement failed
    earlier), nothing happens, and prefixes of removed sessions stay announced. *)
Theorem bgp_updates_ignored (lib : lib_history -> lib_call -> result string) (s : GoBGPService) removing adding desired :
  rtc (bgp_step lib) NewGoBGPService s -> gb_running s = true -> bgp_orders removing adding desired s ->
  gb_prefixes s ⊆ gb_prefixes (gobgp_Reconcile lib removing adding desired s).2 /\
  ((forall a, a ∈ gb_peers s <-> is_Some (desired_peers desired !! a)) ->
   gobgp_Reconcile lib removing adding desired s = (Ok tt, s)).
Proof.
  intros Hs%bgp_reachable_inv Hrun Ho. split; [by apply reconcile_spec|]. intros Hsame. destruct Ho as [Hrem Hadd].
  unfold gobgp_Reconcile. rewrite Hrun. cbn [negb]. unfold mbind, stM_bind.
  assert (forall a, a ∈ removing -> is_Some (desired_peers desired !! a)) as Hr.
  { intros a Ha. rewrite Hrem in Ha. by apply elem_of_elements, Hsame in Ha. }
  assert (remove_peers lib (desired_peers desired) removing s = (Ok tt, s)) as ->.
  { clear Hrem. induction removing as [|a l IH]; [done|]. cbn. destruct (Hr a ltac:(by left)) as [d ->]. apply IH. intros b Hb. apply Hr. by right. }
  assert (forall p, p ∈ adding -> p.1 ∈ gb_peers s) as Ha.
  { intros [a d] Hp. rewrite Hadd in Hp. apply elem_of_map_to_list in Hp. apply Hsame. eauto. }
  clear Hadd. induction adding as [|[a d] l IH]; [done|]. cbn. unfold add_if_new. unfold mbind, stM_bind.
  rewrite decide_True by (apply (Ha (a, d)); by left). apply IH. intros p Hp. apply Ha. by right.
Qed.

(** Over any sequence of polls that list a known peer once, the events
    published for it are exactly the changes of its sessions between established
    and not established, in order; other changes of status publish nothing. *)
Theorem monitor_reports_transitions (metrics : bool) (polls : list (Time * list SessionState)) (addr prev : string)
    (sts : list string) (m : Monitor) :
  Forall2 (fun p st => NoDup (st_PeerAddress <$> p.2) /\ exists s, s ∈ p.2 /\ st_PeerAddress s = addr /\ st_Status s = st) polls sts ->
  mo_peerStates m !! addr = Some prev ->
  events_of addr (foldl (fun m p => mo_poll true metrics p.1 false (Ok p.2) m) m polls) = events_of addr m ++ changes prev sts.
Proof.
  intros Hall. revert prev m. induction Hall as [|[now ss] st polls sts [Hnd Hex] _ IH]; intros prev m Hp; cbn [foldl].
  { by rewrite app_nil_r. }
  destruct (poll_own metrics now ss addr st m prev Hnd Hex Hp) as [Hp' He]. cbn [fst snd]. rewrite (IH st _ Hp'), He, <-app_assoc.
  cbn [changes]. by rewrite app_nil_r.
Qed.

(** ** Witnesses *)

Definition good_lib (h : lib_history) (c : lib_call) : result string := Ok (Itoa (Z.of_nat (length h))).
Definition sample_session (asn : Z) (prefixes : list string) : BGPSession :=
  mkBGPSession 6 3 asn "192.0.2.1" 64500 "configured" prefixes "" "" "" 0 0.
Definition bgp_1 : GoBGPService := (gobgp_Start good_lib "10.100.0.3" 64500 NewGoBGPService).2.
Definition bgp_desired : list BGPSession := [sample_session 64501 ["203.0.113.0/24"]].
Definition bgp_2 : GoBGPService :=
  (gobgp_Reconcile good_lib [] (map_to_list (desired_peers bgp_desired)) bgp_desired bgp_1).2.

Lemma bgp_1_reachable : rtc (bgp_step good_lib) NewGoBGPService bgp_1.
Proof. apply rtc_once. apply bs_Start. Qed.
Lemma bgp_2_reachable : rtc (bgp_step good_lib) NewGoBGPService bgp_2.
Proof. eapply rtc_r; [apply bgp_1_reachable|]. apply bs_Reconcile. split; [vm_compute; constructor|done]. Qed.

Lemma bgp_2_ids : NoDup (path_ids (gb_calls bgp_2)).
Proof. apply (bool_decide_unpack _). vm_compute. exact I. Qed.
Lemma bgp_2_prefix : exists u, gb_prefixes bgp_2 !! "203.0.113.0/24" = Some u.
Proof. eexists. vm_compute. reflexivity. Qed.

Lemma bgp_mirrors_library_witness :
  gb_peers bgp_2 = told_peers (gb_calls bgp_2) /\
  exists u path, gb_prefixes bgp_2 !! "203.0.113.0/24" = Some u /\ told_paths (gb_calls bgp_2) !! u = Some path.
Proof.
  destruct (bgp_mirrors_library good_lib bgp_2 bgp_2_reachable) as (Hp & _ & _ & Hx).
  split; [exact Hp|]. destruct bgp_2_prefix as [u Hu].
  destruct (proj1 (Hx bgp_2_ids) _ _ Hu) as (nh & path & _ & Ht). exact (ex_intro _ u (ex_intro _ path (conj Hu Ht))).
Defined.

Lemma bgp_reconcile_exact_witness :
  gobgp_Reconcile good_lib [] (map_to_list (desired_peers bgp_desired)) bgp_desired bgp_1 = (Ok tt, bgp_2) /\
  exists uuid, gb_prefixes bgp_2 !! "203.0.113.0/24" = Some uuid.
Proof.
  assert (gobgp_Reconcile good_lib [] (map_to_list (desired_peers bgp_desired)) bgp_desired bgp_1 = (Ok tt, bgp_2)) as Hrun
    by (vm_compute; reflexivity).
  split; [exact Hrun|].
  apply (proj2 (bgp_reconcile_exact good_lib bgp_1 bgp_2 _ _ _ bgp_1_reachable ltac:(split; [vm_compute; constructor|done]) Hrun)
    "192.0.2.1" (sample_session 64501 ["203.0.113.0/24"])).
  - vm_compute. reflexivity.
  - vm_compute. set_solver.
  - by left.
Defined.

(** The session gets another AS number and another prefix. *)
Definition bgp_changed : list BGPSession := [sample_session 64999 ["198.51.100.0/24"]].

Lemma bgp_updates_ignored_witness :
  gobgp_Reconcile good_lib ["192.0.2.1"] (map_to_list (desired_peers bgp_changed)) bgp_changed bgp_2 = (Ok tt, bgp_2) /\
  gb_prefixes bgp_2 !! "198.51.100.0/24" = None.
Proof.
  split; [|vm_compute; reflexivity].
  apply (proj2 (bgp_updates_ignored good_lib bgp_2 ["192.0.2.1"] (map_to_list (desired_peers bgp_changed)) bgp_changed
    bgp_2_reachable ltac:(vm_compute; reflexivity) ltac:(split; [vm_compute; constructor; constructor|done]))).
  assert (gb_peers bgp_2 = {["192.0.2.1"]}) as -> by (vm_compute; reflexivity).
  intros a. rewrite elem_of_singleton. unfold desired_peers, bgp_changed. cbn [foldl].
  change (bgp_PeerAddress (sample_session 64999 ["198.51.100.0/24"])) with "192.0.2.1". rewrite insert_empty, lookup_singleton_is_Some. naive_solver.
Defined.

Definition peer_in (status : string) : SessionState := mkSessionState 64501 "192.0.2.1" 64500 status 1 0.

Lemma monitor_reports_transitions_witness :
  events_of "192.0.2.1" (foldl (fun m p => mo_poll true true p.1 false (Ok p.2) m) (mkMonitor {["192.0.2.1" := "idle"]} ∅ [])
    [(1, [peer_in "active"]); (2, [peer_in "established"]); (3, [peer_in "idle"])]) = [ev_BGPSessionEstablished; BGPSessionDown].
Proof.
  rewrite (monitor_reports_transitions true _ "192.0.2.1" "idle" ["active"; "established"; "idle"]); [vm_compute; reflexivity| |vm_compute; reflexivity].
  repeat apply Forall2_cons_2; try apply Forall2_nil_2; (split; [apply NoDup_singleton|eexists; split; [by left|done]]).
Defined.
