(* ===== verification/Plugin.v ===== *)
(** * Service plugins (internal/plugin, the noop services, and their selection in internal/app/node.go)

    The registry maps a plugin type and a name to a factory of any type; the node
    asserts the type of the factory it finds.  [None] is a panic. *)

From Stdlib Require Import ZArith Lia String.
From S2P Require Import Prelude GoStrings Domain Storage DnsService CdnService RouteService Cache DiskCache.
From S2P Require Import DnsServer CdnProxy Forwarder Bgp.

Open Scope Z_scope.

(** ** Noop services *)

(** dnsserver/noop.go, cdnserver/noop.go, routeserver/noop.go, gatewayrt/noop.go:
    the same code over different configurations. *)
Record Noop (K V : Type) `{Countable K} := mkNoop { np_running : bool; np_listenAddr : string; np_entries : gmap K V; np_count : Z }.
Arguments mkNoop {K V _ _}. Arguments np_running {K V _ _}. Arguments np_listenAddr {K V _ _}. Arguments np_entries {K V _ _}. Arguments np_count {K V _ _}.

Section noop.
Context {K V : Type} `{Countable K} (what : string).

Definition NewNoop : Noop K V := mkNoop false "" ∅ 0.

Definition noop_Start (listenAddr : string) : stM (Noop K V) unit := fun s =>
  if np_running s then (Err (Errorf (what +:+ " already running")), s)
  else (Ok tt, mkNoop true listenAddr (np_entries s) (np_count s)).

Definition noop_Stop : stM (Noop K V) unit := fun s =>
  if negb (np_running s) then (Err (Errorf (what +:+ " not running")), s)
  else (Ok tt, mkNoop false (np_listenAddr s) ∅ 0).

(** The loop over the configuration: the map, and the count of its entries. *)
Definition noop_load (es : list (K * V)) : gmap K V * Z :=
  foldl (fun '(m, n) e => (<[e.1 := e.2]> m, n + 1)) (∅, 0) es.

Definition noop_Reconcile (es : list (K * V)) : stM (Noop K V) unit := fun s =>
  if negb (np_running s) then (Err (Errorf (what +:+ " not running")), s)
  else (Ok tt, mkNoop true (np_listenAddr s) (noop_load es).1 (noop_load es).2).
End noop.

Notation DnsNoopService := (Noop string Z).
Definition dns_noop_Reconcile (config : option NodeDNSConfig) : stM DnsNoopService unit :=
  noop_Reconcile "dns server"
    (match config with Some c => (fun z => (zone_Name (zwr_Zone z), zone_Serial (zwr_Zone z))) <$> ndc_Zones c | None => [] end).

Notation CdnNoopService := (Noop ID string).
Definition cdn_noop_Reconcile (config : option NodeCDNConfig) : stM CdnNoopService unit :=
  noop_Reconcile "cdn server"
    (match config with Some c => (fun x => (site_ID (swo_Site x), site_Name (swo_Site x))) <$> ncc_Sites c | None => [] end).
Definition cdn_noop_PurgeCache (siteID : ID) : stM CdnNoopService unit := fun s =>
  if negb (np_running s) then (Err (Errorf "cdn server not running"), s)
  else match np_entries s !! siteID with
       | None => (Err (Errorf "site not found"), s)
       | Some _ => (Ok tt, s)
       end.

Notation RouteNoopService := (Noop ID string).
Definition route_noop_Reconcile (config : option NodeRouteConfig) : stM RouteNoopService unit :=
  noop_Reconcile "route service"
    (match config with Some c => (fun x => (route_ID (rwg_Route x), route_Name (rwg_Route x))) <$> nrc_Routes c | None => [] end).
Definition gateway_noop_Reconcile (config : option GatewayRouteConfig) : stM RouteNoopService unit :=
  noop_Reconcile "gateway route service"
    (match config with Some c => (fun r => (route_ID r, route_Name r)) <$> grc_Routes c | None => [] end).

(** ** Factories *)

Inductive BgpImpl := BgpGoBGP (s : GoBGPService) | BgpIsNoop (s : BgpNoop).
Inductive DnsImpl := DnsMiekg (s : MiekgService) | DnsIsNoop (s : DnsNoopService).
Inductive CdnImpl := CdnProxy (s : ProxyService) | CdnIsNoop (s : CdnNoopService).
Inductive RouteImpl := RouteForwarder (s : Forwarder RouteWithGateway node_icmpRoute) | RouteIsNoop (s : RouteNoopService).
Inductive GatewayImpl := GatewayForwarder (wireGuardIP : string) (s : Forwarder Route gateway_icmpRoute) | GatewayIsNoop (s : RouteNoopService).

Inductive factory :=
| BGPFactory (f : unit -> BgpImpl)
| DNSFactory (f : bool -> DnsImpl)
| CDNFactory (f : unit -> CdnImpl)
| RouteFactory (f : unit -> RouteImpl).

Notation PluginType := string (only parsing).
Definition PluginTypeBGP : PluginType := "bgp".
Definition PluginTypeDNS : PluginType := "dns".
Definition PluginTypeCDN : PluginType := "cdn".
Definition PluginTypeRoute : PluginType := "route".

(** ** The registry *)

Notation Registry := (gmap string (gmap string factory)).

Definition Register (pt : PluginType) (name : string) (f : factory) (r : Registry) : option Registry :=
  let byName := default ∅ (r !! pt) in
  match byName !! name with
  | Some _ => None
  | None => Some (<[pt := <[name := f]> byName]> r)
  end.

Definition Get (r : Registry) (pt : PluginType) (name : string) : option factory := byName ← r !! pt; byName !! name.

Definition RegisteredNames (r : Registry) (pt : PluginType) : list string :=
  match r !! pt with
  | None => []
  | Some byName => merge_sort (by_name (fun s : string => s)) (map_to_list byName).*1
  end.

(** ** The plugins of the program *)

Section builtin.
(** what earlier runs left in the cache directories *)
Context (disk : gmap (string * ID) Files).

Definition plugin_init (r : Registry) : option Registry :=
  r ← Register PluginTypeBGP "gobgp" (BGPFactory (fun _ => BgpGoBGP NewGoBGPService)) r;
  r ← Register PluginTypeBGP "noop" (BGPFactory (fun _ => BgpIsNoop NewBgpNoop)) r;
  r ← Register PluginTypeDNS "miekg" (DNSFactory (fun axfr => DnsMiekg (NewMiekgService axfr))) r;
  r ← Register PluginTypeDNS "noop" (DNSFactory (fun _ => DnsIsNoop NewNoop)) r;
  r ← Register PluginTypeCDN "proxy" (CDNFactory (fun _ => CdnProxy (NewProxyService disk))) r;
  r ← Register PluginTypeCDN "noop" (CDNFactory (fun _ => CdnIsNoop NewNoop)) r;
  r ← Register PluginTypeRoute "forwarder" (RouteFactory (fun _ => RouteForwarder NewForwarderService)) r;
  Register PluginTypeRoute "noop" (RouteFactory (fun _ => RouteIsNoop NewNoop)) r.
End builtin.

(** ** Selection *)

Section select.
Context (r : Registry).

Definition or_noop (mode : string) : string := if bool_decide (mode = "") then "noop" else mode.

(** The factory of a mode, or the noop one. *)
Definition factory_for (pt : PluginType) (mode : string) : option factory :=
  match Get r pt mode with
  | Some f => Some f
  | None => Get r pt "noop"
  end.

Definition initBGPService (mode : string) : option BgpImpl :=
  match factory_for PluginTypeBGP (or_noop mode) with Some (BGPFactory f) => Some (f tt) | _ => None end.

Definition initDNSService (mode : string) (axfrEnabled : bool) : option DnsImpl :=
  match factory_for PluginTypeDNS (or_noop mode) with Some (DNSFactory f) => Some (f axfrEnabled) | _ => None end.

Definition initCDNService (mode cacheDir : string) (cacheMaxBytes : Z) : option CdnImpl :=
  let mode := or_noop mode in
  match factory_for PluginTypeCDN mode with
  | Some (CDNFactory f) =>
      let svc := f tt in
      Some (if bool_decide (mode = "proxy") && negb (bool_decide (cacheDir = "")) then
              match svc with
              | CdnProxy p =>
                  CdnProxy (SetCacheConfig cacheDir (if cacheMaxBytes <=? 0 then 512 * 1024 * 1024 else cacheMaxBytes) p)
              | s => s
              end
            else svc)
  | _ => None
  end.

Definition initRouteService (mode : string) : option RouteImpl :=
  match factory_for PluginTypeRoute (or_noop mode) with Some (RouteFactory f) => Some (f tt) | _ => None end.
End select.

(** The gateway selects without the registry (internal/app/gateway.go). *)
Definition initGatewayRouteService (routeMode wireGuardIP : string) : GatewayImpl :=
  let mode := or_noop routeMode in
  let wireGuardIP := if bool_decide (wireGuardIP = "") then "127.0.0.1" else wireGuardIP in
  if bool_decide (mode = "forwarder") then GatewayForwarder wireGuardIP NewForwarderService
  else GatewayIsNoop NewNoop.

(** ** Theorems *)

(** The type a factory is registered for. *)
Definition factory_type (f : factory) : PluginType :=
  match f with
  | BGPFactory _ => PluginTypeBGP | DNSFactory _ => PluginTypeDNS | CDNFactory _ => PluginTypeCDN | RouteFactory _ => PluginTypeRoute
  end.

Definition typed (r : Registry) : Prop := forall pt name f, Get r pt name = Some f -> factory_type f = pt.

Lemma Register_Get pt name f r r' : Register pt name f r = Some r' ->
  Get r pt name = None /\
  forall pt' name', Get r' pt' name' = if decide (pt' = pt /\ name' = name) then Some f else Get r pt' name'.
Proof.
  unfold Register, Get. destruct (default ∅ (r !! pt) !! name) eqn:E; [done|]. intros [= <-].
  assert (r !! pt ≫= lookup name = None) as Hn by (destruct (r !! pt); done). split; [done|].
  intros pt' name'. destruct (decide (pt' = pt)) as [->|Hne].
  - rewrite lookup_insert_eq. cbn. destruct (decide (name' = name)) as [->|Hnn].
    + rewrite decide_True by done. apply lookup_insert_eq.
    + rewrite decide_False by naive_solver. rewrite lookup_insert_ne by done. by destruct (r !! pt).
  - rewrite decide_False by naive_solver. by rewrite lookup_insert_ne.
Qed.

Lemma Register_typed pt name f r r' : Register pt name f r = Some r' -> factory_type f = pt -> typed r -> typed r'.
Proof.
  intros [_ HG]%Register_Get Hf Ht pt' name' f'. rewrite HG. destruct (decide _) as [[-> ->]|]; [by intros [= <-]|]. apply Ht.
Qed.

(** A registry in which a type has two plugins, one of them noop. *)
Definition two_plugins (r : Registry) (pt name : string) (f noop : factory) : Prop :=
  forall n, Get r pt n = if decide (n = "noop") then Some noop else if decide (n = name) then Some f else None.

Lemma factory_for_two r pt name f noop mode : two_plugins r pt name f noop -> name <> "noop" -> name <> "" ->
  factory_for r pt (or_noop mode) = Some (if decide (mode = name) then f else noop).
Proof.
  intros H2 Hn Hne. unfold factory_for, or_noop. rewrite !H2. rewrite (decide_True (P := "noop" = "noop")) by done.
  case_bool_decide as He.
  - by rewrite decide_True, decide_False by congruence.
  - destruct (decide (mode = "noop")) as [->|Hm']; [by rewrite decide_False by congruence|]. by destruct (decide (mode = name)).
Qed.

Lemma Register_fresh pt name f r : Get r pt name = None -> exists r', Register pt name f r = Some r' /\
  forall pt' name', Get r' pt' name' = if decide (pt' = pt /\ name' = name) then Some f else Get r pt' name'.
Proof.
  intros Hn. destruct (Register pt name f r) as [r'|] eqn:E; [exists r'; split; [done|]; by apply Register_Get in E as [_ ?]|].
  unfold Register, Get in *. destruct (r !! pt) as [b|]; cbn in *; [by rewrite Hn in E|done].
Qed.

(** Registrations in sequence, and the table they make. *)
Notation registration := (string * string * factory)%type.
Definition register_all (l : list registration) (r : Registry) : option Registry :=
  foldl (fun o '(pt, name, f) => r ← o; Register pt name f r) (Some r) l.
Fixpoint find_reg (l : list registration) (pt n : string) : option factory :=
  match l with
  | [] => None
  | (pt', n', f) :: l => if decide (pt = pt' /\ n = n') then Some f else find_reg l pt n
  end.

Lemma find_reg_None l pt n : (pt, n) ∉ l.*1 -> find_reg l pt n = None.
Proof.
  induction l as [|[[pt' n'] f] l IH]; [done|]. cbn. intros [Hne Hl]%not_elem_of_cons.
  rewrite decide_False by naive_solver. by apply IH.
Qed.

Lemma register_all_Get l r : NoDup l.*1 -> (forall pt n, (pt, n) ∈ l.*1 -> Get r pt n = None) ->
  exists r', register_all l r = Some r' /\ forall pt n, Get r' pt n = match find_reg l pt n with Some f => Some f | None => Get r pt n end.
Proof.
  unfold register_all. revert r. induction l as [|[[pt n] f] l IH]; intros r Hnd Hfree; [by exists r|]. cbn in *.
  apply NoDup_cons in Hnd as [Hn Hnd]. destruct (Register_fresh pt n f r) as (r1 & E & G); [apply Hfree; by left|].
  cbn. rewrite E. destruct (IH r1 Hnd) as (r' & Hr' & Hall).
  { intros pt' n' Hin. rewrite G, decide_False; [apply Hfree; by right|]. intros [-> ->]. done. }
  exists r'. split; [done|]. intros pt' n'. rewrite Hall, G. destruct (decide (pt' = pt /\ n' = n)) as [[-> ->]|Hne]; [|done].
  by rewrite find_reg_None.
Qed.

Definition builtin (disk : gmap (string * ID) Files) : list registration :=
  [(PluginTypeBGP, "gobgp", BGPFactory (fun _ => BgpGoBGP NewGoBGPService));
   (PluginTypeBGP, "noop", BGPFactory (fun _ => BgpIsNoop NewBgpNoop));
   (PluginTypeDNS, "miekg", DNSFactory (fun axfr => DnsMiekg (NewMiekgService axfr)));
   (PluginTypeDNS, "noop", DNSFactory (fun _ => DnsIsNoop NewNoop));
   (PluginTypeCDN, "proxy", CDNFactory (fun _ => CdnProxy (NewProxyService disk)));
   (PluginTypeCDN, "noop", CDNFactory (fun _ => CdnIsNoop NewNoop));
   (PluginTypeRoute, "forwarder", RouteFactory (fun _ => RouteForwarder NewForwarderService));
   (PluginTypeRoute, "noop", RouteFactory (fun _ => RouteIsNoop NewNoop))].

Lemma plugin_init_two disk : exists r, plugin_init disk ∅ = Some r /\ typed r /\
  two_plugins r PluginTypeBGP "gobgp" (BGPFactory (fun _ => BgpGoBGP NewGoBGPService)) (BGPFactory (fun _ => BgpIsNoop NewBgpNoop)) /\
  two_plugins r PluginTypeDNS "miekg" (DNSFactory (fun axfr => DnsMiekg (NewMiekgService axfr))) (DNSFactory (fun _ => DnsIsNoop NewNoop)) /\
  two_plugins r PluginTypeCDN "proxy" (CDNFactory (fun _ => CdnProxy (NewProxyService disk))) (CDNFactory (fun _ => CdnIsNoop NewNoop)) /\
  two_plugins r PluginTypeRoute "forwarder" (RouteFactory (fun _ => RouteForwarder NewForwarderService)) (RouteFactory (fun _ => RouteIsNoop NewNoop)).
Proof.
  destruct (register_all_Get (builtin disk) ∅) as (r & Hr & G).
  { apply (bool_decide_eq_true_1 (NoDup _)). vm_compute. reflexivity. }
  { reflexivity. }
  exists r. split; [exact Hr|]. assert (Hg : forall pt n, Get r pt n = find_reg (builtin disk) pt n).
  { intros pt n. rewrite G. by destruct (find_reg _ _ _). }
  clear G Hr. split; [|split_and!].
  - intros pt n f. rewrite Hg. unfold builtin. cbn [find_reg]. repeat (case_decide; [intros; naive_solver|]). done.
  - intros n. rewrite Hg. unfold builtin. cbn [find_reg]. repeat case_decide; naive_solver.
  - intros n. rewrite Hg. unfold builtin. cbn [find_reg]. repeat case_decide; naive_solver.
  - intros n. rewrite Hg. unfold builtin. cbn [find_reg]. repeat case_decide; naive_solver.
  - intros n. rewrite Hg. unfold builtin. cbn [find_reg]. repeat case_decide; naive_solver.
Qed.

(** C25: the type assertions of the node never panic: the built-in registrations
    are accepted, each factory is of the type it is registered for, and for every
    mode string the four services come up: as the implementation that carries the
    name, and for any other string as the noop one. *)
Theorem plugins_well_typed (disk : gmap (string * ID) Files) : exists r, plugin_init disk ∅ = Some r /\
  (forall pt name f, Get r pt name = Some f -> factory_type f = pt) /\
  forall mode axfr dir maxBytes,
    initBGPService r mode = Some (if decide (mode = "gobgp") then BgpGoBGP NewGoBGPService else BgpIsNoop NewBgpNoop) /\
    initDNSService r mode axfr = Some (if decide (mode = "miekg") then DnsMiekg (NewMiekgService axfr) else DnsIsNoop NewNoop) /\
    (exists s, initCDNService r mode dir maxBytes = Some s /\ (mode = "proxy" <-> exists p, s = CdnProxy p)) /\
    initRouteService r mode = Some (if decide (mode = "forwarder") then RouteForwarder NewForwarderService else RouteIsNoop NewNoop).
Proof.
  destruct (plugin_init_two disk) as (r & Hr & Ht & H1 & H2 & H3 & H4). exists r. split; [done|]. split; [done|]. intros mode axfr dir maxBytes.
  unfold initBGPService, initDNSService, initCDNService, initRouteService.
  rewrite (factory_for_two _ _ _ _ _ mode H1), (factory_for_two _ _ _ _ _ mode H2), (factory_for_two _ _ _ _ _ mode H3),
    (factory_for_two _ _ _ _ _ mode H4) by done.
  split; [by destruct (decide _)|]. split; [by destruct (decide _)|]. split; [|by destruct (decide _)].
  destruct (decide (mode = "proxy")) as [->|Hne]; (eexists; split; [reflexivity|]).
  - destruct (_ && _); (split; [eauto|done]).
  - destruct (_ && _); (split; [done|intros [p Hp]; discriminate Hp]).
Qed.
