(* ===== verification/Agent.v ===== *)
(** * The agents of nodes and gateways
      (internal/nodestate, internal/gatewaystate, internal/nodeclient,
      internal/gatewayclient, internal/app/node.go, internal/app/gateway.go)

    An agent finds its identity on disk or enrolls, starts the services its
    configuration enables and then polls the controller.  A request is a run of
    [ServeHTTP] on the database of the controller, unless the network loses it or
    its reply; the JSON of a reply is the typed body of the API model.  The JSON of
    the state files is a parameter with its round trip as law. *)

From Stdlib Require Import ZArith Lia Ascii String.
From S2P Require Import Prelude GoStrings GoHttp Secrets Domain Storage DnsService CdnGuards CdnService RouteService Cache DiskCache.
From S2P Require Import DnsServer CdnProxy Forwarder Bgp Plugin Token Auth Api ApiHandlers ApiProvision ApiRoutes.

Open Scope Z_scope.

(** ** State files *)

Class StateJSON (A : Type) := { MarshalIndent : A -> string; Unmarshal : string -> option A }.
Class StateJSONLaws (A : Type) `{StateJSON A} := { unmarshal_marshal a : Unmarshal (MarshalIndent a) = Some a }.

Record NodeState := mkNodeState { nst_NodeID : string; nst_APIToken : string; nst_WireGuardIP : string }.
Record GatewayState := mkGatewayState { gst_GatewayID : string; gst_APIToken : string }.

(** Path and content of regular files. *)
Notation FileSystem := (gmap string string).

(** [filepath.Join] of a clean directory and a file name. *)
Definition state_path (dataDir stateFileName : string) : string := dataDir +:+ "/" +:+ stateFileName.
Definition node_state_file : string := "node-state.json".
Definition gateway_state_file : string := "gateway-state.json".

(** [os.WriteFile]: the file could not be opened, was truncated and only partly
    written, or was written. *)
Inductive write_outcome := NotOpened | Partly (content : string) | Written.

Section state.
Context {A : Type} `{StateJSON A} (stateFileName : string).

(** [readable]: an existing file can be read. *)
Definition Load (readable : bool) (dataDir : string) (fs : FileSystem) : result (option A) :=
  match fs !! state_path dataDir stateFileName with
  | None => Ok None
  | Some data =>
      if negb readable then Err (Wrapf "read state file" (Errorf "io"))
      else match Unmarshal data with
           | None => Err (Wrapf "parse state file" (Errorf "json"))
           | Some s => Ok (Some s)
           end
  end.

(** [made]: the directory exists or was created. *)
Definition Save (made : bool) (w : write_outcome) (dataDir : string) (s : A) (fs : FileSystem) : result unit * FileSystem :=
  let path := state_path dataDir stateFileName in
  if negb made then (Err (Wrapf "create data dir" (Errorf "io")), fs)
  else match w with
       | NotOpened => (Err (Wrapf "write state file" (Errorf "io")), fs)
       | Partly content => (Err (Wrapf "write state file" (Errorf "io")), <[path := content]> fs)
       | Written => (Ok tt, <[path := MarshalIndent s]> fs)
       end.
End state.

(** ** Clients *)

Record Client := NewClient { nc_baseURL : string; nc_id : string; nc_apiToken : string }.
Record EnrollResult := mkEnrollResult { enr_Status : string; enr_NodeID : string; enr_APIToken : string; enr_WireGuardIP : string }.

Inductive transport := Delivered | RequestLost | ReplyLost.

Section client.
Context `{UUID} `{AuthLib} `{AEAD} (hmac_sha256 : string -> string -> string) (ParseAddress : string -> bool).
Context (srv : ApiServer) (remote : string).

(** [client.Do] *)
Definition Do (t : transport) (e : ReqEnv) (c : call) (i : Incoming) : stM SqlState ApiReply := fun s =>
  match t with
  | RequestLost => (Err (Errorf "dial"), s)
  | Delivered => let '(rep, s') := ServeHTTP hmac_sha256 ParseAddress srv e c i s in (Ok rep, s')
  | ReplyLost => let '(_, s') := ServeHTTP hmac_sha256 ParseAddress srv e c i s in (Err (Errorf "read"), s')
  end.

(** The request of a client: the token of the state file, nothing else. *)
Definition client_request (cl : Client) : Incoming := mkIncoming ("Bearer " +:+ nc_apiToken cl) None "" remote.

Definition getJSON (t : transport) (e : ReqEnv) (cc : config_call) (cl : Client) : stM SqlState Body :=
  rep ← wrap "http request" (Do t e (CConfig cc) (client_request cl));
  if negb (bool_decide (ar_status rep = 200)) then throw (Errorf "HTTP") else mret (ar_body rep).

Definition FetchBGPConfig (t : transport) (e : ReqEnv) (cl : Client) : stM SqlState (list BGPSession) :=
  b ← wrap "fetch BGP config" (getJSON t e (CConfigBGP (nc_id cl)) cl);
  match b with BBGPConfig l => mret l | _ => throw (Errorf "unmarshal data") end.

Definition FetchDNSConfig (t : transport) (e : ReqEnv) (cl : Client) : stM SqlState NodeDNSConfig :=
  b ← wrap "fetch DNS config" (getJSON t e (CConfigDNS (nc_id cl)) cl);
  match b with BDNSConfig c => mret c | _ => throw (Errorf "unmarshal data") end.

Definition FetchCDNConfig (t : transport) (e : ReqEnv) (cl : Client) : stM SqlState NodeCDNConfig :=
  b ← wrap "fetch CDN config" (getJSON t e (CConfigCDN (nc_id cl)) cl);
  match b with BCDNConfig c => mret c | _ => throw (Errorf "unmarshal data") end.

Definition FetchRouteConfig (t : transport) (e : ReqEnv) (cl : Client) : stM SqlState NodeRouteConfig :=
  b ← wrap "fetch route config" (getJSON t e (CConfigRoutes (nc_id cl)) cl);
  match b with BRouteConfig c => mret c | _ => throw (Errorf "unmarshal data") end.

(** gatewayclient *)
Definition gateway_FetchRouteConfig (t : transport) (e : ReqEnv) (cl : Client) : stM SqlState GatewayRouteConfig :=
  b ← wrap "fetch route config" (getJSON t e (CConfigGateway (nc_id cl)) cl);
  match b with BGatewayConfig c => mret c | _ => throw (Errorf "unmarshal data") end.

(** [Enroll]: the token is quoted with %q, which is JSON for the characters an
    enrollment token has. *)
Definition client_Enroll (t : transport) (e : ReqEnv) (enrollmentToken : string) : stM SqlState EnrollResult :=
  rep ← wrap "enroll request" (Do t e (CEnroll (Some enrollmentToken)) (mkIncoming "" None "" remote));
  if negb (bool_decide (ar_status rep = 200)) then throw (Errorf "enrollment failed")
  else match ar_body rep with
       | BEnrolled nodeID apiToken wireGuardIP => mret (mkEnrollResult "enrolled" nodeID apiToken wireGuardIP)
       | _ => throw (Errorf "unmarshal enrollment data")
       end.

(** ** Identity *)

Record AgentConfig := mkAgentConfig { ac_ControllerAddr : string; ac_DataDir : string; ac_EnrollmentToken : string }.

(** What the system does to the calls of one start. *)
Record StartIO := mkStartIO { io_readable : bool; io_made : bool; io_write : write_outcome; io_transport : transport; io_env : ReqEnv }.

Context `{StateJSON NodeState} `{StateJSON GatewayState}.

Definition resolveNodeIdentity (cfg : AgentConfig) (io : StartIO) (fs : FileSystem) (s : SqlState) :
    result Client * FileSystem * SqlState :=
  match Load (A:=NodeState) node_state_file (io_readable io) (ac_DataDir cfg) fs with
  | Err err => (Err (Wrapf "load node state" err), fs, s)
  | Ok (Some st) => (Ok (NewClient (ac_ControllerAddr cfg) (nst_NodeID st) (nst_APIToken st)), fs, s)
  | Ok None =>
      if bool_decide (ac_EnrollmentToken cfg = "") then (Err (Errorf "no node state and no enrollment_token configured"), fs, s)
      else match client_Enroll (io_transport io) (io_env io) (ac_EnrollmentToken cfg) s with
           | (Err err, s1) => (Err (Wrapf "enrollment failed" err), fs, s1)
           | (Ok r, s1) =>
               let st := mkNodeState (enr_NodeID r) (enr_APIToken r) (enr_WireGuardIP r) in
               (* the error of Save is only logged *)
               (Ok (NewClient (ac_ControllerAddr cfg) (enr_NodeID r) (enr_APIToken r)),
                (Save node_state_file (io_made io) (io_write io) (ac_DataDir cfg) st fs).2, s1)
           end
  end.

Definition resolveGatewayIdentity (cfg : AgentConfig) (readable : bool) (fs : FileSystem) : result Client :=
  match Load (A:=GatewayState) gateway_state_file readable (ac_DataDir cfg) fs with
  | Err err => Err (Wrapf "load gateway state" err)
  | Ok None => Err (Errorf "no gateway state file found")
  | Ok (Some st) =>
      if bool_decide (gst_GatewayID st = "") || bool_decide (gst_APIToken st = "")
      then Err (Errorf "gateway state incomplete (missing gateway_id or api_token)")
      else Ok (NewClient (ac_ControllerAddr cfg) (gst_GatewayID st) (gst_APIToken st))
  end.
End client.

(** ** Services behind their interfaces *)

Section services.
Context `{UUID} (Fqdn : string -> string) (unmarshal_rules : string -> option (list HeaderRule)).
Context (bgp_lib : lib_history -> lib_call -> result string).

(** What the system does to the calls of a service: DNS listeners, the CDN
    listener, cache directories, binds, the orders of loops over maps, the clock. *)
Record ServiceIO := mkServiceIO {
  sio_udp : bool; sio_tcp : bool; sio_listen : bool; sio_mkdir : string * ID -> bool; sio_now : Z;
  sio_bind : list Endpoint -> Endpoint -> bool;
  sio_routes : list RouteWithGateway -> list (ID * RouteWithGateway);
  sio_groutes : list Route -> list (ID * Route);
  sio_peers : gset string -> list string;
  sio_sessions : list BGPSession -> list (string * BGPSession);
  sio_shutdown : list goerr
}.

(** Run a method of the implementation and put the receiver back. *)
Definition on_impl {S I} (wrap : S -> I) (o : result unit * S) : result unit * I := (o.1, wrap o.2).

Definition bgp_Start (routerID : string) (localASN : Z) : stM BgpImpl unit := fun i =>
  match i with
  | BgpGoBGP s => on_impl BgpGoBGP (gobgp_Start bgp_lib routerID localASN s)
  | BgpIsNoop s => on_impl BgpIsNoop (bgp_noop_Start routerID localASN s)
  end.
Definition bgp_Reconcile (io : ServiceIO) (desired : list BGPSession) : stM BgpImpl unit := fun i =>
  match i with
  | BgpGoBGP s => on_impl BgpGoBGP (gobgp_Reconcile bgp_lib (sio_peers io (gb_peers s)) (sio_sessions io desired) desired s)
  | BgpIsNoop s => on_impl BgpIsNoop (bgp_noop_Reconcile desired s)
  end.
Definition bgp_Stop : stM BgpImpl unit := fun i =>
  match i with
  | BgpGoBGP s => on_impl BgpGoBGP (gobgp_Stop bgp_lib s)
  | BgpIsNoop s => on_impl BgpIsNoop (bgp_noop_Stop s)
  end.

Definition dns_Start (io : ServiceIO) (listenAddr : string) : stM DnsImpl unit := fun i =>
  match i with
  | DnsMiekg s => on_impl DnsMiekg (DnsServer.Start (sio_udp io) (sio_tcp io) listenAddr s)
  | DnsIsNoop s => on_impl DnsIsNoop (noop_Start "dns server" listenAddr s)
  end.
Definition dns_Reconcile (config : NodeDNSConfig) : stM DnsImpl unit := fun i =>
  match i with
  | DnsMiekg s => on_impl DnsMiekg (DnsServer.Reconcile Fqdn (Some config) s)
  | DnsIsNoop s => on_impl DnsIsNoop (dns_noop_Reconcile (Some config) s)
  end.
Definition dns_Stop (io : ServiceIO) : stM DnsImpl unit := fun i =>
  match i with
  | DnsMiekg s => on_impl DnsMiekg (DnsServer.Stop (sio_shutdown io) s)
  | DnsIsNoop s => on_impl DnsIsNoop (noop_Stop "dns server" s)
  end.

Definition cdn_Start (io : ServiceIO) (listenAddr : string) : stM CdnImpl unit := fun i =>
  match i with
  | CdnProxy s => on_impl CdnProxy (proxy_Start (sio_listen io) listenAddr s)
  | CdnIsNoop s => on_impl CdnIsNoop (noop_Start "cdn server" listenAddr s)
  end.
(** [None] is a panic *)
Definition cdn_Reconcile (io : ServiceIO) (config : NodeCDNConfig) (i : CdnImpl) : option (result unit * CdnImpl) :=
  match i with
  | CdnProxy s => on_impl CdnProxy <$> proxy_Reconcile unmarshal_rules (sio_mkdir io) (sio_now io) (Some config) s
  | CdnIsNoop s => Some (on_impl CdnIsNoop (cdn_noop_Reconcile (Some config) s))
  end.
Definition cdn_Stop (io : ServiceIO) (i : CdnImpl) : option (result unit * CdnImpl) :=
  match i with
  | CdnProxy s => on_impl CdnProxy <$> proxy_Stop (match sio_shutdown io with e :: _ => Err e | [] => Ok tt end) s
  | CdnIsNoop s => Some (on_impl CdnIsNoop (noop_Stop "cdn server" s))
  end.

Definition route_Start : stM RouteImpl unit := fun i =>
  match i with
  | RouteForwarder s => on_impl RouteForwarder (Forwarder.Start node_side s)
  | RouteIsNoop s => on_impl RouteIsNoop (noop_Start "route service" "" s)
  end.
Definition route_Reconcile (io : ServiceIO) (config : NodeRouteConfig) : stM RouteImpl unit := fun i =>
  match i with
  | RouteForwarder s =>
      on_impl RouteForwarder (Forwarder.Reconcile node_side (sio_bind io) (sio_routes io (nrc_Routes config)) (nrc_Routes config) s)
  | RouteIsNoop s => on_impl RouteIsNoop (route_noop_Reconcile (Some config) s)
  end.
Definition route_Stop : stM RouteImpl unit := fun i =>
  match i with
  | RouteForwarder s => on_impl RouteForwarder (Forwarder.Stop node_side s)
  | RouteIsNoop s => on_impl RouteIsNoop (noop_Stop "route service" s)
  end.

Definition gateway_Start : stM GatewayImpl unit := fun i =>
  match i with
  | GatewayForwarder ip s => on_impl (GatewayForwarder ip) (gwrt_Start ip s)
  | GatewayIsNoop s => on_impl GatewayIsNoop (noop_Start "gateway route service" "" s)
  end.
Definition gateway_Reconcile (io : ServiceIO) (config : GatewayRouteConfig) : stM GatewayImpl unit := fun i =>
  match i with
  | GatewayForwarder ip s =>
      on_impl (GatewayForwarder ip)
        (gwrt_Reconcile ip (sio_bind io) (sio_groutes io (grc_Routes config)) (grc_Routes config) s)
  | GatewayIsNoop s => on_impl GatewayIsNoop (gateway_noop_Reconcile (Some config) s)
  end.
Definition gateway_Stop : stM GatewayImpl unit := fun i =>
  match i with
  | GatewayForwarder ip s => on_impl (GatewayForwarder ip) (gwrt_Stop ip s)
  | GatewayIsNoop s => on_impl GatewayIsNoop (noop_Stop "gateway route service" s)
  end.

(** ** Reconcile loops *)

(** One turn of [dnsReconcileLoop], of [bgpReconcileLoop] and of
    [gatewayRouteReconcileLoop]: errors of both calls are only logged. *)
Definition poll {C I} (fetch : stM SqlState C) (reconcile : C -> stM I unit) (s : SqlState) (i : I) : SqlState * I :=
  match fetch s with
  | (Err _, s1) => (s1, i)
  | (Ok c, s1) => (s1, (reconcile c i).2)
  end.

(** [cdnReconcileLoop] *)
Definition cdn_poll (fetch : stM SqlState NodeCDNConfig) (io : ServiceIO) (s : SqlState) (i : CdnImpl) : SqlState * option CdnImpl :=
  match fetch s with
  | (Err _, s1) => (s1, Some i)
  | (Ok c, s1) => (s1, snd <$> cdn_Reconcile io c i)
  end.

(** Targets of the route health checker. *)
Record RouteTarget := mkRouteTarget {
  tg_RouteID : ID; tg_RouteName : string; tg_Protocol : RouteProtocol; tg_GatewayWGIP : string; tg_EntryPort : Z
}.
Definition updateRouteHealthTargets (c : NodeRouteConfig) : list RouteTarget :=
  (fun x => let r := rwg_Route x in
     mkRouteTarget (route_ID r) (route_Name r) (route_Protocol r) (rwg_GatewayWGIP x) (safePort (route_EntryPort r))) <$> nrc_Routes c.

(** [routeReconcileLoop]: the targets follow a reconciliation that succeeded. *)
Definition route_poll (fetch : stM SqlState NodeRouteConfig) (io : ServiceIO) (s : SqlState) (i : RouteImpl) (targets : list RouteTarget) :
    SqlState * RouteImpl * list RouteTarget :=
  match fetch s with
  | (Err _, s1) => (s1, i, targets)
  | (Ok c, s1) =>
      match route_Reconcile io c i with
      | (Err _, i1) => (s1, i1, targets)
      | (Ok _, i1) => (s1, i1, updateRouteHealthTargets c)
      end
  end.

(** ** RunNode *)

Record NodeServicesConfig := mkNodeServicesConfig {
  cf_BGP : bool; cf_BGPMode : string; cf_RouterID : string; cf_LocalASN : Z;
  cf_DNS : bool; cf_DNSMode : string; cf_DNSListen : string; cf_AXFR : bool;
  cf_CDN : bool; cf_CDNMode : string; cf_CDNListen : string; cf_CacheDir : string; cf_CacheMaxBytes : Z;
  cf_Route : bool; cf_RouteMode : string
}.

(** A service that was created, and whether it started: only then its loop runs. *)
Record NodeServices := mkNodeServices {
  sv_bgp : option (BgpImpl * bool); sv_dns : option (DnsImpl * bool);
  sv_cdn : option (CdnImpl * bool); sv_route : option (RouteImpl * bool)
}.

Definition or_default (d s : string) : string := if bool_decide (s = "") then d else s.
Definition started {I} (o : result unit * I) : I * bool := (o.2, match o.1 with Ok _ => true | Err _ => false end).

(** [if enabled { svc = init(); svc.Start() }]; the outer [None] is a panic *)
Definition bring_up {I} (enabled : bool) (init : option I) (start : stM I unit) : option (option (I * bool)) :=
  if enabled then svc ← init; Some (Some (started (start svc))) else Some None.

Definition RunNode_start (r : Registry) (cfg : NodeServicesConfig) (io : ServiceIO) : option NodeServices :=
  b ← bring_up (cf_BGP cfg) (initBGPService r (cf_BGPMode cfg))
        (bgp_Start (or_default "127.0.0.1" (cf_RouterID cfg)) (if cf_LocalASN cfg =? 0 then 65000 else cf_LocalASN cfg));
  d ← bring_up (cf_DNS cfg) (initDNSService r (cf_DNSMode cfg) (cf_AXFR cfg)) (dns_Start io (or_default ":5353" (cf_DNSListen cfg)));
  c ← bring_up (cf_CDN cfg) (initCDNService r (cf_CDNMode cfg) (cf_CacheDir cfg) (cf_CacheMaxBytes cfg))
        (cdn_Start io (or_default ":8080" (cf_CDNListen cfg)));
  t ← bring_up (cf_Route cfg) (initRouteService r (cf_RouteMode cfg)) route_Start;
  Some (mkNodeServices b d c t).

Definition stop_one {I} (stop : stM I unit) (x : option (I * bool)) : option (I * bool) :=
  match x with Some (i, up) => Some ((stop i).2, up) | None => None end.

(** The shutdown: routes, CDN, DNS, BGP; errors are only logged. *)
Definition RunNode_stop (io : ServiceIO) (v : NodeServices) : option NodeServices :=
  let t := stop_one route_Stop (sv_route v) in
  c ← match sv_cdn v with
      | None => Some None
      | Some (i, up) => o ← cdn_Stop io i; Some (Some (o.2, up))
      end;
  Some (mkNodeServices (stop_one bgp_Stop (sv_bgp v)) (stop_one (dns_Stop io) (sv_dns v)) c t).

(** ** RunGateway *)

(** The service, and whether its loop runs: that needs a client as well. *)
Definition RunGateway_start (client : result Client) (routeMode wireGuardIP : string) : GatewayImpl * bool :=
  let o := started (gateway_Start (initGatewayRouteService routeMode wireGuardIP)) in
  (o.1, o.2 && match client with Ok _ => true | Err _ => false end).
End services.
