(* ===== verification/AgentTheorems.v ===== *)
(** * Agents: enrollment, polling, and what the node then serves *)

From Stdlib Require Import ZArith Lia Ascii String.
From S2P Require Import Prelude GoStrings GoBase64 GoHttp Secrets Domain Storage StoreDns StoreFleet StoreAccess DnsService CdnGuards CdnService RouteService.
From S2P Require Import ProvisionFrame ApiRoutes DnsServer DnsTheorems Cache DiskCache CdnProxy Provisioner EnrollTheorems.
From S2P Require Import Forwarder Bgp Plugin Token Auth Api ApiHandlers ApiFleet ApiProvision ApiRoutes ApiFrame ApiTheorems ApiIsolation Agent.

Open Scope Z_scope.

(** ** The snapshot is returned when no statement fails *)

Definition serials_fit (d : DB) : Prop := forall id z, dns_zones d !! id = Some z -> zone_Serial z < 2 ^ 32.

Section snapshot.
Context (s : SqlState) (Hs : calm s) (Hser : serials_fit (sq_db s)).

Lemma scan_zones_fit l : (forall z, z ∈ l -> zone_Serial z < 2 ^ 32) -> scan_zones l = Ok l.
Proof using Type.
  induction l as [|z l IH]; intros Hl; [done|]. cbn. unfold scan_zone. rewrite (proj2 (Z.ltb_lt _ _)) by (apply Hl; by left).
  cbn. rewrite IH by (intros z' Hz; apply Hl; by right). done.
Qed.

Lemma ListDNSZones_calm tid p : exists r, ListDNSZones (S:=SqlState) tid p s = (Ok r, s).
Proof using Hs Hser.
  cbn [ListDNSZones sqlite_dns]. unfold sqlite_ListDNSZones. rewrite calm_query by done. cbv zeta.
  rewrite scan_zones_fit; [cbn; eauto|]. intros z Hz%page_subseteq. rewrite merge_sort_Permutation in Hz.
  apply list_elem_of_filter in Hz as [_ [id Hid]%elem_of_rows]. eauto.
Qed.

Lemma sync_zones_calm gid zones seen acc : exists r, sync_zones (S:=SqlState) gid zones seen acc s = (Ok r, s).
Proof using Hs.
  revert seen acc. induction zones as [|z zones IH]; intros seen acc; [by eexists|]. cbn [sync_zones].
  repeat (destruct (negb _); [apply IH|]). destruct (bool_decide _); [apply IH|].
  unfold mbind, stM_bind, wrap. cbn [ListDNSRecords sqlite_dns]. unfold sqlite_ListDNSRecords. rewrite calm_query by done. apply IH.
Qed.

Lemma sync_groups_calm groups seen acc : exists r, sync_groups (S:=SqlState) groups seen acc s = (Ok r, s).
Proof using Hs Hser.
  revert seen acc. induction groups as [|g groups IH]; intros seen acc; [by eexists|]. cbn [sync_groups].
  destruct (ListDNSZones_calm (ng_TenantID g) limit10000) as [zs Hz].
  destruct (sync_zones_calm (ng_ID g) zs.1 seen acc) as [r Hr].
  unfold mbind, stM_bind, wrap. rewrite Hz. cbn beta iota. rewrite Hr. apply IH.
Qed.

Lemma GetNodeDNSConfig_calm n : is_Some (nodes (sq_db s) !! n) -> exists cfg, GetNodeDNSConfig (S:=SqlState) n s = (Ok cfg, s).
Proof using Hs Hser.
  intros [nd Hn]. unfold GetNodeDNSConfig, mbind, stM_bind, wrap. cbn [GetNode ListNodeGroups_ByNode sqlite_groups].
  unfold sqlite_GetNode, sqlite_ListNodeGroups_ByNode. rewrite calm_query by done. rewrite Hn. cbn beta iota. rewrite calm_query by done. cbn beta iota.
  destruct (sync_groups_calm (merge_sort (by_name ng_Name) (groups_of_node (sq_db s) n)) ∅ []) as [r ->]. by eexists.
Qed.
End snapshot.

(** ** What an enrollment hands out *)

Section agent.
Context `{UUIDLaws} `{AuthLib} `{AEAD} (hmac_sha256 : string -> string -> string) (ParseAddress : string -> bool).
Context (srv : ApiServer) (remote : string).
Notation issue t res := (Issue hmac_sha256 (as_tokens srv) t (node_claims res)).

(** The client holds the token issued at [t] for the node of [res]. *)
Definition identifies (t : Time) (res : EnrollmentResult) (cl : Client) : Prop :=
  nc_id cl = uuid_String (er_NodeID res) /\ issue t res = Ok (nc_apiToken cl).

Lemma audit_Log_forward newID now ev (s : SqlState) : tokens_forward (sq_db s) (sq_db (audit_Log newID now ev s).2).
Proof using Type.
  destruct (audit_Log newID now ev s) as [r s'] eqn:E. cbn. revert E. apply sql_exec_forward.
  intros d x d'. destruct (has_key _ _); intros [= _ <-]; by apply tokens_forward_same.
Qed.

Lemma Enroll_replies e tok i s rep s' :
  ServeHTTP hmac_sha256 ParseAddress srv e (CEnroll (Some tok)) i s = (rep, s') -> ar_status rep = 200 ->
  exists res p1 apiToken, CompleteEnrollment (as_outside srv) (as_provisioner srv) tok (mkPEnv s [] (re_tick e)) = (Ok res, p1) /\
    tokens_forward (sq_db (pe_sql p1)) (sq_db s') /\
    issue (re_now e 4) res = Ok apiToken /\
    ar_body rep = BEnrolled (uuid_String (er_NodeID res)) apiToken (er_WireGuardIP res).
Proof using Type.
  unfold ServeHTTP. cbn [middlewares Chain foldr handler]. unfold Enroll, HandlerFunc. cbn [Decode].
  unfold mbind at 1, hM_bind at 1, mret at 1, hM_ret at 1. unfold required.
  destruct (bool_decide (tok = "")); [cbn; intros [= <- <-]; done|].
  unfold mbind at 1, hM_bind at 1. unfold mret at 1, hM_ret at 1. unfold mbind at 1, hM_bind at 1.
  destruct (CompleteEnrollment (as_outside srv) (as_provisioner srv) tok (mkPEnv s [] (re_tick e))) as [[res|err] p1] eqn:E;
    unfold in_request; rewrite E.
  - cbn [Issue]. unfold mbind at 1, hM_bind at 1, mret at 1, hM_ret at 1.
    intros Hrun _. exists res, p1. eexists. split; [done|]. revert Hrun.
    unfold mbind, hM_bind, log, dropped, mret, hM_ret. cbn [fst snd]. intros [= <- <-]. split_and!; [|done..].
    apply audit_Log_forward.
  - unfold mbind, hM_bind, log, dropped, reply. intros [= <- <-]. unfold enroll_error, or404, or_conflict, err500, WriteError.
    repeat case_match; done.
Qed.

Lemma client_Enroll_identifies t e tok s r s' addr :
  client_Enroll hmac_sha256 ParseAddress srv remote t e tok s = (Ok r, s') ->
  exists res, identifies (re_now e 4) res (NewClient addr (enr_NodeID r) (enr_APIToken r)) /\
    (CompleteEnrollment (as_outside srv) (as_provisioner srv) tok (mkPEnv s [] (re_tick e))).1 = Ok res.
Proof using Type.
  unfold client_Enroll, mbind, stM_bind, wrap, Do. destruct t; [|done|]; cbv zeta.
  2: { by destruct (ServeHTTP _ _ _ _ _ _ _). }
  destruct (ServeHTTP hmac_sha256 ParseAddress srv e _ _ s) as [rep s1] eqn:E. case_bool_decide as Hst; cbn [negb]; [|done].
  destruct (Enroll_replies _ _ _ _ _ _ E Hst) as (res & p1 & tokn & Hc & _ & Hi & Hb). rewrite Hb. intros [= <- _].
  exists res. rewrite Hc. by split.
Qed.

(** ** Polling with the token *)

Lemma identifies_bears t res cl e :
  identifies t res cl -> unix_ok t -> unix_ok (t + ts_ttl (as_tokens srv)) ->
  Unix (re_now e 0) <= Unix (t + ts_ttl (as_tokens srv)) -> bears hmac_sha256 srv e (client_request remote cl) (node_claims res).
Proof using Type*.
  intros [_ Htok] Hi He Hnow. exists (nc_apiToken cl). split; [done|]. split.
  { unfold Issue in Htok. injection Htok as <-. by destruct (RawURL_EncodeToString _). }
  split; [by eapply Issue_no_key_prefix|].
  rewrite (Verify_Issue hmac_sha256 _ t (re_now e 0) (node_claims res) _ eq_refl Hi He Htok).
  by rewrite (proj2 (Z.ltb_ge _ _)) by lia.
Qed.

Lemma identifies_expired t res cl e c s :
  identifies t res cl -> unix_ok t -> unix_ok (t + ts_ttl (as_tokens srv)) ->
  Unix (t + ts_ttl (as_tokens srv)) < Unix (re_now e 0) -> protected c = true ->
  ServeHTTP hmac_sha256 ParseAddress srv e c (client_request remote cl) s =
    (WriteError 401 "unauthorized" (Msg "invalid or expired token"), s).
Proof using Type*.
  intros [_ Htok] Hi He Hnow Hc. pose proof (Issue_no_key_prefix _ _ _ _ _ Htok) as Hpre.
  pose proof (Verify_Issue hmac_sha256 _ t (re_now e 0) (node_claims res) _ eq_refl Hi He Htok) as Hv.
  rewrite (proj2 (Z.ltb_lt _ _)) in Hv by lia.
  assert (Hne : nc_apiToken cl <> "") by (unfold Issue in Htok; injection Htok as <-; by destruct (RawURL_EncodeToString _)).
  rewrite serve_protected by done.
  assert (authenticate hmac_sha256 (as_tokens srv) e (request c (client_request remote cl)) s =
    (inl (WriteError 401 "unauthorized" (Msg "invalid or expired token")), s)) as ->; [|done].
  unfold authenticate, request_token. cbn [request hq_Authorization client_request in_Authorization].
  rewrite bool_decide_false by done. change (HasPrefix ("Bearer " +:+ nc_apiToken cl) "Bearer ") with true.
  by rewrite TrimPrefix_bearer, bool_decide_false, Hpre, Hv.
Qed.

(** The configuration endpoint of the node behind all of its checks. *)
Lemma config_reaches_handler t res cl e cc s :
  identifies t res cl -> unix_ok t -> unix_ok (t + ts_ttl (as_tokens srv)) ->
  Unix (re_now e 0) <= Unix (t + ts_ttl (as_tokens srv)) -> is_Some (er_TenantID res) -> config_target cc = nc_id cl ->
  (forall id, cc <> CConfigGateway id) ->
  ServeHTTP hmac_sha256 ParseAddress srv e (CConfig cc) (client_request remote cl) s =
    config_handler srv e cc (with_claims (node_claims res) (request (CConfig cc) (client_request remote cl))) s.
Proof using Type*.
  intros Hid Hi He Hnow [tn Htn] Hcc Hng. rewrite serve_protected by done.
  rewrite (bears_authenticates hmac_sha256 srv e _ (node_claims res)) by (by eapply identifies_bears).
  cbn [node_claims cl_MFAPending andb].
  assert (permitted (node_claims res) (CConfig cc) = true) as ->.
  { unfold permitted, Authorize. cbn. rewrite Htn. destruct cc; cbn; rewrite (bool_decide_true (tn = tn)) by done; reflexivity. }
  unfold inner. cbn [owner_check Chain foldr]. unfold RequireResourceOwnerOrAdmin. cbn [ClaimsFromContext with_claims hq_claims].
  cbn [node_claims cl_TenantID cl_Role cl_UserID]. rewrite Htn, !bool_decide_false by done. cbn [orb]. unfold ParseID.
  cbn [with_claims request hq_PathValue PathValue]. unfold config_value. rewrite (bool_decide_true ("id" = "id")) by done.
  destruct Hid as [Hid _]. rewrite Hcc, Hid. rewrite bool_decide_false by apply uuid_nonempty. rewrite uuid_roundtrip.
  unfold mret, hM_ret. rewrite bool_decide_true by done. done.
Qed.

Lemma FetchDNSConfig_ok t res cl e s :
  identifies t res cl -> unix_ok t -> unix_ok (t + ts_ttl (as_tokens srv)) ->
  Unix (re_now e 0) <= Unix (t + ts_ttl (as_tokens srv)) -> is_Some (er_TenantID res) ->
  as_dnsSvc srv = true -> calm s -> serials_fit (sq_db s) -> is_Some (nodes (sq_db s) !! er_NodeID res) ->
  exists cfg s', GetNodeDNSConfig (er_NodeID res) s = (Ok cfg, s) /\
    FetchDNSConfig hmac_sha256 ParseAddress srv remote Delivered e cl s = (Ok cfg, s').
Proof using Type*.
  intros Hid Hi He Hnow Ht Hsvc Hs Hser Hn. destruct (GetNodeDNSConfig_calm s Hs Hser _ Hn) as [cfg Hcfg].
  unfold FetchDNSConfig, getJSON, Do, mbind, stM_bind, wrap.
  rewrite (config_reaches_handler t res) by done. unfold config_handler, GetDNSConfig, HandlerFunc.
  unfold mbind, hM_bind, ParseID. cbn [with_claims request hq_PathValue PathValue]. unfold config_value.
  rewrite (bool_decide_true ("id" = "id")) by done. cbn [config_target]. destruct Hid as [Hid _]. rewrite Hid.
  rewrite bool_decide_false by apply uuid_nonempty. rewrite uuid_roundtrip. unfold mret, hM_ret, available. rewrite Hsvc.
  unfold svc. unfold mret, hM_ret. rewrite Hcfg. unfold node_synced, dropped. cbn. eauto.
Qed.

(** ** Starting *)

Context `{!StateJSON NodeState} `{!StateJSON GatewayState}.
Notation resolve := (resolveNodeIdentity hmac_sha256 ParseAddress srv remote).
Notation state_file cfg := (state_path (ac_DataDir cfg) node_state_file).

Lemma first_start cfg io fs s cl fs1 s1 :
  resolve cfg io fs s = (Ok cl, fs1, s1) -> fs !! state_file cfg = None ->
  exists res st, identifies (re_now (io_env io) 4) res cl /\ fs1 = (Save node_state_file (io_made io) (io_write io) (ac_DataDir cfg) st fs).2 /\
    cl = NewClient (ac_ControllerAddr cfg) (nst_NodeID st) (nst_APIToken st) /\
    (CompleteEnrollment (as_outside srv) (as_provisioner srv) (ac_EnrollmentToken cfg) (mkPEnv s [] (re_tick (io_env io)))).1 = Ok res.
Proof using Type.
  intros Hrun Hnone. unfold resolveNodeIdentity, Load in Hrun. rewrite Hnone in Hrun.
  destruct (bool_decide _); [done|].
  destruct (client_Enroll _ _ _ _ _ _ _ s) as [[r|err] s2] eqn:E; [|done]. injection Hrun as <- <- <-.
  destruct (client_Enroll_identifies _ _ _ _ _ _ (ac_ControllerAddr cfg) E) as (res & Hid & Hc). exists res. eexists. split; [done|]. split; [reflexivity|done].
Qed.

Lemma saved_state io fs cfg (st : NodeState) : io_made io = true -> io_write io = Written ->
  (Save node_state_file (io_made io) (io_write io) (ac_DataDir cfg) st fs).2 !! state_file cfg = Some (MarshalIndent st).
Proof using Type. intros Hmade Hw. unfold Save. rewrite Hmade, Hw. cbn. apply lookup_insert_eq. Qed.

Lemma later_start `{!StateJSONLaws NodeState} cfg io fs s st :
  fs !! state_file cfg = Some (MarshalIndent st) -> io_readable io = true ->
  resolve cfg io fs s = (Ok (NewClient (ac_ControllerAddr cfg) (nst_NodeID st) (nst_APIToken st)), fs, s).
Proof using Type. intros Hf Hr. unfold resolveNodeIdentity, Load. rewrite Hf, Hr. cbn [negb]. by rewrite unmarshal_marshal. Qed.

(** A token that was used is not accepted again. *)
Lemma used_token_refused tok p :
  (forall gen id, p_wgConfigGen (as_provisioner srv) = Some gen -> sql_respects sql_forward (gen id)) ->
  tokens_wf (sq_db (pe_sql p)) -> token_used tok (sq_db (pe_sql p)) ->
  is_Ok (CompleteEnrollment (as_outside srv) (as_provisioner srv) tok p).1 = false.
Proof using Type.
  intros Hgen Hwf (id & t & Ht & Etok & Hu).
  destruct (CompleteEnrollment _ _ tok p) as [[r|err] p1] eqn:E; [|done]. exfalso.
  destruct (CompleteEnrollment_marks _ _ Hgen tok p r p1 Hwf E) as (_ & _ & t' & Ht' & Etok' & Hun & _).
  assert (id = etok_ID t') as -> by (eapply (proj2 Hwf); [exact Ht|exact Ht'|congruence]).
  rewrite Ht' in Ht. simplify_eq. rewrite Hun in Hu. by destruct Hu.
Qed.
End agent.

(** ** Claims *)

(** C13: a node that starts without a state file and enrolls is the same client
    after every later start of the agent that can read its files, without another
    enrollment.  Each of its polls of the DNS configuration until its token expires,
    by the agent that enrolled or by a later one, serves what the tables of the
    controller assign to it at the time: when no statement of the poll fails, the
    node is stored and belongs to a tenant, and neither a tenant's zones nor a
    zone's records exceed the listing limit of 10000, the server afterwards answers
    every query, other than a transfer, as the reference resolver does on the most
    specific of exactly the active zones assigned to groups of the node in the same
    tenant, with all of their records. *)
Theorem enrolled_node_serves_its_zones `{UUIDLaws} `{AuthLib} `{AEAD} `{StateJSONLaws NodeState}
    (hmac_sha256 : string -> string -> string) (ParseAddress : string -> bool) (srv : ApiServer) (remote : string)
    (Fqdn : string -> string) (cfg : AgentConfig) (io : StartIO) (fs fs1 : FileSystem) (s0 s1 : SqlState) (cl : Client) :
  resolveNodeIdentity hmac_sha256 ParseAddress srv remote cfg io fs s0 = (Ok cl, fs1, s1) ->
  fs !! state_path (ac_DataDir cfg) node_state_file = None -> io_made io = true -> io_write io = Written ->
  unix_ok (re_now (io_env io) 4) -> unix_ok (re_now (io_env io) 4 + ts_ttl (as_tokens srv)) ->
  exists res,
    (CompleteEnrollment (as_outside srv) (as_provisioner srv) (ac_EnrollmentToken cfg) (mkPEnv s0 [] (re_tick (io_env io)))).1 = Ok res /\
    nc_id cl = uuid_String (er_NodeID res) /\
    (forall io' s', io_readable io' = true ->
       resolveNodeIdentity hmac_sha256 ParseAddress srv remote cfg io' fs1 s' = (Ok cl, fs1, s')) /\
    forall (s : SqlState) (e : ReqEnv) (m : MiekgService),
    Unix (re_now e 0) <= Unix (re_now (io_env io) 4 + ts_ttl (as_tokens srv)) -> is_Some (er_TenantID res) -> as_dnsSvc srv = true ->
    calm s -> is_Some (nodes (sq_db s) !! er_NodeID res) -> dns_inv s -> serials_fit (sq_db s) ->
    (forall tid, Z.of_nat (length (zone_rows s tid)) <= 10000) -> zones_small s -> ms_running m = true ->
    exists m' c,
      (poll (FetchDNSConfig hmac_sha256 ParseAddress srv remote Delivered e cl) (dns_Reconcile Fqdn) s (DnsMiekg m)).2 = DnsMiekg m' /\
      NoDup (zwr_ID <$> ndc_Zones c) /\
      (forall z, z ∈ zwr_Zone <$> ndc_Zones c <-> served_to s (er_NodeID res) z) /\
      (forall x, x ∈ ndc_Zones c -> zwr_Records x ≡ₚ record_rows s (zwr_ID x)) /\
      forall from ord name t qs zwr, most_specific c (ToLower name) zwr -> t <> TypeAXFR ->
        (handleQuery from ord ((name, t) :: qs) m').1 = RMsg (ref_reply Fqdn zwr (ToLower name) t).
Proof.
  intros Hrun Hnone Hmade Hw Hi He. destruct (first_start _ _ _ _ _ _ _ _ _ _ _ Hrun Hnone) as (res & st & Hid & Hfs & Hcl & Hc).
  exists res. split; [done|]. split; [apply Hid|]. split.
  { intros io' s' Hr. rewrite Hcl. apply later_start; [apply _| |done]. rewrite Hfs. by apply saved_state. }
  intros s e m Hnow Ht Hsvc Hs Hn Hinv Hser Hz Hsm Hm.
  destruct (FetchDNSConfig_ok hmac_sha256 ParseAddress srv remote _ res cl e s Hid Hi He Hnow Ht Hsvc Hs Hser Hn) as (c & s' & Hcfg & Hfetch).
  destruct (GetNodeDNSConfig_run _ _ _ _ Hcfg (inv_keyed _ Hinv) Hz) as (Hnd & Hrec & Hex).
  destruct (DnsServer.Reconcile Fqdn (Some c) m) as [r m'] eqn:Er.
  assert (r = Ok tt) as -> by (unfold DnsServer.Reconcile in Er; rewrite Hm in Er; cbn in Er; congruence).
  exists m', c. split; [unfold poll; rewrite Hfetch; unfold dns_Reconcile, on_impl; by rewrite Er|].
  split; [done|]. split; [done|]. split.
  - intros x Hx. rewrite Forall_forall in Hrec. destruct (Hrec x Hx) as (all & Hall & ->). rewrite page_all; [done|done|done|].
    rewrite Hall. apply Hsm.
  - intros from ord name t qs zwr. apply handleQuery_in_zone. by eapply Reconcile_loaded.
Qed.

(** The token of a node is never renewed. Once it has expired every fetch of
    every configuration is refused and leaves the controller as it is, a restart
    of the agent finds the same token in the state file and does not enroll again,
    and however often the agent polls its DNS server stays as it was, so that a
    node restarted after the expiry refuses every query. *)
Theorem expired_node_is_cut_off `{UUIDLaws} `{AuthLib} `{AEAD} `{StateJSONLaws NodeState}
    (hmac_sha256 : string -> string -> string) (ParseAddress : string -> bool) (srv : ApiServer) (remote : string)
    (Fqdn : string -> string) (cfg : AgentConfig) (io : StartIO) (fs fs1 : FileSystem) (s0 s1 : SqlState) (cl : Client)
    (polls : list (transport * ReqEnv * SqlState)) :
  resolveNodeIdentity hmac_sha256 ParseAddress srv remote cfg io fs s0 = (Ok cl, fs1, s1) ->
  fs !! state_path (ac_DataDir cfg) node_state_file = None -> io_made io = true -> io_write io = Written ->
  unix_ok (re_now (io_env io) 4) -> unix_ok (re_now (io_env io) 4 + ts_ttl (as_tokens srv)) ->
  Forall (fun p => Unix (re_now (io_env io) 4 + ts_ttl (as_tokens srv)) < Unix (re_now p.1.2 0)) polls ->
  (forall p cc, p ∈ polls -> exists err, getJSON hmac_sha256 ParseAddress srv remote p.1.1 p.1.2 cc cl p.2 = (Err err, p.2)) /\
  (forall io' s', io_readable io' = true ->
     resolveNodeIdentity hmac_sha256 ParseAddress srv remote cfg io' fs1 s' = (Ok cl, fs1, s')) /\
  (forall i, foldl (fun i p => (poll (FetchDNSConfig hmac_sha256 ParseAddress srv remote p.1.1 p.1.2 cl) (dns_Reconcile Fqdn) p.2 i).2) i polls = i) /\
  forall udp tcp addr axfr from ord name t qs, t <> TypeAXFR ->
    (handleQuery from ord ((name, t) :: qs) (DnsServer.Start udp tcp addr (NewMiekgService axfr)).2).1 =
    RMsg (mkMsg RcodeRefused false false [] []).
Proof.
  intros Hrun Hnone Hmade Hw Hi He Hall. destruct (first_start _ _ _ _ _ _ _ _ _ _ _ Hrun Hnone) as (res & st & Hid & Hfs & Hcl & _).
  assert (Hget : forall p cc, p ∈ polls -> exists err, getJSON hmac_sha256 ParseAddress srv remote p.1.1 p.1.2 cc cl p.2 = (Err err, p.2)).
  { intros [[t e] s] cc Hp. rewrite Forall_forall in Hall. specialize (Hall _ Hp). cbn in *.
    unfold getJSON, Do, mbind, stM_bind, wrap. rewrite (identifies_expired _ _ _ _ _ res cl e (CConfig cc) s Hid Hi He Hall eq_refl).
    destruct t; cbn; eauto. }
  split; [exact Hget|]. split.
  { intros io' s' Hr. rewrite Hcl. apply later_start; [apply _| |done]. rewrite Hfs. by apply saved_state. }
  split.
  - clear Hall. induction polls as [|p polls IH]; intros i; [done|]. cbn [foldl].
    assert ((poll (FetchDNSConfig hmac_sha256 ParseAddress srv remote p.1.1 p.1.2 cl) (dns_Reconcile Fqdn) p.2 i).2 = i) as ->.
    { destruct (Hget p (CConfigDNS (nc_id cl)) ltac:(by left)) as [err Herr].
      unfold poll, FetchDNSConfig, mbind, stM_bind, wrap at 1. by rewrite Herr. }
    apply IH. intros p' cc Hp'. apply Hget. by right.
  - intros udp tcp addr axfr from ord name t qs Ht. unfold DnsServer.Start. cbn [NewMiekgService ms_running].
    by destruct (udp && tcp).
Qed.

(** An enrollment whose reply is lost strands the node: the controller has
    used up the token, the node has no state file, and no later start with that
    token succeeds, whatever happens to the tokens of the controller in between. *)
Theorem lost_enrollment_strands_node `{UUIDLaws} `{AuthLib} `{AEAD} `{StateJSON NodeState}
    (hmac_sha256 : string -> string -> string) (ParseAddress : string -> bool) (srv : ApiServer) (remote : string)
    (cfg : AgentConfig) (io io' : StartIO) (fs : FileSystem) (s0 s1 s2 : SqlState) (rep : ApiReply) :
  (forall gen id, p_wgConfigGen (as_provisioner srv) = Some gen -> sql_respects sql_forward (gen id)) ->
  tokens_wf (sq_db s0) -> ac_EnrollmentToken cfg <> "" ->
  fs !! state_path (ac_DataDir cfg) node_state_file = None -> io_transport io = ReplyLost ->
  ServeHTTP hmac_sha256 ParseAddress srv (io_env io) (CEnroll (Some (ac_EnrollmentToken cfg))) (mkIncoming "" None "" remote) s0 = (rep, s1) ->
  ar_status rep = 200 -> tokens_forward (sq_db s1) (sq_db s2) ->
  (exists err, resolveNodeIdentity hmac_sha256 ParseAddress srv remote cfg io fs s0 = (Err err, fs, s1)) /\
  exists err s3, resolveNodeIdentity hmac_sha256 ParseAddress srv remote cfg io' fs s2 = (Err err, fs, s3).
Proof.
  intros Hgen Hwf Htok Hnone Hlost Hserve Hst Hfw. unfold resolveNodeIdentity, Load. rewrite Hnone, bool_decide_false by done.
  unfold client_Enroll, mbind, stM_bind, wrap, Do. split.
  { rewrite Hlost, Hserve. eauto. }
  destruct (Enroll_replies _ _ _ _ _ _ _ _ _ Hserve Hst) as (res & p1 & atok & Hc & Hf1 & _).
  destruct (CompleteEnrollment_marks _ _ Hgen _ (mkPEnv s0 [] (re_tick (io_env io))) _ _ Hwf Hc) as (Hused & Hwf1 & _).
  assert (Hf : tokens_forward (sq_db (pe_sql p1)) (sq_db s2)) by (by etrans).
  destruct (ServeHTTP hmac_sha256 ParseAddress srv (io_env io') _ _ s2) as [rep' s3] eqn:E2.
  destruct (io_transport io'); [|by eauto|by eauto]. case_bool_decide as Hst'; cbn [negb]; [|by eauto]. exfalso.
  destruct (Enroll_replies _ _ _ _ _ _ _ _ _ E2 Hst') as (res' & p2 & atok' & Hc' & _).
  pose proof (used_token_refused srv (ac_EnrollmentToken cfg) (mkPEnv s2 [] (re_tick (io_env io'))) Hgen) as Hno.
  rewrite Hc' in Hno. cbn in Hno. discriminate Hno; [by apply Hf|by eapply token_used_forward].
Qed.

(** ** Witnesses *)

(** A file format that can be computed by hand: each character after an x, a dot
    at the end of a field. *)
Fixpoint enc_field (s rest : string) : string :=
  match s with
  | EmptyString => String "." rest
  | String c s => String "x" (String c (enc_field s rest))
  end.
Fixpoint dec_field (s : string) : option (string * string) :=
  match s with
  | String "." rest => Some ("", rest)
  | String "x" (String c rest) => match dec_field rest with Some (a, b) => Some (String c a, b) | None => None end
  | _ => None
  end.

Lemma dec_enc s rest : dec_field (enc_field s rest) = Some (s, rest).
Proof. induction s as [|c s IH]; [done|]. cbn. by rewrite IH. Qed.

#[export] Instance dotted_node_state : StateJSON NodeState := {
  MarshalIndent st := enc_field (nst_NodeID st) (enc_field (nst_APIToken st) (enc_field (nst_WireGuardIP st) ""));
  Unmarshal s :=
    match dec_field s with
    | Some (a, s) => match dec_field s with
                     | Some (b, s) => match dec_field s with Some (c, _) => Some (mkNodeState a b c) | None => None end
                     | None => None
                     end
    | None => None
    end
}.
#[export] Instance dotted_node_state_laws : StateJSONLaws NodeState.
Proof. split. intros [a b c]. cbn. by rewrite !dec_enc. Qed.


Definition agent_cfg : AgentConfig := mkAgentConfig "https://controller" "/var/lib/edgefabric" token_text.
Definition agent_io (t : transport) : StartIO := mkStartIO true true Written t sample_req.
Definition agent_start (t : transport) : result Client * FileSystem * SqlState :=
  resolveNodeIdentity plain_hmac (fun _ => true) sample_server "192.0.2.5:40000" agent_cfg (agent_io t) ∅ (pe_sql token_env).
Definition agent_client : Client := match (agent_start Delivered).1.1 with Ok cl => cl | Err _ => NewClient "" "" "" end.
Definition late_req : ReqEnv := mkReqEnv (fun n => 100000 * 1000000000 + Z.of_nat n) (fun n => N.of_nat (100 + n)) 0 (Some "r") (Some "n") 0.

Lemma agent_started : agent_start Delivered = (Ok agent_client, (agent_start Delivered).1.2, (agent_start Delivered).2).
Proof. vm_compute. reflexivity. Qed.

Lemma enrolled_node_serves_its_zones_witness :
  let p := (poll (FetchDNSConfig plain_hmac (fun _ => true) sample_server "192.0.2.5:40000" Delivered sample_req agent_client)
              (dns_Reconcile ex_Fqdn) ex_s2 (DnsMiekg ex_server0)).2 in
  exists m' c, p = DnsMiekg m' /\ length (ms_sortedZones m') = 1%nat /\
    (forall z, z ∈ zwr_Zone <$> ndc_Zones c <-> served_to ex_s2 5%N z) /\
    resolveNodeIdentity plain_hmac (fun _ => true) sample_server "192.0.2.5:40000" agent_cfg (agent_io Delivered) (agent_start Delivered).1.2 ex_s2
      = (Ok agent_client, (agent_start Delivered).1.2, ex_s2).
Proof.
  cbv zeta.
  destruct (enrolled_node_serves_its_zones plain_hmac (fun _ => true) sample_server "192.0.2.5:40000" ex_Fqdn agent_cfg (agent_io Delivered)
    ∅ (agent_start Delivered).1.2 (pe_sql token_env) (agent_start Delivered).2 agent_client agent_started eq_refl eq_refl eq_refl
    ltac:(split; vm_compute; congruence) ltac:(split; vm_compute; congruence)) as (res & Hc & _ & Hrestart & Hserve).
  assert (res = mkEnrollmentResult 5 (Some 7%N) (er_WireGuardIP res)) as Hres.
  { destruct res as [id tn ip]. vm_compute in Hc. injection Hc as <- <- _. reflexivity. }
  destruct (Hserve ex_s2 sample_req ex_server0) as (m' & c & Hp & _ & Hex & _).
  - vm_compute. congruence.
  - rewrite Hres. cbn. eauto.
  - reflexivity.
  - reflexivity.
  - rewrite Hres. vm_compute. eauto.
  - exact ex_inv2.
  - intros id z Hz. assert (dns_zones (sq_db ex_s2) = {[7%N := zwr_Zone ex_zwr]}) as E by (vm_compute; reflexivity).
    rewrite E in Hz. apply lookup_singleton_Some in Hz as [_ <-]. vm_compute. reflexivity.
  - apply small_zones_by_length. by vm_compute.
  - apply small_by_length. by vm_compute.
  - reflexivity.
  - rewrite Hres in Hex. exists m', c. split; [exact Hp|]. split; [|split; [exact Hex|exact (Hrestart (agent_io Delivered) ex_s2 eq_refl)]].
    assert (match (poll (FetchDNSConfig plain_hmac (fun _ => true) sample_server "192.0.2.5:40000" Delivered sample_req agent_client)
              (dns_Reconcile ex_Fqdn) ex_s2 (DnsMiekg ex_server0)).2 with DnsMiekg x => length (ms_sortedZones x) | _ => 0%nat end = 1%nat)
      as Hl by (vm_compute; reflexivity). rewrite Hp in Hl. exact Hl.
Defined.

Lemma expired_node_is_cut_off_witness :
  (exists err, getJSON plain_hmac (fun _ => true) sample_server "192.0.2.5:40000" Delivered late_req (CConfigDNS (nc_id agent_client)) agent_client ex_s2 = (Err err, ex_s2)) /\
  resolveNodeIdentity plain_hmac (fun _ => true) sample_server "192.0.2.5:40000" agent_cfg (agent_io Delivered) (agent_start Delivered).1.2 ex_s2
    = (Ok agent_client, (agent_start Delivered).1.2, ex_s2).
Proof.
  destruct (expired_node_is_cut_off plain_hmac (fun _ => true) sample_server "192.0.2.5:40000" ex_Fqdn agent_cfg (agent_io Delivered)
    ∅ (agent_start Delivered).1.2 (pe_sql token_env) (agent_start Delivered).2 agent_client [(Delivered, late_req, ex_s2)] agent_started eq_refl eq_refl eq_refl
    ltac:(split; vm_compute; congruence) ltac:(split; vm_compute; congruence)) as (H1 & H2 & _).
  - constructor; [|constructor]. vm_compute. reflexivity.
  - split; [apply (H1 (Delivered, late_req, ex_s2)); by left|by apply H2].
Defined.

Lemma lost_enrollment_strands_node_witness :
  (exists err, agent_start ReplyLost = (Err err, ∅, (agent_start Delivered).2)) /\
  exists err s3, resolveNodeIdentity plain_hmac (fun _ => true) sample_server "192.0.2.5:40000" agent_cfg (agent_io Delivered) ∅ (agent_start Delivered).2 = (Err err, ∅, s3).
Proof.
  destruct (ServeHTTP plain_hmac (fun _ => true) sample_server sample_req (CEnroll (Some token_text)) (mkIncoming "" None "" "192.0.2.5:40000") (pe_sql token_env))
    as [rep s1] eqn:E.
  assert (s1 = (agent_start Delivered).2) as -> by (change s1 with (rep, s1).2; rewrite <-E; vm_compute; reflexivity).
  apply (lost_enrollment_strands_node plain_hmac (fun _ => true) sample_server "192.0.2.5:40000" agent_cfg (agent_io ReplyLost) (agent_io Delivered) ∅
    (pe_sql token_env) (agent_start Delivered).2 (agent_start Delivered).2 rep).
  - intros gen id Hg. discriminate Hg.
  - assert (Ht : enrollment_tokens (sq_db (pe_sql token_env)) =
                 {[ 101%N := mkEnrollmentToken 101 7 EnrollmentTargetNode 5 token_text (2 + EnrollmentTokenTTL) None 3 ]}) by (vm_compute; reflexivity).
    split; rewrite Ht.
    + intros id t [<- <-]%lookup_singleton_Some. reflexivity.
    + intros id1 id2 t1 t2 [<- <-]%lookup_singleton_Some [<- <-]%lookup_singleton_Some _. reflexivity.
  - vm_compute. congruence.
  - reflexivity.
  - reflexivity.
  - exact E.
  - change rep with (rep, (agent_start Delivered).2).1. rewrite <-E. vm_compute. reflexivity.
  - reflexivity.
Defined.
