(* ===== verification/Health.v ===== *)
(** * Health checks (internal/routeserver/health.go, internal/networking/health.go,
    internal/observability/health.go, and the health servers of internal/app)

    The checkers of routes and overlay peers count consecutive results and publish an
    event when an object changes between healthy and unhealthy.  The states of routes
    are cells that the table, a round of checks in progress and [UpdateTargets] share:
    a round works on the cells it found when it began.  Events are kept with the cell
    they are about. *)

From Stdlib Require Import ZArith Lia Ascii String.
From S2P Require Import Prelude GoStrings Domain Storage RouteService Events Token Forwarder Bgp DnsServer CdnProxy Plugin Agent.

Open Scope Z_scope.

(** ** Counting results *)

Record HealthConfig := mkHealthConfig { hc_UnhealthyThreshold : Z; hc_HealthyThreshold : Z }.
Definition DefaultRouteHealthConfig : HealthConfig := mkHealthConfig 3 1.
Definition DefaultOverlayHealthConfig : HealthConfig := mkHealthConfig 3 1.

Record probeState := mkProbe { pb_healthy : bool; pb_consecutiveFail : Z; pb_consecutiveOK : Z }.
Definition assumed_healthy : probeState := mkProbe true 0 0.

(** The counting of [markResult], the same in both checkers. *)
Definition count_result (cfg : HealthConfig) (success : bool) (p : probeState) : probeState :=
  if success then
    let ok := pb_consecutiveOK p + 1 in
    mkProbe (if hc_HealthyThreshold cfg <=? ok then true else pb_healthy p) 0 ok
  else
    let fail := pb_consecutiveFail p + 1 in
    mkProbe (if hc_UnhealthyThreshold cfg <=? fail then false else pb_healthy p) fail 0.

(** ** routeserver/health.go *)

Record routeHealthState := mkRouteHealth { rh_target : RouteTarget; rh_probe : probeState }.

(** [rhc_round]: the cells the current round has still to visit; [rhc_probing]: the
    cell whose dial is in progress. *)
Record RouteHealthChecker := mkRouteChecker {
  rhc_cells : gmap nat routeHealthState; rhc_next : nat; rhc_routes : gmap ID nat;
  rhc_round : list nat; rhc_probing : option nat; rhc_published : list (nat * Event)
}.
Definition NewRouteHealthChecker : RouteHealthChecker := mkRouteChecker ∅ 0 ∅ [] None [].

Section route_health.
Context `{UUID} (cfg : HealthConfig).

Definition update_target (old : gmap ID nat) (acc : gmap nat routeHealthState * nat * gmap ID nat) (t : RouteTarget)
    : gmap nat routeHealthState * nat * gmap ID nat :=
  let '(cells, next, routes) := acc in
  match old !! tg_RouteID t with
  | Some existing => (alter (fun s => mkRouteHealth t (rh_probe s)) existing cells, next, <[tg_RouteID t := existing]> routes)
  | None => (<[next := mkRouteHealth t assumed_healthy]> cells, S next, <[tg_RouteID t := next]> routes)
  end.

Definition UpdateTargets (targets : list RouteTarget) (c : RouteHealthChecker) : RouteHealthChecker :=
  let '(cells, next, routes) := foldl (update_target (rhc_routes c)) (rhc_cells c, rhc_next c, ∅) targets in
  mkRouteChecker cells next routes (rhc_round c) (rhc_probing c) (rhc_published c).

Definition IsRouteHealthy (routeID : ID) (c : RouteHealthChecker) : bool :=
  match rhc_routes c !! routeID ≫= (rhc_cells c !!.) with Some s => pb_healthy (rh_probe s) | None => false end.

(** [checkAll] takes its snapshot; [order] is the order of the loop over the map. *)
Definition checkAll (order : list nat) (c : RouteHealthChecker) : RouteHealthChecker :=
  mkRouteChecker (rhc_cells c) (rhc_next c) (rhc_routes c) order (rhc_probing c) (rhc_published c).

Definition probed (t : RouteTarget) : bool :=
  negb (negb (bool_decide (tg_Protocol t = RouteProtocolTCP)) || (tg_EntryPort t =? 0) || bool_decide (tg_GatewayWGIP t = "")).

(** The next [checkRoute] of the round, up to its dial. *)
Definition checkRoute (c : RouteHealthChecker) : RouteHealthChecker :=
  match rhc_round c with
  | [] => c
  | cell :: rest =>
      let dial := match rhc_cells c !! cell with Some s => probed (rh_target s) | None => false end in
      mkRouteChecker (rhc_cells c) (rhc_next c) (rhc_routes c) rest (if dial then Some cell else None) (rhc_published c)
  end.

Definition route_event (now : Time) (t : RouteTarget) (p : probeState) : Event :=
  let details := <["route_name" := tg_RouteName t]> (<["gateway_ip" := tg_GatewayWGIP t]> {["entry_port" := Itoa (tg_EntryPort t)]}) in
  if pb_healthy p then mkBusEvent RouteHealthCheckRecovered now SeverityInfo ("route/" +:+ uuid_String (tg_RouteID t)) details
  else mkBusEvent RouteHealthCheckFailed now SeverityCritical ("route/" +:+ uuid_String (tg_RouteID t))
         (<["consecutive_failures" := Itoa (pb_consecutiveFail p)]> details).

(** The rest of [checkRoute] once the dial returned: the target is read again. *)
Definition route_markResult (now : Time) (success : bool) (c : RouteHealthChecker) : RouteHealthChecker :=
  match rhc_probing c with
  | None => c
  | Some cell =>
      match rhc_cells c !! cell with
      | None => c
      | Some s =>
          let p := count_result cfg success (rh_probe s) in
          mkRouteChecker (<[cell := mkRouteHealth (rh_target s) p]> (rhc_cells c)) (rhc_next c) (rhc_routes c) (rhc_round c) None
            (rhc_published c ++ if Bool.eqb (pb_healthy (rh_probe s)) (pb_healthy p) then [] else [(cell, route_event now (rh_target s) p)])
      end
  end.
End route_health.

(** ** networking/health.go *)

Record OverlayTarget := mkOverlayTarget { ot_Name : string; ot_IP : string }.
Record overlayPeerState := mkOverlayPeer { op_target : OverlayTarget; op_probe : probeState }.
Record OverlayHealthChecker := mkOverlayChecker { oc_peers : list overlayPeerState; oc_published : list (nat * Event) }.

Definition NewOverlayHealthChecker (targets : list OverlayTarget) : OverlayHealthChecker :=
  mkOverlayChecker ((fun t => mkOverlayPeer t assumed_healthy) <$> targets) [].

(** [buildOverlayTargets] of app/node.go. *)
Definition buildOverlayTargets (controllerOverlayIP : string) : list OverlayTarget :=
  if bool_decide (controllerOverlayIP = "") then [] else [mkOverlayTarget "controller" controllerOverlayIP].

Definition IsHealthy (peerIP : string) (c : OverlayHealthChecker) : bool :=
  match List.find (fun p => bool_decide (ot_IP (op_target p) = peerIP)) (oc_peers c) with Some p => pb_healthy (op_probe p) | None => false end.

Definition overlay_event (now : Time) (t : OverlayTarget) (p : probeState) : Event :=
  let details := <["peer_name" := ot_Name t]> {["peer_ip" := ot_IP t]} in
  if pb_healthy p then mkBusEvent OverlayPeerRecovered now SeverityInfo ("overlay/" +:+ ot_IP t) details
  else mkBusEvent OverlayPeerUnreachable now SeverityCritical ("overlay/" +:+ ot_IP t)
         (<["consecutive_failures" := Itoa (pb_consecutiveFail p)]> details).

Definition overlay_markResult (cfg : HealthConfig) (now : Time) (i : nat) (success : bool) (c : OverlayHealthChecker) : OverlayHealthChecker :=
  match oc_peers c !! i with
  | None => c
  | Some s =>
      let p := count_result cfg success (op_probe s) in
      mkOverlayChecker (<[i := mkOverlayPeer (op_target s) p]> (oc_peers c))
        (oc_published c ++ if Bool.eqb (pb_healthy (op_probe s)) (pb_healthy p) then [] else [(i, overlay_event now (op_target s) p)])
  end.

(** ** observability/health.go *)

Notation HealthStatus := string (only parsing).
Definition HealthOK : HealthStatus := "ok".
Definition HealthDegraded : HealthStatus := "degraded".
Definition HealthDown : HealthStatus := "down".

Record CheckResult := mkCheckResult { ck_Status : HealthStatus; ck_Message : option goerr }.
Record HealthResult := mkHealthResult { hl_Status : HealthStatus; hl_Checks : gmap string CheckResult }.

(** The registered checks by name, each with the error it returns now. *)
Definition run_checks (checks : list (string * option goerr)) : HealthResult :=
  foldl (fun r '(name, err) =>
    match err with
    | Some _ => mkHealthResult HealthDegraded (<[name := mkCheckResult HealthDown err]> (hl_Checks r))
    | None => mkHealthResult (hl_Status r) (<[name := mkCheckResult HealthOK None]> (hl_Checks r))
    end) (mkHealthResult HealthOK ∅) checks.

Definition Evaluate (checks : list (string * option goerr)) : HealthResult :=
  let r := run_checks checks in
  let allDown := negb (existsb (fun cr => bool_decide (ck_Status cr = HealthOK)) (map_to_list (hl_Checks r)).*2) in
  if allDown && (0 <? size (hl_Checks r))%nat then mkHealthResult HealthDown (hl_Checks r) else r.

(** Status codes of /healthz and /readyz. *)
Definition health_Handler (checks : list (string * option goerr)) : Z :=
  if bool_decide (hl_Status (Evaluate checks) = HealthOK) then 200 else 503.

(** ** app/node.go and app/gateway.go *)

Section health_servers.
Context `{UUID}.

(** [_, err := bgpSvc.GetStatus(ctx)]; [listed] is what the library answers. *)
Definition bgp_check (listed : result (list LibPeer)) (i : BgpImpl) : option goerr :=
  match i with
  | BgpGoBGP s => match gobgp_GetStatus listed s with Ok _ => None | Err e => Some e end
  | BgpIsNoop _ => None
  end.
Definition dns_check (i : DnsImpl) : option goerr :=
  if match i with DnsMiekg s => DnsServer.ss_Listening (DnsServer.GetStatus s) | DnsIsNoop s => np_running s end then None
  else Some (Errorf "DNS service not listening").
Definition cdn_check (i : CdnImpl) : option goerr :=
  if match i with CdnProxy s => pst_Listening (proxy_GetStatus s) | CdnIsNoop s => np_running s end then None
  else Some (Errorf "CDN service not listening").
Definition route_check (i : RouteImpl) : option goerr :=
  if match i with RouteForwarder s => Forwarder.ss_Running (Forwarder.GetStatus s) | RouteIsNoop s => np_running s end then None
  else Some (Errorf "route service not running").
Definition gateway_check (i : GatewayImpl) : option goerr :=
  if match i with GatewayForwarder _ s => Forwarder.ss_Running (gwrt_GetStatus s) | GatewayIsNoop s => np_running s end then None
  else Some (Errorf "gateway route service not running").

Definition check_of {I} (name : string) (check : I -> option goerr) (x : option (I * bool)) : list (string * option goerr) :=
  match x with Some (i, _) => [(name, check i)] | None => [] end.

(** [startNodeHealthServer]: a check for each service that was created. *)
Definition node_checks (listed : result (list LibPeer)) (v : NodeServices) : list (string * option goerr) :=
  check_of "bgp" (bgp_check listed) (sv_bgp v) ++ check_of "dns" dns_check (sv_dns v) ++
  check_of "cdn" cdn_check (sv_cdn v) ++ check_of "route" route_check (sv_route v).

Definition gateway_checks (i : GatewayImpl) : list (string * option goerr) := [("route", gateway_check i)].
End health_servers.

(** ** What the counters mean *)

(** Results of one object, the latest first: the failures, and the successes, that
    came last without a result of the other kind since. *)
Fixpoint failing_run (results : list bool) : Z :=
  match results with false :: results => failing_run results + 1 | _ => 0 end.
Fixpoint ok_run (results : list bool) : Z :=
  match results with true :: results => ok_run results + 1 | _ => 0 end.

(** The run that reached its threshold last decides; before the first, the object is up. *)
Fixpoint down (cfg : HealthConfig) (results : list bool) : bool :=
  match results with
  | [] => false
  | _ :: before =>
      if hc_UnhealthyThreshold cfg <=? failing_run results then true
      else if hc_HealthyThreshold cfg <=? ok_run results then false
      else down cfg before
  end.
(** The changes of [down], the oldest first. *)
Fixpoint flips (cfg : HealthConfig) (results : list bool) : list bool :=
  match results with
  | [] => []
  | _ :: before => flips cfg before ++
      if Bool.eqb (down cfg results) (down cfg before) then [] else [down cfg results]
  end.

Definition thresholds_ok (cfg : HealthConfig) : Prop := 1 <= hc_UnhealthyThreshold cfg /\ 1 <= hc_HealthyThreshold cfg.

(** Down exactly when, some results ago, enough failures had come in a row and enough
    successes in a row have not come since. *)
Lemma down_iff cfg results : thresholds_ok cfg ->
  down cfg results = true <->
  exists k, hc_UnhealthyThreshold cfg <= failing_run (drop k results) /\
    forall j, (j < k)%nat -> ok_run (drop j results) < hc_HealthyThreshold cfg.
Proof.
  intros [Hth]. induction results as [|r rs IH]; cbn [down].
  - split; [done|]. intros (k & Hk & _). rewrite drop_nil in Hk. cbn in Hk. lia.
  - destruct (Z.leb_spec (hc_UnhealthyThreshold cfg) (failing_run (r :: rs))) as [Hf|Hf].
    { split; [intros _|done]. exists 0%nat. split; [exact Hf|lia]. }
    destruct (Z.leb_spec (hc_HealthyThreshold cfg) (ok_run (r :: rs))) as [Ho|Ho].
    { split; [done|]. intros ([|k] & Hk & Hj); [cbn [drop] in Hk; lia|]. specialize (Hj 0%nat ltac:(lia)). cbn [drop] in Hj. lia. }
    rewrite IH. split.
    + intros (k & Hk & Hj). exists (S k). split; [exact Hk|]. intros [|j] Hlt; [exact Ho|]. apply (Hj j). lia.
    + intros ([|k] & Hk & Hj); [cbn [drop] in Hk; lia|]. exists k. split; [exact Hk|]. intros j Hlt. apply (Hj (S j)). lia.
Qed.

(** The results of a cell in a history of [(cell, success)], the latest first. *)
Definition results_of (cell : nat) (h : list (nat * bool)) : list bool := snd <$> filter (fun x => x.1 = cell) h.

Definition counts (cfg : HealthConfig) (results : list bool) (p : probeState) : Prop :=
  pb_consecutiveFail p = failing_run results /\ pb_consecutiveOK p = ok_run results /\
  pb_healthy p = negb (down cfg results).

Lemma counts_new cfg : counts cfg [] assumed_healthy.
Proof. done. Qed.

Lemma counts_result cfg success rs p : thresholds_ok cfg ->
  counts cfg rs p -> counts cfg (success :: rs) (count_result cfg success p).
Proof.
  intros [Hth] (Hf & Hok & Hh). unfold counts, count_result. rewrite Hf, Hok, Hh.
  destruct success; cbn [pb_consecutiveFail pb_consecutiveOK pb_healthy failing_run ok_run down]; (split_and!; [done..|]).
  - destruct (Z.leb_spec (hc_UnhealthyThreshold cfg) 0); [lia|]. by destruct (_ <=? _).
  - destruct (Z.leb_spec (hc_HealthyThreshold cfg) 0); [lia|]. by destruct (_ <=? _).
Qed.

(** What one result adds to the published events of its object. *)
Lemma flips_result cfg success rs p (event : bool -> EventType) (mk : probeState -> Event) :
  thresholds_ok cfg -> counts cfg rs p ->
  (forall q, ev_Type (mk q) = event (negb (pb_healthy q))) ->
  let p' := count_result cfg success p in
  event <$> flips cfg (success :: rs) =
    (event <$> flips cfg rs) ++
    (ev_Type <$> if Bool.eqb (pb_healthy p) (pb_healthy p') then [] else [mk p']).
Proof.
  intros Hth Hc Hmk p'. pose proof (counts_result cfg success rs p Hth Hc) as (_ & _ & H2). destruct Hc as (_ & _ & H1).
  cbn [flips]. rewrite fmap_app. f_equal. fold p' in H2. rewrite H1, H2.
  destruct (down _ (success :: rs)) eqn:E1, (down _ rs); cbn; rewrite ?Hmk, ?H2; done.
Qed.

(** ** Route health *)

Section route_runs.
Context `{UUID} (cfg : HealthConfig).

(** Reconciliations, rounds, dials and their results in any order; the history has
    the results, the latest first. *)
Inductive route_step : RouteHealthChecker * list (nat * bool) -> RouteHealthChecker * list (nat * bool) -> Prop :=
| rs_update targets c h : route_step (c, h) (UpdateTargets targets c, h)
| rs_round order c h : rhc_round c = [] -> rhc_probing c = None -> order ≡ₚ (map_to_list (rhc_routes c)).*2 ->
    route_step (c, h) (checkAll order c, h)
| rs_check c h : rhc_probing c = None -> route_step (c, h) (checkRoute c, h)
| rs_result now success cell c h : rhc_probing c = Some cell ->
    route_step (c, h) (route_markResult cfg now success c, (cell, success) :: h).

Definition route_flip (isDown : bool) : EventType := if isDown then RouteHealthCheckFailed else RouteHealthCheckRecovered.
Definition events_of (cell : nat) (published : list (nat * Event)) : list EventType :=
  (ev_Type ∘ snd) <$> filter (fun x => x.1 = cell) published.

(** A cell tells its part of the history. *)
Definition cell_ok (h : list (nat * bool)) (published : list (nat * Event)) (cell : nat) (s : routeHealthState) : Prop :=
  counts cfg (results_of cell h) (rh_probe s) /\
  events_of cell published = route_flip <$> flips cfg (results_of cell h).

(** Cells are numbered below [next], and the rest refers to them only. *)
Definition table_ok (cells : gmap nat routeHealthState) (next : nat) (routes : gmap ID nat) : Prop :=
  (forall cell s, cells !! cell = Some s -> (cell < next)%nat) /\ (forall r cell, routes !! r = Some cell -> is_Some (cells !! cell)).

Record checker_inv (c : RouteHealthChecker) (h : list (nat * bool)) : Prop := {
  ci_table : table_ok (rhc_cells c) (rhc_next c) (rhc_routes c);
  ci_probing : forall cell, rhc_probing c = Some cell -> is_Some (rhc_cells c !! cell);
  ci_fresh : forall cell, (rhc_next c <= cell)%nat -> results_of cell h = [] /\ events_of cell (rhc_published c) = [];
  ci_cells : forall cell s, rhc_cells c !! cell = Some s -> cell_ok h (rhc_published c) cell s
}.

(** The loop of [UpdateTargets]: no cell is lost or renumbered, and the new table has
    the targets seen so far, in their old cells or in cells that are new. *)
Record update_inv (c : RouteHealthChecker) (seen : list RouteTarget) (acc : gmap nat routeHealthState * nat * gmap ID nat) : Prop := {
  ui_next : (rhc_next c <= acc.1.2)%nat;
  ui_table : table_ok acc.1.1 acc.1.2 acc.2;
  ui_kept : forall cell s, rhc_cells c !! cell = Some s -> exists t, acc.1.1 !! cell = Some (mkRouteHealth t (rh_probe s));
  ui_new : forall cell s, acc.1.1 !! cell = Some s -> rhc_cells c !! cell = None -> rh_probe s = assumed_healthy /\ (rhc_next c <= cell)%nat;
  ui_routes : forall r, match acc.2 !! r with
    | Some cell => r ∈ tg_RouteID <$> seen /\ match rhc_routes c !! r with Some old => cell = old | None => (rhc_next c <= cell)%nat end
    | None => r ∉ tg_RouteID <$> seen
    end
}.

Lemma update_inv_start c h : checker_inv c h -> update_inv c [] (rhc_cells c, rhc_next c, ∅).
Proof.
  intros [[Hlt _] _ _ _]. split; cbn [fst snd].
  - done.
  - split; [done|]. intros r cell. by rewrite lookup_empty.
  - intros cell [t p] E. by exists t.
  - intros cell s E1 E2. congruence.
  - intros r. rewrite lookup_empty. apply not_elem_of_nil.
Qed.

Lemma update_inv_target c h seen acc t : checker_inv c h -> update_inv c seen acc ->
  update_inv c (seen ++ [t]) (update_target (rhc_routes c) acc t).
Proof.
  intros [[Hlt Hin] _ _ _] [Hn [Tlt Tin] Hk Hnew Hr]. destruct acc as [[cells next] routes]. cbn [fst snd] in *.
  unfold update_target. destruct (rhc_routes c !! tg_RouteID t) as [old|] eqn:E; split; cbn [fst snd].
  - done.
  - split.
    + intros cell s. rewrite lookup_alter_Some. naive_solver.
    + intros r cell. rewrite lookup_insert_Some, lookup_alter_is_Some. intros [[<- <-]|[_ Hc]]; [|by eapply Tin].
      destruct (Hin _ _ E) as [s Hs]. destruct (Hk _ _ Hs) as [t' Ht']. by rewrite Ht'.
  - intros cell s Hs. destruct (Hk _ _ Hs) as [t' Ht']. destruct (decide (cell = old)) as [->|Hne].
    + exists t. by rewrite lookup_alter_eq, Ht'.
    + exists t'. by rewrite lookup_alter_ne.
  - intros cell s. rewrite lookup_alter_Some. intros [(<- & s' & Hs' & ->)|[_ Hs]] Hc; [|by eapply Hnew].
    destruct (Hin _ _ E) as [? ?]. congruence.
  - intros r. rewrite fmap_app. destruct (decide (r = tg_RouteID t)) as [->|Hne].
    + rewrite lookup_insert_eq, E. split; [set_solver|done].
    + rewrite lookup_insert_ne by done. specialize (Hr r). destruct (routes !! r); set_solver.
  - lia.
  - split.
    + intros cell s. rewrite lookup_insert_Some. intros [[<- _]|[_ Hs]]; [lia|]. apply Tlt in Hs. lia.
    + intros r cell. rewrite lookup_insert_Some. intros [[_ <-]|[_ Hc]]; [by rewrite lookup_insert_eq|].
      rewrite lookup_insert_is_Some'. right. by eapply Tin.
  - intros cell s Hs. destruct (Hk _ _ Hs) as [t' Ht']. exists t'. rewrite lookup_insert_ne; [done|]. intros ->. apply Tlt in Ht'. lia.
  - intros cell s. rewrite lookup_insert_Some. intros [[<- <-]|[_ Hs]] Hc; [done|by eapply Hnew].
  - intros r. rewrite fmap_app. destruct (decide (r = tg_RouteID t)) as [->|Hne].
    + rewrite lookup_insert_eq, E. split; [set_solver|lia].
    + rewrite lookup_insert_ne by done. specialize (Hr r). destruct (routes !! r); set_solver.
Qed.

Lemma update_inv_all c h targets : checker_inv c h ->
  update_inv c targets (foldl (update_target (rhc_routes c)) (rhc_cells c, rhc_next c, ∅) targets).
Proof.
  intros Hc. induction targets as [|t targets IH] using rev_ind; [by eapply update_inv_start|].
  rewrite foldl_app. by eapply update_inv_target.
Qed.

Lemma UpdateTargets_inv targets c h : checker_inv c h -> checker_inv (UpdateTargets targets c) h.
Proof.
  intros Hc. pose proof (update_inv_all c h targets Hc) as HI. destruct Hc as [_ Hp Hf Hcell]. unfold UpdateTargets.
  destruct (foldl _ _ _) as [[cells next] routes]. destruct HI as [Hn Ht Hk Hnew _]. cbn [fst snd] in *.
  split; cbn [rhc_cells rhc_next rhc_routes rhc_probing rhc_published].
  - done.
  - intros cell Hpr. destruct (Hp _ Hpr) as [s Hs]. destruct (Hk _ _ Hs) as [t ->]. by eexists.
  - intros cell Hle. apply Hf. lia.
  - intros cell s Hs. destruct (rhc_cells c !! cell) as [s0|] eqn:E.
    + destruct (Hk _ _ E) as [t Ht']. rewrite Hs in Ht'. injection Ht' as ->. exact (Hcell _ _ E).
    + destruct (Hnew _ _ Hs E) as [Hpr Hle]. destruct (Hf _ Hle) as [Hr He]. unfold cell_ok. rewrite Hpr, Hr, He.
      split; [by apply counts_new|done].
Qed.

Lemma results_of_cons cell cell' success h :
  results_of cell ((cell', success) :: h) = if decide (cell' = cell) then success :: results_of cell h else results_of cell h.
Proof. unfold results_of. rewrite filter_cons. cbn. by destruct (decide _). Qed.

Lemma events_of_app cell l1 l2 : events_of cell (l1 ++ l2) = events_of cell l1 ++ events_of cell l2.
Proof. unfold events_of. by rewrite filter_app, fmap_app. Qed.

Lemma events_of_one cell cell' (b : bool) e :
  events_of cell (if b then [] else [(cell', e)]) = if decide (cell' = cell) then ev_Type <$> (if b then [] else [e]) else [].
Proof. destruct b; unfold events_of; [by destruct (decide _)|]. rewrite filter_cons. cbn. by destruct (decide _). Qed.

Lemma route_event_type now t p : ev_Type (route_event now t p) = route_flip (negb (pb_healthy p)).
Proof. unfold route_event. by destruct (pb_healthy p). Qed.

Lemma route_markResult_inv now success cell c h : thresholds_ok cfg ->
  rhc_probing c = Some cell -> checker_inv c h -> checker_inv (route_markResult cfg now success c) ((cell, success) :: h).
Proof.
  intros Hth Hpr [[Hlt Hin] Hp Hf Hcell]. unfold route_markResult. rewrite Hpr.
  destruct (Hp _ Hpr) as [s Hs]. rewrite Hs. destruct (Hcell _ _ Hs) as [Hc He]. pose proof (Hlt _ _ Hs) as Hl.
  split; cbn [rhc_cells rhc_next rhc_routes rhc_probing rhc_published].
  - split.
    + intros cell' s'. rewrite lookup_insert_Some. intros [[<- _]|[_ ?]]; eauto.
    + intros r cell' Hr. rewrite lookup_insert_is_Some'. right. eauto.
  - done.
  - intros cell' Hle. rewrite results_of_cons, events_of_app, events_of_one, !decide_False by lia.
    destruct (Hf _ Hle) as [-> ->]. done.
  - intros cell' s'. unfold cell_ok. rewrite results_of_cons, events_of_app, events_of_one.
    rewrite lookup_insert_Some. intros [[<- <-]|[Hne Hs']].
    + rewrite !decide_True by done. split; [by apply counts_result|]. cbn [rh_probe].
      rewrite He. symmetry. apply flips_result; [done..|]. intros q. apply route_event_type.
    + rewrite !decide_False by done. rewrite app_nil_r. by apply Hcell.
Qed.

Lemma route_step_inv x y : thresholds_ok cfg ->
  route_step x y -> checker_inv x.1 x.2 -> checker_inv y.1 y.2.
Proof.
  intros Hth. destruct 1 as [targets c h|order c h _ _ _|c h Hpr|now success cell c h Hpr]; cbn [fst snd]; intros Hc.
  - by apply UpdateTargets_inv.
  - destruct Hc as [? ? ? ?]. by split.
  - destruct Hc as [Ht Hp Hf Hcell]. unfold checkRoute. destruct (rhc_round c) as [|cell rest]; [by split|].
    split; cbn [rhc_cells rhc_next rhc_routes rhc_probing rhc_published]; [done| |done|done].
    intros cell'. destruct (rhc_cells c !! cell) as [s|] eqn:E; [|done]. destruct (probed _); [|done]. intros [= <-]. by rewrite E.
  - by apply route_markResult_inv.
Qed.

Lemma checker_inv_reached c h : thresholds_ok cfg ->
  rtc route_step (NewRouteHealthChecker, []) (c, h) -> checker_inv c h.
Proof.
  intros Hth Hr. change (checker_inv (c, h).1 (c, h).2).
  refine (rtc_ind_r (fun y => checker_inv y.1 y.2) _ _ _ (c, h) Hr); [|intros y z _ Hs Hy; by eapply route_step_inv].
  split; [split|..]; cbn; done.
Qed.

(** C23: however reconciliations, rounds of checks and the results of dials
    interleave, for all thresholds of at least 1, a monitored route is reported
    unhealthy exactly when at some point of its results the unhealthy threshold of
    failures in a row was reached and the healthy threshold of successes in a row has
    not been reached since; the events published about it are exactly its changes, in
    order, a failure and a recovery in turn.  A reconciliation keeps the record of the
    routes it keeps, starts an empty one for the others of its list, and forgets the
    rest. *)
Theorem route_health_exact (c : RouteHealthChecker) (h : list (nat * bool)) (Hth : thresholds_ok cfg)
    (Hrun : rtc route_step (NewRouteHealthChecker, []) (c, h)) :
  (forall route cell, rhc_routes c !! route = Some cell -> let results := results_of cell h in
     (IsRouteHealthy route c = false <->
      exists k, hc_UnhealthyThreshold cfg <= failing_run (drop k results) /\
        forall j, (j < k)%nat -> ok_run (drop j results) < hc_HealthyThreshold cfg) /\
     IsRouteHealthy route c = negb (down cfg results) /\
     events_of cell (rhc_published c) = route_flip <$> flips cfg results) /\
  (forall targets route,
     match rhc_routes (UpdateTargets targets c) !! route with
     | Some cell => route ∈ tg_RouteID <$> targets /\
         match rhc_routes c !! route with Some old => cell = old | None => results_of cell h = [] end
     | None => route ∉ tg_RouteID <$> targets
     end).
Proof.
  pose proof (checker_inv_reached c h Hth Hrun) as Hc. split.
  - intros route cell Hr. destruct Hc as [[_ Hin] _ _ Hcell]. destruct (Hin _ _ Hr) as [s Hs].
    destruct (Hcell _ _ Hs) as [(_ & _ & Hh) He]. cbv zeta. rewrite <- (down_iff _ _ Hth).
    assert (IsRouteHealthy route c = negb (down cfg (results_of cell h))) as ->.
    { unfold IsRouteHealthy. rewrite Hr. cbn. by rewrite Hs. }
    split; [by destruct (down _ _)|]. split; [done|exact He].
  - intros targets route. destruct (update_inv_all c h targets Hc) as [_ _ _ _ Hr]. specialize (Hr route). unfold UpdateTargets.
    destruct (foldl _ _ _) as [[cells next] routes]. cbn in *. destruct (routes !! route) as [cell|]; [|done].
    destruct Hr as [Hin Hr]. split; [done|]. destruct (rhc_routes c !! route); [done|]. by apply (ci_fresh c h Hc).
Qed.
End route_runs.

(** ** Overlay health *)

Section overlay_runs.
Context (cfg : HealthConfig).

Definition overlay_flip (isDown : bool) : EventType := if isDown then OverlayPeerUnreachable else OverlayPeerRecovered.

(** Results in the order they arrive: time, peer, success. *)
Definition overlay_run (c : OverlayHealthChecker) (l : list (Time * nat * bool)) : OverlayHealthChecker :=
  foldl (fun c '(now, i, success) => overlay_markResult cfg now i success c) c l.
Definition overlay_history (l : list (Time * nat * bool)) : list (nat * bool) := reverse ((fun '(_, i, success) => (i, success)) <$> l).

Lemma overlay_history_snoc l now i success : overlay_history (l ++ [(now, i, success)]) = (i, success) :: overlay_history l.
Proof. unfold overlay_history. by rewrite fmap_app, reverse_app. Qed.

Lemma overlay_event_type now t p : ev_Type (overlay_event now t p) = overlay_flip (negb (pb_healthy p)).
Proof. unfold overlay_event. by destruct (pb_healthy p). Qed.

Lemma overlay_run_counts targets l : thresholds_ok cfg ->
  let c := overlay_run (NewOverlayHealthChecker targets) l in
  op_target <$> oc_peers c = targets /\
  forall i s, oc_peers c !! i = Some s ->
    counts cfg (results_of i (overlay_history l)) (op_probe s) /\
    events_of i (oc_published c) = overlay_flip <$> flips cfg (results_of i (overlay_history l)).
Proof.
  intros Hth c. subst c. induction l as [|[[now j] success] l [IHt IH]] using rev_ind.
  - cbn. split; [induction targets as [|t ts IH]; cbn; [done|by rewrite IH]|].
    intros i s. rewrite list_lookup_fmap. intros (t & _ & ->)%fmap_Some. split; [by apply counts_new|done].
  - unfold overlay_run in *. rewrite foldl_app. cbn [foldl]. rewrite overlay_history_snoc. set (c := foldl _ _ l) in *. unfold overlay_markResult.
    destruct (oc_peers c !! j) as [s|] eqn:E; cbn [oc_peers oc_published].
    + destruct (IH _ _ E) as [Hc He]. split.
      { rewrite list_fmap_insert. cbn. rewrite <- IHt. apply list_insert_id. by rewrite list_lookup_fmap, E. }
      intros i s'. rewrite results_of_cons, events_of_app, events_of_one. rewrite list_lookup_insert_Some.
      intros [(<- & <- & _)|[Hne Hs']].
      * rewrite !decide_True by done. split; [by apply counts_result|]. rewrite He. symmetry.
        apply flips_result; [done..|]. intros q. apply overlay_event_type.
      * rewrite !decide_False by done. rewrite app_nil_r. by apply IH.
    + split; [done|]. intros i s Hs. rewrite results_of_cons, decide_False by congruence. by apply IH.
Qed.

(** The overlay checker, after any sequence of results, reports a peer healthy
    unless a run of failures that reached its threshold came after the last run of
    successes that did, and has published exactly the changes of each peer, in order;
    the targets stay. *)
Theorem overlay_health_exact (targets : list OverlayTarget) (l : list (Time * nat * bool))
    (Hth : thresholds_ok cfg) :
  let c := overlay_run (NewOverlayHealthChecker targets) l in
  forall i t, targets !! i = Some t ->
    (forall j t', targets !! j = Some t' -> ot_IP t' = ot_IP t -> (i <= j)%nat) ->
    IsHealthy (ot_IP t) c = negb (down cfg (results_of i (overlay_history l))) /\
    events_of i (oc_published c) = overlay_flip <$> flips cfg (results_of i (overlay_history l)).
Proof.
  intros c i t Ht Hfirst. destruct (overlay_run_counts targets l Hth) as [Htg Hall]. fold c in Htg, Hall.
  rewrite <- Htg, list_lookup_fmap in Ht. apply fmap_Some in Ht as (s & Hs & ->).
  destruct (Hall _ _ Hs) as [(_ & _ & Hh) He]. split; [|done]. rewrite <- Hh. unfold IsHealthy.
  assert (Hf : List.find (fun p => bool_decide (ot_IP (op_target p) = ot_IP (op_target s))) (oc_peers c) = Some s); [|by rewrite Hf].
  clear Hall He Hh. rewrite <- Htg in Hfirst. clear Htg. revert i Hs Hfirst. generalize (oc_peers c). intros ps.
  induction ps as [|p ps IH]; intros i Hs Hfirst; [done|]. cbn. destruct i as [|i].
  - injection Hs as ->. by rewrite bool_decide_true.
  - case_bool_decide as Hip; [specialize (Hfirst 0%nat _ eq_refl Hip); lia|]. apply (IH i Hs).
    intros j t' Hj Heq. specialize (Hfirst (S j) t' Hj Heq). lia.
Qed.
End overlay_runs.

(** ** The health endpoint *)

Lemma run_checks_status checks : hl_Status (run_checks checks) = if decide (Forall (fun x => x.2 = None) checks) then HealthOK else HealthDegraded.
Proof.
  unfold run_checks. induction checks as [|[name err] checks IH] using rev_ind; [done|]. rewrite foldl_app. cbn [foldl].
  destruct err as [e|]; cbn [hl_Status].
  - rewrite decide_False; [done|]. rewrite Forall_app, Forall_singleton. intros [_ ?]. done.
  - rewrite IH. apply decide_ext. rewrite Forall_app, Forall_singleton. naive_solver.
Qed.

Lemma run_checks_ok checks : Forall (fun x => x.2 = None) checks -> map_Forall (fun _ cr => ck_Status cr = HealthOK) (hl_Checks (run_checks checks)).
Proof.
  unfold run_checks. induction checks as [|[name err] checks IH] using rev_ind; [intros _; apply map_Forall_empty|].
  rewrite Forall_app, Forall_singleton, foldl_app. intros [Hall Herr]. cbn in Herr |- *. rewrite Herr. cbn [hl_Checks].
  apply map_Forall_insert_2; [done|by apply IH].
Qed.

Lemma health_Handler_ok checks : health_Handler checks = 200 <-> Forall (fun x => x.2 = None) checks.
Proof.
  unfold health_Handler, Evaluate. pose proof (run_checks_status checks) as Hs. destruct (decide (Forall _ checks)) as [Hall|Hno].
  - split; [done|]. intros _. pose proof (run_checks_ok checks Hall) as Hok. rewrite map_Forall_to_list in Hok.
    destruct (map_to_list (hl_Checks (run_checks checks))) as [|[n cr] l] eqn:E.
    + apply map_to_list_empty_iff in E. rewrite E, map_size_empty. cbn. by rewrite Hs.
    + apply Forall_cons in Hok as [Hcr _]. cbn in Hcr. cbn [fmap list_fmap snd existsb]. rewrite (bool_decide_true (ck_Status cr = HealthOK)) by done.
      cbn [negb orb andb]. by rewrite Hs.
  - split; [|done]. destruct (_ && _); cbn; by rewrite ?Hs.
Qed.

Section readiness.
Context (bgp_lib : lib_history -> lib_call -> result string).

Definition up {I} (x : option (I * bool)) : Prop := match x with Some (_, b) => b = true | None => True end.

Lemma bring_up_check {I} enabled (i : I) start x name (check : I -> option goerr) :
  (check (start i).2 = None <-> (start i).1 = Ok tt) -> bring_up enabled (Some i) start = Some x ->
  Forall (fun x => x.2 = None) (check_of name check x) <-> up x.
Proof.
  intros Hc. unfold bring_up. destruct enabled; cbn; intros [= <-]; [|by rewrite Forall_nil]. cbn. rewrite Forall_singleton. cbn.
  rewrite Hc. by destruct (start i).1 as [[]|].
Qed.

Lemma dns_started io addr i : match i with DnsMiekg s => ms_running s | DnsIsNoop s => np_running s end = false ->
  dns_check (dns_Start io addr i).2 = None <-> (dns_Start io addr i).1 = Ok tt.
Proof.
  destruct i as [s|s]; cbn; intros Hr; unfold DnsServer.Start, noop_Start; rewrite Hr; [|done].
  by destruct (sio_udp io && sio_tcp io).
Qed.

Lemma cdn_started io addr i : match i with CdnProxy s => ps_running s | CdnIsNoop s => np_running s end = false ->
  cdn_check (cdn_Start io addr i).2 = None <-> (cdn_Start io addr i).1 = Ok tt.
Proof.
  destruct i as [s|s]; cbn; intros Hr; unfold proxy_Start, noop_Start; rewrite Hr; [|done].
  unfold cdn_check, proxy_GetStatus. cbn [on_impl snd fst]. by destruct (sio_listen io); cbn; destruct (foldl _ _ _) as [[? ?] ?].
Qed.

Lemma route_started i : match i with RouteForwarder s => fw_running s | RouteIsNoop s => np_running s end = false ->
  route_check (route_Start i).2 = None <-> (route_Start i).1 = Ok tt.
Proof. by destruct i as [s|s]; cbn; intros Hr; unfold Forwarder.Start, noop_Start; rewrite Hr. Qed.

(** What the check of BGP needs: a library that lists its peers, if it was started. *)
Definition bgp_reports (listed : result (list LibPeer)) (x : option (BgpImpl * bool)) : Prop :=
  match x with Some (BgpGoBGP _, true) => exists peers, listed = Ok peers | _ => True end.

Lemma gobgp_started routerID asn : let o := gobgp_Start bgp_lib routerID asn NewGoBGPService in
  gb_running o.2 = match o.1 with Ok _ => true | Err _ => false end.
Proof.
  unfold gobgp_Start. cbn. unfold wrap, try, lib_do, modify, mbind, stM_bind. cbn. by repeat (case_match; simplify_eq/=).
Qed.

Lemma bgp_started enabled mode_gobgp routerID asn x listed :
  bring_up enabled (Some (if mode_gobgp : bool then BgpGoBGP NewGoBGPService else BgpIsNoop NewBgpNoop)) (bgp_Start bgp_lib routerID asn) = Some x ->
  Forall (fun x => x.2 = None) (check_of "bgp" (bgp_check listed) x) <-> bgp_reports listed x.
Proof.
  unfold bring_up. destruct enabled; cbn [mbind option_bind]; intros [= <-]; [|by rewrite Forall_nil].
  destruct mode_gobgp; cbn [check_of started]; rewrite Forall_singleton; [|done]. pose proof (gobgp_started routerID asn) as Hg.
  unfold bgp_Start. destruct (gobgp_Start bgp_lib routerID asn NewGoBGPService) as [o s]. unfold on_impl. cbn in *.
  unfold gobgp_GetStatus. rewrite Hg. destruct o; cbn; [|done].
  destruct listed as [ps|e]; [|split; [done|intros [? ?]; done]]. split; [eauto|done].
Qed.

Lemma bring_up_some {I} enabled (i : I) start : exists x, bring_up enabled (Some i) start = Some x.
Proof. destruct enabled; by eexists. Qed.

(** The services of the built-in plugins are not running when they are created. *)
Lemma init_idle disk : exists r, plugin_init disk ∅ = Some r /\ forall mode axfr dir maxBytes,
  (exists b : bool, initBGPService r mode = Some (if b then BgpGoBGP NewGoBGPService else BgpIsNoop NewBgpNoop)) /\
  (exists i, initDNSService r mode axfr = Some i /\ match i with DnsMiekg s => ms_running s | DnsIsNoop s => np_running s end = false) /\
  (exists i, initCDNService r mode dir maxBytes = Some i /\ match i with CdnProxy s => ps_running s | CdnIsNoop s => np_running s end = false) /\
  (exists i, initRouteService r mode = Some i /\ match i with RouteForwarder s => fw_running s | RouteIsNoop s => np_running s end = false).
Proof.
  destruct (plugin_init_two disk) as (r & Hr & _ & H1 & H2 & H3 & H4). exists r. split; [done|]. intros mode axfr dir maxBytes.
  unfold initBGPService, initDNSService, initCDNService, initRouteService.
  rewrite (factory_for_two _ _ _ _ _ mode H1), (factory_for_two _ _ _ _ _ mode H2), (factory_for_two _ _ _ _ _ mode H3),
    (factory_for_two _ _ _ _ _ mode H4) by done.
  split_and!.
  - exists (bool_decide (mode = "gobgp")). by case_bool_decide; case_decide.
  - case_decide; by eexists.
  - case_decide; (eexists; split; [reflexivity|]); by destruct (_ && _).
  - case_decide; by eexists.
Qed.

(** After the start of a node, /readyz (and /healthz) answers 200 exactly when
    every enabled DNS, CDN and route service has started and a BGP library that runs
    lists its peers.  A BGP service that did not start does not count. *)
Theorem node_ready_exact (disk : gmap (string * ID) Files) : exists r, plugin_init disk ∅ = Some r /\
  forall cfg io listed, exists v, RunNode_start bgp_lib r cfg io = Some v /\
    (health_Handler (node_checks listed v) = 200 <->
     bgp_reports listed (sv_bgp v) /\ up (sv_dns v) /\ up (sv_cdn v) /\ up (sv_route v)).
Proof.
  destruct (init_idle disk) as (r & Hr & Hi). exists r. split; [done|]. intros cfg io listed.
  destruct (Hi (cf_BGPMode cfg) false "" 0) as ([b Hb] & _). destruct (Hi (cf_DNSMode cfg) (cf_AXFR cfg) "" 0) as (_ & (d & Hd & Id) & _).
  destruct (Hi (cf_CDNMode cfg) false (cf_CacheDir cfg) (cf_CacheMaxBytes cfg)) as (_ & _ & (p & Hp & Ip) & _).
  destruct (Hi (cf_RouteMode cfg) false "" 0) as (_ & _ & _ & t & Ht & It).
  unfold RunNode_start. rewrite Hb, Hd, Hp, Ht.
  set (sb := bgp_Start _ _ _). set (sd := dns_Start _ _). set (sp := cdn_Start _ _).
  destruct (bring_up_some (cf_BGP cfg) (if b then BgpGoBGP NewGoBGPService else BgpIsNoop NewBgpNoop) sb) as [xb Eb].
  destruct (bring_up_some (cf_DNS cfg) d sd) as [xd Ed]. destruct (bring_up_some (cf_CDN cfg) p sp) as [xp Ep].
  destruct (bring_up_some (cf_Route cfg) t route_Start) as [xt Et]. rewrite Eb, Ed, Ep, Et. eexists. split; [reflexivity|].
  rewrite health_Handler_ok. unfold node_checks. cbn [sv_bgp sv_dns sv_cdn sv_route]. rewrite !Forall_app.
  rewrite (bgp_started _ _ _ _ _ _ Eb). rewrite (bring_up_check _ _ _ _ "dns" dns_check (dns_started _ _ _ Id) Ed).
  rewrite (bring_up_check _ _ _ _ "cdn" cdn_check (cdn_started _ _ _ Ip) Ep).
  by rewrite (bring_up_check _ _ _ _ "route" route_check (route_started _ It) Et).
Qed.
End readiness.

(** ** Samples *)

Definition sample_target : RouteTarget := mkRouteTarget 7%N "ssh" RouteProtocolTCP "10.100.0.9" 22.
Definition probe_round (now : Time) (success : bool) (c : RouteHealthChecker) : RouteHealthChecker :=
  route_markResult DefaultRouteHealthConfig now success (checkRoute (checkAll [0%nat] c)).
Definition monitored : RouteHealthChecker := UpdateTargets [sample_target] NewRouteHealthChecker.
Definition after_failures : RouteHealthChecker := probe_round 3 false (probe_round 2 false (probe_round 1 false monitored)).
Definition recovered : RouteHealthChecker := probe_round 4 true after_failures.

Lemma probe_round_steps now success c h : rhc_round c = [] -> rhc_probing c = None ->
  (map_to_list (rhc_routes c)).*2 = [0%nat] -> rhc_probing (checkRoute (checkAll [0%nat] c)) = Some 0%nat ->
  rtc (route_step DefaultRouteHealthConfig) (c, h) (probe_round now success c, (0%nat, success) :: h).
Proof.
  intros H1 H2 H3 H4. eapply rtc_l; [apply (rs_round _ [0%nat]); [done|done|by rewrite H3]|].
  eapply rtc_l; [by apply rs_check|]. apply rtc_once. by apply rs_result.
Qed.

Lemma recovered_run : rtc (route_step DefaultRouteHealthConfig) (NewRouteHealthChecker, [])
  (recovered, [(0%nat, true); (0%nat, false); (0%nat, false); (0%nat, false)]).
Proof.
  eapply rtc_l; [apply (rs_update _ [sample_target])|]. fold monitored.
  etrans; [apply (probe_round_steps 1 false); vm_compute; reflexivity|]. etrans; [apply (probe_round_steps 2 false); vm_compute; reflexivity|].
  etrans; [apply (probe_round_steps 3 false); vm_compute; reflexivity|]. apply (probe_round_steps 4 true); vm_compute; reflexivity.
Qed.

Lemma route_health_exact_witness :
  IsRouteHealthy 7%N after_failures = false /\ IsRouteHealthy 7%N recovered = true /\
  events_of 0 (rhc_published recovered) = [RouteHealthCheckFailed; RouteHealthCheckRecovered].
Proof.
  split; [vm_compute; reflexivity|].
  pose proof (route_health_exact DefaultRouteHealthConfig recovered _ ltac:(split; done) recovered_run) as [Hall _].
  assert (Hr : rhc_routes recovered !! 7%N = Some 0%nat) by (vm_compute; reflexivity).
  destruct (Hall _ _ Hr) as (_ & Hh & He). rewrite Hh, He. split; vm_compute; reflexivity.
Defined.

Definition overlay_results : list (Time * nat * bool) := [(1, 0%nat, false); (2, 0%nat, false); (3, 0%nat, false); (4, 0%nat, true)].
Lemma overlay_health_exact_witness : let c := overlay_run DefaultOverlayHealthConfig (NewOverlayHealthChecker (buildOverlayTargets "10.100.0.1")) overlay_results in
  IsHealthy "10.100.0.1" c = true /\ events_of 0 (oc_published c) = [OverlayPeerUnreachable; OverlayPeerRecovered].
Proof.
  pose proof (overlay_health_exact DefaultOverlayHealthConfig (buildOverlayTargets "10.100.0.1") overlay_results ltac:(split; done)
    0%nat (mkOverlayTarget "controller" "10.100.0.1") eq_refl ltac:(intros; lia)) as [Hh He].
  cbn [ot_IP] in Hh. split; [rewrite Hh|rewrite He]; vm_compute; reflexivity.
Defined.
