(* ===== verification/Controller.v ===== *)
(** * Configuration and start of the controller (internal/config/config.go,
    internal/app/controller.go, internal/app/seed.go)

    [Load] reads a file, lets the environment override it and validates the result;
    what yaml.v3 makes of the file is an argument.  [RunController_start] is what
    [RunController] does to the database before it serves: migrations, the first
    user and the peer of the controller in the overlay. *)

From Stdlib Require Import ZArith Lia Ascii String.
From S2P Require Import Prelude GoStrings GoNet GoBase64 Secrets Domain Schema Storage StoreAccess StoreProvision Provisioner Networking Token Auth.
From S2P Require Import Forwarder Bgp DnsServer CdnProxy Plugin Notify ApiRoutes.

Open Scope Z_scope.

(** ** Configuration *)

Notation RoleType := string (only parsing).
Definition RoleController : RoleType := "controller".
Definition RoleNode : RoleType := "node".
Definition RoleGateway : RoleType := "gateway".

Record StorageConfig := mkStorageConfig { sg_Driver : string; sg_DSN : string }.
Record TLSConfig := mkTLSConfig { tl_Enabled : bool; tl_CertFile : string; tl_KeyFile : string; tl_AutoCert : bool }.
Record SecretsConfig := mkSecretsConfig { sx_EncryptionKey : string; sx_TokenSigningKey : string }.
Record LeaderElectionConfig := mkLeaderElection { le_Enabled : bool; le_Interval : string }.
Record ControllerConfig := mkControllerConfig {
  cc_ListenAddr : string; cc_ExternalURL : string; cc_Storage : StorageConfig; cc_TLS : TLSConfig;
  cc_AllowedOrigins : list string; cc_AllowPrivateOrigins : bool; cc_Notifications : NotificationsConfig;
  cc_LeaderElection : LeaderElectionConfig; cc_WireGuard : WireGuardHub; cc_Secrets : SecretsConfig
}.
Record BGPConfig := mkBGPConfig { bc_Enabled : bool; bc_RouterID : string; bc_LocalASN : Z; bc_Mode : string }.
Record DNSConfig := mkDNSConfig { dc_Enabled : bool; dc_ListenAddr : string; dc_Mode : string; dc_AXFREnabled : bool }.
Record CDNConfig := mkCDNConfig {
  pc_Enabled : bool; pc_ListenAddr : string; pc_Mode : string; pc_CacheDir : string; pc_CacheMaxBytes : Z
}.
Record RouteConfig := mkRouteConfig { rc_Enabled : bool; rc_Mode : string }.
Record MonitoringConfig := mkMonitoring {
  mn_OverlayHealthInterval : string; mn_BGPPollInterval : string; mn_RouteHealthInterval : string; mn_ControllerOverlayIP : string
}.
Record NodeConfig := mkNodeConfig {
  nc_ControllerAddr : string; nc_EnrollmentToken : string; nc_DataDir : string; nc_HealthAddr : string;
  nc_BGP : BGPConfig; nc_DNS : DNSConfig; nc_CDN : CDNConfig; nc_Route : RouteConfig; nc_Monitoring : MonitoringConfig
}.
Record GatewayConfig := mkGatewayConfig {
  gc_ControllerAddr : string; gc_EnrollmentToken : string; gc_DataDir : string; gc_HealthAddr : string;
  gc_WireGuardIP : string; gc_RouteMode : string
}.
Record Config := mkConfig {
  cfg_Role : RoleType; cfg_LogLevel : string; cfg_Controller : ControllerConfig; cfg_Node : NodeConfig; cfg_Gateway : GatewayConfig
}.

Definition DefaultLogLevel (c : Config) : string := if bool_decide (cfg_LogLevel c = "") then "info" else cfg_LogLevel c.

Section load.
(** [os.LookupEnv], and the plugins of the binary. *)
Context (LookupEnv : string -> option string) (r : Registry).

Definition envStr (key dst : string) : string :=
  match LookupEnv key with Some v => if bool_decide (v = "") then dst else v | None => dst end.

Definition override_controller (c : ControllerConfig) : ControllerConfig :=
  mkControllerConfig (envStr "EF_CONTROLLER_LISTEN_ADDR" (cc_ListenAddr c)) (envStr "EF_CONTROLLER_EXTERNAL_URL" (cc_ExternalURL c))
    (mkStorageConfig (envStr "EF_CONTROLLER_STORAGE_DRIVER" (sg_Driver (cc_Storage c))) (envStr "EF_CONTROLLER_STORAGE_DSN" (sg_DSN (cc_Storage c))))
    (cc_TLS c) (cc_AllowedOrigins c) (cc_AllowPrivateOrigins c) (cc_Notifications c) (cc_LeaderElection c) (cc_WireGuard c)
    (mkSecretsConfig (envStr "EF_CONTROLLER_SECRETS_ENCRYPTION_KEY" (sx_EncryptionKey (cc_Secrets c)))
       (envStr "EF_CONTROLLER_SECRETS_TOKEN_SIGNING_KEY" (sx_TokenSigningKey (cc_Secrets c)))).
Definition override_node (c : NodeConfig) : NodeConfig :=
  mkNodeConfig (envStr "EF_NODE_CONTROLLER_ADDR" (nc_ControllerAddr c)) (envStr "EF_NODE_ENROLLMENT_TOKEN" (nc_EnrollmentToken c))
    (envStr "EF_NODE_DATA_DIR" (nc_DataDir c)) (nc_HealthAddr c) (nc_BGP c) (nc_DNS c) (nc_CDN c) (nc_Route c) (nc_Monitoring c).
Definition override_gateway (c : GatewayConfig) : GatewayConfig :=
  mkGatewayConfig (envStr "EF_GATEWAY_CONTROLLER_ADDR" (gc_ControllerAddr c)) (envStr "EF_GATEWAY_ENROLLMENT_TOKEN" (gc_EnrollmentToken c))
    (envStr "EF_GATEWAY_DATA_DIR" (gc_DataDir c)) (gc_HealthAddr c) (gc_WireGuardIP c) (gc_RouteMode c).
Definition applyEnvOverrides (c : Config) : Config :=
  mkConfig (envStr "EF_ROLE" (cfg_Role c)) (envStr "EF_LOG_LEVEL" (cfg_LogLevel c)) (override_controller (cfg_Controller c))
    (override_node (cfg_Node c)) (override_gateway (cfg_Gateway c)).

Definition validateMode (field value : string) (allowed : list string) : result unit :=
  if bool_decide (value = "") then Ok tt
  else if bool_decide (value ∈ allowed) then Ok tt
  else Err (Errorf (field +:+ ": unknown mode")).

(** The validated configuration has its defaults filled in. *)
Definition validateController (c : ControllerConfig) : result ControllerConfig :=
  let listen := if bool_decide (cc_ListenAddr c = "") then ":8443" else cc_ListenAddr c in
  let driver := sg_Driver (cc_Storage c) in
  let key := sx_EncryptionKey (cc_Secrets c) in
  let signing := sx_TokenSigningKey (cc_Secrets c) in
  _ ← guard_err (negb (bool_decide (driver = ""))) (Errorf "controller.storage.driver is required");
  _ ← guard_err (bool_decide (driver = "sqlite") || bool_decide (driver = "postgres")) (Errorf "unsupported storage driver");
  _ ← guard_err (negb (bool_decide (sg_DSN (cc_Storage c) = ""))) (Errorf "controller.storage.dsn is required");
  _ ← guard_err (negb (bool_decide (key = ""))) (Errorf "controller.secrets.encryption_key is required");
  decoded ← decode_b64 "controller.secrets.encryption_key: invalid base64" key;
  _ ← guard_err (bool_decide (String.length decoded = 32%nat)) (Errorf "controller.secrets.encryption_key: must decode to 32 bytes (AES-256)");
  _ ← (if bool_decide (signing = "") then Ok tt
       else sigDecoded ← decode_b64 "controller.secrets.token_signing_key: invalid base64" signing;
            guard_err (32 <=? String.length sigDecoded)%nat (Errorf "controller.secrets.token_signing_key: must decode to at least 32 bytes"));
  Ok (mkControllerConfig listen (cc_ExternalURL c) (cc_Storage c) (cc_TLS c) (cc_AllowedOrigins c) (cc_AllowPrivateOrigins c)
        (cc_Notifications c) (cc_LeaderElection c) (cc_WireGuard c) (cc_Secrets c)).

Definition default_dir (dir : string) : string := if bool_decide (dir = "") then "/var/lib/edgefabric" else dir.

Definition validateNode (c : NodeConfig) : result NodeConfig :=
  _ ← guard_err (negb (bool_decide (nc_ControllerAddr c = ""))) (Errorf "node.controller_addr is required");
  _ ← validateMode "node.bgp.mode" (bc_Mode (nc_BGP c)) (RegisteredNames r PluginTypeBGP);
  _ ← validateMode "node.dns.mode" (dc_Mode (nc_DNS c)) (RegisteredNames r PluginTypeDNS);
  _ ← validateMode "node.cdn.mode" (pc_Mode (nc_CDN c)) (RegisteredNames r PluginTypeCDN);
  _ ← validateMode "node.route.mode" (rc_Mode (nc_Route c)) (RegisteredNames r PluginTypeRoute);
  Ok (mkNodeConfig (nc_ControllerAddr c) (nc_EnrollmentToken c) (default_dir (nc_DataDir c)) (nc_HealthAddr c)
        (nc_BGP c) (nc_DNS c) (nc_CDN c) (nc_Route c) (nc_Monitoring c)).

Definition validateGateway (c : GatewayConfig) : result GatewayConfig :=
  _ ← guard_err (negb (bool_decide (gc_ControllerAddr c = ""))) (Errorf "gateway.controller_addr is required");
  _ ← guard_err (bool_decide (gc_WireGuardIP c = "") || bool_decide (is_Some (ParseIP (gc_WireGuardIP c)))) (Errorf "gateway.wireguard_ip: invalid IP address");
  _ ← validateMode "gateway.route_mode" (gc_RouteMode c) (RegisteredNames r PluginTypeRoute);
  Ok (mkGatewayConfig (gc_ControllerAddr c) (gc_EnrollmentToken c) (default_dir (gc_DataDir c)) (gc_HealthAddr c) (gc_WireGuardIP c) (gc_RouteMode c)).

Definition Validate (c : Config) : result Config :=
  if bool_decide (cfg_Role c = RoleController) then
    x ← validateController (cfg_Controller c); Ok (mkConfig (cfg_Role c) (cfg_LogLevel c) x (cfg_Node c) (cfg_Gateway c))
  else if bool_decide (cfg_Role c = RoleNode) then
    x ← validateNode (cfg_Node c); Ok (mkConfig (cfg_Role c) (cfg_LogLevel c) (cfg_Controller c) x (cfg_Gateway c))
  else if bool_decide (cfg_Role c = RoleGateway) then
    x ← validateGateway (cfg_Gateway c); Ok (mkConfig (cfg_Role c) (cfg_LogLevel c) (cfg_Controller c) (cfg_Node c) x)
  else if bool_decide (cfg_Role c = "") then Err (Errorf "role is required")
  else Err (Errorf "unknown role").

Definition Load (file : option string) (unmarshal : string -> option Config) : result Config :=
  match file with
  | None => Err (Wrapf "read config file" (Errorf "open"))
  | Some data =>
      match unmarshal data with
      | None => Err (Wrapf "parse config file" (Errorf "yaml"))
      | Some cfg => wrap_err "validate config" (Validate (applyEnvOverrides cfg))
      end
  end.
End load.

(** ** Start *)

Section start.
(** [opens driver dsn]: [sql.Open] and the statements of [New] succeed. *)
Context `{AuthLib} `{AEAD} (ParseAddress : string -> bool) (opens : string -> string -> bool) (o : Outside).

Definition seed_email : string := "admin@edgefabric.local".

(** Returns the password that is logged, if a user was created.  [salt] is what
    bcrypt draws. *)
Definition SeedSuperUser (salt : nat) : stM PEnv (option string) :=
  existing ← db (sqlite_ListUsers None (mkListParams 0 1 ""));
  if 0 <? existing.2 then mret None
  else
    bytes ← rand o 16;
    password ← lift (GenerateRandomString bytes);
    id ← NewID o;
    created ← try (db_now o (fun t => user_Create ParseAddress salt id t (mkCreateUser None seed_email "Admin" password RoleSuperUser)));
    match created with
    | Ok _ => mret (Some password)
    | Err err => if errors_Is err ErrAlreadyExists then mret None else throw err
    end.

(** What the rest of the controller is given. *)
Record Started := mkStarted {
  su_store : Store; su_tokens : TokenService; su_password : option string; su_peer : WireGuardPeer
}.

Definition initStore (cfg : StorageConfig) : result Driver :=
  if bool_decide (sg_Driver cfg = "sqlite") then _ ← guard_err (opens "sqlite" (sg_DSN cfg)) (Errorf "open sqlite"); Ok sqlite_driver
  else if bool_decide (sg_Driver cfg = "postgres") then _ ← guard_err (opens "postgres" (sg_DSN cfg)) (Errorf "open postgres"); Ok postgres_driver
  else Err (Errorf "unsupported storage driver").

(** Catalog and tables are parts of one database.  The two stores issue the same
    statements on users and peers but for the spelling of parameters, so the tables
    of [Storage] serve for both. *)
Definition on_catalog {A} (m : stM Catalog A) : stM (Catalog * PEnv) A := fun w => let '(r, c) := m w.1 in (r, (c, w.2)).
Definition on_env {A} (m : stM PEnv A) : stM (Catalog * PEnv) A := fun w => let '(r, e) := m w.2 in (r, (w.1, e)).

Definition tokenTTL : Z := 24 * 3600 * 1000000000.

Definition signing_key (c : SecretsConfig) : string :=
  if bool_decide (sx_TokenSigningKey c = "") then sx_EncryptionKey c else sx_TokenSigningKey c.

Definition RunController_start (salt : nat) (cfg : Config) : stM (Catalog * PEnv) Started :=
  let c := cfg_Controller cfg in
  dr ← wrap "init storage" (lift (initStore (cc_Storage c)));
  _ ← wrap "migrate storage" (on_catalog (Migrate dr));
  secretStore ← wrap "init secrets" (lift (NewStore (sx_EncryptionKey (cc_Secrets c))));
  signingKey ← lift (decode_b64 "decode token signing key" (signing_key (cc_Secrets c)));
  password ← wrap "seed superuser" (on_env (SeedSuperUser salt));
  peer ← wrap "bootstrap controller wireguard peer"
           (on_env (BootstrapControllerPeer (mkNetService secretStore (cc_WireGuard c) true) o ControllerPeerID));
  mret (mkStarted secretStore (NewTokenService signingKey tokenTTL) password peer).
End start.

(** ** What [Load] accepts *)

Lemma RegisteredNames_elem r pt name : name ∈ RegisteredNames r pt <-> is_Some (Get r pt name).
Proof.
  unfold RegisteredNames, Get. destruct (r !! pt) as [byName|]; cbn; [|split; [by intros ?%not_elem_of_nil|by intros [? ?]]].
  rewrite (merge_sort_Permutation (by_name (fun s : string => s)) (map_to_list byName).*1), list_elem_of_fmap. split.
  - intros ([k f] & -> & Hf%elem_of_map_to_list). by exists f.
  - intros [f Hf]. exists (name, f). split; [done|]. by apply elem_of_map_to_list.
Qed.

(** The modes of a kind with two plugins. *)
Definition known_mode (name mode : string) : Prop := mode = "" \/ mode = name \/ mode = "noop".

Lemma validateMode_two r pt name f noop field mode : two_plugins r pt name f noop ->
  validateMode field mode (RegisteredNames r pt) = Ok tt <-> known_mode name mode.
Proof.
  intros H2. unfold validateMode, known_mode. case_bool_decide as He; [by split; [left|]|].
  assert (Hm : mode ∈ RegisteredNames r pt <-> mode = "noop" \/ mode = name).
  { rewrite RegisteredNames_elem, H2. destruct (decide (mode = "noop")); [split; eauto|].
    destruct (decide (mode = name)); [split; eauto|]. split; [by intros [? ?]|naive_solver]. }
  case_bool_decide as Hin; rewrite Hm in Hin; [split; naive_solver|]. split; [done|]. naive_solver.
Qed.

(** What is asked of each role. *)
Definition controller_acceptable (c : ControllerConfig) : Prop :=
  (sg_Driver (cc_Storage c) = "sqlite" \/ sg_Driver (cc_Storage c) = "postgres") /\ sg_DSN (cc_Storage c) <> "" /\
  (exists st, NewStore (sx_EncryptionKey (cc_Secrets c)) = Ok st) /\
  (sx_TokenSigningKey (cc_Secrets c) = "" \/ exists k, Std_DecodeString (sx_TokenSigningKey (cc_Secrets c)) = Some k /\ (32 <= String.length k)%nat).
Definition node_acceptable (c : NodeConfig) : Prop :=
  nc_ControllerAddr c <> "" /\ known_mode "gobgp" (bc_Mode (nc_BGP c)) /\ known_mode "miekg" (dc_Mode (nc_DNS c)) /\
  known_mode "proxy" (pc_Mode (nc_CDN c)) /\ known_mode "forwarder" (rc_Mode (nc_Route c)).
Definition gateway_acceptable (c : GatewayConfig) : Prop :=
  gc_ControllerAddr c <> "" /\ (gc_WireGuardIP c = "" \/ is_Some (ParseIP (gc_WireGuardIP c))) /\ known_mode "forwarder" (gc_RouteMode c).

Lemma NewStore_Ok key : (exists st, NewStore key = Ok st) <-> exists k, Std_DecodeString key = Some k /\ String.length k = 32%nat.
Proof.
  unfold NewStore, decode_b64. destruct (Std_DecodeString key) as [k|]; cbn.
  - unfold guard_err. case_bool_decide as Hk; cbn; split.
    + intros _. by exists k.
    + intros _. by eexists.
    + by intros [? ?].
    + intros (? & [= <-] & ?). done.
  - split; [by intros [? ?]|by intros (? & ? & ?)].
Qed.

Lemma decode_b64_Ok msg s b : decode_b64 msg s = Ok b <-> Std_DecodeString s = Some b.
Proof. unfold decode_b64. destruct (Std_DecodeString s); split; congruence. Qed.

Lemma validateController_exact c : (exists x, validateController c = Ok x) <-> controller_acceptable c.
Proof.
  unfold validateController, controller_acceptable. rewrite NewStore_Ok. split.
  - intros [x Hx]. repeat (apply rbind_Ok in Hx as (? & ? & Hx)). clear Hx.
    repeat match goal with H : guard_err _ _ = Ok _ |- _ => apply guard_Ok in H end.
    repeat match goal with H : decode_b64 _ _ = Ok _ |- _ => apply decode_b64_Ok in H end.
    repeat match goal with H : negb (bool_decide _) = true |- _ => apply negb_true_iff, bool_decide_eq_false in H end.
    match goal with H : bool_decide (String.length _ = _) = true |- _ => apply bool_decide_eq_true in H end.
    match goal with H : _ || _ = true |- _ => rewrite orb_true_iff, !bool_decide_eq_true in H end.
    split_and!; [done|done|by eexists|]. case_bool_decide; [by left|right].
    match goal with H : (_ ← _; _) = Ok _ |- _ => apply rbind_Ok in H as (k & Hk & Hg) end.
    apply decode_b64_Ok in Hk. apply guard_Ok, Nat.leb_le in Hg. by exists k.
  - intros (Hd & Hdsn & (k & Hk & Hlen) & Hsig). eexists.
    assert (Hkey : sx_EncryptionKey (cc_Secrets c) <> "") by (intros E; rewrite E in Hk; injection Hk as <-; done).
    apply rbind_Ok. exists tt. split; [apply guard_Ok, negb_true_iff, bool_decide_eq_false; by destruct Hd as [->| ->]|].
    apply rbind_Ok. exists tt. split; [apply guard_Ok; by rewrite orb_true_iff, !bool_decide_eq_true|].
    apply rbind_Ok. exists tt. split; [by apply guard_Ok, negb_true_iff, bool_decide_eq_false|].
    apply rbind_Ok. exists tt. split; [by apply guard_Ok, negb_true_iff, bool_decide_eq_false|].
    apply rbind_Ok. exists k. split; [by apply decode_b64_Ok|].
    apply rbind_Ok. exists tt. split; [by apply guard_Ok, bool_decide_eq_true|].
    apply rbind_Ok. exists tt. split; [|reflexivity]. case_bool_decide; [done|]. destruct Hsig as [?|(k' & Hk' & Hlen')]; [done|].
    apply rbind_Ok. exists k'. split; [by apply decode_b64_Ok|by apply guard_Ok, Nat.leb_le].
Qed.

Section registry.
Context (disk : gmap (string * ID) Files) (r : Registry) (Hr : plugin_init disk ∅ = Some r).

Lemma builtin_two :
  two_plugins r PluginTypeBGP "gobgp" (BGPFactory (fun _ => BgpGoBGP NewGoBGPService)) (BGPFactory (fun _ => BgpIsNoop NewBgpNoop)) /\
  two_plugins r PluginTypeDNS "miekg" (DNSFactory (fun axfr => DnsMiekg (NewMiekgService axfr))) (DNSFactory (fun _ => DnsIsNoop NewNoop)) /\
  two_plugins r PluginTypeCDN "proxy" (CDNFactory (fun _ => CdnProxy (NewProxyService disk))) (CDNFactory (fun _ => CdnIsNoop NewNoop)) /\
  two_plugins r PluginTypeRoute "forwarder" (RouteFactory (fun _ => RouteForwarder NewForwarderService)) (RouteFactory (fun _ => RouteIsNoop NewNoop)).
Proof using Hr.
  destruct (plugin_init_two disk) as (r' & Hr' & _ & H2). rewrite Hr in Hr'. by injection Hr' as <-.
Qed.

Lemma validateNode_exact c : (exists x, validateNode r c = Ok x) <-> node_acceptable c.
Proof using Hr.
  destruct builtin_two as (H1 & H2 & H3 & H4). unfold validateNode, node_acceptable. split.
  - intros [x Hx]. repeat (apply rbind_Ok in Hx as ([] & ? & Hx)). clear Hx.
    repeat match goal with H : validateMode _ _ _ = Ok _ |- _ => erewrite validateMode_two in H by eassumption end.
    match goal with H : guard_err _ _ = Ok _ |- _ => apply guard_Ok, negb_true_iff, bool_decide_eq_false in H end. split_and!; assumption.
  - intros (Ha & Hb & Hd & Hc & Ht). eexists.
    apply rbind_Ok. exists tt. split; [by apply guard_Ok, negb_true_iff, bool_decide_eq_false|].
    do 4 (apply rbind_Ok; exists tt; split; [by eapply validateMode_two|]). reflexivity.
Qed.

Lemma validateGateway_exact c : (exists x, validateGateway r c = Ok x) <-> gateway_acceptable c.
Proof using Hr.
  destruct builtin_two as (_ & _ & _ & H4). unfold validateGateway, gateway_acceptable. split.
  - intros [x Hx]. repeat (apply rbind_Ok in Hx as ([] & ? & Hx)). clear Hx.
    match goal with H : validateMode _ _ _ = Ok _ |- _ => erewrite validateMode_two in H by eassumption end.
    repeat match goal with H : guard_err _ _ = Ok _ |- _ => apply guard_Ok in H end.
    match goal with H : _ || _ = true |- _ => rewrite orb_true_iff, !bool_decide_eq_true in H end.
    match goal with H : negb _ = true |- _ => apply negb_true_iff, bool_decide_eq_false in H end. split_and!; assumption.
  - intros (Ha & Hip & Ht). eexists.
    apply rbind_Ok. exists tt. split; [by apply guard_Ok, negb_true_iff, bool_decide_eq_false|].
    apply rbind_Ok. exists tt. split; [apply guard_Ok; by rewrite orb_true_iff, !bool_decide_eq_true|].
    apply rbind_Ok. exists tt. split; [by eapply validateMode_two|reflexivity].
Qed.
End registry.

Definition acceptable (c : Config) : Prop :=
  (cfg_Role c = RoleController /\ controller_acceptable (cfg_Controller c)) \/
  (cfg_Role c = RoleNode /\ node_acceptable (cfg_Node c)) \/
  (cfg_Role c = RoleGateway /\ gateway_acceptable (cfg_Gateway c)).

Lemma exists_bind_Ok {A B} (m : result A) (f : A -> B) : (exists y, (x ← m; Ok (f x)) = Ok y) <-> exists x, m = Ok x.
Proof. destruct m; cbn; split; intros [? ?]; try done; by eexists. Qed.

Lemma Validate_exact disk r c : plugin_init disk ∅ = Some r -> (exists x, Validate r c = Ok x) <-> acceptable c.
Proof.
  intros Hr. unfold Validate, acceptable.
  rewrite <- validateController_exact, <- (validateNode_exact disk r Hr), <- (validateGateway_exact disk r Hr).
  generalize (validateController (cfg_Controller c)), (validateNode r (cfg_Node c)), (validateGateway r (cfg_Gateway c)). intros vc vn vg.
  destruct (bool_decide (cfg_Role c = RoleController)) eqn:E1; [|destruct (bool_decide (cfg_Role c = RoleNode)) eqn:E2;
    [|destruct (bool_decide (cfg_Role c = RoleGateway)) eqn:E3]];
    repeat match goal with H : bool_decide _ = true |- _ => apply bool_decide_eq_true in H | H : bool_decide _ = false |- _ => apply bool_decide_eq_false in H end;
    rewrite ?exists_bind_Ok.
  - rewrite E1. split; [intros ?; left; split; [reflexivity|assumption]|]. intros [[_ ?]|[[E _]|[E _]]]; [assumption|discriminate E..].
  - rewrite E2. split; [intros ?; right; left; split; [reflexivity|assumption]|]. intros [[E _]|[[_ ?]|[E _]]]; [discriminate E|assumption|discriminate E].
  - rewrite E3. split; [intros ?; right; right; split; [reflexivity|assumption]|]. intros [[E _]|[[E _]|[_ ?]]]; [discriminate E..|assumption].
  - split; [intros [x Hx]; destruct (bool_decide (cfg_Role c = "")); discriminate Hx|]. intros [[E _]|[[E _]|[E _]]]; contradiction.
Qed.

(** ** The first start and a restart *)

Lemma encode_with_length tab s : (String.length s <= String.length (encode_with tab "" s) <= 2 * String.length s)%nat.
Proof. induction s as [|a|a b|a b c s IH] using string_ind3; cbn [encode_with String.length append]; lia. Qed.

Lemma filter_all {A} (P : A -> Prop) `{forall x, Decision (P x)} (l : list A) : (forall x, P x) -> filter P l = l.
Proof. intros Hp. induction l as [|x l IH]; [done|]. by rewrite filter_cons_True, IH. Qed.

Lemma list_users_counts d fk p : exists l,
  sqlite_ListUsers None p (mkSql d fk []) = (Ok (l, Z.of_nat (size (users d))), mkSql d fk []).
Proof.
  unfold sqlite_ListUsers, mbind, stM_bind. rewrite calm_query by done. cbn [fst snd]. rewrite calm_query by done. eexists.
  do 4 f_equal. rewrite filter_all by (by left). unfold rows_of. by rewrite length_fmap, length_map_to_list.
Qed.

#[local] Ltac run := repeat (progress (cbv beta iota zeta; cbn [pe_sql pe_tick pe_trace kp_PrivateKey kp_PublicKey])).

Section boot.
Context `{AuthLibLaws} `{AEADLaws} (ParseAddress : string -> bool) (opens : string -> string -> bool) (o : Outside).
(** Randomness is there, curve25519 accepts clamped keys, bcrypt hashes what is not
    longer than 72 bytes, and the address of the first user is one. *)
Context (Hrand : forall t k, exists b, o_rand o t k = Some b /\ String.length b = k).
Context (Hcurve : forall priv, is_Some (o_x25519 o priv)).
Context (Hbcrypt : forall salt pw, (String.length pw <= 72)%nat -> is_Some (bcrypt_GenerateFromPassword salt pw)).
Context (Hmail : ParseAddress seed_email = true).

Definition admin (id : ID) (hash : string) (t : Time) : User :=
  mkUser id None seed_email "Admin" hash "" false RoleSuperUser UserStatusActive None t t.

Lemma create_admin salt id t pw h d fk : users d = ∅ -> (8 <= String.length pw)%nat -> bcrypt_GenerateFromPassword salt pw = Some h ->
  user_Create ParseAddress salt id t (mkCreateUser None seed_email "Admin" pw RoleSuperUser) (mkSql d fk []) =
    (Ok (admin id h t), mkSql (upd_users (<[id := admin id h t]>) d) fk []).
Proof using Hmail.
  intros Hu Hlen Hh. unfold user_Create. cbn [cu_Email cu_Name cu_Password cu_Role cu_TenantID].
  change (TrimSpace (ToLower seed_email)) with seed_email. change (TrimSpace "Admin") with "Admin".
  assert (Hv : user_validate ParseAddress seed_email "Admin" (mkCreateUser None seed_email "Admin" pw RoleSuperUser) = Ok tt).
  { unfold user_validate. cbn [cu_Password cu_Role cu_TenantID]. rewrite Hmail, (bool_decide_false (pw = "")) by (intros ->; cbn in Hlen; lia).
    apply Nat.leb_le in Hlen. rewrite Hlen. reflexivity. }
  rewrite Hv. unfold HashPassword. rewrite Hh. unfold sqlite_CreateUser, sql_insert, mbind, stM_bind, lift, wrap.
  unfold sql_exec. cbn [sq_fault sq_faults head default sq_db sq_fk]. rewrite !Hu. by destruct fk.
Qed.

Lemma seed_fresh salt d fk tr tick : users d = ∅ ->
  exists pw h id t e', SeedSuperUser ParseAddress o salt (mkPEnv (mkSql d fk []) tr tick) = (Ok (Some pw), e') /\
    bcrypt_Compare h pw = true /\ pe_sql e' = mkSql (upd_users (<[id := admin id h t]>) d) fk [].
Proof using Hrand Hbcrypt Hmail H0.
  intros Hu. destruct (Hrand tick 16) as (b & Hb & Hlen). pose proof (encode_with_length url_digit b) as Hl.
  destruct (Hbcrypt salt (RawURL_EncodeToString b)) as [h Hh]; [unfold RawURL_EncodeToString; lia|].
  destruct (list_users_counts d fk (mkListParams 0 1 "")) as [l El]. rewrite Hu, map_size_empty in El.
  unfold SeedSuperUser, mbind, stM_bind, db, db_now, rand, now, NewID, try, lift, db. cbn [pe_sql pe_tick]. rewrite El.
  cbn [snd pe_tick pe_trace]. change (0 <? Z.of_nat 0) with false. cbv beta iota. unfold next. cbn [pe_sql pe_tick pe_trace].
  rewrite Hb. unfold GenerateRandomString. cbv beta iota zeta. cbn [pe_sql pe_tick pe_trace]. unfold mbind, stM_bind. cbv beta iota zeta. cbn [pe_sql pe_tick pe_trace].
  rewrite (create_admin salt _ _ _ h) by (done || (unfold RawURL_EncodeToString; lia)).
  do 5 eexists. split; [reflexivity|]. split; [by eapply bcrypt_hash_ok|]. reflexivity.
Qed.

Lemma seed_again salt d fk tr tick : users d <> ∅ ->
  SeedSuperUser ParseAddress o salt (mkPEnv (mkSql d fk []) tr tick) = (Ok None, mkPEnv (mkSql d fk []) tr tick).
Proof.
  intros Hu. destruct (list_users_counts d fk (mkListParams 0 1 "")) as [l El].
  unfold SeedSuperUser, mbind, stM_bind, db. cbn [pe_sql pe_tick pe_trace]. rewrite El. cbn [snd].
  destruct (Z.ltb_spec 0 (Z.of_nat (size (users d)))) as [|Hz]; [done|].
  exfalso. apply Hu, map_size_empty_inv. lia.
Qed.

(** The peer of the controller, as the store returns it. *)
Definition controller_peer (m : gmap ID WireGuardPeer) (p : WireGuardPeer) : Prop :=
  m = {[peer_ID p := p]} /\ peer_OwnerType p = PeerOwnerController /\ peer_OwnerID p = ControllerPeerID.

Lemma Encrypt_made st b x : made st -> String.length b = NonceSize -> exists c, Encrypt (Some b) st x = Ok c.
Proof using H2. intros Hm Hb. destruct (decrypt_encrypt st st b x) as (c & Hc & _); [done..|by left|]. by exists c. Qed.

Lemma bootstrap_fresh n d fk tr tick : made (ns_secrets n) -> wireguard_peers d = ∅ ->
  exists p e', BootstrapControllerPeer n o ControllerPeerID (mkPEnv (mkSql d fk []) tr tick) = (Ok p, e') /\
    controller_peer {[peer_ID p := p]} p /\
    pe_sql e' = mkSql (upd_wireguard_peers (<[peer_ID p := p]>) d) fk [].
Proof using Hrand Hcurve H2.
  intros Hm Hp. destruct (Hrand tick 32) as (b1 & R1 & _). destruct (Hcurve (clamp b1)) as [pub Hpub].
  destruct (Hrand (S tick) 32) as (b2 & R2 & _). destruct (Hrand (S (S tick)) NonceSize) as (n1 & R3 & L3).
  destruct (Hrand (S (S (S tick))) NonceSize) as (n2 & R4 & L4).
  destruct (Encrypt_made (ns_secrets n) n1 (Std_EncodeToString (clamp b1)) Hm L3) as [c1 E1].
  destruct (Encrypt_made (ns_secrets n) n2 (Std_EncodeToString b2) Hm L4) as [c2 E2].
  unfold BootstrapControllerPeer, mbind, stM_bind, try, db. cbn [pe_sql pe_tick pe_trace].
  unfold sqlite_GetWireGuardPeerByOwner. rewrite calm_query by done. cbn [sq_db]. unfold peers_of_owner. rewrite Hp.
  change (filter _ (rows_of ∅)) with (@nil WireGuardPeer). cbv beta iota zeta.
  rewrite (bool_decide_true (ErrNotFound = ErrNotFound)) by done. cbn [negb]. cbv beta iota zeta.
  unfold GenerateWireGuardKeyPair, GeneratePresharedKey, net_Encrypt, wrap, rand, NewID, db_now, now, db, lift, mbind, stM_bind, next.
  cbn [pe_sql pe_tick pe_trace]. rewrite R1. cbv beta iota zeta. rewrite Hpub. unfold mret, stM_ret. run.
  rewrite R2. run. rewrite R3, E1. run. rewrite R4, E2. run.
  unfold sqlite_CreateWireGuardPeer, sql_exec. cbn [sq_fault sq_faults head default sq_db peer_ID peer_AllowedIPs]. rewrite Hp.
  rewrite (bool_decide_true (NoDup [_])) by (apply NoDup_singleton). 
  do 2 eexists. split; [reflexivity|]. split; [|reflexivity]. done.
Qed.

Lemma bootstrap_again n d fk tr tick p : controller_peer (wireguard_peers d) p ->
  BootstrapControllerPeer n o ControllerPeerID (mkPEnv (mkSql d fk []) tr tick) = (Ok p, mkPEnv (mkSql d fk []) tr tick).
Proof.
  intros (Hm & Ht & Ho). unfold BootstrapControllerPeer, mbind, stM_bind, try, db. cbn [pe_sql pe_tick pe_trace].
  unfold sqlite_GetWireGuardPeerByOwner. rewrite calm_query by done. cbn [sq_db]. unfold peers_of_owner, rows_of.
  rewrite Hm, map_to_list_singleton. cbn [fmap list_fmap snd]. by rewrite filter_cons_True.
Qed.

Lemma admin_signs_in d fk id h t pw t1 t2 : users d = {[id := admin id h t]} -> bcrypt_Compare h pw = true ->
  exists u s', AuthenticatePassword t1 t2 seed_email pw (mkSql d fk []) = (Ok u, s') /\
    user_ID u = id /\ user_Role u = RoleSuperUser /\ user_TenantID u = None.
Proof.
  intros Hu Hh. unfold AuthenticatePassword, or_error, mbind, stM_bind. unfold sqlite_GetUserByEmail.
  rewrite calm_query by done. cbn [sq_db]. unfold rows_of. rewrite Hu, map_to_list_singleton. cbn [fmap list_fmap snd].
  rewrite filter_cons_True by done. cbn [filter list_filter first_row]. unfold lift, guard_err. cbn [user_Status user_PasswordHash admin].
  rewrite Hh. cbn. unfold try. destruct (sqlite_UpdateUser _ _ _) as [[u|e] s'] eqn:E; (do 2 eexists; split; [reflexivity|]); [|done].
  unfold sqlite_UpdateUser, sql_update_unique, sql_exec in E. cbn [sq_fault sq_faults head default sq_db] in E.
  repeat case_match; by simplify_eq/=.
Qed.

(** Its database can be opened. *)
Definition opened (c : ControllerConfig) : Prop := opens (sg_Driver (cc_Storage c)) (sg_DSN (cc_Storage c)) = true.

Lemma initStore_migrates c ct : controller_acceptable c -> opened c -> (ct = empty_catalog \/ exists dr, initStore opens (cc_Storage c) = Ok dr /\ ct = migrated dr) ->
  exists dr, initStore opens (cc_Storage c) = Ok dr /\ Migrate dr ct = (Ok tt, migrated dr).
Proof.
  intros (Hd & _) Hop Hct.
  assert (exists dr, initStore opens (cc_Storage c) = Ok dr /\ Schema.in_order dr = true) as (dr & Edr & Hord).
  { unfold initStore, opened in *. destruct Hd as [E|E]; rewrite E in *; rewrite Hop; cbn; eexists; (split; [reflexivity|]); [exact sqlite_in_order|exact postgres_in_order]. }
  exists dr. split; [done|]. destruct (Migrate_empty dr Hord) as [E Hp].
  destruct Hct as [->|(dr' & Edr' & ->)]; [done|]. assert (dr' = dr) as -> by congruence. by eapply Migrate_done.
Qed.

(** The signing key, or the encryption key in its place. *)
Lemma signing_key_decodes c : controller_acceptable c ->
  exists key, decode_b64 "decode token signing key" (signing_key (cc_Secrets c)) = Ok key /\ (32 <= String.length key)%nat.
Proof.
  intros (_ & _ & Hst & Hsig). apply NewStore_Ok in Hst as (k & Hk & Hlen). unfold signing_key. case_bool_decide as He.
  - exists k. split; [by apply decode_b64_Ok|lia].
  - destruct Hsig as [?|(k' & Hk' & Hlen')]; [done|]. exists k'. split; [by apply decode_b64_Ok|done].
Qed.

(** A start whose seed and bootstrap are known. *)
Lemma start_run salt cfg ct e st pw e1 p e2 : controller_acceptable (cfg_Controller cfg) -> opened (cfg_Controller cfg) ->
  (ct = empty_catalog \/ exists dr, initStore opens (cc_Storage (cfg_Controller cfg)) = Ok dr /\ ct = migrated dr) ->
  NewStore (sx_EncryptionKey (cc_Secrets (cfg_Controller cfg))) = Ok st ->
  SeedSuperUser ParseAddress o salt e = (Ok pw, e1) ->
  BootstrapControllerPeer (mkNetService st (cc_WireGuard (cfg_Controller cfg)) true) o ControllerPeerID e1 = (Ok p, e2) ->
  exists key dr, initStore opens (cc_Storage (cfg_Controller cfg)) = Ok dr /\ (32 <= String.length key)%nat /\
    RunController_start ParseAddress opens o salt cfg (ct, e) = (Ok (mkStarted st (NewTokenService key tokenTTL) pw p), (migrated dr, e2)).
Proof.
  intros Hc Hop Hct Est Hseed Hboot. destruct (initStore_migrates _ _ Hc Hop Hct) as (dr & Edr & Em).
  destruct (signing_key_decodes _ Hc) as (key & Ekey & Hlen). exists key, dr. split_and!; [done..|].
  unfold RunController_start, mbind, stM_bind, wrap, lift, on_catalog, on_env. cbn [fst snd]. rewrite Edr. cbv beta iota zeta. cbn [fst snd].
  rewrite Em. cbv beta iota zeta. rewrite Est. cbv beta iota zeta. rewrite Ekey. cbv beta iota zeta. cbn [fst snd]. rewrite Hseed. cbv beta iota zeta.
  cbn [fst snd]. by rewrite Hboot.
Qed.

(** C24: a controller that starts with an acceptable configuration on an empty
    database that opens comes up: the schema is that of its driver, the only user is an active
    superuser without tenant who can sign in with the password that was logged, the
    overlay has the one peer of the controller, and session tokens are signed with
    at least 32 bytes.  A later start finds all of it: it logs no password, returns
    the same peer and changes nothing. *)
Theorem controller_boots (salt : nat) (cfg : Config) (d : DB) (fk : bool) (tr : list remote) (tick : nat)
    (Hcfg : controller_acceptable (cfg_Controller cfg)) (Hopen : opened (cfg_Controller cfg)) (Husers : users d = ∅) (Hpeers : wireguard_peers d = ∅) :
  exists st ct e', RunController_start ParseAddress opens o salt cfg (empty_catalog, mkPEnv (mkSql d fk []) tr tick) = (Ok st, (ct, e')) /\
    (exists dr, initStore opens (cc_Storage (cfg_Controller cfg)) = Ok dr /\ ct = migrated dr) /\
    (32 <= String.length (ts_signingKey (su_tokens st)))%nat /\
    controller_peer (wireguard_peers (sq_db (pe_sql e'))) (su_peer st) /\
    (exists pw id u, su_password st = Some pw /\ users (sq_db (pe_sql e')) = {[id := u]} /\
       forall t t', exists u' s', AuthenticatePassword t t' seed_email pw (pe_sql e') = (Ok u', s') /\
         user_ID u' = id /\ user_Role u' = RoleSuperUser /\ user_TenantID u' = None) /\
    (forall salt', exists st', RunController_start ParseAddress opens o salt' cfg (ct, e') = (Ok st', (ct, e')) /\
       su_password st' = None /\ su_peer st' = su_peer st).
Proof using Hrand Hcurve Hbcrypt Hmail H0 H2.
  destruct Hcfg as (Hdr & Hdsn & [sec Esec] & Hsig). assert (Hcfg : controller_acceptable (cfg_Controller cfg)) by (unfold controller_acceptable; eauto).
  destruct (seed_fresh salt d fk tr tick Husers) as (pw & h & id & t & e1 & Eseed & Hh & Hs1). destruct e1 as [s1 tr1 tick1]. cbn in Hs1. subst s1.
  set (d1 := upd_users _ d) in *.
  destruct (bootstrap_fresh (mkNetService sec (cc_WireGuard (cfg_Controller cfg)) true) d1 fk tr1 tick1) as (p & e2 & Eboot & Hp & Hs2);
    [left; by eexists|exact Hpeers|]. destruct e2 as [s2 tr2 tick2]. cbn in Hs2. subst s2. set (d2 := upd_wireguard_peers _ d1) in *.
  destruct (start_run salt cfg empty_catalog _ sec _ _ p _ Hcfg Hopen (or_introl eq_refl) Esec Eseed Eboot) as (key & dr & Edr & Hkey & Erun).
  assert (Hu2 : users d2 = {[id := admin id h t]}) by (subst d2 d1; cbn; by rewrite Husers).
  assert (Hp2 : controller_peer (wireguard_peers d2) p) by (subst d2 d1; cbn; rewrite Hpeers; exact Hp).
  do 3 eexists. split; [exact Erun|]. split; [by exists dr|]. split; [exact Hkey|]. split; [exact Hp2|]. split.
  - exists pw, id, (admin id h t). split; [done|]. split; [exact Hu2|]. intros t1 t2. by apply (admin_signs_in d2 fk id h t).
  - intros salt'. assert (Hne : users d2 <> ∅) by (rewrite Hu2; apply map_non_empty_singleton).
    destruct (start_run salt' cfg (migrated dr) _ sec _ _ p _ Hcfg Hopen (or_intror (ex_intro _ dr (conj Edr eq_refl))) Esec
      (seed_again salt' d2 fk tr2 tick2 Hne) (bootstrap_again _ d2 fk tr2 tick2 p Hp2)) as (key' & dr' & Edr' & _ & Erun').
    assert (dr' = dr) as -> by congruence. eexists. split; [exact Erun'|]. done.
Qed.
End boot.

(** ** Loading *)

(** The variables of the doc comment of [Load]. *)
Definition env_fields : list (string * (Config -> string)) :=
  [("EF_ROLE", cfg_Role); ("EF_LOG_LEVEL", cfg_LogLevel);
   ("EF_CONTROLLER_LISTEN_ADDR", fun c => cc_ListenAddr (cfg_Controller c));
   ("EF_CONTROLLER_EXTERNAL_URL", fun c => cc_ExternalURL (cfg_Controller c));
   ("EF_CONTROLLER_STORAGE_DRIVER", fun c => sg_Driver (cc_Storage (cfg_Controller c)));
   ("EF_CONTROLLER_STORAGE_DSN", fun c => sg_DSN (cc_Storage (cfg_Controller c)));
   ("EF_CONTROLLER_SECRETS_ENCRYPTION_KEY", fun c => sx_EncryptionKey (cc_Secrets (cfg_Controller c)));
   ("EF_CONTROLLER_SECRETS_TOKEN_SIGNING_KEY", fun c => sx_TokenSigningKey (cc_Secrets (cfg_Controller c)));
   ("EF_NODE_CONTROLLER_ADDR", fun c => nc_ControllerAddr (cfg_Node c));
   ("EF_NODE_ENROLLMENT_TOKEN", fun c => nc_EnrollmentToken (cfg_Node c));
   ("EF_NODE_DATA_DIR", fun c => nc_DataDir (cfg_Node c));
   ("EF_GATEWAY_CONTROLLER_ADDR", fun c => gc_ControllerAddr (cfg_Gateway c));
   ("EF_GATEWAY_ENROLLMENT_TOKEN", fun c => gc_EnrollmentToken (cfg_Gateway c));
   ("EF_GATEWAY_DATA_DIR", fun c => gc_DataDir (cfg_Gateway c))].

Lemma env_fields_overridden LookupEnv raw : Forall (fun x => x.2 (applyEnvOverrides LookupEnv raw) =
  match LookupEnv x.1 with Some v => if decide (v = "") then x.2 raw else v | None => x.2 raw end) env_fields.
Proof.
  assert (Hs : forall key dst, envStr LookupEnv key dst = match LookupEnv key with Some v => if decide (v = "") then dst else v | None => dst end).
  { intros key dst. unfold envStr. destruct (LookupEnv key) as [v|]; [|reflexivity]. case_bool_decide; case_decide; (reflexivity || contradiction). }
  unfold env_fields. repeat (apply Forall_cons; split; [apply Hs|]). apply Forall_nil. exact I.
Qed.

(** A configuration without them: everything the environment does not reach. *)
Definition file_only (c : Config) : Config :=
  let cc := cfg_Controller c in let n := cfg_Node c in let g := cfg_Gateway c in
  mkConfig "" ""
    (mkControllerConfig "" "" (mkStorageConfig "" "") (cc_TLS cc) (cc_AllowedOrigins cc) (cc_AllowPrivateOrigins cc) (cc_Notifications cc)
       (cc_LeaderElection cc) (cc_WireGuard cc) (mkSecretsConfig "" ""))
    (mkNodeConfig "" "" "" (nc_HealthAddr n) (nc_BGP n) (nc_DNS n) (nc_CDN n) (nc_Route n) (nc_Monitoring n))
    (mkGatewayConfig "" "" "" (gc_HealthAddr g) (gc_WireGuardIP g) (gc_RouteMode g)).

(** The fields that [Validate] gives a default, by the role that has them. *)
Definition default_of (c : Config) (key : string) : option string :=
  if decide (cfg_Role c = RoleController /\ key = "EF_CONTROLLER_LISTEN_ADDR") then Some ":8443"
  else if decide (cfg_Role c = RoleNode /\ key = "EF_NODE_DATA_DIR" \/ cfg_Role c = RoleGateway /\ key = "EF_GATEWAY_DATA_DIR")
  then Some "/var/lib/edgefabric" else None.

Definition or_default (d : option string) (v : string) : string :=
  match d with Some d => if decide (v = "") then d else v | None => v end.

(** What [Validate] does to what it accepts. *)
Lemma Validate_fills r c x : Validate r c = Ok x ->
  file_only x = file_only c /\ Forall (fun f => f.2 x = or_default (default_of c f.1) (f.2 c)) env_fields.
Proof.
  intros E. unfold Validate in E.
  assert (Hd : forall b a, (if bool_decide (a = "") then b else a) = or_default (Some b) a).
  { intros b a. unfold or_default. by rewrite bool_decide_decide; destruct (decide (a = "")). }
  destruct (bool_decide_reflect (cfg_Role c = RoleController)) as [Hc|Hc]; [|destruct (bool_decide_reflect (cfg_Role c = RoleNode)) as [Hn|Hn];
    [|destruct (bool_decide_reflect (cfg_Role c = RoleGateway)) as [Hg|Hg]; [|destruct (bool_decide (cfg_Role c = "")); discriminate E]]].
  all: apply rbind_Ok in E as (z & Ez & E); injection E as <-.
  1: unfold validateController in Ez. 2: unfold validateNode in Ez. 3: unfold validateGateway in Ez.
  all: repeat (apply rbind_Ok in Ez as (? & _ & Ez)); injection Ez as <-; (split; [reflexivity|]); unfold env_fields, default_of.
  1: rewrite Hc; symmetry in Hc. 2: rewrite Hn; symmetry in Hn. 3: rewrite Hg; symmetry in Hg.
  all: repeat (apply Forall_cons; split; [|]); try apply Forall_nil, I.
  all: first [reflexivity|apply Hd|exact Hc|exact Hn|exact Hg].
Qed.

Lemma known_mode_registered r pt name f noop mode : two_plugins r pt name f noop -> known_mode name mode ->
  exists x, Get r pt (or_noop mode) = Some x /\ factory_for r pt (or_noop mode) = Some x.
Proof.
  intros H2 Hk. unfold factory_for. assert (Hs : is_Some (Get r pt (or_noop mode))).
  { rewrite H2. unfold or_noop. destruct Hk as [->|[->| ->]]; cbn; repeat (case_decide || case_bool_decide); by eauto. }
  destruct Hs as [x Hx]. exists x. by rewrite Hx.
Qed.

Lemma Validate_node disk r c y : plugin_init disk ∅ = Some r -> Validate r c = Ok y -> cfg_Role y = RoleNode -> node_acceptable (cfg_Node y).
Proof.
  intros Hr E Hrole. unfold Validate in E. destruct (bool_decide (cfg_Role c = RoleController)) eqn:E1.
  { apply bool_decide_eq_true in E1. apply rbind_Ok in E as (z & _ & E). injection E as <-. cbn in Hrole. by rewrite E1 in Hrole. }
  destruct (bool_decide (cfg_Role c = RoleNode)).
  - apply rbind_Ok in E as (z & Ez & E). injection E as <-. cbn.
    destruct (proj1 (validateNode_exact disk r Hr (cfg_Node c)) (ex_intro _ z Ez)) as (? & ? & ? & ? & ?).
    unfold validateNode in Ez. repeat (apply rbind_Ok in Ez as (? & _ & Ez)). injection Ez as <-. unfold node_acceptable. cbn [nc_ControllerAddr nc_BGP nc_DNS nc_CDN nc_Route]. split_and!; assumption.
  - destruct (bool_decide (cfg_Role c = RoleGateway)) eqn:E3; [|destruct (bool_decide (cfg_Role c = "")); discriminate E].
    apply bool_decide_eq_true in E3. apply rbind_Ok in E as (z & _ & E). injection E as <-. cbn in Hrole. by rewrite E3 in Hrole.
Qed.

(** C39: each of the fourteen documented variables overrides its field when it is set
    to a value that is not empty; every other setting of the file is kept as it is,
    and of the overridden ones validation changes only an empty listen address of a
    controller and an empty data directory of a node or gateway, to their defaults.
    The result is accepted exactly when its role is one of the three and what that
    role needs is there (for a controller, a storage driver with its DSN, a key from
    which the secret store can be made, and a signing key of at least 32 bytes if one
    is set); and with an accepted node configuration each service is made by the
    plugin of the mode that was asked for, never by a fallback. *)
Theorem load_exact (disk : gmap (string * ID) Files) (r : Registry) (Hr : plugin_init disk ∅ = Some r)
    (LookupEnv : string -> option string) (data : string) (unmarshal : string -> option Config) (raw : Config)
    (Hraw : unmarshal data = Some raw) :
  let c := applyEnvOverrides LookupEnv raw in
  (forall key field, (key, field) ∈ env_fields ->
     field c = match LookupEnv key with Some v => if decide (v = "") then field raw else v | None => field raw end) /\
  (forall x, Load LookupEnv r (Some data) unmarshal = Ok x ->
     file_only x = file_only raw /\ forall key field, (key, field) ∈ env_fields -> field x = or_default (default_of c key) (field c)) /\
  ((exists x, Load LookupEnv r (Some data) unmarshal = Ok x) <-> acceptable c) /\
  (forall x, Load LookupEnv r (Some data) unmarshal = Ok x -> cfg_Role x = RoleNode ->
     forall pt mode, (pt, mode) ∈ [(PluginTypeBGP, bc_Mode (nc_BGP (cfg_Node x))); (PluginTypeDNS, dc_Mode (nc_DNS (cfg_Node x)));
                                   (PluginTypeCDN, pc_Mode (nc_CDN (cfg_Node x))); (PluginTypeRoute, rc_Mode (nc_Route (cfg_Node x)))] ->
     exists f, Get r pt (or_noop mode) = Some f /\ factory_for r pt (or_noop mode) = Some f).
Proof.
  intros c. assert (Hload : forall x, Load LookupEnv r (Some data) unmarshal = Ok x -> Validate r c = Ok x).
  { intros x Hx. unfold Load in Hx. rewrite Hraw in Hx. fold c in Hx. destruct (Validate r c) as [y|]; cbn in Hx; [exact Hx|discriminate Hx]. }
  split; [|split; [|split]].
  - intros key field Hin. exact (proj1 (Forall_forall _ env_fields) (env_fields_overridden LookupEnv raw) (key, field) Hin).
  - intros x Hx. destruct (Validate_fills r c x (Hload x Hx)) as [Hf Ha]. split; [exact Hf|].
    intros key field Hin. exact (proj1 (Forall_forall _ env_fields) Ha (key, field) Hin).
  - rewrite <- (Validate_exact disk r c Hr). unfold Load. rewrite Hraw. fold c.
    destruct (Validate r c) as [x|e]; split; intros [y Hy]; [by exists x|by exists x|discriminate Hy..].
  - intros x Hx Hrole pt mode Hin.
    destruct (Validate_node disk r c x Hr (Hload x Hx) Hrole) as (_ & Hb & Hd & Hc & Ht). destruct (builtin_two disk r Hr) as (T1 & T2 & T3 & T4).
    rewrite !elem_of_cons, elem_of_nil in Hin. destruct Hin as [Hin|[Hin|[Hin|[Hin|[]]]]]; injection Hin as -> ->; eapply known_mode_registered; eassumption.
Qed.

(** ** Samples *)

Definition boot_outside : Outside :=
  mkOutside Z.of_nat N.of_nat (fun _ k => Some (string_of_list_ascii (repeat "k"%char k))) Some (fun _ => Ok 0) (fun _ _ => None)
    (fun _ _ => ("", None)) (fun _ _ _ _ => None).
Definition boot_key : string := Std_EncodeToString (string_of_list_ascii (repeat "k"%char 32)).
Definition boot_config : Config :=
  mkConfig "" "" (mkControllerConfig "" "https://ef.example" (mkStorageConfig "postgres" "postgres://db") (mkTLSConfig false "" "" false) [] false
      (mkNotifications [] (mkSlackConfig "" "") (mkEmailConfig "" 0 "" "" "" [] false)) (mkLeaderElection false "") (mkWireGuardHub 51820 "10.100.0.0/16" "10.100.0.1/16" "" "" "") (mkSecretsConfig "" ""))
    (mkNodeConfig "" "" "" ":9090" (mkBGPConfig false "" 0 "") (mkDNSConfig false "" "" false) (mkCDNConfig false "" "" "" 0) (mkRouteConfig false "")
      (mkMonitoring "" "" "" ""))
    (mkGatewayConfig "" "" "" "" "" "").
Definition boot_env (key : string) : option string :=
  if bool_decide (key = "EF_ROLE") then Some "controller"
  else if bool_decide (key = "EF_CONTROLLER_SECRETS_ENCRYPTION_KEY") then Some boot_key else None.
Definition boot_loaded : Config := applyEnvOverrides boot_env boot_config.

Lemma boot_acceptable : acceptable boot_loaded.
Proof.
  left. split; [vm_compute; reflexivity|]. split_and!; [right; vm_compute; reflexivity|done| |left; vm_compute; reflexivity].
  apply NewStore_Ok. exists (string_of_list_ascii (repeat "k"%char 32)). split; vm_compute; reflexivity.
Qed.

Lemma load_exact_witness : exists r x, plugin_init ∅ ∅ = Some r /\
  Load boot_env r (Some "file") (fun _ => Some boot_config) = Ok x /\
  cc_ListenAddr (cfg_Controller x) = ":8443" /\ nc_HealthAddr (cfg_Node x) = ":9090".
Proof.
  destruct (plugin_init_two ∅) as (r & Hr & _). exists r.
  destruct (load_exact ∅ r Hr boot_env "file" (fun _ => Some boot_config) boot_config eq_refl) as (_ & Hkept & Hacc & _).
  destruct (proj2 Hacc boot_acceptable) as [x Hx]. exists x. split; [exact Hr|]. split; [exact Hx|].
  destruct (Hkept x Hx) as [Hf He]. split.
  - rewrite (He "EF_CONTROLLER_LISTEN_ADDR" (fun c => cc_ListenAddr (cfg_Controller c))); [vm_compute; reflexivity|].
    unfold env_fields. do 2 right. left.
  - exact (f_equal (fun c => nc_HealthAddr (cfg_Node c)) Hf).
Defined.

Lemma repeat_length_string k : String.length (string_of_list_ascii (repeat "k"%char k)) = k.
Proof. induction k as [|k IH]; cbn; [done|]. by rewrite IH. Qed.

Lemma plain_hashes salt pw : (String.length pw <= 72)%nat -> is_Some (bcrypt_GenerateFromPassword (AuthLib:=plain_auth) salt pw).
Proof. intros Hpw. unfold bcrypt_GenerateFromPassword, plain_auth. destruct (Nat.ltb_spec 72 (String.length pw)); [lia|by eexists]. Qed.

Lemma controller_boots_witness : exists st w,
  RunController_start (fun _ => true) (fun _ _ => true) boot_outside 0 boot_loaded (empty_catalog, mkPEnv (mkSql emptyDB true []) [] 0) = (Ok st, w) /\
  ct_schema w.1 = postgres_schema /\ is_Some (su_password st).
Proof.
  destruct (controller_boots (H:=plain_auth) (H0:=plain_auth_laws) (H1:=tag_aead) (H2:=tag_aead_laws) (fun _ => true) (fun _ _ => true) boot_outside
    (fun t k => ex_intro _ _ (conj eq_refl (repeat_length_string k))) (fun priv => ex_intro _ priv eq_refl)
    plain_hashes eq_refl 0 boot_loaded emptyDB true [] 0) as (st & ct & e' & E & (dr & Edr & Ect) & _ & _ & (pw & _ & _ & Hpw & _) & _).
  - destruct boot_acceptable as [[_ H]|[[H _]|[H _]]]; [exact H|discriminate H..].
  - reflexivity.
  - reflexivity.
  - reflexivity.
  - exists st, (ct, e'). split; [exact E|]. split; [|by exists pw]. cbn [fst]. rewrite Ect. injection Edr as <-. exact postgres_migrated_schema.
Defined.
