(* ===== verification/Status.v ===== *)
(** * Overview and usage (internal/api/v1/status.go, internal/api/v1/tenant_usage.go)

    [Status] counts what the caller may see; a listing that fails counts as nothing.
    [GetUsage] sums the counters of one tenant; the registry of the metrics library
    and its float64 are arguments. *)

From Stdlib Require Import ZArith Lia Ascii String.
From S2P Require Import Prelude GoStrings GoBase64 Secrets Domain Schema Storage StoreAccess StoreDns StoreCdn StoreProvision StoreInventory.
From S2P Require Import GoHttp Fleet RouteService Token Auth Api ApiHandlers InventoryTheorems Plugin.

Open Scope Z_scope.

(** ** status.go *)

(** Services that are nil, the catalog the schema version is read from and the answer
    of [isLeader] if it is not nil. *)
Record StatusHandler := mkStatusHandler {
  sh_routeSvc : bool; sh_dnsSvc : bool; sh_cdnSvc : bool; sh_schemaVersioner : option Catalog; sh_isLeader : option bool
}.
(** The variables of pkg/version, which the linker sets. *)
Record Build := mkBuild { bd_Version : string; bd_Commit : string; bd_BuildTime : string }.

Definition one_row : ListParams := mkListParams 0 1 "".
Definition rows200 : ListParams := mkListParams 0 200 "".

(** A listing whose error is logged. *)
Definition listed {A} (m : stM SqlState (list A * Z)) : hM (list A * Z) := fun s =>
  match m s with (Ok x, s) => (inr x, s) | (Err _, s) => (inr ([], 0), s) end.
Definition counted {A} (m : stM SqlState (list A * Z)) : hM Z := x ← listed m; mret x.2.

Definition incr (m : gmap string Z) (k : string) : gmap string Z := <[k := default 0 (m !! k) + 1]> m.

(** The loop over nodes, and over gateways. *)
Definition tally {A} (status : A -> string) (online : string) (sync : A -> option Time) (threshold : Time) (l : list A) : gmap string Z * Z :=
  foldl (fun '(byStatus, stale) x =>
    (incr byStatus (status x),
     if bool_decide (status x = online) && match sync x with None => true | Some t => t <? threshold end then stale + 1 else stale)) (∅, 0) l.

Fixpoint sum_tenants {A} (list_of : ID -> stM SqlState (list A * Z)) (ts : list Tenant) (n : Z) : hM Z :=
  match ts with
  | [] => mret n
  | t :: ts => c ← counted (list_of (tenant_ID t)); sum_tenants list_of ts (n + c)
  end.

Definition scoped_total {A} (present : bool) (tenantFilter : option ID) (list_of : ID -> stM SqlState (list A * Z)) : hM Z :=
  if negb present then mret 0
  else match tenantFilter with
       | Some t => counted (list_of t)
       | None => ts ← listed (tenant_List rows200); sum_tenants list_of ts.1 0
       end.

Definition AllPluginTypes : list PluginType := [PluginTypeBGP; PluginTypeDNS; PluginTypeCDN; PluginTypeRoute].

Definition five_minutes : Z := 5 * 60 * 1000000000.

Section status.
Context (b : Build) (h : StatusHandler) (plugins : Registry) (now : Time).

Definition Status : Handler := HandlerFunc (fun r =>
  claims ← ctx_claims r;
  let tenantFilter := cl_TenantID claims in
  tenants ← match tenantFilter with None => counted (tenant_List one_row) | Some _ => mret 0 end;
  users ← counted (user_List tenantFilter one_row);
  let staleThreshold := now - five_minutes in
  nodes ← listed (fleet_ListNodes None tenantFilter rows200);
  let '(nodesByStatus, staleNodes) := tally node_Status NodeStatusOnline node_LastConfigSync staleThreshold nodes.1 in
  gateways ← listed (fleet_ListGateways tenantFilter rows200);
  let '(gatewaysByStatus, staleGateways) := tally gw_Status GatewayStatusOnline gw_LastConfigSync staleThreshold gateways.1 in
  routes ← scoped_total (sh_routeSvc h) tenantFilter (fun t => svc_ListRoutes t one_row);
  zones ← scoped_total (sh_dnsSvc h) tenantFilter (fun t => sqlite_ListDNSZones t one_row);
  sites ← scoped_total (sh_cdnSvc h) tenantFilter (fun t => sqlite_ListCDNSites t one_row);
  let version := match sh_schemaVersioner h with
                 | Some ct => match (SchemaVersion ct).1 with Ok v => v | Err _ => 0 end
                 | None => 0
                 end in
  mret (JSON 200 (BOverview (mkStatusResponse (bd_Version b) (bd_Commit b) (bd_BuildTime b) tenants users
    nodes.2 nodesByStatus gateways.2 gatewaysByStatus staleNodes staleGateways routes zones sites version
    (default false (sh_isLeader h)) (list_to_map ((fun pt => (pt, RegisteredNames plugins pt)) <$> AllPluginTypes)))))).

(** As [Register] mounts it, behind the middleware that authenticates. *)
Definition Status_endpoint : Handler := RequirePermission ActionRead ResourceNode (Some TenantFromClaims) Status.
End status.

(** ** tenant_usage.go *)

Section usage.
Context {F : Type} (zero : F) (add : F -> F -> F).

Record Metric := mkMetric { me_Label : list (string * string); me_Counter : option F }.
Record MetricFamily := mkMetricFamily { mf_Name : string; mf_Metric : list Metric }.
Record tenantUsageResponse := mkTenantUsage { us_HTTPRequests : F; us_CDNBandwidthBytes : F; us_DNSQueries : F; us_RouteBytesForwarded : F }.

Definition has_label (name value : string) (m : Metric) : bool :=
  existsb (fun lp => bool_decide (lp.1 = name) && bool_decide (lp.2 = value)) (me_Label m).

Definition sumByTenantLabel (metrics : list Metric) (tenantID : string) : F :=
  foldl (fun total m =>
    if has_label "tenant_id" tenantID m then match me_Counter m with Some c => add total c | None => total end else total) zero metrics.

Definition usage_family (tenantID : string) (resp : tenantUsageResponse) (mf : MetricFamily) : tenantUsageResponse :=
  let sum := sumByTenantLabel (mf_Metric mf) tenantID in
  let name := mf_Name mf in
  if bool_decide (name = "edgefabric_tenant_http_requests_total") then
    mkTenantUsage sum (us_CDNBandwidthBytes resp) (us_DNSQueries resp) (us_RouteBytesForwarded resp)
  else if bool_decide (name = "edgefabric_tenant_cdn_bandwidth_bytes_total") then
    mkTenantUsage (us_HTTPRequests resp) sum (us_DNSQueries resp) (us_RouteBytesForwarded resp)
  else if bool_decide (name = "edgefabric_tenant_dns_queries_total") then
    mkTenantUsage (us_HTTPRequests resp) (us_CDNBandwidthBytes resp) sum (us_RouteBytesForwarded resp)
  else if bool_decide (name = "edgefabric_tenant_route_bytes_forwarded_total") then
    mkTenantUsage (us_HTTPRequests resp) (us_CDNBandwidthBytes resp) (us_DNSQueries resp) sum
  else resp.

Definition GetUsage (Gather : option (list MetricFamily)) (tenantID : string) : ApiReply + tenantUsageResponse :=
  if bool_decide (tenantID = "") then inl (WriteError 400 "bad_request" (Msg "tenant id required"))
  else match Gather with
       | None => inl (WriteError 500 "internal_error" (Msg "failed to gather metrics"))
       | Some families => inr (foldl (usage_family tenantID) (mkTenantUsage zero zero zero zero) families)
       end.

(** The chain of [Register]: [RequirePermission] with [TenantFromClaims]. *)
Definition usage_endpoint (claims : Claims) (Gather : option (list MetricFamily)) (tenantID : string) : ApiReply + tenantUsageResponse :=
  match Authorize claims ActionRead ResourceTenant (cl_TenantID claims) with
  | Err _ => inl (WriteError 403 "forbidden" (Msg "insufficient permissions"))
  | Ok _ => GetUsage Gather tenantID
  end.
End usage.

(** ** What is counted *)

Lemma incr_lookup m k k' : default 0 (incr m k !! k') = default 0 (m !! k') + (if decide (k = k') then 1 else 0).
Proof.
  unfold incr. destruct (decide (k = k')) as [->|Hk]; [by rewrite lookup_insert_eq|]. rewrite lookup_insert_ne by done. lia.
Qed.

(** The entry of a status is the number of rows with it, and the rows counted as
    stale are those that are online and have not synced since the threshold. *)
Definition is_stale {A} (status : A -> string) (online : string) (sync : A -> option Time) (threshold : Time) (x : A) : Prop :=
  status x = online /\ from_option (fun t => t < threshold) True (sync x).
#[export] Instance is_stale_dec {A} status online sync threshold (x : A) : Decision (is_stale status online sync threshold x).
Proof.
  unfold is_stale. destruct (sync x); cbn [from_option]; apply _.
Defined.

Section tally.
Context {A : Type} (status : A -> string) (online : string) (sync : A -> option Time) (threshold : Time).
Notation stale := (is_stale status online sync threshold).

Lemma tally_from l m n : exists m', foldl (fun '(byStatus, c) x =>
    (incr byStatus (status x),
     if bool_decide (status x = online) && match sync x with None => true | Some t => t <? threshold end then c + 1 else c)) (m, n) l =
    (m', n + Z.of_nat (length (filter stale l))) /\
  forall k, default 0 (m' !! k) = default 0 (m !! k) + Z.of_nat (length (filter (fun x => status x = k) l)).
Proof.
  revert m n. induction l as [|x l IH]; intros m n; cbn [foldl].
  { exists m. cbn. split; [f_equal; lia|intros; lia]. }
  destruct (IH (incr m (status x)) (if bool_decide (status x = online) && match sync x with None => true | Some t => t <? threshold end then n + 1 else n))
    as (m' & -> & Hm). exists m'. split.
  - f_equal. assert (Hb : bool_decide (status x = online) && match sync x with None => true | Some t => t <? threshold end = bool_decide (stale x)).
    { apply eq_true_iff_eq. rewrite andb_true_iff, !bool_decide_eq_true. unfold is_stale. destruct (sync x) as [t|]; cbn; [by rewrite Z.ltb_lt|tauto]. }
    rewrite Hb, filter_cons, bool_decide_decide. destruct (decide (stale x)); cbn [length]; lia.
  - intros k. rewrite Hm, incr_lookup, filter_cons. destruct (decide (status x = k)); cbn [length]; lia.
Qed.

Lemma tally_spec l : (tally status online sync threshold l).2 = Z.of_nat (length (filter stale l)) /\
  forall k, default 0 ((tally status online sync threshold l).1 !! k) = Z.of_nat (length (filter (fun x => status x = k) l)).
Proof.
  unfold tally. destruct (tally_from l ∅ 0) as (m' & -> & Hm). cbn [fst snd]. split; [lia|]. intros k. by rewrite Hm, lookup_empty.
Qed.
End tally.

(** Rows grouped by an owner that is one of a list are all counted once. *)
Lemma sum_indicator (ids : list ID) x : NoDup ids -> x ∈ ids -> sum_list_with (fun t => if decide (x = t) then 1%nat else 0%nat) ids = 1%nat.
Proof.
  induction 1 as [|t ids Ht Hnd IH]; intros Hx; [by apply not_elem_of_nil in Hx|]. cbn. destruct (decide (x = t)) as [->|Hne].
  - assert (Hz : forall l, t ∉ l -> sum_list_with (fun u => if decide (t = u) then 1%nat else 0%nat) l = 0%nat).
    { induction l as [|u l IHl]; [done|]. intros [? ?]%not_elem_of_cons. cbn. rewrite decide_False by done. by apply IHl. }
    by rewrite Hz.
  - apply elem_of_cons in Hx as [?|Hx]; [done|]. by rewrite IH.
Qed.

Lemma sum_by_owner {A} (owner : A -> ID) (ids : list ID) (l : list A) : NoDup ids -> (forall x, x ∈ l -> owner x ∈ ids) ->
  sum_list_with (fun t => length (filter (fun x => owner x = t) l)) ids = length l.
Proof.
  intros Hnd. induction l as [|x l IH]; intros Hin.
  - clear. induction ids; [done|]. cbn. done.
  - cbn [length]. rewrite <- IH by (intros; apply Hin; by right).
    rewrite <- Nat.add_1_l, <- (sum_indicator ids (owner x) Hnd) by (apply Hin; left).
    clear. induction ids as [|t ids IHi]; [done|]. cbn [sum_list_with]. rewrite IHi, filter_cons.
    destruct (decide (owner x = t)); cbn [length]; lia.
Qed.

(** ** The reply *)

Lemma bind_inr {A B} (m : hM A) (k : A -> hM B) s a : m s = (inr a, s) -> (m ≫= k) s = k a s.
Proof. intros E. unfold mbind, hM_bind. by rewrite E. Qed.

Lemma listed_Ok {A} (m : stM SqlState (list A * Z)) s x : m s = (Ok x, s) -> listed m s = (inr x, s).
Proof. intros E. unfold listed. by rewrite E. Qed.
Lemma counted_Ok {A} (m : stM SqlState (list A * Z)) s x : m s = (Ok x, s) -> counted m s = (inr x.2, s).
Proof. intros E. unfold counted. by rewrite (bind_inr _ _ _ _ (listed_Ok _ _ _ E)). Qed.

Lemma sum_tenants_Ok {A} (list_of : ID -> stM SqlState (list A * Z)) (count : ID -> nat) s ts n :
  (forall t, exists l, list_of t s = (Ok (l, Z.of_nat (count t)), s)) ->
  sum_tenants list_of ts n s = (inr (n + Z.of_nat (sum_list_with count (tenant_ID <$> ts))), s).
Proof.
  intros Hl. revert n. induction ts as [|t ts IH]; intros n; cbn [sum_tenants].
  - unfold mret, hM_ret. cbn. do 2 f_equal. lia.
  - destruct (Hl (tenant_ID t)) as [l El]. rewrite (bind_inr _ _ _ _ (counted_Ok _ _ _ El)), IH. cbn. do 2 f_equal. lia.
Qed.

(** What the foreign keys give, and the range of serials. *)
Record countable (d : DB) : Prop := {
  cb_tenants : table tenant_ID (fun _ => True) (tenants d);
  cb_routes : map_Forall (fun _ x => refers (tenants d) (route_TenantID x)) (routes d);
  cb_zones : map_Forall (fun _ x => refers (tenants d) (zone_TenantID x) /\ zone_Serial x < 2 ^ 32) (dns_zones d);
  cb_sites : map_Forall (fun _ x => refers (tenants d) (site_TenantID x)) (cdn_sites d)
}.

Lemma rows_of_elem {V} (m : gmap ID V) x : x ∈ rows_of m <-> exists k, m !! k = Some x.
Proof.
  unfold rows_of. rewrite list_elem_of_fmap. split.
  - intros ([k y] & -> & Hk%elem_of_map_to_list). by exists k.
  - intros [k Hk]. exists (k, x). split; [done|]. by apply elem_of_map_to_list.
Qed.

(** The rows of a table that belong to the scope of a caller. *)
Definition in_scope {V} (owner : V -> option ID) (scope : option ID) (m : gmap ID V) : list V := filter (in_tenant owner scope) (rows_of m).

Lemma in_scope_all {V} (owner : V -> option ID) (m : gmap ID V) : in_scope owner None m = rows_of m.
Proof. unfold in_scope. induction (rows_of m) as [|x l IH]; [done|]. rewrite filter_cons_True by (by left). by rewrite IH. Qed.

Section totals.
Context (d : DB) (fk : bool) (Hd : countable d).
Notation s := (mkSql d fk []).

Lemma all_tenants : (size (tenants d) <= 200)%nat -> exists ts, tenant_List rows200 s = (Ok (ts, Z.of_nat (size (tenants d))), s) /\
  NoDup (tenant_ID <$> ts) /\ forall t, refers (tenants d) t -> t ∈ tenant_ID <$> ts.
Proof using Hd.
  intros Hn. unfold tenant_List, sqlite_ListTenants, mbind, stM_bind. rewrite calm_query by done. cbv beta iota. rewrite calm_query by done.
  cbn [sq_db]. eexists. split; [reflexivity|].
  set (l := merge_sort _ _). assert (Hl : l ≡ₚ rows_of (tenants d)) by apply merge_sort_Permutation.
  rewrite page_all; [|done|done|cbn; rewrite Hl; unfold rows_of; rewrite length_fmap, length_map_to_list; lia].
  assert (Hk : tenant_ID <$> rows_of (tenants d) = (map_to_list (tenants d)).*1).
  { unfold rows_of. rewrite <- list_fmap_compose. apply list_fmap_ext. intros i [k t] Ht. cbn.
    apply list_elem_of_lookup_2, elem_of_map_to_list in Ht. by destruct (cb_tenants d Hd k t Ht). }
  split; [rewrite Hl, Hk; apply NoDup_fst_map_to_list|].
  intros t [x Hx]. rewrite Hl, Hk. apply list_elem_of_fmap. exists (t, x). split; [done|]. by apply elem_of_map_to_list.
Qed.

Lemma scoped_total_Ok {V} (owner : V -> ID) (m : gmap ID V) (present : bool) scope (list_of : ID -> stM SqlState (list V * Z)) :
  (forall t, exists l, list_of t s = (Ok (l, Z.of_nat (length (filter (fun x => owner x = t) (rows_of m)))), s)) ->
  map_Forall (fun _ x => refers (tenants d) (owner x)) m -> (scope = None -> (size (tenants d) <= 200)%nat) ->
  scoped_total present scope list_of s = (inr (if present then Z.of_nat (length (in_scope (fun x => Some (owner x)) scope m)) else 0), s).
Proof using Hd.
  intros Hl Hm Hs. unfold scoped_total. destruct present; [|done]. cbn [negb]. destruct scope as [t|].
  - destruct (Hl t) as [l El]. rewrite (counted_Ok _ _ _ El). cbn [snd]. do 3 f_equal. unfold in_scope.
    f_equal. apply list_filter_iff. intros x. unfold in_tenant. naive_solver.
  - destruct (all_tenants (Hs eq_refl)) as (ts & Ets & Hnd & Hall). rewrite (bind_inr _ _ _ _ (listed_Ok _ _ _ Ets)).
    rewrite (sum_tenants_Ok _ _ _ _ _ Hl), sum_by_owner; [|exact Hnd|].
    + do 2 f_equal. rewrite Z.add_0_l. f_equal. by rewrite in_scope_all.
    + intros x [k Hk]%rows_of_elem. by apply Hall, (Hm k x).
Qed.

Lemma routes_listed t : exists l, svc_ListRoutes t one_row s = (Ok (l, Z.of_nat (length (filter (fun x => route_TenantID x = t) (rows_of (routes d))))), s).
Proof.
  unfold svc_ListRoutes, sqlite_ListRoutes, mbind, stM_bind. rewrite calm_query by done. cbv beta iota. rewrite calm_query by done.
  cbn [sq_db]. eexists. do 4 f_equal. unfold route_rows. by rewrite merge_sort_Permutation.
Qed.

Lemma scan_zones_Ok l : Forall (fun z => zone_Serial z < 2 ^ 32) l -> scan_zones l = Ok l.
Proof.
  induction 1 as [|z l Hz Hl IH]; [done|]. cbn [scan_zones]. unfold scan_zone. apply Z.ltb_lt in Hz. rewrite Hz. cbn. by rewrite IH.
Qed.

Lemma zones_listed t : exists l, sqlite_ListDNSZones t one_row s = (Ok (l, Z.of_nat (length (filter (fun x => zone_TenantID x = t) (rows_of (dns_zones d))))), s).
Proof using Hd.
  unfold sqlite_ListDNSZones. rewrite calm_query by done. cbn [sq_db]. set (sel := filter _ _).
  rewrite scan_zones_Ok; [by eexists|]. unfold page. apply Forall_take, Forall_drop. rewrite merge_sort_Permutation.
  apply Forall_forall. intros x [_ [k Hk]%rows_of_elem]%list_elem_of_filter. by destruct (cb_zones d Hd k x Hk).
Qed.

Lemma sites_listed t : exists l, sqlite_ListCDNSites t one_row s = (Ok (l, Z.of_nat (length (filter (fun x => site_TenantID x = t) (rows_of (cdn_sites d))))), s).
Proof. unfold sqlite_ListCDNSites. rewrite calm_query by done. by eexists. Qed.

Lemma users_listed scope : exists l, user_List scope one_row s = (Ok (l, Z.of_nat (length (in_scope user_TenantID scope (users d)))), s).
Proof.
  unfold user_List, sqlite_ListUsers, mbind, stM_bind. rewrite calm_query by done. cbv beta iota. rewrite calm_query by done. by eexists.
Qed.

Lemma nodes_listed scope : (length (in_scope node_TenantID scope (nodes d)) <= 200)%nat ->
  exists l, fleet_ListNodes None scope rows200 s = (Ok (l, Z.of_nat (length (in_scope node_TenantID scope (nodes d)))), s) /\
    l ≡ₚ in_scope node_TenantID scope (nodes d).
Proof.
  intros Hn. unfold fleet_ListNodes, sqlite_ListNodes, mbind, stM_bind. rewrite calm_query by done. cbv beta iota. rewrite calm_query by done.
  eexists. split; [reflexivity|]. cbn [sq_db]. rewrite page_all; [apply merge_sort_Permutation|done|done|].
  rewrite merge_sort_Permutation. change (Z.of_nat (length (in_scope node_TenantID scope (nodes d))) <= 200). lia.
Qed.

Lemma gateways_listed scope : (length (in_scope (fun g => Some (gw_TenantID g)) scope (gateways d)) <= 200)%nat ->
  exists l, fleet_ListGateways scope rows200 s = (Ok (l, Z.of_nat (length (in_scope (fun g => Some (gw_TenantID g)) scope (gateways d)))), s) /\
    l ≡ₚ in_scope (fun g => Some (gw_TenantID g)) scope (gateways d).
Proof.
  intros Hn. unfold fleet_ListGateways, sqlite_ListGateways, mbind, stM_bind. rewrite calm_query by done. cbv beta iota. rewrite calm_query by done.
  eexists. split; [reflexivity|]. cbn [sq_db]. rewrite page_all; [apply merge_sort_Permutation|done|done|].
  rewrite merge_sort_Permutation. change (Z.of_nat (length (in_scope (fun g => Some (gw_TenantID g)) scope (gateways d))) <= 200). lia.
Qed.
End totals.

(** Rows by status, and stale rows, do not depend on the order of the listing. *)
Lemma tally_rows {V} (status : V -> string) online sync threshold (l rows : list V) : l ≡ₚ rows ->
  (tally status online sync threshold l).2 = Z.of_nat (length (filter (is_stale status online sync threshold) rows)) /\
  forall k, default 0 ((tally status online sync threshold l).1 !! k) = Z.of_nat (length (filter (fun x => status x = k) rows)).
Proof.
  intros Hl. destruct (tally_spec status online sync threshold l) as [H1 H2]. split.
  - by rewrite H1, Hl.
  - intros k. by rewrite H2, Hl.
Qed.

Lemma read_authorized claims : cl_Role claims = RoleSuperUser \/ is_Some (cl_TenantID claims) ->
  forall resource, Authorize claims ActionRead resource (cl_TenantID claims) = Ok tt.
Proof.
  intros Hc resource. unfold Authorize. case_bool_decide as Hrole; [done|]. destruct Hc as [?|[t Ht]]; [done|].
  change (writes ActionRead) with false. rewrite andb_false_r, Ht, (bool_decide_true (t = t)) by done. cbn [negb]. by rewrite andb_false_r.
Qed.

(** What an overview has to say of the rows a caller may see. *)
Record overview_of (d : DB) (h : StatusHandler) (now : Time) (scope : option ID) (o : statusResponse) : Prop := {
  ov_tenants : sr_TenantCount o = match scope with None => Z.of_nat (size (tenants d)) | Some _ => 0 end;
  ov_users : sr_UserCount o = Z.of_nat (length (in_scope user_TenantID scope (users d)));
  ov_nodes : sr_NodeCount o = Z.of_nat (length (in_scope node_TenantID scope (nodes d)));
  ov_nodes_by k : default 0 (sr_NodesByStatus o !! k) = Z.of_nat (length (filter (fun n => node_Status n = k) (in_scope node_TenantID scope (nodes d))));
  ov_stale_nodes : sr_StaleNodeCount o = Z.of_nat (length (filter (is_stale node_Status NodeStatusOnline node_LastConfigSync (now - five_minutes))
    (in_scope node_TenantID scope (nodes d))));
  ov_gateways : sr_GatewayCount o = Z.of_nat (length (in_scope (fun g => Some (gw_TenantID g)) scope (gateways d)));
  ov_gateways_by k : default 0 (sr_GatewaysByStatus o !! k) =
    Z.of_nat (length (filter (fun g => gw_Status g = k) (in_scope (fun g => Some (gw_TenantID g)) scope (gateways d))));
  ov_stale_gateways : sr_StaleGatewayCount o = Z.of_nat (length (filter (is_stale gw_Status GatewayStatusOnline gw_LastConfigSync (now - five_minutes))
    (in_scope (fun g => Some (gw_TenantID g)) scope (gateways d))));
  ov_routes : sr_RouteCount o = if sh_routeSvc h then Z.of_nat (length (in_scope (fun x => Some (route_TenantID x)) scope (routes d))) else 0;
  ov_zones : sr_DNSZoneCount o = if sh_dnsSvc h then Z.of_nat (length (in_scope (fun x => Some (zone_TenantID x)) scope (dns_zones d))) else 0;
  ov_sites : sr_CDNSiteCount o = if sh_cdnSvc h then Z.of_nat (length (in_scope (fun x => Some (site_TenantID x)) scope (cdn_sites d))) else 0
}.

(** C40: the overview is exact and stays within the tenant of its caller: on a database
    whose references hold and whose listings fit in a page of 200, every authorised caller
    gets, without a change to the database, the numbers of exactly the rows of their
    tenant, or of all rows if they have none: users, nodes and gateways in total,
    by status and stale, routes, zones and sites; only the latter callers learn the number
    of tenants. *)
Theorem status_exact (b : Build) (h : StatusHandler) (plugins : Registry) (now : Time) (d : DB) (fk : bool) (r : HttpReq) (claims : Claims)
    (Hd : countable d) (Hr : hq_claims r = Some claims) (Hauth : cl_Role claims = RoleSuperUser \/ is_Some (cl_TenantID claims))
    (Hn : (length (in_scope node_TenantID (cl_TenantID claims) (nodes d)) <= 200)%nat)
    (Hg : (length (in_scope (fun g => Some (gw_TenantID g)) (cl_TenantID claims) (gateways d)) <= 200)%nat)
    (Ht : cl_TenantID claims = None -> (size (tenants d) <= 200)%nat) :
  exists o, Status_endpoint b h plugins now r (mkSql d fk []) = (JSON 200 (BOverview o), mkSql d fk []) /\
    overview_of d h now (cl_TenantID claims) o.
Proof.
  destruct (users_listed d fk (cl_TenantID claims)) as [lu Eu]. destruct (nodes_listed d fk _ Hn) as (ln & En & Pn).
  destruct (gateways_listed d fk _ Hg) as (lg & Eg & Pg).
  destruct (tally_rows node_Status NodeStatusOnline node_LastConfigSync (now - five_minutes) _ _ Pn) as [Sn Bn].
  destruct (tally_rows gw_Status GatewayStatusOnline gw_LastConfigSync (now - five_minutes) _ _ Pg) as [Sg Bg].
  assert (Et : match cl_TenantID claims with None => counted (tenant_List one_row) | Some _ => mret 0 end (mkSql d fk []) =
    (inr match cl_TenantID claims with None => Z.of_nat (size (tenants d)) | Some _ => 0 end, mkSql d fk [])) by (by destruct (cl_TenantID claims)).
  assert (Hz : map_Forall (fun _ x => refers (tenants d) (zone_TenantID x)) (dns_zones d)) by (intros k x Hx; by destruct (cb_zones d Hd k x Hx)).
  unfold Status_endpoint, RequirePermission, ClaimsFromContext. rewrite Hr. change (Some TenantFromClaims ≫= (fun f => f r)) with (TenantFromClaims r).
  unfold TenantFromClaims, ClaimsFromContext. rewrite Hr. cbn [mbind option_bind]. rewrite (read_authorized _ Hauth).
  unfold Status, HandlerFunc, ctx_claims, ClaimsFromContext. rewrite Hr. rewrite (bind_inr (mret claims) _ _ claims eq_refl). cbv zeta.
  rewrite (bind_inr _ _ _ _ Et), (bind_inr _ _ _ _ (counted_Ok _ _ _ Eu)), (bind_inr _ _ _ _ (listed_Ok _ _ _ En)). cbn [fst snd].
  destruct (tally node_Status _ _ _ ln) as [mn cn]. rewrite (bind_inr _ _ _ _ (listed_Ok _ _ _ Eg)). cbn [fst snd].
  destruct (tally gw_Status _ _ _ lg) as [mg cg].
  rewrite (bind_inr _ _ _ _ (scoped_total_Ok d fk Hd route_TenantID (routes d) _ _ _ (routes_listed d fk) (cb_routes d Hd) Ht)).
  rewrite (bind_inr _ _ _ _ (scoped_total_Ok d fk Hd zone_TenantID (dns_zones d) _ _ _ (zones_listed d fk Hd) Hz Ht)).
  rewrite (bind_inr _ _ _ _ (scoped_total_Ok d fk Hd site_TenantID (cdn_sites d) _ _ _ (sites_listed d fk) (cb_sites d Hd) Ht)).
  eexists. split; [reflexivity|]. by split.
Qed.

(** Nothing ties the tenant of the path to the caller: whoever belongs to some tenant
    reads the usage of every tenant. *)
Lemma usage_not_scoped {F} (zero : F) (add : F -> F -> F) claims families tenantID :
  cl_Role claims = RoleSuperUser \/ is_Some (cl_TenantID claims) ->
  usage_endpoint zero add claims families tenantID = GetUsage zero add families tenantID.
Proof. intros Hc. unfold usage_endpoint. by rewrite (read_authorized _ Hc). Qed.

Definition status_tenant (id : ID) : Tenant := mkTenant id "t" "t" TenantStatusActive "" 0 0.
Definition status_node (id tenant : ID) (status : NodeStatus) : Node :=
  mkNode id (Some tenant) "n" "n" "" "" "" status "" "" 22 "" None "" None None [] "" 0 0.
Definition status_db : DB :=
  upd_tenants (fun _ => <[1%N := status_tenant 1]> {[2%N := status_tenant 2]})
    (upd_nodes (fun _ => <[5%N := status_node 5 1 NodeStatusOnline]> {[6%N := status_node 6 2 NodeStatusOnline]}) emptyDB).
Definition status_claims : Claims := mkClaims 3%N (Some 1%N) RoleReadOnly None false.
Definition status_req : HttpReq := mkHttpReq "" None "/api/v1/status" (fun _ => "") "" "" (Some status_claims).

Lemma status_exact_witness : exists o, countable status_db /\
  Status_endpoint (mkBuild "dev" "unknown" "unknown") (mkStatusHandler true true true None None) ∅ 0 status_req (mkSql status_db true []) =
    (JSON 200 (BOverview o), mkSql status_db true []) /\ sr_NodeCount o = 1 /\ sr_StaleNodeCount o = 1.
Proof.
  assert (Hd : countable status_db).
  { split; [|intros k x Hx; destruct (lookup_empty_Some (M:=gmap ID) k x Hx)..]. intros k t Ht. split; [|done].
    change ((<[1%N := status_tenant 1]> {[2%N := status_tenant 2]} : gmap ID Tenant) !! k = Some t) in Ht.
    apply lookup_insert_Some in Ht as [[<- <-]|[_ [<- <-]%lookup_singleton_Some]]; reflexivity. }
  destruct (status_exact (mkBuild "dev" "unknown" "unknown") (mkStatusHandler true true true None None) ∅ 0 status_db true status_req status_claims Hd)
    as (o & E & Ho); [reflexivity|right; by eexists|vm_compute; lia|vm_compute; lia|discriminate|].
  exists o. split; [exact Hd|]. split; [exact E|]. split; [rewrite (ov_nodes _ _ _ _ _ Ho)|rewrite (ov_stale_nodes _ _ _ _ _ Ho)]; vm_compute; reflexivity.
Defined.
