(* ===== verification/Operator.v ===== *)
(** * The Kubernetes operator (operator/api/v1alpha1, operator/pkg/efclient,
    operator/internal/controller)

    Six reconcilers with one body each: they differ in the finalizer, in the calls of
    the client and in the status fields they fill in, which a [Kind] collects.  The
    API server of Kubernetes and controller-runtime's finalizer helpers are the
    class [Kube]; the EdgeFabric API is whatever answers the HTTP requests of the
    client, in [Operator_http] below the controller of this repository.

    A reconciler runs for one object at a time and its reads are current; a write
    of another party between the read and an update makes that update fail, so a
    failing update stands for the interleaving. *)

From Stdlib Require Import ZArith Lia Ascii String.
From S2P Require Import Prelude GoStrings Domain Storage.

Open Scope Z_scope.

(** ** types.go *)

Record TenantSpec := mkTenantSpec { tsp_Name : string; tsp_Slug : string }.
Record NodeSpec := mkNodeSpec {
  nsp_Name : string; nsp_Hostname : string; nsp_Region : string; nsp_PublicIP : string; nsp_TenantRef : string
}.
Record GatewaySpec := mkGatewaySpec { gsp_Name : string; gsp_PublicIP : string; gsp_TenantRef : string }.
Record DNSRecordSpec := mkDNSRecordSpec {
  rsp_Name : string; rsp_Type : string; rsp_Value : string; rsp_TTL : Z; rsp_Priority : option Z
}.
Record DNSZoneSpec := mkDNSZoneSpec { zsp_Name : string; zsp_TenantRef : string; zsp_Records : list DNSRecordSpec }.
Record CDNOriginSpec := mkCDNOriginSpec {
  osp_Address : string; osp_Scheme : string; osp_Weight : Z; osp_HealthCheckPath : string; osp_HealthCheckInterval : Z
}.
Record CDNSiteSpec := mkCDNSiteSpec {
  ssp_Name : string; ssp_TenantRef : string; ssp_Domains : list string; ssp_TLSMode : string; ssp_CacheEnabled : bool;
  ssp_CacheTTL : Z; ssp_CompressionEnabled : bool; ssp_RateLimitRPS : option Z; ssp_WAFEnabled : bool;
  ssp_WAFMode : string; ssp_NodeGroupRef : string; ssp_Origins : list CDNOriginSpec
}.
Record RouteSpec := mkRouteSpec {
  usp_Name : string; usp_TenantRef : string; usp_Protocol : string; usp_EntryIP : string; usp_EntryPort : option Z;
  usp_DestinationIP : string; usp_DestinationPort : option Z; usp_GatewayRef : string
}.

(** The status fields the reconcilers write; [os_count] is RecordCount of a zone
    and DomainCount of a site. *)
Record ObjStatus := mkObjStatus { os_ID : string; os_Phase : string; os_count : Z; os_Message : string }.
Definition no_status : ObjStatus := mkObjStatus "" "" 0 "".

(** A custom resource: name, resourceVersion, whether a deletion timestamp is set,
    finalizers, spec and status. *)
Record CR (Spec : Type) := mkCR {
  cr_name : string; cr_version : Z; cr_deleted : bool; cr_finalizers : list string; cr_spec : Spec; cr_status : ObjStatus
}.
Arguments mkCR {Spec}. Arguments cr_name {Spec}. Arguments cr_version {Spec}. Arguments cr_deleted {Spec}.
Arguments cr_finalizers {Spec}. Arguments cr_spec {Spec}. Arguments cr_status {Spec}.

Definition with_finalizers {Spec} (f : list string -> list string) (o : CR Spec) : CR Spec :=
  mkCR (cr_name o) (cr_version o) (cr_deleted o) (f (cr_finalizers o)) (cr_spec o) (cr_status o).
Definition with_status {Spec} (st : ObjStatus) (o : CR Spec) : CR Spec :=
  mkCR (cr_name o) (cr_version o) (cr_deleted o) (cr_finalizers o) (cr_spec o) st.

(** ** The API server *)

(** [Get] answers [Ok None] when there is no such object; [Update] and
    [Status().Update] return the object as the server stored it.  [kube_view] are
    the stored objects. *)
Class Kube (K Spec : Type) := {
  kube_view : K -> gmap string (CR Spec);
  kube_Get : string -> K -> result (option (CR Spec));
  kube_Update : CR Spec -> stM K (CR Spec);
  kube_UpdateStatus : CR Spec -> stM K (CR Spec);
  AddFinalizer : string -> list string -> list string;
  RemoveFinalizer : string -> list string -> list string
}.

(** What is stored for an object after a write: an object that is being deleted
    goes away with its last finalizer. *)
Definition stored {Spec} (o : CR Spec) : option (CR Spec) :=
  if cr_deleted o && bool_decide (cr_finalizers o = []) then None else Some o.

(** Documented behaviour: an update of the object keeps its status, an update of
    the status keeps the rest (status is a subresource of all six kinds); a
    refused update changes nothing. *)
Class KubeLaws (K Spec : Type) `{Kube K Spec} := {
  kube_Get_view n k x : kube_Get n k = Ok x -> x = kube_view k !! n;
  kube_Update_ok o k o' k' : kube_Update o k = (Ok o', k') ->
    exists cur v, kube_view k !! cr_name o = Some cur /\
      o' = mkCR (cr_name o) v (cr_deleted cur) (cr_finalizers o) (cr_spec o) (cr_status cur) /\
      kube_view k' = partial_alter (fun _ => stored o') (cr_name o) (kube_view k);
  kube_Update_err o k e k' : kube_Update o k = (Err e, k') -> kube_view k' = kube_view k;
  kube_UpdateStatus_ok o k o' k' : kube_UpdateStatus o k = (Ok o', k') ->
    exists cur v, kube_view k !! cr_name o = Some cur /\
      o' = mkCR (cr_name o) v (cr_deleted cur) (cr_finalizers cur) (cr_spec cur) (cr_status o) /\
      kube_view k' = <[cr_name o := o']> (kube_view k);
  kube_UpdateStatus_err o k e k' : kube_UpdateStatus o k = (Err e, k') -> kube_view k' = kube_view k;
  AddFinalizer_elem f g l : g ∈ AddFinalizer f l <-> g = f \/ g ∈ l;
  RemoveFinalizer_elem f g l : g ∈ RemoveFinalizer f l <-> g <> f /\ g ∈ l
}.

(** ** Reconcile *)

Section reconcile.
Context {K Spec S : Type} `{Kube K Spec}.

(** What differs between the reconcilers. *)
Record Kind := mkKind {
  kd_finalizer : string;
  kd_create : Spec -> stM S string;
  kd_update : Spec -> string -> stM S unit;
  kd_delete : Spec -> string -> stM S unit;
  (** the count of the status, where the kind has one *)
  kd_count : Spec -> option Z
}.
Context (kd : Kind).

Notation opM := (stM (K * S)).

Definition on_kube {A} (m : stM K A) : opM A := fun w => let '(r, k) := m w.1 in (r, (k, w.2)).
Definition on_ef {A} (m : stM S A) : opM A := fun w => let '(r, s) := m w.2 in (r, (w.1, s)).

(** [_ = r.Status().Update(ctx, obj)]: the error is dropped. *)
Definition mark_failed (obj : CR Spec) (msg : string) : opM unit :=
  let st := cr_status obj in
  _ ← try (on_kube (kube_UpdateStatus (with_status (mkObjStatus (os_ID st) "Failed" (os_count st) msg) obj)));
  mret tt.

(** A call of the EdgeFabric API whose error is recorded in the status and returned. *)
Definition or_fail {A} (obj : CR Spec) (msg : string) (m : stM S A) : opM A :=
  r ← try (on_ef m);
  match r with
  | Ok a => mret a
  | Err err => _ ← mark_failed obj msg; throw err
  end.

Definition mark_ready (obj : CR Spec) (id : string) : opM unit :=
  let st := cr_status obj in
  _ ← on_kube (kube_UpdateStatus (with_status (mkObjStatus id "Ready" (default (os_count st) (kd_count kd (cr_spec obj))) "") obj));
  mret tt.

Definition delete_remote (obj : CR Spec) : opM unit :=
  if bool_decide (os_ID (cr_status obj) = "") then mret tt
  else or_fail obj "delete failed" (kd_delete kd (cr_spec obj) (os_ID (cr_status obj))).

Definition finalize (obj : CR Spec) : opM unit :=
  if bool_decide (kd_finalizer kd ∈ cr_finalizers obj) then
    _ ← delete_remote obj;
    _ ← on_kube (kube_Update (with_finalizers (RemoveFinalizer (kd_finalizer kd)) obj));
    mret tt
  else mret tt.

Definition ensure_finalizer (obj : CR Spec) : opM (CR Spec) :=
  if bool_decide (kd_finalizer kd ∈ cr_finalizers obj) then mret obj
  else on_kube (kube_Update (with_finalizers (AddFinalizer (kd_finalizer kd)) obj)).

Definition create_or_update (obj : CR Spec) : opM unit :=
  if bool_decide (os_ID (cr_status obj) = "") then
    id ← or_fail obj "create failed" (kd_create kd (cr_spec obj));
    mark_ready obj id
  else
    _ ← or_fail obj "update failed" (kd_update kd (cr_spec obj) (os_ID (cr_status obj)));
    mark_ready obj (os_ID (cr_status obj)).

Definition reconcile_object (obj : CR Spec) : opM unit :=
  if cr_deleted obj then finalize obj
  else obj ← ensure_finalizer obj; create_or_update obj.

Definition Reconcile (name : string) : opM unit := fun w =>
  match kube_Get name w.1 with
  | Err err => (Err err, w)
  | Ok None => (Ok tt, w)
  | Ok (Some obj) => reconcile_object obj w
  end.
End reconcile.
Arguments Kind : clear implicits.

(** * The operator keeps Kubernetes and the EdgeFabric API in step *)


(** ** What the reconcilers assume of the API behind the client *)

(** [view]: the stored objects by identifier, [used]: every identifier ever handed
    out, [want]: the object a spec asks for.  A call that fails may have taken
    effect, its reply being lost. *)
Record contract {Spec S V : Type} (kd : @Kind Spec S) (view : S -> gmap string V) (used : S -> gset string) (want : Spec -> V) : Prop := {
  ct_create_ok spec s id s' : kd_create kd spec s = (Ok id, s') ->
    id <> "" /\ id ∉ used s /\ view s' = <[id := want spec]> (view s) /\ used s' = {[id]} ∪ used s;
  ct_create_err spec s e s' : kd_create kd spec s = (Err e, s') ->
    (view s' = view s /\ used s' = used s) \/
    exists id, id <> "" /\ id ∉ used s /\ view s' = <[id := want spec]> (view s) /\ used s' = {[id]} ∪ used s;
  ct_update_ok spec id s u s' : kd_update kd spec id s = (Ok u, s') ->
    is_Some (view s !! id) /\ view s' = <[id := want spec]> (view s) /\ used s' = used s;
  ct_update_err spec id s e s' : kd_update kd spec id s = (Err e, s') ->
    (view s' = view s \/ is_Some (view s !! id) /\ view s' = <[id := want spec]> (view s)) /\ used s' = used s;
  ct_delete_ok spec id s u s' : kd_delete kd spec id s = (Ok u, s') -> view s' = delete id (view s) /\ used s' = used s;
  ct_delete_err spec id s e s' : kd_delete kd spec id s = (Err e, s') ->
    (view s' = view s \/ view s' = delete id (view s)) /\ used s' = used s
}.

(** The part of an object that the phase, message and version leave out. *)
Record core (Spec : Type) := mkCore { co_name : string; co_deleted : bool; co_finalizers : list string; co_spec : Spec; co_id : string }.
Arguments mkCore {Spec}. Arguments co_name {Spec}. Arguments co_deleted {Spec}. Arguments co_finalizers {Spec}.
Arguments co_spec {Spec}. Arguments co_id {Spec}.

Definition core_of {Spec} (o : CR Spec) : core Spec :=
  mkCore (cr_name o) (cr_deleted o) (cr_finalizers o) (cr_spec o) (os_ID (cr_status o)).

(** ** The invariant *)

Section mirror.
Context {Spec V : Type} (fin : string).

(** An object whose remote counterpart exists holds the finalizer; no two objects
    carry one identifier. *)
Record mirror (C : gmap string (core Spec)) (v : gmap string V) (u : gset string) : Prop := {
  mi_name n c : C !! n = Some c -> co_name c = n;
  mi_held n c : C !! n = Some c -> co_id c ∈ dom v -> fin ∈ co_finalizers c;
  mi_used n c : C !! n = Some c -> co_id c <> "" -> co_id c ∈ u;
  mi_inj n n' c c' : C !! n = Some c -> C !! n' = Some c' -> co_id c = co_id c' -> co_id c <> "" -> n = n';
  mi_dom : dom v ⊆ u;
  mi_nonempty : "" ∉ u
}.

(** Every remote object is recorded in the status of an object, or is one of [X]. *)
Definition covers (X : gset string) (C : gmap string (core Spec)) (v : gmap string V) : Prop :=
  forall id, id ∈ dom v -> id ∈ X \/ exists n c, C !! n = Some c /\ co_id c = id.

Lemma mirror_shrink C v v' u : mirror C v u -> dom v' ⊆ dom v -> mirror C v' u.
Proof.
  intros [Hn Hh Hu Hi Hd He] Hs. split; try done; [|set_solver].
  intros n c Hc Hid. eapply Hh; [done|]. by apply Hs.
Qed.

Lemma covers_shrink X C v v' : covers X C v -> dom v' ⊆ dom v -> covers X C v'.
Proof. intros Hc Hs id Hid. apply Hc. by apply Hs. Qed.

Lemma mirror_grow C v u id x : mirror C v u -> id <> "" -> id ∉ u -> mirror C (<[id := x]> v) ({[id]} ∪ u).
Proof.
  intros [Hn Hh Hu Hi Hd He] Hne Hid. split; try done.
  - intros n c Hc. rewrite dom_insert, elem_of_union, elem_of_singleton. intros [E|Hin]; [|by eapply Hh].
    destruct Hid. rewrite <-E. eapply Hu; [done|]. by rewrite E.
  - intros n c Hc Hc'. apply elem_of_union_r. by eapply Hu.
  - rewrite dom_insert. set_solver.
  - set_solver.
Qed.

Lemma covers_grow X C v id x : covers X C v -> covers ({[id]} ∪ X) C (<[id := x]> v).
Proof.
  intros Hc i. rewrite dom_insert, elem_of_union, elem_of_singleton. intros [->|Hi]; [left; set_solver|].
  destruct (Hc i Hi) as [?|?]; [left; set_solver|by right].
Qed.

Definition with_id (id : string) (c : core Spec) : core Spec :=
  mkCore (co_name c) (co_deleted c) (co_finalizers c) (co_spec c) id.

Lemma mirror_record C v u n c id : mirror C v u -> C !! n = Some c -> fin ∈ co_finalizers c ->
  id ∈ u -> (forall m c, C !! m = Some c -> co_id c <> id) -> mirror (<[n := with_id id c]> C) v u.
Proof.
  intros [Hn Hh Hu Hi Hd He] Hc Hf Hid Hno. split; try done.
  - intros m c' [[<- <-]|[? ?]]%lookup_insert_Some; [cbn; by apply Hn|by apply Hn].
  - intros m c' [[<- <-]|[? ?]]%lookup_insert_Some; [done|by eapply Hh].
  - intros m c' [[<- <-]|[? ?]]%lookup_insert_Some; [done|by eapply Hu].
  - intros m m' c1 c2 [[<- <-]|[? H1]]%lookup_insert_Some [[<- <-]|[? H2]]%lookup_insert_Some; try done.
    + intros E. cbn in E. by destruct (Hno _ _ H2).
    + intros E. cbn in E. by destruct (Hno _ _ H1).
    + by eapply Hi.
Qed.

Lemma covers_record X C v n c id : "" ∉ dom v -> covers ({[id]} ∪ X) C v -> C !! n = Some c -> co_id c = "" ->
  covers X (<[n := with_id id c]> C) v.
Proof.
  intros He Hc Hn Hid i Hi. destruct (decide (i = id)) as [->|Hne].
  - right. exists n, (with_id id c). by rewrite lookup_insert_eq.
  - destruct (Hc i Hi) as [Hx|(m & c' & Hm & <-)]; [left; set_solver|]. right. exists m, c'. split; [|done].
    rewrite lookup_insert_ne; [done|]. intros ->. rewrite Hn in Hm. injection Hm as <-. congruence.
Qed.

Lemma mirror_alter C v u n c (o : option (core Spec)) : mirror C v u -> C !! n = Some c ->
  (forall c', o = Some c' -> co_name c' = co_name c /\ co_id c' = co_id c /\ (co_id c ∈ dom v -> fin ∈ co_finalizers c')) ->
  mirror (partial_alter (fun _ => o) n C) v u.
Proof.
  intros [Hn Hh Hu Hi Hd He] Hc Ho.
  assert (Hl : forall m c', partial_alter (fun _ => o) n C !! m = Some c' -> exists c0, C !! m = Some c0 /\
    co_name c' = co_name c0 /\ co_id c' = co_id c0 /\ (co_id c0 ∈ dom v -> fin ∈ co_finalizers c')).
  { intros m c'. destruct (decide (m = n)) as [->|Hm].
    - rewrite lookup_partial_alter_eq. intros E. exists c. split; [done|]. by apply Ho.
    - rewrite lookup_partial_alter_ne by done. intros E. exists c'. split_and!; try done. intros ?. by eapply Hh. }
  split; try done.
  - intros m c' (c0 & H0 & E & _)%Hl. rewrite E. by apply Hn.
  - intros m c' (c0 & H0 & _ & E & Hf)%Hl. rewrite E. done.
  - intros m c' (c0 & H0 & _ & E & Hf)%Hl. rewrite E. by eapply Hu.
  - intros m m' c1 c2 (d1 & H1 & _ & E1 & _)%Hl (d2 & H2 & _ & E2 & _)%Hl. rewrite E1, E2. by eapply Hi.
Qed.

Lemma covers_alter X C v n c (o : option (core Spec)) : covers X C v -> C !! n = Some c ->
  (co_id c ∈ dom v -> exists c', o = Some c' /\ co_id c' = co_id c) ->
  covers X (partial_alter (fun _ => o) n C) v.
Proof.
  intros Hc Hn Ho i Hi. destruct (Hc i Hi) as [?|(m & c' & Hm & <-)]; [by left|]. right.
  destruct (decide (m = n)) as [->|Hne].
  - rewrite Hn in Hm. injection Hm as <-. destruct (Ho Hi) as (c' & -> & E). exists n, c'. by rewrite lookup_partial_alter_eq.
  - exists m, c'. by rewrite lookup_partial_alter_ne.
Qed.
End mirror.

Lemma size_add (X : gset string) id : (size ({[id]} ∪ X) <= size X + 1)%nat.
Proof.
  destruct (decide (id ∈ X)) as [Hi|Hi].
  - replace ({[id]} ∪ X) with X by set_solver. lia.
  - rewrite size_union by set_solver. rewrite size_singleton. lia.
Qed.

Section operator.
Context {K Spec S V : Type} `{KubeLaws K Spec} (kd : @Kind Spec S).
Context (view : S -> gmap string V) (used : S -> gset string) (want : Spec -> V) (Hct : contract kd view used want).
Implicit Types (w : K * S) (o : CR Spec) (c : core Spec).

Notation fin := (kd_finalizer kd).
Definition cores (k : K) : gmap string (core Spec) := core_of <$> kube_view k.
Definition current (k : K) (o : CR Spec) : Prop := cores k !! cr_name o = Some (core_of o).

(** ** Effects of the pieces of Reconcile *)

Lemma view_cores k n o : kube_view k !! n = Some o -> cores k !! n = Some (core_of o).
Proof. intros E. unfold cores. by rewrite lookup_fmap, E. Qed.

Lemma UpdateStatus_cores st o k r k' : current k o -> kube_UpdateStatus (with_status st o) k = (r, k') ->
  match r with
  | Ok o' => current k' o' /\ cores k' = <[cr_name o := core_of (with_status st o)]> (cores k)
  | Err _ => cores k' = cores k
  end.
Proof.
  intros Hc E. destruct r as [o'|e].
  - apply kube_UpdateStatus_ok in E as (cur & v & Hcur & -> & Hv). cbn [with_status cr_name] in *.
    unfold current in Hc. rewrite (view_cores _ _ _ Hcur) in Hc. injection Hc as E1 E2 E3 E4 E5.
    unfold current, cores. rewrite Hv, fmap_insert. cbn [cr_name]. rewrite lookup_insert_eq.
    split; [done|]. f_equal. unfold core_of. cbn [cr_name cr_deleted cr_finalizers cr_spec cr_status]. by f_equal.
  - apply kube_UpdateStatus_err in E. unfold cores. by rewrite E.
Qed.

Lemma mark_failed_cores o msg w r w' : current w.1 o -> mark_failed o msg w = (r, w') ->
  r = Ok tt /\ w'.2 = w.2 /\ cores w'.1 = cores w.1.
Proof.
  intros Hc. unfold mark_failed, mbind, stM_bind, try, on_kube.
  destruct (kube_UpdateStatus _ w.1) as [r1 k1] eqn:E. cbn. intros [= <- <-]. cbn. split_and!; [done..|].
  pose proof (UpdateStatus_cores _ _ _ _ _ Hc E) as Hu. destruct r1; [|done]. destruct Hu as [_ ->].
  apply insert_id. rewrite Hc. unfold core_of. by destruct o.
Qed.

Lemma or_fail_cases {A} o msg (m : stM S A) w r w' : current w.1 o -> or_fail o msg m w = (r, w') ->
  cores w'.1 = cores w.1 /\ m w.2 = (r, w'.2) /\ (is_Ok r = true -> w'.1 = w.1).
Proof.
  intros Hc. unfold or_fail, mbind, stM_bind, try, on_ef.
  destruct (m w.2) as [[a|e] s1] eqn:E; cbn; [by intros [= <- <-]|].
  destruct (mark_failed o msg (w.1, s1)) as [r2 w2] eqn:Ef.
  destruct (mark_failed_cores o msg (w.1, s1) r2 w2 Hc Ef) as (-> & Es & Ec). cbn in *. intros [= <- <-].
  split_and!; [done|by rewrite Es|done].
Qed.

Lemma mark_ready_cores o id w r w' : current w.1 o -> mark_ready kd o id w = (r, w') ->
  w'.2 = w.2 /\
  match r with
  | Ok _ => cores w'.1 = <[cr_name o := mkCore (cr_name o) (cr_deleted o) (cr_finalizers o) (cr_spec o) id]> (cores w.1) /\
      exists o', kube_view w'.1 !! cr_name o = Some o' /\ os_Phase (cr_status o') = "Ready"
  | Err _ => cores w'.1 = cores w.1
  end.
Proof.
  intros Hc. unfold mark_ready, mbind, stM_bind, on_kube.
  destruct (kube_UpdateStatus _ w.1) as [r1 k1] eqn:E.
  pose proof (UpdateStatus_cores _ _ _ _ _ Hc E) as Hu.
  destruct r1 as [o'|e]; cbn; intros [= <- <-]; cbn; split_and!; try done.
  - by destruct Hu as [_ ->].
  - apply kube_UpdateStatus_ok in E as (cur & v & _ & -> & ->). cbn [with_status cr_name].
    rewrite lookup_insert_eq. eexists. split; [done|]. done.
Qed.

Lemma Update_cores f o k r k' : current k o -> kube_Update (with_finalizers f o) k = (r, k') ->
  match r with
  | Ok o' => core_of o' = core_of (with_finalizers f o) /\
      cores k' = partial_alter (fun _ => core_of <$> stored (with_finalizers f o)) (cr_name o) (cores k)
  | Err _ => cores k' = cores k
  end.
Proof.
  intros Hc E. destruct r as [o'|e].
  - apply kube_Update_ok in E as (cur & v & Hcur & -> & Hv). cbn [with_finalizers cr_name cr_spec cr_finalizers] in *.
    unfold current in Hc. rewrite (view_cores _ _ _ Hcur) in Hc. injection Hc as E1 E2 E3 E4 E5.
    assert (core_of (mkCR (cr_name o) v (cr_deleted cur) (f (cr_finalizers o)) (cr_spec o) (cr_status cur)) = core_of (with_finalizers f o)) as Hco.
    { unfold core_of. cbn. by f_equal. }
    split; [done|]. unfold cores. rewrite Hv. apply map_eq. intros n. rewrite lookup_fmap.
    destruct (decide (n = cr_name o)) as [->|Hn].
    + rewrite !lookup_partial_alter_eq. unfold stored. cbn [cr_deleted cr_finalizers with_finalizers]. rewrite E2 in Hco |- *.
      case_match; cbn [fmap option_fmap option_map]; [done|]. by rewrite Hco.
    + rewrite !lookup_partial_alter_ne, lookup_fmap by done. done.
  - apply kube_Update_err in E. unfold cores. by rewrite E.
Qed.

(** ** Reconcile keeps it *)

Definition op_inv (w : K * S) : Prop := mirror fin (cores w.1) (view w.2) (used w.2).
Definition op_covers (X : gset string) (w : K * S) : Prop := covers X (cores w.1) (view w.2).

(** One call leaves at most one remote object unrecorded, and none when it succeeds. *)
Definition step_ok {A} (X : gset string) (r : result A) (w : K * S) : Prop :=
  op_inv w /\ exists X', op_covers X' w /\ (size X' <= size X + if is_Ok r then 0 else 1)%nat.

Lemma step_same {A} X (r : result A) w : op_inv w -> op_covers X w -> step_ok X r w.
Proof using Type. intros Hi Hc. split; [done|]. exists X. split; [done|lia]. Qed.

Lemma step_shrink {A} X (r : result A) w w' : op_inv w -> op_covers X w -> cores w'.1 = cores w.1 ->
  dom (view w'.2) ⊆ dom (view w.2) -> used w'.2 = used w.2 -> step_ok X r w'.
Proof using Type.
  unfold op_inv, op_covers. intros Hi Hc Ec Hd Hu. apply step_same; unfold op_inv, op_covers; rewrite Ec.
  - rewrite Hu. by eapply mirror_shrink.
  - by eapply covers_shrink.
Qed.

Lemma empty_not_remote w : op_inv w -> "" ∉ dom (view w.2).
Proof using Type. intros [Hn Hh Hu Hi Hd He] ?. apply He. by apply Hd. Qed.

Lemma delete_remote_cases o w r w' : op_inv w -> current w.1 o -> delete_remote kd o w = (r, w') ->
  cores w'.1 = cores w.1 /\ dom (view w'.2) ⊆ dom (view w.2) /\ used w'.2 = used w.2 /\
  (is_Ok r = true -> w'.1 = w.1 /\ os_ID (cr_status o) ∉ dom (view w'.2)).
Proof using Hct H0.
  intros Hi Hc. unfold delete_remote. case_bool_decide as Hid.
  - intros [= <- <-]. split_and!; try done. intros _. split; [done|]. rewrite Hid. by apply empty_not_remote.
  - intros (Ec & Em & Hk)%or_fail_cases; [|done]. split; [done|]. destruct r as [u|e].
    + apply (ct_delete_ok _ _ _ _ Hct) in Em as [-> ->]. rewrite dom_delete_L.
      split_and!; [set_solver|done|]. intros E. split; [by apply Hk|set_solver].
    + apply (ct_delete_err _ _ _ _ Hct) in Em as [[->| ->] ->]; rewrite ?dom_delete_L; (split_and!; [set_solver|done|done]).
Qed.

Lemma finalize_step X o w r w' : op_inv w -> op_covers X w -> current w.1 o -> finalize kd o w = (r, w') -> step_ok X r w'.
Proof using Hct H0.
  intros Hi HX Hc. unfold finalize. case_bool_decide as Hf; [|intros [= <- <-]; by apply step_same].
  unfold mbind, stM_bind, on_kube. destruct (delete_remote kd o w) as [r1 w1] eqn:Ed.
  destruct (delete_remote_cases o w r1 w1 Hi Hc Ed) as (Ec & Hd & Hu & Hk).
  destruct r1 as [u|e]; [|intros [= <- <-]; by eapply step_shrink].
  destruct (Hk eq_refl) as [Ek Hgone]. destruct (kube_Update _ w1.1) as [r2 k2] eqn:Eu. rewrite Ek in Eu.
  pose proof (Update_cores _ _ _ _ _ Hc Eu) as Hup.
  assert (Hi1 : op_inv w1) by (destruct (step_shrink X r w w1) as [? _]; done).
  assert (HX1 : op_covers X w1) by (unfold op_covers; rewrite Ec; by eapply covers_shrink).
  destruct r2 as [o2|e2]; cbn; intros [= <- <-].
  - destruct Hup as [_ Hup]. apply step_same; unfold op_inv, op_covers; cbn [fst snd]; rewrite Hup, <-Ec.
    + eapply mirror_alter; [exact Hi1|by rewrite Ec|]. intros c'. cbn [core_of co_id co_name]. unfold stored.
      case_match; cbn; [done|]. intros [= <-]. cbn. split_and!; try done.
    + eapply covers_alter; [exact HX1|by rewrite Ec|]. cbn. done.
  - apply (step_shrink X _ w1); try done. cbn. congruence.
Qed.

Lemma ensure_cases o w r w' : op_inv w -> current w.1 o -> cr_deleted o = false -> ensure_finalizer kd o w = (r, w') ->
  w'.2 = w.2 /\ op_inv w' /\
  (forall X, op_covers X w -> op_covers X w') /\
  match r with
  | Ok o' => current w'.1 o' /\ fin ∈ cr_finalizers o' /\ cr_deleted o' = false /\ cr_name o' = cr_name o /\
      cr_spec o' = cr_spec o /\ os_ID (cr_status o') = os_ID (cr_status o) /\
      (forall m, m <> cr_name o -> cores w'.1 !! m = cores w.1 !! m)
  | Err _ => True
  end.
Proof using H0.
  intros Hi Hc Hdel. unfold ensure_finalizer. case_bool_decide as Hf.
  { intros [= <- <-]. split_and!; done. }
  unfold on_kube. destruct (kube_Update _ w.1) as [r1 k1] eqn:E. intros [= <- <-]. cbn [fst snd].
  pose proof (Update_cores _ _ _ _ _ Hc E) as Hup. destruct r1 as [o'|e].
  - destruct Hup as [Ho Hup]. unfold stored in Hup. cbn [cr_deleted with_finalizers] in Hup. rewrite Hdel in Hup. cbn in Hup.
    unfold op_inv, op_covers. cbn [fst snd]. rewrite Hup. split_and!; try done.
    + eapply mirror_alter; [exact Hi|done|]. intros c' [= <-]. cbn. split_and!; try done. intros _. apply AddFinalizer_elem. by left.
    + intros X HX. eapply covers_alter; [exact HX|done|]. intros _. by eexists.
    + injection Ho as E1 E2 E3 E4 E5. unfold current. rewrite Hup, E1, lookup_partial_alter_eq. cbn. f_equal.
      unfold core_of. cbn. by rewrite <-E2, <-E3, <-E4, <-E5, E1.
    + injection Ho as E1 E2 E3 E4 E5. rewrite E3. apply AddFinalizer_elem. by left.
    + injection Ho as E1 E2 E3 E4 E5. congruence.
    + injection Ho as E1 E2 E3 E4 E5. done.
    + injection Ho as E1 E2 E3 E4 E5. done.
    + injection Ho as E1 E2 E3 E4 E5. done.
    + intros m Hm. by rewrite lookup_partial_alter_ne.
  - unfold op_inv, op_covers. cbn [fst snd]. rewrite Hup. split_and!; done.
Qed.

Lemma step_grow {A} X (e : goerr) w w' id x : op_inv w -> op_covers X w -> cores w'.1 = cores w.1 ->
  id <> "" -> id ∉ used w.2 -> view w'.2 = <[id := x]> (view w.2) -> used w'.2 = {[id]} ∪ used w.2 -> step_ok (A:=A) X (Err e) w'.
Proof using Type.
  unfold step_ok, op_inv, op_covers. intros Hi HX Ec Hne Hid Ev Eu. rewrite Ec, Ev, Eu. split; [by apply mirror_grow|].
  exists ({[id]} ∪ X). split; [by apply covers_grow|apply size_add].
Qed.

Lemma create_step X o w r w' : op_inv w -> op_covers X w -> current w.1 o -> fin ∈ cr_finalizers o ->
  os_ID (cr_status o) = "" ->
  (id ← or_fail o "create failed" (kd_create kd (cr_spec o)); mark_ready kd o id) w = (r, w') -> step_ok X r w'.
Proof using Hct H0.
  intros Hi HX Hc Hf Hid. unfold mbind, stM_bind. destruct (or_fail _ _ _ w) as [r1 w1] eqn:E1.
  apply or_fail_cases in E1 as (Ec & Em & Hk); [|done]. destruct r1 as [id|e].
  - pose proof (Hk eq_refl) as Ek. apply (ct_create_ok _ _ _ _ Hct) in Em as (Hne & Hnew & Ev & Eu). intros Er.
    apply mark_ready_cores in Er as [Es Er]; [|by rewrite Ek]. destruct r as [u|e].
    + destruct Er as [Er _]. apply step_same; unfold op_inv, op_covers; rewrite Er, Es, Ek, Ev, ?Eu.
      * change (mkCore (cr_name o) (cr_deleted o) (cr_finalizers o) (cr_spec o) id) with (with_id id (core_of o)).
        apply mirror_record; [by apply mirror_grow|done|done|set_solver|]. intros m c Hm Heq. destruct Hnew. rewrite <-Heq.
        apply (mi_used _ _ _ _ Hi m c); [done|congruence].
      * apply (covers_record X (cores w.1) (<[id := want (cr_spec o)]> (view w.2)) (cr_name o) (core_of o) id); [|by apply covers_grow|done|done].
        rewrite dom_insert_L. apply not_elem_of_union. split; [set_solver|by apply empty_not_remote].
    + rewrite <-Es in Ev, Eu. apply (step_grow X e w w' id (want (cr_spec o))); try done. by rewrite Er, Ek.
  - intros [= <- <-]. apply (ct_create_err _ _ _ _ Hct) in Em as [[Ev Eu]|(id & Hne & Hnew & Ev & Eu)].
    + apply (step_shrink X _ w); [done..| |done]. by rewrite Ev.
    + by apply (step_grow X e w w1 id (want (cr_spec o))).
Qed.

Lemma update_step X o w r w' : op_inv w -> op_covers X w -> current w.1 o -> os_ID (cr_status o) <> "" ->
  (_ ← or_fail o "update failed" (kd_update kd (cr_spec o) (os_ID (cr_status o))); mark_ready kd o (os_ID (cr_status o))) w = (r, w') ->
  step_ok X r w'.
Proof using Hct H0.
  intros Hi HX Hc Hid. unfold mbind, stM_bind. destruct (or_fail _ _ _ w) as [r1 w1] eqn:E1.
  apply or_fail_cases in E1 as (Ec & Em & Hk); [|done]. destruct r1 as [u|e].
  - pose proof (Hk eq_refl) as Ek. apply (ct_update_ok _ _ _ _ Hct) in Em as ([x Hx] & Ev & Eu). intros Er.
    apply mark_ready_cores in Er as [Es Er]; [|by rewrite Ek].
    assert (cores w'.1 = cores w.1) as Ew.
    { destruct r; [|by rewrite Er, Ek]. destruct Er as [-> _]. rewrite Ek. apply insert_id. exact Hc. }
    apply (step_shrink X _ w); [done..| |by rewrite Es]. rewrite Es, Ev, dom_insert_L. apply elem_of_dom_2 in Hx. set_solver.
  - intros [= <- <-]. apply (ct_update_err _ _ _ _ Hct) in Em as [[Ev|[[x Hx] Ev]] Eu]; (apply (step_shrink X _ w); [done..| |done]);
      rewrite Ev; [done|]. rewrite dom_insert_L. apply elem_of_dom_2 in Hx. set_solver.
Qed.

Lemma Reconcile_step X n w r w' : op_inv w -> op_covers X w -> Reconcile kd n w = (r, w') -> step_ok X r w'.
Proof using Hct H0.
  intros Hi HX. unfold Reconcile. destruct (kube_Get n w.1) as [[o|]|e] eqn:Eg; [|intros [= <- <-]; by apply step_same..].
  apply kube_Get_view in Eg. symmetry in Eg. apply view_cores in Eg.
  assert (Hc : current w.1 o) by (unfold current; rewrite <-(mi_name _ _ _ _ Hi n _ Eg) in Eg; exact Eg).
  unfold reconcile_object. destruct (cr_deleted o) eqn:Hdel; [by apply finalize_step|].
  unfold mbind, stM_bind. destruct (ensure_finalizer kd o w) as [r1 w1] eqn:E1.
  destruct (ensure_cases o w r1 w1 Hi Hc Hdel E1) as (Es & Hi1 & HX1 & Ho). destruct r1 as [o1|e1].
  - destruct Ho as (Hc1 & Hf & _). unfold create_or_update. case_bool_decide.
    + by apply create_step; auto.
    + by apply update_step; auto.
  - intros [= <- <-]. apply step_same; auto.
Qed.

(** ** Runs *)

(** What users and other controllers do to an object: they do not write its status
    nor take away the finalizer of the operator, and an object without finalizers may go. *)
Inductive user_change (n : string) : option (CR Spec) -> option (CR Spec) -> Prop :=
| User_create o : cr_name o = n -> cr_status o = no_status -> user_change n None (Some o)
| User_edit o o' : cr_name o' = cr_name o -> cr_status o' = cr_status o ->
    (fin ∈ cr_finalizers o -> fin ∈ cr_finalizers o') -> user_change n (Some o) (Some o')
| User_gone o : cr_finalizers o = [] -> user_change n (Some o) None.

(** A state with the number of calls of Reconcile that have returned an error. *)
Inductive op_step : (K * S) * nat -> (K * S) * nat -> Prop :=
| Step_user k k' s m n : user_change n (kube_view k !! n) (kube_view k' !! n) ->
    (forall j, j <> n -> kube_view k' !! j = kube_view k !! j) -> op_step ((k, s), m) ((k', s), m)
| Step_reconcile n w r w' m : Reconcile kd n w = (r, w') -> op_step (w, m) (w', (m + if is_Ok r then 0 else 1)%nat).

Lemma user_cores k k' n : (forall j, j <> n -> kube_view k' !! j = kube_view k !! j) ->
  cores k' = partial_alter (fun _ => core_of <$> (kube_view k' !! n)) n (cores k).
Proof using Type.
  intros Hj. apply map_eq. intros j. destruct (decide (j = n)) as [->|Hn].
  - by rewrite lookup_partial_alter_eq; unfold cores; rewrite lookup_fmap.
  - rewrite lookup_partial_alter_ne by done. unfold cores. by rewrite !lookup_fmap, Hj.
Qed.

Lemma user_step_ok X k k' s n : op_inv (k, s) -> op_covers X (k, s) ->
  user_change n (kube_view k !! n) (kube_view k' !! n) -> (forall j, j <> n -> kube_view k' !! j = kube_view k !! j) ->
  op_inv (k', s) /\ op_covers X (k', s).
Proof using Type.
  intros Hi HX Hu Hj. unfold op_inv, op_covers. cbn [fst snd]. rewrite (user_cores k k' n Hj).
  assert (En : cores k !! n = core_of <$> (kube_view k !! n)) by (unfold cores; by rewrite lookup_fmap).
  inversion Hu as [o Hn Hst E1 E2|o o' Hn Hst Hf E1 E2|o Hfin E1 E2]; rewrite <-E1 in En; cbn [fmap option_fmap option_map] in *.
  - assert (partial_alter (fun _ => Some (core_of o)) n (cores k) = <[n := core_of o]> (cores k)) as -> by done.
    destruct Hi as [H1 H2 H3 H4 H5 H6]. cbn [fst snd] in *. assert (co_id (core_of o) = "") as Hid by (cbn; by rewrite Hst). split.
    + split; try done.
      * intros m c [[<- <-]|[? ?]]%lookup_insert_Some; [done|by apply H1].
      * intros m c [[<- <-]|[? ?]]%lookup_insert_Some; [|by eapply H2]. rewrite Hid. intros Hd. destruct H6. by apply H5.
      * intros m c [[<- <-]|[? ?]]%lookup_insert_Some; [done|by eapply H3].
      * intros m m' c c' [[<- <-]|[? ?]]%lookup_insert_Some [[<- <-]|[? ?]]%lookup_insert_Some E Hne; try done; try congruence. by eapply H4.
    + intros id Hd. destruct (HX id Hd) as [?|(m & c & Hm & Hc)]; [by left|]. right. exists m, c. split; [|done].
      rewrite lookup_insert_ne; [done|]. cbn [fst] in Hm. congruence.
  - split; [eapply mirror_alter|eapply covers_alter]; try done.
    + intros c' [= <-]. cbn. split_and!; [done|by rewrite Hst|]. intros Hd. apply Hf. by apply (mi_held _ _ _ _ Hi n (core_of o)).
    + intros _. eexists. split; [done|]. cbn. by rewrite Hst.
  - split; [eapply mirror_alter|eapply covers_alter]; try done.
    intros Hd. apply (mi_held _ _ _ _ Hi n _ En) in Hd. cbn in Hd. rewrite Hfin in Hd. by apply elem_of_nil in Hd.
Qed.

Lemma op_run_inv x y : rtc op_step x y -> op_inv x.1 -> (exists X, op_covers X x.1 /\ (size X <= x.2)%nat) ->
  op_inv y.1 /\ exists X, op_covers X y.1 /\ (size X <= y.2)%nat.
Proof using Hct H0.
  induction 1 as [|x y z Hxy _ IH]; [done|]. intros Hi (X & HX & Hs). apply IH.
  - inversion Hxy; subst; [by eapply (user_step_ok X)|by eapply Reconcile_step].
  - inversion Hxy as [k k' s m n Hu Hj|n w r w' m Hr]; subst; cbn [fst snd] in *.
    + exists X. split; [by eapply user_step_ok|done].
    + destruct (Reconcile_step X n w r w' Hi HX Hr) as (_ & X' & HX' & Hle). exists X'. split; [done|lia].
Qed.

Lemma op_start_inv (k : K) (s : S) : kube_view k = ∅ -> view s = ∅ -> "" ∉ used s ->
  op_inv (k, s) /\ exists X, op_covers X (k, s) /\ (size X <= 0)%nat.
Proof using Hct H0.
  intros Hk Hs Hu. unfold op_inv, op_covers, cores. cbn [fst snd]. rewrite Hk, Hs, fmap_empty. split.
  - split; try done; try (intros; by rewrite lookup_empty in *).
  - exists ∅. split; [|by rewrite size_empty]. intros id. rewrite dom_empty. set_solver.
Qed.

(** ** Calls that are all accepted *)

Definition kube_accepts : Prop :=
  (forall n (k : K), kube_Get n k = Ok (kube_view k !! n)) /\
  (forall o (k : K) cur, kube_view k !! cr_name o = Some cur -> cr_version o = cr_version cur ->
     is_Ok (kube_Update o k).1 = true /\ is_Ok (kube_UpdateStatus o k).1 = true).
Definition ef_accepts : Prop :=
  (forall spec s, is_Ok (kd_create kd spec s).1 = true) /\
  (forall spec id s, is_Some (view s !! id) -> is_Ok (kd_update kd spec id s).1 = true /\ is_Ok (kd_delete kd spec id s).1 = true).

Lemma is_Ok_run {A X} (x : result A * X) : is_Ok x.1 = true -> exists a y, x = (Ok a, y).
Proof using Type. destruct x as [[a|e] y]; [by eexists _, _|done]. Qed.

Lemma ensure_accepted o (k : K) s : kube_accepts -> kube_view k !! cr_name o = Some o -> cr_deleted o = false ->
  exists o1 k1, ensure_finalizer kd o (k, s) = (Ok o1, (k1, s)) /\ kube_view k1 = <[cr_name o := o1]> (kube_view k) /\
    cr_name o1 = cr_name o /\ cr_deleted o1 = false /\ fin ∈ cr_finalizers o1 /\ cr_spec o1 = cr_spec o /\ cr_status o1 = cr_status o.
Proof using H0.
  intros [_ Ha] Ho Hdel. unfold ensure_finalizer. case_bool_decide as Hf.
  { exists o, k. split_and!; try done. by rewrite insert_id. }
  destruct (Ha (with_finalizers (AddFinalizer fin) o) k o Ho eq_refl) as [(o1 & k1 & E)%is_Ok_run _].
  unfold on_kube. cbn [fst snd]. rewrite E. exists o1, k1. split; [done|].
  apply kube_Update_ok in E as (cur & v & Hcur & -> & Hv). cbn [with_finalizers cr_name cr_spec cr_finalizers] in *.
  rewrite Ho in Hcur. injection Hcur as <-. unfold stored in Hv. cbn [cr_deleted] in Hv. rewrite Hdel in Hv |- *. cbn in Hv.
  rewrite Hv. split_and!; try done. cbn. apply AddFinalizer_elem. by left.
Qed.

Lemma ready_accepted o (k : K) s id : kube_accepts -> kube_view k !! cr_name o = Some o ->
  exists o1 k1, mark_ready kd o id (k, s) = (Ok tt, (k1, s)) /\ kube_view k1 = <[cr_name o := o1]> (kube_view k) /\
    cr_finalizers o1 = cr_finalizers o /\ cr_spec o1 = cr_spec o /\
    cr_status o1 = mkObjStatus id "Ready" (default (os_count (cr_status o)) (kd_count kd (cr_spec o))) "".
Proof using H0.
  intros [_ Ha] Ho. unfold mark_ready, mbind, stM_bind, on_kube. cbn [fst snd].
  set (st := mkObjStatus id _ _ _). destruct (Ha (with_status st o) k o Ho eq_refl) as [_ (o1 & k1 & E)%is_Ok_run].
  rewrite E. cbn. exists o1, k1. split; [done|]. apply kube_UpdateStatus_ok in E as (cur & v & Hcur & -> & Hv).
  cbn [with_status cr_name cr_status] in *. rewrite Ho in Hcur. injection Hcur as <-. by rewrite Hv.
Qed.

Lemma create_or_update_accepted o (k : K) s : kube_accepts -> ef_accepts -> kube_view k !! cr_name o = Some o ->
  (os_ID (cr_status o) <> "" -> is_Some (view s !! os_ID (cr_status o))) ->
  exists o1 k1 s1, create_or_update kd o (k, s) = (Ok tt, (k1, s1)) /\ kube_view k1 = <[cr_name o := o1]> (kube_view k) /\
    cr_finalizers o1 = cr_finalizers o /\ cr_spec o1 = cr_spec o /\ os_Phase (cr_status o1) = "Ready" /\ os_ID (cr_status o1) <> "" /\
    view s1 !! os_ID (cr_status o1) = Some (want (cr_spec o)).
Proof using H0 Hct.
  intros Hk [He1 He2] Ho Hid. unfold create_or_update. case_bool_decide as Hnil; unfold mbind, stM_bind, or_fail, try, on_ef, mbind, stM_bind; cbn [fst snd].
  - destruct (is_Ok_run _ (He1 (cr_spec o) s)) as (id & s1 & E). rewrite E. cbn.
    apply (ct_create_ok _ _ _ _ Hct) in E as (Hne & _ & Ev & _).
    destruct (ready_accepted o k s1 id Hk Ho) as (o1 & k1 & -> & Hv & Hf & Hsp & Hst). exists o1, k1, s1. rewrite Hst, Ev. cbn.
    by rewrite lookup_insert_eq.
  - specialize (Hid Hnil). destruct (He2 (cr_spec o) _ s Hid) as [([] & s1 & E)%is_Ok_run _]. rewrite E. cbn.
    apply (ct_update_ok _ _ _ _ Hct) in E as (_ & Ev & _).
    destruct (ready_accepted o k s1 (os_ID (cr_status o)) Hk Ho) as (o1 & k1 & -> & Hv & Hf & Hsp & Hst). exists o1, k1, s1.
    rewrite Hst, Ev. cbn. by rewrite lookup_insert_eq.
Qed.

Lemma finalize_accepted o (k : K) s : kube_accepts -> ef_accepts -> kube_view k !! cr_name o = Some o -> cr_deleted o = true ->
  fin ∈ cr_finalizers o -> (os_ID (cr_status o) <> "" -> is_Some (view s !! os_ID (cr_status o))) -> view s !! "" = None ->
  exists k1 s1 x, finalize kd o (k, s) = (Ok tt, (k1, s1)) /\ view s1 !! os_ID (cr_status o) = None /\
    kube_view k1 = partial_alter (fun _ => x) (cr_name o) (kube_view k) /\
    (forall o', x = Some o' -> fin ∉ cr_finalizers o') /\ ((forall g, g ∈ cr_finalizers o -> g = fin) -> x = None).
Proof using H0 Hct.
  intros [_ Ha] [_ He] Ho Hdel Hf Hid Hemp. unfold finalize. rewrite bool_decide_eq_true_2 by done.
  assert (exists s1, delete_remote kd o (k, s) = (Ok tt, (k, s1)) /\ view s1 !! os_ID (cr_status o) = None) as (s1 & Ed & Hgone).
  { unfold delete_remote. case_bool_decide as Hnil; [exists s; by rewrite Hnil|]. specialize (Hid Hnil).
    destruct (He (cr_spec o) _ s Hid) as [_ ([] & s1 & E)%is_Ok_run]. exists s1. unfold or_fail, mbind, stM_bind, try, on_ef. cbn [fst snd].
    rewrite E. split; [done|]. apply (ct_delete_ok _ _ _ _ Hct) in E as [-> _]. apply lookup_delete_eq. }
  unfold mbind, stM_bind, on_kube. rewrite Ed. cbn [fst snd].
  destruct (Ha (with_finalizers (RemoveFinalizer fin) o) k o Ho eq_refl) as [(o1 & k1 & E)%is_Ok_run _].
  rewrite E. cbn. apply kube_Update_ok in E as (cur & v & Hcur & -> & Hv). cbn [with_finalizers cr_name cr_finalizers] in *.
  rewrite Ho in Hcur. injection Hcur as <-. eexists k1, s1, _. split_and!; [done|done|exact Hv|..].
  - intros o'. unfold stored. case_match; [done|]. intros [= <-]. cbn. intros [? _]%RemoveFinalizer_elem. done.
  - intros Hall. unfold stored. cbn [cr_deleted cr_finalizers]. rewrite Hdel. cbn. rewrite bool_decide_eq_true_2; [done|].
    destruct (RemoveFinalizer fin (cr_finalizers o)) as [|g l] eqn:El; [done|].
    assert (g ∈ RemoveFinalizer fin (cr_finalizers o)) as [Hne Hg]%RemoveFinalizer_elem by (rewrite El; by left). by destruct Hne; apply Hall.
Qed.
End operator.

(** ** Claims *)

(** C20: whatever users do to the objects of a kind and whichever calls of the
    Kubernetes API or of the EdgeFabric API fail, before or after taking effect, an
    object whose remote counterpart exists holds the finalizer of the operator, so
    it cannot disappear before the counterpart is deleted; no two objects share a
    counterpart; and at most as many counterparts are recorded by no object as there
    were failed calls of Reconcile. *)
Theorem operator_mirrors {K Spec S V} `{KubeLaws K Spec} (kd : Kind Spec S) (view : S -> gmap string V) (used : S -> gset string)
    (want : Spec -> V) (k0 : K) (s0 : S) (w : K * S) (m : nat) :
  contract kd view used want -> kube_view k0 = ∅ -> view s0 = ∅ -> "" ∉ used s0 ->
  rtc (op_step kd) ((k0, s0), 0%nat) (w, m) ->
  (forall n o, kube_view w.1 !! n = Some o -> is_Some (view w.2 !! os_ID (cr_status o)) -> kd_finalizer kd ∈ cr_finalizers o) /\
  (forall n n' o o', kube_view w.1 !! n = Some o -> kube_view w.1 !! n' = Some o' ->
     os_ID (cr_status o) = os_ID (cr_status o') -> os_ID (cr_status o) <> "" -> n = n') /\
  exists X : gset string, (size X <= m)%nat /\
    forall id, is_Some (view w.2 !! id) -> id ∈ X \/ exists n o, kube_view w.1 !! n = Some o /\ os_ID (cr_status o) = id.
Proof.
  intros Hct Hk Hs Hu Hr. destruct (op_start_inv kd view used want Hct k0 s0 Hk Hs Hu) as [Hi HX].
  destruct (op_run_inv kd view used want Hct _ _ Hr Hi HX) as (Hi' & X & HX' & Hle). cbn [fst snd] in *. split_and!.
  - intros n o Ho Hd. apply elem_of_dom in Hd. apply (mi_held _ _ _ _ Hi' n (core_of o)); [by apply view_cores|done].
  - intros n n' o o' Ho Ho' E Hne. by apply (mi_inj _ _ _ _ Hi' n n' (core_of o) (core_of o')); [apply view_cores..| |].
  - exists X. split; [done|]. intros id Hd. apply elem_of_dom in Hd. destruct (HX' id Hd) as [?|(n & c & Hn & Hc)]; [by left|].
    right. unfold cores in Hn. apply lookup_fmap_Some in Hn as (o & <- & Ho). by exists n, o.
Qed.

(** C21: against an API that honours its contract (a create stores the spec under a
    fresh identifier that is not empty, an update and a delete act on the identifier
    they are given), when the calls it makes are accepted and the counterpart on
    record still exists, one call of Reconcile brings an object and its counterpart
    together.  An object that is not being deleted ends ready, with the finalizer, and
    its counterpart is the one its spec asks for, created or updated; the counterpart
    of a deleted object is gone, and with it the object when no other finalizer holds
    it.  The client of this repository does not honour that contract: it reads the
    identifier of every reply as empty. *)
Theorem operator_settles {K Spec S V} `{KubeLaws K Spec} (kd : Kind Spec S) (view : S -> gmap string V) (used : S -> gset string)
    (want : Spec -> V) (k0 : K) (s0 : S) (w : K * S) (m : nat) (n : string) (o : CR Spec) :
  contract kd view used want -> kube_view k0 = ∅ -> view s0 = ∅ -> "" ∉ used s0 ->
  rtc (op_step kd) ((k0, s0), 0%nat) (w, m) ->
  kube_accepts (K:=K) (Spec:=Spec) -> ef_accepts kd view ->
  kube_view w.1 !! n = Some o -> (os_ID (cr_status o) <> "" -> is_Some (view w.2 !! os_ID (cr_status o))) ->
  exists w', Reconcile kd n w = (Ok tt, w') /\
    (cr_deleted o = false -> exists o', kube_view w'.1 !! n = Some o' /\ cr_spec o' = cr_spec o /\
       kd_finalizer kd ∈ cr_finalizers o' /\ os_Phase (cr_status o') = "Ready" /\ os_ID (cr_status o') <> "" /\
       view w'.2 !! os_ID (cr_status o') = Some (want (cr_spec o))) /\
    (cr_deleted o = true -> kd_finalizer kd ∈ cr_finalizers o -> view w'.2 !! os_ID (cr_status o) = None /\
       (forall o', kube_view w'.1 !! n = Some o' -> kd_finalizer kd ∉ cr_finalizers o') /\
       ((forall g, g ∈ cr_finalizers o -> g = kd_finalizer kd) -> kube_view w'.1 !! n = None)).
Proof.
  intros Hct Hk0 Hs0 Hu0 Hr Hk He Hn Hid. destruct (op_start_inv kd view used want Hct k0 s0 Hk0 Hs0 Hu0) as [Hi0 HX0].
  destruct (op_run_inv kd view used want Hct _ _ Hr Hi0 HX0) as (Hi & _). cbn [fst] in Hi.
  assert (cr_name o = n) as En by apply (mi_name _ _ _ _ Hi n (core_of o)), view_cores, Hn.
  assert (view w.2 !! "" = None) as Hemp by by apply not_elem_of_dom, (empty_not_remote kd view used w).
  destruct w as [k s]. cbn [fst snd] in *. unfold Reconcile. rewrite (proj1 Hk). cbn [fst]. rewrite Hn. unfold reconcile_object.
  rewrite <-En in *. destruct (cr_deleted o) eqn:Hdel.
  - destruct (decide (kd_finalizer kd ∈ cr_finalizers o)) as [Hf|Hf].
    + destruct (finalize_accepted kd view used want Hct o k s Hk He Hn Hdel Hf Hid Hemp) as (k1 & s1 & x & -> & Hg & Hv & Hx1 & Hx2).
      eexists. split; [done|]. split; [done|]. intros _ _. cbn [fst snd]. rewrite Hv, lookup_partial_alter_eq. auto.
    + unfold finalize. rewrite bool_decide_eq_false_2 by done. eexists. split; [done|]. split; [done|]. intros _ ?. done.
  - destruct (ensure_accepted kd o k s Hk Hn Hdel) as (o1 & k1 & E1 & Hv1 & En1 & _ & Hf1 & Hs1 & Hst1).
    unfold mbind, stM_bind. rewrite E1.
    destruct (create_or_update_accepted kd view used want Hct o1 k1 s Hk He) as (o2 & k2 & s2 & -> & Hv2 & Hf2 & Hs2 & Hp & Hne & Hw).
    { by rewrite Hv1, En1, lookup_insert_eq. }
    { by rewrite Hst1. }
    eexists. split; [done|]. split; [|done]. intros _. exists o2. cbn [fst snd]. rewrite Hv2, En1, lookup_insert_eq, Hs2, Hf2, Hw, Hs1. done.
Qed.

(** ** Witnesses *)

(** An API server with optimistic locking, and an API that keeps specs. *)
Definition map_update {Spec} (mkO : CR Spec -> CR Spec) (put : CR Spec -> option (CR Spec)) (o : CR Spec) : stM (gmap string (CR Spec)) (CR Spec) := fun k =>
  match k !! cr_name o with
  | None => (Err ErrNotFound, k)
  | Some cur => if cr_version o =? cr_version cur
                then (Ok (mkO cur), partial_alter (fun _ => put (mkO cur)) (cr_name o) k) else (Err ErrConflict, k)
  end.
#[export] Instance map_kube Spec : Kube (gmap string (CR Spec)) Spec := {
  kube_view k := k;
  kube_Get n k := Ok (k !! n);
  kube_Update o := map_update (fun cur => mkCR (cr_name o) (cr_version o + 1) (cr_deleted cur) (cr_finalizers o) (cr_spec o) (cr_status cur)) stored o;
  kube_UpdateStatus o := map_update (fun cur => mkCR (cr_name o) (cr_version o + 1) (cr_deleted cur) (cr_finalizers cur) (cr_spec cur) (cr_status o)) Some o;
  AddFinalizer f l := if bool_decide (f ∈ l) then l else l ++ [f];
  RemoveFinalizer f l := filter (fun g => g <> f) l
}.
#[export] Instance map_kube_laws Spec : KubeLaws (gmap string (CR Spec)) Spec.
Proof.
  split.
  - by intros n k x [= <-].
  - intros o k o' k'. cbn. unfold map_update. destruct (k !! cr_name o) as [cur|] eqn:E; [|done]. case_match; [|done]. intros [= <- <-]. by eexists _, _.
  - intros o k e k'. cbn. unfold map_update. repeat case_match; congruence.
  - intros o k o' k'. cbn. unfold map_update. destruct (k !! cr_name o) as [cur|] eqn:E; [|done]. case_match; [|done]. intros [= <- <-]. by eexists _, _.
  - intros o k e k'. cbn. unfold map_update. repeat case_match; congruence.
  - intros f g l. cbn. case_bool_decide; [set_solver|]. rewrite elem_of_app, list_elem_of_singleton. tauto.
  - intros f g l. cbn. by rewrite list_elem_of_filter.
Qed.
Lemma map_kube_accepts Spec : kube_accepts (K:=gmap string (CR Spec)) (Spec:=Spec).
Proof. split; [done|]. intros o k cur Ho Hv. cbn. unfold map_update. cbn in Ho. by rewrite Ho, Hv, Z.eqb_refl. Qed.

Notation sample_store := (gmap string TenantSpec * gset string)%type.
Definition sample_kind : Kind TenantSpec sample_store :=
  mkKind "edgefabric.io/tenant-cleanup"
    (fun sp s => let id := fresh ({[""]} ∪ s.2) in (Ok id, (<[id := sp]> s.1, {[id]} ∪ s.2)))
    (fun sp id s => match s.1 !! id with Some _ => (Ok tt, (<[id := sp]> s.1, s.2)) | None => (Err ErrNotFound, s) end)
    (fun _ id s => match s.1 !! id with Some _ => (Ok tt, (delete id s.1, s.2)) | None => (Err ErrNotFound, s) end)
    (fun _ => None).
Lemma sample_contract : contract sample_kind fst snd (fun sp => sp).
Proof.
  split.
  - intros sp s id s' [= <- <-]. pose proof (is_fresh ({[""]} ∪ s.2)) as Hf. set (x := fresh _) in *. cbn. set_solver.
  - done.
  - intros sp id s u s'. cbn. destruct (s.1 !! id); [|done]. intros [= _ <-]. done.
  - intros sp id s e s'. cbn. destruct (s.1 !! id); [done|]. intros [= _ <-]. auto.
  - intros sp id s u s'. cbn. destruct (s.1 !! id); [|done]. intros [= _ <-]. done.
  - intros sp id s e s'. cbn. destruct (s.1 !! id); [done|]. intros [= _ <-]. auto.
Qed.
Lemma sample_accepts : ef_accepts sample_kind fst.
Proof. split; [done|]. intros sp id s [x Hx]. cbn. by rewrite Hx. Qed.

Definition acme : CR TenantSpec := mkCR "acme" 1 false [] (mkTenantSpec "Acme" "acme") no_status.
Definition sample_world : gmap string (CR TenantSpec) * sample_store := (Reconcile sample_kind "acme" ({["acme" := acme]}, (∅, ∅))).2.

Lemma sample_run : rtc (op_step sample_kind) ((∅, (∅, ∅)), 0%nat) (sample_world, 0%nat).
Proof.
  eapply rtc_l; [|eapply rtc_l; [|apply rtc_refl]].
  - apply (Step_user sample_kind ∅ {["acme" := acme]} (∅, ∅) 0 "acme").
    + cbn. rewrite lookup_empty, lookup_singleton_eq. by constructor.
    + intros j Hj. cbn. by rewrite lookup_empty, lookup_singleton_ne.
  - change 0%nat with (0 + 0)%nat at 2. apply (Step_reconcile sample_kind "acme" _ (Ok tt)). vm_compute. reflexivity.
Qed.

Lemma operator_mirrors_witness :
  exists o, kube_view sample_world.1 !! "acme" = Some o /\ size sample_world.2.1 = 1%nat /\ cr_finalizers o = ["edgefabric.io/tenant-cleanup"] /\
    exists X : gset string, (size X <= 0)%nat /\ forall id, is_Some (sample_world.2.1 !! id) -> id ∈ X \/
      exists n o, kube_view sample_world.1 !! n = Some o /\ os_ID (cr_status o) = id.
Proof.
  eexists. split; [vm_compute; reflexivity|]. split; [vm_compute; reflexivity|]. split; [reflexivity|].
  destruct (operator_mirrors (H:=map_kube TenantSpec) sample_kind fst snd (fun sp => sp) ∅ (∅, ∅) sample_world 0 sample_contract eq_refl eq_refl
    (not_elem_of_empty _) sample_run) as (_ & _ & HX). exact HX.
Defined.

Definition acme_renamed : CR TenantSpec :=
  match sample_world.1 !! "acme" with
  | Some o => mkCR "acme" (cr_version o) false (cr_finalizers o) (mkTenantSpec "Acme Ltd" "acme") (cr_status o)
  | None => acme
  end.
Definition renamed_world : gmap string (CR TenantSpec) * sample_store := (<["acme" := acme_renamed]> sample_world.1, sample_world.2).

Lemma operator_settles_witness :
  exists w', Reconcile sample_kind "acme" renamed_world = (Ok tt, w') /\
    exists o', kube_view w'.1 !! "acme" = Some o' /\ os_Phase (cr_status o') = "Ready" /\
      w'.2.1 !! os_ID (cr_status o') = Some (mkTenantSpec "Acme Ltd" "acme").
Proof.
  destruct (operator_settles (H:=map_kube TenantSpec) sample_kind fst snd (fun sp => sp) ∅ (∅, ∅) renamed_world 0 "acme" acme_renamed sample_contract eq_refl eq_refl
    (not_elem_of_empty _)) as (w' & Hw & Hlive & _).
  - eapply rtc_r; [exact sample_run|]. apply (Step_user sample_kind sample_world.1 (<["acme" := acme_renamed]> sample_world.1) sample_world.2 0 "acme").
    + cbn [kube_view map_kube]. rewrite lookup_insert_eq. unfold acme_renamed.
      destruct (sample_world.1 !! "acme") as [o|] eqn:E; [|vm_compute in E; discriminate E].
      constructor; [|reflexivity|cbn; auto]. cbn. vm_compute in E. injection E as <-. reflexivity.
    + intros j Hj. cbn. by rewrite lookup_insert_ne.
  - apply map_kube_accepts.
  - exact sample_accepts.
  - vm_compute. reflexivity.
  - intros _. vm_compute. eauto.
  - assert (cr_deleted acme_renamed = false) as Hd by (vm_compute; reflexivity).
    assert (cr_spec acme_renamed = mkTenantSpec "Acme Ltd" "acme") as Hsp by (vm_compute; reflexivity).
    destruct (Hlive Hd) as (o' & Ho & _ & _ & Hp & _ & Hv). rewrite Hsp in Hv. exists w'. split; [exact Hw|]. exists o'. split_and!; [exact Ho|exact Hp|exact Hv].
Defined.
