(* ===== verification/OperatorApi.v ===== *)
(** * The client of the operator, its six kinds, and the controller behind them
    (operator/pkg/efclient/client.go, operator/internal/controller)

    Requests carry method, path and the value given to [json.Marshal]; a response
    its status and its body as a JSON value, [None] when it is not JSON.  [dispatch]
    is what the mux and [apiutil.Decode] of the controller make of a request: which
    endpoint its path is registered for, and whether the decoder, which rejects
    unknown fields, accepts its body. *)

From Stdlib Require Import ZArith Lia Ascii String.
From S2P Require Import Prelude GoStrings Secrets Domain Storage DnsService CdnService GoHttp Provisioner ProvisionFrame StoreAccess Fleet RouteService.
From S2P Require Import Token Auth Api ApiHandlers ApiFleet ApiNet ApiProvision ApiRoutes Agent Operator.

Open Scope Z_scope.

(** ** JSON *)

Inductive json :=
| JNull | JBool (b : bool) | JNum (n : Z) | JStr (s : string) | JArr (l : list json) | JObj (fields : list (string * json)).

(** [json.Decode] into [ResourceResponse], a struct with the one field id: keys
    match without regard to case, others are ignored, null leaves a field as it is. *)
Definition decode_ResourceResponse (j : json) : option string :=
  match j with
  | JNull => Some ""
  | JObj fields =>
      foldl (fun acc '(k, v) =>
        if bool_decide (ToLower k = "id") then
          match v with JStr s => _ ← acc; Some s | JNull => acc | _ => None end
        else acc) (Some "") fields
  | _ => None
  end.

(** ** Request bodies *)

Record ef_CreateTenantRequest := mkEfTenant { eft_Name : string; eft_Slug : string }.
Record ef_CreateNodeRequest := mkEfNode {
  efn_Name : string; efn_Hostname : string; efn_Region : string; efn_PublicIP : string; efn_TenantID : string
}.
Record ef_CreateGatewayRequest := mkEfGateway { efg_Name : string; efg_PublicIP : string; efg_TenantID : string }.
Record DNSRecordBody := mkDNSRecordBody {
  drb_Name : string; drb_Type : string; drb_Value : string; drb_TTL : Z; drb_Priority : option Z
}.
Record CreateDNSZoneRequest := mkEfZone { efz_Name : string; efz_TenantID : string; efz_Records : list DNSRecordBody }.
Record CDNOriginBody := mkCDNOriginBody {
  cob_Address : string; cob_Scheme : string; cob_Weight : Z; cob_HealthCheckPath : string; cob_HealthCheckInterval : Z
}.
Record CreateCDNSiteRequest := mkEfSite {
  efs_Name : string; efs_TenantID : string; efs_Domains : list string; efs_TLSMode : string; efs_CacheEnabled : bool;
  efs_CacheTTL : Z; efs_CompressionEnabled : bool; efs_RateLimitRPS : option Z; efs_WAFEnabled : bool; efs_WAFMode : string;
  efs_NodeGroupID : string; efs_Origins : list CDNOriginBody
}.
Record ef_CreateRouteRequest := mkEfRoute {
  efr_Name : string; efr_TenantID : string; efr_Protocol : string; efr_EntryIP : string; efr_EntryPort : option Z;
  efr_DestinationIP : string; efr_DestinationPort : option Z; efr_GatewayID : string
}.

Inductive ef_body :=
| BodyTenant (r : ef_CreateTenantRequest) | BodyNode (r : ef_CreateNodeRequest) | BodyGateway (r : ef_CreateGatewayRequest)
| BodyZone (r : CreateDNSZoneRequest) | BodySite (r : CreateCDNSiteRequest) | BodyRoute (r : ef_CreateRouteRequest).

Record ef_request := mkEfRequest { rq_method : string; rq_path : string; rq_body : option ef_body }.
Record ef_response := mkEfResponse { rp_StatusCode : Z; rp_Body : option json }.

(** ** client.go *)

Section efclient.
Context {S : Type} (do : ef_request -> stM S ef_response).

Definition readError : goerr := Errorf "edgefabric API error".
Definition doRequest (method path : string) (body : option ef_body) : stM S ef_response := do (mkEfRequest method path body).

Definition decode_body (resp : ef_response) : result string :=
  match rp_Body resp ≫= decode_ResourceResponse with
  | Some id => Ok id
  | None => Err (Wrapf "decode response" (Errorf "json"))
  end.

Definition doCreate (path : string) (body : ef_body) : stM S string :=
  resp ← doRequest "POST" path (Some body);
  if negb (bool_decide (rp_StatusCode resp = 201)) && negb (bool_decide (rp_StatusCode resp = 200)) then throw readError
  else lift (decode_body resp).

Definition doGet (path : string) : stM S string :=
  resp ← doRequest "GET" path None;
  if negb (bool_decide (rp_StatusCode resp = 200)) then throw readError else lift (decode_body resp).

Definition doPut (path : string) (body : ef_body) : stM S unit :=
  resp ← doRequest "PUT" path (Some body);
  if negb (bool_decide (rp_StatusCode resp = 200)) && negb (bool_decide (rp_StatusCode resp = 204)) then throw readError else mret tt.

Definition doDelete (path : string) : stM S unit :=
  resp ← doRequest "DELETE" path None;
  if negb (bool_decide (rp_StatusCode resp = 200)) && negb (bool_decide (rp_StatusCode resp = 204)) then throw readError else mret tt.

Definition CreateTenant (req : ef_CreateTenantRequest) : stM S string := doCreate "/api/v1/tenants" (BodyTenant req).
Definition UpdateTenant (id : string) (req : ef_CreateTenantRequest) : stM S unit := doPut ("/api/v1/tenants/" +:+ id) (BodyTenant req).
Definition DeleteTenant (id : string) : stM S unit := doDelete ("/api/v1/tenants/" +:+ id).
Definition CreateNode (req : ef_CreateNodeRequest) : stM S string := doCreate "/api/v1/nodes" (BodyNode req).
Definition UpdateNode (id : string) (req : ef_CreateNodeRequest) : stM S unit := doPut ("/api/v1/nodes/" +:+ id) (BodyNode req).
Definition DeleteNode (id : string) : stM S unit := doDelete ("/api/v1/nodes/" +:+ id).
Definition CreateGateway (req : ef_CreateGatewayRequest) : stM S string := doCreate "/api/v1/gateways" (BodyGateway req).
Definition UpdateGateway (id : string) (req : ef_CreateGatewayRequest) : stM S unit := doPut ("/api/v1/gateways/" +:+ id) (BodyGateway req).
Definition DeleteGateway (id : string) : stM S unit := doDelete ("/api/v1/gateways/" +:+ id).

Definition zones_path (tenantID : string) : string := "/api/v1/tenants/" +:+ tenantID +:+ "/dns/zones".
Definition sites_path (tenantID : string) : string := "/api/v1/tenants/" +:+ tenantID +:+ "/cdn/sites".
Definition routes_path (tenantID : string) : string := "/api/v1/tenants/" +:+ tenantID +:+ "/routes".

Definition CreateDNSZone (tenantID : string) (req : CreateDNSZoneRequest) : stM S string := doCreate (zones_path tenantID) (BodyZone req).
Definition UpdateDNSZone (tenantID id : string) (req : CreateDNSZoneRequest) : stM S unit := doPut (zones_path tenantID +:+ "/" +:+ id) (BodyZone req).
Definition DeleteDNSZone (tenantID id : string) : stM S unit := doDelete (zones_path tenantID +:+ "/" +:+ id).
Definition CreateCDNSite (tenantID : string) (req : CreateCDNSiteRequest) : stM S string := doCreate (sites_path tenantID) (BodySite req).
Definition UpdateCDNSite (tenantID id : string) (req : CreateCDNSiteRequest) : stM S unit := doPut (sites_path tenantID +:+ "/" +:+ id) (BodySite req).
Definition DeleteCDNSite (tenantID id : string) : stM S unit := doDelete (sites_path tenantID +:+ "/" +:+ id).
Definition CreateRoute (tenantID : string) (req : ef_CreateRouteRequest) : stM S string := doCreate (routes_path tenantID) (BodyRoute req).
Definition UpdateRoute (tenantID id : string) (req : ef_CreateRouteRequest) : stM S unit := doPut (routes_path tenantID +:+ "/" +:+ id) (BodyRoute req).
Definition DeleteRoute (tenantID id : string) : stM S unit := doDelete (routes_path tenantID +:+ "/" +:+ id).

(** ** The reconcilers *)

Definition tenant_request (sp : TenantSpec) : ef_CreateTenantRequest := mkEfTenant (tsp_Name sp) (tsp_Slug sp).
Definition tenant_kind : Kind TenantSpec S :=
  mkKind "edgefabric.io/tenant-cleanup" (fun sp => CreateTenant (tenant_request sp)) (fun sp id => UpdateTenant id (tenant_request sp))
    (fun _ id => DeleteTenant id) (fun _ => None).

Definition node_request (sp : NodeSpec) : ef_CreateNodeRequest :=
  mkEfNode (nsp_Name sp) (nsp_Hostname sp) (nsp_Region sp) (nsp_PublicIP sp) (nsp_TenantRef sp).
Definition node_kind : Kind NodeSpec S :=
  mkKind "edgefabric.io/node-cleanup" (fun sp => CreateNode (node_request sp)) (fun sp id => UpdateNode id (node_request sp))
    (fun _ id => DeleteNode id) (fun _ => None).

Definition gateway_request (sp : GatewaySpec) : ef_CreateGatewayRequest := mkEfGateway (gsp_Name sp) (gsp_PublicIP sp) (gsp_TenantRef sp).
Definition gateway_kind : Kind GatewaySpec S :=
  mkKind "edgefabric.io/gateway-cleanup" (fun sp => CreateGateway (gateway_request sp)) (fun sp id => UpdateGateway id (gateway_request sp))
    (fun _ id => DeleteGateway id) (fun _ => None).

Definition record_body (r : DNSRecordSpec) : DNSRecordBody :=
  mkDNSRecordBody (rsp_Name r) (rsp_Type r) (rsp_Value r) (rsp_TTL r) (rsp_Priority r).
Definition zone_request (sp : DNSZoneSpec) : CreateDNSZoneRequest := mkEfZone (zsp_Name sp) (zsp_TenantRef sp) (record_body <$> zsp_Records sp).
Definition dnszone_kind : Kind DNSZoneSpec S :=
  mkKind "edgefabric.io/dnszone-cleanup" (fun sp => CreateDNSZone (zsp_TenantRef sp) (zone_request sp))
    (fun sp id => UpdateDNSZone (zsp_TenantRef sp) id (zone_request sp))
    (fun sp id => DeleteDNSZone (zsp_TenantRef sp) id) (fun sp => Some (Z.of_nat (length (zsp_Records sp)))).

Definition origin_body (o : CDNOriginSpec) : CDNOriginBody :=
  mkCDNOriginBody (osp_Address o) (osp_Scheme o) (osp_Weight o) (osp_HealthCheckPath o) (osp_HealthCheckInterval o).
Definition site_request (sp : CDNSiteSpec) : CreateCDNSiteRequest :=
  mkEfSite (ssp_Name sp) (ssp_TenantRef sp) (ssp_Domains sp) (ssp_TLSMode sp) (ssp_CacheEnabled sp) (ssp_CacheTTL sp)
    (ssp_CompressionEnabled sp) (ssp_RateLimitRPS sp) (ssp_WAFEnabled sp) (ssp_WAFMode sp) (ssp_NodeGroupRef sp) (origin_body <$> ssp_Origins sp).
Definition cdnsite_kind : Kind CDNSiteSpec S :=
  mkKind "edgefabric.io/cdnsite-cleanup" (fun sp => CreateCDNSite (ssp_TenantRef sp) (site_request sp))
    (fun sp id => UpdateCDNSite (ssp_TenantRef sp) id (site_request sp))
    (fun sp id => DeleteCDNSite (ssp_TenantRef sp) id) (fun sp => Some (Z.of_nat (length (ssp_Domains sp)))).

Definition route_request (sp : RouteSpec) : ef_CreateRouteRequest :=
  mkEfRoute (usp_Name sp) (usp_TenantRef sp) (usp_Protocol sp) (usp_EntryIP sp) (usp_EntryPort sp) (usp_DestinationIP sp)
    (usp_DestinationPort sp) (usp_GatewayRef sp).
Definition route_kind : Kind RouteSpec S :=
  mkKind "edgefabric.io/route-cleanup" (fun sp => CreateRoute (usp_TenantRef sp) (route_request sp))
    (fun sp id => UpdateRoute (usp_TenantRef sp) id (route_request sp))
    (fun sp id => DeleteRoute (usp_TenantRef sp) id) (fun _ => None).

(** The [Reconcile] methods of the six reconcilers. *)
Definition Tenant_Reconcile `{Kube K TenantSpec} : string -> stM (K * S) unit := Operator.Reconcile tenant_kind.
Definition Node_Reconcile `{Kube K NodeSpec} : string -> stM (K * S) unit := Operator.Reconcile node_kind.
Definition Gateway_Reconcile `{Kube K GatewaySpec} : string -> stM (K * S) unit := Operator.Reconcile gateway_kind.
Definition DNSZone_Reconcile `{Kube K DNSZoneSpec} : string -> stM (K * S) unit := Operator.Reconcile dnszone_kind.
Definition CDNSite_Reconcile `{Kube K CDNSiteSpec} : string -> stM (K * S) unit := Operator.Reconcile cdnsite_kind.
Definition Route_Reconcile `{Kube K RouteSpec} : string -> stM (K * S) unit := Operator.Reconcile route_kind.
End efclient.

(** ** The controller *)

Section controller.
Context `{UUID} `{AuthLib} `{AEAD} (hmac_sha256 : string -> string -> string) (ParseAddress : string -> bool).
Context (srv : ApiServer) (apiKey remote : string).
(** the JSON of the values handlers return *)
Context (encode : Body -> json).

(** What the decoder of each endpoint makes of the body of the client.  An empty
    string or list with omitempty is not sent; an identifier that does not parse and
    a field the endpoint does not know are errors. *)
Definition tenant_body (r : ef_CreateTenantRequest) : option tenant_CreateRequest := Some (mkCreateTenant (eft_Name r) (eft_Slug r)).
Definition node_body (r : ef_CreateNodeRequest) : option CreateNodeRequest :=
  t ← uuid_Parse (efn_TenantID r);
  Some (mkCreateNodeRequest (Some t) (efn_Name r) (efn_Hostname r) (efn_PublicIP r) (efn_Region r) "" 0 "").
Definition gateway_body (r : ef_CreateGatewayRequest) : option CreateGatewayRequest :=
  t ← uuid_Parse (efg_TenantID r); Some (mkCreateGatewayRequest t (efg_Name r) (efg_PublicIP r)).
Definition zone_body (r : CreateDNSZoneRequest) : option CreateZoneRequest :=
  t ← uuid_Parse (efz_TenantID r);
  if bool_decide (length (efz_Records r) = 0%nat) then Some (mkCreateZoneRequest t (efz_Name r) 0 None []) else None.
Definition site_body (r : CreateCDNSiteRequest) : option CreateSiteRequest :=
  t ← uuid_Parse (efs_TenantID r);
  g ← (if bool_decide (efs_NodeGroupID r = "") then Some None else Some <$> uuid_Parse (efs_NodeGroupID r));
  if bool_decide (length (efs_Origins r) = 0%nat) then
    Some (mkCreateSiteRequest t (efs_Name r) (efs_Domains r) (efs_TLSMode r) (efs_CacheEnabled r) (efs_CacheTTL r) (efs_CompressionEnabled r)
            (efs_RateLimitRPS r) g "" (efs_WAFEnabled r) (efs_WAFMode r))
  else None.
Definition route_body (r : ef_CreateRouteRequest) : option CreateRouteRequest :=
  t ← uuid_Parse (efr_TenantID r); g ← uuid_Parse (efr_GatewayID r);
  Some (mkCreateRouteRequest t (efr_Name r) (efr_Protocol r) (efr_EntryIP r) (efr_EntryPort r) g (efr_DestinationIP r) (efr_DestinationPort r) None).

(** The endpoints the paths of the client reach; the update and delete endpoints of
    zones, sites and routes are registered under other paths.  The update bodies
    always carry a field the update endpoints do not know (slug, hostname,
    public_ip). *)
Definition dispatch (r : ef_request) : option call :=
  match Split (rq_path r) "/", rq_body r with
  | [e; a; v; x], Some b =>
      if bool_decide ([e; a; v] = [""; "api"; "v1"]) && bool_decide (rq_method r = "POST") then
        match b with
        | BodyTenant b => if bool_decide (x = "tenants") then Some (CTenantCreate (tenant_body b)) else None
        | BodyNode b => if bool_decide (x = "nodes") then Some (CFleet (CNodeCreate (node_body b))) else None
        | BodyGateway b => if bool_decide (x = "gateways") then Some (CFleet (CGatewayCreate (gateway_body b))) else None
        | _ => None
        end
      else None
  | [e; a; v; x; id], b =>
      if bool_decide ([e; a; v] = [""; "api"; "v1"]) && negb (bool_decide (id = "")) then
        if bool_decide (rq_method r = "PUT") then
          if bool_decide (x = "tenants") then Some (CTenantUpdate id None)
          else if bool_decide (x = "nodes") then Some (CFleet (CNodeUpdate id None))
          else if bool_decide (x = "gateways") then Some (CFleet (CGatewayUpdate id None)) else None
        else if bool_decide (rq_method r = "DELETE") then
          if bool_decide (x = "tenants") then Some (CTenantDelete id)
          else if bool_decide (x = "nodes") then Some (CFleet (CNodeDelete id))
          else if bool_decide (x = "gateways") then Some (CFleet (CGatewayDelete id)) else None
        else None
      else None
  | [e; a; v; x; t; y], Some (BodyRoute b) =>
      if bool_decide ([e; a; v; x; y] = [""; "api"; "v1"; "tenants"; "routes"]) && bool_decide (rq_method r = "POST") && negb (bool_decide (t = ""))
      then Some (CNet (CRouteCreate t (route_body b))) else None
  | [e; a; v; x; t; y; z], Some b =>
      if bool_decide ([e; a; v; x] = [""; "api"; "v1"; "tenants"]) && bool_decide (rq_method r = "POST") && negb (bool_decide (t = "")) then
        match b with
        | BodyZone b => if bool_decide ([y; z] = ["dns"; "zones"]) then Some (CZoneCreate t (zone_body b)) else None
        | BodySite b => if bool_decide ([y; z] = ["cdn"; "sites"]) then Some (CNet (CSiteCreate t (site_body b))) else None
        | _ => None
        end
      else None
  | _, _ => None
  end.

(** [apiutil.Response] and [apiutil.ListResponse]: the envelope of every reply. *)
Definition envelope (b : Body) : option json :=
  match b with
  | BNone | BText _ => None
  | BError _ _ => Some (JObj [("error", encode b)])
  | BTenants _ t o l | BUsers _ t o l | BKeys _ t o l | BAudit _ t o l | BZones _ t o l | BRecords _ t o l | BNodes _ t o l
  | BGateways _ t o l | BGroups _ t o l | BSSHKeys _ t o l | BRoutes _ t o l | BAllocations _ t o l | BSessions _ t o l
  | BPeers _ t o l | BSites _ t o l | BOrigins _ t o l | BJobs _ t o l =>
      Some (JObj [("data", encode b); ("total", JNum t); ("offset", JNum o); ("limit", JNum l)])
  | BNodesPage _ t l c => Some (JObj [("data", encode b); ("total", JNum t); ("offset", JNum 0); ("limit", JNum l); ("next_cursor", JStr c)])
  | _ => Some (JObj [("data", encode b)])
  end.

(** A request of the client, answered by the controller; a path without endpoint
    is not found. *)
Definition controller_do (t : transport) (e : ReqEnv) (r : ef_request) : stM SqlState ef_response :=
  match dispatch r with
  | None => match t with
            | Delivered => mret (mkEfResponse 404 None)
            | _ => throw (Errorf "dial")
            end
  | Some c =>
      rep ← Do hmac_sha256 ParseAddress srv t e c (mkIncoming (if bool_decide (apiKey = "") then "" else "Bearer " +:+ apiKey) None "" remote);
      mret (mkEfResponse (ar_status rep) (envelope (ar_body rep)))
  end.

(** The kinds of the operator, talking to the controller. *)
Inductive client_kind : forall Spec : Type, (transport -> ReqEnv -> Kind Spec SqlState) -> Prop :=
| Kind_tenant : client_kind TenantSpec (fun t e => tenant_kind (controller_do t e))
| Kind_node : client_kind NodeSpec (fun t e => node_kind (controller_do t e))
| Kind_gateway : client_kind GatewaySpec (fun t e => gateway_kind (controller_do t e))
| Kind_zone : client_kind DNSZoneSpec (fun t e => dnszone_kind (controller_do t e))
| Kind_site : client_kind CDNSiteSpec (fun t e => cdnsite_kind (controller_do t e))
| Kind_route : client_kind RouteSpec (fun t e => route_kind (controller_do t e)).

(** ** No identifier ever arrives *)

Lemma envelope_no_id b j : envelope b = Some j -> decode_ResourceResponse j = Some "".
Proof. destruct b; cbn; intros [= <-]; reflexivity. Qed.

Lemma doCreate_blind t e path body s id s' : doCreate (controller_do t e) path body s = (Ok id, s') -> id = "".
Proof.
  unfold doCreate, doRequest. intros (resp & s1 & Hr & Hd)%bind_Ok. case_match; [done|]. apply lift_Ok in Hd as [Hd _].
  unfold decode_body in Hd. unfold controller_do in Hr. destruct (dispatch _) as [c|].
  - apply bind_Ok in Hr as (rep & s2 & _ & Hr). apply ret_Ok in Hr as [<- _]. cbn [rp_Body] in Hd.
    destruct (envelope (ar_body rep)) as [j|] eqn:Ej; cbn in Hd; [|done]. rewrite (envelope_no_id _ _ Ej) in Hd. by injection Hd as <-.
  - destruct t; [|done..]. apply ret_Ok in Hr as [<- _]. done.
Qed.

Lemma client_kind_blind Spec mk : client_kind Spec mk -> forall t e spec s id s', kd_create (mk t e) spec s = (Ok id, s') -> id = "".
Proof. intros []; intros t e spec s id s'; cbn; apply doCreate_blind. Qed.
End controller.

Section blank.
Context {K Spec S : Type} `{KubeLaws K Spec} (kd : Kind Spec S).
Context (Hblind : forall spec s id s', kd_create kd spec s = (Ok id, s') -> id = "").

Definition blank (C : gmap string (core Spec)) : Prop := map_Forall (fun n c => co_name c = n /\ co_id c = "") C.

Lemma blank_alter C n (x : option (core Spec)) : blank C -> (forall c, x = Some c -> co_name c = n /\ co_id c = "") ->
  blank (partial_alter (fun _ => x) n C).
Proof using Type.
  intros HC Hx m c. destruct (decide (m = n)) as [->|Hm].
  - rewrite lookup_partial_alter_eq. apply Hx.
  - rewrite lookup_partial_alter_ne by done. apply HC.
Qed.

Lemma Update_blank f o k r k' : blank (cores k) -> current k o -> kube_Update (with_finalizers f o) k = (r, k') -> blank (cores k').
Proof using H0.
  intros HC Hc E. pose proof (HC _ _ Hc) as [_ Hid]. pose proof (Update_cores _ _ _ _ _ Hc E) as Hu. destruct r; [|by rewrite Hu].
  destruct Hu as [_ ->]. apply blank_alter; [done|]. intros c. unfold stored. case_match; cbn; [done|]. intros [= <-]. done.
Qed.

Lemma create_or_update_blank o w r w' : blank (cores w.1) -> current w.1 o -> create_or_update kd o w = (r, w') -> blank (cores w'.1).
Proof using H0 Hblind.
  intros HC Hc. pose proof (HC _ _ Hc) as [_ Hid]. cbn in Hid. unfold create_or_update. rewrite bool_decide_eq_true_2 by done.
  unfold mbind, stM_bind. destruct (or_fail _ _ _ w) as [r1 w1] eqn:E1. apply or_fail_cases in E1 as (Ec & Em & Hk); [|done].
  destruct r1 as [id|e]; [|intros [= <- <-]; by rewrite Ec]. apply Hblind in Em as ->.
  assert (Hc1 : current w1.1 o) by (unfold current; rewrite (Hk eq_refl); done). intros Er.
  apply (mark_ready_cores kd) in Er as [_ Er]; [|done]. destruct r; [|by rewrite Er, Ec]. destruct Er as [-> _]. rewrite Ec.
  apply blank_alter; [done|]. by intros c [= <-].
Qed.

Lemma Reconcile_blank n w r w' : blank (cores w.1) -> Reconcile kd n w = (r, w') -> blank (cores w'.1).
Proof using H0 Hblind.
  intros HC. unfold Reconcile. destruct (kube_Get n w.1) as [[o|]|e] eqn:Eg; [|intros [= <- <-]; done..].
  apply kube_Get_view in Eg. symmetry in Eg. apply view_cores in Eg. pose proof (HC _ _ Eg) as [En Hid]. cbn in En, Hid.
  assert (Hc : current w.1 o) by (unfold current; by rewrite En). unfold reconcile_object. destruct (cr_deleted o) eqn:Hdel.
  - unfold finalize. case_bool_decide; [|by intros [= <- <-]]. unfold delete_remote. rewrite bool_decide_eq_true_2 by done.
    unfold mbind, stM_bind, on_kube. cbn. destruct (kube_Update _ w.1) as [r2 k2] eqn:Eu. intros E.
    apply Update_blank in Eu; [|done..]. by destruct r2; injection E as <- <-.
  - unfold mbind, stM_bind. destruct (ensure_finalizer kd o w) as [r1 w1] eqn:E1. unfold ensure_finalizer in E1.
    case_bool_decide; [injection E1 as <- <-; by apply create_or_update_blank|].
    unfold on_kube in E1. destruct (kube_Update _ w.1) as [r2 k2] eqn:Eu. injection E1 as <- <-.
    pose proof (Update_cores _ _ _ _ _ Hc Eu) as Hu. apply Update_blank in Eu; [|done..].
    destruct r2 as [o1|e1]; [|by intros [= <- <-]]. apply create_or_update_blank; [done|].
    destruct Hu as [Ho Hu]. unfold current. cbn [fst]. rewrite Hu, Ho. injection Ho as -> _ _ _ _. cbn [with_finalizers cr_name].
    rewrite lookup_partial_alter_eq. unfold stored. cbn [with_finalizers cr_deleted]. by rewrite Hdel.
Qed.

Lemma finalize_blank o w : os_ID (cr_status o) = "" -> (finalize kd o w).2.2 = w.2.
Proof using Type.
  intros Hid. unfold finalize. case_bool_decide; [|done]. unfold delete_remote. rewrite bool_decide_eq_true_2 by done.
  unfold mbind, stM_bind, on_kube. cbn. by destruct (kube_Update _ w.1) as [[] ?].
Qed.

Lemma create_again o w : current w.1 o -> os_ID (cr_status o) = "" -> (create_or_update kd o w).2.2 = (kd_create kd (cr_spec o) w.2).2.
Proof using H0.
  intros Hc Hid. unfold create_or_update. rewrite bool_decide_eq_true_2 by done. unfold mbind, stM_bind.
  destruct (or_fail _ _ _ w) as [r1 w1] eqn:E1. apply or_fail_cases in E1 as (Ec & Em & Hk); [|done]. rewrite Em.
  destruct r1 as [id|e]; [|done]. destruct (mark_ready kd o id w1) as [r2 w2] eqn:E2. cbn [snd].
  apply (mark_ready_cores kd) in E2 as [-> _]; [done|]. unfold current. by rewrite (Hk eq_refl).
Qed.
End blank.

(** ** Runs of the operator against the controller *)

Section runs.
Context {K Spec : Type} `{KubeLaws K Spec} (mk : transport -> ReqEnv -> Kind Spec SqlState).

(** Users create, edit and delete objects but do not write their status; other
    clients of the controller may do anything; Reconcile runs for any object, its
    request or the reply possibly lost. *)
Inductive http_step : K * SqlState -> K * SqlState -> Prop :=
| H_user k k' s n : (forall j, j <> n -> kube_view k' !! j = kube_view k !! j) ->
    (forall o', kube_view k' !! n = Some o' -> cr_name o' = n /\
       cr_status o' = match kube_view k !! n with Some o => cr_status o | None => no_status end) -> http_step (k, s) (k', s)
| H_client k s s' : http_step (k, s) (k, s')
| H_reconcile t e n w r w' : Reconcile (mk t e) n w = (r, w') -> http_step w w'.

Lemma http_blank w w' : (forall t e spec s id s', kd_create (mk t e) spec s = (Ok id, s') -> id = "") ->
  rtc http_step w w' -> blank (cores w.1) -> blank (cores w'.1).
Proof using H0.
  intros Hb. induction 1 as [|w w1 w2 Hst _ IH]; [done|]. intros HC. apply IH. clear IH w2.
  inversion Hst as [k k' s n Hj Hn|k s s'|t e n w0 r w1' Hr]; subst; cbn [fst] in *; [|done|by eapply Reconcile_blank; [apply Hb| |exact Hr]].
  rewrite (user_cores k k' n Hj). apply blank_alter; [done|]. intros c. destruct (kube_view k' !! n) as [o'|] eqn:En; cbn; [|done].
  intros [= <-]. destruct (Hn o' eq_refl) as [Hname Hst']. cbn. split; [done|]. rewrite Hst'.
  destruct (kube_view k !! n) as [o|] eqn:Eo; [|done]. apply (HC n (core_of o)). by apply view_cores.
Qed.
End runs.

(** ** Claim *)

(** C36: against the controller of this repository, the operator never learns the
    identifier of what it creates: the controller wraps every reply in an envelope
    and the client looks for the identifier outside of it.  Whatever users, other
    clients and the network do, the recorded identifier of every object stays empty,
    so that each call of Reconcile for an object creates another counterpart, and
    the one for a deleted object deletes nothing. *)
Theorem operator_never_learns_ids `{UUID} `{AuthLib} `{AEAD} {K Spec} `{KubeLaws K Spec} hmac_sha256 ParseAddress (srv : ApiServer)
    (apiKey remote : string) (encode : Body -> json) (mk : transport -> ReqEnv -> Kind Spec SqlState) (k0 k : K) (s0 s : SqlState) :
  client_kind hmac_sha256 ParseAddress srv apiKey remote encode Spec mk -> kube_view k0 = ∅ ->
  rtc (http_step mk) (k0, s0) (k, s) ->
  forall n o, kube_view k !! n = Some o ->
    os_ID (cr_status o) = "" /\
    forall t e,
      (cr_deleted o = true -> (Reconcile (mk t e) n (k, s)).2.2 = s) /\
      (cr_deleted o = false -> kube_accepts (K:=K) (Spec:=Spec) ->
         (Reconcile (mk t e) n (k, s)).2.2 = (kd_create (mk t e) (cr_spec o) s).2).
Proof.
  intros Hmk Hk0 Hr n o Ho. pose proof (client_kind_blind _ _ _ _ _ _ _ _ Hmk) as Hb.
  assert (HC : blank (cores k)).
  { change k with (k, s).1. eapply http_blank; [exact Hb|exact Hr|]. unfold cores. cbn. rewrite Hk0, fmap_empty. apply map_Forall_empty. }
  destruct (HC n (core_of o) (view_cores _ _ _ Ho)) as [En Hid]. cbn in En, Hid. split; [done|]. intros t e.
  split; intros Hdel.
  - unfold Reconcile. cbn [fst]. destruct (kube_Get n k) as [x|] eqn:Eg; [|done]. apply kube_Get_view in Eg as ->. rewrite Ho.
    unfold reconcile_object. rewrite Hdel. by apply finalize_blank.
  - intros Hacc. unfold Reconcile. cbn [fst]. rewrite (proj1 Hacc), Ho. unfold reconcile_object. rewrite Hdel. unfold mbind, stM_bind.
    rewrite <-En in Ho. destruct (ensure_accepted (mk t e) o k s Hacc Ho Hdel) as (o1 & k1 & -> & Hv & En1 & _ & _ & Hsp & Hst).
    rewrite create_again; [by rewrite Hsp| |by rewrite Hst]. unfold current. cbn [fst]. rewrite En1. apply view_cores. by rewrite Hv, lookup_insert_eq.
Qed.

(** ** Witness *)

Definition root : Claims := mkClaims 10 None RoleSuperUser None false.
Definition edge_node : CR NodeSpec := mkCR "edge" 1 false [] (mkNodeSpec "edge-1" "edge-1.example.org" "eu" "192.0.2.9" (uuid_String 1)) no_status.
Definition step_env (i : nat) : ReqEnv := mkReqEnv (fun n => Z.of_nat n) (fun n => N.of_nat (100 * i + n)) 0 (Some "r") (Some "n") 0.
Definition to_controller (t : transport) (e : ReqEnv) : Kind NodeSpec SqlState :=
  node_kind (controller_do plain_hmac (fun _ => true) sample_server (token_of root) "192.0.2.2:4711" (fun _ => JNull) t e).
Definition world_0 : gmap string (CR NodeSpec) * SqlState := ({["edge" := edge_node]}, api_state).
Definition world_1 := (Reconcile (to_controller Delivered (step_env 1)) "edge" world_0).2.
Definition world_2 := (Reconcile (to_controller Delivered (step_env 2)) "edge" world_1).2.
Definition gone_node : CR NodeSpec :=
  match world_2.1 !! "edge" with
  | Some o => mkCR "edge" (cr_version o) true (cr_finalizers o) (cr_spec o) (cr_status o)
  | None => edge_node
  end.
Definition objects_3 : gmap string (CR NodeSpec) := <["edge" := gone_node]> world_2.1.

Lemma world_run : rtc (http_step to_controller) (∅, api_state) (objects_3, world_2.2).
Proof.
  eapply rtc_l; [|eapply rtc_l; [|eapply rtc_l; [|eapply rtc_l; [|apply rtc_refl]]]].
  - apply (H_user to_controller ∅ {["edge" := edge_node]} api_state "edge").
    + intros j Hj. cbn. by rewrite lookup_empty, lookup_singleton_ne.
    + intros o'. cbn. rewrite lookup_empty, lookup_singleton_eq. by intros [= <-].
  - apply (H_reconcile to_controller Delivered (step_env 1) "edge" _ _ world_1 (surjective_pairing _)).
  - apply (H_reconcile to_controller Delivered (step_env 2) "edge" _ _ world_2 (surjective_pairing _)).
  - rewrite (surjective_pairing world_2) at 1. unfold objects_3. apply (H_user to_controller world_2.1 _ world_2.2 "edge").
    + intros j Hj. cbn. by rewrite lookup_insert_ne.
    + intros o'. cbn [kube_view map_kube]. rewrite lookup_insert_eq. intros <-%(inj Some). unfold gone_node.
      destruct (world_2.1 !! "edge") as [o|] eqn:E; [by split|vm_compute in E; discriminate E].
Qed.

Lemma operator_never_learns_ids_witness :
  size (nodes (sq_db world_1.2)) = 1%nat /\ size (nodes (sq_db world_2.2)) = 2%nat /\
  (Reconcile (to_controller Delivered (step_env 3)) "edge" (objects_3, world_2.2)).2.1 !! "edge" = None /\
  (Reconcile (to_controller Delivered (step_env 3)) "edge" (objects_3, world_2.2)).2.2 = world_2.2.
Proof.
  split_and!; [vm_compute; reflexivity..|].
  assert (cr_deleted gone_node = true) as Hd by (vm_compute; reflexivity).
  assert (kube_view objects_3 !! "edge" = Some gone_node) as Hg by (cbn [kube_view map_kube]; apply lookup_insert_eq).
  destruct (operator_never_learns_ids (H2:=map_kube NodeSpec) plain_hmac (fun _ => true) sample_server (token_of root) "192.0.2.2:4711" (fun _ => JNull)
    to_controller ∅ objects_3 api_state world_2.2 (Kind_node _ _ _ _ _ _) eq_refl world_run "edge" gone_node Hg) as [_ Hall].
  destruct (Hall Delivered (step_env 3)) as [Hgone _]. exact (Hgone Hd).
Defined.
